(* ===== verification/_CoqProject ===== *)
-Q . S2P
Prelude.v
Interfaces.v
TfTypes.v
GoJson.v
TfKeeper.v
Bank.v
TfMsgServer.v
TfInvariants.v
TfGenesis.v
Modules.v
Gateway.v
Wiring.v
BankSpec.v
TfSpec.v
Chain.v
Liveness.v
Registry.v
Restart.v
WasmExt.v
JsonScan.v
JsonRoundtrip.v
HookJson.v
JsonAny.v
JsonMemo.v
Wire.v
WireSpec.v
WireRead.v
GogoRuntime.v
GogoWire.v
ApiState.v
ApiTx.v
ApiQuery.v
ApiWasm.v
Reflect.v
ReflectState.v
ReflectTx.v
ReflectQuery.v
ReflectWasm.v
ReflectLists.v
ReflectSpec.v
ReflectTypes.v
ApiSpec.v
GogoState.v
Store.v
StoreSpec.v
GogoTx.v
GogoQuery.v
GogoWasm.v
GogoSpec.v
Gzip.v
DescData.v
Descriptors.v
DescFiles.v
DescSpec.v
GogoDescData.v
GogoDesc.v
GogoService.v
Rest.v
WireWitnesses.v
IbcHooks.v
IbcSpec.v
IbcSend.v
Instances.v
Witnesses.v
GogoWitnesses.v
StoreWitnesses.v
IbcWitnesses.v
Ante.v
DescUse.v
DescWitnesses.v
App.v
Keepers.v
Assembly.v
AppMethods.v
Cli.v
Cmd.v
Root.v
AppWitnesses.v
ModuleWitnesses.v
AssemblyWitnesses.v
