(* ===== verification/Prelude.v ===== *)
(** * A verification of miniwasm

    miniwasm is an application chain: the Cosmos SDK with CosmWasm, an optimistic rollup
    (OPinit) and IBC, and its own code, which is what is verified here:
    - x/tokenfactory, a module in which anyone creates denoms of the form
      factory/creator/subdenom and their admin mints, burns, describes them and attaches a
      contract that is told of every send and may refuse it;
    - x/bank, the SDK's bank keeper and message server with these hooks built in;
    - app/ibc-hooks, a middleware that calls contracts when packets with a memo arrive and
      when packets that were sent with a callback are acknowledged or time out;
    - api/miniwasm and the .pb.go files of x/, the messages and services of the modules and
      their protobuf encodings, generated twice, for clients and for the chain;
    - x/wasmextension, a message that stores wasm code by authority;
    - app/ante and app/abcipp.go, the checks a transaction passes and who pays no fee;
    - app, the wiring of the keepers, the default genesis, module accounts and upgrades;
    - cmd/minitiad and x/tokenfactory/client/cli, the node's and the module's commands.

    ** How the code is modelled

    A handler is a function in a monad of state and failure ([M] below): it returns a
    value, an error or a panic, and always the state, because a Go function that fails has
    kept its writes until a caller drops them. The state ([TfKeeper.state]) is the store
    of the token factory ([TfKeeper.TfStore], four collections as maps and sets) beside
    an environment ([Interfaces.env]) with the rest of the chain, the gas meter and the
    events. Machine integers are [Z] with their bounds written where the code meets them;
    strings and byte slices are byte strings.

    Code that is not in the repository is a parameter: a type class with the functions the
    sources call (address codec, coin types, gas meter, account keeper, base bank keeper,
    contract keeper, and so on; the common ones in [Interfaces]) and, apart from it, a
    class of the laws that are relied on. The expected keepers of the token factory are
    classes too ([TfMsgServer.BankKeeper]); [Wiring] gives them the bank keeper of x/bank,
    as app/keepers does, and proves that it honours the contract the theorems on the module
    assume. A hook is a contract and a contract may send messages: in [Chain] the contract
    keeper of level n+1 runs transitions of level n, so that histories with calls back into
    the chain to any finite depth are covered; the depth is bounded in the code by gas.

    The code that puts the application together runs on a heap ([Keepers.kstate]): a Go
    object is a cell, a pointer names it, and a struct that is passed by value is a copy of
    the cell as it was then. A library constructor is a name with its arguments, a library
    method that changes an object is kept in the list of calls made on it. What is proved is
    who ends up holding what: which objects are shared, which copies are stale, which
    arguments are nil, and in what order the base application was configured.

    ** Files

    - [Prelude]: errors, panics, the monad and its rules, strings, tactics, hints.
    - [Interfaces]: the SDK as the sources see it.
    - [TfTypes]: x/tokenfactory/types: constants, errors, denoms, messages, genesis.
    - [GoJson], [JsonScan]: the writing and the reading half of encoding/json that matters
      here: escaping of strings, the scanner, members of objects, string literals, base64.
    - [JsonRoundtrip]: reading what was written; [HookJson]: the messages to hook contracts.
    - [JsonAny], [JsonMemo]: json.Unmarshal into a map[string]any and json.Marshal of it,
      with numbers as float64 (rounding, shortest decimals), and what is kept of the text.
    - [TfKeeper]: keeper/admins.go, creators.go, params.go, before_send.go. [Store]: the same
      operations on the key-value store of bytes that the collections of keeper.go share, and
      cosmossdk.io/collections as they use it; [StoreSpec]: the one refines the other.
    - [Bank]: x/bank/keeper: keeper.go and msg_server.go.
    - [TfMsgServer]: keeper/createdenom.go, bankactions.go, msg_server.go, genesis.go,
      grpc_query.go.
    - [TfInvariants]: the invariant of the module's store and its preservation.
    - [TfGenesis]: import and export of the genesis, and their round trips.
    - [Modules]: the three module.go, codec.go and autocli.go: genesis as text, and what the
      modules register. [Gateway]: x/tokenfactory/types/query.pb.gw.go, queries over HTTP.
    - [Wiring]: app/keepers/keepers.go (bank, community pool, token factory), community_pool.go.
    - [BankSpec], [TfSpec]: what the operations of the two modules do on each branch.
    - [Chain]: histories as sequences of transitions, and what holds in all of them.
    - [Liveness]: what an admin can still do in every state of every history.
    - [Registry]: an abstract registry of denoms, and the chain as its refinement.
    - [Restart]: export and import of the genesis in every state of every history.
    - [IbcHooks], [IbcSpec]: app/ibc-hooks and its properties; [IbcSend]: send.go.
    - [Wire]: what the fast-path methods of the pulsar messages are made of: sizes, a buffer
      filled from its end, varints, delimited fields, unknown fields, the loop over fields.
      [WireSpec], [WireRead]: their laws. [GogoRuntime]: sovTx, encodeVarintTx, skipTx and the
      errors of x/tokenfactory/types/tx.pb.go, of which every .pb.go file has a copy. The
      messages of x/ are modelled with these; those of api/ with any runtime that has its laws.
    - [ApiState], [ApiTx], [ApiQuery], [ApiWasm]: the 29 messages of api/miniwasm, each with
      its size, marshal and unmarshal; [ApiSpec]: the theorems on all of them.
    - [Reflect]: values and descriptors of protobuf's reflection, and the laws of its methods;
      [ReflectState], [ReflectTx], [ReflectQuery], [ReflectWasm]: Range, Has, Clear, Get, Set,
      Mutable, NewField and the getters of the same messages; [ReflectLists]: the wrappers of
      lists, as references into a message; [ReflectSpec]: the theorems; [ReflectTypes]: New,
      the message types and the tables of methods.
    - [DescData], [DescFiles]: the raw descriptors of the .pulsar.go files, their tables of
      types, init functions and builders; [Descriptors]: a reader for descriptors and what the
      init functions have in common; [DescSpec]: the theorems; [DescUse]: what the chain takes
      from descriptors, the signers of messages and the routes of queries.
    - [GogoWire]: what the methods of the gogoproto messages are made of; [GogoState], [GogoTx],
      [GogoQuery], [GogoWasm]: Size, MarshalToSizedBuffer and Unmarshal of the 29 messages of
      x/; [GogoSpec]: the theorems, against the messages of api/. [GogoService]: the clients,
      handlers and descriptions of the three services, over gRPC as a parameter with laws.
      [Gzip]: compress/gzip, the reading half;
      [GogoDescData], [GogoDesc]: what the .pb.go files register, and that it agrees with api/.
    - [Rest]: the routes that module.go registers, from the gateway to the query server.
    - [Ante]: app/ante, and the rules that app/abcipp.go sets up.
    - [WasmExt]: x/wasmextension/keeper/msg_server.go and types.
    - [App]: app/genesis.go, const.go, modules.go, app.go (module accounts), upgrades/,
      keepers/keys.go, cmd/minitiad/rollback.go.
    - [Keepers]: app/keepers/keepers.go (NewAppKeeper) and keys.go, with the constructors of
      the repository it calls. [Assembly]: NewMinitiaApp of app/app.go, the lists of
      modules.go, setupABCIPP of abcipp.go. [AppMethods]: the methods of the application in
      app.go, getter.go and encoding.go.
    - [Cli]: x/tokenfactory/client/cli/tx.go.
    - [Cmd]: cmd/minitiad/init.go, launch.go, the export of root.go, app/export.go.
    - [Root]: cmd/minitiad/root.go (the pre-run of commands, the tree of commands, the
      creation of the application) and config.go.
    - [Instances], [Witnesses], [WireWitnesses], [IbcWitnesses], [DescWitnesses],
      [GogoWitnesses], [StoreWitnesses], [AppWitnesses], [ModuleWitnesses],
      [AssemblyWitnesses]: concrete libraries with their laws, and the
      theorems applied to them.

    ** What is shown

    - Over whole histories ([Chain]): the store of the token factory stays well formed; the
      admin of a denom changes only by a message of that admin; a renounced denom stays
      renounced and its supply fixed; the supply changes only by mints and burns of the
      admin. These hold with hooks that call back and with messages that fail half way.
    - Refinement ([Registry]): every history of the chain is one of an abstract registry of
      admins, hooks, parameters and supplies, which knows nothing of contract calls, gas,
      events and errors. Its steps are labelled by the messages of the history, and what a
      step asks of the entitled account is asked of the sender of the message. Creating and
      burning are two steps there, the check and the act, because hooks may run between them.
    - The store ([StoreSpec]): the collections as bytes answer every sequence of calls as the
      maps and sets of [TfStore] do, order, errors and panics included, and hold the same.
      With it the maps and sets that all other theorems speak of are what is on disk.
    - Liveness ([Liveness]): in every state of every history the admin of a denom can take
      its hook off and hand it on or renounce it: the handlers accept these messages from it,
      do just that, and later accept them from the new admin.
    - Wiring ([Keepers], [Assembly]): there is one bank keeper, with the hooks of the token
      factory, and all who move coins point to it, so that the chain of [Wiring] is the one
      the code builds; what packets pass on each route of IBC, sent and received, given
      which argument the constructors of middlewares wrap (a parameter with laws); every
      keeper is filled but two scoped ones that nobody uses, and only the forwarding keeper
      lacks an argument; the handlers of the application share one mempool and one ante
      handler, the stores in use are mounted, the copies modules hold are current, and all
      but the streaming manager is set before the state is loaded.
    - Encodings ([ApiSpec], [HookJson]): the writers of the API, which fill a buffer
      backwards, agree with a reference encoding read from left to right; what they write
      is read back; the readers end on every input without a panic; hook contracts read the
      message the module made. Reflection ([ReflectSpec]) is type safe and consistent: Set
      takes exactly the values of the kind of a field (nil messages are), Get reads
      them back, Range shows what Has reports. A list field written through its wrapper is a finite list ([ReflectLists]).
    - Descriptors ([DescSpec], [DescUse]): each raw descriptor can be read and agrees with the
      code of its file; the fast path and the descriptor have one wire format; files are
      registered once, after the files that their descriptors import, in whatever order they
      are initialised; the signer a descriptor names is
      the account whose rights the handler goes by; the routes of the gateway are the declared
      ones.
    - Both sides ([GogoSpec], [GogoService], [GogoDesc]): what the chain writes is, byte for
      byte, what a client writes with the API, and each reads the other; bytes of a transaction
      cannot make a reader of the chain panic; a message sent with the API runs the handler
      that the theorems on the chain are about; a call through a generated client is the call
      of the server, and the services do not get in each other's way on one server; the
      compressed descriptors of x/ are those of api/.
    - Per message ([TfSpec]): who is refused, with which error and without effect; what a
      creation, a mint and a burn write, in the store and in the bank's ledger.
    - Hooks ([TfKeeper], [BankSpec]): a hook's gas is bounded and charged, whatever the store
      charges for the read of its address, its panics are caught, running out of gas
      included, its events kept only on success; a send between modules cannot be blocked, any
      other asks the blocking hooks before coins move.
    - Denoms and genesis ([TfTypes], [TfGenesis], [Modules]): composing and taking apart of denoms are
      inverse and injective; a validated genesis is imported exactly and exported again
      equal, in [Modules] as the texts that the module reads and writes. In [Restart], for
      every state of every history: the export imports back to the same parameters, denoms
      and admins; the hooks are lost, and a denom is listed under its creator in the
      spelling of the address codec, which a message may not have used.
    - Queries over HTTP ([Gateway], [Rest]): a denom that is escaped twice is found by the
      handler of its path, and through client, wire and server the answer is what the store
      has for it; escaped once it is not, since net/http decodes the path before it is
      matched. The mux, net/http and gRPC are parameters with laws.
    - IBC ([IbcSpec], [IbcSend]): which packets are left alone; in whose name and with which coins a
      contract is called; every refusal, and what has happened by then; that intermediate
      senders do not collide as long as the hash does not; that callbacks make an
      acknowledgement or a timeout fail only by a panic, out of gas for one; that a packet
      sent with a callback leaves without it, and that its acknowledgement takes the callback
      out of the table and calls it.
    - Application ([Ante], [WasmExt], [App], [AppMethods], [Cli], [Cmd], [Root]): CheckTx charges nothing and
      runs the full chain otherwise; who is exempt from fees; who may store code; the
      content of the default genesis; that module accounts are blocked; which messages the
      commands send; what init, launch, mrollback and export do; which home directory,
      keyring and configuration a command starts with; what is closed when a node stops.

    ** Fuel

    The functions with a fuel argument consume at least one byte per step and are given
    the length of their text (the format of [sprintf], the literal of a JSON string) or
    twice the length plus two (the scanner, whose nesting takes one more step per value);
    [JsonScan.scan_value_enough] proves that the scanner never runs out of it. Decimal digits
    have the binary length of the number as fuel, shortest decimals 17 digits. A varint has
    11 steps, of which the tenth ends in a value or an overflow; the loops over the fields
    and over skipped groups take one byte at least per step and have one step more than the
    buffer has bytes. In the wire format running out of fuel is a panic of its own
    ([Wire.diverges]), so that [ApiSpec.api_unmarshal_total] and
    [GogoSpec.gogo_unmarshal_total] exclude it.

    The reader of gzip has the number of bits that are left as fuel, and every symbol and
    every block takes one at least; the reader of descriptors has the number of bytes.

    ** Not modelled

    Gas charged by the stores (the theorem on the gas of hooks is for any charge on their
    reads); telemetry and logs; the SDK, wasmd, ibc-go, OPinit and
    CometBFT, whose constructors are names in [Keepers] and [Assembly]; gRPC, grpc-gateway and
    net/http, which are parameters; references of
    reflection to messages (such a value is a snapshot here) and slices that share an array;
    of the .pb.go files the getters, Reset, String and XXX methods, and the stubs for gRPC in
    api/, which repeat those of x/ on the other messages; the options that
    NewMinitiaApp casts to numbers before it starts, main.go and the
    initial client context of NewRootCmd, which are values handed to libraries;
    app/test_helpers.go and the end-to-end tests, which are not part of the program.

    What would come next: messages within messages as references in reflection, and the gas of
    the stores, for which [Store] has the reads and writes. *)

(** * Shared vocabulary

    Go errors, panics and results, the
    state-and-failure monad in which handlers are written, the parts of Go's
    [strings] and [fmt] packages the sources call, 64-bit unsigned arithmetic,
    and the lemmas, tactics and hint databases every component uses. *)
From stdpp Require Export ssreflect base gmap strings list pretty.
From Stdlib Require Export ZArith Lia Ascii.

Declare Scope go_scope.
Delimit Scope go_scope with go.
Open Scope go_scope.
Open Scope Z_scope.

(** * Errors and panics *)

(** A Go [error] value: a sentinel the repository registers with cosmossdk.io/errors,
    a sentinel registered elsewhere (known by its Go name only), an error made by
    [fmt.Errorf] or [errors.New] (a format and the rendered arguments), or an error
    wrapped with a message by [errorsmod.Wrap] or [Wrapf]. *)
Inductive goerror : Type :=
| Sentinel (codespace : string) (code : Z) (desc : string)
| ExtSentinel (name : string)
| Errorf (fmt : string) (args : list string)
| Wrapf (cause : goerror) (fmt : string) (args : list string).

(** A value a Go function panics with: the two panics of the SDK's gas meter,
    an error, or a string. *)
Inductive gopanic : Type :=
| ErrorOutOfGas (descriptor : string)
| ErrorGasOverflow (descriptor : string)
| PanicError (e : goerror)
| PanicString (s : string).

(** What a call ends with. *)
Inductive res (A : Type) : Type :=
| Ok (a : A)
| Err (e : goerror)
| Panic (p : gopanic).

Arguments Ok {A} a.
Arguments Err {A} e.
Arguments Panic {A} p.

#[export] Instance goerror_eq_dec : EqDecision goerror.
Proof. unfold EqDecision, Decision. fix IH 1. decide equality; exact (decide (_ = _)). Defined.

#[export] Instance gopanic_eq_dec : EqDecision gopanic.
Proof. solve_decision. Defined.

#[export] Instance res_eq_dec `{EqDecision A} : EqDecision (res A).
Proof. solve_decision. Defined.

Definition is_ok {A} (r : res A) : bool :=
  match r with Ok _ => true | _ => false end.

(** A validation that returns only an [error]: [None] is Go's [nil]. *)
Definition check (e : option goerror) : res unit :=
  match e with None => Ok () | Some e => Err e end.

Definition guard_err (b : bool) (e : goerror) : res unit :=
  if b then Ok () else Err e.

(** * The handler monad *)

(** A call that reads and writes a state of type [S]. The state is returned with
    every outcome, because in Go the writes made before an error or a panic stay
    in the store until a caller discards them. *)
Definition M (S A : Type) : Type := S → res A * S.

Definition ret {S A} (a : A) : M S A := λ s, (Ok a, s).
Definition fail {S A} (e : goerror) : M S A := λ s, (Err e, s).
Definition panic {S A} (p : gopanic) : M S A := λ s, (Panic p, s).
Definition lift {S A} (r : res A) : M S A := λ s, (r, s).
Definition get {S} : M S S := λ s, (Ok s, s).
Definition gets {S A} (f : S → A) : M S A := λ s, (Ok (f s), s).
Definition modify {S} (f : S → S) : M S unit := λ s, (Ok (), f s).

Definition bind {S A B} (m : M S A) (f : A → M S B) : M S B := λ s,
  match m s with
  | (Ok a, s1) => f a s1
  | (Err e, s1) => (Err e, s1)
  | (Panic p, s1) => (Panic p, s1)
  end.

(** A call whose error is taken as a value instead of being returned at once:
    [x, err := f()] followed by code that looks at [err]. Panics still escape. *)
Definition attempt {S A} (m : M S A) : M S (A + goerror) := λ s,
  match m s with
  | (Ok a, s1) => (Ok (inl a), s1)
  | (Err e, s1) => (Ok (inr e), s1)
  | (Panic p, s1) => (Panic p, s1)
  end.

(** [defer func() { if r := recover(); r != nil { err = h(r) } }()]. *)
Definition recover_with {S A} (h : gopanic → goerror) (m : M S A) : M S A := λ s,
  match m s with
  | (Panic p, s1) => (Err (h p), s1)
  | out => out
  end.

(** [defer d()]: [d] runs after [m] whatever [m] ends with. A panic of [d] replaces
    the outcome of [m]; otherwise the outcome of [m] stands. *)
Definition deferred {S A} (d : M S unit) (m : M S A) : M S A := λ s,
  let '(r, s1) := m s in
  match d s1 with
  | (Panic p, s2) => (Panic p, s2)
  | (_, s2) => (r, s2)
  end.

Notation "'let!' x := c 'in' k" := (bind c (fun x => k))
  (at level 10, x pattern, c at level 200, k at level 200) : go_scope.
Notation "c ;;; k" := (bind c (λ _, k))
  (at level 199, k at level 200, right associativity) : go_scope.

(** The same sequencing for calls that touch no state. *)
Definition rbind {A B} (m : res A) (f : A → res B) : res B :=
  match m with Ok a => f a | Err e => Err e | Panic p => Panic p end.

Notation "'let?' x := c 'in' k" := (rbind c (fun x => k))
  (at level 10, x pattern, c at level 200, k at level 200) : go_scope.

(** [for _, x := range l { body }]: each iteration may change the state, and the
    first error or panic leaves the loop. *)
Fixpoint for_each {S A} (l : list A) (body : A → M S unit) : M S unit :=
  match l with
  | [] => ret ()
  | x :: l => body x ;;; for_each l body
  end.

(** Run a call on a component of the state. *)
Definition zoom {S T A} (view : S → T) (put : T → S → S) (m : M T A) : M S A := λ s,
  let '(r, t) := m (view s) in (r, put t s).

(** * Strings *)

(** Go strings and byte slices are byte sequences. *)
Abbreviation bytes := string (only parsing).

Definition is_empty (s : string) : bool := match s with "" => true | _ => false end.

(** [strings.Split(s, sep)] for a separator of one byte. *)
Fixpoint split_on (c : ascii) (s : string) : list string :=
  match s with
  | EmptyString => [""]
  | String a s1 =>
      if decide (a = c) then "" :: split_on c s1
      else match split_on c s1 with
           | [] => [String a ""]
           | p :: ps => String a p :: ps
           end
  end.

(** [strings.Join(parts, sep)]. *)
Fixpoint join (sep : string) (parts : list string) : string :=
  match parts with
  | [] => ""
  | [p] => p
  | p :: ps => p +:+ sep +:+ join sep ps
  end.

(** [strings.HasPrefix(s, p)]. *)
Fixpoint has_prefix (p s : string) : bool :=
  match p, s with
  | EmptyString, _ => true
  | String a p, String b s => bool_decide (a = b) && has_prefix p s
  | _, _ => false
  end.

(** [strings.Contains(s, sub)]. *)
Fixpoint contains (s sub : string) : bool :=
  has_prefix sub s || match s with EmptyString => false | String _ s => contains s sub end.

(** The bytes [c] of a string, as [strings.Contains(s, string(c))] sees them. *)
Fixpoint mem_byte (c : ascii) (s : string) : bool :=
  match s with EmptyString => false | String a s => bool_decide (a = c) || mem_byte c s end.

(** [s[n:]]. *)
Fixpoint drop_bytes (n : nat) (s : string) : string :=
  match n, s with
  | O, _ => s
  | S n, String _ s => drop_bytes n s
  | S _, EmptyString => ""
  end.

(** The verb after [%]: an optional [+] flag and one letter. *)
Definition skip_verb (s : string) : string :=
  match s with
  | String "+" (String _ s) => s
  | String _ s => s
  | EmptyString => ""
  end.

(** [fmt.Sprintf] on arguments that are already rendered. [fuel] is the length of the
    format, which bounds the number of steps. *)
Fixpoint sprintf_go (fuel : nat) (fmt : string) (args : list string) : string :=
  match fuel, fmt with
  | O, _ => ""
  | _, EmptyString => ""
  | S fuel, String "%" s =>
      match args with
      | [] => String "%" (sprintf_go fuel s [])
      | a :: args => a +:+ sprintf_go fuel (skip_verb s) args
      end
  | S fuel, String c s => String c (sprintf_go fuel s args)
  end.

Definition sprintf (fmt : string) (args : list string) : string :=
  sprintf_go (String.length fmt) fmt args.

(** [err.Error()]. The text of a sentinel registered elsewhere is not in the sources;
    its name stands for it. *)
Fixpoint Error (e : goerror) : string :=
  match e with
  | Sentinel _ _ desc => desc
  | ExtSentinel name => name
  | Errorf fmt args => sprintf fmt args
  | Wrapf cause fmt args => sprintf fmt args +:+ ": " +:+ Error cause
  end.

(** [errors.Is(e, target)] for a sentinel [target]. *)
Fixpoint error_is (e : goerror) (target : goerror) : bool :=
  bool_decide (e = target) ||
  match e with Wrapf cause _ _ => error_is cause target | _ => false end.

(** * Unsigned 64-bit integers *)

Definition max_uint64 : Z := 2 ^ 64 - 1.
Definition wrap64 (z : Z) : Z := z mod 2 ^ 64.
Definition is_uint64 (z : Z) : Prop := 0 <= z <= max_uint64.

(** * Lemmas on strings *)

Create HintDb go_db.
Create Rewrite HintDb go_db.
Create HintDb go_inv.

Lemma app_cons_s a (s t : string) : String a s +:+ t = String a (s +:+ t).
Proof. done. Qed.

Lemma app_empty_s (t : string) : "" +:+ t = t.
Proof. done. Qed.

Lemma app_nil_s (s : string) : s +:+ "" = s.
Proof. induction s as [|a s IH]; [done|]. by rw app_cons_s IH. Qed.

Lemma app_assoc_s (s t u : string) : (s +:+ t) +:+ u = s +:+ t +:+ u.
Proof. induction s as [|a s IH]; [done|]. by rw !app_cons_s IH. Qed.

Lemma length_app_s (s t : string) :
  String.length (s +:+ t) = (String.length s + String.length t)%nat.
Proof. induction s as [|a s IH]; [done|]. rw app_cons_s. cbn. by rw IH. Qed.

Lemma split_on_not_nil c s : split_on c s ≠ [].
Proof.
  induction s as [|a s IH]; cbn; [done|]. case_decide; [done|].
  by destruct (split_on c s).
Qed.

Lemma join_split c s : join (String c "") (split_on c s) = s.
Proof.
  induction s as [|a s IH]; cbn; [done|].
  pose proof (split_on_not_nil c s) as Hne. case_decide as Ha.
  - destruct (split_on c s); [done|]. rw -IH. by subst.
  - destruct (split_on c s) as [|p [|q ps]]; [done|..]; cbn in *; by rw -IH.
Qed.

Lemma split_on_app c p s :
  mem_byte c p = false → split_on c (p +:+ String c s) = p :: split_on c s.
Proof.
  induction p as [|a p IH]; cbn; intros Hp.
  - rw app_empty_s. cbn. by case_decide.
  - apply orb_false_iff in Hp as [Ha%bool_decide_eq_false Hp].
    rw app_cons_s. cbn. case_decide; [done|]. by rw IH.
Qed.

Lemma split_on_none c s : mem_byte c s = false → split_on c s = [s].
Proof.
  induction s as [|a s IH]; cbn; intros Hs; [done|].
  apply orb_false_iff in Hs as [Ha%bool_decide_eq_false Hs].
  case_decide; [done|]. by rw IH.
Qed.

Lemma split_on_parts c s : Forall (λ p, mem_byte c p = false) (split_on c s).
Proof.
  induction s as [|a s IH]; cbn; [by constructor|]. case_decide as Ha.
  - by constructor.
  - destruct (split_on c s) as [|p ps]; [by repeat constructor; cbn; case_bool_decide|].
    inversion_clear IH. constructor; [|done]. cbn. by rw bool_decide_false.
Qed.

Lemma contains_byte s c : contains s (String c "") = mem_byte c s.
Proof.
  induction s as [|a s IH]; [done|]. cbn. rw IH andb_true_r. f_equal.
  apply bool_decide_ext. naive_solver.
Qed.

Lemma mem_byte_app c s t : mem_byte c (s +:+ t) = mem_byte c s || mem_byte c t.
Proof. induction s as [|a s IH]; [done|]. rw app_cons_s. cbn. by rw IH orb_assoc. Qed.

Lemma is_empty_true s : is_empty s = true ↔ s = "".
Proof. by destruct s. Qed.

Lemma is_empty_false s : is_empty s = false ↔ s ≠ "".
Proof. by destruct s. Qed.

#[export] Hint Rewrite app_nil_s app_assoc_s length_app_s contains_byte mem_byte_app : go_db.

(** * Reasoning about handlers *)

Section monad.
Context {S A B : Type}.
Implicit Types (s : S).

Lemma bind_ok_inv (m : M S A) (f : A → M S B) s b s2 :
  bind m f s = (Ok b, s2) → ∃ a s1, m s = (Ok a, s1) ∧ f a s1 = (Ok b, s2).
Proof. unfold bind. destruct (m s) as [[a|e|p] s1]; naive_solver. Qed.

Lemma bind_ok (m : M S A) (f : A → M S B) s a s1 :
  m s = (Ok a, s1) → bind m f s = f a s1.
Proof. unfold bind. by intros ->. Qed.

Lemma bind_err (m : M S A) (f : A → M S B) s e s1 :
  m s = (Err e, s1) → bind m f s = (Err e, s1).
Proof. unfold bind. by intros ->. Qed.

Lemma rbind_ok_inv (m : res A) (f : A → res B) b :
  rbind m f = Ok b → ∃ a, m = Ok a ∧ f a = Ok b.
Proof. destruct m; naive_solver. Qed.

End monad.

(** [triple P m Q E]: from a state satisfying [P], [m] ends either with a value and a
    state related by [Q], or with an error or a panic in a state satisfying [E]. *)
Definition triple {S A} (P : S → Prop) (m : M S A) (Q : A → S → Prop) (E : S → Prop) : Prop :=
  ∀ s, P s → match m s with (Ok a, s1) => Q a s1 | (_, s1) => E s1 end.

(** [m] keeps [I] whatever it ends with: also when it fails half way. *)
Definition preserves {S A} (I : S → Prop) (m : M S A) : Prop := triple I m (λ _, I) I.

Section triples.
Context {S : Type}.
Implicit Types (P E I : S → Prop).

Lemma preserves_snd {A} I (m : M S A) : preserves I m ↔ ∀ s, I s → I (m s).2.
Proof.
  unfold preserves, triple. split; intros H s Hs; specialize (H s Hs);
    by destruct (m s) as [[]].
Qed.

Lemma triple_bind {A B} P (m : M S A) (f : A → M S B) R Q E :
  triple P m R E → (∀ a, triple (R a) (f a) Q E) → triple P (bind m f) Q E.
Proof.
  intros Hm Hf s Hs. specialize (Hm s Hs). unfold bind.
  destruct (m s) as [[a|e|p] s1]; try done. by apply Hf.
Qed.

Lemma triple_ret {A} P (a : A) Q E : (∀ s, P s → Q a s) → triple P (ret a) Q E.
Proof. intros H s Hs. by apply H. Qed.

Lemma triple_lift {A} P (r : res A) Q E :
  (∀ s a, P s → r = Ok a → Q a s) → (∀ s, P s → E s) → triple P (lift r) Q E.
Proof. intros HQ HE s Hs. unfold lift. destruct r; eauto. Qed.

Lemma triple_weaken {A} P P' (m : M S A) Q Q' E E' :
  triple P m Q E → (∀ s, P' s → P s) → (∀ a s, Q a s → Q' a s) → (∀ s, E s → E' s) →
  triple P' m Q' E'.
Proof.
  intros Hm HP HQ HE s Hs. specialize (Hm s (HP _ Hs)).
  destruct (m s) as [[]]; eauto.
Qed.

Lemma preserves_bind {A B} I (m : M S A) (f : A → M S B) :
  preserves I m → (∀ a, preserves I (f a)) → preserves I (bind m f).
Proof. intros Hm Hf. by eapply triple_bind; [apply Hm|]. Qed.

Lemma preserves_ret {A} I (a : A) : preserves I (ret a).
Proof. by apply triple_ret. Qed.

Lemma preserves_fail {A} I e : preserves I (fail (A:=A) e).
Proof. by intros s Hs. Qed.

Lemma preserves_panic {A} I p : preserves I (panic (A:=A) p).
Proof. by intros s Hs. Qed.

Lemma preserves_lift {A} I (r : res A) : preserves I (lift r).
Proof. intros s Hs. by destruct r. Qed.

Lemma preserves_gets {A} I (f : S → A) : preserves I (gets f).
Proof. by intros s Hs. Qed.

Lemma preserves_modify I f : (∀ s, I s → I (f s)) → preserves I (modify f).
Proof. intros H s Hs. by apply H. Qed.

Lemma preserves_attempt {A} I (m : M S A) : preserves I m → preserves I (attempt m).
Proof.
  rw !preserves_snd. intros H s Hs. specialize (H s Hs). unfold attempt.
  by destruct (m s) as [[]].
Qed.

Lemma preserves_recover {A} I h (m : M S A) : preserves I m → preserves I (recover_with h m).
Proof.
  rw !preserves_snd. intros H s Hs. specialize (H s Hs). unfold recover_with.
  by destruct (m s) as [[]].
Qed.

Lemma preserves_deferred {A} I d (m : M S A) :
  preserves I d → preserves I m → preserves I (deferred d m).
Proof.
  rw !preserves_snd. intros Hd Hm s Hs. specialize (Hm s Hs). unfold deferred.
  destruct (m s) as [r s1]. specialize (Hd s1 Hm). by destruct (d s1) as [[]].
Qed.

Lemma preserves_if {A} I (b : bool) (m1 m2 : M S A) :
  preserves I m1 → preserves I m2 → preserves I (if b then m1 else m2).
Proof. by destruct b. Qed.

Lemma preserves_for_each {A} I (l : list A) body :
  (∀ x, x ∈ l → preserves I (body x)) → preserves I (for_each l body).
Proof.
  induction l as [|x l IH]; intros H; cbn; [by apply preserves_ret|].
  apply preserves_bind; [apply H; set_solver|]. intros _. apply IH. set_solver.
Qed.

Lemma preserves_zoom {T A} I (view : S → T) put (m : M T A) :
  (∀ s, I s → I (put (m (view s)).2 s)) → preserves I (zoom view put m).
Proof.
  rw preserves_snd. intros H s Hs. specialize (H s Hs). unfold zoom.
  by destruct (m (view s)).
Qed.

End triples.

#[export] Hint Resolve preserves_ret preserves_fail preserves_panic preserves_lift
  preserves_gets preserves_attempt preserves_recover preserves_deferred preserves_if : go_inv.
#[export] Hint Resolve preserves_bind | 2 : go_inv.

(** * Tactics *)

(** Decompose a hypothesis that says a sequence of calls ended with a value. *)
Ltac go_inv_step :=
  match goal with
  | H : bind _ _ _ = (Ok _, _) |- _ =>
      let H1 := fresh H in apply bind_ok_inv in H as (? & ? & H1 & H)
  | H : rbind _ _ = Ok _ |- _ =>
      let H1 := fresh H in apply rbind_ok_inv in H as (? & H1 & H)
  | H : ret _ _ = (Ok _, _) |- _ => unfold ret in H; simplify_eq
  | H : lift _ _ = (Ok _, _) |- _ => unfold lift in H; simplify_eq
  | H : gets _ _ = (Ok _, _) |- _ => unfold gets in H; simplify_eq
  | H : modify _ _ = (Ok _, _) |- _ => unfold modify in H; simplify_eq
  | H : fail _ _ = (Ok _, _) |- _ => discriminate H
  | H : panic _ _ = (Ok _, _) |- _ => discriminate H
  | H : guard_err ?b _ = Ok _ |- _ =>
      let E := fresh "Hguard" in destruct b eqn:E; [clear H|discriminate H]
  | H : check ?e = Ok _ |- _ =>
      let E := fresh "Hcheck" in destruct e eqn:E; [discriminate H|clear H]
  | H : Ok _ = Ok _ |- _ => injection H as H; subst
  | H : Err _ = Ok _ |- _ => discriminate H
  | H : Panic _ = Ok _ |- _ => discriminate H
  | H : (Err _, _) = (Ok _, _) |- _ => discriminate H
  | H : (Panic _, _) = (Ok _, _) |- _ => discriminate H
  end.
Ltac go_inv := repeat go_inv_step.
