(* ===== verification/Interfaces.v ===== *)
(** What the repository's code calls and does not contain, as parameters: the address
    codec, the coin and metadata types of the Cosmos SDK, its gas meter, the account
    keeper and the base bank keeper it extends, and the wasm contract keeper. Every
    class is a signature; what the code relies on is stated apart, in classes of
    sort [Prop] that only the theorems needing them assume. *)
From S2P Require Import Prelude.

(** * Data of the SDK *)

(** sdk.Coin: the amount is a big integer. *)
Record coin := Coin { coin_Denom : string; coin_Amount : Z }.

(** sdk.Coins. A nil slice and an empty one are both [[]]: the store keeps protobuf
    bytes, which do not tell them apart. *)
Abbreviation coins := (list coin).

(** banktypes.DenomUnit and banktypes.Metadata. *)
Record DenomUnit := {
  du_Denom : string;
  du_Exponent : Z;
  du_Aliases : list string
}.

Record Metadata := {
  md_Description : string;
  md_DenomUnits : list DenomUnit;
  md_Base : string;
  md_Display : string;
  md_Name : string;
  md_Symbol : string;
  md_URI : string;
  md_URIHash : string
}.

(** sdk.Event: a type and its attributes. *)
Record event := NewEvent { ev_Type : string; ev_Attributes : list (string * string) }.

(** An account, of which the sources only ask whether it is a module account. *)
Record account := Account { acc_Address : bytes; acc_IsModule : bool }.

#[export] Instance coin_eq_dec : EqDecision coin.
Proof. solve_decision. Defined.
#[export] Instance DenomUnit_eq_dec : EqDecision DenomUnit.
Proof. solve_decision. Defined.
#[export] Instance Metadata_eq_dec : EqDecision Metadata.
Proof. solve_decision. Defined.
#[export] Instance event_eq_dec : EqDecision event.
Proof. solve_decision. Defined.

(** The amount of [d] in [cs]. *)
Definition AmountOf (cs : coins) (d : string) : Z :=
  foldr (λ c n, (if decide (coin_Denom c = d) then coin_Amount c else 0) + n) 0 cs.

Lemma AmountOf_one c d : AmountOf [c] d = if decide (coin_Denom c = d) then coin_Amount c else 0.
Proof. cbn. lia. Qed.

(** * Interfaces *)

(** address.Codec, and the two bech32 functions of sdk.AccAddress. *)
Class AddressCodec := {
  StringToBytes : string → res bytes;
  BytesToString : bytes → res string;
  AccAddressFromBech32 : string → res bytes;
  AccAddress_String : bytes → string
}.

(** Documented behaviour of the bech32 codec. *)
Class AddressCodecLaws (AC : AddressCodec) : Prop := {
  (** the empty string is not an address *)
  StringToBytes_empty : ∀ b, StringToBytes "" ≠ Ok b;
  (** decoding and encoding report errors, they do not panic *)
  StringToBytes_total : ∀ s p, StringToBytes s ≠ Panic p;
  BytesToString_total : ∀ b p, BytesToString b ≠ Panic p;
  (** an address that decodes is not empty, and can be encoded to a string that decodes
      to it again *)
  StringToBytes_nonempty : ∀ s b, StringToBytes s = Ok b → b ≠ "";
  BytesToString_decoded : ∀ s b, StringToBytes s = Ok b →
    ∃ s1, BytesToString b = Ok s1 ∧ StringToBytes s1 = Ok b;
  (** an address is printable: there is no zero byte in it *)
  StringToBytes_printable : ∀ s b, StringToBytes s = Ok b → mem_byte "000" s = false
}.

(** The pure functions of cosmos-sdk/types and x/bank/types. [NewCoins] panics on an
    invalid or duplicated coin. *)
Class SdkTypes := {
  ValidateDenom : string → option goerror;
  Coin_Validate : coin → option goerror;
  Coins_Validate : coins → option goerror;
  NewCoins : coins → res coins;
  Coin_String : coin → string;
  Coins_String : coins → string;
  Int_String : Z → string;
  Metadata_Validate : Metadata → option goerror;
  Metadata_String : Metadata → string
}.

(** coin.IsValid(). *)
Definition Coin_IsValid `{SdkTypes} (c : coin) : bool := bool_decide (Coin_Validate c = None).

(** coins.IsValid(). *)
Definition Coins_IsValid `{SdkTypes} (cs : coins) : bool := bool_decide (Coins_Validate cs = None).

Class SdkTypesLaws (T : SdkTypes) : Prop := {
  (** the empty set of coins *)
  NewCoins_nil : NewCoins [] = Ok [];
  (** one valid, positive coin is a valid set of coins *)
  NewCoins_one : ∀ c, Coin_Validate c = None → coin_Amount c ≠ 0 → NewCoins [c] = Ok [c];
  (** a valid coin is not negative *)
  Coin_Validate_pos : ∀ c, Coin_Validate c = None → 0 <= coin_Amount c
}.

(** storetypes.GasMeter. *)
Class GasMeter (G : Type) := {
  NewGasMeter : Z → G;
  GasLimit : G → Z;
  GasConsumed : G → Z;
  GasRemaining : G → Z;
  GasConsumedToLimit : G → Z;
  ConsumeGas : Z → string → M G unit
}.

(** A meter that has not passed its limit. *)
Definition within_limit {G} `{GasMeter G} (g : G) : Prop := GasConsumed g <= GasLimit g.

(** Documented behaviour of a meter with a limit. *)
Class GasMeterLaws (G : Type) (GM : GasMeter G) : Prop := {
  NewGasMeter_limit : ∀ l, GasLimit (NewGasMeter l) = l;
  GasRemaining_nonneg : ∀ g, 0 <= GasRemaining g;
  GasRemaining_within : ∀ g, within_limit g → GasRemaining g = GasLimit g - GasConsumed g;
  GasConsumedToLimit_bounds : ∀ g, 0 <= GasLimit g → 0 <= GasConsumedToLimit g <= GasLimit g;
  (** gas that remains can be consumed, and is accounted for *)
  ConsumeGas_remaining : ∀ g a d, within_limit g → 0 <= a <= GasRemaining g →
    ∃ g1, ConsumeGas a d g = (Ok (), g1) ∧
      GasConsumed g1 = GasConsumed g + a ∧ GasLimit g1 = GasLimit g ∧
      GasRemaining g1 = GasRemaining g - a
}.

(** * The context of a call *)

(** What a call sees of the chain outside the token factory's own store: [world] is the
    state of every other module, [gas] and [events] belong to the context's gas meter
    and event manager. *)
Record env (W G : Type) := Env { world : W; gas : G; events : list event }.
Arguments Env {W G}.
Arguments world {W G}.
Arguments gas {W G}.
Arguments events {W G}.

(** The account keeper. [GetModuleAccount] may create the account. *)
Class AccountKeeper (W G : Type) := {
  GetModuleAddress : string → option bytes;
  GetModuleAccount : string → M (env W G) (option bytes);
  GetAccount : bytes → W → option account
}.

(** banktypes.Input and banktypes.Output have the same fields. *)
Record InputOutput := { io_Address : string; io_Coins : coins }.

(** banktypes.SendEnabled. *)
Record SendEnabledEntry := { se_Denom : string; se_Enabled : bool }.

(** banktypes.Params. *)
Record BankParams := {
  bp_SendEnabled : list SendEnabledEntry;
  bp_DefaultSendEnabled : bool
}.

(** The SDK's bank keeper (BaseKeeper), which x/bank extends. *)
Class BankBase (W G : Type) := {
  GetDenomMetaData : string → W → option Metadata;
  SetDenomMetaData : Metadata → W → W;
  HasSupply : string → W → bool;
  HasBalance : bytes → coin → W → bool;
  BlockedAddr : bytes → bool;
  MintCoins : string → coins → M (env W G) unit;
  BurnCoins : string → coins → M (env W G) unit;
  BaseSendCoins : bytes → bytes → coins → M (env W G) unit;
  InputOutputCoins : InputOutput → list InputOutput → M (env W G) unit;
  IsSendEnabledCoins : coins → W → option goerror;
  ValidateInputOutputs : InputOutput → list InputOutput → option goerror;
  BankParams_Validate : BankParams → option goerror;
  SendEnabled_Validate : SendEnabledEntry → option goerror;
  BankSetParams : BankParams → M (env W G) unit;
  SetAllSendEnabled : list SendEnabledEntry → W → W;
  DeleteSendEnabled : list string → W → W;
  BankAuthority : string
}.

(** What can be observed of the bank's ledger. *)
Class BankLedger (W : Type) := {
  Balance : bytes → string → W → Z;
  Supply : string → W → Z
}.
