(* ===== verification/TfTypes.v ===== *)
(** x/tokenfactory/types: the module's constants and errors, its denom format, its
    parameters, messages and genesis, and their validation. *)
From S2P Require Import Prelude.
From S2P Require Import Interfaces.

(** * Constants and errors *)

Definition ModuleName : string := "tokenfactory".

(** types/keys.go: the prefixes of the collections in the store of the module. *)
Definition CreatorDenomsPrefix : bytes := String "017" "".
Definition DenomAuthorityPrefix : bytes := String "018" "".
Definition DenomHookAddrPrefix : bytes := String "019" "".
Definition ParamsKeyPrefix : bytes := String "020" "".

(** types/errors.go: the sentinels registered under the module's name. *)
Definition ErrEmptySender := Sentinel ModuleName 2 "empty sender".
Definition ErrDenomExists :=
  Sentinel ModuleName 7 "attempting to create a denom that already exists (has bank metadata)".
Definition ErrUnauthorized := Sentinel ModuleName 8 "unauthorized account".
Definition ErrInvalidDenom := Sentinel ModuleName 9 "invalid denom".
Definition ErrInvalidCreator := Sentinel ModuleName 10 "invalid creator".
Definition ErrInvalidAuthorityMetadata := Sentinel ModuleName 11 "invalid authority metadata".
Definition ErrInvalidGenesis := Sentinel ModuleName 12 "invalid genesis".
Definition ErrSubdenomTooLong :=
  Sentinel ModuleName 13 "subdenom too long, max length is 44 bytes".
Definition ErrCreatorTooLong :=
  Sentinel ModuleName 14 "creator too long, max length is 75 bytes".
Definition ErrDenomDoesNotExist := Sentinel ModuleName 15 "denom does not exist".
Definition ErrBurnFromModuleAccount :=
  Sentinel ModuleName 16 "burning from Module Account is not allowed".
Definition ErrBeforeSendHookOutOfGas := Sentinel ModuleName 17 "gas meter hit maximum limit".

(** Sentinels of other codespaces the sources return. *)
Definition ErrInvalidCoins := ExtSentinel "sdkerrors.ErrInvalidCoins".
Definition ErrInvalidSigner := ExtSentinel "govtypes.ErrInvalidSigner".
Definition ErrNotFound := ExtSentinel "collections.ErrNotFound".
Definition ErrEncoding := ExtSentinel "collections.ErrEncoding".

(** types/denoms.go *)
Definition ModuleDenomPrefix : string := "factory".
Definition MaxSubdenomLength : Z := 44.
Definition MaxHrpLength : Z := 16.
Definition MaxCreatorLength : Z := 59 + MaxHrpLength.

(** types/constants.go *)
Definition BeforeSendHookGasLimit : Z := 500000.

(** types/params.go *)
Definition DefaultCreationGasFee : Z := 1000000.

(** types/events.go *)
Definition AttributeAmount : string := "amount".
Definition AttributeCreator : string := "creator".
Definition AttributeNewTokenDenom : string := "new_token_denom".
Definition AttributeMintToAddress : string := "mint_to_address".
Definition AttributeBurnFromAddress : string := "burn_from_address".
Definition AttributeDenom : string := "denom".
Definition AttributeNewAdmin : string := "new_admin".
Definition AttributeDenomMetadata : string := "denom_metadata".
Definition AttributeBeforeSendHookAddress : string := "before_send_hook_address".

(** types/msgs.go: the names of the messages, which name their events. *)
Definition TypeMsgCreateDenom : string := "create_denom".
Definition TypeMsgMint : string := "tf_mint".
Definition TypeMsgBurn : string := "tf_burn".
Definition TypeMsgChangeAdmin : string := "change_admin".
Definition TypeMsgSetDenomMetadata : string := "set_denom_metadata".
Definition TypeMsgSetBeforeSendHook : string := "set_before_send_hook".

(** len(s), in bytes. *)
Definition len (s : string) : Z := Z.of_nat (String.length s).

(** * Data *)

(** DenomAuthorityMetadata: the admin of a denom, empty when there is none. *)
Record DenomAuthorityMetadata := { Admin : string }.

#[export] Instance DenomAuthorityMetadata_eq_dec : EqDecision DenomAuthorityMetadata.
Proof. solve_decision. Defined.

Record Params := { DenomCreationFee : coins; DenomCreationGasConsume : Z }.

#[export] Instance Params_eq_dec : EqDecision Params.
Proof. solve_decision. Defined.

Record GenesisDenom := { gd_Denom : string; gd_AuthorityMetadata : DenomAuthorityMetadata }.
Record GenesisState := { gs_Params : Params; gs_FactoryDenoms : list GenesisDenom }.

Record MsgCreateDenom := { MsgCreateDenom_Sender : string; MsgCreateDenom_Subdenom : string }.
Record MsgMint := {
  MsgMint_Sender : string;
  MsgMint_Amount : coin;
  MsgMint_MintToAddress : string
}.
Record MsgBurn := { MsgBurn_Sender : string; MsgBurn_Amount : coin }.
Record MsgChangeAdmin := {
  MsgChangeAdmin_Sender : string;
  MsgChangeAdmin_Denom : string;
  MsgChangeAdmin_NewAdmin : string
}.
Record MsgSetDenomMetadata := {
  MsgSetDenomMetadata_Sender : string;
  MsgSetDenomMetadata_Metadata : Metadata
}.
Record MsgSetBeforeSendHook := {
  MsgSetBeforeSendHook_Sender : string;
  MsgSetBeforeSendHook_Denom : string;
  MsgSetBeforeSendHook_CosmwasmAddress : string
}.
Record MsgUpdateParams := {
  MsgUpdateParams_Authority : string;
  MsgUpdateParams_Params : Params
}.

(** The values a Go [any] holds where params.go inspects one. *)
Inductive any := any_Coins (c : coins) | any_uint64 (n : Z) | any_other (type_name : string).

Definition any_type (i : any) : string :=
  match i with
  | any_Coins _ => "types.Coins"
  | any_uint64 _ => "uint64"
  | any_other t => t
  end.

Section types.
Context {AC : AddressCodec} {ST : SdkTypes}.

(** * Denoms *)

Definition GetTokenDenom (creator subdenom : string) : res string :=
  if MaxSubdenomLength <? len subdenom then Err ErrSubdenomTooLong
  else if MaxCreatorLength <? len creator then Err ErrCreatorTooLong
  else if contains creator "/" then Err ErrInvalidCreator
  else
    let denom := join "/" [ModuleDenomPrefix; creator; subdenom] in
    let? _ := check (ValidateDenom denom) in
    Ok denom.

(** The wrapping of a codec error by DeconstructDenom. *)
Definition invalid_creator_address {A} (r : res A) : res A :=
  match r with
  | Err e => Err (Wrapf ErrInvalidDenom "Invalid creator address (%s)" [Error e])
  | r => r
  end.

Definition DeconstructDenom (denom : string) : res (string * string) :=
  let? _ := check (ValidateDenom denom) in
  match split_on "/" denom with
  | strParts0 :: strParts1 :: strParts2 :: rest =>
      if decide (strParts0 = ModuleDenomPrefix) then
        let creator := strParts1 in
        let? creatorAddr := invalid_creator_address (StringToBytes creator) in
        let subdenom := join "/" (strParts2 :: rest) in
        let? strAddr := invalid_creator_address (BytesToString creatorAddr) in
        Ok (strAddr, subdenom)
      else Err (Wrapf ErrInvalidDenom "denom prefix is incorrect. Is: %s.  Should be: %s"
                  [strParts0; ModuleDenomPrefix])
  | _ => Err (Wrapf ErrInvalidDenom "not enough parts of denom %s" [denom])
  end.

(** * Authority metadata *)

Definition DenomAuthorityMetadata_Validate (metadata : DenomAuthorityMetadata) : res unit :=
  if negb (is_empty (Admin metadata)) then
    let? _ := StringToBytes (Admin metadata) in Ok ()
  else Ok ().

(** * Parameters *)

Definition NewParams (denomCreationFee : coins) (denomCreationGasConsume : Z) : Params :=
  {| DenomCreationFee := denomCreationFee; DenomCreationGasConsume := denomCreationGasConsume |}.

Definition DefaultParams : res Params :=
  let? fee := NewCoins [] in
  Ok {| DenomCreationFee := fee; DenomCreationGasConsume := DefaultCreationGasFee |}.

Definition validateDenomCreationFee (i : any) : res unit :=
  match i with
  | any_Coins v =>
      match Coins_Validate v with
      | Some _ => Err (Errorf "invalid denom creation fee: %+v" [Coins_String v])
      | None => Ok ()
      end
  | _ => Err (Errorf "invalid parameter type: %T" [any_type i])
  end.

Definition validateDenomCreationGasConsume (i : any) : res unit :=
  match i with
  | any_uint64 _ => Ok ()
  | _ => Err (Errorf "invalid parameter type: %T" [any_type i])
  end.

Definition Params_Validate (p : Params) : res unit :=
  let? _ := validateDenomCreationFee (any_Coins (DenomCreationFee p)) in
  let? _ := validateDenomCreationGasConsume (any_uint64 (DenomCreationGasConsume p)) in
  Ok ().

(** * Messages *)

Definition NewMsgCreateDenom (sender subdenom : string) : MsgCreateDenom :=
  {| MsgCreateDenom_Sender := sender; MsgCreateDenom_Subdenom := subdenom |}.
Definition NewMsgMint (sender : string) (amount : coin) : MsgMint :=
  {| MsgMint_Sender := sender; MsgMint_Amount := amount; MsgMint_MintToAddress := "" |}.
Definition NewMsgMintTo (sender : string) (amount : coin) (mintToAddress : string) : MsgMint :=
  {| MsgMint_Sender := sender; MsgMint_Amount := amount; MsgMint_MintToAddress := mintToAddress |}.
Definition NewMsgBurn (sender : string) (amount : coin) : MsgBurn :=
  {| MsgBurn_Sender := sender; MsgBurn_Amount := amount |}.
Definition NewMsgChangeAdmin (sender denom newAdmin : string) : MsgChangeAdmin :=
  {| MsgChangeAdmin_Sender := sender; MsgChangeAdmin_Denom := denom;
     MsgChangeAdmin_NewAdmin := newAdmin |}.
Definition NewMsgSetDenomMetadata (sender : string) (metadata : Metadata) : MsgSetDenomMetadata :=
  {| MsgSetDenomMetadata_Sender := sender; MsgSetDenomMetadata_Metadata := metadata |}.
Definition NewMsgSetBeforeSendHook (sender denom cosmwasmAddress : string) : MsgSetBeforeSendHook :=
  {| MsgSetBeforeSendHook_Sender := sender; MsgSetBeforeSendHook_Denom := denom;
     MsgSetBeforeSendHook_CosmwasmAddress := cosmwasmAddress |}.

(** The check of the sender that opens most [Validate] methods: the address must
    decode, to a non-empty byte string. *)
Definition validate_sender (sender : string) : res unit :=
  let? addr := StringToBytes sender in
  if is_empty addr then Err ErrEmptySender else Ok ().

Definition MsgCreateDenom_Validate (m : MsgCreateDenom) : res unit :=
  let? _ := validate_sender (MsgCreateDenom_Sender m) in
  match GetTokenDenom (MsgCreateDenom_Sender m) (MsgCreateDenom_Subdenom m) with
  | Ok _ => Ok ()
  | Err _ => Err ErrInvalidDenom
  | Panic p => Panic p
  end.

(** The check of the amount that MsgMint and MsgBurn share. *)
Definition validate_amount (amount : coin) : res unit :=
  if negb (Coin_IsValid amount) || bool_decide (coin_Amount amount = 0)
  then Err (Wrapf ErrInvalidCoins "%s" [Coin_String amount])
  else Ok ().

Definition MsgMint_Validate (m : MsgMint) : res unit :=
  let? _ := validate_sender (MsgMint_Sender m) in
  validate_amount (MsgMint_Amount m).

Definition MsgBurn_Validate (m : MsgBurn) : res unit :=
  let? _ := validate_sender (MsgBurn_Sender m) in
  validate_amount (MsgBurn_Amount m).

Definition MsgChangeAdmin_Validate (m : MsgChangeAdmin) : res unit :=
  let? _ := StringToBytes (MsgChangeAdmin_Sender m) in
  let? _ :=
    (if negb (is_empty (MsgChangeAdmin_NewAdmin m)) then
       let? _ := StringToBytes (MsgChangeAdmin_NewAdmin m) in Ok ()
     else Ok ()) in
  let? _ := DeconstructDenom (MsgChangeAdmin_Denom m) in
  Ok ().

Definition MsgSetDenomMetadata_Validate (m : MsgSetDenomMetadata) : res unit :=
  let? _ := validate_sender (MsgSetDenomMetadata_Sender m) in
  let? _ := check (Metadata_Validate (MsgSetDenomMetadata_Metadata m)) in
  let? _ := DeconstructDenom (md_Base (MsgSetDenomMetadata_Metadata m)) in
  Ok ().

Definition MsgSetBeforeSendHook_Validate (m : MsgSetBeforeSendHook) : res unit :=
  let? _ := validate_sender (MsgSetBeforeSendHook_Sender m) in
  match DeconstructDenom (MsgSetBeforeSendHook_Denom m) with
  | Ok _ => Ok ()
  | Err _ => Err ErrInvalidDenom
  | Panic p => Panic p
  end.

(** * Genesis *)

Definition DefaultGenesis : res GenesisState :=
  let? p := DefaultParams in
  Ok {| gs_Params := p; gs_FactoryDenoms := [] |}.

(** The loop of GenesisState.Validate; [seenDenoms] is the map of the denoms met so far. *)
Fixpoint validate_denoms (seenDenoms : gset string) (denoms : list GenesisDenom) : res unit :=
  match denoms with
  | [] => Ok ()
  | denom :: rest =>
      if decide (gd_Denom denom ∈ seenDenoms) then
        Err (Wrapf ErrInvalidGenesis "duplicate denom: %s" [gd_Denom denom])
      else
        let? _ := DeconstructDenom (gd_Denom denom) in
        let? _ :=
          (if negb (is_empty (Admin (gd_AuthorityMetadata denom))) then
             match StringToBytes (Admin (gd_AuthorityMetadata denom)) with
             | Ok _ => Ok ()
             | Err e => Err (Wrapf ErrInvalidAuthorityMetadata "Invalid admin address (%s)" [Error e])
             | Panic p => Panic p
             end
           else Ok ()) in
        validate_denoms ({[gd_Denom denom]} ∪ seenDenoms) rest
  end.

Definition GenesisState_Validate (gs : GenesisState) : res unit :=
  let? _ := Params_Validate (gs_Params gs) in
  validate_denoms ∅ (gs_FactoryDenoms gs).

End types.

(** * Theorems *)

Section denom_facts.
Context {AC : AddressCodec} {ST : SdkTypes}.

Lemma GetTokenDenom_inv creator subdenom denom :
  GetTokenDenom creator subdenom = Ok denom →
  denom = join "/" [ModuleDenomPrefix; creator; subdenom] ∧
  ValidateDenom denom = None ∧ mem_byte "/" creator = false ∧
  len subdenom <= MaxSubdenomLength ∧ len creator <= MaxCreatorLength.
Proof.
  unfold GetTokenDenom. rw contains_byte.
  destruct (Z.ltb_spec MaxSubdenomLength (len subdenom)); [done|].
  destruct (Z.ltb_spec MaxCreatorLength (len creator)); [done|].
  destruct (mem_byte "/" creator) eqn:Hs; [done|]. intros H1. by go_inv.
Qed.

Lemma split_token_denom creator subdenom :
  mem_byte "/" creator = false →
  split_on "/" (join "/" [ModuleDenomPrefix; creator; subdenom]) =
    ModuleDenomPrefix :: creator :: split_on "/" subdenom.
Proof.
  intros Hc. cbn [join].
  change ("/" +:+ creator +:+ "/" +:+ subdenom)
    with (String "/" (creator +:+ String "/" subdenom)).
  by rw !split_on_app.
Qed.

(** The denom determines its creator and its subdenom: the text between the first two
    slashes and the text after them. *)
Lemma token_denom_inj c1 c2 s1 s2 :
  mem_byte "/" c1 = false → mem_byte "/" c2 = false →
  join "/" [ModuleDenomPrefix; c1; s1] = join "/" [ModuleDenomPrefix; c2; s2] →
  c1 = c2 ∧ s1 = s2.
Proof.
  intros H1 H2 Heq. apply (f_equal (split_on "/")) in Heq.
  rw !split_token_denom // in Heq. injection Heq as -> Hs. split; [done|].
  by rw -(join_split "/" s1) -(join_split "/" s2) Hs.
Qed.

Lemma invalid_creator_address_ok {A} (r : res A) a :
  invalid_creator_address r = Ok a → r = Ok a.
Proof. by destruct r. Qed.

Lemma DeconstructDenom_inv denom creator subdenom :
  DeconstructDenom denom = Ok (creator, subdenom) →
  ∃ raw addr,
    denom = join "/" [ModuleDenomPrefix; raw; subdenom] ∧ mem_byte "/" raw = false ∧
    ValidateDenom denom = None ∧ StringToBytes raw = Ok addr ∧ BytesToString addr = Ok creator.
Proof.
  unfold DeconstructDenom. intros H. go_inv.
  pose proof (join_split "/" denom) as Hj. pose proof (split_on_parts "/" denom) as Hp.
  destruct (split_on "/" denom) as [|p0 [|p1 [|p2 rest]]]; try done.
  case_decide as H0; [subst p0|done]. go_inv. simplify_eq.
  apply invalid_creator_address_ok in H0. apply invalid_creator_address_ok in H1.
  inversion_clear Hp as [|?? _ Hp1]. inversion_clear Hp1.
  eexists p1, _. by split_and!.
Qed.

Lemma DeconstructDenom_parts creator raw addr subdenom :
  mem_byte "/" raw = false →
  ValidateDenom (join "/" [ModuleDenomPrefix; raw; subdenom]) = None →
  StringToBytes raw = Ok addr → BytesToString addr = Ok creator →
  DeconstructDenom (join "/" [ModuleDenomPrefix; raw; subdenom]) = Ok (creator, subdenom).
Proof.
  intros Hr Hv Hs Hb. unfold DeconstructDenom. rw Hv. cbn [check rbind].
  rw split_token_denom //.
  pose proof (split_on_not_nil "/" subdenom) as Hne. pose proof (join_split "/" subdenom) as Hj.
  destruct (split_on "/" subdenom) as [|p2 rest]; [done|].
  case_decide; [|done]. rw Hs /= Hb /=. by rw -Hj.
Qed.

(** The denom GetTokenDenom builds is the one DeconstructDenom takes apart: the
    subdenom comes back byte for byte and the creator in the codec's spelling, for
    every creator that is an address. *)
Theorem DeconstructDenom_GetTokenDenom creator subdenom denom addr canonical :
  GetTokenDenom creator subdenom = Ok denom →
  StringToBytes creator = Ok addr → BytesToString addr = Ok canonical →
  DeconstructDenom denom = Ok (canonical, subdenom).
Proof.
  intros (-> & Hv & Hc & _)%GetTokenDenom_inv Hs Hb. by eapply DeconstructDenom_parts.
Qed.

(** Two creations name the same denom only when creator and subdenom both agree, so one
    creator cannot squat on another's denoms. *)
Theorem GetTokenDenom_inj c1 s1 c2 s2 denom :
  GetTokenDenom c1 s1 = Ok denom → GetTokenDenom c2 s2 = Ok denom → c1 = c2 ∧ s1 = s2.
Proof.
  intros (-> & _ & Hc1 & _)%GetTokenDenom_inv (Heq & _ & Hc2 & _)%GetTokenDenom_inv.
  by apply token_denom_inj.
Qed.

(** GetTokenDenom decides exactly by the two length limits, the slash and the SDK's
    denom syntax, in that order; and a denom it returns is at most 128 bytes long,
    the limit of the SDK, which is where the two length limits come from. *)
Theorem GetTokenDenom_spec creator subdenom :
  let denom := ModuleDenomPrefix +:+ "/" +:+ creator +:+ "/" +:+ subdenom in
  (44 < len subdenom → GetTokenDenom creator subdenom = Err ErrSubdenomTooLong) ∧
  (len subdenom <= 44 → 75 < len creator →
     GetTokenDenom creator subdenom = Err ErrCreatorTooLong) ∧
  (len subdenom <= 44 → len creator <= 75 → mem_byte "/" creator = true →
     GetTokenDenom creator subdenom = Err ErrInvalidCreator) ∧
  (len subdenom <= 44 → len creator <= 75 → mem_byte "/" creator = false →
     len denom <= 128 ∧
     GetTokenDenom creator subdenom =
       match ValidateDenom denom with None => Ok denom | Some e => Err e end).
Proof.
  cbn zeta. unfold GetTokenDenom, MaxSubdenomLength, MaxCreatorLength, MaxHrpLength.
  rw contains_byte. cbn [join].
  destruct (Z.ltb_spec 44 (len subdenom)); [split_and!; intros; first [done|lia]|].
  destruct (Z.ltb_spec (59 + 16) (len creator)); [split_and!; intros; first [done|lia]|].
  destruct (mem_byte "/" creator) eqn:Hs; split_and!; intros; try done; try lia.
  split; [|by destruct (ValidateDenom _)].
  unfold len in *. rw !length_app_s. cbn. lia.
Qed.

(** ** Genesis *)

(** What GenesisState.Validate asks of one denom. *)
Definition valid_genesis_denom (d : GenesisDenom) : Prop :=
  (∃ p, DeconstructDenom (gd_Denom d) = Ok p) ∧
  (Admin (gd_AuthorityMetadata d) = "" ∨
   ∃ b, StringToBytes (Admin (gd_AuthorityMetadata d)) = Ok b).

Lemma validate_denoms_spec seen ds :
  validate_denoms seen ds = Ok () ↔
  NoDup (gd_Denom <$> ds) ∧ Forall (λ d, gd_Denom d ∉ seen) ds ∧ Forall valid_genesis_denom ds.
Proof.
  revert seen. induction ds as [|d ds IH]; intros seen; cbn.
  { split; [|done]. intros _. split_and!; constructor. }
  rw NoDup_cons !Forall_cons. case_decide as Hin; [naive_solver|].
  unfold valid_genesis_denom at 1.
  destruct (DeconstructDenom (gd_Denom d)) as [p|e|p] eqn:Hd; cbn; [|naive_solver..].
  assert (Hadm : ∀ (r : res unit),
    rbind (if negb (is_empty (Admin (gd_AuthorityMetadata d))) then
      match StringToBytes (Admin (gd_AuthorityMetadata d)) with
      | Ok _ => Ok ()
      | Err e => Err (Wrapf ErrInvalidAuthorityMetadata "Invalid admin address (%s)" [Error e])
      | Panic p0 => Panic p0
      end else Ok ()) (λ _, r) = Ok () ↔
    r = Ok () ∧ (Admin (gd_AuthorityMetadata d) = "" ∨
      ∃ b, StringToBytes (Admin (gd_AuthorityMetadata d)) = Ok b)).
  { intros r. destruct (is_empty _) eqn:He; cbn.
    - apply is_empty_true in He. naive_solver.
    - apply is_empty_false in He. destruct (StringToBytes _) eqn:Hb; cbn; naive_solver. }
  rw Hadm IH. rw !Forall_forall list_elem_of_fmap. set_solver.
Qed.

Lemma valid_genesis_iff gs :
  GenesisState_Validate gs = Ok () ↔
  Coins_Validate (DenomCreationFee (gs_Params gs)) = None ∧
  NoDup (gd_Denom <$> gs_FactoryDenoms gs) ∧
  Forall valid_genesis_denom (gs_FactoryDenoms gs).
Proof.
  unfold GenesisState_Validate, Params_Validate, validateDenomCreationFee.
  destruct (Coins_Validate _); cbn; [naive_solver|]. rw validate_denoms_spec.
  split; [naive_solver|]. intros (_ & ? & ?). split_and!; [done| |done].
  apply Forall_forall. set_solver.
Qed.

(** Genesis validation accepts exactly the genesis states with valid parameters, no
    denom listed twice, every denom of the form factory/address/subdenom, and every
    admin either empty or an address. *)
Theorem GenesisState_Validate_spec gs :
  GenesisState_Validate gs = Ok () ↔
  Coins_Validate (DenomCreationFee (gs_Params gs)) = None ∧
  NoDup (gd_Denom <$> gs_FactoryDenoms gs) ∧
  Forall valid_genesis_denom (gs_FactoryDenoms gs).
Proof. apply valid_genesis_iff. Qed.

End denom_facts.
