(* ===== verification/GoJson.v ===== *)
(** The part of Go's encoding/json that builds the messages sent to contracts:
    encoding of strings (with the default HTML escaping and the replacement of invalid
    UTF-8) and of structs whose fields are strings or such structs. *)
From S2P Require Import Prelude.

(** * Bytes and UTF-8 *)

Definition byte_Z (a : ascii) : Z := Z.of_N (N_of_ascii a).

Definition in_range (lo hi : Z) (a : ascii) : bool := (lo <=? byte_Z a) && (byte_Z a <=? hi).

(** A continuation byte. *)
Definition is_cont : ascii → bool := in_range 128 191.

(** The second byte of a rune of three bytes, and of one of four, after its first byte. *)
Definition second_of_3 (b0 b1 : ascii) : bool :=
  if in_range 224 224 b0 then in_range 160 191 b1
  else if in_range 237 237 b0 then in_range 128 159 b1
  else in_range 225 239 b0 && is_cont b1.

Definition second_of_4 (b0 b1 : ascii) : bool :=
  if in_range 240 240 b0 then in_range 144 191 b1
  else if in_range 244 244 b0 then in_range 128 143 b1
  else in_range 241 243 b0 && is_cont b1.

(** The rest of a rune after its first byte [b0]: [Some n] when the first [n] bytes of
    [s] complete a valid encoding, [None] when Go's decoder answers RuneError. *)
Definition utf8_tail (b0 : ascii) (s : string) : option nat :=
  match s with
  | String b1 s1 =>
      if in_range 194 223 b0 then (if is_cont b1 then Some 1%nat else None)
      else
        match s1 with
        | String b2 s2 =>
            if second_of_3 b0 b1 && is_cont b2 then Some 2%nat
            else if second_of_4 b0 b1 && is_cont b2 then
              match s2 with
              | String b3 _ => if is_cont b3 then Some 3%nat else None
              | EmptyString => None
              end
            else None
        | EmptyString => None
        end
  | EmptyString => None
  end.

(** utf8.ValidString; the length of the string bounds the number of its runes. *)
Fixpoint valid_utf8_in (fuel : nat) (s : string) : bool :=
  match fuel, s with
  | _, EmptyString => true
  | S fuel, String b0 s1 =>
      if byte_Z b0 <? 128 then valid_utf8_in fuel s1
      else match utf8_tail b0 s1 with
           | Some n => valid_utf8_in fuel (drop_bytes n s1)
           | None => false
           end
  | O, String _ _ => false
  end.

Definition valid_utf8 (s : string) : bool := valid_utf8_in (String.length s) s.

(** * Strings *)

Definition hex_digit (n : Z) : ascii := ascii_of_N (Z.to_N (if n <? 10 then 48 + n else 87 + n)).

(** A byte below 0x80. *)
Definition json_escape_ascii (a : ascii) : string :=
  let b := byte_Z a in
  if (b =? 34) || (b =? 92) then String "\" (String a "")
  else if b =? 8 then "\b"
  else if b =? 12 then "\f"
  else if b =? 10 then "\n"
  else if b =? 13 then "\r"
  else if b =? 9 then "\t"
  else if (b <? 32) || (b =? 60) || (b =? 62) || (b =? 38)
  then "\u00" +:+ String (hex_digit (b / 16)) (String (hex_digit (b mod 16)) "")
  else String a "".

(** U+2028 and U+2029 are escaped: the bytes E2 80 A8 and E2 80 A9. *)
Definition is_line_sep (b0 : ascii) (s : string) : option string :=
  if in_range 226 226 b0 then
    match s with
    | String b1 (String b2 _) =>
        if in_range 128 128 b1 && in_range 168 169 b2
        then Some (if in_range 168 168 b2 then "\u2028" else "\u2029") else None
    | _ => None
    end
  else None.

Fixpoint take_bytes (n : nat) (s : string) : string :=
  match n, s with
  | S n, String a s => String a (take_bytes n s)
  | _, _ => ""
  end.

(** The loop of appendString. Each step consumes at least one byte, so the length of the
    string is enough fuel. *)
Fixpoint json_escape (fuel : nat) (s : string) : string :=
  match fuel, s with
  | O, _ => ""
  | _, EmptyString => ""
  | S fuel, String b0 s1 =>
      if byte_Z b0 <? 128 then json_escape_ascii b0 +:+ json_escape fuel s1
      else match utf8_tail b0 s1 with
           | None => "\ufffd" +:+ json_escape fuel s1
           | Some n =>
               match is_line_sep b0 s1 with
               | Some esc => esc +:+ json_escape fuel (drop_bytes n s1)
               | None => String b0 (take_bytes n s1) +:+ json_escape fuel (drop_bytes n s1)
               end
           end
  end.

Definition quote : string := String (ascii_of_N 34) "".

Definition json_string (s : string) : string :=
  quote +:+ json_escape (String.length s) s +:+ quote.

(** * Structs *)

(** The text of an object, given the keys and the texts of the values, and of an array. *)
Definition member_text (e : string * string) : string := json_string e.1 +:+ ":" +:+ e.2.
Definition object_text (l : list (string * string)) : string := "{" +:+ join "," (member_text <$> l) +:+ "}".
Definition array_text (l : list string) : string := "[" +:+ join "," l +:+ "]".

(** A JSON value made of strings and structs, fields in declaration order. *)
Inductive jval := JString (s : string) | JStruct (fields : list (string * jval)).

Fixpoint json_marshal (v : jval) : string :=
  match v with
  | JString s => json_string s
  | JStruct fields => object_text (map (λ f, (f.1, json_marshal f.2)) fields)
  end.
