(* ===== verification/TfKeeper.v ===== *)
(** x/tokenfactory/keeper: the module's store and the operations on it that need no other
    module (admins.go, creators.go, params.go), and the before-send hooks
    (before_send.go), which call contracts through the wasm keeper. *)
From S2P Require Import Prelude.
From S2P Require Import Interfaces.
From S2P Require Import TfTypes.
From S2P Require Import GoJson.

(** * State *)

(** The collections of keeper.go. *)
Record TfStore := {
  CreatorDenoms : gset (string * string);
  DenomAuthority : gmap string DenomAuthorityMetadata;
  DenomHookAddr : gmap string string;
  ParamsItem : option Params
}.

(** The store when the chain starts. *)
Definition empty_store : TfStore :=
  {| CreatorDenoms := ∅; DenomAuthority := ∅; DenomHookAddr := ∅; ParamsItem := None |}.

Definition set_CreatorDenoms (v : gset (string * string)) (t : TfStore) : TfStore :=
  {| CreatorDenoms := v; DenomAuthority := DenomAuthority t;
     DenomHookAddr := DenomHookAddr t; ParamsItem := ParamsItem t |}.
Definition set_DenomAuthority (v : gmap string DenomAuthorityMetadata) (t : TfStore) : TfStore :=
  {| CreatorDenoms := CreatorDenoms t; DenomAuthority := v;
     DenomHookAddr := DenomHookAddr t; ParamsItem := ParamsItem t |}.
Definition set_DenomHookAddr (v : gmap string string) (t : TfStore) : TfStore :=
  {| CreatorDenoms := CreatorDenoms t; DenomAuthority := DenomAuthority t;
     DenomHookAddr := v; ParamsItem := ParamsItem t |}.
Definition set_ParamsItem (v : option Params) (t : TfStore) : TfStore :=
  {| CreatorDenoms := CreatorDenoms t; DenomAuthority := DenomAuthority t;
     DenomHookAddr := DenomHookAddr t; ParamsItem := v |}.

(** The state a handler works on: the module's store and everything else. *)
Record state (W G : Type) := State { tf : TfStore; ext : env W G }.
Arguments State {W G}.
Arguments tf {W G}.
Arguments ext {W G}.

Section state_ops.
Context {W G : Type}.
Implicit Types (s : state W G).

Definition on_tf (f : TfStore → TfStore) s : state W G := State (f (tf s)) (ext s).
Definition put_ext (e : env W G) s : state W G := State (tf s) e.
Definition put_gas (g : G) s : state W G :=
  State (tf s) (Env (world (ext s)) g (events (ext s))).
Definition put_events (l : list event) s : state W G :=
  State (tf s) (Env (world (ext s)) (gas (ext s)) l).

(** Run a call of another module. It cannot reach the token factory's store, whose key
    only this module holds. *)
Definition in_ext {A} (m : M (env W G) A) : M (state W G) A := zoom ext put_ext m.

(** Read or change another module's state without gas or events. *)
Definition read_world {A} (f : W → A) : M (state W G) A := gets (λ s, f (world (ext s))).
Definition write_world (f : W → W) : M (state W G) unit :=
  modify (λ s, put_ext (Env (f (world (ext s))) (gas (ext s)) (events (ext s))) s).

(** ctx.EventManager().EmitEvents(evs) *)
Definition EmitEvents (evs : list event) : M (state W G) unit :=
  modify (λ s, put_events (events (ext s) ++ evs) s).

(** ctx.CacheContext() with the write function dropped: the call runs on a branch of the
    store with an event manager of its own; only the gas it used remains. *)
Definition discarded {A} (m : M (state W G) A) : M (state W G) A := λ s,
  let '(r, s1) := m (put_events [] s) in (r, put_gas (gas (ext s1)) s).

End state_ops.

(** types.ContractKeeper. A contract may call back into any module, so it is given the
    whole state. *)
Class ContractKeeper (W G : Type) := Sudo : bytes → string → M (state W G) string.

(** collections.KeySet.Walk: the keys in the order of the store. *)
Class KeyWalk := walk : gset (string * string) → list (string * string).
Class KeyWalkLaws (KW : KeyWalk) : Prop := walk_elements : ∀ k, walk k ≡ₚ elements k.

(** * The store *)

Section keeper.
Context {W G : Type} {AC : AddressCodec} {ST : SdkTypes} {GM : GasMeter G}.
Context {CK : ContractKeeper W G} {KW : KeyWalk}.

Definition GetAuthorityMetadata (denom : string) : M (state W G) DenomAuthorityMetadata := λ s,
  match DenomAuthority (tf s) !! denom with
  | Some m => (Ok m, s)
  | None => (Err ErrNotFound, s)
  end.

Definition setAuthorityMetadata (denom : string) (metadata : DenomAuthorityMetadata) :
    M (state W G) unit :=
  lift (DenomAuthorityMetadata_Validate metadata) ;;;
  modify (on_tf (λ t, set_DenomAuthority (<[denom := metadata]> (DenomAuthority t)) t)).

Definition setAdmin (denom admin : string) : M (state W G) unit :=
  let! metadata := GetAuthorityMetadata denom in
  let metadata := {| Admin := admin |} in
  setAuthorityMetadata denom metadata.

(** A zero byte ends the first string of a key, so that a creator with one in it has no key. *)
Definition addDenomFromCreator (creator denom : string) : M (state W G) unit :=
  if mem_byte "000" creator then fail ErrEncoding else
  modify (on_tf (λ t, set_CreatorDenoms ({[(creator, denom)]} ∪ CreatorDenoms t) t)).

(** The walk over the keys whose first component is [creator]; its error is a panic. *)
Definition getDenomsFromCreator (creator : string) : M (state W G) (list string) :=
  if mem_byte "000" creator then panic (PanicError ErrEncoding) else
  gets (λ s, snd <$> filter (λ k, k.1 = creator) (walk (CreatorDenoms (tf s)))).

Definition GetParams : M (state W G) Params :=
  gets (λ s, match ParamsItem (tf s) with
             | Some params => params
             | None => {| DenomCreationFee := []; DenomCreationGasConsume := 0 |}
             end).

Definition SetParams (params : Params) : M (state W G) unit :=
  modify (on_tf (set_ParamsItem (Some params))).

(** * Before-send hooks *)

(** wasmvmtypes.Coin, TrackBeforeSendMsg and BlockBeforeSendMsg. *)
Record WasmCoin := { wc_Denom : string; wc_Amount : string }.
Record BeforeSendMsg := { bs_From : string; bs_To : string; bs_Amount : WasmCoin }.

(** TrackBeforeSendSudoMsg and BlockBeforeSendSudoMsg. *)
Inductive BeforeSendSudoMsg :=
| TrackBeforeSendSudoMsg (m : BeforeSendMsg)
| BlockBeforeSendSudoMsg (m : BeforeSendMsg).

Definition BeforeSendMsg_json (m : BeforeSendMsg) : jval :=
  JStruct [("from", JString (bs_From m)); ("to", JString (bs_To m));
           ("amount", JStruct [("denom", JString (wc_Denom (bs_Amount m)));
                               ("amount", JString (wc_Amount (bs_Amount m)))])].

(** json.Marshal(msg): the two wrappers differ by the name of their only field. *)
Definition marshal_sudo (m : BeforeSendSudoMsg) : string :=
  json_marshal match m with
  | TrackBeforeSendSudoMsg m => JStruct [("track_before_send", BeforeSendMsg_json m)]
  | BlockBeforeSendSudoMsg m => JStruct [("block_before_send", BeforeSendMsg_json m)]
  end.

(** The empty message setBeforeSendHook tries the contract with. *)
Definition tempMsg : BeforeSendSudoMsg :=
  TrackBeforeSendSudoMsg
    {| bs_From := ""; bs_To := ""; bs_Amount := {| wc_Denom := ""; wc_Amount := "" |} |}.

Definition setBeforeSendHook (denom cosmwasmAddress : string) : M (state W G) unit :=
  lift (DeconstructDenom denom) ;;;
  if is_empty cosmwasmAddress then
    modify (on_tf (λ t, set_DenomHookAddr (delete denom (DenomHookAddr t)) t))
  else
    let! cwAddr := lift (AccAddressFromBech32 cosmwasmAddress) in
    let msgBz := marshal_sudo tempMsg in
    let! r := attempt (discarded (Sudo cwAddr msgBz)) in
    match r with
    | inr err =>
        if contains (Error err) "no such contract" then fail err else ret ()
    | inl _ => ret ()
    end ;;;
    lift (StringToBytes cosmwasmAddress) ;;;
    modify (on_tf (λ t, set_DenomHookAddr (<[denom := cosmwasmAddress]> (DenomHookAddr t)) t)).

Definition GetBeforeSendHook (denom : string) : M (state W G) string :=
  gets (λ s, match DenomHookAddr (tf s) !! denom with
             | Some wasmAddr => wasmAddr
             | None => ""
             end).

(** The contract runs on the caller's store with a gas meter and an event manager of its
    own. Whatever it ends with, the gas it used, up to its limit, is consumed from the
    caller's meter; its events are kept only when it succeeds. *)
Definition safeSudo (cwAddr : bytes) (msgBz denom : string) : M (state W G) unit := λ s,
  let sdkGas := gas (ext s) in
  let sdkEvents := events (ext s) in
  let gasLimit := Z.min (GasRemaining sdkGas) BeforeSendHookGasLimit in
  let '(r, s1) := Sudo cwAddr msgBz (put_events [] (put_gas (NewGasMeter gasLimit) s)) in
  let childGas := gas (ext s1) in
  let childEvents := events (ext s1) in
  (* the caller's context again, on the store the contract left *)
  let s2 := put_events sdkEvents (put_gas sdkGas s1) in
  deferred
    (zoom (λ s, gas (ext s)) put_gas
       (ConsumeGas (GasConsumedToLimit childGas) "track before send gas"))
    (match r with
     | Ok _ => EmitEvents childEvents
     | Err err => fail (Wrapf err "failed to call before send hook for denom %s" [denom])
     | Panic p => panic p
     end) s2.

(** What the deferred function of callBeforeSendListener makes of a panic. *)
Definition recovered (r : gopanic) : goerror :=
  match r with
  | ErrorOutOfGas _ => ErrBeforeSendHookOutOfGas
  | _ => Errorf "panic in callBeforeSendListener occurred" []
  end.

(** The listener is written over the function it reads the hook of a denom with: the read of the
    store is charged to the caller's meter, by the store and at its own prices. *)
Section reading.
Context (read : string → M (state W G) string).

(** The body of the loop over the coins. *)
Definition call_listener_reading (fromAddr toAddr : string) (blockBeforeSend : bool) (c : coin) :
    M (state W G) unit :=
  let! cosmwasmAddress := read (coin_Denom c) in
  if negb (is_empty cosmwasmAddress) then
    let! cwAddr := lift (StringToBytes cosmwasmAddress) in
    let msg := {| bs_From := fromAddr; bs_To := toAddr;
                  bs_Amount := {| wc_Denom := coin_Denom c;
                                  wc_Amount := Int_String (coin_Amount c) |} |} in
    let msgBz := marshal_sudo (if blockBeforeSend then BlockBeforeSendSudoMsg msg
                               else TrackBeforeSendSudoMsg msg) in
    safeSudo cwAddr msgBz (coin_Denom c)
  else ret ().

Definition callBeforeSendListener_reading (from to : bytes) (amount : coins)
    (blockBeforeSend : bool) : M (state W G) unit :=
  recover_with recovered (
    let! fromAddr := lift (BytesToString from) in
    let! toAddr := lift (BytesToString to) in
    for_each amount (call_listener_reading fromAddr toAddr blockBeforeSend)).

End reading.

(** Elsewhere in this development the read costs nothing. *)
Definition call_listener : string → string → bool → coin → M (state W G) unit :=
  call_listener_reading GetBeforeSendHook.
Definition callBeforeSendListener : bytes → bytes → coins → bool → M (state W G) unit :=
  callBeforeSendListener_reading GetBeforeSendHook.

(** The hooks given to the bank keeper: tracking suppresses the listener's error. *)
Definition Hooks_TrackBeforeSend (from to : bytes) (amount : coins) : M (state W G) unit :=
  attempt (callBeforeSendListener from to amount false) ;;; ret ().

Definition Hooks_BlockBeforeSend (from to : bytes) (amount : coins) : M (state W G) unit :=
  callBeforeSendListener from to amount true.

End keeper.

(** * Theorems *)

(** A contract call cannot change the limit of the gas meter it is given. *)
Class ContractGasLaws {W G : Type} {GM : GasMeter G} (CK : ContractKeeper W G) : Prop :=
  Sudo_limit : ∀ addr msg s,
    GasLimit (gas (ext (Sudo addr msg s).2)) = GasLimit (gas (ext s)).

Section hook_facts.
Context {W G : Type} {AC : AddressCodec} {ST : SdkTypes} {GM : GasMeter G}.
Context {CK : ContractKeeper W G}.
Context {GML : GasMeterLaws G GM} {CGL : ContractGasLaws CK}.
Implicit Types (s : state W G).

(** Gas used between two states of one context: within what remained, and at most [k]. *)
Definition gas_used_at_most (k : Z) (s1 s2 : state W G) : Prop :=
  let g1 := gas (ext s1) in
  let g2 := gas (ext s2) in
  GasConsumed g1 <= GasConsumed g2 ∧
  GasConsumed g2 - GasConsumed g1 <= Z.min k (GasRemaining g1) ∧
  GasRemaining g2 = GasRemaining g1 - (GasConsumed g2 - GasConsumed g1) ∧
  GasLimit g2 = GasLimit g1.

Lemma gas_used_refl k s : 0 <= k → gas_used_at_most k s s.
Proof.
  intros Hk. pose proof (GasRemaining_nonneg (gas (ext s))). unfold gas_used_at_most. lia.
Qed.

Lemma gas_used_trans k1 k2 s1 s2 s3 :
  gas_used_at_most k1 s1 s2 → gas_used_at_most k2 s2 s3 → gas_used_at_most (k1 + k2) s1 s3.
Proof. unfold gas_used_at_most. lia. Qed.

Lemma gas_used_within k s1 s2 :
  within_limit (gas (ext s1)) → gas_used_at_most k s1 s2 → within_limit (gas (ext s2)).
Proof.
  intros Hw. pose proof (GasRemaining_within _ Hw). unfold within_limit, gas_used_at_most in *. lia.
Qed.

Lemma gas_used_weaken k1 k2 s1 s2 :
  k1 <= k2 → gas_used_at_most k1 s1 s2 → gas_used_at_most k2 s1 s2.
Proof. unfold gas_used_at_most. lia. Qed.

(** The outcome of safeSudo is that of the contract call: the deferred consumption never
    replaces it by a panic, because the child's limit is what the caller has left. *)
Lemma safeSudo_out addr msg denom s r s1 :
  within_limit (gas (ext s)) →
  Sudo addr msg (put_events [] (put_gas
    (NewGasMeter (Z.min (GasRemaining (gas (ext s))) BeforeSendHookGasLimit)) s)) = (r, s1) →
  ∃ g, (safeSudo addr msg denom s).1 =
         match r with
         | Ok _ => Ok ()
         | Err e => Err (Wrapf e "failed to call before send hook for denom %s" [denom])
         | Panic p => Panic p
         end ∧
    (safeSudo addr msg denom s).2 =
      put_gas g (put_events
        (events (ext s) ++ if r is Ok _ then events (ext s1) else []) s1) ∧
    gas_used_at_most BeforeSendHookGasLimit s (safeSudo addr msg denom s).2.
Proof.
  intros Hw Hs. unfold safeSudo. rw Hs.
  pose proof (Sudo_limit addr msg (put_events [] (put_gas
    (NewGasMeter (Z.min (GasRemaining (gas (ext s))) BeforeSendHookGasLimit)) s))) as Hl.
  rw Hs NewGasMeter_limit /= in Hl.
  pose proof (GasRemaining_nonneg (gas (ext s))) as Hr.
  assert (0 <= BeforeSendHookGasLimit) as Hb by done.
  destruct (GasConsumedToLimit_bounds (gas (ext s1))) as [H1 H2]; [lia|].
  rw Hl in H2.
  destruct (ConsumeGas_remaining (gas (ext s)) (GasConsumedToLimit (gas (ext s1)))
    "track before send gas") as (g & Hc & Hg1 & Hg2 & Hg3); [done|lia|].
  exists g. unfold deferred.
  destruct r as [x|e|p]; cbn; unfold zoom; cbn; rw Hc; cbn;
    (split_and!; [done|try done|..]; unfold gas_used_at_most; cbn; try lia);
    by rw app_nil_r.
Qed.

(** A read of the store answers what [GetBeforeSendHook] does and is charged at most [cost] to
    the caller's meter, with a panic if that passes the limit; it changes nothing else. *)
Definition charged_read (cost : Z) (read : string → M (state W G) string) : Prop :=
  ∀ d s, within_limit (gas (ext s)) →
  ∃ g, (read d s).2 = put_gas g s ∧ GasLimit g = GasLimit (gas (ext s)) ∧
    GasConsumed (gas (ext s)) <= GasConsumed g <= GasConsumed (gas (ext s)) + cost ∧
    (within_limit g ∧ (read d s).1 = (GetBeforeSendHook d s).1 ∨
     ∃ desc, (read d s).1 = Panic (ErrorOutOfGas desc)).

(** At most [k] more gas than before, on a meter with the same limit. *)
Definition charged (k : Z) s1 s2 : Prop :=
  GasConsumed (gas (ext s1)) <= GasConsumed (gas (ext s2)) <= GasConsumed (gas (ext s1)) + k ∧
  GasLimit (gas (ext s2)) = GasLimit (gas (ext s1)).

(** Within the limit, or ended by a panic for want of gas. *)
Definition in_bounds {A : Type} (r : res A) s : Prop :=
  within_limit (gas (ext s)) ∨ ∃ desc, r = Panic (ErrorOutOfGas desc).

Section charged.
Context (cost : Z) (read : string → M (state W G) string).
Context (Hcost : 0 <= cost) (Hread : charged_read cost read).

Lemma call_listener_charged f t b c s :
  within_limit (gas (ext s)) →
  let '(r, s1) := call_listener_reading read f t b c s in
  charged (cost + BeforeSendHookGasLimit) s s1 ∧ in_bounds r s1.
Proof.
  intros Hw. unfold call_listener_reading, bind, charged, in_bounds.
  destruct (Hread (coin_Denom c) s Hw) as (g & Hs & Hl & Hg & Hr).
  destruct (read (coin_Denom c) s) as [r s1]. cbn in Hs, Hr. subst s1.
  assert (0 <= BeforeSendHookGasLimit) by done.
  destruct Hr as [[Hg1 ->]|[desc ->]]; cbn; [|split; [lia|eauto]].
  destruct (negb _); [|by cbn; split; [lia|left]]. unfold lift.
  destruct (StringToBytes _) as [cw| |]; [|by cbn; split; [lia|left]..].
  match goal with |- context [safeSudo ?a ?m ?d ?x] =>
    destruct (Sudo a m (put_events [] (put_gas (NewGasMeter
      (Z.min (GasRemaining (gas (ext x))) BeforeSendHookGasLimit)) x))) as [r2 s2] eqn:Hs;
    destruct (safeSudo_out a m d x _ _ Hg1 Hs) as (g2 & _ & _ & Hu);
    pose proof (gas_used_within _ x _ Hg1 Hu) as Hw1; destruct (safeSudo a m d x) as [r3 s3]
  end.
  unfold gas_used_at_most in Hu. cbn in Hu, Hw1. split; [lia|by left].
Qed.

Lemma listeners_charged f t b cs s :
  within_limit (gas (ext s)) →
  let '(r, s1) := for_each cs (call_listener_reading read f t b) s in
  charged (Z.of_nat (length cs) * (cost + BeforeSendHookGasLimit)) s s1 ∧ in_bounds r s1.
Proof.
  assert (0 <= BeforeSendHookGasLimit) by done.
  revert s. induction cs as [|c cs IH]; intros s Hw; cbn [for_each].
  { by split; [split; lia|left]. }
  pose proof (call_listener_charged f t b c s Hw) as Hc. unfold bind.
  destruct (call_listener_reading read f t b c s) as [[x|e|p] s1]; destruct Hc as [Hc Hb].
  - destruct Hb as [Hb|[desc Hb]]; [|done]. specialize (IH s1 Hb).
    destruct (for_each cs _ s1) as [r2 s2]. destruct IH as [IH Hb2]. split; [|done].
    unfold charged in *. cbn [length]. lia.
  - split; [|done]. unfold charged in *. cbn [length]. nia.
  - split; [|by destruct Hb as [Hb|[desc [= ->]]]; [left|right; eauto]].
    unfold charged in *. cbn [length]. nia.
Qed.

(** C32. Before-send listeners are contained. A call never panics, whatever the contracts do and
    also when it runs out of gas, which the comment at the function says makes it panic: the
    deferred function turns it into an error. The contracts use at most BeforeSendHookGasLimit
    gas per coin and never push the caller's meter over its limit; the reads of their addresses,
    each of them charged by the store with up to [cost], may, and then the result is the error
    for want of gas. The theorem is for every way of charging the reads; [callBeforeSendListener]
    is the case in which they are free. *)
Theorem callBeforeSendListener_contained from to cs b s r s1 :
  within_limit (gas (ext s)) →
  callBeforeSendListener_reading read from to cs b s = (r, s1) →
  (∀ p, r ≠ Panic p) ∧
  charged (Z.of_nat (length cs) * (cost + BeforeSendHookGasLimit)) s s1 ∧
  (within_limit (gas (ext s1)) ∨ r = Err ErrBeforeSendHookOutOfGas).
Proof.
  intros Hw H. unfold callBeforeSendListener_reading, recover_with, bind, lift in H.
  assert (0 <= BeforeSendHookGasLimit) as Hb by done.
  assert (charged (Z.of_nat (length cs) * (cost + BeforeSendHookGasLimit)) s s) by (split; lia).
  destruct (BytesToString from) as [f| |]; simplify_eq; [|by auto..].
  destruct (BytesToString to) as [t| |]; simplify_eq; [|by auto..].
  pose proof (listeners_charged f t b cs s Hw) as Hg.
  destruct (for_each _ _ _) as [[x|e|p] s2]; simplify_eq; destruct Hg as [Hg [Hi|[desc Hi]]];
    simplify_eq; auto.
Qed.
End charged.

Lemma listener_no_panic from to cs b s p :
  (callBeforeSendListener from to cs b s).1 ≠ Panic p.
Proof.
  unfold callBeforeSendListener, callBeforeSendListener_reading, recover_with.
  by match goal with |- context [bind ?m ?f ?x] => destruct (bind m f x) as [[]] end.
Qed.

(** A contract's error reaches the caller wrapped with the denom; its events are kept
    only when it succeeds; the store it leaves is kept in every case. *)
Theorem safeSudo_spec addr msg denom s r s1 :
  within_limit (gas (ext s)) →
  Sudo addr msg (put_events [] (put_gas
    (NewGasMeter (Z.min (GasRemaining (gas (ext s))) BeforeSendHookGasLimit)) s)) = (r, s1) →
  let out := safeSudo addr msg denom s in
  out.1 = match r with
          | Ok _ => Ok ()
          | Err e => Err (Wrapf e "failed to call before send hook for denom %s" [denom])
          | Panic p => Panic p
          end ∧
  tf out.2 = tf s1 ∧ world (ext out.2) = world (ext s1) ∧
  events (ext out.2) = events (ext s) ++ (if r is Ok _ then events (ext s1) else []) ∧
  gas_used_at_most BeforeSendHookGasLimit s out.2.
Proof.
  intros Hw (g & H1 & H2 & H3)%(safeSudo_out _ _ denom); [|done]. cbn zeta.
  split_and!; [done|by rw H2..|done].
Qed.

End hook_facts.

Section store_facts.
Context {W G : Type} {AC : AddressCodec} {ST : SdkTypes} {GM : GasMeter G}.
Context {CK : ContractKeeper W G} {KW : KeyWalk}.
Implicit Types (s : state W G).

(** Coins without a registered hook leave the state as it is. *)
Lemma listeners_unhooked f t b cs s :
  Forall (λ c, DenomHookAddr (tf s) !! coin_Denom c = None) cs →
  for_each cs (call_listener f t b) s = (Ok (), s).
Proof.
  induction 1 as [|c cs Hc _ IH]; [done|]. cbn. unfold bind at 1.
  unfold call_listener at 1, call_listener_reading at 1, bind, GetBeforeSendHook, gets. by rw Hc /=.
Qed.

Lemma callBeforeSendListener_unhooked from to cs b s f t :
  BytesToString from = Ok f → BytesToString to = Ok t →
  Forall (λ c, DenomHookAddr (tf s) !! coin_Denom c = None) cs →
  callBeforeSendListener from to cs b s = (Ok (), s).
Proof.
  intros Hf Ht Hc. unfold callBeforeSendListener, callBeforeSendListener_reading, recover_with, bind, lift.
  by rw Hf Ht listeners_unhooked.
Qed.

(** The parts of the state a discarded call cannot change. *)
Definition same_but_gas (s1 s2 : state W G) : Prop :=
  tf s1 = tf s2 ∧ world (ext s1) = world (ext s2) ∧ events (ext s1) = events (ext s2).

Lemma discarded_same {A} (m : M (state W G) A) s : same_but_gas (discarded m s).2 s.
Proof. unfold discarded, same_but_gas. by destruct (m _). Qed.

(** What setBeforeSendHook does, case by case. *)
Lemma setBeforeSendHook_out denom addr s r s1 :
  setBeforeSendHook denom addr s = (r, s1) →
  (r = Ok () →
     (∃ p, DeconstructDenom denom = Ok p) ∧
     (addr ≠ "" → ∃ cw b, AccAddressFromBech32 addr = Ok cw ∧ StringToBytes addr = Ok b ∧
        (∀ e, (Sudo cw (marshal_sudo tempMsg) (put_events [] s)).1 = Err e →
           contains (Error e) "no such contract" = false)) ∧
     tf s1 = set_DenomHookAddr
       (if decide (addr = "") then delete denom (DenomHookAddr (tf s))
        else <[denom := addr]> (DenomHookAddr (tf s))) (tf s)) ∧
  (r ≠ Ok () → tf s1 = tf s) ∧
  world (ext s1) = world (ext s) ∧ events (ext s1) = events (ext s).
Proof.
  unfold setBeforeSendHook, bind, lift, modify.
  destruct (DeconstructDenom denom) as [pr|e|p]; [|intros; by simplify_eq..].
  destruct (is_empty addr) eqn:He.
  { apply is_empty_true in He as ->. intros [= <- <-]. split_and!; try done.
    intros _. by split_and!; [eexists| |]. }
  apply is_empty_false in He.
  destruct (AccAddressFromBech32 addr) as [cw|e|p]; [|intros; by simplify_eq..].
  generalize (marshal_sudo tempMsg); intros m. unfold attempt, discarded.
  destruct (Sudo cw m (put_events [] s)) as [[x|e|p] s2] eqn:Hs;
    [|destruct (contains (Error e) "no such contract") eqn:Hc|]; cbn; rw ?Hc; cbn;
    try (by intros; simplify_eq);
    destruct (StringToBytes addr) as [b| |]; try (by intros; simplify_eq);
    intros [= <- <-]; (split_and!; try done);
    intros _; (split_and!; [by eexists| |by case_decide]);
    intros _; (exists cw, b; split_and!; [done..|]); intros e0 He0; rw Hs in He0; by simplify_eq/=.
Qed.

(** Registering a hook tries the contract on a branch of the store that is dropped: the
    only lasting effects are the entry of the denom and gas. An empty address removes
    the entry, an address whose contract does not exist is refused, and every other
    outcome of the trial call that is not a panic is accepted. *)
Theorem setBeforeSendHook_spec denom addr s r s1 :
  setBeforeSendHook denom addr s = (r, s1) →
  (r = Ok () →
     (∃ p, DeconstructDenom denom = Ok p) ∧
     (addr ≠ "" → ∃ cw b, AccAddressFromBech32 addr = Ok cw ∧ StringToBytes addr = Ok b ∧
        (∀ e, (Sudo cw (marshal_sudo tempMsg) (put_events [] s)).1 = Err e →
           contains (Error e) "no such contract" = false)) ∧
     tf s1 = set_DenomHookAddr
       (if decide (addr = "") then delete denom (DenomHookAddr (tf s))
        else <[denom := addr]> (DenomHookAddr (tf s))) (tf s)) ∧
  (r ≠ Ok () → tf s1 = tf s) ∧
  world (ext s1) = world (ext s) ∧ events (ext s1) = events (ext s).
Proof. apply setBeforeSendHook_out. Qed.

End store_facts.
