(* ===== verification/Bank.v ===== *)
(** x/bank: the bank keeper that extends the SDK's with before-send hooks
    (keeper/keeper.go), and the message server built on it (keeper/msg_server.go). *)
From S2P Require Import Prelude.
From S2P Require Import Interfaces.
From S2P Require Import TfTypes.
From S2P Require Import TfKeeper.

(** Sentinels of the SDK these files return. *)
Definition ErrUnknownAddress := ExtSentinel "sdkerrors.ErrUnknownAddress".
Definition ErrSdkUnauthorized := ExtSentinel "sdkerrors.ErrUnauthorized".
Definition ErrInvalidAddress := ExtSentinel "sdkerrors.ErrInvalidAddress".
Definition ErrInvalidRequest := ExtSentinel "sdkerrors.ErrInvalidRequest".
Definition ErrNoInputs := ExtSentinel "banktypes.ErrNoInputs".
Definition ErrMultipleSenders := ExtSentinel "banktypes.ErrMultipleSenders".
Definition ErrNoOutputs := ExtSentinel "banktypes.ErrNoOutputs".

(** The messages of the bank module. *)
Record MsgSend := { MsgSend_FromAddress : string; MsgSend_ToAddress : string; MsgSend_Amount : coins }.
Record MsgMultiSend := {
  MsgMultiSend_Inputs : list InputOutput;
  MsgMultiSend_Outputs : list InputOutput
}.
Record MsgUpdateBankParams := {
  MsgUpdateBankParams_Authority : string;
  MsgUpdateBankParams_Params : BankParams
}.
Record MsgSetSendEnabled := {
  MsgSetSendEnabled_Authority : string;
  MsgSetSendEnabled_SendEnabled : list SendEnabledEntry;
  MsgSetSendEnabled_UseDefaultFor : list string
}.

(** The BankHooks interface. *)
Record BankHooks (W G : Type) := {
  hook_TrackBeforeSend : bytes → bytes → coins → M (state W G) unit;
  hook_BlockBeforeSend : bytes → bytes → coins → M (state W G) unit
}.
Arguments hook_TrackBeforeSend {W G}.
Arguments hook_BlockBeforeSend {W G}.

(** The fields of Keeper beside the embedded base keeper: hooks is nil until SetHooks. *)
Record BankKeeperFields (W G : Type) := { hooks : option (BankHooks W G) }.
Arguments hooks {W G}.

Section bank.
Context {W G : Type} {AC : AddressCodec} {ST : SdkTypes}.
Context {AK : AccountKeeper W G} {BB : BankBase W G}.
Implicit Types (k : BankKeeperFields W G).

Definition NewBankKeeper (authority : string) : res (BankKeeperFields W G) :=
  match StringToBytes authority with
  | Ok _ => Ok {| hooks := None |}
  | Err err => Panic (PanicError (Wrapf err "invalid bank authority address" []))
  | Panic p => Panic p
  end.

Definition SetHooks (bh : BankHooks W G) k : res (BankKeeperFields W G) :=
  match hooks k with
  | Some _ => Panic (PanicString "cannot set bank hooks twice")
  | None => Ok {| hooks := Some bh |}
  end.

Definition TrackBeforeSend k (from to : bytes) (amount : coins) : M (state W G) unit :=
  match hooks k with
  | Some h => hook_TrackBeforeSend h from to amount
  | None => ret ()
  end.

Definition BlockBeforeSend k (from to : bytes) (amount : coins) : M (state W G) unit :=
  match hooks k with
  | Some h => hook_BlockBeforeSend h from to amount
  | None => ret ()
  end.

Definition SendCoinsWithoutBlockHook k (fromAddr toAddr : bytes) (amt : coins) :
    M (state W G) unit :=
  TrackBeforeSend k fromAddr toAddr amt ;;;
  in_ext (BaseSendCoins fromAddr toAddr amt).

Definition SendCoins k (fromAddr toAddr : bytes) (amt : coins) : M (state W G) unit :=
  BlockBeforeSend k fromAddr toAddr amt ;;;
  TrackBeforeSend k fromAddr toAddr amt ;;;
  in_ext (BaseSendCoins fromAddr toAddr amt).

(** The panic on a module account that does not exist. *)
Definition no_module_account {A} (module : string) : M (state W G) A :=
  panic (PanicError (Wrapf ErrUnknownAddress "module account %s does not exist" [module])).

Definition SendCoinsFromModuleToModule k (senderModule recipientModule : string) (amt : coins) :
    M (state W G) unit :=
  match GetModuleAddress senderModule with
  | None => no_module_account senderModule
  | Some senderAddr =>
      let! recipientAcc := in_ext (GetModuleAccount recipientModule) in
      match recipientAcc with
      | None => no_module_account recipientModule
      | Some recipientAddr => SendCoinsWithoutBlockHook k senderAddr recipientAddr amt
      end
  end.

Definition SendCoinsFromModuleToAccount k (senderModule : string) (recipientAddr : bytes)
    (amt : coins) : M (state W G) unit :=
  match GetModuleAddress senderModule with
  | None => no_module_account senderModule
  | Some senderAddr =>
      if BlockedAddr recipientAddr then
        fail (Wrapf ErrSdkUnauthorized "%s is not allowed to receive funds"
                [AccAddress_String recipientAddr])
      else SendCoins k senderAddr recipientAddr amt
  end.

Definition SendCoinsFromAccountToModule k (senderAddr : bytes) (recipientModule : string)
    (amt : coins) : M (state W G) unit :=
  let! recipientAcc := in_ext (GetModuleAccount recipientModule) in
  match recipientAcc with
  | None => no_module_account recipientModule
  | Some recipientAddr => SendCoins k senderAddr recipientAddr amt
  end.

(** * The message server *)

Definition invalid_address (what : string) (r : res bytes) : res bytes :=
  match r with
  | Err err => Err (Wrapf ErrInvalidAddress ("invalid " +:+ what +:+ " address: %s") [Error err])
  | r => r
  end.

(** The deferred telemetry of a successful send is left out: it changes no state. *)
Definition BankMsgServer_Send k (msg : MsgSend) : M (state W G) unit :=
  let! from := lift (invalid_address "from" (StringToBytes (MsgSend_FromAddress msg))) in
  let! to := lift (invalid_address "to" (StringToBytes (MsgSend_ToAddress msg))) in
  if negb (Coins_IsValid (MsgSend_Amount msg)) || bool_decide (MsgSend_Amount msg = []) then
    fail (Wrapf ErrInvalidCoins "%s" [Coins_String (MsgSend_Amount msg)])
  else
    let! e := read_world (IsSendEnabledCoins (MsgSend_Amount msg)) in
    lift (check e) ;;;
    if BlockedAddr to then
      fail (Wrapf ErrSdkUnauthorized "%s is not allowed to receive funds" [MsgSend_ToAddress msg])
    else SendCoins k from to (MsgSend_Amount msg).

(** The body of MultiSend's loop over the outputs. *)
Definition multisend_output k (inAddr : bytes) (out : InputOutput) : M (state W G) unit :=
  let! outAddr := lift (StringToBytes (io_Address out)) in
  if BlockedAddr outAddr then
    fail (Wrapf ErrSdkUnauthorized "%s is not allowed to receive funds" [io_Address out])
  else
    BlockBeforeSend k inAddr outAddr (io_Coins out) ;;;
    TrackBeforeSend k inAddr outAddr (io_Coins out).

Definition BankMsgServer_MultiSend k (msg : MsgMultiSend) : M (state W G) unit :=
  match MsgMultiSend_Inputs msg with
  | [] => fail ErrNoInputs
  | [input] =>
      match MsgMultiSend_Outputs msg with
      | [] => fail ErrNoOutputs
      | outputs =>
          lift (check (ValidateInputOutputs input outputs)) ;;;
          for_each (MsgMultiSend_Inputs msg) (λ inp,
            let! e := read_world (IsSendEnabledCoins (io_Coins inp)) in lift (check e)) ;;;
          let! inAddr := lift (StringToBytes (io_Address input)) in
          for_each outputs (multisend_output k inAddr) ;;;
          in_ext (InputOutputCoins input outputs)
      end
  | _ => fail ErrMultipleSenders
  end.

Definition invalid_authority (expected got : string) : goerror :=
  Wrapf ErrInvalidSigner "invalid authority; expected %s, got %s" [expected; got].

Definition BankMsgServer_UpdateParams (req : MsgUpdateBankParams) : M (state W G) unit :=
  if decide (BankAuthority = MsgUpdateBankParams_Authority req) then
    lift (check (BankParams_Validate (MsgUpdateBankParams_Params req))) ;;;
    in_ext (BankSetParams (MsgUpdateBankParams_Params req))
  else fail (invalid_authority BankAuthority (MsgUpdateBankParams_Authority req)).

(** The first loop of SetSendEnabled; [seen] holds the denoms met so far. *)
Fixpoint check_send_enabled (seen : gset string) (l : list SendEnabledEntry) : res unit :=
  match l with
  | [] => Ok ()
  | se :: l =>
      if decide (se_Denom se ∈ seen) then
        Err (Wrapf ErrInvalidRequest "duplicate denom entries found for %q" [se_Denom se])
      else
        match SendEnabled_Validate se with
        | Some err =>
            Err (Wrapf ErrInvalidRequest "invalid SendEnabled denom %q: %s" [se_Denom se; Error err])
        | None => check_send_enabled ({[se_Denom se]} ∪ seen) l
        end
  end.

(** The second loop of SetSendEnabled. *)
Fixpoint check_use_default_for (l : list string) : res unit :=
  match l with
  | [] => Ok ()
  | denom :: l =>
      match ValidateDenom denom with
      | Some err => Err (Wrapf ErrInvalidRequest "invalid UseDefaultFor denom %q: %s" [denom; Error err])
      | None => check_use_default_for l
      end
  end.

Definition BankMsgServer_SetSendEnabled (msg : MsgSetSendEnabled) : M (state W G) unit :=
  if decide (BankAuthority = MsgSetSendEnabled_Authority msg) then
    lift (check_send_enabled ∅ (MsgSetSendEnabled_SendEnabled msg)) ;;;
    lift (check_use_default_for (MsgSetSendEnabled_UseDefaultFor msg)) ;;;
    (if bool_decide (MsgSetSendEnabled_SendEnabled msg = []) then ret ()
     else write_world (SetAllSendEnabled (MsgSetSendEnabled_SendEnabled msg))) ;;;
    (if bool_decide (MsgSetSendEnabled_UseDefaultFor msg = []) then ret ()
     else write_world (DeleteSendEnabled (MsgSetSendEnabled_UseDefaultFor msg)))
  else fail (invalid_authority BankAuthority (MsgSetSendEnabled_Authority msg)).

End bank.
