(* ===== verification/TfMsgServer.v ===== *)
(** x/tokenfactory/keeper: creation of denoms (createdenom.go), minting and burning
    (bankactions.go), the message server (msg_server.go), genesis (genesis.go) and the
    query server (grpc_query.go), over the interfaces of types/expected_keepers.go. *)
From S2P Require Import Prelude.
From S2P Require Import Interfaces.
From S2P Require Import TfTypes.
From S2P Require Import TfKeeper.
From S2P Require Import Bank.

(** * Expected keepers *)

(** The BankKeeper interface: the methods that read or write without gas or hooks, and
    the methods that move coins. *)
Class BankView (W : Type) := {
  bk_GetDenomMetaData : string → W → option Metadata;
  bk_SetDenomMetaData : Metadata → W → W;
  bk_HasSupply : string → W → bool;
  bk_HasBalance : bytes → coin → W → bool;
  bk_BlockedAddr : bytes → bool
}.

Class BankKeeper (W G : Type) := {
  bk_SendCoinsFromModuleToAccount : string → bytes → coins → M (state W G) unit;
  bk_SendCoinsFromAccountToModule : bytes → string → coins → M (state W G) unit;
  bk_MintCoins : string → coins → M (state W G) unit;
  bk_BurnCoins : string → coins → M (state W G) unit;
  bk_SendCoins : bytes → bytes → coins → M (state W G) unit
}.

Class CommunityPoolKeeper (W G : Type) :=
  FundCommunityPool : coins → bytes → M (state W G) unit.

Section server.
Context {W G : Type} {AC : AddressCodec} {ST : SdkTypes} {GM : GasMeter G}.
Context {AK : AccountKeeper W G} {BV : BankView W} {BK : BankKeeper W G}.
Context {CP : CommunityPoolKeeper W G}.
Context {CK : ContractKeeper W G} {KW : KeyWalk}.

(** keeper.authority: the address of the opchild module. *)
Variable authority : string.

Definition GetAuthority : string := authority.

(** * Creating denoms *)

Definition validateCreateDenom (creatorAddr subdenom : string) : M (state W G) string :=
  let! native := read_world (bk_HasSupply subdenom) in
  if native : bool then
    fail (Errorf "temporary error until IBC bug is sorted out, can't create subdenoms that are the same as a native denom" [])
  else
    let! denom := lift (GetTokenDenom creatorAddr subdenom) in
    let! found := read_world (bk_GetDenomMetaData denom) in
    match found with
    | Some _ => fail ErrDenomExists
    | None => ret denom
    end.

Definition chargeForCreateDenom (creatorAddr : string) : M (state W G) unit :=
  let! params := GetParams in
  (if bool_decide (DenomCreationFee params = []) then ret ()
   else
     let! accAddr := lift (AccAddressFromBech32 creatorAddr) in
     FundCommunityPool (DenomCreationFee params) accAddr) ;;;
  (if DenomCreationGasConsume params =? 0 then ret ()
   else zoom (λ s, gas (ext s)) put_gas
          (ConsumeGas (DenomCreationGasConsume params) "consume denom creation gas")).

(** The bank metadata a new denom is given. *)
Definition denomMetaData (denom : string) : Metadata :=
  {| md_Description := "";
     md_DenomUnits := [{| du_Denom := denom; du_Exponent := 0; du_Aliases := [] |}];
     md_Base := denom; md_Display := denom; md_Name := denom; md_Symbol := denom;
     md_URI := ""; md_URIHash := "" |}.

Definition createDenomAfterValidation (creatorAddr denom : string) : M (state W G) unit :=
  let! found := read_world (bk_GetDenomMetaData denom) in
  match found with
  | Some _ => ret ()
  | None => write_world (bk_SetDenomMetaData (denomMetaData denom))
  end ;;;
  setAuthorityMetadata denom {| Admin := creatorAddr |} ;;;
  addDenomFromCreator creatorAddr denom.

Definition Keeper_CreateDenom (creatorAddr subdenom : string) : M (state W G) string :=
  let! denom := validateCreateDenom creatorAddr subdenom in
  chargeForCreateDenom creatorAddr ;;;
  createDenomAfterValidation creatorAddr denom ;;;
  ret denom.

(** * Minting and burning *)

Definition mintTo (amount : coin) (mint_to : string) : M (state W G) unit :=
  lift (DeconstructDenom (coin_Denom amount)) ;;;
  let! minted := lift (NewCoins [amount]) in
  bk_MintCoins ModuleName minted ;;;
  let! addr := lift (StringToBytes mint_to) in
  if bk_BlockedAddr addr then
    fail (Errorf "failed to mint to blocked address: %s" [addr])
  else
    let! sent := lift (NewCoins [amount]) in
    bk_SendCoinsFromModuleToAccount ModuleName addr sent.

Definition burnFrom (amount : coin) (burn_from : string) : M (state W G) unit :=
  lift (DeconstructDenom (coin_Denom amount)) ;;;
  let! addr := lift (StringToBytes burn_from) in
  if bk_BlockedAddr addr then
    fail (Errorf "failed to burn from blocked address: %s" [addr])
  else
    let! sent := lift (NewCoins [amount]) in
    bk_SendCoinsFromAccountToModule addr ModuleName sent ;;;
    let! burnt := lift (NewCoins [amount]) in
    bk_BurnCoins ModuleName burnt.

(** * The message server *)

(** The check that the sender administers the denom. *)
Definition require_admin (denom sender : string) : M (state W G) unit :=
  let! authorityMetadata := GetAuthorityMetadata denom in
  if decide (sender = Admin authorityMetadata) then ret () else fail ErrUnauthorized.

Definition MsgServer_CreateDenom (msg : MsgCreateDenom) : M (state W G) string :=
  lift (MsgCreateDenom_Validate msg) ;;;
  let! denom := Keeper_CreateDenom (MsgCreateDenom_Sender msg) (MsgCreateDenom_Subdenom msg) in
  EmitEvents [NewEvent TypeMsgCreateDenom
    [(AttributeCreator, MsgCreateDenom_Sender msg); (AttributeNewTokenDenom, denom)]] ;;;
  ret denom.

Definition MsgServer_Mint (msg : MsgMint) : M (state W G) unit :=
  lift (MsgMint_Validate msg) ;;;
  let! denomExists := read_world (bk_GetDenomMetaData (coin_Denom (MsgMint_Amount msg))) in
  match denomExists with
  | None => fail (Wrapf ErrDenomDoesNotExist "denom: %s" [coin_Denom (MsgMint_Amount msg)])
  | Some _ =>
      require_admin (coin_Denom (MsgMint_Amount msg)) (MsgMint_Sender msg) ;;;
      let mintToAddress :=
        if is_empty (MsgMint_MintToAddress msg) then MsgMint_Sender msg
        else MsgMint_MintToAddress msg in
      mintTo (MsgMint_Amount msg) mintToAddress ;;;
      EmitEvents [NewEvent TypeMsgMint
        [(AttributeMintToAddress, mintToAddress); (AttributeAmount, Coin_String (MsgMint_Amount msg))]]
  end.

Definition MsgServer_Burn (msg : MsgBurn) : M (state W G) unit :=
  lift (MsgBurn_Validate msg) ;;;
  require_admin (coin_Denom (MsgBurn_Amount msg)) (MsgBurn_Sender msg) ;;;
  let! acc := lift (StringToBytes (MsgBurn_Sender msg)) in
  let! accountI := read_world (GetAccount acc) in
  match accountI with
  | Some (Account _ true) => fail ErrBurnFromModuleAccount
  | _ =>
      burnFrom (MsgBurn_Amount msg) (MsgBurn_Sender msg) ;;;
      EmitEvents [NewEvent TypeMsgBurn
        [(AttributeBurnFromAddress, MsgBurn_Sender msg); (AttributeAmount, Coin_String (MsgBurn_Amount msg))]]
  end.

Definition MsgServer_ChangeAdmin (msg : MsgChangeAdmin) : M (state W G) unit :=
  lift (MsgChangeAdmin_Validate msg) ;;;
  require_admin (MsgChangeAdmin_Denom msg) (MsgChangeAdmin_Sender msg) ;;;
  setAdmin (MsgChangeAdmin_Denom msg) (MsgChangeAdmin_NewAdmin msg) ;;;
  EmitEvents [NewEvent TypeMsgChangeAdmin
    [(AttributeDenom, MsgChangeAdmin_Denom msg); (AttributeNewAdmin, MsgChangeAdmin_NewAdmin msg)]].

Definition MsgServer_SetDenomMetadata (msg : MsgSetDenomMetadata) : M (state W G) unit :=
  lift (MsgSetDenomMetadata_Validate msg) ;;;
  lift (check (Metadata_Validate (MsgSetDenomMetadata_Metadata msg))) ;;;
  require_admin (md_Base (MsgSetDenomMetadata_Metadata msg)) (MsgSetDenomMetadata_Sender msg) ;;;
  write_world (bk_SetDenomMetaData (MsgSetDenomMetadata_Metadata msg)) ;;;
  EmitEvents [NewEvent TypeMsgSetDenomMetadata
    [(AttributeDenom, md_Base (MsgSetDenomMetadata_Metadata msg));
     (AttributeDenomMetadata, Metadata_String (MsgSetDenomMetadata_Metadata msg))]].

Definition MsgServer_SetBeforeSendHook (msg : MsgSetBeforeSendHook) : M (state W G) unit :=
  lift (MsgSetBeforeSendHook_Validate msg) ;;;
  require_admin (MsgSetBeforeSendHook_Denom msg) (MsgSetBeforeSendHook_Sender msg) ;;;
  setBeforeSendHook (MsgSetBeforeSendHook_Denom msg) (MsgSetBeforeSendHook_CosmwasmAddress msg) ;;;
  EmitEvents [NewEvent TypeMsgSetBeforeSendHook
    [(AttributeDenom, MsgSetBeforeSendHook_Denom msg);
     (AttributeBeforeSendHookAddress, MsgSetBeforeSendHook_CosmwasmAddress msg)]].

Definition MsgServer_UpdateParams (req : MsgUpdateParams) : M (state W G) unit :=
  if decide (GetAuthority = MsgUpdateParams_Authority req) then
    lift (Params_Validate (MsgUpdateParams_Params req)) ;;;
    SetParams (MsgUpdateParams_Params req)
  else fail (invalid_authority GetAuthority (MsgUpdateParams_Authority req)).

(** The messages of the module, and their dispatch. *)
Inductive tf_msg :=
| CreateDenom (m : MsgCreateDenom)
| Mint (m : MsgMint)
| Burn (m : MsgBurn)
| ChangeAdmin (m : MsgChangeAdmin)
| SetDenomMetadata (m : MsgSetDenomMetadata)
| SetBeforeSendHook (m : MsgSetBeforeSendHook)
| UpdateParams (m : MsgUpdateParams).

Definition handle (msg : tf_msg) : M (state W G) unit :=
  match msg with
  | CreateDenom m => MsgServer_CreateDenom m ;;; ret ()
  | Mint m => MsgServer_Mint m
  | Burn m => MsgServer_Burn m
  | ChangeAdmin m => MsgServer_ChangeAdmin m
  | SetDenomMetadata m => MsgServer_SetDenomMetadata m
  | SetBeforeSendHook m => MsgServer_SetBeforeSendHook m
  | UpdateParams m => MsgServer_UpdateParams m
  end.

(** * Genesis *)

(** [if err != nil { panic(err) }] *)
Definition must {A} (m : M (state W G) A) : M (state W G) A := λ s,
  match m s with
  | (Err e, s1) => (Panic (PanicError e), s1)
  | out => out
  end.

(** The body of InitGenesis's loop. *)
Definition init_denom (genDenom : GenesisDenom) : M (state W G) unit :=
  let! cs := must (lift (DeconstructDenom (gd_Denom genDenom))) in
  must (createDenomAfterValidation cs.1 (gd_Denom genDenom)) ;;;
  must (setAuthorityMetadata (gd_Denom genDenom) (gd_AuthorityMetadata genDenom)).

Definition CreateModuleAccount : M (state W G) unit :=
  in_ext (GetModuleAccount ModuleName) ;;; ret ().

(** [genState.Params.DenomCreationFee = sdk.NewCoins()] when it is nil. *)
Definition default_fee (p : Params) : M (state W G) Params :=
  if bool_decide (DenomCreationFee p = []) then
    let! fee := lift (NewCoins []) in
    ret {| DenomCreationFee := fee; DenomCreationGasConsume := DenomCreationGasConsume p |}
  else ret p.

Definition InitGenesis (genState : GenesisState) : M (state W G) unit :=
  CreateModuleAccount ;;;
  let! params := default_fee (gs_Params genState) in
  must (SetParams params) ;;;
  for_each (gs_FactoryDenoms genState) init_denom.

(** The walk of ExportGenesis over the keys (creator, denom). *)
Fixpoint export_denoms (keys : list (string * string)) : M (state W G) (list GenesisDenom) :=
  match keys with
  | [] => ret []
  | (_, denom) :: keys =>
      let! authorityMetadata := must (GetAuthorityMetadata denom) in
      let! genDenoms := export_denoms keys in
      ret ({| gd_Denom := denom; gd_AuthorityMetadata := authorityMetadata |} :: genDenoms)
  end.

Definition ExportGenesis : M (state W G) GenesisState :=
  let! keys := gets (λ s, walk (CreatorDenoms (tf s))) in
  let! genDenoms := export_denoms keys in
  let! params := GetParams in
  ret {| gs_Params := params; gs_FactoryDenoms := genDenoms |}.

(** * Queries *)

(** url.QueryUnescape: [%XY] is a byte, [+] a space; [None] is an error. *)
Definition hex_value (a : ascii) : option N :=
  let n := N_of_ascii a in
  if ((48 <=? n) && (n <=? 57))%N then Some (n - 48)%N
  else if ((97 <=? n) && (n <=? 102))%N then Some (n - 87)%N
  else if ((65 <=? n) && (n <=? 70))%N then Some (n - 55)%N
  else None.

Fixpoint QueryUnescape (s : string) : option string :=
  match s with
  | EmptyString => Some ""
  | String "%" (String a (String b s)) =>
      match hex_value a, hex_value b with
      | Some x, Some y => String (ascii_of_N (16 * x + y)%N) <$> QueryUnescape s
      | _, _ => None
      end
  | String "%" _ => None
  | String "+" s => String " " <$> QueryUnescape s
  | String a s => String a <$> QueryUnescape s
  end.

(** [if decoded, err := url.QueryUnescape(d); err == nil { d = decoded }] *)
Definition decoded_denom (denom : string) : string := default denom (QueryUnescape denom).

Definition Query_Params : M (state W G) Params := GetParams.

Definition Query_DenomAuthorityMetadata (denom : string) : M (state W G) DenomAuthorityMetadata :=
  GetAuthorityMetadata (decoded_denom denom).

Definition Query_DenomsFromCreator (creator : string) : M (state W G) (list string) :=
  getDenomsFromCreator creator.

Definition Query_BeforeSendHookAddress (denom : string) : M (state W G) string :=
  GetBeforeSendHook (decoded_denom denom).

End server.
