(* ===== verification/TfInvariants.v ===== *)
(** Invariants of the token factory: what its store keeps true through every message,
    also when a message fails half way and also when contracts called by the hooks call
    back into the module; and that a denom without an admin stays without one. *)
From S2P Require Import Prelude.
From S2P Require Import Interfaces.
From S2P Require Import TfTypes.
From S2P Require Import TfKeeper.
From S2P Require Import Bank.
From S2P Require Import TfMsgServer.

(** * What the module relies on *)

Section laws.
Context {W G : Type} {BV : BankView W} {BK : BankKeeper W G} {LG : BankLedger W}.
Implicit Types (s : state W G).

(** The denoms with bank metadata in [w1] have some in [w2]. *)
Definition metadata_kept (w1 w2 : W) : Prop :=
  ∀ d, is_Some (bk_GetDenomMetaData d w1) → is_Some (bk_GetDenomMetaData d w2).

(** A denom in the module's name space. *)
Definition is_factory (d : string) : Prop := has_prefix (ModuleDenomPrefix +:+ "/") d = true.

(** What every step outside the module leaves alone: the existence of metadata, and the
    supply of the module's denoms. *)
Definition world_kept (w1 w2 : W) : Prop :=
  metadata_kept w1 w2 ∧ ∀ d, is_factory d → Supply d w2 = Supply d w1.

(** [I] does not depend on the rest of the chain beyond that. *)
Class EnvClosed (I : state W G → Prop) : Prop :=
  env_closed : ∀ s e, I s → world_kept (world (ext s)) (world e) → I (put_ext e s).

(** Every operation of another module the message server calls, minting and burning
    apart, keeps [I]: the contract between the token factory and the keepers it is given. *)
Class KeepersPreserve {AK : AccountKeeper W G} {CP : CommunityPoolKeeper W G}
    {CK : ContractKeeper W G} (I : state W G → Prop) : Prop := {
  kp_to_account : ∀ m a cs, preserves I (bk_SendCoinsFromModuleToAccount m a cs);
  kp_to_module : ∀ a m cs, preserves I (bk_SendCoinsFromAccountToModule a m cs);
  kp_fund : ∀ cs a, preserves I (FundCommunityPool cs a);
  kp_sudo : ∀ a m, preserves I (Sudo a m)
}.

(** Minting and burning [cs] keeps [I]. *)
Definition mint_keeps (I : state W G → Prop) (cs : coins) : Prop :=
  ∀ m, preserves I (bk_MintCoins m cs) ∧ preserves I (bk_BurnCoins m cs).

(** The bank's metadata behaves as a map from the base denom, apart from the ledger. *)
Class BankMetadataLaws : Prop := {
  bk_get_set : ∀ md w,
    bk_GetDenomMetaData (md_Base md) (bk_SetDenomMetaData md w) = Some md;
  bk_get_set_ne : ∀ md d w, d ≠ md_Base md →
    bk_GetDenomMetaData d (bk_SetDenomMetaData md w) = bk_GetDenomMetaData d w;
  bk_set_supply : ∀ md d w, Supply d (bk_SetDenomMetaData md w) = Supply d w
}.

Lemma metadata_kept_refl w : metadata_kept w w.
Proof. by intros d. Qed.

Lemma metadata_kept_trans w1 w2 w3 :
  metadata_kept w1 w2 → metadata_kept w2 w3 → metadata_kept w1 w3.
Proof. unfold metadata_kept. eauto. Qed.

Lemma metadata_kept_set `{!BankMetadataLaws} md w : metadata_kept w (bk_SetDenomMetaData md w).
Proof.
  intros d Hd. destruct (decide (d = md_Base md)) as [->|Hne].
  - rw bk_get_set. by eexists.
  - by rw bk_get_set_ne.
Qed.

Lemma world_kept_refl w : world_kept w w.
Proof. by split; [apply metadata_kept_refl|]. Qed.

Lemma world_kept_set `{!BankMetadataLaws} md w : world_kept w (bk_SetDenomMetaData md w).
Proof. split; [apply metadata_kept_set|]. intros d _. apply bk_set_supply. Qed.

End laws.

#[export] Hint Resolve kp_to_account kp_to_module kp_fund kp_sudo : go_inv.

Section frame.
Context {W G : Type} {AC : AddressCodec} {ST : SdkTypes} {GM : GasMeter G}.
Context {AK : AccountKeeper W G} {BV : BankView W} {BK : BankKeeper W G}.
Context {CP : CommunityPoolKeeper W G}.
Context {CK : ContractKeeper W G} {KW : KeyWalk} {LG : BankLedger W} {BML : BankMetadataLaws}.
Context (I : state W G → Prop) {EC : EnvClosed I}.
Implicit Types (s : state W G).

Lemma env_closed_gas s g : I s → I (put_gas g s).
Proof.
  intros Hs. apply (env_closed s (Env (world (ext s)) g (events (ext s)))); [done|].
  apply world_kept_refl.
Qed.

Lemma env_closed_events s l : I s → I (put_events l s).
Proof.
  intros Hs. apply (env_closed s (Env (world (ext s)) (gas (ext s)) l)); [done|].
  apply world_kept_refl.
Qed.

Lemma preserves_EmitEvents evs : preserves I (EmitEvents evs).
Proof. apply preserves_modify. intros s Hs. by apply env_closed_events. Qed.

Lemma preserves_gas (m : M G unit) : preserves I (zoom (λ s, gas (ext s)) put_gas m).
Proof. apply preserves_zoom. intros s Hs. by apply env_closed_gas. Qed.

Lemma preserves_write f : (∀ w, world_kept w (f w)) → preserves I (write_world f).
Proof. intros Hf. apply preserves_modify. intros s Hs. by apply env_closed. Qed.

Lemma preserves_set_metadata md : preserves I (write_world (bk_SetDenomMetaData md)).
Proof. apply preserves_write. intros w. apply world_kept_set. Qed.

Lemma preserves_in_ext {A} (m : M (env W G) A) :
  (∀ e, world_kept (world e) (world (m e).2)) → preserves I (in_ext m).
Proof. intros Hm. apply preserves_zoom. intros s Hs. by apply env_closed. Qed.

Lemma preserves_discarded {A} (m : M (state W G) A) : preserves I (discarded m).
Proof.
  apply preserves_snd. intros s Hs. unfold discarded. destruct (m _) as [r s1].
  by apply env_closed_gas.
Qed.

(** A contract call through safeSudo: the only change of the store is the contract's. *)
Lemma preserves_safeSudo a m d : preserves I (Sudo a m) → preserves I (safeSudo a m d).
Proof.
  rw !preserves_snd. intros HS s Hs. unfold safeSudo.
  specialize (HS (put_events [] (put_gas (NewGasMeter
    (Z.min (GasRemaining (gas (ext s))) BeforeSendHookGasLimit)) s))).
  destruct (Sudo a m _) as [r s1]; cbn in HS.
  assert (I s1) as H1 by by apply HS, env_closed_events, env_closed_gas.
  apply (proj1 (preserves_snd I _)); [|by apply env_closed_events, env_closed_gas].
  apply preserves_deferred; [apply preserves_gas|].
  destruct r; [apply preserves_EmitEvents|apply preserves_fail|apply preserves_panic].
Qed.

Lemma preserves_listener from to cs b :
  (∀ a m, preserves I (Sudo a m)) → preserves I (callBeforeSendListener from to cs b).
Proof.
  intros HS. unfold callBeforeSendListener, callBeforeSendListener_reading, call_listener_reading.
  apply preserves_recover, preserves_bind; [apply preserves_lift|intros f].
  apply preserves_bind; [apply preserves_lift|intros t].
  apply preserves_for_each. intros c _. apply preserves_bind; [apply preserves_gets|intros a].
  apply preserves_if; [|apply preserves_ret].
  apply preserves_bind; [apply preserves_lift|]. eauto using preserves_safeSudo.
Qed.

Lemma preserves_GetAuthorityMetadata d : preserves I (GetAuthorityMetadata d).
Proof.
  apply preserves_snd. intros s Hs. unfold GetAuthorityMetadata. by destruct (_ !! _).
Qed.

Lemma preserves_require_admin d sender : preserves I (require_admin d sender).
Proof.
  apply preserves_bind; [apply preserves_GetAuthorityMetadata|intros md].
  destruct (decide _); [apply preserves_ret|apply preserves_fail].
Qed.

Context {KP : KeepersPreserve I}.

(** Minting or burning the coin [c] keeps [I]. *)
Definition coin_keeps (c : coin) : Prop := ∀ cs, NewCoins [c] = Ok cs → mint_keeps I cs.

Lemma preserves_mintTo c a : coin_keeps c → preserves I (mintTo c a).
Proof.
  intros Hc. unfold mintTo. apply preserves_bind; [apply preserves_lift|intros _].
  eapply triple_bind; [by apply (triple_lift _ _ (λ cs s, I s ∧ NewCoins [c] = Ok cs))|].
  intros cs s [Hs Hcs]. revert s Hs. apply preserves_bind; [by apply Hc|intros _].
  repeat (apply preserves_bind; intros); eauto 6 with go_inv.
Qed.

Lemma preserves_burnFrom c a : coin_keeps c → preserves I (burnFrom c a).
Proof.
  intros Hc. unfold burnFrom. do 2 (apply preserves_bind; [apply preserves_lift|intros ?]).
  apply preserves_if; [apply preserves_fail|].
  do 2 (apply preserves_bind; [eauto with go_inv|intros ?]).
  eapply triple_bind; [by apply (triple_lift _ _ (λ cs s, I s ∧ NewCoins [c] = Ok cs))|].
  intros cs s [Hs Hcs]. revert s Hs. by apply Hc.
Qed.

Lemma preserves_charge c : preserves I (chargeForCreateDenom c).
Proof.
  unfold chargeForCreateDenom, GetParams. apply preserves_bind; [apply preserves_gets|intros p].
  apply preserves_bind; [|intros _]; apply preserves_if; eauto using preserves_gas with go_inv.
Qed.

Lemma preserves_SetDenomMetadata m : preserves I (MsgServer_SetDenomMetadata m).
Proof.
  unfold MsgServer_SetDenomMetadata.
  repeat (apply preserves_bind; [first [apply preserves_lift|apply preserves_require_admin|
    apply preserves_set_metadata]|intros _]).
  apply preserves_EmitEvents.
Qed.

End frame.

(** * The invariant of the store *)

Section store_inv.
Context {AC : AddressCodec} {ST : SdkTypes}.
Implicit Types (t : TfStore).

Definition is_address (a : string) : Prop := ∃ b, StringToBytes a = Ok b.

(** [c] and [canon] are spellings of one address, [canon] being the codec's. *)
Definition spells (c canon : string) : Prop :=
  ∃ addr, StringToBytes c = Ok addr ∧ BytesToString addr = Ok canon.

Record tf_inv t : Prop := {
  (** the denoms with an authority are the denoms listed under a creator *)
  inv_listed : ∀ d, is_Some (DenomAuthority t !! d) ↔ ∃ c, (c, d) ∈ CreatorDenoms t;
  (** an admin is empty or an address *)
  inv_admin : ∀ d m, DenomAuthority t !! d = Some m → Admin m = "" ∨ is_address (Admin m);
  (** a listed denom has the form factory/creator/subdenom, with this creator *)
  inv_denom : ∀ c d, (c, d) ∈ CreatorDenoms t →
    ∃ canon sub, DeconstructDenom d = Ok (canon, sub) ∧ spells c canon;
  (** a hook is the address of a contract, on a denom of the module *)
  inv_hook : ∀ d a, DenomHookAddr t !! d = Some a →
    a ≠ "" ∧ is_address a ∧ is_Some (DenomAuthority t !! d)
}.

Lemma tf_inv_empty : tf_inv empty_store.
Proof.
  split; cbn; intros; try set_solver. split; [by intros [? ?%lookup_empty_Some]|set_solver].
Qed.

Lemma tf_inv_create t c d canon sub :
  tf_inv t → DeconstructDenom d = Ok (canon, sub) → spells c canon →
  tf_inv (set_CreatorDenoms ({[(c, d)]} ∪ CreatorDenoms t)
            (set_DenomAuthority (<[d := {| Admin := c |}]> (DenomAuthority t)) t)).
Proof.
  intros [Hl Ha Hd Hh] Hdec Hc. split; cbn.
  - intros d1. destruct (decide (d1 = d)) as [->|Hne].
    + rw lookup_insert_eq. set_solver.
    + rw lookup_insert_ne // Hl. set_solver.
  - intros d1 m. destruct (decide (d1 = d)) as [->|Hne].
    + rw lookup_insert_eq. intros [= <-]. right. destruct Hc as (b & Hb & _). by exists b.
    + rw lookup_insert_ne //. apply Ha.
  - intros c1 d1 Hin. destruct (decide ((c1, d1) = (c, d))) as [[= -> ->]|Hne]; [by eauto|].
    apply Hd. set_solver.
  - intros d1 a (H1 & H2 & H3)%Hh. split_and!; [done..|].
    destruct (decide (d1 = d)) as [->|Hne].
    + rw lookup_insert_eq. by eexists.
    + by rw lookup_insert_ne.
Qed.

Lemma Validate_admin m :
  DenomAuthorityMetadata_Validate m = Ok () → Admin m = "" ∨ is_address (Admin m).
Proof.
  unfold DenomAuthorityMetadata_Validate. destruct (is_empty _) eqn:He; cbn.
  - apply is_empty_true in He. by left.
  - intros H. go_inv. right. by eexists.
Qed.

Lemma tf_inv_authority t d m :
  tf_inv t → is_Some (DenomAuthority t !! d) → DenomAuthorityMetadata_Validate m = Ok () →
  tf_inv (set_DenomAuthority (<[d := m]> (DenomAuthority t)) t).
Proof.
  intros [Hl Ha Hd Hh] Hs Hm%Validate_admin. split; cbn; [|..|done|].
  - intros d1. destruct (decide (d1 = d)) as [->|Hne].
    + rw lookup_insert_eq -Hl. split; [done|]. by eexists.
    + by rw lookup_insert_ne.
  - intros d1 m1. destruct (decide (d1 = d)) as [->|Hne].
    + rw lookup_insert_eq. by intros [= <-].
    + rw lookup_insert_ne //. apply Ha.
  - intros d1 a (H1 & H2 & H3)%Hh. split_and!; [done..|].
    destruct (decide (d1 = d)) as [->|Hne].
    + rw lookup_insert_eq. by eexists.
    + by rw lookup_insert_ne.
Qed.

Lemma tf_inv_hook t d a :
  tf_inv t → is_Some (DenomAuthority t !! d) → (a ≠ "" → is_address a) →
  tf_inv (set_DenomHookAddr (if decide (a = "") then delete d (DenomHookAddr t)
            else <[d := a]> (DenomHookAddr t)) t).
Proof.
  intros [Hl Ha Hd Hh] Hs Hadr. split; cbn; [done..|]. intros d1 a1. case_decide as He.
  - destruct (decide (d1 = d)) as [->|Hne]; [by rw lookup_delete_eq|].
    rw lookup_delete_ne //. apply Hh.
  - destruct (decide (d1 = d)) as [->|Hne].
    + rw lookup_insert_eq. intros [= <-]. eauto.
    + rw lookup_insert_ne //. apply Hh.
Qed.

Lemma tf_inv_params t p : tf_inv t → tf_inv (set_ParamsItem p t).
Proof. by intros []. Qed.

End store_inv.

(** * Messages and properties of the state *)

(** When a property of the state is kept by every message: what is left to show about a
    property is what it says of the module's own store. *)
Section handle_keeps.
Context {W G : Type} {AC : AddressCodec} {ST : SdkTypes} {GM : GasMeter G}.
Context {AK : AccountKeeper W G} {BV : BankView W} {BK : BankKeeper W G}.
Context {CP : CommunityPoolKeeper W G}.
Context {CK : ContractKeeper W G} {KW : KeyWalk}.
Context {LG : BankLedger W} {BML : BankMetadataLaws} {ACL : AddressCodecLaws AC}.
Implicit Types (s : state W G).

(** A sender that passes the check is the admin of a denom of the module. *)
Lemma require_admin_ok I d sender :
  triple I (require_admin d sender)
    (λ _ s, I s ∧ DenomAuthority (tf s) !! d = Some {| Admin := sender |}) I.
Proof.
  intros s Hs. unfold require_admin, bind, GetAuthorityMetadata.
  destruct (DenomAuthority (tf s) !! d) as [[a]|] eqn:Hd; [|done]. cbn.
  case_decide; [|done]. by subst.
Qed.

Lemma validate_sender_ok sender : validate_sender sender = Ok () → is_address sender.
Proof. unfold validate_sender. intros H. go_inv. by eexists. Qed.

Lemma is_address_spells c : is_address c → ∃ canon, spells c canon.
Proof.
  intros [b Hb]. destruct (BytesToString_decoded c b Hb) as (canon & Hc & _).
  exists canon. by exists b.
Qed.

(** [sender] is an address and administers [d]. *)
Definition administers (sender d : string) s : Prop :=
  is_address sender ∧ DenomAuthority (tf s) !! d = Some {| Admin := sender |}.

Context (authority : string) (ok : tf_msg → Prop) (J : state W G → Prop) (fresh : string → Prop).

(** The conditions: [fresh] are the denoms that may be created from a state with [J]. *)
Class StoreKeeps : Prop := {
  sk_fresh : ∀ s d, J s → bk_GetDenomMetaData d (world (ext s)) = None → fresh d;
  sk_create : ∀ c d canon sub, fresh d → DeconstructDenom d = Ok (canon, sub) → spells c canon →
    preserves J (createDenomAfterValidation c d);
  sk_admin : ∀ m s, ok (ChangeAdmin m) → J s →
    administers (MsgChangeAdmin_Sender m) (MsgChangeAdmin_Denom m) s →
    J (setAdmin (MsgChangeAdmin_Denom m) (MsgChangeAdmin_NewAdmin m) s).2;
  sk_hook : ∀ sender d a s, J s → administers sender d s → J (setBeforeSendHook d a s).2;
  sk_params : ∀ p s, J s → J (on_tf (set_ParamsItem (Some p)) s);
  sk_mint : ∀ m s, ok (Mint m) → J s → validate_amount (MsgMint_Amount m) = Ok () →
    administers (MsgMint_Sender m) (coin_Denom (MsgMint_Amount m)) s →
    coin_keeps J (MsgMint_Amount m);
  sk_burn : ∀ m s, ok (Burn m) → J s → validate_amount (MsgBurn_Amount m) = Ok () →
    administers (MsgBurn_Sender m) (coin_Denom (MsgBurn_Amount m)) s →
    coin_keeps J (MsgBurn_Amount m)
}.

Context {EC : EnvClosed J} {KP : KeepersPreserve J} {SK : StoreKeeps}.

Lemma CreateDenom_keeps c sub : is_address c → preserves J (Keeper_CreateDenom c sub).
Proof.
  intros [canon Hc]%is_address_spells. unfold Keeper_CreateDenom.
  eapply (triple_bind _ _ _ (λ d s, J s ∧ GetTokenDenom c sub = Ok d ∧ fresh d)).
  { unfold validateCreateDenom. eapply triple_bind; [apply preserves_gets|intros []].
    { by intros s Hs. }
    eapply triple_bind;
      [apply (triple_lift _ _ (λ d s, J s ∧ GetTokenDenom c sub = Ok d)); done|].
    intros d s [Hs Hd]. unfold bind, read_world, gets.
    destruct (bk_GetDenomMetaData d _) eqn:Hm; [done|]. split_and!; [done..|].
    by eapply sk_fresh. }
  intros d s (Hs & Hd & Hf). revert s Hs. change (preserves J
    (chargeForCreateDenom c ;;; createDenomAfterValidation c d ;;; ret d)).
  apply preserves_bind; [apply (preserves_charge J)|intros _].
  apply preserves_bind; [|intros; apply preserves_ret].
  eapply sk_create; [done| |done]. destruct Hc as (b & Hb1 & Hb2).
  apply GetTokenDenom_inv in Hd as (-> & Hv & Hs & _). by eapply DeconstructDenom_parts.
Qed.

(** A validation that fails leaves the state; one that succeeds gives its facts. *)
Lemma validated {A} (r : res unit) (P : Prop) (m : M (state W G) A) :
  (r = Ok () → P) → (P → preserves J m) → preserves J (lift r ;;; m).
Proof.
  intros Hr Hm. eapply (triple_bind _ _ _ (λ _ s, J s ∧ P)).
  { apply triple_lift; [|done]. intros s [] Hs Hv. split; [done|by apply Hr]. }
  intros _ s [Hs HP]. by apply Hm.
Qed.

Lemma as_admin {A} sender d (m : M (state W G) A) :
  is_address sender →
  triple (λ s, J s ∧ administers sender d s) m (λ _, J) J →
  preserves J (require_admin d sender ;;; m).
Proof.
  intros Ha Hm. eapply triple_bind; [apply require_admin_ok|intros []].
  eapply triple_weaken; [apply Hm| |done..]. by intros s [Hs Hd].
Qed.

Lemma triple_state {A} P (m : M (state W G) A) :
  (∀ s, P s → J (m s).2) → triple P m (λ _, J) J.
Proof. intros H s Hs. specialize (H s Hs). by destruct (m s) as [[]]. Qed.

Lemma Mint_keeps m : ok (Mint m) → preserves J (MsgServer_Mint m).
Proof.
  intros Hok. unfold MsgServer_Mint. apply (validated _
    (is_address (MsgMint_Sender m) ∧ validate_amount (MsgMint_Amount m) = Ok ())).
  { unfold MsgMint_Validate. intros H. go_inv. destruct x. by split; [apply validate_sender_ok|]. }
  intros [Ha Hv]. apply preserves_bind; [apply preserves_gets|intros [md|]; [|apply preserves_fail]].
  apply as_admin; [done|]. intros s [Hs Hd]. pose proof (sk_mint m s Hok Hs Hv Hd) as Hk.
  clear Hd. revert s Hs. apply preserves_bind; [by apply (preserves_mintTo J)|intros _].
  apply (preserves_EmitEvents J).
Qed.

Lemma Burn_keeps m : ok (Burn m) → preserves J (MsgServer_Burn m).
Proof.
  intros Hok. unfold MsgServer_Burn. apply (validated _
    (is_address (MsgBurn_Sender m) ∧ validate_amount (MsgBurn_Amount m) = Ok ())).
  { unfold MsgBurn_Validate. intros H. go_inv. destruct x. by split; [apply validate_sender_ok|]. }
  intros [Ha Hv]. apply as_admin; [done|]. intros s [Hs Hd].
  pose proof (sk_burn m s Hok Hs Hv Hd) as Hk. clear Hd. revert s Hs.
  apply preserves_bind; [apply preserves_lift|intros acc].
  apply preserves_bind; [apply preserves_gets|intros accI].
  assert (preserves J (burnFrom (MsgBurn_Amount m) (MsgBurn_Sender m) ;;;
    EmitEvents [NewEvent TypeMsgBurn [(AttributeBurnFromAddress, MsgBurn_Sender m);
      (AttributeAmount, Coin_String (MsgBurn_Amount m))]])) as Hb.
  { apply preserves_bind; [by apply (preserves_burnFrom J)|].
    intros _; apply (preserves_EmitEvents J). }
  destruct accI as [[ad []]|]; [apply preserves_fail|apply Hb..].
Qed.

Lemma ChangeAdmin_keeps m : ok (ChangeAdmin m) → preserves J (MsgServer_ChangeAdmin m).
Proof.
  intros Hok. unfold MsgServer_ChangeAdmin. apply (validated _ (is_address (MsgChangeAdmin_Sender m))).
  { unfold MsgChangeAdmin_Validate. intros H. go_inv. by eexists. }
  intros Ha. apply as_admin; [done|].
  eapply triple_bind; [|intros; apply (preserves_EmitEvents J)].
  apply triple_state. intros s [Hs Hd]. by apply sk_admin.
Qed.

Lemma SetBeforeSendHook_keeps m : preserves J (MsgServer_SetBeforeSendHook m).
Proof.
  unfold MsgServer_SetBeforeSendHook.
  apply (validated _ (is_address (MsgSetBeforeSendHook_Sender m))).
  { unfold MsgSetBeforeSendHook_Validate. intros H. go_inv. destruct x. by apply validate_sender_ok. }
  intros Ha. apply as_admin; [done|].
  eapply triple_bind; [|intros; apply (preserves_EmitEvents J)].
  apply triple_state. intros s [Hs Hd]. by eapply sk_hook.
Qed.

Lemma handle_keeps m : ok m → preserves J (handle authority m).
Proof.
  destruct m as [m|m|m|m|m|m|m]; intros Hok; cbn [handle].
  - apply preserves_bind; [|intros; apply preserves_ret].
    unfold MsgServer_CreateDenom. apply (validated _ (is_address (MsgCreateDenom_Sender m))).
    { unfold MsgCreateDenom_Validate. intros H. go_inv. destruct x. by apply validate_sender_ok. }
    intros Ha. apply preserves_bind; [by apply CreateDenom_keeps|intros d].
    apply preserves_bind; [apply (preserves_EmitEvents J)|intros; apply preserves_ret].
  - by apply Mint_keeps.
  - by apply Burn_keeps.
  - by apply ChangeAdmin_keeps.
  - apply (preserves_SetDenomMetadata J).
  - apply SetBeforeSendHook_keeps.
  - unfold MsgServer_UpdateParams. destruct (decide _); [|apply preserves_fail].
    apply preserves_bind; [apply preserves_lift|intros _].
    apply preserves_modify. intros s Hs. by apply sk_params.
Qed.

End handle_keeps.

(** * The invariant is kept by every message *)

Section messages.
Context {W G : Type} {AC : AddressCodec} {ST : SdkTypes} {GM : GasMeter G}.
Context {AK : AccountKeeper W G} {BV : BankView W} {BK : BankKeeper W G}.
Context {CP : CommunityPoolKeeper W G}.
Context {CK : ContractKeeper W G} {KW : KeyWalk}.
Context {LG : BankLedger W} {BML : BankMetadataLaws} {ACL : AddressCodecLaws AC}.
Implicit Types (s : state W G).

(** The store's invariant, and bank metadata for every denom of the module. *)
Definition module_inv s : Prop :=
  tf_inv (tf s) ∧
  ∀ d, is_Some (DenomAuthority (tf s) !! d) → is_Some (bk_GetDenomMetaData d (world (ext s))).

#[export] Instance module_inv_env : EnvClosed module_inv.
Proof. intros s e [Hi Hm] Hk. split; [done|]. intros d Hd. by apply Hk, Hm. Qed.

(** The two writes of createDenomAfterValidation, which succeed or fail together. *)
Lemma set_then_add d c s :
  (setAuthorityMetadata d {| Admin := c |} ;;; addDenomFromCreator c d) s =
  match DenomAuthorityMetadata_Validate {| Admin := c |} with
  | Ok _ => (Ok (), on_tf (λ t, set_CreatorDenoms ({[(c, d)]} ∪ CreatorDenoms t)
              (set_DenomAuthority (<[d := {| Admin := c |}]> (DenomAuthority t)) t)) s)
  | Err e => (Err e, s)
  | Panic p => (Panic p, s)
  end.
Proof.
  unfold bind, setAuthorityMetadata, bind, lift.
  destruct (DenomAuthorityMetadata_Validate _) eqn:Hv; [|done..]. unfold addDenomFromCreator.
  assert (mem_byte "000" c = false) as ->; [|done]. revert Hv. unfold DenomAuthorityMetadata_Validate. cbn.
  destruct (is_empty c) eqn:Hc; [by apply is_empty_true in Hc as ->|]. cbn. unfold rbind.
  destruct (StringToBytes c) eqn:Hs; [|done..]. by apply StringToBytes_printable in Hs.
Qed.

(** The state after the first step of createDenomAfterValidation. *)
Definition with_metadata (d : string) s : state W G :=
  match bk_GetDenomMetaData d (world (ext s)) with
  | Some _ => s
  | None => put_ext (Env (bk_SetDenomMetaData (denomMetaData d) (world (ext s)))
                       (gas (ext s)) (events (ext s))) s
  end.

Lemma createDenomAfterValidation_eq c d s :
  createDenomAfterValidation c d s =
  (setAuthorityMetadata d {| Admin := c |} ;;; addDenomFromCreator c d) (with_metadata d s).
Proof.
  unfold createDenomAfterValidation, with_metadata, read_world, write_world, gets.
  unfold bind at 1. by destruct (bk_GetDenomMetaData d _).
Qed.

Lemma with_metadata_spec d s :
  tf (with_metadata d s) = tf s ∧
  metadata_kept (world (ext s)) (world (ext (with_metadata d s))) ∧
  is_Some (bk_GetDenomMetaData d (world (ext (with_metadata d s)))).
Proof.
  unfold with_metadata. destruct (bk_GetDenomMetaData d (world (ext s))) eqn:Hd.
  - split_and!; [done|apply metadata_kept_refl|by rw Hd].
  - split_and!; [done|apply metadata_kept_set|].
    rw (bk_get_set (denomMetaData d)). by eexists.
Qed.

Lemma createDenomAfterValidation_inv c d canon sub :
  DeconstructDenom d = Ok (canon, sub) → spells c canon →
  preserves module_inv (createDenomAfterValidation c d).
Proof.
  intros Hd Hc s [Hi Hm]. rw createDenomAfterValidation_eq set_then_add.
  destruct (with_metadata_spec d s) as (Ht & Hk & Hs).
  assert (module_inv (with_metadata d s)) as Hw.
  { unfold module_inv. rw Ht. split; [done|]. intros d1 H1. by apply Hk, Hm. }
  destruct (DenomAuthorityMetadata_Validate _); [|done..].
  destruct Hw as [Hi1 Hm1]. split; cbn; [by eapply tf_inv_create|].
  intros d1. destruct (decide (d1 = d)) as [->|Hne]; [done|]. rw lookup_insert_ne //. apply Hm1.
Qed.

Lemma setAuthorityMetadata_inv d m :
  triple (λ s, module_inv s ∧ is_Some (DenomAuthority (tf s) !! d))
    (setAuthorityMetadata d m) (λ _, module_inv) module_inv.
Proof.
  intros s [[Hi Hm] Hs]. unfold setAuthorityMetadata, bind, lift, modify.
  destruct (DenomAuthorityMetadata_Validate m) as [[]|e|p] eqn:Hv; [|done..].
  split; cbn; [by apply tf_inv_authority|].
  intros d1. destruct (decide (d1 = d)) as [->|Hne]; [by intros _; apply Hm|].
  rw lookup_insert_ne //. apply Hm.
Qed.

Lemma setAdmin_inv d a :
  triple (λ s, module_inv s ∧ is_Some (DenomAuthority (tf s) !! d))
    (setAdmin d a) (λ _, module_inv) module_inv.
Proof.
  unfold setAdmin. eapply (triple_bind _ _ _
    (λ _ s, module_inv s ∧ is_Some (DenomAuthority (tf s) !! d))).
  - intros s [Hs Hd]. unfold GetAuthorityMetadata.
    by destruct (DenomAuthority (tf s) !! d) eqn:E; [rw E|].
  - intros _. apply setAuthorityMetadata_inv.
Qed.

Lemma setBeforeSendHook_inv d a :
  triple (λ s, module_inv s ∧ is_Some (DenomAuthority (tf s) !! d))
    (setBeforeSendHook d a) (λ _, module_inv) module_inv.
Proof.
  intros s [[Hi Hm] Hd].
  destruct (setBeforeSendHook d a s) as [r s1] eqn:He.
  apply setBeforeSendHook_out in He as (Hok & Herr & Hw & _).
  assert (module_inv s1); [|by destruct r]. unfold module_inv. rw Hw.
  destruct (decide (r = Ok ())) as [->|Hne].
  - destruct Hok as (_ & Ha & ->); [done|]. split; [|done].
    apply tf_inv_hook; [done..|]. intros (? & b & _ & Hb & _)%Ha. by exists b.
  - by rw Herr.
Qed.

(** The invariant satisfies the conditions for every message, once minting and burning
    keep it. *)
Lemma module_inv_keeps (ok : tf_msg → Prop) :
  (∀ cs, mint_keeps module_inv cs) → StoreKeeps ok module_inv (λ _, True).
Proof.
  intros Hmint. split; try done.
  - intros c d canon sub _. apply createDenomAfterValidation_inv.
  - intros m s _ Hs [_ Hd]. pose proof (setAdmin_inv (MsgChangeAdmin_Denom m)
      (MsgChangeAdmin_NewAdmin m) s) as H. rw Hd in H. specialize (H (conj Hs (mk_is_Some _ _ eq_refl))).
    by destruct (setAdmin _ _ s) as [[]].
  - intros sender d a s Hs [_ Hd]. pose proof (setBeforeSendHook_inv d a s) as H.
    rw Hd in H. specialize (H (conj Hs (mk_is_Some _ _ eq_refl))).
    by destruct (setBeforeSendHook _ _ s) as [[]].
  - intros p s [Hi Hm]. split; [by apply tf_inv_params|done].
  - by intros m s _ _ _ _ cs _.
  - by intros m s _ _ _ _ cs _.
Qed.

End messages.

(** * Who may change what *)

Section authority.
Context {W G : Type} {AC : AddressCodec} {ST : SdkTypes} {GM : GasMeter G}.
Context {AK : AccountKeeper W G} {BV : BankView W} {BK : BankKeeper W G}.
Context {CP : CommunityPoolKeeper W G}.
Context {CK : ContractKeeper W G} {KW : KeyWalk}.
Context {LG : BankLedger W} {BML : BankMetadataLaws} {ACL : AddressCodecLaws AC}.
Implicit Types (s : state W G).

(** The invariant holds and [a] is the admin of [d]. *)
Definition admin_is (d a : string) s : Prop :=
  module_inv s ∧ DenomAuthority (tf s) !! d = Some {| Admin := a |}.

#[export] Instance admin_is_env d a : EnvClosed (admin_is d a).
Proof. intros s e [Hi Hd] Hk. split; [by apply env_closed|done]. Qed.

(** The messages by which the admin [a] of [d] hands [d] over. *)
Definition hands_over (d a : string) (m : tf_msg) : Prop :=
  ∃ c, m = ChangeAdmin c ∧ MsgChangeAdmin_Denom c = d ∧ MsgChangeAdmin_Sender c = a.

Lemma createDenomAfterValidation_authority c d d1 s :
  d1 ≠ d →
  DenomAuthority (tf (createDenomAfterValidation c d s).2) !! d1 = DenomAuthority (tf s) !! d1.
Proof.
  intros Hne. rw createDenomAfterValidation_eq set_then_add.
  destruct (with_metadata_spec d s) as (Ht & _).
  destruct (DenomAuthorityMetadata_Validate _); cbn; rw ?Ht //. by rw lookup_insert_ne.
Qed.

Lemma setAdmin_authority d a d1 s :
  d1 ≠ d → DenomAuthority (tf (setAdmin d a s).2) !! d1 = DenomAuthority (tf s) !! d1.
Proof.
  intros Hne. unfold setAdmin, bind, GetAuthorityMetadata, setAuthorityMetadata, bind, lift.
  destruct (DenomAuthority (tf s) !! d); [|done].
  destruct (DenomAuthorityMetadata_Validate _); cbn; rw ?lookup_insert_ne //.
Qed.

Lemma setBeforeSendHook_authority d a s :
  DenomAuthority (tf (setBeforeSendHook d a s).2) = DenomAuthority (tf s).
Proof.
  destruct (setBeforeSendHook d a s) as [r s1] eqn:He.
  apply setBeforeSendHook_out in He as (Hok & Herr & _). cbn.
  destruct (decide (r = Ok ())) as [->|Hne]; [|by rw Herr].
  by destruct Hok as (_ & _ & ->).
Qed.

Lemma not_empty_address a : is_address a → a ≠ "".
Proof. intros [b H] ->. by apply StringToBytes_empty in H. Qed.

(** The admin of a denom changes only when the admin hands the denom over. *)
Lemma admin_is_keeps (ok : tf_msg → Prop) d a :
  (∀ m, ok m → ¬ hands_over d a m ∨ a = "") →
  (∀ cs, mint_keeps module_inv cs) → (∀ cs, mint_keeps (admin_is d a) cs) →
  StoreKeeps ok (admin_is d a) (λ d1, d1 ≠ d).
Proof.
  intros Hok HI HJ. destruct (module_inv_keeps ok HI) as [Hf Hc Ha Hh Hp _ _]. split.
  - intros s d1 [[_ Hm] Hd] Hn ->. destruct (Hm d) as [md Hmd]; [|congruence].
    rw Hd. by eexists.
  - intros c d1 canon sub Hne Hdec Hsp. apply preserves_snd. intros s [Hi Hd]. split.
    + by eapply preserves_snd; [eapply Hc|].
    + by rw createDenomAfterValidation_authority.
  - intros m s Hm [Hi Hd] Had. split; [by apply Ha|]. destruct Had as [Hadr Hcur].
    destruct (decide (MsgChangeAdmin_Denom m = d)) as [Heq|Hne].
    + rw Heq Hd in Hcur. injection Hcur as Hcur. destruct (Hok _ Hm) as [Hno| ->].
      * destruct Hno. by exists m.
      * by apply not_empty_address in Hadr.
    + by rw setAdmin_authority.
  - intros sender d1 a1 s [Hi Hd] Had. split; [by eapply Hh|].
    by rw setBeforeSendHook_authority.
  - intros p s [Hi Hd]. split; [by apply Hp|done].
  - by intros m s _ _ _ _ cs _.
  - by intros m s _ _ _ _ cs _.
Qed.

(** ** Supply *)

(** [d] has the admin [a] and the supply [n]. *)
Definition supply_is (d a : string) (n : Z) s : Prop :=
  admin_is d a s ∧ Supply d (world (ext s)) = n.

(** The messages by which the admin [a] of [d] changes its supply. *)
Definition issues (d a : string) (m : tf_msg) : Prop :=
  (∃ c, m = Mint c ∧ coin_Denom (MsgMint_Amount c) = d ∧ MsgMint_Sender c = a) ∨
  (∃ c, m = Burn c ∧ coin_Denom (MsgBurn_Amount c) = d ∧ MsgBurn_Sender c = a).

(** A denom of the form factory/creator/subdenom is in the module's name space. *)
Lemma has_prefix_app p t : has_prefix p (p +:+ t) = true.
Proof.
  induction p as [|c p IH]; [done|]. rw app_cons_s. cbn. by rw bool_decide_true.
Qed.

Lemma module_denom_factory d s :
  module_inv s → is_Some (DenomAuthority (tf s) !! d) → is_factory d.
Proof.
  intros [[Hl _ Hd _] _] [c Hc]%Hl. destruct (Hd c d Hc) as (canon & sub & Hdec & _).
  apply DeconstructDenom_inv in Hdec as (raw & addr & -> & _).
  cbn [join]. unfold is_factory.
  replace (ModuleDenomPrefix +:+ "/" +:+ raw +:+ "/" +:+ sub)
    with ((ModuleDenomPrefix +:+ "/") +:+ raw +:+ "/" +:+ sub) by by rw app_assoc_s.
  apply has_prefix_app.
Qed.

#[export] Instance supply_is_env d a n : EnvClosed (supply_is d a n).
Proof.
  intros s e [[Hi Hd] Hn] Hk. split; [by apply env_closed|]. destruct Hk as [_ Hk].
  rw -Hn. apply Hk. eapply module_denom_factory; [done|]. rw Hd. by eexists.
Qed.

(** The supply of a denom changes only by its admin's Mint and Burn messages. *)
Lemma supply_is_keeps {STL : SdkTypesLaws ST} (ok : tf_msg → Prop) d a n :
  (∀ m, ok m → (¬ hands_over d a m ∧ ¬ issues d a m) ∨ a = "") →
  (∀ cs, mint_keeps module_inv cs) → (∀ cs, mint_keeps (admin_is d a) cs) →
  (∀ c, coin_Denom c ≠ d → mint_keeps (supply_is d a n) [c]) →
  StoreKeeps ok (supply_is d a n) (λ d1, d1 ≠ d).
Proof.
  intros Hok HI HA HJ.
  destruct (admin_is_keeps ok d a) as [Hf Hc Ha Hh Hp _ _]; [naive_solver|done..|].
  assert (Hcoin : ∀ c cs, validate_amount c = Ok () → coin_Denom c ≠ d →
    NewCoins [c] = Ok cs → mint_keeps (supply_is d a n) cs).
  { intros c cs Hv Hne Hcs. unfold validate_amount, Coin_IsValid in Hv.
    do 2 case_bool_decide; try done. rw NewCoins_one // in Hcs. injection Hcs as <-. by apply HJ. }
  split.
  - intros s d1 [Hs _]. by eapply Hf.
  - intros c d1 canon sub Hne Hdec Hsp. apply preserves_snd. intros s [Hs Hn]. split.
    + by eapply preserves_snd; [eapply Hc|].
    + rw -Hn createDenomAfterValidation_eq set_then_add. unfold with_metadata.
      destruct (bk_GetDenomMetaData _ _), (DenomAuthorityMetadata_Validate _); cbn; rw ?bk_set_supply //.
  - intros m s Hm [Hs Hn] Had. split; [by apply Ha|]. rw -Hn.
    unfold setAdmin, bind, GetAuthorityMetadata, setAuthorityMetadata, bind, lift.
    destruct (DenomAuthority _ !! _); [|done]. by destruct (DenomAuthorityMetadata_Validate _).
  - intros sender d1 a1 s [Hs Hn] Had. split; [by eapply Hh|]. rw -Hn.
    destruct (setBeforeSendHook d1 a1 s) as [r s1] eqn:He.
    apply setBeforeSendHook_out in He as (_ & _ & Hw & _). by rw Hw.
  - intros p s [Hs Hn]. split; [by apply Hp|done].
  - intros m s Hm [[Hi Hd] Hn] Hv [Hadr Hcur] cs Hcs. eapply Hcoin; [done| |done].
    intros Heq. rw Heq Hd in Hcur. injection Hcur as Hcur.
    destruct (Hok _ Hm) as [[_ Hno]| ->]; [|by apply not_empty_address in Hadr].
    apply Hno. left. by exists m.
  - intros m s Hm [[Hi Hd] Hn] Hv [Hadr Hcur] cs Hcs. eapply Hcoin; [done| |done].
    intros Heq. rw Heq Hd in Hcur. injection Hcur as Hcur.
    destruct (Hok _ Hm) as [[_ Hno]| ->]; [|by apply not_empty_address in Hadr].
    apply Hno. right. by exists m.
Qed.

End authority.
