(* ===== verification/TfGenesis.v ===== *)
(** Genesis of the token factory: importing a valid genesis succeeds and establishes the
    invariant, and the round trips between genesis and store (x/tokenfactory/keeper,
    genesis.go). *)
From S2P Require Import Prelude.
From S2P Require Import Interfaces.
From S2P Require Import TfTypes.
From S2P Require Import TfKeeper.
From S2P Require Import Bank.
From S2P Require Import TfMsgServer.
From S2P Require Import TfInvariants.

Section genesis.
Context {W G : Type} {AC : AddressCodec} {ST : SdkTypes} {GM : GasMeter G}.
Context {AK : AccountKeeper W G} {BV : BankView W} {KW : KeyWalk}.
Context {LG : BankLedger W} {BML : BankMetadataLaws} {ACL : AddressCodecLaws AC}.
Implicit Types (s : state W G) (t : TfStore) (gd : GenesisDenom) (gds : list GenesisDenom).

(** The creator under which a denom is listed: the codec's spelling of the one it names. *)
Definition canonical_creator (d : string) : string :=
  match DeconstructDenom d with Ok (c, _) => c | _ => "" end.

(** The store with one denom of a genesis added. *)
Definition add_denom t gd : TfStore :=
  set_CreatorDenoms ({[(canonical_creator (gd_Denom gd), gd_Denom gd)]} ∪ CreatorDenoms t)
    (set_DenomAuthority (<[gd_Denom gd := gd_AuthorityMetadata gd]> (DenomAuthority t)) t).

Lemma Validate_address c b :
  StringToBytes c = Ok b → DenomAuthorityMetadata_Validate {| Admin := c |} = Ok ().
Proof.
  intros Hc. unfold DenomAuthorityMetadata_Validate. cbn. destruct (is_empty c); [done|].
  cbn. by rw Hc.
Qed.

Lemma valid_denom_Validate gd :
  valid_genesis_denom gd → DenomAuthorityMetadata_Validate (gd_AuthorityMetadata gd) = Ok ().
Proof.
  intros [_ [Ha|[b Hb]]]; destruct (gd_AuthorityMetadata gd); cbn in *.
  - by subst.
  - by eapply Validate_address.
Qed.

Lemma canonical_address d c sub :
  DeconstructDenom d = Ok (c, sub) → canonical_creator d = c ∧ spells c c.
Proof.
  intros H. unfold canonical_creator. rw H. split; [done|].
  apply DeconstructDenom_inv in H as (raw & addr & _ & _ & _ & Hr & Hb).
  exists addr. split; [|done]. destruct (BytesToString_decoded _ _ Hr) as (c1 & Hc1 & Hs).
  rw Hc1 in Hb. by injection Hb as ->.
Qed.

(** One iteration of InitGenesis on a valid denom. *)
Lemma init_denom_ok gd s :
  valid_genesis_denom gd →
  ∃ s1, init_denom gd s = (Ok (), s1) ∧ tf s1 = add_denom (tf s) gd ∧
    metadata_kept (world (ext s)) (world (ext s1)) ∧
    is_Some (bk_GetDenomMetaData (gd_Denom gd) (world (ext s1))).
Proof.
  intros Hv. pose proof (valid_denom_Validate gd Hv) as Ha. destruct Hv as [[[c sub] Hd] _].
  destruct (canonical_address _ _ _ Hd) as [Hc (b & Hb & _)].
  destruct (with_metadata_spec (gd_Denom gd) s) as (Ht & Hk & Hm).
  unfold init_denom, must, lift, bind at 1. rw Hd. cbn [fst].
  unfold bind at 1. rw createDenomAfterValidation_eq set_then_add (Validate_address c b Hb).
  unfold setAuthorityMetadata, bind, lift. rw Ha. unfold modify.
  eexists. split; [done|]. split; [|by split].
  cbn. rw Ht. unfold add_denom, set_CreatorDenoms, set_DenomAuthority. cbn.
  by rw Hc insert_insert_eq.
Qed.

Lemma init_denoms_ok gds s :
  Forall valid_genesis_denom gds →
  ∃ s1, for_each gds init_denom s = (Ok (), s1) ∧ tf s1 = foldl add_denom (tf s) gds ∧
    metadata_kept (world (ext s)) (world (ext s1)) ∧
    Forall (λ gd, is_Some (bk_GetDenomMetaData (gd_Denom gd) (world (ext s1)))) gds.
Proof.
  intros Hv. revert s. induction Hv as [|gd gds Hgd _ IH]; intros s; cbn.
  { exists s. split_and!; [done|done|apply metadata_kept_refl|done]. }
  destruct (init_denom_ok gd s Hgd) as (s1 & H1 & Ht1 & Hk1 & Hm1).
  destruct (IH s1) as (s2 & H2 & Ht2 & Hk2 & Hm2). exists s2.
  rw (bind_ok _ _ _ _ _ H1) -Ht1. split_and!; [done|done|by eapply metadata_kept_trans|].
  constructor; [by apply Hk2|done].
Qed.

(** ** The store a genesis describes *)

Lemma TfStore_ext t1 t2 :
  CreatorDenoms t1 = CreatorDenoms t2 → DenomAuthority t1 = DenomAuthority t2 →
  DenomHookAddr t1 = DenomHookAddr t2 → ParamsItem t1 = ParamsItem t2 → t1 = t2.
Proof. destruct t1, t2; cbn. by intros -> -> -> ->. Qed.

Lemma foldl_CreatorDenoms gds t :
  CreatorDenoms (foldl add_denom t gds) =
  list_to_set ((λ gd, (canonical_creator (gd_Denom gd), gd_Denom gd)) <$> gds) ∪ CreatorDenoms t.
Proof.
  revert t. induction gds as [|gd gds IH]; intros t; cbn; [set_solver|]. rw IH. set_solver.
Qed.

Lemma foldl_rest gds t :
  DenomHookAddr (foldl add_denom t gds) = DenomHookAddr t ∧
  ParamsItem (foldl add_denom t gds) = ParamsItem t.
Proof. revert t. induction gds as [|gd gds IH]; intros t; [done|]. cbn. by rw !(proj1 (IH _)) !(proj2 (IH _)). Qed.

Lemma foldl_authority_other gds t d :
  d ∉ gd_Denom <$> gds → DenomAuthority (foldl add_denom t gds) !! d = DenomAuthority t !! d.
Proof.
  revert t. induction gds as [|gd gds IH]; intros t Hd; [done|]. cbn in *.
  rw IH; [|set_solver]. cbn. rw lookup_insert_ne //. set_solver.
Qed.

Lemma foldl_authority gds t gd :
  NoDup (gd_Denom <$> gds) → gd ∈ gds →
  DenomAuthority (foldl add_denom t gds) !! gd_Denom gd = Some (gd_AuthorityMetadata gd).
Proof.
  revert t. induction gds as [|x gds IH]; intros t Hnd Hin; [set_solver|].
  apply NoDup_cons in Hnd as [Hx Hnd]. apply elem_of_cons in Hin as [->|Hin]; cbn; [|by apply IH].
  rw foldl_authority_other //. cbn. by rw lookup_insert_eq.
Qed.

Lemma default_fee_ok {STL : SdkTypesLaws ST} p s : default_fee p s = (Ok p, s).
Proof.
  unfold default_fee. case_bool_decide as Hp; [|done]. unfold bind, lift. rw NewCoins_nil.
  destruct p. cbn in *. by subst.
Qed.

Lemma init_genesis_ok {STL : SdkTypesLaws ST} g s e1 a :
  GetModuleAccount ModuleName (ext s) = (Ok a, e1) →
  Forall valid_genesis_denom (gs_FactoryDenoms g) →
  ∃ s1, InitGenesis g s = (Ok (), s1) ∧
    tf s1 = foldl add_denom (set_ParamsItem (Some (gs_Params g)) (tf s)) (gs_FactoryDenoms g) ∧
    metadata_kept (world e1) (world (ext s1)) ∧
    Forall (λ gd, is_Some (bk_GetDenomMetaData (gd_Denom gd) (world (ext s1)))) (gs_FactoryDenoms g).
Proof.
  intros Ha Hv. unfold InitGenesis, CreateModuleAccount, in_ext, zoom, bind at 1, bind at 1.
  rw Ha. cbn. unfold bind at 1. rw default_fee_ok. unfold bind, must. cbn.
  by apply init_denoms_ok.
Qed.

(** The invariant of the store a genesis describes. *)
Lemma foldl_inv gds t :
  Forall valid_genesis_denom gds → tf_inv t → tf_inv (foldl add_denom t gds).
Proof.
  intros Hv. revert t. induction Hv as [|gd gds Hgd _ IH]; intros t Ht; [done|]. cbn. apply IH.
  pose proof (valid_denom_Validate gd Hgd) as Ha. destruct Hgd as [[[c sub] Hd] _].
  destruct (canonical_address _ _ _ Hd) as [Hc Hsp].
  pose proof (tf_inv_create t c _ _ _ Ht Hd Hsp) as Hi.
  apply (tf_inv_authority _ (gd_Denom gd) (gd_AuthorityMetadata gd)) in Hi; [|cbn; rw lookup_insert_eq; by eexists|done].
  cbn in Hi. unfold add_denom. rw Hc. unfold set_DenomAuthority, set_CreatorDenoms in *. cbn in *.
  by rw insert_insert_eq in Hi.
Qed.

(** An import that succeeds has made the account of the module. *)
Lemma module_account_ok g s s1 :
  InitGenesis g s = (Ok (), s1) → ∃ a e1, GetModuleAccount ModuleName (ext s) = (Ok a, e1).
Proof.
  unfold InitGenesis, CreateModuleAccount, in_ext, zoom. intros (u & s2 & H & _)%bind_ok_inv.
  apply bind_ok_inv in H as (a & s3 & H & _). destruct (GetModuleAccount ModuleName (ext s)) as [[]];
    simplify_eq. by eexists _, _.
Qed.

(** A successful import of valid denoms into an empty store establishes the invariant. *)
Lemma init_genesis_inv {STL : SdkTypesLaws ST} g s s1 :
  tf s = empty_store → GenesisState_Validate g = Ok () → InitGenesis g s = (Ok (), s1) →
  module_inv s1.
Proof.
  intros Ht (_ & Hnd & Hv)%valid_genesis_iff Hs1.
  destruct (module_account_ok g s s1 Hs1) as (a & e1 & Ha).
  destruct (init_genesis_ok g s e1 a Ha Hv) as (s2 & H1 & Ht1 & _ & Hm).
  rw H1 in Hs1. injection Hs1 as <-.
  split; [rw Ht1 Ht; apply foldl_inv; [done|]; apply tf_inv_params, tf_inv_empty|].
  intros d Hd. rw Ht1 Ht in Hd.
  destruct (decide (d ∈ gd_Denom <$> gs_FactoryDenoms g)) as [Hin|Hni].
  - apply list_elem_of_fmap in Hin as (gd & -> & Hin). rw Forall_forall in Hm. by apply Hm.
  - rw foldl_authority_other // in Hd. by destruct Hd.
Qed.

(** ** Export *)

Lemma export_denoms_ok keys s (au : string → DenomAuthorityMetadata) :
  Forall (λ k, DenomAuthority (tf s) !! k.2 = Some (au k.2)) keys →
  export_denoms keys s =
    (Ok ((λ k, {| gd_Denom := k.2; gd_AuthorityMetadata := au k.2 |}) <$> keys), s).
Proof.
  induction 1 as [|[c d] keys Hk _ IH]; [done|]. cbn in *.
  unfold bind at 1, must, GetAuthorityMetadata. rw Hk. by rw (bind_ok _ _ _ _ _ IH).
Qed.

(** The genesis denom exported for a key. *)
Definition exported t (k : string * string) : GenesisDenom :=
  {| gd_Denom := k.2;
     gd_AuthorityMetadata := default {| Admin := "" |} (DenomAuthority t !! k.2) |}.

Lemma export_genesis_ok {KWL : KeyWalkLaws KW} s p :
  tf_inv (tf s) → ParamsItem (tf s) = Some p →
  ExportGenesis s =
    (Ok {| gs_Params := p; gs_FactoryDenoms := exported (tf s) <$> walk (CreatorDenoms (tf s)) |}, s).
Proof.
  intros Hi Hp. unfold ExportGenesis, bind at 1, gets.
  rw (bind_ok _ _ _ _ _ (export_denoms_ok _ s (λ d, default {| Admin := "" |} (DenomAuthority (tf s) !! d)) _)).
  - unfold bind, GetParams, gets. by rw Hp.
  - apply Forall_forall. intros [c d] Hin. rw walk_elements elem_of_elements in Hin.
    cbn. destruct (proj2 (inv_listed _ Hi d)) as [m Hm]; [by exists c|]. by rw Hm.
Qed.

(** ** Theorems *)

(** Importing a validated genesis into an empty store succeeds, establishes the module's
    invariant, and leaves exactly the denoms, admins and parameters of the genesis and
    no hooks. The one call outside the module is to the account keeper. *)
Theorem InitGenesis_ok {STL : SdkTypesLaws ST} g s e1 a :
  tf s = empty_store → GenesisState_Validate g = Ok () →
  GetModuleAccount ModuleName (ext s) = (Ok a, e1) →
  ∃ s1, InitGenesis g s = (Ok (), s1) ∧ module_inv s1 ∧
    ParamsItem (tf s1) = Some (gs_Params g) ∧ DenomHookAddr (tf s1) = ∅ ∧
    (∀ d m, DenomAuthority (tf s1) !! d = Some m ↔
       {| gd_Denom := d; gd_AuthorityMetadata := m |} ∈ gs_FactoryDenoms g) ∧
    (∀ c d, (c, d) ∈ CreatorDenoms (tf s1) ↔
       c = canonical_creator d ∧ d ∈ gd_Denom <$> gs_FactoryDenoms g).
Proof.
  intros Ht (_ & Hnd & Hv)%valid_genesis_iff Ha.
  destruct (init_genesis_ok g s e1 a Ha Hv) as (s1 & H1 & Ht1 & _ & Hm). rw Ht in Ht1.
  set (t0 := set_ParamsItem (Some (gs_Params g)) empty_store) in *.
  destruct (foldl_rest (gs_FactoryDenoms g) t0) as [Hh Hp].
  exists s1. split; [done|].
  assert (Hau : ∀ d m, DenomAuthority (tf s1) !! d = Some m ↔
    {| gd_Denom := d; gd_AuthorityMetadata := m |} ∈ gs_FactoryDenoms g).
  { intros d m. rw Ht1. split.
    - intros Hd. destruct (decide (d ∈ gd_Denom <$> gs_FactoryDenoms g)) as [Hin|Hni].
      + apply list_elem_of_fmap in Hin as ([d1 m1] & -> & Hin). cbn in *.
        rw (foldl_authority _ t0 _ Hnd Hin) in Hd. by injection Hd as ->.
      + by rw foldl_authority_other // in Hd.
    - intros Hin. by rw (foldl_authority _ t0 _ Hnd Hin). }
  rw Ht1 Hp Hh. split_and!; [|done|done|by rw -Ht1|].
  - split; [rw Ht1; apply foldl_inv; [done|]; apply tf_inv_params, tf_inv_empty|].
    intros d [m Hd%Hau]. rw Forall_forall in Hm. by apply (Hm _ Hd).
  - intros c d. rw foldl_CreatorDenoms. cbn. rw right_id_L elem_of_list_to_set !list_elem_of_fmap.
    naive_solver.
Qed.

(** Exporting what was imported gives the genesis back: the same parameters, and the same
    denoms with the same admins, in the order of the store. *)
Theorem Export_InitGenesis {STL : SdkTypesLaws ST} {KWL : KeyWalkLaws KW} g s e1 a :
  tf s = empty_store → GenesisState_Validate g = Ok () →
  GetModuleAccount ModuleName (ext s) = (Ok a, e1) →
  ∃ s1 g1, InitGenesis g s = (Ok (), s1) ∧ ExportGenesis s1 = (Ok g1, s1) ∧
    gs_Params g1 = gs_Params g ∧ gs_FactoryDenoms g1 ≡ₚ gs_FactoryDenoms g.
Proof.
  intros Ht (_ & Hnd & Hv)%valid_genesis_iff Ha.
  destruct (init_genesis_ok g s e1 a Ha Hv) as (s1 & H1 & Ht1 & _ & Hm). rw Ht in Ht1.
  set (t0 := set_ParamsItem (Some (gs_Params g)) empty_store) in *.
  destruct (foldl_rest (gs_FactoryDenoms g) t0) as [_ Hp].
  exists s1, {| gs_Params := gs_Params g; gs_FactoryDenoms := exported (tf s1) <$> walk (CreatorDenoms (tf s1)) |}.
  split_and!; [done| |done|].
  - apply export_genesis_ok; [|by rw Ht1 Hp].
    rw Ht1. apply foldl_inv; [done|]. apply tf_inv_params, tf_inv_empty.
  - cbn. rw walk_elements Ht1 foldl_CreatorDenoms. cbn. rw right_id_L elements_list_to_set.
    + rw -list_fmap_compose. apply reflexive_eq. trans (id <$> gs_FactoryDenoms g);
        [|apply list_fmap_id]. apply list_fmap_ext. intros i gd Hin%list_elem_of_lookup_2. unfold exported.
      cbn. rw (foldl_authority _ t0 _ Hnd Hin). by destruct gd.
    + apply (NoDup_fmap_1 snd). by rw -list_fmap_compose.
Qed.

(** Every denom is listed under one creator. *)
Definition listed_once t : Prop :=
  ∀ c c1 d, (c, d) ∈ CreatorDenoms t → (c1, d) ∈ CreatorDenoms t → c = c1.

(** The store without hooks, and with the creators in the codec's spelling. *)
Definition relisted t : TfStore :=
  set_DenomHookAddr ∅
    (set_CreatorDenoms (set_map (λ k, (canonical_creator k.2, k.2)) (CreatorDenoms t)) t).

Lemma relisted_canonical t :
  (∀ c d, (c, d) ∈ CreatorDenoms t → c = canonical_creator d) → relisted t = set_DenomHookAddr ∅ t.
Proof.
  intros Hcan. apply TfStore_ext; [|done..]. cbn. apply set_eq. intros [c d]. rw elem_of_map. split.
  - intros ([c1 d1] & [= -> ->] & Hk). by rw -(Hcan _ _ Hk).
  - intros Hk. exists (c, d). by rw -(Hcan _ _ Hk).
Qed.

(** Importing what was exported, into an empty store, restores the parameters, the admins
    and the lists of denoms, with the creators in the codec's spelling; it restores
    no hook: the exported genesis has no place for hooks, so a chain restarted from its
    export has lost every before-send hook. *)
Theorem Init_ExportGenesis {STL : SdkTypesLaws ST} {KWL : KeyWalkLaws KW} s p s0 e1 a :
  module_inv s → ParamsItem (tf s) = Some p → Coins_Validate (DenomCreationFee p) = None →
  listed_once (tf s) →
  tf s0 = empty_store → GetModuleAccount ModuleName (ext s0) = (Ok a, e1) →
  ∃ g s1, ExportGenesis s = (Ok g, s) ∧ GenesisState_Validate g = Ok () ∧
    InitGenesis g s0 = (Ok (), s1) ∧ tf s1 = relisted (tf s) ∧
    gs_Params g = p ∧ (∀ gd, gd ∈ gs_FactoryDenoms g →
      DenomAuthority (tf s) !! gd_Denom gd = Some (gd_AuthorityMetadata gd)).
Proof.
  intros [Hi _] Hp Hfee Honce Ht0 Ha.
  set (gds := exported (tf s) <$> walk (CreatorDenoms (tf s))).
  assert (Hd : gd_Denom <$> gds = snd <$> walk (CreatorDenoms (tf s))).
  { unfold gds. by rw -list_fmap_compose. }
  assert (Hnd : NoDup (gd_Denom <$> gds)).
  { rw Hd walk_elements. apply NoDup_fmap_2_strong; [|apply NoDup_elements].
    intros [c d] [c1 d1] H1%elem_of_elements H2%elem_of_elements Heq. cbn in Heq. subst d1.
    f_equal. by eapply Honce. }
  assert (Hin : ∀ gd, gd ∈ gds ↔ ∃ c, (c, gd_Denom gd) ∈ CreatorDenoms (tf s) ∧
    DenomAuthority (tf s) !! gd_Denom gd = Some (gd_AuthorityMetadata gd)).
  { intros gd. unfold gds. rw list_elem_of_fmap. setoid_rewrite walk_elements.
    setoid_rewrite elem_of_elements. split.
    - intros ([c d] & -> & Hk). exists c. split; [done|]. cbn.
      destruct (proj2 (inv_listed _ Hi d)) as [m Hm]; [by exists c|]. by rw Hm.
    - intros (c & Hk & Hm). exists (c, gd_Denom gd). split; [|done]. unfold exported. cbn.
      rw Hm. by destruct gd. }
  assert (Hv : Forall valid_genesis_denom gds).
  { apply Forall_forall. intros gd (c & Hk & Hm)%Hin. split.
    - destruct (inv_denom _ Hi c _ Hk) as (canon & sub & Hdec & _). by eexists.
    - by apply (inv_admin _ Hi (gd_Denom gd)). }
  set (g := {| gs_Params := p; gs_FactoryDenoms := gds |}).
  destruct (init_genesis_ok g s0 e1 a Ha Hv) as (s1 & H1 & Ht1 & _). rw Ht0 in Ht1.
  exists g, s1. split_and!; [by apply export_genesis_ok|by apply valid_genesis_iff|done| |done|].
  2: { intros gd (c & _ & Hm)%Hin. done. }
  rw Ht1. apply TfStore_ext; cbn.
  - rw foldl_CreatorDenoms. cbn. rw right_id_L. apply set_eq. intros [c d].
    rw elem_of_list_to_set list_elem_of_fmap elem_of_map. split.
    + intros (gd & [= -> ->] & (c1 & Hk & _)%Hin). by exists (c1, gd_Denom gd).
    + intros ([c1 d1] & [= -> ->] & Hk). destruct (proj2 (inv_listed _ Hi d1)) as [m Hm]; [by exists c1|].
      exists {| gd_Denom := d1; gd_AuthorityMetadata := m |}. split; [done|]. apply Hin. by exists c1.
  - apply map_eq. intros d. destruct (DenomAuthority (tf s) !! d) as [m|] eqn:Hm.
    + destruct (proj1 (inv_listed _ Hi d)) as [c Hk]; [by rw Hm|].
      apply (foldl_authority gds _ {| gd_Denom := d; gd_AuthorityMetadata := m |} Hnd).
      apply Hin. by exists c.
    + rw foldl_authority_other //. intros (gd & -> & (c & _ & Hx)%Hin)%list_elem_of_fmap.
      congruence.
  - by rw (proj1 (foldl_rest gds _)).
  - by rw (proj2 (foldl_rest gds _)).
Qed.

End genesis.
