(* ===== verification/Modules.v ===== *)
(** x/tokenfactory/module.go, autocli.go and types/codec.go, x/wasmextension/module.go and
    types/codec.go, x/bank/module.go: how the SDK sees the modules. The genesis of the token
    factory goes through a JSON codec, which is a parameter; services, messages and commands
    are registered by name. *)
From S2P Require Import Prelude.
From S2P Require Import Interfaces.
From S2P Require Import TfTypes.
From S2P Require Import GoJson.
From S2P Require Import TfKeeper.
From S2P Require Import Bank.
From S2P Require Import TfMsgServer.
From S2P Require Import TfInvariants.
From S2P Require Import TfGenesis.

(** codec.JSONCodec on the genesis of the module. *)
Class JSONCodec := {
  MarshalJSON : GenesisState → res string;
  UnmarshalJSON : string → res GenesisState
}.

(** The values a Go genesis can hold and JSON can carry: amounts of 256 bits, a gas price of 64
    bits, strings of UTF-8. *)
Definition go_string (s : string) : Prop := valid_utf8 s = true.
Definition go_coin (c : coin) : Prop := go_string (coin_Denom c) ∧ Z.abs (coin_Amount c) < 2 ^ 256.
Definition go_params (p : Params) : Prop :=
  Forall go_coin (DenomCreationFee p) ∧ 0 <= DenomCreationGasConsume p < 2 ^ 64.
Definition go_denom (d : string) (m : DenomAuthorityMetadata) : Prop := go_string d ∧ go_string (Admin m).
Definition go_genesis (g : GenesisState) : Prop :=
  go_params (gs_Params g) ∧
  Forall (λ gd, go_denom (gd_Denom gd) (gd_AuthorityMetadata gd)) (gs_FactoryDenoms g).

#[export] Instance go_coin_dec c : Decision (go_coin c).
Proof. unfold go_coin, go_string. apply _. Defined.
#[export] Instance go_params_dec p : Decision (go_params p).
Proof. unfold go_params. apply _. Defined.
#[export] Instance go_denom_dec d m : Decision (go_denom d m).
Proof. unfold go_denom, go_string. apply _. Defined.
#[export] Instance go_genesis_dec g : Decision (go_genesis g).
Proof. unfold go_genesis. apply _. Defined.

(** The same of the store of the module. *)
Definition go_store (t : TfStore) : Prop :=
  (∀ p, ParamsItem t = Some p → go_params p) ∧ map_Forall go_denom (DenomAuthority t).

(** A genesis that is written is read back, and what is read is one that Go can hold. *)
Class JSONCodecLaws (JC : JSONCodec) : Prop := {
  json_roundtrip : ∀ g, go_genesis g → ∃ bz, MarshalJSON g = Ok bz ∧ UnmarshalJSON bz = Ok g;
  json_read : ∀ bz g, UnmarshalJSON bz = Ok g → go_genesis g
}.

(** cdc.MustMarshalJSON and cdc.MustUnmarshalJSON: [if err != nil { panic(err) }]. *)
Definition must_res {A} (r : res A) : res A :=
  match r with Err err => Panic (PanicError err) | r => r end.

Module TokenFactory.

Definition ConsensusVersion : Z := 1.
Definition Name : string := ModuleName.
Definition QuerierRoute : string := ModuleName.

(** types/codec.go: RegisterLegacyAminoCodec. *)
Definition RegisterLegacyAminoCodec : list (string * string) :=
  [("MsgCreateDenom", "tokenfactory/MsgCreateDenom");
   ("MsgMint", "tokenfactory/MsgMint");
   ("MsgBurn", "tokenfactory/MsgBurn");
   ("MsgChangeAdmin", "tokenfactory/MsgChangeAdmin");
   ("MsgSetDenomMetadata", "tokenfactory/MsgSetDenomMetadata");
   ("MsgSetBeforeSendHook", "tokenfactory/MsgSetBeforeSendHook");
   ("MsgUpdateParams", "tokenfactory/MsgUpdateParams")].

(** types/codec.go: RegisterInterfaces, the implementations of sdk.Msg. *)
Definition RegisterInterfaces : list string :=
  ["MsgCreateDenom"; "MsgMint"; "MsgBurn"; "MsgChangeAdmin"; "MsgSetDenomMetadata";
   "MsgSetBeforeSendHook"; "MsgUpdateParams"].

(** AppModuleBasic and AppModule: the codec and the keepers. *)
Record AppModuleBasic (C : Type) := { basic_cdc : C }.
Arguments basic_cdc {C}.

Definition NewAppModuleBasic {C} (cdc : C) : AppModuleBasic C := {| basic_cdc := cdc |}.

Record AppModule (C K AK BK : Type) := {
  am_basic : AppModuleBasic C; am_keeper : K; am_accountKeeper : AK; am_bankKeeper : BK }.
Arguments am_basic {C K AK BK}.
Arguments am_keeper {C K AK BK}.

Definition NewAppModule {C K AK BK} (cdc : C) (keeper : K) (accountKeeper : AK) (bankKeeper : BK) :
    AppModule C K AK BK :=
  {| am_basic := NewAppModuleBasic cdc; am_keeper := keeper; am_accountKeeper := accountKeeper;
     am_bankKeeper := bankKeeper |}.

(** RegisterServices: the message server and the querier, both on the keeper the module points
    to. *)
Definition RegisterServices {C K AK BK} (am : AppModule C K AK BK) : list (string * K) :=
  [("keeper.NewMsgServerImpl", am_keeper am); ("keeper.Querier", am_keeper am)].

(** autocli.go: the commands for queries, with the fields of the request they take. *)
Record RpcCommandOptions := { RpcMethod : string; Use : string; PositionalArgs : list string }.

Definition AutoCLIOptions : list RpcCommandOptions :=
  [{| RpcMethod := "DenomAuthorityMetadata"; Use := "denom-authority-metadata [denom]";
      PositionalArgs := ["denom"] |};
   {| RpcMethod := "DenomsFromCreator"; Use := "denoms-from-creator [creator]";
      PositionalArgs := ["creator"] |};
   {| RpcMethod := "BeforeSendHookAddress"; Use := "before_send_hook [denom]";
      PositionalArgs := ["denom"] |};
   {| RpcMethod := "Params"; Use := "params"; PositionalArgs := [] |}].

Section module.
Context {W G : Type} {AC : AddressCodec} {ST : SdkTypes} {GM : GasMeter G}.
Context {AK : AccountKeeper W G} {BV : BankView W} {KW : KeyWalk} {JC : JSONCodec}.

Definition AppModuleBasic_DefaultGenesis : res string :=
  let? g := DefaultGenesis in must_res (MarshalJSON g).

Definition AppModuleBasic_ValidateGenesis (bz : string) : res unit :=
  match UnmarshalJSON bz with
  | Ok genState => GenesisState_Validate genState
  | Err err => Err (Errorf "failed to unmarshal %s genesis state: %w" [ModuleName; Error err])
  | Panic p => Panic p
  end.

(** InitGenesis returns the updates of validators, of which there are none. *)
Definition AppModule_InitGenesis (gs : string) : M (state W G) (list string) :=
  let! genState := lift (must_res (UnmarshalJSON gs)) in
  InitGenesis genState ;;;
  ret [].

Definition AppModule_ExportGenesis : M (state W G) string :=
  let! genState := ExportGenesis in
  lift (must_res (MarshalJSON genState)).

(** ** Theorems *)

Context {LG : BankLedger W} {BML : BankMetadataLaws} {ACL : AddressCodecLaws AC}.
Context {STL : SdkTypesLaws ST} {KWL : KeyWalkLaws KW} {JCL : JSONCodecLaws JC}.

(** The default genesis of the module passes its own validation, and starts a module without
    denoms. The empty set of coins is a valid one. *)
Theorem default_genesis_starts s e1 a :
  Coins_Validate [] = None → tf s = empty_store → GetModuleAccount ModuleName (ext s) = (Ok a, e1) →
  ∃ bz s1, AppModuleBasic_DefaultGenesis = Ok bz ∧ AppModuleBasic_ValidateGenesis bz = Ok () ∧
    AppModule_InitGenesis bz s = (Ok [], s1) ∧ module_inv s1 ∧ DenomAuthority (tf s1) = ∅ ∧
    ParamsItem (tf s1) = Some {| DenomCreationFee := []; DenomCreationGasConsume := DefaultCreationGasFee |}.
Proof.
  intros Hc Ht Ha.
  set (g := {| gs_Params := {| DenomCreationFee := []; DenomCreationGasConsume := DefaultCreationGasFee |};
               gs_FactoryDenoms := [] |}).
  assert (Hg : DefaultGenesis = Ok g) by (unfold DefaultGenesis, DefaultParams; by rw NewCoins_nil).
  assert (Hv : GenesisState_Validate g = Ok ()).
  { unfold GenesisState_Validate, Params_Validate, validateDenomCreationFee. cbn. by rw Hc. }
  destruct (json_roundtrip g) as (bz & Hm & Hu); [by repeat constructor; cbn|].
  destruct (InitGenesis_ok g s e1 a Ht Hv Ha) as (s1 & Hi & Hinv & Hp & _ & Hd & _).
  exists bz, s1. split_and!; [|by unfold AppModuleBasic_ValidateGenesis; rw Hu| |done| |done].
  - unfold AppModuleBasic_DefaultGenesis. rw Hg. cbn. by rw Hm.
  - unfold AppModule_InitGenesis. rw Hu. cbn. by rw (bind_ok _ _ _ _ _ Hi).
  - apply map_empty. intros d. apply eq_None_not_Some. intros [m Hm1]. apply Hd in Hm1. set_solver.
Qed.

(** A chain that is exported and started again: the exported text is a valid genesis, and
    importing it into an empty store restores the parameters, the denoms with their admins, and
    the lists of denoms, with the creators in the codec's spelling. The hooks are not in it. *)
Lemma export_import s p s0 e1 a :
  module_inv s → ParamsItem (tf s) = Some p → Coins_Validate (DenomCreationFee p) = None →
  listed_once (tf s) → go_store (tf s) →
  tf s0 = empty_store → GetModuleAccount ModuleName (ext s0) = (Ok a, e1) →
  ∃ bz s1, AppModule_ExportGenesis s = (Ok bz, s) ∧ AppModuleBasic_ValidateGenesis bz = Ok () ∧
    AppModule_InitGenesis bz s0 = (Ok [], s1) ∧ tf s1 = relisted (tf s).
Proof.
  intros Hi Hp Hf Hc [Hgp Hgd] Ht Ha.
  destruct (Init_ExportGenesis s p s0 e1 a Hi Hp Hf Hc Ht Ha) as (g & s1 & He & Hv & Hn & Hs & Hgs & Hds).
  destruct (json_roundtrip g) as (bz & Hm & Hu).
  { split; [rw Hgs; by apply Hgp|]. apply Forall_forall. intros gd Hin. by apply Hgd, Hds. }
  exists bz, s1. split_and!; [| | |done].
  - unfold AppModule_ExportGenesis. rw (bind_ok _ _ _ _ _ He). by rw Hm.
  - unfold AppModuleBasic_ValidateGenesis. by rw Hu.
  - unfold AppModule_InitGenesis. rw Hu. cbn. by rw (bind_ok _ _ _ _ _ Hn).
Qed.

(** C34. A genesis that passed validation is imported without a panic, and exactly: the invariant
    holds, the denoms of the store with their admins are those of the genesis, there are no
    hooks; and what is then exported is a text of the same parameters and the same denoms with
    the same admins. *)
Theorem import_genesis bz g s e1 a :
  UnmarshalJSON bz = Ok g → AppModuleBasic_ValidateGenesis bz = Ok () →
  tf s = empty_store → GetModuleAccount ModuleName (ext s) = (Ok a, e1) →
  ∃ s1 bz1 g1, AppModule_InitGenesis bz s = (Ok [], s1) ∧
    module_inv s1 ∧ ParamsItem (tf s1) = Some (gs_Params g) ∧ DenomHookAddr (tf s1) = ∅ ∧
    (∀ d m, DenomAuthority (tf s1) !! d = Some m ↔
       {| gd_Denom := d; gd_AuthorityMetadata := m |} ∈ gs_FactoryDenoms g) ∧
    AppModule_ExportGenesis s1 = (Ok bz1, s1) ∧ UnmarshalJSON bz1 = Ok g1 ∧
    gs_Params g1 = gs_Params g ∧ gs_FactoryDenoms g1 ≡ₚ gs_FactoryDenoms g.
Proof.
  intros Hu Hv Ht Ha. unfold AppModuleBasic_ValidateGenesis in Hv. rw Hu in Hv.
  destruct (InitGenesis_ok g s e1 a Ht Hv Ha) as (s1 & Hi & Hinv & Hp1 & Hh & Hda & _).
  destruct (Export_InitGenesis g s e1 a Ht Hv Ha) as (s2 & g1 & Hi2 & He & Hp & Hd).
  rw Hi in Hi2. injection Hi2 as <-.
  destruct (json_roundtrip g1) as (bz1 & Hm1 & Hu1).
  { destruct (json_read _ _ Hu) as [Hgp Hgd]. split; [by rw Hp|by rw Hd]. }
  exists s1, bz1, g1.
  split_and!; [|done..| |done|done|done].
  - unfold AppModule_InitGenesis. rw Hu. cbn. by rw (bind_ok _ _ _ _ _ Hi).
  - unfold AppModule_ExportGenesis. rw (bind_ok _ _ _ _ _ He). by rw Hm1.
Qed.

(** A text that is not a genesis is refused by the validation and ends the import with a
    panic before anything is written. *)
Theorem bad_genesis bz err s :
  UnmarshalJSON bz = Err err →
  AppModuleBasic_ValidateGenesis bz =
    Err (Errorf "failed to unmarshal %s genesis state: %w" [ModuleName; Error err]) ∧
  AppModule_InitGenesis bz s = (Panic (PanicError err), s).
Proof.
  intros Hu. unfold AppModuleBasic_ValidateGenesis, AppModule_InitGenesis, lift, bind. by rw Hu.
Qed.

End module.

(** Every message of the module is registered, under a name of its own. *)
Lemma messages_registered :
  RegisterLegacyAminoCodec.*1 = RegisterInterfaces ∧ NoDup RegisterLegacyAminoCodec.*2.
Proof. split; [done|]. eapply bool_decide_unpack; by vm_compute. Qed.
End TokenFactory.

Module WasmExtension.
(** types/keys.go *)
Definition wasmextension_ModuleName : string := "wasmextension".
Definition wasmextension_StoreKey : string := wasmextension_ModuleName.
Definition wasmextension_TStoreKey : string := "transient_" +:+ wasmextension_ModuleName.
Definition wasmextension_Name : string := wasmextension_ModuleName.
Definition wasmextension_ConsensusVersion : Z := 1.
Definition wasmextension_RegisterLegacyAminoCodec : list (string * string) :=
  [("MsgStoreCodeAdmin", "wasmextension/MsgStoreCodeAdmin")].
Definition wasmextension_RegisterInterfaces : list string := ["MsgStoreCodeAdmin"].

(** AppModule: the keeper and the authority its message server is made with. *)
Record wasmextension_AppModule (K : Type) := { wext_keeper : K; wext_authority : string }.
Arguments wext_keeper {K}.
Arguments wext_authority {K}.

Definition wasmextension_NewAppModule {K} (k : K) (authority : string) : wasmextension_AppModule K :=
  {| wext_keeper := k; wext_authority := authority |}.

Definition wasmextension_RegisterServices {K} (am : wasmextension_AppModule K) : list (string * K * string) :=
  [("MsgServer", wext_keeper am, wext_authority am)].
End WasmExtension.

Module BankModule.
Definition bank_ConsensusVersion : Z := 1.

(** AppModule: the keeper with hooks for messages, and the SDK's module on the embedded base
    keeper for everything else. *)
Record bank_AppModule (K BK : Type) := { bank_Keeper : K; sdk_module : BK }.
Arguments bank_Keeper {K BK}.
Arguments sdk_module {K BK}.

Definition bank_NewAppModule {K BK} (BaseKeeper : K → BK) (keeper : K) : bank_AppModule K BK :=
  {| bank_Keeper := keeper; sdk_module := BaseKeeper keeper |}.

(** RegisterServices: messages go to the keeper with hooks, queries to the base keeper. *)
Definition bank_RegisterServices {K BK} (BaseKeeper : K → BK) (am : bank_AppModule K BK) : K * BK :=
  (bank_Keeper am, BaseKeeper (bank_Keeper am)).
End BankModule.
