(* ===== verification/Gateway.v ===== *)
(** x/tokenfactory/types/query.pb.gw.go: the queries of the token factory over HTTP. A path is
    matched by a pattern, a program for the stack machine of grpc-gateway; a handler takes the
    parameters out of the path, calls the query server and forwards its answer or its error.
    The stack machine, the routing and the conversion of parameters are grpc-gateway's: they
    are parameters with their documented behaviour as laws. The path of a URL is decoded before
    the gateway sees it, by net/url ([PathUnescape]). *)
From S2P Require Import Prelude.
From S2P Require Import Interfaces.
From S2P Require Import TfTypes.
From S2P Require Import TfKeeper.
From S2P Require Import TfMsgServer.

(** * Patterns *)

(** runtime.Pattern: the version is 1 and there is no verb in all patterns of the file. *)
Record Pattern := { ops : list Z; pool : list string }.

(** The pairs of op code and operand. *)
Fixpoint op_pairs (l : list Z) : list (Z * nat) :=
  match l with
  | code :: operand :: l => (code, Z.to_nat operand) :: op_pairs l
  | _ => []
  end.

(** The state of a match: the components left, the stack (top first), the captured names. *)
Record machine := { rest : list string; stack : list string; captured : list (string * string) }.

(** The op codes the patterns use, as utilities/pattern.go documents them. 1: push the next
    component; 2: push it if it is the literal of the pool; 4: concatenate the top elements;
    5: pop and capture under the name in the pool. *)
Definition step (p : Pattern) (m : machine) (op : Z * nat) : option machine :=
  match op, rest m, stack m with
  | (1, _), c :: cs, st => Some {| rest := cs; stack := c :: st; captured := captured m |}
  | (2, i), c :: cs, st =>
      if decide (pool p !! i = Some c)
      then Some {| rest := cs; stack := c :: st; captured := captured m |} else None
  | (4, n), cs, st =>
      Some {| rest := cs; stack := join "/" (reverse (take n st)) :: drop n st; captured := captured m |}
  | (5, i), cs, top :: st =>
      match pool p !! i with
      | Some name => Some {| rest := cs; stack := st; captured := captured m ++ [(name, top)] |}
      | None => None
      end
  | _, _, _ => None
  end.

Fixpoint run_ops (p : Pattern) (l : list (Z * nat)) (m : machine) : option machine :=
  match l with
  | [] => Some m
  | op :: l => match step p m op with Some m => run_ops p l m | None => None end
  end.

(** A path matches when the program ends with no component left. *)
Definition run_pattern (p : Pattern) (components : list string) : option (gmap string string) :=
  match run_ops p (op_pairs (ops p)) {| rest := components; stack := []; captured := [] |} with
  | Some m => if decide (rest m = []) then Some (list_to_map (captured m)) else None
  | None => None
  end.

Definition pattern_Query_Params_0 : Pattern :=
  {| ops := [2; 0; 2; 1; 2; 2; 2; 3]; pool := ["miniwasm"; "tokenfactory"; "v1"; "params"] |}.

Definition pattern_Query_DenomAuthorityMetadata_0 : Pattern :=
  {| ops := [2; 0; 2; 1; 2; 2; 2; 3; 1; 0; 4; 1; 5; 4; 2; 5];
     pool := ["miniwasm"; "tokenfactory"; "v1"; "denoms"; "denom"; "authority_metadata"] |}.

Definition pattern_Query_DenomsFromCreator_0 : Pattern :=
  {| ops := [2; 0; 2; 1; 2; 2; 2; 3; 1; 0; 4; 1; 5; 4];
     pool := ["miniwasm"; "tokenfactory"; "v1"; "denoms_from_creator"; "creator"] |}.

Definition pattern_Query_BeforeSendHookAddress_0 : Pattern :=
  {| ops := [2; 0; 2; 1; 2; 2; 2; 3; 1; 0; 4; 1; 5; 4; 2; 5];
     pool := ["miniwasm"; "tokenfactory"; "v1"; "denoms"; "denom"; "before_send_hook"] |}.

(** What grpc-gateway does: [String] converts a parameter, [Match] matches a path. *)
Class GatewayLib := {
  runtime_String : string → res string;
  Match : Pattern → list string → option (gmap string string)
}.

(** The op codes that [step] has; OpNop (0) and OpPushM (3) do not occur in the file. *)
Definition supported (p : Pattern) : bool :=
  forallb (λ op, bool_decide (op.1 ∈ [1; 2; 4; 5])) (op_pairs (ops p)).

Class GatewayLibLaws (GL : GatewayLib) : Prop := {
  String_id : ∀ v, runtime_String v = Ok v;
  Match_run : ∀ p cs, supported p = true → Match p cs = run_pattern p cs
}.

(** * Handlers *)

Section handlers.
Context {S : Type} {GL : GatewayLib}.

(** QueryServer, and QueryClient, which calls one over a connection. *)
Record QueryServer := {
  srv_Params : M S Params;
  srv_DenomAuthorityMetadata : string → M S DenomAuthorityMetadata;
  srv_DenomsFromCreator : string → M S (list string);
  srv_BeforeSendHookAddress : string → M S string
}.

(** The responses. *)
Inductive response :=
| QueryParamsResponse (p : Params)
| QueryDenomAuthorityMetadataResponse (m : DenomAuthorityMetadata)
| QueryDenomsFromCreatorResponse (denoms : list string)
| QueryBeforeSendHookAddressResponse (addr : string).

(** [val, ok = pathParams[name]; if !ok { ... }; x, err = runtime.String(val); if err != nil { ... }] *)
Definition path_param (name : string) (pathParams : gmap string string) : res string :=
  match pathParams !! name with
  | None => Err (Errorf "missing parameter %s" [name])
  | Some v => match runtime_String v with
              | Ok x => Ok x
              | Err err => Err (Errorf "type mismatch, parameter: %s, error: %v" [name; Error err])
              | Panic p => Panic p
              end
  end.

Definition request_Query_Params_0 (client : QueryServer) (pathParams : gmap string string)
    : M S response :=
  let! msg := srv_Params client in ret (QueryParamsResponse msg).

Definition local_request_Query_Params_0 (server : QueryServer) (pathParams : gmap string string)
    : M S response :=
  let! msg := srv_Params server in ret (QueryParamsResponse msg).

Definition request_Query_DenomAuthorityMetadata_0 (client : QueryServer)
    (pathParams : gmap string string) : M S response :=
  let! Denom := lift (path_param "denom" pathParams) in
  let! msg := srv_DenomAuthorityMetadata client Denom in
  ret (QueryDenomAuthorityMetadataResponse msg).

Definition local_request_Query_DenomAuthorityMetadata_0 (server : QueryServer)
    (pathParams : gmap string string) : M S response :=
  let! Denom := lift (path_param "denom" pathParams) in
  let! msg := srv_DenomAuthorityMetadata server Denom in
  ret (QueryDenomAuthorityMetadataResponse msg).

Definition request_Query_DenomsFromCreator_0 (client : QueryServer)
    (pathParams : gmap string string) : M S response :=
  let! Creator := lift (path_param "creator" pathParams) in
  let! msg := srv_DenomsFromCreator client Creator in
  ret (QueryDenomsFromCreatorResponse msg).

Definition local_request_Query_DenomsFromCreator_0 (server : QueryServer)
    (pathParams : gmap string string) : M S response :=
  let! Creator := lift (path_param "creator" pathParams) in
  let! msg := srv_DenomsFromCreator server Creator in
  ret (QueryDenomsFromCreatorResponse msg).

Definition request_Query_BeforeSendHookAddress_0 (client : QueryServer)
    (pathParams : gmap string string) : M S response :=
  let! Denom := lift (path_param "denom" pathParams) in
  let! msg := srv_BeforeSendHookAddress client Denom in
  ret (QueryBeforeSendHookAddressResponse msg).

Definition local_request_Query_BeforeSendHookAddress_0 (server : QueryServer)
    (pathParams : gmap string string) : M S response :=
  let! Denom := lift (path_param "denom" pathParams) in
  let! msg := srv_BeforeSendHookAddress server Denom in
  ret (QueryBeforeSendHookAddressResponse msg).

(** What is written to the client: the answer, or an error. *)
Inductive reply := Forward (resp : response) | HTTPError (err : goerror).

(** The body of a registered handler: [annotate] is the outcome of AnnotateContext. *)
Definition handler_body (annotate : option goerror) (request : gmap string string → M S response)
    (pathParams : gmap string string) : M S reply :=
  match annotate with
  | Some err => ret (HTTPError err)
  | None =>
      let! r := attempt (request pathParams) in
      ret (match r with inl resp => Forward resp | inr err => HTTPError err end)
  end.

(** A registered handler: method, pattern and body. *)
Record handler := { h_method : string; h_pattern : Pattern; h_run : gmap string string → M S reply }.

Definition RegisterQueryHandlerServer (annotate : option goerror) (server : QueryServer)
    : list handler :=
  [{| h_method := "GET"; h_pattern := pattern_Query_Params_0;
      h_run := handler_body annotate (local_request_Query_Params_0 server) |};
   {| h_method := "GET"; h_pattern := pattern_Query_DenomAuthorityMetadata_0;
      h_run := handler_body annotate (local_request_Query_DenomAuthorityMetadata_0 server) |};
   {| h_method := "GET"; h_pattern := pattern_Query_DenomsFromCreator_0;
      h_run := handler_body annotate (local_request_Query_DenomsFromCreator_0 server) |};
   {| h_method := "GET"; h_pattern := pattern_Query_BeforeSendHookAddress_0;
      h_run := handler_body annotate (local_request_Query_BeforeSendHookAddress_0 server) |}].

Definition RegisterQueryHandlerClient (annotate : option goerror) (client : QueryServer)
    : list handler :=
  [{| h_method := "GET"; h_pattern := pattern_Query_Params_0;
      h_run := handler_body annotate (request_Query_Params_0 client) |};
   {| h_method := "GET"; h_pattern := pattern_Query_DenomAuthorityMetadata_0;
      h_run := handler_body annotate (request_Query_DenomAuthorityMetadata_0 client) |};
   {| h_method := "GET"; h_pattern := pattern_Query_DenomsFromCreator_0;
      h_run := handler_body annotate (request_Query_DenomsFromCreator_0 client) |};
   {| h_method := "GET"; h_pattern := pattern_Query_BeforeSendHookAddress_0;
      h_run := handler_body annotate (request_Query_BeforeSendHookAddress_0 client) |}].

(** RegisterQueryHandler: the client is one on the connection. *)
Definition RegisterQueryHandler {Conn} (NewQueryClient : Conn → QueryServer)
    (annotate : option goerror) (conn : Conn) : list handler :=
  RegisterQueryHandlerClient annotate (NewQueryClient conn).

(** RegisterQueryHandlerFromEndpoint: the connection is dialled first; it is closed when the
    context is done, since registering does not fail. The result are the handlers and whether
    the connection is to be closed then. *)
Definition RegisterQueryHandlerFromEndpoint {Conn} (Dial : res Conn)
    (NewQueryClient : Conn → QueryServer) (annotate : option goerror) : res (list handler * bool) :=
  let? conn := Dial in
  Ok (RegisterQueryHandler NewQueryClient annotate conn, true).

(** The handler of a path: the first of the method whose pattern matches; [None] is not found. *)
Fixpoint serve (hs : list handler) (method : string) (components : list string)
    : option (M S reply) :=
  match hs with
  | [] => None
  | h :: hs =>
      match (if decide (h_method h = method) then Match (h_pattern h) components else None) with
      | Some params => Some (h_run h params)
      | None => serve hs method components
      end
  end.
End handlers.

(** runtime.ServeMux: what the handlers registered on it do with a method and the path of a
    request (r.URL.Path). *)
Class ServeMux (S : Type) := mux_handle : list (handler (S:=S)) → string → string → option (M S reply).

(** A path is split at its slashes, after the first. A colon in the last component would be the
    beginning of a verb; without it the components are matched by the patterns. *)
Class ServeMuxLaws (S : Type) (GL : GatewayLib) (SX : ServeMux S) : Prop :=
  mux_serves : ∀ hs method path, mem_byte ":" (List.last (split_on "/" path) "") = false →
    mux_handle hs method ("/" +:+ path) = serve hs method (split_on "/" path).

(** net/url: how the path of a URL is read. [%XY] is a byte, everything else stands for itself;
    [None] is a malformed URL, which net/http refuses. *)
Fixpoint PathUnescape (s : string) : option string :=
  match s with
  | EmptyString => Some ""
  | String "%" (String a (String b s)) =>
      match hex_value a, hex_value b with
      | Some x, Some y => String (ascii_of_N (16 * x + y)%N) <$> PathUnescape s
      | _, _ => None
      end
  | String "%" _ => None
  | String a s => String a <$> PathUnescape s
  end.

(** * The querier behind the gateway *)

(** url.QueryEscape: what a client does to a denom it puts into a path. Letters, digits and
    -_.~ stay, a space becomes +, any other byte is written in hexadecimal. *)
Definition hex_digit (n : N) : ascii :=
  ascii_of_N (if (n <? 10)%N then 48 + n else 55 + n)%N.

Definition unreserved (a : ascii) : bool :=
  let n := N_of_ascii a in
  ((48 <=? n) && (n <=? 57) || (65 <=? n) && (n <=? 90) || (97 <=? n) && (n <=? 122) ||
   (n =? 45) || (n =? 95) || (n =? 46) || (n =? 126))%N.

Fixpoint QueryEscape (s : string) : string :=
  match s with
  | EmptyString => ""
  | String a s =>
      if unreserved a then String a (QueryEscape s)
      else if decide (a = " "%char) then String "+" (QueryEscape s)
      else String "%" (String (hex_digit (N_of_ascii a / 16)) (String (hex_digit (N_of_ascii a mod 16))
        (QueryEscape s)))
  end.

Lemma unescape_plain a s :
  a ≠ "%"%char → a ≠ "+"%char → QueryUnescape (String a s) = String a <$> QueryUnescape s.
Proof. destruct a as [[] [] [] [] [] [] [] []]; done. Qed.

Lemma hex_value_digit n : (n < 16)%N → hex_value (hex_digit n) = Some n.
Proof.
  intros Hn. assert (Hi : n ∈ N.of_nat <$> seq 0 16).
  { apply list_elem_of_fmap. exists (N.to_nat n). split; [lia|]. apply elem_of_seq. lia. }
  revert Hi. apply (Forall_forall (λ n, hex_value (hex_digit n) = Some n)).
  eapply bool_decide_unpack. by vm_compute.
Qed.

Lemma hex_no_slash n : (n < 16)%N → hex_digit n ≠ "/"%char.
Proof. intros Hn Hs. apply hex_value_digit in Hn. by rw Hs in Hn. Qed.

Lemma byte_digits a : (N_of_ascii a / 16 < 16)%N ∧ (N_of_ascii a mod 16 < 16)%N ∧
  ascii_of_N (16 * (N_of_ascii a / 16) + N_of_ascii a mod 16) = a.
Proof.
  pose proof (N_ascii_bounded a) as Hb. split_and!.
  - apply N.Div0.div_lt_upper_bound. lia.
  - apply N.mod_lt. lia.
  - rw -N.div_mod' ascii_N_embedding //.
Qed.

(** Every byte is escaped so that it is read back, and never as a slash. *)
Lemma escape_byte a s t :
  QueryUnescape s = Some t →
  QueryUnescape (QueryEscape (String a "") +:+ s) = Some (String a t) ∧
  mem_byte "/" (QueryEscape (String a "")) = false.
Proof.
  intros Hs. cbn [QueryEscape]. destruct (unreserved a) eqn:Hu.
  - assert (a ≠ "%"%char ∧ a ≠ "+"%char ∧ a ≠ "/"%char) as (H1 & H2 & H3).
    { split_and!; intros ->; discriminate Hu. }
    rw app_cons_s app_empty_s unescape_plain // Hs. split; [done|]. cbn [mem_byte].
    by rw bool_decide_false.
  - case_decide as Hsp; [subst; change (QueryUnescape ("+" +:+ s)) with (String " " <$> QueryUnescape s); by rw Hs|].
    destruct (byte_digits a) as (Hd & Hm & Ha). pose proof (hex_no_slash _ Hd). pose proof (hex_no_slash _ Hm).
    rw !app_cons_s app_empty_s. cbn [QueryUnescape mem_byte].
    rw !hex_value_digit // Hs Ha. split; [done|]. by rw !bool_decide_false.
Qed.

Lemma QueryEscape_cons a s : QueryEscape (String a s) = QueryEscape (String a "") +:+ QueryEscape s.
Proof. cbn. destruct (unreserved a); [done|]. by case_decide. Qed.

Lemma QueryEscape_spec s :
  QueryUnescape (QueryEscape s) = Some s ∧ mem_byte "/" (QueryEscape s) = false.
Proof.
  induction s as [|a s [IH1 IH2]]; [done|]. rw QueryEscape_cons.
  destruct (escape_byte a _ _ IH1) as [H1 H2]. split; [done|]. by rw mem_byte_app H2 IH2.
Qed.

(** ** Escaped names in a URL *)

Lemma path_plain a s : a ≠ "%"%char → PathUnescape (String a s) = String a <$> PathUnescape s.
Proof. destruct a as [[] [] [] [] [] [] [] []]; done. Qed.

Lemma path_plain_app x s : mem_byte "%" x = false → PathUnescape (x +:+ s) = String.append x <$> PathUnescape s.
Proof.
  induction x as [|a x IH]; [by rw app_empty_s; destruct (PathUnescape s)|].
  cbn [mem_byte]. rw app_cons_s. intros [Ha Hx]%orb_false_iff. apply bool_decide_eq_false in Ha.
  rw path_plain; [|done]. rw IH //. by destruct (PathUnescape s).
Qed.

(** What an escaped byte is in a URL: a space has become a plus. *)
Definition plus_space (a : ascii) : ascii := if decide (a = " "%char) then "+"%char else a.

Fixpoint plus_spaces (s : string) : string :=
  match s with EmptyString => "" | String a s => String (plus_space a) (plus_spaces s) end.

Lemma path_escape_byte a s :
  PathUnescape (QueryEscape (String a "") +:+ s) = String (plus_space a) <$> PathUnescape s.
Proof.
  cbn [QueryEscape]. unfold plus_space. destruct (unreserved a) eqn:Hu.
  - assert (a ≠ "%"%char ∧ a ≠ " "%char) as [H1 H2] by (split; intros ->; discriminate Hu).
    rw app_cons_s app_empty_s path_plain // decide_False //.
  - case_decide as Hsp; [by subst|]. destruct (byte_digits a) as (Hd & Hm & Ha).
    rw !app_cons_s app_empty_s. cbn [PathUnescape]. by rw !hex_value_digit // Ha.
Qed.

Lemma path_escaped x s : PathUnescape (QueryEscape x +:+ s) = String.append (plus_spaces x) <$> PathUnescape s.
Proof.
  revert s. induction x as [|a x IH]; intros s; [cbn [QueryEscape]; rw app_empty_s; by destruct (PathUnescape s)|].
  rw QueryEscape_cons app_assoc_s path_escape_byte IH. by destruct (PathUnescape s).
Qed.

Lemma plus_spaces_id x : mem_byte " " x = false → plus_spaces x = x.
Proof.
  induction x as [|a x IH]; [done|]. cbn [mem_byte plus_spaces]. intros [Ha Hx]%orb_false_iff.
  apply bool_decide_eq_false in Ha. rw IH //. unfold plus_space. by rw decide_False.
Qed.

Lemma plus_spaces_slash x : mem_byte "/" (plus_spaces x) = mem_byte "/" x.
Proof.
  induction x as [|a x IH]; [done|]. cbn [mem_byte plus_spaces]. rw IH. f_equal. unfold plus_space.
  case_decide as Hs; [by subst|done].
Qed.

(** Escaped text has no space in it. *)
Lemma QueryEscape_no_space x : mem_byte " " (QueryEscape x) = false.
Proof.
  induction x as [|a x IH]; [done|]. rw QueryEscape_cons mem_byte_app IH orb_false_r. cbn [QueryEscape].
  destruct (unreserved a) eqn:Hu; [|case_decide; [done|]].
  - cbn. rw bool_decide_false //. intros ->. discriminate Hu.
  - destruct (byte_digits a) as (Hd & Hm & _).
    assert (Hh : ∀ n, (n < 16)%N → hex_digit n ≠ " "%char).
    { intros n Hn Hs. apply hex_value_digit in Hn. by rw Hs in Hn. }
    cbn [mem_byte]. rw !bool_decide_false //; by apply Hh.
Qed.

(** The parameter of a path with fixed components around it. *)
Definition item_path (cs : list string) (op : string) : option string :=
  match cs with
  | [a; b; c; d; x; o] =>
      if decide ([a; b; c; d; o] = ["miniwasm"; "tokenfactory"; "v1"; "denoms"; op]) then Some x else None
  | _ => None
  end.

Definition creator_path (cs : list string) : option string :=
  match cs with
  | [a; b; c; d; x] =>
      if decide ([a; b; c; d] = ["miniwasm"; "tokenfactory"; "v1"; "denoms_from_creator"])
      then Some x else None
  | _ => None
  end.

Ltac pattern_cases cs :=
  unfold run_pattern, item_path, creator_path;
  destruct cs as [|c1 [|c2 [|c3 [|c4 [|c5 [|c6 [|c7 cs]]]]]]]; cbn;
  repeat (case_decide; simplify_eq/=; try done); by rw ?app_nil_s.

(** What the patterns match: fixed components, with a parameter in the fifth place. *)
Lemma match_params cs :
  run_pattern pattern_Query_Params_0 cs =
  if decide (cs = ["miniwasm"; "tokenfactory"; "v1"; "params"]) then Some ∅ else None.
Proof. pattern_cases cs. Qed.

Lemma match_item op cs :
  run_pattern {| ops := [2; 0; 2; 1; 2; 2; 2; 3; 1; 0; 4; 1; 5; 4; 2; 5];
                 pool := ["miniwasm"; "tokenfactory"; "v1"; "denoms"; "denom"; op] |} cs =
  (λ x, {["denom" := x]}) <$> item_path cs op.
Proof. pattern_cases cs. Qed.

Lemma match_creator cs :
  run_pattern pattern_Query_DenomsFromCreator_0 cs = (λ x, {["creator" := x]}) <$> creator_path cs.
Proof. pattern_cases cs. Qed.

Lemma split_on_snoc c s t :
  mem_byte c t = false → split_on c (s +:+ String c t) = split_on c s ++ [t].
Proof.
  intros Ht. induction s as [|a s IH].
  - rw app_empty_s. cbn. rw decide_True //. by rw split_on_none.
  - rw app_cons_s. cbn. rw IH. case_decide; [done|].
    pose proof (split_on_not_nil c s). by destruct (split_on c s).
Qed.

Section gateway.
Context {S : Type} {GL : GatewayLib} {GLL : GatewayLibLaws GL} {SX : ServeMux S} {SXL : ServeMuxLaws S GL SX}.
Implicit Types (server : QueryServer (S:=S)).

(** What a handler makes of the outcome of a query. *)
Definition replied {A} (mk : A → response) (out : res A * S) : res reply * S :=
  match out with
  | (Ok a, s) => (Ok (Forward (mk a)), s)
  | (Err e, s) => (Ok (HTTPError e), s)
  | (Panic p, s) => (Panic p, s)
  end.

Lemma handler_replies {A} (mk : A → response) (q : M S A) params s :
  handler_body None (λ _, let! msg := q in ret (mk msg)) params s = replied mk (q s).
Proof. unfold handler_body, attempt, bind, ret. by destruct (q s) as [[] ?]. Qed.

Lemma param_replies {A} name x (mk : A → response) (q : string → M S A) params s :
  params !! name = Some x →
  handler_body None (λ ps, let! v := lift (path_param name ps) in let! msg := q v in ret (mk msg))
    params s = replied mk (q x s).
Proof.
  intros Hx. unfold handler_body, attempt, bind, lift, path_param, ret. rw Hx String_id.
  by destruct (q x s) as [[] ?].
Qed.

(** The handlers on the path of a request, which is decoded, and on that of a URL. *)
Definition get_path (hs : list (handler (S:=S))) (path : string) : option (M S reply) :=
  mux_handle hs "GET" ("/" +:+ path).

Definition get_url (hs : list (handler (S:=S))) (url : string) : option (M S reply) :=
  PathUnescape url ≫= get_path hs.

Definition base : string := "miniwasm/tokenfactory/v1/".

Lemma split_base path :
  split_on "/" (base +:+ path) = "miniwasm" :: "tokenfactory" :: "v1" :: split_on "/" path.
Proof. done. Qed.

(** The components of [dir/x/op] where [dir] has no slash. *)
Lemma split_item dir x op :
  mem_byte "/" dir = false → mem_byte "/" op = false →
  split_on "/" (base +:+ dir +:+ "/" +:+ x +:+ "/" +:+ op) =
  "miniwasm" :: "tokenfactory" :: "v1" :: dir :: split_on "/" x ++ [op].
Proof.
  intros Hd Ho. rw split_base. do 3 f_equal.
  change (split_on "/" (dir +:+ String "/" (x +:+ String "/" op)) = dir :: split_on "/" x ++ [op]).
  rw split_on_app //. f_equal. by apply split_on_snoc.
Qed.

(** Which handler serves a path: the four patterns exclude each other. *)
Lemma serve_spec server cs :
  serve (RegisterQueryHandlerServer None server) "GET" cs =
  if decide (cs = ["miniwasm"; "tokenfactory"; "v1"; "params"])
  then Some (handler_body None (local_request_Query_Params_0 server) ∅)
  else match item_path cs "authority_metadata", creator_path cs, item_path cs "before_send_hook" with
       | Some x, _, _ =>
           Some (handler_body None (local_request_Query_DenomAuthorityMetadata_0 server) {["denom" := x]})
       | None, Some x, _ =>
           Some (handler_body None (local_request_Query_DenomsFromCreator_0 server) {["creator" := x]})
       | None, None, Some x =>
           Some (handler_body None (local_request_Query_BeforeSendHookAddress_0 server) {["denom" := x]})
       | None, None, None => None
       end.
Proof.
  cbn [serve RegisterQueryHandlerServer h_method h_pattern h_run]. destruct (decide ("GET" = "GET")) as [_|]; [|done]. rw !Match_run //.
  unfold pattern_Query_DenomAuthorityMetadata_0, pattern_Query_BeforeSendHookAddress_0.
  rw match_params match_creator !match_item. case_decide; [done|].
  destruct (item_path cs "authority_metadata"); [done|].
  destruct (creator_path cs); [done|]. by destruct (item_path cs "before_send_hook").
Qed.

Lemma get_item server x op :
  mem_byte "/" x = false → mem_byte "/" op = false → mem_byte ":" op = false →
  get_path (RegisterQueryHandlerServer None server) (base +:+ "denoms" +:+ "/" +:+ x +:+ "/" +:+ op) =
  serve (RegisterQueryHandlerServer None server) "GET" ["miniwasm"; "tokenfactory"; "v1"; "denoms"; x; op].
Proof. intros Hx Ho Hc. unfold get_path. by rw mux_serves split_item // split_on_none. Qed.

(** A name with a slash in it makes a path that no handler serves. *)
Lemma slash_unserved server d op :
  mem_byte "/" op = false → mem_byte ":" op = false → mem_byte "/" d = true →
  get_path (RegisterQueryHandlerServer None server) (base +:+ "denoms" +:+ "/" +:+ d +:+ "/" +:+ op) = None.
Proof.
  intros Hop Hc Hd. unfold get_path.
  rw mux_serves split_item //; [rw serve_spec|by rw -(List.last_last
    ("miniwasm" :: "tokenfactory" :: "v1" :: "denoms" :: split_on "/" d) op "") in Hc].
  destruct (split_on "/" d) as [|a [|b l]] eqn:Hs.
  - by apply split_on_not_nil in Hs.
  - pose proof (split_on_parts "/" d) as Hp. pose proof (join_split "/" d) as Hj. rw Hs in Hj Hp.
    cbn in Hj. subst. apply Forall_cons in Hp as [Hp _]. by rw Hp in Hd.
  - cbn. case_decide as Hcs; [discriminate Hcs|]. by destruct l.
Qed.

(** A path of the module is answered by the query of its name, with the part of the path that
    stands for the parameter, as it is; the answer or the error of the query server is
    forwarded. Registering the handlers for a client or for a server makes no difference. *)
Theorem gateway_answers server x s :
  mem_byte "/" x = false → mem_byte ":" x = false →
  let hs := RegisterQueryHandlerServer None server in
  hs = RegisterQueryHandlerClient None server ∧
  (∃ m, get_path hs (base +:+ "params") = Some m ∧
     m s = replied QueryParamsResponse (srv_Params server s)) ∧
  (∃ m, get_path hs (base +:+ "denoms" +:+ "/" +:+ x +:+ "/" +:+ "authority_metadata") = Some m ∧
     m s = replied QueryDenomAuthorityMetadataResponse (srv_DenomAuthorityMetadata server x s)) ∧
  (∃ m, get_path hs (base +:+ "denoms" +:+ "/" +:+ x +:+ "/" +:+ "before_send_hook") = Some m ∧
     m s = replied QueryBeforeSendHookAddressResponse (srv_BeforeSendHookAddress server x s)) ∧
  (∃ m, get_path hs (base +:+ "denoms_from_creator/" +:+ x) = Some m ∧
     m s = replied QueryDenomsFromCreatorResponse (srv_DenomsFromCreator server x s)).
Proof.
  intros Hx Hc. cbn zeta. split; [done|]. split_and!.
  - eexists. unfold get_path. rw mux_serves // serve_spec. split; [done|]. apply handler_replies.
  - eexists. rw get_item // serve_spec. split; [done|]. apply param_replies, lookup_singleton_eq.
  - eexists. rw get_item // serve_spec. split; [done|]. apply param_replies, lookup_singleton_eq.
  - assert (Hs : split_on "/" (base +:+ "denoms_from_creator/" +:+ x) =
      ["miniwasm"; "tokenfactory"; "v1"; "denoms_from_creator"; x]).
    { rw split_base. change ("denoms_from_creator/" +:+ x) with ("denoms_from_creator" +:+ String "/" x).
      by rw split_on_app // split_on_none. }
    eexists. unfold get_path. rw mux_serves Hs // serve_spec. split; [done|].
    apply param_replies, lookup_singleton_eq.
Qed.

(** A URL with an escaped name in it is decoded to a path with the name, and its spaces as pluses. *)
Lemma get_url_escaped hs x op :
  mem_byte "%" op = false →
  get_url hs (base +:+ "denoms" +:+ "/" +:+ QueryEscape x +:+ "/" +:+ op) =
  get_path hs (base +:+ "denoms" +:+ "/" +:+ plus_spaces x +:+ "/" +:+ op).
Proof.
  intros Hop. unfold get_url. rw (path_plain_app base) // (path_plain_app "denoms") // (path_plain_app "/") // path_escaped.
  change ("/" +:+ op) with (String "/" op). rw path_plain //.
  by rw -(app_nil_s op) path_plain_app //= !app_nil_s.
Qed.

(** A name without a percent sign is left as it is. *)
Lemma get_url_plain hs x op :
  mem_byte "%" x = false → mem_byte "%" op = false →
  get_url hs (base +:+ "denoms" +:+ "/" +:+ x +:+ "/" +:+ op) =
  get_path hs (base +:+ "denoms" +:+ "/" +:+ x +:+ "/" +:+ op).
Proof.
  intros Hx Hop. unfold get_url.
  rw (path_plain_app base) // (path_plain_app "denoms") // (path_plain_app "/") // (path_plain_app x) //.
  change ("/" +:+ op) with (String "/" op). rw path_plain //.
  by rw -(app_nil_s op) path_plain_app //= !app_nil_s.
Qed.
End gateway.
