(* ===== verification/Wiring.v ===== *)
(** app/keepers: how the application joins the bank keeper, the community pool keeper and
    the token factory (keepers.go, community_pool.go), and that the joined keepers honour
    the contract the token factory's theorems assume. *)
From S2P Require Import Prelude.
From S2P Require Import Interfaces.
From S2P Require Import TfTypes.
From S2P Require Import TfKeeper.
From S2P Require Import Bank.
From S2P Require Import TfMsgServer.
From S2P Require Import TfInvariants.

(** CommunityPoolKeeper of community_pool.go: its bank keeper is the application's. *)
Record CommunityPoolKeeperFields := { feeCollectorName : string }.

Definition NewCommunityPoolKeeper (feeCollectorName : string) : CommunityPoolKeeperFields :=
  {| feeCollectorName := feeCollectorName |}.

Section wiring.
Context {W G : Type} {AC : AddressCodec} {ST : SdkTypes} {GM : GasMeter G}.
Context {AK : AccountKeeper W G} {BB : BankBase W G} {CK : ContractKeeper W G}.

(** appKeepers.TokenFactoryKeeper.Hooks(). *)
Definition Hooks : BankHooks W G :=
  {| hook_TrackBeforeSend := Hooks_TrackBeforeSend;
     hook_BlockBeforeSend := Hooks_BlockBeforeSend |}.

(** The bank keeper after keepers.go: made by NewKeeper, then given the hooks. *)
Definition wire_bank (authorityAddr : string) : res (BankKeeperFields W G) :=
  let? bankKeeper := NewBankKeeper authorityAddr in
  SetHooks Hooks bankKeeper.

(** What wire_bank returns. *)
Definition app_bank : BankKeeperFields W G := {| hooks := Some Hooks |}.

(** The bank keeper the token factory is given. Minting, burning and metadata are those
    of the embedded base keeper. *)
#[export] Instance app_BankView : BankView W := {|
  bk_GetDenomMetaData := GetDenomMetaData;
  bk_SetDenomMetaData := SetDenomMetaData;
  bk_HasSupply := HasSupply;
  bk_HasBalance := HasBalance;
  bk_BlockedAddr := BlockedAddr
|}.

#[export] Instance app_BankKeeper : BankKeeper W G := {|
  bk_SendCoinsFromModuleToAccount := SendCoinsFromModuleToAccount app_bank;
  bk_SendCoinsFromAccountToModule := SendCoinsFromAccountToModule app_bank;
  bk_MintCoins := λ m cs, in_ext (MintCoins m cs);
  bk_BurnCoins := λ m cs, in_ext (BurnCoins m cs);
  bk_SendCoins := SendCoins app_bank
|}.

Definition CommunityPoolKeeper_FundCommunityPool (k : CommunityPoolKeeperFields) (amount : coins)
    (sender : bytes) : M (state W G) unit :=
  SendCoinsFromAccountToModule app_bank sender (feeCollectorName k) amount.

End wiring.

(** The community pool keeper the token factory is given; [fee_collector] is
    authtypes.FeeCollectorName. *)
#[export] Instance app_CommunityPoolKeeper {W G : Type} {AC : AddressCodec} {ST : SdkTypes}
    {GM : GasMeter G} {AK : AccountKeeper W G} {BB : BankBase W G} {CK : ContractKeeper W G}
    (fee_collector : string) : CommunityPoolKeeper W G :=
  CommunityPoolKeeper_FundCommunityPool (NewCommunityPoolKeeper fee_collector).

(** * What is relied on *)

Section bank_laws.
Context {W G : Type} {BB : BankBase W G} {LG : BankLedger W}.

(** [w2] has the metadata of [w1]. *)
Definition same_metadata (w1 w2 : W) : Prop :=
  ∀ d, GetDenomMetaData d w2 = GetDenomMetaData d w1.

(** [w2] has the supplies of [w1]. *)
Definition same_supply (w1 w2 : W) : Prop := ∀ d, Supply d w2 = Supply d w1.

(** [w2] has the supplies and the balances of [w1]. *)
Definition same_ledger (w1 w2 : W) : Prop :=
  same_supply w1 w2 ∧ ∀ b d, Balance b d w2 = Balance b d w1.

End bank_laws.

(** Documented behaviour of the base bank keeper. SetDenomMetaData is a map update that
    leaves the ledger alone; operations on accounts and parameters leave both alone;
    minting, burning and sending leave metadata alone, change the ledger by the amounts
    given when they succeed, and never touch the supply of a denom they are not given. *)
Class BankBaseLaws {W G : Type} (AK : AccountKeeper W G) (BB : BankBase W G)
    (LG : BankLedger W) : Prop := {
  base_get_set : ∀ md w, GetDenomMetaData (md_Base md) (SetDenomMetaData md w) = Some md;
  base_get_set_ne : ∀ md d w, d ≠ md_Base md →
    GetDenomMetaData d (SetDenomMetaData md w) = GetDenomMetaData d w;
  base_set_ledger : ∀ md w, same_ledger w (SetDenomMetaData md w);
  base_params : ∀ p e, same_metadata (world e) (world (BankSetParams p e).2) ∧
    same_ledger (world e) (world (BankSetParams p e).2);
  base_enable : ∀ l w, same_metadata w (SetAllSendEnabled l w) ∧
    same_ledger w (SetAllSendEnabled l w);
  base_disable : ∀ l w, same_metadata w (DeleteSendEnabled l w) ∧
    same_ledger w (DeleteSendEnabled l w);
  base_account : ∀ n e, same_metadata (world e) (world (GetModuleAccount n e).2) ∧
    same_ledger (world e) (world (GetModuleAccount n e).2);
  base_send_md : ∀ f t cs e, same_metadata (world e) (world (BaseSendCoins f t cs e).2) ∧
    same_supply (world e) (world (BaseSendCoins f t cs e).2);
  base_io_md : ∀ i os e, same_metadata (world e) (world (InputOutputCoins i os e).2) ∧
    same_supply (world e) (world (InputOutputCoins i os e).2);
  base_mint_md : ∀ m cs e, same_metadata (world e) (world (MintCoins m cs e).2) ∧
    ∀ d, Forall (λ c, coin_Denom c ≠ d) cs →
      Supply d (world (MintCoins m cs e).2) = Supply d (world e);
  base_burn_md : ∀ m cs e, same_metadata (world e) (world (BurnCoins m cs e).2) ∧
    ∀ d, Forall (λ c, coin_Denom c ≠ d) cs →
      Supply d (world (BurnCoins m cs e).2) = Supply d (world e);
  base_mint_ok : ∀ m a cs e e1, GetModuleAddress m = Some a → MintCoins m cs e = (Ok (), e1) →
    (∀ d, Supply d (world e1) = Supply d (world e) + AmountOf cs d) ∧
    (∀ b d, Balance b d (world e1) =
       Balance b d (world e) + if decide (b = a) then AmountOf cs d else 0);
  base_burn_ok : ∀ m a cs e e1, GetModuleAddress m = Some a → BurnCoins m cs e = (Ok (), e1) →
    (∀ d, Supply d (world e1) = Supply d (world e) - AmountOf cs d) ∧
    (∀ b d, Balance b d (world e1) =
       Balance b d (world e) - if decide (b = a) then AmountOf cs d else 0);
  base_send_ok : ∀ f t cs e e1, BaseSendCoins f t cs e = (Ok (), e1) →
    ∀ b d, Balance b d (world e1) =
      Balance b d (world e) - (if decide (b = f) then AmountOf cs d else 0)
        + (if decide (b = t) then AmountOf cs d else 0)
}.

Section wired.
Context {W G : Type} {AC : AddressCodec} {ST : SdkTypes} {GM : GasMeter G}.
Context {AK : AccountKeeper W G} {BB : BankBase W G} {CK : ContractKeeper W G}.
Context {KW : KeyWalk} {LG : BankLedger W} {BL : BankBaseLaws AK BB LG}.

Lemma wire_bank_ok authorityAddr b :
  StringToBytes authorityAddr = Ok b → wire_bank authorityAddr = Ok app_bank.
Proof. intros H. unfold wire_bank, NewBankKeeper. by rw H. Qed.

#[export] Instance app_BankMetadataLaws : BankMetadataLaws (BV:=app_BankView).
Proof. split; [apply base_get_set|apply base_get_set_ne|intros; apply base_set_ledger]. Qed.

(** A property that only depends on the existence of metadata and that contracts keep is
    kept by every send. *)
Section sends.
Context (I : state W G → Prop) {EC : EnvClosed I} (HS : ∀ a m, preserves I (Sudo a m)).

Lemma same_world_kept w1 w2 : same_metadata w1 w2 → same_supply w1 w2 → world_kept w1 w2.
Proof. intros Hm Hs. split; [intros d; cbn; by rw Hm|by intros d _]. Qed.

Lemma preserves_same {A} (m : M (env W G) A) :
  (∀ e, same_metadata (world e) (world (m e).2) ∧ same_supply (world e) (world (m e).2)) →
  preserves I (in_ext m).
Proof. intros Hm. apply preserves_in_ext; [done|]. intros e. by apply same_world_kept; apply Hm. Qed.

Lemma preserves_same_world f :
  (∀ w, same_metadata w (f w) ∧ same_supply w (f w)) → preserves I (write_world f).
Proof. intros Hf. apply preserves_write; [done|]. intros w. by apply same_world_kept; apply Hf. Qed.

Lemma preserves_account n : preserves I (in_ext (GetModuleAccount n)).
Proof. apply preserves_same. intros e. by destruct (base_account n e) as [? []]. Qed.

Lemma preserves_track from to cs : preserves I (TrackBeforeSend app_bank from to cs).
Proof.
  apply preserves_bind; [|intros; apply preserves_ret].
  by apply preserves_attempt, preserves_listener.
Qed.

Lemma preserves_block from to cs : preserves I (BlockBeforeSend app_bank from to cs).
Proof. by apply preserves_listener. Qed.

Lemma preserves_SendCoins from to cs : preserves I (SendCoins app_bank from to cs).
Proof.
  apply preserves_bind; [apply preserves_block|intros _].
  apply preserves_bind; [apply preserves_track|intros _].
  apply preserves_same, base_send_md.
Qed.

Lemma preserves_SendCoinsWithoutBlockHook from to cs :
  preserves I (SendCoinsWithoutBlockHook app_bank from to cs).
Proof.
  apply preserves_bind; [apply preserves_track|intros _]. apply preserves_same, base_send_md.
Qed.

Lemma preserves_to_module from m cs :
  preserves I (SendCoinsFromAccountToModule app_bank from m cs).
Proof.
  apply preserves_bind; [apply preserves_account|].
  intros [a|]; [apply preserves_SendCoins|apply preserves_panic].
Qed.

Lemma preserves_to_account m to cs :
  preserves I (SendCoinsFromModuleToAccount app_bank m to cs).
Proof.
  unfold SendCoinsFromModuleToAccount. destruct (GetModuleAddress m); [|apply preserves_panic].
  apply preserves_if; [apply preserves_fail|apply preserves_SendCoins].
Qed.

Lemma preserves_module_to_module m1 m2 cs :
  preserves I (SendCoinsFromModuleToModule app_bank m1 m2 cs).
Proof.
  unfold SendCoinsFromModuleToModule. destruct (GetModuleAddress m1); [|apply preserves_panic].
  apply preserves_bind; [apply preserves_account|].
  intros [a|]; [apply preserves_SendCoinsWithoutBlockHook|apply preserves_panic].
Qed.

Lemma preserves_bank_Send m : preserves I (BankMsgServer_Send app_bank m).
Proof.
  unfold BankMsgServer_Send.
  repeat (apply preserves_bind; [apply preserves_lift|intros ?]).
  apply preserves_if; [apply preserves_fail|].
  apply preserves_bind; [apply preserves_gets|intros ?].
  apply preserves_bind; [apply preserves_lift|intros _].
  apply preserves_if; [apply preserves_fail|apply preserves_SendCoins].
Qed.

Lemma preserves_multisend_output a o : preserves I (multisend_output app_bank a o).
Proof.
  apply preserves_bind; [apply preserves_lift|intros b].
  apply preserves_if; [apply preserves_fail|].
  apply preserves_bind; [apply preserves_block|intros _; apply preserves_track].
Qed.

Lemma preserves_bank_MultiSend m : preserves I (BankMsgServer_MultiSend app_bank m).
Proof.
  unfold BankMsgServer_MultiSend.
  destruct (MsgMultiSend_Inputs m) as [|i [|]]; [apply preserves_fail| |apply preserves_fail].
  destruct (MsgMultiSend_Outputs m) as [|o os]; [apply preserves_fail|].
  apply preserves_bind; [apply preserves_lift|intros _].
  apply preserves_bind; [|intros _].
  { apply preserves_for_each. intros x _.
    apply preserves_bind; [apply preserves_gets|intros; apply preserves_lift]. }
  apply preserves_bind; [apply preserves_lift|intros a].
  apply preserves_bind; [|intros _; apply preserves_same, base_io_md].
  apply preserves_for_each. intros x _. apply preserves_multisend_output.
Qed.

Lemma preserves_bank_UpdateParams m : preserves I (BankMsgServer_UpdateParams m).
Proof.
  unfold BankMsgServer_UpdateParams. destruct (decide _); [|apply preserves_fail].
  apply preserves_bind; [apply preserves_lift|intros _]. 
  apply preserves_same. intros x. by destruct (base_params (MsgUpdateBankParams_Params m) x) as [? []].
Qed.

Lemma preserves_bank_SetSendEnabled m : preserves I (BankMsgServer_SetSendEnabled m).
Proof.
  unfold BankMsgServer_SetSendEnabled. destruct (decide _); [|apply preserves_fail].
  repeat (apply preserves_bind; [apply preserves_lift|intros _]).
  apply preserves_bind; [|intros _]; (apply preserves_if; [apply preserves_ret|]);
    apply preserves_same_world; intros w; [destruct (base_enable (MsgSetSendEnabled_SendEnabled m) w) as [? []]
      |destruct (base_disable (MsgSetSendEnabled_UseDefaultFor m) w) as [? []]]; done.
Qed.

End sends.

(** The keepers of the application keep what contracts keep: the instance that discharges
    the token factory's assumptions. *)
Lemma app_keepers_preserve fee_collector I {EC : EnvClosed I} :
  (∀ a m, preserves I (Sudo a m)) →
  KeepersPreserve (CP:=app_CommunityPoolKeeper fee_collector) I.
Proof.
  intros HS. split; intros.
  - by apply preserves_to_account.
  - by apply preserves_to_module.
  - by apply preserves_to_module.
  - apply HS.
Qed.

(** Minting and burning keep the invariant and the admins, and the supply of every denom
    that is not minted or burnt. *)
Lemma mint_keeps_module cs : mint_keeps (BK:=app_BankKeeper) module_inv cs.
Proof.
  intros m. split; apply preserves_zoom; intros s [Hi Hm]; (split; [done|]); cbn; intros d Hd;
    [destruct (base_mint_md m cs (ext s)) as [Hk _]|destruct (base_burn_md m cs (ext s)) as [Hk _]];
    rw Hk; by apply Hm.
Qed.

Lemma mint_keeps_admin d a cs : mint_keeps (BK:=app_BankKeeper) (admin_is d a) cs.
Proof.
  intros m. destruct (mint_keeps_module cs m) as [H1 H2]. rw !preserves_snd in H1 H2.
  split; apply preserves_snd; intros s [Hi Hd]; (split; [by first [apply H1|apply H2]|]);
    cbn; unfold in_ext, zoom; [by destruct (MintCoins m cs (ext s))|by destruct (BurnCoins m cs (ext s))].
Qed.

Lemma mint_keeps_supply d a n c :
  coin_Denom c ≠ d → mint_keeps (BK:=app_BankKeeper) (supply_is d a n) [c].
Proof.
  intros Hne m. destruct (mint_keeps_admin d a [c] m) as [H1 H2]. rw !preserves_snd in H1 H2.
  split; apply preserves_snd; intros s [Hi Hd]; (split; [by first [apply H1|apply H2]|]);
    rw -Hd; cbn; unfold in_ext, zoom.
  - destruct (base_mint_md m [c] (ext s)) as [_ Hk]. specialize (Hk d).
    destruct (MintCoins m [c] (ext s)). apply Hk. by repeat constructor.
  - destruct (base_burn_md m [c] (ext s)) as [_ Hk]. specialize (Hk d).
    destruct (BurnCoins m [c] (ext s)). apply Hk. by repeat constructor.
Qed.

End wired.
