(* ===== verification/BankSpec.v ===== *)
(** What the bank keeper and its message server do with the token factory's hooks: which
    sends a hook can refuse, which it can only observe, and what a send of coins without
    hooks is; and the message server's own checks (x/bank/keeper). *)
From S2P Require Import Prelude.
From S2P Require Import Interfaces.
From S2P Require Import TfTypes.
From S2P Require Import TfKeeper.
From S2P Require Import Bank.
From S2P Require Import TfMsgServer.
From S2P Require Import TfInvariants.
From S2P Require Import Wiring.

Section sends.
Context {W G : Type} {AC : AddressCodec} {ST : SdkTypes} {GM : GasMeter G}.
Context {AK : AccountKeeper W G} {BB : BankBase W G} {CK : ContractKeeper W G}.
Implicit Types (s : state W G).

(** Tracking always ends normally, whatever the contracts do. *)
Lemma track_total from to cs s :
  TrackBeforeSend app_bank from to cs s =
    (Ok (), (callBeforeSendListener from to cs false s).2).
Proof.
  cbn. unfold Hooks_TrackBeforeSend, bind, attempt.
  pose proof (λ p, listener_no_panic from to cs false s p) as Hp.
  destruct (callBeforeSendListener from to cs false s) as [[]]; [done..|]. by destruct (Hp p).
Qed.

(** The base send, run on what a hook left. *)
Definition base_send (from to : bytes) (cs : coins) s : res unit * state W G :=
  in_ext (BaseSendCoins from to cs) s.

Lemma send_without_block from to cs s :
  SendCoinsWithoutBlockHook app_bank from to cs s =
    base_send from to cs (callBeforeSendListener from to cs false s).2.
Proof. unfold SendCoinsWithoutBlockHook, bind. by rw track_total. Qed.

(** C33. A module to module send cannot be refused by a hook: its outcome is that of the base
    send, on the state the tracking contracts left. Panics and errors of the contracts
    are suppressed. *)
Theorem ModuleToModule_not_blockable m1 m2 cs s a1 a2 e1 :
  GetModuleAddress m1 = Some a1 → GetModuleAccount m2 (ext s) = (Ok (Some a2), e1) →
  ∃ s1, SendCoinsFromModuleToModule app_bank m1 m2 cs s = base_send a1 a2 cs s1 ∧
    s1 = (callBeforeSendListener a1 a2 cs false (put_ext e1 s)).2.
Proof.
  intros H1 H2. eexists. split; [|done]. unfold SendCoinsFromModuleToModule.
  assert (in_ext (GetModuleAccount m2) s = (Ok (Some a2), put_ext e1 s)) as Hm
    by by unfold in_ext, zoom; rw H2.
  rw H1 (bind_ok _ _ _ _ _ Hm). apply send_without_block.
Qed.

(** Every other send asks the blocking hooks first. When one refuses, the send fails with
    its error before tracking and before any coin moves: the state is the one the
    refusing contracts left. When all agree, tracking follows and then the base send. *)
Theorem SendCoins_spec from to cs s :
  SendCoins app_bank from to cs s =
  match callBeforeSendListener from to cs true s with
  | (Ok _, s1) => base_send from to cs (callBeforeSendListener from to cs false s1).2
  | (Err e, s1) => (Err e, s1)
  | (Panic p, s1) => (Panic p, s1)
  end ∧ ∀ p, (callBeforeSendListener from to cs true s).1 ≠ Panic p.
Proof.
  split; [|intros p; apply listener_no_panic]. unfold SendCoins, bind at 1. cbn.
  unfold Hooks_BlockBeforeSend. destruct (callBeforeSendListener from to cs true s) as [[]]; [|done..].
  unfold bind at 1. pose proof (track_total from to cs s0) as Ht. cbn in Ht. by rw Ht.
Qed.

Lemma SendCoins_unhooked from to cs s f t :
  BytesToString from = Ok f → BytesToString to = Ok t →
  Forall (λ c, DenomHookAddr (tf s) !! coin_Denom c = None) cs →
  SendCoins app_bank from to cs s = base_send from to cs s.
Proof.
  intros Hf Ht Hc. unfold SendCoins, bind at 1. cbn. unfold Hooks_BlockBeforeSend, Hooks_TrackBeforeSend.
  unfold bind, attempt. by rw !(callBeforeSendListener_unhooked _ _ _ _ _ f t Hf Ht Hc).
Qed.

(** ** MultiSend *)

(** What MultiSend runs before it moves coins: the hooks of every output, in order. *)
Lemma MultiSend_out input outputs s r s1 :
  BankMsgServer_MultiSend app_bank {| MsgMultiSend_Inputs := [input]; MsgMultiSend_Outputs := outputs |} s
    = (r, s1) →
  (r ≠ Ok () ∧ ext s1 = ext s ∧ tf s1 = tf s) ∨
  ∃ inAddr s2,
    StringToBytes (io_Address input) = Ok inAddr ∧ outputs ≠ [] ∧
    ValidateInputOutputs input outputs = None ∧
    IsSendEnabledCoins (io_Coins input) (world (ext s)) = None ∧
    ((∃ e, for_each outputs (multisend_output app_bank inAddr) s = (Err e, s1) ∧ r = Err e) ∨
     (∃ p, for_each outputs (multisend_output app_bank inAddr) s = (Panic p, s1) ∧ r = Panic p) ∨
     for_each outputs (multisend_output app_bank inAddr) s = (Ok (), s2) ∧
     in_ext (InputOutputCoins input outputs) s2 = (r, s1)).
Proof.
  unfold BankMsgServer_MultiSend. cbn [MsgMultiSend_Inputs MsgMultiSend_Outputs].
  destruct outputs as [|o os]; [unfold fail; intros; simplify_eq; by left|].
  unfold bind at 1. unfold lift at 1, check at 1.
  destruct (ValidateInputOutputs input (o :: os)) eqn:Hv; [intros; simplify_eq; by left|].
  match goal with |- bind ?f ?rest s = _ → _ => assert (f s = (match IsSendEnabledCoins
    (io_Coins input) (world (ext s)) with None => Ok () | Some e => Err e end, s)) as Hf end.
  { unfold bind, read_world, gets. cbn. by destruct (IsSendEnabledCoins _ _). }
  unfold bind at 1. rw Hf. clear Hf.
  destruct (IsSendEnabledCoins (io_Coins input) (world (ext s))) eqn:He;
    [intros; simplify_eq; by left|].
  unfold bind at 1, lift. destruct (StringToBytes (io_Address input)) as [a|e|p] eqn:Ha;
    [|intros; simplify_eq; by left..].
  unfold bind at 1. intros H. right.
  destruct (for_each (o :: os) (multisend_output app_bank a) s) as [[[]|e|p] s2] eqn:Hf; simplify_eq.
  - exists a, s2. split_and!; try done. right. by right.
  - exists a, s1. split_and!; try done. left. by exists e.
  - exists a, s1. split_and!; try done. right. left. by exists p.
Qed.

Lemma multisend_output_ok a o s s1 :
  multisend_output app_bank a o s = (Ok (), s1) →
  ∃ b s2, StringToBytes (io_Address o) = Ok b ∧ BlockedAddr b = false ∧
    callBeforeSendListener a b (io_Coins o) true s = (Ok (), s2) ∧
    s1 = (callBeforeSendListener a b (io_Coins o) false s2).2.
Proof.
  unfold multisend_output. intros H. apply bind_ok_inv in H as (b & s2 & Hb & H).
  unfold lift in Hb. injection Hb as Hb <-. destruct (BlockedAddr b) eqn:Hbl; [done|].
  apply bind_ok_inv in H as ([] & s3 & Hblock & H).
  rw track_total in H. injection H as <-. by exists b, s3.
Qed.

(** MultiSend moves coins only when, for every output, the recipient is an unblocked
    address and the blocking hooks agreed on that output's coins; the transfer itself is
    then the base keeper's. *)
Theorem MultiSend_ok input outputs s s1 :
  BankMsgServer_MultiSend app_bank {| MsgMultiSend_Inputs := [input]; MsgMultiSend_Outputs := outputs |} s
    = (Ok (), s1) →
  ∃ inAddr s2,
    StringToBytes (io_Address input) = Ok inAddr ∧
    IsSendEnabledCoins (io_Coins input) (world (ext s)) = None ∧
    in_ext (InputOutputCoins input outputs) s2 = (Ok (), s1) ∧
    Forall (λ o, ∃ b s3 s4, StringToBytes (io_Address o) = Ok b ∧ BlockedAddr b = false ∧
      callBeforeSendListener inAddr b (io_Coins o) true s3 = (Ok (), s4)) outputs.
Proof.
  intros [(Hn & _)|(a & s2 & Ha & _ & _ & He & Hr)]%MultiSend_out; [done|].
  destruct Hr as [(e & _ & ?)|[(p & _ & ?)|(Hf & Hio)]]; [done..|].
  exists a, s2. split_and!; [done..|]. clear Hio He. revert s Hf.
  induction outputs as [|o os IH]; intros s Hf; [done|]. cbn in Hf.
  apply bind_ok_inv in Hf as ([] & s3 & Ho & Hf). constructor; [|by eapply IH].
  apply multisend_output_ok in Ho as (b & s4 & Hb & Hbl & Hc & _). by eexists b, s, s4.
Qed.

(** ** Parameters *)

Lemma check_send_enabled_spec seen l :
  check_send_enabled seen l = Ok () ↔
  NoDup (se_Denom <$> l) ∧ Forall (λ e, (se_Denom e ∉ seen) ∧ SendEnabled_Validate e = None) l.
Proof.
  revert seen. induction l as [|e l IH]; intros seen; cbn.
  { split; [|done]. intros _. split; constructor. }
  rw NoDup_cons Forall_cons. case_decide; [naive_solver|].
  destruct (SendEnabled_Validate e); [naive_solver|]. rw IH !Forall_forall list_elem_of_fmap.
  set_solver.
Qed.

Lemma check_use_default_for_spec l :
  check_use_default_for l = Ok () ↔ Forall (λ d, ValidateDenom d = None) l.
Proof.
  induction l as [|d l IH]; cbn; [done|]. rw Forall_cons.
  destruct (ValidateDenom d); [naive_solver|]. rw IH. naive_solver.
Qed.

Definition valid_SetSendEnabled (m : MsgSetSendEnabled) : Prop :=
  MsgSetSendEnabled_Authority m = BankAuthority ∧
  NoDup (se_Denom <$> MsgSetSendEnabled_SendEnabled m) ∧
  Forall (λ e, SendEnabled_Validate e = None) (MsgSetSendEnabled_SendEnabled m) ∧
  Forall (λ d, ValidateDenom d = None) (MsgSetSendEnabled_UseDefaultFor m).

(** The state after an accepted message: an empty list is not written. *)
Definition send_enabled_set (m : MsgSetSendEnabled) (w : W) : W :=
  let w1 := if decide (MsgSetSendEnabled_SendEnabled m = []) then w
            else SetAllSendEnabled (MsgSetSendEnabled_SendEnabled m) w in
  if decide (MsgSetSendEnabled_UseDefaultFor m = []) then w1
  else DeleteSendEnabled (MsgSetSendEnabled_UseDefaultFor m) w1.

(** SetSendEnabled accepts a message exactly when it comes from the authority, names no
    denom twice and only valid ones; then the entries are set and those to be reset are
    deleted, in that order, and on a refusal nothing changes. *)
Theorem SetSendEnabled_spec m s :
  (valid_SetSendEnabled m →
     BankMsgServer_SetSendEnabled m s =
       (Ok (), put_ext (Env (send_enabled_set m (world (ext s))) (gas (ext s)) (events (ext s))) s)) ∧
  (¬ valid_SetSendEnabled m →
     (BankMsgServer_SetSendEnabled m s).2 = s ∧ (BankMsgServer_SetSendEnabled m s).1 ≠ Ok ()).
Proof.
  unfold BankMsgServer_SetSendEnabled, valid_SetSendEnabled.
  pose proof (check_send_enabled_spec ∅ (MsgSetSendEnabled_SendEnabled m)) as H1.
  pose proof (check_use_default_for_spec (MsgSetSendEnabled_UseDefaultFor m)) as H2.
  assert (H3 : Forall (λ e, (se_Denom e ∉ (∅ : gset string)) ∧ SendEnabled_Validate e = None)
    (MsgSetSendEnabled_SendEnabled m) ↔ Forall (λ e, SendEnabled_Validate e = None)
    (MsgSetSendEnabled_SendEnabled m)).
  { rw !Forall_forall. set_solver. }
  rw H3 in H1. split.
  - intros (Ha & Hn & Hv & Hd). case_decide; [|by destruct H]. unfold bind, lift.
    rw (proj2 H1 (conj Hn Hv)) (proj2 H2 Hd). unfold send_enabled_set.
    destruct s as [t [w g ev]]. do 2 (case_bool_decide; case_decide; try done).
  - intros Hno. case_decide as Ha; [|done]. unfold bind, lift.
    destruct (check_send_enabled ∅ _) as [[]|e|p]; [|done..].
    destruct (check_use_default_for _) as [[]|e|p]; [|done..]. naive_solver.
Qed.

End sends.
