(* ===== verification/TfSpec.v ===== *)
(** What each message of the token factory does, on every branch: who is refused and
    with what error, what a creation, a mint and a burn change in the module's store and
    in the bank's ledger, and what the queries answer (x/tokenfactory/keeper). *)
From S2P Require Import Prelude.
From S2P Require Import Interfaces.
From S2P Require Import TfTypes.
From S2P Require Import TfKeeper.
From S2P Require Import Bank.
From S2P Require Import TfMsgServer.
From S2P Require Import TfInvariants.
From S2P Require Import Wiring.
From S2P Require Import BankSpec.

(** * Refusals *)

Section refusals.
Context {W G : Type} {AC : AddressCodec} {ST : SdkTypes} {GM : GasMeter G}.
Context {AK : AccountKeeper W G} {BV : BankView W} {BK : BankKeeper W G}.
Context {CP : CommunityPoolKeeper W G} {CK : ContractKeeper W G} {KW : KeyWalk}.
Context {ACL : AddressCodecLaws AC}.
Implicit Types (s : state W G).

(** The denom a message administers and its sender, for the messages reserved to the
    admin. *)
Definition admin_target (m : tf_msg) : option (string * string) :=
  match m with
  | Mint m => Some (coin_Denom (MsgMint_Amount m), MsgMint_Sender m)
  | Burn m => Some (coin_Denom (MsgBurn_Amount m), MsgBurn_Sender m)
  | ChangeAdmin m => Some (MsgChangeAdmin_Denom m, MsgChangeAdmin_Sender m)
  | SetDenomMetadata m =>
      Some (md_Base (MsgSetDenomMetadata_Metadata m), MsgSetDenomMetadata_Sender m)
  | SetBeforeSendHook m => Some (MsgSetBeforeSendHook_Denom m, MsgSetBeforeSendHook_Sender m)
  | CreateDenom _ | UpdateParams _ => None
  end.

(** The stateless validation of a message. *)
Definition msg_Validate (m : tf_msg) : res unit :=
  match m with
  | CreateDenom m => MsgCreateDenom_Validate m
  | Mint m => MsgMint_Validate m
  | Burn m => MsgBurn_Validate m
  | ChangeAdmin m => MsgChangeAdmin_Validate m
  | SetDenomMetadata m => MsgSetDenomMetadata_Validate m
  | SetBeforeSendHook m => MsgSetBeforeSendHook_Validate m
  | UpdateParams m => Params_Validate (MsgUpdateParams_Params m)
  end.

Lemma validate_sender_total sender p : validate_sender sender ≠ Panic p.
Proof.
  unfold validate_sender. pose proof (StringToBytes_total sender) as H.
  destruct (StringToBytes sender); cbn; [by destruct (is_empty a)|done|by destruct (H p0)].
Qed.

Lemma invalid_creator_total {A} (r : res A) :
  (∀ p, r ≠ Panic p) → ∀ p, invalid_creator_address r ≠ Panic p.
Proof. by destruct r. Qed.

Lemma DeconstructDenom_total d p : DeconstructDenom d ≠ Panic p.
Proof.
  unfold DeconstructDenom. destruct (check (ValidateDenom d)) eqn:Hc; cbn; [|done|by destruct (ValidateDenom d)].
  destruct (split_on "/" d) as [|p0 [|p1 [|p2 rest]]]; try done. case_decide; [|done].
  pose proof (invalid_creator_total _ (StringToBytes_total p1)) as H1.
  destruct (invalid_creator_address (StringToBytes p1)) as [b|e|q]; cbn; [|done|by destruct (H1 q)].
  pose proof (invalid_creator_total _ (BytesToString_total b)) as H2.
  destruct (invalid_creator_address (BytesToString b)) as [c|e|q]; cbn; [done|done|by destruct (H2 q)].
Qed.

(** Validation reports errors; it does not panic. *)
Lemma msg_Validate_total m p : msg_Validate m ≠ Panic p.
Proof.
  destruct m as [m|m|m|m|m|m|m]; cbn.
  - unfold MsgCreateDenom_Validate. pose proof (validate_sender_total (MsgCreateDenom_Sender m)) as H.
    destruct (validate_sender _); cbn; [|done|by destruct (H p0)].
    unfold GetTokenDenom. repeat (destruct (_ <? _); [done|]). destruct (contains _ _); [done|].
    by destruct (ValidateDenom _).
  - unfold MsgMint_Validate, validate_amount. pose proof (validate_sender_total (MsgMint_Sender m)) as H.
    destruct (validate_sender _); cbn; [by destruct (_ || _)|done|by destruct (H p0)].
  - unfold MsgBurn_Validate, validate_amount. pose proof (validate_sender_total (MsgBurn_Sender m)) as H.
    destruct (validate_sender _); cbn; [by destruct (_ || _)|done|by destruct (H p0)].
  - unfold MsgChangeAdmin_Validate.
    pose proof (StringToBytes_total (MsgChangeAdmin_Sender m)) as H1.
    pose proof (StringToBytes_total (MsgChangeAdmin_NewAdmin m)) as H2.
    pose proof (DeconstructDenom_total (MsgChangeAdmin_Denom m)) as H3.
    destruct (StringToBytes (MsgChangeAdmin_Sender m)); cbn; [|done|by destruct (H1 p0)].
    destruct (negb _); [destruct (StringToBytes (MsgChangeAdmin_NewAdmin m)); cbn;
      [|done|by destruct (H2 p0)]|]; cbn; destruct (DeconstructDenom _); try done; by destruct (H3 p0).
  - unfold MsgSetDenomMetadata_Validate.
    pose proof (validate_sender_total (MsgSetDenomMetadata_Sender m)) as H.
    pose proof (DeconstructDenom_total (md_Base (MsgSetDenomMetadata_Metadata m))) as H3.
    destruct (validate_sender _); cbn; [|done|by destruct (H p0)].
    destruct (Metadata_Validate _); cbn; [done|]. destruct (DeconstructDenom _); try done; by destruct (H3 p0).
  - unfold MsgSetBeforeSendHook_Validate.
    pose proof (validate_sender_total (MsgSetBeforeSendHook_Sender m)) as H.
    pose proof (DeconstructDenom_total (MsgSetBeforeSendHook_Denom m)) as H3.
    destruct (validate_sender _); cbn; [|done|by destruct (H p0)].
    destruct (DeconstructDenom _); try done; by destruct (H3 p0).
  - unfold Params_Validate, validateDenomCreationFee. by destruct (Coins_Validate _).
Qed.

(** The check of the admin on a sender that is not: an error, and nothing changes. *)
Lemma require_admin_refuses {A} d sender (k : unit → M (state W G) A) s :
  DenomAuthority (tf s) !! d ≠ Some {| Admin := sender |} →
  bind (require_admin d sender) k s =
    (Err (if DenomAuthority (tf s) !! d is Some _ then ErrUnauthorized else ErrNotFound), s).
Proof.
  intros Hne. unfold require_admin, bind, GetAuthorityMetadata.
  destruct (DenomAuthority (tf s) !! d) as [[a]|]; [|done]. cbn. case_decide; [|done]. by subst.
Qed.

(** Whether the account is the admin is asked before anything is changed. *)
Lemma admin_refused authority m d sender s :
  admin_target m = Some (d, sender) → DenomAuthority (tf s) !! d ≠ Some {| Admin := sender |} →
  (∃ e, handle authority m s = (Err e, s)) ∧
  (msg_Validate m = Ok () → is_Some (DenomAuthority (tf s) !! d) →
   is_Some (bk_GetDenomMetaData d (world (ext s))) →
   handle authority m s = (Err ErrUnauthorized, s)).
Proof.
  intros Ht Hne. pose proof (msg_Validate_total m) as Hp.
  destruct (msg_Validate m) as [[]|e|p] eqn:Hv; [| |by destruct (Hp p)].
  - assert (∃ e, handle authority m s = (Err e, s) ∧
      (is_Some (DenomAuthority (tf s) !! d) → is_Some (bk_GetDenomMetaData d (world (ext s))) →
       e = ErrUnauthorized)) as (e & He & Hu).
    { destruct m as [m|m|m|m|m|m|m]; try done; cbn in Ht; injection Ht as <- <-;
        cbn [handle msg_Validate] in *;
        unfold MsgServer_Mint, MsgServer_Burn, MsgServer_ChangeAdmin, MsgServer_SetDenomMetadata,
          MsgServer_SetBeforeSendHook; unfold bind at 1, lift at 1; rw Hv.
      - unfold bind at 1, read_world, gets. destruct (bk_GetDenomMetaData _ _).
        + rw require_admin_refuses //. eexists. split; [done|]. by intros [? ->].
        + eexists. split; [done|]. by intros _ [].
      - rw require_admin_refuses //. eexists. split; [done|]. by intros [? ->].
      - rw require_admin_refuses //. eexists. split; [done|]. by intros [? ->].
      - unfold bind at 1, lift, check. unfold MsgSetDenomMetadata_Validate in Hv.
        go_inv. rw require_admin_refuses //. eexists. split; [done|]. by intros [? ->].
      - rw require_admin_refuses //. eexists. split; [done|]. by intros [? ->]. }
    split; [by eexists|]. intros _ Ha Hm. by rw He Hu.
  - split; [|done]. exists e. destruct m as [m|m|m|m|m|m|m]; try done; cbn [handle msg_Validate] in *;
      unfold MsgServer_Mint, MsgServer_Burn, MsgServer_ChangeAdmin, MsgServer_SetDenomMetadata,
        MsgServer_SetBeforeSendHook; unfold bind at 1, lift at 1; by rw Hv.
Qed.

(** C7. Mint, Burn, ChangeAdmin, SetDenomMetadata and SetBeforeSendHook are refused to
    everyone but the admin of the denom, and a refusal changes nothing: no store of any
    module, no gas, no event. A well formed message for an existing denom is answered
    with ErrUnauthorized. *)
Theorem only_admin authority m d sender s :
  admin_target m = Some (d, sender) → DenomAuthority (tf s) !! d ≠ Some {| Admin := sender |} →
  (∃ e, handle authority m s = (Err e, s)) ∧
  (msg_Validate m = Ok () → is_Some (DenomAuthority (tf s) !! d) →
   is_Some (bk_GetDenomMetaData d (world (ext s))) →
   handle authority m s = (Err ErrUnauthorized, s)).
Proof. apply admin_refused. Qed.

(** The parameters change only at the word of the module's authority, and only to valid
    ones; a refusal changes nothing. *)
Theorem UpdateParams_spec authority m s :
  let valid := MsgUpdateParams_Authority m = authority ∧
    Coins_Validate (DenomCreationFee (MsgUpdateParams_Params m)) = None in
  (valid → MsgServer_UpdateParams authority m s =
     (Ok (), on_tf (set_ParamsItem (Some (MsgUpdateParams_Params m))) s)) ∧
  (¬ valid → ∃ e, MsgServer_UpdateParams authority m s = (Err e, s)).
Proof.
  cbn zeta. unfold MsgServer_UpdateParams, GetAuthority, Params_Validate, validateDenomCreationFee.
  unfold bind, lift. destruct (decide (authority = _)) as [Ha|Ha];
    destruct (Coins_Validate _) as [e|] eqn:Hc; cbn; (split; [intros [H1 H2]|intros Hno]); try done;
    try (by eexists); try (by destruct Ha); by destruct Hno.
Qed.

End refusals.

(** * Creation *)

Section creation.
Context {W G : Type} {AC : AddressCodec} {ST : SdkTypes} {GM : GasMeter G}.
Context {AK : AccountKeeper W G} {BV : BankView W} {BK : BankKeeper W G}.
Context {CP : CommunityPoolKeeper W G} {CK : ContractKeeper W G} {KW : KeyWalk}.
Context {LG : BankLedger W} {BML : BankMetadataLaws}.
Context {ACL : AddressCodecLaws AC}.
Implicit Types (s : state W G).

Lemma Validate_GetTokenDenom m :
  MsgCreateDenom_Validate m = Ok () →
  is_address (MsgCreateDenom_Sender m) ∧
  ∃ denom, GetTokenDenom (MsgCreateDenom_Sender m) (MsgCreateDenom_Subdenom m) = Ok denom.
Proof.
  unfold MsgCreateDenom_Validate. intros H. go_inv. destruct x.
  split; [by apply validate_sender_ok|]. destruct (GetTokenDenom _ _); try done. by eexists.
Qed.

(** C30. A denom that already has bank metadata, or whose subdenom is the name of a coin in
    circulation, is not created: the message fails before any fee is charged, and
    nothing changes. *)
Theorem CreateDenom_refused m s :
  MsgCreateDenom_Validate m = Ok () →
  (bk_HasSupply (MsgCreateDenom_Subdenom m) (world (ext s)) = true →
     ∃ e, MsgServer_CreateDenom m s = (Err e, s)) ∧
  (bk_HasSupply (MsgCreateDenom_Subdenom m) (world (ext s)) = false →
   ∀ denom, GetTokenDenom (MsgCreateDenom_Sender m) (MsgCreateDenom_Subdenom m) = Ok denom →
     is_Some (bk_GetDenomMetaData denom (world (ext s))) →
     MsgServer_CreateDenom m s = (Err ErrDenomExists, s)).
Proof.
  intros Hv. unfold MsgServer_CreateDenom. unfold bind at 1, lift at 1. rw Hv. split.
  - intros Hn. eexists. unfold bind at 1, Keeper_CreateDenom, bind at 1, validateCreateDenom.
    unfold bind at 1, read_world, gets. by rw Hn.
  - intros Hn denom Hd [md Hmd]. unfold bind at 1, Keeper_CreateDenom, bind at 1, validateCreateDenom.
    unfold bind, read_world, gets, lift. by rw Hn Hd Hmd.
Qed.

(** The store after a creation. *)
Definition created (c d : string) (t : TfStore) : TfStore :=
  set_CreatorDenoms ({[(c, d)]} ∪ CreatorDenoms t)
    (set_DenomAuthority (<[d := {| Admin := c |}]> (DenomAuthority t)) t).

(** C29. A creation that passes the checks and pays its charge succeeds: the sender becomes
    the admin, the denom is listed under the sender and has bank metadata, and every
    other entry of the store is as the charge left it. *)
Theorem CreateDenom_ok m s denom s1 :
  MsgCreateDenom_Validate m = Ok () →
  GetTokenDenom (MsgCreateDenom_Sender m) (MsgCreateDenom_Subdenom m) = Ok denom →
  bk_HasSupply (MsgCreateDenom_Subdenom m) (world (ext s)) = false →
  bk_GetDenomMetaData denom (world (ext s)) = None →
  chargeForCreateDenom (MsgCreateDenom_Sender m) s = (Ok (), s1) →
  ∃ s2, MsgServer_CreateDenom m s = (Ok denom, s2) ∧
    tf s2 = created (MsgCreateDenom_Sender m) denom (tf s1) ∧
    (bk_GetDenomMetaData denom (world (ext s1)) = None →
       bk_GetDenomMetaData denom (world (ext s2)) = Some (denomMetaData denom)) ∧
    (∀ d, d ≠ denom → bk_GetDenomMetaData d (world (ext s2)) = bk_GetDenomMetaData d (world (ext s1))) ∧
    gas (ext s2) = gas (ext s1) ∧
    events (ext s2) = events (ext s1) ++
      [NewEvent TypeMsgCreateDenom [(AttributeCreator, MsgCreateDenom_Sender m); (AttributeNewTokenDenom, denom)]].
Proof.
  intros Hv Hd Hn Hm Hc. destruct (Validate_GetTokenDenom m Hv) as [[b Hb] _].
  assert (Hva : DenomAuthorityMetadata_Validate {| Admin := MsgCreateDenom_Sender m |} = Ok ()).
  { unfold DenomAuthorityMetadata_Validate. cbn. destruct (negb _); [by rw Hb|done]. }
  assert (Hval : validateCreateDenom (MsgCreateDenom_Sender m) (MsgCreateDenom_Subdenom m) s = (Ok denom, s)).
  { unfold validateCreateDenom, bind, read_world, gets, lift. by rw Hn Hd Hm. }
  unfold MsgServer_CreateDenom, Keeper_CreateDenom. unfold bind at 1, lift at 1. rw Hv.
  unfold bind at 1. unfold bind at 1. rw Hval. unfold bind at 1. rw Hc. unfold bind at 1.
  rw createDenomAfterValidation_eq set_then_add Hva. unfold ret, bind, EmitEvents, modify.
  eexists. split; [done|]. cbn. unfold with_metadata.
  destruct (bk_GetDenomMetaData denom (world (ext s1))) eqn:Hm1; cbn; split_and!; try done.
  - intros _. apply (bk_get_set (denomMetaData denom)).
  - intros d Hne. by apply (bk_get_set_ne (denomMetaData denom)).
Qed.

End creation.

(** * The queries *)

Section queries.
Context {W G : Type} {AC : AddressCodec} {ST : SdkTypes} {KW : KeyWalk} {KWL : KeyWalkLaws KW}.
Implicit Types (s : state W G).

Lemma QueryUnescape_plain d :
  mem_byte "%" d = false → mem_byte "+" d = false → QueryUnescape d = Some d.
Proof.
  induction d as [|a d IH]; [done|]. cbn [mem_byte]. intros [Ha Hd]%orb_false_iff [Hb He]%orb_false_iff.
  apply bool_decide_eq_false in Ha, Hb. specialize (IH Hd He). cbn.
  destruct a as [[] [] [] [] [] [] [] []]; cbn; first [by rw IH|by destruct Ha|by destruct Hb].
Qed.

(** The queries answer from the store and change nothing: the denoms of a creator are
    exactly those listed under that spelling, each once, but a creator with a zero byte in
    it makes the query panic; the admin and the hook of a
    denom without percent or plus signs are the stored ones, an unset hook being the
    empty string. *)
Theorem queries_spec s creator denom :
  mem_byte "%" denom = false → mem_byte "+" denom = false →
  (if mem_byte "000" creator then Query_DenomsFromCreator creator s = (Panic (PanicError ErrEncoding), s)
   else ∃ ds, Query_DenomsFromCreator creator s = (Ok ds, s) ∧ NoDup ds ∧
     ∀ d, d ∈ ds ↔ (creator, d) ∈ CreatorDenoms (tf s)) ∧
  Query_DenomAuthorityMetadata denom s =
    (match DenomAuthority (tf s) !! denom with Some m => Ok m | None => Err ErrNotFound end, s) ∧
  Query_BeforeSendHookAddress denom s =
    (Ok (default "" (DenomHookAddr (tf s) !! denom)), s).
Proof.
  intros Hp Hq. unfold Query_DenomAuthorityMetadata, Query_BeforeSendHookAddress, decoded_denom.
  rw (QueryUnescape_plain denom Hp Hq). cbn. split_and!.
  - unfold Query_DenomsFromCreator, getDenomsFromCreator. destruct (mem_byte "000" creator); [done|].
    eexists. split; [done|]. split.
    + apply NoDup_fmap_2_strong.
      * intros [c1 d1] [c2 d2] [H1 _]%list_elem_of_filter [H2 _]%list_elem_of_filter. cbn in *. by intros ->; subst.
      * apply NoDup_filter. rw walk_elements. apply NoDup_elements.
    + intros d. rw list_elem_of_fmap. setoid_rewrite list_elem_of_filter.
      setoid_rewrite walk_elements. setoid_rewrite elem_of_elements. split.
      * intros ([c d1] & -> & Hc & Hin). cbn in *. by subst.
      * intros Hin. by exists (creator, d).
  - unfold GetAuthorityMetadata. by destruct (_ !! _).
  - unfold GetBeforeSendHook, gets. by destruct (_ !! _).
Qed.

End queries.

(** * Minting and burning *)

Section issuing.
Context {W G : Type} {AC : AddressCodec} {ST : SdkTypes} {GM : GasMeter G}.
Context {AK : AccountKeeper W G} {BB : BankBase W G} {CK : ContractKeeper W G} {KW : KeyWalk}.
Context {LG : BankLedger W} {ACL : AddressCodecLaws AC} {STL : SdkTypesLaws ST}.
Context {BL : BankBaseLaws AK BB LG}.
Implicit Types (s : state W G).

Lemma validate_amount_NewCoins c : validate_amount c = Ok () → NewCoins [c] = Ok [c].
Proof.
  unfold validate_amount, Coin_IsValid. do 2 case_bool_decide; try done. intros _.
  by apply NewCoins_one.
Qed.

Lemma require_admin_passes {A} d sender (k : unit → M (state W G) A) s :
  DenomAuthority (tf s) !! d = Some {| Admin := sender |} →
  bind (require_admin d sender) k s = k () s.
Proof.
  intros Hd. unfold require_admin, bind, GetAuthorityMetadata. rw Hd. cbn. by case_decide.
Qed.

(** Where Mint sends the coins. *)
Definition mint_recipient (m : MsgMint) : string :=
  if is_empty (MsgMint_MintToAddress m) then MsgMint_Sender m else MsgMint_MintToAddress m.

(** C31. A mint by the admin of a denom without hook, to an address that is not blocked,
    succeeds when the bank's own two operations do, and then the supply of the denom and
    the balance of the recipient have grown by the amount, every other supply and
    balance (the module account's too) and the module's store are as they were. *)
Theorem Mint_ok m s addr ma e1 e2 f t :
  let d := coin_Denom (MsgMint_Amount m) in
  let n := coin_Amount (MsgMint_Amount m) in
  MsgMint_Validate m = Ok () → is_Some (GetDenomMetaData d (world (ext s))) →
  DenomAuthority (tf s) !! d = Some {| Admin := MsgMint_Sender m |} →
  (∃ p, DeconstructDenom d = Ok p) → DenomHookAddr (tf s) !! d = None →
  StringToBytes (mint_recipient m) = Ok addr → BlockedAddr addr = false →
  GetModuleAddress ModuleName = Some ma → BytesToString ma = Ok f → BytesToString addr = Ok t →
  MintCoins ModuleName [MsgMint_Amount m] (ext s) = (Ok (), e1) →
  BaseSendCoins ma addr [MsgMint_Amount m] e1 = (Ok (), e2) →
  ∃ s2, MsgServer_Mint m s = (Ok (), s2) ∧ tf s2 = tf s ∧
    (∀ d1, Supply d1 (world (ext s2)) = Supply d1 (world (ext s)) + if decide (d = d1) then n else 0) ∧
    (∀ b d1, Balance b d1 (world (ext s2)) =
       Balance b d1 (world (ext s)) + if decide (b = addr ∧ d = d1) then n else 0) ∧
    events (ext s2) = events e2 ++ [NewEvent TypeMsgMint
      [(AttributeMintToAddress, mint_recipient m); (AttributeAmount, Coin_String (MsgMint_Amount m))]].
Proof.
  intros d n Hv [md Hmd] Had [pr Hdec] Hh Hto Hbl Hma Hf Ht Hmint Hsend.
  assert (Hn : NewCoins [MsgMint_Amount m] = Ok [MsgMint_Amount m]).
  { unfold MsgMint_Validate in Hv. go_inv. by apply validate_amount_NewCoins. }
  exists (put_events (events e2 ++ [NewEvent TypeMsgMint [(AttributeMintToAddress, mint_recipient m);
    (AttributeAmount, Coin_String (MsgMint_Amount m))]]) (put_ext e2 s)). split; [|split; [done|]].
  - unfold MsgServer_Mint. unfold bind at 1, lift at 1. rw Hv. unfold bind at 1, read_world, gets.
    cbn [bk_GetDenomMetaData app_BankView]. rw Hmd require_admin_passes //.
    unfold bind at 1. fold (mint_recipient m). unfold mintTo. unfold bind at 1, lift at 1. rw Hdec.
    unfold bind at 1, lift at 1. rw Hn. unfold bind at 1. cbn [bk_MintCoins app_BankKeeper].
    unfold in_ext at 1, zoom. rw Hmint. unfold bind at 1, lift at 1. rw Hto.
    cbn [bk_BlockedAddr app_BankView]. rw Hbl. unfold bind, lift.
    cbn [bk_SendCoinsFromModuleToAccount app_BankKeeper]. unfold SendCoinsFromModuleToAccount.
    rw Hma Hbl (SendCoins_unhooked _ _ _ _ f t Hf Ht); [|by repeat constructor].
    unfold base_send, in_ext, zoom. cbn. by rw Hsend.
  - destruct (base_mint_ok _ _ _ _ _ Hma Hmint) as [Hs1 Hb1].
    pose proof (base_send_ok _ _ _ _ _ Hsend) as Hb2.
    destruct (base_send_md ma addr [MsgMint_Amount m] e1) as [_ Hs2]. rw Hsend in Hs2.
    split_and!; cbn [tf ext world put_ext put_events]; [| |done].
    + intros d1. rw Hs2 Hs1 AmountOf_one. done.
    + intros b d1. rw Hb2 Hb1 AmountOf_one. fold d n.
      repeat case_decide; try lia; naive_solver.
Qed.

(** A burn by the admin of a denom without hook, from the admin's own account, which is
    neither blocked nor a module account, succeeds when the bank's own operations do,
    and then the supply of the denom and the balance of the sender have shrunk by the
    amount, every other supply and balance and the module's store are as they were. *)
Theorem Burn_ok m s addr ma e0 e1 e2 f t :
  let d := coin_Denom (MsgBurn_Amount m) in
  let n := coin_Amount (MsgBurn_Amount m) in
  MsgBurn_Validate m = Ok () →
  DenomAuthority (tf s) !! d = Some {| Admin := MsgBurn_Sender m |} →
  (∃ p, DeconstructDenom d = Ok p) → DenomHookAddr (tf s) !! d = None →
  StringToBytes (MsgBurn_Sender m) = Ok addr → BlockedAddr addr = false →
  (∀ b, GetAccount addr (world (ext s)) ≠ Some (Account b true)) →
  GetModuleAddress ModuleName = Some ma → BytesToString addr = Ok f → BytesToString ma = Ok t →
  GetModuleAccount ModuleName (ext s) = (Ok (Some ma), e0) →
  BaseSendCoins addr ma [MsgBurn_Amount m] e0 = (Ok (), e1) →
  BurnCoins ModuleName [MsgBurn_Amount m] e1 = (Ok (), e2) →
  ∃ s2, MsgServer_Burn m s = (Ok (), s2) ∧ tf s2 = tf s ∧
    (∀ d1, Supply d1 (world (ext s2)) = Supply d1 (world (ext s)) - if decide (d = d1) then n else 0) ∧
    (∀ b d1, Balance b d1 (world (ext s2)) =
       Balance b d1 (world (ext s)) - if decide (b = addr ∧ d = d1) then n else 0) ∧
    events (ext s2) = events e2 ++ [NewEvent TypeMsgBurn
      [(AttributeBurnFromAddress, MsgBurn_Sender m); (AttributeAmount, Coin_String (MsgBurn_Amount m))]].
Proof.
  intros d n Hv Had [pr Hdec] Hh Hfrom Hbl Hacc Hma Hf Ht Hmacc Hsend Hburn.
  assert (Hn : NewCoins [MsgBurn_Amount m] = Ok [MsgBurn_Amount m]).
  { unfold MsgBurn_Validate in Hv. go_inv. by apply validate_amount_NewCoins. }
  exists (put_events (events e2 ++ [NewEvent TypeMsgBurn [(AttributeBurnFromAddress, MsgBurn_Sender m);
    (AttributeAmount, Coin_String (MsgBurn_Amount m))]]) (put_ext e2 s)). split; [|split; [done|]].
  - assert (Hb : burnFrom (MsgBurn_Amount m) (MsgBurn_Sender m) s = (Ok (), put_ext e2 s)).
    { unfold burnFrom. unfold bind at 1, lift at 1. rw Hdec. unfold bind at 1, lift at 1. rw Hfrom.
      cbn [bk_BlockedAddr app_BankView]. rw Hbl. unfold bind at 1, lift at 1. rw Hn.
      unfold bind at 1. cbn [bk_SendCoinsFromAccountToModule app_BankKeeper].
      unfold SendCoinsFromAccountToModule, bind at 1, in_ext at 1, zoom. rw Hmacc.
      rw (SendCoins_unhooked _ _ _ _ f t Hf Ht); [|by repeat constructor].
      unfold base_send, in_ext at 1, zoom. cbn [tf ext put_ext]. rw Hsend.
      unfold bind, lift. cbn [bk_BurnCoins app_BankKeeper]. unfold in_ext, zoom.
      cbn [tf ext put_ext]. by rw Hburn. }
    unfold MsgServer_Burn. unfold bind at 1, lift at 1. rw Hv require_admin_passes //.
    unfold bind at 1, lift at 1. rw Hfrom. unfold bind at 1, read_world, gets.
    destruct (GetAccount addr (world (ext s))) as [[b []]|] eqn:Ha; [by destruct (Hacc b)|..];
      unfold bind; by rw Hb.
  - destruct (base_burn_ok _ _ _ _ _ Hma Hburn) as [Hs2 Hb2].
    pose proof (base_send_ok _ _ _ _ _ Hsend) as Hb1.
    destruct (base_send_md addr ma [MsgBurn_Amount m] e0) as [_ Hs1]. rw Hsend in Hs1.
    destruct (base_account ModuleName (ext s)) as [_ [Hs0 Hb0]]. rw Hmacc in Hs0, Hb0.
    split_and!; cbn [tf ext world put_ext put_events]; [| |done].
    + intros d1. rw Hs2 Hs1 Hs0 AmountOf_one. done.
    + intros b d1. rw Hb2 Hb1 Hb0 AmountOf_one. fold d n.
      repeat case_decide; try lia; naive_solver.
Qed.

End issuing.
