(* ===== verification/Chain.v ===== *)
(** Histories of the chain as the token factory sees them: the transitions of its state
    by its own messages, by the bank's messages and sends, and by other modules; contracts
    that call back into the chain to a bounded depth; and what holds in every history. *)
From S2P Require Import Prelude.
From S2P Require Import Interfaces.
From S2P Require Import TfTypes.
From S2P Require Import TfKeeper.
From S2P Require Import Bank.
From S2P Require Import TfMsgServer.
From S2P Require Import TfInvariants.
From S2P Require Import TfGenesis.
From S2P Require Import Wiring.

Section chain.
Context {W G : Type} {AC : AddressCodec} {ST : SdkTypes} {GM : GasMeter G}.
Context {AK : AccountKeeper W G} {BB : BankBase W G} {LG : BankLedger W} {KW : KeyWalk}.

(** The addresses of the opchild module and of the fee collector, and the messages of the
    token factory that occur. *)
Context (authority fee_collector : string) (ok : tf_msg → Prop).

(** * Transitions *)

(** The sends other modules make through the application's bank keeper. *)
Inductive bank_call :=
| call_SendCoins (from to : bytes) (amt : coins)
| call_ModuleToModule (sender recipient : string) (amt : coins)
| call_ModuleToAccount (sender : string) (to : bytes) (amt : coins)
| call_AccountToModule (from : bytes) (recipient : string) (amt : coins).

Definition run_call {CK : ContractKeeper W G} (c : bank_call) : M (state W G) unit :=
  match c with
  | call_SendCoins f t cs => SendCoins app_bank f t cs
  | call_ModuleToModule a b cs => SendCoinsFromModuleToModule app_bank a b cs
  | call_ModuleToAccount a t cs => SendCoinsFromModuleToAccount app_bank a t cs
  | call_AccountToModule f b cs => SendCoinsFromAccountToModule app_bank f b cs
  end.

(** One committed transition: a message that succeeds, a send of another module, or
    anything else that leaves the token factory's store, the existence of bank metadata
    and the supply of the module's denoms alone (gas, events, other modules). A message
    that fails is rolled back by its caller and is a transition of the last kind. *)
Inductive chain_step {CK : ContractKeeper W G} : state W G → state W G → Prop :=
| step_tf m s s1 : ok m →
    handle (CP:=app_CommunityPoolKeeper fee_collector) authority m s = (Ok (), s1) →
    chain_step s s1
| step_Send m s s1 : BankMsgServer_Send app_bank m s = (Ok (), s1) → chain_step s s1
| step_MultiSend m s s1 : BankMsgServer_MultiSend app_bank m s = (Ok (), s1) → chain_step s s1
| step_UpdateBankParams m s s1 : BankMsgServer_UpdateParams m s = (Ok (), s1) → chain_step s s1
| step_SetSendEnabled m s s1 : BankMsgServer_SetSendEnabled m s = (Ok (), s1) → chain_step s s1
| step_call c s s1 : run_call c s = (Ok (), s1) → chain_step s s1
| step_other s e : world_kept (world (ext s)) (world e) → chain_step s (put_ext e s).

(** Contracts by the depth to which they may call back. A contract at depth 0 makes no
    call that reaches the token factory; one at depth [n+1] leaves the state as some
    sequence of transitions does, in which contracts are called at depth [n]. *)
Definition contract_levels (K : nat → ContractKeeper W G) : Prop :=
  (∀ a m s, ∃ e, (K 0%nat a m s).2 = put_ext e s ∧ world_kept (world (ext s)) (world e)) ∧
  (∀ n a m s, rtc (chain_step (CK:=K n)) s (K (S n) a m s).2).

(** * Properties of histories *)

Section histories.
Context {ACL : AddressCodecLaws AC} {BL : BankBaseLaws AK BB LG}.
Context (K : nat → ContractKeeper W G) (HK : contract_levels K).

(** A family of properties closed under changes elsewhere, each of them kept by the
    messages of the module that succeed when contracts keep all of them, holds throughout
    a history. *)
Section keeps.
Context {X : Type} (J : X → state W G → Prop) {EC : ∀ x, EnvClosed (J x)}.
Context (Hhandle : ∀ CK m x, ok m → (∀ y a z, preserves (J y) (Sudo (ContractKeeper:=CK) a z)) →
  triple (J x) (handle (BK:=app_BankKeeper (CK:=CK)) (CK:=CK)
    (CP:=app_CommunityPoolKeeper (CK:=CK) fee_collector) authority m) (λ _, J x) (λ _, True)).

Lemma chain_step_keeps CK x s s1 :
  (∀ y a m, preserves (J y) (Sudo (ContractKeeper:=CK) a m)) →
  chain_step (CK:=CK) s s1 → J x s → J x s1.
Proof.
  intros HS Hst Hs.
  assert (Hrun : ∀ m : M (state W G) unit, preserves (J x) m → m s = (Ok (), s1) → J x s1).
  { intros m Hm Heq. specialize (Hm s Hs). by rw Heq in Hm. }
  destruct Hst as [m s s1 Hm Hh|m s s1 Hh|m s s1 Hh|m s s1 Hh|m s s1 Hh|c s s1 Hh|s e Hk].
  - pose proof (Hhandle CK m x Hm HS s Hs) as Hq. by rw Hh in Hq.
  - eapply Hrun; [|exact Hh]. by apply preserves_bank_Send.
  - eapply Hrun; [|exact Hh]. by apply preserves_bank_MultiSend.
  - eapply Hrun; [|exact Hh]. by apply preserves_bank_UpdateParams.
  - eapply Hrun; [|exact Hh]. by apply preserves_bank_SetSendEnabled.
  - eapply Hrun; [|exact Hh]. destruct c; cbn;
      [by apply preserves_SendCoins|by apply preserves_module_to_module
      |by apply preserves_to_account|by apply preserves_to_module].
  - by apply env_closed.
Qed.

Lemma history_keeps CK x s s1 :
  (∀ y a m, preserves (J y) (Sudo (ContractKeeper:=CK) a m)) →
  rtc (chain_step (CK:=CK)) s s1 → J x s → J x s1.
Proof. intros HS. induction 1; [done|]. eauto using chain_step_keeps. Qed.

Lemma levels_keep n x a m : preserves (J x) (Sudo (ContractKeeper:=K n) a m).
Proof.
  revert x a m. induction n as [|n IH]; intros x a m; apply preserves_snd; intros s Hs.
  - destruct HK as [H0 _]. destruct (H0 a m s) as (e & He & Hk). unfold Sudo. rw He.
    by apply env_closed.
  - destruct HK as [_ H1]. eapply history_keeps; [exact IH|apply H1|done].
Qed.

Lemma reachable_keeps_family n x s s1 : rtc (chain_step (CK:=K n)) s s1 → J x s → J x s1.
Proof. apply history_keeps. intros y. apply levels_keep. Qed.

End keeps.

(** The case of one property that messages keep also when they fail. *)
Lemma reachable_keeps (J : state W G → Prop) {EC : EnvClosed J} :
  (∀ CK m, ok m → (∀ a x, preserves J (Sudo (ContractKeeper:=CK) a x)) →
    preserves J (handle (BK:=app_BankKeeper (CK:=CK)) (CK:=CK)
      (CP:=app_CommunityPoolKeeper (CK:=CK) fee_collector) authority m)) →
  ∀ n s s1, rtc (chain_step (CK:=K n)) s s1 → J s → J s1.
Proof.
  intros Hh n s s1. apply (reachable_keeps_family (λ _ : unit, J)) with (x := ()).
  intros CK m [] Hm HS. eapply triple_weaken; [by apply Hh; [|intros a x; apply (HS ())]|done..].
Qed.

Lemma handle_module_inv CK m :
  ok m → (∀ a x, preserves module_inv (Sudo (ContractKeeper:=CK) a x)) →
  preserves module_inv (handle (BK:=app_BankKeeper (CK:=CK)) (CK:=CK)
    (CP:=app_CommunityPoolKeeper (CK:=CK) fee_collector) authority m).
Proof.
  intros Hm HS. pose proof (app_keepers_preserve fee_collector module_inv HS) as KP.
  apply (handle_keeps authority ok module_inv (λ _, True)
    (SK:=module_inv_keeps ok mint_keeps_module)). done.
Qed.

Lemma handle_admin_is CK d a m :
  (∀ m, ok m → ¬ hands_over d a m ∨ a = "") → ok m →
  (∀ a1 x, preserves (admin_is d a) (Sudo (ContractKeeper:=CK) a1 x)) →
  preserves (admin_is d a) (handle (BK:=app_BankKeeper (CK:=CK)) (CK:=CK)
    (CP:=app_CommunityPoolKeeper (CK:=CK) fee_collector) authority m).
Proof.
  intros Hok Hm HS. pose proof (app_keepers_preserve fee_collector (admin_is d a) HS) as KP.
  apply (handle_keeps authority ok (admin_is d a) (λ d1, d1 ≠ d)
    (SK:=admin_is_keeps ok d a Hok mint_keeps_module (mint_keeps_admin d a))). done.
Qed.

Lemma handle_supply_is {STL : SdkTypesLaws ST} CK d a n m :
  (∀ m, ok m → (¬ hands_over d a m ∧ ¬ issues d a m) ∨ a = "") → ok m →
  (∀ a1 x, preserves (supply_is d a n) (Sudo (ContractKeeper:=CK) a1 x)) →
  preserves (supply_is d a n) (handle (BK:=app_BankKeeper (CK:=CK)) (CK:=CK)
    (CP:=app_CommunityPoolKeeper (CK:=CK) fee_collector) authority m).
Proof.
  intros Hok Hm HS. pose proof (app_keepers_preserve fee_collector (supply_is d a n) HS) as KP.
  apply (handle_keeps authority ok (supply_is d a n) (λ d1, d1 ≠ d)
    (SK:=supply_is_keeps ok d a n Hok mint_keeps_module (mint_keeps_admin d a)
       (mint_keeps_supply d a n))). done.
Qed.

End histories.
End chain.

(** * Theorems *)

Section histories_theorems.
Context {W G : Type} {AC : AddressCodec} {ST : SdkTypes} {GM : GasMeter G}.
Context {AK : AccountKeeper W G} {BB : BankBase W G} {LG : BankLedger W} {KW : KeyWalk}.
Context {ACL : AddressCodecLaws AC} {STL : SdkTypesLaws ST} {BL : BankBaseLaws AK BB LG}.
Context (authority fee_collector : string) (K : nat → ContractKeeper W G).
Implicit Types (s : state W G).

(** C1. In every history of the chain that starts from a valid genesis, with contracts that
    call back into the chain to any depth, the token factory's store stays well formed:
    the denoms with an authority are exactly the denoms listed under a creator, each
    names that creator and has bank metadata, every admin is empty or an address, and
    every hook is the address of a contract on an existing denom. *)
Theorem reachable_inv n g s0 s1 s2 :
  contract_levels authority fee_collector (λ _, True) K →
  tf s0 = empty_store → GenesisState_Validate g = Ok () → InitGenesis g s0 = (Ok (), s1) →
  rtc (chain_step (CK:=K n) authority fee_collector (λ _, True)) s1 s2 →
  module_inv s2.
Proof.
  intros HK Ht Hg Hi Hr. eapply (reachable_keeps _ _ _ K HK module_inv);
    [|done|by eapply init_genesis_inv].
  intros CK m Hm HS. by apply (handle_module_inv _ _ (λ _, True)).
Qed.

(** C5. The admin of a denom changes only when that admin says so: in a history in which
    the admin [a] of [d] sends no ChangeAdmin message for [d], [a] stays the admin,
    whatever anyone else, contracts included, sends. *)
Theorem admin_changes_only_by_admin n d a s1 s2 :
  let ok := λ m, ¬ hands_over d a m in
  contract_levels authority fee_collector ok K → admin_is d a s1 →
  rtc (chain_step (CK:=K n) authority fee_collector ok) s1 s2 →
  admin_is d a s2.
Proof.
  intros ok HK Ha Hr. eapply (reachable_keeps _ _ _ K HK (admin_is d a)); [|done|done].
  intros CK m Hm HS. apply (handle_admin_is _ _ ok); [|done..]. intros m1 H1. by left.
Qed.

(** C4. A renounced denom stays renounced, and its supply never changes again: once the
    admin is empty, no history has another admin for the denom or another supply. *)
Theorem renounced_forever n d s1 s2 supply :
  contract_levels authority fee_collector (λ _, True) K →
  supply_is d "" supply s1 →
  rtc (chain_step (CK:=K n) authority fee_collector (λ _, True)) s1 s2 →
  supply_is d "" supply s2.
Proof.
  intros HK Ha Hr. eapply (reachable_keeps _ _ _ K HK (supply_is d "" supply)); [|done|done].
  intros CK m Hm HS. apply (handle_supply_is _ _ (λ _, True)); [|done..]. intros m1 _. by right.
Qed.

(** C6. The supply of a denom changes only by Mint and Burn messages of its admin. *)
Theorem supply_changes_only_by_admin n d a s1 s2 supply :
  let ok := λ m, ¬ hands_over d a m ∧ ¬ issues d a m in
  contract_levels authority fee_collector ok K → supply_is d a supply s1 →
  rtc (chain_step (CK:=K n) authority fee_collector ok) s1 s2 →
  supply_is d a supply s2.
Proof.
  intros ok HK Ha Hr. eapply (reachable_keeps _ _ _ K HK (supply_is d a supply)); [|done|done].
  intros CK m Hm HS. apply (handle_supply_is _ _ ok); [|done..]. intros m1 H1. by left.
Qed.

End histories_theorems.
