(* ===== verification/Liveness.v ===== *)
(** Liveness: the admin of a denom is never stuck. In every reachable state, whatever hooks,
    contracts and other accounts have done, a message of the admin that removes the hook of the
    denom or hands the denom on is accepted and takes effect; the two messages depend on
    nothing but the store of the module. *)
From S2P Require Import Prelude.
From S2P Require Import Interfaces.
From S2P Require Import TfTypes.
From S2P Require Import TfKeeper.
From S2P Require Import Bank.
From S2P Require Import TfMsgServer.
From S2P Require Import TfInvariants.
From S2P Require Import TfGenesis.
From S2P Require Import Wiring.
From S2P Require Import TfSpec.
From S2P Require Import Chain.

Section enabled.
Context {W G : Type} {AC : AddressCodec} {ST : SdkTypes} {GM : GasMeter G}.
Context {AK : AccountKeeper W G} {BV : BankView W} {BK : BankKeeper W G} {KW : KeyWalk}.
Context {CP : CommunityPoolKeeper W G} {CK : ContractKeeper W G} {LG : BankLedger W}.
Context {ACL : AddressCodecLaws AC} (authority : string).
Implicit Types (s : state W G) (d a b : string).

(** The message by which [a] makes [b] the admin of [d]; an empty [b] renounces it. *)
Definition hand_over d a b : tf_msg :=
  ChangeAdmin {| MsgChangeAdmin_Sender := a; MsgChangeAdmin_Denom := d; MsgChangeAdmin_NewAdmin := b |}.

(** The message by which [a] removes the hook of [d]. *)
Definition unhook d a : tf_msg :=
  SetBeforeSendHook {| MsgSetBeforeSendHook_Sender := a; MsgSetBeforeSendHook_Denom := d;
                       MsgSetBeforeSendHook_CosmwasmAddress := "" |}.

(** A denom of the module is well formed and its admin, if there is one, an address. *)
Lemma admin_facts d a s :
  admin_is d a s → a ≠ "" → is_address a ∧ ∃ parts, DeconstructDenom d = Ok parts.
Proof.
  intros [[Hi _] Hd] Ha. split.
  - by destruct (inv_admin _ Hi _ _ Hd) as [He|He].
  - destruct (proj1 (inv_listed _ Hi d)) as [c Hc]; [by eexists|].
    destruct (inv_denom _ Hi _ _ Hc) as (canon & sub & H & _). eauto.
Qed.

Lemma hand_over_enabled d a b s :
  admin_is d a s → a ≠ "" → b = "" ∨ is_address b →
  ∃ s1, handle authority (hand_over d a b) s = (Ok (), s1) ∧
    tf s1 = set_DenomAuthority (<[d := {| Admin := b |}]> (DenomAuthority (tf s))) (tf s) ∧
    world (ext s1) = world (ext s).
Proof.
  intros Had Ha Hb. destruct (admin_facts d a s Had Ha) as ([ba Hba] & [c sub] & Hc).
  assert (Hv : DenomAuthorityMetadata_Validate {| Admin := b |} = Ok ()).
  { destruct Hb as [->|[bb Hbb]]; [done|]. by eapply Validate_address. }
  assert (Hm : MsgChangeAdmin_Validate {| MsgChangeAdmin_Sender := a; MsgChangeAdmin_Denom := d;
    MsgChangeAdmin_NewAdmin := b |} = Ok ()).
  { unfold MsgChangeAdmin_Validate. cbn. rw Hba Hc. destruct Hb as [->|[bb Hbb]]; [done|].
    cbn. rw Hbb. by destruct (is_empty b). }
  unfold handle, hand_over, MsgServer_ChangeAdmin. rw (bind_ok _ _ s () s); [|unfold lift; by rw Hm].
  destruct Had as [_ Hd]. rw require_admin_passes //.
  unfold setAdmin, setAuthorityMetadata, EmitEvents, bind, GetAuthorityMetadata, lift. cbn. rw Hd Hv.
  eauto.
Qed.

Lemma unhook_enabled d a s :
  admin_is d a s → a ≠ "" →
  ∃ s1, handle authority (unhook d a) s = (Ok (), s1) ∧
    tf s1 = set_DenomHookAddr (delete d (DenomHookAddr (tf s))) (tf s) ∧
    world (ext s1) = world (ext s).
Proof.
  intros Had Ha. destruct (admin_facts d a s Had Ha) as ([ba Hba] & [c sub] & Hc).
  assert (Hm : MsgSetBeforeSendHook_Validate {| MsgSetBeforeSendHook_Sender := a;
    MsgSetBeforeSendHook_Denom := d; MsgSetBeforeSendHook_CosmwasmAddress := "" |} = Ok ()).
  { unfold MsgSetBeforeSendHook_Validate, validate_sender. cbn. rw Hba Hc. cbn.
    apply StringToBytes_nonempty in Hba. by destruct ba. }
  unfold handle, unhook, MsgServer_SetBeforeSendHook. rw (bind_ok _ _ s () s); [|unfold lift; by rw Hm].
  rw (require_admin_passes _ _ _ _ (proj2 Had)).
  unfold setBeforeSendHook, EmitEvents, bind, lift. cbn. rw Hc. cbn. eauto.
Qed.
End enabled.

Section liveness.
Context {W G : Type} {AC : AddressCodec} {ST : SdkTypes} {GM : GasMeter G}.
Context {AK : AccountKeeper W G} {BB : BankBase W G} {LG : BankLedger W} {KW : KeyWalk}.
Context {ACL : AddressCodecLaws AC} {STL : SdkTypesLaws ST} {BL : BankBaseLaws AK BB LG}.
Context (authority fee_collector : string) (K : nat → ContractKeeper W G).
Implicit Types (s : state W G).

Abbreviation handle_at n := (handle (BK:=app_BankKeeper (CK:=K n)) (CK:=K n)
  (CP:=app_CommunityPoolKeeper (CK:=K n) fee_collector) authority).

(** The admin [a] of [d] can, in state [s], remove the hook of [d] and then hand it to [b], which
    leaves state [s2]: both messages are accepted, and nothing else changes. *)
Definition can_hand_over n d a b s s2 : Prop :=
  ∃ s1, handle_at n (unhook d a) s = (Ok (), s1) ∧ handle_at n (hand_over d a b) s1 = (Ok (), s2) ∧
    tf s2 = set_DenomAuthority (<[d := {| Admin := b |}]> (DenomAuthority (tf s)))
      (set_DenomHookAddr (delete d (DenomHookAddr (tf s))) (tf s)) ∧
    world (ext s2) = world (ext s).

Lemma hand_over_runs n d a b s :
  admin_is d a s → a ≠ "" → b = "" ∨ is_address b →
  ∃ s2, can_hand_over n d a b s s2 ∧
    rtc (chain_step (CK:=K n) authority fee_collector (λ _, True)) s s2.
Proof.
  intros Had Ha Hb.
  destruct (unhook_enabled (BK:=app_BankKeeper (CK:=K n)) (CK:=K n)
    (CP:=app_CommunityPoolKeeper (CK:=K n) fee_collector) authority d a s)
    as (s1 & H1 & Ht1 & Hw1); [done..|].
  destruct (hand_over_enabled (BK:=app_BankKeeper (CK:=K n)) (CK:=K n)
    (CP:=app_CommunityPoolKeeper (CK:=K n) fee_collector) authority d a b s1)
    as (s2 & H2 & Ht2 & Hw2); [|done..|].
  { destruct Had as [[Hi Hm] Hd]. split; [split|]; rw ?Ht1; [|by rw Hw1|done].
    pose proof (tf_inv_hook (tf s) d "" Hi) as Hh. by apply Hh; [rw Hd; eexists|]. }
  exists s2. split.
  - exists s1. split_and!; [done..|by rw Ht2 Ht1|congruence].
  - eapply rtc_l; [by eapply step_tf|]. apply rtc_once. by eapply step_tf.
Qed.

(** C8. The admin of a denom is never stuck. In every state of every history that starts at a
    valid genesis, whatever hooks, contracts and other accounts have done, the admin [a] of [d]
    can send SetBeforeSendHook with an empty contract and then ChangeAdmin to [b], any address
    or no one: both are accepted, and together they take the hook off, make [b] the admin and
    change nothing else of the store of the module and nothing of the bank. If [b] is an address,
    then from then on [b] can do the same in every state in which it is the admin, first of all in
    the one just reached; if [b] is empty, the denom has no admin and the same supply in
    everything that follows. *)
Theorem admin_never_stuck n g s0 s1 s2 d a b :
  contract_levels authority fee_collector (λ _, True) K →
  tf s0 = empty_store → GenesisState_Validate g = Ok () → InitGenesis g s0 = (Ok (), s1) →
  let step := chain_step (CK:=K n) authority fee_collector (λ _, True) in
  rtc step s1 s2 → DenomAuthority (tf s2) !! d = Some {| Admin := a |} → a ≠ "" →
  b = "" ∨ is_address b →
  ∃ s3, can_hand_over n d a b s2 s3 ∧
    DenomHookAddr (tf s3) !! d = None ∧
    supply_is d b (Supply d (world (ext s2))) s3 ∧
    (b = "" → ∀ s4, rtc step s3 s4 → supply_is d "" (Supply d (world (ext s2))) s4) ∧
    (b ≠ "" → ∀ s4 c, rtc step s3 s4 → DenomAuthority (tf s4) !! d = Some {| Admin := b |} →
      c = "" ∨ is_address c → ∃ s5, can_hand_over n d b c s4 s5).
Proof.
  intros HK Ht Hg Hi step Hr Hd Ha Hb.
  assert (Hinv : ∀ x, rtc step s1 x → module_inv x).
  { intros x Hx. eapply (reachable_keeps _ _ _ K HK module_inv); [|done|by eapply init_genesis_inv].
    intros CK m Hm HS. by apply (handle_module_inv _ _ (λ _, True)). }
  destruct (hand_over_runs n d a b s2) as (s3 & H3 & Hr3); [by split; [apply Hinv|]|done..|].
  destruct H3 as (x & Hx1 & Hx2 & Ht3 & Hw3). exists s3. split; [by exists x|].
  assert (Hsup : supply_is d b (Supply d (world (ext s2))) s3).
  { split; [|by rw Hw3]. split; [apply Hinv; by etrans|]. rw Ht3. cbn. by rw lookup_insert_eq. }
  split; [|split; [done|split]].
  - rw Ht3. cbn. by rw lookup_delete_eq.
  - intros -> s4 H4. eapply (reachable_keeps _ _ _ K HK (supply_is d "" _)); [|done|done].
    intros CK m Hm HS. apply (handle_supply_is _ _ (λ _, True)); [|done..]. intros m1 _. by right.
  - intros Hb0 s4 c H4 Hd4 Hc. destruct (hand_over_runs n d b c s4) as (s5 & H5 & _); [|done..|by eexists].
    split; [|done]. apply Hinv. by do 2 (etrans; [done|]).
Qed.
End liveness.
