(* ===== verification/Registry.v ===== *)
(** What the token factory promises, as a small state machine, and the proof that every
    history of the chain is one of its histories.

    The machine is a registry of denoms: who administers a denom, which contract watches
    it, how much of it there is. Each of its transitions names the account that is
    entitled to it. Creating and burning take two transitions each, a grant and its use.
    The code checks that a denom is new before it charges the creation fee, and checks who
    the admin is before it takes the coins to burn; both payments run hooks, and hooks may
    run messages. So when a denom is created it may by then exist, and when coins are burnt
    the sender may no longer be the admin: what holds is that the check passed before. *)
From stdpp Require Import gmultiset.
From S2P Require Import Prelude.
From S2P Require Import Interfaces.
From S2P Require Import TfTypes.
From S2P Require Import TfKeeper.
From S2P Require Import Bank.
From S2P Require Import TfMsgServer.
From S2P Require Import TfInvariants.
From S2P Require Import TfGenesis.
From S2P Require Import Wiring.
From S2P Require Import Chain.

(** * The registry *)

(** What an account was found entitled to, and has not done yet: to burn an amount of a
    denom, or to create a denom. *)
Inductive grant :=
| may_burn (a d : string) (n : Z)
| may_create (c d : string).

#[export] Instance grant_eq_dec : EqDecision grant.
Proof. solve_decision. Defined.

#[export] Instance grant_countable : Countable grant.
Proof.
  refine (inj_countable'
    (λ g, match g with may_burn a d n => inl (a, d, n) | may_create c d => inr (c, d) end)
    (λ x, match x with inl (a, d, n) => may_burn a d n | inr (c, d) => may_create c d end) _).
  by intros [].
Defined.

Record registry := Registry {
  r_admin : gmap string string;
  r_hook : gmap string string;
  r_listed : gset (string * string);
  r_params : option Params;
  r_supply : string → Z;
  r_granted : gmultiset grant
}.

(** The supply after [n] more of [d]. *)
Definition issue (d : string) (n : Z) (f : string → Z) : string → Z :=
  λ d1, if decide (d1 = d) then f d1 + n else f d1.

Section registry.
Context {AC : AddressCodec} {ST : SdkTypes} (authority : string).

(** [a] is an address and the admin of [d]. *)
Definition entitled (r : registry) (a d : string) : Prop :=
  is_address a ∧ r_admin r !! d = Some a.

(** The transitions, each of them made by a message: the account entitled to it is the
    sender of that message, and what changes is what the message says. *)
Inductive reg_step : tf_msg → registry → registry → Prop :=
| reg_grant_create m d r :
    is_address (MsgCreateDenom_Sender m) →
    GetTokenDenom (MsgCreateDenom_Sender m) (MsgCreateDenom_Subdenom m) = Ok d →
    r_admin r !! d = None →
    reg_step (CreateDenom m) r
      (Registry (r_admin r) (r_hook r) (r_listed r) (r_params r) (r_supply r)
        ({[+ may_create (MsgCreateDenom_Sender m) d +]} ⊎ r_granted r))
| reg_create m d r :
    GetTokenDenom (MsgCreateDenom_Sender m) (MsgCreateDenom_Subdenom m) = Ok d →
    may_create (MsgCreateDenom_Sender m) d ∈ r_granted r →
    reg_step (CreateDenom m) r
      (Registry (<[d := MsgCreateDenom_Sender m]> (r_admin r)) (r_hook r)
        ({[(MsgCreateDenom_Sender m, d)]} ∪ r_listed r) (r_params r) (r_supply r)
        (r_granted r ∖ {[+ may_create (MsgCreateDenom_Sender m) d +]}))
| reg_admin m r :
    entitled r (MsgChangeAdmin_Sender m) (MsgChangeAdmin_Denom m) →
    MsgChangeAdmin_NewAdmin m = "" ∨ is_address (MsgChangeAdmin_NewAdmin m) →
    reg_step (ChangeAdmin m) r
      (Registry (<[MsgChangeAdmin_Denom m := MsgChangeAdmin_NewAdmin m]> (r_admin r)) (r_hook r)
        (r_listed r) (r_params r) (r_supply r) (r_granted r))
| reg_hook m h r :
    h = MsgSetBeforeSendHook_CosmwasmAddress m →
    entitled r (MsgSetBeforeSendHook_Sender m) (MsgSetBeforeSendHook_Denom m) →
    h = "" ∨ is_address h →
    reg_step (SetBeforeSendHook m) r
      (Registry (r_admin r)
        (if decide (h = "") then delete (MsgSetBeforeSendHook_Denom m) (r_hook r)
         else <[MsgSetBeforeSendHook_Denom m := h]> (r_hook r))
        (r_listed r) (r_params r) (r_supply r) (r_granted r))
| reg_params m r :
    MsgUpdateParams_Authority m = authority →
    Params_Validate (MsgUpdateParams_Params m) = Ok () →
    reg_step (UpdateParams m) r
      (Registry (r_admin r) (r_hook r) (r_listed r) (Some (MsgUpdateParams_Params m))
        (r_supply r) (r_granted r))
| reg_mint m c r :
    c = MsgMint_Amount m → entitled r (MsgMint_Sender m) (coin_Denom c) → 0 < coin_Amount c →
    reg_step (Mint m) r
      (Registry (r_admin r) (r_hook r) (r_listed r) (r_params r)
        (issue (coin_Denom c) (coin_Amount c) (r_supply r)) (r_granted r))
| reg_grant_burn m c r :
    c = MsgBurn_Amount m → entitled r (MsgBurn_Sender m) (coin_Denom c) → 0 < coin_Amount c →
    reg_step (Burn m) r
      (Registry (r_admin r) (r_hook r) (r_listed r) (r_params r) (r_supply r)
        ({[+ may_burn (MsgBurn_Sender m) (coin_Denom c) (coin_Amount c) +]} ⊎ r_granted r))
| reg_burn m c r :
    c = MsgBurn_Amount m →
    may_burn (MsgBurn_Sender m) (coin_Denom c) (coin_Amount c) ∈ r_granted r →
    reg_step (Burn m) r
      (Registry (r_admin r) (r_hook r) (r_listed r) (r_params r)
        (issue (coin_Denom c) (- coin_Amount c) (r_supply r))
        (r_granted r ∖ {[+ may_burn (MsgBurn_Sender m) (coin_Denom c) (coin_Amount c) +]})).

(** A step of a history in which only the messages of [ok] occur. *)
Definition reg_by (ok : tf_msg → Prop) (r r1 : registry) : Prop :=
  ∃ m, ok m ∧ reg_step m r r1.

End registry.

(** * The simulation *)

Section simulation.
Context {W G : Type} {AC : AddressCodec} {ST : SdkTypes} {GM : GasMeter G}.
Context {AK : AccountKeeper W G} {BB : BankBase W G} {LG : BankLedger W} {KW : KeyWalk}.
Context {ACL : AddressCodecLaws AC} {STL : SdkTypesLaws ST} {BL : BankBaseLaws AK BB LG}.
Implicit Types (s : state W G) (r : registry).

(** A registry shows a state: the store of the module, and the supply of its denoms. *)
Record shows r s : Prop := {
  shows_inv : module_inv s;
  shows_admin : r_admin r = Admin <$> DenomAuthority (tf s);
  shows_hook : r_hook r = DenomHookAddr (tf s);
  shows_listed : r_listed r = CreatorDenoms (tf s);
  shows_params : r_params r = ParamsItem (tf s);
  shows_supply : ∀ d, is_factory d → r_supply r d = Supply d (world (ext s))
}.

(** The registry that shows a state, with nothing granted. *)
Definition registry_of s : registry :=
  Registry (Admin <$> DenomAuthority (tf s)) (DenomHookAddr (tf s)) (CreatorDenoms (tf s))
    (ParamsItem (tf s)) (λ d, Supply d (world (ext s))) ∅.

Lemma registry_of_shows s : module_inv s → shows (registry_of s) s.
Proof. by split. Qed.

Section run.
Context (r0 : registry) (authority : string) (ok : tf_msg → Prop).

(** A registry reached from [r0], with at least [P] granted, shows the state. *)
Definition reached (P : gmultiset grant) s : Prop :=
  ∃ r, rtc (reg_by authority ok) r0 r ∧ shows r s ∧ P ⊆ r_granted r.

#[export] Instance reached_env P : EnvClosed (reached P).
Proof.
  intros s e (r & Hr & [Hi Ha Hh Hl Hp Hs] & HP) Hk. exists r. split_and!; [done| |done].
  split; try done; [by apply env_closed|]. intros d Hd. rw Hs //. symmetry. by apply Hk.
Qed.

Lemma reached_step m P P1 s s1 :
  ok m → reached P s →
  (∀ r, shows r s → P ⊆ r_granted r → ∃ r1, reg_step authority m r r1 ∧ shows r1 s1 ∧ P1 ⊆ r_granted r1) →
  reached P1 s1.
Proof.
  intros Hm (r & Hr & Hs & HP) H. destruct (H r Hs HP) as (r1 & H1 & Hs1 & HP1).
  exists r1. split_and!; [by eapply rtc_r; [|exists m]|done..].
Qed.

(** What is kept on success only. *)
Definition keeps {A : Type} (P : gmultiset grant) (m : M (state W G) A) : Prop :=
  triple (reached P) m (λ _, reached P) (λ _, True).

Lemma keeps_preserves {A : Type} P (m : M (state W G) A) : preserves (reached P) m → keeps P m.
Proof. intros H. by eapply triple_weaken; [exact H|..]. Qed.

Lemma shows_entitled r s a d : shows r s → administers a d s → entitled r a d.
Proof. intros Hs [Ha Hd]. split; [done|]. rw (shows_admin _ _ Hs) lookup_fmap Hd. done. Qed.

Lemma administers_factory r s a d : shows r s → administers a d s → is_factory d.
Proof. intros Hs [_ Hd]. eapply module_denom_factory; [apply Hs|]. rw Hd. by eexists. Qed.

(** A positive coin is the only coin of its set. *)
Lemma validate_amount_inv c :
  validate_amount c = Ok () → NewCoins [c] = Ok [c] ∧ 0 < coin_Amount c.
Proof.
  unfold validate_amount, Coin_IsValid. intros Hv. do 2 case_bool_decide; try done.
  assert (0 <= coin_Amount c) by by apply Coin_Validate_pos.
  split; [by apply NewCoins_one|lia].
Qed.

(** ** The writes of the module *)

Lemma set_params_reached P m :
  ok (UpdateParams m) → MsgUpdateParams_Authority m = authority →
  Params_Validate (MsgUpdateParams_Params m) = Ok () →
  preserves (reached P) (SetParams (MsgUpdateParams_Params m)).
Proof.
  intros Hok Hau Hv. apply preserves_modify. intros s Hs. eapply (reached_step _ P); [exact Hok|exact Hs|].
  intros r [[Hi Hm] Ha Hh Hl Hp Hsu] HP. eexists. split; [by apply (reg_params _ m)|].
  split; [|done]. split; cbn; try done. split; [by apply tf_inv_params|done].
Qed.

(** A write of the store that fails leaves the state, one that succeeds is a step. *)
Lemma set_admin_reached P m s :
  let a := MsgChangeAdmin_Sender m in let d := MsgChangeAdmin_Denom m in
  let b := MsgChangeAdmin_NewAdmin m in
  ok (ChangeAdmin m) → reached P s → administers a d s → reached P (setAdmin d b s).2.
Proof.
  intros a d b Hok Hs [Ha Hd]. unfold setAdmin, bind, GetAuthorityMetadata, setAuthorityMetadata, bind, lift.
  rw Hd. destruct (DenomAuthorityMetadata_Validate {| Admin := b |}) as [[]|e|p] eqn:Hv; [|done..].
  cbn. eapply (reached_step _ P); [exact Hok|exact Hs|]. intros r Hr HP.
  eexists. split; [apply (reg_admin _ m); [by eapply shows_entitled|by apply Validate_admin in Hv]|].
  split; [|done]. pose proof Hr as [Hi Ha1 Hh Hl Hp Hsu]. split; cbn; try done.
  - pose proof (setAuthorityMetadata_inv d {| Admin := b |} s) as Hinv.
    unfold setAuthorityMetadata, bind, lift in Hinv. rw Hv Hd in Hinv. by apply Hinv.
  - by rw Ha1 fmap_insert.
Qed.

Lemma set_hook_reached {CK : ContractKeeper W G} P m s :
  let a := MsgSetBeforeSendHook_Sender m in let d := MsgSetBeforeSendHook_Denom m in
  let h := MsgSetBeforeSendHook_CosmwasmAddress m in
  ok (SetBeforeSendHook m) → reached P s → administers a d s →
  reached P (setBeforeSendHook d h s).2.
Proof.
  intros a d h Hok Hs Had. destruct (setBeforeSendHook d h s) as [res1 s1] eqn:He.
  pose proof (setBeforeSendHook_inv d h s) as Hinv. rw He in Hinv.
  apply setBeforeSendHook_out in He as (Hset & Herr & Hw & _). cbn.
  destruct (decide (res1 = Ok ())) as [->|Hne].
  - destruct Hset as (_ & Ha & Ht); [done|]. eapply (reached_step _ P); [exact Hok|exact Hs|]. intros r Hr HP.
    eexists. split; [apply (reg_hook _ m h); [done|by eapply shows_entitled|]|].
    { destruct (decide (h = "")) as [->|Hh]; [by left|right].
      destruct (Ha Hh) as (x & b & _ & Hb & _). by exists b. }
    split; [|done]. pose proof Hr as [Hi Ha1 Hh Hl Hp Hsu].
    split; rw ?Ht ?Hw; cbn; try done; [|by rw Hh].
    apply Hinv. split; [done|]. destruct Had as [_ ->]. by eexists.
  - destruct Hs as (r & Hr & [Hi Ha1 Hh Hl Hp Hsu] & HP). exists r. split_and!; [done| |done].
    specialize (Herr Hne). split; rw ?Herr ?Hw; try done. destruct Had as [_ Hd].
    unfold module_inv. by rw Herr Hw.
Qed.

(** A denom without metadata has no admin, so its creation can be granted. *)
Lemma grant_create P m d s :
  let c := MsgCreateDenom_Sender m in
  ok (CreateDenom m) → reached P s → is_address c →
  GetTokenDenom c (MsgCreateDenom_Subdenom m) = Ok d →
  bk_GetDenomMetaData d (world (ext s)) = None →
  reached ({[+ may_create c d +]} ⊎ P) s.
Proof.
  intros c Hok Hs Hc Hd Hm. eapply (reached_step _ P); [exact Hok|exact Hs|]. intros r Hr HP.
  eexists. split; [eapply (reg_grant_create _ m d); [done..|]|].
  - rw (shows_admin _ _ Hr) lookup_fmap. destruct (DenomAuthority (tf s) !! d) eqn:Ha; [|done].
    destruct (shows_inv _ _ Hr) as [_ Hi]. destruct (Hi d) as [md Hmd]; [by rw Ha|congruence].
  - split; [by destruct Hr|]. cbn [r_granted]. multiset_solver.
Qed.

Lemma create_reached P m d :
  let c := MsgCreateDenom_Sender m in
  ok (CreateDenom m) → is_address c → GetTokenDenom c (MsgCreateDenom_Subdenom m) = Ok d →
  triple (reached ({[+ may_create c d +]} ⊎ P)) (createDenomAfterValidation c d)
    (λ _, reached P) (λ _, True).
Proof.
  intros c Hok Hc Hd s Hs. destruct (is_address_spells c Hc) as [canon Hsp].
  assert (preserves (module_inv (W:=W) (G:=G)) (createDenomAfterValidation c d)) as Hinv.
  { eapply (createDenomAfterValidation_inv c d canon (MsgCreateDenom_Subdenom m)); [|done]. destruct Hsp as (b & Hb1 & Hb2).
    apply GetTokenDenom_inv in Hd as (-> & Hv & Hsub & _). by eapply DeconstructDenom_parts. }
  rw preserves_snd in Hinv. specialize (Hinv s). rw createDenomAfterValidation_eq set_then_add in Hinv.
  rw createDenomAfterValidation_eq set_then_add.
  destruct (DenomAuthorityMetadata_Validate _) as [[]|e|p]; [|done..].
  eapply reached_step; [exact Hok|exact Hs|]. intros r [Hi Ha Hh Hl Hp Hsu] HP.
  destruct (with_metadata_spec d s) as (Ht & _). eexists.
  split; [apply (reg_create _ m d); [done|multiset_solver]|]. split; [|cbn [r_granted]; multiset_solver].
  split; cbn in *; rw ?Ht; try done; [by apply Hinv|by rw Ha fmap_insert|by rw Hl|].
  intros d1 H1. rw Hsu //. unfold with_metadata. destruct (bk_GetDenomMetaData _ _); [done|].
  cbn. symmetry. apply base_set_ledger.
Qed.

(** ** Minting and burning *)

Context (module_addr : bytes) (Hmodule : GetModuleAddress ModuleName = Some module_addr).

Lemma mint_reached P m s e1 :
  let c := MsgMint_Amount m in let a := MsgMint_Sender m in
  ok (Mint m) → validate_amount c = Ok () → reached P s → administers a (coin_Denom c) s →
  MintCoins ModuleName [c] (ext s) = (Ok (), e1) → reached P (put_ext e1 s).
Proof.
  intros c a Hok [_ Hpos]%validate_amount_inv Hs Had Hm. eapply (reached_step _ P); [exact Hok|exact Hs|]. intros r Hr HP.
  pose proof (base_mint_md ModuleName [c] (ext s)) as [Hmd _]. rw Hm in Hmd.
  destruct (base_mint_ok _ _ _ _ _ Hmodule Hm) as [Hsup _].
  eexists. split; [apply (reg_mint _ m c); [done|by eapply shows_entitled|done]|].
  split; [|done]. pose proof Hr as [[Hi Him] Ha Hh Hl Hp Hsu]. split; cbn; try done.
  - split; [done|]. intros d Hd. cbn. rw Hmd. by apply Him.
  - intros d Hd. unfold issue. rw Hsup AmountOf_one -Hsu //. repeat case_decide; simplify_eq; lia.
Qed.

Lemma burn_reached P m s e1 :
  let c := MsgBurn_Amount m in let a := MsgBurn_Sender m in
  ok (Burn m) → reached ({[+ may_burn a (coin_Denom c) (coin_Amount c) +]} ⊎ P) s →
  BurnCoins ModuleName [c] (ext s) = (Ok (), e1) → reached P (put_ext e1 s).
Proof.
  intros c a Hok Hs Hm. eapply reached_step; [exact Hok|exact Hs|]. intros r Hr HP.
  pose proof (base_burn_md ModuleName [c] (ext s)) as [Hmd _]. rw Hm in Hmd.
  destruct (base_burn_ok _ _ _ _ _ Hmodule Hm) as [Hsup _].
  eexists. split; [apply (reg_burn _ m c); [done|multiset_solver]|].
  split; [|cbn [r_granted]; multiset_solver]. pose proof Hr as [[Hi Him] Ha Hh Hl Hp Hsu]. split; cbn; try done.
  - split; [done|]. intros d Hd. cbn. rw Hmd. by apply Him.
  - intros d Hd. unfold issue. rw Hsup AmountOf_one -Hsu //. repeat case_decide; simplify_eq; lia.
Qed.

Lemma grant_burn P m s :
  let c := MsgBurn_Amount m in let a := MsgBurn_Sender m in
  ok (Burn m) → validate_amount c = Ok () → reached P s → administers a (coin_Denom c) s →
  reached ({[+ may_burn a (coin_Denom c) (coin_Amount c) +]} ⊎ P) s.
Proof.
  intros c a Hok [_ Hpos]%validate_amount_inv Hs Had.
  eapply (reached_step _ P); [exact Hok|exact Hs|]. intros r Hr HP.
  eexists. split; [apply (reg_grant_burn _ m c);
    [done|by eapply shows_entitled|done]|].
  split; [by destruct Hr|]. cbn [r_granted]. multiset_solver.
Qed.

(** ** Messages *)

Section messages.
Context {CK : ContractKeeper W G} (fee_collector : string).
Context (HS : ∀ P a x, preserves (reached P) (Sudo a x)).

Abbreviation cp := (app_CommunityPoolKeeper (CK:=CK) fee_collector).

Lemma keepers_reached P : KeepersPreserve (CP:=cp) (reached P).
Proof. apply app_keepers_preserve; [apply _|apply HS]. Qed.

Lemma keeps_bind {A B : Type} P Q (m : M (state W G) A) (f : A → M (state W G) B) R :
  triple P m R (λ _, True) → (∀ a, triple (R a) (f a) (λ _, Q) (λ _, True)) →
  triple P (bind m f) (λ _, Q) (λ _, True).
Proof. apply triple_bind. Qed.

(** A call that leaves the state alone, whatever it answers. *)
Lemma keeps_pure {A B : Type} P (m : M (state W G) A) (f : A → M (state W G) B) Q :
  (∀ s, (m s).2 = s) → (∀ a, triple P (f a) Q (λ _, True)) → triple P (bind m f) Q (λ _, True).
Proof.
  intros Hm Hf s Hs. specialize (Hm s). unfold bind. destruct (m s) as [[a|e|p] s1]; [|done..].
  cbn in Hm. subst. by apply Hf.
Qed.

Lemma keeps_events P evs : triple (reached P) (EmitEvents evs) (λ _, reached P) (λ _, True).
Proof. apply keeps_preserves, preserves_EmitEvents. apply _. Qed.

Lemma keeps_admin {A : Type} P sender d (m : M (state W G) A) :
  is_address sender →
  triple (λ s, reached P s ∧ administers sender d s) m (λ _, reached P) (λ _, True) →
  keeps P (require_admin d sender ;;; m).
Proof.
  intros Ha Hm. apply (keeps_bind _ _ _ _ (λ _ s, reached P s ∧ administers sender d s)); [|done].
  eapply triple_weaken; [apply require_admin_ok|done| |done]. by intros _ s [Hs Hd].
Qed.

Lemma CreateDenom_reached P m :
  let c := MsgCreateDenom_Sender m in let sub := MsgCreateDenom_Subdenom m in
  ok (CreateDenom m) → is_address c → keeps P (Keeper_CreateDenom (CP:=cp) c sub).
Proof.
  intros c sub Hok Hc. unfold Keeper_CreateDenom, keeps.
  apply (keeps_bind _ _ _ _ (λ d s, reached ({[+ may_create c d +]} ⊎ P) s ∧ GetTokenDenom c sub = Ok d)).
  { unfold validateCreateDenom. apply keeps_pure; [done|intros []; [by intros s _|]].
    intros s Hs. unfold bind, lift. destruct (GetTokenDenom c sub) as [d| |] eqn:Hd; [|done..].
    unfold read_world, gets. destruct (bk_GetDenomMetaData d _) eqn:Hm; [done|].
    split; [by eapply grant_create|done]. }
  intros d s [Hs Hd]. revert s Hs.
  apply (keeps_bind _ _ _ _ (λ _, reached ({[+ may_create c d +]} ⊎ P))).
  { apply keeps_preserves, (preserves_charge (KP:=keepers_reached _) (reached _)). }
  intros _. apply (keeps_bind _ _ _ _ (λ _, reached P)); [by eapply create_reached|intros _].
  by apply triple_ret.
Qed.

Lemma Mint_reached P m : ok (Mint m) → keeps P (MsgServer_Mint m).
Proof.
  intros Hok. unfold keeps, MsgServer_Mint. intros s Hs. unfold bind at 1, lift.
  destruct (MsgMint_Validate m) as [[]|e|p] eqn:Hv; [|done..].
  assert (is_address (MsgMint_Sender m) ∧ validate_amount (MsgMint_Amount m) = Ok ()) as [Ha Hamt].
  { unfold MsgMint_Validate in Hv. go_inv. destruct x. by split; [apply validate_sender_ok|]. }
  revert s Hs. apply keeps_pure; [done|intros [md|]; [|by intros s _]].
  apply (keeps_admin P); [done|]. unfold mintTo. apply (keeps_bind _ _ _ _ (λ _, reached P)); [|intros _; apply keeps_events].
  destruct (validate_amount_inv _ Hamt) as [Hnew _].
  apply keeps_pure; [done|intros _]. intros s [Hs Hd]. unfold bind at 1, lift. rw Hnew.
  unfold bind at 1. cbn [bk_MintCoins app_BankKeeper]. unfold in_ext at 1, zoom.
  destruct (MintCoins ModuleName _ (ext s)) as [[[]|e|p] e1] eqn:Hm; [|done..].
  assert (reached P (put_ext e1 s)) as H1 by by eapply mint_reached.
  revert H1. generalize (put_ext e1 s). apply keeps_pure; [done|intros addr].
  destruct (bk_BlockedAddr addr); [by intros ? _|].
  apply keeps_pure; [done|intros sent]. apply keeps_preserves, (kp_to_account (KeepersPreserve:=keepers_reached P)).
Qed.

Lemma burnFrom_reached P m from :
  let c := MsgBurn_Amount m in let a := MsgBurn_Sender m in
  ok (Burn m) → validate_amount c = Ok () →
  triple (reached ({[+ may_burn a (coin_Denom c) (coin_Amount c) +]} ⊎ P)) (burnFrom c from)
    (λ _, reached P) (λ _, True).
Proof.
  intros c a Hok Hamt. destruct (validate_amount_inv _ Hamt) as [Hnew _]. unfold burnFrom.
  apply keeps_pure; [done|intros _]. apply keeps_pure; [done|intros addr].
  destruct (bk_BlockedAddr addr); [by intros ? _|]. apply keeps_pure; [done|intros sent].
  apply (keeps_bind _ _ _ _ (λ _, reached ({[+ may_burn a (coin_Denom c) (coin_Amount c) +]} ⊎ P))).
  { apply keeps_preserves, (kp_to_module (KeepersPreserve:=keepers_reached _)). }
  intros _ s Hs. unfold bind, lift. rw Hnew. cbn [bk_BurnCoins app_BankKeeper]. unfold in_ext, zoom.
  destruct (BurnCoins ModuleName _ (ext s)) as [[[]|e|p] e1] eqn:Hm; [|done..].
  by eapply burn_reached.
Qed.

Lemma Burn_reached P m : ok (Burn m) → keeps P (MsgServer_Burn m).
Proof.
  intros Hok. unfold keeps, MsgServer_Burn. intros s Hs. unfold bind at 1, lift.
  destruct (MsgBurn_Validate m) as [[]|e|p] eqn:Hv; [|done..].
  assert (is_address (MsgBurn_Sender m) ∧ validate_amount (MsgBurn_Amount m) = Ok ()) as [Ha Hamt].
  { unfold MsgBurn_Validate in Hv. go_inv. destruct x. by split; [apply validate_sender_ok|]. }
  revert s Hs. apply (keeps_admin P); [done|].
  intros s [Hs Hd]. pose proof (grant_burn P _ s Hok Hamt Hs Hd) as Hg. clear Hs Hd. revert s Hg.
  apply keeps_pure; [done|intros acc]. apply keeps_pure; [done|intros accI].
  assert (triple (reached ({[+ may_burn (MsgBurn_Sender m) (coin_Denom (MsgBurn_Amount m))
      (coin_Amount (MsgBurn_Amount m)) +]} ⊎ P))
    (burnFrom (MsgBurn_Amount m) (MsgBurn_Sender m) ;;;
     EmitEvents [NewEvent TypeMsgBurn [(AttributeBurnFromAddress, MsgBurn_Sender m);
       (AttributeAmount, Coin_String (MsgBurn_Amount m))]]) (λ _, reached P) (λ _, True)) as Hb.
  { apply (keeps_bind _ _ _ _ (λ _, reached P)); [by apply burnFrom_reached|intros _; apply keeps_events]. }
  destruct accI as [[ad []]|]; [by intros ? _|apply Hb..].
Qed.

(** Every message that succeeds is a run of the registry. *)
Lemma handle_reached P m : ok m → keeps P (handle (CP:=cp) authority m).
Proof.
  intros Hok. destruct m as [m|m|m|m|m|m|m]; cbn [handle].
  - apply (keeps_bind _ _ _ _ (λ _, reached P)); [|intros _; by apply triple_ret].
    unfold MsgServer_CreateDenom. intros s Hs. unfold bind at 1, lift.
    destruct (MsgCreateDenom_Validate m) as [[]|e|p] eqn:Hv; [|done..]. revert s Hs.
    assert (is_address (MsgCreateDenom_Sender m)) as Ha.
    { unfold MsgCreateDenom_Validate in Hv. go_inv. destruct x. by apply validate_sender_ok. }
    apply (keeps_bind _ _ _ _ (λ _, reached P)); [by apply CreateDenom_reached|intros d].
    apply (keeps_bind _ _ _ _ (λ _, reached P)); [apply keeps_events|intros _; by apply triple_ret].
  - by apply Mint_reached.
  - by apply Burn_reached.
  - apply keeps_preserves. unfold MsgServer_ChangeAdmin.
    apply (validated _ _ (is_address (MsgChangeAdmin_Sender m))).
    { unfold MsgChangeAdmin_Validate. intros H. go_inv. by eexists. }
    intros Ha. apply as_admin; [done|].
    eapply triple_bind; [|intros; apply (preserves_EmitEvents (reached P))].
    apply triple_state. intros s [Hs Hd]. by eapply set_admin_reached.
  - apply keeps_preserves, (preserves_SetDenomMetadata (reached P)).
  - apply keeps_preserves. unfold MsgServer_SetBeforeSendHook.
    apply (validated _ _ (is_address (MsgSetBeforeSendHook_Sender m))).
    { unfold MsgSetBeforeSendHook_Validate. intros H. go_inv. destruct x. by apply validate_sender_ok. }
    intros Ha. apply as_admin; [done|].
    eapply triple_bind; [|intros; apply (preserves_EmitEvents (reached P))].
    apply triple_state. intros s [Hs Hd]. by eapply set_hook_reached.
  - apply keeps_preserves. unfold MsgServer_UpdateParams. destruct (decide _); [|apply preserves_fail].
    apply (validated _ _ (Params_Validate (MsgUpdateParams_Params m) = Ok ())); [done|].
    intros Hv. by apply set_params_reached.
Qed.

End messages.
End run.

(** * The refinement *)

Context (authority fee_collector : string) (module_addr : bytes) (K : nat → ContractKeeper W G).

(** The simulation: a registry that shows the start of a history can follow it. *)
Lemma registry_follows ok n s1 s2 :
  GetModuleAddress ModuleName = Some module_addr →
  contract_levels authority fee_collector ok K → module_inv s1 →
  rtc (chain_step (CK:=K n) authority fee_collector ok) s1 s2 →
  ∃ r, rtc (reg_by authority ok) (registry_of s1) r ∧ shows r s2.
Proof.
  intros Hmod HK Hi Hr.
  assert (reached (registry_of s1) authority ok ∅ s2) as (r & Hr1 & Hs & _); [|by exists r].
  eapply (reachable_keeps_family _ _ _ K HK (reached (registry_of s1) authority ok)); [|exact Hr|].
  - intros CK m P Hm HS. by apply handle_reached with module_addr.
  - exists (registry_of s1). split_and!; [done|by apply registry_of_shows|]. multiset_solver.
Qed.

(** C2. The chain refines the registry: the state a valid genesis sets up is shown by a
    registry, and whatever the chain does after it, with contracts that call back to any
    depth, the registry can follow, by transitions of its own, to one that shows the new
    state. The transitions are made by the messages that occur: for every set [ok] of
    messages, a history in which only messages of [ok] are handled, by contracts too, is
    followed with transitions by messages of [ok]. So every change of an admin, of a hook and
    of the supply of a denom comes from a message whose own sender was the admin of that denom,
    at the latest when the code checked, and is the change the message asks for; and every
    change of the parameters comes from a message of the authority. *)
Theorem chain_refines_registry ok n g s0 s1 s2 :
  GetModuleAddress ModuleName = Some module_addr →
  contract_levels authority fee_collector ok K →
  tf s0 = empty_store → GenesisState_Validate g = Ok () → InitGenesis g s0 = (Ok (), s1) →
  rtc (chain_step (CK:=K n) authority fee_collector ok) s1 s2 →
  shows (registry_of s1) s1 ∧
  ∃ r, rtc (reg_by authority ok) (registry_of s1) r ∧ shows r s2.
Proof.
  intros Hmod HK Ht Hg Hi Hr. assert (module_inv s1) by by eapply init_genesis_inv.
  split; [by apply registry_of_shows|]. by eapply registry_follows.
Qed.

End simulation.
