(* ===== verification/Restart.v ===== *)
(** A chain that is exported and started again, from any state of any history. What the export
    relies on, that every denom is listed under one creator and that the parameters are valid, is
    an invariant of the registry of [Registry], and so of the chain that refines it. *)
From S2P Require Import Prelude.
From S2P Require Import Interfaces.
From S2P Require Import TfTypes.
From S2P Require Import TfKeeper.
From S2P Require Import Bank.
From S2P Require Import TfMsgServer.
From S2P Require Import TfInvariants.
From S2P Require Import TfGenesis.
From S2P Require Import Modules.
From S2P Require Import Wiring.
From S2P Require Import Chain.
From S2P Require Import Registry.
From stdpp Require Import gmultiset.

(** * An invariant of the registry *)

Section registry.
Context {AC : AddressCodec} {ST : SdkTypes} (authority : string) (r0 : registry).
Implicit Types (r : registry) (c d : string).

(** [c] may create [d], which did not exist at the start. *)
Definition creates c d : Prop := (∃ sub, GetTokenDenom c sub = Ok d) ∧ r_admin r0 !! d = None.

(** Since [r0], only new denoms have been listed, each by the creator it names, and the
    parameters have stayed valid. *)
Record grown r : Prop := {
  grown_admin : ∀ d, is_Some (r_admin r0 !! d) → is_Some (r_admin r !! d);
  grown_granted : ∀ c d, may_create c d ∈ r_granted r → creates c d;
  grown_listed : ∀ c d, (c, d) ∈ r_listed r → (c, d) ∈ r_listed r0 ∨ creates c d;
  grown_params : ∃ p, r_params r = Some p ∧ Coins_Validate (DenomCreationFee p) = None
}.

Lemma grown_insert (m : gmap string string) d a d1 : is_Some (m !! d1) → is_Some (<[d := a]> m !! d1).
Proof. intros Hd. destruct (decide (d1 = d)) as [->|?]; [by rw lookup_insert_eq|by rw lookup_insert_ne]. Qed.

Lemma grown_step m r r1 : reg_step authority m r r1 → grown r → grown r1.
Proof.
  intros Hs [Ha Hg Hl Hp]. destruct Hs; split; cbn [r_admin r_hook r_listed r_params r_supply r_granted]; eauto using grown_insert.
  - intros c d1 [Hin|Hin]%gmultiset_elem_of_disj_union; [|by apply Hg].
    apply gmultiset_elem_of_singleton in Hin as [= -> ->]. split; [by eexists|].
    destruct (r_admin r0 !! d) eqn:Hd; [|done]. destruct (Ha d) as [x Hx]; [by rw Hd|congruence].
  - intros c d1 Hin. apply Hg. multiset_solver.
  - intros c d1 [[= -> ->]%elem_of_singleton|Hin]%elem_of_union; [right; by apply Hg|by apply Hl].
  - eexists. split; [done|]. unfold Params_Validate, validateDenomCreationFee in *.
    by destruct (Coins_Validate _).
  - intros c1 d [Hin|Hin]%gmultiset_elem_of_disj_union; [|by apply Hg].
    by apply gmultiset_elem_of_singleton in Hin.
  - intros c1 d Hin. apply Hg. multiset_solver.
Qed.

Lemma grown_run ok r r1 : rtc (reg_by authority ok) r r1 → grown r → grown r1.
Proof. induction 1 as [|r r2 r3 (m & _ & Hm) _ IH]; [done|]. eauto using grown_step. Qed.

Lemma grown_once r c c1 d :
  (∀ c c1 d, (c, d) ∈ r_listed r0 → (c1, d) ∈ r_listed r0 → c = c1) →
  (∀ c d, (c, d) ∈ r_listed r0 → is_Some (r_admin r0 !! d)) →
  grown r → (c, d) ∈ r_listed r → (c1, d) ∈ r_listed r → c = c1.
Proof.
  intros H0 Ha Hg [H1|[[s1 H1] N1]]%(grown_listed _ Hg) [H2|[[s2 H2] N2]]%(grown_listed _ Hg); [by eauto|..].
  - destruct (Ha _ _ H1). congruence.
  - destruct (Ha _ _ H2). congruence.
  - by destruct (GetTokenDenom_inj _ _ _ _ _ H1 H2).
Qed.
End registry.

(** * The chain *)

Section restart.
Context {W G : Type} {AC : AddressCodec} {ST : SdkTypes} {GM : GasMeter G}.
Context {AK : AccountKeeper W G} {BB : BankBase W G} {LG : BankLedger W} {KW : KeyWalk} {JC : JSONCodec}.
Context {ACL : AddressCodecLaws AC} {STL : SdkTypesLaws ST} {BL : BankBaseLaws AK BB LG}.
Context {KWL : KeyWalkLaws KW} {JCL : JSONCodecLaws JC}.
Context (authority fee_collector : string) (module_addr : bytes) (K : nat → ContractKeeper W G).
Implicit Types (s : state W G).

(** In every state of every history the denoms are listed once and the parameters are valid. *)
Lemma reachable_exportable n g s0 s1 s2 :
  GetModuleAddress ModuleName = Some module_addr →
  contract_levels authority fee_collector (λ _, True) K →
  tf s0 = empty_store → GenesisState_Validate g = Ok () → InitGenesis g s0 = (Ok (), s1) →
  rtc (chain_step (CK:=K n) authority fee_collector (λ _, True)) s1 s2 →
  module_inv s2 ∧ listed_once (tf s2) ∧
  ∃ p, ParamsItem (tf s2) = Some p ∧ Coins_Validate (DenomCreationFee p) = None.
Proof.
  intros Hmod HK Ht Hg Hi Hr. assert (H1 : module_inv s1) by by eapply init_genesis_inv.
  destruct (registry_follows authority fee_collector module_addr K _ n s1 s2 Hmod HK H1 Hr)
    as (r & Hr1 & Hsh).
  destruct (module_account_ok g s0 s1 Hi) as (a & e1 & Ha).
  destruct (InitGenesis_ok g s0 e1 a Ht Hg Ha) as (s1' & Hi' & _ & Hp & _ & Hda & Hcd).
  rw Hi in Hi'. injection Hi' as <-.
  assert (Hgr : grown (registry_of s1) r).
  { eapply grown_run; [exact Hr1|]. split; cbn; [done|multiset_solver|by left|].
    exists (gs_Params g). split; [done|]. by apply valid_genesis_iff in Hg as [? _]. }
  split; [apply Hsh|]. split.
  - intros c c1 d. rw -(shows_listed _ _ Hsh). apply (grown_once (registry_of s1)); cbn; [..|done].
    + intros x y z [-> _]%Hcd [-> _]%Hcd. done.
    + intros x z [_ (gd & -> & Hin)%list_elem_of_fmap]%Hcd. rw lookup_fmap.
      destruct gd as [dn m]. cbn. apply Hda in Hin. rw Hin. by eexists.
  - rw -(shows_params _ _ Hsh). apply Hgr.
Qed.

(** C35. A chain can be restarted from its export. In every state of every history that starts at a
    valid genesis, with contracts that call back to any depth, ExportGenesis succeeds, the
    text is accepted by ValidateGenesis, and InitGenesis of a new chain imports it. The new
    store has the same parameters and the same denoms with the same admins; a denom is listed
    under its creator in the codec's spelling, which is not the spelling it was listed under if
    a message wrote the address in another way (in upper case); and there are no hooks. If all
    creators are in the codec's spelling, the hooks are all that is lost. *)
Theorem restart n g s0 s1 s2 s3 e a :
  GetModuleAddress ModuleName = Some module_addr →
  contract_levels authority fee_collector (λ _, True) K →
  tf s0 = empty_store → GenesisState_Validate g = Ok () → InitGenesis g s0 = (Ok (), s1) →
  rtc (chain_step (CK:=K n) authority fee_collector (λ _, True)) s1 s2 →
  go_store (tf s2) →
  tf s3 = empty_store → GetModuleAccount ModuleName (ext s3) = (Ok a, e) →
  ∃ bz s4, TokenFactory.AppModule_ExportGenesis s2 = (Ok bz, s2) ∧
    TokenFactory.AppModuleBasic_ValidateGenesis bz = Ok () ∧
    TokenFactory.AppModule_InitGenesis bz s3 = (Ok [], s4) ∧
    ParamsItem (tf s4) = ParamsItem (tf s2) ∧ DenomAuthority (tf s4) = DenomAuthority (tf s2) ∧
    CreatorDenoms (tf s4) = set_map (λ k, (canonical_creator k.2, k.2)) (CreatorDenoms (tf s2)) ∧
    DenomHookAddr (tf s4) = ∅ ∧
    ((∀ c d, (c, d) ∈ CreatorDenoms (tf s2) → c = canonical_creator d) →
       tf s4 = set_DenomHookAddr ∅ (tf s2)).
Proof.
  intros Hmod HK Ht Hg Hi Hr Hgo Ht3 Ha3.
  destruct (reachable_exportable n g s0 s1 s2) as (Hinv & Honce & p & Hp & Hf); [done..|].
  destruct (TokenFactory.export_import s2 p s3 e a) as (bz & s4 & H1 & H2 & H3 & H4); [done..|].
  exists bz, s4. split; [done|]. split; [done|]. split; [done|]. rw H4.
  do 4 (split; [done|]). apply relisted_canonical.
Qed.
End restart.
