(* ===== verification/WasmExt.v ===== *)
(** x/wasmextension: the message by which the authority stores wasm code on behalf of a
    creator (keeper/msg_server.go), and its validation (types/tx.go, types/types.go).
    The wasm keeper and its access configurations are parameters. *)
From S2P Require Import Prelude.
From S2P Require Import Interfaces.
From S2P Require Import TfTypes.
From S2P Require Import Bank.

(** AccessConfig, of this module and of wasmd: the two have the same fields. *)
Record AccessConfig := { Permission : Z; Addresses : list string }.
Record WasmAccessConfig := { wac_Permission : Z; wac_Addresses : list string }.

Record MsgStoreCodeAdmin := {
  MsgStoreCodeAdmin_Creator : string;
  MsgStoreCodeAdmin_WASMByteCode : bytes;
  MsgStoreCodeAdmin_InstantiatePermission : option AccessConfig;
  MsgStoreCodeAdmin_Authority : string
}.

Definition ErrEmpty := ExtSentinel "wasmtypes.ErrEmpty".
Definition ErrLimit := ExtSentinel "wasmtypes.ErrLimit".

(** What wasmd provides: the size limit, the validation of a configuration (whose method
    is defined on the value, so that a nil pointer panics), and the keeper that stores
    code with the permissions of governance. *)
Class WasmCode (W G : Type) := {
  MaxProposalWasmSize : Z;
  WasmAccessConfig_ValidateBasic : WasmAccessConfig → option goerror;
  GovPermission_Create : bytes → bytes → option WasmAccessConfig → M (env W G) (Z * bytes)
}.

Section wasmext.
Context {W G : Type} {AC : AddressCodec} {WCD : WasmCode W G}.

Definition ToWasmAccessConfig (ac : option AccessConfig) : option WasmAccessConfig :=
  match ac with
  | None => None
  | Some ac => Some {| wac_Permission := Permission ac; wac_Addresses := Addresses ac |}
  end.

Definition validateWasmCode (s : bytes) (maxSize : Z) : option goerror :=
  if len s =? 0 then Some (Wrapf ErrEmpty "is required" [])
  else if maxSize <? len s then Some (Wrapf ErrLimit "cannot be longer than %d bytes" [pretty maxSize])
  else None.

Definition MsgStoreCodeAdmin_ValidateBasic (msg : MsgStoreCodeAdmin) : res unit :=
  let? _ := AccAddressFromBech32 (MsgStoreCodeAdmin_Creator msg) in
  let? _ :=
    match validateWasmCode (MsgStoreCodeAdmin_WASMByteCode msg) MaxProposalWasmSize with
    | Some err => Err (Wrapf ErrInvalidRequest "code bytes %s" [Error err])
    | None => Ok ()
    end in
  match ToWasmAccessConfig (MsgStoreCodeAdmin_InstantiatePermission msg) with
  | None => Ok ()
  | Some c =>
      match WasmAccessConfig_ValidateBasic c with
      | Some err => Err (Wrapf err "instantiate permission" [])
      | None => Ok ()
      end
  end.

(** keeper.authority of the server. *)
Variable authority : string.

Definition StoreCodeAdmin (msg : MsgStoreCodeAdmin) : M (env W G) (Z * bytes) :=
  if decide (authority = MsgStoreCodeAdmin_Authority msg) then
    lift (MsgStoreCodeAdmin_ValidateBasic msg) ;;;
    let! senderAddr :=
      lift match AccAddressFromBech32 (MsgStoreCodeAdmin_Creator msg) with
           | Err err => Err (Wrapf err "invalid creator address" [])
           | r => r
           end in
    GovPermission_Create senderAddr (MsgStoreCodeAdmin_WASMByteCode msg)
      (ToWasmAccessConfig (MsgStoreCodeAdmin_InstantiatePermission msg))
  else fail (invalid_authority authority (MsgStoreCodeAdmin_Authority msg)).

(** * Theorems *)

(** Code is stored exactly for a message of the authority whose creator is an address,
    whose code has between one byte and the limit of governance proposals, and whose
    permission, if any, is valid; it is then stored by the keeper in the creator's name.
    Any other message is refused and changes nothing. *)
Theorem StoreCodeAdmin_spec msg e :
  let code := MsgStoreCodeAdmin_WASMByteCode msg in
  let valid := authority = MsgStoreCodeAdmin_Authority msg ∧
    0 < len code <= MaxProposalWasmSize ∧
    (∀ p, MsgStoreCodeAdmin_InstantiatePermission msg = Some p →
       WasmAccessConfig_ValidateBasic
         {| wac_Permission := Permission p; wac_Addresses := Addresses p |} = None) in
  (∀ creator, valid → AccAddressFromBech32 (MsgStoreCodeAdmin_Creator msg) = Ok creator →
     StoreCodeAdmin msg e = GovPermission_Create creator code
       (ToWasmAccessConfig (MsgStoreCodeAdmin_InstantiatePermission msg)) e) ∧
  (¬ valid ∨ (∀ creator, AccAddressFromBech32 (MsgStoreCodeAdmin_Creator msg) ≠ Ok creator) →
     (StoreCodeAdmin msg e).2 = e ∧ ∀ r, (StoreCodeAdmin msg e).1 ≠ Ok r).
Proof.
  cbn zeta. unfold StoreCodeAdmin, MsgStoreCodeAdmin_ValidateBasic, validateWasmCode.
  set (code := MsgStoreCodeAdmin_WASMByteCode msg).
  assert (0 <= len code) as Hlen by (unfold len; lia).
  unfold bind, lift. split.
  - intros creator (Ha & [H1 H2] & Hp) Hc. case_decide; [|done]. rw Hc. cbn.
    destruct (Z.eqb_spec (len code) 0); [lia|]. destruct (Z.ltb_spec MaxProposalWasmSize (len code)); [lia|].
    cbn. destruct (MsgStoreCodeAdmin_InstantiatePermission msg) as [p|]; cbn; [|done].
    by rw (Hp p eq_refl).
  - intros Hno. case_decide as Ha; [|by split].
    destruct (AccAddressFromBech32 (MsgStoreCodeAdmin_Creator msg)) as [c| |] eqn:Hc; cbn; [|by split..].
    destruct Hno as [Hno|Hno]; [|by destruct (Hno c)].
    destruct (Z.eqb_spec (len code) 0); cbn; [by split|].
    destruct (Z.ltb_spec MaxProposalWasmSize (len code)); cbn; [by split|].
    destruct (MsgStoreCodeAdmin_InstantiatePermission msg) as [p|]; cbn.
    + destruct (WasmAccessConfig_ValidateBasic _) eqn:Hv; cbn; [by split|]. destruct Hno.
      split_and!; [done|lia|lia|]. by intros p1 [= <-].
    + destruct Hno. split_and!; [done|lia|lia|done].
Qed.

End wasmext.
