(* ===== verification/JsonScan.v ===== *)
(** The part of Go's encoding/json that reads: the grammar of JSON texts, as the scanner
    of the package accepts them, the members of an object with the raw text of their
    values, and the decoding of string literals; and base64, which is how the package
    writes a byte slice. *)
From S2P Require Import Prelude.
From S2P Require Import GoJson.

(** * The scanner *)

Definition is_ws (a : ascii) : bool :=
  let b := byte_Z a in (b =? 32) || (b =? 9) || (b =? 10) || (b =? 13).

Fixpoint skip_ws (s : string) : string :=
  match s with
  | String a r => if is_ws a then skip_ws r else s
  | EmptyString => ""
  end.

Definition is_digit (a : ascii) : bool := in_range 48 57 a.

Definition hex_val (a : ascii) : option Z :=
  let b := byte_Z a in
  if (48 <=? b) && (b <=? 57) then Some (b - 48)
  else if (97 <=? b) && (b <=? 102) then Some (b - 87)
  else if (65 <=? b) && (b <=? 70) then Some (b - 55)
  else None.

(** The bytes that may follow a backslash, [u] apart. *)
Definition is_escape (a : ascii) : bool :=
  let b := byte_Z a in
  (b =? 98) || (b =? 102) || (b =? 110) || (b =? 114) || (b =? 116) || (b =? 92) ||
  (b =? 47) || (b =? 34).

Definition is_quote (a : ascii) : bool := byte_Z a =? 34.
Definition is_backslash (a : ascii) : bool := byte_Z a =? 92.

(** The rest after a string literal whose opening quote has been read. *)
Fixpoint scan_string (s : string) : option string :=
  match s with
  | EmptyString => None
  | String a r =>
      if is_quote a then Some r
      else if is_backslash a then
        match r with
        | String e r1 =>
            if is_escape e then scan_string r1
            else if byte_Z e =? 117 then
              match r1 with
              | String h1 (String h2 (String h3 (String h4 r2))) =>
                  match hex_val h1, hex_val h2, hex_val h3, hex_val h4 with
                  | Some _, Some _, Some _, Some _ => scan_string r2
                  | _, _, _, _ => None
                  end
              | _ => None
              end
            else None
        | EmptyString => None
        end
      else if byte_Z a <? 32 then None
      else scan_string r
  end.

Fixpoint skip_digits (s : string) : string :=
  match s with
  | String a r => if is_digit a then skip_digits r else s
  | EmptyString => ""
  end.

(** One or more digits. *)
Definition scan_digits1 (s : string) : option string :=
  match s with
  | String a r => if is_digit a then Some (skip_digits r) else None
  | EmptyString => None
  end.

Definition scan_int (s : string) : option string :=
  match s with
  | String a r =>
      if byte_Z a =? 48 then Some r else if is_digit a then Some (skip_digits r) else None
  | EmptyString => None
  end.

Definition scan_frac (s : string) : option string :=
  match s with
  | String a r => if byte_Z a =? 46 then scan_digits1 r else Some s
  | EmptyString => Some ""
  end.

Definition scan_exp (s : string) : option string :=
  match s with
  | String a r =>
      if (byte_Z a =? 101) || (byte_Z a =? 69) then
        match r with
        | String b r1 =>
            if (byte_Z b =? 43) || (byte_Z b =? 45) then scan_digits1 r1 else scan_digits1 r
        | EmptyString => None
        end
      else Some s
  | EmptyString => Some ""
  end.

Definition scan_number (s : string) : option string :=
  let s1 := match s with
            | String a r => if byte_Z a =? 45 then r else s
            | EmptyString => s
            end in
  r1 ← scan_int s1; r2 ← scan_frac r1; scan_exp r2.

(** The rest after the word [w]. *)
Definition scan_word (w s : string) : option string :=
  if has_prefix w s then Some (drop_bytes (String.length w) s) else None.

(** maxNestingDepth *)
Definition max_nesting_depth : Z := 10000.

(** What is being read: a value, or the members or elements left of an object or array. *)
Inductive scan_kind := KValue | KMembers | KElements.

(** The rest after what is being read, which starts at a byte that is not white space.
    [depth] counts the objects and arrays that are open. *)
Fixpoint scan (fuel : nat) (k : scan_kind) (depth : Z) (s : string) : option string :=
  match fuel with
  | O => None
  | S fuel =>
      match k with
      | KValue =>
          match s with
          | EmptyString => None
          | String a r =>
              let b := byte_Z a in
              if b =? 123 then
                if max_nesting_depth <? depth + 1 then None
                else match skip_ws r with
                     | EmptyString => None
                     | String c r1 =>
                         if byte_Z c =? 125 then Some r1
                         else scan fuel KMembers (depth + 1) (String c r1)
                     end
              else if b =? 91 then
                if max_nesting_depth <? depth + 1 then None
                else match skip_ws r with
                     | EmptyString => None
                     | String c r1 =>
                         if byte_Z c =? 93 then Some r1
                         else scan fuel KElements (depth + 1) (String c r1)
                     end
              else if b =? 34 then scan_string r
              else if b =? 116 then scan_word "true" s
              else if b =? 102 then scan_word "false" s
              else if b =? 110 then scan_word "null" s
              else scan_number s
          end
      | KMembers =>
          match s with
          | EmptyString => None
          | String a r =>
              if is_quote a then
                match scan_string r with
                | None => None
                | Some r1 =>
                    match skip_ws r1 with
                    | EmptyString => None
                    | String c r2 =>
                        if byte_Z c =? 58 then
                          match scan fuel KValue depth (skip_ws r2) with
                          | None => None
                          | Some r3 =>
                              match skip_ws r3 with
                              | EmptyString => None
                              | String d r4 =>
                                  if byte_Z d =? 44 then scan fuel KMembers depth (skip_ws r4)
                                  else if byte_Z d =? 125 then Some r4 else None
                              end
                          end
                        else None
                    end
                end
              else None
          end
      | KElements =>
          match scan fuel KValue depth s with
          | None => None
          | Some r1 =>
              match skip_ws r1 with
              | EmptyString => None
              | String d r2 =>
                  if byte_Z d =? 44 then scan fuel KElements depth (skip_ws r2)
                  else if byte_Z d =? 93 then Some r2 else None
              end
          end
      end
  end.

(** Every recursive call is on a shorter text, except the first value of an array's
    elements: twice the length is enough. *)
Definition scan_fuel (s : string) : nat := 2 * String.length s + 2.

Definition scan_value (depth : Z) (s : string) : option string := scan (scan_fuel s) KValue depth s.

(** ** The fuel is enough *)

Lemma skip_ws_length s : (String.length (skip_ws s) <= String.length s)%nat.
Proof. induction s as [|a s IH]; cbn; [done|]. destruct (is_ws a); cbn; lia. Qed.

Lemma skip_digits_length s : (String.length (skip_digits s) <= String.length s)%nat.
Proof. induction s as [|a s IH]; cbn; [done|]. destruct (is_digit a); cbn; lia. Qed.

Lemma drop_bytes_length n s : (String.length (drop_bytes n s) = String.length s - n)%nat.
Proof. revert s. induction n as [|n IH]; intros [|a s]; cbn; try done. Qed.

Lemma has_prefix_length p s : has_prefix p s = true → (String.length p <= String.length s)%nat.
Proof.
  revert s. induction p as [|a p IH]; intros [|b s]; cbn; try lia; try done.
  intros [_ H%IH]%andb_true_iff. lia.
Qed.

Lemma scan_string_length s r : scan_string s = Some r → (String.length r < String.length s)%nat.
Proof.
  revert r. induction s as [s IH] using (induction_ltof1 _ String.length). unfold ltof in IH.
  intros r. destruct s as [|a s]; cbn [scan_string]; [done|].
  destruct (is_quote a); [intros [= <-]; cbn; lia|].
  destruct (is_backslash a); [|destruct (byte_Z a <? 32); [done|]; intros H%IH; cbn; lia].
  destruct s as [|e r1]; [done|]. destruct (is_escape e); [intros H%IH; cbn in *; lia|].
  destruct (byte_Z e =? 117); [|done]. destruct r1 as [|h1 [|h2 [|h3 [|h4 r2]]]]; try done.
  repeat (case_match; [|done]). intros Hr%IH; cbn in *; lia.
Qed.

Lemma scan_digits1_length s r : scan_digits1 s = Some r → (String.length r < String.length s)%nat.
Proof.
  destruct s as [|a s]; cbn; [done|]. destruct (is_digit a); [|done]. intros [= <-].
  pose proof (skip_digits_length s). lia.
Qed.

Lemma scan_number_length s r : scan_number s = Some r → (String.length r < String.length s)%nat.
Proof.
  unfold scan_number. intros (r1 & H1 & (r2 & H2 & H3)%bind_Some)%bind_Some.
  assert (String.length r1 < String.length s)%nat.
  { destruct s as [|a s]; cbn in H1; [done|].
    assert (∀ t u, scan_int t = Some u → (String.length u < String.length t)%nat) as Hint.
    { intros [|b t] u; cbn; [done|]. destruct (byte_Z b =? 48); [intros [= <-]; lia|].
      destruct (is_digit b); [|done]. intros [= <-]. pose proof (skip_digits_length t). lia. }
    destruct (byte_Z a =? 45); apply Hint in H1; cbn in *; lia. }
  assert (String.length r2 <= String.length r1)%nat.
  { destruct r1 as [|a r1]; cbn in H2; [by injection H2 as <-|].
    destruct (byte_Z a =? 46); [apply scan_digits1_length in H2; cbn; lia|by injection H2 as <-]. }
  assert (String.length r <= String.length r2)%nat; [|lia].
  destruct r2 as [|a r2]; cbn in H3; [by injection H3 as <-|].
  destruct (_ || _); [|by injection H3 as <-]. destruct r2 as [|b r2]; [done|].
  destruct (_ || _); apply scan_digits1_length in H3; cbn in *; lia.
Qed.

Lemma scan_word_length w s r :
  scan_word w s = Some r → w ≠ "" → (String.length r < String.length s)%nat.
Proof.
  unfold scan_word. destruct (has_prefix w s) eqn:Hp; [|done]. intros [= <-] Hw.
  apply has_prefix_length in Hp. rw drop_bytes_length. destruct w; [done|]. cbn in *. lia.
Qed.

(** What is read is never empty. *)
Lemma scan_length fuel k d s r : scan fuel k d s = Some r → (String.length r < String.length s)%nat.
Proof.
  revert k d s r. induction fuel as [|fuel IH]; intros k d s r; cbn [scan]; [done|].
  destruct k.
  - destruct s as [|a s]; [done|]. pose proof (skip_ws_length s) as Hws.
    repeat case_match; try done; simplify_eq; intros;
      repeat match goal with
      | H : Some _ = Some _ |- _ => injection H as <-
      | H : scan _ _ _ _ = Some _ |- _ => apply IH in H
      | H : scan_string _ = Some _ |- _ => apply scan_string_length in H
      | H : scan_word _ _ = Some _ |- _ => apply scan_word_length in H; [|done]
      | H : scan_number _ = Some _ |- _ => apply scan_number_length in H
      | H : skip_ws _ = _ |- _ => rw H in Hws end; cbn in *; lia.
  - destruct s as [|a s]; [done|]. destruct (is_quote a); [|done].
    destruct (scan_string s) as [r1|] eqn:H1; [|done]. apply scan_string_length in H1.
    pose proof (skip_ws_length r1). destruct (skip_ws r1) as [|c r2]; [done|].
    destruct (byte_Z c =? 58); [|done]. pose proof (skip_ws_length r2).
    destruct (scan fuel KValue d (skip_ws r2)) as [r3|] eqn:H3; [|done]. apply IH in H3.
    pose proof (skip_ws_length r3). destruct (skip_ws r3) as [|e r4]; [done|].
    pose proof (skip_ws_length r4). cbn in *.
    destruct (byte_Z e =? 44); [intros H5%IH; lia|]. destruct (byte_Z e =? 125); [|done].
    intros [= <-]. lia.
  - destruct (scan fuel KValue d s) as [r1|] eqn:H1; [|done]. apply IH in H1.
    pose proof (skip_ws_length r1). destruct (skip_ws r1) as [|e r2]; [done|].
    pose proof (skip_ws_length r2). cbn in *.
    destruct (byte_Z e =? 44); [intros H5%IH; lia|]. destruct (byte_Z e =? 93); [|done].
    intros [= <-]. lia.
Qed.

(** The steps that what is being read may take. *)
Definition scan_steps (k : scan_kind) (s : string) : nat :=
  2 * String.length s + match k with KElements => 2 | _ => 1 end.

(** With that much fuel, more fuel changes nothing: the scanner never runs out. *)
Lemma scan_enough k d s n m :
  (scan_steps k s <= n)%nat → (scan_steps k s <= m)%nat → scan n k d s = scan m k d s.
Proof.
  revert k d s m. induction n as [|n IH]; intros k d s [|m] Hn Hm; unfold scan_steps in *;
    try (destruct k; lia).
  cbn [scan]. destruct k.
  - destruct s as [|a s]; [done|]. pose proof (skip_ws_length s) as Hws.
    destruct (byte_Z a =? 123); [|destruct (byte_Z a =? 91); [|done]];
      (destruct (max_nesting_depth <? d + 1); [done|]);
      (destruct (skip_ws s) as [|c r1]; [done|]);
      [destruct (byte_Z c =? 125)|destruct (byte_Z c =? 93)]; try done;
      apply IH; unfold scan_steps; cbn in *; lia.
  - destruct s as [|a s]; [done|]. destruct (is_quote a); [|done].
    destruct (scan_string s) as [r1|] eqn:H1; [|done]. apply scan_string_length in H1.
    pose proof (skip_ws_length r1). destruct (skip_ws r1) as [|c r2]; [done|].
    destruct (byte_Z c =? 58); [|done]. pose proof (skip_ws_length r2). cbn in *.
    rw (IH KValue d (skip_ws r2) m); [|unfold scan_steps; lia|unfold scan_steps; lia].
    destruct (scan m KValue d (skip_ws r2)) as [r3|] eqn:H3; [|done]. apply scan_length in H3.
    pose proof (skip_ws_length r3). destruct (skip_ws r3) as [|e r4]; [done|].
    pose proof (skip_ws_length r4). cbn in *. destruct (byte_Z e =? 44); [|done].
    apply IH; unfold scan_steps; lia.
  - rw (IH KValue d s m); [|unfold scan_steps; lia|unfold scan_steps; lia].
    destruct (scan m KValue d s) as [r1|] eqn:H1; [|done]. apply scan_length in H1.
    pose proof (skip_ws_length r1). destruct (skip_ws r1) as [|e r2]; [done|].
    pose proof (skip_ws_length r2). cbn in *. destruct (byte_Z e =? 44); [|done].
    apply IH; unfold scan_steps; lia.
Qed.

(** The scanner of a value is the same with any larger fuel, so that a text it refuses is
    refused for its form. *)
Corollary scan_value_enough d s n : (scan_fuel s <= n)%nat → scan n KValue d s = scan_value d s.
Proof. intros Hn. apply scan_enough; unfold scan_steps, scan_fuel in *; lia. Qed.

(** checkValid: one value, with white space around it and nothing else. *)
Definition json_valid (s : string) : bool :=
  match scan_value 0 (skip_ws s) with
  | Some r => is_empty (skip_ws r)
  | None => false
  end.

(** The text between a start and the rest that follows it. *)
Definition text_before (s rest : string) : string :=
  take_bytes (String.length s - String.length rest) s.

(** * String literals *)

(** utf8.AppendRune for a code point in range. *)
Definition chr (n : Z) : ascii := ascii_of_N (Z.to_N n).

Definition utf8_encode (r : Z) : string :=
  if r <? 128 then String (chr r) ""
  else if r <? 2048 then String (chr (192 + r / 64)) (String (chr (128 + r mod 64)) "")
  else if r <? 65536 then
    String (chr (224 + r / 4096)) (String (chr (128 + (r / 64) mod 64))
      (String (chr (128 + r mod 64)) ""))
  else
    String (chr (240 + r / 262144)) (String (chr (128 + (r / 4096) mod 64))
      (String (chr (128 + (r / 64) mod 64)) (String (chr (128 + r mod 64)) ""))).

(** unicode.ReplacementChar *)
Definition replacement_char : string := utf8_encode 65533.

(** getu4 on the four digits after [\u]. *)
Definition hex4 (h1 h2 h3 h4 : ascii) : option Z :=
  match hex_val h1, hex_val h2, hex_val h3, hex_val h4 with
  | Some a, Some b, Some c, Some d => Some (4096 * a + 256 * b + 16 * c + d)
  | _, _, _, _ => None
  end.

Definition is_surrogate (r : Z) : bool := (55296 <=? r) && (r <=? 57343).
Definition is_high_surrogate (r : Z) : bool := (55296 <=? r) && (r <=? 56319).
Definition is_low_surrogate (r : Z) : bool := (56320 <=? r) && (r <=? 57343).

(** The byte an escape other than [\u] stands for. *)
Definition unescape (e : ascii) : ascii :=
  let b := byte_Z e in
  if b =? 98 then chr 8 else if b =? 102 then chr 12 else if b =? 110 then chr 10
  else if b =? 114 then chr 13 else if b =? 116 then chr 9 else e.

(** unquote, on the text after the opening quote up to the closing one. Each step consumes
    at least one byte, so the length is enough fuel. *)
Fixpoint unquote_go (fuel : nat) (s : string) : string :=
  match fuel, s with
  | O, _ => ""
  | _, EmptyString => ""
  | S fuel, String a r =>
      if is_quote a then ""
      else if is_backslash a then
        match r with
        | String e r1 =>
            if byte_Z e =? 117 then
              match r1 with
              | String h1 (String h2 (String h3 (String h4 r2))) =>
                  match hex4 h1 h2 h3 h4 with
                  | Some rr =>
                      if is_surrogate rr then
                        match r2 with
                        | String b1 (String u1 (String g1 (String g2 (String g3 (String g4 r3))))) =>
                            match hex4 g1 g2 g3 g4 with
                            | Some rr1 =>
                                if is_backslash b1 && (byte_Z u1 =? 117) &&
                                   is_high_surrogate rr && is_low_surrogate rr1
                                then utf8_encode (65536 + (rr - 55296) * 1024 + (rr1 - 56320)) +:+
                                       unquote_go fuel r3
                                else replacement_char +:+ unquote_go fuel r2
                            | None => replacement_char +:+ unquote_go fuel r2
                            end
                        | _ => replacement_char +:+ unquote_go fuel r2
                        end
                      else utf8_encode rr +:+ unquote_go fuel r2
                  | None => ""
                  end
              | _ => ""
              end
            else String (unescape e) (unquote_go fuel r1)
        | EmptyString => ""
        end
      else if byte_Z a <? 128 then String a (unquote_go fuel r)
      else match utf8_tail a r with
           | None => replacement_char +:+ unquote_go fuel r
           | Some n => String a (take_bytes n r) +:+ unquote_go fuel (drop_bytes n r)
           end
  end.

(** The string a literal stands for, when the text is a string literal. *)
Definition json_unquote (raw : string) : option string :=
  match raw with
  | String a r => if is_quote a then Some (unquote_go (String.length r) r) else None
  | EmptyString => None
  end.

(** * Objects *)

(** The members left of an object, with the raw text of each value. *)
Fixpoint members_go (fuel : nat) (s : string) : list (string * string) :=
  match fuel with
  | O => []
  | S fuel =>
      match s with
      | EmptyString => []
      | String a r =>
          if is_quote a then
            match scan_string r with
            | None => []
            | Some r1 =>
                let key := unquote_go (String.length r) r in
                let v := skip_ws (drop_bytes 1 (skip_ws r1)) in
                match scan_value 0 v with
                | None => []
                | Some r3 =>
                    (key, text_before v r3) :: members_go fuel (skip_ws (drop_bytes 1 (skip_ws r3)))
                end
            end
          else []
      end
  end.

(** What a valid text is, as the decoder sees it. *)
Inductive json_shape :=
| JNull
| JBoolean
| JNumber
| JText (s : string)
| JArray
| JObject (members : list (string * string)).

Definition json_decode (s : string) : option json_shape :=
  if json_valid s then
    match skip_ws s with
    | EmptyString => None
    | String a r =>
        let b := byte_Z a in
        Some (if b =? 123 then JObject (members_go (String.length r) (skip_ws r))
              else if b =? 91 then JArray
              else if b =? 34 then JText (unquote_go (String.length r) r)
              else if (b =? 116) || (b =? 102) then JBoolean
              else if b =? 110 then JNull
              else JNumber)
    end
  else None.

(** A key of a map holds the last value given to it. *)
Definition members_map (l : list (string * string)) : gmap string string :=
  foldl (λ m p, <[p.1 := p.2]> m) ∅ l.

(** json.Unmarshal into a map[string]json.RawMessage that is nil: an object fills it, null
    leaves it nil, and every other text is an error. *)
Definition unmarshal_raw_map (s : string) : option (gmap string string) :=
  match json_decode s with
  | Some (JObject l) => Some (members_map l)
  | Some JNull => Some ∅
  | _ => None
  end.

(** * Field names *)

(** foldName: the upper case of ASCII letters; the two other code points whose case folds
    to a letter of ASCII are the long s (U+017F) and the Kelvin sign (U+212A). *)
Fixpoint fold_name (s : string) : string :=
  match s with
  | EmptyString => ""
  | String a r =>
      let b := byte_Z a in
      if (97 <=? b) && (b <=? 122) then String (chr (b - 32)) (fold_name r)
      else match r with
           | String a1 r1 =>
               if (b =? 197) && (byte_Z a1 =? 191) then String "S" (fold_name r1)
               else match r1 with
                    | String a2 r2 =>
                        if (b =? 226) && (byte_Z a1 =? 132) && (byte_Z a2 =? 170)
                        then String "K" (fold_name r2) else String a (fold_name r)
                    | EmptyString => String a (fold_name r)
                    end
           | EmptyString => String a ""
           end
  end.

(** The field of a struct a key names: by its exact name, else by its folded name. *)
Definition field_named (fields : list string) (key : string) : option string :=
  if decide (key ∈ fields) then Some key
  else list_find (λ f, fold_name f = fold_name key) fields ≫= λ p, Some p.2.

(** * Base64 *)

Definition base64_digit (n : Z) : ascii :=
  chr (if n <? 26 then 65 + n else if n <? 52 then 71 + n else if n <? 62 then n - 4
       else if n =? 62 then 43 else 47).

(** base64.StdEncoding *)
Fixpoint base64 (s : string) : string :=
  match s with
  | EmptyString => ""
  | String a EmptyString =>
      let x := byte_Z a * 16 in
      String (base64_digit (x / 64)) (String (base64_digit (x mod 64)) "==")
  | String a (String b EmptyString) =>
      let x := (byte_Z a * 256 + byte_Z b) * 4 in
      String (base64_digit (x / 4096)) (String (base64_digit ((x / 64) mod 64))
        (String (base64_digit (x mod 64)) "="))
  | String a (String b (String c r)) =>
      let x := (byte_Z a * 256 + byte_Z b) * 256 + byte_Z c in
      String (base64_digit (x / 262144)) (String (base64_digit ((x / 4096) mod 64))
        (String (base64_digit ((x / 64) mod 64)) (String (base64_digit (x mod 64)) (base64 r))))
  end.

(** json.Marshal of a byte slice: nil is null, and a slice that is not nil, empty or not,
    is its base64 text. *)
Definition json_marshal_bytes (bz : option bytes) : string :=
  match bz with None => "null" | Some bz => quote +:+ base64 bz +:+ quote end.

(** * Quotes in formats *)

(** A text whose quotes are written as apostrophes here, such as a format of fmt. *)
Fixpoint with_quotes (s : string) : string :=
  match s with
  | EmptyString => ""
  | String a r => String (if byte_Z a =? 39 then chr 34 else a) (with_quotes r)
  end.

(** * Tests *)

Example json_valid_tests :
  (json_valid ∘ with_quotes) <$>
    [" {'a' : [1, -2.5e+3, {}], 'b':null} "; "{'a':1,}"; "[01]"; "'\u12'"; "nulll"; "{} {}"; "[[]]"]
  = [true; false; false; false; false; false; true].
Proof. by vm_compute. Qed.

Example json_decode_test :
  json_decode (with_quotes " {'a\u0041' : [1, {'b': 2}] , 'c':'d'}") =
    Some (JObject [("aA", with_quotes "[1, {'b': 2}]"); ("c", with_quotes "'d'")]).
Proof. by vm_compute. Qed.

Example surrogates_test :
  json_unquote (with_quotes "'\ud83d\ude00'") = Some (utf8_encode 128512) ∧
  json_unquote (with_quotes "'\ud83dx'") = Some (replacement_char +:+ "x").
Proof. by vm_compute. Qed.

Example base64_test : base64 <$> [""; "f"; "fo"; "foo"; "foob"] = [""; "Zg=="; "Zm8="; "Zm9v"; "Zm9vYg=="].
Proof. by vm_compute. Qed.

Example fold_name_test : field_named ["message"; "async_callback"] "MESSAGE" = Some "message".
Proof. by vm_compute. Qed.
