(* ===== verification/JsonRoundtrip.v ===== *)
(** Reading what was written: the scanner accepts the texts json.Marshal makes, and the
    decoder finds in them the strings and the fields that were put in, for strings of
    valid UTF-8. Applied to the messages the token factory sends to hook contracts. *)
From S2P Require Import Prelude.
From S2P Require Import GoJson.
From S2P Require Import JsonScan.

#[local] Set Warnings "-register-all".

(** * Strings *)

(** Valid UTF-8, by the runes of the string. *)
Inductive utf8 : string → Prop :=
| utf8_nil : utf8 ""
| utf8_ascii a s : byte_Z a < 128 → utf8 s → utf8 (String a s)
| utf8_multi a s n :
    128 <= byte_Z a → utf8_tail a s = Some n → utf8 (drop_bytes n s) → utf8 (String a s).

Lemma byte_Z_bounds a : 0 <= byte_Z a < 256.
Proof. unfold byte_Z. destruct a as [[] [] [] [] [] [] [] []]; cbn; lia. Qed.

Lemma byte_Z_inj a b : byte_Z a = byte_Z b → a = b.
Proof.
  unfold byte_Z. intros H. apply N2Z.inj in H.
  rw -(ascii_N_embedding a) -(ascii_N_embedding b). by rw H.
Qed.

Lemma byte_chr z : 0 <= z < 256 → byte_Z (chr z) = z.
Proof. intros Hz. unfold byte_Z, chr. rw N_ascii_embedding; lia. Qed.

(** ** One rune at a time *)

Lemma unquote_escape_ascii f a t :
  byte_Z a < 128 → unquote_go (S f) (json_escape_ascii a +:+ t) = String a (unquote_go f t).
Proof.
  intros Ha. destruct a as [[] [] [] [] [] [] [] []]; first [reflexivity|by cbv in Ha].
Qed.

Lemma scan_escape_ascii a t :
  byte_Z a < 128 → scan_string (json_escape_ascii a +:+ t) = scan_string t.
Proof.
  intros Ha. destruct a as [[] [] [] [] [] [] [] []]; first [reflexivity|by cbv in Ha].
Qed.

Lemma take_bytes_app n s t :
  (n <= String.length s)%nat → take_bytes n (take_bytes n s +:+ t) = take_bytes n s.
Proof.
  revert s. induction n as [|n IH]; intros [|a s] Hn; cbn in *; try done; [lia|].
  f_equal. apply IH. lia.
Qed.

Lemma drop_bytes_app n s t :
  (n <= String.length s)%nat → drop_bytes n (take_bytes n s +:+ t) = t.
Proof.
  revert s. induction n as [|n IH]; intros [|a s] Hn; cbn in *; try done; [lia|]. apply IH. lia.
Qed.

Lemma take_drop_bytes n s : take_bytes n s +:+ drop_bytes n s = s.
Proof.
  revert s. induction n as [|n IH]; intros [|a s]; cbn; try done. rw app_cons_s. by rw IH.
Qed.

(** The three lengths of the rest of a rune. *)
Lemma utf8_tail_cases a s n :
  utf8_tail a s = Some n →
  (n = 1%nat ∧ ∃ b1 s1, s = String b1 s1 ∧ in_range 194 223 a = true ∧ is_cont b1 = true) ∨
  (n = 2%nat ∧ ∃ b1 b2 s2, s = String b1 (String b2 s2) ∧ in_range 194 223 a = false ∧
     second_of_3 a b1 && is_cont b2 = true) ∨
  (n = 3%nat ∧ ∃ b1 b2 b3 s3, s = String b1 (String b2 (String b3 s3)) ∧ in_range 194 223 a = false ∧
     second_of_3 a b1 && is_cont b2 = false ∧ second_of_4 a b1 && is_cont b2 = true ∧ is_cont b3 = true).
Proof.
  destruct s as [|b1 s1]; cbn [utf8_tail]; [done|]. destruct (in_range 194 223 a) eqn:H0.
  { destruct (is_cont b1) eqn:H1; [|done]. intros [= <-]. left. split; [done|]. by exists b1, s1. }
  destruct s1 as [|b2 s2]; [done|]. destruct (second_of_3 a b1 && is_cont b2) eqn:H1.
  { intros [= <-]. right; left. split; [done|]. by exists b1, b2, s2. }
  destruct (second_of_4 a b1 && is_cont b2) eqn:H2; [|done]. destruct s2 as [|b3 s3]; [done|].
  destruct (is_cont b3) eqn:H3; [|done]. intros [= <-]. right; right. split; [done|].
  by exists b1, b2, b3, s3.
Qed.

Lemma utf8_tail_length a s n : utf8_tail a s = Some n → (1 <= n <= String.length s)%nat.
Proof.
  intros [(-> & b1 & s1 & -> & _)|[(-> & b1 & b2 & s2 & -> & _)|(-> & b1 & b2 & b3 & s3 & -> & _)]]%utf8_tail_cases;
    cbn; lia.
Qed.

(** The bytes after a rune do not matter. *)
Lemma utf8_tail_app a s n t :
  utf8_tail a s = Some n → utf8_tail a (take_bytes n s +:+ t) = Some n.
Proof.
  intros [(-> & b1 & s1 & -> & H0 & H1)|[(-> & b1 & b2 & s2 & -> & H0 & H1)
    |(-> & b1 & b2 & b3 & s3 & -> & H0 & H1 & H2 & H3)]]%utf8_tail_cases;
    cbn [take_bytes]; rw !app_cons_s; cbn [utf8_tail]; rw H0 ?H1 ?H2 ?H3 //.
Qed.

Lemma multi_not_special a : 128 <= byte_Z a →
  is_quote a = false ∧ is_backslash a = false ∧ (byte_Z a <? 128) = false ∧ (byte_Z a <? 32) = false.
Proof.
  intros Ha. unfold is_quote, is_backslash. split_and!; first [apply Z.eqb_neq|apply Z.ltb_ge]; lia.
Qed.

(** The continuation bytes of a rune are not special either. *)
Lemma utf8_tail_high a s n :
  utf8_tail a s = Some n → ∀ t, scan_string (take_bytes n s +:+ t) = scan_string t.
Proof.
  assert (∀ b t, 128 <= byte_Z b → scan_string (String b t) = scan_string t) as Hstep.
  { intros b t Hb. destruct (multi_not_special b Hb) as (H1 & H2 & _ & H3). cbn. by rw H1 H2 H3. }
  assert (∀ lo hi b, 128 <= lo → in_range lo hi b = true → 128 <= byte_Z b) as Hr.
  { unfold in_range. intros lo hi b Hlo [H1%Z.leb_le _]%andb_true_iff. lia. }
  assert (∀ b, is_cont b = true → 128 <= byte_Z b) as Hc by (intros b; by apply Hr).
  assert (∀ b, second_of_3 a b || second_of_4 a b = true → 128 <= byte_Z b) as H34.
  { unfold second_of_3, second_of_4. intros b [Hb|Hb]%orb_true_iff; repeat case_match;
      first [eapply Hr; [|exact Hb]; lia|apply andb_true_iff in Hb as [_ Hb]; by apply Hc]. }
  intros [(-> & b1 & s1 & -> & _ & H1)|[(-> & b1 & b2 & s2 & -> & _ & [H1 H2]%andb_true_iff)
    |(-> & b1 & b2 & b3 & s3 & -> & _ & _ & [H1 H2]%andb_true_iff & H3)]]%utf8_tail_cases t;
    cbn [take_bytes]; rw !app_cons_s ?app_empty_s !Hstep //; try by apply Hc.
  - apply H34. by rw H1.
  - apply H34. by rw H1 orb_true_r.
Qed.

Lemma line_sep_inv a s n esc :
  utf8_tail a s = Some n → is_line_sep a s = Some esc →
  ∀ f t, unquote_go (S f) (esc +:+ t) = String a (take_bytes n s) +:+ unquote_go f t ∧
    scan_string (esc +:+ t) = scan_string t.
Proof.
  unfold is_line_sep. intros Hn He f t.
  assert (∀ k b, in_range k k b = true → byte_Z b = k) as Hk.
  { unfold in_range. intros k b [H1%Z.leb_le H2%Z.leb_le]%andb_true_iff. lia. }
  destruct (in_range 226 226 a) eqn:Ha; [|done]. destruct s as [|b1 [|b2 s]]; try done.
  destruct (in_range 128 128 b1 && in_range 168 169 b2) eqn:Hb; [|done].
  apply andb_true_iff in Hb as [Hb1%Hk Hb2]. apply Hk in Ha.
  assert (a = chr 226) as -> by by apply byte_Z_inj.
  assert (b1 = chr 128) as -> by by apply byte_Z_inj.
  destruct (in_range 168 168 b2) eqn:H2.
  - apply Hk in H2. assert (b2 = chr 168) as -> by by apply byte_Z_inj.
    injection He as <-. cbv in Hn. by injection Hn as <-.
  - assert (byte_Z b2 = 169) as H3.
    { unfold in_range in *. apply andb_true_iff in Hb2 as [H3%Z.leb_le H4%Z.leb_le].
      apply andb_false_iff in H2 as [H5%Z.leb_gt|H5%Z.leb_gt]; lia. }
    assert (b2 = chr 169) as -> by by apply byte_Z_inj.
    injection He as <-. cbv in Hn. by injection Hn as <-.
Qed.

(** ** Whole strings *)

(** A literal that json.Marshal writes ends where its quote is, and stands for the string. *)
Lemma escape_roundtrip s :
  utf8 s → ∀ n f t, (String.length s <= n)%nat → (String.length s < f)%nat →
  unquote_go f (json_escape n s +:+ quote +:+ t) = s ∧
  scan_string (json_escape n s +:+ quote +:+ t) = Some t.
Proof.
  induction 1 as [|a s Ha Hs IH|a s k Ha Hk Hs IH]; intros [|n] [|f] t Hn Hf; cbn in Hn, Hf;
    try lia; try done.
  - cbn [json_escape]. rw (proj2 (Z.ltb_lt _ _) Ha) app_assoc_s.
    rw unquote_escape_ascii // scan_escape_ascii //.
    destruct (IH n f t) as [-> ->]; [lia..|done].
  - cbn [json_escape]. destruct (multi_not_special a Ha) as (H1 & H2 & H3 & H4).
    pose proof (utf8_tail_length _ _ _ Hk) as Hl. rw H3 Hk.
    assert (String.length (drop_bytes k s) = String.length s - k)%nat as Hd by apply drop_bytes_length.
    destruct (is_line_sep a s) as [esc|] eqn:He.
    + rw app_assoc_s. destruct (line_sep_inv _ _ _ _ Hk He f
        (json_escape n (drop_bytes k s) +:+ quote +:+ t)) as [-> ->].
      destruct (IH n f t) as [-> ->]; [lia..|]. rw app_cons_s take_drop_bytes. done.
    + rw app_assoc_s app_cons_s. cbn [unquote_go scan_string]. rw H1 H2 H3 H4.
      rw (utf8_tail_app _ _ _ _ Hk) take_bytes_app; [|lia]. rw drop_bytes_app; [|lia].
      rw (utf8_tail_high _ _ _ Hk). destruct (IH n f t) as [-> ->]; [lia..|].
      rw app_cons_s take_drop_bytes. done.
Qed.

(** Escaping makes no string shorter, so that the length of a text is enough fuel. *)
Lemma escape_length s n :
  utf8 s → (String.length s <= n)%nat → (String.length s <= String.length (json_escape n s))%nat.
Proof.
  intros H. revert n. induction H as [|a s Ha Hs IH|a s k Ha Hk Hs IH]; intros [|n] Hn; cbn in Hn;
    try lia; [cbn; lia..| |].
  - cbn [json_escape]. rw (proj2 (Z.ltb_lt _ _) Ha) length_app_s. specialize (IH n ltac:(lia)).
    assert (1 <= String.length (json_escape_ascii a))%nat; [|cbn; lia].
    destruct a as [[] [] [] [] [] [] [] []]; cbv; lia.
  - cbn [json_escape]. destruct (multi_not_special a Ha) as (_ & _ & -> & _). rw Hk.
    pose proof (utf8_tail_length _ _ _ Hk) as Hl.
    assert (String.length (drop_bytes k s) = String.length s - k)%nat as Hd by apply drop_bytes_length.
    specialize (IH n ltac:(lia)). assert (k <= 3)%nat as Hk3.
    { by destruct (utf8_tail_cases _ _ _ Hk) as [(-> & _)|[(-> & _)|(-> & _)]]; lia. }
    destruct (is_line_sep a s) as [esc|] eqn:He; rw length_app_s.
    + assert (esc = "\u2028" ∨ esc = "\u2029") as [-> | ->]; [|cbn; lia..].
      unfold is_line_sep in He. repeat (case_match; try done); simplify_eq; auto.
    + cbn. pose proof (take_drop_bytes k s) as Ht. apply (f_equal String.length) in Ht.
      rw length_app_s in Ht. lia.
Qed.

Lemma json_string_cons s t :
  json_string s +:+ t = String (ascii_of_N 34) (json_escape (String.length s) s +:+ quote +:+ t).
Proof. unfold json_string. by rw !app_assoc_s. Qed.

(** A literal, wherever it stands: it is scanned to its end and unquoted to the string. *)
Lemma json_string_read s t :
  utf8 s →
  let r := json_escape (String.length s) s +:+ quote +:+ t in
  scan_string r = Some t ∧ unquote_go (String.length r) r = s.
Proof.
  intros Hs r. destruct (escape_roundtrip s Hs (String.length s) (String.length r) t) as [H1 H2]; [done| |done].
  unfold r. rw !length_app_s. pose proof (escape_length s _ Hs (le_n _)). cbn. lia.
Qed.

(** * Objects and arrays *)

(** What may follow a value: the end, a comma or a closing bracket. *)
Definition delimited (t : string) : bool :=
  match t with
  | EmptyString => true
  | String a _ => (byte_Z a =? 44) || (byte_Z a =? 93) || (byte_Z a =? 125)
  end.

(** The first byte of a value: neither white space nor a bracket that closes. *)
Definition starts_value (raw : string) : Prop :=
  ∃ a r, raw = String a r ∧ is_ws a = false ∧ byte_Z a ≠ 93.

(** With enough fuel the scanner reads the text [raw] at depth [d], whatever follows it. *)
Definition scans (d : Z) (raw : string) : Prop :=
  starts_value raw ∧
  ∀ t, delimited t = true → ∃ N, ∀ fuel, (N <= fuel)%nat → scan fuel KValue d (raw +:+ t) = Some t.

Lemma skip_ws_value raw t : starts_value raw → skip_ws (raw +:+ t) = raw +:+ t.
Proof. intros (a & r & -> & Ha & _). rw app_cons_s. cbn [skip_ws]. by rw Ha. Qed.

(** ** Depth *)

(** A text that is read at some depth is read at any smaller one. *)
Lemma scan_depth fuel k d d' s t :
  d' <= d → scan fuel k d s = Some t → scan fuel k d' s = Some t.
Proof.
  intros Hd. revert k d d' s t Hd. induction fuel as [|fuel IH]; intros k d d' s t Hd; cbn [scan]; [done|].
  assert (∀ k s t, scan fuel k d s = Some t → scan fuel k d' s = Some t) as IH1 by eauto.
  assert (∀ k s t, scan fuel k (d + 1) s = Some t → scan fuel k (d' + 1) s = Some t) as IH2
    by (intros k' s' t'; apply IH; lia).
  destruct k.
  - destruct s as [|a r]; [done|]. destruct (Z.ltb_spec max_nesting_depth (d + 1)) as [|Hm].
    { repeat (case_match; try done). }
    rw (proj2 (Z.ltb_ge max_nesting_depth (d' + 1))); [|lia].
    repeat (case_match; try done); eauto.
  - destruct s as [|a r]; [done|]. destruct (is_quote a); [|done].
    destruct (scan_string r) as [r1|]; [|done]. destruct (skip_ws r1) as [|c r2]; [done|].
    destruct (byte_Z c =? 58); [|done]. destruct (scan fuel KValue d (skip_ws r2)) as [r3|] eqn:E; [|done].
    rw (IH1 _ _ _ E). destruct (skip_ws r3) as [|e r4]; [done|]. destruct (byte_Z e =? 44); eauto.
  - destruct (scan fuel KValue d s) as [r1|] eqn:E; [|done]. rw (IH1 _ _ _ E).
    destruct (skip_ws r1) as [|e r2]; [done|]. destruct (byte_Z e =? 44); eauto.
Qed.

Lemma scans_depth d d' raw : d' <= d → scans d raw → scans d' raw.
Proof.
  intros Hd [Hs H]. split; [done|]. intros t Ht. destruct (H t Ht) as [N HN]. exists N.
  intros fuel Hf. eapply scan_depth; [done|]. by apply HN.
Qed.

(** The scanner's own fuel is enough, as always. *)
Lemma scans_value d raw t : scans d raw → delimited t = true → scan_value d (raw +:+ t) = Some t.
Proof.
  intros [_ H] Ht. destruct (H t Ht) as [N HN].
  rw -(scan_value_enough d _ (Nat.max N (scan_fuel (raw +:+ t)))); [|lia]. apply HN. lia.
Qed.

(** ** Strings *)

Lemma starts_quote s : starts_value (json_string s).
Proof.
  exists (ascii_of_N 34), (json_escape (String.length s) s +:+ quote). by rw -(app_nil_s (json_string s)) json_string_cons app_nil_s.
Qed.

Lemma scans_string d s : utf8 s → scans d (json_string s).
Proof.
  intros Hs. split; [apply starts_quote|]. intros t _. exists 1%nat. intros [|fuel] Hf; [lia|].
  rw json_string_cons. cbn [scan]. change (byte_Z (ascii_of_N 34)) with 34. cbn [Z.eqb Pos.eqb].
  by apply json_string_read.
Qed.

(** ** Objects *)

(** The text of the members: the first one, and the rest behind a comma or the bracket. *)
Lemma members_text e l t :
  join "," (member_text <$> (e :: l)) +:+ "}" +:+ t =
  json_string e.1 +:+ ":" +:+ e.2 +:+
    match l with
    | [] => "}" +:+ t
    | _ => "," +:+ join "," (member_text <$> l) +:+ "}" +:+ t
    end.
Proof. destruct l as [|g l]; unfold member_text; cbn [fmap list_fmap join]; by rw !app_assoc_s. Qed.

Lemma scan_members d l t :
  l ≠ [] → Forall (λ e, utf8 e.1 ∧ scans d e.2) l →
  ∃ N, ∀ fuel, (N <= fuel)%nat → scan fuel KMembers d (join "," (member_text <$> l) +:+ "}" +:+ t) = Some t.
Proof.
  intros Hne Hl. induction Hl as [|f l [Hk [Hst Hv]] Hl IH]; [done|]. clear Hne. rw members_text json_string_cons.
  set (rest := match l with [] => _ | _ => _ end).
  assert (delimited rest = true) as Hd by (subst rest; by destruct l). destruct (Hv rest Hd) as [N1 H1].
  assert (∃ N2, ∀ fuel, (N2 <= fuel)%nat →
    match skip_ws rest with
    | EmptyString => None
    | String e r4 =>
        if byte_Z e =? 44 then scan fuel KMembers d (skip_ws r4)
        else if byte_Z e =? 125 then Some r4 else None
    end = Some t) as [N2 H2].
  { subst rest. destruct l as [|g l]; [by exists 0%nat|]. destruct IH as [N2 H2]; [done|].
    exists N2. intros fuel Hf. cbn [skip_ws]. rw members_text json_string_cons. cbn.
    specialize (H2 fuel Hf). by rw members_text json_string_cons in H2. }
  exists (S (Nat.max N1 N2)). intros [|fuel] Hf; [lia|]. cbn [scan is_quote].
  destruct (json_string_read f.1 (":" +:+ f.2 +:+ rest) Hk) as [Hs _].
  cbn [byte_Z ascii_of_N]. change (is_quote (ascii_of_N 34)) with true. cbv iota. rw Hs.
  rw app_cons_s app_empty_s. cbn [skip_ws is_ws]. change (is_ws ":") with false. cbv iota.
  change (byte_Z ":" =? 58) with true. cbv iota. rw skip_ws_value // H1; [|lia]. apply H2. lia.
Qed.

Lemma scans_object d l :
  d + 1 <= max_nesting_depth → Forall (λ e, utf8 e.1 ∧ scans (d + 1) e.2) l → scans d (object_text l).
Proof.
  intros Hd Hl. split; [by exists "{"%char, (join "," (member_text <$> l) +:+ "}")|]. intros t _.
  unfold object_text. rw app_assoc_s app_assoc_s. rw app_cons_s app_empty_s.
  assert ((max_nesting_depth <? d + 1) = false) as Hdepth by (apply Z.ltb_ge; lia).
  destruct l as [|f l].
  - exists 1%nat. intros [|fuel] Hf; [lia|]. cbn [fmap list_fmap join]. rw !app_empty_s app_cons_s. cbn [scan].
    change (byte_Z "{") with 123. cbn [Z.eqb Pos.eqb]. by rw Hdepth.
  - destruct (scan_members (d + 1) (f :: l) t) as [N H]; [done..|].
    exists (S N). intros [|fuel] Hf; [lia|]. specialize (H fuel ltac:(lia)). cbn [scan].
    change (byte_Z "{") with 123. cbn [Z.eqb Pos.eqb]. rw Hdepth.
    rw members_text json_string_cons in H. rw members_text json_string_cons. exact H.
Qed.

(** ** Arrays *)

Lemma elements_text e l t :
  join "," (e :: l) +:+ "]" +:+ t =
  e +:+ match l with [] => "]" +:+ t | _ => "," +:+ join "," l +:+ "]" +:+ t end.
Proof. destruct l as [|g l]; cbn [join]; by rw ?app_assoc_s. Qed.

Lemma scan_elements d l t :
  l ≠ [] → Forall (scans d) l →
  ∃ N, ∀ fuel, (N <= fuel)%nat → scan fuel KElements d (join "," l +:+ "]" +:+ t) = Some t.
Proof.
  intros Hne Hl. induction Hl as [|e l [Hst Hv] Hl IH]; [done|]. clear Hne. rw elements_text.
  set (rest := match l with [] => _ | _ => _ end).
  assert (delimited rest = true) as Hd by (subst rest; by destruct l). destruct (Hv rest Hd) as [N1 H1].
  destruct l as [|g l].
  - exists (S N1). intros [|fuel] Hf; [lia|]. cbn [scan]. rw H1; [done|lia].
  - destruct IH as [N2 H2]; [done|]. exists (S (Nat.max N1 N2)). intros [|fuel] Hf; [lia|]. cbn [scan].
    rw H1; [|lia]. subst rest. rw app_cons_s app_empty_s. cbn [skip_ws]. change (is_ws ",") with false. cbv iota.
    change (byte_Z "," =? 44) with true. cbv iota. inversion Hl as [|? ? [Hg _] _]; subst.
    rw elements_text skip_ws_value // -elements_text. apply H2. lia.
Qed.

Lemma scans_array d l :
  d + 1 <= max_nesting_depth → Forall (scans (d + 1)) l → scans d (array_text l).
Proof.
  intros Hd Hl. split; [by exists "["%char, (join "," l +:+ "]")|]. intros t _.
  unfold array_text. rw app_assoc_s app_assoc_s. rw app_cons_s app_empty_s.
  assert ((max_nesting_depth <? d + 1) = false) as Hdepth by (apply Z.ltb_ge; lia).
  destruct l as [|e l].
  - exists 1%nat. intros [|fuel] Hf; [lia|]. cbn [join]. rw !app_empty_s app_cons_s. cbn [scan].
    change (byte_Z "[") with 91. cbn [Z.eqb Pos.eqb]. by rw Hdepth.
  - destruct (scan_elements (d + 1) (e :: l) t) as [N H]; [done..|].
    exists (S N). intros [|fuel] Hf; [lia|]. specialize (H fuel ltac:(lia)). cbn [scan].
    change (byte_Z "[") with 91. cbn [Z.eqb Pos.eqb]. rw Hdepth.
    inversion Hl as [|? ? [Hst _] _]; subst. pose proof Hst as (a & r & He & Hws & H93).
    rw elements_text in H. rw elements_text skip_ws_value //. subst e. rw app_cons_s in H. rw app_cons_s.
    by rw (proj2 (Z.eqb_neq _ _) H93).
Qed.

(** ** Decoding *)

Lemma text_before_app s t : text_before (s +:+ t) t = s.
Proof.
  unfold text_before. rw length_app_s. replace (_ + _ - _)%nat with (String.length s) by lia.
  induction s as [|a s IH]; [by rw app_empty_s; destruct t|]. rw app_cons_s. cbn. by rw IH.
Qed.

(** The members of the text are the keys, with the texts of the values. *)
Lemma members_read l fuel :
  Forall (λ e, utf8 e.1 ∧ scans 0 e.2) l → (length l <= fuel)%nat →
  members_go fuel (join "," (member_text <$> l) +:+ "}") = l.
Proof.
  intros Hl. revert fuel. induction Hl as [|f l [Hk Hv] Hl IH]; intros fuel Hf.
  { by destruct fuel. }
  destruct fuel as [|fuel]; [cbn in Hf; lia|]. cbn [length] in Hf.
  rw -(app_nil_s "}") members_text json_string_cons. cbn [members_go].
  set (rest := match l with [] => _ | _ => _ end).
  assert (delimited rest = true) as Hd by (subst rest; by destruct l).
  destruct (json_string_read f.1 (":" +:+ f.2 +:+ rest) Hk) as [-> ->].
  change (is_quote (ascii_of_N 34)) with true. cbv iota. rw app_cons_s app_empty_s.
  cbn [skip_ws]. change (is_ws ":") with false. cbv iota. cbn [drop_bytes].
  rw skip_ws_value; [|apply Hv]. rw (scans_value 0) // text_before_app -surjective_pairing. f_equal.
  etrans; [|apply (IH fuel); lia]. subst rest. destruct l as [|g l]; [by destruct fuel|].
  rw app_cons_s app_empty_s. cbn [skip_ws]. change (is_ws ",") with false. cbv iota. cbn [drop_bytes].
  rw app_nil_s. f_equal. rw -(app_nil_s "}") members_text json_string_cons. done.
Qed.

Lemma decode_object l :
  Forall (λ e, utf8 e.1 ∧ scans 1 e.2) l → json_decode (object_text l) = Some (JObject l).
Proof.
  intros Hl. assert (scans 0 (object_text l)) as Hs by by apply scans_object.
  unfold json_decode, json_valid. rw -(app_nil_s (object_text _)) skip_ws_value; [|apply Hs].
  rw (scans_value 0) //. cbn [skip_ws is_empty]. unfold object_text. rw app_nil_s app_cons_s app_empty_s.
  change (byte_Z "{") with 123. cbn [Z.eqb Pos.eqb]. do 2 f_equal.
  etrans; [|apply (members_read l (String.length (join "," (member_text <$> l) +:+ "}")))].
  - f_equal. destruct l as [|f l]; [done|]. rw -(app_nil_s "}") members_text json_string_cons. done.
  - eapply Forall_impl; [exact Hl|]. intros e [Hu He]. split; [done|]. eapply scans_depth; [|exact He]. lia.
  - rw length_app_s. clear.
    assert (∀ e, 1 <= String.length (member_text e))%nat as Hone.
    { intros e. unfold member_text. rw !length_app_s. cbn [String.length]. lia. }
    induction l as [|e l IH]; [cbn; lia|]. pose proof (Hone e).
    destruct l as [|g l]; cbn [fmap list_fmap join length] in *; rw ?length_app_s; cbn [String.length] in *; lia.
Qed.

Lemma decode_string s : utf8 s → json_decode (json_string s) = Some (JText s).
Proof.
  intros Hs. assert (scans 0 (json_string s)) as Hsc by by apply scans_string.
  unfold json_decode, json_valid. rw -(app_nil_s (json_string _)) skip_ws_value; [|apply Hsc].
  rw (scans_value 0) //. cbn [skip_ws is_empty]. rw json_string_cons.
  destruct (json_string_read s "" Hs) as [_ H]. cbn -[unquote_go String.length json_escape]. by rw H.
Qed.

(** * Structs *)

(** Induction over values and the values of their fields. *)
Lemma jval_fields_ind (P : jval → Prop) :
  (∀ s, P (JString s)) → (∀ l, Forall (λ f, P f.2) l → P (JStruct l)) → ∀ v, P v.
Proof.
  intros Hs Hl. fix IH 1. intros [s|l]; [apply Hs|]. apply Hl.
  induction l as [|[k v] l IHl]; constructor; [apply IH|apply IHl].
Qed.

(** The strings of a value, names of fields included, are valid UTF-8. *)
Inductive jval_utf8 : jval → Prop :=
| jutf8_string s : utf8 s → jval_utf8 (JString s)
| jutf8_struct l : Forall (λ f, utf8 f.1 ∧ jval_utf8 f.2) l → jval_utf8 (JStruct l).

(** How deep structs are nested. *)
Fixpoint jdepth (v : jval) : Z :=
  match v with
  | JString _ => 0
  | JStruct l => 1 + foldr Z.max 0 (map (λ f, jdepth f.2) l)
  end.

Lemma foldr_max_le {A} (f : A → Z) l x : x ∈ l → f x <= foldr Z.max 0 (map f l).
Proof. induction 1; cbn [map foldr]; lia. Qed.

Lemma foldr_max_nonneg l : 0 <= foldr Z.max 0 l.
Proof. induction l; cbn [foldr]; lia. Qed.

Lemma scans_marshal v : jval_utf8 v → ∀ d, d + jdepth v <= max_nesting_depth → scans d (json_marshal v).
Proof.
  induction v as [s|l IH] using jval_fields_ind; intros Hv d Hd; inversion Hv as [? Hs|? Hl]; subst.
  - by apply scans_string.
  - cbn [json_marshal jdepth] in *. pose proof (foldr_max_nonneg (map (λ f, jdepth f.2) l)).
    apply scans_object; [lia|]. rw Forall_forall in IH. rw Forall_forall in Hl.
    apply Forall_fmap, Forall_forall. intros g Hg. destruct (Hl g Hg) as [Hu Hj]. split; [done|].
    apply IH; [done..|]. pose proof (foldr_max_le (λ f : string * jval, jdepth f.2) l g Hg). cbn in *. lia.
Qed.

Lemma decode_struct l :
  jval_utf8 (JStruct l) → jdepth (JStruct l) <= max_nesting_depth →
  json_decode (json_marshal (JStruct l)) = Some (JObject ((λ f, (f.1, json_marshal f.2)) <$> l)).
Proof.
  intros Hv Hd. inversion Hv as [|? Hl]; subst. apply decode_object. cbn [jdepth] in Hd.
  rw Forall_forall in Hl. apply Forall_fmap, Forall_forall. intros g Hg. destruct (Hl g Hg) as [Hu Hj].
  split; [done|]. apply scans_marshal; [done|].
  pose proof (foldr_max_le (λ f : string * jval, jdepth f.2) l g Hg). cbn in *. lia.
Qed.
