(* ===== verification/HookJson.v ===== *)
(** What a hook contract reads in the messages of the token factory
    (x/tokenfactory/types/before_send.go): a reader in the manner of a contract's, and the
    round trip through json.Marshal. *)
From S2P Require Import Prelude.
From S2P Require Import GoJson.
From S2P Require Import JsonScan.
From S2P Require Import JsonRoundtrip.
From S2P Require Import TfKeeper.

(** The string a text stands for, and the member of an object. *)
Definition read_text (raw : string) : option string :=
  match json_decode raw with Some (JText s) => Some s | _ => None end.

Definition read_member (raw key : string) : option string :=
  match json_decode raw with Some (JObject l) => members_map l !! key | _ => None end.

Definition read_BeforeSendMsg (raw : string) : option BeforeSendMsg :=
  from ← read_member raw "from" ≫= read_text;
  to ← read_member raw "to" ≫= read_text;
  amount ← read_member raw "amount";
  denom ← read_member amount "denom" ≫= read_text;
  n ← read_member amount "amount" ≫= read_text;
  Some {| bs_From := from; bs_To := to; bs_Amount := {| wc_Denom := denom; wc_Amount := n |} |}.

(** A contract tells the two messages apart by the only member of the object. *)
Definition read_sudo (text : string) : option BeforeSendSudoMsg :=
  match json_decode text with
  | Some (JObject [(key, raw)]) =>
      if decide (key = "track_before_send") then TrackBeforeSendSudoMsg <$> read_BeforeSendMsg raw
      else if decide (key = "block_before_send") then BlockBeforeSendSudoMsg <$> read_BeforeSendMsg raw
      else None
  | _ => None
  end.

(** The addresses, the denom and the amount are valid UTF-8. *)
Definition msg_utf8 (m : BeforeSendMsg) : Prop :=
  utf8 (bs_From m) ∧ utf8 (bs_To m) ∧ utf8 (wc_Denom (bs_Amount m)) ∧ utf8 (wc_Amount (bs_Amount m)).

Definition sudo_msg (m : BeforeSendSudoMsg) : BeforeSendMsg :=
  match m with TrackBeforeSendSudoMsg m | BlockBeforeSendSudoMsg m => m end.

(** A constant of ASCII is valid. *)
Ltac utf8_const := repeat (apply utf8_ascii; [done|]); apply utf8_nil.

Lemma coin_json_utf8 m :
  msg_utf8 m → jval_utf8 (JStruct [("denom", JString (wc_Denom (bs_Amount m)));
                                   ("amount", JString (wc_Amount (bs_Amount m)))]).
Proof.
  intros (_ & _ & Hd & Ha). constructor. repeat constructor; cbn [fst snd]; try done; utf8_const.
Qed.

Lemma msg_json_utf8 m : msg_utf8 m → jval_utf8 (BeforeSendMsg_json m).
Proof.
  intros Hm. pose proof (coin_json_utf8 m Hm) as Hc. destruct Hm as (Hf & Ht & _).
  constructor. repeat (constructor; [split; cbn [fst snd]; [utf8_const|first [exact Hc|by constructor]]|]).
  constructor.
Qed.

Lemma read_text_string s : utf8 s → read_text (json_marshal (JString s)) = Some s.
Proof. intros Hs. unfold read_text. by rw decode_string. Qed.

(** The member of a struct under one of the names of its fields. *)
Lemma read_member_struct l key v :
  jval_utf8 (JStruct l) → jdepth (JStruct l) <= max_nesting_depth →
  members_map ((λ f, (f.1, json_marshal f.2)) <$> l) !! key = Some (json_marshal v) →
  read_member (json_marshal (JStruct l)) key = Some (json_marshal v).
Proof. intros Hl Hd Hk. unfold read_member. by rw decode_struct. Qed.

Ltac read_field k v :=
  rw (read_member_struct _ k v);
    [|done|done|cbn [fmap list_fmap members_map foldl fst snd]; by simplify_map_eq];
  cbn [mbind option_bind]; rw ?read_text_string //; cbn [mbind option_bind].

Lemma read_json_msg m :
  msg_utf8 m → read_BeforeSendMsg (json_marshal (BeforeSendMsg_json m)) = Some m.
Proof.
  intros Hm. pose proof (coin_json_utf8 m Hm) as Hc. pose proof (msg_json_utf8 m Hm) as Hj.
  destruct Hm as (Hf & Ht & Hd & Ha). unfold read_BeforeSendMsg, BeforeSendMsg_json in *.
  read_field "from" (JString (bs_From m)). read_field "to" (JString (bs_To m)).
  read_field "amount" (JStruct [("denom", JString (wc_Denom (bs_Amount m)));
                                ("amount", JString (wc_Amount (bs_Amount m)))]).
  read_field "denom" (JString (wc_Denom (bs_Amount m))).
  read_field "amount" (JString (wc_Amount (bs_Amount m))). by destruct m as [f t []].
Qed.

(** A hook contract reads in the text it is called with exactly the message the token
    factory made: which of the two it is, the two addresses, the denom and the amount, for
    any strings of valid UTF-8, quotes, backslashes and control characters included. *)
Theorem sudo_roundtrip m : msg_utf8 (sudo_msg m) → read_sudo (marshal_sudo m) = Some m.
Proof.
  intros Hm. pose proof (msg_json_utf8 _ Hm) as Hj. unfold read_sudo, marshal_sudo.
  destruct m as [m|m]; cbn [sudo_msg] in *.
  - rw decode_struct; [cbn [fmap list_fmap fst snd]| |done].
    + case_decide; [|done]. by rw read_json_msg.
    + constructor. constructor; [|constructor]. split; [cbn; utf8_const|done].
  - rw decode_struct; [cbn [fmap list_fmap fst snd]| |done].
    + case_decide; [done|]. case_decide; [|done]. by rw read_json_msg.
    + constructor. constructor; [|constructor]. split; [cbn; utf8_const|done].
Qed.
