(* ===== verification/JsonAny.v ===== *)
(** The part of encoding/json that works without a type: json.Unmarshal into a
    map[string]any and json.Marshal of such a map, with numbers as 64-bit floats, and the
    compaction of the texts of a json.RawMessage. *)
From S2P Require Import Prelude.
From S2P Require Import GoJson.
From S2P Require Import JsonScan.

#[local] Set Warnings "-register-all".

(** * Numbers *)

(** A float64 that is not infinite: a sign and [mant * 2 ^ expo]. *)
Record float64 := Float64 { f_neg : bool; f_mant : Z; f_expo : Z }.

#[export] Instance float64_eq_dec : EqDecision float64.
Proof. solve_decision. Defined.

(** The quotient rounded to the nearest integer, to an even one in the middle. *)
Definition round_even (num den : Z) : Z :=
  let q := num / den in
  let r := 2 * (num mod den) in
  if r <? den then q else if den <? r then q + 1 else if Z.even q then q else q + 1.

(** A positive number [num / den] as a mantissa below 2^53 and an exponent of at least
    -1074, rounded; [None] when it overflows. *)
Definition round_float (num den : Z) : option (Z * Z) :=
  let e0 := Z.log2 num - Z.log2 den - 52 in
  let scaled e := if 0 <=? e then (num, den * 2 ^ e) else (num * 2 ^ (- e), den) in
  let q0 := (scaled e0).1 / (scaled e0).2 in
  let e1 := if 2 ^ 53 <=? q0 then e0 + 1 else if q0 <? 2 ^ 52 then e0 - 1 else e0 in
  let e2 := Z.max e1 (-1074) in
  let m := round_even (scaled e2).1 (scaled e2).2 in
  let '(m, e) := if m =? 2 ^ 53 then (2 ^ 52, e2 + 1) else (m, e2) in
  if 971 <? e then None else Some (m, e).

(** The digits of a number of digits. *)
Fixpoint count_digits (fuel : nat) (z : Z) : Z :=
  match fuel with
  | O => 0
  | S fuel => if z <? 10 then 1 else 1 + count_digits fuel (z / 10)
  end.

Definition num_digits (z : Z) : Z := count_digits (S (Z.to_nat (Z.log2 z))) z.

(** The mantissa and exponent of [d * 10 ^ e]. A number with more than 310 digits before
    the point overflows, and one with 330 zeros behind it is zero. *)
Definition decimal_float (d e : Z) : option (Z * Z) :=
  if d =? 0 then Some (0, 0)
  else if 310 <? num_digits d + e then None
  else if num_digits d + e <? -330 then Some (0, 0)
  else if 0 <=? e then round_float (d * 10 ^ e) 1 else round_float d (10 ^ (- e)).

(** The number a text of digits starts with, how many digits it has, and the rest. *)
Fixpoint read_digits (s : string) (acc n : Z) : Z * Z * string :=
  match s with
  | String a r => if is_digit a then read_digits r (10 * acc + (byte_Z a - 48)) (n + 1) else (acc, n, s)
  | EmptyString => (acc, n, "")
  end.

(** The exponent of a number, after [e] or [E]. *)
Definition read_exponent (s : string) : Z :=
  match s with
  | String a r =>
      if (byte_Z a =? 101) || (byte_Z a =? 69) then
        match r with
        | String b r1 =>
            if byte_Z b =? 45 then - (read_digits r1 0 0).1.1
            else if byte_Z b =? 43 then (read_digits r1 0 0).1.1
            else (read_digits r 0 0).1.1
        | EmptyString => 0
        end
      else 0
  | EmptyString => 0
  end.

(** strconv.ParseFloat on a number of JSON; [None] is the error of a number out of range. *)
Definition ParseFloat (s : string) : option float64 :=
  let neg := match s with String a _ => byte_Z a =? 45 | EmptyString => false end in
  let s1 := if neg then drop_bytes 1 s else s in
  let '(int, _, s2) := read_digits s1 0 0 in
  let '(mant, frac, s3) :=
    match s2 with
    | String a r => if byte_Z a =? 46 then read_digits r int 0 else (int, 0, s2)
    | EmptyString => (int, 0, s2)
    end in
  '(m, e) ← decimal_float mant (read_exponent s3 - frac);
  Some (Float64 neg m e).

(** ** Writing *)

(** The digits of a number that is not negative, with fuel for every digit. *)
Fixpoint digits_go (fuel : nat) (z : Z) : string :=
  match fuel with
  | O => ""
  | S fuel =>
      (if z <? 10 then "" else digits_go fuel (z / 10)) +:+ String (chr (48 + z mod 10)) ""
  end.

Definition digits (z : Z) : string := digits_go (S (Z.to_nat (Z.log2 z))) z.

Fixpoint zeros (n : nat) : string := match n with O => "" | S n => String "0" (zeros n) end.

(** The position of the point: [10 ^ (p - 1) <= num / den < 10 ^ p]. *)
Definition point_position (num den : Z) : Z :=
  let below p := if 0 <=? p then num <? den * 10 ^ p else num * 10 ^ (- p) <? den in
  let p0 := (Z.log2 num - Z.log2 den) * 30103 / 100000 in
  if below (p0 - 1) then p0 - 1 else if below p0 then p0 else if below (p0 + 1) then p0 + 1 else p0 + 2.

(** Zeros at the end of the digits go into the exponent. *)
Fixpoint strip_zeros (fuel : nat) (d e : Z) : Z * Z :=
  match fuel with
  | O => (d, e)
  | S fuel => if d mod 10 =? 0 then strip_zeros fuel (d / 10) (e + 1) else (d, e)
  end.

(** The decimals of [n] digits next to the number, of those that are read back as it the
    nearest, or the even one in the middle. *)
Definition try_digits (m e num den p n : Z) : option (Z * Z) :=
  let s := n - p in
  let '(num, den) := if 0 <=? s then (num * 10 ^ s, den) else (num, den * 10 ^ (- s)) in
  let lo := num / den in
  let r := 2 * (num mod den) in
  let ok d := bool_decide (decimal_float d (- s) = Some (m, e)) in
  let up := (den <? r) || ((den =? r) && negb (Z.even lo)) in
  if ok lo && negb (ok (lo + 1) && up) then Some (lo, - s)
  else if ok (lo + 1) then Some (lo + 1, - s) else None.

(** The shortest decimal that is read back as the number; 17 digits are always enough. *)
Fixpoint shortest_go (fuel : nat) (m e num den p n : Z) : Z * Z :=
  match fuel with
  | O => (num, 0)
  | S fuel =>
      match try_digits m e num den p n with
      | Some de => de
      | None => shortest_go fuel m e num den p (n + 1)
      end
  end.

Definition shortest (m e : Z) : Z * Z :=
  let '(num, den) := if 0 <=? e then (m * 2 ^ e, 1) else (m, 2 ^ (- e)) in
  let '(d, x) := shortest_go 17 m e num den (point_position num den) 1 in
  strip_zeros 20 d x.

(** [d * 10 ^ e] without an exponent, and with one. *)
Definition format_f (d e : Z) : string :=
  let s := digits d in
  if 0 <=? e then s +:+ zeros (Z.to_nat e)
  else
    let n := String.length s in
    let f := Z.to_nat (- e) in
    if (f <? n)%nat then take_bytes (n - f) s +:+ "." +:+ drop_bytes (n - f) s
    else "0." +:+ zeros (f - n) +:+ s.

(** Two digits of the exponent at least; the clean-up of the encoder drops a leading zero. *)
Definition format_e (d e : Z) : string :=
  let s := digits d in
  let x := e + Z.of_nat (String.length s) - 1 in
  take_bytes 1 s +:+ (if (1 <? String.length s)%nat then "." +:+ drop_bytes 1 s else "") +:+
  "e" +:+ (if x <? 0 then "-" else "+") +:+ digits (Z.abs x).

(** abs < 1e-6 and the like, where the constant is a float64 too. *)
Definition below_decimal (f : float64) (d e : Z) : bool :=
  match decimal_float d e with
  | Some (m, x) =>
      let k := Z.min x (f_expo f) in f_mant f * 2 ^ (f_expo f - k) <? m * 2 ^ (x - k)
  | None => true
  end.

(** floatEncoder: an exponent below 1e-6 and from 1e21 on. *)
Definition json_float (f : float64) : string :=
  (if f_neg f then "-" else "") +:+
  (if f_mant f =? 0 then "0"
   else
     let '(d, e) := shortest (f_mant f) (f_expo f) in
     if below_decimal f 1 (-6) || negb (below_decimal f 1 21) then format_e d e else format_f d e).

(** * Values *)

(** What an [any] holds after json.Unmarshal. A map is the list of its entries in the order
    of the keys. *)
Inductive jany :=
| ANull
| ABool (b : bool)
| AFloat (f : float64)
| AText (s : string)
| AArray (l : list jany)
| AObject (l : list (string * jany))
| ARaw (s : string).

(** strings.Compare *)
Fixpoint string_lt (s t : string) : bool :=
  match s, t with
  | _, EmptyString => false
  | EmptyString, String _ _ => true
  | String a s, String b t => (byte_Z a <? byte_Z b) || ((byte_Z a =? byte_Z b) && string_lt s t)
  end.

(** m[k] = v, delete(m, k) and m[k] on the entries in order. *)
Fixpoint entry_set {A} (k : string) (v : A) (l : list (string * A)) : list (string * A) :=
  match l with
  | [] => [(k, v)]
  | (j, w) :: l =>
      if decide (j = k) then (k, v) :: l
      else if string_lt k j then (k, v) :: (j, w) :: l
      else (j, w) :: entry_set k v l
  end.

Definition entry_delete {A} (k : string) (l : list (string * A)) : list (string * A) :=
  filter (λ e, e.1 ≠ k) l.

(** The entries of an object as its members are read: the last of a key wins. *)
Definition entries {A} (members : list (string * A)) : list (string * A) :=
  foldl (λ m e, entry_set e.1 e.2 m) [] members.

(** ** Reading *)

(** The text of a literal that is not a string. *)
Definition literal (a : ascii) (text : string) : jany :=
  let b := byte_Z a in
  if b =? 116 then ABool true
  else if b =? 102 then ABool false
  else if b =? 110 then ANull
  else match ParseFloat text with Some f => AFloat f | None => ANull end.

(** The decoder goes over the text as the scanner does. The values of elements come with
    an empty key. *)
Fixpoint parse (fuel : nat) (k : scan_kind) (depth : Z) (s : string) :
    option (list (string * jany) * string) :=
  match fuel with
  | O => None
  | S fuel =>
      match k with
      | KValue =>
          match s with
          | EmptyString => None
          | String a r =>
              let b := byte_Z a in
              if b =? 123 then
                if max_nesting_depth <? depth + 1 then None
                else match skip_ws r with
                     | EmptyString => None
                     | String c r1 =>
                         if byte_Z c =? 125 then Some ([("", AObject [])], r1)
                         else '(l, r2) ← parse fuel KMembers (depth + 1) (String c r1);
                              Some ([("", AObject (entries l))], r2)
                     end
              else if b =? 91 then
                if max_nesting_depth <? depth + 1 then None
                else match skip_ws r with
                     | EmptyString => None
                     | String c r1 =>
                         if byte_Z c =? 93 then Some ([("", AArray [])], r1)
                         else '(l, r2) ← parse fuel KElements (depth + 1) (String c r1);
                              Some ([("", AArray (snd <$> l))], r2)
                     end
              else if b =? 34 then
                r1 ← scan_string r; Some ([("", AText (unquote_go (String.length r) r))], r1)
              else
                r1 ← (if b =? 116 then scan_word "true" s
                      else if b =? 102 then scan_word "false" s
                      else if b =? 110 then scan_word "null" s
                      else scan_number s);
                Some ([("", literal a (text_before s r1))], r1)
          end
      | KMembers =>
          match s with
          | EmptyString => None
          | String a r =>
              if is_quote a then
                r1 ← scan_string r;
                match skip_ws r1 with
                | EmptyString => None
                | String c r2 =>
                    if byte_Z c =? 58 then
                      '(v, r3) ← parse fuel KValue depth (skip_ws r2);
                      let m := (λ e, (unquote_go (String.length r) r, e.2)) <$> v in
                      match skip_ws r3 with
                      | EmptyString => None
                      | String d r4 =>
                          if byte_Z d =? 44 then
                            '(l, r5) ← parse fuel KMembers depth (skip_ws r4); Some (m ++ l, r5)
                          else if byte_Z d =? 125 then Some (m, r4) else None
                      end
                    else None
                end
              else None
          end
      | KElements =>
          '(v, r1) ← parse fuel KValue depth s;
          match skip_ws r1 with
          | EmptyString => None
          | String d r2 =>
              if byte_Z d =? 44 then
                '(l, r3) ← parse fuel KElements depth (skip_ws r2); Some (v ++ l, r3)
              else if byte_Z d =? 93 then Some (v, r2) else None
          end
      end
  end.

(** json.Unmarshal into a nil map[string]any, its error ignored: an object fills the map,
    any other text leaves it nil. *)
Definition unmarshal_any_map (s : string) : list (string * jany) :=
  if json_valid s then
    match parse (scan_fuel (skip_ws s)) KValue 0 (skip_ws s) with
    | Some ([(_, AObject l)], _) => l
    | _ => []
    end
  else [].

(** ** Writing *)

(** appendCompact with escaping, as it is used on a json.RawMessage: white space outside
    strings is dropped, and the bytes that HTML gives a meaning are escaped everywhere. *)
Fixpoint compact_go (inside escaped : bool) (s : string) : string :=
  match s with
  | EmptyString => ""
  | String a r =>
      let b := byte_Z a in
      if negb inside && is_ws a then compact_go inside escaped r
      else
        let inside' := if inside then escaped || negb (b =? 34) else b =? 34 in
        let escaped' := inside && negb escaped && (b =? 92) in
        if (b =? 60) || (b =? 62) || (b =? 38) then json_escape_ascii a +:+ compact_go inside' escaped' r
        else
          match r with
          | String a1 (String a2 r2) =>
              match is_line_sep a r with
              | Some esc => esc +:+ compact_go inside' false r2
              | None => String a (compact_go inside' escaped' r)
              end
          | _ => String a (compact_go inside' escaped' r)
          end
  end.

Definition compact (s : string) : string := compact_go false false s.

(** json.Marshal of a value. *)
Fixpoint marshal_any (v : jany) : string :=
  match v with
  | ANull => "null"
  | ABool true => "true"
  | ABool false => "false"
  | AFloat f => json_float f
  | AText s => json_string s
  | AArray l => array_text (map marshal_any l)
  | AObject l => object_text (map (λ e, (e.1, marshal_any e.2)) l)
  | ARaw s => compact s
  end.

(** * Tests *)

Definition reformat (s : string) : option string := json_float <$> ParseFloat s.

Example reformat_tests :
  reformat <$> ["0"; "-0"; "1"; "10"; "-2.50"; "0.1"; "1e21"; "1e-7"; "123456789012345678901234567890"; "1e400"; "1e-400";
                "9007199254740993"; "0.000001"; "1E+2"; "0.30000000000000004"; "100000000000000000000"]
  = [Some "0"; Some "-0"; Some "1"; Some "10"; Some "-2.5"; Some "0.1"; Some "1e+21"; Some "1e-7"; Some "1.2345678901234568e+29"; None; Some "0";
     Some "9007199254740992"; Some "0.000001"; Some "100"; Some "0.30000000000000004"; Some "100000000000000000000"].
Proof. by vm_compute. Qed.

Example memo_test :
  marshal_any (AObject (unmarshal_any_map (with_quotes "{'b':[1.0,null,'<'], 'a' : {'z':1, 'z':2, 'y':1e400}}"))) =
  with_quotes "{'a':{'y':null,'z':2},'b':[1,null,'\u003c']}".
Proof. by vm_compute. Qed.

Example compact_test : compact (with_quotes "{ 'a b' : [1, '\' <'] }") = with_quotes "{'a b':[1,'\' \u003c']}".
Proof. by vm_compute. Qed.
