(* ===== verification/JsonMemo.v ===== *)
(** What json.Unmarshal into a map[string]any and json.Marshal of it make of a text: the
    result is a valid text again, an object with the same keys. *)
From S2P Require Import Prelude.
From S2P Require Import GoJson.
From S2P Require Import JsonScan.
From S2P Require Import JsonRoundtrip.
From S2P Require Import JsonAny.
From Stdlib Require Import Sorted.

#[local] Set Warnings "-register-all".

(** * Numbers *)

Fixpoint all_digits (s : string) : Prop :=
  match s with EmptyString => True | String a r => is_digit a = true ∧ all_digits r end.

(** Digits without a leading zero. *)
Definition natural (s : string) : Prop :=
  all_digits s ∧ ∃ a r, s = String a r ∧ byte_Z a ≠ 48.

Definition no_digit (t : string) : Prop := match t with String a _ => is_digit a = false | _ => True end.

Lemma all_digits_app s t : all_digits s → all_digits t → all_digits (s +:+ t).
Proof. induction s as [|a s IH]; [done|]. intros [Ha Hs] Ht. rw app_cons_s. split; auto. Qed.

Lemma all_digits_zeros n : all_digits (zeros n).
Proof. induction n; [done|]. by split. Qed.

Lemma all_digits_take n s : all_digits s → all_digits (take_bytes n s).
Proof. revert s. induction n as [|n IH]; intros [|a s]; cbn; try done. intros [Ha Hs]. auto. Qed.

Lemma all_digits_drop n s : all_digits s → all_digits (drop_bytes n s).
Proof. revert s. induction n as [|n IH]; intros [|a s]; cbn; try done. intros [Ha Hs]. auto. Qed.

Lemma skip_digits_app s t : all_digits s → no_digit t → skip_digits (s +:+ t) = t.
Proof.
  intros Hs Ht. induction s as [|a s IH]; [rw app_empty_s; destruct t as [|b t]; [done|]; cbn in *; by rw Ht|].
  destruct Hs as [Ha Hs]. rw app_cons_s. cbn. rw Ha. auto.
Qed.

Lemma digit_chr z : 0 <= z < 10 → is_digit (chr (48 + z)) = true.
Proof.
  intros Hz. unfold is_digit, in_range. rw byte_chr; [|lia]. apply andb_true_iff. split; apply Z.leb_le; lia.
Qed.

Lemma digits_go_natural fuel z : 0 < z → z < 2 ^ Z.of_nat fuel → natural (digits_go fuel z).
Proof.
  revert z. induction fuel as [|fuel IH]; intros z Hz Hf; [cbn in Hf; lia|]. cbn [digits_go].
  pose proof (Z.mod_pos_bound z 10). destruct (Z.ltb_spec z 10).
  - rw app_empty_s Z.mod_small; [|lia]. split; [split; [apply digit_chr; lia|done]|].
    exists (chr (48 + z)), "". rw byte_chr; [|lia]. split; [done|lia].
  - assert (0 < z / 10) by (apply Z.div_str_pos; lia).
    destruct (IH (z / 10)) as (Hd & a & r & Hs & Ha); [done| |].
    { apply Z.div_lt_upper_bound; [lia|]. replace (Z.of_nat (S fuel)) with (Z.of_nat fuel + 1) in Hf by lia.
      rw Z.pow_add_r in Hf; [|lia..]. lia. }
    split; [apply all_digits_app; [done|split; [apply digit_chr; lia|done]]|].
    rw Hs app_cons_s. eauto.
Qed.

Lemma digits_natural z : 0 < z → natural (digits z).
Proof.
  intros Hz. apply digits_go_natural; [done|]. pose proof (Z.log2_spec z Hz). pose proof (Z.log2_nonneg z).
  replace (Z.of_nat (S (Z.to_nat (Z.log2 z)))) with (Z.succ (Z.log2 z)) by lia. lia.
Qed.

Lemma digits_all z : 0 <= z → all_digits (digits z) ∧ digits z ≠ "".
Proof.
  intros Hz. destruct (Z.eq_dec z 0) as [->|]; [done|]. destruct (digits_natural z) as (H & a & r & E & _); [lia|]. split; [done|]. by rw E.
Qed.

(** ** Scanning them *)

Lemma delimited_no_digit t : delimited t = true → no_digit t.
Proof.
  destruct t as [|a t]; [done|]. cbn. unfold is_digit, in_range. intros H.
  repeat (apply orb_true_iff in H as [H|H]); apply Z.eqb_eq in H; rw H; done.
Qed.

Lemma scan_int_natural s t : natural s → no_digit t → scan_int (s +:+ t) = Some t.
Proof.
  intros (Hs & a & r & -> & Ha) Ht. rw app_cons_s. cbn. rw (proj2 (Z.eqb_neq _ _) Ha).
  destruct Hs as [-> Hr]. by rw skip_digits_app.
Qed.

Lemma scan_digits1_app s t : all_digits s → s ≠ "" → no_digit t → scan_digits1 (s +:+ t) = Some t.
Proof.
  intros Hs Hne Ht. destruct s as [|a s]; [done|]. destruct Hs as [Ha Hs]. rw app_cons_s. cbn. rw Ha. by rw skip_digits_app.
Qed.

(** A fraction and an exponent are read to their ends. *)
Lemma scan_frac_delimited t : delimited t = true → scan_frac t = Some t ∧ scan_exp t = Some t.
Proof.
  destruct t as [|a t]; [done|]. cbn. intros H.
  repeat (apply orb_true_iff in H as [H|H]); apply Z.eqb_eq in H; rw H; done.
Qed.

(** A number without its sign. *)
Definition scans_unsigned (s : string) : Prop :=
  (∃ a r, s = String a r ∧ is_digit a = true) ∧
  ∀ t, delimited t = true →
    (r1 ← scan_int (s +:+ t); r2 ← scan_frac r1; scan_exp r2) = Some t.

Lemma scans_natural s : natural s → scans_unsigned s.
Proof.
  intros Hs. split; [destruct Hs as (Hd & a & r & -> & _); exists a, r; by destruct Hd|].
  intros t Ht. rw scan_int_natural //; [|by apply delimited_no_digit]. cbn [mbind option_bind].
  destruct (scan_frac_delimited t Ht) as [-> H]. exact H.
Qed.

(** An integer part and a fraction. *)
Lemma scans_fraction i f :
  (i = "0" ∨ natural i) → all_digits f → f ≠ "" → scans_unsigned (i +:+ "." +:+ f).
Proof.
  intros Hi Hf Hne. split.
  { destruct Hi as [->|(Hd & a & r & -> & _)]; [by exists "0"%char, ("." +:+ f)|].
    exists a, (r +:+ "." +:+ f). destruct Hd as [Hd _]. by rw app_cons_s. }
  intros t Ht. rw !app_assoc_s.
  assert (scan_int (i +:+ "." +:+ f +:+ t) = Some ("." +:+ f +:+ t)) as ->.
  { destruct Hi as [->|Hi]; [done|]. by apply scan_int_natural. }
  cbn [mbind option_bind]. rw app_cons_s app_empty_s. cbn [scan_frac]. change (byte_Z "." =? 46) with true. cbv iota.
  rw scan_digits1_app //; [|by apply delimited_no_digit]. cbn [mbind option_bind].
  by destruct (scan_frac_delimited t Ht) as [_ ->].
Qed.

Lemma take_bytes_natural n s : natural s → (0 < n)%nat → natural (take_bytes n s).
Proof.
  intros (Hs & a & r & -> & Ha) Hn. split; [by apply all_digits_take|]. destruct n; [lia|]. cbn. eauto.
Qed.

Lemma format_f_scans d e : 0 < d → scans_unsigned (format_f d e).
Proof.
  intros Hd. pose proof (digits_natural d Hd) as Hn. unfold format_f. destruct (Z.leb_spec 0 e).
  - apply scans_natural. destruct Hn as (Hs & a & r & E & Ha).
    split; [apply all_digits_app; [done|apply all_digits_zeros]|]. rw E app_cons_s. eauto.
  - destruct (Nat.ltb_spec (Z.to_nat (- e)) (String.length (digits d))) as [Hf|Hf].
    + apply scans_fraction; [right; apply take_bytes_natural; [done|lia]|apply all_digits_drop; apply Hn|].
      intros E. apply (f_equal String.length) in E. rw drop_bytes_length in E. cbn [String.length] in E. lia.
    + apply (scans_fraction "0"); [by left|apply all_digits_app; [apply all_digits_zeros|apply Hn]|].
      destruct Hn as (_ & a & r & -> & _). intros E. apply (f_equal String.length) in E.
      rw length_app_s in E. cbn [String.length] in E. lia.
Qed.

(** What follows a mantissa with an exponent. *)
Lemma scan_exp_app (neg : bool) x t :
  0 <= x → delimited t = true →
  scan_exp ("e" +:+ (if neg then "-" else "+") +:+ digits x +:+ t) = Some t.
Proof.
  intros Hx Ht. destruct (digits_all x Hx) as [Hd Hne]. apply delimited_no_digit in Ht.
  destruct neg; rw !app_cons_s !app_empty_s; cbn [scan_exp]; by apply scan_digits1_app.
Qed.

Lemma format_e_scans d e : 0 < d → scans_unsigned (format_e d e).
Proof.
  intros Hd. pose proof (digits_natural d Hd) as Hn. unfold format_e.
  set (x := e + _ - 1). set (s := digits d) in *. pose proof Hn as (Hs & a & r & E & Ha).
  assert (natural (take_bytes 1 s)) as H1 by (apply take_bytes_natural; [done|lia]).
  split.
  { rw E in Hs. destruct Hs as [Hs _]. rw E. cbn [take_bytes]. rw app_cons_s. eauto. }
  intros t Ht. pose proof (scan_exp_app (x <? 0) (Z.abs x) t ltac:(lia) Ht) as He.
  generalize dependent (digits (Z.abs x)). intros dx He. rw !app_assoc_s. set (ex := "e" +:+ _) in *.
  assert (scan_frac ex = Some ex) as Hfr by by subst ex.
  destruct (1 <? String.length s)%nat eqn:Hl.
  - rw scan_int_natural //. cbn [mbind option_bind]. rw app_assoc_s app_cons_s app_empty_s. cbn [scan_frac].
    change (byte_Z "." =? 46) with true. cbv iota. rw scan_digits1_app; [done|by apply all_digits_drop| |done].
    apply Nat.ltb_lt in Hl. intros E1. apply (f_equal String.length) in E1. rw drop_bytes_length in E1. cbn [String.length] in E1. lia.
  - by rw app_empty_s scan_int_natural //.
Qed.

(** ** Floats *)

Lemma try_digits_positive m e num den p n d x :
  0 < m → 0 < den → 0 < num → try_digits m e num den p n = Some (d, x) → 0 < d.
Proof.
  intros Hm Hden Hnum. unfold try_digits. destruct (_ : Z * Z) as [nu de] eqn:E.
  assert (0 < nu ∧ 0 < de) as [Hnu Hde].
  { assert (∀ k, 0 <= k → 0 < 10 ^ k) as Hp by (intros k Hk; apply Z.pow_pos_nonneg; lia).
    destruct (Z.leb_spec 0 (n - p)); injection E as <- <-; pose proof (Hp (n - p)); pose proof (Hp (- (n - p))); nia. }
  pose proof (Z.div_pos nu de). destruct (bool_decide (decimal_float (nu / de) _ = _) && _) eqn:H0.
  - intros [= <- <-]. apply andb_true_iff in H0 as [H0%bool_decide_eq_true _].
    destruct (Z.eq_dec (nu / de) 0) as [E0|]; [|lia]. rw E0 in H0. cbv in H0. injection H0 as <- <-. lia.
  - clear H0. destruct (bool_decide _); [|done]. intros [= <- <-]. lia.
Qed.

Lemma shortest_go_positive fuel m e num den p n d x :
  0 < m → 0 < den → 0 < num → shortest_go fuel m e num den p n = (d, x) → 0 < d.
Proof.
  intros Hm Hden Hnum. revert n. induction fuel as [|fuel IH]; intros n; cbn [shortest_go]; [by intros [= <- <-]|].
  destruct (try_digits m e num den p n) as [[d1 x1]|] eqn:E; [|apply IH]. intros [= <- <-].
  exact (try_digits_positive _ _ _ _ _ _ _ _ Hm Hden Hnum E).
Qed.

Lemma strip_zeros_positive fuel d e d' e' : 0 < d → strip_zeros fuel d e = (d', e') → 0 < d'.
Proof.
  revert d e. induction fuel as [|fuel IH]; intros d e Hd; cbn [strip_zeros]; [by intros [= <- <-]|].
  destruct (Z.eqb_spec (d mod 10) 0) as [E|]; [|by intros [= <- <-]]. apply IH.
  Z.div_mod_to_equations. lia.
Qed.

Lemma shortest_positive m e d x : 0 < m → shortest m e = (d, x) → 0 < d.
Proof.
  intros Hm. unfold shortest. destruct (if 0 <=? e then (m * 2 ^ e, 1) else (m, 2 ^ (- e))) as [num den] eqn:E.
  assert (0 < num ∧ 0 < den) as [Hnum Hden].
  { assert (∀ k, 0 <= k → 0 < 2 ^ k) as Hp by (intros k Hk; apply Z.pow_pos_nonneg; lia).
    destruct (Z.leb_spec 0 e); injection E as <- <-; pose proof (Hp e); pose proof (Hp (- e)); nia. }
  destruct (shortest_go _ _ _ _ _ _ _) as [d1 x1] eqn:E1. apply shortest_go_positive in E1; [|done..].
  by apply strip_zeros_positive.
Qed.

(** A float whose mantissa is not negative is written as a number. *)
Lemma json_float_scans f d : 0 <= f_mant f → scans d (json_float f).
Proof.
  intros Hf. unfold json_float. set (u := if f_mant f =? 0 then _ else _).
  assert (scans_unsigned u) as [Hu Hs].
  { subst u. destruct (Z.eqb_spec (f_mant f) 0); [split; [by exists "0"%char, ""|]|].
    - intros t Ht. rw app_cons_s app_empty_s. cbn [scan_int mbind option_bind]. change (byte_Z "0" =? 48) with true. cbv iota.
      cbn [mbind option_bind]. destruct (scan_frac_delimited t Ht) as [-> H]. exact H.
    - destruct (shortest (f_mant f) (f_expo f)) as [dg e] eqn:E. apply shortest_positive in E; [|lia].
      destruct (_ || _); [by apply format_e_scans|by apply format_f_scans]. }
  clearbody u. destruct Hu as (a & r & -> & Ha).
  assert (48 <= byte_Z a <= 57) as Hb.
  { unfold is_digit, in_range in Ha. apply andb_true_iff in Ha as [H1%Z.leb_le H2%Z.leb_le]. lia. }
  assert (∀ b t, (b = 45 ∨ 48 <= b <= 57) → ∀ c, byte_Z c = b →
    ∀ fuel, scan (S fuel) KValue d (String c t) = scan_number (String c t)) as Hnum.
  { intros b t Hbb c Hc fuel. cbn [scan]. rw Hc.
    repeat (rw (proj2 (Z.eqb_neq b _)); [|lia]). done. }
  assert (∀ c, byte_Z c = 45 ∨ 48 <= byte_Z c <= 57 → is_ws c = false ∧ byte_Z c ≠ 93) as Hst.
  { intros c Hc. unfold is_ws. split; [|lia]. repeat (rw (proj2 (Z.eqb_neq (byte_Z c) _)); [|lia]). done. }
  assert (∀ t, scan_number (String a r +:+ t) = (r1 ← scan_int (String a r +:+ t); r2 ← scan_frac r1; scan_exp r2)) as Hsn.
  { intros t. unfold scan_number. rw app_cons_s. rw (proj2 (Z.eqb_neq (byte_Z a) 45)) //. lia. }
  destruct (f_neg f).
  - split; [exists "-"%char, (String a r); split; [done|]; apply Hst; by left|]. intros t Ht. exists 1%nat.
    intros [|fuel] Hfu; [lia|]. rw app_cons_s app_empty_s (Hnum 45); [|by left|done].
    unfold scan_number. change (byte_Z "-" =? 45) with true. cbv iota. by apply Hs.
  - rw app_empty_s. split; [exists a, r; split; [done|]; apply Hst; by right|]. intros t Ht. exists 1%nat.
    intros [|fuel] Hfu; [lia|]. rw app_cons_s (Hnum (byte_Z a)); [|by right|done]. rw -app_cons_s Hsn. by apply Hs.
Qed.

Lemma round_even_nonneg num den : 0 <= num → 0 < den → 0 <= round_even num den.
Proof. intros. unfold round_even. pose proof (Z.div_pos num den). repeat case_match; lia. Qed.

Lemma round_float_nonneg num den m e : 0 <= num → 0 < den → round_float num den = Some (m, e) → 0 <= m.
Proof.
  intros Hn Hd. unfold round_float. set (e0 := Z.log2 num - _ - 52).
  set (q0 := _ / _). set (e1 := if 2 ^ 53 <=? q0 then _ else _). set (e2 := Z.max e1 (-1074)).
  assert (0 <= round_even (if 0 <=? e2 then (num, den * 2 ^ e2) else (num * 2 ^ (- e2), den)).1
            (if 0 <=? e2 then (num, den * 2 ^ e2) else (num * 2 ^ (- e2), den)).2) as H.
  { assert (∀ k, 0 <= k → 0 < 2 ^ k) as Hp by (intros k Hk; apply Z.pow_pos_nonneg; lia).
    destruct (Z.leb_spec 0 e2); cbn [fst snd]; apply round_even_nonneg; pose proof (Hp e2); pose proof (Hp (- e2)); nia. }
  clearbody e2. revert H. set (k := round_even _ _). intros Hk. clearbody k.
  destruct (k =? 2 ^ 53); (destruct (971 <? _); [done|]); intros [= <- <-]; lia.
Qed.

Lemma read_digits_nonneg s acc n : 0 <= acc → 0 <= (read_digits s acc n).1.1.
Proof.
  revert acc n. induction s as [|a s IH]; intros acc n H; cbn; [done|]. destruct (is_digit a) eqn:Ha; [|done].
  apply IH. unfold is_digit, in_range in Ha. apply andb_true_iff in Ha as [H1%Z.leb_le _]. lia.
Qed.

Lemma ParseFloat_nonneg s f : ParseFloat s = Some f → 0 <= f_mant f.
Proof.
  unfold ParseFloat. set (s1 := if _ : bool then _ else s). pose proof (read_digits_nonneg s1 0 0 ltac:(lia)) as Hi.
  destruct (read_digits s1 0 0) as [[int n1] s2]. cbn in Hi.
  assert (∃ mant frac s3, 0 <= mant ∧ (match s2 with
    | "" => (int, 0, s2)
    | String a r => if byte_Z a =? 46 then read_digits r int 0 else (int, 0, s2)
    end) = (mant, frac, s3)) as (mant & frac & s3 & Hm & ->).
  { destruct s2 as [|a r]; [by exists int, 0, ""|]. destruct (byte_Z a =? 46); [|by exists int, 0, (String a r)].
    pose proof (read_digits_nonneg r int 0 Hi) as H. destruct (read_digits r int 0) as [[x y] z]. by exists x, y, z. }
  intros ([m e] & Hd & [= <-])%bind_Some. cbn [f_mant]. unfold decimal_float in Hd.
  destruct (mant =? 0); [by injection Hd as <- <-|]. destruct (310 <? _); [done|].
  destruct (_ <? -330); [by injection Hd as <- <-|]. set (k := read_exponent s3 - frac) in *.
  assert (∀ j, 0 <= j → 0 < 10 ^ j) as Hp by (intros j Hj; apply Z.pow_pos_nonneg; lia).
  destruct (Z.leb_spec 0 k); apply round_float_nonneg in Hd; try done; pose proof (Hp k); pose proof (Hp (- k)); nia.
Qed.

(** * String literals *)

Lemma in_range_chr lo hi z : 0 <= z < 256 → in_range lo hi (chr z) = (lo <=? z) && (z <=? hi).
Proof. intros Hz. unfold in_range. by rw byte_chr. Qed.

(** Evaluate comparisons that linear arithmetic decides. *)
Ltac decide_leb :=
  repeat match goal with
         | |- context [?a <=? ?b] =>
             first [rw (proj2 (Z.leb_le a b)); [|lia] | rw (proj2 (Z.leb_gt a b)); [|lia]]; cbn [andb]
         end.

(** The first byte tells how many follow; these are the three cases. *)
Lemma utf8_two b0 b1 s :
  194 <= b0 <= 223 → 128 <= b1 <= 191 → utf8 s → utf8 (String (chr b0) (String (chr b1) s)).
Proof.
  intros H0 H1 Hs. apply (utf8_multi _ _ 1); [rw byte_chr; lia| |done].
  cbn [utf8_tail]. unfold is_cont. rw !in_range_chr; [|lia..]. by decide_leb.
Qed.

Lemma utf8_three b0 b1 b2 s :
  224 <= b0 <= 239 → 128 <= b1 <= 191 → 128 <= b2 <= 191 → (b0 = 224 → 160 <= b1) → (b0 = 237 → b1 <= 159) →
  utf8 s → utf8 (String (chr b0) (String (chr b1) (String (chr b2) s))).
Proof.
  intros H0 H1 H2 H224 H237 Hs. apply (utf8_multi _ _ 2); [rw byte_chr; lia| |done].
  cbn [utf8_tail]. unfold second_of_3, is_cont. rw !in_range_chr; [|lia..].
  destruct (Z.eq_dec b0 224); [by decide_leb|]. destruct (Z.eq_dec b0 237); [subst; by decide_leb|].
  destruct (Z.ltb_spec b0 237); by decide_leb.
Qed.

Lemma utf8_four b0 b1 b2 b3 s :
  240 <= b0 <= 244 → 128 <= b1 <= 191 → 128 <= b2 <= 191 → 128 <= b3 <= 191 →
  (b0 = 240 → 144 <= b1) → (b0 = 244 → b1 <= 143) →
  utf8 s → utf8 (String (chr b0) (String (chr b1) (String (chr b2) (String (chr b3) s)))).
Proof.
  intros H0 H1 H2 H3 H240 H244 Hs. apply (utf8_multi _ _ 3); [rw byte_chr; lia| |done].
  cbn [utf8_tail]. unfold second_of_3, second_of_4, is_cont. rw !in_range_chr; [|lia..].
  destruct (Z.eq_dec b0 240); [subst; by decide_leb|]. destruct (Z.eq_dec b0 244); [subst; by decide_leb|].
  by decide_leb.
Qed.

(** The encoding of a code point that is not a surrogate is valid. *)
Lemma utf8_encode_app r s :
  0 <= r < 1114112 → is_surrogate r = false → utf8 s → utf8 (utf8_encode r +:+ s).
Proof.
  intros Hr Hsur Hs. unfold utf8_encode.
  assert (r < 55296 ∨ 57343 < r) as Hns.
  { unfold is_surrogate in Hsur. apply andb_false_iff in Hsur as [H%Z.leb_gt|H%Z.leb_gt]; lia. }
  destruct (Z.ltb_spec r 128); [|destruct (Z.ltb_spec r 2048); [|destruct (Z.ltb_spec r 65536)]];
    rw !app_cons_s app_empty_s.
  - apply utf8_ascii; [|done]. rw byte_chr; lia.
  - apply utf8_two; [..|done]; Z.div_mod_to_equations; lia.
  - apply utf8_three; [..|done]; Z.div_mod_to_equations; lia.
  - apply utf8_four; [..|done]; Z.div_mod_to_equations; lia.
Qed.

Lemma hex_val_bound a x : hex_val a = Some x → 0 <= x < 16.
Proof.
  unfold hex_val. intros H.
  repeat match goal with
         | H : (if ?b then _ else _) = Some _ |- _ => destruct b eqn:?
         | H : _ && _ = true |- _ => apply andb_true_iff in H as []
         | H : (_ <=? _) = true |- _ => apply Z.leb_le in H
         end; simplify_eq; lia.
Qed.

Lemma hex4_bound h1 h2 h3 h4 x : hex4 h1 h2 h3 h4 = Some x → 0 <= x < 65536.
Proof.
  unfold hex4. destruct (hex_val h1) eqn:H1, (hex_val h2) eqn:H2, (hex_val h3) eqn:H3, (hex_val h4) eqn:H4; try done.
  apply hex_val_bound in H1, H2, H3, H4. intros [= <-]. lia.
Qed.

(** Behind an escape of a code point the literal goes on. *)
Lemma scan_string_u b u h1 h2 h3 h4 s x :
  is_backslash b = true → (byte_Z u =? 117) = true → hex4 h1 h2 h3 h4 = Some x →
  scan_string (String b (String u (String h1 (String h2 (String h3 (String h4 s)))))) = scan_string s.
Proof.
  intros Hb Hu Hx. cbn [scan_string]. rw Hb Hu. unfold is_quote, is_backslash in *. apply Z.eqb_eq in Hb, Hu.
  rw Hb. unfold is_escape. rw Hu. cbn [Z.eqb Pos.eqb orb]. unfold hex4 in Hx.
  by destruct (hex_val h1), (hex_val h2), (hex_val h3), (hex_val h4).
Qed.

Lemma utf8_replacement s : utf8 s → utf8 (replacement_char +:+ s).
Proof. apply (utf8_encode_app 65533); [lia|done]. Qed.

Lemma unescape_ascii e : is_escape e = true → byte_Z (unescape e) < 128.
Proof.
  unfold is_escape, unescape. intros H. repeat (apply orb_true_iff in H as [H|H]); apply Z.eqb_eq in H; rw H;
    cbn [Z.eqb Pos.eqb]; first [by rw H|reflexivity].
Qed.

(** What a literal stands for is valid UTF-8, whatever its bytes are. *)
Lemma unquote_utf8 fuel s r : scan_string s = Some r → utf8 (unquote_go fuel s).
Proof.
  revert s r. induction fuel as [|fuel IH]; intros s r Hs; [constructor|].
  destruct s as [|a s]; [constructor|]. pose proof Hs as Hs'. cbn [unquote_go]. cbn [scan_string] in Hs.
  destruct (is_quote a); [constructor|]. destruct (is_backslash a) eqn:Ha.
  - destruct s as [|e r1]; [done|]. destruct (is_escape e) eqn:He.
    { assert ((byte_Z e =? 117) = false) as ->.
      { unfold is_escape in He. apply Z.eqb_neq. intros E. rw E in He. done. }
      apply utf8_ascii; [by apply unescape_ascii|by eapply IH]. }
    destruct (byte_Z e =? 117) eqn:Hu; [|done]. destruct r1 as [|h1 [|h2 [|h3 [|h4 r2]]]]; try done.
    destruct (hex4 h1 h2 h3 h4) as [rr|] eqn:Hx; [|constructor].
    rw (scan_string_u a e h1 h2 h3 h4 r2 rr) // in Hs'. pose proof (hex4_bound _ _ _ _ _ Hx) as Hrr.
    assert (utf8 (unquote_go fuel r2)) as H2 by by eapply IH.
    destruct (is_surrogate rr) eqn:Hsur; [|apply utf8_encode_app; [lia|done..]].
    destruct r2 as [|b1 [|u1 [|g1 [|g2 [|g3 [|g4 r3]]]]]]; try by apply utf8_replacement.
    destruct (hex4 g1 g2 g3 g4) as [rr1|] eqn:Hx1; [|by apply utf8_replacement].
    destruct (is_backslash b1 && (byte_Z u1 =? 117) && is_high_surrogate rr && is_low_surrogate rr1) eqn:Hc;
      [|by apply utf8_replacement].
    apply andb_true_iff in Hc as [[[Hb1 Hu1]%andb_true_iff Hh]%andb_true_iff Hl].
    rw (scan_string_u b1 u1 g1 g2 g3 g4 r3 rr1) // in Hs'. unfold is_high_surrogate, is_low_surrogate in *.
    apply andb_true_iff in Hh as [Hh1%Z.leb_le Hh2%Z.leb_le], Hl as [Hl1%Z.leb_le Hl2%Z.leb_le].
    apply utf8_encode_app; [lia| |by eapply IH]. apply andb_false_iff. right. apply Z.leb_gt. lia.
  - destruct (byte_Z a <? 32); [done|]. destruct (Z.ltb_spec (byte_Z a) 128) as [H|H].
    { apply utf8_ascii; [done|by eapply IH]. }
    destruct (utf8_tail a s) as [n|] eqn:Hn; [|apply utf8_replacement; by eapply IH].
    pose proof (utf8_tail_length _ _ _ Hn) as Hl.
    assert (scan_string (drop_bytes n s) = Some r) as Hd by by rw -(utf8_tail_high _ _ _ Hn) take_drop_bytes.
    rw app_cons_s. apply (utf8_multi _ _ n); [done|by apply utf8_tail_app|].
    rw drop_bytes_app; [|lia]. by eapply IH.
Qed.

(** * Entries in order *)

Lemma string_lt_irrefl s : string_lt s s = false.
Proof. induction s as [|a s IH]; [done|]. cbn. by rw Z.ltb_irrefl Z.eqb_refl IH. Qed.

Lemma string_lt_trans s t u : string_lt s t = true → string_lt t u = true → string_lt s u = true.
Proof.
  revert t u. induction s as [|a s IH]; intros [|b t] [|c u]; cbn; try done.
  intros [Hab%Z.ltb_lt|[Hab%Z.eqb_eq Hst]%andb_true_iff]%orb_true_iff [Hbc%Z.ltb_lt|[Hbc%Z.eqb_eq Htu]%andb_true_iff]%orb_true_iff;
    apply orb_true_iff; try (left; apply Z.ltb_lt; lia).
  right. apply andb_true_iff. split; [apply Z.eqb_eq; lia|by eapply IH].
Qed.

Lemma string_lt_total s t : string_lt s t = false → s ≠ t → string_lt t s = true.
Proof.
  revert t. induction s as [|a s IH]; intros [|b t]; cbn; try done.
  intros [Hab%Z.ltb_ge Hst]%orb_false_iff Hne. apply orb_true_iff.
  destruct (Z.eqb_spec (byte_Z a) (byte_Z b)) as [E|E]; [|left; apply Z.ltb_lt; lia].
  right. rw E Z.eqb_refl. apply IH; [done|]. apply byte_Z_inj in E. by intros ->; subst.
Qed.

Section entries.
Context {A : Type}.
Implicit Types (l : list (string * A)) (k : string) (v : A).

(** The keys rise. *)
Definition sorted l : Prop := StronglySorted (λ s t, string_lt s t = true) (fst <$> l).

(** [k] is below every key. *)
Definition below k l : Prop := Forall (λ e, string_lt k e.1 = true) l.

Lemma sorted_nil : sorted [].
Proof. unfold sorted. cbn. constructor. Qed.

Lemma sorted_cons e l : sorted (e :: l) ↔ below e.1 l ∧ sorted l.
Proof.
  unfold sorted, below. rw fmap_cons. split.
  - intros [H1 H2]%StronglySorted_inv. split; [by apply Forall_fmap in H2|done].
  - intros [H1 H2]. constructor; [done|by apply Forall_fmap].
Qed.

Lemma below_absent k l : below k l → k ∉ (fst <$> l).
Proof.
  intros H ([k' v] & E & Hin)%list_elem_of_fmap. cbn in E. subst k'. unfold below in H. rw Forall_forall in H.
  specialize (H _ Hin). cbn in H. by rw string_lt_irrefl in H.
Qed.

Lemma sorted_NoDup l : sorted l → NoDup (fst <$> l).
Proof.
  induction l as [|e l IH]; [constructor|]. intros [Hb Hs]%sorted_cons. rw fmap_cons.
  constructor; [by apply below_absent|auto].
Qed.

Lemma below_trans j k l : string_lt j k = true → below k l → below j l.
Proof. intros H Hb. eapply Forall_impl; [exact Hb|]. intros e He. by eapply string_lt_trans. Qed.

Lemma entry_set_below j k v l : string_lt j k = true → below j l → below j (entry_set k v l).
Proof.
  intros Hj Hb. induction Hb as [|[j' w] l Hj' Hb IH]; cbn [entry_set]; [by repeat constructor|].
  repeat case_match; repeat constructor; done.
Qed.

Lemma entry_set_sorted k v l : sorted l → sorted (entry_set k v l).
Proof.
  induction l as [|[j w] l IH]; cbn [entry_set]; intros Hs; [apply sorted_cons; split; constructor|].
  pose proof Hs as [Hb Hl]%sorted_cons. cbn in Hb. case_decide as E; [subst; apply sorted_cons; by split|].
  destruct (string_lt k j) eqn:Hk.
  - apply sorted_cons. split; [|done]. constructor; [done|by eapply below_trans].
  - apply sorted_cons. split; [|auto]. apply entry_set_below; [|done]. by apply string_lt_total.
Qed.

(** What the map holds after m[k] = v. *)
Lemma entry_set_elem k v l e :
  sorted l → e ∈ entry_set k v l ↔ e = (k, v) ∨ (e.1 ≠ k ∧ e ∈ l).
Proof.
  induction l as [|[j w] l IH]; cbn [entry_set]; intros Hs; [set_solver|].
  pose proof Hs as [Hb Hl]%sorted_cons. cbn in Hb. pose proof (below_absent _ _ Hb) as Hj.
  assert (∀ i, i ∉ (fst <$> l) → e ∈ l → e.1 ≠ i) as Habs.
  { intros i Hi He E. apply Hi, list_elem_of_fmap. by exists e. }
  case_decide as E; [subst|destruct (string_lt k j) eqn:Hk].
  - rw !elem_of_cons. split; [intros [->|He]; [by left|right; split; [eauto|by right]]|].
    intros [->|[Hne [->|He]]]; [by left|done|by right].
  - assert (k ∉ (fst <$> l)) as Hkl by (eapply below_absent, below_trans; eauto).
    rw !elem_of_cons. split; [intros [->|[->|He]]; [by left|right; split; [done|by left]|right; split; [eauto|by right]]|].
    intros [->|[Hne He]]; [by left|by right].
  - rw !elem_of_cons IH //. split; [intros [->|[->|[H1 H2]]]; [right; split; [done|by left]|by left|right; split; [done|by right]]|].
    intros [->|[Hne [->|He]]]; [by right; left|by left|by right; right].
Qed.

Lemma entry_delete_sorted k l : sorted l → sorted (entry_delete k l).
Proof.
  unfold entry_delete. induction l as [|e l IH]; [done|]. intros [Hb Hl]%sorted_cons. rw filter_cons.
  case_decide; [|auto]. apply sorted_cons. split; [|auto]. unfold below in *. rw Forall_forall in Hb. apply Forall_forall.
  intros x [_ Hx]%list_elem_of_filter. auto.
Qed.

Lemma entries_sorted members : sorted (entries members).
Proof.
  unfold entries. assert (∀ l, sorted l → sorted (foldl (λ m e, entry_set e.1 e.2 m) l members)) as H; [|apply H; constructor].
  induction members as [|e members IH]; intros l Hl; [done|]. cbn. apply IH. by apply entry_set_sorted.
Qed.

Lemma entries_Forall (P : string * A → Prop) members : Forall P members → Forall P (entries members).
Proof.
  unfold entries. assert (∀ l, sorted l → Forall P l → Forall P members → Forall P (foldl (λ m e, entry_set e.1 e.2 m) l members)) as H.
  { induction members as [|[k v] members IH]; intros l Hs Hl Hm; [done|]. cbn. inversion Hm; subst.
    apply IH; [by apply entry_set_sorted| |done]. rw Forall_forall in Hl. apply Forall_forall.
    intros e [->|[_ He]]%entry_set_elem; [done|auto|done]. }
  intros Hm. apply H; [constructor|constructor|done].
Qed.

End entries.

(** The map json.Unmarshal makes of members with different keys. *)
Lemma members_map_elem l k raw : NoDup (fst <$> l) → (members_map l !! k = Some raw) ↔ ((k, raw) ∈ l).
Proof.
  intros Hnd. unfold members_map.
  assert (∀ (m : gmap string string) l, NoDup (fst <$> l) →
    (foldl (λ m p, <[p.1 := p.2]> m) m l) !! k = Some raw ↔
      ((k, raw) ∈ l ∨ ((k ∉ (fst <$> l)) ∧ m !! k = Some raw))) as H.
  { clear. intros m l. revert m. induction l as [|[j w] l IH]; intros m Hnd; cbn [foldl]; [set_solver|].
    rw fmap_cons in Hnd. apply NoDup_cons in Hnd as [Hj Hnd]. rw IH //. cbn [fst snd]. rw fmap_cons !elem_of_cons. cbn [fst].
    destruct (decide (j = k)) as [->|Hne].
    - rw lookup_insert_eq. split.
      + intros [He|[_ [= ->]]]; [|by left; left]. exfalso. apply Hj, list_elem_of_fmap. by exists (k, raw).
      + intros [[[= ->]|He]|[Hnot _]]; [by right|by left|]. exfalso. apply Hnot. by left.
    - rw lookup_insert_ne //. split.
      + intros [He|[Hnot Hm]]; [by left; right|right]. split; [|done]. intros [E|He]; [by apply Hne|by apply Hnot].
      + intros [[[= E _]|He]|[Hnot Hm]]; [by destruct Hne|by left|right]. split; [|done]. intros He. apply Hnot. by right. }
  rw H //. rw lookup_empty. naive_solver.
Qed.

(** * Values *)

Lemma jany_ind' (P : jany → Prop) :
  P ANull → (∀ b, P (ABool b)) → (∀ f, P (AFloat f)) → (∀ s, P (AText s)) → (∀ s, P (ARaw s)) →
  (∀ l, Forall P l → P (AArray l)) → (∀ l, Forall (λ e, P e.2) l → P (AObject l)) → ∀ v, P v.
Proof.
  intros Hn Hb Hf Ht Hr Ha Ho. fix IH 1.
  intros [|b|f|s|l|l|s]; [apply Hn|apply Hb|apply Hf|apply Ht|apply Ha|apply Ho|apply Hr].
  - induction l as [|v l IHl]; constructor; [apply IH|apply IHl].
  - induction l as [|[k v] l IHl]; constructor; [apply IH|apply IHl].
Qed.

(** How deep arrays and objects are nested. *)
Fixpoint any_depth (v : jany) : Z :=
  match v with
  | AArray l => 1 + foldr Z.max 0 (map any_depth l)
  | AObject l => 1 + foldr Z.max 0 (map (λ e, any_depth e.2) l)
  | _ => 0
  end.

(** What the decoder makes: strings are valid, mantissas not negative, keys in order. *)
Inductive any_ok : jany → Prop :=
| ok_null : any_ok ANull
| ok_bool b : any_ok (ABool b)
| ok_float f : 0 <= f_mant f → any_ok (AFloat f)
| ok_text s : utf8 s → any_ok (AText s)
| ok_array l : Forall any_ok l → any_ok (AArray l)
| ok_object l : sorted l → Forall (λ e, utf8 e.1 ∧ any_ok e.2) l → any_ok (AObject l).

Lemma scan_word_app w t : scan_word w (w +:+ t) = Some t.
Proof.
  unfold scan_word. assert (has_prefix w (w +:+ t) = true ∧ drop_bytes (String.length w) (w +:+ t) = t) as [-> ->]; [|done].
  induction w as [|a w IH]; [done|]. rw app_cons_s. cbn. by rw bool_decide_true.
Qed.

Lemma scans_word d w :
  w ∈ ["true"; "false"; "null"] → scans d w.
Proof.
  intros H. rw !elem_of_cons in H. destruct H as [->|[->|[->|H]]]; [..|by inversion H];
    (split; [by eexists _, _|]); intros t _; exists 1%nat; intros [|fuel] Hf; try lia;
    first [apply (scan_word_app "true")|apply (scan_word_app "false")|apply (scan_word_app "null")].
Qed.

(** A value is written as a text that is read again. *)
Lemma any_scans v : any_ok v → ∀ d, d + any_depth v <= max_nesting_depth → scans d (marshal_any v).
Proof.
  induction v as [|[]|f|s|s|l IH|l IH] using jany_ind'; intros Hv d Hd; inversion Hv; subst; cbn [marshal_any any_depth] in *.
  - apply scans_word. set_solver.
  - apply scans_word. set_solver.
  - apply scans_word. set_solver.
  - by apply json_float_scans.
  - by apply scans_string.
  - pose proof (foldr_max_nonneg (map any_depth l)). apply scans_array; [lia|].
    rw !Forall_forall in IH. rw Forall_forall in H0. apply Forall_fmap, Forall_forall. intros x Hx.
    apply IH; [done|auto|]. pose proof (foldr_max_le any_depth l x Hx). lia.
  - pose proof (foldr_max_nonneg (map (λ e, any_depth e.2) l)). apply scans_object; [lia|].
    rw !Forall_forall in IH. rw Forall_forall in H1. apply Forall_fmap, Forall_forall. intros x Hx.
    destruct (H1 x Hx) as [Hu Ho]. split; [done|]. apply IH; [done..|].
    pose proof (foldr_max_le (λ e : string * jany, any_depth e.2) l x Hx). cbn in *. lia.
Qed.

(** * Reading *)

(** The decoder reads exactly what the scanner accepts. *)
Lemma parse_complete fuel k d s t : scan fuel k d s = Some t → ∃ l, parse fuel k d s = Some (l, t).
Proof.
  revert k d s t. induction fuel as [|fuel IH]; intros k d s t; cbn [scan parse]; [done|]. destruct k.
  - destruct s as [|a r]; [done|].
    destruct (byte_Z a =? 123); [|destruct (byte_Z a =? 91); [|destruct (byte_Z a =? 34)]].
    + destruct (max_nesting_depth <? d + 1); [done|]. destruct (skip_ws r) as [|c r1]; [done|].
      destruct (byte_Z c =? 125); [intros [= <-]; by eexists|]. intros (l & H)%IH. rw H. by eexists.
    + destruct (max_nesting_depth <? d + 1); [done|]. destruct (skip_ws r) as [|c r1]; [done|].
      destruct (byte_Z c =? 93); [intros [= <-]; by eexists|]. intros (l & H)%IH. rw H. by eexists.
    + intros ->. by eexists.
    + intros H. assert (∀ o, o = Some t → ∃ l, (r1 ← o; Some ([("", literal a (text_before (String a r) r1))], r1)) = Some (l, t)) as Ho.
      { intros o ->. by eexists. }
      by repeat case_match; apply Ho.
  - destruct s as [|a r]; [done|]. destruct (is_quote a); [|done]. destruct (scan_string r) as [r1|]; [|done].
    cbn [mbind option_bind]. destruct (skip_ws r1) as [|c r2]; [done|]. destruct (byte_Z c =? 58); [|done].
    destruct (scan fuel KValue d (skip_ws r2)) as [r3|] eqn:E; [|done]. apply IH in E as (v & ->).
    cbn [mbind option_bind]. destruct (skip_ws r3) as [|e r4]; [done|]. destruct (byte_Z e =? 44).
    + intros (l & H)%IH. rw H. by eexists.
    + destruct (byte_Z e =? 125); [|done]. intros [= <-]. by eexists.
  - destruct (scan fuel KValue d s) as [r1|] eqn:E; [|done]. apply IH in E as (v & ->).
    cbn [mbind option_bind]. destruct (skip_ws r1) as [|e r2]; [done|]. destruct (byte_Z e =? 44).
    + intros (l & H)%IH. rw H. by eexists.
    + destruct (byte_Z e =? 93); [|done]. intros [= <-]. by eexists.
Qed.

(** What it makes of it, at depth [d]. *)
Definition read_ok (d : Z) (e : string * jany) : Prop :=
  utf8 e.1 ∧ any_ok e.2 ∧ d + any_depth e.2 <= max_nesting_depth.

Lemma literal_ok a text : any_ok (literal a text) ∧ any_depth (literal a text) = 0.
Proof.
  unfold literal. repeat case_match; split; try done; try constructor. by apply (ParseFloat_nonneg text).
Qed.

Lemma foldr_max_bound {A} (f : A → Z) l b : 0 <= b → Forall (λ x, f x <= b) l → foldr Z.max 0 (map f l) <= b.
Proof. intros Hb. induction 1; cbn [map foldr]; lia. Qed.

Lemma parse_ok fuel k d s l t :
  d <= max_nesting_depth → parse fuel k d s = Some (l, t) → Forall (read_ok d) l.
Proof.
  revert k d s l t. induction fuel as [|fuel IH]; intros k d s l t Hd; cbn [parse]; [done|]. destruct k.
  - destruct s as [|a r]; [done|].
    assert (∀ v, any_ok v → d + any_depth v <= max_nesting_depth → Forall (read_ok d) [("", v)]) as Hone.
    { intros v Hv Hdv. constructor; [|done]. split_and!; [constructor|done..]. }
    destruct (byte_Z a =? 123); [|destruct (byte_Z a =? 91); [|destruct (byte_Z a =? 34)]].
    + destruct (Z.ltb_spec max_nesting_depth (d + 1)); [done|]. destruct (skip_ws r) as [|c r1]; [done|].
      destruct (byte_Z c =? 125).
      { intros [= <- <-]. apply Hone; [constructor; constructor|cbn; lia]. }
      intros ([l1 r2] & H1%IH & [= <- <-])%bind_Some; [|lia]. apply entries_Forall in H1. apply Hone.
      * constructor; [apply entries_sorted|]. eapply Forall_impl; [exact H1|]. by intros e (? & ? & ?).
      * cbn [any_depth]. assert (foldr Z.max 0 (map (λ e, any_depth e.2) (entries l1)) <= max_nesting_depth - d - 1); [|lia].
        apply foldr_max_bound; [lia|]. eapply Forall_impl; [exact H1|]. intros e (_ & _ & He). cbn in *. lia.
    + destruct (Z.ltb_spec max_nesting_depth (d + 1)); [done|]. destruct (skip_ws r) as [|c r1]; [done|].
      destruct (byte_Z c =? 93).
      { intros [= <- <-]. apply Hone; [constructor; constructor|cbn; lia]. }
      intros ([l1 r2] & H1%IH & [= <- <-])%bind_Some; [|lia]. apply Hone.
      * constructor. apply Forall_fmap. eapply Forall_impl; [exact H1|]. by intros e (? & ? & ?).
      * cbn [any_depth]. assert (foldr Z.max 0 (map any_depth l1.*2) <= max_nesting_depth - d - 1); [|lia].
        apply foldr_max_bound; [lia|]. apply Forall_fmap. eapply Forall_impl; [exact H1|]. intros e (_ & _ & He). cbn in *. lia.
    + intros (r1 & H1 & [= <- <-])%bind_Some. apply Hone; [constructor; by eapply unquote_utf8|cbn; lia].
    + intros (r1 & _ & [= <- <-])%bind_Some. destruct (literal_ok a (text_before (String a r) r1)) as [Ho E].
      apply Hone; [done|lia].
  - destruct s as [|a r]; [done|]. destruct (is_quote a); [|done]. intros (r1 & Hr & H)%bind_Some.
    destruct (skip_ws r1) as [|c r2]; [done|]. destruct (byte_Z c =? 58); [|done].
    apply bind_Some in H as ([v r3] & Hv%IH & H); [|done].
    assert (Forall (read_ok d) ((λ e, (unquote_go (String.length r) r, e.2)) <$> v)) as Hm.
    { apply Forall_fmap. eapply Forall_impl; [exact Hv|]. intros e (_ & He). split; [by eapply unquote_utf8|exact He]. }
    destruct (skip_ws r3) as [|e r4]; [done|]. destruct (byte_Z e =? 44).
    + apply bind_Some in H as ([l1 r5] & Hl%IH & [= <- <-]); [|done]. by apply Forall_app.
    + destruct (byte_Z e =? 125); [|done]. by injection H as <- <-.
  - intros ([v r1] & Hv%IH & H)%bind_Some; [|done]. destruct (skip_ws r1) as [|e r2]; [done|].
    destruct (byte_Z e =? 44).
    + apply bind_Some in H as ([l1 r3] & Hl%IH & [= <- <-]); [|done]. by apply Forall_app.
    + destruct (byte_Z e =? 93); [|done]. by injection H as <- <-.
Qed.

(** ** The two maps of a text have the same keys *)

Lemma scan_more n m k d s t : (n <= m)%nat → scan n k d s = Some t → scan m k d s = Some t.
Proof.
  intros Hnm. revert m k d s t Hnm. induction n as [|n IH]; intros [|m] k d s t Hnm; cbn [scan]; [done|done|lia|].
  assert (∀ k d s t, scan n k d s = Some t → scan m k d s = Some t) as IH1 by (intros; apply IH; [lia|done]).
  destruct k.
  - destruct s as [|a r]; [done|]. repeat (case_match; try done); eauto.
  - destruct s as [|a r]; [done|]. destruct (is_quote a); [|done].
    destruct (scan_string r) as [r1|]; [|done]. destruct (skip_ws r1) as [|c r2]; [done|].
    destruct (byte_Z c =? 58); [|done]. destruct (scan n KValue d (skip_ws r2)) as [r3|] eqn:E; [|done].
    rw (IH1 _ _ _ _ E). destruct (skip_ws r3) as [|e r4]; [done|]. destruct (byte_Z e =? 44); eauto.
  - destruct (scan n KValue d s) as [r1|] eqn:E; [|done]. rw (IH1 _ _ _ _ E).
    destruct (skip_ws r1) as [|e r2]; [done|]. destruct (byte_Z e =? 44); eauto.
Qed.

Lemma scan_value_of n d s t : 0 <= d → scan n KValue d s = Some t → scan_value 0 s = Some t.
Proof.
  intros Hd H. apply (scan_depth _ _ _ 0) in H; [|done].
  rw -(scan_value_enough 0 s (Nat.max n (scan_fuel s))); [|lia]. by apply (scan_more n); [lia|].
Qed.

Lemma parse_sound fuel k d s l t :
  parse fuel k d s = Some (l, t) → scan fuel k d s = Some t ∧ (k = KValue → length l = 1%nat).
Proof.
  revert k d s l t. induction fuel as [|fuel IH]; intros k d s l t; cbn [scan parse]; [done|]. destruct k.
  - destruct s as [|a r]; [done|].
    destruct (byte_Z a =? 123); [|destruct (byte_Z a =? 91); [|destruct (byte_Z a =? 34)]].
    + destruct (max_nesting_depth <? d + 1); [done|]. destruct (skip_ws r) as [|c r1]; [done|].
      destruct (byte_Z c =? 125); [by intros [= <- <-]|]. by intros ([l1 r2] & [H _]%IH & [= <- <-])%bind_Some.
    + destruct (max_nesting_depth <? d + 1); [done|]. destruct (skip_ws r) as [|c r1]; [done|].
      destruct (byte_Z c =? 93); [by intros [= <- <-]|]. by intros ([l1 r2] & [H _]%IH & [= <- <-])%bind_Some.
    + by intros (r1 & H & [= <- <-])%bind_Some.
    + intros (r1 & H & [= <- <-])%bind_Some. by repeat case_match.
  - destruct s as [|a r]; [done|]. destruct (is_quote a); [|done]. intros (r1 & Hr & H)%bind_Some. rw Hr.
    destruct (skip_ws r1) as [|c r2]; [done|]. destruct (byte_Z c =? 58); [|done].
    apply bind_Some in H as ([v r3] & [-> _]%IH & H). destruct (skip_ws r3) as [|e r4]; [done|]. destruct (byte_Z e =? 44).
    + by apply bind_Some in H as ([l1 r5] & [-> _]%IH & [= <- <-]).
    + destruct (byte_Z e =? 125); [|done]. by injection H as <- <-.
  - intros ([v r1] & [-> _]%IH & H)%bind_Some. destruct (skip_ws r1) as [|e r2]; [done|].
    destruct (byte_Z e =? 44).
    + by apply bind_Some in H as ([l1 r3] & [-> _]%IH & [= <- <-]).
    + destruct (byte_Z e =? 93); [|done]. by injection H as <- <-.
Qed.

Lemma parse_keys fuel d s l t n :
  0 <= d → skip_ws t = "" → parse fuel KMembers d s = Some (l, t) → (String.length s <= n)%nat →
  (members_go n s).*1 = l.*1.
Proof.
  revert s l t n. induction fuel as [|fuel IH]; intros s l t n Hd Ht; cbn [parse]; [done|].
  destruct s as [|a r]; [done|]. destruct (is_quote a) eqn:Ha; [|done]. intros (r1 & Hr & H)%bind_Some Hn.
  destruct n as [|n]; [cbn in Hn; lia|]. cbn [members_go]. rw Ha Hr.
  apply scan_string_length in Hr. pose proof (skip_ws_length r1) as Hw1.
  destruct (skip_ws r1) as [|c r2] eqn:E1; [done|]. destruct (byte_Z c =? 58); [|done].
  apply bind_Some in H as ([v r3] & Hv & H). apply parse_sound in Hv as [Hv Hl].
  apply scan_value_of in Hv; [|done]. cbn [drop_bytes]. rw Hv. pose proof (scan_length _ _ _ _ _ Hv) as Hlen.
  destruct v as [|e0 [|]]; [by specialize (Hl eq_refl)| |by specialize (Hl eq_refl)].
  pose proof (skip_ws_length r2) as Hw2. pose proof (skip_ws_length r3) as Hw3.
  destruct (skip_ws r3) as [|e r4] eqn:E3; [done|]. cbn [fmap list_fmap fst drop_bytes String.length] in *.
  destruct (byte_Z e =? 44) eqn:He.
  - apply bind_Some in H as ([l1 r5] & Hl1 & [= <- <-]). cbn [app fmap list_fmap fst]. f_equal.
    eapply IH; [done|exact Ht|exact Hl1|]. pose proof (skip_ws_length r4). lia.
  - destruct (byte_Z e =? 125) eqn:He2; [|done]. injection H as <- <-. cbn [fmap list_fmap fst]. f_equal.
    rw Ht. by destruct n.
Qed.

Lemma members_map_dom l k : is_Some (members_map l !! k) ↔ (k ∈ l.*1).
Proof.
  unfold members_map. assert (∀ m : gmap string string,
    is_Some ((foldl (λ m p, <[p.1 := p.2]> m) m l) !! k) ↔ (k ∈ l.*1 ∨ is_Some (m !! k))) as H.
  { induction l as [|[j w] l IH]; intros m; cbn [foldl]; [set_solver|]. rw IH fmap_cons elem_of_cons. cbn [fst snd].
    destruct (decide (j = k)) as [->|Hne]; [rw lookup_insert_eq|rw lookup_insert_ne //]; naive_solver. }
  rw H lookup_empty. split; [intros [?|[? ?]]; done|by left].
Qed.

Lemma entries_keys {A} (members : list (string * A)) k : (k ∈ (entries members).*1) ↔ (k ∈ members.*1).
Proof.
  unfold entries. assert (∀ l, sorted l →
    (k ∈ (foldl (λ m e, entry_set e.1 e.2 m) l members).*1) ↔ (k ∈ members.*1 ∨ k ∈ l.*1)) as H.
  { induction members as [|[j w] members IH]; intros l Hs; cbn [foldl]; [set_solver|].
    rw IH; [|by apply entry_set_sorted]. rw fmap_cons elem_of_cons. cbn [fst snd].
    assert ((k ∈ (entry_set j w l).*1) ↔ (k = j ∨ k ∈ l.*1)) as ->; [|naive_solver].
    rw !list_elem_of_fmap. split.
    - intros ([k' v'] & -> & [[= -> ->]|[Hne Hin]]%entry_set_elem); [by left|right; by eexists|done].
    - intros [->|([k' v'] & -> & Hin)]; [exists (j, w)|destruct (decide (k' = j)) as [->|]; [exists (j, w)|exists (k', v')]];
        (split; [done|apply entry_set_elem; [done|]]); cbn; auto. }
  rw H; [|constructor]. set_solver.
Qed.

(** What json.Unmarshal into a map[string]any makes of a text that holds an object. *)
Lemma unmarshal_any_map_spec memo m :
  unmarshal_raw_map memo = Some m →
  sorted (unmarshal_any_map memo) ∧ Forall (read_ok 1) (unmarshal_any_map memo) ∧
  ∀ k, is_Some (m !! k) ↔ (k ∈ (unmarshal_any_map memo).*1).
Proof.
  unfold unmarshal_raw_map, unmarshal_any_map, json_decode. destruct (json_valid memo) eqn:Hv; [|done].
  unfold json_valid in Hv. destruct (scan_value 0 (skip_ws memo)) as [t|] eqn:Hs; [|done]. apply is_empty_true in Hv.
  unfold scan_value in Hs. destruct (parse_complete _ _ _ _ _ Hs) as [l Hp]. rw Hp.
  assert (Forall (read_ok 0) l) as Hok by (by eapply parse_ok; [|exact Hp]). set (f := scan_fuel (skip_ws memo)) in *. clearbody f.
  destruct (skip_ws memo) as [|a r]; [done|]. destruct f as [|f]; [done|]. cbn [parse] in Hp.
  destruct (byte_Z a =? 123).
  - intros [= <-]. destruct (max_nesting_depth <? 0 + 1); [done|]. destruct (skip_ws r) as [|c r1] eqn:Hr; [done|].
    pose proof (skip_ws_length r) as Hlr. rw Hr in Hlr. destruct (byte_Z c =? 125) eqn:Hc.
    + injection Hp as <- <-. split_and!; [constructor|constructor|]. intros k. rw members_map_dom.
      assert (members_go (String.length r) (String c r1) = []) as ->; [|done].
      destruct r as [|? r]; [done|]. cbn. unfold is_quote. apply Z.eqb_eq in Hc. by rw Hc.
    + apply bind_Some in Hp as ([l1 r2] & Hl & [= <- <-]). inversion Hok as [|? ? (_ & Ho & Hd) _]; subst. cbn [snd] in *.
      inversion Ho as [| | | | |? Hsort Hall]; subst. split_and!; [done| |].
      * rw Forall_forall in Hall. apply Forall_forall. intros e He. destruct (Hall e He) as [Hu Hoe].
        split_and!; [done..|]. cbn [any_depth] in Hd.
        pose proof (foldr_max_le (λ e : string * jany, any_depth e.2) _ e He). cbn in *. lia.
      * intros k. rw members_map_dom entries_keys. erewrite parse_keys; [done|..|exact Hl|exact Hlr]; done.
  - destruct (byte_Z a =? 91); [done|]. destruct (byte_Z a =? 34); [done|].
    destruct (byte_Z a =? 116) eqn:H116; [done|]. destruct (byte_Z a =? 102) eqn:H102; [done|].
    destruct (byte_Z a =? 110) eqn:H110; [|done]. intros [= <-]. apply bind_Some in Hp as (r1 & _ & [= <- <-]).
    unfold literal. rw H116 H102 H110. split_and!; [apply sorted_nil|apply Forall_nil_2|].
    intros k. rw lookup_empty. split; [by intros []|by intros ?%elem_of_nil].
Qed.

(** json.Marshal of a map whose values are written as texts that are read again: the other
    side reads the same keys, with these texts. *)
Lemma marshal_map_read (l : list (string * jany)) :
  sorted l → Forall (λ e, utf8 e.1 ∧ scans 1 (marshal_any e.2)) l →
  ∃ m, unmarshal_raw_map (marshal_any (AObject l)) = Some m ∧
    ∀ k raw, m !! k = Some raw ↔ ∃ v, (k, v) ∈ l ∧ raw = marshal_any v.
Proof.
  intros Hs Hl. unfold unmarshal_raw_map. cbn [marshal_any]. rw decode_object; [|by apply Forall_fmap].
  eexists. split; [done|]. intros k raw. rw members_map_elem.
  - rw list_elem_of_fmap. split.
    + intros ([k' v] & [= -> ->] & Hin). by exists v.
    + intros (v & Hin & ->). by exists (k, v).
  - rw -list_fmap_compose. by apply (sorted_NoDup l).
Qed.
