(* ===== verification/Wire.v ===== *)
(** The protobuf wire format as the generated code of api/ writes and reads it
    (the .pulsar.go files): a message is written backwards into a buffer of the size that
    was computed before, and read by a loop over an index. Every message is written and
    read by the same few patterns, which are the definitions of this file; the files
    [ApiTypes] and after it compose them into the messages. The package cosmos-proto/runtime
    is a parameter. *)
From S2P Require Import Prelude.
From S2P Require Import GoJson.
From S2P Require Import JsonScan.

(** * Integers of a width *)

Inductive goint := Uint64 | Int64 | Int32.

(** A two's complement number of [k] bits. *)
Definition signed (k z : Z) : Z := (z + 2 ^ (k - 1)) mod 2 ^ k - 2 ^ (k - 1).

(** Conversion to a type, which drops the high bits. *)
Definition wrap (w : goint) (z : Z) : Z :=
  match w with Uint64 => wrap64 z | Int64 => signed 64 z | Int32 => signed 32 z end.

(** * Bytes *)

Abbreviation raw := (list ascii) (only parsing).

Definition to_raw : bytes → raw := String.list_ascii_of_string.
Definition of_raw : raw → bytes := String.string_of_list_ascii.

(** [len(s)], an [int]: lengths of values in memory are below 2^63. *)
Definition len {A} (l : list A) : Z := Z.of_nat (length l).

Definition index_panic : gopanic := PanicString "index out of range".
Definition slice_panic : gopanic := PanicString "slice bounds out of range".

(** What stands for a loop that goes on: no run of the definitions below ends with it. *)
Definition diverges : gopanic := PanicString "does not terminate".

(** [bz[i]] and [bz[i:j]]. *)
Definition at_index (bz : raw) (i : Z) : res ascii :=
  if 0 <=? i then match bz !! Z.to_nat i with Some b => Ok b | None => Panic index_panic end
  else Panic index_panic.

Definition slice (bz : raw) (i j : Z) : res raw :=
  if (0 <=? i) && (i <=? j) && (j <=? len bz)
  then Ok (take (Z.to_nat (j - i)) (drop (Z.to_nat i) bz)) else Panic slice_panic.

(** * Errors *)

(** The errors of the readers: runtime.ErrIntOverflow and runtime.ErrInvalidLength in api/, and
    in x/ the variables that each generated file declares for itself. *)
Class WireErrors := { ErrIntOverflow : goerror; ErrInvalidLength : goerror }.

Definition ErrUnexpectedEOF := ExtSentinel "io.ErrUnexpectedEOF".

(** * The runtime and the messages of other modules *)

(** The buffer that is written, and the index below which it is free. *)
Record wbuf := Wbuf { wdata : raw; wi : Z }.

(** [Sov] is the length of a varint, [EncodeVarint v] is i = EncodeVarint(dAtA, i, v), and
    [Skip] the length of the field a text starts with. *)
Class WireRuntime := {
  wire_errors :: WireErrors;
  Sov : Z → Z;
  EncodeVarint : Z → M wbuf unit;
  Skip : raw → res Z
}.

(** What options.Size, options.Marshal and options.Unmarshal do with a message of a type;
    [None] is a nil pointer. The flag is options.DiscardUnknown. *)
Class ProtoMessage (A : Type) := {
  proto_new : A;
  options_Size : option A → Z;
  options_Marshal : option A → res raw;
  options_Unmarshal : bool → raw → M (option A) unit
}.

(** * Sizes *)

Section size.
Context {WR : WireRuntime}.

(** A string or a byte slice that is present when it is not empty. *)
Definition size_bytes (s : bytes) : Z :=
  let l := len (to_raw s) in if 0 <? l then 1 + l + Sov (wrap Uint64 l) else 0.

(** A number that is present when it is not zero. *)
Definition size_number (v : Z) : Z := if negb (v =? 0) then 1 + Sov (wrap Uint64 v) else 0.

Definition size_message {A} `{!ProtoMessage A} (x : option A) : Z :=
  match x with
  | Some _ => let l := options_Size x in 1 + l + Sov (wrap Uint64 l)
  | None => 0
  end.

Definition sum_list_Z : list Z → Z := foldr Z.add 0.

Definition size_strings (ss : list bytes) : Z :=
  sum_list_Z ((λ s, let l := len (to_raw s) in 1 + l + Sov (wrap Uint64 l)) <$> ss).

Definition size_messages {A} `{!ProtoMessage A} (xs : list (option A)) : Z :=
  sum_list_Z ((λ x, let l := options_Size x in 1 + l + Sov (wrap Uint64 l)) <$> xs).

(** The unknown fields; a nil slice is an empty one. *)
Definition size_unknown (unknownFields : raw) : Z := len unknownFields.

End size.

(** * Writing *)

Section write.
Context {WR : WireRuntime}.

(** i -= len(s); copy(dAtA[i:], s) *)
Definition copy_back (s : raw) : M wbuf unit := λ b,
  let i := wi b - len s in
  if (0 <=? i) && (i <=? len (wdata b))
  then (Ok (), Wbuf (list_inserts (Z.to_nat i) (take (Z.to_nat (len (wdata b) - i)) s) (wdata b)) i)
  else (Panic slice_panic, Wbuf (wdata b) i).

(** dAtA[i] = b *)
Definition store_byte (v : Z) (b : wbuf) : res unit * wbuf :=
  if (0 <=? wi b) && (wi b <? len (wdata b))
  then (Ok (), Wbuf (<[Z.to_nat (wi b) := chr v]> (wdata b)) (wi b))
  else (Panic index_panic, b).

(** i--; dAtA[i] = tag *)
Definition put_tag (tag : Z) : M wbuf unit :=
  modify (λ b, Wbuf (wdata b) (wi b - 1)) ;;; store_byte tag.

(** The bytes, their length and the tag. *)
Definition put_delimited (tag : Z) (s : raw) : M wbuf unit :=
  copy_back s ;;; EncodeVarint (wrap Uint64 (len s)) ;;; put_tag tag.

Definition put_bytes (tag : Z) (s : bytes) : M wbuf unit :=
  if 0 <? len (to_raw s) then put_delimited tag (to_raw s) else ret ().

Definition put_number (tag v : Z) : M wbuf unit :=
  if negb (v =? 0) then EncodeVarint (wrap Uint64 v) ;;; put_tag tag else ret ().

Definition put_encoded {A} `{!ProtoMessage A} (tag : Z) (x : option A) : M wbuf unit :=
  let! encoded := lift (options_Marshal x) in put_delimited tag encoded.

Definition put_message {A} `{!ProtoMessage A} (tag : Z) (x : option A) : M wbuf unit :=
  match x with Some _ => put_encoded tag x | None => ret () end.

(** The last element first, so that the first one is in front. *)
Definition put_strings (tag : Z) (ss : list bytes) : M wbuf unit :=
  for_each (reverse ss) (λ s, put_delimited tag (to_raw s)).

Definition put_messages {A} `{!ProtoMessage A} (tag : Z) (xs : list (option A)) : M wbuf unit :=
  for_each (reverse xs) (put_encoded tag).

Definition put_unknown (unknownFields : raw) : M wbuf unit := copy_back unknownFields.

(** marshal: the buffer is made, written and appended to input.Buf, which is the state and
    stays as it was when there is an error. *)
Definition marshal_into (size : Z) (fields : M wbuf unit) : M raw unit := λ Buf,
  if 0 <=? size then
    match fields (Wbuf (replicate (Z.to_nat size) "000"%char) size) with
    | (Ok _, b) => (Ok (), Buf ++ wdata b)
    | (Err e, _) => (Err e, Buf)
    | (Panic p, _) => (Panic p, Buf)
    end
  else (Panic (PanicString "makeslice: len out of range"), Buf).

End write.

(** options.Marshal of a message with the methods of this package: what they append to an
    empty buffer. *)
Definition marshalled (m : M raw unit) : res raw :=
  match m [] with (Ok _, bz) => Ok bz | (Err e, _) => Err e | (Panic p, _) => Panic p end.

(** * Reading *)

(** The index, and the message that is filled. *)
Record rstate (T : Type) := Rstate { iNdEx : Z; msg : T }.
Arguments Rstate {T} iNdEx msg.
Arguments iNdEx {T} _.
Arguments msg {T} _.

Section read.
Context {WE : WireErrors} {T : Type} (dAtA : raw) (DiscardUnknown : bool).

Definition set_iNdEx (i : Z) : M (rstate T) unit := modify (λ s, Rstate i (msg s)).
Definition set_msg (f : T → T) : M (rstate T) unit := modify (λ s, Rstate (iNdEx s) (f (msg s))).

(** The loop that reads a varint into a variable of type [w]; [store] writes it where the
    variable is a field of the message. The shift passes 64 after ten rounds. *)
Fixpoint varint_loop (fuel : nat) (w : goint) (store : Z → T → T) (shift v : Z) :
    M (rstate T) Z :=
  match fuel with
  | O => panic diverges
  | S fuel =>
      if 64 <=? shift then fail ErrIntOverflow
      else
        let! i := gets iNdEx in
        if len dAtA <=? i then fail ErrUnexpectedEOF
        else
          let! b := lift (at_index dAtA i) in
          set_iNdEx (i + 1) ;;;
          let v := wrap w (Z.lor v (wrap w (Z.shiftl (Z.land (byte_Z b) 127) shift))) in
          set_msg (store v) ;;;
          if byte_Z b <? 128 then ret v else varint_loop fuel w store (shift + 7) v
  end.

(** var v w; for shift := uint(0); ; shift += 7 { ... } *)
Definition get_varint (w : goint) : M (rstate T) Z := varint_loop 11 w (λ _ x, x) 0 0.

(** x.Field = 0; for ... { x.Field |= ... } *)
Definition get_number (w : goint) (set : Z → T → T) : M (rstate T) unit :=
  set_msg (set 0) ;;; varint_loop 11 w set 0 0 ;;; ret ().

(** The checks on a length, and the index where the bytes end. *)
Definition post_index (n : Z) : M (rstate T) Z :=
  if n <? 0 then fail ErrInvalidLength
  else
    let! i := gets iNdEx in
    let postIndex := wrap Int64 (i + n) in
    if postIndex <? 0 then fail ErrInvalidLength
    else if len dAtA <? postIndex then fail ErrUnexpectedEOF
    else ret postIndex.

(** dAtA[iNdEx:postIndex] is used, then iNdEx = postIndex. *)
Definition with_slice (postIndex : Z) (k : raw → M (rstate T) unit) : M (rstate T) unit :=
  let! i := gets iNdEx in
  let! bz := lift (slice dAtA i postIndex) in
  k bz ;;; set_iNdEx postIndex.

(** A string: its length is read as a uint64 and converted. *)
Definition get_string (set : bytes → T → T) : M (rstate T) unit :=
  let! stringLen := get_varint Uint64 in
  let! postIndex := post_index (wrap Int64 stringLen) in
  with_slice postIndex (λ bz, set_msg (set (of_raw bz))).

(** A byte slice: its length is read as an int. *)
Definition get_bytes (set : bytes → T → T) : M (rstate T) unit :=
  let! byteLen := get_varint Int64 in
  let! postIndex := post_index byteLen in
  with_slice postIndex (λ bz, set_msg (set (of_raw bz))).

(** options.Unmarshal(bz, x.Field) on the pointer a field holds. *)
Definition unmarshal_field {A} `{!ProtoMessage A} (get : T → option A) (set : option A → T → T)
    (bz : raw) : M (rstate T) unit :=
  zoom (λ s, get (msg s)) (λ a s, Rstate (iNdEx s) (set a (msg s)))
       (options_Unmarshal DiscardUnknown bz).

(** A message: the field is allocated when it is nil, and what is read is merged into it. *)
Definition get_message {A} `{!ProtoMessage A} (get : T → option A) (set : option A → T → T) :
    M (rstate T) unit :=
  let! msglen := get_varint Int64 in
  let! postIndex := post_index msglen in
  with_slice postIndex (λ bz,
    set_msg (λ x, match get x with None => set (Some proto_new) x | Some _ => x end) ;;;
    unmarshal_field get set bz).

(** A message of a repeated field: an empty one is appended and read into. *)
Definition get_messages {A} `{!ProtoMessage A} (get : T → list (option A))
    (set : list (option A) → T → T) : M (rstate T) unit :=
  let! msglen := get_varint Int64 in
  let! postIndex := post_index msglen in
  with_slice postIndex (λ bz,
    set_msg (λ x, set (get x ++ [Some proto_new]) x) ;;;
    unmarshal_field (λ x, mjoin (last (get x)))
                    (λ a x, set (take (length (get x) - 1) (get x) ++ [a]) x) bz).

(** A wire type that the field does not have. *)
Definition expect_wire (expected : Z) (name : string) (wireType : Z) (k : M (rstate T) unit) :
    M (rstate T) unit :=
  if negb (wireType =? expected)
  then fail (Errorf ("proto: wrong wireType = %d for field " +:+ name) [pretty wireType])
  else k.

End read.

Section fields.
Context {WR : WireRuntime} {T : Type} (dAtA : raw) (DiscardUnknown : bool).

(** The default case: the field is skipped, and kept unless unknown fields are discarded. *)
Definition skip_unknown (preIndex : Z) (append : raw → T → T) : M (rstate T) unit :=
  set_iNdEx preIndex ;;;
  let! rest := lift (slice dAtA preIndex (len dAtA)) in
  let! skippy := lift (Skip rest) in
  let next := wrap Int64 (preIndex + skippy) in
  if (skippy <? 0) || (next <? 0) then fail ErrInvalidLength
  else if len dAtA <? next then fail ErrUnexpectedEOF
  else
    (if negb DiscardUnknown
     then let! bz := lift (slice dAtA preIndex next) in set_msg (append bz)
     else ret ()) ;;;
    set_iNdEx next.

(** One round of the loop over the fields: [field] is the switch over the field numbers,
    without its default case. *)
Definition read_field (name : string) (field : Z → option (Z → M (rstate T) unit))
    (append : raw → T → T) : M (rstate T) unit :=
  let! preIndex := gets iNdEx in
  let! wire := get_varint dAtA Uint64 in
  let fieldNum := wrap Int32 (Z.shiftr wire 3) in
  let wireType := Z.land wire 7 in
  if wireType =? 4 then
    fail (Errorf ("proto: " +:+ name +:+ ": wiretype end group for non-group") [])
  else if fieldNum <=? 0 then
    fail (Errorf ("proto: " +:+ name +:+ ": illegal tag %d (wire type %d)")
                 [pretty fieldNum; pretty wire])
  else match field fieldNum with
       | Some k => k wireType
       | None => skip_unknown preIndex append
       end.

(** for iNdEx < l { ... } *)
Fixpoint read_loop (fuel : nat) (name : string) (field : Z → option (Z → M (rstate T) unit))
    (append : raw → T → T) : M (rstate T) unit :=
  match fuel with
  | O => panic diverges
  | S fuel =>
      let! i := gets iNdEx in
      if i <? len dAtA
      then read_field name field append ;;; read_loop fuel name field append
      else ret ()
  end.

(** The whole of unmarshal, for a message that is not nil. A round reads a byte at least,
    so that there are no more rounds than bytes. *)
Definition read_all (name : string) (field : Z → option (Z → M (rstate T) unit))
    (append : raw → T → T) : M (rstate T) unit :=
  read_loop (S (length dAtA)) name field append ;;;
  let! i := gets iNdEx in
  if len dAtA <? i then fail ErrUnexpectedEOF else ret ().

End fields.

(** unmarshal on a pointer: nil is left alone. *)
Definition unmarshal_into {T} (read : M (rstate T) unit) : M (option T) unit := λ x,
  match x with
  | None => (Ok (), None)
  | Some x => let '(r, s) := read (Rstate 0 x) in (r, Some (msg s))
  end.
