(* ===== verification/WireSpec.v ===== *)
(** The wire format: a reference encoding, what the writing patterns of [Wire] write, and
    what the reading patterns find in it. *)
From S2P Require Import Prelude.
From S2P Require Import GoJson.
From S2P Require Import JsonScan.
From S2P Require Import JsonRoundtrip.
From S2P Require Import Wire.

(** * Lengths and bytes *)

Lemma len_nonneg {A} (l : list A) : 0 <= len l.
Proof. unfold len. lia. Qed.

Lemma len_nil {A} : len (@nil A) = 0.
Proof. done. Qed.

Lemma len_cons {A} (a : A) l : len (a :: l) = 1 + len l.
Proof. unfold len. cbn. lia. Qed.

Lemma len_app {A} (l k : list A) : len (l ++ k) = len l + len k.
Proof. unfold len. rw length_app. lia. Qed.

Create Rewrite HintDb len_db.
#[export] Hint Rewrite @len_nil @len_cons @len_app : len_db.

(** Arithmetic over lengths. *)
Ltac len_lia :=
  autorewrite with len_db in *;
  repeat match goal with
         | |- context [len ?l] => lazymatch goal with H : 0 <= len l |- _ => fail | _ => pose proof (len_nonneg l) end
         | H : context [len ?l] |- _ => lazymatch goal with H : 0 <= len l |- _ => fail | _ => pose proof (len_nonneg l) end
         end; lia.

Lemma of_to_raw s : of_raw (to_raw s) = s.
Proof. apply String.string_of_list_ascii_of_string. Qed.

Lemma to_raw_empty s : len (to_raw s) = 0 ↔ s = "".
Proof. destruct s; unfold len; cbn; naive_solver lia. Qed.

(** * Integers of a width *)

Definition bits (w : goint) : Z := match w with Int32 => 32 | _ => 64 end.

(** The values of a type. *)
Definition is_int (w : goint) (z : Z) : Prop :=
  match w with
  | Uint64 => is_uint64 z
  | Int64 => - 2 ^ 63 <= z < 2 ^ 63
  | Int32 => - 2 ^ 31 <= z < 2 ^ 31
  end.

Lemma wrap_mod w z : wrap w z mod 2 ^ bits w = z mod 2 ^ bits w.
Proof.
  destruct w; cbn [wrap bits]; unfold wrap64, signed; [apply Zmod_mod|..];
    rw Zminus_mod_idemp_l; f_equal; lia.
Qed.

Lemma wrap_cong w a b : a mod 2 ^ bits w = b mod 2 ^ bits w → wrap w a = wrap w b.
Proof.
  destruct w; cbn [wrap bits]; unfold wrap64, signed; [done|..]; intros H;
    (rw -(Zplus_mod_idemp_l a) -(Zplus_mod_idemp_l b); by rw H).
Qed.

Lemma wrap_id w z : is_int w z → wrap w z = z.
Proof.
  destruct w; cbn [wrap is_int]; unfold is_uint64, max_uint64, wrap64, signed; intros H.
  - apply Z.mod_small. lia.
  - rw Z.mod_small; lia.
  - rw Z.mod_small; lia.
Qed.

Lemma wrap_is_int w z : is_int w (wrap w z).
Proof.
  destruct w; cbn [wrap is_int]; unfold is_uint64, max_uint64, wrap64, signed.
  - pose proof (Z.mod_pos_bound z (2 ^ 64)). lia.
  - pose proof (Z.mod_pos_bound (z + 2 ^ (64 - 1)) (2 ^ 64)). lia.
  - pose proof (Z.mod_pos_bound (z + 2 ^ (32 - 1)) (2 ^ 32)). lia.
Qed.

Lemma lor_mod a b n : 0 <= n → Z.lor a b mod 2 ^ n = Z.lor (a mod 2 ^ n) (b mod 2 ^ n).
Proof. intros Hn. rw -!Z.land_ones //. apply Z.land_lor_distr_l. Qed.

(** Dropping the high bits of the parts first makes no difference. *)
Lemma wrap_lor w a b : wrap w (Z.lor (wrap w a) (wrap w b)) = wrap w (Z.lor a b).
Proof.
  assert (0 <= bits w) as Hb by by destruct w.
  apply wrap_cong. rw !(lor_mod _ _ _ Hb) !wrap_mod. done.
Qed.

Lemma wrap_wrap w a : wrap w (wrap w a) = wrap w a.
Proof. apply wrap_id, wrap_is_int. Qed.

Lemma wrap64_bounds z : is_uint64 (wrap Uint64 z).
Proof. apply (wrap_is_int Uint64). Qed.

(** Through an unsigned number of 64 bits and back. *)
Lemma wrap_through w z : is_int w z → wrap w (wrap Uint64 z) = z.
Proof.
  intros Hz. rw -{2}(wrap_id w z Hz). apply wrap_cong. destruct w; cbn [bits wrap]; unfold wrap64.
  1,2: apply Zmod_mod.
  apply Z.mod_mod_divide. by exists (2 ^ 32).
Qed.

(** * The reference encoding *)

(** A number in groups of seven bits, the lowest first; ten groups hold 64 bits. *)
Fixpoint varint_go (n : nat) (v : Z) : raw :=
  match n with
  | O => []
  | S n => if v <? 128 then [chr v] else chr (v mod 128 + 128) :: varint_go n (v / 128)
  end.

Definition varint (v : Z) : raw := varint_go 10 v.

(** The groups after the first. *)
Lemma group_bound n v :
  128 <= v < 2 ^ (7 * Z.of_nat (S n)) → 0 < v / 128 < 2 ^ (7 * Z.of_nat n) ∧ (0 < n)%nat.
Proof.
  intros Hv. assert (0 < v / 128 < 2 ^ (7 * Z.of_nat n)) as H.
  { split; [apply Z.div_str_pos; lia|]. apply Z.div_lt_upper_bound; [lia|].
    change 128 with (2 ^ 7). rw -Z.pow_add_r; [|lia..].
    replace (7 + 7 * Z.of_nat n) with (7 * Z.of_nat (S n)) by lia. lia. }
  split; [done|]. destruct n; [cbn in H; lia|lia].
Qed.

Definition enc_delimited (tag : Z) (s : raw) : raw := chr tag :: varint (wrap Uint64 (len s)) ++ s.

Definition enc_bytes (tag : Z) (s : bytes) : raw :=
  if is_empty s then [] else enc_delimited tag (to_raw s).

Definition enc_number (tag v : Z) : raw :=
  if v =? 0 then [] else chr tag :: varint (wrap Uint64 v).

Definition enc_pointer {A} `{!ProtoMessage A} (tag : Z) (x : option A) : raw :=
  match options_Marshal x with Ok bz => enc_delimited tag bz | _ => [] end.

Definition enc_message {A} `{!ProtoMessage A} (tag : Z) (x : option A) : raw :=
  match x with Some _ => enc_pointer tag x | None => [] end.

Definition enc_strings (tag : Z) (ss : list bytes) : raw :=
  concat ((λ s, enc_delimited tag (to_raw s)) <$> ss).

Definition enc_messages {A} `{!ProtoMessage A} (tag : Z) (xs : list (option A)) : raw :=
  concat (enc_pointer tag <$> xs).

(** * What the runtime and the other messages promise *)

(** The bytes [bs] put in front of the part of the buffer that is written. *)
Definition put_before (bs : raw) (b : wbuf) : wbuf :=
  Wbuf (take (Z.to_nat (wi b - len bs)) (wdata b) ++ bs ++ drop (Z.to_nat (wi b)) (wdata b))
       (wi b - len bs).

(** [m] writes [bs], wherever there is room for it. *)
Definition writes (m : M wbuf unit) (bs : raw) : Prop :=
  ∀ b, len bs <= wi b <= len (wdata b) → m b = (Ok (), put_before bs b).

Definition no_panic {A} (r : res A) : Prop := match r with Panic _ => False | _ => True end.

(** cosmos-proto/runtime: [Sov] is the length of the varint, [EncodeVarint] writes it, and
    [Skip] answers a positive number that an [int] holds, or an error. *)
Class WireRuntimeLaws (WR : WireRuntime) : Prop := {
  Sov_length v : is_uint64 v → Sov v = len (varint v);
  EncodeVarint_writes v : is_uint64 v → writes (EncodeVarint v) (varint v);
  Skip_no_panic bz : len bz < 2 ^ 63 → no_panic (Skip bz);
  Skip_positive bz n : len bz < 2 ^ 63 → Skip bz = Ok n → 0 < n < 2 ^ 63
}.

(** A message that can be written: a message of the size that was computed comes out, and
    reading it gives the message back. [proto_ok] holds of the messages this is said of. *)
Class ProtoLaws A (PM : ProtoMessage A) := {
  proto_ok : A → Prop;
  proto_Marshal x : ∃ bz, options_Marshal x = Ok bz ∧ options_Size x = len bz;
  proto_roundtrip x bz :
    proto_ok x → options_Marshal (Some x) = Ok bz → len bz < 2 ^ 63 →
    options_Unmarshal false bz (Some proto_new) = (Ok (), Some x);
  proto_total d bz x : len bz < 2 ^ 63 → no_panic (options_Unmarshal d bz x).1
}.
Arguments proto_ok {A PM _}.

(** * Writing *)

Lemma writes_ret : writes (ret ()) [].
Proof.
  intros [d i] H. unfold put_before, ret. cbn [wdata wi len length] in *. rw Z.sub_0_r app_nil_l take_drop. done.
Qed.

Lemma put_before_app b1 b2 b :
  len (b2 ++ b1) <= wi b <= len (wdata b) → put_before b2 (put_before b1 b) = put_before (b2 ++ b1) b.
Proof.
  intros H. unfold put_before. cbn [wdata wi]. rw len_app. rw len_app in H.
  pose proof (len_nonneg b1). pose proof (len_nonneg b2). unfold len in *.
  f_equal; [|lia]. rw take_app_le; [|rw length_take; lia]. rw take_take.
  rw Nat.min_l; [|lia]. rw drop_app_ge; [|rw length_take; lia]. rw length_take Nat.min_l; [|lia].
  rw Nat.sub_diag drop_0 -app_assoc. do 2 f_equal. lia.
Qed.

Lemma writes_bind m1 m2 b1 b2 : writes m1 b1 → writes m2 b2 → writes (m1 ;;; m2) (b2 ++ b1).
Proof.
  intros H1 H2 b Hb. pose proof Hb as Hb'. rw len_app in Hb'.
  pose proof (len_nonneg b1). pose proof (len_nonneg b2).
  rw (bind_ok _ _ _ () (put_before b1 b)); [|apply H1; lia]. rw H2; [by rw put_before_app|].
  unfold put_before, len in *. cbn [wdata wi]. rw !length_app length_take length_drop. lia.
Qed.

Lemma writes_lift {A} (r : res A) a k bs :
  r = Ok a → writes (k a) bs → writes (let! x := lift r in k x) bs.
Proof. intros ->. done. Qed.

Lemma writes_copy_back s : writes (copy_back s) s.
Proof.
  intros [d i] H. cbn [wdata wi] in H. unfold copy_back, put_before. cbn [wdata wi].
  pose proof (len_nonneg s). rw (proj2 (Z.leb_le 0 _)); [|lia]. rw (proj2 (Z.leb_le _ (len d))); [|lia].
  cbn [andb]. do 2 f_equal. unfold len in *. rw (take_ge s); [|lia].
  rw -{1}(take_drop (Z.to_nat (i - Z.of_nat (length s))) d).
  rw -{1}(Nat.add_0_r (Z.to_nat (i - Z.of_nat (length s)))).
  rw -{1}(length_take_le d (Z.to_nat (i - Z.of_nat (length s)))); [|lia].
  rw list_inserts_app_r. f_equal.
  rw -(take_drop (length s) (drop _ d)) list_inserts_0_r; [|rw length_take length_drop; lia].
  f_equal. rw drop_drop. f_equal. lia.
Qed.

Lemma writes_put_tag tag : writes (put_tag tag) [chr tag].
Proof.
  intros [d i] H. autorewrite with len_db in H. cbn [wdata wi] in H.
  unfold put_tag, bind, modify, store_byte, put_before. cbn [wdata wi].
  rw (proj2 (Z.leb_le 0 _)); [|lia]. rw (proj2 (Z.ltb_lt _ (len d))); [|lia].
  cbn [andb]. autorewrite with len_db. rw Z.add_0_r. do 2 f_equal. unfold len in *.
  rw insert_take_drop; [|lia]. f_equal. cbn. do 2 f_equal. lia.
Qed.

Section write.
Context {WR : WireRuntime} {WL : WireRuntimeLaws WR}.

Lemma writes_delimited tag s : writes (put_delimited tag s) (enc_delimited tag s).
Proof.
  unfold put_delimited, enc_delimited. rw (app_comm_cons _ s). apply writes_bind; [apply writes_copy_back|].
  apply (writes_bind _ _ _ [chr tag]); [|apply writes_put_tag]. apply EncodeVarint_writes, wrap64_bounds.
Qed.

Lemma writes_bytes tag s : writes (put_bytes tag s) (enc_bytes tag s).
Proof.
  unfold put_bytes, enc_bytes. destruct s as [|a s]; [apply writes_ret|].
  rw (proj2 (Z.ltb_lt _ _)); [|by unfold len; cbn; lia]. apply writes_delimited.
Qed.

Lemma writes_number tag v : writes (put_number tag v) (enc_number tag v).
Proof.
  unfold put_number, enc_number. destruct (v =? 0); cbn [negb]; [apply writes_ret|].
  apply (writes_bind _ _ _ [chr tag]); [|apply writes_put_tag]. apply EncodeVarint_writes, wrap64_bounds.
Qed.

Lemma writes_rev {A} (l : list A) body enc :
  (∀ x, x ∈ l → writes (body x) (enc x)) → writes (for_each (reverse l) body) (concat (enc <$> l)).
Proof.
  intros H. rw -{2}(reverse_involutive l).
  assert (∀ x, x ∈ reverse l → writes (body x) (enc x)) as H' by (intros x; rw elem_of_reverse; auto).
  revert H'. generalize (reverse l). clear. intros l H. induction l as [|x l IH]; [apply writes_ret|].
  rw reverse_cons fmap_app concat_app. cbn [for_each fmap list_fmap concat]. rw app_nil_r.
  apply writes_bind; [apply H; left|apply IH; intros y Hy; apply H; by right].
Qed.

Lemma writes_strings tag ss : writes (put_strings tag ss) (enc_strings tag ss).
Proof. apply writes_rev. intros s _. apply writes_delimited. Qed.

Section messages.
Context {A} `{PL : ProtoLaws A}.

Lemma writes_encoded tag (x : option A) : writes (put_encoded tag x) (enc_pointer tag x).
Proof.
  destruct (proto_Marshal x) as (bz & H & _). unfold put_encoded, enc_pointer. rw H.
  apply writes_delimited.
Qed.

Lemma writes_message tag (x : option A) : writes (put_message tag x) (enc_message tag x).
Proof. destruct x; [apply writes_encoded|apply writes_ret]. Qed.

Lemma writes_messages tag (xs : list (option A)) : writes (put_messages tag xs) (enc_messages tag xs).
Proof. apply writes_rev. intros x _. apply writes_encoded. Qed.

(** ** Sizes *)

Lemma enc_delimited_len tag s : len (enc_delimited tag s) = 1 + len s + Sov (wrap Uint64 (len s)).
Proof. unfold enc_delimited. rw Sov_length; [len_lia|apply wrap64_bounds]. Qed.

Lemma size_pointer_len tag (x : option A) :
  1 + options_Size x + Sov (wrap Uint64 (options_Size x)) = len (enc_pointer tag x).
Proof.
  destruct (proto_Marshal x) as (bz & H & ->). unfold enc_pointer. rw H. by rw enc_delimited_len.
Qed.

Lemma size_message_len tag (x : option A) : size_message x = len (enc_message tag x).
Proof. destruct x; [apply size_pointer_len|done]. Qed.

Lemma sum_list_len {B} (l : list B) (size : B → Z) (enc : B → raw) :
  (∀ x, size x = len (enc x)) → sum_list_Z (size <$> l) = len (concat (enc <$> l)).
Proof. intros H. induction l as [|x l IH]; [done|]. cbn. rw IH H. len_lia. Qed.

Lemma size_messages_len tag (xs : list (option A)) : size_messages xs = len (enc_messages tag xs).
Proof. apply sum_list_len. intros x. apply size_pointer_len. Qed.

End messages.

Lemma size_strings_len tag ss : size_strings ss = len (enc_strings tag ss).
Proof. apply sum_list_len. intros x. symmetry. apply enc_delimited_len. Qed.

Lemma size_bytes_len tag s : size_bytes s = len (enc_bytes tag s).
Proof.
  unfold size_bytes, enc_bytes. destruct s as [|a s]; [done|].
  rw (proj2 (Z.ltb_lt _ _)); [|by unfold len; cbn; lia]. symmetry. apply enc_delimited_len.
Qed.

Lemma size_number_len tag v : size_number v = len (enc_number tag v).
Proof.
  unfold size_number, enc_number. destruct (v =? 0); cbn [negb]; [done|].
  rw Sov_length; [len_lia|apply wrap64_bounds].
Qed.

End write.

(** A buffer of the size of what is written holds it and nothing else. *)
Lemma marshal_into_writes size m bs Buf :
  writes m bs → size = len bs → marshal_into size m Buf = (Ok (), Buf ++ bs).
Proof.
  intros H ->. unfold marshal_into. pose proof (len_nonneg bs). rw (proj2 (Z.leb_le 0 _)) //.
  rw H; [|cbn [wdata wi]; unfold len; rw length_replicate; lia]. unfold put_before. cbn [wdata wi].
  rw Z.sub_diag drop_ge; [|rw length_replicate; unfold len; lia]. rw app_nil_r. done.
Qed.
