(* ===== verification/WireRead.v ===== *)
(** The wire format, reading: the loops of [Wire] find in a reference encoding what was
    encoded, and end without a panic on any bytes whatever. *)
From S2P Require Import Prelude.
From S2P Require Import GoJson.
From S2P Require Import JsonScan.
From S2P Require Import JsonRoundtrip.
From S2P Require Import Wire.
From S2P Require Import WireSpec.

(** * Varints *)

Lemma land_127 z : Z.land z 127 = z mod 128.
Proof. apply (Z.land_ones z 7). lia. Qed.

(** A number as its lowest group and the others. *)
Lemma group_split u s : 0 <= s →
  Z.lor (Z.shiftl (u mod 128) s) (Z.shiftl (u / 128) (s + 7)) = Z.shiftl u s.
Proof.
  intros Hs. apply Z.bits_inj'. intros n Hn. rw Z.lor_spec !Z.shiftl_spec //.
  change 128 with (2 ^ 7). rw -Z.shiftr_div_pow2 //. rw Z.add_comm Z.sub_add_distr.
  destruct (Z.ltb_spec (n - s) 7) as [H|H].
  - rw (Z.testbit_neg_r _ (n - 7 - s)); [|lia]. rw orb_false_r.
    destruct (Z.ltb_spec (n - s) 0); [by rw !Z.testbit_neg_r|]. rw Z.mod_pow2_bits_low //.
  - rw Z.mod_pow2_bits_high; [|lia]. cbn [orb]. rw Z.shiftr_spec; [|lia]. f_equal. lia.
Qed.

Section read.
Context {WE : WireErrors} {T : Type}.
Implicit Types (x : T) (pre rest bs : raw).

Lemma at_index_app pre a rest : at_index (pre ++ a :: rest) (len pre) = Ok a.
Proof.
  unfold at_index. rw (proj2 (Z.leb_le 0 _)); [|apply len_nonneg]. unfold len. rw Nat2Z.id.
  by rw list_lookup_middle.
Qed.

Lemma slice_app pre bs rest : slice (pre ++ bs ++ rest) (len pre) (len pre + len bs) = Ok bs.
Proof.
  unfold slice. rw (proj2 (Z.leb_le 0 _)); [|apply len_nonneg].
  rw (proj2 (Z.leb_le (len pre) _)); [|len_lia]. rw (proj2 (Z.leb_le _ (len _))); [|len_lia].
  cbn [andb]. unfold len. rw Nat2Z.id drop_app_length. replace (Z.to_nat _) with (length bs) by lia.
  by rw take_app_length.
Qed.

(** One round of the loop, at the byte [a]. *)
Lemma varint_round pre a rest fuel w store shift v x :
  shift < 64 →
  varint_loop (pre ++ a :: rest) (S fuel) w store shift v (Rstate (len pre) x) =
  let v := wrap w (Z.lor v (wrap w (Z.shiftl (Z.land (byte_Z a) 127) shift))) in
  (if byte_Z a <? 128 then ret v else varint_loop (pre ++ a :: rest) fuel w store (shift + 7) v)
    (Rstate (len pre + 1) (store v x)).
Proof.
  intros Hs. cbn [varint_loop]. rw (proj2 (Z.leb_gt 64 _)) //. unfold gets, bind at 1. cbn [iNdEx].
  rw (proj2 (Z.leb_gt (len _) _)); [|len_lia]. unfold bind at 1, lift. rw at_index_app. done.
Qed.

(** What the loop reads: the number shifted to its place, beside what was read before. *)
Lemma varint_loop_read n w store : (∀ a b x, store a (store b x) = store a x) →
  ∀ u pre rest fuel shift v x, 0 <= u < 2 ^ (7 * Z.of_nat n) → (0 < n <= fuel)%nat →
  0 <= shift → shift + 7 * Z.of_nat n <= 70 → v = wrap w v →
  varint_loop (pre ++ varint_go n u ++ rest) fuel w store shift v (Rstate (len pre) x) =
  let v := wrap w (Z.lor v (Z.shiftl u shift)) in
  (Ok v, Rstate (len pre + len (varint_go n u)) (store v x)).
Proof.
  intros Hst. induction n as [|n IH]; intros u pre rest fuel shift v x Hu Hf Hs Hn Hv; [lia|].
  destruct fuel as [|fuel]; [lia|]. cbn [varint_go].
  assert (∀ k, wrap w (Z.lor v (wrap w (Z.shiftl k shift))) = wrap w (Z.lor v (Z.shiftl k shift))) as Hw.
  { intros k. by rw -(wrap_lor w v (Z.shiftl k shift)) -Hv. }
  destruct (Z.ltb_spec u 128) as [H|H].
  - cbn [app]. rw varint_round; [|lia]. rw byte_chr; [|lia]. rw (proj2 (Z.ltb_lt u _)) // land_127 Z.mod_small; [|lia].
    cbn zeta. rw Hw. done.
  - destruct (group_bound n u) as [Hu' Hn0]; [lia|].
    pose proof (Z.mod_pos_bound u 128).
    cbn [app]. rw varint_round; [|lia]. rw byte_chr; [|lia]. rw (proj2 (Z.ltb_ge _ 128)); [|lia].
    rw land_127.
    replace ((u mod 128 + 128) mod 128) with (u mod 128)
      by (Z.div_mod_to_equations; lia).
    cbn zeta. rw Hw. replace (pre ++ chr (u mod 128 + 128) :: varint_go n (u / 128) ++ rest)
      with ((pre ++ [chr (u mod 128 + 128)]) ++ varint_go n (u / 128) ++ rest) by by rw -app_assoc.
    replace (len pre + 1) with (len (pre ++ [chr (u mod 128 + 128)])) by len_lia.
    rw IH; [|lia..|by rw wrap_wrap]. cbn zeta. rw Hst.
    replace (wrap w (Z.lor (wrap w (Z.lor v (Z.shiftl (u mod 128) shift))) (Z.shiftl (u / 128) (shift + 7))))
      with (wrap w (Z.lor v (Z.shiftl u shift))).
    + f_equal. f_equal. len_lia.
    + rw -(wrap_lor w (wrap w _)) wrap_wrap wrap_lor -Z.lor_assoc group_split //.
Qed.

Lemma get_varint_read w u pre rest x :
  is_uint64 u →
  get_varint (pre ++ varint u ++ rest) w (Rstate (len pre) x) =
  (Ok (wrap w u), Rstate (len pre + len (varint u)) x).
Proof.
  unfold is_uint64, max_uint64. intros Hu. unfold get_varint, varint.
  rw varint_loop_read //; [lia..|by destruct w].
Qed.

Lemma get_number_read w set u pre rest x :
  (∀ a b x, set a (set b x) = set a x) → is_uint64 u →
  get_number (pre ++ varint u ++ rest) w set (Rstate (len pre) x) =
  (Ok (), Rstate (len pre + len (varint u)) (set (wrap w u) x)).
Proof.
  unfold is_uint64, max_uint64. intros Hs Hu. unfold get_number, bind, set_msg, modify, varint. cbn [iNdEx msg].
  rw varint_loop_read //; [|lia..|by destruct w]. cbn zeta. by rw Hs.
Qed.

(** * Fields with a length *)

Lemma post_index_read n dAtA p x :
  0 <= n → 0 <= p → p + n <= len dAtA → len dAtA < 2 ^ 63 →
  post_index dAtA n (Rstate p x) = (Ok (p + n), Rstate p x).
Proof.
  intros Hn Hp Hl H63. unfold post_index. rw (proj2 (Z.ltb_ge n 0)) //.
  rw (bind_ok _ _ _ p (Rstate p x)) //. cbn zeta. rw (wrap_id Int64 (p + n)); [|cbn; lia].
  rw (proj2 (Z.ltb_ge (p + n) 0)); [|lia]. rw (proj2 (Z.ltb_ge (len _) _)); [done|lia].
Qed.

(** A length and as many bytes: what follows works on the bytes, behind them. *)
Lemma delimited_read {w} conv (k : raw → M (rstate T) unit) pre s rest x y :
  len (pre ++ (varint (len s) ++ s) ++ rest) < 2 ^ 63 → conv (wrap w (len s)) = len s →
  (∀ p, k s (Rstate p x) = (Ok (), Rstate p y)) →
  let dAtA := pre ++ (varint (len s) ++ s) ++ rest in
  (let! n := get_varint dAtA w in
   let! postIndex := post_index dAtA (conv n) in
   with_slice dAtA postIndex k) (Rstate (len pre) x) =
  (Ok (), Rstate (len pre + len (varint (len s) ++ s)) y).
Proof.
  intros H63 Hw Hk dAtA. assert (is_uint64 (len s)) as Hs.
  { unfold is_uint64, max_uint64. split; [apply len_nonneg|len_lia]. }
  unfold dAtA at 1. rw -(app_assoc (varint (len s))). unfold bind at 1. rw get_varint_read // Hw.
  unfold bind at 1. rw post_index_read; [|apply len_nonneg|len_lia|subst dAtA; len_lia|done].
  unfold with_slice, bind, gets, lift. cbn [iNdEx].
  assert (slice dAtA (len pre + len (varint (len s))) (len pre + len (varint (len s)) + len s) = Ok s) as ->.
  { rw -len_app. replace dAtA with ((pre ++ varint (len s)) ++ s ++ rest) by (subst dAtA; by rw -!app_assoc).
    apply slice_app. }
  rw Hk. unfold set_iNdEx, modify. cbn [msg]. do 2 f_equal. len_lia.
Qed.

End read.

(** * Fields *)

Section read_fields.
Context {T : Type}.
Implicit Types (x : T) (pre rest bs : raw).

Section fields.
Context {WR : WireRuntime} {d : bool} (name : string).
Context (field : raw → Z → option (Z → M (rstate T) unit)) (append : raw → T → T).

(** A round of the loop at [bs] takes the message from [x] to [y] and the index behind it. *)
Definition advances (bs : raw) (x y : T) : Prop :=
  bs ≠ [] ∧ ∀ pre rest, len (pre ++ bs ++ rest) < 2 ^ 63 →
  read_field (pre ++ bs ++ rest) d name (field (pre ++ bs ++ rest)) append (Rstate (len pre) x) =
  (Ok (), Rstate (len pre + len bs) y).

(** The rounds of the loop over [bs]. *)
Inductive reads : raw → T → T → Prop :=
| reads_nil x : reads [] x x
| reads_cons bs bs' x y z : advances bs x y → reads bs' y z → reads (bs ++ bs') x z.

Lemma reads_one bs x y : advances bs x y → reads bs x y.
Proof. intros H. rw -(app_nil_r bs). eapply reads_cons; [done|constructor]. Qed.

Lemma reads_app bs bs' x y z : reads bs x y → reads bs' y z → reads (bs ++ bs') x z.
Proof.
  intros H. revert bs' z. induction H as [|? ? ? ? ? H1 _ IH]; intros bs2 w H2; [done|].
  rw -app_assoc. eapply reads_cons; eauto.
Qed.

(** The tag of field [num] is read back, and the rest is left to the case of the field. *)
Lemma read_field_wire dAtA num wt pre rest x :
  dAtA = pre ++ varint (8 * num + wt) ++ rest →
  1 <= num < 2 ^ 29 → 0 <= wt < 8 → wt ≠ 4 →
  read_field dAtA d name (field dAtA) append (Rstate (len pre) x) =
  match field dAtA num with
  | Some k => k wt
  | None => skip_unknown dAtA d (len pre) append
  end (Rstate (len pre + len (varint (8 * num + wt))) x).
Proof.
  intros Hd Hn Hw Hw4. unfold read_field, bind, gets. cbn [iNdEx]. rw {1}Hd get_varint_read.
  2: { unfold is_uint64, max_uint64. lia. }
  rw (wrap_id Uint64); [|cbn; unfold is_uint64, max_uint64; lia].
  assert (Z.shiftr (8 * num + wt) 3 = num) as ->.
  { rw Z.shiftr_div_pow2 //. Z.div_mod_to_equations. lia. }
  assert (Z.land (8 * num + wt) 7 = wt) as ->.
  { change 7 with (Z.ones 3). rw Z.land_ones //. change (2 ^ 3) with 8. Z.div_mod_to_equations. lia. }
  rw (wrap_id Int32); [|cbn; lia]. rw (proj2 (Z.eqb_neq wt 4)) // (proj2 (Z.leb_gt num 0)); [done|lia].
Qed.

Lemma read_field_tag dAtA num wt k pre rest x :
  dAtA = pre ++ varint (8 * num + wt) ++ rest →
  1 <= num < 2 ^ 29 → 0 <= wt < 8 → wt ≠ 4 → field dAtA num = Some k →
  read_field dAtA d name (field dAtA) append (Rstate (len pre) x) =
  k wt (Rstate (len pre + len (varint (8 * num + wt))) x).
Proof.
  intros Hd Hn Hw Hw4 Hf. by rw (read_field_wire dAtA num wt pre rest) // Hf.
Qed.

Lemma read_field_none dAtA num wt pre rest x :
  dAtA = pre ++ varint (8 * num + wt) ++ rest →
  1 <= num < 2 ^ 29 → 0 <= wt < 8 → wt ≠ 4 → field dAtA num = None →
  read_field dAtA d name (field dAtA) append (Rstate (len pre) x) =
  skip_unknown dAtA d (len pre) append (Rstate (len pre + len (varint (8 * num + wt))) x).
Proof.
  intros Hd Hn Hw Hw4 Hf. by rw (read_field_wire dAtA num wt pre rest) // Hf.
Qed.

Lemma varint_small v : 0 <= v < 128 → varint v = [chr v].
Proof. intros H. unfold varint. cbn [varint_go]. by rw (proj2 (Z.ltb_lt v 128)); [|lia]. Qed.

(** A field whose tag is one byte, given what its case does after it. *)
Lemma advances_field num wt tag k body x y :
  1 <= num <= 15 → 0 <= wt < 8 → wt ≠ 4 → tag = 8 * num + wt →
  (∀ dAtA, field dAtA num = Some (k dAtA)) →
  (∀ pre rest, len (pre ++ body ++ rest) < 2 ^ 63 →
    k (pre ++ body ++ rest) wt (Rstate (len pre) x) = (Ok (), Rstate (len pre + len body) y)) →
  advances (chr tag :: body) x y.
Proof.
  intros Hn Hw Hw4 Ht Hf Hk. split; [done|]. intros pre rest H63.
  rw (read_field_tag _ num wt (k (pre ++ (chr tag :: body) ++ rest)) pre (body ++ rest)); [|rw varint_small; [by subst tag|lia]|lia|done..].
  rw -Ht varint_small; [|lia]. replace (pre ++ (chr tag :: body) ++ rest) with ((pre ++ [chr tag]) ++ body ++ rest)
    by by rw -app_assoc. rw -len_app Hk; [|len_lia]. do 2 f_equal. len_lia.
Qed.

Lemma expect_wire_same n nm k : expect_wire n nm n k = (k : M (rstate T) unit).
Proof. unfold expect_wire. by rw Z.eqb_refl. Qed.

(** A field with a length. *)
Lemma advances_delimited {w} conv num nm tag (k : raw → raw → M (rstate T) unit) s x y :
  1 <= num <= 15 → tag = 8 * num + 2 →
  (∀ dAtA, field dAtA num = Some (λ wt, expect_wire 2 nm wt
     (let! n := get_varint dAtA w in
      let! postIndex := post_index dAtA (conv n) in
      with_slice dAtA postIndex (k dAtA)))) →
  len s < 2 ^ 63 → conv (wrap w (len s)) = len s →
  (∀ dAtA p, k dAtA s (Rstate p x) = (Ok (), Rstate p y)) →
  advances (enc_delimited tag s) x y.
Proof.
  intros Hn Ht Hf Hs Hw Hk. unfold enc_delimited. rw (wrap_id Uint64).
  2: { cbn. unfold is_uint64, max_uint64. pose proof (len_nonneg s). lia. }
  eapply (advances_field num 2); [done..|exact Hf|]. intros pre rest H63. cbn beta.
  rw expect_wire_same. by apply delimited_read.
Qed.

(** ** The kinds of fields *)

(** A string, or a byte slice, that is left out when it is empty. *)
Lemma reads_string num nm tag set s x :
  (∀ dAtA, field dAtA num = Some (λ wt, expect_wire 2 nm wt (get_string dAtA set))) →
  1 <= num <= 15 → tag = 8 * num + 2 → len (enc_bytes tag s) < 2 ^ 63 → (s = "" → set s x = x) →
  reads (enc_bytes tag s) x (set s x).
Proof.
  intros Hf Hn Ht Hl He. unfold enc_bytes in *. destruct (is_empty s) eqn:Hs.
  { apply is_empty_true in Hs. rw He //. constructor. }
  apply reads_one. unfold enc_delimited in Hl. eapply (advances_delimited (wrap Int64) num); [done|done|exact Hf| | |].
  - len_lia.
  - rw (wrap_id Uint64); [|cbn; unfold is_uint64, max_uint64; len_lia]. apply wrap_id. cbn. len_lia.
  - intros dAtA p. unfold set_msg, modify. cbn [iNdEx msg]. by rw of_to_raw.
Qed.

Lemma reads_bytes num nm tag set s x :
  (∀ dAtA, field dAtA num = Some (λ wt, expect_wire 2 nm wt (get_bytes dAtA set))) →
  1 <= num <= 15 → tag = 8 * num + 2 → len (enc_bytes tag s) < 2 ^ 63 → (s = "" → set s x = x) →
  reads (enc_bytes tag s) x (set s x).
Proof.
  intros Hf Hn Ht Hl He. unfold enc_bytes in *. destruct (is_empty s) eqn:Hs.
  { apply is_empty_true in Hs. rw He //. constructor. }
  apply reads_one. unfold enc_delimited in Hl. eapply (advances_delimited (λ n, n) num); [done|done|exact Hf| | |].
  - len_lia.
  - apply wrap_id. cbn. len_lia.
  - intros dAtA p. unfold set_msg, modify. cbn [iNdEx msg]. by rw of_to_raw.
Qed.

(** A number that is left out when it is zero. *)
Lemma reads_number w num nm tag set v x :
  (∀ dAtA, field dAtA num = Some (λ wt, expect_wire 0 nm wt (get_number dAtA w set))) →
  1 <= num <= 15 → tag = 8 * num → is_int w v →
  (∀ a b x, set a (set b x) = set a x) → (v = 0 → set v x = x) →
  reads (enc_number tag v) x (set v x).
Proof.
  intros Hf Hn Ht Hv Hs He. unfold enc_number. destruct (Z.eqb_spec v 0) as [E|_]; [rw He //; constructor|].
  apply reads_one. eapply (advances_field num 0); [done..|by rw Z.add_0_r|exact Hf|].
  intros pre rest H63. cbn beta. rw expect_wire_same get_number_read //; [|apply wrap64_bounds].
  by rw wrap_through.
Qed.

(** Repeated strings are appended one by one. *)
Lemma reads_strings num nm tag (get : T → list bytes) set ss x :
  (∀ dAtA, field dAtA num = Some (λ wt, expect_wire 2 nm wt
     (get_string dAtA (λ s x, set (get x ++ [s]) x)))) →
  1 <= num <= 15 → tag = 8 * num + 2 → len (enc_strings tag ss) < 2 ^ 63 →
  (∀ l x, get (set l x) = l) → (∀ l l' x, set l (set l' x) = set l x) → (∀ x, set (get x) x = x) →
  reads (enc_strings tag ss) x (set (get x ++ ss) x).
Proof.
  intros Hf Hn Ht Hl Hgs Hss Hsg. unfold enc_strings in *. revert x Hl.
  induction ss as [|s ss IH]; intros x Hl; cbn [fmap list_fmap concat] in *.
  { rw app_nil_r Hsg. constructor. }
  apply (reads_cons _ _ _ (set (get x ++ [s]) x)).
  - unfold enc_delimited in Hl. eapply (advances_delimited (wrap Int64) num); [done|done|exact Hf| | |].
    + len_lia.
    + rw (wrap_id Uint64); [|cbn; unfold is_uint64, max_uint64; len_lia]. apply wrap_id. cbn. len_lia.
    + intros dAtA p. unfold set_msg, modify. cbn [iNdEx msg]. by rw of_to_raw.
  - specialize (IH (set (get x ++ [s]) x)). rw Hgs Hss -app_assoc in IH. apply IH. len_lia.
Qed.

Section messages.
Context {A} {PM : ProtoMessage A} {PL : ProtoLaws A PM}.

(** A message that is not nil, read into a field that is. *)
Lemma reads_message num nm tag (get : T → option A) set m x :
  (∀ dAtA, field dAtA num = Some (λ wt, expect_wire 2 nm wt (get_message dAtA false get set))) →
  1 <= num <= 15 → tag = 8 * num + 2 → len (enc_message tag m) < 2 ^ 63 →
  (∀ l x, get (set l x) = l) → (∀ l l' x, set l (set l' x) = set l x) → set None x = x →
  (∀ a, m = Some a → proto_ok a) →
  reads (enc_message tag m) x (set m x).
Proof.
  intros Hf Hn Ht Hl Hgs Hss Hnil Hok. destruct m as [a|]; cbn [enc_message] in *; [|rw Hnil; constructor].
  destruct (proto_Marshal (Some a)) as (bz & Hm & _). unfold enc_pointer in *. rw Hm in Hl. rw Hm.
  apply reads_one. unfold enc_delimited in Hl. eapply (advances_delimited (λ n, n) num); [done|done|exact Hf| | |].
  - len_lia.
  - apply wrap_id. cbn. len_lia.
  - intros dAtA p. unfold bind, set_msg, modify, unmarshal_field, zoom. cbn [iNdEx msg].
    assert (get x = None) as -> by by rw -Hnil Hgs.
    rw Hgs (proto_roundtrip a); [by rw Hss|by apply Hok|done|len_lia].
Qed.

(** Repeated messages, none of them nil. *)
Lemma reads_messages num nm tag (get : T → list (option A)) set ms x :
  (∀ dAtA, field dAtA num = Some (λ wt, expect_wire 2 nm wt (get_messages dAtA false get set))) →
  1 <= num <= 15 → tag = 8 * num + 2 → len (enc_messages tag ms) < 2 ^ 63 →
  (∀ l x, get (set l x) = l) → (∀ l l' x, set l (set l' x) = set l x) → (∀ x, set (get x) x = x) →
  Forall (λ m, ∃ a, m = Some a ∧ proto_ok a) ms →
  reads (enc_messages tag ms) x (set (get x ++ ms) x).
Proof.
  intros Hf Hn Ht Hl Hgs Hss Hsg Hok. unfold enc_messages in *. revert x Hl.
  induction Hok as [|m ms (a & -> & Ha) _ IH]; intros x Hl; cbn [fmap list_fmap concat] in *.
  { rw app_nil_r Hsg. constructor. }
  destruct (proto_Marshal (Some a)) as (bz & Hm & _). unfold enc_pointer at 1 in Hl. unfold enc_pointer at 1.
  rw Hm in Hl. rw Hm.
  apply (reads_cons _ _ _ (set (get x ++ [Some a]) x)).
  - unfold enc_delimited in Hl. eapply (advances_delimited (λ n, n) num); [done|done|exact Hf| | |].
    + len_lia.
    + apply wrap_id. cbn. len_lia.
    + intros dAtA p. unfold bind, set_msg, modify, unmarshal_field, zoom. cbn [iNdEx msg].
      rw !Hgs last_snoc. cbn [mjoin option_join]. rw (proto_roundtrip a); [|done|done|len_lia].
      by rw Hss length_app Nat.add_sub take_app_length.
  - specialize (IH (set (get x ++ [Some a]) x)). rw Hgs Hss -app_assoc in IH. apply IH. len_lia.
Qed.

End messages.

End fields.

(** ** Unknown fields *)

Section unknown.
Context {WR : WireRuntime} (name : string).
Context (field : raw → Z → option (Z → M (rstate T) unit)) (append : raw → T → T).

(** A field with a number the message does not have, of a wire type that is not the end of
    a group, which [Skip] delimits whatever follows it. *)
Definition raw_field (f : raw) : Prop :=
  ∃ num wt body, f = varint (8 * num + wt) ++ body ∧ 1 <= num < 2 ^ 29 ∧ 0 <= wt < 8 ∧ wt ≠ 4 ∧
  (∀ dAtA, field dAtA num = None) ∧ ∀ rest, Skip (f ++ rest) = Ok (len f).

(** The unknown fields of a message: a sequence of such fields. *)
Inductive raw_fields : raw → Prop :=
| raw_fields_nil : raw_fields []
| raw_fields_cons f fs : raw_field f → f ≠ [] → raw_fields fs → raw_fields (f ++ fs).

Lemma read_unknown {d} f x :
  raw_field f → f ≠ [] → advances (d:=d) name field append f x (if d then x else append f x).
Proof.
  intros (num & wt & body & Hf & Hn & Hw & Hw4 & Hnone & Hskip) Hne. split; [done|]. intros pre rest H63.
  set (dAtA := pre ++ f ++ rest).
  assert (read_field dAtA d name (field dAtA) append (Rstate (len pre) x) =
    skip_unknown dAtA d (len pre) append (Rstate (len pre + len (varint (8 * num + wt))) x)) as ->.
  { rw (read_field_none _ _ _ dAtA num wt pre (body ++ rest)) //. subst dAtA. rw Hf. by rw -app_assoc. }
  unfold skip_unknown, bind, set_iNdEx, modify, lift. cbn [iNdEx msg].
  assert (slice dAtA (len pre) (len dAtA) = Ok (f ++ rest)) as ->.
  { subst dAtA. replace (len (pre ++ f ++ rest)) with (len pre + len (f ++ rest)) by len_lia.
    rw -{1}(app_nil_r (f ++ rest)). apply slice_app. }
  rw Hskip. assert (wrap Int64 (len pre + len f) = len pre + len f) as ->.
  { apply wrap_id. cbn. subst dAtA. len_lia. }
  cbn zeta. rw (proj2 (Z.ltb_ge (len f) 0)); [|apply len_nonneg]. rw (proj2 (Z.ltb_ge (len pre + len f) 0)); [|len_lia].
  cbn [orb negb]. rw (proj2 (Z.ltb_ge (len dAtA) _)); [|subst dAtA; len_lia]. destruct d; [done|].
  subst dAtA. cbn [negb]. rw slice_app. done.
Qed.

(** Where unknown fields are discarded they are read as nothing. *)
Lemma reads_skipped fs x : raw_fields fs → reads (d:=true) name field append fs x x.
Proof.
  intros H. induction H as [|f fs Hf Hne _ IH]; [constructor|].
  eapply reads_cons; [by apply (read_unknown (d:=true))|done].
Qed.

Hypothesis append_app : ∀ a b x, append b (append a x) = append (a ++ b) x.
Hypothesis append_nil : ∀ x, append [] x = x.

Lemma reads_unknown fs x : raw_fields fs → reads (d:=false) name field append fs x (append fs x).
Proof.
  intros H. revert x. induction H as [|f fs Hf Hne _ IH]; intros x; [rw append_nil; constructor|].
  eapply reads_cons; [by apply (read_unknown (d:=false))|]. rw -append_app. apply IH.
Qed.

End unknown.

(** ** The loop *)

Section loop.
Context {WR : WireRuntime} {d : bool} (name : string).
Context (field : raw → Z → option (Z → M (rstate T) unit)) (append : raw → T → T).

Lemma read_loop_reads bs x y :
  reads (d:=d) name field append bs x y → ∀ pre fuel, len (pre ++ bs) < 2 ^ 63 → (length bs < fuel)%nat →
  read_loop (pre ++ bs) d fuel name (field (pre ++ bs)) append (Rstate (len pre) x) =
  (Ok (), Rstate (len pre + len bs) y).
Proof.
  induction 1 as [x|bs bs' x y z [Hne H] _ IH]; intros pre fuel H63 Hf; (destruct fuel as [|fuel]; [lia|]);
    cbn [read_loop]; unfold gets, bind at 1; cbn [iNdEx].
  - rw app_nil_r (proj2 (Z.ltb_ge _ _)); [|lia]. by rw len_nil Z.add_0_r.
  - rw length_app in Hf. assert (0 < length bs)%nat by (destruct bs; cbn; [done|lia]).
    rw (proj2 (Z.ltb_lt _ _)); [|unfold len in *; rw !length_app; lia]. unfold bind at 1. rw H; [|done].
    specialize (IH (pre ++ bs) fuel). rw -app_assoc in IH.
    rw -(len_app pre bs) IH; [|done|lia]. do 2 f_equal. len_lia.
Qed.

Lemma read_all_reads bs x y :
  reads (d:=d) name field append bs x y → len bs < 2 ^ 63 →
  read_all bs d name (field bs) append (Rstate 0 x) = (Ok (), Rstate (len bs) y).
Proof.
  intros H H63. unfold read_all.
  rw (bind_ok _ _ _ () (Rstate (len bs) y)); [|apply (read_loop_reads bs x y H []); [done|lia]].
  unfold bind, gets. cbn [iNdEx]. by rw Z.ltb_irrefl.
Qed.

End loop.

Lemma unmarshal_reads `{WR : WireRuntime} {d} name field append bs (x y : T) :
  reads (d:=d) name field append bs x y → len bs < 2 ^ 63 →
  unmarshal_into (read_all bs d name (field bs) append) (Some x) = (Ok (), Some y).
Proof. intros H H63. unfold unmarshal_into. by rw (read_all_reads _ _ _ _ x y). Qed.

End read_fields.

(** * No panic, and no loop without end *)

(** From a state of [P], [m] ends with an error, or with a value and a state of [Q]. *)
Definition safe {S A} (P : S → Prop) (m : M S A) (Q : A → S → Prop) : Prop :=
  ∀ s, P s → match m s with (Ok a, s1) => Q a s1 | (Err _, _) => True | (Panic _, _) => False end.

(** The sum of two indices is right, or it overflows and is negative. *)
Lemma wrap_add a b : 0 <= a < 2 ^ 63 → 0 <= b < 2 ^ 63 →
  wrap Int64 (a + b) < 0 ∨ wrap Int64 (a + b) = a + b.
Proof.
  intros Ha Hb. destruct (Z.ltb_spec (a + b) (2 ^ 63)); [right; apply wrap_id; cbn; lia|left].
  cbn [wrap]. unfold signed. rw (Z.mod_eq _ (2 ^ 64)) //.
  assert ((a + b + 2 ^ (64 - 1)) / 2 ^ 64 = 1) as ->; [|lia].
  symmetry. apply (Z.div_unique _ _ _ (a + b - 2 ^ 63)); lia.
Qed.

Section safe.
Context {S : Type}.

Lemma safe_bind {A B} P (m : M S A) (f : A → M S B) R Q :
  safe P m R → (∀ a, safe (R a) (f a) Q) → safe P (bind m f) Q.
Proof.
  intros Hm Hf s Hs. specialize (Hm s Hs). unfold bind. destruct (m s) as [[a|e|p] s1]; try done. by apply Hf.
Qed.

Lemma safe_ret {A} (P : S → Prop) (a : A) Q : (∀ s, P s → Q a s) → safe P (ret a) Q.
Proof. intros H s Hs. by apply H. Qed.

Lemma safe_fail {A} (P : S → Prop) e Q : safe P (fail (A:=A) e) Q.
Proof. by intros s Hs. Qed.

Lemma safe_gets {A} P (f : S → A) Q : (∀ s, P s → Q (f s) s) → safe P (gets f) Q.
Proof. intros H s Hs. by apply H. Qed.

Lemma safe_modify (P : S → Prop) f Q : (∀ s, P s → Q () (f s)) → safe P (modify f) Q.
Proof. intros H s Hs. by apply H. Qed.

Lemma safe_lift {A} (P : S → Prop) (r : res A) Q :
  no_panic r → (∀ s a, P s → r = Ok a → Q a s) → safe P (lift r) Q.
Proof. intros Hr HQ s Hs. unfold lift. destruct r; eauto. Qed.

Lemma safe_weaken {A} P P' (m : M S A) Q Q' :
  safe P m Q → (∀ s, P' s → P s) → (∀ a s, Q a s → Q' a s) → safe P' m Q'.
Proof. intros Hm HP HQ s Hs. specialize (Hm s (HP s Hs)). destruct (m s) as [[]]; eauto. Qed.

End safe.

Section total.
Context {WE : WireErrors} {T : Type} (dAtA : raw) (d : bool).
Hypothesis Hlen : len dAtA < 2 ^ 63.
Implicit Types (p : Z).

(** The index is at [p], or behind it but within the bytes. *)
Definition at_pos p (s : rstate T) : Prop := iNdEx s = p ∧ 0 <= p <= len dAtA.
Definition beyond p (s : rstate T) : Prop := 0 <= p < iNdEx s ∧ iNdEx s <= len dAtA.

Lemma at_index_ok p : 0 <= p < len dAtA → ∃ b, at_index dAtA p = Ok b.
Proof.
  intros Hp. unfold at_index. rw (proj2 (Z.leb_le 0 _)); [|lia].
  destruct (lookup_lt_is_Some_2 dAtA (Z.to_nat p)) as [b ->]; [unfold len in Hp; lia|]. by exists b.
Qed.

Lemma slice_ok i j : 0 <= i <= j → j <= len dAtA → ∃ bz, slice dAtA i j = Ok bz ∧ len bz <= len dAtA.
Proof.
  intros Hi Hj. unfold slice. rw (proj2 (Z.leb_le 0 _)); [|lia]. rw (proj2 (Z.leb_le i j)); [|lia].
  rw (proj2 (Z.leb_le j _)) //. eexists. split; [done|]. unfold len. rw length_take length_drop. lia.
Qed.

Lemma varint_loop_total fuel w store shift v p :
  0 <= shift → (0 < fuel)%nat → 71 <= shift + 7 * Z.of_nat fuel →
  safe (at_pos p) (varint_loop dAtA fuel w store shift v) (λ v s, beyond p s ∧ is_int w v).
Proof.
  revert shift v p. induction fuel as [|fuel IH]; intros shift v p Hs H0 Hf [i x] [Hi Hp]; [lia|]. cbn in Hi. subst i.
  cbn [varint_loop]. destruct (Z.leb_spec 64 shift); [done|]. unfold gets, bind at 1. cbn [iNdEx].
  destruct (Z.leb_spec (len dAtA) p); [done|]. unfold bind at 1, lift.
  destruct (at_index_ok p) as [b ->]; [lia|]. unfold bind, set_iNdEx, set_msg, modify. cbn [iNdEx msg].
  destruct (byte_Z b <? 128).
  - split; [split; cbn; lia|apply wrap_is_int].
  - eapply safe_weaken; [apply (IH (shift + 7) _ (p + 1)); lia|by apply id| |split; cbn; lia].
    intros a s [[Hb1 Hb2] Ha]. split; [split; lia|done].
Qed.

Lemma get_varint_total w p :
  safe (at_pos p) (get_varint dAtA w) (λ v s, beyond p s ∧ is_int w v).
Proof. apply varint_loop_total; lia. Qed.

(** ** Fields *)

(** The case of a field: it moves on from where it starts, or fails. *)
Definition moves (m : M (rstate T) unit) : Prop := ∀ p, safe (at_pos p) m (λ _, beyond p).

Lemma set_msg_at p f : safe (at_pos p) (set_msg f) (λ _, at_pos p).
Proof. by apply safe_modify. Qed.

Lemma moves_number w set : moves (get_number dAtA w set).
Proof.
  intros p. unfold get_number. eapply safe_bind; [apply set_msg_at|intros []].
  eapply safe_bind; [apply (varint_loop_total 11); lia|]. intros v. apply safe_ret. by intros s [].
Qed.

(** The end of the bytes lies at or behind the index. *)
Lemma post_index_total n p : n < 2 ^ 63 →
  safe (beyond p) (post_index dAtA n) (λ q s, beyond p s ∧ iNdEx s <= q <= len dAtA).
Proof.
  intros Hn s [Hp Hs]. unfold post_index. destruct (Z.ltb_spec n 0); [done|]. unfold bind, gets. cbn zeta.
  pose proof (wrap_add (iNdEx s) n).
  destruct (Z.ltb_spec (wrap Int64 (iNdEx s + n)) 0); [done|].
  destruct (Z.ltb_spec (len dAtA) (wrap Int64 (iNdEx s + n))); [done|].
  split; [by split|]. lia.
Qed.

Lemma with_slice_total k q p :
  (∀ bz i, len bz < 2 ^ 63 → safe (at_pos i) (k bz) (λ _, at_pos i)) →
  safe (λ s, beyond p s ∧ iNdEx s <= q <= len dAtA) (with_slice dAtA q k) (λ _, beyond p).
Proof.
  intros Hk s [[Hp Hs] Hq]. unfold with_slice, gets, bind at 1 2, lift.
  destruct (slice_ok (iNdEx s) q) as (bz & -> & Hbz); [lia..|].
  assert (len bz < 2 ^ 63) as H63 by lia. specialize (Hk bz (iNdEx s) H63 s ltac:(by split; [|lia])).
  unfold bind. destruct (k bz s) as [[[]|e|r] s1]; try done. split; cbn; lia.
Qed.

(** A length of type [w], converted, and what is done with the bytes. *)
Lemma moves_delimited w conv k :
  (∀ n, is_int w n → conv n < 2 ^ 63) →
  (∀ bz i, len bz < 2 ^ 63 → safe (at_pos i) (k bz) (λ _, at_pos i)) →
  moves (let! n := get_varint dAtA w in
         let! postIndex := post_index dAtA (conv n) in
         with_slice dAtA postIndex k).
Proof.
  intros Hc Hk p. eapply safe_bind; [apply get_varint_total|intros n].
  intros s [Hb Hn]. revert s Hb. eapply safe_bind; [by apply post_index_total, Hc|intros q]. by apply with_slice_total.
Qed.

Lemma int64_bound n : is_int Int64 n → n < 2 ^ 63.
Proof. cbn. lia. Qed.

Lemma moves_string set : moves (get_string dAtA set).
Proof.
  apply (moves_delimited Uint64 (wrap Int64)); [|intros; apply set_msg_at].
  intros n _. apply int64_bound, wrap_is_int.
Qed.

Lemma moves_bytes set : moves (get_bytes dAtA set).
Proof. apply (moves_delimited Int64 (λ n, n)); [apply int64_bound|intros; apply set_msg_at]. Qed.

Lemma unmarshal_field_total {A} `{PL : ProtoLaws A} (get : T → option A) set bz i :
  len bz < 2 ^ 63 → safe (at_pos i) (unmarshal_field d get set bz) (λ _, at_pos i).
Proof.
  intros Hbz s Hs. unfold unmarshal_field, zoom. pose proof (proto_total d bz (get (msg s)) Hbz) as Ht.
  by destruct (options_Unmarshal d bz (get (msg s))) as [[]].
Qed.

Lemma moves_message {A} `{PL : ProtoLaws A} (get : T → option A) set :
  moves (get_message dAtA d get set).
Proof.
  apply (moves_delimited Int64 (λ n, n)); [apply int64_bound|]. intros bz i Hbz.
  eapply safe_bind; [apply set_msg_at|intros []; by apply unmarshal_field_total].
Qed.

Lemma moves_messages {A} `{PL : ProtoLaws A} (get : T → list (option A)) set :
  moves (get_messages dAtA d get set).
Proof.
  apply (moves_delimited Int64 (λ n, n)); [apply int64_bound|]. intros bz i Hbz.
  eapply safe_bind; [apply set_msg_at|intros []; by apply unmarshal_field_total].
Qed.

Lemma moves_expect n nm wt k : moves k → moves (expect_wire n nm wt k).
Proof. intros Hk p. unfold expect_wire. destruct (negb _); [apply safe_fail|apply Hk]. Qed.

End total.

(** ** The loop *)

Section total_loop.
Context {WR : WireRuntime} {WL : WireRuntimeLaws WR} {T : Type} (dAtA : raw) (d : bool).
Hypothesis Hlen : len dAtA < 2 ^ 63.
Context (name : string) (field : Z → option (Z → M (rstate T) unit)) (append : raw → T → T).
Hypothesis Hfield : ∀ n k wt, field n = Some k → moves dAtA (k wt).

Lemma skip_unknown_total p q :
  safe (λ s, beyond dAtA p s ∧ q = p) (skip_unknown dAtA d q append) (λ _, beyond dAtA p).
Proof.
  intros s [[Hp Hs] ->]. unfold skip_unknown, set_iNdEx, modify, bind at 1 2 3, lift.
  destruct (slice_ok dAtA p (len dAtA)) as (rest & -> & Hrest); [lia..|].
  pose proof (Skip_no_panic rest) as Hnp. destruct (Skip rest) as [n|e|r] eqn:Hn; [|done|apply Hnp; lia].
  apply Skip_positive in Hn as Hpos; [|lia]. cbn zeta.
  destruct (Z.ltb_spec n 0); [lia|]. cbn [orb].
  destruct (Z.ltb_spec (wrap Int64 (p + n)) 0) as [|Hw]; [done|].
  assert (wrap Int64 (p + n) = p + n) as E by (pose proof (wrap_add p n); lia).
  rw E. destruct (Z.ltb_spec (len dAtA) (p + n)); [done|].
  destruct (slice_ok dAtA p (p + n)) as (bz & Hbz & _); [lia..|]. destruct d; cbn [negb]; unfold bind, lift.
  - cbn. split; cbn; lia.
  - rw Hbz. cbn. split; cbn; lia.
Qed.

Lemma read_field_total p : safe (at_pos dAtA p) (read_field dAtA d name field append) (λ _, beyond dAtA p).
Proof.
  intros s Hs. unfold read_field. unfold bind at 1, gets. assert (iNdEx s = p) as -> by apply Hs.
  revert s Hs. eapply safe_bind; [apply get_varint_total|]. intros wire s [Hs _]. cbn zeta.
  destruct (_ =? 4); [done|]. destruct (_ <=? 0); [done|].
  destruct (field _) as [k|] eqn:Hk.
  - assert (at_pos dAtA (iNdEx s) s) as H by (destruct Hs; split; [done|lia]).
    pose proof (Hfield _ _ (Z.land wire 7) Hk (iNdEx s) s H) as Hm.
    destruct (k _ s) as [[[]|e|r] s1]; try done. destruct Hm, Hs. split; lia.
  - by apply (skip_unknown_total p p s).
Qed.

Lemma read_loop_total fuel p :
  len dAtA - p < Z.of_nat fuel →
  safe (at_pos dAtA p) (read_loop dAtA d fuel name field append) (λ _ s, iNdEx s <= len dAtA).
Proof.
  revert p. induction fuel as [|fuel IH]; intros p Hf s Hs; [destruct Hs; lia|].
  cbn [read_loop]. unfold bind at 1, gets. destruct Hs as [Hi Hp]. rw Hi. destruct (Z.ltb_spec p (len dAtA)); [|cbn; lia].
  pose proof (read_field_total p s ltac:(by split)) as Hr. unfold bind.
  destruct (read_field _ _ _ _ _ s) as [[[]|e|r] s1]; try done. destruct Hr as [H1 H2].
  apply (IH (iNdEx s1)); [lia|]. split; [done|lia].
Qed.

Lemma read_all_total x : no_panic (read_all dAtA d name field append (Rstate 0 x)).1.
Proof.
  unfold read_all. assert (at_pos dAtA 0 (Rstate 0 x)) as Hs by (split; [done|pose proof (len_nonneg dAtA); lia]).
  pose proof (read_loop_total (S (length dAtA)) 0 ltac:(unfold len; lia) _ Hs) as Hr. unfold bind at 1.
  destruct (read_loop _ _ _ _ _ _ _) as [[[]|e|r] s1]; try done.
  unfold bind, gets. by destruct (_ <? _).
Qed.

Lemma unmarshal_total x :
  no_panic (unmarshal_into (read_all dAtA d name field append) x).1.
Proof.
  unfold unmarshal_into. destruct x as [x|]; [|done]. pose proof (read_all_total x) as H.
  by destruct (read_all _ _ _ _ _ _).
Qed.

End total_loop.

(** * Messages *)

(** What a field of messages holds can be written and read. *)
Definition ok_message {A} {PM : ProtoMessage A} {PL : ProtoLaws A PM} (m : option A) : Prop :=
  ∀ a, m = Some a → proto_ok a.

Definition ok_messages {A} {PM : ProtoMessage A} {PL : ProtoLaws A PM} (ms : list (option A)) : Prop :=
  Forall (λ m, ∃ a, m = Some a ∧ proto_ok a) ms.

(** A message is written as [bs] behind what is in the buffer, and its size is that of [bs]. *)
Definition encodes (m : M raw unit) (size : Z) (bs : raw) : Prop :=
  (∀ Buf, m Buf = (Ok (), Buf ++ bs)) ∧ size = len bs.

Lemma encodes_intro size m bs :
  writes m bs → size = len bs → encodes (marshal_into size m) size bs.
Proof. intros Hw Hs. split; [|done]. intros Buf. by apply marshal_into_writes. Qed.

Lemma encodes_inv m size bs bz : encodes m size bs → marshalled m = Ok bz → bz = bs.
Proof. intros [H _]. unfold marshalled. rw H. by intros [= <-]. Qed.

(** Every pointer is written: nil as nothing. *)
Lemma pointer_marshals {T} (marshal : option T → M raw unit) (size : option T → Z) (enc : T → raw) :
  (∀ x, encodes (marshal (Some x)) (size (Some x)) (enc x)) → marshal None = ret () → size None = 0 →
  ∀ x, ∃ bz, marshalled (marshal x) = Ok bz ∧ size x = len bz.
Proof.
  intros Hx Hn Hs [x|].
  - destruct (Hx x) as [H1 H2]. exists (enc x). split; [|done]. unfold marshalled. by rw H1.
  - exists []. by rw Hn.
Qed.

(** A message with methods that write and read an encoding of it keeps the promises. *)
Section laws.
Context {A : Type} {PM : ProtoMessage A} (marshal : option A → M raw unit) (enc : A → raw) (ok : A → Prop).
Hypothesis Hmarshal : ∀ x, options_Marshal x = marshalled (marshal x).
Hypothesis Hnil : marshal None = ret ().
Hypothesis Hsize : options_Size None = 0.
Hypothesis Hwrites : ∀ x, encodes (marshal (Some x)) (options_Size (Some x)) (enc x).
Hypothesis Hreads : ∀ x, ok x → len (enc x) < 2 ^ 63 →
  options_Unmarshal false (enc x) (Some proto_new) = (Ok (), Some x).
Hypothesis Htotal : ∀ d bz x, len bz < 2 ^ 63 → no_panic (options_Unmarshal d bz x).1.

Lemma laws_marshal x : ∃ bz, options_Marshal x = Ok bz ∧ options_Size x = len bz.
Proof. rw Hmarshal. revert x. by eapply pointer_marshals. Qed.

Lemma laws_roundtrip x bz :
  ok x → options_Marshal (Some x) = Ok bz → len bz < 2 ^ 63 →
  options_Unmarshal false bz (Some proto_new) = (Ok (), Some x).
Proof. rw Hmarshal. intros Hx Hm. apply (encodes_inv _ _ _ _ (Hwrites x)) in Hm as ->. by apply Hreads. Qed.

Definition proto_laws : ProtoLaws A PM := {|
  proto_ok := ok; proto_Marshal := laws_marshal; proto_roundtrip := laws_roundtrip; proto_total := Htotal
|}.
End laws.

Ltac wire_writes :=
  rw ?app_assoc; repeat apply writes_bind;
  first [apply writes_copy_back|apply writes_bytes|apply writes_number|apply writes_strings
        |apply writes_message|apply writes_messages].

(** The parts of a size are the lengths of the parts of the encoding. *)
Ltac wire_size :=
  rw ?len_app ?Z.add_assoc;
  repeat match goal with |- _ + _ = _ + _ => f_equal end;
  first [done|apply size_bytes_len|apply size_number_len|apply size_strings_len|apply size_message_len
        |apply size_messages_len].

(** Side conditions of the lemmas on fields. *)
Ltac wire_side :=
  first [ done | by intros ? ? [] | by intros ? [] | by intros [] | by intros -> | by intros ? ? ? | assumption
        | len_lia ].

(** The next field is read by [lem]. *)
Tactic Notation "wire_read" open_constr(lem) := eapply reads_app; [eapply lem; wire_side|].

(** The rest is unknown fields. *)
Ltac wire_unknown append :=
  refine (reads_unknown _ _ append _ _ _ _ _);
  [intros ? ? []; cbv -[app]; by rw -app_assoc
  |intros []; cbv -[app]; by rw app_nil_r
  |assumption].

(** The cases of a switch over field numbers. *)
Ltac wire_moves :=
  repeat case_match; intros; simplify_eq; apply moves_expect;
  lazymatch goal with
  | |- moves _ (get_string _ _) => apply moves_string
  | |- moves _ (get_bytes _ _) => apply moves_bytes
  | |- moves _ (get_number _ _ _) => apply moves_number
  | |- moves _ (get_message _ _ _ _) => apply moves_message
  | |- moves _ (get_messages _ _ _ _) => apply moves_messages
  end; first [assumption|tc_solve].

(** * The messages of the SDK *)

(** cosmos.base.v1beta1.Coin and cosmos.bank.v1beta1.Metadata of cosmossdk.io/api. *)
Class SdkMessages := {
  ApiCoin : Type;
  ApiMetadata : Type;
  Coin_proto :: ProtoMessage ApiCoin;
  Metadata_proto :: ProtoMessage ApiMetadata
}.

Class SdkMessagesLaws (SM : SdkMessages) := {
  Coin_laws :: ProtoLaws ApiCoin Coin_proto;
  Metadata_laws :: ProtoLaws ApiMetadata Metadata_proto
}.
