(* ===== verification/GogoRuntime.v ===== *)
(** The functions that generated protobuf code shares (x/tokenfactory/types/tx.pb.go:
    sovTx, encodeVarintTx, skipTx), which do what the functions of cosmos-proto/runtime do,
    and the proof that they keep its promises. *)
From S2P Require Import Prelude.
From S2P Require Import GoJson.
From S2P Require Import JsonScan.
From S2P Require Import JsonRoundtrip.
From S2P Require Import Wire.
From S2P Require Import WireSpec.
From S2P Require Import WireRead.

(** * Varints *)

(** math_bits.Len64 *)
Definition Len64 (x : Z) : Z := if x =? 0 then 0 else Z.log2 x + 1.

Definition sovTx (x : Z) : Z := (Len64 (Z.lor x 1) + 6) / 7.

(** The loop over the groups but the last; v is below 2^64, which has ten groups. *)
Fixpoint encode_loop (fuel : nat) (v : Z) : M wbuf unit :=
  match fuel with
  | O => panic diverges
  | S fuel =>
      if 128 <=? v then
        store_byte (Z.lor (Z.land v 127) 128) ;;;
        modify (λ b, Wbuf (wdata b) (wi b + 1)) ;;;
        encode_loop fuel (Z.shiftr v 7)
      else store_byte v
  end.

(** The offset is the index of the buffer, and the base that is returned becomes it. *)
Definition encodeVarintTx (v : Z) : M wbuf unit :=
  modify (λ b, Wbuf (wdata b) (wi b - sovTx v)) ;;;
  let! base := gets wi in
  encode_loop 10 v ;;;
  modify (λ b, Wbuf (wdata b) base).

(** * Skipping a field *)

Definition ErrInvalidLengthTx := Errorf "proto: negative length found during unmarshaling" [].
Definition ErrIntOverflowTx := Errorf "proto: integer overflow" [].
Definition ErrUnexpectedEndOfGroupTx := Errorf "proto: unexpected end of group" [].

(** The errors that the readers of the file return. The other files declare errors of the same
    text under names of their own. *)
#[export] Instance tx_errors : WireErrors := {|
  ErrIntOverflow := ErrIntOverflowTx; ErrInvalidLength := ErrInvalidLengthTx
|}.

(** iNdEx += n *)
Definition move (n : Z) : M (rstate Z) unit := modify (λ s, Rstate (wrap Int64 (iNdEx s + n)) (msg s)).

(** The switch over the wire types; the state holds the depth of groups beside the index. *)
Definition skip_case (dAtA : raw) (wireType : Z) : M (rstate Z) unit :=
  if wireType =? 0 then get_varint dAtA Uint64 ;;; ret ()
  else if wireType =? 1 then move 8
  else if wireType =? 2 then
    let! length := get_varint dAtA Int64 in
    if length <? 0 then fail ErrInvalidLengthTx else move length
  else if wireType =? 3 then modify (λ s, Rstate (iNdEx s) (msg s + 1))
  else if wireType =? 4 then
    let! depth := gets msg in
    if depth =? 0 then fail ErrUnexpectedEndOfGroupTx else modify (λ s, Rstate (iNdEx s) (msg s - 1))
  else if wireType =? 5 then move 4
  else fail (Errorf "proto: illegal wireType %d" [pretty wireType]).

Fixpoint skip_loop (fuel : nat) (dAtA : raw) : M (rstate Z) Z :=
  match fuel with
  | O => panic diverges
  | S fuel =>
      let! i := gets iNdEx in
      if i <? len dAtA then
        let! wire := get_varint dAtA Uint64 in
        skip_case dAtA (Z.land wire 7) ;;;
        let! i := gets iNdEx in
        if i <? 0 then fail ErrInvalidLengthTx
        else
          let! depth := gets msg in
          if depth =? 0 then ret i else skip_loop fuel dAtA
      else fail ErrUnexpectedEOF
  end.

(** Every round reads a byte at least. *)
Definition skipTx (dAtA : raw) : res Z := (skip_loop (S (length dAtA)) dAtA (Rstate 0 0)).1.

#[export] Instance gogo_runtime : WireRuntime := {|
  wire_errors := tx_errors; Sov := sovTx; EncodeVarint := encodeVarintTx; Skip := skipTx
|}.

(** * Their promises *)

Lemma varint_go_len n v :
  0 <= v < 2 ^ (7 * Z.of_nat n) → (0 < n)%nat → len (varint_go n v) = sovTx v.
Proof.
  revert v. induction n as [|n IH]; intros v Hv Hn; [lia|]. cbn [varint_go]. unfold sovTx, Len64 in *.
  assert (∀ u, 0 <= u → 0 < Z.lor u 1) as Hpos.
  { intros u Hu. assert (Z.testbit (Z.lor u 1) 0 = true) by (rw Z.lor_spec; apply orb_true_r).
    pose proof (Z.lor_nonneg u 1). destruct (Z.eq_dec (Z.lor u 1) 0) as [E|E]; [by rw E in H|lia]. }
  assert (∀ u, 0 <= u → (Z.lor u 1 =? 0) = false) as Hne by (intros u Hu; apply Z.eqb_neq; specialize (Hpos u Hu); lia).
  rw Hne; [|lia]. destruct (Z.ltb_spec v 128) as [H|H].
  - assert (Z.log2 (Z.lor v 1) < 7) as Hl.
    { apply Z.log2_lt_pow2; [apply Hpos; lia|]. apply Z.log2_lt_cancel. rw Z.log2_lor; [|lia..].
      change (Z.log2 1) with 0. change (Z.log2 (2 ^ 7)) with 7. rw Z.max_l; [|apply Z.log2_nonneg].
      destruct (Z.eq_dec v 0) as [->|]; [done|]. apply Z.log2_lt_pow2; lia. }
    pose proof (Z.log2_nonneg (Z.lor v 1)). rw len_cons len_nil.
    apply (Z.div_unique _ _ _ (Z.log2 (Z.lor v 1))); lia.
  - destruct (group_bound n v) as [Hv' Hn0]; [lia|].
    rw len_cons IH; [|lia|done]. rw Hne; [|lia]. rw !Z.log2_lor; [|lia..]. change (Z.log2 1) with 0.
    rw !Z.max_l; [|apply Z.log2_nonneg..]. change 128 with (2 ^ 7). rw -Z.shiftr_div_pow2 // Z.log2_shiftr; [|lia..].
    assert (7 <= Z.log2 v) by (apply Z.log2_le_pow2; lia). rw Z.max_r; [|lia].
    replace (Z.log2 v + 1 + 6) with ((Z.log2 v - 7 + 1 + 6) + 1 * 7) by lia. rw Z.div_add //. lia.
Qed.

Lemma store_byte_app pre a rest v :
  store_byte v (Wbuf (pre ++ a :: rest) (len pre)) = (Ok (), Wbuf (pre ++ chr v :: rest) (len pre)).
Proof.
  unfold store_byte. cbn [wdata wi]. rw (proj2 (Z.leb_le 0 _)); [|apply len_nonneg].
  rw (proj2 (Z.ltb_lt _ _)); [|len_lia]. cbn [andb]. unfold len. rw Nat2Z.id.
  do 2 f_equal. rw -(Nat.add_0_r (length pre)) insert_app_r. done.
Qed.

Lemma lor_128 v : Z.lor (Z.land v 127) 128 = v mod 128 + 128.
Proof.
  rw land_127. assert (Z.land (v mod 128) 128 = 0) as H.
  { apply Z.bits_inj'. intros n Hn. rw Z.land_spec Z.bits_0. change 128 with (2 ^ 7).
    rw Z.pow2_bits_eqb //. destruct (Z.eqb_spec 7 n) as [<-|]; [|apply andb_false_r]. by rw Z.mod_pow2_bits_high. }
  pose proof (Z.add_lor_land (v mod 128) 128). lia.
Qed.

Lemma encode_loop_ok n v pre mid rest :
  0 <= v < 2 ^ (7 * Z.of_nat n) → (0 < n)%nat → length mid = length (varint_go n v) →
  ∃ i, encode_loop n v (Wbuf (pre ++ mid ++ rest) (len pre)) =
       (Ok (), Wbuf (pre ++ varint_go n v ++ rest) i).
Proof.
  revert v pre mid. induction n as [|n IH]; intros v pre mid Hv Hn Hm; [lia|]. cbn [encode_loop varint_go] in *.
  destruct (Z.ltb_spec v 128) as [H|H].
  - rw (proj2 (Z.leb_gt 128 v)) //. destruct mid as [|a [|]]; [done| |done]. exists (len pre).
    apply store_byte_app.
  - rw (proj2 (Z.leb_le 128 v)) //. destruct mid as [|a mid]; [done|].
    unfold bind at 1. cbn [app]. rw store_byte_app lor_128. unfold bind at 1, modify. cbn [wdata wi].
    destruct (group_bound n v) as [Hv' Hn0]; [lia|].
    destruct (IH (v / 128) (pre ++ [chr (v mod 128 + 128)]) mid) as [i Hi]; [lia|done|cbn in Hm; lia|].
    exists i. rw -app_assoc -app_assoc in Hi. rw Z.shiftr_div_pow2 //. change (2 ^ 7) with 128.
    rw len_app in Hi. exact Hi.
Qed.

Lemma take_drop_mid {A} (l : list A) i n :
  (i + n <= length l)%nat → ∃ mid, l = take i l ++ mid ++ drop (i + n) l ∧ length mid = n.
Proof.
  intros H. exists (take n (drop i l)). split; [|rw length_take length_drop; lia].
  rw -{1}(take_drop i l) -{1}(take_drop n (drop i l)) drop_drop. done.
Qed.

Lemma encodeVarintTx_writes v : is_uint64 v → writes (encodeVarintTx v) (varint v).
Proof.
  unfold is_uint64, max_uint64. intros Hv [dt i] Hb. cbn [wdata wi] in Hb.
  pose proof (varint_go_len 10 v ltac:(lia) ltac:(lia)) as Hs. change (varint_go 10 v) with (varint v) in Hs.
  unfold encodeVarintTx, bind, modify, gets, put_before. cbn [wdata wi]. rw -Hs.
  destruct (take_drop_mid dt (Z.to_nat (i - len (varint v))) (length (varint v))) as (mid & Hd & Hm).
  { unfold len in *. lia. }
  replace (Z.to_nat (i - len (varint v)) + length (varint v))%nat with (Z.to_nat i) in Hd by (unfold len in *; lia).
  destruct (encode_loop_ok 10 v (take (Z.to_nat (i - len (varint v))) dt) mid (drop (Z.to_nat i) dt)) as [j Hj];
    [lia..|done|]. rw -Hd in Hj.
  assert (len (take (Z.to_nat (i - len (varint v))) dt) = i - len (varint v)) as Hl.
  { unfold len in *. rw length_take. lia. }
  rw Hl in Hj. rw Hj. done.
Qed.

(** One field is skipped: the index has moved on, or it has overflowed. *)
Definition moved p (s : rstate Z) : Prop := iNdEx s < 0 ∨ p < iNdEx s < 2 ^ 63.

Section skip.
Context (dAtA : raw) (Hlen : len dAtA < 2 ^ 63).

Lemma move_total n p : 0 <= n < 2 ^ 63 → safe (beyond dAtA p) (move n) (λ _, moved p).
Proof.
  intros Hn. apply safe_modify. intros s [Hp Hs]. unfold moved. cbn [iNdEx].
  destruct (wrap_add (iNdEx s) n) as [H|H]; [lia..|by left|right].
  pose proof (wrap_is_int Int64 (iNdEx s + n)) as Hi. cbn [is_int] in Hi. lia.
Qed.

Lemma beyond_moved p s : beyond dAtA p s → moved p s.
Proof. intros [Hp Hs]. right. lia. Qed.

Lemma beyond_at p (s : rstate Z) : beyond dAtA p s → at_pos dAtA (iNdEx s) s.
Proof. intros [Hp Hs]. split; [done|lia]. Qed.

Lemma get_varint_beyond w p :
  safe (beyond dAtA p) (get_varint (T:=Z) dAtA w) (λ v s, beyond dAtA p s ∧ is_int w v).
Proof.
  intros s Hs. pose proof (get_varint_total dAtA w (iNdEx s) s (beyond_at p s Hs)) as H.
  destruct (get_varint dAtA w s) as [[]]; try done. destruct H as [[H1 H2] H3], Hs. split; [split; lia|done].
Qed.

Lemma skip_case_total wt p : safe (beyond dAtA p) (skip_case dAtA wt) (λ _, moved p).
Proof.
  unfold skip_case. repeat case_match; try apply safe_fail; try (apply move_total; lia).
  - eapply safe_bind; [apply get_varint_beyond|]. intros v. apply safe_ret. intros s [Hs _]. by apply beyond_moved.
  - eapply safe_bind; [apply get_varint_beyond|]. intros v. destruct (Z.ltb_spec v 0); [apply safe_fail|].
    intros s [Hs Hv]. cbn in Hv. apply (move_total v p); [lia|done].
  - apply safe_modify. intros s Hs. by apply beyond_moved.
  - eapply safe_bind; [by apply (safe_gets _ _ (λ _, beyond dAtA p))|]. intros depth.
    destruct (depth =? 0); [apply safe_fail|]. apply safe_modify. intros s Hs. by apply beyond_moved.
Qed.

Lemma skip_loop_total fuel p :
  0 <= p < 2 ^ 63 → len dAtA - p < Z.of_nat fuel → (0 < fuel)%nat →
  safe (λ s, iNdEx s = p) (skip_loop fuel dAtA) (λ n _, 0 < n < 2 ^ 63).
Proof.
  revert p. induction fuel as [|fuel IH]; intros p Hp Hf H0 s Hs; [lia|]. cbn [skip_loop].
  unfold bind at 1, gets. rw Hs. destruct (Z.ltb_spec p (len dAtA)); [|done].
  assert (at_pos dAtA p s) as Ha by (split; [done|lia]). revert s Hs Ha.
  assert (safe (at_pos dAtA p) (let! wire := get_varint dAtA Uint64 in
    skip_case dAtA (Z.land wire 7) ;;; let! i := gets iNdEx in
    if i <? 0 then fail ErrInvalidLengthTx
    else let! depth := gets msg in if depth =? 0 then ret i else skip_loop fuel dAtA) (λ n _, 0 < n < 2 ^ 63)) as Hm.
  { eapply safe_bind; [apply get_varint_total|]. intros wire.
    eapply safe_bind; [eapply safe_weaken; [apply (skip_case_total _ p)|by intros s []|done]|]. intros [] s Hs.
    unfold bind at 1, gets. destruct (Z.ltb_spec (iNdEx s) 0); [done|]. destruct Hs as [|Hs]; [lia|].
    unfold bind. destruct (_ =? 0); [cbn; lia|]. apply (IH (iNdEx s)); [lia..|done]. }
  intros s _ Ha. by apply Hm.
Qed.

Lemma skipTx_total : match skipTx dAtA with Ok n => 0 < n < 2 ^ 63 | Err _ => True | Panic _ => False end.
Proof.
  unfold skipTx. pose proof (skip_loop_total (S (length dAtA)) 0 ltac:(lia) ltac:(unfold len; lia) ltac:(lia)
    (Rstate 0 0) eq_refl) as H. by destruct (skip_loop _ _ _) as [[]].
Qed.

End skip.

#[export] Instance gogo_runtime_laws : WireRuntimeLaws gogo_runtime.
Proof.
  split.
  - intros v Hv. symmetry. unfold is_uint64, max_uint64 in Hv. apply varint_go_len; lia.
  - apply encodeVarintTx_writes.
  - intros bz Hbz. pose proof (skipTx_total bz Hbz) as H. cbn. by destruct (skipTx bz).
  - intros bz n Hbz Hn. pose proof (skipTx_total bz Hbz) as H. cbn in Hn. by rw Hn in H.
Qed.

(** * Fields that are skipped *)

(** A field that is a number, or bytes with their length, is skipped whole, whatever follows. *)
Lemma skipTx_field num wt body rest :
  0 <= num < 2 ^ 29 → 0 <= wt < 8 →
  skip_case (varint (8 * num + wt) ++ body ++ rest) wt (Rstate (len (varint (8 * num + wt))) 0) =
    (Ok (), Rstate (len (varint (8 * num + wt) ++ body)) 0) →
  skipTx (varint (8 * num + wt) ++ body ++ rest) = Ok (len (varint (8 * num + wt) ++ body)).
Proof.
  intros Hn Hw Hc. unfold skipTx. cbn [skip_loop]. unfold bind at 1, gets. cbn [iNdEx].
  assert (0 < len (varint (8 * num + wt))) as Hpos.
  { unfold varint. cbn [varint_go]. destruct (_ <? 128); len_lia. }
  rw (proj2 (Z.ltb_lt _ _)); [|len_lia]. unfold bind at 1.
  rw (get_varint_read Uint64 _ [] (body ++ rest)); [|unfold is_uint64, max_uint64; lia].
  rw (wrap_id Uint64); [|cbn; unfold is_uint64, max_uint64; lia].
  assert (Z.land (8 * num + wt) 7 = wt) as ->.
  { change 7 with (Z.ones 3). rw Z.land_ones //. change (2 ^ 3) with 8. Z.div_mod_to_equations. lia. }
  unfold bind at 1. rw len_nil Z.add_0_l Hc. unfold bind. cbn [iNdEx msg].
  rw (proj2 (Z.ltb_ge _ 0)); [done|apply len_nonneg].
Qed.

Lemma skipTx_varint num u rest :
  0 <= num < 2 ^ 29 → is_uint64 u →
  skipTx (varint (8 * num + 0) ++ varint u ++ rest) = Ok (len (varint (8 * num + 0) ++ varint u)).
Proof.
  intros Hn Hu. apply skipTx_field; [done|done|]. unfold skip_case. cbn [Z.eqb]. unfold bind.
  rw get_varint_read //. unfold ret. do 2 f_equal. len_lia.
Qed.

Lemma skipTx_delimited num s rest :
  0 <= num < 2 ^ 29 → len (varint (8 * num + 2) ++ varint (len s) ++ s) < 2 ^ 63 →
  skipTx (varint (8 * num + 2) ++ (varint (len s) ++ s) ++ rest) =
  Ok (len (varint (8 * num + 2) ++ varint (len s) ++ s)).
Proof.
  intros Hn H63. apply skipTx_field; [done|done|]. unfold skip_case. cbn [Z.eqb Pos.eqb]. unfold bind.
  rw -!app_assoc get_varint_read; [|unfold is_uint64, max_uint64; len_lia].
  rw (wrap_id Int64); [|cbn [is_int]; len_lia]. rw (proj2 (Z.ltb_ge _ 0)); [|apply len_nonneg].
  unfold move, modify. cbn [iNdEx msg]. rw (wrap_id Int64); [|cbn [is_int]; len_lia]. do 2 f_equal. len_lia.
Qed.
