(* ===== verification/GogoWire.v ===== *)
(** The messages of x/: what the code that gogoproto generated has beside the loops of [Wire].
    A message that is a field is written into the part of the buffer in front of what is
    written already, is a value and not a pointer unless the field may be nil, and fields that
    are not known are skipped and forgotten. *)
From S2P Require Import Prelude.
From S2P Require Import GoJson.
From S2P Require Import JsonScan.
From S2P Require Import JsonRoundtrip.
From S2P Require Import Wire.
From S2P Require Import WireSpec.
From S2P Require Import WireRead.

(** * Methods *)

(** The methods of a message: Size, MarshalToSizedBuffer, whose state is the slice it gets and
    which answers how many bytes it wrote at its end, and Unmarshal, which fills the message. *)
Class GogoMessage (A : Type) := {
  gogo_new : A;
  gogo_Size : A → Z;
  gogo_MarshalToSizedBuffer : A → M raw Z;
  gogo_Unmarshal : raw → M A unit
}.

Section methods.
Context {WR : WireRuntime}.

(** ** Size *)

(** l = m.Field.Size(); n += 1 + l + sov(uint64(l)) *)
Definition size_embedded {A} `{!GogoMessage A} (x : A) : Z :=
  let l := gogo_Size x in 1 + l + Sov (wrap Uint64 l).

Definition size_nullable {A} `{!GogoMessage A} (x : option A) : Z :=
  match x with Some x => size_embedded x | None => 0 end.

Definition size_embeddeds {A} `{!GogoMessage A} (xs : list A) : Z := sum_list_Z (size_embedded <$> xs).

(** ** MarshalToSizedBuffer *)

(** m.Field.MarshalToSizedBuffer(dAtA[:i]) *)
Definition marshal_embedded {A} `{!GogoMessage A} (x : A) : M wbuf Z := λ b,
  if (0 <=? wi b) && (wi b <=? len (wdata b)) then
    let '(r, front) := gogo_MarshalToSizedBuffer x (take (Z.to_nat (wi b)) (wdata b)) in
    (r, Wbuf (front ++ drop (Z.to_nat (wi b)) (wdata b)) (wi b))
  else (Panic slice_panic, b).

Definition put_embedded {A} `{!GogoMessage A} (tag : Z) (x : A) : M wbuf unit :=
  let! size := marshal_embedded x in
  modify (λ b, Wbuf (wdata b) (wi b - size)) ;;;
  EncodeVarint (wrap Uint64 size) ;;;
  put_tag tag.

Definition put_nullable {A} `{!GogoMessage A} (tag : Z) (x : option A) : M wbuf unit :=
  match x with Some x => put_embedded tag x | None => ret () end.

Definition put_embeddeds {A} `{!GogoMessage A} (tag : Z) (xs : list A) : M wbuf unit :=
  for_each (reverse xs) (put_embedded tag).

(** i := len(dAtA); ...; return len(dAtA) - i, nil *)
Definition sized_buffer (fields : M wbuf unit) : M raw Z := λ dAtA,
  match fields (Wbuf dAtA (len dAtA)) with
  | (Ok _, b) => (Ok (len (wdata b) - wi b), wdata b)
  | (Err e, b) => (Err e, wdata b)
  | (Panic p, b) => (Panic p, wdata b)
  end.

(** ** Marshal and MarshalTo *)

Definition gogo_Marshal {A} `{!GogoMessage A} (x : A) : res raw :=
  let size := gogo_Size x in
  if 0 <=? size then
    match gogo_MarshalToSizedBuffer x (replicate (Z.to_nat size) "000"%char) with
    | (Ok n, dAtA) => slice dAtA 0 n
    | (Err e, _) => Err e
    | (Panic p, _) => Panic p
    end
  else Panic (PanicString "makeslice: len out of range").

(** MarshalTo: the slice is taken to end where its array does. *)
Definition gogo_MarshalTo {A} `{!GogoMessage A} (x : A) : M raw Z := λ dAtA,
  let size := gogo_Size x in
  if (0 <=? size) && (size <=? len dAtA) then
    let '(r, front) := gogo_MarshalToSizedBuffer x (take (Z.to_nat size) dAtA) in
    (r, front ++ drop (Z.to_nat size) dAtA)
  else (Panic slice_panic, dAtA).

(** ** Unmarshal *)

Section read.
Context {T : Type} (dAtA : raw).

(** m.Field.Unmarshal(dAtA[iNdEx:postIndex]) *)
Definition unmarshal_embedded {A} `{!GogoMessage A} (get : T → A) (set : A → T → T) (bz : raw) :
    M (rstate T) unit :=
  zoom (λ s, get (msg s)) (λ a s, Rstate (iNdEx s) (set a (msg s))) (gogo_Unmarshal bz).

(** A field that is a message: what is read is merged into the value it has. *)
Definition get_embedded {A} `{!GogoMessage A} (get : T → A) (set : A → T → T) : M (rstate T) unit :=
  let! msglen := get_varint dAtA Int64 in
  let! postIndex := post_index dAtA msglen in
  with_slice dAtA postIndex (unmarshal_embedded get set).

(** A field that may be nil: it is allocated first. *)
Definition get_nullable {A} `{!GogoMessage A} (get : T → option A) (set : option A → T → T) :
    M (rstate T) unit :=
  let! msglen := get_varint dAtA Int64 in
  let! postIndex := post_index dAtA msglen in
  with_slice dAtA postIndex (λ bz,
    set_msg (λ x, match get x with None => set (Some gogo_new) x | Some _ => x end) ;;;
    unmarshal_embedded (λ x, default gogo_new (get x)) (λ a, set (Some a)) bz).

(** A message of a repeated field: an empty one is appended and read into. *)
Definition get_embeddeds {A} `{!GogoMessage A} (get : T → list A) (set : list A → T → T) :
    M (rstate T) unit :=
  let! msglen := get_varint dAtA Int64 in
  let! postIndex := post_index dAtA msglen in
  with_slice dAtA postIndex (λ bz,
    set_msg (λ x, set (get x ++ [gogo_new]) x) ;;;
    unmarshal_embedded (λ x, default gogo_new (last (get x)))
                       (λ a x, set (take (length (get x) - 1) (get x) ++ [a]) x) bz).

(** The loop over the fields; what is not known is skipped. *)
Definition unmarshal_fields (name : string) (field : Z → option (Z → M (rstate T) unit)) : M T unit := λ x,
  let '(r, s) := read_all dAtA true name field (λ _ x, x) (Rstate 0 x) in (r, msg s).

End read.
End methods.

(** * What a message promises *)

(** It is written as [gogo_enc], it has that size, and reading gives it back, where it is
    [gogo_ok]: its numbers fit in their types. *)
Class GogoLaws A (GM : GogoMessage A) := {
  gogo_enc : A → raw;
  gogo_ok : A → Prop;
  gogo_writes x dAtA : len (gogo_enc x) <= len dAtA →
    gogo_MarshalToSizedBuffer x dAtA =
      (Ok (len (gogo_enc x)), take (length dAtA - length (gogo_enc x)) dAtA ++ gogo_enc x);
  gogo_size x : gogo_Size x = len (gogo_enc x);
  gogo_reads x : gogo_ok x → len (gogo_enc x) < 2 ^ 63 → gogo_Unmarshal (gogo_enc x) gogo_new = (Ok (), x);
  gogo_total bz x : len bz < 2 ^ 63 → no_panic (gogo_Unmarshal bz x).1
}.
Arguments gogo_enc {A GM _}.
Arguments gogo_ok {A GM _}.

Definition enc_embedded {A} `{GogoLaws A} (tag : Z) (x : A) : raw := enc_delimited tag (gogo_enc x).
Definition enc_nullable {A} `{GogoLaws A} (tag : Z) (x : option A) : raw :=
  match x with Some x => enc_embedded tag x | None => [] end.
Definition enc_embeddeds {A} `{GogoLaws A} (tag : Z) (xs : list A) : raw := concat (enc_embedded tag <$> xs).

(** * Writing *)

Section write.
Context {WR : WireRuntime} {WL : WireRuntimeLaws WR} {A} {GM : GogoMessage A} {GL : GogoLaws A GM}.

(** The message is in front of what was written, and the index in front of it. *)
Lemma marshal_embedded_writes {B} (x : A) (k : Z → M wbuf B) b :
  len (gogo_enc x) <= wi b <= len (wdata b) →
  (let! size := marshal_embedded x in modify (λ b, Wbuf (wdata b) (wi b - size)) ;;; k size) b =
  k (len (gogo_enc x)) (put_before (gogo_enc x) b).
Proof.
  intros Hb. pose proof (len_nonneg (gogo_enc x)). unfold bind, marshal_embedded, modify.
  rw (proj2 (Z.leb_le 0 _)); [|lia]. rw (proj2 (Z.leb_le (wi b) _)); [|lia]. cbn [andb].
  rw gogo_writes; [|unfold len in *; rw length_take; lia]. cbn [wdata wi]. f_equal.
  unfold put_before, len in *. f_equal. rw length_take -app_assoc take_take. do 2 f_equal. lia.
Qed.

Lemma writes_embedded tag (x : A) : writes (put_embedded tag x) (enc_embedded tag x).
Proof.
  intros b Hb. unfold put_embedded, enc_embedded, enc_delimited in *. pose proof (len_nonneg (gogo_enc x)).
  rw app_comm_cons in Hb. pose proof Hb as Hb'. rw len_app in Hb'.
  pose proof (len_nonneg (chr tag :: varint (wrap Uint64 (len (gogo_enc x))))).
  rw marshal_embedded_writes; [|lia]. rw app_comm_cons -put_before_app //.
  apply (writes_bind _ _ _ [chr tag]); [apply EncodeVarint_writes, wrap64_bounds|apply writes_put_tag|].
  unfold put_before, len in *. cbn [wdata wi app]. rw !length_app length_take length_drop. cbn [length] in *. lia.
Qed.

Lemma writes_nullable tag (x : option A) : writes (put_nullable tag x) (enc_nullable tag x).
Proof. destruct x; [apply writes_embedded|apply writes_ret]. Qed.

Lemma writes_embeddeds tag (xs : list A) : writes (put_embeddeds tag xs) (enc_embeddeds tag xs).
Proof. apply writes_rev. intros x _. apply writes_embedded. Qed.

Lemma size_embedded_len tag (x : A) : size_embedded x = len (enc_embedded tag x).
Proof. unfold size_embedded, enc_embedded. rw gogo_size. by rw enc_delimited_len. Qed.

Lemma size_nullable_len tag (x : option A) : size_nullable x = len (enc_nullable tag x).
Proof. destruct x; [apply size_embedded_len|done]. Qed.

Lemma size_embeddeds_len tag (xs : list A) : size_embeddeds xs = len (enc_embeddeds tag xs).
Proof. apply sum_list_len. intros x. apply size_embedded_len. Qed.

(** ** Marshal and MarshalTo *)

Lemma gogo_Marshal_enc (x : A) : gogo_Marshal x = Ok (gogo_enc x).
Proof.
  unfold gogo_Marshal. rw gogo_size. pose proof (len_nonneg (gogo_enc x)). rw (proj2 (Z.leb_le 0 _)) //.
  rw gogo_writes; [|unfold len; rw length_replicate; lia].
  rw length_replicate. unfold len at 1. rw Nat2Z.id Nat.sub_diag. cbn [take app].
  pose proof (slice_app [] (gogo_enc x) []) as Hs. rw app_nil_r in Hs. exact Hs.
Qed.

(** The bytes are at the beginning of the slice, the rest of it is as it was. *)
Lemma gogo_MarshalTo_enc (x : A) dAtA :
  len (gogo_enc x) <= len dAtA →
  gogo_MarshalTo x dAtA = (Ok (len (gogo_enc x)), gogo_enc x ++ drop (length (gogo_enc x)) dAtA).
Proof.
  intros Hl. unfold gogo_MarshalTo. rw gogo_size. pose proof (len_nonneg (gogo_enc x)).
  rw (proj2 (Z.leb_le 0 _)) // (proj2 (Z.leb_le _ (len dAtA))) //. cbn [andb].
  unfold len in *. rw Nat2Z.id gogo_writes; [|unfold len; rw length_take; lia].
  rw length_take. replace (_ `min` _ - _)%nat with 0%nat by lia. done.
Qed.
End write.

Lemma sized_buffer_writes m bs dAtA :
  writes m bs → len bs <= len dAtA →
  sized_buffer m dAtA = (Ok (len bs), take (length dAtA - length bs) dAtA ++ bs).
Proof.
  intros Hw Hl. unfold sized_buffer. rw Hw; [|cbn [wdata wi]; lia]. unfold put_before. cbn [wdata wi].
  pose proof (len_nonneg bs). rw (drop_ge _ (Z.to_nat (len dAtA))); [|unfold len; lia]. rw app_nil_r.
  unfold len in *. rw length_app length_take. do 2 f_equal; [f_equal; lia|]. f_equal. lia.
Qed.

(** * Reading *)

Section read.
Context {T : Type} {WR : WireRuntime} {d : bool} (name : string).
Context (field : raw → Z → option (Z → M (rstate T) unit)) (append : raw → T → T).
Context {A} {GM : GogoMessage A} {GL : GogoLaws A GM}.
Implicit Types (x : T).

(** The bytes of a message, given what is done with them. *)
Lemma reads_delimited num nm tag k (a : A) x y :
  1 <= num <= 15 → tag = 8 * num + 2 → len (enc_embedded tag a) < 2 ^ 63 →
  (∀ dAtA, field dAtA num = Some (λ wt, expect_wire 2 nm wt
     (let! n := get_varint dAtA Int64 in
      let! postIndex := post_index dAtA n in
      with_slice dAtA postIndex k))) →
  (∀ p, k (gogo_enc a) (Rstate p x) = (Ok (), Rstate p y)) →
  advances (d:=d) name field append (enc_embedded tag a) x y.
Proof.
  intros Hn Ht Hl Hf Hk. unfold enc_embedded, enc_delimited in Hl.
  eapply (advances_delimited _ _ _ (λ n, n) num nm tag (λ _, k)); [done|done|exact Hf|len_lia| |by intros _].
  apply wrap_id. cbn. len_lia.
Qed.

Lemma embedded_bound tag (a : A) : len (enc_embedded tag a) < 2 ^ 63 → len (gogo_enc a) < 2 ^ 63.
Proof. unfold enc_embedded, enc_delimited. intros. len_lia. Qed.

(** A message is read over the empty one that the field has. *)
Lemma reads_embedded num nm tag (get : T → A) set a x :
  (∀ dAtA, field dAtA num = Some (λ wt, expect_wire 2 nm wt (get_embedded dAtA get set))) →
  1 <= num <= 15 → tag = 8 * num + 2 → len (enc_embedded tag a) < 2 ^ 63 →
  get x = gogo_new → gogo_ok a →
  reads (d:=d) name field append (enc_embedded tag a) x (set a x).
Proof.
  intros Hf Hn Ht Hl Hnew Hok. apply reads_one. eapply reads_delimited; [done..|].
  intros p. unfold unmarshal_embedded, zoom. cbn [iNdEx msg]. rw Hnew gogo_reads //. by eapply embedded_bound.
Qed.

Lemma reads_nullable num nm tag (get : T → option A) set m x :
  (∀ dAtA, field dAtA num = Some (λ wt, expect_wire 2 nm wt (get_nullable dAtA get set))) →
  1 <= num <= 15 → tag = 8 * num + 2 → len (enc_nullable tag m) < 2 ^ 63 →
  (∀ l x, get (set l x) = l) → (∀ l l' x, set l (set l' x) = set l x) → set None x = x →
  (∀ a, m = Some a → gogo_ok a) →
  reads (d:=d) name field append (enc_nullable tag m) x (set m x).
Proof.
  intros Hf Hn Ht Hl Hgs Hss Hnil Hok. destruct m as [a|]; cbn [enc_nullable] in *; [|rw Hnil; constructor].
  apply reads_one. eapply reads_delimited; [done..|].
  intros p. unfold bind, set_msg, modify, unmarshal_embedded, zoom. cbn [iNdEx msg].
  assert (get x = None) as -> by by rw -Hnil Hgs.
  rw Hgs. cbn [default from_option]. rw gogo_reads; [by rw Hss|by apply Hok|by eapply embedded_bound].
Qed.

Lemma reads_embeddeds num nm tag (get : T → list A) set ms x :
  (∀ dAtA, field dAtA num = Some (λ wt, expect_wire 2 nm wt (get_embeddeds dAtA get set))) →
  1 <= num <= 15 → tag = 8 * num + 2 → len (enc_embeddeds tag ms) < 2 ^ 63 →
  (∀ l x, get (set l x) = l) → (∀ l l' x, set l (set l' x) = set l x) → (∀ x, set (get x) x = x) →
  Forall gogo_ok ms →
  reads (d:=d) name field append (enc_embeddeds tag ms) x (set (get x ++ ms) x).
Proof.
  intros Hf Hn Ht Hl Hgs Hss Hsg Hok. unfold enc_embeddeds in *. revert x Hl.
  induction Hok as [|a ms Ha _ IH]; intros x Hl; cbn [fmap list_fmap concat] in *.
  { rw app_nil_r Hsg. constructor. }
  apply (reads_cons _ _ _ _ _ _ (set (get x ++ [a]) x)).
  - eapply reads_delimited; [done|done|len_lia|done|].
    intros p. unfold bind, set_msg, modify, unmarshal_embedded, zoom. cbn [iNdEx msg].
    rw !Hgs last_snoc. cbn [default from_option]. rw gogo_reads; [|done|].
    + by rw Hss length_app Nat.add_sub take_app_length.
    + apply (embedded_bound tag). len_lia.
  - specialize (IH (set (get x ++ [a]) x)). rw Hgs Hss -app_assoc in IH. apply IH. len_lia.
Qed.

End read.

Lemma unmarshal_fields_reads {T} `{WR : WireRuntime} name field bs (x y : T) :
  reads (d:=true) name field (λ _ x, x) bs x y → len bs < 2 ^ 63 →
  unmarshal_fields bs name (field bs) x = (Ok (), y).
Proof. intros H H63. unfold unmarshal_fields. by rw (read_all_reads _ _ _ _ x y). Qed.

(** ** No panic *)

Section total.
Context {WR : WireRuntime} {WL : WireRuntimeLaws WR} {T : Type} (dAtA : raw).
Hypothesis Hlen : len dAtA < 2 ^ 63.
Context {A} {GM : GogoMessage A} {GL : GogoLaws A GM}.

Lemma unmarshal_embedded_total (get : T → A) set bz i :
  len bz < 2 ^ 63 → safe (at_pos dAtA i) (unmarshal_embedded get set bz) (λ _, at_pos dAtA i).
Proof.
  intros Hbz s Hs. unfold unmarshal_embedded, zoom. pose proof (gogo_total bz (get (msg s)) Hbz) as Ht.
  by destruct (gogo_Unmarshal bz (get (msg s))) as [[]].
Qed.

Lemma moves_embedded (get : T → A) set : moves dAtA (get_embedded dAtA get set).
Proof.
  apply (moves_delimited dAtA Hlen Int64 (λ n, n)); [apply int64_bound|]. intros bz i Hbz.
  by apply unmarshal_embedded_total.
Qed.

Lemma moves_nullable (get : T → option A) set : moves dAtA (get_nullable dAtA get set).
Proof.
  apply (moves_delimited dAtA Hlen Int64 (λ n, n)); [apply int64_bound|]. intros bz i Hbz.
  eapply safe_bind; [apply set_msg_at|intros []; by apply unmarshal_embedded_total].
Qed.

Lemma moves_embeddeds (get : T → list A) set : moves dAtA (get_embeddeds dAtA get set).
Proof.
  apply (moves_delimited dAtA Hlen Int64 (λ n, n)); [apply int64_bound|]. intros bz i Hbz.
  eapply safe_bind; [apply set_msg_at|intros []; by apply unmarshal_embedded_total].
Qed.
End total.

Lemma unmarshal_fields_total {WR : WireRuntime} {WL : WireRuntimeLaws WR} {T} bz name field (x : T) :
  len bz < 2 ^ 63 → (∀ n k wt, field n = Some k → moves bz (k wt)) →
  no_panic (unmarshal_fields bz name field x).1.
Proof.
  intros H63 Hf. unfold unmarshal_fields. pose proof (read_all_total bz true H63 name field (λ _ x, x) Hf x) as H.
  by destruct (read_all _ _ _ _ _ _).
Qed.

(** * Tactics *)

Ltac gogo_write :=
  rw ?app_assoc; repeat apply writes_bind;
  first [apply writes_bytes|apply writes_number|apply writes_strings
        |apply writes_embedded|apply writes_nullable|apply writes_embeddeds|apply writes_ret].

Lemma size_app a b (x y : raw) : a = len x → b = len y → a + b = len (x ++ y).
Proof. intros -> ->. by rw len_app. Qed.

Ltac gogo_size :=
  rw ?app_assoc;
  repeat lazymatch goal with |- _ + _ = len (_ ++ _) => apply size_app end;
  lazymatch goal with
  | |- size_bytes _ = _ => apply size_bytes_len
  | |- size_number _ = _ => apply size_number_len
  | |- size_strings _ = _ => apply size_strings_len
  | |- size_embedded _ = _ => apply size_embedded_len
  | |- size_nullable _ = _ => apply size_nullable_len
  | |- size_embeddeds _ = _ => apply size_embeddeds_len
  | |- 0 = len [] => done
  end.

Ltac gogo_moves :=
  repeat case_match; intros; simplify_eq; apply moves_expect;
  lazymatch goal with
  | |- moves _ (get_string _ _) => apply moves_string
  | |- moves _ (get_bytes _ _) => apply moves_bytes
  | |- moves _ (get_number _ _ _) => apply moves_number
  | |- moves _ (get_embedded _ _ _) => apply moves_embedded
  | |- moves _ (get_nullable _ _ _) => apply moves_nullable
  | |- moves _ (get_embeddeds _ _ _) => apply moves_embeddeds
  end; first [assumption|tc_solve].
