(* ===== verification/ApiState.v ===== *)
(** api/miniwasm/tokenfactory/v1: params.pulsar.go, authority_metadata.pulsar.go and
    genesis.pulsar.go. Each message is its struct, the functions size, marshal and unmarshal of
    its ProtoMethods (the switch over field numbers is [.._field]), and the proof that it can
    be written and read back. *)
From S2P Require Import Prelude.
From S2P Require Import GoJson.
From S2P Require Import Wire.
From S2P Require Import WireSpec.
From S2P Require Import WireRead.

(** * The messages *)

Section messages.
Context {WR : WireRuntime} {SM : SdkMessages}.

(** ** Params *)

Record v1_Params := {
  v1_Params_DenomCreationFee : list (option ApiCoin);
  v1_Params_DenomCreationGasConsume : Z;
  v1_Params_unknownFields : raw
}.

Definition v1_Params_new : v1_Params := {|
  v1_Params_DenomCreationFee := []; v1_Params_DenomCreationGasConsume := 0;
  v1_Params_unknownFields := []
|}.

Definition v1_Params_set_DenomCreationFee (v : list (option ApiCoin)) (x : v1_Params) : v1_Params := {|
  v1_Params_DenomCreationFee := v;
  v1_Params_DenomCreationGasConsume := v1_Params_DenomCreationGasConsume x;
  v1_Params_unknownFields := v1_Params_unknownFields x
|}.

Definition v1_Params_set_DenomCreationGasConsume (v : Z) (x : v1_Params) : v1_Params := {|
  v1_Params_DenomCreationFee := v1_Params_DenomCreationFee x; v1_Params_DenomCreationGasConsume := v;
  v1_Params_unknownFields := v1_Params_unknownFields x
|}.

Definition v1_Params_append (bz : raw) (x : v1_Params) : v1_Params := {|
  v1_Params_DenomCreationFee := v1_Params_DenomCreationFee x;
  v1_Params_DenomCreationGasConsume := v1_Params_DenomCreationGasConsume x;
  v1_Params_unknownFields := v1_Params_unknownFields x ++ bz
|}.

Definition v1_Params_size (x : option v1_Params) : Z :=
  match x with
  | None => 0
  | Some x =>
      size_messages (v1_Params_DenomCreationFee x) +
      size_number (v1_Params_DenomCreationGasConsume x) +
      size_unknown (v1_Params_unknownFields x)
  end.

Definition v1_Params_marshal (x : option v1_Params) : M raw unit :=
  match x with
  | None => ret ()
  | Some m => marshal_into (v1_Params_size x) (
      put_unknown (v1_Params_unknownFields m) ;;;
      put_number 0x10 (v1_Params_DenomCreationGasConsume m) ;;;
      put_messages 0xa (v1_Params_DenomCreationFee m))
  end.

Definition v1_Params_field (DiscardUnknown : bool) (dAtA : raw) (fieldNum : Z) :
    option (Z → M (rstate v1_Params) unit) :=
  if fieldNum =? 1 then Some (λ wireType, expect_wire 2 "DenomCreationFee" wireType
    (get_messages dAtA DiscardUnknown v1_Params_DenomCreationFee v1_Params_set_DenomCreationFee))
  else if fieldNum =? 2 then Some (λ wireType, expect_wire 0 "DenomCreationGasConsume" wireType
    (get_number dAtA Uint64 v1_Params_set_DenomCreationGasConsume))
  else None.

Definition v1_Params_unmarshal (DiscardUnknown : bool) (dAtA : raw) : M (option v1_Params) unit :=
  unmarshal_into (read_all dAtA DiscardUnknown "Params"
    (v1_Params_field DiscardUnknown dAtA) v1_Params_append).

#[export] Instance v1_Params_proto : ProtoMessage v1_Params := {|
  proto_new := v1_Params_new;
  options_Size := v1_Params_size;
  options_Marshal x := marshalled (v1_Params_marshal x);
  options_Unmarshal := v1_Params_unmarshal
|}.

(** ** DenomAuthorityMetadata *)

Record v1_DenomAuthorityMetadata := {
  v1_DenomAuthorityMetadata_Admin : bytes;
  v1_DenomAuthorityMetadata_unknownFields : raw
}.

Definition v1_DenomAuthorityMetadata_new : v1_DenomAuthorityMetadata := {|
  v1_DenomAuthorityMetadata_Admin := ""; v1_DenomAuthorityMetadata_unknownFields := []
|}.

Definition v1_DenomAuthorityMetadata_set_Admin (v : bytes) (x : v1_DenomAuthorityMetadata) : v1_DenomAuthorityMetadata := {|
  v1_DenomAuthorityMetadata_Admin := v;
  v1_DenomAuthorityMetadata_unknownFields := v1_DenomAuthorityMetadata_unknownFields x
|}.

Definition v1_DenomAuthorityMetadata_append (bz : raw) (x : v1_DenomAuthorityMetadata) : v1_DenomAuthorityMetadata := {|
  v1_DenomAuthorityMetadata_Admin := v1_DenomAuthorityMetadata_Admin x;
  v1_DenomAuthorityMetadata_unknownFields := v1_DenomAuthorityMetadata_unknownFields x ++ bz
|}.

Definition v1_DenomAuthorityMetadata_size (x : option v1_DenomAuthorityMetadata) : Z :=
  match x with
  | None => 0
  | Some x =>
      size_bytes (v1_DenomAuthorityMetadata_Admin x) +
      size_unknown (v1_DenomAuthorityMetadata_unknownFields x)
  end.

Definition v1_DenomAuthorityMetadata_marshal (x : option v1_DenomAuthorityMetadata) : M raw unit :=
  match x with
  | None => ret ()
  | Some m => marshal_into (v1_DenomAuthorityMetadata_size x) (
      put_unknown (v1_DenomAuthorityMetadata_unknownFields m) ;;;
      put_bytes 0xa (v1_DenomAuthorityMetadata_Admin m))
  end.

Definition v1_DenomAuthorityMetadata_field (DiscardUnknown : bool) (dAtA : raw) (fieldNum : Z) :
    option (Z → M (rstate v1_DenomAuthorityMetadata) unit) :=
  if fieldNum =? 1 then Some (λ wireType, expect_wire 2 "Admin" wireType
    (get_string dAtA v1_DenomAuthorityMetadata_set_Admin))
  else None.

Definition v1_DenomAuthorityMetadata_unmarshal (DiscardUnknown : bool) (dAtA : raw) : M (option v1_DenomAuthorityMetadata) unit :=
  unmarshal_into (read_all dAtA DiscardUnknown "DenomAuthorityMetadata"
    (v1_DenomAuthorityMetadata_field DiscardUnknown dAtA) v1_DenomAuthorityMetadata_append).

#[export] Instance v1_DenomAuthorityMetadata_proto : ProtoMessage v1_DenomAuthorityMetadata := {|
  proto_new := v1_DenomAuthorityMetadata_new;
  options_Size := v1_DenomAuthorityMetadata_size;
  options_Marshal x := marshalled (v1_DenomAuthorityMetadata_marshal x);
  options_Unmarshal := v1_DenomAuthorityMetadata_unmarshal
|}.

(** ** GenesisDenom *)

Record v1_GenesisDenom := {
  v1_GenesisDenom_Denom : bytes;
  v1_GenesisDenom_AuthorityMetadata : option v1_DenomAuthorityMetadata;
  v1_GenesisDenom_unknownFields : raw
}.

Definition v1_GenesisDenom_new : v1_GenesisDenom := {|
  v1_GenesisDenom_Denom := ""; v1_GenesisDenom_AuthorityMetadata := None;
  v1_GenesisDenom_unknownFields := []
|}.

Definition v1_GenesisDenom_set_Denom (v : bytes) (x : v1_GenesisDenom) : v1_GenesisDenom := {|
  v1_GenesisDenom_Denom := v; v1_GenesisDenom_AuthorityMetadata := v1_GenesisDenom_AuthorityMetadata x;
  v1_GenesisDenom_unknownFields := v1_GenesisDenom_unknownFields x
|}.

Definition v1_GenesisDenom_set_AuthorityMetadata (v : option v1_DenomAuthorityMetadata) (x : v1_GenesisDenom) : v1_GenesisDenom := {|
  v1_GenesisDenom_Denom := v1_GenesisDenom_Denom x; v1_GenesisDenom_AuthorityMetadata := v;
  v1_GenesisDenom_unknownFields := v1_GenesisDenom_unknownFields x
|}.

Definition v1_GenesisDenom_append (bz : raw) (x : v1_GenesisDenom) : v1_GenesisDenom := {|
  v1_GenesisDenom_Denom := v1_GenesisDenom_Denom x;
  v1_GenesisDenom_AuthorityMetadata := v1_GenesisDenom_AuthorityMetadata x;
  v1_GenesisDenom_unknownFields := v1_GenesisDenom_unknownFields x ++ bz
|}.

Definition v1_GenesisDenom_size (x : option v1_GenesisDenom) : Z :=
  match x with
  | None => 0
  | Some x =>
      size_bytes (v1_GenesisDenom_Denom x) +
      size_message (v1_GenesisDenom_AuthorityMetadata x) +
      size_unknown (v1_GenesisDenom_unknownFields x)
  end.

Definition v1_GenesisDenom_marshal (x : option v1_GenesisDenom) : M raw unit :=
  match x with
  | None => ret ()
  | Some m => marshal_into (v1_GenesisDenom_size x) (
      put_unknown (v1_GenesisDenom_unknownFields m) ;;;
      put_message 0x12 (v1_GenesisDenom_AuthorityMetadata m) ;;;
      put_bytes 0xa (v1_GenesisDenom_Denom m))
  end.

Definition v1_GenesisDenom_field (DiscardUnknown : bool) (dAtA : raw) (fieldNum : Z) :
    option (Z → M (rstate v1_GenesisDenom) unit) :=
  if fieldNum =? 1 then Some (λ wireType, expect_wire 2 "Denom" wireType
    (get_string dAtA v1_GenesisDenom_set_Denom))
  else if fieldNum =? 2 then Some (λ wireType, expect_wire 2 "AuthorityMetadata" wireType
    (get_message dAtA DiscardUnknown v1_GenesisDenom_AuthorityMetadata v1_GenesisDenom_set_AuthorityMetadata))
  else None.

Definition v1_GenesisDenom_unmarshal (DiscardUnknown : bool) (dAtA : raw) : M (option v1_GenesisDenom) unit :=
  unmarshal_into (read_all dAtA DiscardUnknown "GenesisDenom"
    (v1_GenesisDenom_field DiscardUnknown dAtA) v1_GenesisDenom_append).

#[export] Instance v1_GenesisDenom_proto : ProtoMessage v1_GenesisDenom := {|
  proto_new := v1_GenesisDenom_new;
  options_Size := v1_GenesisDenom_size;
  options_Marshal x := marshalled (v1_GenesisDenom_marshal x);
  options_Unmarshal := v1_GenesisDenom_unmarshal
|}.

(** ** GenesisState *)

Record v1_GenesisState := {
  v1_GenesisState_Params : option v1_Params;
  v1_GenesisState_FactoryDenoms : list (option v1_GenesisDenom);
  v1_GenesisState_unknownFields : raw
}.

Definition v1_GenesisState_new : v1_GenesisState := {|
  v1_GenesisState_Params := None; v1_GenesisState_FactoryDenoms := [];
  v1_GenesisState_unknownFields := []
|}.

Definition v1_GenesisState_set_Params (v : option v1_Params) (x : v1_GenesisState) : v1_GenesisState := {|
  v1_GenesisState_Params := v; v1_GenesisState_FactoryDenoms := v1_GenesisState_FactoryDenoms x;
  v1_GenesisState_unknownFields := v1_GenesisState_unknownFields x
|}.

Definition v1_GenesisState_set_FactoryDenoms (v : list (option v1_GenesisDenom)) (x : v1_GenesisState) : v1_GenesisState := {|
  v1_GenesisState_Params := v1_GenesisState_Params x; v1_GenesisState_FactoryDenoms := v;
  v1_GenesisState_unknownFields := v1_GenesisState_unknownFields x
|}.

Definition v1_GenesisState_append (bz : raw) (x : v1_GenesisState) : v1_GenesisState := {|
  v1_GenesisState_Params := v1_GenesisState_Params x;
  v1_GenesisState_FactoryDenoms := v1_GenesisState_FactoryDenoms x;
  v1_GenesisState_unknownFields := v1_GenesisState_unknownFields x ++ bz
|}.

Definition v1_GenesisState_size (x : option v1_GenesisState) : Z :=
  match x with
  | None => 0
  | Some x =>
      size_message (v1_GenesisState_Params x) +
      size_messages (v1_GenesisState_FactoryDenoms x) +
      size_unknown (v1_GenesisState_unknownFields x)
  end.

Definition v1_GenesisState_marshal (x : option v1_GenesisState) : M raw unit :=
  match x with
  | None => ret ()
  | Some m => marshal_into (v1_GenesisState_size x) (
      put_unknown (v1_GenesisState_unknownFields m) ;;;
      put_messages 0x12 (v1_GenesisState_FactoryDenoms m) ;;;
      put_message 0xa (v1_GenesisState_Params m))
  end.

Definition v1_GenesisState_field (DiscardUnknown : bool) (dAtA : raw) (fieldNum : Z) :
    option (Z → M (rstate v1_GenesisState) unit) :=
  if fieldNum =? 1 then Some (λ wireType, expect_wire 2 "Params" wireType
    (get_message dAtA DiscardUnknown v1_GenesisState_Params v1_GenesisState_set_Params))
  else if fieldNum =? 2 then Some (λ wireType, expect_wire 2 "FactoryDenoms" wireType
    (get_messages dAtA DiscardUnknown v1_GenesisState_FactoryDenoms v1_GenesisState_set_FactoryDenoms))
  else None.

Definition v1_GenesisState_unmarshal (DiscardUnknown : bool) (dAtA : raw) : M (option v1_GenesisState) unit :=
  unmarshal_into (read_all dAtA DiscardUnknown "GenesisState"
    (v1_GenesisState_field DiscardUnknown dAtA) v1_GenesisState_append).

#[export] Instance v1_GenesisState_proto : ProtoMessage v1_GenesisState := {|
  proto_new := v1_GenesisState_new;
  options_Size := v1_GenesisState_size;
  options_Marshal x := marshalled (v1_GenesisState_marshal x);
  options_Unmarshal := v1_GenesisState_unmarshal
|}.

End messages.

(** * What they promise *)

Section laws.
Context {WR : WireRuntime} {SM : SdkMessages}.
Context {WL : WireRuntimeLaws WR} {SL : SdkMessagesLaws SM}.

Definition v1_Params_enc (x : v1_Params) : raw :=
  enc_messages 0xa (v1_Params_DenomCreationFee x) ++
  enc_number 0x10 (v1_Params_DenomCreationGasConsume x) ++
  v1_Params_unknownFields x.

Definition v1_Params_ok (x : v1_Params) : Prop :=
  ok_messages (v1_Params_DenomCreationFee x) ∧
  is_int Uint64 (v1_Params_DenomCreationGasConsume x) ∧
  raw_fields (v1_Params_field false) (v1_Params_unknownFields x).

Lemma v1_Params_writes x : encodes (v1_Params_marshal (Some x)) (v1_Params_size (Some x)) (v1_Params_enc x).
Proof. apply encodes_intro; unfold v1_Params_enc; [wire_writes|unfold v1_Params_size; wire_size]. Qed.

Lemma v1_Params_reads x :
  v1_Params_ok x → len (v1_Params_enc x) < 2 ^ 63 →
  v1_Params_unmarshal false (v1_Params_enc x) (Some v1_Params_new) = (Ok (), Some x).
Proof.
  intros Hok H63. destruct x as [f1 f2 u]; destruct Hok as (HDenomCreationFee & HDenomCreationGasConsume & Hu).
  unfold v1_Params_enc in *.
  cbn [ v1_Params_DenomCreationFee v1_Params_DenomCreationGasConsume v1_Params_unknownFields] in *.
  apply (unmarshal_reads _ (v1_Params_field false)); [|done].
  wire_read (reads_messages (A:=ApiCoin) "Params" (v1_Params_field false) v1_Params_append 1 "DenomCreationFee").
  wire_read (reads_number "Params" (v1_Params_field false) v1_Params_append Uint64 2 "DenomCreationGasConsume").
  wire_unknown v1_Params_append.
Qed.

Lemma v1_Params_total d bz x : len bz < 2 ^ 63 → no_panic (v1_Params_unmarshal d bz x).1.
Proof.
  intros. apply unmarshal_total; [done|]. intros n k wt. unfold v1_Params_field. wire_moves.
Qed.

#[export] Instance v1_Params_laws : ProtoLaws v1_Params v1_Params_proto :=
  proto_laws v1_Params_marshal v1_Params_enc v1_Params_ok (λ _, eq_refl) eq_refl eq_refl
    v1_Params_writes v1_Params_reads v1_Params_total.

Definition v1_DenomAuthorityMetadata_enc (x : v1_DenomAuthorityMetadata) : raw :=
  enc_bytes 0xa (v1_DenomAuthorityMetadata_Admin x) ++
  v1_DenomAuthorityMetadata_unknownFields x.

Definition v1_DenomAuthorityMetadata_ok (x : v1_DenomAuthorityMetadata) : Prop :=
  raw_fields (v1_DenomAuthorityMetadata_field false) (v1_DenomAuthorityMetadata_unknownFields x).

Lemma v1_DenomAuthorityMetadata_writes x : encodes (v1_DenomAuthorityMetadata_marshal (Some x)) (v1_DenomAuthorityMetadata_size (Some x)) (v1_DenomAuthorityMetadata_enc x).
Proof. apply encodes_intro; unfold v1_DenomAuthorityMetadata_enc; [wire_writes|unfold v1_DenomAuthorityMetadata_size; wire_size]. Qed.

Lemma v1_DenomAuthorityMetadata_reads x :
  v1_DenomAuthorityMetadata_ok x → len (v1_DenomAuthorityMetadata_enc x) < 2 ^ 63 →
  v1_DenomAuthorityMetadata_unmarshal false (v1_DenomAuthorityMetadata_enc x) (Some v1_DenomAuthorityMetadata_new) = (Ok (), Some x).
Proof.
  intros Hok H63. destruct x as [f1 u]; rename Hok into Hu.
  unfold v1_DenomAuthorityMetadata_enc, v1_DenomAuthorityMetadata_ok in *.
  cbn [ v1_DenomAuthorityMetadata_Admin v1_DenomAuthorityMetadata_unknownFields] in *.
  apply (unmarshal_reads _ (v1_DenomAuthorityMetadata_field false)); [|done].
  wire_read (reads_string "DenomAuthorityMetadata" (v1_DenomAuthorityMetadata_field false) v1_DenomAuthorityMetadata_append 1 "Admin").
  wire_unknown v1_DenomAuthorityMetadata_append.
Qed.

Lemma v1_DenomAuthorityMetadata_total d bz x : len bz < 2 ^ 63 → no_panic (v1_DenomAuthorityMetadata_unmarshal d bz x).1.
Proof.
  intros. apply unmarshal_total; [done|]. intros n k wt. unfold v1_DenomAuthorityMetadata_field. wire_moves.
Qed.

#[export] Instance v1_DenomAuthorityMetadata_laws : ProtoLaws v1_DenomAuthorityMetadata v1_DenomAuthorityMetadata_proto :=
  proto_laws v1_DenomAuthorityMetadata_marshal v1_DenomAuthorityMetadata_enc v1_DenomAuthorityMetadata_ok (λ _, eq_refl) eq_refl eq_refl
    v1_DenomAuthorityMetadata_writes v1_DenomAuthorityMetadata_reads v1_DenomAuthorityMetadata_total.

Definition v1_GenesisDenom_enc (x : v1_GenesisDenom) : raw :=
  enc_bytes 0xa (v1_GenesisDenom_Denom x) ++
  enc_message 0x12 (v1_GenesisDenom_AuthorityMetadata x) ++
  v1_GenesisDenom_unknownFields x.

Definition v1_GenesisDenom_ok (x : v1_GenesisDenom) : Prop :=
  ok_message (v1_GenesisDenom_AuthorityMetadata x) ∧
  raw_fields (v1_GenesisDenom_field false) (v1_GenesisDenom_unknownFields x).

Lemma v1_GenesisDenom_writes x : encodes (v1_GenesisDenom_marshal (Some x)) (v1_GenesisDenom_size (Some x)) (v1_GenesisDenom_enc x).
Proof. apply encodes_intro; unfold v1_GenesisDenom_enc; [wire_writes|unfold v1_GenesisDenom_size; wire_size]. Qed.

Lemma v1_GenesisDenom_reads x :
  v1_GenesisDenom_ok x → len (v1_GenesisDenom_enc x) < 2 ^ 63 →
  v1_GenesisDenom_unmarshal false (v1_GenesisDenom_enc x) (Some v1_GenesisDenom_new) = (Ok (), Some x).
Proof.
  intros Hok H63. destruct x as [f1 f2 u]; destruct Hok as (HAuthorityMetadata & Hu).
  unfold v1_GenesisDenom_enc in *.
  cbn [ v1_GenesisDenom_Denom v1_GenesisDenom_AuthorityMetadata v1_GenesisDenom_unknownFields] in *.
  apply (unmarshal_reads _ (v1_GenesisDenom_field false)); [|done].
  wire_read (reads_string "GenesisDenom" (v1_GenesisDenom_field false) v1_GenesisDenom_append 1 "Denom").
  wire_read (reads_message (A:=v1_DenomAuthorityMetadata) "GenesisDenom" (v1_GenesisDenom_field false) v1_GenesisDenom_append 2 "AuthorityMetadata").
  wire_unknown v1_GenesisDenom_append.
Qed.

Lemma v1_GenesisDenom_total d bz x : len bz < 2 ^ 63 → no_panic (v1_GenesisDenom_unmarshal d bz x).1.
Proof.
  intros. apply unmarshal_total; [done|]. intros n k wt. unfold v1_GenesisDenom_field. wire_moves.
Qed.

#[export] Instance v1_GenesisDenom_laws : ProtoLaws v1_GenesisDenom v1_GenesisDenom_proto :=
  proto_laws v1_GenesisDenom_marshal v1_GenesisDenom_enc v1_GenesisDenom_ok (λ _, eq_refl) eq_refl eq_refl
    v1_GenesisDenom_writes v1_GenesisDenom_reads v1_GenesisDenom_total.

Definition v1_GenesisState_enc (x : v1_GenesisState) : raw :=
  enc_message 0xa (v1_GenesisState_Params x) ++
  enc_messages 0x12 (v1_GenesisState_FactoryDenoms x) ++
  v1_GenesisState_unknownFields x.

Definition v1_GenesisState_ok (x : v1_GenesisState) : Prop :=
  ok_message (v1_GenesisState_Params x) ∧
  ok_messages (v1_GenesisState_FactoryDenoms x) ∧
  raw_fields (v1_GenesisState_field false) (v1_GenesisState_unknownFields x).

Lemma v1_GenesisState_writes x : encodes (v1_GenesisState_marshal (Some x)) (v1_GenesisState_size (Some x)) (v1_GenesisState_enc x).
Proof. apply encodes_intro; unfold v1_GenesisState_enc; [wire_writes|unfold v1_GenesisState_size; wire_size]. Qed.

Lemma v1_GenesisState_reads x :
  v1_GenesisState_ok x → len (v1_GenesisState_enc x) < 2 ^ 63 →
  v1_GenesisState_unmarshal false (v1_GenesisState_enc x) (Some v1_GenesisState_new) = (Ok (), Some x).
Proof.
  intros Hok H63. destruct x as [f1 f2 u]; destruct Hok as (HParams & HFactoryDenoms & Hu).
  unfold v1_GenesisState_enc in *.
  cbn [ v1_GenesisState_Params v1_GenesisState_FactoryDenoms v1_GenesisState_unknownFields] in *.
  apply (unmarshal_reads _ (v1_GenesisState_field false)); [|done].
  wire_read (reads_message (A:=v1_Params) "GenesisState" (v1_GenesisState_field false) v1_GenesisState_append 1 "Params").
  wire_read (reads_messages (A:=v1_GenesisDenom) "GenesisState" (v1_GenesisState_field false) v1_GenesisState_append 2 "FactoryDenoms").
  wire_unknown v1_GenesisState_append.
Qed.

Lemma v1_GenesisState_total d bz x : len bz < 2 ^ 63 → no_panic (v1_GenesisState_unmarshal d bz x).1.
Proof.
  intros. apply unmarshal_total; [done|]. intros n k wt. unfold v1_GenesisState_field. wire_moves.
Qed.

#[export] Instance v1_GenesisState_laws : ProtoLaws v1_GenesisState v1_GenesisState_proto :=
  proto_laws v1_GenesisState_marshal v1_GenesisState_enc v1_GenesisState_ok (λ _, eq_refl) eq_refl eq_refl
    v1_GenesisState_writes v1_GenesisState_reads v1_GenesisState_total.

End laws.
