(* ===== verification/ApiTx.v ===== *)
(** api/miniwasm/tokenfactory/v1/tx.pulsar.go: the messages of the token factory on the wire. *)
From S2P Require Import Prelude.
From S2P Require Import GoJson.
From S2P Require Import Wire.
From S2P Require Import WireSpec.
From S2P Require Import WireRead.
From S2P Require Import ApiState.

(** * The messages *)

Section messages.
Context {WR : WireRuntime} {SM : SdkMessages}.

(** ** MsgCreateDenom *)

Record v1_MsgCreateDenom := {
  v1_MsgCreateDenom_Sender : bytes;
  v1_MsgCreateDenom_Subdenom : bytes;
  v1_MsgCreateDenom_unknownFields : raw
}.

Definition v1_MsgCreateDenom_new : v1_MsgCreateDenom := {|
  v1_MsgCreateDenom_Sender := ""; v1_MsgCreateDenom_Subdenom := "";
  v1_MsgCreateDenom_unknownFields := []
|}.

Definition v1_MsgCreateDenom_set_Sender (v : bytes) (x : v1_MsgCreateDenom) : v1_MsgCreateDenom := {|
  v1_MsgCreateDenom_Sender := v; v1_MsgCreateDenom_Subdenom := v1_MsgCreateDenom_Subdenom x;
  v1_MsgCreateDenom_unknownFields := v1_MsgCreateDenom_unknownFields x
|}.

Definition v1_MsgCreateDenom_set_Subdenom (v : bytes) (x : v1_MsgCreateDenom) : v1_MsgCreateDenom := {|
  v1_MsgCreateDenom_Sender := v1_MsgCreateDenom_Sender x; v1_MsgCreateDenom_Subdenom := v;
  v1_MsgCreateDenom_unknownFields := v1_MsgCreateDenom_unknownFields x
|}.

Definition v1_MsgCreateDenom_append (bz : raw) (x : v1_MsgCreateDenom) : v1_MsgCreateDenom := {|
  v1_MsgCreateDenom_Sender := v1_MsgCreateDenom_Sender x;
  v1_MsgCreateDenom_Subdenom := v1_MsgCreateDenom_Subdenom x;
  v1_MsgCreateDenom_unknownFields := v1_MsgCreateDenom_unknownFields x ++ bz
|}.

Definition v1_MsgCreateDenom_size (x : option v1_MsgCreateDenom) : Z :=
  match x with
  | None => 0
  | Some x =>
      size_bytes (v1_MsgCreateDenom_Sender x) +
      size_bytes (v1_MsgCreateDenom_Subdenom x) +
      size_unknown (v1_MsgCreateDenom_unknownFields x)
  end.

Definition v1_MsgCreateDenom_marshal (x : option v1_MsgCreateDenom) : M raw unit :=
  match x with
  | None => ret ()
  | Some m => marshal_into (v1_MsgCreateDenom_size x) (
      put_unknown (v1_MsgCreateDenom_unknownFields m) ;;;
      put_bytes 0x12 (v1_MsgCreateDenom_Subdenom m) ;;;
      put_bytes 0xa (v1_MsgCreateDenom_Sender m))
  end.

Definition v1_MsgCreateDenom_field (DiscardUnknown : bool) (dAtA : raw) (fieldNum : Z) :
    option (Z → M (rstate v1_MsgCreateDenom) unit) :=
  if fieldNum =? 1 then Some (λ wireType, expect_wire 2 "Sender" wireType
    (get_string dAtA v1_MsgCreateDenom_set_Sender))
  else if fieldNum =? 2 then Some (λ wireType, expect_wire 2 "Subdenom" wireType
    (get_string dAtA v1_MsgCreateDenom_set_Subdenom))
  else None.

Definition v1_MsgCreateDenom_unmarshal (DiscardUnknown : bool) (dAtA : raw) : M (option v1_MsgCreateDenom) unit :=
  unmarshal_into (read_all dAtA DiscardUnknown "MsgCreateDenom"
    (v1_MsgCreateDenom_field DiscardUnknown dAtA) v1_MsgCreateDenom_append).

#[export] Instance v1_MsgCreateDenom_proto : ProtoMessage v1_MsgCreateDenom := {|
  proto_new := v1_MsgCreateDenom_new;
  options_Size := v1_MsgCreateDenom_size;
  options_Marshal x := marshalled (v1_MsgCreateDenom_marshal x);
  options_Unmarshal := v1_MsgCreateDenom_unmarshal
|}.

(** ** MsgCreateDenomResponse *)

Record v1_MsgCreateDenomResponse := {
  v1_MsgCreateDenomResponse_NewTokenDenom : bytes;
  v1_MsgCreateDenomResponse_unknownFields : raw
}.

Definition v1_MsgCreateDenomResponse_new : v1_MsgCreateDenomResponse := {|
  v1_MsgCreateDenomResponse_NewTokenDenom := ""; v1_MsgCreateDenomResponse_unknownFields := []
|}.

Definition v1_MsgCreateDenomResponse_set_NewTokenDenom (v : bytes) (x : v1_MsgCreateDenomResponse) : v1_MsgCreateDenomResponse := {|
  v1_MsgCreateDenomResponse_NewTokenDenom := v;
  v1_MsgCreateDenomResponse_unknownFields := v1_MsgCreateDenomResponse_unknownFields x
|}.

Definition v1_MsgCreateDenomResponse_append (bz : raw) (x : v1_MsgCreateDenomResponse) : v1_MsgCreateDenomResponse := {|
  v1_MsgCreateDenomResponse_NewTokenDenom := v1_MsgCreateDenomResponse_NewTokenDenom x;
  v1_MsgCreateDenomResponse_unknownFields := v1_MsgCreateDenomResponse_unknownFields x ++ bz
|}.

Definition v1_MsgCreateDenomResponse_size (x : option v1_MsgCreateDenomResponse) : Z :=
  match x with
  | None => 0
  | Some x =>
      size_bytes (v1_MsgCreateDenomResponse_NewTokenDenom x) +
      size_unknown (v1_MsgCreateDenomResponse_unknownFields x)
  end.

Definition v1_MsgCreateDenomResponse_marshal (x : option v1_MsgCreateDenomResponse) : M raw unit :=
  match x with
  | None => ret ()
  | Some m => marshal_into (v1_MsgCreateDenomResponse_size x) (
      put_unknown (v1_MsgCreateDenomResponse_unknownFields m) ;;;
      put_bytes 0xa (v1_MsgCreateDenomResponse_NewTokenDenom m))
  end.

Definition v1_MsgCreateDenomResponse_field (DiscardUnknown : bool) (dAtA : raw) (fieldNum : Z) :
    option (Z → M (rstate v1_MsgCreateDenomResponse) unit) :=
  if fieldNum =? 1 then Some (λ wireType, expect_wire 2 "NewTokenDenom" wireType
    (get_string dAtA v1_MsgCreateDenomResponse_set_NewTokenDenom))
  else None.

Definition v1_MsgCreateDenomResponse_unmarshal (DiscardUnknown : bool) (dAtA : raw) : M (option v1_MsgCreateDenomResponse) unit :=
  unmarshal_into (read_all dAtA DiscardUnknown "MsgCreateDenomResponse"
    (v1_MsgCreateDenomResponse_field DiscardUnknown dAtA) v1_MsgCreateDenomResponse_append).

#[export] Instance v1_MsgCreateDenomResponse_proto : ProtoMessage v1_MsgCreateDenomResponse := {|
  proto_new := v1_MsgCreateDenomResponse_new;
  options_Size := v1_MsgCreateDenomResponse_size;
  options_Marshal x := marshalled (v1_MsgCreateDenomResponse_marshal x);
  options_Unmarshal := v1_MsgCreateDenomResponse_unmarshal
|}.

(** ** MsgMint *)

Record v1_MsgMint := {
  v1_MsgMint_Sender : bytes;
  v1_MsgMint_Amount : option ApiCoin;
  v1_MsgMint_MintToAddress : bytes;
  v1_MsgMint_unknownFields : raw
}.

Definition v1_MsgMint_new : v1_MsgMint := {|
  v1_MsgMint_Sender := ""; v1_MsgMint_Amount := None; v1_MsgMint_MintToAddress := "";
  v1_MsgMint_unknownFields := []
|}.

Definition v1_MsgMint_set_Sender (v : bytes) (x : v1_MsgMint) : v1_MsgMint := {|
  v1_MsgMint_Sender := v; v1_MsgMint_Amount := v1_MsgMint_Amount x;
  v1_MsgMint_MintToAddress := v1_MsgMint_MintToAddress x;
  v1_MsgMint_unknownFields := v1_MsgMint_unknownFields x
|}.

Definition v1_MsgMint_set_Amount (v : option ApiCoin) (x : v1_MsgMint) : v1_MsgMint := {|
  v1_MsgMint_Sender := v1_MsgMint_Sender x; v1_MsgMint_Amount := v;
  v1_MsgMint_MintToAddress := v1_MsgMint_MintToAddress x;
  v1_MsgMint_unknownFields := v1_MsgMint_unknownFields x
|}.

Definition v1_MsgMint_set_MintToAddress (v : bytes) (x : v1_MsgMint) : v1_MsgMint := {|
  v1_MsgMint_Sender := v1_MsgMint_Sender x; v1_MsgMint_Amount := v1_MsgMint_Amount x;
  v1_MsgMint_MintToAddress := v; v1_MsgMint_unknownFields := v1_MsgMint_unknownFields x
|}.

Definition v1_MsgMint_append (bz : raw) (x : v1_MsgMint) : v1_MsgMint := {|
  v1_MsgMint_Sender := v1_MsgMint_Sender x; v1_MsgMint_Amount := v1_MsgMint_Amount x;
  v1_MsgMint_MintToAddress := v1_MsgMint_MintToAddress x;
  v1_MsgMint_unknownFields := v1_MsgMint_unknownFields x ++ bz
|}.

Definition v1_MsgMint_size (x : option v1_MsgMint) : Z :=
  match x with
  | None => 0
  | Some x =>
      size_bytes (v1_MsgMint_Sender x) +
      size_message (v1_MsgMint_Amount x) +
      size_bytes (v1_MsgMint_MintToAddress x) +
      size_unknown (v1_MsgMint_unknownFields x)
  end.

Definition v1_MsgMint_marshal (x : option v1_MsgMint) : M raw unit :=
  match x with
  | None => ret ()
  | Some m => marshal_into (v1_MsgMint_size x) (
      put_unknown (v1_MsgMint_unknownFields m) ;;;
      put_bytes 0x1a (v1_MsgMint_MintToAddress m) ;;;
      put_message 0x12 (v1_MsgMint_Amount m) ;;;
      put_bytes 0xa (v1_MsgMint_Sender m))
  end.

Definition v1_MsgMint_field (DiscardUnknown : bool) (dAtA : raw) (fieldNum : Z) :
    option (Z → M (rstate v1_MsgMint) unit) :=
  if fieldNum =? 1 then Some (λ wireType, expect_wire 2 "Sender" wireType
    (get_string dAtA v1_MsgMint_set_Sender))
  else if fieldNum =? 2 then Some (λ wireType, expect_wire 2 "Amount" wireType
    (get_message dAtA DiscardUnknown v1_MsgMint_Amount v1_MsgMint_set_Amount))
  else if fieldNum =? 3 then Some (λ wireType, expect_wire 2 "MintToAddress" wireType
    (get_string dAtA v1_MsgMint_set_MintToAddress))
  else None.

Definition v1_MsgMint_unmarshal (DiscardUnknown : bool) (dAtA : raw) : M (option v1_MsgMint) unit :=
  unmarshal_into (read_all dAtA DiscardUnknown "MsgMint"
    (v1_MsgMint_field DiscardUnknown dAtA) v1_MsgMint_append).

#[export] Instance v1_MsgMint_proto : ProtoMessage v1_MsgMint := {|
  proto_new := v1_MsgMint_new;
  options_Size := v1_MsgMint_size;
  options_Marshal x := marshalled (v1_MsgMint_marshal x);
  options_Unmarshal := v1_MsgMint_unmarshal
|}.

(** ** MsgMintResponse *)

Record v1_MsgMintResponse := {
  v1_MsgMintResponse_unknownFields : raw
}.

Definition v1_MsgMintResponse_new : v1_MsgMintResponse := {|
  v1_MsgMintResponse_unknownFields := []
|}.

Definition v1_MsgMintResponse_append (bz : raw) (x : v1_MsgMintResponse) : v1_MsgMintResponse := {|
  v1_MsgMintResponse_unknownFields := v1_MsgMintResponse_unknownFields x ++ bz
|}.

Definition v1_MsgMintResponse_size (x : option v1_MsgMintResponse) : Z :=
  match x with
  | None => 0
  | Some x =>
      size_unknown (v1_MsgMintResponse_unknownFields x)
  end.

Definition v1_MsgMintResponse_marshal (x : option v1_MsgMintResponse) : M raw unit :=
  match x with
  | None => ret ()
  | Some m => marshal_into (v1_MsgMintResponse_size x) (
      put_unknown (v1_MsgMintResponse_unknownFields m))
  end.

Definition v1_MsgMintResponse_field (DiscardUnknown : bool) (dAtA : raw) (fieldNum : Z) :
    option (Z → M (rstate v1_MsgMintResponse) unit) :=
  None.

Definition v1_MsgMintResponse_unmarshal (DiscardUnknown : bool) (dAtA : raw) : M (option v1_MsgMintResponse) unit :=
  unmarshal_into (read_all dAtA DiscardUnknown "MsgMintResponse"
    (v1_MsgMintResponse_field DiscardUnknown dAtA) v1_MsgMintResponse_append).

#[export] Instance v1_MsgMintResponse_proto : ProtoMessage v1_MsgMintResponse := {|
  proto_new := v1_MsgMintResponse_new;
  options_Size := v1_MsgMintResponse_size;
  options_Marshal x := marshalled (v1_MsgMintResponse_marshal x);
  options_Unmarshal := v1_MsgMintResponse_unmarshal
|}.

(** ** MsgBurn *)

Record v1_MsgBurn := {
  v1_MsgBurn_Sender : bytes;
  v1_MsgBurn_Amount : option ApiCoin;
  v1_MsgBurn_unknownFields : raw
}.

Definition v1_MsgBurn_new : v1_MsgBurn := {|
  v1_MsgBurn_Sender := ""; v1_MsgBurn_Amount := None; v1_MsgBurn_unknownFields := []
|}.

Definition v1_MsgBurn_set_Sender (v : bytes) (x : v1_MsgBurn) : v1_MsgBurn := {|
  v1_MsgBurn_Sender := v; v1_MsgBurn_Amount := v1_MsgBurn_Amount x;
  v1_MsgBurn_unknownFields := v1_MsgBurn_unknownFields x
|}.

Definition v1_MsgBurn_set_Amount (v : option ApiCoin) (x : v1_MsgBurn) : v1_MsgBurn := {|
  v1_MsgBurn_Sender := v1_MsgBurn_Sender x; v1_MsgBurn_Amount := v;
  v1_MsgBurn_unknownFields := v1_MsgBurn_unknownFields x
|}.

Definition v1_MsgBurn_append (bz : raw) (x : v1_MsgBurn) : v1_MsgBurn := {|
  v1_MsgBurn_Sender := v1_MsgBurn_Sender x; v1_MsgBurn_Amount := v1_MsgBurn_Amount x;
  v1_MsgBurn_unknownFields := v1_MsgBurn_unknownFields x ++ bz
|}.

Definition v1_MsgBurn_size (x : option v1_MsgBurn) : Z :=
  match x with
  | None => 0
  | Some x =>
      size_bytes (v1_MsgBurn_Sender x) +
      size_message (v1_MsgBurn_Amount x) +
      size_unknown (v1_MsgBurn_unknownFields x)
  end.

Definition v1_MsgBurn_marshal (x : option v1_MsgBurn) : M raw unit :=
  match x with
  | None => ret ()
  | Some m => marshal_into (v1_MsgBurn_size x) (
      put_unknown (v1_MsgBurn_unknownFields m) ;;;
      put_message 0x12 (v1_MsgBurn_Amount m) ;;;
      put_bytes 0xa (v1_MsgBurn_Sender m))
  end.

Definition v1_MsgBurn_field (DiscardUnknown : bool) (dAtA : raw) (fieldNum : Z) :
    option (Z → M (rstate v1_MsgBurn) unit) :=
  if fieldNum =? 1 then Some (λ wireType, expect_wire 2 "Sender" wireType
    (get_string dAtA v1_MsgBurn_set_Sender))
  else if fieldNum =? 2 then Some (λ wireType, expect_wire 2 "Amount" wireType
    (get_message dAtA DiscardUnknown v1_MsgBurn_Amount v1_MsgBurn_set_Amount))
  else None.

Definition v1_MsgBurn_unmarshal (DiscardUnknown : bool) (dAtA : raw) : M (option v1_MsgBurn) unit :=
  unmarshal_into (read_all dAtA DiscardUnknown "MsgBurn"
    (v1_MsgBurn_field DiscardUnknown dAtA) v1_MsgBurn_append).

#[export] Instance v1_MsgBurn_proto : ProtoMessage v1_MsgBurn := {|
  proto_new := v1_MsgBurn_new;
  options_Size := v1_MsgBurn_size;
  options_Marshal x := marshalled (v1_MsgBurn_marshal x);
  options_Unmarshal := v1_MsgBurn_unmarshal
|}.

(** ** MsgBurnResponse *)

Record v1_MsgBurnResponse := {
  v1_MsgBurnResponse_unknownFields : raw
}.

Definition v1_MsgBurnResponse_new : v1_MsgBurnResponse := {|
  v1_MsgBurnResponse_unknownFields := []
|}.

Definition v1_MsgBurnResponse_append (bz : raw) (x : v1_MsgBurnResponse) : v1_MsgBurnResponse := {|
  v1_MsgBurnResponse_unknownFields := v1_MsgBurnResponse_unknownFields x ++ bz
|}.

Definition v1_MsgBurnResponse_size (x : option v1_MsgBurnResponse) : Z :=
  match x with
  | None => 0
  | Some x =>
      size_unknown (v1_MsgBurnResponse_unknownFields x)
  end.

Definition v1_MsgBurnResponse_marshal (x : option v1_MsgBurnResponse) : M raw unit :=
  match x with
  | None => ret ()
  | Some m => marshal_into (v1_MsgBurnResponse_size x) (
      put_unknown (v1_MsgBurnResponse_unknownFields m))
  end.

Definition v1_MsgBurnResponse_field (DiscardUnknown : bool) (dAtA : raw) (fieldNum : Z) :
    option (Z → M (rstate v1_MsgBurnResponse) unit) :=
  None.

Definition v1_MsgBurnResponse_unmarshal (DiscardUnknown : bool) (dAtA : raw) : M (option v1_MsgBurnResponse) unit :=
  unmarshal_into (read_all dAtA DiscardUnknown "MsgBurnResponse"
    (v1_MsgBurnResponse_field DiscardUnknown dAtA) v1_MsgBurnResponse_append).

#[export] Instance v1_MsgBurnResponse_proto : ProtoMessage v1_MsgBurnResponse := {|
  proto_new := v1_MsgBurnResponse_new;
  options_Size := v1_MsgBurnResponse_size;
  options_Marshal x := marshalled (v1_MsgBurnResponse_marshal x);
  options_Unmarshal := v1_MsgBurnResponse_unmarshal
|}.

(** ** MsgChangeAdmin *)

Record v1_MsgChangeAdmin := {
  v1_MsgChangeAdmin_Sender : bytes;
  v1_MsgChangeAdmin_Denom : bytes;
  v1_MsgChangeAdmin_NewAdmin : bytes;
  v1_MsgChangeAdmin_unknownFields : raw
}.

Definition v1_MsgChangeAdmin_new : v1_MsgChangeAdmin := {|
  v1_MsgChangeAdmin_Sender := ""; v1_MsgChangeAdmin_Denom := ""; v1_MsgChangeAdmin_NewAdmin := "";
  v1_MsgChangeAdmin_unknownFields := []
|}.

Definition v1_MsgChangeAdmin_set_Sender (v : bytes) (x : v1_MsgChangeAdmin) : v1_MsgChangeAdmin := {|
  v1_MsgChangeAdmin_Sender := v; v1_MsgChangeAdmin_Denom := v1_MsgChangeAdmin_Denom x;
  v1_MsgChangeAdmin_NewAdmin := v1_MsgChangeAdmin_NewAdmin x;
  v1_MsgChangeAdmin_unknownFields := v1_MsgChangeAdmin_unknownFields x
|}.

Definition v1_MsgChangeAdmin_set_Denom (v : bytes) (x : v1_MsgChangeAdmin) : v1_MsgChangeAdmin := {|
  v1_MsgChangeAdmin_Sender := v1_MsgChangeAdmin_Sender x; v1_MsgChangeAdmin_Denom := v;
  v1_MsgChangeAdmin_NewAdmin := v1_MsgChangeAdmin_NewAdmin x;
  v1_MsgChangeAdmin_unknownFields := v1_MsgChangeAdmin_unknownFields x
|}.

Definition v1_MsgChangeAdmin_set_NewAdmin (v : bytes) (x : v1_MsgChangeAdmin) : v1_MsgChangeAdmin := {|
  v1_MsgChangeAdmin_Sender := v1_MsgChangeAdmin_Sender x;
  v1_MsgChangeAdmin_Denom := v1_MsgChangeAdmin_Denom x; v1_MsgChangeAdmin_NewAdmin := v;
  v1_MsgChangeAdmin_unknownFields := v1_MsgChangeAdmin_unknownFields x
|}.

Definition v1_MsgChangeAdmin_append (bz : raw) (x : v1_MsgChangeAdmin) : v1_MsgChangeAdmin := {|
  v1_MsgChangeAdmin_Sender := v1_MsgChangeAdmin_Sender x;
  v1_MsgChangeAdmin_Denom := v1_MsgChangeAdmin_Denom x;
  v1_MsgChangeAdmin_NewAdmin := v1_MsgChangeAdmin_NewAdmin x;
  v1_MsgChangeAdmin_unknownFields := v1_MsgChangeAdmin_unknownFields x ++ bz
|}.

Definition v1_MsgChangeAdmin_size (x : option v1_MsgChangeAdmin) : Z :=
  match x with
  | None => 0
  | Some x =>
      size_bytes (v1_MsgChangeAdmin_Sender x) +
      size_bytes (v1_MsgChangeAdmin_Denom x) +
      size_bytes (v1_MsgChangeAdmin_NewAdmin x) +
      size_unknown (v1_MsgChangeAdmin_unknownFields x)
  end.

Definition v1_MsgChangeAdmin_marshal (x : option v1_MsgChangeAdmin) : M raw unit :=
  match x with
  | None => ret ()
  | Some m => marshal_into (v1_MsgChangeAdmin_size x) (
      put_unknown (v1_MsgChangeAdmin_unknownFields m) ;;;
      put_bytes 0x1a (v1_MsgChangeAdmin_NewAdmin m) ;;;
      put_bytes 0x12 (v1_MsgChangeAdmin_Denom m) ;;;
      put_bytes 0xa (v1_MsgChangeAdmin_Sender m))
  end.

Definition v1_MsgChangeAdmin_field (DiscardUnknown : bool) (dAtA : raw) (fieldNum : Z) :
    option (Z → M (rstate v1_MsgChangeAdmin) unit) :=
  if fieldNum =? 1 then Some (λ wireType, expect_wire 2 "Sender" wireType
    (get_string dAtA v1_MsgChangeAdmin_set_Sender))
  else if fieldNum =? 2 then Some (λ wireType, expect_wire 2 "Denom" wireType
    (get_string dAtA v1_MsgChangeAdmin_set_Denom))
  else if fieldNum =? 3 then Some (λ wireType, expect_wire 2 "NewAdmin" wireType
    (get_string dAtA v1_MsgChangeAdmin_set_NewAdmin))
  else None.

Definition v1_MsgChangeAdmin_unmarshal (DiscardUnknown : bool) (dAtA : raw) : M (option v1_MsgChangeAdmin) unit :=
  unmarshal_into (read_all dAtA DiscardUnknown "MsgChangeAdmin"
    (v1_MsgChangeAdmin_field DiscardUnknown dAtA) v1_MsgChangeAdmin_append).

#[export] Instance v1_MsgChangeAdmin_proto : ProtoMessage v1_MsgChangeAdmin := {|
  proto_new := v1_MsgChangeAdmin_new;
  options_Size := v1_MsgChangeAdmin_size;
  options_Marshal x := marshalled (v1_MsgChangeAdmin_marshal x);
  options_Unmarshal := v1_MsgChangeAdmin_unmarshal
|}.

(** ** MsgChangeAdminResponse *)

Record v1_MsgChangeAdminResponse := {
  v1_MsgChangeAdminResponse_unknownFields : raw
}.

Definition v1_MsgChangeAdminResponse_new : v1_MsgChangeAdminResponse := {|
  v1_MsgChangeAdminResponse_unknownFields := []
|}.

Definition v1_MsgChangeAdminResponse_append (bz : raw) (x : v1_MsgChangeAdminResponse) : v1_MsgChangeAdminResponse := {|
  v1_MsgChangeAdminResponse_unknownFields := v1_MsgChangeAdminResponse_unknownFields x ++ bz
|}.

Definition v1_MsgChangeAdminResponse_size (x : option v1_MsgChangeAdminResponse) : Z :=
  match x with
  | None => 0
  | Some x =>
      size_unknown (v1_MsgChangeAdminResponse_unknownFields x)
  end.

Definition v1_MsgChangeAdminResponse_marshal (x : option v1_MsgChangeAdminResponse) : M raw unit :=
  match x with
  | None => ret ()
  | Some m => marshal_into (v1_MsgChangeAdminResponse_size x) (
      put_unknown (v1_MsgChangeAdminResponse_unknownFields m))
  end.

Definition v1_MsgChangeAdminResponse_field (DiscardUnknown : bool) (dAtA : raw) (fieldNum : Z) :
    option (Z → M (rstate v1_MsgChangeAdminResponse) unit) :=
  None.

Definition v1_MsgChangeAdminResponse_unmarshal (DiscardUnknown : bool) (dAtA : raw) : M (option v1_MsgChangeAdminResponse) unit :=
  unmarshal_into (read_all dAtA DiscardUnknown "MsgChangeAdminResponse"
    (v1_MsgChangeAdminResponse_field DiscardUnknown dAtA) v1_MsgChangeAdminResponse_append).

#[export] Instance v1_MsgChangeAdminResponse_proto : ProtoMessage v1_MsgChangeAdminResponse := {|
  proto_new := v1_MsgChangeAdminResponse_new;
  options_Size := v1_MsgChangeAdminResponse_size;
  options_Marshal x := marshalled (v1_MsgChangeAdminResponse_marshal x);
  options_Unmarshal := v1_MsgChangeAdminResponse_unmarshal
|}.

(** ** MsgSetBeforeSendHook *)

Record v1_MsgSetBeforeSendHook := {
  v1_MsgSetBeforeSendHook_Sender : bytes;
  v1_MsgSetBeforeSendHook_Denom : bytes;
  v1_MsgSetBeforeSendHook_CosmwasmAddress : bytes;
  v1_MsgSetBeforeSendHook_unknownFields : raw
}.

Definition v1_MsgSetBeforeSendHook_new : v1_MsgSetBeforeSendHook := {|
  v1_MsgSetBeforeSendHook_Sender := ""; v1_MsgSetBeforeSendHook_Denom := "";
  v1_MsgSetBeforeSendHook_CosmwasmAddress := ""; v1_MsgSetBeforeSendHook_unknownFields := []
|}.

Definition v1_MsgSetBeforeSendHook_set_Sender (v : bytes) (x : v1_MsgSetBeforeSendHook) : v1_MsgSetBeforeSendHook := {|
  v1_MsgSetBeforeSendHook_Sender := v; v1_MsgSetBeforeSendHook_Denom := v1_MsgSetBeforeSendHook_Denom x;
  v1_MsgSetBeforeSendHook_CosmwasmAddress := v1_MsgSetBeforeSendHook_CosmwasmAddress x;
  v1_MsgSetBeforeSendHook_unknownFields := v1_MsgSetBeforeSendHook_unknownFields x
|}.

Definition v1_MsgSetBeforeSendHook_set_Denom (v : bytes) (x : v1_MsgSetBeforeSendHook) : v1_MsgSetBeforeSendHook := {|
  v1_MsgSetBeforeSendHook_Sender := v1_MsgSetBeforeSendHook_Sender x;
  v1_MsgSetBeforeSendHook_Denom := v;
  v1_MsgSetBeforeSendHook_CosmwasmAddress := v1_MsgSetBeforeSendHook_CosmwasmAddress x;
  v1_MsgSetBeforeSendHook_unknownFields := v1_MsgSetBeforeSendHook_unknownFields x
|}.

Definition v1_MsgSetBeforeSendHook_set_CosmwasmAddress (v : bytes) (x : v1_MsgSetBeforeSendHook) : v1_MsgSetBeforeSendHook := {|
  v1_MsgSetBeforeSendHook_Sender := v1_MsgSetBeforeSendHook_Sender x;
  v1_MsgSetBeforeSendHook_Denom := v1_MsgSetBeforeSendHook_Denom x;
  v1_MsgSetBeforeSendHook_CosmwasmAddress := v;
  v1_MsgSetBeforeSendHook_unknownFields := v1_MsgSetBeforeSendHook_unknownFields x
|}.

Definition v1_MsgSetBeforeSendHook_append (bz : raw) (x : v1_MsgSetBeforeSendHook) : v1_MsgSetBeforeSendHook := {|
  v1_MsgSetBeforeSendHook_Sender := v1_MsgSetBeforeSendHook_Sender x;
  v1_MsgSetBeforeSendHook_Denom := v1_MsgSetBeforeSendHook_Denom x;
  v1_MsgSetBeforeSendHook_CosmwasmAddress := v1_MsgSetBeforeSendHook_CosmwasmAddress x;
  v1_MsgSetBeforeSendHook_unknownFields := v1_MsgSetBeforeSendHook_unknownFields x ++ bz
|}.

Definition v1_MsgSetBeforeSendHook_size (x : option v1_MsgSetBeforeSendHook) : Z :=
  match x with
  | None => 0
  | Some x =>
      size_bytes (v1_MsgSetBeforeSendHook_Sender x) +
      size_bytes (v1_MsgSetBeforeSendHook_Denom x) +
      size_bytes (v1_MsgSetBeforeSendHook_CosmwasmAddress x) +
      size_unknown (v1_MsgSetBeforeSendHook_unknownFields x)
  end.

Definition v1_MsgSetBeforeSendHook_marshal (x : option v1_MsgSetBeforeSendHook) : M raw unit :=
  match x with
  | None => ret ()
  | Some m => marshal_into (v1_MsgSetBeforeSendHook_size x) (
      put_unknown (v1_MsgSetBeforeSendHook_unknownFields m) ;;;
      put_bytes 0x1a (v1_MsgSetBeforeSendHook_CosmwasmAddress m) ;;;
      put_bytes 0x12 (v1_MsgSetBeforeSendHook_Denom m) ;;;
      put_bytes 0xa (v1_MsgSetBeforeSendHook_Sender m))
  end.

Definition v1_MsgSetBeforeSendHook_field (DiscardUnknown : bool) (dAtA : raw) (fieldNum : Z) :
    option (Z → M (rstate v1_MsgSetBeforeSendHook) unit) :=
  if fieldNum =? 1 then Some (λ wireType, expect_wire 2 "Sender" wireType
    (get_string dAtA v1_MsgSetBeforeSendHook_set_Sender))
  else if fieldNum =? 2 then Some (λ wireType, expect_wire 2 "Denom" wireType
    (get_string dAtA v1_MsgSetBeforeSendHook_set_Denom))
  else if fieldNum =? 3 then Some (λ wireType, expect_wire 2 "CosmwasmAddress" wireType
    (get_string dAtA v1_MsgSetBeforeSendHook_set_CosmwasmAddress))
  else None.

Definition v1_MsgSetBeforeSendHook_unmarshal (DiscardUnknown : bool) (dAtA : raw) : M (option v1_MsgSetBeforeSendHook) unit :=
  unmarshal_into (read_all dAtA DiscardUnknown "MsgSetBeforeSendHook"
    (v1_MsgSetBeforeSendHook_field DiscardUnknown dAtA) v1_MsgSetBeforeSendHook_append).

#[export] Instance v1_MsgSetBeforeSendHook_proto : ProtoMessage v1_MsgSetBeforeSendHook := {|
  proto_new := v1_MsgSetBeforeSendHook_new;
  options_Size := v1_MsgSetBeforeSendHook_size;
  options_Marshal x := marshalled (v1_MsgSetBeforeSendHook_marshal x);
  options_Unmarshal := v1_MsgSetBeforeSendHook_unmarshal
|}.

(** ** MsgSetBeforeSendHookResponse *)

Record v1_MsgSetBeforeSendHookResponse := {
  v1_MsgSetBeforeSendHookResponse_unknownFields : raw
}.

Definition v1_MsgSetBeforeSendHookResponse_new : v1_MsgSetBeforeSendHookResponse := {|
  v1_MsgSetBeforeSendHookResponse_unknownFields := []
|}.

Definition v1_MsgSetBeforeSendHookResponse_append (bz : raw) (x : v1_MsgSetBeforeSendHookResponse) : v1_MsgSetBeforeSendHookResponse := {|
  v1_MsgSetBeforeSendHookResponse_unknownFields := v1_MsgSetBeforeSendHookResponse_unknownFields x ++ bz
|}.

Definition v1_MsgSetBeforeSendHookResponse_size (x : option v1_MsgSetBeforeSendHookResponse) : Z :=
  match x with
  | None => 0
  | Some x =>
      size_unknown (v1_MsgSetBeforeSendHookResponse_unknownFields x)
  end.

Definition v1_MsgSetBeforeSendHookResponse_marshal (x : option v1_MsgSetBeforeSendHookResponse) : M raw unit :=
  match x with
  | None => ret ()
  | Some m => marshal_into (v1_MsgSetBeforeSendHookResponse_size x) (
      put_unknown (v1_MsgSetBeforeSendHookResponse_unknownFields m))
  end.

Definition v1_MsgSetBeforeSendHookResponse_field (DiscardUnknown : bool) (dAtA : raw) (fieldNum : Z) :
    option (Z → M (rstate v1_MsgSetBeforeSendHookResponse) unit) :=
  None.

Definition v1_MsgSetBeforeSendHookResponse_unmarshal (DiscardUnknown : bool) (dAtA : raw) : M (option v1_MsgSetBeforeSendHookResponse) unit :=
  unmarshal_into (read_all dAtA DiscardUnknown "MsgSetBeforeSendHookResponse"
    (v1_MsgSetBeforeSendHookResponse_field DiscardUnknown dAtA) v1_MsgSetBeforeSendHookResponse_append).

#[export] Instance v1_MsgSetBeforeSendHookResponse_proto : ProtoMessage v1_MsgSetBeforeSendHookResponse := {|
  proto_new := v1_MsgSetBeforeSendHookResponse_new;
  options_Size := v1_MsgSetBeforeSendHookResponse_size;
  options_Marshal x := marshalled (v1_MsgSetBeforeSendHookResponse_marshal x);
  options_Unmarshal := v1_MsgSetBeforeSendHookResponse_unmarshal
|}.

(** ** MsgSetDenomMetadata *)

Record v1_MsgSetDenomMetadata := {
  v1_MsgSetDenomMetadata_Sender : bytes;
  v1_MsgSetDenomMetadata_Metadata : option ApiMetadata;
  v1_MsgSetDenomMetadata_unknownFields : raw
}.

Definition v1_MsgSetDenomMetadata_new : v1_MsgSetDenomMetadata := {|
  v1_MsgSetDenomMetadata_Sender := ""; v1_MsgSetDenomMetadata_Metadata := None;
  v1_MsgSetDenomMetadata_unknownFields := []
|}.

Definition v1_MsgSetDenomMetadata_set_Sender (v : bytes) (x : v1_MsgSetDenomMetadata) : v1_MsgSetDenomMetadata := {|
  v1_MsgSetDenomMetadata_Sender := v;
  v1_MsgSetDenomMetadata_Metadata := v1_MsgSetDenomMetadata_Metadata x;
  v1_MsgSetDenomMetadata_unknownFields := v1_MsgSetDenomMetadata_unknownFields x
|}.

Definition v1_MsgSetDenomMetadata_set_Metadata (v : option ApiMetadata) (x : v1_MsgSetDenomMetadata) : v1_MsgSetDenomMetadata := {|
  v1_MsgSetDenomMetadata_Sender := v1_MsgSetDenomMetadata_Sender x;
  v1_MsgSetDenomMetadata_Metadata := v;
  v1_MsgSetDenomMetadata_unknownFields := v1_MsgSetDenomMetadata_unknownFields x
|}.

Definition v1_MsgSetDenomMetadata_append (bz : raw) (x : v1_MsgSetDenomMetadata) : v1_MsgSetDenomMetadata := {|
  v1_MsgSetDenomMetadata_Sender := v1_MsgSetDenomMetadata_Sender x;
  v1_MsgSetDenomMetadata_Metadata := v1_MsgSetDenomMetadata_Metadata x;
  v1_MsgSetDenomMetadata_unknownFields := v1_MsgSetDenomMetadata_unknownFields x ++ bz
|}.

Definition v1_MsgSetDenomMetadata_size (x : option v1_MsgSetDenomMetadata) : Z :=
  match x with
  | None => 0
  | Some x =>
      size_bytes (v1_MsgSetDenomMetadata_Sender x) +
      size_message (v1_MsgSetDenomMetadata_Metadata x) +
      size_unknown (v1_MsgSetDenomMetadata_unknownFields x)
  end.

Definition v1_MsgSetDenomMetadata_marshal (x : option v1_MsgSetDenomMetadata) : M raw unit :=
  match x with
  | None => ret ()
  | Some m => marshal_into (v1_MsgSetDenomMetadata_size x) (
      put_unknown (v1_MsgSetDenomMetadata_unknownFields m) ;;;
      put_message 0x12 (v1_MsgSetDenomMetadata_Metadata m) ;;;
      put_bytes 0xa (v1_MsgSetDenomMetadata_Sender m))
  end.

Definition v1_MsgSetDenomMetadata_field (DiscardUnknown : bool) (dAtA : raw) (fieldNum : Z) :
    option (Z → M (rstate v1_MsgSetDenomMetadata) unit) :=
  if fieldNum =? 1 then Some (λ wireType, expect_wire 2 "Sender" wireType
    (get_string dAtA v1_MsgSetDenomMetadata_set_Sender))
  else if fieldNum =? 2 then Some (λ wireType, expect_wire 2 "Metadata" wireType
    (get_message dAtA DiscardUnknown v1_MsgSetDenomMetadata_Metadata v1_MsgSetDenomMetadata_set_Metadata))
  else None.

Definition v1_MsgSetDenomMetadata_unmarshal (DiscardUnknown : bool) (dAtA : raw) : M (option v1_MsgSetDenomMetadata) unit :=
  unmarshal_into (read_all dAtA DiscardUnknown "MsgSetDenomMetadata"
    (v1_MsgSetDenomMetadata_field DiscardUnknown dAtA) v1_MsgSetDenomMetadata_append).

#[export] Instance v1_MsgSetDenomMetadata_proto : ProtoMessage v1_MsgSetDenomMetadata := {|
  proto_new := v1_MsgSetDenomMetadata_new;
  options_Size := v1_MsgSetDenomMetadata_size;
  options_Marshal x := marshalled (v1_MsgSetDenomMetadata_marshal x);
  options_Unmarshal := v1_MsgSetDenomMetadata_unmarshal
|}.

(** ** MsgSetDenomMetadataResponse *)

Record v1_MsgSetDenomMetadataResponse := {
  v1_MsgSetDenomMetadataResponse_unknownFields : raw
}.

Definition v1_MsgSetDenomMetadataResponse_new : v1_MsgSetDenomMetadataResponse := {|
  v1_MsgSetDenomMetadataResponse_unknownFields := []
|}.

Definition v1_MsgSetDenomMetadataResponse_append (bz : raw) (x : v1_MsgSetDenomMetadataResponse) : v1_MsgSetDenomMetadataResponse := {|
  v1_MsgSetDenomMetadataResponse_unknownFields := v1_MsgSetDenomMetadataResponse_unknownFields x ++ bz
|}.

Definition v1_MsgSetDenomMetadataResponse_size (x : option v1_MsgSetDenomMetadataResponse) : Z :=
  match x with
  | None => 0
  | Some x =>
      size_unknown (v1_MsgSetDenomMetadataResponse_unknownFields x)
  end.

Definition v1_MsgSetDenomMetadataResponse_marshal (x : option v1_MsgSetDenomMetadataResponse) : M raw unit :=
  match x with
  | None => ret ()
  | Some m => marshal_into (v1_MsgSetDenomMetadataResponse_size x) (
      put_unknown (v1_MsgSetDenomMetadataResponse_unknownFields m))
  end.

Definition v1_MsgSetDenomMetadataResponse_field (DiscardUnknown : bool) (dAtA : raw) (fieldNum : Z) :
    option (Z → M (rstate v1_MsgSetDenomMetadataResponse) unit) :=
  None.

Definition v1_MsgSetDenomMetadataResponse_unmarshal (DiscardUnknown : bool) (dAtA : raw) : M (option v1_MsgSetDenomMetadataResponse) unit :=
  unmarshal_into (read_all dAtA DiscardUnknown "MsgSetDenomMetadataResponse"
    (v1_MsgSetDenomMetadataResponse_field DiscardUnknown dAtA) v1_MsgSetDenomMetadataResponse_append).

#[export] Instance v1_MsgSetDenomMetadataResponse_proto : ProtoMessage v1_MsgSetDenomMetadataResponse := {|
  proto_new := v1_MsgSetDenomMetadataResponse_new;
  options_Size := v1_MsgSetDenomMetadataResponse_size;
  options_Marshal x := marshalled (v1_MsgSetDenomMetadataResponse_marshal x);
  options_Unmarshal := v1_MsgSetDenomMetadataResponse_unmarshal
|}.

(** ** MsgUpdateParams *)

Record v1_MsgUpdateParams := {
  v1_MsgUpdateParams_Authority : bytes;
  v1_MsgUpdateParams_Params : option v1_Params;
  v1_MsgUpdateParams_unknownFields : raw
}.

Definition v1_MsgUpdateParams_new : v1_MsgUpdateParams := {|
  v1_MsgUpdateParams_Authority := ""; v1_MsgUpdateParams_Params := None;
  v1_MsgUpdateParams_unknownFields := []
|}.

Definition v1_MsgUpdateParams_set_Authority (v : bytes) (x : v1_MsgUpdateParams) : v1_MsgUpdateParams := {|
  v1_MsgUpdateParams_Authority := v; v1_MsgUpdateParams_Params := v1_MsgUpdateParams_Params x;
  v1_MsgUpdateParams_unknownFields := v1_MsgUpdateParams_unknownFields x
|}.

Definition v1_MsgUpdateParams_set_Params (v : option v1_Params) (x : v1_MsgUpdateParams) : v1_MsgUpdateParams := {|
  v1_MsgUpdateParams_Authority := v1_MsgUpdateParams_Authority x; v1_MsgUpdateParams_Params := v;
  v1_MsgUpdateParams_unknownFields := v1_MsgUpdateParams_unknownFields x
|}.

Definition v1_MsgUpdateParams_append (bz : raw) (x : v1_MsgUpdateParams) : v1_MsgUpdateParams := {|
  v1_MsgUpdateParams_Authority := v1_MsgUpdateParams_Authority x;
  v1_MsgUpdateParams_Params := v1_MsgUpdateParams_Params x;
  v1_MsgUpdateParams_unknownFields := v1_MsgUpdateParams_unknownFields x ++ bz
|}.

Definition v1_MsgUpdateParams_size (x : option v1_MsgUpdateParams) : Z :=
  match x with
  | None => 0
  | Some x =>
      size_bytes (v1_MsgUpdateParams_Authority x) +
      size_message (v1_MsgUpdateParams_Params x) +
      size_unknown (v1_MsgUpdateParams_unknownFields x)
  end.

Definition v1_MsgUpdateParams_marshal (x : option v1_MsgUpdateParams) : M raw unit :=
  match x with
  | None => ret ()
  | Some m => marshal_into (v1_MsgUpdateParams_size x) (
      put_unknown (v1_MsgUpdateParams_unknownFields m) ;;;
      put_message 0x12 (v1_MsgUpdateParams_Params m) ;;;
      put_bytes 0xa (v1_MsgUpdateParams_Authority m))
  end.

Definition v1_MsgUpdateParams_field (DiscardUnknown : bool) (dAtA : raw) (fieldNum : Z) :
    option (Z → M (rstate v1_MsgUpdateParams) unit) :=
  if fieldNum =? 1 then Some (λ wireType, expect_wire 2 "Authority" wireType
    (get_string dAtA v1_MsgUpdateParams_set_Authority))
  else if fieldNum =? 2 then Some (λ wireType, expect_wire 2 "Params" wireType
    (get_message dAtA DiscardUnknown v1_MsgUpdateParams_Params v1_MsgUpdateParams_set_Params))
  else None.

Definition v1_MsgUpdateParams_unmarshal (DiscardUnknown : bool) (dAtA : raw) : M (option v1_MsgUpdateParams) unit :=
  unmarshal_into (read_all dAtA DiscardUnknown "MsgUpdateParams"
    (v1_MsgUpdateParams_field DiscardUnknown dAtA) v1_MsgUpdateParams_append).

#[export] Instance v1_MsgUpdateParams_proto : ProtoMessage v1_MsgUpdateParams := {|
  proto_new := v1_MsgUpdateParams_new;
  options_Size := v1_MsgUpdateParams_size;
  options_Marshal x := marshalled (v1_MsgUpdateParams_marshal x);
  options_Unmarshal := v1_MsgUpdateParams_unmarshal
|}.

(** ** MsgUpdateParamsResponse *)

Record v1_MsgUpdateParamsResponse := {
  v1_MsgUpdateParamsResponse_unknownFields : raw
}.

Definition v1_MsgUpdateParamsResponse_new : v1_MsgUpdateParamsResponse := {|
  v1_MsgUpdateParamsResponse_unknownFields := []
|}.

Definition v1_MsgUpdateParamsResponse_append (bz : raw) (x : v1_MsgUpdateParamsResponse) : v1_MsgUpdateParamsResponse := {|
  v1_MsgUpdateParamsResponse_unknownFields := v1_MsgUpdateParamsResponse_unknownFields x ++ bz
|}.

Definition v1_MsgUpdateParamsResponse_size (x : option v1_MsgUpdateParamsResponse) : Z :=
  match x with
  | None => 0
  | Some x =>
      size_unknown (v1_MsgUpdateParamsResponse_unknownFields x)
  end.

Definition v1_MsgUpdateParamsResponse_marshal (x : option v1_MsgUpdateParamsResponse) : M raw unit :=
  match x with
  | None => ret ()
  | Some m => marshal_into (v1_MsgUpdateParamsResponse_size x) (
      put_unknown (v1_MsgUpdateParamsResponse_unknownFields m))
  end.

Definition v1_MsgUpdateParamsResponse_field (DiscardUnknown : bool) (dAtA : raw) (fieldNum : Z) :
    option (Z → M (rstate v1_MsgUpdateParamsResponse) unit) :=
  None.

Definition v1_MsgUpdateParamsResponse_unmarshal (DiscardUnknown : bool) (dAtA : raw) : M (option v1_MsgUpdateParamsResponse) unit :=
  unmarshal_into (read_all dAtA DiscardUnknown "MsgUpdateParamsResponse"
    (v1_MsgUpdateParamsResponse_field DiscardUnknown dAtA) v1_MsgUpdateParamsResponse_append).

#[export] Instance v1_MsgUpdateParamsResponse_proto : ProtoMessage v1_MsgUpdateParamsResponse := {|
  proto_new := v1_MsgUpdateParamsResponse_new;
  options_Size := v1_MsgUpdateParamsResponse_size;
  options_Marshal x := marshalled (v1_MsgUpdateParamsResponse_marshal x);
  options_Unmarshal := v1_MsgUpdateParamsResponse_unmarshal
|}.

End messages.

(** * What they promise *)

Section laws.
Context {WR : WireRuntime} {SM : SdkMessages}.
Context {WL : WireRuntimeLaws WR} {SL : SdkMessagesLaws SM}.

Definition v1_MsgCreateDenom_enc (x : v1_MsgCreateDenom) : raw :=
  enc_bytes 0xa (v1_MsgCreateDenom_Sender x) ++
  enc_bytes 0x12 (v1_MsgCreateDenom_Subdenom x) ++
  v1_MsgCreateDenom_unknownFields x.

Definition v1_MsgCreateDenom_ok (x : v1_MsgCreateDenom) : Prop :=
  raw_fields (v1_MsgCreateDenom_field false) (v1_MsgCreateDenom_unknownFields x).

Lemma v1_MsgCreateDenom_writes x : encodes (v1_MsgCreateDenom_marshal (Some x)) (v1_MsgCreateDenom_size (Some x)) (v1_MsgCreateDenom_enc x).
Proof. apply encodes_intro; unfold v1_MsgCreateDenom_enc; [wire_writes|unfold v1_MsgCreateDenom_size; wire_size]. Qed.

Lemma v1_MsgCreateDenom_reads x :
  v1_MsgCreateDenom_ok x → len (v1_MsgCreateDenom_enc x) < 2 ^ 63 →
  v1_MsgCreateDenom_unmarshal false (v1_MsgCreateDenom_enc x) (Some v1_MsgCreateDenom_new) = (Ok (), Some x).
Proof.
  intros Hok H63. destruct x as [f1 f2 u]; rename Hok into Hu.
  unfold v1_MsgCreateDenom_enc, v1_MsgCreateDenom_ok in *.
  cbn [ v1_MsgCreateDenom_Sender v1_MsgCreateDenom_Subdenom v1_MsgCreateDenom_unknownFields] in *.
  apply (unmarshal_reads _ (v1_MsgCreateDenom_field false)); [|done].
  wire_read (reads_string "MsgCreateDenom" (v1_MsgCreateDenom_field false) v1_MsgCreateDenom_append 1 "Sender").
  wire_read (reads_string "MsgCreateDenom" (v1_MsgCreateDenom_field false) v1_MsgCreateDenom_append 2 "Subdenom").
  wire_unknown v1_MsgCreateDenom_append.
Qed.

Lemma v1_MsgCreateDenom_total d bz x : len bz < 2 ^ 63 → no_panic (v1_MsgCreateDenom_unmarshal d bz x).1.
Proof.
  intros. apply unmarshal_total; [done|]. intros n k wt. unfold v1_MsgCreateDenom_field. wire_moves.
Qed.

#[export] Instance v1_MsgCreateDenom_laws : ProtoLaws v1_MsgCreateDenom v1_MsgCreateDenom_proto :=
  proto_laws v1_MsgCreateDenom_marshal v1_MsgCreateDenom_enc v1_MsgCreateDenom_ok (λ _, eq_refl) eq_refl eq_refl
    v1_MsgCreateDenom_writes v1_MsgCreateDenom_reads v1_MsgCreateDenom_total.

Definition v1_MsgCreateDenomResponse_enc (x : v1_MsgCreateDenomResponse) : raw :=
  enc_bytes 0xa (v1_MsgCreateDenomResponse_NewTokenDenom x) ++
  v1_MsgCreateDenomResponse_unknownFields x.

Definition v1_MsgCreateDenomResponse_ok (x : v1_MsgCreateDenomResponse) : Prop :=
  raw_fields (v1_MsgCreateDenomResponse_field false) (v1_MsgCreateDenomResponse_unknownFields x).

Lemma v1_MsgCreateDenomResponse_writes x : encodes (v1_MsgCreateDenomResponse_marshal (Some x)) (v1_MsgCreateDenomResponse_size (Some x)) (v1_MsgCreateDenomResponse_enc x).
Proof. apply encodes_intro; unfold v1_MsgCreateDenomResponse_enc; [wire_writes|unfold v1_MsgCreateDenomResponse_size; wire_size]. Qed.

Lemma v1_MsgCreateDenomResponse_reads x :
  v1_MsgCreateDenomResponse_ok x → len (v1_MsgCreateDenomResponse_enc x) < 2 ^ 63 →
  v1_MsgCreateDenomResponse_unmarshal false (v1_MsgCreateDenomResponse_enc x) (Some v1_MsgCreateDenomResponse_new) = (Ok (), Some x).
Proof.
  intros Hok H63. destruct x as [f1 u]; rename Hok into Hu.
  unfold v1_MsgCreateDenomResponse_enc, v1_MsgCreateDenomResponse_ok in *.
  cbn [ v1_MsgCreateDenomResponse_NewTokenDenom v1_MsgCreateDenomResponse_unknownFields] in *.
  apply (unmarshal_reads _ (v1_MsgCreateDenomResponse_field false)); [|done].
  wire_read (reads_string "MsgCreateDenomResponse" (v1_MsgCreateDenomResponse_field false) v1_MsgCreateDenomResponse_append 1 "NewTokenDenom").
  wire_unknown v1_MsgCreateDenomResponse_append.
Qed.

Lemma v1_MsgCreateDenomResponse_total d bz x : len bz < 2 ^ 63 → no_panic (v1_MsgCreateDenomResponse_unmarshal d bz x).1.
Proof.
  intros. apply unmarshal_total; [done|]. intros n k wt. unfold v1_MsgCreateDenomResponse_field. wire_moves.
Qed.

#[export] Instance v1_MsgCreateDenomResponse_laws : ProtoLaws v1_MsgCreateDenomResponse v1_MsgCreateDenomResponse_proto :=
  proto_laws v1_MsgCreateDenomResponse_marshal v1_MsgCreateDenomResponse_enc v1_MsgCreateDenomResponse_ok (λ _, eq_refl) eq_refl eq_refl
    v1_MsgCreateDenomResponse_writes v1_MsgCreateDenomResponse_reads v1_MsgCreateDenomResponse_total.

Definition v1_MsgMint_enc (x : v1_MsgMint) : raw :=
  enc_bytes 0xa (v1_MsgMint_Sender x) ++
  enc_message 0x12 (v1_MsgMint_Amount x) ++
  enc_bytes 0x1a (v1_MsgMint_MintToAddress x) ++
  v1_MsgMint_unknownFields x.

Definition v1_MsgMint_ok (x : v1_MsgMint) : Prop :=
  ok_message (v1_MsgMint_Amount x) ∧
  raw_fields (v1_MsgMint_field false) (v1_MsgMint_unknownFields x).

Lemma v1_MsgMint_writes x : encodes (v1_MsgMint_marshal (Some x)) (v1_MsgMint_size (Some x)) (v1_MsgMint_enc x).
Proof. apply encodes_intro; unfold v1_MsgMint_enc; [wire_writes|unfold v1_MsgMint_size; wire_size]. Qed.

Lemma v1_MsgMint_reads x :
  v1_MsgMint_ok x → len (v1_MsgMint_enc x) < 2 ^ 63 →
  v1_MsgMint_unmarshal false (v1_MsgMint_enc x) (Some v1_MsgMint_new) = (Ok (), Some x).
Proof.
  intros Hok H63. destruct x as [f1 f2 f3 u]; destruct Hok as (HAmount & Hu).
  unfold v1_MsgMint_enc in *.
  cbn [ v1_MsgMint_Sender v1_MsgMint_Amount v1_MsgMint_MintToAddress v1_MsgMint_unknownFields] in *.
  apply (unmarshal_reads _ (v1_MsgMint_field false)); [|done].
  wire_read (reads_string "MsgMint" (v1_MsgMint_field false) v1_MsgMint_append 1 "Sender").
  wire_read (reads_message (A:=ApiCoin) "MsgMint" (v1_MsgMint_field false) v1_MsgMint_append 2 "Amount").
  wire_read (reads_string "MsgMint" (v1_MsgMint_field false) v1_MsgMint_append 3 "MintToAddress").
  wire_unknown v1_MsgMint_append.
Qed.

Lemma v1_MsgMint_total d bz x : len bz < 2 ^ 63 → no_panic (v1_MsgMint_unmarshal d bz x).1.
Proof.
  intros. apply unmarshal_total; [done|]. intros n k wt. unfold v1_MsgMint_field. wire_moves.
Qed.

#[export] Instance v1_MsgMint_laws : ProtoLaws v1_MsgMint v1_MsgMint_proto :=
  proto_laws v1_MsgMint_marshal v1_MsgMint_enc v1_MsgMint_ok (λ _, eq_refl) eq_refl eq_refl
    v1_MsgMint_writes v1_MsgMint_reads v1_MsgMint_total.

Definition v1_MsgMintResponse_enc (x : v1_MsgMintResponse) : raw :=
  v1_MsgMintResponse_unknownFields x.

Definition v1_MsgMintResponse_ok (x : v1_MsgMintResponse) : Prop :=
  raw_fields (v1_MsgMintResponse_field false) (v1_MsgMintResponse_unknownFields x).

Lemma v1_MsgMintResponse_writes x : encodes (v1_MsgMintResponse_marshal (Some x)) (v1_MsgMintResponse_size (Some x)) (v1_MsgMintResponse_enc x).
Proof. apply encodes_intro; unfold v1_MsgMintResponse_enc; [wire_writes|unfold v1_MsgMintResponse_size; wire_size]. Qed.

Lemma v1_MsgMintResponse_reads x :
  v1_MsgMintResponse_ok x → len (v1_MsgMintResponse_enc x) < 2 ^ 63 →
  v1_MsgMintResponse_unmarshal false (v1_MsgMintResponse_enc x) (Some v1_MsgMintResponse_new) = (Ok (), Some x).
Proof.
  intros Hok H63. destruct x as [u]; rename Hok into Hu.
  unfold v1_MsgMintResponse_enc, v1_MsgMintResponse_ok in *.
  cbn [ v1_MsgMintResponse_unknownFields] in *.
  apply (unmarshal_reads _ (v1_MsgMintResponse_field false)); [|done].
  wire_unknown v1_MsgMintResponse_append.
Qed.

Lemma v1_MsgMintResponse_total d bz x : len bz < 2 ^ 63 → no_panic (v1_MsgMintResponse_unmarshal d bz x).1.
Proof.
  intros. apply unmarshal_total; [done|]. intros n k wt. unfold v1_MsgMintResponse_field. wire_moves.
Qed.

#[export] Instance v1_MsgMintResponse_laws : ProtoLaws v1_MsgMintResponse v1_MsgMintResponse_proto :=
  proto_laws v1_MsgMintResponse_marshal v1_MsgMintResponse_enc v1_MsgMintResponse_ok (λ _, eq_refl) eq_refl eq_refl
    v1_MsgMintResponse_writes v1_MsgMintResponse_reads v1_MsgMintResponse_total.

Definition v1_MsgBurn_enc (x : v1_MsgBurn) : raw :=
  enc_bytes 0xa (v1_MsgBurn_Sender x) ++
  enc_message 0x12 (v1_MsgBurn_Amount x) ++
  v1_MsgBurn_unknownFields x.

Definition v1_MsgBurn_ok (x : v1_MsgBurn) : Prop :=
  ok_message (v1_MsgBurn_Amount x) ∧
  raw_fields (v1_MsgBurn_field false) (v1_MsgBurn_unknownFields x).

Lemma v1_MsgBurn_writes x : encodes (v1_MsgBurn_marshal (Some x)) (v1_MsgBurn_size (Some x)) (v1_MsgBurn_enc x).
Proof. apply encodes_intro; unfold v1_MsgBurn_enc; [wire_writes|unfold v1_MsgBurn_size; wire_size]. Qed.

Lemma v1_MsgBurn_reads x :
  v1_MsgBurn_ok x → len (v1_MsgBurn_enc x) < 2 ^ 63 →
  v1_MsgBurn_unmarshal false (v1_MsgBurn_enc x) (Some v1_MsgBurn_new) = (Ok (), Some x).
Proof.
  intros Hok H63. destruct x as [f1 f2 u]; destruct Hok as (HAmount & Hu).
  unfold v1_MsgBurn_enc in *.
  cbn [ v1_MsgBurn_Sender v1_MsgBurn_Amount v1_MsgBurn_unknownFields] in *.
  apply (unmarshal_reads _ (v1_MsgBurn_field false)); [|done].
  wire_read (reads_string "MsgBurn" (v1_MsgBurn_field false) v1_MsgBurn_append 1 "Sender").
  wire_read (reads_message (A:=ApiCoin) "MsgBurn" (v1_MsgBurn_field false) v1_MsgBurn_append 2 "Amount").
  wire_unknown v1_MsgBurn_append.
Qed.

Lemma v1_MsgBurn_total d bz x : len bz < 2 ^ 63 → no_panic (v1_MsgBurn_unmarshal d bz x).1.
Proof.
  intros. apply unmarshal_total; [done|]. intros n k wt. unfold v1_MsgBurn_field. wire_moves.
Qed.

#[export] Instance v1_MsgBurn_laws : ProtoLaws v1_MsgBurn v1_MsgBurn_proto :=
  proto_laws v1_MsgBurn_marshal v1_MsgBurn_enc v1_MsgBurn_ok (λ _, eq_refl) eq_refl eq_refl
    v1_MsgBurn_writes v1_MsgBurn_reads v1_MsgBurn_total.

Definition v1_MsgBurnResponse_enc (x : v1_MsgBurnResponse) : raw :=
  v1_MsgBurnResponse_unknownFields x.

Definition v1_MsgBurnResponse_ok (x : v1_MsgBurnResponse) : Prop :=
  raw_fields (v1_MsgBurnResponse_field false) (v1_MsgBurnResponse_unknownFields x).

Lemma v1_MsgBurnResponse_writes x : encodes (v1_MsgBurnResponse_marshal (Some x)) (v1_MsgBurnResponse_size (Some x)) (v1_MsgBurnResponse_enc x).
Proof. apply encodes_intro; unfold v1_MsgBurnResponse_enc; [wire_writes|unfold v1_MsgBurnResponse_size; wire_size]. Qed.

Lemma v1_MsgBurnResponse_reads x :
  v1_MsgBurnResponse_ok x → len (v1_MsgBurnResponse_enc x) < 2 ^ 63 →
  v1_MsgBurnResponse_unmarshal false (v1_MsgBurnResponse_enc x) (Some v1_MsgBurnResponse_new) = (Ok (), Some x).
Proof.
  intros Hok H63. destruct x as [u]; rename Hok into Hu.
  unfold v1_MsgBurnResponse_enc, v1_MsgBurnResponse_ok in *.
  cbn [ v1_MsgBurnResponse_unknownFields] in *.
  apply (unmarshal_reads _ (v1_MsgBurnResponse_field false)); [|done].
  wire_unknown v1_MsgBurnResponse_append.
Qed.

Lemma v1_MsgBurnResponse_total d bz x : len bz < 2 ^ 63 → no_panic (v1_MsgBurnResponse_unmarshal d bz x).1.
Proof.
  intros. apply unmarshal_total; [done|]. intros n k wt. unfold v1_MsgBurnResponse_field. wire_moves.
Qed.

#[export] Instance v1_MsgBurnResponse_laws : ProtoLaws v1_MsgBurnResponse v1_MsgBurnResponse_proto :=
  proto_laws v1_MsgBurnResponse_marshal v1_MsgBurnResponse_enc v1_MsgBurnResponse_ok (λ _, eq_refl) eq_refl eq_refl
    v1_MsgBurnResponse_writes v1_MsgBurnResponse_reads v1_MsgBurnResponse_total.

Definition v1_MsgChangeAdmin_enc (x : v1_MsgChangeAdmin) : raw :=
  enc_bytes 0xa (v1_MsgChangeAdmin_Sender x) ++
  enc_bytes 0x12 (v1_MsgChangeAdmin_Denom x) ++
  enc_bytes 0x1a (v1_MsgChangeAdmin_NewAdmin x) ++
  v1_MsgChangeAdmin_unknownFields x.

Definition v1_MsgChangeAdmin_ok (x : v1_MsgChangeAdmin) : Prop :=
  raw_fields (v1_MsgChangeAdmin_field false) (v1_MsgChangeAdmin_unknownFields x).

Lemma v1_MsgChangeAdmin_writes x : encodes (v1_MsgChangeAdmin_marshal (Some x)) (v1_MsgChangeAdmin_size (Some x)) (v1_MsgChangeAdmin_enc x).
Proof. apply encodes_intro; unfold v1_MsgChangeAdmin_enc; [wire_writes|unfold v1_MsgChangeAdmin_size; wire_size]. Qed.

Lemma v1_MsgChangeAdmin_reads x :
  v1_MsgChangeAdmin_ok x → len (v1_MsgChangeAdmin_enc x) < 2 ^ 63 →
  v1_MsgChangeAdmin_unmarshal false (v1_MsgChangeAdmin_enc x) (Some v1_MsgChangeAdmin_new) = (Ok (), Some x).
Proof.
  intros Hok H63. destruct x as [f1 f2 f3 u]; rename Hok into Hu.
  unfold v1_MsgChangeAdmin_enc, v1_MsgChangeAdmin_ok in *.
  cbn [ v1_MsgChangeAdmin_Sender v1_MsgChangeAdmin_Denom v1_MsgChangeAdmin_NewAdmin
    v1_MsgChangeAdmin_unknownFields] in *.
  apply (unmarshal_reads _ (v1_MsgChangeAdmin_field false)); [|done].
  wire_read (reads_string "MsgChangeAdmin" (v1_MsgChangeAdmin_field false) v1_MsgChangeAdmin_append 1 "Sender").
  wire_read (reads_string "MsgChangeAdmin" (v1_MsgChangeAdmin_field false) v1_MsgChangeAdmin_append 2 "Denom").
  wire_read (reads_string "MsgChangeAdmin" (v1_MsgChangeAdmin_field false) v1_MsgChangeAdmin_append 3 "NewAdmin").
  wire_unknown v1_MsgChangeAdmin_append.
Qed.

Lemma v1_MsgChangeAdmin_total d bz x : len bz < 2 ^ 63 → no_panic (v1_MsgChangeAdmin_unmarshal d bz x).1.
Proof.
  intros. apply unmarshal_total; [done|]. intros n k wt. unfold v1_MsgChangeAdmin_field. wire_moves.
Qed.

#[export] Instance v1_MsgChangeAdmin_laws : ProtoLaws v1_MsgChangeAdmin v1_MsgChangeAdmin_proto :=
  proto_laws v1_MsgChangeAdmin_marshal v1_MsgChangeAdmin_enc v1_MsgChangeAdmin_ok (λ _, eq_refl) eq_refl eq_refl
    v1_MsgChangeAdmin_writes v1_MsgChangeAdmin_reads v1_MsgChangeAdmin_total.

Definition v1_MsgChangeAdminResponse_enc (x : v1_MsgChangeAdminResponse) : raw :=
  v1_MsgChangeAdminResponse_unknownFields x.

Definition v1_MsgChangeAdminResponse_ok (x : v1_MsgChangeAdminResponse) : Prop :=
  raw_fields (v1_MsgChangeAdminResponse_field false) (v1_MsgChangeAdminResponse_unknownFields x).

Lemma v1_MsgChangeAdminResponse_writes x : encodes (v1_MsgChangeAdminResponse_marshal (Some x)) (v1_MsgChangeAdminResponse_size (Some x)) (v1_MsgChangeAdminResponse_enc x).
Proof. apply encodes_intro; unfold v1_MsgChangeAdminResponse_enc; [wire_writes|unfold v1_MsgChangeAdminResponse_size; wire_size]. Qed.

Lemma v1_MsgChangeAdminResponse_reads x :
  v1_MsgChangeAdminResponse_ok x → len (v1_MsgChangeAdminResponse_enc x) < 2 ^ 63 →
  v1_MsgChangeAdminResponse_unmarshal false (v1_MsgChangeAdminResponse_enc x) (Some v1_MsgChangeAdminResponse_new) = (Ok (), Some x).
Proof.
  intros Hok H63. destruct x as [u]; rename Hok into Hu.
  unfold v1_MsgChangeAdminResponse_enc, v1_MsgChangeAdminResponse_ok in *.
  cbn [ v1_MsgChangeAdminResponse_unknownFields] in *.
  apply (unmarshal_reads _ (v1_MsgChangeAdminResponse_field false)); [|done].
  wire_unknown v1_MsgChangeAdminResponse_append.
Qed.

Lemma v1_MsgChangeAdminResponse_total d bz x : len bz < 2 ^ 63 → no_panic (v1_MsgChangeAdminResponse_unmarshal d bz x).1.
Proof.
  intros. apply unmarshal_total; [done|]. intros n k wt. unfold v1_MsgChangeAdminResponse_field. wire_moves.
Qed.

#[export] Instance v1_MsgChangeAdminResponse_laws : ProtoLaws v1_MsgChangeAdminResponse v1_MsgChangeAdminResponse_proto :=
  proto_laws v1_MsgChangeAdminResponse_marshal v1_MsgChangeAdminResponse_enc v1_MsgChangeAdminResponse_ok (λ _, eq_refl) eq_refl eq_refl
    v1_MsgChangeAdminResponse_writes v1_MsgChangeAdminResponse_reads v1_MsgChangeAdminResponse_total.

Definition v1_MsgSetBeforeSendHook_enc (x : v1_MsgSetBeforeSendHook) : raw :=
  enc_bytes 0xa (v1_MsgSetBeforeSendHook_Sender x) ++
  enc_bytes 0x12 (v1_MsgSetBeforeSendHook_Denom x) ++
  enc_bytes 0x1a (v1_MsgSetBeforeSendHook_CosmwasmAddress x) ++
  v1_MsgSetBeforeSendHook_unknownFields x.

Definition v1_MsgSetBeforeSendHook_ok (x : v1_MsgSetBeforeSendHook) : Prop :=
  raw_fields (v1_MsgSetBeforeSendHook_field false) (v1_MsgSetBeforeSendHook_unknownFields x).

Lemma v1_MsgSetBeforeSendHook_writes x : encodes (v1_MsgSetBeforeSendHook_marshal (Some x)) (v1_MsgSetBeforeSendHook_size (Some x)) (v1_MsgSetBeforeSendHook_enc x).
Proof. apply encodes_intro; unfold v1_MsgSetBeforeSendHook_enc; [wire_writes|unfold v1_MsgSetBeforeSendHook_size; wire_size]. Qed.

Lemma v1_MsgSetBeforeSendHook_reads x :
  v1_MsgSetBeforeSendHook_ok x → len (v1_MsgSetBeforeSendHook_enc x) < 2 ^ 63 →
  v1_MsgSetBeforeSendHook_unmarshal false (v1_MsgSetBeforeSendHook_enc x) (Some v1_MsgSetBeforeSendHook_new) = (Ok (), Some x).
Proof.
  intros Hok H63. destruct x as [f1 f2 f3 u]; rename Hok into Hu.
  unfold v1_MsgSetBeforeSendHook_enc, v1_MsgSetBeforeSendHook_ok in *.
  cbn [ v1_MsgSetBeforeSendHook_Sender v1_MsgSetBeforeSendHook_Denom
    v1_MsgSetBeforeSendHook_CosmwasmAddress v1_MsgSetBeforeSendHook_unknownFields] in *.
  apply (unmarshal_reads _ (v1_MsgSetBeforeSendHook_field false)); [|done].
  wire_read (reads_string "MsgSetBeforeSendHook" (v1_MsgSetBeforeSendHook_field false) v1_MsgSetBeforeSendHook_append 1 "Sender").
  wire_read (reads_string "MsgSetBeforeSendHook" (v1_MsgSetBeforeSendHook_field false) v1_MsgSetBeforeSendHook_append 2 "Denom").
  wire_read (reads_string "MsgSetBeforeSendHook" (v1_MsgSetBeforeSendHook_field false) v1_MsgSetBeforeSendHook_append 3 "CosmwasmAddress").
  wire_unknown v1_MsgSetBeforeSendHook_append.
Qed.

Lemma v1_MsgSetBeforeSendHook_total d bz x : len bz < 2 ^ 63 → no_panic (v1_MsgSetBeforeSendHook_unmarshal d bz x).1.
Proof.
  intros. apply unmarshal_total; [done|]. intros n k wt. unfold v1_MsgSetBeforeSendHook_field. wire_moves.
Qed.

#[export] Instance v1_MsgSetBeforeSendHook_laws : ProtoLaws v1_MsgSetBeforeSendHook v1_MsgSetBeforeSendHook_proto :=
  proto_laws v1_MsgSetBeforeSendHook_marshal v1_MsgSetBeforeSendHook_enc v1_MsgSetBeforeSendHook_ok (λ _, eq_refl) eq_refl eq_refl
    v1_MsgSetBeforeSendHook_writes v1_MsgSetBeforeSendHook_reads v1_MsgSetBeforeSendHook_total.

Definition v1_MsgSetBeforeSendHookResponse_enc (x : v1_MsgSetBeforeSendHookResponse) : raw :=
  v1_MsgSetBeforeSendHookResponse_unknownFields x.

Definition v1_MsgSetBeforeSendHookResponse_ok (x : v1_MsgSetBeforeSendHookResponse) : Prop :=
  raw_fields (v1_MsgSetBeforeSendHookResponse_field false) (v1_MsgSetBeforeSendHookResponse_unknownFields x).

Lemma v1_MsgSetBeforeSendHookResponse_writes x : encodes (v1_MsgSetBeforeSendHookResponse_marshal (Some x)) (v1_MsgSetBeforeSendHookResponse_size (Some x)) (v1_MsgSetBeforeSendHookResponse_enc x).
Proof. apply encodes_intro; unfold v1_MsgSetBeforeSendHookResponse_enc; [wire_writes|unfold v1_MsgSetBeforeSendHookResponse_size; wire_size]. Qed.

Lemma v1_MsgSetBeforeSendHookResponse_reads x :
  v1_MsgSetBeforeSendHookResponse_ok x → len (v1_MsgSetBeforeSendHookResponse_enc x) < 2 ^ 63 →
  v1_MsgSetBeforeSendHookResponse_unmarshal false (v1_MsgSetBeforeSendHookResponse_enc x) (Some v1_MsgSetBeforeSendHookResponse_new) = (Ok (), Some x).
Proof.
  intros Hok H63. destruct x as [u]; rename Hok into Hu.
  unfold v1_MsgSetBeforeSendHookResponse_enc, v1_MsgSetBeforeSendHookResponse_ok in *.
  cbn [ v1_MsgSetBeforeSendHookResponse_unknownFields] in *.
  apply (unmarshal_reads _ (v1_MsgSetBeforeSendHookResponse_field false)); [|done].
  wire_unknown v1_MsgSetBeforeSendHookResponse_append.
Qed.

Lemma v1_MsgSetBeforeSendHookResponse_total d bz x : len bz < 2 ^ 63 → no_panic (v1_MsgSetBeforeSendHookResponse_unmarshal d bz x).1.
Proof.
  intros. apply unmarshal_total; [done|]. intros n k wt. unfold v1_MsgSetBeforeSendHookResponse_field. wire_moves.
Qed.

#[export] Instance v1_MsgSetBeforeSendHookResponse_laws : ProtoLaws v1_MsgSetBeforeSendHookResponse v1_MsgSetBeforeSendHookResponse_proto :=
  proto_laws v1_MsgSetBeforeSendHookResponse_marshal v1_MsgSetBeforeSendHookResponse_enc v1_MsgSetBeforeSendHookResponse_ok (λ _, eq_refl) eq_refl eq_refl
    v1_MsgSetBeforeSendHookResponse_writes v1_MsgSetBeforeSendHookResponse_reads v1_MsgSetBeforeSendHookResponse_total.

Definition v1_MsgSetDenomMetadata_enc (x : v1_MsgSetDenomMetadata) : raw :=
  enc_bytes 0xa (v1_MsgSetDenomMetadata_Sender x) ++
  enc_message 0x12 (v1_MsgSetDenomMetadata_Metadata x) ++
  v1_MsgSetDenomMetadata_unknownFields x.

Definition v1_MsgSetDenomMetadata_ok (x : v1_MsgSetDenomMetadata) : Prop :=
  ok_message (v1_MsgSetDenomMetadata_Metadata x) ∧
  raw_fields (v1_MsgSetDenomMetadata_field false) (v1_MsgSetDenomMetadata_unknownFields x).

Lemma v1_MsgSetDenomMetadata_writes x : encodes (v1_MsgSetDenomMetadata_marshal (Some x)) (v1_MsgSetDenomMetadata_size (Some x)) (v1_MsgSetDenomMetadata_enc x).
Proof. apply encodes_intro; unfold v1_MsgSetDenomMetadata_enc; [wire_writes|unfold v1_MsgSetDenomMetadata_size; wire_size]. Qed.

Lemma v1_MsgSetDenomMetadata_reads x :
  v1_MsgSetDenomMetadata_ok x → len (v1_MsgSetDenomMetadata_enc x) < 2 ^ 63 →
  v1_MsgSetDenomMetadata_unmarshal false (v1_MsgSetDenomMetadata_enc x) (Some v1_MsgSetDenomMetadata_new) = (Ok (), Some x).
Proof.
  intros Hok H63. destruct x as [f1 f2 u]; destruct Hok as (HMetadata & Hu).
  unfold v1_MsgSetDenomMetadata_enc in *.
  cbn [ v1_MsgSetDenomMetadata_Sender v1_MsgSetDenomMetadata_Metadata
    v1_MsgSetDenomMetadata_unknownFields] in *.
  apply (unmarshal_reads _ (v1_MsgSetDenomMetadata_field false)); [|done].
  wire_read (reads_string "MsgSetDenomMetadata" (v1_MsgSetDenomMetadata_field false) v1_MsgSetDenomMetadata_append 1 "Sender").
  wire_read (reads_message (A:=ApiMetadata) "MsgSetDenomMetadata" (v1_MsgSetDenomMetadata_field false) v1_MsgSetDenomMetadata_append 2 "Metadata").
  wire_unknown v1_MsgSetDenomMetadata_append.
Qed.

Lemma v1_MsgSetDenomMetadata_total d bz x : len bz < 2 ^ 63 → no_panic (v1_MsgSetDenomMetadata_unmarshal d bz x).1.
Proof.
  intros. apply unmarshal_total; [done|]. intros n k wt. unfold v1_MsgSetDenomMetadata_field. wire_moves.
Qed.

#[export] Instance v1_MsgSetDenomMetadata_laws : ProtoLaws v1_MsgSetDenomMetadata v1_MsgSetDenomMetadata_proto :=
  proto_laws v1_MsgSetDenomMetadata_marshal v1_MsgSetDenomMetadata_enc v1_MsgSetDenomMetadata_ok (λ _, eq_refl) eq_refl eq_refl
    v1_MsgSetDenomMetadata_writes v1_MsgSetDenomMetadata_reads v1_MsgSetDenomMetadata_total.

Definition v1_MsgSetDenomMetadataResponse_enc (x : v1_MsgSetDenomMetadataResponse) : raw :=
  v1_MsgSetDenomMetadataResponse_unknownFields x.

Definition v1_MsgSetDenomMetadataResponse_ok (x : v1_MsgSetDenomMetadataResponse) : Prop :=
  raw_fields (v1_MsgSetDenomMetadataResponse_field false) (v1_MsgSetDenomMetadataResponse_unknownFields x).

Lemma v1_MsgSetDenomMetadataResponse_writes x : encodes (v1_MsgSetDenomMetadataResponse_marshal (Some x)) (v1_MsgSetDenomMetadataResponse_size (Some x)) (v1_MsgSetDenomMetadataResponse_enc x).
Proof. apply encodes_intro; unfold v1_MsgSetDenomMetadataResponse_enc; [wire_writes|unfold v1_MsgSetDenomMetadataResponse_size; wire_size]. Qed.

Lemma v1_MsgSetDenomMetadataResponse_reads x :
  v1_MsgSetDenomMetadataResponse_ok x → len (v1_MsgSetDenomMetadataResponse_enc x) < 2 ^ 63 →
  v1_MsgSetDenomMetadataResponse_unmarshal false (v1_MsgSetDenomMetadataResponse_enc x) (Some v1_MsgSetDenomMetadataResponse_new) = (Ok (), Some x).
Proof.
  intros Hok H63. destruct x as [u]; rename Hok into Hu.
  unfold v1_MsgSetDenomMetadataResponse_enc, v1_MsgSetDenomMetadataResponse_ok in *.
  cbn [ v1_MsgSetDenomMetadataResponse_unknownFields] in *.
  apply (unmarshal_reads _ (v1_MsgSetDenomMetadataResponse_field false)); [|done].
  wire_unknown v1_MsgSetDenomMetadataResponse_append.
Qed.

Lemma v1_MsgSetDenomMetadataResponse_total d bz x : len bz < 2 ^ 63 → no_panic (v1_MsgSetDenomMetadataResponse_unmarshal d bz x).1.
Proof.
  intros. apply unmarshal_total; [done|]. intros n k wt. unfold v1_MsgSetDenomMetadataResponse_field. wire_moves.
Qed.

#[export] Instance v1_MsgSetDenomMetadataResponse_laws : ProtoLaws v1_MsgSetDenomMetadataResponse v1_MsgSetDenomMetadataResponse_proto :=
  proto_laws v1_MsgSetDenomMetadataResponse_marshal v1_MsgSetDenomMetadataResponse_enc v1_MsgSetDenomMetadataResponse_ok (λ _, eq_refl) eq_refl eq_refl
    v1_MsgSetDenomMetadataResponse_writes v1_MsgSetDenomMetadataResponse_reads v1_MsgSetDenomMetadataResponse_total.

Definition v1_MsgUpdateParams_enc (x : v1_MsgUpdateParams) : raw :=
  enc_bytes 0xa (v1_MsgUpdateParams_Authority x) ++
  enc_message 0x12 (v1_MsgUpdateParams_Params x) ++
  v1_MsgUpdateParams_unknownFields x.

Definition v1_MsgUpdateParams_ok (x : v1_MsgUpdateParams) : Prop :=
  ok_message (v1_MsgUpdateParams_Params x) ∧
  raw_fields (v1_MsgUpdateParams_field false) (v1_MsgUpdateParams_unknownFields x).

Lemma v1_MsgUpdateParams_writes x : encodes (v1_MsgUpdateParams_marshal (Some x)) (v1_MsgUpdateParams_size (Some x)) (v1_MsgUpdateParams_enc x).
Proof. apply encodes_intro; unfold v1_MsgUpdateParams_enc; [wire_writes|unfold v1_MsgUpdateParams_size; wire_size]. Qed.

Lemma v1_MsgUpdateParams_reads x :
  v1_MsgUpdateParams_ok x → len (v1_MsgUpdateParams_enc x) < 2 ^ 63 →
  v1_MsgUpdateParams_unmarshal false (v1_MsgUpdateParams_enc x) (Some v1_MsgUpdateParams_new) = (Ok (), Some x).
Proof.
  intros Hok H63. destruct x as [f1 f2 u]; destruct Hok as (HParams & Hu).
  unfold v1_MsgUpdateParams_enc in *.
  cbn [ v1_MsgUpdateParams_Authority v1_MsgUpdateParams_Params v1_MsgUpdateParams_unknownFields] in *.
  apply (unmarshal_reads _ (v1_MsgUpdateParams_field false)); [|done].
  wire_read (reads_string "MsgUpdateParams" (v1_MsgUpdateParams_field false) v1_MsgUpdateParams_append 1 "Authority").
  wire_read (reads_message (A:=v1_Params) "MsgUpdateParams" (v1_MsgUpdateParams_field false) v1_MsgUpdateParams_append 2 "Params").
  wire_unknown v1_MsgUpdateParams_append.
Qed.

Lemma v1_MsgUpdateParams_total d bz x : len bz < 2 ^ 63 → no_panic (v1_MsgUpdateParams_unmarshal d bz x).1.
Proof.
  intros. apply unmarshal_total; [done|]. intros n k wt. unfold v1_MsgUpdateParams_field. wire_moves.
Qed.

#[export] Instance v1_MsgUpdateParams_laws : ProtoLaws v1_MsgUpdateParams v1_MsgUpdateParams_proto :=
  proto_laws v1_MsgUpdateParams_marshal v1_MsgUpdateParams_enc v1_MsgUpdateParams_ok (λ _, eq_refl) eq_refl eq_refl
    v1_MsgUpdateParams_writes v1_MsgUpdateParams_reads v1_MsgUpdateParams_total.

Definition v1_MsgUpdateParamsResponse_enc (x : v1_MsgUpdateParamsResponse) : raw :=
  v1_MsgUpdateParamsResponse_unknownFields x.

Definition v1_MsgUpdateParamsResponse_ok (x : v1_MsgUpdateParamsResponse) : Prop :=
  raw_fields (v1_MsgUpdateParamsResponse_field false) (v1_MsgUpdateParamsResponse_unknownFields x).

Lemma v1_MsgUpdateParamsResponse_writes x : encodes (v1_MsgUpdateParamsResponse_marshal (Some x)) (v1_MsgUpdateParamsResponse_size (Some x)) (v1_MsgUpdateParamsResponse_enc x).
Proof. apply encodes_intro; unfold v1_MsgUpdateParamsResponse_enc; [wire_writes|unfold v1_MsgUpdateParamsResponse_size; wire_size]. Qed.

Lemma v1_MsgUpdateParamsResponse_reads x :
  v1_MsgUpdateParamsResponse_ok x → len (v1_MsgUpdateParamsResponse_enc x) < 2 ^ 63 →
  v1_MsgUpdateParamsResponse_unmarshal false (v1_MsgUpdateParamsResponse_enc x) (Some v1_MsgUpdateParamsResponse_new) = (Ok (), Some x).
Proof.
  intros Hok H63. destruct x as [u]; rename Hok into Hu.
  unfold v1_MsgUpdateParamsResponse_enc, v1_MsgUpdateParamsResponse_ok in *.
  cbn [ v1_MsgUpdateParamsResponse_unknownFields] in *.
  apply (unmarshal_reads _ (v1_MsgUpdateParamsResponse_field false)); [|done].
  wire_unknown v1_MsgUpdateParamsResponse_append.
Qed.

Lemma v1_MsgUpdateParamsResponse_total d bz x : len bz < 2 ^ 63 → no_panic (v1_MsgUpdateParamsResponse_unmarshal d bz x).1.
Proof.
  intros. apply unmarshal_total; [done|]. intros n k wt. unfold v1_MsgUpdateParamsResponse_field. wire_moves.
Qed.

#[export] Instance v1_MsgUpdateParamsResponse_laws : ProtoLaws v1_MsgUpdateParamsResponse v1_MsgUpdateParamsResponse_proto :=
  proto_laws v1_MsgUpdateParamsResponse_marshal v1_MsgUpdateParamsResponse_enc v1_MsgUpdateParamsResponse_ok (λ _, eq_refl) eq_refl eq_refl
    v1_MsgUpdateParamsResponse_writes v1_MsgUpdateParamsResponse_reads v1_MsgUpdateParamsResponse_total.

End laws.
