(* ===== verification/ApiQuery.v ===== *)
(** api/miniwasm/tokenfactory/v1/query.pulsar.go: the queries of the token factory on the wire. *)
From S2P Require Import Prelude.
From S2P Require Import GoJson.
From S2P Require Import Wire.
From S2P Require Import WireSpec.
From S2P Require Import WireRead.
From S2P Require Import ApiState.

(** * The messages *)

Section messages.
Context {WR : WireRuntime} {SM : SdkMessages}.

(** ** QueryParamsRequest *)

Record v1_QueryParamsRequest := {
  v1_QueryParamsRequest_unknownFields : raw
}.

Definition v1_QueryParamsRequest_new : v1_QueryParamsRequest := {|
  v1_QueryParamsRequest_unknownFields := []
|}.

Definition v1_QueryParamsRequest_append (bz : raw) (x : v1_QueryParamsRequest) : v1_QueryParamsRequest := {|
  v1_QueryParamsRequest_unknownFields := v1_QueryParamsRequest_unknownFields x ++ bz
|}.

Definition v1_QueryParamsRequest_size (x : option v1_QueryParamsRequest) : Z :=
  match x with
  | None => 0
  | Some x =>
      size_unknown (v1_QueryParamsRequest_unknownFields x)
  end.

Definition v1_QueryParamsRequest_marshal (x : option v1_QueryParamsRequest) : M raw unit :=
  match x with
  | None => ret ()
  | Some m => marshal_into (v1_QueryParamsRequest_size x) (
      put_unknown (v1_QueryParamsRequest_unknownFields m))
  end.

Definition v1_QueryParamsRequest_field (DiscardUnknown : bool) (dAtA : raw) (fieldNum : Z) :
    option (Z → M (rstate v1_QueryParamsRequest) unit) :=
  None.

Definition v1_QueryParamsRequest_unmarshal (DiscardUnknown : bool) (dAtA : raw) : M (option v1_QueryParamsRequest) unit :=
  unmarshal_into (read_all dAtA DiscardUnknown "QueryParamsRequest"
    (v1_QueryParamsRequest_field DiscardUnknown dAtA) v1_QueryParamsRequest_append).

#[export] Instance v1_QueryParamsRequest_proto : ProtoMessage v1_QueryParamsRequest := {|
  proto_new := v1_QueryParamsRequest_new;
  options_Size := v1_QueryParamsRequest_size;
  options_Marshal x := marshalled (v1_QueryParamsRequest_marshal x);
  options_Unmarshal := v1_QueryParamsRequest_unmarshal
|}.

(** ** QueryParamsResponse *)

Record v1_QueryParamsResponse := {
  v1_QueryParamsResponse_Params : option v1_Params;
  v1_QueryParamsResponse_unknownFields : raw
}.

Definition v1_QueryParamsResponse_new : v1_QueryParamsResponse := {|
  v1_QueryParamsResponse_Params := None; v1_QueryParamsResponse_unknownFields := []
|}.

Definition v1_QueryParamsResponse_set_Params (v : option v1_Params) (x : v1_QueryParamsResponse) : v1_QueryParamsResponse := {|
  v1_QueryParamsResponse_Params := v;
  v1_QueryParamsResponse_unknownFields := v1_QueryParamsResponse_unknownFields x
|}.

Definition v1_QueryParamsResponse_append (bz : raw) (x : v1_QueryParamsResponse) : v1_QueryParamsResponse := {|
  v1_QueryParamsResponse_Params := v1_QueryParamsResponse_Params x;
  v1_QueryParamsResponse_unknownFields := v1_QueryParamsResponse_unknownFields x ++ bz
|}.

Definition v1_QueryParamsResponse_size (x : option v1_QueryParamsResponse) : Z :=
  match x with
  | None => 0
  | Some x =>
      size_message (v1_QueryParamsResponse_Params x) +
      size_unknown (v1_QueryParamsResponse_unknownFields x)
  end.

Definition v1_QueryParamsResponse_marshal (x : option v1_QueryParamsResponse) : M raw unit :=
  match x with
  | None => ret ()
  | Some m => marshal_into (v1_QueryParamsResponse_size x) (
      put_unknown (v1_QueryParamsResponse_unknownFields m) ;;;
      put_message 0xa (v1_QueryParamsResponse_Params m))
  end.

Definition v1_QueryParamsResponse_field (DiscardUnknown : bool) (dAtA : raw) (fieldNum : Z) :
    option (Z → M (rstate v1_QueryParamsResponse) unit) :=
  if fieldNum =? 1 then Some (λ wireType, expect_wire 2 "Params" wireType
    (get_message dAtA DiscardUnknown v1_QueryParamsResponse_Params v1_QueryParamsResponse_set_Params))
  else None.

Definition v1_QueryParamsResponse_unmarshal (DiscardUnknown : bool) (dAtA : raw) : M (option v1_QueryParamsResponse) unit :=
  unmarshal_into (read_all dAtA DiscardUnknown "QueryParamsResponse"
    (v1_QueryParamsResponse_field DiscardUnknown dAtA) v1_QueryParamsResponse_append).

#[export] Instance v1_QueryParamsResponse_proto : ProtoMessage v1_QueryParamsResponse := {|
  proto_new := v1_QueryParamsResponse_new;
  options_Size := v1_QueryParamsResponse_size;
  options_Marshal x := marshalled (v1_QueryParamsResponse_marshal x);
  options_Unmarshal := v1_QueryParamsResponse_unmarshal
|}.

(** ** QueryDenomAuthorityMetadataRequest *)

Record v1_QueryDenomAuthorityMetadataRequest := {
  v1_QueryDenomAuthorityMetadataRequest_Denom : bytes;
  v1_QueryDenomAuthorityMetadataRequest_unknownFields : raw
}.

Definition v1_QueryDenomAuthorityMetadataRequest_new : v1_QueryDenomAuthorityMetadataRequest := {|
  v1_QueryDenomAuthorityMetadataRequest_Denom := "";
  v1_QueryDenomAuthorityMetadataRequest_unknownFields := []
|}.

Definition v1_QueryDenomAuthorityMetadataRequest_set_Denom (v : bytes) (x : v1_QueryDenomAuthorityMetadataRequest) : v1_QueryDenomAuthorityMetadataRequest := {|
  v1_QueryDenomAuthorityMetadataRequest_Denom := v;
  v1_QueryDenomAuthorityMetadataRequest_unknownFields := v1_QueryDenomAuthorityMetadataRequest_unknownFields x
|}.

Definition v1_QueryDenomAuthorityMetadataRequest_append (bz : raw) (x : v1_QueryDenomAuthorityMetadataRequest) : v1_QueryDenomAuthorityMetadataRequest := {|
  v1_QueryDenomAuthorityMetadataRequest_Denom := v1_QueryDenomAuthorityMetadataRequest_Denom x;
  v1_QueryDenomAuthorityMetadataRequest_unknownFields := v1_QueryDenomAuthorityMetadataRequest_unknownFields x ++ bz
|}.

Definition v1_QueryDenomAuthorityMetadataRequest_size (x : option v1_QueryDenomAuthorityMetadataRequest) : Z :=
  match x with
  | None => 0
  | Some x =>
      size_bytes (v1_QueryDenomAuthorityMetadataRequest_Denom x) +
      size_unknown (v1_QueryDenomAuthorityMetadataRequest_unknownFields x)
  end.

Definition v1_QueryDenomAuthorityMetadataRequest_marshal (x : option v1_QueryDenomAuthorityMetadataRequest) : M raw unit :=
  match x with
  | None => ret ()
  | Some m => marshal_into (v1_QueryDenomAuthorityMetadataRequest_size x) (
      put_unknown (v1_QueryDenomAuthorityMetadataRequest_unknownFields m) ;;;
      put_bytes 0xa (v1_QueryDenomAuthorityMetadataRequest_Denom m))
  end.

Definition v1_QueryDenomAuthorityMetadataRequest_field (DiscardUnknown : bool) (dAtA : raw) (fieldNum : Z) :
    option (Z → M (rstate v1_QueryDenomAuthorityMetadataRequest) unit) :=
  if fieldNum =? 1 then Some (λ wireType, expect_wire 2 "Denom" wireType
    (get_string dAtA v1_QueryDenomAuthorityMetadataRequest_set_Denom))
  else None.

Definition v1_QueryDenomAuthorityMetadataRequest_unmarshal (DiscardUnknown : bool) (dAtA : raw) : M (option v1_QueryDenomAuthorityMetadataRequest) unit :=
  unmarshal_into (read_all dAtA DiscardUnknown "QueryDenomAuthorityMetadataRequest"
    (v1_QueryDenomAuthorityMetadataRequest_field DiscardUnknown dAtA) v1_QueryDenomAuthorityMetadataRequest_append).

#[export] Instance v1_QueryDenomAuthorityMetadataRequest_proto : ProtoMessage v1_QueryDenomAuthorityMetadataRequest := {|
  proto_new := v1_QueryDenomAuthorityMetadataRequest_new;
  options_Size := v1_QueryDenomAuthorityMetadataRequest_size;
  options_Marshal x := marshalled (v1_QueryDenomAuthorityMetadataRequest_marshal x);
  options_Unmarshal := v1_QueryDenomAuthorityMetadataRequest_unmarshal
|}.

(** ** QueryDenomAuthorityMetadataResponse *)

Record v1_QueryDenomAuthorityMetadataResponse := {
  v1_QueryDenomAuthorityMetadataResponse_AuthorityMetadata : option v1_DenomAuthorityMetadata;
  v1_QueryDenomAuthorityMetadataResponse_unknownFields : raw
}.

Definition v1_QueryDenomAuthorityMetadataResponse_new : v1_QueryDenomAuthorityMetadataResponse := {|
  v1_QueryDenomAuthorityMetadataResponse_AuthorityMetadata := None;
  v1_QueryDenomAuthorityMetadataResponse_unknownFields := []
|}.

Definition v1_QueryDenomAuthorityMetadataResponse_set_AuthorityMetadata (v : option v1_DenomAuthorityMetadata) (x : v1_QueryDenomAuthorityMetadataResponse) : v1_QueryDenomAuthorityMetadataResponse := {|
  v1_QueryDenomAuthorityMetadataResponse_AuthorityMetadata := v;
  v1_QueryDenomAuthorityMetadataResponse_unknownFields := v1_QueryDenomAuthorityMetadataResponse_unknownFields x
|}.

Definition v1_QueryDenomAuthorityMetadataResponse_append (bz : raw) (x : v1_QueryDenomAuthorityMetadataResponse) : v1_QueryDenomAuthorityMetadataResponse := {|
  v1_QueryDenomAuthorityMetadataResponse_AuthorityMetadata := v1_QueryDenomAuthorityMetadataResponse_AuthorityMetadata x;
  v1_QueryDenomAuthorityMetadataResponse_unknownFields := v1_QueryDenomAuthorityMetadataResponse_unknownFields x ++ bz
|}.

Definition v1_QueryDenomAuthorityMetadataResponse_size (x : option v1_QueryDenomAuthorityMetadataResponse) : Z :=
  match x with
  | None => 0
  | Some x =>
      size_message (v1_QueryDenomAuthorityMetadataResponse_AuthorityMetadata x) +
      size_unknown (v1_QueryDenomAuthorityMetadataResponse_unknownFields x)
  end.

Definition v1_QueryDenomAuthorityMetadataResponse_marshal (x : option v1_QueryDenomAuthorityMetadataResponse) : M raw unit :=
  match x with
  | None => ret ()
  | Some m => marshal_into (v1_QueryDenomAuthorityMetadataResponse_size x) (
      put_unknown (v1_QueryDenomAuthorityMetadataResponse_unknownFields m) ;;;
      put_message 0xa (v1_QueryDenomAuthorityMetadataResponse_AuthorityMetadata m))
  end.

Definition v1_QueryDenomAuthorityMetadataResponse_field (DiscardUnknown : bool) (dAtA : raw) (fieldNum : Z) :
    option (Z → M (rstate v1_QueryDenomAuthorityMetadataResponse) unit) :=
  if fieldNum =? 1 then Some (λ wireType, expect_wire 2 "AuthorityMetadata" wireType
    (get_message dAtA DiscardUnknown v1_QueryDenomAuthorityMetadataResponse_AuthorityMetadata v1_QueryDenomAuthorityMetadataResponse_set_AuthorityMetadata))
  else None.

Definition v1_QueryDenomAuthorityMetadataResponse_unmarshal (DiscardUnknown : bool) (dAtA : raw) : M (option v1_QueryDenomAuthorityMetadataResponse) unit :=
  unmarshal_into (read_all dAtA DiscardUnknown "QueryDenomAuthorityMetadataResponse"
    (v1_QueryDenomAuthorityMetadataResponse_field DiscardUnknown dAtA) v1_QueryDenomAuthorityMetadataResponse_append).

#[export] Instance v1_QueryDenomAuthorityMetadataResponse_proto : ProtoMessage v1_QueryDenomAuthorityMetadataResponse := {|
  proto_new := v1_QueryDenomAuthorityMetadataResponse_new;
  options_Size := v1_QueryDenomAuthorityMetadataResponse_size;
  options_Marshal x := marshalled (v1_QueryDenomAuthorityMetadataResponse_marshal x);
  options_Unmarshal := v1_QueryDenomAuthorityMetadataResponse_unmarshal
|}.

(** ** QueryDenomsFromCreatorRequest *)

Record v1_QueryDenomsFromCreatorRequest := {
  v1_QueryDenomsFromCreatorRequest_Creator : bytes;
  v1_QueryDenomsFromCreatorRequest_unknownFields : raw
}.

Definition v1_QueryDenomsFromCreatorRequest_new : v1_QueryDenomsFromCreatorRequest := {|
  v1_QueryDenomsFromCreatorRequest_Creator := ""; v1_QueryDenomsFromCreatorRequest_unknownFields := []
|}.

Definition v1_QueryDenomsFromCreatorRequest_set_Creator (v : bytes) (x : v1_QueryDenomsFromCreatorRequest) : v1_QueryDenomsFromCreatorRequest := {|
  v1_QueryDenomsFromCreatorRequest_Creator := v;
  v1_QueryDenomsFromCreatorRequest_unknownFields := v1_QueryDenomsFromCreatorRequest_unknownFields x
|}.

Definition v1_QueryDenomsFromCreatorRequest_append (bz : raw) (x : v1_QueryDenomsFromCreatorRequest) : v1_QueryDenomsFromCreatorRequest := {|
  v1_QueryDenomsFromCreatorRequest_Creator := v1_QueryDenomsFromCreatorRequest_Creator x;
  v1_QueryDenomsFromCreatorRequest_unknownFields := v1_QueryDenomsFromCreatorRequest_unknownFields x ++ bz
|}.

Definition v1_QueryDenomsFromCreatorRequest_size (x : option v1_QueryDenomsFromCreatorRequest) : Z :=
  match x with
  | None => 0
  | Some x =>
      size_bytes (v1_QueryDenomsFromCreatorRequest_Creator x) +
      size_unknown (v1_QueryDenomsFromCreatorRequest_unknownFields x)
  end.

Definition v1_QueryDenomsFromCreatorRequest_marshal (x : option v1_QueryDenomsFromCreatorRequest) : M raw unit :=
  match x with
  | None => ret ()
  | Some m => marshal_into (v1_QueryDenomsFromCreatorRequest_size x) (
      put_unknown (v1_QueryDenomsFromCreatorRequest_unknownFields m) ;;;
      put_bytes 0xa (v1_QueryDenomsFromCreatorRequest_Creator m))
  end.

Definition v1_QueryDenomsFromCreatorRequest_field (DiscardUnknown : bool) (dAtA : raw) (fieldNum : Z) :
    option (Z → M (rstate v1_QueryDenomsFromCreatorRequest) unit) :=
  if fieldNum =? 1 then Some (λ wireType, expect_wire 2 "Creator" wireType
    (get_string dAtA v1_QueryDenomsFromCreatorRequest_set_Creator))
  else None.

Definition v1_QueryDenomsFromCreatorRequest_unmarshal (DiscardUnknown : bool) (dAtA : raw) : M (option v1_QueryDenomsFromCreatorRequest) unit :=
  unmarshal_into (read_all dAtA DiscardUnknown "QueryDenomsFromCreatorRequest"
    (v1_QueryDenomsFromCreatorRequest_field DiscardUnknown dAtA) v1_QueryDenomsFromCreatorRequest_append).

#[export] Instance v1_QueryDenomsFromCreatorRequest_proto : ProtoMessage v1_QueryDenomsFromCreatorRequest := {|
  proto_new := v1_QueryDenomsFromCreatorRequest_new;
  options_Size := v1_QueryDenomsFromCreatorRequest_size;
  options_Marshal x := marshalled (v1_QueryDenomsFromCreatorRequest_marshal x);
  options_Unmarshal := v1_QueryDenomsFromCreatorRequest_unmarshal
|}.

(** ** QueryDenomsFromCreatorResponse *)

Record v1_QueryDenomsFromCreatorResponse := {
  v1_QueryDenomsFromCreatorResponse_Denoms : list bytes;
  v1_QueryDenomsFromCreatorResponse_unknownFields : raw
}.

Definition v1_QueryDenomsFromCreatorResponse_new : v1_QueryDenomsFromCreatorResponse := {|
  v1_QueryDenomsFromCreatorResponse_Denoms := []; v1_QueryDenomsFromCreatorResponse_unknownFields := []
|}.

Definition v1_QueryDenomsFromCreatorResponse_set_Denoms (v : list bytes) (x : v1_QueryDenomsFromCreatorResponse) : v1_QueryDenomsFromCreatorResponse := {|
  v1_QueryDenomsFromCreatorResponse_Denoms := v;
  v1_QueryDenomsFromCreatorResponse_unknownFields := v1_QueryDenomsFromCreatorResponse_unknownFields x
|}.

Definition v1_QueryDenomsFromCreatorResponse_append (bz : raw) (x : v1_QueryDenomsFromCreatorResponse) : v1_QueryDenomsFromCreatorResponse := {|
  v1_QueryDenomsFromCreatorResponse_Denoms := v1_QueryDenomsFromCreatorResponse_Denoms x;
  v1_QueryDenomsFromCreatorResponse_unknownFields := v1_QueryDenomsFromCreatorResponse_unknownFields x ++ bz
|}.

Definition v1_QueryDenomsFromCreatorResponse_size (x : option v1_QueryDenomsFromCreatorResponse) : Z :=
  match x with
  | None => 0
  | Some x =>
      size_strings (v1_QueryDenomsFromCreatorResponse_Denoms x) +
      size_unknown (v1_QueryDenomsFromCreatorResponse_unknownFields x)
  end.

Definition v1_QueryDenomsFromCreatorResponse_marshal (x : option v1_QueryDenomsFromCreatorResponse) : M raw unit :=
  match x with
  | None => ret ()
  | Some m => marshal_into (v1_QueryDenomsFromCreatorResponse_size x) (
      put_unknown (v1_QueryDenomsFromCreatorResponse_unknownFields m) ;;;
      put_strings 0xa (v1_QueryDenomsFromCreatorResponse_Denoms m))
  end.

Definition v1_QueryDenomsFromCreatorResponse_field (DiscardUnknown : bool) (dAtA : raw) (fieldNum : Z) :
    option (Z → M (rstate v1_QueryDenomsFromCreatorResponse) unit) :=
  if fieldNum =? 1 then Some (λ wireType, expect_wire 2 "Denoms" wireType
    (get_string dAtA (λ s x, v1_QueryDenomsFromCreatorResponse_set_Denoms (v1_QueryDenomsFromCreatorResponse_Denoms x ++ [s]) x)))
  else None.

Definition v1_QueryDenomsFromCreatorResponse_unmarshal (DiscardUnknown : bool) (dAtA : raw) : M (option v1_QueryDenomsFromCreatorResponse) unit :=
  unmarshal_into (read_all dAtA DiscardUnknown "QueryDenomsFromCreatorResponse"
    (v1_QueryDenomsFromCreatorResponse_field DiscardUnknown dAtA) v1_QueryDenomsFromCreatorResponse_append).

#[export] Instance v1_QueryDenomsFromCreatorResponse_proto : ProtoMessage v1_QueryDenomsFromCreatorResponse := {|
  proto_new := v1_QueryDenomsFromCreatorResponse_new;
  options_Size := v1_QueryDenomsFromCreatorResponse_size;
  options_Marshal x := marshalled (v1_QueryDenomsFromCreatorResponse_marshal x);
  options_Unmarshal := v1_QueryDenomsFromCreatorResponse_unmarshal
|}.

(** ** QueryBeforeSendHookAddressRequest *)

Record v1_QueryBeforeSendHookAddressRequest := {
  v1_QueryBeforeSendHookAddressRequest_Denom : bytes;
  v1_QueryBeforeSendHookAddressRequest_unknownFields : raw
}.

Definition v1_QueryBeforeSendHookAddressRequest_new : v1_QueryBeforeSendHookAddressRequest := {|
  v1_QueryBeforeSendHookAddressRequest_Denom := "";
  v1_QueryBeforeSendHookAddressRequest_unknownFields := []
|}.

Definition v1_QueryBeforeSendHookAddressRequest_set_Denom (v : bytes) (x : v1_QueryBeforeSendHookAddressRequest) : v1_QueryBeforeSendHookAddressRequest := {|
  v1_QueryBeforeSendHookAddressRequest_Denom := v;
  v1_QueryBeforeSendHookAddressRequest_unknownFields := v1_QueryBeforeSendHookAddressRequest_unknownFields x
|}.

Definition v1_QueryBeforeSendHookAddressRequest_append (bz : raw) (x : v1_QueryBeforeSendHookAddressRequest) : v1_QueryBeforeSendHookAddressRequest := {|
  v1_QueryBeforeSendHookAddressRequest_Denom := v1_QueryBeforeSendHookAddressRequest_Denom x;
  v1_QueryBeforeSendHookAddressRequest_unknownFields := v1_QueryBeforeSendHookAddressRequest_unknownFields x ++ bz
|}.

Definition v1_QueryBeforeSendHookAddressRequest_size (x : option v1_QueryBeforeSendHookAddressRequest) : Z :=
  match x with
  | None => 0
  | Some x =>
      size_bytes (v1_QueryBeforeSendHookAddressRequest_Denom x) +
      size_unknown (v1_QueryBeforeSendHookAddressRequest_unknownFields x)
  end.

Definition v1_QueryBeforeSendHookAddressRequest_marshal (x : option v1_QueryBeforeSendHookAddressRequest) : M raw unit :=
  match x with
  | None => ret ()
  | Some m => marshal_into (v1_QueryBeforeSendHookAddressRequest_size x) (
      put_unknown (v1_QueryBeforeSendHookAddressRequest_unknownFields m) ;;;
      put_bytes 0xa (v1_QueryBeforeSendHookAddressRequest_Denom m))
  end.

Definition v1_QueryBeforeSendHookAddressRequest_field (DiscardUnknown : bool) (dAtA : raw) (fieldNum : Z) :
    option (Z → M (rstate v1_QueryBeforeSendHookAddressRequest) unit) :=
  if fieldNum =? 1 then Some (λ wireType, expect_wire 2 "Denom" wireType
    (get_string dAtA v1_QueryBeforeSendHookAddressRequest_set_Denom))
  else None.

Definition v1_QueryBeforeSendHookAddressRequest_unmarshal (DiscardUnknown : bool) (dAtA : raw) : M (option v1_QueryBeforeSendHookAddressRequest) unit :=
  unmarshal_into (read_all dAtA DiscardUnknown "QueryBeforeSendHookAddressRequest"
    (v1_QueryBeforeSendHookAddressRequest_field DiscardUnknown dAtA) v1_QueryBeforeSendHookAddressRequest_append).

#[export] Instance v1_QueryBeforeSendHookAddressRequest_proto : ProtoMessage v1_QueryBeforeSendHookAddressRequest := {|
  proto_new := v1_QueryBeforeSendHookAddressRequest_new;
  options_Size := v1_QueryBeforeSendHookAddressRequest_size;
  options_Marshal x := marshalled (v1_QueryBeforeSendHookAddressRequest_marshal x);
  options_Unmarshal := v1_QueryBeforeSendHookAddressRequest_unmarshal
|}.

(** ** QueryBeforeSendHookAddressResponse *)

Record v1_QueryBeforeSendHookAddressResponse := {
  v1_QueryBeforeSendHookAddressResponse_CosmwasmAddress : bytes;
  v1_QueryBeforeSendHookAddressResponse_unknownFields : raw
}.

Definition v1_QueryBeforeSendHookAddressResponse_new : v1_QueryBeforeSendHookAddressResponse := {|
  v1_QueryBeforeSendHookAddressResponse_CosmwasmAddress := "";
  v1_QueryBeforeSendHookAddressResponse_unknownFields := []
|}.

Definition v1_QueryBeforeSendHookAddressResponse_set_CosmwasmAddress (v : bytes) (x : v1_QueryBeforeSendHookAddressResponse) : v1_QueryBeforeSendHookAddressResponse := {|
  v1_QueryBeforeSendHookAddressResponse_CosmwasmAddress := v;
  v1_QueryBeforeSendHookAddressResponse_unknownFields := v1_QueryBeforeSendHookAddressResponse_unknownFields x
|}.

Definition v1_QueryBeforeSendHookAddressResponse_append (bz : raw) (x : v1_QueryBeforeSendHookAddressResponse) : v1_QueryBeforeSendHookAddressResponse := {|
  v1_QueryBeforeSendHookAddressResponse_CosmwasmAddress := v1_QueryBeforeSendHookAddressResponse_CosmwasmAddress x;
  v1_QueryBeforeSendHookAddressResponse_unknownFields := v1_QueryBeforeSendHookAddressResponse_unknownFields x ++ bz
|}.

Definition v1_QueryBeforeSendHookAddressResponse_size (x : option v1_QueryBeforeSendHookAddressResponse) : Z :=
  match x with
  | None => 0
  | Some x =>
      size_bytes (v1_QueryBeforeSendHookAddressResponse_CosmwasmAddress x) +
      size_unknown (v1_QueryBeforeSendHookAddressResponse_unknownFields x)
  end.

Definition v1_QueryBeforeSendHookAddressResponse_marshal (x : option v1_QueryBeforeSendHookAddressResponse) : M raw unit :=
  match x with
  | None => ret ()
  | Some m => marshal_into (v1_QueryBeforeSendHookAddressResponse_size x) (
      put_unknown (v1_QueryBeforeSendHookAddressResponse_unknownFields m) ;;;
      put_bytes 0xa (v1_QueryBeforeSendHookAddressResponse_CosmwasmAddress m))
  end.

Definition v1_QueryBeforeSendHookAddressResponse_field (DiscardUnknown : bool) (dAtA : raw) (fieldNum : Z) :
    option (Z → M (rstate v1_QueryBeforeSendHookAddressResponse) unit) :=
  if fieldNum =? 1 then Some (λ wireType, expect_wire 2 "CosmwasmAddress" wireType
    (get_string dAtA v1_QueryBeforeSendHookAddressResponse_set_CosmwasmAddress))
  else None.

Definition v1_QueryBeforeSendHookAddressResponse_unmarshal (DiscardUnknown : bool) (dAtA : raw) : M (option v1_QueryBeforeSendHookAddressResponse) unit :=
  unmarshal_into (read_all dAtA DiscardUnknown "QueryBeforeSendHookAddressResponse"
    (v1_QueryBeforeSendHookAddressResponse_field DiscardUnknown dAtA) v1_QueryBeforeSendHookAddressResponse_append).

#[export] Instance v1_QueryBeforeSendHookAddressResponse_proto : ProtoMessage v1_QueryBeforeSendHookAddressResponse := {|
  proto_new := v1_QueryBeforeSendHookAddressResponse_new;
  options_Size := v1_QueryBeforeSendHookAddressResponse_size;
  options_Marshal x := marshalled (v1_QueryBeforeSendHookAddressResponse_marshal x);
  options_Unmarshal := v1_QueryBeforeSendHookAddressResponse_unmarshal
|}.

End messages.

(** * What they promise *)

Section laws.
Context {WR : WireRuntime} {SM : SdkMessages}.
Context {WL : WireRuntimeLaws WR} {SL : SdkMessagesLaws SM}.

Definition v1_QueryParamsRequest_enc (x : v1_QueryParamsRequest) : raw :=
  v1_QueryParamsRequest_unknownFields x.

Definition v1_QueryParamsRequest_ok (x : v1_QueryParamsRequest) : Prop :=
  raw_fields (v1_QueryParamsRequest_field false) (v1_QueryParamsRequest_unknownFields x).

Lemma v1_QueryParamsRequest_writes x : encodes (v1_QueryParamsRequest_marshal (Some x)) (v1_QueryParamsRequest_size (Some x)) (v1_QueryParamsRequest_enc x).
Proof. apply encodes_intro; unfold v1_QueryParamsRequest_enc; [wire_writes|unfold v1_QueryParamsRequest_size; wire_size]. Qed.

Lemma v1_QueryParamsRequest_reads x :
  v1_QueryParamsRequest_ok x → len (v1_QueryParamsRequest_enc x) < 2 ^ 63 →
  v1_QueryParamsRequest_unmarshal false (v1_QueryParamsRequest_enc x) (Some v1_QueryParamsRequest_new) = (Ok (), Some x).
Proof.
  intros Hok H63. destruct x as [u]; rename Hok into Hu.
  unfold v1_QueryParamsRequest_enc, v1_QueryParamsRequest_ok in *.
  cbn [ v1_QueryParamsRequest_unknownFields] in *.
  apply (unmarshal_reads _ (v1_QueryParamsRequest_field false)); [|done].
  wire_unknown v1_QueryParamsRequest_append.
Qed.

Lemma v1_QueryParamsRequest_total d bz x : len bz < 2 ^ 63 → no_panic (v1_QueryParamsRequest_unmarshal d bz x).1.
Proof.
  intros. apply unmarshal_total; [done|]. intros n k wt. unfold v1_QueryParamsRequest_field. wire_moves.
Qed.

#[export] Instance v1_QueryParamsRequest_laws : ProtoLaws v1_QueryParamsRequest v1_QueryParamsRequest_proto :=
  proto_laws v1_QueryParamsRequest_marshal v1_QueryParamsRequest_enc v1_QueryParamsRequest_ok (λ _, eq_refl) eq_refl eq_refl
    v1_QueryParamsRequest_writes v1_QueryParamsRequest_reads v1_QueryParamsRequest_total.

Definition v1_QueryParamsResponse_enc (x : v1_QueryParamsResponse) : raw :=
  enc_message 0xa (v1_QueryParamsResponse_Params x) ++
  v1_QueryParamsResponse_unknownFields x.

Definition v1_QueryParamsResponse_ok (x : v1_QueryParamsResponse) : Prop :=
  ok_message (v1_QueryParamsResponse_Params x) ∧
  raw_fields (v1_QueryParamsResponse_field false) (v1_QueryParamsResponse_unknownFields x).

Lemma v1_QueryParamsResponse_writes x : encodes (v1_QueryParamsResponse_marshal (Some x)) (v1_QueryParamsResponse_size (Some x)) (v1_QueryParamsResponse_enc x).
Proof. apply encodes_intro; unfold v1_QueryParamsResponse_enc; [wire_writes|unfold v1_QueryParamsResponse_size; wire_size]. Qed.

Lemma v1_QueryParamsResponse_reads x :
  v1_QueryParamsResponse_ok x → len (v1_QueryParamsResponse_enc x) < 2 ^ 63 →
  v1_QueryParamsResponse_unmarshal false (v1_QueryParamsResponse_enc x) (Some v1_QueryParamsResponse_new) = (Ok (), Some x).
Proof.
  intros Hok H63. destruct x as [f1 u]; destruct Hok as (HParams & Hu).
  unfold v1_QueryParamsResponse_enc in *.
  cbn [ v1_QueryParamsResponse_Params v1_QueryParamsResponse_unknownFields] in *.
  apply (unmarshal_reads _ (v1_QueryParamsResponse_field false)); [|done].
  wire_read (reads_message (A:=v1_Params) "QueryParamsResponse" (v1_QueryParamsResponse_field false) v1_QueryParamsResponse_append 1 "Params").
  wire_unknown v1_QueryParamsResponse_append.
Qed.

Lemma v1_QueryParamsResponse_total d bz x : len bz < 2 ^ 63 → no_panic (v1_QueryParamsResponse_unmarshal d bz x).1.
Proof.
  intros. apply unmarshal_total; [done|]. intros n k wt. unfold v1_QueryParamsResponse_field. wire_moves.
Qed.

#[export] Instance v1_QueryParamsResponse_laws : ProtoLaws v1_QueryParamsResponse v1_QueryParamsResponse_proto :=
  proto_laws v1_QueryParamsResponse_marshal v1_QueryParamsResponse_enc v1_QueryParamsResponse_ok (λ _, eq_refl) eq_refl eq_refl
    v1_QueryParamsResponse_writes v1_QueryParamsResponse_reads v1_QueryParamsResponse_total.

Definition v1_QueryDenomAuthorityMetadataRequest_enc (x : v1_QueryDenomAuthorityMetadataRequest) : raw :=
  enc_bytes 0xa (v1_QueryDenomAuthorityMetadataRequest_Denom x) ++
  v1_QueryDenomAuthorityMetadataRequest_unknownFields x.

Definition v1_QueryDenomAuthorityMetadataRequest_ok (x : v1_QueryDenomAuthorityMetadataRequest) : Prop :=
  raw_fields (v1_QueryDenomAuthorityMetadataRequest_field false) (v1_QueryDenomAuthorityMetadataRequest_unknownFields x).

Lemma v1_QueryDenomAuthorityMetadataRequest_writes x : encodes (v1_QueryDenomAuthorityMetadataRequest_marshal (Some x)) (v1_QueryDenomAuthorityMetadataRequest_size (Some x)) (v1_QueryDenomAuthorityMetadataRequest_enc x).
Proof. apply encodes_intro; unfold v1_QueryDenomAuthorityMetadataRequest_enc; [wire_writes|unfold v1_QueryDenomAuthorityMetadataRequest_size; wire_size]. Qed.

Lemma v1_QueryDenomAuthorityMetadataRequest_reads x :
  v1_QueryDenomAuthorityMetadataRequest_ok x → len (v1_QueryDenomAuthorityMetadataRequest_enc x) < 2 ^ 63 →
  v1_QueryDenomAuthorityMetadataRequest_unmarshal false (v1_QueryDenomAuthorityMetadataRequest_enc x) (Some v1_QueryDenomAuthorityMetadataRequest_new) = (Ok (), Some x).
Proof.
  intros Hok H63. destruct x as [f1 u]; rename Hok into Hu.
  unfold v1_QueryDenomAuthorityMetadataRequest_enc, v1_QueryDenomAuthorityMetadataRequest_ok in *.
  cbn [ v1_QueryDenomAuthorityMetadataRequest_Denom v1_QueryDenomAuthorityMetadataRequest_unknownFields] in *.
  apply (unmarshal_reads _ (v1_QueryDenomAuthorityMetadataRequest_field false)); [|done].
  wire_read (reads_string "QueryDenomAuthorityMetadataRequest" (v1_QueryDenomAuthorityMetadataRequest_field false) v1_QueryDenomAuthorityMetadataRequest_append 1 "Denom").
  wire_unknown v1_QueryDenomAuthorityMetadataRequest_append.
Qed.

Lemma v1_QueryDenomAuthorityMetadataRequest_total d bz x : len bz < 2 ^ 63 → no_panic (v1_QueryDenomAuthorityMetadataRequest_unmarshal d bz x).1.
Proof.
  intros. apply unmarshal_total; [done|]. intros n k wt. unfold v1_QueryDenomAuthorityMetadataRequest_field. wire_moves.
Qed.

#[export] Instance v1_QueryDenomAuthorityMetadataRequest_laws : ProtoLaws v1_QueryDenomAuthorityMetadataRequest v1_QueryDenomAuthorityMetadataRequest_proto :=
  proto_laws v1_QueryDenomAuthorityMetadataRequest_marshal v1_QueryDenomAuthorityMetadataRequest_enc v1_QueryDenomAuthorityMetadataRequest_ok (λ _, eq_refl) eq_refl eq_refl
    v1_QueryDenomAuthorityMetadataRequest_writes v1_QueryDenomAuthorityMetadataRequest_reads v1_QueryDenomAuthorityMetadataRequest_total.

Definition v1_QueryDenomAuthorityMetadataResponse_enc (x : v1_QueryDenomAuthorityMetadataResponse) : raw :=
  enc_message 0xa (v1_QueryDenomAuthorityMetadataResponse_AuthorityMetadata x) ++
  v1_QueryDenomAuthorityMetadataResponse_unknownFields x.

Definition v1_QueryDenomAuthorityMetadataResponse_ok (x : v1_QueryDenomAuthorityMetadataResponse) : Prop :=
  ok_message (v1_QueryDenomAuthorityMetadataResponse_AuthorityMetadata x) ∧
  raw_fields (v1_QueryDenomAuthorityMetadataResponse_field false) (v1_QueryDenomAuthorityMetadataResponse_unknownFields x).

Lemma v1_QueryDenomAuthorityMetadataResponse_writes x : encodes (v1_QueryDenomAuthorityMetadataResponse_marshal (Some x)) (v1_QueryDenomAuthorityMetadataResponse_size (Some x)) (v1_QueryDenomAuthorityMetadataResponse_enc x).
Proof. apply encodes_intro; unfold v1_QueryDenomAuthorityMetadataResponse_enc; [wire_writes|unfold v1_QueryDenomAuthorityMetadataResponse_size; wire_size]. Qed.

Lemma v1_QueryDenomAuthorityMetadataResponse_reads x :
  v1_QueryDenomAuthorityMetadataResponse_ok x → len (v1_QueryDenomAuthorityMetadataResponse_enc x) < 2 ^ 63 →
  v1_QueryDenomAuthorityMetadataResponse_unmarshal false (v1_QueryDenomAuthorityMetadataResponse_enc x) (Some v1_QueryDenomAuthorityMetadataResponse_new) = (Ok (), Some x).
Proof.
  intros Hok H63. destruct x as [f1 u]; destruct Hok as (HAuthorityMetadata & Hu).
  unfold v1_QueryDenomAuthorityMetadataResponse_enc in *.
  cbn [ v1_QueryDenomAuthorityMetadataResponse_AuthorityMetadata
    v1_QueryDenomAuthorityMetadataResponse_unknownFields] in *.
  apply (unmarshal_reads _ (v1_QueryDenomAuthorityMetadataResponse_field false)); [|done].
  wire_read (reads_message (A:=v1_DenomAuthorityMetadata) "QueryDenomAuthorityMetadataResponse" (v1_QueryDenomAuthorityMetadataResponse_field false) v1_QueryDenomAuthorityMetadataResponse_append 1 "AuthorityMetadata").
  wire_unknown v1_QueryDenomAuthorityMetadataResponse_append.
Qed.

Lemma v1_QueryDenomAuthorityMetadataResponse_total d bz x : len bz < 2 ^ 63 → no_panic (v1_QueryDenomAuthorityMetadataResponse_unmarshal d bz x).1.
Proof.
  intros. apply unmarshal_total; [done|]. intros n k wt. unfold v1_QueryDenomAuthorityMetadataResponse_field. wire_moves.
Qed.

#[export] Instance v1_QueryDenomAuthorityMetadataResponse_laws : ProtoLaws v1_QueryDenomAuthorityMetadataResponse v1_QueryDenomAuthorityMetadataResponse_proto :=
  proto_laws v1_QueryDenomAuthorityMetadataResponse_marshal v1_QueryDenomAuthorityMetadataResponse_enc v1_QueryDenomAuthorityMetadataResponse_ok (λ _, eq_refl) eq_refl eq_refl
    v1_QueryDenomAuthorityMetadataResponse_writes v1_QueryDenomAuthorityMetadataResponse_reads v1_QueryDenomAuthorityMetadataResponse_total.

Definition v1_QueryDenomsFromCreatorRequest_enc (x : v1_QueryDenomsFromCreatorRequest) : raw :=
  enc_bytes 0xa (v1_QueryDenomsFromCreatorRequest_Creator x) ++
  v1_QueryDenomsFromCreatorRequest_unknownFields x.

Definition v1_QueryDenomsFromCreatorRequest_ok (x : v1_QueryDenomsFromCreatorRequest) : Prop :=
  raw_fields (v1_QueryDenomsFromCreatorRequest_field false) (v1_QueryDenomsFromCreatorRequest_unknownFields x).

Lemma v1_QueryDenomsFromCreatorRequest_writes x : encodes (v1_QueryDenomsFromCreatorRequest_marshal (Some x)) (v1_QueryDenomsFromCreatorRequest_size (Some x)) (v1_QueryDenomsFromCreatorRequest_enc x).
Proof. apply encodes_intro; unfold v1_QueryDenomsFromCreatorRequest_enc; [wire_writes|unfold v1_QueryDenomsFromCreatorRequest_size; wire_size]. Qed.

Lemma v1_QueryDenomsFromCreatorRequest_reads x :
  v1_QueryDenomsFromCreatorRequest_ok x → len (v1_QueryDenomsFromCreatorRequest_enc x) < 2 ^ 63 →
  v1_QueryDenomsFromCreatorRequest_unmarshal false (v1_QueryDenomsFromCreatorRequest_enc x) (Some v1_QueryDenomsFromCreatorRequest_new) = (Ok (), Some x).
Proof.
  intros Hok H63. destruct x as [f1 u]; rename Hok into Hu.
  unfold v1_QueryDenomsFromCreatorRequest_enc, v1_QueryDenomsFromCreatorRequest_ok in *.
  cbn [ v1_QueryDenomsFromCreatorRequest_Creator v1_QueryDenomsFromCreatorRequest_unknownFields] in *.
  apply (unmarshal_reads _ (v1_QueryDenomsFromCreatorRequest_field false)); [|done].
  wire_read (reads_string "QueryDenomsFromCreatorRequest" (v1_QueryDenomsFromCreatorRequest_field false) v1_QueryDenomsFromCreatorRequest_append 1 "Creator").
  wire_unknown v1_QueryDenomsFromCreatorRequest_append.
Qed.

Lemma v1_QueryDenomsFromCreatorRequest_total d bz x : len bz < 2 ^ 63 → no_panic (v1_QueryDenomsFromCreatorRequest_unmarshal d bz x).1.
Proof.
  intros. apply unmarshal_total; [done|]. intros n k wt. unfold v1_QueryDenomsFromCreatorRequest_field. wire_moves.
Qed.

#[export] Instance v1_QueryDenomsFromCreatorRequest_laws : ProtoLaws v1_QueryDenomsFromCreatorRequest v1_QueryDenomsFromCreatorRequest_proto :=
  proto_laws v1_QueryDenomsFromCreatorRequest_marshal v1_QueryDenomsFromCreatorRequest_enc v1_QueryDenomsFromCreatorRequest_ok (λ _, eq_refl) eq_refl eq_refl
    v1_QueryDenomsFromCreatorRequest_writes v1_QueryDenomsFromCreatorRequest_reads v1_QueryDenomsFromCreatorRequest_total.

Definition v1_QueryDenomsFromCreatorResponse_enc (x : v1_QueryDenomsFromCreatorResponse) : raw :=
  enc_strings 0xa (v1_QueryDenomsFromCreatorResponse_Denoms x) ++
  v1_QueryDenomsFromCreatorResponse_unknownFields x.

Definition v1_QueryDenomsFromCreatorResponse_ok (x : v1_QueryDenomsFromCreatorResponse) : Prop :=
  raw_fields (v1_QueryDenomsFromCreatorResponse_field false) (v1_QueryDenomsFromCreatorResponse_unknownFields x).

Lemma v1_QueryDenomsFromCreatorResponse_writes x : encodes (v1_QueryDenomsFromCreatorResponse_marshal (Some x)) (v1_QueryDenomsFromCreatorResponse_size (Some x)) (v1_QueryDenomsFromCreatorResponse_enc x).
Proof. apply encodes_intro; unfold v1_QueryDenomsFromCreatorResponse_enc; [wire_writes|unfold v1_QueryDenomsFromCreatorResponse_size; wire_size]. Qed.

Lemma v1_QueryDenomsFromCreatorResponse_reads x :
  v1_QueryDenomsFromCreatorResponse_ok x → len (v1_QueryDenomsFromCreatorResponse_enc x) < 2 ^ 63 →
  v1_QueryDenomsFromCreatorResponse_unmarshal false (v1_QueryDenomsFromCreatorResponse_enc x) (Some v1_QueryDenomsFromCreatorResponse_new) = (Ok (), Some x).
Proof.
  intros Hok H63. destruct x as [f1 u]; rename Hok into Hu.
  unfold v1_QueryDenomsFromCreatorResponse_enc, v1_QueryDenomsFromCreatorResponse_ok in *.
  cbn [ v1_QueryDenomsFromCreatorResponse_Denoms v1_QueryDenomsFromCreatorResponse_unknownFields] in *.
  apply (unmarshal_reads _ (v1_QueryDenomsFromCreatorResponse_field false)); [|done].
  wire_read (reads_strings "QueryDenomsFromCreatorResponse" (v1_QueryDenomsFromCreatorResponse_field false) v1_QueryDenomsFromCreatorResponse_append 1 "Denoms").
  wire_unknown v1_QueryDenomsFromCreatorResponse_append.
Qed.

Lemma v1_QueryDenomsFromCreatorResponse_total d bz x : len bz < 2 ^ 63 → no_panic (v1_QueryDenomsFromCreatorResponse_unmarshal d bz x).1.
Proof.
  intros. apply unmarshal_total; [done|]. intros n k wt. unfold v1_QueryDenomsFromCreatorResponse_field. wire_moves.
Qed.

#[export] Instance v1_QueryDenomsFromCreatorResponse_laws : ProtoLaws v1_QueryDenomsFromCreatorResponse v1_QueryDenomsFromCreatorResponse_proto :=
  proto_laws v1_QueryDenomsFromCreatorResponse_marshal v1_QueryDenomsFromCreatorResponse_enc v1_QueryDenomsFromCreatorResponse_ok (λ _, eq_refl) eq_refl eq_refl
    v1_QueryDenomsFromCreatorResponse_writes v1_QueryDenomsFromCreatorResponse_reads v1_QueryDenomsFromCreatorResponse_total.

Definition v1_QueryBeforeSendHookAddressRequest_enc (x : v1_QueryBeforeSendHookAddressRequest) : raw :=
  enc_bytes 0xa (v1_QueryBeforeSendHookAddressRequest_Denom x) ++
  v1_QueryBeforeSendHookAddressRequest_unknownFields x.

Definition v1_QueryBeforeSendHookAddressRequest_ok (x : v1_QueryBeforeSendHookAddressRequest) : Prop :=
  raw_fields (v1_QueryBeforeSendHookAddressRequest_field false) (v1_QueryBeforeSendHookAddressRequest_unknownFields x).

Lemma v1_QueryBeforeSendHookAddressRequest_writes x : encodes (v1_QueryBeforeSendHookAddressRequest_marshal (Some x)) (v1_QueryBeforeSendHookAddressRequest_size (Some x)) (v1_QueryBeforeSendHookAddressRequest_enc x).
Proof. apply encodes_intro; unfold v1_QueryBeforeSendHookAddressRequest_enc; [wire_writes|unfold v1_QueryBeforeSendHookAddressRequest_size; wire_size]. Qed.

Lemma v1_QueryBeforeSendHookAddressRequest_reads x :
  v1_QueryBeforeSendHookAddressRequest_ok x → len (v1_QueryBeforeSendHookAddressRequest_enc x) < 2 ^ 63 →
  v1_QueryBeforeSendHookAddressRequest_unmarshal false (v1_QueryBeforeSendHookAddressRequest_enc x) (Some v1_QueryBeforeSendHookAddressRequest_new) = (Ok (), Some x).
Proof.
  intros Hok H63. destruct x as [f1 u]; rename Hok into Hu.
  unfold v1_QueryBeforeSendHookAddressRequest_enc, v1_QueryBeforeSendHookAddressRequest_ok in *.
  cbn [ v1_QueryBeforeSendHookAddressRequest_Denom v1_QueryBeforeSendHookAddressRequest_unknownFields] in *.
  apply (unmarshal_reads _ (v1_QueryBeforeSendHookAddressRequest_field false)); [|done].
  wire_read (reads_string "QueryBeforeSendHookAddressRequest" (v1_QueryBeforeSendHookAddressRequest_field false) v1_QueryBeforeSendHookAddressRequest_append 1 "Denom").
  wire_unknown v1_QueryBeforeSendHookAddressRequest_append.
Qed.

Lemma v1_QueryBeforeSendHookAddressRequest_total d bz x : len bz < 2 ^ 63 → no_panic (v1_QueryBeforeSendHookAddressRequest_unmarshal d bz x).1.
Proof.
  intros. apply unmarshal_total; [done|]. intros n k wt. unfold v1_QueryBeforeSendHookAddressRequest_field. wire_moves.
Qed.

#[export] Instance v1_QueryBeforeSendHookAddressRequest_laws : ProtoLaws v1_QueryBeforeSendHookAddressRequest v1_QueryBeforeSendHookAddressRequest_proto :=
  proto_laws v1_QueryBeforeSendHookAddressRequest_marshal v1_QueryBeforeSendHookAddressRequest_enc v1_QueryBeforeSendHookAddressRequest_ok (λ _, eq_refl) eq_refl eq_refl
    v1_QueryBeforeSendHookAddressRequest_writes v1_QueryBeforeSendHookAddressRequest_reads v1_QueryBeforeSendHookAddressRequest_total.

Definition v1_QueryBeforeSendHookAddressResponse_enc (x : v1_QueryBeforeSendHookAddressResponse) : raw :=
  enc_bytes 0xa (v1_QueryBeforeSendHookAddressResponse_CosmwasmAddress x) ++
  v1_QueryBeforeSendHookAddressResponse_unknownFields x.

Definition v1_QueryBeforeSendHookAddressResponse_ok (x : v1_QueryBeforeSendHookAddressResponse) : Prop :=
  raw_fields (v1_QueryBeforeSendHookAddressResponse_field false) (v1_QueryBeforeSendHookAddressResponse_unknownFields x).

Lemma v1_QueryBeforeSendHookAddressResponse_writes x : encodes (v1_QueryBeforeSendHookAddressResponse_marshal (Some x)) (v1_QueryBeforeSendHookAddressResponse_size (Some x)) (v1_QueryBeforeSendHookAddressResponse_enc x).
Proof. apply encodes_intro; unfold v1_QueryBeforeSendHookAddressResponse_enc; [wire_writes|unfold v1_QueryBeforeSendHookAddressResponse_size; wire_size]. Qed.

Lemma v1_QueryBeforeSendHookAddressResponse_reads x :
  v1_QueryBeforeSendHookAddressResponse_ok x → len (v1_QueryBeforeSendHookAddressResponse_enc x) < 2 ^ 63 →
  v1_QueryBeforeSendHookAddressResponse_unmarshal false (v1_QueryBeforeSendHookAddressResponse_enc x) (Some v1_QueryBeforeSendHookAddressResponse_new) = (Ok (), Some x).
Proof.
  intros Hok H63. destruct x as [f1 u]; rename Hok into Hu.
  unfold v1_QueryBeforeSendHookAddressResponse_enc, v1_QueryBeforeSendHookAddressResponse_ok in *.
  cbn [ v1_QueryBeforeSendHookAddressResponse_CosmwasmAddress
    v1_QueryBeforeSendHookAddressResponse_unknownFields] in *.
  apply (unmarshal_reads _ (v1_QueryBeforeSendHookAddressResponse_field false)); [|done].
  wire_read (reads_string "QueryBeforeSendHookAddressResponse" (v1_QueryBeforeSendHookAddressResponse_field false) v1_QueryBeforeSendHookAddressResponse_append 1 "CosmwasmAddress").
  wire_unknown v1_QueryBeforeSendHookAddressResponse_append.
Qed.

Lemma v1_QueryBeforeSendHookAddressResponse_total d bz x : len bz < 2 ^ 63 → no_panic (v1_QueryBeforeSendHookAddressResponse_unmarshal d bz x).1.
Proof.
  intros. apply unmarshal_total; [done|]. intros n k wt. unfold v1_QueryBeforeSendHookAddressResponse_field. wire_moves.
Qed.

#[export] Instance v1_QueryBeforeSendHookAddressResponse_laws : ProtoLaws v1_QueryBeforeSendHookAddressResponse v1_QueryBeforeSendHookAddressResponse_proto :=
  proto_laws v1_QueryBeforeSendHookAddressResponse_marshal v1_QueryBeforeSendHookAddressResponse_enc v1_QueryBeforeSendHookAddressResponse_ok (λ _, eq_refl) eq_refl eq_refl
    v1_QueryBeforeSendHookAddressResponse_writes v1_QueryBeforeSendHookAddressResponse_reads v1_QueryBeforeSendHookAddressResponse_total.

End laws.
