(* ===== verification/ApiWasm.v ===== *)
(** api/miniwasm/wasmextension/v1: types.pulsar.go and tx.pulsar.go. *)
From S2P Require Import Prelude.
From S2P Require Import GoJson.
From S2P Require Import Wire.
From S2P Require Import WireSpec.
From S2P Require Import WireRead.

(** * The messages *)

Section messages.
Context {WR : WireRuntime}.

(** ** AccessConfig *)

Record wasmv1_AccessConfig := {
  wasmv1_AccessConfig_Permission : Z;
  wasmv1_AccessConfig_Addresses : list bytes;
  wasmv1_AccessConfig_unknownFields : raw
}.

Definition wasmv1_AccessConfig_new : wasmv1_AccessConfig := {|
  wasmv1_AccessConfig_Permission := 0; wasmv1_AccessConfig_Addresses := [];
  wasmv1_AccessConfig_unknownFields := []
|}.

Definition wasmv1_AccessConfig_set_Permission (v : Z) (x : wasmv1_AccessConfig) : wasmv1_AccessConfig := {|
  wasmv1_AccessConfig_Permission := v; wasmv1_AccessConfig_Addresses := wasmv1_AccessConfig_Addresses x;
  wasmv1_AccessConfig_unknownFields := wasmv1_AccessConfig_unknownFields x
|}.

Definition wasmv1_AccessConfig_set_Addresses (v : list bytes) (x : wasmv1_AccessConfig) : wasmv1_AccessConfig := {|
  wasmv1_AccessConfig_Permission := wasmv1_AccessConfig_Permission x;
  wasmv1_AccessConfig_Addresses := v;
  wasmv1_AccessConfig_unknownFields := wasmv1_AccessConfig_unknownFields x
|}.

Definition wasmv1_AccessConfig_append (bz : raw) (x : wasmv1_AccessConfig) : wasmv1_AccessConfig := {|
  wasmv1_AccessConfig_Permission := wasmv1_AccessConfig_Permission x;
  wasmv1_AccessConfig_Addresses := wasmv1_AccessConfig_Addresses x;
  wasmv1_AccessConfig_unknownFields := wasmv1_AccessConfig_unknownFields x ++ bz
|}.

Definition wasmv1_AccessConfig_size (x : option wasmv1_AccessConfig) : Z :=
  match x with
  | None => 0
  | Some x =>
      size_number (wasmv1_AccessConfig_Permission x) +
      size_strings (wasmv1_AccessConfig_Addresses x) +
      size_unknown (wasmv1_AccessConfig_unknownFields x)
  end.

Definition wasmv1_AccessConfig_marshal (x : option wasmv1_AccessConfig) : M raw unit :=
  match x with
  | None => ret ()
  | Some m => marshal_into (wasmv1_AccessConfig_size x) (
      put_unknown (wasmv1_AccessConfig_unknownFields m) ;;;
      put_strings 0x12 (wasmv1_AccessConfig_Addresses m) ;;;
      put_number 0x8 (wasmv1_AccessConfig_Permission m))
  end.

Definition wasmv1_AccessConfig_field (DiscardUnknown : bool) (dAtA : raw) (fieldNum : Z) :
    option (Z → M (rstate wasmv1_AccessConfig) unit) :=
  if fieldNum =? 1 then Some (λ wireType, expect_wire 0 "Permission" wireType
    (get_number dAtA Int32 wasmv1_AccessConfig_set_Permission))
  else if fieldNum =? 2 then Some (λ wireType, expect_wire 2 "Addresses" wireType
    (get_string dAtA (λ s x, wasmv1_AccessConfig_set_Addresses (wasmv1_AccessConfig_Addresses x ++ [s]) x)))
  else None.

Definition wasmv1_AccessConfig_unmarshal (DiscardUnknown : bool) (dAtA : raw) : M (option wasmv1_AccessConfig) unit :=
  unmarshal_into (read_all dAtA DiscardUnknown "AccessConfig"
    (wasmv1_AccessConfig_field DiscardUnknown dAtA) wasmv1_AccessConfig_append).

#[export] Instance wasmv1_AccessConfig_proto : ProtoMessage wasmv1_AccessConfig := {|
  proto_new := wasmv1_AccessConfig_new;
  options_Size := wasmv1_AccessConfig_size;
  options_Marshal x := marshalled (wasmv1_AccessConfig_marshal x);
  options_Unmarshal := wasmv1_AccessConfig_unmarshal
|}.

(** ** MsgStoreCodeAdmin *)

Record wasmv1_MsgStoreCodeAdmin := {
  wasmv1_MsgStoreCodeAdmin_Authority : bytes;
  wasmv1_MsgStoreCodeAdmin_Creator : bytes;
  wasmv1_MsgStoreCodeAdmin_WasmByteCode : bytes;
  wasmv1_MsgStoreCodeAdmin_InstantiatePermission : option wasmv1_AccessConfig;
  wasmv1_MsgStoreCodeAdmin_unknownFields : raw
}.

Definition wasmv1_MsgStoreCodeAdmin_new : wasmv1_MsgStoreCodeAdmin := {|
  wasmv1_MsgStoreCodeAdmin_Authority := ""; wasmv1_MsgStoreCodeAdmin_Creator := "";
  wasmv1_MsgStoreCodeAdmin_WasmByteCode := ""; wasmv1_MsgStoreCodeAdmin_InstantiatePermission := None;
  wasmv1_MsgStoreCodeAdmin_unknownFields := []
|}.

Definition wasmv1_MsgStoreCodeAdmin_set_Authority (v : bytes) (x : wasmv1_MsgStoreCodeAdmin) : wasmv1_MsgStoreCodeAdmin := {|
  wasmv1_MsgStoreCodeAdmin_Authority := v;
  wasmv1_MsgStoreCodeAdmin_Creator := wasmv1_MsgStoreCodeAdmin_Creator x;
  wasmv1_MsgStoreCodeAdmin_WasmByteCode := wasmv1_MsgStoreCodeAdmin_WasmByteCode x;
  wasmv1_MsgStoreCodeAdmin_InstantiatePermission := wasmv1_MsgStoreCodeAdmin_InstantiatePermission x;
  wasmv1_MsgStoreCodeAdmin_unknownFields := wasmv1_MsgStoreCodeAdmin_unknownFields x
|}.

Definition wasmv1_MsgStoreCodeAdmin_set_Creator (v : bytes) (x : wasmv1_MsgStoreCodeAdmin) : wasmv1_MsgStoreCodeAdmin := {|
  wasmv1_MsgStoreCodeAdmin_Authority := wasmv1_MsgStoreCodeAdmin_Authority x;
  wasmv1_MsgStoreCodeAdmin_Creator := v;
  wasmv1_MsgStoreCodeAdmin_WasmByteCode := wasmv1_MsgStoreCodeAdmin_WasmByteCode x;
  wasmv1_MsgStoreCodeAdmin_InstantiatePermission := wasmv1_MsgStoreCodeAdmin_InstantiatePermission x;
  wasmv1_MsgStoreCodeAdmin_unknownFields := wasmv1_MsgStoreCodeAdmin_unknownFields x
|}.

Definition wasmv1_MsgStoreCodeAdmin_set_WasmByteCode (v : bytes) (x : wasmv1_MsgStoreCodeAdmin) : wasmv1_MsgStoreCodeAdmin := {|
  wasmv1_MsgStoreCodeAdmin_Authority := wasmv1_MsgStoreCodeAdmin_Authority x;
  wasmv1_MsgStoreCodeAdmin_Creator := wasmv1_MsgStoreCodeAdmin_Creator x;
  wasmv1_MsgStoreCodeAdmin_WasmByteCode := v;
  wasmv1_MsgStoreCodeAdmin_InstantiatePermission := wasmv1_MsgStoreCodeAdmin_InstantiatePermission x;
  wasmv1_MsgStoreCodeAdmin_unknownFields := wasmv1_MsgStoreCodeAdmin_unknownFields x
|}.

Definition wasmv1_MsgStoreCodeAdmin_set_InstantiatePermission (v : option wasmv1_AccessConfig) (x : wasmv1_MsgStoreCodeAdmin) : wasmv1_MsgStoreCodeAdmin := {|
  wasmv1_MsgStoreCodeAdmin_Authority := wasmv1_MsgStoreCodeAdmin_Authority x;
  wasmv1_MsgStoreCodeAdmin_Creator := wasmv1_MsgStoreCodeAdmin_Creator x;
  wasmv1_MsgStoreCodeAdmin_WasmByteCode := wasmv1_MsgStoreCodeAdmin_WasmByteCode x;
  wasmv1_MsgStoreCodeAdmin_InstantiatePermission := v;
  wasmv1_MsgStoreCodeAdmin_unknownFields := wasmv1_MsgStoreCodeAdmin_unknownFields x
|}.

Definition wasmv1_MsgStoreCodeAdmin_append (bz : raw) (x : wasmv1_MsgStoreCodeAdmin) : wasmv1_MsgStoreCodeAdmin := {|
  wasmv1_MsgStoreCodeAdmin_Authority := wasmv1_MsgStoreCodeAdmin_Authority x;
  wasmv1_MsgStoreCodeAdmin_Creator := wasmv1_MsgStoreCodeAdmin_Creator x;
  wasmv1_MsgStoreCodeAdmin_WasmByteCode := wasmv1_MsgStoreCodeAdmin_WasmByteCode x;
  wasmv1_MsgStoreCodeAdmin_InstantiatePermission := wasmv1_MsgStoreCodeAdmin_InstantiatePermission x;
  wasmv1_MsgStoreCodeAdmin_unknownFields := wasmv1_MsgStoreCodeAdmin_unknownFields x ++ bz
|}.

Definition wasmv1_MsgStoreCodeAdmin_size (x : option wasmv1_MsgStoreCodeAdmin) : Z :=
  match x with
  | None => 0
  | Some x =>
      size_bytes (wasmv1_MsgStoreCodeAdmin_Authority x) +
      size_bytes (wasmv1_MsgStoreCodeAdmin_Creator x) +
      size_bytes (wasmv1_MsgStoreCodeAdmin_WasmByteCode x) +
      size_message (wasmv1_MsgStoreCodeAdmin_InstantiatePermission x) +
      size_unknown (wasmv1_MsgStoreCodeAdmin_unknownFields x)
  end.

Definition wasmv1_MsgStoreCodeAdmin_marshal (x : option wasmv1_MsgStoreCodeAdmin) : M raw unit :=
  match x with
  | None => ret ()
  | Some m => marshal_into (wasmv1_MsgStoreCodeAdmin_size x) (
      put_unknown (wasmv1_MsgStoreCodeAdmin_unknownFields m) ;;;
      put_message 0x22 (wasmv1_MsgStoreCodeAdmin_InstantiatePermission m) ;;;
      put_bytes 0x1a (wasmv1_MsgStoreCodeAdmin_WasmByteCode m) ;;;
      put_bytes 0x12 (wasmv1_MsgStoreCodeAdmin_Creator m) ;;;
      put_bytes 0xa (wasmv1_MsgStoreCodeAdmin_Authority m))
  end.

Definition wasmv1_MsgStoreCodeAdmin_field (DiscardUnknown : bool) (dAtA : raw) (fieldNum : Z) :
    option (Z → M (rstate wasmv1_MsgStoreCodeAdmin) unit) :=
  if fieldNum =? 1 then Some (λ wireType, expect_wire 2 "Authority" wireType
    (get_string dAtA wasmv1_MsgStoreCodeAdmin_set_Authority))
  else if fieldNum =? 2 then Some (λ wireType, expect_wire 2 "Creator" wireType
    (get_string dAtA wasmv1_MsgStoreCodeAdmin_set_Creator))
  else if fieldNum =? 3 then Some (λ wireType, expect_wire 2 "WasmByteCode" wireType
    (get_bytes dAtA wasmv1_MsgStoreCodeAdmin_set_WasmByteCode))
  else if fieldNum =? 4 then Some (λ wireType, expect_wire 2 "InstantiatePermission" wireType
    (get_message dAtA DiscardUnknown wasmv1_MsgStoreCodeAdmin_InstantiatePermission wasmv1_MsgStoreCodeAdmin_set_InstantiatePermission))
  else None.

Definition wasmv1_MsgStoreCodeAdmin_unmarshal (DiscardUnknown : bool) (dAtA : raw) : M (option wasmv1_MsgStoreCodeAdmin) unit :=
  unmarshal_into (read_all dAtA DiscardUnknown "MsgStoreCodeAdmin"
    (wasmv1_MsgStoreCodeAdmin_field DiscardUnknown dAtA) wasmv1_MsgStoreCodeAdmin_append).

#[export] Instance wasmv1_MsgStoreCodeAdmin_proto : ProtoMessage wasmv1_MsgStoreCodeAdmin := {|
  proto_new := wasmv1_MsgStoreCodeAdmin_new;
  options_Size := wasmv1_MsgStoreCodeAdmin_size;
  options_Marshal x := marshalled (wasmv1_MsgStoreCodeAdmin_marshal x);
  options_Unmarshal := wasmv1_MsgStoreCodeAdmin_unmarshal
|}.

(** ** MsgStoreCodeAdminResponse *)

Record wasmv1_MsgStoreCodeAdminResponse := {
  wasmv1_MsgStoreCodeAdminResponse_CodeId : Z;
  wasmv1_MsgStoreCodeAdminResponse_Checksum : bytes;
  wasmv1_MsgStoreCodeAdminResponse_unknownFields : raw
}.

Definition wasmv1_MsgStoreCodeAdminResponse_new : wasmv1_MsgStoreCodeAdminResponse := {|
  wasmv1_MsgStoreCodeAdminResponse_CodeId := 0; wasmv1_MsgStoreCodeAdminResponse_Checksum := "";
  wasmv1_MsgStoreCodeAdminResponse_unknownFields := []
|}.

Definition wasmv1_MsgStoreCodeAdminResponse_set_CodeId (v : Z) (x : wasmv1_MsgStoreCodeAdminResponse) : wasmv1_MsgStoreCodeAdminResponse := {|
  wasmv1_MsgStoreCodeAdminResponse_CodeId := v;
  wasmv1_MsgStoreCodeAdminResponse_Checksum := wasmv1_MsgStoreCodeAdminResponse_Checksum x;
  wasmv1_MsgStoreCodeAdminResponse_unknownFields := wasmv1_MsgStoreCodeAdminResponse_unknownFields x
|}.

Definition wasmv1_MsgStoreCodeAdminResponse_set_Checksum (v : bytes) (x : wasmv1_MsgStoreCodeAdminResponse) : wasmv1_MsgStoreCodeAdminResponse := {|
  wasmv1_MsgStoreCodeAdminResponse_CodeId := wasmv1_MsgStoreCodeAdminResponse_CodeId x;
  wasmv1_MsgStoreCodeAdminResponse_Checksum := v;
  wasmv1_MsgStoreCodeAdminResponse_unknownFields := wasmv1_MsgStoreCodeAdminResponse_unknownFields x
|}.

Definition wasmv1_MsgStoreCodeAdminResponse_append (bz : raw) (x : wasmv1_MsgStoreCodeAdminResponse) : wasmv1_MsgStoreCodeAdminResponse := {|
  wasmv1_MsgStoreCodeAdminResponse_CodeId := wasmv1_MsgStoreCodeAdminResponse_CodeId x;
  wasmv1_MsgStoreCodeAdminResponse_Checksum := wasmv1_MsgStoreCodeAdminResponse_Checksum x;
  wasmv1_MsgStoreCodeAdminResponse_unknownFields := wasmv1_MsgStoreCodeAdminResponse_unknownFields x ++ bz
|}.

Definition wasmv1_MsgStoreCodeAdminResponse_size (x : option wasmv1_MsgStoreCodeAdminResponse) : Z :=
  match x with
  | None => 0
  | Some x =>
      size_number (wasmv1_MsgStoreCodeAdminResponse_CodeId x) +
      size_bytes (wasmv1_MsgStoreCodeAdminResponse_Checksum x) +
      size_unknown (wasmv1_MsgStoreCodeAdminResponse_unknownFields x)
  end.

Definition wasmv1_MsgStoreCodeAdminResponse_marshal (x : option wasmv1_MsgStoreCodeAdminResponse) : M raw unit :=
  match x with
  | None => ret ()
  | Some m => marshal_into (wasmv1_MsgStoreCodeAdminResponse_size x) (
      put_unknown (wasmv1_MsgStoreCodeAdminResponse_unknownFields m) ;;;
      put_bytes 0x12 (wasmv1_MsgStoreCodeAdminResponse_Checksum m) ;;;
      put_number 0x8 (wasmv1_MsgStoreCodeAdminResponse_CodeId m))
  end.

Definition wasmv1_MsgStoreCodeAdminResponse_field (DiscardUnknown : bool) (dAtA : raw) (fieldNum : Z) :
    option (Z → M (rstate wasmv1_MsgStoreCodeAdminResponse) unit) :=
  if fieldNum =? 1 then Some (λ wireType, expect_wire 0 "CodeId" wireType
    (get_number dAtA Uint64 wasmv1_MsgStoreCodeAdminResponse_set_CodeId))
  else if fieldNum =? 2 then Some (λ wireType, expect_wire 2 "Checksum" wireType
    (get_bytes dAtA wasmv1_MsgStoreCodeAdminResponse_set_Checksum))
  else None.

Definition wasmv1_MsgStoreCodeAdminResponse_unmarshal (DiscardUnknown : bool) (dAtA : raw) : M (option wasmv1_MsgStoreCodeAdminResponse) unit :=
  unmarshal_into (read_all dAtA DiscardUnknown "MsgStoreCodeAdminResponse"
    (wasmv1_MsgStoreCodeAdminResponse_field DiscardUnknown dAtA) wasmv1_MsgStoreCodeAdminResponse_append).

#[export] Instance wasmv1_MsgStoreCodeAdminResponse_proto : ProtoMessage wasmv1_MsgStoreCodeAdminResponse := {|
  proto_new := wasmv1_MsgStoreCodeAdminResponse_new;
  options_Size := wasmv1_MsgStoreCodeAdminResponse_size;
  options_Marshal x := marshalled (wasmv1_MsgStoreCodeAdminResponse_marshal x);
  options_Unmarshal := wasmv1_MsgStoreCodeAdminResponse_unmarshal
|}.

End messages.

(** * What they promise *)

Section laws.
Context {WR : WireRuntime}.
Context {WL : WireRuntimeLaws WR}.

Definition wasmv1_AccessConfig_enc (x : wasmv1_AccessConfig) : raw :=
  enc_number 0x8 (wasmv1_AccessConfig_Permission x) ++
  enc_strings 0x12 (wasmv1_AccessConfig_Addresses x) ++
  wasmv1_AccessConfig_unknownFields x.

Definition wasmv1_AccessConfig_ok (x : wasmv1_AccessConfig) : Prop :=
  is_int Int32 (wasmv1_AccessConfig_Permission x) ∧
  raw_fields (wasmv1_AccessConfig_field false) (wasmv1_AccessConfig_unknownFields x).

Lemma wasmv1_AccessConfig_writes x : encodes (wasmv1_AccessConfig_marshal (Some x)) (wasmv1_AccessConfig_size (Some x)) (wasmv1_AccessConfig_enc x).
Proof. apply encodes_intro; unfold wasmv1_AccessConfig_enc; [wire_writes|unfold wasmv1_AccessConfig_size; wire_size]. Qed.

Lemma wasmv1_AccessConfig_reads x :
  wasmv1_AccessConfig_ok x → len (wasmv1_AccessConfig_enc x) < 2 ^ 63 →
  wasmv1_AccessConfig_unmarshal false (wasmv1_AccessConfig_enc x) (Some wasmv1_AccessConfig_new) = (Ok (), Some x).
Proof.
  intros Hok H63. destruct x as [f1 f2 u]; destruct Hok as (HPermission & Hu).
  unfold wasmv1_AccessConfig_enc in *.
  cbn [ wasmv1_AccessConfig_Permission wasmv1_AccessConfig_Addresses wasmv1_AccessConfig_unknownFields] in *.
  apply (unmarshal_reads _ (wasmv1_AccessConfig_field false)); [|done].
  wire_read (reads_number "AccessConfig" (wasmv1_AccessConfig_field false) wasmv1_AccessConfig_append Int32 1 "Permission").
  wire_read (reads_strings "AccessConfig" (wasmv1_AccessConfig_field false) wasmv1_AccessConfig_append 2 "Addresses").
  wire_unknown wasmv1_AccessConfig_append.
Qed.

Lemma wasmv1_AccessConfig_total d bz x : len bz < 2 ^ 63 → no_panic (wasmv1_AccessConfig_unmarshal d bz x).1.
Proof.
  intros. apply unmarshal_total; [done|]. intros n k wt. unfold wasmv1_AccessConfig_field. wire_moves.
Qed.

#[export] Instance wasmv1_AccessConfig_laws : ProtoLaws wasmv1_AccessConfig wasmv1_AccessConfig_proto :=
  proto_laws wasmv1_AccessConfig_marshal wasmv1_AccessConfig_enc wasmv1_AccessConfig_ok (λ _, eq_refl) eq_refl eq_refl
    wasmv1_AccessConfig_writes wasmv1_AccessConfig_reads wasmv1_AccessConfig_total.

Definition wasmv1_MsgStoreCodeAdmin_enc (x : wasmv1_MsgStoreCodeAdmin) : raw :=
  enc_bytes 0xa (wasmv1_MsgStoreCodeAdmin_Authority x) ++
  enc_bytes 0x12 (wasmv1_MsgStoreCodeAdmin_Creator x) ++
  enc_bytes 0x1a (wasmv1_MsgStoreCodeAdmin_WasmByteCode x) ++
  enc_message 0x22 (wasmv1_MsgStoreCodeAdmin_InstantiatePermission x) ++
  wasmv1_MsgStoreCodeAdmin_unknownFields x.

Definition wasmv1_MsgStoreCodeAdmin_ok (x : wasmv1_MsgStoreCodeAdmin) : Prop :=
  ok_message (wasmv1_MsgStoreCodeAdmin_InstantiatePermission x) ∧
  raw_fields (wasmv1_MsgStoreCodeAdmin_field false) (wasmv1_MsgStoreCodeAdmin_unknownFields x).

Lemma wasmv1_MsgStoreCodeAdmin_writes x : encodes (wasmv1_MsgStoreCodeAdmin_marshal (Some x)) (wasmv1_MsgStoreCodeAdmin_size (Some x)) (wasmv1_MsgStoreCodeAdmin_enc x).
Proof. apply encodes_intro; unfold wasmv1_MsgStoreCodeAdmin_enc; [wire_writes|unfold wasmv1_MsgStoreCodeAdmin_size; wire_size]. Qed.

Lemma wasmv1_MsgStoreCodeAdmin_reads x :
  wasmv1_MsgStoreCodeAdmin_ok x → len (wasmv1_MsgStoreCodeAdmin_enc x) < 2 ^ 63 →
  wasmv1_MsgStoreCodeAdmin_unmarshal false (wasmv1_MsgStoreCodeAdmin_enc x) (Some wasmv1_MsgStoreCodeAdmin_new) = (Ok (), Some x).
Proof.
  intros Hok H63. destruct x as [f1 f2 f3 f4 u]; destruct Hok as (HInstantiatePermission & Hu).
  unfold wasmv1_MsgStoreCodeAdmin_enc in *.
  cbn [ wasmv1_MsgStoreCodeAdmin_Authority wasmv1_MsgStoreCodeAdmin_Creator
    wasmv1_MsgStoreCodeAdmin_WasmByteCode wasmv1_MsgStoreCodeAdmin_InstantiatePermission
    wasmv1_MsgStoreCodeAdmin_unknownFields] in *.
  apply (unmarshal_reads _ (wasmv1_MsgStoreCodeAdmin_field false)); [|done].
  wire_read (reads_string "MsgStoreCodeAdmin" (wasmv1_MsgStoreCodeAdmin_field false) wasmv1_MsgStoreCodeAdmin_append 1 "Authority").
  wire_read (reads_string "MsgStoreCodeAdmin" (wasmv1_MsgStoreCodeAdmin_field false) wasmv1_MsgStoreCodeAdmin_append 2 "Creator").
  wire_read (reads_bytes "MsgStoreCodeAdmin" (wasmv1_MsgStoreCodeAdmin_field false) wasmv1_MsgStoreCodeAdmin_append 3 "WasmByteCode").
  wire_read (reads_message (A:=wasmv1_AccessConfig) "MsgStoreCodeAdmin" (wasmv1_MsgStoreCodeAdmin_field false) wasmv1_MsgStoreCodeAdmin_append 4 "InstantiatePermission").
  wire_unknown wasmv1_MsgStoreCodeAdmin_append.
Qed.

Lemma wasmv1_MsgStoreCodeAdmin_total d bz x : len bz < 2 ^ 63 → no_panic (wasmv1_MsgStoreCodeAdmin_unmarshal d bz x).1.
Proof.
  intros. apply unmarshal_total; [done|]. intros n k wt. unfold wasmv1_MsgStoreCodeAdmin_field. wire_moves.
Qed.

#[export] Instance wasmv1_MsgStoreCodeAdmin_laws : ProtoLaws wasmv1_MsgStoreCodeAdmin wasmv1_MsgStoreCodeAdmin_proto :=
  proto_laws wasmv1_MsgStoreCodeAdmin_marshal wasmv1_MsgStoreCodeAdmin_enc wasmv1_MsgStoreCodeAdmin_ok (λ _, eq_refl) eq_refl eq_refl
    wasmv1_MsgStoreCodeAdmin_writes wasmv1_MsgStoreCodeAdmin_reads wasmv1_MsgStoreCodeAdmin_total.

Definition wasmv1_MsgStoreCodeAdminResponse_enc (x : wasmv1_MsgStoreCodeAdminResponse) : raw :=
  enc_number 0x8 (wasmv1_MsgStoreCodeAdminResponse_CodeId x) ++
  enc_bytes 0x12 (wasmv1_MsgStoreCodeAdminResponse_Checksum x) ++
  wasmv1_MsgStoreCodeAdminResponse_unknownFields x.

Definition wasmv1_MsgStoreCodeAdminResponse_ok (x : wasmv1_MsgStoreCodeAdminResponse) : Prop :=
  is_int Uint64 (wasmv1_MsgStoreCodeAdminResponse_CodeId x) ∧
  raw_fields (wasmv1_MsgStoreCodeAdminResponse_field false) (wasmv1_MsgStoreCodeAdminResponse_unknownFields x).

Lemma wasmv1_MsgStoreCodeAdminResponse_writes x : encodes (wasmv1_MsgStoreCodeAdminResponse_marshal (Some x)) (wasmv1_MsgStoreCodeAdminResponse_size (Some x)) (wasmv1_MsgStoreCodeAdminResponse_enc x).
Proof. apply encodes_intro; unfold wasmv1_MsgStoreCodeAdminResponse_enc; [wire_writes|unfold wasmv1_MsgStoreCodeAdminResponse_size; wire_size]. Qed.

Lemma wasmv1_MsgStoreCodeAdminResponse_reads x :
  wasmv1_MsgStoreCodeAdminResponse_ok x → len (wasmv1_MsgStoreCodeAdminResponse_enc x) < 2 ^ 63 →
  wasmv1_MsgStoreCodeAdminResponse_unmarshal false (wasmv1_MsgStoreCodeAdminResponse_enc x) (Some wasmv1_MsgStoreCodeAdminResponse_new) = (Ok (), Some x).
Proof.
  intros Hok H63. destruct x as [f1 f2 u]; destruct Hok as (HCodeId & Hu).
  unfold wasmv1_MsgStoreCodeAdminResponse_enc in *.
  cbn [ wasmv1_MsgStoreCodeAdminResponse_CodeId wasmv1_MsgStoreCodeAdminResponse_Checksum
    wasmv1_MsgStoreCodeAdminResponse_unknownFields] in *.
  apply (unmarshal_reads _ (wasmv1_MsgStoreCodeAdminResponse_field false)); [|done].
  wire_read (reads_number "MsgStoreCodeAdminResponse" (wasmv1_MsgStoreCodeAdminResponse_field false) wasmv1_MsgStoreCodeAdminResponse_append Uint64 1 "CodeId").
  wire_read (reads_bytes "MsgStoreCodeAdminResponse" (wasmv1_MsgStoreCodeAdminResponse_field false) wasmv1_MsgStoreCodeAdminResponse_append 2 "Checksum").
  wire_unknown wasmv1_MsgStoreCodeAdminResponse_append.
Qed.

Lemma wasmv1_MsgStoreCodeAdminResponse_total d bz x : len bz < 2 ^ 63 → no_panic (wasmv1_MsgStoreCodeAdminResponse_unmarshal d bz x).1.
Proof.
  intros. apply unmarshal_total; [done|]. intros n k wt. unfold wasmv1_MsgStoreCodeAdminResponse_field. wire_moves.
Qed.

#[export] Instance wasmv1_MsgStoreCodeAdminResponse_laws : ProtoLaws wasmv1_MsgStoreCodeAdminResponse wasmv1_MsgStoreCodeAdminResponse_proto :=
  proto_laws wasmv1_MsgStoreCodeAdminResponse_marshal wasmv1_MsgStoreCodeAdminResponse_enc wasmv1_MsgStoreCodeAdminResponse_ok (λ _, eq_refl) eq_refl eq_refl
    wasmv1_MsgStoreCodeAdminResponse_writes wasmv1_MsgStoreCodeAdminResponse_reads wasmv1_MsgStoreCodeAdminResponse_total.

End laws.
