(* ===== verification/Reflect.v ===== *)
(** Reflection on the pulsar messages: the values of google.golang.org/protobuf's
    protoreflect as the generated methods use them, and what the methods Range, Has, Clear,
    Get, Set, Mutable and NewField of a message are made of. A value is what it holds when it
    is made: a message that is changed later through a reference is not followed, lists that
    are changed are the subject of [ReflectLists]. A nil slice and an empty one are the
    same. *)
From S2P Require Import Prelude.
From S2P Require Import GoJson.
From S2P Require Import Wire.
From S2P Require Import WireRead.
From S2P Require Import ApiState.
From S2P Require Import ApiWasm.

(** * Descriptors *)

(** protoreflect.FieldDescriptor, and the one of a declared field. *)
Record FieldDescriptor := { FullName : string; IsExtension : bool }.

Definition declared (name : string) : FieldDescriptor := {| FullName := name; IsExtension := false |}.

#[export] Instance FieldDescriptor_eq_dec : EqDecision FieldDescriptor.
Proof. solve_decision. Defined.

(** * Values *)

Section values.
Context {WR : WireRuntime} {SM : SdkMessages}.

(** The pointer in a protoreflect.Message, by its type: the messages that are fields of
    others, and any other type, by its name. [None] is a nil pointer. *)
Inductive gomessage :=
| MCoin (x : option ApiCoin)
| MMetadata (x : option ApiMetadata)
| MParams (x : option v1_Params)
| MDenomAuthorityMetadata (x : option v1_DenomAuthorityMetadata)
| MGenesisDenom (x : option v1_GenesisDenom)
| MAccessConfig (x : option wasmv1_AccessConfig)
| MOther (type : string).

(** The pointer in a protoreflect.List, by the type of the wrapper; [None] is a wrapper that
    has no slice. *)
Inductive golist :=
| L_Params_1 (l : option (list (option ApiCoin)))
| L_GenesisState_2 (l : option (list (option v1_GenesisDenom)))
| L_QueryDenomsFromCreatorResponse_1 (l : option (list bytes))
| L_AccessConfig_2 (l : option (list bytes))
| LOther (type : string).

(** protoreflect.Value; the kinds no message has a field of are [VOther]. *)
Inductive Value :=
| VString (s : bytes)
| VBytes (bz : bytes)
| VUint32 (n : Z)
| VUint64 (n : Z)
| VEnum (n : Z)
| VMessage (m : gomessage)
| VList (l : golist)
| VOther (kind : string).

(** ** Taking values apart *)

Definition type_panic : gopanic := PanicString "interface conversion or type mismatch".
Definition nil_panic : gopanic := PanicString "nil pointer dereference".

(** value.Interface().(string), value.Bytes(), value.Uint() and value.Enum(). *)
Definition as_string (v : Value) : res bytes := match v with VString s => Ok s | _ => Panic type_panic end.
Definition as_bytes (v : Value) : res bytes := match v with VBytes bz => Ok bz | _ => Panic type_panic end.
Definition as_uint (v : Value) : res Z :=
  match v with VUint32 n | VUint64 n => Ok n | _ => Panic type_panic end.
Definition as_enum (v : Value) : res Z := match v with VEnum n => Ok n | _ => Panic type_panic end.

(** value.Message().Interface() asserted to be of a type. *)
Definition as_message {A} (f : gomessage → option (option A)) (v : Value) : res (option A) :=
  match v with
  | VMessage m => match f m with Some x => Ok x | None => Panic type_panic end
  | _ => Panic type_panic
  end.

Definition is_Coin (m : gomessage) : option (option ApiCoin) := match m with MCoin x => Some x | _ => None end.
Definition is_Metadata (m : gomessage) : option (option ApiMetadata) := match m with MMetadata x => Some x | _ => None end.
Definition is_Params (m : gomessage) : option (option v1_Params) := match m with MParams x => Some x | _ => None end.
Definition is_DenomAuthorityMetadata (m : gomessage) : option (option v1_DenomAuthorityMetadata) :=
  match m with MDenomAuthorityMetadata x => Some x | _ => None end.
Definition is_GenesisDenom (m : gomessage) : option (option v1_GenesisDenom) :=
  match m with MGenesisDenom x => Some x | _ => None end.
Definition is_AccessConfig (m : gomessage) : option (option wasmv1_AccessConfig) :=
  match m with MAccessConfig x => Some x | _ => None end.

(** value.List() asserted to be a wrapper, and the slice it points to. *)
Definition as_list {A} (f : golist → option (option (list A))) (v : Value) : res (list A) :=
  match v with
  | VList l =>
      match f l with
      | Some (Some l) => Ok l
      | Some None => Panic nil_panic
      | None => Panic type_panic
      end
  | _ => Panic type_panic
  end.

Definition is_Params_1 (l : golist) : option (option (list (option ApiCoin))) :=
  match l with L_Params_1 l => Some l | _ => None end.
Definition is_GenesisState_2 (l : golist) : option (option (list (option v1_GenesisDenom))) :=
  match l with L_GenesisState_2 l => Some l | _ => None end.
Definition is_QueryDenomsFromCreatorResponse_1 (l : golist) : option (option (list bytes)) :=
  match l with L_QueryDenomsFromCreatorResponse_1 l => Some l | _ => None end.
Definition is_AccessConfig_2 (l : golist) : option (option (list bytes)) :=
  match l with L_AccessConfig_2 l => Some l | _ => None end.

(** * Methods *)

(** The message a method was called on; a nil one has no fields. *)
Definition pointed {T} (x : option T) : res T := match x with Some m => Ok m | None => Panic nil_panic end.

(** x.F = v *)
Definition assign {T} (f : T → T) : M (option T) unit :=
  let! m := (λ x, (pointed x, x)) in modify (λ _, Some (f m)).

(** The end of every switch over the names of fields. *)
Definition no_field {A} (message : string) (fd : FieldDescriptor) : res A :=
  if IsExtension fd
  then Panic (PanicError (Errorf ("proto3 declared messages do not support extensions: " +:+ message) []))
  else Panic (PanicError (Errorf ("message " +:+ message +:+ " does not contain field %s") [FullName fd])).

Definition not_mutable {A} (field message : string) : res A :=
  Panic (PanicError (Errorf ("field " +:+ field +:+ " of message " +:+ message +:+ " is not mutable") [])).

Definition no_oneof {A} (message name : string) : res A :=
  Panic (PanicError (Errorf ("%s is not a oneof field in " +:+ message) [name])).

(** A field that is populated is shown to the function, which answers whether to go on. *)
Definition visit {S} (f : FieldDescriptor → Value → M S bool) (populated : bool) (fd : FieldDescriptor)
    (value : Value) (rest : M S unit) : M S unit :=
  if populated then let! go := f fd value in if go : bool then rest else ret () else rest.

Definition non_nil {A} (x : option A) : bool := match x with Some _ => true | None => false end.
Definition non_zero (n : Z) : bool := negb (n =? 0).
Definition non_empty (s : bytes) : bool := negb (is_empty s).
Definition has_elements {A} (l : list A) : bool := match l with [] => false | _ => true end.

(** The list of Get: without a slice when it is empty. *)
Definition list_view {A} (l : list A) : option (list A) := match l with [] => None | _ => Some l end.

(** A reference to a message that is a field, allocated when it is nil, and to a list. *)
Definition mutable_message {T A} `{!ProtoMessage A} (get : T → option A) (set : option A → T → T)
    (wrap : option A → gomessage) : M (option T) Value := λ x,
  match x with
  | Some m =>
      let v := Some (default proto_new (get m)) in (Ok (VMessage (wrap v)), Some (set v m))
  | None => (Panic nil_panic, x)
  end.

Definition mutable_list {T A} (get : T → list A) (wrap : option (list A) → golist) : M (option T) Value := λ x,
  match x with
  | Some m => (Ok (VList (wrap (Some (get m)))), x)
  | None => (Panic nil_panic, x)
  end.

(** * Laws *)

(** What a field holds: a scalar, a pointer to a message, or a list with its wrapper. *)
Inductive message_type := TCoin | TMetadata | TParams | TDenomAuthorityMetadata | TGenesisDenom | TAccessConfig.
Inductive list_type := T_Params_1 | T_GenesisState_2 | T_QueryDenomsFromCreatorResponse_1 | T_AccessConfig_2.
Inductive field_kind := KString | KBytes | KUint | KEnum | KMessage (t : message_type) | KList (t : list_type).

Definition message_is (t : message_type) (m : gomessage) : bool :=
  match t, m with
  | TCoin, MCoin _ | TMetadata, MMetadata _ | TParams, MParams _
  | TDenomAuthorityMetadata, MDenomAuthorityMetadata _ | TGenesisDenom, MGenesisDenom _
  | TAccessConfig, MAccessConfig _ => true
  | _, _ => false
  end.

(** A wrapper of the type, with a slice. *)
Definition list_is (t : list_type) (l : golist) : bool :=
  match t, l with
  | T_Params_1, L_Params_1 (Some _) | T_GenesisState_2, L_GenesisState_2 (Some _)
  | T_QueryDenomsFromCreatorResponse_1, L_QueryDenomsFromCreatorResponse_1 (Some _)
  | T_AccessConfig_2, L_AccessConfig_2 (Some _) => true
  | _, _ => false
  end.

(** The values that can be stored in a field. *)
Definition has_kind (k : field_kind) (v : Value) : bool :=
  match k, v with
  | KString, VString _ | KBytes, VBytes _ | KUint, (VUint32 _ | VUint64 _) | KEnum, VEnum _ => true
  | KMessage t, VMessage m => message_is t m
  | KList t, VList l => list_is t l
  | _, _ => false
  end.

(** A value after it was stored: unsigned numbers have 64 bits, an empty list no slice. *)
Definition shown (v : Value) : Value :=
  match v with
  | VUint32 n => VUint64 n
  | VList (L_Params_1 (Some l)) => VList (L_Params_1 (list_view l))
  | VList (L_GenesisState_2 (Some l)) => VList (L_GenesisState_2 (list_view l))
  | VList (L_QueryDenomsFromCreatorResponse_1 (Some l)) => VList (L_QueryDenomsFromCreatorResponse_1 (list_view l))
  | VList (L_AccessConfig_2 (Some l)) => VList (L_AccessConfig_2 (list_view l))
  | _ => v
  end.

Definition message_non_nil (m : gomessage) : bool :=
  match m with
  | MCoin x => non_nil x | MMetadata x => non_nil x | MParams x => non_nil x
  | MDenomAuthorityMetadata x => non_nil x | MGenesisDenom x => non_nil x | MAccessConfig x => non_nil x
  | MOther _ => true
  end.

Definition list_has_slice (l : golist) : bool :=
  match l with
  | L_Params_1 l => non_nil l | L_GenesisState_2 l => non_nil l
  | L_QueryDenomsFromCreatorResponse_1 l => non_nil l | L_AccessConfig_2 l => non_nil l
  | LOther _ => true
  end.

(** Whether a value that Get answered is one of a populated field. *)
Definition populated (v : Value) : bool :=
  match v with
  | VString s | VBytes s => non_empty s
  | VUint32 n | VUint64 n | VEnum n => non_zero n
  | VMessage m => message_non_nil m
  | VList l => list_has_slice l
  | VOther _ => true
  end.

Definition composite (k : field_kind) : bool :=
  match k with KMessage _ | KList _ => true | _ => false end.

(** The methods of a message. *)
Record reflection := {
  r_message : Type;
  r_name : string;
  r_fields : list (FieldDescriptor * field_kind);
  r_Range : ∀ S : Type, option r_message → (FieldDescriptor → Value → M S bool) → M S unit;
  r_Has : option r_message → FieldDescriptor → res bool;
  r_Clear : FieldDescriptor → M (option r_message) unit;
  r_Get : option r_message → FieldDescriptor → res Value;
  r_Set : FieldDescriptor → Value → M (option r_message) unit;
  r_Mutable : FieldDescriptor → M (option r_message) Value;
  r_NewField : FieldDescriptor → res Value;
  r_GetUnknown : option r_message → res raw
}.

Section laws.
Context (R : reflection).

(** Two messages that agree on everything but a field. *)
Definition differ_at (fd : FieldDescriptor) (m m' : r_message R) : Prop :=
  (∀ fd' k', (fd', k') ∈ r_fields R → fd' ≠ fd → r_Get R (Some m') fd' = r_Get R (Some m) fd') ∧
  r_GetUnknown R (Some m') = r_GetUnknown R (Some m).

(** The populated fields shown one after the other, by what Get answers. *)
Fixpoint visit_fields {S} (m : r_message R) (f : FieldDescriptor → Value → M S bool)
    (l : list (FieldDescriptor * field_kind)) : M S unit :=
  match l with
  | [] => ret ()
  | (fd, _) :: l =>
      match r_Get R (Some m) fd with
      | Ok v => visit f (populated v) fd v (visit_fields m f l)
      | Err e => fail e
      | Panic p => panic p
      end
  end.

Record lawful_reflection : Prop := {
  law_Get fd k m : (fd, k) ∈ r_fields R → ∃ v, r_Get R (Some m) fd = Ok v ∧ r_Has R (Some m) fd = Ok (populated v);
  law_Set fd k v m : (fd, k) ∈ r_fields R → has_kind k v = true →
    ∃ m', r_Set R fd v (Some m) = (Ok (), Some m') ∧ r_Get R (Some m') fd = Ok (shown v) ∧ differ_at fd m m';
  law_Set_type fd k v m : (fd, k) ∈ r_fields R → has_kind k v = false →
    ∃ p, r_Set R fd v (Some m) = (Panic p, Some m);
  law_Clear fd k m : (fd, k) ∈ r_fields R →
    ∃ m', r_Clear R fd (Some m) = (Ok (), Some m') ∧ r_Has R (Some m') fd = Ok false ∧ differ_at fd m m';
  law_NewField fd k : (fd, k) ∈ r_fields R → ∃ v, r_NewField R fd = Ok v ∧ has_kind k v = true;
  law_Mutable fd k m : (fd, k) ∈ r_fields R →
    if composite k then
      ∃ v m', r_Mutable R fd (Some m) = (Ok v, Some m') ∧ has_kind k v = true ∧
        r_Get R (Some m') fd = Ok (shown v) ∧ differ_at fd m m'
    else ∃ p, r_Mutable R fd (Some m) = (Panic p, Some m);
  law_Range S (f : FieldDescriptor → Value → M S bool) m s :
    r_Range R S (Some m) f s = visit_fields m f (r_fields R) s;
  law_unknown fd v x : Forall (λ e, FullName e.1 ≠ FullName fd) (r_fields R) →
    r_Has R x fd = no_field (r_name R) fd ∧ r_Clear R fd x = (no_field (r_name R) fd, x) ∧
    r_Get R x fd = no_field (r_name R) fd ∧ r_Set R fd v x = (no_field (r_name R) fd, x) ∧
    r_Mutable R fd x = (no_field (r_name R) fd, x) ∧ r_NewField R fd = no_field (r_name R) fd
}.

End laws.

End values.

(** One goal for each field of a message. *)
Ltac each_field H tac :=
  first [by apply elem_of_nil in H | apply elem_of_cons in H as [[= -> ->]|H]; [tac|each_field H tac]].

(** The other fields of a message after an assignment. *)
Ltac same_others R fields :=
  split; [let fd' := fresh "fd'" in let k' := fresh "k'" in let H := fresh "H" in let Hne := fresh "Hne" in
          intros fd' k' H Hne; lazy [r_fields R fields] in H;
          each_field H ltac:(first [by destruct (Hne eq_refl)|reflexivity])
         |reflexivity].

(** The cases of a value. *)
Ltac cases_of v H := destruct v as [| | | | |[]|[[]|[]|[]|[]|]|]; try discriminate H.

(** No name of the switch is that of the field. *)
Ltac other_name fd H :=
  repeat (apply Forall_cons in H as [?Hne H]);
  repeat match goal with
  | |- context [String.eqb (FullName fd) ?n] =>
      rw (proj2 (String.eqb_neq (FullName fd) n));
        [|let E := fresh in intros E; match goal with Hn : _ |- _ => by destruct (Hn (eq_sym E)) end]
  end.

(** The laws of a message, from its definitions. *)
Ltac prove_reflection R fields hasf clearf getf setf mutf newf :=
  constructor;
  [ let H := fresh in intros fd k m H; lazy [r_fields R fields] in H;
    each_field H ltac:(eexists; split; [reflexivity|];
      first [reflexivity | destruct m as [[|? ?] ? ?]; reflexivity | destruct m as [? [|? ?] ?]; reflexivity
            | destruct m as [[|? ?] ?]; reflexivity])
  | let H := fresh in let Hk := fresh in intros fd k v m H Hk; lazy [r_fields R fields] in H;
    each_field H ltac:(cases_of v Hk; eexists; (split; [reflexivity|split; [reflexivity|same_others R fields]]))
  | let H := fresh in let Hk := fresh in intros fd k v m H Hk; lazy [r_fields R fields] in H;
    each_field H ltac:(cases_of v Hk; eexists; reflexivity)
  | let H := fresh in intros fd k m H; lazy [r_fields R fields] in H;
    each_field H ltac:(eexists; (split; [reflexivity|split; [reflexivity|same_others R fields]]))
  | let H := fresh in intros fd k H; lazy [r_fields R fields] in H;
    each_field H ltac:(eexists; (split; [reflexivity|reflexivity]))
  | let H := fresh in intros fd k m H; lazy [r_fields R fields] in H;
    each_field H ltac:(cbn [composite]; first
      [ eexists; reflexivity
      | eexists _, _; (split; [reflexivity|split; [reflexivity|split; [reflexivity|same_others R fields]]]) ])
  | intros S f m s;
    first [reflexivity | destruct m as [[|? ?] ? ?]; reflexivity | destruct m as [? [|? ?] ?]; reflexivity
          | destruct m as [[|? ?] ?]; reflexivity]
  | let H := fresh in intros fd v x H; lazy [r_fields R fields] in H;
    lazy [r_Has r_Clear r_Get r_Set r_Mutable r_NewField r_name R];
    unfold hasf, clearf, getf, setf, mutf, newf; other_name fd H; split_and!; reflexivity ].
