(* ===== verification/ReflectState.v ===== *)
(** api/miniwasm/tokenfactory/v1: params.pulsar.go, authority_metadata.pulsar.go and
    genesis.pulsar.go: the reflection methods of each message, its getters and
    Reset, and the proof that they obey the laws of [Reflect]. *)
From S2P Require Import Prelude.
From S2P Require Import GoJson.
From S2P Require Import Wire.
From S2P Require Import WireRead.
From S2P Require Import ApiState.
From S2P Require Import Reflect.

Section messages.
Context {WR : WireRuntime} {SM : SdkMessages}.

(** ** Params *)

Definition v1_Params_fd_DenomCreationFee : FieldDescriptor := declared "miniwasm.tokenfactory.v1.Params.denom_creation_fee".

Definition v1_Params_fd_DenomCreationGasConsume : FieldDescriptor := declared "miniwasm.tokenfactory.v1.Params.denom_creation_gas_consume".

Definition v1_Params_fields : list (FieldDescriptor * field_kind) :=
  [(v1_Params_fd_DenomCreationFee, KList T_Params_1);
   (v1_Params_fd_DenomCreationGasConsume, KUint)].

Definition v1_Params_Range {S} (x : option v1_Params) (f : FieldDescriptor → Value → M S bool) : M S unit :=
  let! m := lift (pointed x) in
  visit f (has_elements (v1_Params_DenomCreationFee m)) v1_Params_fd_DenomCreationFee (VList (L_Params_1 (Some (v1_Params_DenomCreationFee m)))) (
  visit f (non_zero (v1_Params_DenomCreationGasConsume m)) v1_Params_fd_DenomCreationGasConsume (VUint64 (v1_Params_DenomCreationGasConsume m)) (
  ret ())).

Definition v1_Params_Has (x : option v1_Params) (fd : FieldDescriptor) : res bool :=
  if String.eqb (FullName fd) "miniwasm.tokenfactory.v1.Params.denom_creation_fee" then
    let? m := pointed x in Ok (has_elements (v1_Params_DenomCreationFee m))
  else
  if String.eqb (FullName fd) "miniwasm.tokenfactory.v1.Params.denom_creation_gas_consume" then
    let? m := pointed x in Ok (non_zero (v1_Params_DenomCreationGasConsume m))
  else no_field "miniwasm.tokenfactory.v1.Params" fd.

Definition v1_Params_Clear (fd : FieldDescriptor) : M (option v1_Params) unit :=
  if String.eqb (FullName fd) "miniwasm.tokenfactory.v1.Params.denom_creation_fee" then
    assign (v1_Params_set_DenomCreationFee [])
  else
  if String.eqb (FullName fd) "miniwasm.tokenfactory.v1.Params.denom_creation_gas_consume" then
    assign (v1_Params_set_DenomCreationGasConsume 0)
  else lift (no_field "miniwasm.tokenfactory.v1.Params" fd).

Definition v1_Params_Get (x : option v1_Params) (fd : FieldDescriptor) : res Value :=
  if String.eqb (FullName fd) "miniwasm.tokenfactory.v1.Params.denom_creation_fee" then
    let? m := pointed x in Ok (VList (L_Params_1 (list_view (v1_Params_DenomCreationFee m))))
  else
  if String.eqb (FullName fd) "miniwasm.tokenfactory.v1.Params.denom_creation_gas_consume" then
    let? m := pointed x in Ok (VUint64 (v1_Params_DenomCreationGasConsume m))
  else no_field "miniwasm.tokenfactory.v1.Params" fd.

Definition v1_Params_Set (fd : FieldDescriptor) (value : Value) : M (option v1_Params) unit :=
  if String.eqb (FullName fd) "miniwasm.tokenfactory.v1.Params.denom_creation_fee" then
    let! v := lift (as_list is_Params_1 value) in assign (v1_Params_set_DenomCreationFee v)
  else
  if String.eqb (FullName fd) "miniwasm.tokenfactory.v1.Params.denom_creation_gas_consume" then
    let! v := lift (as_uint value) in assign (v1_Params_set_DenomCreationGasConsume v)
  else lift (no_field "miniwasm.tokenfactory.v1.Params" fd).

Definition v1_Params_Mutable (fd : FieldDescriptor) : M (option v1_Params) Value :=
  if String.eqb (FullName fd) "miniwasm.tokenfactory.v1.Params.denom_creation_fee" then
    mutable_list v1_Params_DenomCreationFee L_Params_1
  else
  if String.eqb (FullName fd) "miniwasm.tokenfactory.v1.Params.denom_creation_gas_consume" then
    lift (not_mutable "denom_creation_gas_consume" "miniwasm.tokenfactory.v1.Params")
  else lift (no_field "miniwasm.tokenfactory.v1.Params" fd).

Definition v1_Params_NewField (fd : FieldDescriptor) : res Value :=
  if String.eqb (FullName fd) "miniwasm.tokenfactory.v1.Params.denom_creation_fee" then
    Ok (VList (L_Params_1 (Some [])))
  else
  if String.eqb (FullName fd) "miniwasm.tokenfactory.v1.Params.denom_creation_gas_consume" then
    Ok (VUint64 0)
  else no_field "miniwasm.tokenfactory.v1.Params" fd.

Definition v1_Params_WhichOneof (name : string) : res FieldDescriptor := no_oneof "miniwasm.tokenfactory.v1.Params" name.

Definition v1_Params_GetUnknown (x : option v1_Params) : res raw :=
  let? m := pointed x in Ok (v1_Params_unknownFields m).

Definition v1_Params_SetUnknown (fields : raw) : M (option v1_Params) unit := assign (λ m, {|
  v1_Params_DenomCreationFee := v1_Params_DenomCreationFee m;
  v1_Params_DenomCreationGasConsume := v1_Params_DenomCreationGasConsume m;
  v1_Params_unknownFields := fields
|}).

Definition v1_Params_IsValid (x : option v1_Params) : bool := non_nil x.

Definition v1_Params_Reset : M (option v1_Params) unit := assign (λ _, v1_Params_new).

Definition v1_Params_GetDenomCreationFee (x : option v1_Params) : list (option ApiCoin) :=
  match x with Some m => v1_Params_DenomCreationFee m | None => [] end.

Definition v1_Params_GetDenomCreationGasConsume (x : option v1_Params) : Z :=
  match x with Some m => v1_Params_DenomCreationGasConsume m | None => 0 end.

(** ** DenomAuthorityMetadata *)

Definition v1_DenomAuthorityMetadata_fd_Admin : FieldDescriptor := declared "miniwasm.tokenfactory.v1.DenomAuthorityMetadata.admin".

Definition v1_DenomAuthorityMetadata_fields : list (FieldDescriptor * field_kind) :=
  [(v1_DenomAuthorityMetadata_fd_Admin, KString)].

Definition v1_DenomAuthorityMetadata_Range {S} (x : option v1_DenomAuthorityMetadata) (f : FieldDescriptor → Value → M S bool) : M S unit :=
  let! m := lift (pointed x) in
  visit f (non_empty (v1_DenomAuthorityMetadata_Admin m)) v1_DenomAuthorityMetadata_fd_Admin (VString (v1_DenomAuthorityMetadata_Admin m)) (
  ret ()).

Definition v1_DenomAuthorityMetadata_Has (x : option v1_DenomAuthorityMetadata) (fd : FieldDescriptor) : res bool :=
  if String.eqb (FullName fd) "miniwasm.tokenfactory.v1.DenomAuthorityMetadata.admin" then
    let? m := pointed x in Ok (non_empty (v1_DenomAuthorityMetadata_Admin m))
  else no_field "miniwasm.tokenfactory.v1.DenomAuthorityMetadata" fd.

Definition v1_DenomAuthorityMetadata_Clear (fd : FieldDescriptor) : M (option v1_DenomAuthorityMetadata) unit :=
  if String.eqb (FullName fd) "miniwasm.tokenfactory.v1.DenomAuthorityMetadata.admin" then
    assign (v1_DenomAuthorityMetadata_set_Admin "")
  else lift (no_field "miniwasm.tokenfactory.v1.DenomAuthorityMetadata" fd).

Definition v1_DenomAuthorityMetadata_Get (x : option v1_DenomAuthorityMetadata) (fd : FieldDescriptor) : res Value :=
  if String.eqb (FullName fd) "miniwasm.tokenfactory.v1.DenomAuthorityMetadata.admin" then
    let? m := pointed x in Ok (VString (v1_DenomAuthorityMetadata_Admin m))
  else no_field "miniwasm.tokenfactory.v1.DenomAuthorityMetadata" fd.

Definition v1_DenomAuthorityMetadata_Set (fd : FieldDescriptor) (value : Value) : M (option v1_DenomAuthorityMetadata) unit :=
  if String.eqb (FullName fd) "miniwasm.tokenfactory.v1.DenomAuthorityMetadata.admin" then
    let! v := lift (as_string value) in assign (v1_DenomAuthorityMetadata_set_Admin v)
  else lift (no_field "miniwasm.tokenfactory.v1.DenomAuthorityMetadata" fd).

Definition v1_DenomAuthorityMetadata_Mutable (fd : FieldDescriptor) : M (option v1_DenomAuthorityMetadata) Value :=
  if String.eqb (FullName fd) "miniwasm.tokenfactory.v1.DenomAuthorityMetadata.admin" then
    lift (not_mutable "admin" "miniwasm.tokenfactory.v1.DenomAuthorityMetadata")
  else lift (no_field "miniwasm.tokenfactory.v1.DenomAuthorityMetadata" fd).

Definition v1_DenomAuthorityMetadata_NewField (fd : FieldDescriptor) : res Value :=
  if String.eqb (FullName fd) "miniwasm.tokenfactory.v1.DenomAuthorityMetadata.admin" then
    Ok (VString "")
  else no_field "miniwasm.tokenfactory.v1.DenomAuthorityMetadata" fd.

Definition v1_DenomAuthorityMetadata_WhichOneof (name : string) : res FieldDescriptor := no_oneof "miniwasm.tokenfactory.v1.DenomAuthorityMetadata" name.

Definition v1_DenomAuthorityMetadata_GetUnknown (x : option v1_DenomAuthorityMetadata) : res raw :=
  let? m := pointed x in Ok (v1_DenomAuthorityMetadata_unknownFields m).

Definition v1_DenomAuthorityMetadata_SetUnknown (fields : raw) : M (option v1_DenomAuthorityMetadata) unit := assign (λ m, {|
  v1_DenomAuthorityMetadata_Admin := v1_DenomAuthorityMetadata_Admin m;
  v1_DenomAuthorityMetadata_unknownFields := fields
|}).

Definition v1_DenomAuthorityMetadata_IsValid (x : option v1_DenomAuthorityMetadata) : bool := non_nil x.

Definition v1_DenomAuthorityMetadata_Reset : M (option v1_DenomAuthorityMetadata) unit := assign (λ _, v1_DenomAuthorityMetadata_new).

Definition v1_DenomAuthorityMetadata_GetAdmin (x : option v1_DenomAuthorityMetadata) : bytes :=
  match x with Some m => v1_DenomAuthorityMetadata_Admin m | None => "" end.

(** ** GenesisDenom *)

Definition v1_GenesisDenom_fd_Denom : FieldDescriptor := declared "miniwasm.tokenfactory.v1.GenesisDenom.denom".

Definition v1_GenesisDenom_fd_AuthorityMetadata : FieldDescriptor := declared "miniwasm.tokenfactory.v1.GenesisDenom.authority_metadata".

Definition v1_GenesisDenom_fields : list (FieldDescriptor * field_kind) :=
  [(v1_GenesisDenom_fd_Denom, KString);
   (v1_GenesisDenom_fd_AuthorityMetadata, KMessage TDenomAuthorityMetadata)].

Definition v1_GenesisDenom_Range {S} (x : option v1_GenesisDenom) (f : FieldDescriptor → Value → M S bool) : M S unit :=
  let! m := lift (pointed x) in
  visit f (non_empty (v1_GenesisDenom_Denom m)) v1_GenesisDenom_fd_Denom (VString (v1_GenesisDenom_Denom m)) (
  visit f (non_nil (v1_GenesisDenom_AuthorityMetadata m)) v1_GenesisDenom_fd_AuthorityMetadata (VMessage (MDenomAuthorityMetadata (v1_GenesisDenom_AuthorityMetadata m))) (
  ret ())).

Definition v1_GenesisDenom_Has (x : option v1_GenesisDenom) (fd : FieldDescriptor) : res bool :=
  if String.eqb (FullName fd) "miniwasm.tokenfactory.v1.GenesisDenom.denom" then
    let? m := pointed x in Ok (non_empty (v1_GenesisDenom_Denom m))
  else
  if String.eqb (FullName fd) "miniwasm.tokenfactory.v1.GenesisDenom.authority_metadata" then
    let? m := pointed x in Ok (non_nil (v1_GenesisDenom_AuthorityMetadata m))
  else no_field "miniwasm.tokenfactory.v1.GenesisDenom" fd.

Definition v1_GenesisDenom_Clear (fd : FieldDescriptor) : M (option v1_GenesisDenom) unit :=
  if String.eqb (FullName fd) "miniwasm.tokenfactory.v1.GenesisDenom.denom" then
    assign (v1_GenesisDenom_set_Denom "")
  else
  if String.eqb (FullName fd) "miniwasm.tokenfactory.v1.GenesisDenom.authority_metadata" then
    assign (v1_GenesisDenom_set_AuthorityMetadata None)
  else lift (no_field "miniwasm.tokenfactory.v1.GenesisDenom" fd).

Definition v1_GenesisDenom_Get (x : option v1_GenesisDenom) (fd : FieldDescriptor) : res Value :=
  if String.eqb (FullName fd) "miniwasm.tokenfactory.v1.GenesisDenom.denom" then
    let? m := pointed x in Ok (VString (v1_GenesisDenom_Denom m))
  else
  if String.eqb (FullName fd) "miniwasm.tokenfactory.v1.GenesisDenom.authority_metadata" then
    let? m := pointed x in Ok (VMessage (MDenomAuthorityMetadata (v1_GenesisDenom_AuthorityMetadata m)))
  else no_field "miniwasm.tokenfactory.v1.GenesisDenom" fd.

Definition v1_GenesisDenom_Set (fd : FieldDescriptor) (value : Value) : M (option v1_GenesisDenom) unit :=
  if String.eqb (FullName fd) "miniwasm.tokenfactory.v1.GenesisDenom.denom" then
    let! v := lift (as_string value) in assign (v1_GenesisDenom_set_Denom v)
  else
  if String.eqb (FullName fd) "miniwasm.tokenfactory.v1.GenesisDenom.authority_metadata" then
    let! v := lift (as_message is_DenomAuthorityMetadata value) in assign (v1_GenesisDenom_set_AuthorityMetadata v)
  else lift (no_field "miniwasm.tokenfactory.v1.GenesisDenom" fd).

Definition v1_GenesisDenom_Mutable (fd : FieldDescriptor) : M (option v1_GenesisDenom) Value :=
  if String.eqb (FullName fd) "miniwasm.tokenfactory.v1.GenesisDenom.authority_metadata" then
    mutable_message v1_GenesisDenom_AuthorityMetadata v1_GenesisDenom_set_AuthorityMetadata MDenomAuthorityMetadata
  else
  if String.eqb (FullName fd) "miniwasm.tokenfactory.v1.GenesisDenom.denom" then
    lift (not_mutable "denom" "miniwasm.tokenfactory.v1.GenesisDenom")
  else lift (no_field "miniwasm.tokenfactory.v1.GenesisDenom" fd).

Definition v1_GenesisDenom_NewField (fd : FieldDescriptor) : res Value :=
  if String.eqb (FullName fd) "miniwasm.tokenfactory.v1.GenesisDenom.denom" then
    Ok (VString "")
  else
  if String.eqb (FullName fd) "miniwasm.tokenfactory.v1.GenesisDenom.authority_metadata" then
    Ok (VMessage (MDenomAuthorityMetadata (Some proto_new)))
  else no_field "miniwasm.tokenfactory.v1.GenesisDenom" fd.

Definition v1_GenesisDenom_WhichOneof (name : string) : res FieldDescriptor := no_oneof "miniwasm.tokenfactory.v1.GenesisDenom" name.

Definition v1_GenesisDenom_GetUnknown (x : option v1_GenesisDenom) : res raw :=
  let? m := pointed x in Ok (v1_GenesisDenom_unknownFields m).

Definition v1_GenesisDenom_SetUnknown (fields : raw) : M (option v1_GenesisDenom) unit := assign (λ m, {|
  v1_GenesisDenom_Denom := v1_GenesisDenom_Denom m;
  v1_GenesisDenom_AuthorityMetadata := v1_GenesisDenom_AuthorityMetadata m;
  v1_GenesisDenom_unknownFields := fields
|}).

Definition v1_GenesisDenom_IsValid (x : option v1_GenesisDenom) : bool := non_nil x.

Definition v1_GenesisDenom_Reset : M (option v1_GenesisDenom) unit := assign (λ _, v1_GenesisDenom_new).

Definition v1_GenesisDenom_GetDenom (x : option v1_GenesisDenom) : bytes :=
  match x with Some m => v1_GenesisDenom_Denom m | None => "" end.

Definition v1_GenesisDenom_GetAuthorityMetadata (x : option v1_GenesisDenom) : option v1_DenomAuthorityMetadata :=
  match x with Some m => v1_GenesisDenom_AuthorityMetadata m | None => None end.

(** ** GenesisState *)

Definition v1_GenesisState_fd_Params : FieldDescriptor := declared "miniwasm.tokenfactory.v1.GenesisState.params".

Definition v1_GenesisState_fd_FactoryDenoms : FieldDescriptor := declared "miniwasm.tokenfactory.v1.GenesisState.factory_denoms".

Definition v1_GenesisState_fields : list (FieldDescriptor * field_kind) :=
  [(v1_GenesisState_fd_Params, KMessage TParams);
   (v1_GenesisState_fd_FactoryDenoms, KList T_GenesisState_2)].

Definition v1_GenesisState_Range {S} (x : option v1_GenesisState) (f : FieldDescriptor → Value → M S bool) : M S unit :=
  let! m := lift (pointed x) in
  visit f (non_nil (v1_GenesisState_Params m)) v1_GenesisState_fd_Params (VMessage (MParams (v1_GenesisState_Params m))) (
  visit f (has_elements (v1_GenesisState_FactoryDenoms m)) v1_GenesisState_fd_FactoryDenoms (VList (L_GenesisState_2 (Some (v1_GenesisState_FactoryDenoms m)))) (
  ret ())).

Definition v1_GenesisState_Has (x : option v1_GenesisState) (fd : FieldDescriptor) : res bool :=
  if String.eqb (FullName fd) "miniwasm.tokenfactory.v1.GenesisState.params" then
    let? m := pointed x in Ok (non_nil (v1_GenesisState_Params m))
  else
  if String.eqb (FullName fd) "miniwasm.tokenfactory.v1.GenesisState.factory_denoms" then
    let? m := pointed x in Ok (has_elements (v1_GenesisState_FactoryDenoms m))
  else no_field "miniwasm.tokenfactory.v1.GenesisState" fd.

Definition v1_GenesisState_Clear (fd : FieldDescriptor) : M (option v1_GenesisState) unit :=
  if String.eqb (FullName fd) "miniwasm.tokenfactory.v1.GenesisState.params" then
    assign (v1_GenesisState_set_Params None)
  else
  if String.eqb (FullName fd) "miniwasm.tokenfactory.v1.GenesisState.factory_denoms" then
    assign (v1_GenesisState_set_FactoryDenoms [])
  else lift (no_field "miniwasm.tokenfactory.v1.GenesisState" fd).

Definition v1_GenesisState_Get (x : option v1_GenesisState) (fd : FieldDescriptor) : res Value :=
  if String.eqb (FullName fd) "miniwasm.tokenfactory.v1.GenesisState.params" then
    let? m := pointed x in Ok (VMessage (MParams (v1_GenesisState_Params m)))
  else
  if String.eqb (FullName fd) "miniwasm.tokenfactory.v1.GenesisState.factory_denoms" then
    let? m := pointed x in Ok (VList (L_GenesisState_2 (list_view (v1_GenesisState_FactoryDenoms m))))
  else no_field "miniwasm.tokenfactory.v1.GenesisState" fd.

Definition v1_GenesisState_Set (fd : FieldDescriptor) (value : Value) : M (option v1_GenesisState) unit :=
  if String.eqb (FullName fd) "miniwasm.tokenfactory.v1.GenesisState.params" then
    let! v := lift (as_message is_Params value) in assign (v1_GenesisState_set_Params v)
  else
  if String.eqb (FullName fd) "miniwasm.tokenfactory.v1.GenesisState.factory_denoms" then
    let! v := lift (as_list is_GenesisState_2 value) in assign (v1_GenesisState_set_FactoryDenoms v)
  else lift (no_field "miniwasm.tokenfactory.v1.GenesisState" fd).

Definition v1_GenesisState_Mutable (fd : FieldDescriptor) : M (option v1_GenesisState) Value :=
  if String.eqb (FullName fd) "miniwasm.tokenfactory.v1.GenesisState.params" then
    mutable_message v1_GenesisState_Params v1_GenesisState_set_Params MParams
  else
  if String.eqb (FullName fd) "miniwasm.tokenfactory.v1.GenesisState.factory_denoms" then
    mutable_list v1_GenesisState_FactoryDenoms L_GenesisState_2
  else lift (no_field "miniwasm.tokenfactory.v1.GenesisState" fd).

Definition v1_GenesisState_NewField (fd : FieldDescriptor) : res Value :=
  if String.eqb (FullName fd) "miniwasm.tokenfactory.v1.GenesisState.params" then
    Ok (VMessage (MParams (Some proto_new)))
  else
  if String.eqb (FullName fd) "miniwasm.tokenfactory.v1.GenesisState.factory_denoms" then
    Ok (VList (L_GenesisState_2 (Some [])))
  else no_field "miniwasm.tokenfactory.v1.GenesisState" fd.

Definition v1_GenesisState_WhichOneof (name : string) : res FieldDescriptor := no_oneof "miniwasm.tokenfactory.v1.GenesisState" name.

Definition v1_GenesisState_GetUnknown (x : option v1_GenesisState) : res raw :=
  let? m := pointed x in Ok (v1_GenesisState_unknownFields m).

Definition v1_GenesisState_SetUnknown (fields : raw) : M (option v1_GenesisState) unit := assign (λ m, {|
  v1_GenesisState_Params := v1_GenesisState_Params m;
  v1_GenesisState_FactoryDenoms := v1_GenesisState_FactoryDenoms m;
  v1_GenesisState_unknownFields := fields
|}).

Definition v1_GenesisState_IsValid (x : option v1_GenesisState) : bool := non_nil x.

Definition v1_GenesisState_Reset : M (option v1_GenesisState) unit := assign (λ _, v1_GenesisState_new).

Definition v1_GenesisState_GetParams (x : option v1_GenesisState) : option v1_Params :=
  match x with Some m => v1_GenesisState_Params m | None => None end.

Definition v1_GenesisState_GetFactoryDenoms (x : option v1_GenesisState) : list (option v1_GenesisDenom) :=
  match x with Some m => v1_GenesisState_FactoryDenoms m | None => [] end.

(** * The laws *)

Definition v1_Params_reflection : reflection := {|
  r_message := v1_Params; r_name := "miniwasm.tokenfactory.v1.Params"; r_fields := v1_Params_fields;
  r_Range S := v1_Params_Range (S:=S); r_Has := v1_Params_Has; r_Clear := v1_Params_Clear; r_Get := v1_Params_Get;
  r_Set := v1_Params_Set; r_Mutable := v1_Params_Mutable; r_NewField := v1_Params_NewField; r_GetUnknown := v1_Params_GetUnknown
|}.

Lemma v1_Params_lawful : lawful_reflection v1_Params_reflection.
Proof.
  prove_reflection v1_Params_reflection v1_Params_fields v1_Params_Has v1_Params_Clear v1_Params_Get v1_Params_Set v1_Params_Mutable v1_Params_NewField.
Qed.

Definition v1_DenomAuthorityMetadata_reflection : reflection := {|
  r_message := v1_DenomAuthorityMetadata; r_name := "miniwasm.tokenfactory.v1.DenomAuthorityMetadata"; r_fields := v1_DenomAuthorityMetadata_fields;
  r_Range S := v1_DenomAuthorityMetadata_Range (S:=S); r_Has := v1_DenomAuthorityMetadata_Has; r_Clear := v1_DenomAuthorityMetadata_Clear; r_Get := v1_DenomAuthorityMetadata_Get;
  r_Set := v1_DenomAuthorityMetadata_Set; r_Mutable := v1_DenomAuthorityMetadata_Mutable; r_NewField := v1_DenomAuthorityMetadata_NewField; r_GetUnknown := v1_DenomAuthorityMetadata_GetUnknown
|}.

Lemma v1_DenomAuthorityMetadata_lawful : lawful_reflection v1_DenomAuthorityMetadata_reflection.
Proof.
  prove_reflection v1_DenomAuthorityMetadata_reflection v1_DenomAuthorityMetadata_fields v1_DenomAuthorityMetadata_Has v1_DenomAuthorityMetadata_Clear v1_DenomAuthorityMetadata_Get v1_DenomAuthorityMetadata_Set v1_DenomAuthorityMetadata_Mutable v1_DenomAuthorityMetadata_NewField.
Qed.

Definition v1_GenesisDenom_reflection : reflection := {|
  r_message := v1_GenesisDenom; r_name := "miniwasm.tokenfactory.v1.GenesisDenom"; r_fields := v1_GenesisDenom_fields;
  r_Range S := v1_GenesisDenom_Range (S:=S); r_Has := v1_GenesisDenom_Has; r_Clear := v1_GenesisDenom_Clear; r_Get := v1_GenesisDenom_Get;
  r_Set := v1_GenesisDenom_Set; r_Mutable := v1_GenesisDenom_Mutable; r_NewField := v1_GenesisDenom_NewField; r_GetUnknown := v1_GenesisDenom_GetUnknown
|}.

Lemma v1_GenesisDenom_lawful : lawful_reflection v1_GenesisDenom_reflection.
Proof.
  prove_reflection v1_GenesisDenom_reflection v1_GenesisDenom_fields v1_GenesisDenom_Has v1_GenesisDenom_Clear v1_GenesisDenom_Get v1_GenesisDenom_Set v1_GenesisDenom_Mutable v1_GenesisDenom_NewField.
Qed.

Definition v1_GenesisState_reflection : reflection := {|
  r_message := v1_GenesisState; r_name := "miniwasm.tokenfactory.v1.GenesisState"; r_fields := v1_GenesisState_fields;
  r_Range S := v1_GenesisState_Range (S:=S); r_Has := v1_GenesisState_Has; r_Clear := v1_GenesisState_Clear; r_Get := v1_GenesisState_Get;
  r_Set := v1_GenesisState_Set; r_Mutable := v1_GenesisState_Mutable; r_NewField := v1_GenesisState_NewField; r_GetUnknown := v1_GenesisState_GetUnknown
|}.

Lemma v1_GenesisState_lawful : lawful_reflection v1_GenesisState_reflection.
Proof.
  prove_reflection v1_GenesisState_reflection v1_GenesisState_fields v1_GenesisState_Has v1_GenesisState_Clear v1_GenesisState_Get v1_GenesisState_Set v1_GenesisState_Mutable v1_GenesisState_NewField.
Qed.

End messages.
