(* ===== verification/ReflectTx.v ===== *)
(** api/miniwasm/tokenfactory/v1/tx.pulsar.go: the reflection methods of each message, its getters and
    Reset, and the proof that they obey the laws of [Reflect]. *)
From S2P Require Import Prelude.
From S2P Require Import GoJson.
From S2P Require Import Wire.
From S2P Require Import WireRead.
From S2P Require Import ApiState.
From S2P Require Import ApiTx.
From S2P Require Import Reflect.

Section messages.
Context {WR : WireRuntime} {SM : SdkMessages}.

(** ** MsgCreateDenom *)

Definition v1_MsgCreateDenom_fd_Sender : FieldDescriptor := declared "miniwasm.tokenfactory.v1.MsgCreateDenom.sender".

Definition v1_MsgCreateDenom_fd_Subdenom : FieldDescriptor := declared "miniwasm.tokenfactory.v1.MsgCreateDenom.subdenom".

Definition v1_MsgCreateDenom_fields : list (FieldDescriptor * field_kind) :=
  [(v1_MsgCreateDenom_fd_Sender, KString);
   (v1_MsgCreateDenom_fd_Subdenom, KString)].

Definition v1_MsgCreateDenom_Range {S} (x : option v1_MsgCreateDenom) (f : FieldDescriptor → Value → M S bool) : M S unit :=
  let! m := lift (pointed x) in
  visit f (non_empty (v1_MsgCreateDenom_Sender m)) v1_MsgCreateDenom_fd_Sender (VString (v1_MsgCreateDenom_Sender m)) (
  visit f (non_empty (v1_MsgCreateDenom_Subdenom m)) v1_MsgCreateDenom_fd_Subdenom (VString (v1_MsgCreateDenom_Subdenom m)) (
  ret ())).

Definition v1_MsgCreateDenom_Has (x : option v1_MsgCreateDenom) (fd : FieldDescriptor) : res bool :=
  if String.eqb (FullName fd) "miniwasm.tokenfactory.v1.MsgCreateDenom.sender" then
    let? m := pointed x in Ok (non_empty (v1_MsgCreateDenom_Sender m))
  else
  if String.eqb (FullName fd) "miniwasm.tokenfactory.v1.MsgCreateDenom.subdenom" then
    let? m := pointed x in Ok (non_empty (v1_MsgCreateDenom_Subdenom m))
  else no_field "miniwasm.tokenfactory.v1.MsgCreateDenom" fd.

Definition v1_MsgCreateDenom_Clear (fd : FieldDescriptor) : M (option v1_MsgCreateDenom) unit :=
  if String.eqb (FullName fd) "miniwasm.tokenfactory.v1.MsgCreateDenom.sender" then
    assign (v1_MsgCreateDenom_set_Sender "")
  else
  if String.eqb (FullName fd) "miniwasm.tokenfactory.v1.MsgCreateDenom.subdenom" then
    assign (v1_MsgCreateDenom_set_Subdenom "")
  else lift (no_field "miniwasm.tokenfactory.v1.MsgCreateDenom" fd).

Definition v1_MsgCreateDenom_Get (x : option v1_MsgCreateDenom) (fd : FieldDescriptor) : res Value :=
  if String.eqb (FullName fd) "miniwasm.tokenfactory.v1.MsgCreateDenom.sender" then
    let? m := pointed x in Ok (VString (v1_MsgCreateDenom_Sender m))
  else
  if String.eqb (FullName fd) "miniwasm.tokenfactory.v1.MsgCreateDenom.subdenom" then
    let? m := pointed x in Ok (VString (v1_MsgCreateDenom_Subdenom m))
  else no_field "miniwasm.tokenfactory.v1.MsgCreateDenom" fd.

Definition v1_MsgCreateDenom_Set (fd : FieldDescriptor) (value : Value) : M (option v1_MsgCreateDenom) unit :=
  if String.eqb (FullName fd) "miniwasm.tokenfactory.v1.MsgCreateDenom.sender" then
    let! v := lift (as_string value) in assign (v1_MsgCreateDenom_set_Sender v)
  else
  if String.eqb (FullName fd) "miniwasm.tokenfactory.v1.MsgCreateDenom.subdenom" then
    let! v := lift (as_string value) in assign (v1_MsgCreateDenom_set_Subdenom v)
  else lift (no_field "miniwasm.tokenfactory.v1.MsgCreateDenom" fd).

Definition v1_MsgCreateDenom_Mutable (fd : FieldDescriptor) : M (option v1_MsgCreateDenom) Value :=
  if String.eqb (FullName fd) "miniwasm.tokenfactory.v1.MsgCreateDenom.sender" then
    lift (not_mutable "sender" "miniwasm.tokenfactory.v1.MsgCreateDenom")
  else
  if String.eqb (FullName fd) "miniwasm.tokenfactory.v1.MsgCreateDenom.subdenom" then
    lift (not_mutable "subdenom" "miniwasm.tokenfactory.v1.MsgCreateDenom")
  else lift (no_field "miniwasm.tokenfactory.v1.MsgCreateDenom" fd).

Definition v1_MsgCreateDenom_NewField (fd : FieldDescriptor) : res Value :=
  if String.eqb (FullName fd) "miniwasm.tokenfactory.v1.MsgCreateDenom.sender" then
    Ok (VString "")
  else
  if String.eqb (FullName fd) "miniwasm.tokenfactory.v1.MsgCreateDenom.subdenom" then
    Ok (VString "")
  else no_field "miniwasm.tokenfactory.v1.MsgCreateDenom" fd.

Definition v1_MsgCreateDenom_WhichOneof (name : string) : res FieldDescriptor := no_oneof "miniwasm.tokenfactory.v1.MsgCreateDenom" name.

Definition v1_MsgCreateDenom_GetUnknown (x : option v1_MsgCreateDenom) : res raw :=
  let? m := pointed x in Ok (v1_MsgCreateDenom_unknownFields m).

Definition v1_MsgCreateDenom_SetUnknown (fields : raw) : M (option v1_MsgCreateDenom) unit := assign (λ m, {|
  v1_MsgCreateDenom_Sender := v1_MsgCreateDenom_Sender m;
  v1_MsgCreateDenom_Subdenom := v1_MsgCreateDenom_Subdenom m; v1_MsgCreateDenom_unknownFields := fields
|}).

Definition v1_MsgCreateDenom_IsValid (x : option v1_MsgCreateDenom) : bool := non_nil x.

Definition v1_MsgCreateDenom_Reset : M (option v1_MsgCreateDenom) unit := assign (λ _, v1_MsgCreateDenom_new).

Definition v1_MsgCreateDenom_GetSender (x : option v1_MsgCreateDenom) : bytes :=
  match x with Some m => v1_MsgCreateDenom_Sender m | None => "" end.

Definition v1_MsgCreateDenom_GetSubdenom (x : option v1_MsgCreateDenom) : bytes :=
  match x with Some m => v1_MsgCreateDenom_Subdenom m | None => "" end.

(** ** MsgCreateDenomResponse *)

Definition v1_MsgCreateDenomResponse_fd_NewTokenDenom : FieldDescriptor := declared "miniwasm.tokenfactory.v1.MsgCreateDenomResponse.new_token_denom".

Definition v1_MsgCreateDenomResponse_fields : list (FieldDescriptor * field_kind) :=
  [(v1_MsgCreateDenomResponse_fd_NewTokenDenom, KString)].

Definition v1_MsgCreateDenomResponse_Range {S} (x : option v1_MsgCreateDenomResponse) (f : FieldDescriptor → Value → M S bool) : M S unit :=
  let! m := lift (pointed x) in
  visit f (non_empty (v1_MsgCreateDenomResponse_NewTokenDenom m)) v1_MsgCreateDenomResponse_fd_NewTokenDenom (VString (v1_MsgCreateDenomResponse_NewTokenDenom m)) (
  ret ()).

Definition v1_MsgCreateDenomResponse_Has (x : option v1_MsgCreateDenomResponse) (fd : FieldDescriptor) : res bool :=
  if String.eqb (FullName fd) "miniwasm.tokenfactory.v1.MsgCreateDenomResponse.new_token_denom" then
    let? m := pointed x in Ok (non_empty (v1_MsgCreateDenomResponse_NewTokenDenom m))
  else no_field "miniwasm.tokenfactory.v1.MsgCreateDenomResponse" fd.

Definition v1_MsgCreateDenomResponse_Clear (fd : FieldDescriptor) : M (option v1_MsgCreateDenomResponse) unit :=
  if String.eqb (FullName fd) "miniwasm.tokenfactory.v1.MsgCreateDenomResponse.new_token_denom" then
    assign (v1_MsgCreateDenomResponse_set_NewTokenDenom "")
  else lift (no_field "miniwasm.tokenfactory.v1.MsgCreateDenomResponse" fd).

Definition v1_MsgCreateDenomResponse_Get (x : option v1_MsgCreateDenomResponse) (fd : FieldDescriptor) : res Value :=
  if String.eqb (FullName fd) "miniwasm.tokenfactory.v1.MsgCreateDenomResponse.new_token_denom" then
    let? m := pointed x in Ok (VString (v1_MsgCreateDenomResponse_NewTokenDenom m))
  else no_field "miniwasm.tokenfactory.v1.MsgCreateDenomResponse" fd.

Definition v1_MsgCreateDenomResponse_Set (fd : FieldDescriptor) (value : Value) : M (option v1_MsgCreateDenomResponse) unit :=
  if String.eqb (FullName fd) "miniwasm.tokenfactory.v1.MsgCreateDenomResponse.new_token_denom" then
    let! v := lift (as_string value) in assign (v1_MsgCreateDenomResponse_set_NewTokenDenom v)
  else lift (no_field "miniwasm.tokenfactory.v1.MsgCreateDenomResponse" fd).

Definition v1_MsgCreateDenomResponse_Mutable (fd : FieldDescriptor) : M (option v1_MsgCreateDenomResponse) Value :=
  if String.eqb (FullName fd) "miniwasm.tokenfactory.v1.MsgCreateDenomResponse.new_token_denom" then
    lift (not_mutable "new_token_denom" "miniwasm.tokenfactory.v1.MsgCreateDenomResponse")
  else lift (no_field "miniwasm.tokenfactory.v1.MsgCreateDenomResponse" fd).

Definition v1_MsgCreateDenomResponse_NewField (fd : FieldDescriptor) : res Value :=
  if String.eqb (FullName fd) "miniwasm.tokenfactory.v1.MsgCreateDenomResponse.new_token_denom" then
    Ok (VString "")
  else no_field "miniwasm.tokenfactory.v1.MsgCreateDenomResponse" fd.

Definition v1_MsgCreateDenomResponse_WhichOneof (name : string) : res FieldDescriptor := no_oneof "miniwasm.tokenfactory.v1.MsgCreateDenomResponse" name.

Definition v1_MsgCreateDenomResponse_GetUnknown (x : option v1_MsgCreateDenomResponse) : res raw :=
  let? m := pointed x in Ok (v1_MsgCreateDenomResponse_unknownFields m).

Definition v1_MsgCreateDenomResponse_SetUnknown (fields : raw) : M (option v1_MsgCreateDenomResponse) unit := assign (λ m, {|
  v1_MsgCreateDenomResponse_NewTokenDenom := v1_MsgCreateDenomResponse_NewTokenDenom m;
  v1_MsgCreateDenomResponse_unknownFields := fields
|}).

Definition v1_MsgCreateDenomResponse_IsValid (x : option v1_MsgCreateDenomResponse) : bool := non_nil x.

Definition v1_MsgCreateDenomResponse_Reset : M (option v1_MsgCreateDenomResponse) unit := assign (λ _, v1_MsgCreateDenomResponse_new).

Definition v1_MsgCreateDenomResponse_GetNewTokenDenom (x : option v1_MsgCreateDenomResponse) : bytes :=
  match x with Some m => v1_MsgCreateDenomResponse_NewTokenDenom m | None => "" end.

(** ** MsgMint *)

Definition v1_MsgMint_fd_Sender : FieldDescriptor := declared "miniwasm.tokenfactory.v1.MsgMint.sender".

Definition v1_MsgMint_fd_Amount : FieldDescriptor := declared "miniwasm.tokenfactory.v1.MsgMint.amount".

Definition v1_MsgMint_fd_MintToAddress : FieldDescriptor := declared "miniwasm.tokenfactory.v1.MsgMint.mint_to_address".

Definition v1_MsgMint_fields : list (FieldDescriptor * field_kind) :=
  [(v1_MsgMint_fd_Sender, KString);
   (v1_MsgMint_fd_Amount, KMessage TCoin);
   (v1_MsgMint_fd_MintToAddress, KString)].

Definition v1_MsgMint_Range {S} (x : option v1_MsgMint) (f : FieldDescriptor → Value → M S bool) : M S unit :=
  let! m := lift (pointed x) in
  visit f (non_empty (v1_MsgMint_Sender m)) v1_MsgMint_fd_Sender (VString (v1_MsgMint_Sender m)) (
  visit f (non_nil (v1_MsgMint_Amount m)) v1_MsgMint_fd_Amount (VMessage (MCoin (v1_MsgMint_Amount m))) (
  visit f (non_empty (v1_MsgMint_MintToAddress m)) v1_MsgMint_fd_MintToAddress (VString (v1_MsgMint_MintToAddress m)) (
  ret ()))).

Definition v1_MsgMint_Has (x : option v1_MsgMint) (fd : FieldDescriptor) : res bool :=
  if String.eqb (FullName fd) "miniwasm.tokenfactory.v1.MsgMint.sender" then
    let? m := pointed x in Ok (non_empty (v1_MsgMint_Sender m))
  else
  if String.eqb (FullName fd) "miniwasm.tokenfactory.v1.MsgMint.amount" then
    let? m := pointed x in Ok (non_nil (v1_MsgMint_Amount m))
  else
  if String.eqb (FullName fd) "miniwasm.tokenfactory.v1.MsgMint.mint_to_address" then
    let? m := pointed x in Ok (non_empty (v1_MsgMint_MintToAddress m))
  else no_field "miniwasm.tokenfactory.v1.MsgMint" fd.

Definition v1_MsgMint_Clear (fd : FieldDescriptor) : M (option v1_MsgMint) unit :=
  if String.eqb (FullName fd) "miniwasm.tokenfactory.v1.MsgMint.sender" then
    assign (v1_MsgMint_set_Sender "")
  else
  if String.eqb (FullName fd) "miniwasm.tokenfactory.v1.MsgMint.amount" then
    assign (v1_MsgMint_set_Amount None)
  else
  if String.eqb (FullName fd) "miniwasm.tokenfactory.v1.MsgMint.mint_to_address" then
    assign (v1_MsgMint_set_MintToAddress "")
  else lift (no_field "miniwasm.tokenfactory.v1.MsgMint" fd).

Definition v1_MsgMint_Get (x : option v1_MsgMint) (fd : FieldDescriptor) : res Value :=
  if String.eqb (FullName fd) "miniwasm.tokenfactory.v1.MsgMint.sender" then
    let? m := pointed x in Ok (VString (v1_MsgMint_Sender m))
  else
  if String.eqb (FullName fd) "miniwasm.tokenfactory.v1.MsgMint.amount" then
    let? m := pointed x in Ok (VMessage (MCoin (v1_MsgMint_Amount m)))
  else
  if String.eqb (FullName fd) "miniwasm.tokenfactory.v1.MsgMint.mint_to_address" then
    let? m := pointed x in Ok (VString (v1_MsgMint_MintToAddress m))
  else no_field "miniwasm.tokenfactory.v1.MsgMint" fd.

Definition v1_MsgMint_Set (fd : FieldDescriptor) (value : Value) : M (option v1_MsgMint) unit :=
  if String.eqb (FullName fd) "miniwasm.tokenfactory.v1.MsgMint.sender" then
    let! v := lift (as_string value) in assign (v1_MsgMint_set_Sender v)
  else
  if String.eqb (FullName fd) "miniwasm.tokenfactory.v1.MsgMint.amount" then
    let! v := lift (as_message is_Coin value) in assign (v1_MsgMint_set_Amount v)
  else
  if String.eqb (FullName fd) "miniwasm.tokenfactory.v1.MsgMint.mint_to_address" then
    let! v := lift (as_string value) in assign (v1_MsgMint_set_MintToAddress v)
  else lift (no_field "miniwasm.tokenfactory.v1.MsgMint" fd).

Definition v1_MsgMint_Mutable (fd : FieldDescriptor) : M (option v1_MsgMint) Value :=
  if String.eqb (FullName fd) "miniwasm.tokenfactory.v1.MsgMint.amount" then
    mutable_message v1_MsgMint_Amount v1_MsgMint_set_Amount MCoin
  else
  if String.eqb (FullName fd) "miniwasm.tokenfactory.v1.MsgMint.sender" then
    lift (not_mutable "sender" "miniwasm.tokenfactory.v1.MsgMint")
  else
  if String.eqb (FullName fd) "miniwasm.tokenfactory.v1.MsgMint.mint_to_address" then
    lift (not_mutable "mint_to_address" "miniwasm.tokenfactory.v1.MsgMint")
  else lift (no_field "miniwasm.tokenfactory.v1.MsgMint" fd).

Definition v1_MsgMint_NewField (fd : FieldDescriptor) : res Value :=
  if String.eqb (FullName fd) "miniwasm.tokenfactory.v1.MsgMint.sender" then
    Ok (VString "")
  else
  if String.eqb (FullName fd) "miniwasm.tokenfactory.v1.MsgMint.amount" then
    Ok (VMessage (MCoin (Some proto_new)))
  else
  if String.eqb (FullName fd) "miniwasm.tokenfactory.v1.MsgMint.mint_to_address" then
    Ok (VString "")
  else no_field "miniwasm.tokenfactory.v1.MsgMint" fd.

Definition v1_MsgMint_WhichOneof (name : string) : res FieldDescriptor := no_oneof "miniwasm.tokenfactory.v1.MsgMint" name.

Definition v1_MsgMint_GetUnknown (x : option v1_MsgMint) : res raw :=
  let? m := pointed x in Ok (v1_MsgMint_unknownFields m).

Definition v1_MsgMint_SetUnknown (fields : raw) : M (option v1_MsgMint) unit := assign (λ m, {|
  v1_MsgMint_Sender := v1_MsgMint_Sender m; v1_MsgMint_Amount := v1_MsgMint_Amount m;
  v1_MsgMint_MintToAddress := v1_MsgMint_MintToAddress m; v1_MsgMint_unknownFields := fields
|}).

Definition v1_MsgMint_IsValid (x : option v1_MsgMint) : bool := non_nil x.

Definition v1_MsgMint_Reset : M (option v1_MsgMint) unit := assign (λ _, v1_MsgMint_new).

Definition v1_MsgMint_GetSender (x : option v1_MsgMint) : bytes :=
  match x with Some m => v1_MsgMint_Sender m | None => "" end.

Definition v1_MsgMint_GetAmount (x : option v1_MsgMint) : option ApiCoin :=
  match x with Some m => v1_MsgMint_Amount m | None => None end.

Definition v1_MsgMint_GetMintToAddress (x : option v1_MsgMint) : bytes :=
  match x with Some m => v1_MsgMint_MintToAddress m | None => "" end.

(** ** MsgMintResponse *)

Definition v1_MsgMintResponse_fields : list (FieldDescriptor * field_kind) :=
  [].

Definition v1_MsgMintResponse_Range {S} (x : option v1_MsgMintResponse) (f : FieldDescriptor → Value → M S bool) : M S unit := ret ().

Definition v1_MsgMintResponse_Has (x : option v1_MsgMintResponse) (fd : FieldDescriptor) : res bool :=
  no_field "miniwasm.tokenfactory.v1.MsgMintResponse" fd.

Definition v1_MsgMintResponse_Clear (fd : FieldDescriptor) : M (option v1_MsgMintResponse) unit :=
  lift (no_field "miniwasm.tokenfactory.v1.MsgMintResponse" fd).

Definition v1_MsgMintResponse_Get (x : option v1_MsgMintResponse) (fd : FieldDescriptor) : res Value :=
  no_field "miniwasm.tokenfactory.v1.MsgMintResponse" fd.

Definition v1_MsgMintResponse_Set (fd : FieldDescriptor) (value : Value) : M (option v1_MsgMintResponse) unit :=
  lift (no_field "miniwasm.tokenfactory.v1.MsgMintResponse" fd).

Definition v1_MsgMintResponse_Mutable (fd : FieldDescriptor) : M (option v1_MsgMintResponse) Value :=
  lift (no_field "miniwasm.tokenfactory.v1.MsgMintResponse" fd).

Definition v1_MsgMintResponse_NewField (fd : FieldDescriptor) : res Value :=
  no_field "miniwasm.tokenfactory.v1.MsgMintResponse" fd.

Definition v1_MsgMintResponse_WhichOneof (name : string) : res FieldDescriptor := no_oneof "miniwasm.tokenfactory.v1.MsgMintResponse" name.

Definition v1_MsgMintResponse_GetUnknown (x : option v1_MsgMintResponse) : res raw :=
  let? m := pointed x in Ok (v1_MsgMintResponse_unknownFields m).

Definition v1_MsgMintResponse_SetUnknown (fields : raw) : M (option v1_MsgMintResponse) unit := assign (λ m, {|
  v1_MsgMintResponse_unknownFields := fields
|}).

Definition v1_MsgMintResponse_IsValid (x : option v1_MsgMintResponse) : bool := non_nil x.

Definition v1_MsgMintResponse_Reset : M (option v1_MsgMintResponse) unit := assign (λ _, v1_MsgMintResponse_new).

(** ** MsgBurn *)

Definition v1_MsgBurn_fd_Sender : FieldDescriptor := declared "miniwasm.tokenfactory.v1.MsgBurn.sender".

Definition v1_MsgBurn_fd_Amount : FieldDescriptor := declared "miniwasm.tokenfactory.v1.MsgBurn.amount".

Definition v1_MsgBurn_fields : list (FieldDescriptor * field_kind) :=
  [(v1_MsgBurn_fd_Sender, KString);
   (v1_MsgBurn_fd_Amount, KMessage TCoin)].

Definition v1_MsgBurn_Range {S} (x : option v1_MsgBurn) (f : FieldDescriptor → Value → M S bool) : M S unit :=
  let! m := lift (pointed x) in
  visit f (non_empty (v1_MsgBurn_Sender m)) v1_MsgBurn_fd_Sender (VString (v1_MsgBurn_Sender m)) (
  visit f (non_nil (v1_MsgBurn_Amount m)) v1_MsgBurn_fd_Amount (VMessage (MCoin (v1_MsgBurn_Amount m))) (
  ret ())).

Definition v1_MsgBurn_Has (x : option v1_MsgBurn) (fd : FieldDescriptor) : res bool :=
  if String.eqb (FullName fd) "miniwasm.tokenfactory.v1.MsgBurn.sender" then
    let? m := pointed x in Ok (non_empty (v1_MsgBurn_Sender m))
  else
  if String.eqb (FullName fd) "miniwasm.tokenfactory.v1.MsgBurn.amount" then
    let? m := pointed x in Ok (non_nil (v1_MsgBurn_Amount m))
  else no_field "miniwasm.tokenfactory.v1.MsgBurn" fd.

Definition v1_MsgBurn_Clear (fd : FieldDescriptor) : M (option v1_MsgBurn) unit :=
  if String.eqb (FullName fd) "miniwasm.tokenfactory.v1.MsgBurn.sender" then
    assign (v1_MsgBurn_set_Sender "")
  else
  if String.eqb (FullName fd) "miniwasm.tokenfactory.v1.MsgBurn.amount" then
    assign (v1_MsgBurn_set_Amount None)
  else lift (no_field "miniwasm.tokenfactory.v1.MsgBurn" fd).

Definition v1_MsgBurn_Get (x : option v1_MsgBurn) (fd : FieldDescriptor) : res Value :=
  if String.eqb (FullName fd) "miniwasm.tokenfactory.v1.MsgBurn.sender" then
    let? m := pointed x in Ok (VString (v1_MsgBurn_Sender m))
  else
  if String.eqb (FullName fd) "miniwasm.tokenfactory.v1.MsgBurn.amount" then
    let? m := pointed x in Ok (VMessage (MCoin (v1_MsgBurn_Amount m)))
  else no_field "miniwasm.tokenfactory.v1.MsgBurn" fd.

Definition v1_MsgBurn_Set (fd : FieldDescriptor) (value : Value) : M (option v1_MsgBurn) unit :=
  if String.eqb (FullName fd) "miniwasm.tokenfactory.v1.MsgBurn.sender" then
    let! v := lift (as_string value) in assign (v1_MsgBurn_set_Sender v)
  else
  if String.eqb (FullName fd) "miniwasm.tokenfactory.v1.MsgBurn.amount" then
    let! v := lift (as_message is_Coin value) in assign (v1_MsgBurn_set_Amount v)
  else lift (no_field "miniwasm.tokenfactory.v1.MsgBurn" fd).

Definition v1_MsgBurn_Mutable (fd : FieldDescriptor) : M (option v1_MsgBurn) Value :=
  if String.eqb (FullName fd) "miniwasm.tokenfactory.v1.MsgBurn.amount" then
    mutable_message v1_MsgBurn_Amount v1_MsgBurn_set_Amount MCoin
  else
  if String.eqb (FullName fd) "miniwasm.tokenfactory.v1.MsgBurn.sender" then
    lift (not_mutable "sender" "miniwasm.tokenfactory.v1.MsgBurn")
  else lift (no_field "miniwasm.tokenfactory.v1.MsgBurn" fd).

Definition v1_MsgBurn_NewField (fd : FieldDescriptor) : res Value :=
  if String.eqb (FullName fd) "miniwasm.tokenfactory.v1.MsgBurn.sender" then
    Ok (VString "")
  else
  if String.eqb (FullName fd) "miniwasm.tokenfactory.v1.MsgBurn.amount" then
    Ok (VMessage (MCoin (Some proto_new)))
  else no_field "miniwasm.tokenfactory.v1.MsgBurn" fd.

Definition v1_MsgBurn_WhichOneof (name : string) : res FieldDescriptor := no_oneof "miniwasm.tokenfactory.v1.MsgBurn" name.

Definition v1_MsgBurn_GetUnknown (x : option v1_MsgBurn) : res raw :=
  let? m := pointed x in Ok (v1_MsgBurn_unknownFields m).

Definition v1_MsgBurn_SetUnknown (fields : raw) : M (option v1_MsgBurn) unit := assign (λ m, {|
  v1_MsgBurn_Sender := v1_MsgBurn_Sender m; v1_MsgBurn_Amount := v1_MsgBurn_Amount m;
  v1_MsgBurn_unknownFields := fields
|}).

Definition v1_MsgBurn_IsValid (x : option v1_MsgBurn) : bool := non_nil x.

Definition v1_MsgBurn_Reset : M (option v1_MsgBurn) unit := assign (λ _, v1_MsgBurn_new).

Definition v1_MsgBurn_GetSender (x : option v1_MsgBurn) : bytes :=
  match x with Some m => v1_MsgBurn_Sender m | None => "" end.

Definition v1_MsgBurn_GetAmount (x : option v1_MsgBurn) : option ApiCoin :=
  match x with Some m => v1_MsgBurn_Amount m | None => None end.

(** ** MsgBurnResponse *)

Definition v1_MsgBurnResponse_fields : list (FieldDescriptor * field_kind) :=
  [].

Definition v1_MsgBurnResponse_Range {S} (x : option v1_MsgBurnResponse) (f : FieldDescriptor → Value → M S bool) : M S unit := ret ().

Definition v1_MsgBurnResponse_Has (x : option v1_MsgBurnResponse) (fd : FieldDescriptor) : res bool :=
  no_field "miniwasm.tokenfactory.v1.MsgBurnResponse" fd.

Definition v1_MsgBurnResponse_Clear (fd : FieldDescriptor) : M (option v1_MsgBurnResponse) unit :=
  lift (no_field "miniwasm.tokenfactory.v1.MsgBurnResponse" fd).

Definition v1_MsgBurnResponse_Get (x : option v1_MsgBurnResponse) (fd : FieldDescriptor) : res Value :=
  no_field "miniwasm.tokenfactory.v1.MsgBurnResponse" fd.

Definition v1_MsgBurnResponse_Set (fd : FieldDescriptor) (value : Value) : M (option v1_MsgBurnResponse) unit :=
  lift (no_field "miniwasm.tokenfactory.v1.MsgBurnResponse" fd).

Definition v1_MsgBurnResponse_Mutable (fd : FieldDescriptor) : M (option v1_MsgBurnResponse) Value :=
  lift (no_field "miniwasm.tokenfactory.v1.MsgBurnResponse" fd).

Definition v1_MsgBurnResponse_NewField (fd : FieldDescriptor) : res Value :=
  no_field "miniwasm.tokenfactory.v1.MsgBurnResponse" fd.

Definition v1_MsgBurnResponse_WhichOneof (name : string) : res FieldDescriptor := no_oneof "miniwasm.tokenfactory.v1.MsgBurnResponse" name.

Definition v1_MsgBurnResponse_GetUnknown (x : option v1_MsgBurnResponse) : res raw :=
  let? m := pointed x in Ok (v1_MsgBurnResponse_unknownFields m).

Definition v1_MsgBurnResponse_SetUnknown (fields : raw) : M (option v1_MsgBurnResponse) unit := assign (λ m, {|
  v1_MsgBurnResponse_unknownFields := fields
|}).

Definition v1_MsgBurnResponse_IsValid (x : option v1_MsgBurnResponse) : bool := non_nil x.

Definition v1_MsgBurnResponse_Reset : M (option v1_MsgBurnResponse) unit := assign (λ _, v1_MsgBurnResponse_new).

(** ** MsgChangeAdmin *)

Definition v1_MsgChangeAdmin_fd_Sender : FieldDescriptor := declared "miniwasm.tokenfactory.v1.MsgChangeAdmin.sender".

Definition v1_MsgChangeAdmin_fd_Denom : FieldDescriptor := declared "miniwasm.tokenfactory.v1.MsgChangeAdmin.denom".

Definition v1_MsgChangeAdmin_fd_NewAdmin : FieldDescriptor := declared "miniwasm.tokenfactory.v1.MsgChangeAdmin.new_admin".

Definition v1_MsgChangeAdmin_fields : list (FieldDescriptor * field_kind) :=
  [(v1_MsgChangeAdmin_fd_Sender, KString);
   (v1_MsgChangeAdmin_fd_Denom, KString);
   (v1_MsgChangeAdmin_fd_NewAdmin, KString)].

Definition v1_MsgChangeAdmin_Range {S} (x : option v1_MsgChangeAdmin) (f : FieldDescriptor → Value → M S bool) : M S unit :=
  let! m := lift (pointed x) in
  visit f (non_empty (v1_MsgChangeAdmin_Sender m)) v1_MsgChangeAdmin_fd_Sender (VString (v1_MsgChangeAdmin_Sender m)) (
  visit f (non_empty (v1_MsgChangeAdmin_Denom m)) v1_MsgChangeAdmin_fd_Denom (VString (v1_MsgChangeAdmin_Denom m)) (
  visit f (non_empty (v1_MsgChangeAdmin_NewAdmin m)) v1_MsgChangeAdmin_fd_NewAdmin (VString (v1_MsgChangeAdmin_NewAdmin m)) (
  ret ()))).

Definition v1_MsgChangeAdmin_Has (x : option v1_MsgChangeAdmin) (fd : FieldDescriptor) : res bool :=
  if String.eqb (FullName fd) "miniwasm.tokenfactory.v1.MsgChangeAdmin.sender" then
    let? m := pointed x in Ok (non_empty (v1_MsgChangeAdmin_Sender m))
  else
  if String.eqb (FullName fd) "miniwasm.tokenfactory.v1.MsgChangeAdmin.denom" then
    let? m := pointed x in Ok (non_empty (v1_MsgChangeAdmin_Denom m))
  else
  if String.eqb (FullName fd) "miniwasm.tokenfactory.v1.MsgChangeAdmin.new_admin" then
    let? m := pointed x in Ok (non_empty (v1_MsgChangeAdmin_NewAdmin m))
  else no_field "miniwasm.tokenfactory.v1.MsgChangeAdmin" fd.

Definition v1_MsgChangeAdmin_Clear (fd : FieldDescriptor) : M (option v1_MsgChangeAdmin) unit :=
  if String.eqb (FullName fd) "miniwasm.tokenfactory.v1.MsgChangeAdmin.sender" then
    assign (v1_MsgChangeAdmin_set_Sender "")
  else
  if String.eqb (FullName fd) "miniwasm.tokenfactory.v1.MsgChangeAdmin.denom" then
    assign (v1_MsgChangeAdmin_set_Denom "")
  else
  if String.eqb (FullName fd) "miniwasm.tokenfactory.v1.MsgChangeAdmin.new_admin" then
    assign (v1_MsgChangeAdmin_set_NewAdmin "")
  else lift (no_field "miniwasm.tokenfactory.v1.MsgChangeAdmin" fd).

Definition v1_MsgChangeAdmin_Get (x : option v1_MsgChangeAdmin) (fd : FieldDescriptor) : res Value :=
  if String.eqb (FullName fd) "miniwasm.tokenfactory.v1.MsgChangeAdmin.sender" then
    let? m := pointed x in Ok (VString (v1_MsgChangeAdmin_Sender m))
  else
  if String.eqb (FullName fd) "miniwasm.tokenfactory.v1.MsgChangeAdmin.denom" then
    let? m := pointed x in Ok (VString (v1_MsgChangeAdmin_Denom m))
  else
  if String.eqb (FullName fd) "miniwasm.tokenfactory.v1.MsgChangeAdmin.new_admin" then
    let? m := pointed x in Ok (VString (v1_MsgChangeAdmin_NewAdmin m))
  else no_field "miniwasm.tokenfactory.v1.MsgChangeAdmin" fd.

Definition v1_MsgChangeAdmin_Set (fd : FieldDescriptor) (value : Value) : M (option v1_MsgChangeAdmin) unit :=
  if String.eqb (FullName fd) "miniwasm.tokenfactory.v1.MsgChangeAdmin.sender" then
    let! v := lift (as_string value) in assign (v1_MsgChangeAdmin_set_Sender v)
  else
  if String.eqb (FullName fd) "miniwasm.tokenfactory.v1.MsgChangeAdmin.denom" then
    let! v := lift (as_string value) in assign (v1_MsgChangeAdmin_set_Denom v)
  else
  if String.eqb (FullName fd) "miniwasm.tokenfactory.v1.MsgChangeAdmin.new_admin" then
    let! v := lift (as_string value) in assign (v1_MsgChangeAdmin_set_NewAdmin v)
  else lift (no_field "miniwasm.tokenfactory.v1.MsgChangeAdmin" fd).

Definition v1_MsgChangeAdmin_Mutable (fd : FieldDescriptor) : M (option v1_MsgChangeAdmin) Value :=
  if String.eqb (FullName fd) "miniwasm.tokenfactory.v1.MsgChangeAdmin.sender" then
    lift (not_mutable "sender" "miniwasm.tokenfactory.v1.MsgChangeAdmin")
  else
  if String.eqb (FullName fd) "miniwasm.tokenfactory.v1.MsgChangeAdmin.denom" then
    lift (not_mutable "denom" "miniwasm.tokenfactory.v1.MsgChangeAdmin")
  else
  if String.eqb (FullName fd) "miniwasm.tokenfactory.v1.MsgChangeAdmin.new_admin" then
    lift (not_mutable "new_admin" "miniwasm.tokenfactory.v1.MsgChangeAdmin")
  else lift (no_field "miniwasm.tokenfactory.v1.MsgChangeAdmin" fd).

Definition v1_MsgChangeAdmin_NewField (fd : FieldDescriptor) : res Value :=
  if String.eqb (FullName fd) "miniwasm.tokenfactory.v1.MsgChangeAdmin.sender" then
    Ok (VString "")
  else
  if String.eqb (FullName fd) "miniwasm.tokenfactory.v1.MsgChangeAdmin.denom" then
    Ok (VString "")
  else
  if String.eqb (FullName fd) "miniwasm.tokenfactory.v1.MsgChangeAdmin.new_admin" then
    Ok (VString "")
  else no_field "miniwasm.tokenfactory.v1.MsgChangeAdmin" fd.

Definition v1_MsgChangeAdmin_WhichOneof (name : string) : res FieldDescriptor := no_oneof "miniwasm.tokenfactory.v1.MsgChangeAdmin" name.

Definition v1_MsgChangeAdmin_GetUnknown (x : option v1_MsgChangeAdmin) : res raw :=
  let? m := pointed x in Ok (v1_MsgChangeAdmin_unknownFields m).

Definition v1_MsgChangeAdmin_SetUnknown (fields : raw) : M (option v1_MsgChangeAdmin) unit := assign (λ m, {|
  v1_MsgChangeAdmin_Sender := v1_MsgChangeAdmin_Sender m;
  v1_MsgChangeAdmin_Denom := v1_MsgChangeAdmin_Denom m;
  v1_MsgChangeAdmin_NewAdmin := v1_MsgChangeAdmin_NewAdmin m; v1_MsgChangeAdmin_unknownFields := fields
|}).

Definition v1_MsgChangeAdmin_IsValid (x : option v1_MsgChangeAdmin) : bool := non_nil x.

Definition v1_MsgChangeAdmin_Reset : M (option v1_MsgChangeAdmin) unit := assign (λ _, v1_MsgChangeAdmin_new).

Definition v1_MsgChangeAdmin_GetSender (x : option v1_MsgChangeAdmin) : bytes :=
  match x with Some m => v1_MsgChangeAdmin_Sender m | None => "" end.

Definition v1_MsgChangeAdmin_GetDenom (x : option v1_MsgChangeAdmin) : bytes :=
  match x with Some m => v1_MsgChangeAdmin_Denom m | None => "" end.

Definition v1_MsgChangeAdmin_GetNewAdmin (x : option v1_MsgChangeAdmin) : bytes :=
  match x with Some m => v1_MsgChangeAdmin_NewAdmin m | None => "" end.

(** ** MsgChangeAdminResponse *)

Definition v1_MsgChangeAdminResponse_fields : list (FieldDescriptor * field_kind) :=
  [].

Definition v1_MsgChangeAdminResponse_Range {S} (x : option v1_MsgChangeAdminResponse) (f : FieldDescriptor → Value → M S bool) : M S unit := ret ().

Definition v1_MsgChangeAdminResponse_Has (x : option v1_MsgChangeAdminResponse) (fd : FieldDescriptor) : res bool :=
  no_field "miniwasm.tokenfactory.v1.MsgChangeAdminResponse" fd.

Definition v1_MsgChangeAdminResponse_Clear (fd : FieldDescriptor) : M (option v1_MsgChangeAdminResponse) unit :=
  lift (no_field "miniwasm.tokenfactory.v1.MsgChangeAdminResponse" fd).

Definition v1_MsgChangeAdminResponse_Get (x : option v1_MsgChangeAdminResponse) (fd : FieldDescriptor) : res Value :=
  no_field "miniwasm.tokenfactory.v1.MsgChangeAdminResponse" fd.

Definition v1_MsgChangeAdminResponse_Set (fd : FieldDescriptor) (value : Value) : M (option v1_MsgChangeAdminResponse) unit :=
  lift (no_field "miniwasm.tokenfactory.v1.MsgChangeAdminResponse" fd).

Definition v1_MsgChangeAdminResponse_Mutable (fd : FieldDescriptor) : M (option v1_MsgChangeAdminResponse) Value :=
  lift (no_field "miniwasm.tokenfactory.v1.MsgChangeAdminResponse" fd).

Definition v1_MsgChangeAdminResponse_NewField (fd : FieldDescriptor) : res Value :=
  no_field "miniwasm.tokenfactory.v1.MsgChangeAdminResponse" fd.

Definition v1_MsgChangeAdminResponse_WhichOneof (name : string) : res FieldDescriptor := no_oneof "miniwasm.tokenfactory.v1.MsgChangeAdminResponse" name.

Definition v1_MsgChangeAdminResponse_GetUnknown (x : option v1_MsgChangeAdminResponse) : res raw :=
  let? m := pointed x in Ok (v1_MsgChangeAdminResponse_unknownFields m).

Definition v1_MsgChangeAdminResponse_SetUnknown (fields : raw) : M (option v1_MsgChangeAdminResponse) unit := assign (λ m, {|
  v1_MsgChangeAdminResponse_unknownFields := fields
|}).

Definition v1_MsgChangeAdminResponse_IsValid (x : option v1_MsgChangeAdminResponse) : bool := non_nil x.

Definition v1_MsgChangeAdminResponse_Reset : M (option v1_MsgChangeAdminResponse) unit := assign (λ _, v1_MsgChangeAdminResponse_new).

(** ** MsgSetBeforeSendHook *)

Definition v1_MsgSetBeforeSendHook_fd_Sender : FieldDescriptor := declared "miniwasm.tokenfactory.v1.MsgSetBeforeSendHook.sender".

Definition v1_MsgSetBeforeSendHook_fd_Denom : FieldDescriptor := declared "miniwasm.tokenfactory.v1.MsgSetBeforeSendHook.denom".

Definition v1_MsgSetBeforeSendHook_fd_CosmwasmAddress : FieldDescriptor := declared "miniwasm.tokenfactory.v1.MsgSetBeforeSendHook.cosmwasm_address".

Definition v1_MsgSetBeforeSendHook_fields : list (FieldDescriptor * field_kind) :=
  [(v1_MsgSetBeforeSendHook_fd_Sender, KString);
   (v1_MsgSetBeforeSendHook_fd_Denom, KString);
   (v1_MsgSetBeforeSendHook_fd_CosmwasmAddress, KString)].

Definition v1_MsgSetBeforeSendHook_Range {S} (x : option v1_MsgSetBeforeSendHook) (f : FieldDescriptor → Value → M S bool) : M S unit :=
  let! m := lift (pointed x) in
  visit f (non_empty (v1_MsgSetBeforeSendHook_Sender m)) v1_MsgSetBeforeSendHook_fd_Sender (VString (v1_MsgSetBeforeSendHook_Sender m)) (
  visit f (non_empty (v1_MsgSetBeforeSendHook_Denom m)) v1_MsgSetBeforeSendHook_fd_Denom (VString (v1_MsgSetBeforeSendHook_Denom m)) (
  visit f (non_empty (v1_MsgSetBeforeSendHook_CosmwasmAddress m)) v1_MsgSetBeforeSendHook_fd_CosmwasmAddress (VString (v1_MsgSetBeforeSendHook_CosmwasmAddress m)) (
  ret ()))).

Definition v1_MsgSetBeforeSendHook_Has (x : option v1_MsgSetBeforeSendHook) (fd : FieldDescriptor) : res bool :=
  if String.eqb (FullName fd) "miniwasm.tokenfactory.v1.MsgSetBeforeSendHook.sender" then
    let? m := pointed x in Ok (non_empty (v1_MsgSetBeforeSendHook_Sender m))
  else
  if String.eqb (FullName fd) "miniwasm.tokenfactory.v1.MsgSetBeforeSendHook.denom" then
    let? m := pointed x in Ok (non_empty (v1_MsgSetBeforeSendHook_Denom m))
  else
  if String.eqb (FullName fd) "miniwasm.tokenfactory.v1.MsgSetBeforeSendHook.cosmwasm_address" then
    let? m := pointed x in Ok (non_empty (v1_MsgSetBeforeSendHook_CosmwasmAddress m))
  else no_field "miniwasm.tokenfactory.v1.MsgSetBeforeSendHook" fd.

Definition v1_MsgSetBeforeSendHook_Clear (fd : FieldDescriptor) : M (option v1_MsgSetBeforeSendHook) unit :=
  if String.eqb (FullName fd) "miniwasm.tokenfactory.v1.MsgSetBeforeSendHook.sender" then
    assign (v1_MsgSetBeforeSendHook_set_Sender "")
  else
  if String.eqb (FullName fd) "miniwasm.tokenfactory.v1.MsgSetBeforeSendHook.denom" then
    assign (v1_MsgSetBeforeSendHook_set_Denom "")
  else
  if String.eqb (FullName fd) "miniwasm.tokenfactory.v1.MsgSetBeforeSendHook.cosmwasm_address" then
    assign (v1_MsgSetBeforeSendHook_set_CosmwasmAddress "")
  else lift (no_field "miniwasm.tokenfactory.v1.MsgSetBeforeSendHook" fd).

Definition v1_MsgSetBeforeSendHook_Get (x : option v1_MsgSetBeforeSendHook) (fd : FieldDescriptor) : res Value :=
  if String.eqb (FullName fd) "miniwasm.tokenfactory.v1.MsgSetBeforeSendHook.sender" then
    let? m := pointed x in Ok (VString (v1_MsgSetBeforeSendHook_Sender m))
  else
  if String.eqb (FullName fd) "miniwasm.tokenfactory.v1.MsgSetBeforeSendHook.denom" then
    let? m := pointed x in Ok (VString (v1_MsgSetBeforeSendHook_Denom m))
  else
  if String.eqb (FullName fd) "miniwasm.tokenfactory.v1.MsgSetBeforeSendHook.cosmwasm_address" then
    let? m := pointed x in Ok (VString (v1_MsgSetBeforeSendHook_CosmwasmAddress m))
  else no_field "miniwasm.tokenfactory.v1.MsgSetBeforeSendHook" fd.

Definition v1_MsgSetBeforeSendHook_Set (fd : FieldDescriptor) (value : Value) : M (option v1_MsgSetBeforeSendHook) unit :=
  if String.eqb (FullName fd) "miniwasm.tokenfactory.v1.MsgSetBeforeSendHook.sender" then
    let! v := lift (as_string value) in assign (v1_MsgSetBeforeSendHook_set_Sender v)
  else
  if String.eqb (FullName fd) "miniwasm.tokenfactory.v1.MsgSetBeforeSendHook.denom" then
    let! v := lift (as_string value) in assign (v1_MsgSetBeforeSendHook_set_Denom v)
  else
  if String.eqb (FullName fd) "miniwasm.tokenfactory.v1.MsgSetBeforeSendHook.cosmwasm_address" then
    let! v := lift (as_string value) in assign (v1_MsgSetBeforeSendHook_set_CosmwasmAddress v)
  else lift (no_field "miniwasm.tokenfactory.v1.MsgSetBeforeSendHook" fd).

Definition v1_MsgSetBeforeSendHook_Mutable (fd : FieldDescriptor) : M (option v1_MsgSetBeforeSendHook) Value :=
  if String.eqb (FullName fd) "miniwasm.tokenfactory.v1.MsgSetBeforeSendHook.sender" then
    lift (not_mutable "sender" "miniwasm.tokenfactory.v1.MsgSetBeforeSendHook")
  else
  if String.eqb (FullName fd) "miniwasm.tokenfactory.v1.MsgSetBeforeSendHook.denom" then
    lift (not_mutable "denom" "miniwasm.tokenfactory.v1.MsgSetBeforeSendHook")
  else
  if String.eqb (FullName fd) "miniwasm.tokenfactory.v1.MsgSetBeforeSendHook.cosmwasm_address" then
    lift (not_mutable "cosmwasm_address" "miniwasm.tokenfactory.v1.MsgSetBeforeSendHook")
  else lift (no_field "miniwasm.tokenfactory.v1.MsgSetBeforeSendHook" fd).

Definition v1_MsgSetBeforeSendHook_NewField (fd : FieldDescriptor) : res Value :=
  if String.eqb (FullName fd) "miniwasm.tokenfactory.v1.MsgSetBeforeSendHook.sender" then
    Ok (VString "")
  else
  if String.eqb (FullName fd) "miniwasm.tokenfactory.v1.MsgSetBeforeSendHook.denom" then
    Ok (VString "")
  else
  if String.eqb (FullName fd) "miniwasm.tokenfactory.v1.MsgSetBeforeSendHook.cosmwasm_address" then
    Ok (VString "")
  else no_field "miniwasm.tokenfactory.v1.MsgSetBeforeSendHook" fd.

Definition v1_MsgSetBeforeSendHook_WhichOneof (name : string) : res FieldDescriptor := no_oneof "miniwasm.tokenfactory.v1.MsgSetBeforeSendHook" name.

Definition v1_MsgSetBeforeSendHook_GetUnknown (x : option v1_MsgSetBeforeSendHook) : res raw :=
  let? m := pointed x in Ok (v1_MsgSetBeforeSendHook_unknownFields m).

Definition v1_MsgSetBeforeSendHook_SetUnknown (fields : raw) : M (option v1_MsgSetBeforeSendHook) unit := assign (λ m, {|
  v1_MsgSetBeforeSendHook_Sender := v1_MsgSetBeforeSendHook_Sender m;
  v1_MsgSetBeforeSendHook_Denom := v1_MsgSetBeforeSendHook_Denom m;
  v1_MsgSetBeforeSendHook_CosmwasmAddress := v1_MsgSetBeforeSendHook_CosmwasmAddress m;
  v1_MsgSetBeforeSendHook_unknownFields := fields
|}).

Definition v1_MsgSetBeforeSendHook_IsValid (x : option v1_MsgSetBeforeSendHook) : bool := non_nil x.

Definition v1_MsgSetBeforeSendHook_Reset : M (option v1_MsgSetBeforeSendHook) unit := assign (λ _, v1_MsgSetBeforeSendHook_new).

Definition v1_MsgSetBeforeSendHook_GetSender (x : option v1_MsgSetBeforeSendHook) : bytes :=
  match x with Some m => v1_MsgSetBeforeSendHook_Sender m | None => "" end.

Definition v1_MsgSetBeforeSendHook_GetDenom (x : option v1_MsgSetBeforeSendHook) : bytes :=
  match x with Some m => v1_MsgSetBeforeSendHook_Denom m | None => "" end.

Definition v1_MsgSetBeforeSendHook_GetCosmwasmAddress (x : option v1_MsgSetBeforeSendHook) : bytes :=
  match x with Some m => v1_MsgSetBeforeSendHook_CosmwasmAddress m | None => "" end.

(** ** MsgSetBeforeSendHookResponse *)

Definition v1_MsgSetBeforeSendHookResponse_fields : list (FieldDescriptor * field_kind) :=
  [].

Definition v1_MsgSetBeforeSendHookResponse_Range {S} (x : option v1_MsgSetBeforeSendHookResponse) (f : FieldDescriptor → Value → M S bool) : M S unit := ret ().

Definition v1_MsgSetBeforeSendHookResponse_Has (x : option v1_MsgSetBeforeSendHookResponse) (fd : FieldDescriptor) : res bool :=
  no_field "miniwasm.tokenfactory.v1.MsgSetBeforeSendHookResponse" fd.

Definition v1_MsgSetBeforeSendHookResponse_Clear (fd : FieldDescriptor) : M (option v1_MsgSetBeforeSendHookResponse) unit :=
  lift (no_field "miniwasm.tokenfactory.v1.MsgSetBeforeSendHookResponse" fd).

Definition v1_MsgSetBeforeSendHookResponse_Get (x : option v1_MsgSetBeforeSendHookResponse) (fd : FieldDescriptor) : res Value :=
  no_field "miniwasm.tokenfactory.v1.MsgSetBeforeSendHookResponse" fd.

Definition v1_MsgSetBeforeSendHookResponse_Set (fd : FieldDescriptor) (value : Value) : M (option v1_MsgSetBeforeSendHookResponse) unit :=
  lift (no_field "miniwasm.tokenfactory.v1.MsgSetBeforeSendHookResponse" fd).

Definition v1_MsgSetBeforeSendHookResponse_Mutable (fd : FieldDescriptor) : M (option v1_MsgSetBeforeSendHookResponse) Value :=
  lift (no_field "miniwasm.tokenfactory.v1.MsgSetBeforeSendHookResponse" fd).

Definition v1_MsgSetBeforeSendHookResponse_NewField (fd : FieldDescriptor) : res Value :=
  no_field "miniwasm.tokenfactory.v1.MsgSetBeforeSendHookResponse" fd.

Definition v1_MsgSetBeforeSendHookResponse_WhichOneof (name : string) : res FieldDescriptor := no_oneof "miniwasm.tokenfactory.v1.MsgSetBeforeSendHookResponse" name.

Definition v1_MsgSetBeforeSendHookResponse_GetUnknown (x : option v1_MsgSetBeforeSendHookResponse) : res raw :=
  let? m := pointed x in Ok (v1_MsgSetBeforeSendHookResponse_unknownFields m).

Definition v1_MsgSetBeforeSendHookResponse_SetUnknown (fields : raw) : M (option v1_MsgSetBeforeSendHookResponse) unit := assign (λ m, {|
  v1_MsgSetBeforeSendHookResponse_unknownFields := fields
|}).

Definition v1_MsgSetBeforeSendHookResponse_IsValid (x : option v1_MsgSetBeforeSendHookResponse) : bool := non_nil x.

Definition v1_MsgSetBeforeSendHookResponse_Reset : M (option v1_MsgSetBeforeSendHookResponse) unit := assign (λ _, v1_MsgSetBeforeSendHookResponse_new).

(** ** MsgSetDenomMetadata *)

Definition v1_MsgSetDenomMetadata_fd_Sender : FieldDescriptor := declared "miniwasm.tokenfactory.v1.MsgSetDenomMetadata.sender".

Definition v1_MsgSetDenomMetadata_fd_Metadata : FieldDescriptor := declared "miniwasm.tokenfactory.v1.MsgSetDenomMetadata.metadata".

Definition v1_MsgSetDenomMetadata_fields : list (FieldDescriptor * field_kind) :=
  [(v1_MsgSetDenomMetadata_fd_Sender, KString);
   (v1_MsgSetDenomMetadata_fd_Metadata, KMessage TMetadata)].

Definition v1_MsgSetDenomMetadata_Range {S} (x : option v1_MsgSetDenomMetadata) (f : FieldDescriptor → Value → M S bool) : M S unit :=
  let! m := lift (pointed x) in
  visit f (non_empty (v1_MsgSetDenomMetadata_Sender m)) v1_MsgSetDenomMetadata_fd_Sender (VString (v1_MsgSetDenomMetadata_Sender m)) (
  visit f (non_nil (v1_MsgSetDenomMetadata_Metadata m)) v1_MsgSetDenomMetadata_fd_Metadata (VMessage (MMetadata (v1_MsgSetDenomMetadata_Metadata m))) (
  ret ())).

Definition v1_MsgSetDenomMetadata_Has (x : option v1_MsgSetDenomMetadata) (fd : FieldDescriptor) : res bool :=
  if String.eqb (FullName fd) "miniwasm.tokenfactory.v1.MsgSetDenomMetadata.sender" then
    let? m := pointed x in Ok (non_empty (v1_MsgSetDenomMetadata_Sender m))
  else
  if String.eqb (FullName fd) "miniwasm.tokenfactory.v1.MsgSetDenomMetadata.metadata" then
    let? m := pointed x in Ok (non_nil (v1_MsgSetDenomMetadata_Metadata m))
  else no_field "miniwasm.tokenfactory.v1.MsgSetDenomMetadata" fd.

Definition v1_MsgSetDenomMetadata_Clear (fd : FieldDescriptor) : M (option v1_MsgSetDenomMetadata) unit :=
  if String.eqb (FullName fd) "miniwasm.tokenfactory.v1.MsgSetDenomMetadata.sender" then
    assign (v1_MsgSetDenomMetadata_set_Sender "")
  else
  if String.eqb (FullName fd) "miniwasm.tokenfactory.v1.MsgSetDenomMetadata.metadata" then
    assign (v1_MsgSetDenomMetadata_set_Metadata None)
  else lift (no_field "miniwasm.tokenfactory.v1.MsgSetDenomMetadata" fd).

Definition v1_MsgSetDenomMetadata_Get (x : option v1_MsgSetDenomMetadata) (fd : FieldDescriptor) : res Value :=
  if String.eqb (FullName fd) "miniwasm.tokenfactory.v1.MsgSetDenomMetadata.sender" then
    let? m := pointed x in Ok (VString (v1_MsgSetDenomMetadata_Sender m))
  else
  if String.eqb (FullName fd) "miniwasm.tokenfactory.v1.MsgSetDenomMetadata.metadata" then
    let? m := pointed x in Ok (VMessage (MMetadata (v1_MsgSetDenomMetadata_Metadata m)))
  else no_field "miniwasm.tokenfactory.v1.MsgSetDenomMetadata" fd.

Definition v1_MsgSetDenomMetadata_Set (fd : FieldDescriptor) (value : Value) : M (option v1_MsgSetDenomMetadata) unit :=
  if String.eqb (FullName fd) "miniwasm.tokenfactory.v1.MsgSetDenomMetadata.sender" then
    let! v := lift (as_string value) in assign (v1_MsgSetDenomMetadata_set_Sender v)
  else
  if String.eqb (FullName fd) "miniwasm.tokenfactory.v1.MsgSetDenomMetadata.metadata" then
    let! v := lift (as_message is_Metadata value) in assign (v1_MsgSetDenomMetadata_set_Metadata v)
  else lift (no_field "miniwasm.tokenfactory.v1.MsgSetDenomMetadata" fd).

Definition v1_MsgSetDenomMetadata_Mutable (fd : FieldDescriptor) : M (option v1_MsgSetDenomMetadata) Value :=
  if String.eqb (FullName fd) "miniwasm.tokenfactory.v1.MsgSetDenomMetadata.metadata" then
    mutable_message v1_MsgSetDenomMetadata_Metadata v1_MsgSetDenomMetadata_set_Metadata MMetadata
  else
  if String.eqb (FullName fd) "miniwasm.tokenfactory.v1.MsgSetDenomMetadata.sender" then
    lift (not_mutable "sender" "miniwasm.tokenfactory.v1.MsgSetDenomMetadata")
  else lift (no_field "miniwasm.tokenfactory.v1.MsgSetDenomMetadata" fd).

Definition v1_MsgSetDenomMetadata_NewField (fd : FieldDescriptor) : res Value :=
  if String.eqb (FullName fd) "miniwasm.tokenfactory.v1.MsgSetDenomMetadata.sender" then
    Ok (VString "")
  else
  if String.eqb (FullName fd) "miniwasm.tokenfactory.v1.MsgSetDenomMetadata.metadata" then
    Ok (VMessage (MMetadata (Some proto_new)))
  else no_field "miniwasm.tokenfactory.v1.MsgSetDenomMetadata" fd.

Definition v1_MsgSetDenomMetadata_WhichOneof (name : string) : res FieldDescriptor := no_oneof "miniwasm.tokenfactory.v1.MsgSetDenomMetadata" name.

Definition v1_MsgSetDenomMetadata_GetUnknown (x : option v1_MsgSetDenomMetadata) : res raw :=
  let? m := pointed x in Ok (v1_MsgSetDenomMetadata_unknownFields m).

Definition v1_MsgSetDenomMetadata_SetUnknown (fields : raw) : M (option v1_MsgSetDenomMetadata) unit := assign (λ m, {|
  v1_MsgSetDenomMetadata_Sender := v1_MsgSetDenomMetadata_Sender m;
  v1_MsgSetDenomMetadata_Metadata := v1_MsgSetDenomMetadata_Metadata m;
  v1_MsgSetDenomMetadata_unknownFields := fields
|}).

Definition v1_MsgSetDenomMetadata_IsValid (x : option v1_MsgSetDenomMetadata) : bool := non_nil x.

Definition v1_MsgSetDenomMetadata_Reset : M (option v1_MsgSetDenomMetadata) unit := assign (λ _, v1_MsgSetDenomMetadata_new).

Definition v1_MsgSetDenomMetadata_GetSender (x : option v1_MsgSetDenomMetadata) : bytes :=
  match x with Some m => v1_MsgSetDenomMetadata_Sender m | None => "" end.

Definition v1_MsgSetDenomMetadata_GetMetadata (x : option v1_MsgSetDenomMetadata) : option ApiMetadata :=
  match x with Some m => v1_MsgSetDenomMetadata_Metadata m | None => None end.

(** ** MsgSetDenomMetadataResponse *)

Definition v1_MsgSetDenomMetadataResponse_fields : list (FieldDescriptor * field_kind) :=
  [].

Definition v1_MsgSetDenomMetadataResponse_Range {S} (x : option v1_MsgSetDenomMetadataResponse) (f : FieldDescriptor → Value → M S bool) : M S unit := ret ().

Definition v1_MsgSetDenomMetadataResponse_Has (x : option v1_MsgSetDenomMetadataResponse) (fd : FieldDescriptor) : res bool :=
  no_field "miniwasm.tokenfactory.v1.MsgSetDenomMetadataResponse" fd.

Definition v1_MsgSetDenomMetadataResponse_Clear (fd : FieldDescriptor) : M (option v1_MsgSetDenomMetadataResponse) unit :=
  lift (no_field "miniwasm.tokenfactory.v1.MsgSetDenomMetadataResponse" fd).

Definition v1_MsgSetDenomMetadataResponse_Get (x : option v1_MsgSetDenomMetadataResponse) (fd : FieldDescriptor) : res Value :=
  no_field "miniwasm.tokenfactory.v1.MsgSetDenomMetadataResponse" fd.

Definition v1_MsgSetDenomMetadataResponse_Set (fd : FieldDescriptor) (value : Value) : M (option v1_MsgSetDenomMetadataResponse) unit :=
  lift (no_field "miniwasm.tokenfactory.v1.MsgSetDenomMetadataResponse" fd).

Definition v1_MsgSetDenomMetadataResponse_Mutable (fd : FieldDescriptor) : M (option v1_MsgSetDenomMetadataResponse) Value :=
  lift (no_field "miniwasm.tokenfactory.v1.MsgSetDenomMetadataResponse" fd).

Definition v1_MsgSetDenomMetadataResponse_NewField (fd : FieldDescriptor) : res Value :=
  no_field "miniwasm.tokenfactory.v1.MsgSetDenomMetadataResponse" fd.

Definition v1_MsgSetDenomMetadataResponse_WhichOneof (name : string) : res FieldDescriptor := no_oneof "miniwasm.tokenfactory.v1.MsgSetDenomMetadataResponse" name.

Definition v1_MsgSetDenomMetadataResponse_GetUnknown (x : option v1_MsgSetDenomMetadataResponse) : res raw :=
  let? m := pointed x in Ok (v1_MsgSetDenomMetadataResponse_unknownFields m).

Definition v1_MsgSetDenomMetadataResponse_SetUnknown (fields : raw) : M (option v1_MsgSetDenomMetadataResponse) unit := assign (λ m, {|
  v1_MsgSetDenomMetadataResponse_unknownFields := fields
|}).

Definition v1_MsgSetDenomMetadataResponse_IsValid (x : option v1_MsgSetDenomMetadataResponse) : bool := non_nil x.

Definition v1_MsgSetDenomMetadataResponse_Reset : M (option v1_MsgSetDenomMetadataResponse) unit := assign (λ _, v1_MsgSetDenomMetadataResponse_new).

(** ** MsgUpdateParams *)

Definition v1_MsgUpdateParams_fd_Authority : FieldDescriptor := declared "miniwasm.tokenfactory.v1.MsgUpdateParams.authority".

Definition v1_MsgUpdateParams_fd_Params : FieldDescriptor := declared "miniwasm.tokenfactory.v1.MsgUpdateParams.params".

Definition v1_MsgUpdateParams_fields : list (FieldDescriptor * field_kind) :=
  [(v1_MsgUpdateParams_fd_Authority, KString);
   (v1_MsgUpdateParams_fd_Params, KMessage TParams)].

Definition v1_MsgUpdateParams_Range {S} (x : option v1_MsgUpdateParams) (f : FieldDescriptor → Value → M S bool) : M S unit :=
  let! m := lift (pointed x) in
  visit f (non_empty (v1_MsgUpdateParams_Authority m)) v1_MsgUpdateParams_fd_Authority (VString (v1_MsgUpdateParams_Authority m)) (
  visit f (non_nil (v1_MsgUpdateParams_Params m)) v1_MsgUpdateParams_fd_Params (VMessage (MParams (v1_MsgUpdateParams_Params m))) (
  ret ())).

Definition v1_MsgUpdateParams_Has (x : option v1_MsgUpdateParams) (fd : FieldDescriptor) : res bool :=
  if String.eqb (FullName fd) "miniwasm.tokenfactory.v1.MsgUpdateParams.authority" then
    let? m := pointed x in Ok (non_empty (v1_MsgUpdateParams_Authority m))
  else
  if String.eqb (FullName fd) "miniwasm.tokenfactory.v1.MsgUpdateParams.params" then
    let? m := pointed x in Ok (non_nil (v1_MsgUpdateParams_Params m))
  else no_field "miniwasm.tokenfactory.v1.MsgUpdateParams" fd.

Definition v1_MsgUpdateParams_Clear (fd : FieldDescriptor) : M (option v1_MsgUpdateParams) unit :=
  if String.eqb (FullName fd) "miniwasm.tokenfactory.v1.MsgUpdateParams.authority" then
    assign (v1_MsgUpdateParams_set_Authority "")
  else
  if String.eqb (FullName fd) "miniwasm.tokenfactory.v1.MsgUpdateParams.params" then
    assign (v1_MsgUpdateParams_set_Params None)
  else lift (no_field "miniwasm.tokenfactory.v1.MsgUpdateParams" fd).

Definition v1_MsgUpdateParams_Get (x : option v1_MsgUpdateParams) (fd : FieldDescriptor) : res Value :=
  if String.eqb (FullName fd) "miniwasm.tokenfactory.v1.MsgUpdateParams.authority" then
    let? m := pointed x in Ok (VString (v1_MsgUpdateParams_Authority m))
  else
  if String.eqb (FullName fd) "miniwasm.tokenfactory.v1.MsgUpdateParams.params" then
    let? m := pointed x in Ok (VMessage (MParams (v1_MsgUpdateParams_Params m)))
  else no_field "miniwasm.tokenfactory.v1.MsgUpdateParams" fd.

Definition v1_MsgUpdateParams_Set (fd : FieldDescriptor) (value : Value) : M (option v1_MsgUpdateParams) unit :=
  if String.eqb (FullName fd) "miniwasm.tokenfactory.v1.MsgUpdateParams.authority" then
    let! v := lift (as_string value) in assign (v1_MsgUpdateParams_set_Authority v)
  else
  if String.eqb (FullName fd) "miniwasm.tokenfactory.v1.MsgUpdateParams.params" then
    let! v := lift (as_message is_Params value) in assign (v1_MsgUpdateParams_set_Params v)
  else lift (no_field "miniwasm.tokenfactory.v1.MsgUpdateParams" fd).

Definition v1_MsgUpdateParams_Mutable (fd : FieldDescriptor) : M (option v1_MsgUpdateParams) Value :=
  if String.eqb (FullName fd) "miniwasm.tokenfactory.v1.MsgUpdateParams.params" then
    mutable_message v1_MsgUpdateParams_Params v1_MsgUpdateParams_set_Params MParams
  else
  if String.eqb (FullName fd) "miniwasm.tokenfactory.v1.MsgUpdateParams.authority" then
    lift (not_mutable "authority" "miniwasm.tokenfactory.v1.MsgUpdateParams")
  else lift (no_field "miniwasm.tokenfactory.v1.MsgUpdateParams" fd).

Definition v1_MsgUpdateParams_NewField (fd : FieldDescriptor) : res Value :=
  if String.eqb (FullName fd) "miniwasm.tokenfactory.v1.MsgUpdateParams.authority" then
    Ok (VString "")
  else
  if String.eqb (FullName fd) "miniwasm.tokenfactory.v1.MsgUpdateParams.params" then
    Ok (VMessage (MParams (Some proto_new)))
  else no_field "miniwasm.tokenfactory.v1.MsgUpdateParams" fd.

Definition v1_MsgUpdateParams_WhichOneof (name : string) : res FieldDescriptor := no_oneof "miniwasm.tokenfactory.v1.MsgUpdateParams" name.

Definition v1_MsgUpdateParams_GetUnknown (x : option v1_MsgUpdateParams) : res raw :=
  let? m := pointed x in Ok (v1_MsgUpdateParams_unknownFields m).

Definition v1_MsgUpdateParams_SetUnknown (fields : raw) : M (option v1_MsgUpdateParams) unit := assign (λ m, {|
  v1_MsgUpdateParams_Authority := v1_MsgUpdateParams_Authority m;
  v1_MsgUpdateParams_Params := v1_MsgUpdateParams_Params m; v1_MsgUpdateParams_unknownFields := fields
|}).

Definition v1_MsgUpdateParams_IsValid (x : option v1_MsgUpdateParams) : bool := non_nil x.

Definition v1_MsgUpdateParams_Reset : M (option v1_MsgUpdateParams) unit := assign (λ _, v1_MsgUpdateParams_new).

Definition v1_MsgUpdateParams_GetAuthority (x : option v1_MsgUpdateParams) : bytes :=
  match x with Some m => v1_MsgUpdateParams_Authority m | None => "" end.

Definition v1_MsgUpdateParams_GetParams (x : option v1_MsgUpdateParams) : option v1_Params :=
  match x with Some m => v1_MsgUpdateParams_Params m | None => None end.

(** ** MsgUpdateParamsResponse *)

Definition v1_MsgUpdateParamsResponse_fields : list (FieldDescriptor * field_kind) :=
  [].

Definition v1_MsgUpdateParamsResponse_Range {S} (x : option v1_MsgUpdateParamsResponse) (f : FieldDescriptor → Value → M S bool) : M S unit := ret ().

Definition v1_MsgUpdateParamsResponse_Has (x : option v1_MsgUpdateParamsResponse) (fd : FieldDescriptor) : res bool :=
  no_field "miniwasm.tokenfactory.v1.MsgUpdateParamsResponse" fd.

Definition v1_MsgUpdateParamsResponse_Clear (fd : FieldDescriptor) : M (option v1_MsgUpdateParamsResponse) unit :=
  lift (no_field "miniwasm.tokenfactory.v1.MsgUpdateParamsResponse" fd).

Definition v1_MsgUpdateParamsResponse_Get (x : option v1_MsgUpdateParamsResponse) (fd : FieldDescriptor) : res Value :=
  no_field "miniwasm.tokenfactory.v1.MsgUpdateParamsResponse" fd.

Definition v1_MsgUpdateParamsResponse_Set (fd : FieldDescriptor) (value : Value) : M (option v1_MsgUpdateParamsResponse) unit :=
  lift (no_field "miniwasm.tokenfactory.v1.MsgUpdateParamsResponse" fd).

Definition v1_MsgUpdateParamsResponse_Mutable (fd : FieldDescriptor) : M (option v1_MsgUpdateParamsResponse) Value :=
  lift (no_field "miniwasm.tokenfactory.v1.MsgUpdateParamsResponse" fd).

Definition v1_MsgUpdateParamsResponse_NewField (fd : FieldDescriptor) : res Value :=
  no_field "miniwasm.tokenfactory.v1.MsgUpdateParamsResponse" fd.

Definition v1_MsgUpdateParamsResponse_WhichOneof (name : string) : res FieldDescriptor := no_oneof "miniwasm.tokenfactory.v1.MsgUpdateParamsResponse" name.

Definition v1_MsgUpdateParamsResponse_GetUnknown (x : option v1_MsgUpdateParamsResponse) : res raw :=
  let? m := pointed x in Ok (v1_MsgUpdateParamsResponse_unknownFields m).

Definition v1_MsgUpdateParamsResponse_SetUnknown (fields : raw) : M (option v1_MsgUpdateParamsResponse) unit := assign (λ m, {|
  v1_MsgUpdateParamsResponse_unknownFields := fields
|}).

Definition v1_MsgUpdateParamsResponse_IsValid (x : option v1_MsgUpdateParamsResponse) : bool := non_nil x.

Definition v1_MsgUpdateParamsResponse_Reset : M (option v1_MsgUpdateParamsResponse) unit := assign (λ _, v1_MsgUpdateParamsResponse_new).

(** * The laws *)

Definition v1_MsgCreateDenom_reflection : reflection := {|
  r_message := v1_MsgCreateDenom; r_name := "miniwasm.tokenfactory.v1.MsgCreateDenom"; r_fields := v1_MsgCreateDenom_fields;
  r_Range S := v1_MsgCreateDenom_Range (S:=S); r_Has := v1_MsgCreateDenom_Has; r_Clear := v1_MsgCreateDenom_Clear; r_Get := v1_MsgCreateDenom_Get;
  r_Set := v1_MsgCreateDenom_Set; r_Mutable := v1_MsgCreateDenom_Mutable; r_NewField := v1_MsgCreateDenom_NewField; r_GetUnknown := v1_MsgCreateDenom_GetUnknown
|}.

Lemma v1_MsgCreateDenom_lawful : lawful_reflection v1_MsgCreateDenom_reflection.
Proof.
  prove_reflection v1_MsgCreateDenom_reflection v1_MsgCreateDenom_fields v1_MsgCreateDenom_Has v1_MsgCreateDenom_Clear v1_MsgCreateDenom_Get v1_MsgCreateDenom_Set v1_MsgCreateDenom_Mutable v1_MsgCreateDenom_NewField.
Qed.

Definition v1_MsgCreateDenomResponse_reflection : reflection := {|
  r_message := v1_MsgCreateDenomResponse; r_name := "miniwasm.tokenfactory.v1.MsgCreateDenomResponse"; r_fields := v1_MsgCreateDenomResponse_fields;
  r_Range S := v1_MsgCreateDenomResponse_Range (S:=S); r_Has := v1_MsgCreateDenomResponse_Has; r_Clear := v1_MsgCreateDenomResponse_Clear; r_Get := v1_MsgCreateDenomResponse_Get;
  r_Set := v1_MsgCreateDenomResponse_Set; r_Mutable := v1_MsgCreateDenomResponse_Mutable; r_NewField := v1_MsgCreateDenomResponse_NewField; r_GetUnknown := v1_MsgCreateDenomResponse_GetUnknown
|}.

Lemma v1_MsgCreateDenomResponse_lawful : lawful_reflection v1_MsgCreateDenomResponse_reflection.
Proof.
  prove_reflection v1_MsgCreateDenomResponse_reflection v1_MsgCreateDenomResponse_fields v1_MsgCreateDenomResponse_Has v1_MsgCreateDenomResponse_Clear v1_MsgCreateDenomResponse_Get v1_MsgCreateDenomResponse_Set v1_MsgCreateDenomResponse_Mutable v1_MsgCreateDenomResponse_NewField.
Qed.

Definition v1_MsgMint_reflection : reflection := {|
  r_message := v1_MsgMint; r_name := "miniwasm.tokenfactory.v1.MsgMint"; r_fields := v1_MsgMint_fields;
  r_Range S := v1_MsgMint_Range (S:=S); r_Has := v1_MsgMint_Has; r_Clear := v1_MsgMint_Clear; r_Get := v1_MsgMint_Get;
  r_Set := v1_MsgMint_Set; r_Mutable := v1_MsgMint_Mutable; r_NewField := v1_MsgMint_NewField; r_GetUnknown := v1_MsgMint_GetUnknown
|}.

Lemma v1_MsgMint_lawful : lawful_reflection v1_MsgMint_reflection.
Proof.
  prove_reflection v1_MsgMint_reflection v1_MsgMint_fields v1_MsgMint_Has v1_MsgMint_Clear v1_MsgMint_Get v1_MsgMint_Set v1_MsgMint_Mutable v1_MsgMint_NewField.
Qed.

Definition v1_MsgMintResponse_reflection : reflection := {|
  r_message := v1_MsgMintResponse; r_name := "miniwasm.tokenfactory.v1.MsgMintResponse"; r_fields := v1_MsgMintResponse_fields;
  r_Range S := v1_MsgMintResponse_Range (S:=S); r_Has := v1_MsgMintResponse_Has; r_Clear := v1_MsgMintResponse_Clear; r_Get := v1_MsgMintResponse_Get;
  r_Set := v1_MsgMintResponse_Set; r_Mutable := v1_MsgMintResponse_Mutable; r_NewField := v1_MsgMintResponse_NewField; r_GetUnknown := v1_MsgMintResponse_GetUnknown
|}.

Lemma v1_MsgMintResponse_lawful : lawful_reflection v1_MsgMintResponse_reflection.
Proof.
  prove_reflection v1_MsgMintResponse_reflection v1_MsgMintResponse_fields v1_MsgMintResponse_Has v1_MsgMintResponse_Clear v1_MsgMintResponse_Get v1_MsgMintResponse_Set v1_MsgMintResponse_Mutable v1_MsgMintResponse_NewField.
Qed.

Definition v1_MsgBurn_reflection : reflection := {|
  r_message := v1_MsgBurn; r_name := "miniwasm.tokenfactory.v1.MsgBurn"; r_fields := v1_MsgBurn_fields;
  r_Range S := v1_MsgBurn_Range (S:=S); r_Has := v1_MsgBurn_Has; r_Clear := v1_MsgBurn_Clear; r_Get := v1_MsgBurn_Get;
  r_Set := v1_MsgBurn_Set; r_Mutable := v1_MsgBurn_Mutable; r_NewField := v1_MsgBurn_NewField; r_GetUnknown := v1_MsgBurn_GetUnknown
|}.

Lemma v1_MsgBurn_lawful : lawful_reflection v1_MsgBurn_reflection.
Proof.
  prove_reflection v1_MsgBurn_reflection v1_MsgBurn_fields v1_MsgBurn_Has v1_MsgBurn_Clear v1_MsgBurn_Get v1_MsgBurn_Set v1_MsgBurn_Mutable v1_MsgBurn_NewField.
Qed.

Definition v1_MsgBurnResponse_reflection : reflection := {|
  r_message := v1_MsgBurnResponse; r_name := "miniwasm.tokenfactory.v1.MsgBurnResponse"; r_fields := v1_MsgBurnResponse_fields;
  r_Range S := v1_MsgBurnResponse_Range (S:=S); r_Has := v1_MsgBurnResponse_Has; r_Clear := v1_MsgBurnResponse_Clear; r_Get := v1_MsgBurnResponse_Get;
  r_Set := v1_MsgBurnResponse_Set; r_Mutable := v1_MsgBurnResponse_Mutable; r_NewField := v1_MsgBurnResponse_NewField; r_GetUnknown := v1_MsgBurnResponse_GetUnknown
|}.

Lemma v1_MsgBurnResponse_lawful : lawful_reflection v1_MsgBurnResponse_reflection.
Proof.
  prove_reflection v1_MsgBurnResponse_reflection v1_MsgBurnResponse_fields v1_MsgBurnResponse_Has v1_MsgBurnResponse_Clear v1_MsgBurnResponse_Get v1_MsgBurnResponse_Set v1_MsgBurnResponse_Mutable v1_MsgBurnResponse_NewField.
Qed.

Definition v1_MsgChangeAdmin_reflection : reflection := {|
  r_message := v1_MsgChangeAdmin; r_name := "miniwasm.tokenfactory.v1.MsgChangeAdmin"; r_fields := v1_MsgChangeAdmin_fields;
  r_Range S := v1_MsgChangeAdmin_Range (S:=S); r_Has := v1_MsgChangeAdmin_Has; r_Clear := v1_MsgChangeAdmin_Clear; r_Get := v1_MsgChangeAdmin_Get;
  r_Set := v1_MsgChangeAdmin_Set; r_Mutable := v1_MsgChangeAdmin_Mutable; r_NewField := v1_MsgChangeAdmin_NewField; r_GetUnknown := v1_MsgChangeAdmin_GetUnknown
|}.

Lemma v1_MsgChangeAdmin_lawful : lawful_reflection v1_MsgChangeAdmin_reflection.
Proof.
  prove_reflection v1_MsgChangeAdmin_reflection v1_MsgChangeAdmin_fields v1_MsgChangeAdmin_Has v1_MsgChangeAdmin_Clear v1_MsgChangeAdmin_Get v1_MsgChangeAdmin_Set v1_MsgChangeAdmin_Mutable v1_MsgChangeAdmin_NewField.
Qed.

Definition v1_MsgChangeAdminResponse_reflection : reflection := {|
  r_message := v1_MsgChangeAdminResponse; r_name := "miniwasm.tokenfactory.v1.MsgChangeAdminResponse"; r_fields := v1_MsgChangeAdminResponse_fields;
  r_Range S := v1_MsgChangeAdminResponse_Range (S:=S); r_Has := v1_MsgChangeAdminResponse_Has; r_Clear := v1_MsgChangeAdminResponse_Clear; r_Get := v1_MsgChangeAdminResponse_Get;
  r_Set := v1_MsgChangeAdminResponse_Set; r_Mutable := v1_MsgChangeAdminResponse_Mutable; r_NewField := v1_MsgChangeAdminResponse_NewField; r_GetUnknown := v1_MsgChangeAdminResponse_GetUnknown
|}.

Lemma v1_MsgChangeAdminResponse_lawful : lawful_reflection v1_MsgChangeAdminResponse_reflection.
Proof.
  prove_reflection v1_MsgChangeAdminResponse_reflection v1_MsgChangeAdminResponse_fields v1_MsgChangeAdminResponse_Has v1_MsgChangeAdminResponse_Clear v1_MsgChangeAdminResponse_Get v1_MsgChangeAdminResponse_Set v1_MsgChangeAdminResponse_Mutable v1_MsgChangeAdminResponse_NewField.
Qed.

Definition v1_MsgSetBeforeSendHook_reflection : reflection := {|
  r_message := v1_MsgSetBeforeSendHook; r_name := "miniwasm.tokenfactory.v1.MsgSetBeforeSendHook"; r_fields := v1_MsgSetBeforeSendHook_fields;
  r_Range S := v1_MsgSetBeforeSendHook_Range (S:=S); r_Has := v1_MsgSetBeforeSendHook_Has; r_Clear := v1_MsgSetBeforeSendHook_Clear; r_Get := v1_MsgSetBeforeSendHook_Get;
  r_Set := v1_MsgSetBeforeSendHook_Set; r_Mutable := v1_MsgSetBeforeSendHook_Mutable; r_NewField := v1_MsgSetBeforeSendHook_NewField; r_GetUnknown := v1_MsgSetBeforeSendHook_GetUnknown
|}.

Lemma v1_MsgSetBeforeSendHook_lawful : lawful_reflection v1_MsgSetBeforeSendHook_reflection.
Proof.
  prove_reflection v1_MsgSetBeforeSendHook_reflection v1_MsgSetBeforeSendHook_fields v1_MsgSetBeforeSendHook_Has v1_MsgSetBeforeSendHook_Clear v1_MsgSetBeforeSendHook_Get v1_MsgSetBeforeSendHook_Set v1_MsgSetBeforeSendHook_Mutable v1_MsgSetBeforeSendHook_NewField.
Qed.

Definition v1_MsgSetBeforeSendHookResponse_reflection : reflection := {|
  r_message := v1_MsgSetBeforeSendHookResponse; r_name := "miniwasm.tokenfactory.v1.MsgSetBeforeSendHookResponse"; r_fields := v1_MsgSetBeforeSendHookResponse_fields;
  r_Range S := v1_MsgSetBeforeSendHookResponse_Range (S:=S); r_Has := v1_MsgSetBeforeSendHookResponse_Has; r_Clear := v1_MsgSetBeforeSendHookResponse_Clear; r_Get := v1_MsgSetBeforeSendHookResponse_Get;
  r_Set := v1_MsgSetBeforeSendHookResponse_Set; r_Mutable := v1_MsgSetBeforeSendHookResponse_Mutable; r_NewField := v1_MsgSetBeforeSendHookResponse_NewField; r_GetUnknown := v1_MsgSetBeforeSendHookResponse_GetUnknown
|}.

Lemma v1_MsgSetBeforeSendHookResponse_lawful : lawful_reflection v1_MsgSetBeforeSendHookResponse_reflection.
Proof.
  prove_reflection v1_MsgSetBeforeSendHookResponse_reflection v1_MsgSetBeforeSendHookResponse_fields v1_MsgSetBeforeSendHookResponse_Has v1_MsgSetBeforeSendHookResponse_Clear v1_MsgSetBeforeSendHookResponse_Get v1_MsgSetBeforeSendHookResponse_Set v1_MsgSetBeforeSendHookResponse_Mutable v1_MsgSetBeforeSendHookResponse_NewField.
Qed.

Definition v1_MsgSetDenomMetadata_reflection : reflection := {|
  r_message := v1_MsgSetDenomMetadata; r_name := "miniwasm.tokenfactory.v1.MsgSetDenomMetadata"; r_fields := v1_MsgSetDenomMetadata_fields;
  r_Range S := v1_MsgSetDenomMetadata_Range (S:=S); r_Has := v1_MsgSetDenomMetadata_Has; r_Clear := v1_MsgSetDenomMetadata_Clear; r_Get := v1_MsgSetDenomMetadata_Get;
  r_Set := v1_MsgSetDenomMetadata_Set; r_Mutable := v1_MsgSetDenomMetadata_Mutable; r_NewField := v1_MsgSetDenomMetadata_NewField; r_GetUnknown := v1_MsgSetDenomMetadata_GetUnknown
|}.

Lemma v1_MsgSetDenomMetadata_lawful : lawful_reflection v1_MsgSetDenomMetadata_reflection.
Proof.
  prove_reflection v1_MsgSetDenomMetadata_reflection v1_MsgSetDenomMetadata_fields v1_MsgSetDenomMetadata_Has v1_MsgSetDenomMetadata_Clear v1_MsgSetDenomMetadata_Get v1_MsgSetDenomMetadata_Set v1_MsgSetDenomMetadata_Mutable v1_MsgSetDenomMetadata_NewField.
Qed.

Definition v1_MsgSetDenomMetadataResponse_reflection : reflection := {|
  r_message := v1_MsgSetDenomMetadataResponse; r_name := "miniwasm.tokenfactory.v1.MsgSetDenomMetadataResponse"; r_fields := v1_MsgSetDenomMetadataResponse_fields;
  r_Range S := v1_MsgSetDenomMetadataResponse_Range (S:=S); r_Has := v1_MsgSetDenomMetadataResponse_Has; r_Clear := v1_MsgSetDenomMetadataResponse_Clear; r_Get := v1_MsgSetDenomMetadataResponse_Get;
  r_Set := v1_MsgSetDenomMetadataResponse_Set; r_Mutable := v1_MsgSetDenomMetadataResponse_Mutable; r_NewField := v1_MsgSetDenomMetadataResponse_NewField; r_GetUnknown := v1_MsgSetDenomMetadataResponse_GetUnknown
|}.

Lemma v1_MsgSetDenomMetadataResponse_lawful : lawful_reflection v1_MsgSetDenomMetadataResponse_reflection.
Proof.
  prove_reflection v1_MsgSetDenomMetadataResponse_reflection v1_MsgSetDenomMetadataResponse_fields v1_MsgSetDenomMetadataResponse_Has v1_MsgSetDenomMetadataResponse_Clear v1_MsgSetDenomMetadataResponse_Get v1_MsgSetDenomMetadataResponse_Set v1_MsgSetDenomMetadataResponse_Mutable v1_MsgSetDenomMetadataResponse_NewField.
Qed.

Definition v1_MsgUpdateParams_reflection : reflection := {|
  r_message := v1_MsgUpdateParams; r_name := "miniwasm.tokenfactory.v1.MsgUpdateParams"; r_fields := v1_MsgUpdateParams_fields;
  r_Range S := v1_MsgUpdateParams_Range (S:=S); r_Has := v1_MsgUpdateParams_Has; r_Clear := v1_MsgUpdateParams_Clear; r_Get := v1_MsgUpdateParams_Get;
  r_Set := v1_MsgUpdateParams_Set; r_Mutable := v1_MsgUpdateParams_Mutable; r_NewField := v1_MsgUpdateParams_NewField; r_GetUnknown := v1_MsgUpdateParams_GetUnknown
|}.

Lemma v1_MsgUpdateParams_lawful : lawful_reflection v1_MsgUpdateParams_reflection.
Proof.
  prove_reflection v1_MsgUpdateParams_reflection v1_MsgUpdateParams_fields v1_MsgUpdateParams_Has v1_MsgUpdateParams_Clear v1_MsgUpdateParams_Get v1_MsgUpdateParams_Set v1_MsgUpdateParams_Mutable v1_MsgUpdateParams_NewField.
Qed.

Definition v1_MsgUpdateParamsResponse_reflection : reflection := {|
  r_message := v1_MsgUpdateParamsResponse; r_name := "miniwasm.tokenfactory.v1.MsgUpdateParamsResponse"; r_fields := v1_MsgUpdateParamsResponse_fields;
  r_Range S := v1_MsgUpdateParamsResponse_Range (S:=S); r_Has := v1_MsgUpdateParamsResponse_Has; r_Clear := v1_MsgUpdateParamsResponse_Clear; r_Get := v1_MsgUpdateParamsResponse_Get;
  r_Set := v1_MsgUpdateParamsResponse_Set; r_Mutable := v1_MsgUpdateParamsResponse_Mutable; r_NewField := v1_MsgUpdateParamsResponse_NewField; r_GetUnknown := v1_MsgUpdateParamsResponse_GetUnknown
|}.

Lemma v1_MsgUpdateParamsResponse_lawful : lawful_reflection v1_MsgUpdateParamsResponse_reflection.
Proof.
  prove_reflection v1_MsgUpdateParamsResponse_reflection v1_MsgUpdateParamsResponse_fields v1_MsgUpdateParamsResponse_Has v1_MsgUpdateParamsResponse_Clear v1_MsgUpdateParamsResponse_Get v1_MsgUpdateParamsResponse_Set v1_MsgUpdateParamsResponse_Mutable v1_MsgUpdateParamsResponse_NewField.
Qed.

End messages.
