(* ===== verification/ReflectQuery.v ===== *)
(** api/miniwasm/tokenfactory/v1/query.pulsar.go: the reflection methods of each message, its getters and
    Reset, and the proof that they obey the laws of [Reflect]. *)
From S2P Require Import Prelude.
From S2P Require Import GoJson.
From S2P Require Import Wire.
From S2P Require Import WireRead.
From S2P Require Import ApiState.
From S2P Require Import ApiQuery.
From S2P Require Import Reflect.

Section messages.
Context {WR : WireRuntime} {SM : SdkMessages}.

(** ** QueryParamsRequest *)

Definition v1_QueryParamsRequest_fields : list (FieldDescriptor * field_kind) :=
  [].

Definition v1_QueryParamsRequest_Range {S} (x : option v1_QueryParamsRequest) (f : FieldDescriptor → Value → M S bool) : M S unit := ret ().

Definition v1_QueryParamsRequest_Has (x : option v1_QueryParamsRequest) (fd : FieldDescriptor) : res bool :=
  no_field "miniwasm.tokenfactory.v1.QueryParamsRequest" fd.

Definition v1_QueryParamsRequest_Clear (fd : FieldDescriptor) : M (option v1_QueryParamsRequest) unit :=
  lift (no_field "miniwasm.tokenfactory.v1.QueryParamsRequest" fd).

Definition v1_QueryParamsRequest_Get (x : option v1_QueryParamsRequest) (fd : FieldDescriptor) : res Value :=
  no_field "miniwasm.tokenfactory.v1.QueryParamsRequest" fd.

Definition v1_QueryParamsRequest_Set (fd : FieldDescriptor) (value : Value) : M (option v1_QueryParamsRequest) unit :=
  lift (no_field "miniwasm.tokenfactory.v1.QueryParamsRequest" fd).

Definition v1_QueryParamsRequest_Mutable (fd : FieldDescriptor) : M (option v1_QueryParamsRequest) Value :=
  lift (no_field "miniwasm.tokenfactory.v1.QueryParamsRequest" fd).

Definition v1_QueryParamsRequest_NewField (fd : FieldDescriptor) : res Value :=
  no_field "miniwasm.tokenfactory.v1.QueryParamsRequest" fd.

Definition v1_QueryParamsRequest_WhichOneof (name : string) : res FieldDescriptor := no_oneof "miniwasm.tokenfactory.v1.QueryParamsRequest" name.

Definition v1_QueryParamsRequest_GetUnknown (x : option v1_QueryParamsRequest) : res raw :=
  let? m := pointed x in Ok (v1_QueryParamsRequest_unknownFields m).

Definition v1_QueryParamsRequest_SetUnknown (fields : raw) : M (option v1_QueryParamsRequest) unit := assign (λ m, {|
  v1_QueryParamsRequest_unknownFields := fields
|}).

Definition v1_QueryParamsRequest_IsValid (x : option v1_QueryParamsRequest) : bool := non_nil x.

Definition v1_QueryParamsRequest_Reset : M (option v1_QueryParamsRequest) unit := assign (λ _, v1_QueryParamsRequest_new).

(** ** QueryParamsResponse *)

Definition v1_QueryParamsResponse_fd_Params : FieldDescriptor := declared "miniwasm.tokenfactory.v1.QueryParamsResponse.params".

Definition v1_QueryParamsResponse_fields : list (FieldDescriptor * field_kind) :=
  [(v1_QueryParamsResponse_fd_Params, KMessage TParams)].

Definition v1_QueryParamsResponse_Range {S} (x : option v1_QueryParamsResponse) (f : FieldDescriptor → Value → M S bool) : M S unit :=
  let! m := lift (pointed x) in
  visit f (non_nil (v1_QueryParamsResponse_Params m)) v1_QueryParamsResponse_fd_Params (VMessage (MParams (v1_QueryParamsResponse_Params m))) (
  ret ()).

Definition v1_QueryParamsResponse_Has (x : option v1_QueryParamsResponse) (fd : FieldDescriptor) : res bool :=
  if String.eqb (FullName fd) "miniwasm.tokenfactory.v1.QueryParamsResponse.params" then
    let? m := pointed x in Ok (non_nil (v1_QueryParamsResponse_Params m))
  else no_field "miniwasm.tokenfactory.v1.QueryParamsResponse" fd.

Definition v1_QueryParamsResponse_Clear (fd : FieldDescriptor) : M (option v1_QueryParamsResponse) unit :=
  if String.eqb (FullName fd) "miniwasm.tokenfactory.v1.QueryParamsResponse.params" then
    assign (v1_QueryParamsResponse_set_Params None)
  else lift (no_field "miniwasm.tokenfactory.v1.QueryParamsResponse" fd).

Definition v1_QueryParamsResponse_Get (x : option v1_QueryParamsResponse) (fd : FieldDescriptor) : res Value :=
  if String.eqb (FullName fd) "miniwasm.tokenfactory.v1.QueryParamsResponse.params" then
    let? m := pointed x in Ok (VMessage (MParams (v1_QueryParamsResponse_Params m)))
  else no_field "miniwasm.tokenfactory.v1.QueryParamsResponse" fd.

Definition v1_QueryParamsResponse_Set (fd : FieldDescriptor) (value : Value) : M (option v1_QueryParamsResponse) unit :=
  if String.eqb (FullName fd) "miniwasm.tokenfactory.v1.QueryParamsResponse.params" then
    let! v := lift (as_message is_Params value) in assign (v1_QueryParamsResponse_set_Params v)
  else lift (no_field "miniwasm.tokenfactory.v1.QueryParamsResponse" fd).

Definition v1_QueryParamsResponse_Mutable (fd : FieldDescriptor) : M (option v1_QueryParamsResponse) Value :=
  if String.eqb (FullName fd) "miniwasm.tokenfactory.v1.QueryParamsResponse.params" then
    mutable_message v1_QueryParamsResponse_Params v1_QueryParamsResponse_set_Params MParams
  else lift (no_field "miniwasm.tokenfactory.v1.QueryParamsResponse" fd).

Definition v1_QueryParamsResponse_NewField (fd : FieldDescriptor) : res Value :=
  if String.eqb (FullName fd) "miniwasm.tokenfactory.v1.QueryParamsResponse.params" then
    Ok (VMessage (MParams (Some proto_new)))
  else no_field "miniwasm.tokenfactory.v1.QueryParamsResponse" fd.

Definition v1_QueryParamsResponse_WhichOneof (name : string) : res FieldDescriptor := no_oneof "miniwasm.tokenfactory.v1.QueryParamsResponse" name.

Definition v1_QueryParamsResponse_GetUnknown (x : option v1_QueryParamsResponse) : res raw :=
  let? m := pointed x in Ok (v1_QueryParamsResponse_unknownFields m).

Definition v1_QueryParamsResponse_SetUnknown (fields : raw) : M (option v1_QueryParamsResponse) unit := assign (λ m, {|
  v1_QueryParamsResponse_Params := v1_QueryParamsResponse_Params m;
  v1_QueryParamsResponse_unknownFields := fields
|}).

Definition v1_QueryParamsResponse_IsValid (x : option v1_QueryParamsResponse) : bool := non_nil x.

Definition v1_QueryParamsResponse_Reset : M (option v1_QueryParamsResponse) unit := assign (λ _, v1_QueryParamsResponse_new).

Definition v1_QueryParamsResponse_GetParams (x : option v1_QueryParamsResponse) : option v1_Params :=
  match x with Some m => v1_QueryParamsResponse_Params m | None => None end.

(** ** QueryDenomAuthorityMetadataRequest *)

Definition v1_QueryDenomAuthorityMetadataRequest_fd_Denom : FieldDescriptor := declared "miniwasm.tokenfactory.v1.QueryDenomAuthorityMetadataRequest.denom".

Definition v1_QueryDenomAuthorityMetadataRequest_fields : list (FieldDescriptor * field_kind) :=
  [(v1_QueryDenomAuthorityMetadataRequest_fd_Denom, KString)].

Definition v1_QueryDenomAuthorityMetadataRequest_Range {S} (x : option v1_QueryDenomAuthorityMetadataRequest) (f : FieldDescriptor → Value → M S bool) : M S unit :=
  let! m := lift (pointed x) in
  visit f (non_empty (v1_QueryDenomAuthorityMetadataRequest_Denom m)) v1_QueryDenomAuthorityMetadataRequest_fd_Denom (VString (v1_QueryDenomAuthorityMetadataRequest_Denom m)) (
  ret ()).

Definition v1_QueryDenomAuthorityMetadataRequest_Has (x : option v1_QueryDenomAuthorityMetadataRequest) (fd : FieldDescriptor) : res bool :=
  if String.eqb (FullName fd) "miniwasm.tokenfactory.v1.QueryDenomAuthorityMetadataRequest.denom" then
    let? m := pointed x in Ok (non_empty (v1_QueryDenomAuthorityMetadataRequest_Denom m))
  else no_field "miniwasm.tokenfactory.v1.QueryDenomAuthorityMetadataRequest" fd.

Definition v1_QueryDenomAuthorityMetadataRequest_Clear (fd : FieldDescriptor) : M (option v1_QueryDenomAuthorityMetadataRequest) unit :=
  if String.eqb (FullName fd) "miniwasm.tokenfactory.v1.QueryDenomAuthorityMetadataRequest.denom" then
    assign (v1_QueryDenomAuthorityMetadataRequest_set_Denom "")
  else lift (no_field "miniwasm.tokenfactory.v1.QueryDenomAuthorityMetadataRequest" fd).

Definition v1_QueryDenomAuthorityMetadataRequest_Get (x : option v1_QueryDenomAuthorityMetadataRequest) (fd : FieldDescriptor) : res Value :=
  if String.eqb (FullName fd) "miniwasm.tokenfactory.v1.QueryDenomAuthorityMetadataRequest.denom" then
    let? m := pointed x in Ok (VString (v1_QueryDenomAuthorityMetadataRequest_Denom m))
  else no_field "miniwasm.tokenfactory.v1.QueryDenomAuthorityMetadataRequest" fd.

Definition v1_QueryDenomAuthorityMetadataRequest_Set (fd : FieldDescriptor) (value : Value) : M (option v1_QueryDenomAuthorityMetadataRequest) unit :=
  if String.eqb (FullName fd) "miniwasm.tokenfactory.v1.QueryDenomAuthorityMetadataRequest.denom" then
    let! v := lift (as_string value) in assign (v1_QueryDenomAuthorityMetadataRequest_set_Denom v)
  else lift (no_field "miniwasm.tokenfactory.v1.QueryDenomAuthorityMetadataRequest" fd).

Definition v1_QueryDenomAuthorityMetadataRequest_Mutable (fd : FieldDescriptor) : M (option v1_QueryDenomAuthorityMetadataRequest) Value :=
  if String.eqb (FullName fd) "miniwasm.tokenfactory.v1.QueryDenomAuthorityMetadataRequest.denom" then
    lift (not_mutable "denom" "miniwasm.tokenfactory.v1.QueryDenomAuthorityMetadataRequest")
  else lift (no_field "miniwasm.tokenfactory.v1.QueryDenomAuthorityMetadataRequest" fd).

Definition v1_QueryDenomAuthorityMetadataRequest_NewField (fd : FieldDescriptor) : res Value :=
  if String.eqb (FullName fd) "miniwasm.tokenfactory.v1.QueryDenomAuthorityMetadataRequest.denom" then
    Ok (VString "")
  else no_field "miniwasm.tokenfactory.v1.QueryDenomAuthorityMetadataRequest" fd.

Definition v1_QueryDenomAuthorityMetadataRequest_WhichOneof (name : string) : res FieldDescriptor := no_oneof "miniwasm.tokenfactory.v1.QueryDenomAuthorityMetadataRequest" name.

Definition v1_QueryDenomAuthorityMetadataRequest_GetUnknown (x : option v1_QueryDenomAuthorityMetadataRequest) : res raw :=
  let? m := pointed x in Ok (v1_QueryDenomAuthorityMetadataRequest_unknownFields m).

Definition v1_QueryDenomAuthorityMetadataRequest_SetUnknown (fields : raw) : M (option v1_QueryDenomAuthorityMetadataRequest) unit := assign (λ m, {|
  v1_QueryDenomAuthorityMetadataRequest_Denom := v1_QueryDenomAuthorityMetadataRequest_Denom m;
  v1_QueryDenomAuthorityMetadataRequest_unknownFields := fields
|}).

Definition v1_QueryDenomAuthorityMetadataRequest_IsValid (x : option v1_QueryDenomAuthorityMetadataRequest) : bool := non_nil x.

Definition v1_QueryDenomAuthorityMetadataRequest_Reset : M (option v1_QueryDenomAuthorityMetadataRequest) unit := assign (λ _, v1_QueryDenomAuthorityMetadataRequest_new).

Definition v1_QueryDenomAuthorityMetadataRequest_GetDenom (x : option v1_QueryDenomAuthorityMetadataRequest) : bytes :=
  match x with Some m => v1_QueryDenomAuthorityMetadataRequest_Denom m | None => "" end.

(** ** QueryDenomAuthorityMetadataResponse *)

Definition v1_QueryDenomAuthorityMetadataResponse_fd_AuthorityMetadata : FieldDescriptor := declared "miniwasm.tokenfactory.v1.QueryDenomAuthorityMetadataResponse.authority_metadata".

Definition v1_QueryDenomAuthorityMetadataResponse_fields : list (FieldDescriptor * field_kind) :=
  [(v1_QueryDenomAuthorityMetadataResponse_fd_AuthorityMetadata, KMessage TDenomAuthorityMetadata)].

Definition v1_QueryDenomAuthorityMetadataResponse_Range {S} (x : option v1_QueryDenomAuthorityMetadataResponse) (f : FieldDescriptor → Value → M S bool) : M S unit :=
  let! m := lift (pointed x) in
  visit f (non_nil (v1_QueryDenomAuthorityMetadataResponse_AuthorityMetadata m)) v1_QueryDenomAuthorityMetadataResponse_fd_AuthorityMetadata (VMessage (MDenomAuthorityMetadata (v1_QueryDenomAuthorityMetadataResponse_AuthorityMetadata m))) (
  ret ()).

Definition v1_QueryDenomAuthorityMetadataResponse_Has (x : option v1_QueryDenomAuthorityMetadataResponse) (fd : FieldDescriptor) : res bool :=
  if String.eqb (FullName fd) "miniwasm.tokenfactory.v1.QueryDenomAuthorityMetadataResponse.authority_metadata" then
    let? m := pointed x in Ok (non_nil (v1_QueryDenomAuthorityMetadataResponse_AuthorityMetadata m))
  else no_field "miniwasm.tokenfactory.v1.QueryDenomAuthorityMetadataResponse" fd.

Definition v1_QueryDenomAuthorityMetadataResponse_Clear (fd : FieldDescriptor) : M (option v1_QueryDenomAuthorityMetadataResponse) unit :=
  if String.eqb (FullName fd) "miniwasm.tokenfactory.v1.QueryDenomAuthorityMetadataResponse.authority_metadata" then
    assign (v1_QueryDenomAuthorityMetadataResponse_set_AuthorityMetadata None)
  else lift (no_field "miniwasm.tokenfactory.v1.QueryDenomAuthorityMetadataResponse" fd).

Definition v1_QueryDenomAuthorityMetadataResponse_Get (x : option v1_QueryDenomAuthorityMetadataResponse) (fd : FieldDescriptor) : res Value :=
  if String.eqb (FullName fd) "miniwasm.tokenfactory.v1.QueryDenomAuthorityMetadataResponse.authority_metadata" then
    let? m := pointed x in Ok (VMessage (MDenomAuthorityMetadata (v1_QueryDenomAuthorityMetadataResponse_AuthorityMetadata m)))
  else no_field "miniwasm.tokenfactory.v1.QueryDenomAuthorityMetadataResponse" fd.

Definition v1_QueryDenomAuthorityMetadataResponse_Set (fd : FieldDescriptor) (value : Value) : M (option v1_QueryDenomAuthorityMetadataResponse) unit :=
  if String.eqb (FullName fd) "miniwasm.tokenfactory.v1.QueryDenomAuthorityMetadataResponse.authority_metadata" then
    let! v := lift (as_message is_DenomAuthorityMetadata value) in assign (v1_QueryDenomAuthorityMetadataResponse_set_AuthorityMetadata v)
  else lift (no_field "miniwasm.tokenfactory.v1.QueryDenomAuthorityMetadataResponse" fd).

Definition v1_QueryDenomAuthorityMetadataResponse_Mutable (fd : FieldDescriptor) : M (option v1_QueryDenomAuthorityMetadataResponse) Value :=
  if String.eqb (FullName fd) "miniwasm.tokenfactory.v1.QueryDenomAuthorityMetadataResponse.authority_metadata" then
    mutable_message v1_QueryDenomAuthorityMetadataResponse_AuthorityMetadata v1_QueryDenomAuthorityMetadataResponse_set_AuthorityMetadata MDenomAuthorityMetadata
  else lift (no_field "miniwasm.tokenfactory.v1.QueryDenomAuthorityMetadataResponse" fd).

Definition v1_QueryDenomAuthorityMetadataResponse_NewField (fd : FieldDescriptor) : res Value :=
  if String.eqb (FullName fd) "miniwasm.tokenfactory.v1.QueryDenomAuthorityMetadataResponse.authority_metadata" then
    Ok (VMessage (MDenomAuthorityMetadata (Some proto_new)))
  else no_field "miniwasm.tokenfactory.v1.QueryDenomAuthorityMetadataResponse" fd.

Definition v1_QueryDenomAuthorityMetadataResponse_WhichOneof (name : string) : res FieldDescriptor := no_oneof "miniwasm.tokenfactory.v1.QueryDenomAuthorityMetadataResponse" name.

Definition v1_QueryDenomAuthorityMetadataResponse_GetUnknown (x : option v1_QueryDenomAuthorityMetadataResponse) : res raw :=
  let? m := pointed x in Ok (v1_QueryDenomAuthorityMetadataResponse_unknownFields m).

Definition v1_QueryDenomAuthorityMetadataResponse_SetUnknown (fields : raw) : M (option v1_QueryDenomAuthorityMetadataResponse) unit := assign (λ m, {|
  v1_QueryDenomAuthorityMetadataResponse_AuthorityMetadata := v1_QueryDenomAuthorityMetadataResponse_AuthorityMetadata m;
  v1_QueryDenomAuthorityMetadataResponse_unknownFields := fields
|}).

Definition v1_QueryDenomAuthorityMetadataResponse_IsValid (x : option v1_QueryDenomAuthorityMetadataResponse) : bool := non_nil x.

Definition v1_QueryDenomAuthorityMetadataResponse_Reset : M (option v1_QueryDenomAuthorityMetadataResponse) unit := assign (λ _, v1_QueryDenomAuthorityMetadataResponse_new).

Definition v1_QueryDenomAuthorityMetadataResponse_GetAuthorityMetadata (x : option v1_QueryDenomAuthorityMetadataResponse) : option v1_DenomAuthorityMetadata :=
  match x with Some m => v1_QueryDenomAuthorityMetadataResponse_AuthorityMetadata m | None => None end.

(** ** QueryDenomsFromCreatorRequest *)

Definition v1_QueryDenomsFromCreatorRequest_fd_Creator : FieldDescriptor := declared "miniwasm.tokenfactory.v1.QueryDenomsFromCreatorRequest.creator".

Definition v1_QueryDenomsFromCreatorRequest_fields : list (FieldDescriptor * field_kind) :=
  [(v1_QueryDenomsFromCreatorRequest_fd_Creator, KString)].

Definition v1_QueryDenomsFromCreatorRequest_Range {S} (x : option v1_QueryDenomsFromCreatorRequest) (f : FieldDescriptor → Value → M S bool) : M S unit :=
  let! m := lift (pointed x) in
  visit f (non_empty (v1_QueryDenomsFromCreatorRequest_Creator m)) v1_QueryDenomsFromCreatorRequest_fd_Creator (VString (v1_QueryDenomsFromCreatorRequest_Creator m)) (
  ret ()).

Definition v1_QueryDenomsFromCreatorRequest_Has (x : option v1_QueryDenomsFromCreatorRequest) (fd : FieldDescriptor) : res bool :=
  if String.eqb (FullName fd) "miniwasm.tokenfactory.v1.QueryDenomsFromCreatorRequest.creator" then
    let? m := pointed x in Ok (non_empty (v1_QueryDenomsFromCreatorRequest_Creator m))
  else no_field "miniwasm.tokenfactory.v1.QueryDenomsFromCreatorRequest" fd.

Definition v1_QueryDenomsFromCreatorRequest_Clear (fd : FieldDescriptor) : M (option v1_QueryDenomsFromCreatorRequest) unit :=
  if String.eqb (FullName fd) "miniwasm.tokenfactory.v1.QueryDenomsFromCreatorRequest.creator" then
    assign (v1_QueryDenomsFromCreatorRequest_set_Creator "")
  else lift (no_field "miniwasm.tokenfactory.v1.QueryDenomsFromCreatorRequest" fd).

Definition v1_QueryDenomsFromCreatorRequest_Get (x : option v1_QueryDenomsFromCreatorRequest) (fd : FieldDescriptor) : res Value :=
  if String.eqb (FullName fd) "miniwasm.tokenfactory.v1.QueryDenomsFromCreatorRequest.creator" then
    let? m := pointed x in Ok (VString (v1_QueryDenomsFromCreatorRequest_Creator m))
  else no_field "miniwasm.tokenfactory.v1.QueryDenomsFromCreatorRequest" fd.

Definition v1_QueryDenomsFromCreatorRequest_Set (fd : FieldDescriptor) (value : Value) : M (option v1_QueryDenomsFromCreatorRequest) unit :=
  if String.eqb (FullName fd) "miniwasm.tokenfactory.v1.QueryDenomsFromCreatorRequest.creator" then
    let! v := lift (as_string value) in assign (v1_QueryDenomsFromCreatorRequest_set_Creator v)
  else lift (no_field "miniwasm.tokenfactory.v1.QueryDenomsFromCreatorRequest" fd).

Definition v1_QueryDenomsFromCreatorRequest_Mutable (fd : FieldDescriptor) : M (option v1_QueryDenomsFromCreatorRequest) Value :=
  if String.eqb (FullName fd) "miniwasm.tokenfactory.v1.QueryDenomsFromCreatorRequest.creator" then
    lift (not_mutable "creator" "miniwasm.tokenfactory.v1.QueryDenomsFromCreatorRequest")
  else lift (no_field "miniwasm.tokenfactory.v1.QueryDenomsFromCreatorRequest" fd).

Definition v1_QueryDenomsFromCreatorRequest_NewField (fd : FieldDescriptor) : res Value :=
  if String.eqb (FullName fd) "miniwasm.tokenfactory.v1.QueryDenomsFromCreatorRequest.creator" then
    Ok (VString "")
  else no_field "miniwasm.tokenfactory.v1.QueryDenomsFromCreatorRequest" fd.

Definition v1_QueryDenomsFromCreatorRequest_WhichOneof (name : string) : res FieldDescriptor := no_oneof "miniwasm.tokenfactory.v1.QueryDenomsFromCreatorRequest" name.

Definition v1_QueryDenomsFromCreatorRequest_GetUnknown (x : option v1_QueryDenomsFromCreatorRequest) : res raw :=
  let? m := pointed x in Ok (v1_QueryDenomsFromCreatorRequest_unknownFields m).

Definition v1_QueryDenomsFromCreatorRequest_SetUnknown (fields : raw) : M (option v1_QueryDenomsFromCreatorRequest) unit := assign (λ m, {|
  v1_QueryDenomsFromCreatorRequest_Creator := v1_QueryDenomsFromCreatorRequest_Creator m;
  v1_QueryDenomsFromCreatorRequest_unknownFields := fields
|}).

Definition v1_QueryDenomsFromCreatorRequest_IsValid (x : option v1_QueryDenomsFromCreatorRequest) : bool := non_nil x.

Definition v1_QueryDenomsFromCreatorRequest_Reset : M (option v1_QueryDenomsFromCreatorRequest) unit := assign (λ _, v1_QueryDenomsFromCreatorRequest_new).

Definition v1_QueryDenomsFromCreatorRequest_GetCreator (x : option v1_QueryDenomsFromCreatorRequest) : bytes :=
  match x with Some m => v1_QueryDenomsFromCreatorRequest_Creator m | None => "" end.

(** ** QueryDenomsFromCreatorResponse *)

Definition v1_QueryDenomsFromCreatorResponse_fd_Denoms : FieldDescriptor := declared "miniwasm.tokenfactory.v1.QueryDenomsFromCreatorResponse.denoms".

Definition v1_QueryDenomsFromCreatorResponse_fields : list (FieldDescriptor * field_kind) :=
  [(v1_QueryDenomsFromCreatorResponse_fd_Denoms, KList T_QueryDenomsFromCreatorResponse_1)].

Definition v1_QueryDenomsFromCreatorResponse_Range {S} (x : option v1_QueryDenomsFromCreatorResponse) (f : FieldDescriptor → Value → M S bool) : M S unit :=
  let! m := lift (pointed x) in
  visit f (has_elements (v1_QueryDenomsFromCreatorResponse_Denoms m)) v1_QueryDenomsFromCreatorResponse_fd_Denoms (VList (L_QueryDenomsFromCreatorResponse_1 (Some (v1_QueryDenomsFromCreatorResponse_Denoms m)))) (
  ret ()).

Definition v1_QueryDenomsFromCreatorResponse_Has (x : option v1_QueryDenomsFromCreatorResponse) (fd : FieldDescriptor) : res bool :=
  if String.eqb (FullName fd) "miniwasm.tokenfactory.v1.QueryDenomsFromCreatorResponse.denoms" then
    let? m := pointed x in Ok (has_elements (v1_QueryDenomsFromCreatorResponse_Denoms m))
  else no_field "miniwasm.tokenfactory.v1.QueryDenomsFromCreatorResponse" fd.

Definition v1_QueryDenomsFromCreatorResponse_Clear (fd : FieldDescriptor) : M (option v1_QueryDenomsFromCreatorResponse) unit :=
  if String.eqb (FullName fd) "miniwasm.tokenfactory.v1.QueryDenomsFromCreatorResponse.denoms" then
    assign (v1_QueryDenomsFromCreatorResponse_set_Denoms [])
  else lift (no_field "miniwasm.tokenfactory.v1.QueryDenomsFromCreatorResponse" fd).

Definition v1_QueryDenomsFromCreatorResponse_Get (x : option v1_QueryDenomsFromCreatorResponse) (fd : FieldDescriptor) : res Value :=
  if String.eqb (FullName fd) "miniwasm.tokenfactory.v1.QueryDenomsFromCreatorResponse.denoms" then
    let? m := pointed x in Ok (VList (L_QueryDenomsFromCreatorResponse_1 (list_view (v1_QueryDenomsFromCreatorResponse_Denoms m))))
  else no_field "miniwasm.tokenfactory.v1.QueryDenomsFromCreatorResponse" fd.

Definition v1_QueryDenomsFromCreatorResponse_Set (fd : FieldDescriptor) (value : Value) : M (option v1_QueryDenomsFromCreatorResponse) unit :=
  if String.eqb (FullName fd) "miniwasm.tokenfactory.v1.QueryDenomsFromCreatorResponse.denoms" then
    let! v := lift (as_list is_QueryDenomsFromCreatorResponse_1 value) in assign (v1_QueryDenomsFromCreatorResponse_set_Denoms v)
  else lift (no_field "miniwasm.tokenfactory.v1.QueryDenomsFromCreatorResponse" fd).

Definition v1_QueryDenomsFromCreatorResponse_Mutable (fd : FieldDescriptor) : M (option v1_QueryDenomsFromCreatorResponse) Value :=
  if String.eqb (FullName fd) "miniwasm.tokenfactory.v1.QueryDenomsFromCreatorResponse.denoms" then
    mutable_list v1_QueryDenomsFromCreatorResponse_Denoms L_QueryDenomsFromCreatorResponse_1
  else lift (no_field "miniwasm.tokenfactory.v1.QueryDenomsFromCreatorResponse" fd).

Definition v1_QueryDenomsFromCreatorResponse_NewField (fd : FieldDescriptor) : res Value :=
  if String.eqb (FullName fd) "miniwasm.tokenfactory.v1.QueryDenomsFromCreatorResponse.denoms" then
    Ok (VList (L_QueryDenomsFromCreatorResponse_1 (Some [])))
  else no_field "miniwasm.tokenfactory.v1.QueryDenomsFromCreatorResponse" fd.

Definition v1_QueryDenomsFromCreatorResponse_WhichOneof (name : string) : res FieldDescriptor := no_oneof "miniwasm.tokenfactory.v1.QueryDenomsFromCreatorResponse" name.

Definition v1_QueryDenomsFromCreatorResponse_GetUnknown (x : option v1_QueryDenomsFromCreatorResponse) : res raw :=
  let? m := pointed x in Ok (v1_QueryDenomsFromCreatorResponse_unknownFields m).

Definition v1_QueryDenomsFromCreatorResponse_SetUnknown (fields : raw) : M (option v1_QueryDenomsFromCreatorResponse) unit := assign (λ m, {|
  v1_QueryDenomsFromCreatorResponse_Denoms := v1_QueryDenomsFromCreatorResponse_Denoms m;
  v1_QueryDenomsFromCreatorResponse_unknownFields := fields
|}).

Definition v1_QueryDenomsFromCreatorResponse_IsValid (x : option v1_QueryDenomsFromCreatorResponse) : bool := non_nil x.

Definition v1_QueryDenomsFromCreatorResponse_Reset : M (option v1_QueryDenomsFromCreatorResponse) unit := assign (λ _, v1_QueryDenomsFromCreatorResponse_new).

Definition v1_QueryDenomsFromCreatorResponse_GetDenoms (x : option v1_QueryDenomsFromCreatorResponse) : list bytes :=
  match x with Some m => v1_QueryDenomsFromCreatorResponse_Denoms m | None => [] end.

(** ** QueryBeforeSendHookAddressRequest *)

Definition v1_QueryBeforeSendHookAddressRequest_fd_Denom : FieldDescriptor := declared "miniwasm.tokenfactory.v1.QueryBeforeSendHookAddressRequest.denom".

Definition v1_QueryBeforeSendHookAddressRequest_fields : list (FieldDescriptor * field_kind) :=
  [(v1_QueryBeforeSendHookAddressRequest_fd_Denom, KString)].

Definition v1_QueryBeforeSendHookAddressRequest_Range {S} (x : option v1_QueryBeforeSendHookAddressRequest) (f : FieldDescriptor → Value → M S bool) : M S unit :=
  let! m := lift (pointed x) in
  visit f (non_empty (v1_QueryBeforeSendHookAddressRequest_Denom m)) v1_QueryBeforeSendHookAddressRequest_fd_Denom (VString (v1_QueryBeforeSendHookAddressRequest_Denom m)) (
  ret ()).

Definition v1_QueryBeforeSendHookAddressRequest_Has (x : option v1_QueryBeforeSendHookAddressRequest) (fd : FieldDescriptor) : res bool :=
  if String.eqb (FullName fd) "miniwasm.tokenfactory.v1.QueryBeforeSendHookAddressRequest.denom" then
    let? m := pointed x in Ok (non_empty (v1_QueryBeforeSendHookAddressRequest_Denom m))
  else no_field "miniwasm.tokenfactory.v1.QueryBeforeSendHookAddressRequest" fd.

Definition v1_QueryBeforeSendHookAddressRequest_Clear (fd : FieldDescriptor) : M (option v1_QueryBeforeSendHookAddressRequest) unit :=
  if String.eqb (FullName fd) "miniwasm.tokenfactory.v1.QueryBeforeSendHookAddressRequest.denom" then
    assign (v1_QueryBeforeSendHookAddressRequest_set_Denom "")
  else lift (no_field "miniwasm.tokenfactory.v1.QueryBeforeSendHookAddressRequest" fd).

Definition v1_QueryBeforeSendHookAddressRequest_Get (x : option v1_QueryBeforeSendHookAddressRequest) (fd : FieldDescriptor) : res Value :=
  if String.eqb (FullName fd) "miniwasm.tokenfactory.v1.QueryBeforeSendHookAddressRequest.denom" then
    let? m := pointed x in Ok (VString (v1_QueryBeforeSendHookAddressRequest_Denom m))
  else no_field "miniwasm.tokenfactory.v1.QueryBeforeSendHookAddressRequest" fd.

Definition v1_QueryBeforeSendHookAddressRequest_Set (fd : FieldDescriptor) (value : Value) : M (option v1_QueryBeforeSendHookAddressRequest) unit :=
  if String.eqb (FullName fd) "miniwasm.tokenfactory.v1.QueryBeforeSendHookAddressRequest.denom" then
    let! v := lift (as_string value) in assign (v1_QueryBeforeSendHookAddressRequest_set_Denom v)
  else lift (no_field "miniwasm.tokenfactory.v1.QueryBeforeSendHookAddressRequest" fd).

Definition v1_QueryBeforeSendHookAddressRequest_Mutable (fd : FieldDescriptor) : M (option v1_QueryBeforeSendHookAddressRequest) Value :=
  if String.eqb (FullName fd) "miniwasm.tokenfactory.v1.QueryBeforeSendHookAddressRequest.denom" then
    lift (not_mutable "denom" "miniwasm.tokenfactory.v1.QueryBeforeSendHookAddressRequest")
  else lift (no_field "miniwasm.tokenfactory.v1.QueryBeforeSendHookAddressRequest" fd).

Definition v1_QueryBeforeSendHookAddressRequest_NewField (fd : FieldDescriptor) : res Value :=
  if String.eqb (FullName fd) "miniwasm.tokenfactory.v1.QueryBeforeSendHookAddressRequest.denom" then
    Ok (VString "")
  else no_field "miniwasm.tokenfactory.v1.QueryBeforeSendHookAddressRequest" fd.

Definition v1_QueryBeforeSendHookAddressRequest_WhichOneof (name : string) : res FieldDescriptor := no_oneof "miniwasm.tokenfactory.v1.QueryBeforeSendHookAddressRequest" name.

Definition v1_QueryBeforeSendHookAddressRequest_GetUnknown (x : option v1_QueryBeforeSendHookAddressRequest) : res raw :=
  let? m := pointed x in Ok (v1_QueryBeforeSendHookAddressRequest_unknownFields m).

Definition v1_QueryBeforeSendHookAddressRequest_SetUnknown (fields : raw) : M (option v1_QueryBeforeSendHookAddressRequest) unit := assign (λ m, {|
  v1_QueryBeforeSendHookAddressRequest_Denom := v1_QueryBeforeSendHookAddressRequest_Denom m;
  v1_QueryBeforeSendHookAddressRequest_unknownFields := fields
|}).

Definition v1_QueryBeforeSendHookAddressRequest_IsValid (x : option v1_QueryBeforeSendHookAddressRequest) : bool := non_nil x.

Definition v1_QueryBeforeSendHookAddressRequest_Reset : M (option v1_QueryBeforeSendHookAddressRequest) unit := assign (λ _, v1_QueryBeforeSendHookAddressRequest_new).

Definition v1_QueryBeforeSendHookAddressRequest_GetDenom (x : option v1_QueryBeforeSendHookAddressRequest) : bytes :=
  match x with Some m => v1_QueryBeforeSendHookAddressRequest_Denom m | None => "" end.

(** ** QueryBeforeSendHookAddressResponse *)

Definition v1_QueryBeforeSendHookAddressResponse_fd_CosmwasmAddress : FieldDescriptor := declared "miniwasm.tokenfactory.v1.QueryBeforeSendHookAddressResponse.cosmwasm_address".

Definition v1_QueryBeforeSendHookAddressResponse_fields : list (FieldDescriptor * field_kind) :=
  [(v1_QueryBeforeSendHookAddressResponse_fd_CosmwasmAddress, KString)].

Definition v1_QueryBeforeSendHookAddressResponse_Range {S} (x : option v1_QueryBeforeSendHookAddressResponse) (f : FieldDescriptor → Value → M S bool) : M S unit :=
  let! m := lift (pointed x) in
  visit f (non_empty (v1_QueryBeforeSendHookAddressResponse_CosmwasmAddress m)) v1_QueryBeforeSendHookAddressResponse_fd_CosmwasmAddress (VString (v1_QueryBeforeSendHookAddressResponse_CosmwasmAddress m)) (
  ret ()).

Definition v1_QueryBeforeSendHookAddressResponse_Has (x : option v1_QueryBeforeSendHookAddressResponse) (fd : FieldDescriptor) : res bool :=
  if String.eqb (FullName fd) "miniwasm.tokenfactory.v1.QueryBeforeSendHookAddressResponse.cosmwasm_address" then
    let? m := pointed x in Ok (non_empty (v1_QueryBeforeSendHookAddressResponse_CosmwasmAddress m))
  else no_field "miniwasm.tokenfactory.v1.QueryBeforeSendHookAddressResponse" fd.

Definition v1_QueryBeforeSendHookAddressResponse_Clear (fd : FieldDescriptor) : M (option v1_QueryBeforeSendHookAddressResponse) unit :=
  if String.eqb (FullName fd) "miniwasm.tokenfactory.v1.QueryBeforeSendHookAddressResponse.cosmwasm_address" then
    assign (v1_QueryBeforeSendHookAddressResponse_set_CosmwasmAddress "")
  else lift (no_field "miniwasm.tokenfactory.v1.QueryBeforeSendHookAddressResponse" fd).

Definition v1_QueryBeforeSendHookAddressResponse_Get (x : option v1_QueryBeforeSendHookAddressResponse) (fd : FieldDescriptor) : res Value :=
  if String.eqb (FullName fd) "miniwasm.tokenfactory.v1.QueryBeforeSendHookAddressResponse.cosmwasm_address" then
    let? m := pointed x in Ok (VString (v1_QueryBeforeSendHookAddressResponse_CosmwasmAddress m))
  else no_field "miniwasm.tokenfactory.v1.QueryBeforeSendHookAddressResponse" fd.

Definition v1_QueryBeforeSendHookAddressResponse_Set (fd : FieldDescriptor) (value : Value) : M (option v1_QueryBeforeSendHookAddressResponse) unit :=
  if String.eqb (FullName fd) "miniwasm.tokenfactory.v1.QueryBeforeSendHookAddressResponse.cosmwasm_address" then
    let! v := lift (as_string value) in assign (v1_QueryBeforeSendHookAddressResponse_set_CosmwasmAddress v)
  else lift (no_field "miniwasm.tokenfactory.v1.QueryBeforeSendHookAddressResponse" fd).

Definition v1_QueryBeforeSendHookAddressResponse_Mutable (fd : FieldDescriptor) : M (option v1_QueryBeforeSendHookAddressResponse) Value :=
  if String.eqb (FullName fd) "miniwasm.tokenfactory.v1.QueryBeforeSendHookAddressResponse.cosmwasm_address" then
    lift (not_mutable "cosmwasm_address" "miniwasm.tokenfactory.v1.QueryBeforeSendHookAddressResponse")
  else lift (no_field "miniwasm.tokenfactory.v1.QueryBeforeSendHookAddressResponse" fd).

Definition v1_QueryBeforeSendHookAddressResponse_NewField (fd : FieldDescriptor) : res Value :=
  if String.eqb (FullName fd) "miniwasm.tokenfactory.v1.QueryBeforeSendHookAddressResponse.cosmwasm_address" then
    Ok (VString "")
  else no_field "miniwasm.tokenfactory.v1.QueryBeforeSendHookAddressResponse" fd.

Definition v1_QueryBeforeSendHookAddressResponse_WhichOneof (name : string) : res FieldDescriptor := no_oneof "miniwasm.tokenfactory.v1.QueryBeforeSendHookAddressResponse" name.

Definition v1_QueryBeforeSendHookAddressResponse_GetUnknown (x : option v1_QueryBeforeSendHookAddressResponse) : res raw :=
  let? m := pointed x in Ok (v1_QueryBeforeSendHookAddressResponse_unknownFields m).

Definition v1_QueryBeforeSendHookAddressResponse_SetUnknown (fields : raw) : M (option v1_QueryBeforeSendHookAddressResponse) unit := assign (λ m, {|
  v1_QueryBeforeSendHookAddressResponse_CosmwasmAddress := v1_QueryBeforeSendHookAddressResponse_CosmwasmAddress m;
  v1_QueryBeforeSendHookAddressResponse_unknownFields := fields
|}).

Definition v1_QueryBeforeSendHookAddressResponse_IsValid (x : option v1_QueryBeforeSendHookAddressResponse) : bool := non_nil x.

Definition v1_QueryBeforeSendHookAddressResponse_Reset : M (option v1_QueryBeforeSendHookAddressResponse) unit := assign (λ _, v1_QueryBeforeSendHookAddressResponse_new).

Definition v1_QueryBeforeSendHookAddressResponse_GetCosmwasmAddress (x : option v1_QueryBeforeSendHookAddressResponse) : bytes :=
  match x with Some m => v1_QueryBeforeSendHookAddressResponse_CosmwasmAddress m | None => "" end.

(** * The laws *)

Definition v1_QueryParamsRequest_reflection : reflection := {|
  r_message := v1_QueryParamsRequest; r_name := "miniwasm.tokenfactory.v1.QueryParamsRequest"; r_fields := v1_QueryParamsRequest_fields;
  r_Range S := v1_QueryParamsRequest_Range (S:=S); r_Has := v1_QueryParamsRequest_Has; r_Clear := v1_QueryParamsRequest_Clear; r_Get := v1_QueryParamsRequest_Get;
  r_Set := v1_QueryParamsRequest_Set; r_Mutable := v1_QueryParamsRequest_Mutable; r_NewField := v1_QueryParamsRequest_NewField; r_GetUnknown := v1_QueryParamsRequest_GetUnknown
|}.

Lemma v1_QueryParamsRequest_lawful : lawful_reflection v1_QueryParamsRequest_reflection.
Proof.
  prove_reflection v1_QueryParamsRequest_reflection v1_QueryParamsRequest_fields v1_QueryParamsRequest_Has v1_QueryParamsRequest_Clear v1_QueryParamsRequest_Get v1_QueryParamsRequest_Set v1_QueryParamsRequest_Mutable v1_QueryParamsRequest_NewField.
Qed.

Definition v1_QueryParamsResponse_reflection : reflection := {|
  r_message := v1_QueryParamsResponse; r_name := "miniwasm.tokenfactory.v1.QueryParamsResponse"; r_fields := v1_QueryParamsResponse_fields;
  r_Range S := v1_QueryParamsResponse_Range (S:=S); r_Has := v1_QueryParamsResponse_Has; r_Clear := v1_QueryParamsResponse_Clear; r_Get := v1_QueryParamsResponse_Get;
  r_Set := v1_QueryParamsResponse_Set; r_Mutable := v1_QueryParamsResponse_Mutable; r_NewField := v1_QueryParamsResponse_NewField; r_GetUnknown := v1_QueryParamsResponse_GetUnknown
|}.

Lemma v1_QueryParamsResponse_lawful : lawful_reflection v1_QueryParamsResponse_reflection.
Proof.
  prove_reflection v1_QueryParamsResponse_reflection v1_QueryParamsResponse_fields v1_QueryParamsResponse_Has v1_QueryParamsResponse_Clear v1_QueryParamsResponse_Get v1_QueryParamsResponse_Set v1_QueryParamsResponse_Mutable v1_QueryParamsResponse_NewField.
Qed.

Definition v1_QueryDenomAuthorityMetadataRequest_reflection : reflection := {|
  r_message := v1_QueryDenomAuthorityMetadataRequest; r_name := "miniwasm.tokenfactory.v1.QueryDenomAuthorityMetadataRequest"; r_fields := v1_QueryDenomAuthorityMetadataRequest_fields;
  r_Range S := v1_QueryDenomAuthorityMetadataRequest_Range (S:=S); r_Has := v1_QueryDenomAuthorityMetadataRequest_Has; r_Clear := v1_QueryDenomAuthorityMetadataRequest_Clear; r_Get := v1_QueryDenomAuthorityMetadataRequest_Get;
  r_Set := v1_QueryDenomAuthorityMetadataRequest_Set; r_Mutable := v1_QueryDenomAuthorityMetadataRequest_Mutable; r_NewField := v1_QueryDenomAuthorityMetadataRequest_NewField; r_GetUnknown := v1_QueryDenomAuthorityMetadataRequest_GetUnknown
|}.

Lemma v1_QueryDenomAuthorityMetadataRequest_lawful : lawful_reflection v1_QueryDenomAuthorityMetadataRequest_reflection.
Proof.
  prove_reflection v1_QueryDenomAuthorityMetadataRequest_reflection v1_QueryDenomAuthorityMetadataRequest_fields v1_QueryDenomAuthorityMetadataRequest_Has v1_QueryDenomAuthorityMetadataRequest_Clear v1_QueryDenomAuthorityMetadataRequest_Get v1_QueryDenomAuthorityMetadataRequest_Set v1_QueryDenomAuthorityMetadataRequest_Mutable v1_QueryDenomAuthorityMetadataRequest_NewField.
Qed.

Definition v1_QueryDenomAuthorityMetadataResponse_reflection : reflection := {|
  r_message := v1_QueryDenomAuthorityMetadataResponse; r_name := "miniwasm.tokenfactory.v1.QueryDenomAuthorityMetadataResponse"; r_fields := v1_QueryDenomAuthorityMetadataResponse_fields;
  r_Range S := v1_QueryDenomAuthorityMetadataResponse_Range (S:=S); r_Has := v1_QueryDenomAuthorityMetadataResponse_Has; r_Clear := v1_QueryDenomAuthorityMetadataResponse_Clear; r_Get := v1_QueryDenomAuthorityMetadataResponse_Get;
  r_Set := v1_QueryDenomAuthorityMetadataResponse_Set; r_Mutable := v1_QueryDenomAuthorityMetadataResponse_Mutable; r_NewField := v1_QueryDenomAuthorityMetadataResponse_NewField; r_GetUnknown := v1_QueryDenomAuthorityMetadataResponse_GetUnknown
|}.

Lemma v1_QueryDenomAuthorityMetadataResponse_lawful : lawful_reflection v1_QueryDenomAuthorityMetadataResponse_reflection.
Proof.
  prove_reflection v1_QueryDenomAuthorityMetadataResponse_reflection v1_QueryDenomAuthorityMetadataResponse_fields v1_QueryDenomAuthorityMetadataResponse_Has v1_QueryDenomAuthorityMetadataResponse_Clear v1_QueryDenomAuthorityMetadataResponse_Get v1_QueryDenomAuthorityMetadataResponse_Set v1_QueryDenomAuthorityMetadataResponse_Mutable v1_QueryDenomAuthorityMetadataResponse_NewField.
Qed.

Definition v1_QueryDenomsFromCreatorRequest_reflection : reflection := {|
  r_message := v1_QueryDenomsFromCreatorRequest; r_name := "miniwasm.tokenfactory.v1.QueryDenomsFromCreatorRequest"; r_fields := v1_QueryDenomsFromCreatorRequest_fields;
  r_Range S := v1_QueryDenomsFromCreatorRequest_Range (S:=S); r_Has := v1_QueryDenomsFromCreatorRequest_Has; r_Clear := v1_QueryDenomsFromCreatorRequest_Clear; r_Get := v1_QueryDenomsFromCreatorRequest_Get;
  r_Set := v1_QueryDenomsFromCreatorRequest_Set; r_Mutable := v1_QueryDenomsFromCreatorRequest_Mutable; r_NewField := v1_QueryDenomsFromCreatorRequest_NewField; r_GetUnknown := v1_QueryDenomsFromCreatorRequest_GetUnknown
|}.

Lemma v1_QueryDenomsFromCreatorRequest_lawful : lawful_reflection v1_QueryDenomsFromCreatorRequest_reflection.
Proof.
  prove_reflection v1_QueryDenomsFromCreatorRequest_reflection v1_QueryDenomsFromCreatorRequest_fields v1_QueryDenomsFromCreatorRequest_Has v1_QueryDenomsFromCreatorRequest_Clear v1_QueryDenomsFromCreatorRequest_Get v1_QueryDenomsFromCreatorRequest_Set v1_QueryDenomsFromCreatorRequest_Mutable v1_QueryDenomsFromCreatorRequest_NewField.
Qed.

Definition v1_QueryDenomsFromCreatorResponse_reflection : reflection := {|
  r_message := v1_QueryDenomsFromCreatorResponse; r_name := "miniwasm.tokenfactory.v1.QueryDenomsFromCreatorResponse"; r_fields := v1_QueryDenomsFromCreatorResponse_fields;
  r_Range S := v1_QueryDenomsFromCreatorResponse_Range (S:=S); r_Has := v1_QueryDenomsFromCreatorResponse_Has; r_Clear := v1_QueryDenomsFromCreatorResponse_Clear; r_Get := v1_QueryDenomsFromCreatorResponse_Get;
  r_Set := v1_QueryDenomsFromCreatorResponse_Set; r_Mutable := v1_QueryDenomsFromCreatorResponse_Mutable; r_NewField := v1_QueryDenomsFromCreatorResponse_NewField; r_GetUnknown := v1_QueryDenomsFromCreatorResponse_GetUnknown
|}.

Lemma v1_QueryDenomsFromCreatorResponse_lawful : lawful_reflection v1_QueryDenomsFromCreatorResponse_reflection.
Proof.
  prove_reflection v1_QueryDenomsFromCreatorResponse_reflection v1_QueryDenomsFromCreatorResponse_fields v1_QueryDenomsFromCreatorResponse_Has v1_QueryDenomsFromCreatorResponse_Clear v1_QueryDenomsFromCreatorResponse_Get v1_QueryDenomsFromCreatorResponse_Set v1_QueryDenomsFromCreatorResponse_Mutable v1_QueryDenomsFromCreatorResponse_NewField.
Qed.

Definition v1_QueryBeforeSendHookAddressRequest_reflection : reflection := {|
  r_message := v1_QueryBeforeSendHookAddressRequest; r_name := "miniwasm.tokenfactory.v1.QueryBeforeSendHookAddressRequest"; r_fields := v1_QueryBeforeSendHookAddressRequest_fields;
  r_Range S := v1_QueryBeforeSendHookAddressRequest_Range (S:=S); r_Has := v1_QueryBeforeSendHookAddressRequest_Has; r_Clear := v1_QueryBeforeSendHookAddressRequest_Clear; r_Get := v1_QueryBeforeSendHookAddressRequest_Get;
  r_Set := v1_QueryBeforeSendHookAddressRequest_Set; r_Mutable := v1_QueryBeforeSendHookAddressRequest_Mutable; r_NewField := v1_QueryBeforeSendHookAddressRequest_NewField; r_GetUnknown := v1_QueryBeforeSendHookAddressRequest_GetUnknown
|}.

Lemma v1_QueryBeforeSendHookAddressRequest_lawful : lawful_reflection v1_QueryBeforeSendHookAddressRequest_reflection.
Proof.
  prove_reflection v1_QueryBeforeSendHookAddressRequest_reflection v1_QueryBeforeSendHookAddressRequest_fields v1_QueryBeforeSendHookAddressRequest_Has v1_QueryBeforeSendHookAddressRequest_Clear v1_QueryBeforeSendHookAddressRequest_Get v1_QueryBeforeSendHookAddressRequest_Set v1_QueryBeforeSendHookAddressRequest_Mutable v1_QueryBeforeSendHookAddressRequest_NewField.
Qed.

Definition v1_QueryBeforeSendHookAddressResponse_reflection : reflection := {|
  r_message := v1_QueryBeforeSendHookAddressResponse; r_name := "miniwasm.tokenfactory.v1.QueryBeforeSendHookAddressResponse"; r_fields := v1_QueryBeforeSendHookAddressResponse_fields;
  r_Range S := v1_QueryBeforeSendHookAddressResponse_Range (S:=S); r_Has := v1_QueryBeforeSendHookAddressResponse_Has; r_Clear := v1_QueryBeforeSendHookAddressResponse_Clear; r_Get := v1_QueryBeforeSendHookAddressResponse_Get;
  r_Set := v1_QueryBeforeSendHookAddressResponse_Set; r_Mutable := v1_QueryBeforeSendHookAddressResponse_Mutable; r_NewField := v1_QueryBeforeSendHookAddressResponse_NewField; r_GetUnknown := v1_QueryBeforeSendHookAddressResponse_GetUnknown
|}.

Lemma v1_QueryBeforeSendHookAddressResponse_lawful : lawful_reflection v1_QueryBeforeSendHookAddressResponse_reflection.
Proof.
  prove_reflection v1_QueryBeforeSendHookAddressResponse_reflection v1_QueryBeforeSendHookAddressResponse_fields v1_QueryBeforeSendHookAddressResponse_Has v1_QueryBeforeSendHookAddressResponse_Clear v1_QueryBeforeSendHookAddressResponse_Get v1_QueryBeforeSendHookAddressResponse_Set v1_QueryBeforeSendHookAddressResponse_Mutable v1_QueryBeforeSendHookAddressResponse_NewField.
Qed.

End messages.
