(* ===== verification/ReflectWasm.v ===== *)
(** api/miniwasm/wasmextension/v1: types.pulsar.go and tx.pulsar.go: the reflection methods of each message, its getters and
    Reset, and the proof that they obey the laws of [Reflect]. *)
From S2P Require Import Prelude.
From S2P Require Import GoJson.
From S2P Require Import Wire.
From S2P Require Import WireRead.
From S2P Require Import ApiWasm.
From S2P Require Import Reflect.

Section messages.
Context {WR : WireRuntime} {SM : SdkMessages}.

(** ** AccessConfig *)

Definition wasmv1_AccessConfig_fd_Permission : FieldDescriptor := declared "miniwasm.wasmextension.v1.AccessConfig.permission".

Definition wasmv1_AccessConfig_fd_Addresses : FieldDescriptor := declared "miniwasm.wasmextension.v1.AccessConfig.addresses".

Definition wasmv1_AccessConfig_fields : list (FieldDescriptor * field_kind) :=
  [(wasmv1_AccessConfig_fd_Permission, KEnum);
   (wasmv1_AccessConfig_fd_Addresses, KList T_AccessConfig_2)].

Definition wasmv1_AccessConfig_Range {S} (x : option wasmv1_AccessConfig) (f : FieldDescriptor → Value → M S bool) : M S unit :=
  let! m := lift (pointed x) in
  visit f (non_zero (wasmv1_AccessConfig_Permission m)) wasmv1_AccessConfig_fd_Permission (VEnum (wasmv1_AccessConfig_Permission m)) (
  visit f (has_elements (wasmv1_AccessConfig_Addresses m)) wasmv1_AccessConfig_fd_Addresses (VList (L_AccessConfig_2 (Some (wasmv1_AccessConfig_Addresses m)))) (
  ret ())).

Definition wasmv1_AccessConfig_Has (x : option wasmv1_AccessConfig) (fd : FieldDescriptor) : res bool :=
  if String.eqb (FullName fd) "miniwasm.wasmextension.v1.AccessConfig.permission" then
    let? m := pointed x in Ok (non_zero (wasmv1_AccessConfig_Permission m))
  else
  if String.eqb (FullName fd) "miniwasm.wasmextension.v1.AccessConfig.addresses" then
    let? m := pointed x in Ok (has_elements (wasmv1_AccessConfig_Addresses m))
  else no_field "miniwasm.wasmextension.v1.AccessConfig" fd.

Definition wasmv1_AccessConfig_Clear (fd : FieldDescriptor) : M (option wasmv1_AccessConfig) unit :=
  if String.eqb (FullName fd) "miniwasm.wasmextension.v1.AccessConfig.permission" then
    assign (wasmv1_AccessConfig_set_Permission 0)
  else
  if String.eqb (FullName fd) "miniwasm.wasmextension.v1.AccessConfig.addresses" then
    assign (wasmv1_AccessConfig_set_Addresses [])
  else lift (no_field "miniwasm.wasmextension.v1.AccessConfig" fd).

Definition wasmv1_AccessConfig_Get (x : option wasmv1_AccessConfig) (fd : FieldDescriptor) : res Value :=
  if String.eqb (FullName fd) "miniwasm.wasmextension.v1.AccessConfig.permission" then
    let? m := pointed x in Ok (VEnum (wasmv1_AccessConfig_Permission m))
  else
  if String.eqb (FullName fd) "miniwasm.wasmextension.v1.AccessConfig.addresses" then
    let? m := pointed x in Ok (VList (L_AccessConfig_2 (list_view (wasmv1_AccessConfig_Addresses m))))
  else no_field "miniwasm.wasmextension.v1.AccessConfig" fd.

Definition wasmv1_AccessConfig_Set (fd : FieldDescriptor) (value : Value) : M (option wasmv1_AccessConfig) unit :=
  if String.eqb (FullName fd) "miniwasm.wasmextension.v1.AccessConfig.permission" then
    let! v := lift (as_enum value) in assign (wasmv1_AccessConfig_set_Permission v)
  else
  if String.eqb (FullName fd) "miniwasm.wasmextension.v1.AccessConfig.addresses" then
    let! v := lift (as_list is_AccessConfig_2 value) in assign (wasmv1_AccessConfig_set_Addresses v)
  else lift (no_field "miniwasm.wasmextension.v1.AccessConfig" fd).

Definition wasmv1_AccessConfig_Mutable (fd : FieldDescriptor) : M (option wasmv1_AccessConfig) Value :=
  if String.eqb (FullName fd) "miniwasm.wasmextension.v1.AccessConfig.addresses" then
    mutable_list wasmv1_AccessConfig_Addresses L_AccessConfig_2
  else
  if String.eqb (FullName fd) "miniwasm.wasmextension.v1.AccessConfig.permission" then
    lift (not_mutable "permission" "miniwasm.wasmextension.v1.AccessConfig")
  else lift (no_field "miniwasm.wasmextension.v1.AccessConfig" fd).

Definition wasmv1_AccessConfig_NewField (fd : FieldDescriptor) : res Value :=
  if String.eqb (FullName fd) "miniwasm.wasmextension.v1.AccessConfig.permission" then
    Ok (VEnum 0)
  else
  if String.eqb (FullName fd) "miniwasm.wasmextension.v1.AccessConfig.addresses" then
    Ok (VList (L_AccessConfig_2 (Some [])))
  else no_field "miniwasm.wasmextension.v1.AccessConfig" fd.

Definition wasmv1_AccessConfig_WhichOneof (name : string) : res FieldDescriptor := no_oneof "miniwasm.wasmextension.v1.AccessConfig" name.

Definition wasmv1_AccessConfig_GetUnknown (x : option wasmv1_AccessConfig) : res raw :=
  let? m := pointed x in Ok (wasmv1_AccessConfig_unknownFields m).

Definition wasmv1_AccessConfig_SetUnknown (fields : raw) : M (option wasmv1_AccessConfig) unit := assign (λ m, {|
  wasmv1_AccessConfig_Permission := wasmv1_AccessConfig_Permission m;
  wasmv1_AccessConfig_Addresses := wasmv1_AccessConfig_Addresses m;
  wasmv1_AccessConfig_unknownFields := fields
|}).

Definition wasmv1_AccessConfig_IsValid (x : option wasmv1_AccessConfig) : bool := non_nil x.

Definition wasmv1_AccessConfig_Reset : M (option wasmv1_AccessConfig) unit := assign (λ _, wasmv1_AccessConfig_new).

Definition wasmv1_AccessConfig_GetPermission (x : option wasmv1_AccessConfig) : Z :=
  match x with Some m => wasmv1_AccessConfig_Permission m | None => 0 end.

Definition wasmv1_AccessConfig_GetAddresses (x : option wasmv1_AccessConfig) : list bytes :=
  match x with Some m => wasmv1_AccessConfig_Addresses m | None => [] end.

(** ** MsgStoreCodeAdmin *)

Definition wasmv1_MsgStoreCodeAdmin_fd_Authority : FieldDescriptor := declared "miniwasm.wasmextension.v1.MsgStoreCodeAdmin.authority".

Definition wasmv1_MsgStoreCodeAdmin_fd_Creator : FieldDescriptor := declared "miniwasm.wasmextension.v1.MsgStoreCodeAdmin.creator".

Definition wasmv1_MsgStoreCodeAdmin_fd_WasmByteCode : FieldDescriptor := declared "miniwasm.wasmextension.v1.MsgStoreCodeAdmin.wasm_byte_code".

Definition wasmv1_MsgStoreCodeAdmin_fd_InstantiatePermission : FieldDescriptor := declared "miniwasm.wasmextension.v1.MsgStoreCodeAdmin.instantiate_permission".

Definition wasmv1_MsgStoreCodeAdmin_fields : list (FieldDescriptor * field_kind) :=
  [(wasmv1_MsgStoreCodeAdmin_fd_Authority, KString);
   (wasmv1_MsgStoreCodeAdmin_fd_Creator, KString);
   (wasmv1_MsgStoreCodeAdmin_fd_WasmByteCode, KBytes);
   (wasmv1_MsgStoreCodeAdmin_fd_InstantiatePermission, KMessage TAccessConfig)].

Definition wasmv1_MsgStoreCodeAdmin_Range {S} (x : option wasmv1_MsgStoreCodeAdmin) (f : FieldDescriptor → Value → M S bool) : M S unit :=
  let! m := lift (pointed x) in
  visit f (non_empty (wasmv1_MsgStoreCodeAdmin_Authority m)) wasmv1_MsgStoreCodeAdmin_fd_Authority (VString (wasmv1_MsgStoreCodeAdmin_Authority m)) (
  visit f (non_empty (wasmv1_MsgStoreCodeAdmin_Creator m)) wasmv1_MsgStoreCodeAdmin_fd_Creator (VString (wasmv1_MsgStoreCodeAdmin_Creator m)) (
  visit f (non_empty (wasmv1_MsgStoreCodeAdmin_WasmByteCode m)) wasmv1_MsgStoreCodeAdmin_fd_WasmByteCode (VBytes (wasmv1_MsgStoreCodeAdmin_WasmByteCode m)) (
  visit f (non_nil (wasmv1_MsgStoreCodeAdmin_InstantiatePermission m)) wasmv1_MsgStoreCodeAdmin_fd_InstantiatePermission (VMessage (MAccessConfig (wasmv1_MsgStoreCodeAdmin_InstantiatePermission m))) (
  ret ())))).

Definition wasmv1_MsgStoreCodeAdmin_Has (x : option wasmv1_MsgStoreCodeAdmin) (fd : FieldDescriptor) : res bool :=
  if String.eqb (FullName fd) "miniwasm.wasmextension.v1.MsgStoreCodeAdmin.authority" then
    let? m := pointed x in Ok (non_empty (wasmv1_MsgStoreCodeAdmin_Authority m))
  else
  if String.eqb (FullName fd) "miniwasm.wasmextension.v1.MsgStoreCodeAdmin.creator" then
    let? m := pointed x in Ok (non_empty (wasmv1_MsgStoreCodeAdmin_Creator m))
  else
  if String.eqb (FullName fd) "miniwasm.wasmextension.v1.MsgStoreCodeAdmin.wasm_byte_code" then
    let? m := pointed x in Ok (non_empty (wasmv1_MsgStoreCodeAdmin_WasmByteCode m))
  else
  if String.eqb (FullName fd) "miniwasm.wasmextension.v1.MsgStoreCodeAdmin.instantiate_permission" then
    let? m := pointed x in Ok (non_nil (wasmv1_MsgStoreCodeAdmin_InstantiatePermission m))
  else no_field "miniwasm.wasmextension.v1.MsgStoreCodeAdmin" fd.

Definition wasmv1_MsgStoreCodeAdmin_Clear (fd : FieldDescriptor) : M (option wasmv1_MsgStoreCodeAdmin) unit :=
  if String.eqb (FullName fd) "miniwasm.wasmextension.v1.MsgStoreCodeAdmin.authority" then
    assign (wasmv1_MsgStoreCodeAdmin_set_Authority "")
  else
  if String.eqb (FullName fd) "miniwasm.wasmextension.v1.MsgStoreCodeAdmin.creator" then
    assign (wasmv1_MsgStoreCodeAdmin_set_Creator "")
  else
  if String.eqb (FullName fd) "miniwasm.wasmextension.v1.MsgStoreCodeAdmin.wasm_byte_code" then
    assign (wasmv1_MsgStoreCodeAdmin_set_WasmByteCode "")
  else
  if String.eqb (FullName fd) "miniwasm.wasmextension.v1.MsgStoreCodeAdmin.instantiate_permission" then
    assign (wasmv1_MsgStoreCodeAdmin_set_InstantiatePermission None)
  else lift (no_field "miniwasm.wasmextension.v1.MsgStoreCodeAdmin" fd).

Definition wasmv1_MsgStoreCodeAdmin_Get (x : option wasmv1_MsgStoreCodeAdmin) (fd : FieldDescriptor) : res Value :=
  if String.eqb (FullName fd) "miniwasm.wasmextension.v1.MsgStoreCodeAdmin.authority" then
    let? m := pointed x in Ok (VString (wasmv1_MsgStoreCodeAdmin_Authority m))
  else
  if String.eqb (FullName fd) "miniwasm.wasmextension.v1.MsgStoreCodeAdmin.creator" then
    let? m := pointed x in Ok (VString (wasmv1_MsgStoreCodeAdmin_Creator m))
  else
  if String.eqb (FullName fd) "miniwasm.wasmextension.v1.MsgStoreCodeAdmin.wasm_byte_code" then
    let? m := pointed x in Ok (VBytes (wasmv1_MsgStoreCodeAdmin_WasmByteCode m))
  else
  if String.eqb (FullName fd) "miniwasm.wasmextension.v1.MsgStoreCodeAdmin.instantiate_permission" then
    let? m := pointed x in Ok (VMessage (MAccessConfig (wasmv1_MsgStoreCodeAdmin_InstantiatePermission m)))
  else no_field "miniwasm.wasmextension.v1.MsgStoreCodeAdmin" fd.

Definition wasmv1_MsgStoreCodeAdmin_Set (fd : FieldDescriptor) (value : Value) : M (option wasmv1_MsgStoreCodeAdmin) unit :=
  if String.eqb (FullName fd) "miniwasm.wasmextension.v1.MsgStoreCodeAdmin.authority" then
    let! v := lift (as_string value) in assign (wasmv1_MsgStoreCodeAdmin_set_Authority v)
  else
  if String.eqb (FullName fd) "miniwasm.wasmextension.v1.MsgStoreCodeAdmin.creator" then
    let! v := lift (as_string value) in assign (wasmv1_MsgStoreCodeAdmin_set_Creator v)
  else
  if String.eqb (FullName fd) "miniwasm.wasmextension.v1.MsgStoreCodeAdmin.wasm_byte_code" then
    let! v := lift (as_bytes value) in assign (wasmv1_MsgStoreCodeAdmin_set_WasmByteCode v)
  else
  if String.eqb (FullName fd) "miniwasm.wasmextension.v1.MsgStoreCodeAdmin.instantiate_permission" then
    let! v := lift (as_message is_AccessConfig value) in assign (wasmv1_MsgStoreCodeAdmin_set_InstantiatePermission v)
  else lift (no_field "miniwasm.wasmextension.v1.MsgStoreCodeAdmin" fd).

Definition wasmv1_MsgStoreCodeAdmin_Mutable (fd : FieldDescriptor) : M (option wasmv1_MsgStoreCodeAdmin) Value :=
  if String.eqb (FullName fd) "miniwasm.wasmextension.v1.MsgStoreCodeAdmin.instantiate_permission" then
    mutable_message wasmv1_MsgStoreCodeAdmin_InstantiatePermission wasmv1_MsgStoreCodeAdmin_set_InstantiatePermission MAccessConfig
  else
  if String.eqb (FullName fd) "miniwasm.wasmextension.v1.MsgStoreCodeAdmin.authority" then
    lift (not_mutable "authority" "miniwasm.wasmextension.v1.MsgStoreCodeAdmin")
  else
  if String.eqb (FullName fd) "miniwasm.wasmextension.v1.MsgStoreCodeAdmin.creator" then
    lift (not_mutable "creator" "miniwasm.wasmextension.v1.MsgStoreCodeAdmin")
  else
  if String.eqb (FullName fd) "miniwasm.wasmextension.v1.MsgStoreCodeAdmin.wasm_byte_code" then
    lift (not_mutable "wasm_byte_code" "miniwasm.wasmextension.v1.MsgStoreCodeAdmin")
  else lift (no_field "miniwasm.wasmextension.v1.MsgStoreCodeAdmin" fd).

Definition wasmv1_MsgStoreCodeAdmin_NewField (fd : FieldDescriptor) : res Value :=
  if String.eqb (FullName fd) "miniwasm.wasmextension.v1.MsgStoreCodeAdmin.authority" then
    Ok (VString "")
  else
  if String.eqb (FullName fd) "miniwasm.wasmextension.v1.MsgStoreCodeAdmin.creator" then
    Ok (VString "")
  else
  if String.eqb (FullName fd) "miniwasm.wasmextension.v1.MsgStoreCodeAdmin.wasm_byte_code" then
    Ok (VBytes "")
  else
  if String.eqb (FullName fd) "miniwasm.wasmextension.v1.MsgStoreCodeAdmin.instantiate_permission" then
    Ok (VMessage (MAccessConfig (Some proto_new)))
  else no_field "miniwasm.wasmextension.v1.MsgStoreCodeAdmin" fd.

Definition wasmv1_MsgStoreCodeAdmin_WhichOneof (name : string) : res FieldDescriptor := no_oneof "miniwasm.wasmextension.v1.MsgStoreCodeAdmin" name.

Definition wasmv1_MsgStoreCodeAdmin_GetUnknown (x : option wasmv1_MsgStoreCodeAdmin) : res raw :=
  let? m := pointed x in Ok (wasmv1_MsgStoreCodeAdmin_unknownFields m).

Definition wasmv1_MsgStoreCodeAdmin_SetUnknown (fields : raw) : M (option wasmv1_MsgStoreCodeAdmin) unit := assign (λ m, {|
  wasmv1_MsgStoreCodeAdmin_Authority := wasmv1_MsgStoreCodeAdmin_Authority m;
  wasmv1_MsgStoreCodeAdmin_Creator := wasmv1_MsgStoreCodeAdmin_Creator m;
  wasmv1_MsgStoreCodeAdmin_WasmByteCode := wasmv1_MsgStoreCodeAdmin_WasmByteCode m;
  wasmv1_MsgStoreCodeAdmin_InstantiatePermission := wasmv1_MsgStoreCodeAdmin_InstantiatePermission m;
  wasmv1_MsgStoreCodeAdmin_unknownFields := fields
|}).

Definition wasmv1_MsgStoreCodeAdmin_IsValid (x : option wasmv1_MsgStoreCodeAdmin) : bool := non_nil x.

Definition wasmv1_MsgStoreCodeAdmin_Reset : M (option wasmv1_MsgStoreCodeAdmin) unit := assign (λ _, wasmv1_MsgStoreCodeAdmin_new).

Definition wasmv1_MsgStoreCodeAdmin_GetAuthority (x : option wasmv1_MsgStoreCodeAdmin) : bytes :=
  match x with Some m => wasmv1_MsgStoreCodeAdmin_Authority m | None => "" end.

Definition wasmv1_MsgStoreCodeAdmin_GetCreator (x : option wasmv1_MsgStoreCodeAdmin) : bytes :=
  match x with Some m => wasmv1_MsgStoreCodeAdmin_Creator m | None => "" end.

Definition wasmv1_MsgStoreCodeAdmin_GetWasmByteCode (x : option wasmv1_MsgStoreCodeAdmin) : bytes :=
  match x with Some m => wasmv1_MsgStoreCodeAdmin_WasmByteCode m | None => "" end.

Definition wasmv1_MsgStoreCodeAdmin_GetInstantiatePermission (x : option wasmv1_MsgStoreCodeAdmin) : option wasmv1_AccessConfig :=
  match x with Some m => wasmv1_MsgStoreCodeAdmin_InstantiatePermission m | None => None end.

(** ** MsgStoreCodeAdminResponse *)

Definition wasmv1_MsgStoreCodeAdminResponse_fd_CodeId : FieldDescriptor := declared "miniwasm.wasmextension.v1.MsgStoreCodeAdminResponse.code_id".

Definition wasmv1_MsgStoreCodeAdminResponse_fd_Checksum : FieldDescriptor := declared "miniwasm.wasmextension.v1.MsgStoreCodeAdminResponse.checksum".

Definition wasmv1_MsgStoreCodeAdminResponse_fields : list (FieldDescriptor * field_kind) :=
  [(wasmv1_MsgStoreCodeAdminResponse_fd_CodeId, KUint);
   (wasmv1_MsgStoreCodeAdminResponse_fd_Checksum, KBytes)].

Definition wasmv1_MsgStoreCodeAdminResponse_Range {S} (x : option wasmv1_MsgStoreCodeAdminResponse) (f : FieldDescriptor → Value → M S bool) : M S unit :=
  let! m := lift (pointed x) in
  visit f (non_zero (wasmv1_MsgStoreCodeAdminResponse_CodeId m)) wasmv1_MsgStoreCodeAdminResponse_fd_CodeId (VUint64 (wasmv1_MsgStoreCodeAdminResponse_CodeId m)) (
  visit f (non_empty (wasmv1_MsgStoreCodeAdminResponse_Checksum m)) wasmv1_MsgStoreCodeAdminResponse_fd_Checksum (VBytes (wasmv1_MsgStoreCodeAdminResponse_Checksum m)) (
  ret ())).

Definition wasmv1_MsgStoreCodeAdminResponse_Has (x : option wasmv1_MsgStoreCodeAdminResponse) (fd : FieldDescriptor) : res bool :=
  if String.eqb (FullName fd) "miniwasm.wasmextension.v1.MsgStoreCodeAdminResponse.code_id" then
    let? m := pointed x in Ok (non_zero (wasmv1_MsgStoreCodeAdminResponse_CodeId m))
  else
  if String.eqb (FullName fd) "miniwasm.wasmextension.v1.MsgStoreCodeAdminResponse.checksum" then
    let? m := pointed x in Ok (non_empty (wasmv1_MsgStoreCodeAdminResponse_Checksum m))
  else no_field "miniwasm.wasmextension.v1.MsgStoreCodeAdminResponse" fd.

Definition wasmv1_MsgStoreCodeAdminResponse_Clear (fd : FieldDescriptor) : M (option wasmv1_MsgStoreCodeAdminResponse) unit :=
  if String.eqb (FullName fd) "miniwasm.wasmextension.v1.MsgStoreCodeAdminResponse.code_id" then
    assign (wasmv1_MsgStoreCodeAdminResponse_set_CodeId 0)
  else
  if String.eqb (FullName fd) "miniwasm.wasmextension.v1.MsgStoreCodeAdminResponse.checksum" then
    assign (wasmv1_MsgStoreCodeAdminResponse_set_Checksum "")
  else lift (no_field "miniwasm.wasmextension.v1.MsgStoreCodeAdminResponse" fd).

Definition wasmv1_MsgStoreCodeAdminResponse_Get (x : option wasmv1_MsgStoreCodeAdminResponse) (fd : FieldDescriptor) : res Value :=
  if String.eqb (FullName fd) "miniwasm.wasmextension.v1.MsgStoreCodeAdminResponse.code_id" then
    let? m := pointed x in Ok (VUint64 (wasmv1_MsgStoreCodeAdminResponse_CodeId m))
  else
  if String.eqb (FullName fd) "miniwasm.wasmextension.v1.MsgStoreCodeAdminResponse.checksum" then
    let? m := pointed x in Ok (VBytes (wasmv1_MsgStoreCodeAdminResponse_Checksum m))
  else no_field "miniwasm.wasmextension.v1.MsgStoreCodeAdminResponse" fd.

Definition wasmv1_MsgStoreCodeAdminResponse_Set (fd : FieldDescriptor) (value : Value) : M (option wasmv1_MsgStoreCodeAdminResponse) unit :=
  if String.eqb (FullName fd) "miniwasm.wasmextension.v1.MsgStoreCodeAdminResponse.code_id" then
    let! v := lift (as_uint value) in assign (wasmv1_MsgStoreCodeAdminResponse_set_CodeId v)
  else
  if String.eqb (FullName fd) "miniwasm.wasmextension.v1.MsgStoreCodeAdminResponse.checksum" then
    let! v := lift (as_bytes value) in assign (wasmv1_MsgStoreCodeAdminResponse_set_Checksum v)
  else lift (no_field "miniwasm.wasmextension.v1.MsgStoreCodeAdminResponse" fd).

Definition wasmv1_MsgStoreCodeAdminResponse_Mutable (fd : FieldDescriptor) : M (option wasmv1_MsgStoreCodeAdminResponse) Value :=
  if String.eqb (FullName fd) "miniwasm.wasmextension.v1.MsgStoreCodeAdminResponse.code_id" then
    lift (not_mutable "code_id" "miniwasm.wasmextension.v1.MsgStoreCodeAdminResponse")
  else
  if String.eqb (FullName fd) "miniwasm.wasmextension.v1.MsgStoreCodeAdminResponse.checksum" then
    lift (not_mutable "checksum" "miniwasm.wasmextension.v1.MsgStoreCodeAdminResponse")
  else lift (no_field "miniwasm.wasmextension.v1.MsgStoreCodeAdminResponse" fd).

Definition wasmv1_MsgStoreCodeAdminResponse_NewField (fd : FieldDescriptor) : res Value :=
  if String.eqb (FullName fd) "miniwasm.wasmextension.v1.MsgStoreCodeAdminResponse.code_id" then
    Ok (VUint64 0)
  else
  if String.eqb (FullName fd) "miniwasm.wasmextension.v1.MsgStoreCodeAdminResponse.checksum" then
    Ok (VBytes "")
  else no_field "miniwasm.wasmextension.v1.MsgStoreCodeAdminResponse" fd.

Definition wasmv1_MsgStoreCodeAdminResponse_WhichOneof (name : string) : res FieldDescriptor := no_oneof "miniwasm.wasmextension.v1.MsgStoreCodeAdminResponse" name.

Definition wasmv1_MsgStoreCodeAdminResponse_GetUnknown (x : option wasmv1_MsgStoreCodeAdminResponse) : res raw :=
  let? m := pointed x in Ok (wasmv1_MsgStoreCodeAdminResponse_unknownFields m).

Definition wasmv1_MsgStoreCodeAdminResponse_SetUnknown (fields : raw) : M (option wasmv1_MsgStoreCodeAdminResponse) unit := assign (λ m, {|
  wasmv1_MsgStoreCodeAdminResponse_CodeId := wasmv1_MsgStoreCodeAdminResponse_CodeId m;
  wasmv1_MsgStoreCodeAdminResponse_Checksum := wasmv1_MsgStoreCodeAdminResponse_Checksum m;
  wasmv1_MsgStoreCodeAdminResponse_unknownFields := fields
|}).

Definition wasmv1_MsgStoreCodeAdminResponse_IsValid (x : option wasmv1_MsgStoreCodeAdminResponse) : bool := non_nil x.

Definition wasmv1_MsgStoreCodeAdminResponse_Reset : M (option wasmv1_MsgStoreCodeAdminResponse) unit := assign (λ _, wasmv1_MsgStoreCodeAdminResponse_new).

Definition wasmv1_MsgStoreCodeAdminResponse_GetCodeId (x : option wasmv1_MsgStoreCodeAdminResponse) : Z :=
  match x with Some m => wasmv1_MsgStoreCodeAdminResponse_CodeId m | None => 0 end.

Definition wasmv1_MsgStoreCodeAdminResponse_GetChecksum (x : option wasmv1_MsgStoreCodeAdminResponse) : bytes :=
  match x with Some m => wasmv1_MsgStoreCodeAdminResponse_Checksum m | None => "" end.

(** * The laws *)

Definition wasmv1_AccessConfig_reflection : reflection := {|
  r_message := wasmv1_AccessConfig; r_name := "miniwasm.wasmextension.v1.AccessConfig"; r_fields := wasmv1_AccessConfig_fields;
  r_Range S := wasmv1_AccessConfig_Range (S:=S); r_Has := wasmv1_AccessConfig_Has; r_Clear := wasmv1_AccessConfig_Clear; r_Get := wasmv1_AccessConfig_Get;
  r_Set := wasmv1_AccessConfig_Set; r_Mutable := wasmv1_AccessConfig_Mutable; r_NewField := wasmv1_AccessConfig_NewField; r_GetUnknown := wasmv1_AccessConfig_GetUnknown
|}.

Lemma wasmv1_AccessConfig_lawful : lawful_reflection wasmv1_AccessConfig_reflection.
Proof.
  prove_reflection wasmv1_AccessConfig_reflection wasmv1_AccessConfig_fields wasmv1_AccessConfig_Has wasmv1_AccessConfig_Clear wasmv1_AccessConfig_Get wasmv1_AccessConfig_Set wasmv1_AccessConfig_Mutable wasmv1_AccessConfig_NewField.
Qed.

Definition wasmv1_MsgStoreCodeAdmin_reflection : reflection := {|
  r_message := wasmv1_MsgStoreCodeAdmin; r_name := "miniwasm.wasmextension.v1.MsgStoreCodeAdmin"; r_fields := wasmv1_MsgStoreCodeAdmin_fields;
  r_Range S := wasmv1_MsgStoreCodeAdmin_Range (S:=S); r_Has := wasmv1_MsgStoreCodeAdmin_Has; r_Clear := wasmv1_MsgStoreCodeAdmin_Clear; r_Get := wasmv1_MsgStoreCodeAdmin_Get;
  r_Set := wasmv1_MsgStoreCodeAdmin_Set; r_Mutable := wasmv1_MsgStoreCodeAdmin_Mutable; r_NewField := wasmv1_MsgStoreCodeAdmin_NewField; r_GetUnknown := wasmv1_MsgStoreCodeAdmin_GetUnknown
|}.

Lemma wasmv1_MsgStoreCodeAdmin_lawful : lawful_reflection wasmv1_MsgStoreCodeAdmin_reflection.
Proof.
  prove_reflection wasmv1_MsgStoreCodeAdmin_reflection wasmv1_MsgStoreCodeAdmin_fields wasmv1_MsgStoreCodeAdmin_Has wasmv1_MsgStoreCodeAdmin_Clear wasmv1_MsgStoreCodeAdmin_Get wasmv1_MsgStoreCodeAdmin_Set wasmv1_MsgStoreCodeAdmin_Mutable wasmv1_MsgStoreCodeAdmin_NewField.
Qed.

Definition wasmv1_MsgStoreCodeAdminResponse_reflection : reflection := {|
  r_message := wasmv1_MsgStoreCodeAdminResponse; r_name := "miniwasm.wasmextension.v1.MsgStoreCodeAdminResponse"; r_fields := wasmv1_MsgStoreCodeAdminResponse_fields;
  r_Range S := wasmv1_MsgStoreCodeAdminResponse_Range (S:=S); r_Has := wasmv1_MsgStoreCodeAdminResponse_Has; r_Clear := wasmv1_MsgStoreCodeAdminResponse_Clear; r_Get := wasmv1_MsgStoreCodeAdminResponse_Get;
  r_Set := wasmv1_MsgStoreCodeAdminResponse_Set; r_Mutable := wasmv1_MsgStoreCodeAdminResponse_Mutable; r_NewField := wasmv1_MsgStoreCodeAdminResponse_NewField; r_GetUnknown := wasmv1_MsgStoreCodeAdminResponse_GetUnknown
|}.

Lemma wasmv1_MsgStoreCodeAdminResponse_lawful : lawful_reflection wasmv1_MsgStoreCodeAdminResponse_reflection.
Proof.
  prove_reflection wasmv1_MsgStoreCodeAdminResponse_reflection wasmv1_MsgStoreCodeAdminResponse_fields wasmv1_MsgStoreCodeAdminResponse_Has wasmv1_MsgStoreCodeAdminResponse_Clear wasmv1_MsgStoreCodeAdminResponse_Get wasmv1_MsgStoreCodeAdminResponse_Set wasmv1_MsgStoreCodeAdminResponse_Mutable wasmv1_MsgStoreCodeAdminResponse_NewField.
Qed.

End messages.
