(* ===== verification/ReflectLists.v ===== *)
(** The list wrappers of the pulsar messages (_Params_1_list, _GenesisState_2_list,
    _QueryDenomsFromCreatorResponse_1_list and _AccessConfig_2_list): a wrapper holds a
    pointer to a slice, so what is written through it is written in the message the slice is
    a field of. A wrapper is a reference here, a way to load and to save the slice in a state,
    and its methods are programs on that state. Two slices that share an array are not
    followed. *)
From S2P Require Import Prelude.
From S2P Require Import GoJson.
From S2P Require Import Wire.
From S2P Require Import WireRead.
From S2P Require Import ApiState.
From S2P Require Import ApiQuery.
From S2P Require Import ApiWasm.
From S2P Require Import Reflect.
From S2P Require Import ReflectState.
From S2P Require Import ReflectQuery.
From S2P Require Import ReflectWasm.

(** * References *)

(** A pointer to a slice in the state. *)
Record slice_ref (S E : Type) := { load : S → res (list E); save : list E → S → S }.
Arguments load {_ _}.
Arguments save {_ _}.

(** [&x.F] *)
Definition field_ref {T E} (get : T → list E) (set : list E → T → T) : slice_ref (option T) E :=
  {| load := λ x, let? m := pointed x in Ok (get m); save := λ l x, set l <$> x |}.

Definition index_panic : gopanic := PanicString "index out of range".
Definition bounds_panic : gopanic := PanicString "slice bounds out of range".

Section wrapper.
Context {WR : WireRuntime} {SM : SdkMessages} {S E : Type}.
Implicit Types (w : option (slice_ref S E)) (l : list E).

(** [*x.list], which panics when the wrapper has no slice, and [*x.list = l]. *)
Definition load_list w : M S (list E) :=
  match w with Some r => λ s, (load r s, s) | None => panic nil_panic end.

Definition save_list w l : M S unit :=
  match w with Some r => modify (save r l) | None => panic nil_panic end.

(** [l[i]], [l[i] = e] and [l[:n]]. The array of a slice may be longer than the slice;
    [slack] is what is in it after the end. *)
Definition index l (i : Z) : res E :=
  if i <? 0 then Panic index_panic
  else match l !! Z.to_nat i with Some e => Ok e | None => Panic index_panic end.

Definition set_index l (i : Z) (e : E) : res (list E) :=
  if (0 <=? i) && (i <? Z.of_nat (length l)) then Ok (<[Z.to_nat i := e]> l) else Panic index_panic.

Definition reslice (slack l : list E) (n : Z) : res (list E) :=
  if (0 <=? n) && (n <=? Z.of_nat (length (l ++ slack))) then Ok (take (Z.to_nat n) (l ++ slack))
  else Panic bounds_panic.

(** [for i := n; i < len(l); i++ { l[i] = nil }] *)
Definition clear_from (zero : E) l (n : Z) : res (list E) :=
  if Z.of_nat (length l) <=? n then Ok l
  else if n <? 0 then Panic index_panic
  else Ok (take (Z.to_nat n) l ++ replicate (length l - Z.to_nat n) zero).

(** ** The methods *)

Definition list_Len w : M S Z :=
  match w with None => ret 0 | Some _ => let! l := load_list w in ret (Z.of_nat (length l)) end.

Definition list_Get (wrap : E → Value) w (i : Z) : M S Value :=
  let! l := load_list w in let! e := lift (index l i) in ret (wrap e).

Definition list_Set (unwrap : Value → res E) w (i : Z) (value : Value) : M S unit :=
  let! e := lift (unwrap value) in
  let! l := load_list w in
  let! l := lift (set_index l i e) in
  save_list w l.

Definition list_Append (unwrap : Value → res E) w (value : Value) : M S unit :=
  let! e := lift (unwrap value) in
  let! l := load_list w in
  save_list w (l ++ [e]).

Definition list_AppendMutable (wrap : E → Value) (new : E) w : M S Value :=
  let! l := load_list w in
  save_list w (l ++ [new]) ;;;
  ret (wrap new).

Definition list_Truncate (slack : list E) w (n : Z) : M S unit :=
  let! l := load_list w in
  let! l := lift (reslice slack l n) in
  save_list w l.

(** The wrappers of messages clear the elements they cut off. *)
Definition list_Truncate_clear (zero : E) (slack : list E) w (n : Z) : M S unit :=
  let! l := load_list w in
  let! l := lift (clear_from zero l n) in
  save_list w l ;;;
  let! l := load_list w in
  let! l := lift (reslice slack l n) in
  save_list w l.

Definition list_IsValid w : bool := non_nil w.
End wrapper.

(** * The four wrappers *)

(** protoreflect.Value.String, which formats the values that are not strings. *)
Class ValueString := { Value_String : ∀ {WR : WireRuntime} {SM : SdkMessages}, Value → bytes }.

Section wrappers.
Context {WR : WireRuntime} {SM : SdkMessages} {VS : ValueString} {S : Type}.

(** ** _Params_1_list *)

Definition Params_1_list := option (slice_ref S (option ApiCoin)).

Definition Params_1_list_Len (x : Params_1_list) : M S Z := list_Len x.
Definition Params_1_list_Get (x : Params_1_list) (i : Z) : M S Value := list_Get (λ e, VMessage (MCoin e)) x i.
Definition Params_1_list_Set (x : Params_1_list) (i : Z) (value : Value) : M S unit :=
  list_Set (as_message is_Coin) x i value.
Definition Params_1_list_Append (x : Params_1_list) (value : Value) : M S unit :=
  list_Append (as_message is_Coin) x value.
Definition Params_1_list_AppendMutable (x : Params_1_list) : M S Value :=
  list_AppendMutable (λ e, VMessage (MCoin e)) (Some proto_new) x.
Definition Params_1_list_Truncate slack (x : Params_1_list) (n : Z) : M S unit :=
  list_Truncate_clear None slack x n.
Definition Params_1_list_NewElement : Value := VMessage (MCoin (Some proto_new)).
Definition Params_1_list_IsValid (x : Params_1_list) : bool := list_IsValid x.

(** ** _GenesisState_2_list *)

Definition GenesisState_2_list := option (slice_ref S (option v1_GenesisDenom)).

Definition GenesisState_2_list_Len (x : GenesisState_2_list) : M S Z := list_Len x.
Definition GenesisState_2_list_Get (x : GenesisState_2_list) (i : Z) : M S Value :=
  list_Get (λ e, VMessage (MGenesisDenom e)) x i.
Definition GenesisState_2_list_Set (x : GenesisState_2_list) (i : Z) (value : Value) : M S unit :=
  list_Set (as_message is_GenesisDenom) x i value.
Definition GenesisState_2_list_Append (x : GenesisState_2_list) (value : Value) : M S unit :=
  list_Append (as_message is_GenesisDenom) x value.
Definition GenesisState_2_list_AppendMutable (x : GenesisState_2_list) : M S Value :=
  list_AppendMutable (λ e, VMessage (MGenesisDenom e)) (Some v1_GenesisDenom_new) x.
Definition GenesisState_2_list_Truncate slack (x : GenesisState_2_list) (n : Z) : M S unit :=
  list_Truncate_clear None slack x n.
Definition GenesisState_2_list_NewElement : Value := VMessage (MGenesisDenom (Some v1_GenesisDenom_new)).
Definition GenesisState_2_list_IsValid (x : GenesisState_2_list) : bool := list_IsValid x.

(** ** The wrappers of strings *)

(** A value as an element of a list of strings. *)
Definition string_element (value : Value) : res bytes := Ok (Value_String value).

Definition no_AppendMutable {A} (message field : string) : M S A :=
  panic (PanicError (Errorf ("AppendMutable can not be called on message " +:+ message +:+
    " at list field " +:+ field +:+ " as it is not of Message kind") [])).

Definition QueryDenomsFromCreatorResponse_1_list := option (slice_ref S bytes).

Definition QueryDenomsFromCreatorResponse_1_list_Len (x : QueryDenomsFromCreatorResponse_1_list) : M S Z :=
  list_Len x.
Definition QueryDenomsFromCreatorResponse_1_list_Get (x : QueryDenomsFromCreatorResponse_1_list) (i : Z)
    : M S Value := list_Get VString x i.
Definition QueryDenomsFromCreatorResponse_1_list_Set (x : QueryDenomsFromCreatorResponse_1_list) (i : Z)
    (value : Value) : M S unit := list_Set string_element x i value.
Definition QueryDenomsFromCreatorResponse_1_list_Append (x : QueryDenomsFromCreatorResponse_1_list)
    (value : Value) : M S unit := list_Append string_element x value.
Definition QueryDenomsFromCreatorResponse_1_list_AppendMutable (x : QueryDenomsFromCreatorResponse_1_list)
    : M S Value := no_AppendMutable "QueryDenomsFromCreatorResponse" "Denoms".
Definition QueryDenomsFromCreatorResponse_1_list_Truncate slack (x : QueryDenomsFromCreatorResponse_1_list)
    (n : Z) : M S unit := list_Truncate slack x n.
Definition QueryDenomsFromCreatorResponse_1_list_NewElement : Value := VString "".
Definition QueryDenomsFromCreatorResponse_1_list_IsValid (x : QueryDenomsFromCreatorResponse_1_list) : bool :=
  list_IsValid x.

Definition AccessConfig_2_list := option (slice_ref S bytes).

Definition AccessConfig_2_list_Len (x : AccessConfig_2_list) : M S Z := list_Len x.
Definition AccessConfig_2_list_Get (x : AccessConfig_2_list) (i : Z) : M S Value := list_Get VString x i.
Definition AccessConfig_2_list_Set (x : AccessConfig_2_list) (i : Z) (value : Value) : M S unit :=
  list_Set string_element x i value.
Definition AccessConfig_2_list_Append (x : AccessConfig_2_list) (value : Value) : M S unit :=
  list_Append string_element x value.
Definition AccessConfig_2_list_AppendMutable (x : AccessConfig_2_list) : M S Value :=
  no_AppendMutable "AccessConfig" "Addresses".
Definition AccessConfig_2_list_Truncate slack (x : AccessConfig_2_list) (n : Z) : M S unit :=
  list_Truncate slack x n.
Definition AccessConfig_2_list_NewElement : Value := VString "".
Definition AccessConfig_2_list_IsValid (x : AccessConfig_2_list) : bool := list_IsValid x.
End wrappers.

(** * The fields that are lists *)

Section fields.
Context {WR : WireRuntime} {SM : SdkMessages} {VS : ValueString}.

(** A field with the methods of its wrapper; [lf_new] is the element AppendMutable adds, if
    the elements are messages. *)
Record list_field := {
  lf_E : Type;
  lf_R : reflection;
  lf_fd : FieldDescriptor;
  lf_wrapper : option (list lf_E) → golist;
  lf_get : r_message lf_R → list lf_E;
  lf_set : list lf_E → r_message lf_R → r_message lf_R;
  lf_wrap : lf_E → Value;
  lf_unwrap : Value → res lf_E;
  lf_new : option lf_E;
  lf_Len : option (slice_ref (option (r_message lf_R)) lf_E) → M (option (r_message lf_R)) Z;
  lf_Get : option (slice_ref (option (r_message lf_R)) lf_E) → Z → M (option (r_message lf_R)) Value;
  lf_Set : option (slice_ref (option (r_message lf_R)) lf_E) → Z → Value → M (option (r_message lf_R)) unit;
  lf_Append : option (slice_ref (option (r_message lf_R)) lf_E) → Value → M (option (r_message lf_R)) unit;
  lf_AppendMutable : option (slice_ref (option (r_message lf_R)) lf_E) → M (option (r_message lf_R)) Value;
  lf_Truncate : list lf_E → option (slice_ref (option (r_message lf_R)) lf_E) → Z → M (option (r_message lf_R)) unit
}.

(** The pointer [&x.F] that Mutable and Get put into the wrapper. *)
Definition lf_ref (F : list_field) : slice_ref (option (r_message (lf_R F))) (lf_E F) :=
  field_ref (lf_get F) (lf_set F).

Definition v1_Params_DenomCreationFee_list : list_field := {|
  lf_R := v1_Params_reflection; lf_fd := v1_Params_fd_DenomCreationFee; lf_wrapper := L_Params_1;
  lf_get := v1_Params_DenomCreationFee : r_message v1_Params_reflection → _;
  lf_set := v1_Params_set_DenomCreationFee : _ → r_message v1_Params_reflection → _;
  lf_wrap := λ e, VMessage (MCoin e); lf_unwrap := as_message is_Coin; lf_new := Some (Some proto_new);
  lf_Len := Params_1_list_Len; lf_Get := Params_1_list_Get; lf_Set := Params_1_list_Set;
  lf_Append := Params_1_list_Append; lf_AppendMutable := Params_1_list_AppendMutable;
  lf_Truncate := Params_1_list_Truncate
|}.

Definition v1_GenesisState_FactoryDenoms_list : list_field := {|
  lf_R := v1_GenesisState_reflection; lf_fd := v1_GenesisState_fd_FactoryDenoms; lf_wrapper := L_GenesisState_2;
  lf_get := v1_GenesisState_FactoryDenoms : r_message v1_GenesisState_reflection → _;
  lf_set := v1_GenesisState_set_FactoryDenoms : _ → r_message v1_GenesisState_reflection → _;
  lf_wrap := λ e, VMessage (MGenesisDenom e); lf_unwrap := as_message is_GenesisDenom;
  lf_new := Some (Some v1_GenesisDenom_new);
  lf_Len := GenesisState_2_list_Len; lf_Get := GenesisState_2_list_Get; lf_Set := GenesisState_2_list_Set;
  lf_Append := GenesisState_2_list_Append; lf_AppendMutable := GenesisState_2_list_AppendMutable;
  lf_Truncate := GenesisState_2_list_Truncate
|}.

Definition v1_QueryDenomsFromCreatorResponse_Denoms_list : list_field := {|
  lf_R := v1_QueryDenomsFromCreatorResponse_reflection;
  lf_fd := v1_QueryDenomsFromCreatorResponse_fd_Denoms; lf_wrapper := L_QueryDenomsFromCreatorResponse_1;
  lf_get := v1_QueryDenomsFromCreatorResponse_Denoms : r_message v1_QueryDenomsFromCreatorResponse_reflection → _;
  lf_set := v1_QueryDenomsFromCreatorResponse_set_Denoms : _ → r_message v1_QueryDenomsFromCreatorResponse_reflection → _;
  lf_wrap := VString; lf_unwrap := string_element; lf_new := None;
  lf_Len := QueryDenomsFromCreatorResponse_1_list_Len; lf_Get := QueryDenomsFromCreatorResponse_1_list_Get;
  lf_Set := QueryDenomsFromCreatorResponse_1_list_Set; lf_Append := QueryDenomsFromCreatorResponse_1_list_Append;
  lf_AppendMutable := QueryDenomsFromCreatorResponse_1_list_AppendMutable;
  lf_Truncate := QueryDenomsFromCreatorResponse_1_list_Truncate
|}.

Definition wasmv1_AccessConfig_Addresses_list : list_field := {|
  lf_R := wasmv1_AccessConfig_reflection; lf_fd := wasmv1_AccessConfig_fd_Addresses; lf_wrapper := L_AccessConfig_2;
  lf_get := wasmv1_AccessConfig_Addresses : r_message wasmv1_AccessConfig_reflection → _;
  lf_set := wasmv1_AccessConfig_set_Addresses : _ → r_message wasmv1_AccessConfig_reflection → _;
  lf_wrap := VString; lf_unwrap := string_element; lf_new := None;
  lf_Len := AccessConfig_2_list_Len; lf_Get := AccessConfig_2_list_Get; lf_Set := AccessConfig_2_list_Set;
  lf_Append := AccessConfig_2_list_Append; lf_AppendMutable := AccessConfig_2_list_AppendMutable;
  lf_Truncate := AccessConfig_2_list_Truncate
|}.

Definition api_lists : list list_field :=
  [v1_Params_DenomCreationFee_list; v1_GenesisState_FactoryDenoms_list;
   v1_QueryDenomsFromCreatorResponse_Denoms_list; wasmv1_AccessConfig_Addresses_list].

(** * What a list promises *)

(** The operations that change a list, and what they do to a finite list; [None] is a panic. *)
Inductive list_op (E : Type) :=
| OSet (i : Z) (v : Value)
| OAppend (v : Value)
| OAppendMutable
| OTruncate (slack : list E) (n : Z).
Arguments OSet {_}.
Arguments OAppend {_}.
Arguments OAppendMutable {_}.
Arguments OTruncate {_}.

Definition in_range {E} (l : list E) (i : Z) : bool := (0 <=? i) && (i <? Z.of_nat (length l)).

Definition spec_op (F : list_field) (op : list_op (lf_E F)) (l : list (lf_E F)) : option (list (lf_E F)) :=
  match op with
  | OSet i v =>
      match lf_unwrap F v with
      | Ok e => if in_range l i then Some (<[Z.to_nat i := e]> l) else None
      | _ => None
      end
  | OAppend v => match lf_unwrap F v with Ok e => Some (l ++ [e]) | _ => None end
  | OAppendMutable => (λ e, l ++ [e]) <$> lf_new F
  | OTruncate slack n =>
      if (0 <=? n) && (n <=? Z.of_nat (length (l ++ slack))) then Some (take (Z.to_nat n) (l ++ slack)) else None
  end.

(** The operations one after the other, up to the first that panics. *)
Fixpoint spec_ops (F : list_field) (ops : list (list_op (lf_E F))) (l : list (lf_E F)) : bool * list (lf_E F) :=
  match ops with
  | [] => (true, l)
  | op :: ops => match spec_op F op l with Some l => spec_ops F ops l | None => (false, l) end
  end.

(** The same through a wrapper. *)
Definition run_op (F : list_field) w (op : list_op (lf_E F)) : M (option (r_message (lf_R F))) unit :=
  match op with
  | OSet i v => lf_Set F w i v
  | OAppend v => lf_Append F w v
  | OAppendMutable => let! _ := lf_AppendMutable F w in ret ()
  | OTruncate slack n => lf_Truncate F slack w n
  end.

Fixpoint run_list_ops (F : list_field) w (ops : list (list_op (lf_E F))) : M (option (r_message (lf_R F))) unit :=
  match ops with [] => ret () | op :: ops => run_op F w op ;;; run_list_ops F w ops end.

(** * Laws *)

Section reference.
Context {T E : Type} (get : T → list E) (set : list E → T → T).
Context (set_get : ∀ m, set (get m) m = m) (get_set : ∀ l m, get (set l m) = l).
Context (set_set : ∀ l l' m, set l (set l' m) = set l m).
Implicit Types (m : T).

Lemma list_Set_run unwrap i v m :
  list_Set unwrap (Some (field_ref get set)) i v (Some m) =
  match unwrap v with
  | Ok e => if in_range (get m) i then (Ok (), Some (set (<[Z.to_nat i := e]> (get m)) m))
            else (Panic index_panic, Some m)
  | Err e => (Err e, Some m)
  | Panic p => (Panic p, Some m)
  end.
Proof.
  unfold list_Set, bind, lift. destruct (unwrap v) as [e|e|p]; [|done..]. cbn.
  unfold set_index, in_range. by destruct (_ && _).
Qed.

Lemma list_Append_run unwrap v m :
  list_Append unwrap (Some (field_ref get set)) v (Some m) =
  match unwrap v with
  | Ok e => (Ok (), Some (set (get m ++ [e]) m))
  | Err e => (Err e, Some m)
  | Panic p => (Panic p, Some m)
  end.
Proof. unfold list_Append, bind, lift. by destruct (unwrap v). Qed.

Lemma list_Truncate_run slack n m :
  let l := get m ++ slack in
  if (0 <=? n) && (n <=? Z.of_nat (length l)) then
    list_Truncate slack (Some (field_ref get set)) n (Some m) = (Ok (), Some (set (take (Z.to_nat n) l) m))
  else ∃ p, list_Truncate slack (Some (field_ref get set)) n (Some m) = (Panic p, Some m).
Proof. cbn zeta. unfold list_Truncate, bind, lift. cbn. unfold reslice. destruct (_ && _); eauto. Qed.

(** Clearing what is cut off makes no difference to what is left. *)
Lemma list_Truncate_clear_run zero slack n m :
  let l := get m ++ slack in
  if (0 <=? n) && (n <=? Z.of_nat (length l)) then
    list_Truncate_clear zero slack (Some (field_ref get set)) n (Some m) = (Ok (), Some (set (take (Z.to_nat n) l) m))
  else ∃ p, list_Truncate_clear zero slack (Some (field_ref get set)) n (Some m) = (Panic p, Some m).
Proof.
  cbn zeta. unfold list_Truncate_clear, bind, lift. cbn. unfold clear_from.
  destruct (Z.leb_spec (Z.of_nat (length (get m))) n) as [Hn|Hn]; cbn.
  { rw set_get. unfold reslice. destruct (_ && _); cbn; eauto. }
  destruct (Z.ltb_spec n 0) as [H0|H0].
  { rw (proj2 (Z.leb_gt 0 n)); [|lia]. cbn. eauto. }
  cbn. rw get_set. unfold reslice. rw !length_app length_take length_replicate.
  rw (proj2 (Z.leb_le 0 n) H0) !(proj2 (Z.leb_le n _)) /=; [|lia|lia].
  unfold modify. cbn. rw set_set -(assoc_L app) take_app_length'; [|rw length_take; lia]. by rw take_app_le; [|lia].
Qed.

Lemma list_Get_run wrap i m :
  if in_range (get m) i then
    ∃ e, get m !! Z.to_nat i = Some e ∧ list_Get wrap (Some (field_ref get set)) i (Some m) = (Ok (wrap e), Some m)
  else list_Get wrap (Some (field_ref get set)) i (Some m) = (Panic index_panic, Some m).
Proof.
  unfold list_Get, bind, lift, in_range. cbn. unfold index.
  destruct (Z.ltb_spec i 0) as [Hi|Hi]; [rw (proj2 (Z.leb_gt 0 i)) //|].
  rw (proj2 (Z.leb_le 0 i) Hi) /=. destruct (Z.ltb_spec i (Z.of_nat (length (get m)))) as [Hl|Hl].
  - destruct (lookup_lt_is_Some_2 (get m) (Z.to_nat i)) as [e He]; [lia|]. exists e. by rw He.
  - rw lookup_ge_None_2 //. lia.
Qed.
End reference.

(** What makes a field and its wrapper a list. *)
Record lawful_list (F : list_field) : Prop := {
  ll_set_get m : lf_set F (lf_get F m) m = m;
  ll_get_set l m : lf_get F (lf_set F l m) = l;
  ll_set_set l l' m : lf_set F l (lf_set F l' m) = lf_set F l m;
  ll_others l m : differ_at (lf_R F) (lf_fd F) m (lf_set F l m);
  ll_Get m : r_Get (lf_R F) (Some m) (lf_fd F) = Ok (VList (lf_wrapper F (list_view (lf_get F m))));
  ll_Mutable m :
    r_Mutable (lf_R F) (lf_fd F) (Some m) = (Ok (VList (lf_wrapper F (Some (lf_get F m)))), Some m);
  ll_op op m :
    match spec_op F op (lf_get F m) with
    | Some l => run_op F (Some (lf_ref F)) op (Some m) = (Ok (), Some (lf_set F l m))
    | None => ∃ p, run_op F (Some (lf_ref F)) op (Some m) = (Panic p, Some m)
    end;
  ll_Len m : lf_Len F (Some (lf_ref F)) (Some m) = (Ok (Z.of_nat (length (lf_get F m))), Some m);
  ll_element i m :
    if in_range (lf_get F m) i then
      ∃ e, lf_get F m !! Z.to_nat i = Some e ∧
        lf_Get F (Some (lf_ref F)) i (Some m) = (Ok (lf_wrap F e), Some m)
    else ∃ p, lf_Get F (Some (lf_ref F)) i (Some m) = (Panic p, Some m);
  ll_nil op x : lf_Len F None x = (Ok 0, x) ∧ ∃ p, run_op F None op x = (Panic p, x)
}.

Lemma element_run (F : list_field) i m :
  lf_Get F = list_Get (lf_wrap F) →
  if in_range (lf_get F m) i then
    ∃ e, lf_get F m !! Z.to_nat i = Some e ∧
      lf_Get F (Some (lf_ref F)) i (Some m) = (Ok (lf_wrap F e), Some m)
  else ∃ p, lf_Get F (Some (lf_ref F)) i (Some m) = (Panic p, Some m).
Proof.
  intros ->. pose proof (list_Get_run (lf_get F) (lf_set F) (lf_wrap F) i m) as H.
  destruct (in_range _ _); eauto.
Qed.

(** The operations of a wrapper made of the methods above. *)
Record made_of (F : list_field) : Prop := {
  made_Set : lf_Set F = list_Set (lf_unwrap F);
  made_Append : lf_Append F = list_Append (lf_unwrap F);
  made_AppendMutable :
    match lf_new F with
    | Some e => lf_AppendMutable F = list_AppendMutable (lf_wrap F) e
    | None => ∃ p, lf_AppendMutable F = λ _, panic p
    end;
  made_Truncate : (∃ e, lf_Truncate F = list_Truncate_clear e) ∨ lf_Truncate F = list_Truncate;
  made_no_error v e : lf_unwrap F v ≠ Err e
}.

Lemma op_run (F : list_field) :
  made_of F →
  (∀ m, lf_set F (lf_get F m) m = m) → (∀ l m, lf_get F (lf_set F l m) = l) →
  (∀ l l' m, lf_set F l (lf_set F l' m) = lf_set F l m) →
  ∀ op m,
  match spec_op F op (lf_get F m) with
  | Some l => run_op F (Some (lf_ref F)) op (Some m) = (Ok (), Some (lf_set F l m))
  | None => ∃ p, run_op F (Some (lf_ref F)) op (Some m) = (Panic p, Some m)
  end.
Proof.
  intros [H1 H2 H3 H4 H5] Hsg Hgs Hss [i v|v| |slack n] m; cbn.
  - rw H1 list_Set_run. specialize (H5 v). destruct (lf_unwrap F v) as [e|e|p]; [|by destruct (H5 e)|eauto].
    destruct (in_range _ _); eauto.
  - rw H2 list_Append_run. specialize (H5 v). destruct (lf_unwrap F v) as [e|e|p]; [done|by destruct (H5 e)|eauto].
  - destruct (lf_new F); cbn; [by rw H3|]. destruct H3 as [p Hp]. rw Hp. by exists p.
  - destruct H4 as [[e He]|He]; rw He.
    + pose proof (list_Truncate_clear_run (lf_get F) (lf_set F) Hsg Hgs Hss e slack n m) as H.
      cbn zeta in H. by destruct (_ && _).
    + pose proof (list_Truncate_run (lf_get F) (lf_set F) slack n m) as H.
      cbn zeta in H. by destruct (_ && _).
Qed.

Lemma nil_run (F : list_field) op x : made_of F → ∃ p, run_op F None op x = (Panic p, x).
Proof.
  intros [H1 H2 H3 H4 H5]. destruct op as [i v|v| |slack n]; cbn.
  - rw H1. specialize (H5 v). unfold list_Set, bind, lift.
    destruct (lf_unwrap F v) as [e|e|p]; [eexists; reflexivity|by destruct (H5 e)|eauto].
  - rw H2. specialize (H5 v). unfold list_Append, bind, lift.
    destruct (lf_unwrap F v) as [e|e|p]; [eexists; reflexivity|by destruct (H5 e)|eauto].
  - destruct (lf_new F); [rw H3; by eexists|]. destruct H3 as [p ->]. by exists p.
  - destruct H4 as [[e ->]| ->]; by eexists.
Qed.

Lemma coin_no_error (v : Value) e : as_message is_Coin v ≠ Err e.
Proof. by destruct v as [| | | | |[]| |]. Qed.

Lemma genesis_denom_no_error (v : Value) e : as_message is_GenesisDenom v ≠ Err e.
Proof. by destruct v as [| | | | |[]| |]. Qed.

Lemma string_no_error (v : Value) e : string_element v ≠ Err e.
Proof. done. Qed.

End fields.

Arguments OSet {_ _}.
Arguments OAppend {_ _}.
Arguments OAppendMutable {_ _}.
Arguments OTruncate {_ _}.

(** The other fields of the four messages. *)
Ltac same_list_others :=
  split; [let fd' := fresh "fd'" in let k' := fresh "k'" in let H := fresh "H" in let Hne := fresh "Hne" in
          intros fd' k' H Hne;
          lazy [r_fields lf_R v1_Params_DenomCreationFee_list v1_GenesisState_FactoryDenoms_list
                v1_QueryDenomsFromCreatorResponse_Denoms_list wasmv1_AccessConfig_Addresses_list
                v1_Params_reflection v1_Params_fields v1_GenesisState_reflection v1_GenesisState_fields
                v1_QueryDenomsFromCreatorResponse_reflection v1_QueryDenomsFromCreatorResponse_fields
                wasmv1_AccessConfig_reflection wasmv1_AccessConfig_fields] in H;
          each_field H ltac:(first [by destruct (Hne eq_refl)|reflexivity])
         |reflexivity].

(** The laws of a field, from its definitions. *)
Ltac prove_list F no_error :=
  let Hm := fresh in
  assert (made_of F) as Hm by
    (constructor; [reflexivity|reflexivity|first [reflexivity | eexists; reflexivity]
                  |first [by left; eexists | by right]|apply no_error]);
  constructor;
  [ by intros [] | reflexivity | reflexivity | intros l m; same_list_others | reflexivity | reflexivity
  | apply op_run; [exact Hm|by intros []|reflexivity|reflexivity] | reflexivity
  | intros i m; apply element_run; reflexivity | intros op x; split; [reflexivity|by apply nil_run] ].

Section laws.
Context {WR : WireRuntime} {SM : SdkMessages} {VS : ValueString}.

Lemma api_lists_lawful F : F ∈ api_lists → lawful_list F.
Proof.
  assert (Forall lawful_list api_lists) as H.
  { unfold api_lists.
    constructor; [prove_list v1_Params_DenomCreationFee_list coin_no_error|].
    constructor; [prove_list v1_GenesisState_FactoryDenoms_list genesis_denom_no_error|].
    constructor; [prove_list v1_QueryDenomsFromCreatorResponse_Denoms_list string_no_error|].
    constructor; [prove_list wasmv1_AccessConfig_Addresses_list string_no_error|].
    constructor. }
  rw Forall_forall in H. apply H.
Qed.
(** ** Theorems *)

Lemma differ_at_trans (R : reflection) fd m1 m2 m3 :
  differ_at R fd m1 m2 → differ_at R fd m2 m3 → differ_at R fd m1 m3.
Proof.
  intros [H1 U1] [H2 U2]. split; [|by rw U2 U1].
  intros fd' k' Hf Hne. rw (H2 _ k') // (H1 _ k') //.
Qed.

Lemma run_list_ops_spec F ops m :
  lawful_list F →
  ∃ r m', run_list_ops F (Some (lf_ref F)) ops (Some m) = (r, Some m') ∧
    (if (spec_ops F ops (lf_get F m)).1 then r = Ok () else ∃ p, r = Panic p) ∧
    lf_get F m' = (spec_ops F ops (lf_get F m)).2 ∧ differ_at (lf_R F) (lf_fd F) m m'.
Proof.
  intros HF. revert m. induction ops as [|op ops IH]; intros m; cbn.
  { by exists (Ok ()), m. }
  pose proof (ll_op F HF op m) as Hop. destruct (spec_op F op (lf_get F m)) as [l|].
  - rw (bind_ok _ _ _ _ _ Hop). destruct (IH (lf_set F l m)) as (r & m' & H1 & H2 & H3 & H4).
    rw (ll_get_set F HF) in H2 H3. exists r, m'. split_and!; [done..|].
    eapply differ_at_trans; [apply (ll_others F HF l m)|done].
  - destruct Hop as [p Hp]. exists (Panic p), m. unfold bind. rw Hp. cbn. split_and!; [done|by exists p|done|done].
Qed.

(** C26. A list field is a list. The wrapper that Mutable hands out points to the field of the
    message: any sequence of Set, Append, AppendMutable and Truncate through it does to the
    field what the operations do to a finite list, up to the first that panics, which changes
    nothing. Get on the message, and Len and Get on the wrapper, then show that list, and no
    other field of the message is touched. *)
Theorem list_refines F ops m :
  F ∈ api_lists →
  let out := spec_ops F ops (lf_get F m) in
  ∃ r m', r_Mutable (lf_R F) (lf_fd F) (Some m) = (Ok (VList (lf_wrapper F (Some (lf_get F m)))), Some m) ∧
    run_list_ops F (Some (lf_ref F)) ops (Some m) = (r, Some m') ∧
    (if out.1 then r = Ok () else ∃ p, r = Panic p) ∧
    r_Get (lf_R F) (Some m') (lf_fd F) = Ok (VList (lf_wrapper F (list_view out.2))) ∧
    lf_Len F (Some (lf_ref F)) (Some m') = (Ok (Z.of_nat (length out.2)), Some m') ∧
    (∀ i e, out.2 !! i = Some e →
       lf_Get F (Some (lf_ref F)) (Z.of_nat i) (Some m') = (Ok (lf_wrap F e), Some m')) ∧
    differ_at (lf_R F) (lf_fd F) m m'.
Proof.
  intros HF%api_lists_lawful. cbn zeta. destruct (run_list_ops_spec F ops m HF) as (r & m' & H1 & H2 & H3 & H4).
  rw -H3. exists r, m'. split; [apply (ll_Mutable F HF)|]. split; [done|]. split; [done|].
  split; [apply (ll_Get F HF)|]. split; [apply (ll_Len F HF)|]. split; [|done].
  intros i e Hi. pose proof (ll_element F HF (Z.of_nat i) m') as He. rw Nat2Z.id in He.
  assert (in_range (lf_get F m') (Z.of_nat i) = true) as Hr.
  { apply lookup_lt_Some in Hi. unfold in_range. lia. }
  rw Hr in He. destruct He as (e' & He' & ->). by simplify_eq.
Qed.

(** The list of an empty field, as Get shows it, is read only: it has no elements, and every
    write through it panics and changes nothing. *)
Theorem empty_list_read_only F op m :
  F ∈ api_lists → lf_get F m = [] →
  r_Get (lf_R F) (Some m) (lf_fd F) = Ok (VList (lf_wrapper F None)) ∧
  lf_Len F None (Some m) = (Ok 0, Some m) ∧ ∃ p, run_op F None op (Some m) = (Panic p, Some m).
Proof.
  intros HF%api_lists_lawful Hm. split; [|apply (ll_nil F HF)]. by rw (ll_Get F HF) Hm.
Qed.

End laws.
