(* ===== verification/ReflectSpec.v ===== *)
(** Reflection on the messages of api/ together: what holds of the methods of every one of
    them. *)
From S2P Require Import Prelude.
From S2P Require Import GoJson.
From S2P Require Import Wire.
From S2P Require Import WireRead.
From S2P Require Import ApiState.
From S2P Require Import ApiTx.
From S2P Require Import ApiQuery.
From S2P Require Import ApiWasm.
From S2P Require Import Reflect.
From S2P Require Import ReflectState.
From S2P Require Import ReflectTx.
From S2P Require Import ReflectQuery.
From S2P Require Import ReflectWasm.

Section api.
Context {WR : WireRuntime} {SM : SdkMessages}.

Definition api_reflections : list reflection :=
  [v1_Params_reflection;
   v1_DenomAuthorityMetadata_reflection;
   v1_GenesisDenom_reflection;
   v1_GenesisState_reflection;
   v1_MsgCreateDenom_reflection;
   v1_MsgCreateDenomResponse_reflection;
   v1_MsgMint_reflection;
   v1_MsgMintResponse_reflection;
   v1_MsgBurn_reflection;
   v1_MsgBurnResponse_reflection;
   v1_MsgChangeAdmin_reflection;
   v1_MsgChangeAdminResponse_reflection;
   v1_MsgSetBeforeSendHook_reflection;
   v1_MsgSetBeforeSendHookResponse_reflection;
   v1_MsgSetDenomMetadata_reflection;
   v1_MsgSetDenomMetadataResponse_reflection;
   v1_MsgUpdateParams_reflection;
   v1_MsgUpdateParamsResponse_reflection;
   v1_QueryParamsRequest_reflection;
   v1_QueryParamsResponse_reflection;
   v1_QueryDenomAuthorityMetadataRequest_reflection;
   v1_QueryDenomAuthorityMetadataResponse_reflection;
   v1_QueryDenomsFromCreatorRequest_reflection;
   v1_QueryDenomsFromCreatorResponse_reflection;
   v1_QueryBeforeSendHookAddressRequest_reflection;
   v1_QueryBeforeSendHookAddressResponse_reflection;
   wasmv1_AccessConfig_reflection;
   wasmv1_MsgStoreCodeAdmin_reflection;
   wasmv1_MsgStoreCodeAdminResponse_reflection].

Lemma api_reflections_lawful R : R ∈ api_reflections → lawful_reflection R.
Proof.
  assert (Forall lawful_reflection api_reflections) as H.
  { unfold api_reflections.
    constructor; [exact v1_Params_lawful|].
    constructor; [exact v1_DenomAuthorityMetadata_lawful|].
    constructor; [exact v1_GenesisDenom_lawful|].
    constructor; [exact v1_GenesisState_lawful|].
    constructor; [exact v1_MsgCreateDenom_lawful|].
    constructor; [exact v1_MsgCreateDenomResponse_lawful|].
    constructor; [exact v1_MsgMint_lawful|].
    constructor; [exact v1_MsgMintResponse_lawful|].
    constructor; [exact v1_MsgBurn_lawful|].
    constructor; [exact v1_MsgBurnResponse_lawful|].
    constructor; [exact v1_MsgChangeAdmin_lawful|].
    constructor; [exact v1_MsgChangeAdminResponse_lawful|].
    constructor; [exact v1_MsgSetBeforeSendHook_lawful|].
    constructor; [exact v1_MsgSetBeforeSendHookResponse_lawful|].
    constructor; [exact v1_MsgSetDenomMetadata_lawful|].
    constructor; [exact v1_MsgSetDenomMetadataResponse_lawful|].
    constructor; [exact v1_MsgUpdateParams_lawful|].
    constructor; [exact v1_MsgUpdateParamsResponse_lawful|].
    constructor; [exact v1_QueryParamsRequest_lawful|].
    constructor; [exact v1_QueryParamsResponse_lawful|].
    constructor; [exact v1_QueryDenomAuthorityMetadataRequest_lawful|].
    constructor; [exact v1_QueryDenomAuthorityMetadataResponse_lawful|].
    constructor; [exact v1_QueryDenomsFromCreatorRequest_lawful|].
    constructor; [exact v1_QueryDenomsFromCreatorResponse_lawful|].
    constructor; [exact v1_QueryBeforeSendHookAddressRequest_lawful|].
    constructor; [exact v1_QueryBeforeSendHookAddressResponse_lawful|].
    constructor; [exact wasmv1_AccessConfig_lawful|].
    constructor; [exact wasmv1_MsgStoreCodeAdmin_lawful|].
    constructor; [exact wasmv1_MsgStoreCodeAdminResponse_lawful|].
    constructor. }
  rw Forall_forall in H. apply H.
Qed.

(** * Theorems *)

(** C25. Set is safe by type: a value of the kind of the field is stored, read back by Get and
    leaves every other field and the unknown fields as they were; a value of any other kind,
    a message or a list of another type and a list without a slice included, makes it panic
    and the message is not changed. A nil pointer to a message of the right type is a value of
    the kind and is stored like any other; the comment on the generated Set, which says that an
    empty, read-only value makes it panic, does not hold for it. NewField makes a value of the
    kind. *)
Theorem reflect_set R fd k v m :
  R ∈ api_reflections → (fd, k) ∈ r_fields R →
  (has_kind k v = true →
     ∃ m', r_Set R fd v (Some m) = (Ok (), Some m') ∧ r_Get R (Some m') fd = Ok (shown v) ∧
       differ_at R fd m m') ∧
  (has_kind k v = false → ∃ p, r_Set R fd v (Some m) = (Panic p, Some m)) ∧
  ∃ v0, r_NewField R fd = Ok v0 ∧ has_kind k v0 = true.
Proof.
  intros HR Hf. pose proof (api_reflections_lawful R HR) as HL. split_and!.
  - by eapply law_Set.
  - by eapply law_Set_type.
  - by eapply law_NewField.
Qed.

(** Range shows exactly the fields that are populated, in the order of the declaration and
    each with the value of Get, and stops when the function says so; a field is populated
    when Has answers true. *)
Theorem reflect_range R {S} (f : FieldDescriptor → Value → M S bool) m s :
  R ∈ api_reflections →
  r_Range R S (Some m) f s = visit_fields R m f (r_fields R) s ∧
  ∀ fd k, (fd, k) ∈ r_fields R →
    ∃ v, r_Get R (Some m) fd = Ok v ∧ r_Has R (Some m) fd = Ok (populated v).
Proof.
  intros HR. pose proof (api_reflections_lawful R HR) as HL. split; [by apply law_Range|].
  intros fd k Hf. by eapply law_Get.
Qed.

(** After Clear the field is not populated, after Mutable a composite field has a value that
    can be stored; both leave the rest of the message alone, and Mutable panics on a scalar. *)
Theorem reflect_clear_mutable R fd k m :
  R ∈ api_reflections → (fd, k) ∈ r_fields R →
  (∃ m', r_Clear R fd (Some m) = (Ok (), Some m') ∧ r_Has R (Some m') fd = Ok false ∧ differ_at R fd m m') ∧
  if composite k then
    ∃ v m', r_Mutable R fd (Some m) = (Ok v, Some m') ∧ has_kind k v = true ∧
      r_Get R (Some m') fd = Ok (shown v) ∧ differ_at R fd m m'
  else ∃ p, r_Mutable R fd (Some m) = (Panic p, Some m).
Proof.
  intros HR Hf. pose proof (api_reflections_lawful R HR) as HL. split; [by eapply law_Clear|by eapply law_Mutable].
Qed.

(** A field the message does not have makes every method panic, with an error that names
    both, and changes nothing. *)
Theorem reflect_unknown R fd v x :
  R ∈ api_reflections → Forall (λ e, FullName e.1 ≠ FullName fd) (r_fields R) →
  r_Has R x fd = no_field (r_name R) fd ∧ r_Clear R fd x = (no_field (r_name R) fd, x) ∧
  r_Get R x fd = no_field (r_name R) fd ∧ r_Set R fd v x = (no_field (r_name R) fd, x) ∧
  r_Mutable R fd x = (no_field (r_name R) fd, x) ∧ r_NewField R fd = no_field (r_name R) fd.
Proof. intros HR Hf. by apply law_unknown; [apply api_reflections_lawful|]. Qed.

End api.
