(* ===== verification/ReflectTypes.v ===== *)
(** The types of the pulsar messages: what their descriptors, New, Zero, Type and the table of
    ProtoMethods hand to the protobuf runtime, and what a new message is. *)
From S2P Require Import Prelude.
From S2P Require Import GoJson.
From S2P Require Import Wire.
From S2P Require Import WireRead.
From S2P Require Import ApiState.
From S2P Require Import ApiTx.
From S2P Require Import ApiQuery.
From S2P Require Import ApiWasm.
From S2P Require Import Reflect.
From S2P Require Import ReflectState.
From S2P Require Import ReflectTx.
From S2P Require Import ReflectQuery.
From S2P Require Import ReflectWasm.
From S2P Require Import ReflectSpec.

(** protoreflect.MessageType: Zero is a nil pointer, New a pointer to an empty message. *)
Record MessageType (A : Type) := { t_Zero : option A; t_New : option A; t_Descriptor : string }.
Arguments t_Zero {_}.
Arguments t_New {_}.
Arguments t_Descriptor {_}.

(** protoiface.Methods; the functions of the runtime that are nil are [None]. *)
Record Methods (A : Type) := {
  Flags : list string;
  m_Size : option A → Z;
  m_Marshal : option A → M raw unit;
  m_Unmarshal : bool → raw → M (option A) unit;
  m_Merge : option unit;
  m_CheckInitialized : option unit
}.
Arguments Flags {_}.
Arguments m_Size {_}.
Arguments m_Marshal {_}.
Arguments m_Unmarshal {_}.
Arguments m_Merge {_}.
Arguments m_CheckInitialized {_}.

Section types.
Context {WR : WireRuntime} {SM : SdkMessages}.

(** A message with the methods that say what it is. *)
Record message_ops := {
  o_R : reflection;
  o_Descriptor : string;
  o_Type : MessageType (r_message o_R);
  o_New : option (r_message o_R);
  o_ProtoMethods : Methods (r_message o_R);
  o_IsValid : option (r_message o_R) → bool;
  o_Reset : M (option (r_message o_R)) unit
}.

(** ** Params *)

Definition v1_Params_messageType : MessageType v1_Params :=
  {| t_Zero := None; t_New := Some v1_Params_new; t_Descriptor := "miniwasm.tokenfactory.v1.Params" |}.
Definition v1_Params_Descriptor : string := "miniwasm.tokenfactory.v1.Params".
Definition v1_Params_Type : MessageType v1_Params := v1_Params_messageType.
Definition v1_Params_New : option v1_Params := Some v1_Params_new.
Definition v1_Params_ProtoMethods : Methods v1_Params := {|
  Flags := ["SupportMarshalDeterministic"; "SupportUnmarshalDiscardUnknown"];
  m_Size := v1_Params_size; m_Marshal := v1_Params_marshal; m_Unmarshal := v1_Params_unmarshal;
  m_Merge := None; m_CheckInitialized := None |}.
Definition v1_Params_ops : message_ops := {|
  o_R := v1_Params_reflection; o_Descriptor := v1_Params_Descriptor; o_Type := v1_Params_Type; o_New := v1_Params_New;
  o_ProtoMethods := v1_Params_ProtoMethods; o_IsValid := v1_Params_IsValid; o_Reset := v1_Params_Reset |}.

(** ** DenomAuthorityMetadata *)

Definition v1_DenomAuthorityMetadata_messageType : MessageType v1_DenomAuthorityMetadata :=
  {| t_Zero := None; t_New := Some v1_DenomAuthorityMetadata_new; t_Descriptor := "miniwasm.tokenfactory.v1.DenomAuthorityMetadata" |}.
Definition v1_DenomAuthorityMetadata_Descriptor : string := "miniwasm.tokenfactory.v1.DenomAuthorityMetadata".
Definition v1_DenomAuthorityMetadata_Type : MessageType v1_DenomAuthorityMetadata := v1_DenomAuthorityMetadata_messageType.
Definition v1_DenomAuthorityMetadata_New : option v1_DenomAuthorityMetadata := Some v1_DenomAuthorityMetadata_new.
Definition v1_DenomAuthorityMetadata_ProtoMethods : Methods v1_DenomAuthorityMetadata := {|
  Flags := ["SupportMarshalDeterministic"; "SupportUnmarshalDiscardUnknown"];
  m_Size := v1_DenomAuthorityMetadata_size; m_Marshal := v1_DenomAuthorityMetadata_marshal; m_Unmarshal := v1_DenomAuthorityMetadata_unmarshal;
  m_Merge := None; m_CheckInitialized := None |}.
Definition v1_DenomAuthorityMetadata_ops : message_ops := {|
  o_R := v1_DenomAuthorityMetadata_reflection; o_Descriptor := v1_DenomAuthorityMetadata_Descriptor; o_Type := v1_DenomAuthorityMetadata_Type; o_New := v1_DenomAuthorityMetadata_New;
  o_ProtoMethods := v1_DenomAuthorityMetadata_ProtoMethods; o_IsValid := v1_DenomAuthorityMetadata_IsValid; o_Reset := v1_DenomAuthorityMetadata_Reset |}.

(** ** GenesisDenom *)

Definition v1_GenesisDenom_messageType : MessageType v1_GenesisDenom :=
  {| t_Zero := None; t_New := Some v1_GenesisDenom_new; t_Descriptor := "miniwasm.tokenfactory.v1.GenesisDenom" |}.
Definition v1_GenesisDenom_Descriptor : string := "miniwasm.tokenfactory.v1.GenesisDenom".
Definition v1_GenesisDenom_Type : MessageType v1_GenesisDenom := v1_GenesisDenom_messageType.
Definition v1_GenesisDenom_New : option v1_GenesisDenom := Some v1_GenesisDenom_new.
Definition v1_GenesisDenom_ProtoMethods : Methods v1_GenesisDenom := {|
  Flags := ["SupportMarshalDeterministic"; "SupportUnmarshalDiscardUnknown"];
  m_Size := v1_GenesisDenom_size; m_Marshal := v1_GenesisDenom_marshal; m_Unmarshal := v1_GenesisDenom_unmarshal;
  m_Merge := None; m_CheckInitialized := None |}.
Definition v1_GenesisDenom_ops : message_ops := {|
  o_R := v1_GenesisDenom_reflection; o_Descriptor := v1_GenesisDenom_Descriptor; o_Type := v1_GenesisDenom_Type; o_New := v1_GenesisDenom_New;
  o_ProtoMethods := v1_GenesisDenom_ProtoMethods; o_IsValid := v1_GenesisDenom_IsValid; o_Reset := v1_GenesisDenom_Reset |}.

(** ** GenesisState *)

Definition v1_GenesisState_messageType : MessageType v1_GenesisState :=
  {| t_Zero := None; t_New := Some v1_GenesisState_new; t_Descriptor := "miniwasm.tokenfactory.v1.GenesisState" |}.
Definition v1_GenesisState_Descriptor : string := "miniwasm.tokenfactory.v1.GenesisState".
Definition v1_GenesisState_Type : MessageType v1_GenesisState := v1_GenesisState_messageType.
Definition v1_GenesisState_New : option v1_GenesisState := Some v1_GenesisState_new.
Definition v1_GenesisState_ProtoMethods : Methods v1_GenesisState := {|
  Flags := ["SupportMarshalDeterministic"; "SupportUnmarshalDiscardUnknown"];
  m_Size := v1_GenesisState_size; m_Marshal := v1_GenesisState_marshal; m_Unmarshal := v1_GenesisState_unmarshal;
  m_Merge := None; m_CheckInitialized := None |}.
Definition v1_GenesisState_ops : message_ops := {|
  o_R := v1_GenesisState_reflection; o_Descriptor := v1_GenesisState_Descriptor; o_Type := v1_GenesisState_Type; o_New := v1_GenesisState_New;
  o_ProtoMethods := v1_GenesisState_ProtoMethods; o_IsValid := v1_GenesisState_IsValid; o_Reset := v1_GenesisState_Reset |}.

(** ** MsgCreateDenom *)

Definition v1_MsgCreateDenom_messageType : MessageType v1_MsgCreateDenom :=
  {| t_Zero := None; t_New := Some v1_MsgCreateDenom_new; t_Descriptor := "miniwasm.tokenfactory.v1.MsgCreateDenom" |}.
Definition v1_MsgCreateDenom_Descriptor : string := "miniwasm.tokenfactory.v1.MsgCreateDenom".
Definition v1_MsgCreateDenom_Type : MessageType v1_MsgCreateDenom := v1_MsgCreateDenom_messageType.
Definition v1_MsgCreateDenom_New : option v1_MsgCreateDenom := Some v1_MsgCreateDenom_new.
Definition v1_MsgCreateDenom_ProtoMethods : Methods v1_MsgCreateDenom := {|
  Flags := ["SupportMarshalDeterministic"; "SupportUnmarshalDiscardUnknown"];
  m_Size := v1_MsgCreateDenom_size; m_Marshal := v1_MsgCreateDenom_marshal; m_Unmarshal := v1_MsgCreateDenom_unmarshal;
  m_Merge := None; m_CheckInitialized := None |}.
Definition v1_MsgCreateDenom_ops : message_ops := {|
  o_R := v1_MsgCreateDenom_reflection; o_Descriptor := v1_MsgCreateDenom_Descriptor; o_Type := v1_MsgCreateDenom_Type; o_New := v1_MsgCreateDenom_New;
  o_ProtoMethods := v1_MsgCreateDenom_ProtoMethods; o_IsValid := v1_MsgCreateDenom_IsValid; o_Reset := v1_MsgCreateDenom_Reset |}.

(** ** MsgCreateDenomResponse *)

Definition v1_MsgCreateDenomResponse_messageType : MessageType v1_MsgCreateDenomResponse :=
  {| t_Zero := None; t_New := Some v1_MsgCreateDenomResponse_new; t_Descriptor := "miniwasm.tokenfactory.v1.MsgCreateDenomResponse" |}.
Definition v1_MsgCreateDenomResponse_Descriptor : string := "miniwasm.tokenfactory.v1.MsgCreateDenomResponse".
Definition v1_MsgCreateDenomResponse_Type : MessageType v1_MsgCreateDenomResponse := v1_MsgCreateDenomResponse_messageType.
Definition v1_MsgCreateDenomResponse_New : option v1_MsgCreateDenomResponse := Some v1_MsgCreateDenomResponse_new.
Definition v1_MsgCreateDenomResponse_ProtoMethods : Methods v1_MsgCreateDenomResponse := {|
  Flags := ["SupportMarshalDeterministic"; "SupportUnmarshalDiscardUnknown"];
  m_Size := v1_MsgCreateDenomResponse_size; m_Marshal := v1_MsgCreateDenomResponse_marshal; m_Unmarshal := v1_MsgCreateDenomResponse_unmarshal;
  m_Merge := None; m_CheckInitialized := None |}.
Definition v1_MsgCreateDenomResponse_ops : message_ops := {|
  o_R := v1_MsgCreateDenomResponse_reflection; o_Descriptor := v1_MsgCreateDenomResponse_Descriptor; o_Type := v1_MsgCreateDenomResponse_Type; o_New := v1_MsgCreateDenomResponse_New;
  o_ProtoMethods := v1_MsgCreateDenomResponse_ProtoMethods; o_IsValid := v1_MsgCreateDenomResponse_IsValid; o_Reset := v1_MsgCreateDenomResponse_Reset |}.

(** ** MsgMint *)

Definition v1_MsgMint_messageType : MessageType v1_MsgMint :=
  {| t_Zero := None; t_New := Some v1_MsgMint_new; t_Descriptor := "miniwasm.tokenfactory.v1.MsgMint" |}.
Definition v1_MsgMint_Descriptor : string := "miniwasm.tokenfactory.v1.MsgMint".
Definition v1_MsgMint_Type : MessageType v1_MsgMint := v1_MsgMint_messageType.
Definition v1_MsgMint_New : option v1_MsgMint := Some v1_MsgMint_new.
Definition v1_MsgMint_ProtoMethods : Methods v1_MsgMint := {|
  Flags := ["SupportMarshalDeterministic"; "SupportUnmarshalDiscardUnknown"];
  m_Size := v1_MsgMint_size; m_Marshal := v1_MsgMint_marshal; m_Unmarshal := v1_MsgMint_unmarshal;
  m_Merge := None; m_CheckInitialized := None |}.
Definition v1_MsgMint_ops : message_ops := {|
  o_R := v1_MsgMint_reflection; o_Descriptor := v1_MsgMint_Descriptor; o_Type := v1_MsgMint_Type; o_New := v1_MsgMint_New;
  o_ProtoMethods := v1_MsgMint_ProtoMethods; o_IsValid := v1_MsgMint_IsValid; o_Reset := v1_MsgMint_Reset |}.

(** ** MsgMintResponse *)

Definition v1_MsgMintResponse_messageType : MessageType v1_MsgMintResponse :=
  {| t_Zero := None; t_New := Some v1_MsgMintResponse_new; t_Descriptor := "miniwasm.tokenfactory.v1.MsgMintResponse" |}.
Definition v1_MsgMintResponse_Descriptor : string := "miniwasm.tokenfactory.v1.MsgMintResponse".
Definition v1_MsgMintResponse_Type : MessageType v1_MsgMintResponse := v1_MsgMintResponse_messageType.
Definition v1_MsgMintResponse_New : option v1_MsgMintResponse := Some v1_MsgMintResponse_new.
Definition v1_MsgMintResponse_ProtoMethods : Methods v1_MsgMintResponse := {|
  Flags := ["SupportMarshalDeterministic"; "SupportUnmarshalDiscardUnknown"];
  m_Size := v1_MsgMintResponse_size; m_Marshal := v1_MsgMintResponse_marshal; m_Unmarshal := v1_MsgMintResponse_unmarshal;
  m_Merge := None; m_CheckInitialized := None |}.
Definition v1_MsgMintResponse_ops : message_ops := {|
  o_R := v1_MsgMintResponse_reflection; o_Descriptor := v1_MsgMintResponse_Descriptor; o_Type := v1_MsgMintResponse_Type; o_New := v1_MsgMintResponse_New;
  o_ProtoMethods := v1_MsgMintResponse_ProtoMethods; o_IsValid := v1_MsgMintResponse_IsValid; o_Reset := v1_MsgMintResponse_Reset |}.

(** ** MsgBurn *)

Definition v1_MsgBurn_messageType : MessageType v1_MsgBurn :=
  {| t_Zero := None; t_New := Some v1_MsgBurn_new; t_Descriptor := "miniwasm.tokenfactory.v1.MsgBurn" |}.
Definition v1_MsgBurn_Descriptor : string := "miniwasm.tokenfactory.v1.MsgBurn".
Definition v1_MsgBurn_Type : MessageType v1_MsgBurn := v1_MsgBurn_messageType.
Definition v1_MsgBurn_New : option v1_MsgBurn := Some v1_MsgBurn_new.
Definition v1_MsgBurn_ProtoMethods : Methods v1_MsgBurn := {|
  Flags := ["SupportMarshalDeterministic"; "SupportUnmarshalDiscardUnknown"];
  m_Size := v1_MsgBurn_size; m_Marshal := v1_MsgBurn_marshal; m_Unmarshal := v1_MsgBurn_unmarshal;
  m_Merge := None; m_CheckInitialized := None |}.
Definition v1_MsgBurn_ops : message_ops := {|
  o_R := v1_MsgBurn_reflection; o_Descriptor := v1_MsgBurn_Descriptor; o_Type := v1_MsgBurn_Type; o_New := v1_MsgBurn_New;
  o_ProtoMethods := v1_MsgBurn_ProtoMethods; o_IsValid := v1_MsgBurn_IsValid; o_Reset := v1_MsgBurn_Reset |}.

(** ** MsgBurnResponse *)

Definition v1_MsgBurnResponse_messageType : MessageType v1_MsgBurnResponse :=
  {| t_Zero := None; t_New := Some v1_MsgBurnResponse_new; t_Descriptor := "miniwasm.tokenfactory.v1.MsgBurnResponse" |}.
Definition v1_MsgBurnResponse_Descriptor : string := "miniwasm.tokenfactory.v1.MsgBurnResponse".
Definition v1_MsgBurnResponse_Type : MessageType v1_MsgBurnResponse := v1_MsgBurnResponse_messageType.
Definition v1_MsgBurnResponse_New : option v1_MsgBurnResponse := Some v1_MsgBurnResponse_new.
Definition v1_MsgBurnResponse_ProtoMethods : Methods v1_MsgBurnResponse := {|
  Flags := ["SupportMarshalDeterministic"; "SupportUnmarshalDiscardUnknown"];
  m_Size := v1_MsgBurnResponse_size; m_Marshal := v1_MsgBurnResponse_marshal; m_Unmarshal := v1_MsgBurnResponse_unmarshal;
  m_Merge := None; m_CheckInitialized := None |}.
Definition v1_MsgBurnResponse_ops : message_ops := {|
  o_R := v1_MsgBurnResponse_reflection; o_Descriptor := v1_MsgBurnResponse_Descriptor; o_Type := v1_MsgBurnResponse_Type; o_New := v1_MsgBurnResponse_New;
  o_ProtoMethods := v1_MsgBurnResponse_ProtoMethods; o_IsValid := v1_MsgBurnResponse_IsValid; o_Reset := v1_MsgBurnResponse_Reset |}.

(** ** MsgChangeAdmin *)

Definition v1_MsgChangeAdmin_messageType : MessageType v1_MsgChangeAdmin :=
  {| t_Zero := None; t_New := Some v1_MsgChangeAdmin_new; t_Descriptor := "miniwasm.tokenfactory.v1.MsgChangeAdmin" |}.
Definition v1_MsgChangeAdmin_Descriptor : string := "miniwasm.tokenfactory.v1.MsgChangeAdmin".
Definition v1_MsgChangeAdmin_Type : MessageType v1_MsgChangeAdmin := v1_MsgChangeAdmin_messageType.
Definition v1_MsgChangeAdmin_New : option v1_MsgChangeAdmin := Some v1_MsgChangeAdmin_new.
Definition v1_MsgChangeAdmin_ProtoMethods : Methods v1_MsgChangeAdmin := {|
  Flags := ["SupportMarshalDeterministic"; "SupportUnmarshalDiscardUnknown"];
  m_Size := v1_MsgChangeAdmin_size; m_Marshal := v1_MsgChangeAdmin_marshal; m_Unmarshal := v1_MsgChangeAdmin_unmarshal;
  m_Merge := None; m_CheckInitialized := None |}.
Definition v1_MsgChangeAdmin_ops : message_ops := {|
  o_R := v1_MsgChangeAdmin_reflection; o_Descriptor := v1_MsgChangeAdmin_Descriptor; o_Type := v1_MsgChangeAdmin_Type; o_New := v1_MsgChangeAdmin_New;
  o_ProtoMethods := v1_MsgChangeAdmin_ProtoMethods; o_IsValid := v1_MsgChangeAdmin_IsValid; o_Reset := v1_MsgChangeAdmin_Reset |}.

(** ** MsgChangeAdminResponse *)

Definition v1_MsgChangeAdminResponse_messageType : MessageType v1_MsgChangeAdminResponse :=
  {| t_Zero := None; t_New := Some v1_MsgChangeAdminResponse_new; t_Descriptor := "miniwasm.tokenfactory.v1.MsgChangeAdminResponse" |}.
Definition v1_MsgChangeAdminResponse_Descriptor : string := "miniwasm.tokenfactory.v1.MsgChangeAdminResponse".
Definition v1_MsgChangeAdminResponse_Type : MessageType v1_MsgChangeAdminResponse := v1_MsgChangeAdminResponse_messageType.
Definition v1_MsgChangeAdminResponse_New : option v1_MsgChangeAdminResponse := Some v1_MsgChangeAdminResponse_new.
Definition v1_MsgChangeAdminResponse_ProtoMethods : Methods v1_MsgChangeAdminResponse := {|
  Flags := ["SupportMarshalDeterministic"; "SupportUnmarshalDiscardUnknown"];
  m_Size := v1_MsgChangeAdminResponse_size; m_Marshal := v1_MsgChangeAdminResponse_marshal; m_Unmarshal := v1_MsgChangeAdminResponse_unmarshal;
  m_Merge := None; m_CheckInitialized := None |}.
Definition v1_MsgChangeAdminResponse_ops : message_ops := {|
  o_R := v1_MsgChangeAdminResponse_reflection; o_Descriptor := v1_MsgChangeAdminResponse_Descriptor; o_Type := v1_MsgChangeAdminResponse_Type; o_New := v1_MsgChangeAdminResponse_New;
  o_ProtoMethods := v1_MsgChangeAdminResponse_ProtoMethods; o_IsValid := v1_MsgChangeAdminResponse_IsValid; o_Reset := v1_MsgChangeAdminResponse_Reset |}.

(** ** MsgSetBeforeSendHook *)

Definition v1_MsgSetBeforeSendHook_messageType : MessageType v1_MsgSetBeforeSendHook :=
  {| t_Zero := None; t_New := Some v1_MsgSetBeforeSendHook_new; t_Descriptor := "miniwasm.tokenfactory.v1.MsgSetBeforeSendHook" |}.
Definition v1_MsgSetBeforeSendHook_Descriptor : string := "miniwasm.tokenfactory.v1.MsgSetBeforeSendHook".
Definition v1_MsgSetBeforeSendHook_Type : MessageType v1_MsgSetBeforeSendHook := v1_MsgSetBeforeSendHook_messageType.
Definition v1_MsgSetBeforeSendHook_New : option v1_MsgSetBeforeSendHook := Some v1_MsgSetBeforeSendHook_new.
Definition v1_MsgSetBeforeSendHook_ProtoMethods : Methods v1_MsgSetBeforeSendHook := {|
  Flags := ["SupportMarshalDeterministic"; "SupportUnmarshalDiscardUnknown"];
  m_Size := v1_MsgSetBeforeSendHook_size; m_Marshal := v1_MsgSetBeforeSendHook_marshal; m_Unmarshal := v1_MsgSetBeforeSendHook_unmarshal;
  m_Merge := None; m_CheckInitialized := None |}.
Definition v1_MsgSetBeforeSendHook_ops : message_ops := {|
  o_R := v1_MsgSetBeforeSendHook_reflection; o_Descriptor := v1_MsgSetBeforeSendHook_Descriptor; o_Type := v1_MsgSetBeforeSendHook_Type; o_New := v1_MsgSetBeforeSendHook_New;
  o_ProtoMethods := v1_MsgSetBeforeSendHook_ProtoMethods; o_IsValid := v1_MsgSetBeforeSendHook_IsValid; o_Reset := v1_MsgSetBeforeSendHook_Reset |}.

(** ** MsgSetBeforeSendHookResponse *)

Definition v1_MsgSetBeforeSendHookResponse_messageType : MessageType v1_MsgSetBeforeSendHookResponse :=
  {| t_Zero := None; t_New := Some v1_MsgSetBeforeSendHookResponse_new; t_Descriptor := "miniwasm.tokenfactory.v1.MsgSetBeforeSendHookResponse" |}.
Definition v1_MsgSetBeforeSendHookResponse_Descriptor : string := "miniwasm.tokenfactory.v1.MsgSetBeforeSendHookResponse".
Definition v1_MsgSetBeforeSendHookResponse_Type : MessageType v1_MsgSetBeforeSendHookResponse := v1_MsgSetBeforeSendHookResponse_messageType.
Definition v1_MsgSetBeforeSendHookResponse_New : option v1_MsgSetBeforeSendHookResponse := Some v1_MsgSetBeforeSendHookResponse_new.
Definition v1_MsgSetBeforeSendHookResponse_ProtoMethods : Methods v1_MsgSetBeforeSendHookResponse := {|
  Flags := ["SupportMarshalDeterministic"; "SupportUnmarshalDiscardUnknown"];
  m_Size := v1_MsgSetBeforeSendHookResponse_size; m_Marshal := v1_MsgSetBeforeSendHookResponse_marshal; m_Unmarshal := v1_MsgSetBeforeSendHookResponse_unmarshal;
  m_Merge := None; m_CheckInitialized := None |}.
Definition v1_MsgSetBeforeSendHookResponse_ops : message_ops := {|
  o_R := v1_MsgSetBeforeSendHookResponse_reflection; o_Descriptor := v1_MsgSetBeforeSendHookResponse_Descriptor; o_Type := v1_MsgSetBeforeSendHookResponse_Type; o_New := v1_MsgSetBeforeSendHookResponse_New;
  o_ProtoMethods := v1_MsgSetBeforeSendHookResponse_ProtoMethods; o_IsValid := v1_MsgSetBeforeSendHookResponse_IsValid; o_Reset := v1_MsgSetBeforeSendHookResponse_Reset |}.

(** ** MsgSetDenomMetadata *)

Definition v1_MsgSetDenomMetadata_messageType : MessageType v1_MsgSetDenomMetadata :=
  {| t_Zero := None; t_New := Some v1_MsgSetDenomMetadata_new; t_Descriptor := "miniwasm.tokenfactory.v1.MsgSetDenomMetadata" |}.
Definition v1_MsgSetDenomMetadata_Descriptor : string := "miniwasm.tokenfactory.v1.MsgSetDenomMetadata".
Definition v1_MsgSetDenomMetadata_Type : MessageType v1_MsgSetDenomMetadata := v1_MsgSetDenomMetadata_messageType.
Definition v1_MsgSetDenomMetadata_New : option v1_MsgSetDenomMetadata := Some v1_MsgSetDenomMetadata_new.
Definition v1_MsgSetDenomMetadata_ProtoMethods : Methods v1_MsgSetDenomMetadata := {|
  Flags := ["SupportMarshalDeterministic"; "SupportUnmarshalDiscardUnknown"];
  m_Size := v1_MsgSetDenomMetadata_size; m_Marshal := v1_MsgSetDenomMetadata_marshal; m_Unmarshal := v1_MsgSetDenomMetadata_unmarshal;
  m_Merge := None; m_CheckInitialized := None |}.
Definition v1_MsgSetDenomMetadata_ops : message_ops := {|
  o_R := v1_MsgSetDenomMetadata_reflection; o_Descriptor := v1_MsgSetDenomMetadata_Descriptor; o_Type := v1_MsgSetDenomMetadata_Type; o_New := v1_MsgSetDenomMetadata_New;
  o_ProtoMethods := v1_MsgSetDenomMetadata_ProtoMethods; o_IsValid := v1_MsgSetDenomMetadata_IsValid; o_Reset := v1_MsgSetDenomMetadata_Reset |}.

(** ** MsgSetDenomMetadataResponse *)

Definition v1_MsgSetDenomMetadataResponse_messageType : MessageType v1_MsgSetDenomMetadataResponse :=
  {| t_Zero := None; t_New := Some v1_MsgSetDenomMetadataResponse_new; t_Descriptor := "miniwasm.tokenfactory.v1.MsgSetDenomMetadataResponse" |}.
Definition v1_MsgSetDenomMetadataResponse_Descriptor : string := "miniwasm.tokenfactory.v1.MsgSetDenomMetadataResponse".
Definition v1_MsgSetDenomMetadataResponse_Type : MessageType v1_MsgSetDenomMetadataResponse := v1_MsgSetDenomMetadataResponse_messageType.
Definition v1_MsgSetDenomMetadataResponse_New : option v1_MsgSetDenomMetadataResponse := Some v1_MsgSetDenomMetadataResponse_new.
Definition v1_MsgSetDenomMetadataResponse_ProtoMethods : Methods v1_MsgSetDenomMetadataResponse := {|
  Flags := ["SupportMarshalDeterministic"; "SupportUnmarshalDiscardUnknown"];
  m_Size := v1_MsgSetDenomMetadataResponse_size; m_Marshal := v1_MsgSetDenomMetadataResponse_marshal; m_Unmarshal := v1_MsgSetDenomMetadataResponse_unmarshal;
  m_Merge := None; m_CheckInitialized := None |}.
Definition v1_MsgSetDenomMetadataResponse_ops : message_ops := {|
  o_R := v1_MsgSetDenomMetadataResponse_reflection; o_Descriptor := v1_MsgSetDenomMetadataResponse_Descriptor; o_Type := v1_MsgSetDenomMetadataResponse_Type; o_New := v1_MsgSetDenomMetadataResponse_New;
  o_ProtoMethods := v1_MsgSetDenomMetadataResponse_ProtoMethods; o_IsValid := v1_MsgSetDenomMetadataResponse_IsValid; o_Reset := v1_MsgSetDenomMetadataResponse_Reset |}.

(** ** MsgUpdateParams *)

Definition v1_MsgUpdateParams_messageType : MessageType v1_MsgUpdateParams :=
  {| t_Zero := None; t_New := Some v1_MsgUpdateParams_new; t_Descriptor := "miniwasm.tokenfactory.v1.MsgUpdateParams" |}.
Definition v1_MsgUpdateParams_Descriptor : string := "miniwasm.tokenfactory.v1.MsgUpdateParams".
Definition v1_MsgUpdateParams_Type : MessageType v1_MsgUpdateParams := v1_MsgUpdateParams_messageType.
Definition v1_MsgUpdateParams_New : option v1_MsgUpdateParams := Some v1_MsgUpdateParams_new.
Definition v1_MsgUpdateParams_ProtoMethods : Methods v1_MsgUpdateParams := {|
  Flags := ["SupportMarshalDeterministic"; "SupportUnmarshalDiscardUnknown"];
  m_Size := v1_MsgUpdateParams_size; m_Marshal := v1_MsgUpdateParams_marshal; m_Unmarshal := v1_MsgUpdateParams_unmarshal;
  m_Merge := None; m_CheckInitialized := None |}.
Definition v1_MsgUpdateParams_ops : message_ops := {|
  o_R := v1_MsgUpdateParams_reflection; o_Descriptor := v1_MsgUpdateParams_Descriptor; o_Type := v1_MsgUpdateParams_Type; o_New := v1_MsgUpdateParams_New;
  o_ProtoMethods := v1_MsgUpdateParams_ProtoMethods; o_IsValid := v1_MsgUpdateParams_IsValid; o_Reset := v1_MsgUpdateParams_Reset |}.

(** ** MsgUpdateParamsResponse *)

Definition v1_MsgUpdateParamsResponse_messageType : MessageType v1_MsgUpdateParamsResponse :=
  {| t_Zero := None; t_New := Some v1_MsgUpdateParamsResponse_new; t_Descriptor := "miniwasm.tokenfactory.v1.MsgUpdateParamsResponse" |}.
Definition v1_MsgUpdateParamsResponse_Descriptor : string := "miniwasm.tokenfactory.v1.MsgUpdateParamsResponse".
Definition v1_MsgUpdateParamsResponse_Type : MessageType v1_MsgUpdateParamsResponse := v1_MsgUpdateParamsResponse_messageType.
Definition v1_MsgUpdateParamsResponse_New : option v1_MsgUpdateParamsResponse := Some v1_MsgUpdateParamsResponse_new.
Definition v1_MsgUpdateParamsResponse_ProtoMethods : Methods v1_MsgUpdateParamsResponse := {|
  Flags := ["SupportMarshalDeterministic"; "SupportUnmarshalDiscardUnknown"];
  m_Size := v1_MsgUpdateParamsResponse_size; m_Marshal := v1_MsgUpdateParamsResponse_marshal; m_Unmarshal := v1_MsgUpdateParamsResponse_unmarshal;
  m_Merge := None; m_CheckInitialized := None |}.
Definition v1_MsgUpdateParamsResponse_ops : message_ops := {|
  o_R := v1_MsgUpdateParamsResponse_reflection; o_Descriptor := v1_MsgUpdateParamsResponse_Descriptor; o_Type := v1_MsgUpdateParamsResponse_Type; o_New := v1_MsgUpdateParamsResponse_New;
  o_ProtoMethods := v1_MsgUpdateParamsResponse_ProtoMethods; o_IsValid := v1_MsgUpdateParamsResponse_IsValid; o_Reset := v1_MsgUpdateParamsResponse_Reset |}.

(** ** QueryParamsRequest *)

Definition v1_QueryParamsRequest_messageType : MessageType v1_QueryParamsRequest :=
  {| t_Zero := None; t_New := Some v1_QueryParamsRequest_new; t_Descriptor := "miniwasm.tokenfactory.v1.QueryParamsRequest" |}.
Definition v1_QueryParamsRequest_Descriptor : string := "miniwasm.tokenfactory.v1.QueryParamsRequest".
Definition v1_QueryParamsRequest_Type : MessageType v1_QueryParamsRequest := v1_QueryParamsRequest_messageType.
Definition v1_QueryParamsRequest_New : option v1_QueryParamsRequest := Some v1_QueryParamsRequest_new.
Definition v1_QueryParamsRequest_ProtoMethods : Methods v1_QueryParamsRequest := {|
  Flags := ["SupportMarshalDeterministic"; "SupportUnmarshalDiscardUnknown"];
  m_Size := v1_QueryParamsRequest_size; m_Marshal := v1_QueryParamsRequest_marshal; m_Unmarshal := v1_QueryParamsRequest_unmarshal;
  m_Merge := None; m_CheckInitialized := None |}.
Definition v1_QueryParamsRequest_ops : message_ops := {|
  o_R := v1_QueryParamsRequest_reflection; o_Descriptor := v1_QueryParamsRequest_Descriptor; o_Type := v1_QueryParamsRequest_Type; o_New := v1_QueryParamsRequest_New;
  o_ProtoMethods := v1_QueryParamsRequest_ProtoMethods; o_IsValid := v1_QueryParamsRequest_IsValid; o_Reset := v1_QueryParamsRequest_Reset |}.

(** ** QueryParamsResponse *)

Definition v1_QueryParamsResponse_messageType : MessageType v1_QueryParamsResponse :=
  {| t_Zero := None; t_New := Some v1_QueryParamsResponse_new; t_Descriptor := "miniwasm.tokenfactory.v1.QueryParamsResponse" |}.
Definition v1_QueryParamsResponse_Descriptor : string := "miniwasm.tokenfactory.v1.QueryParamsResponse".
Definition v1_QueryParamsResponse_Type : MessageType v1_QueryParamsResponse := v1_QueryParamsResponse_messageType.
Definition v1_QueryParamsResponse_New : option v1_QueryParamsResponse := Some v1_QueryParamsResponse_new.
Definition v1_QueryParamsResponse_ProtoMethods : Methods v1_QueryParamsResponse := {|
  Flags := ["SupportMarshalDeterministic"; "SupportUnmarshalDiscardUnknown"];
  m_Size := v1_QueryParamsResponse_size; m_Marshal := v1_QueryParamsResponse_marshal; m_Unmarshal := v1_QueryParamsResponse_unmarshal;
  m_Merge := None; m_CheckInitialized := None |}.
Definition v1_QueryParamsResponse_ops : message_ops := {|
  o_R := v1_QueryParamsResponse_reflection; o_Descriptor := v1_QueryParamsResponse_Descriptor; o_Type := v1_QueryParamsResponse_Type; o_New := v1_QueryParamsResponse_New;
  o_ProtoMethods := v1_QueryParamsResponse_ProtoMethods; o_IsValid := v1_QueryParamsResponse_IsValid; o_Reset := v1_QueryParamsResponse_Reset |}.

(** ** QueryDenomAuthorityMetadataRequest *)

Definition v1_QueryDenomAuthorityMetadataRequest_messageType : MessageType v1_QueryDenomAuthorityMetadataRequest :=
  {| t_Zero := None; t_New := Some v1_QueryDenomAuthorityMetadataRequest_new; t_Descriptor := "miniwasm.tokenfactory.v1.QueryDenomAuthorityMetadataRequest" |}.
Definition v1_QueryDenomAuthorityMetadataRequest_Descriptor : string := "miniwasm.tokenfactory.v1.QueryDenomAuthorityMetadataRequest".
Definition v1_QueryDenomAuthorityMetadataRequest_Type : MessageType v1_QueryDenomAuthorityMetadataRequest := v1_QueryDenomAuthorityMetadataRequest_messageType.
Definition v1_QueryDenomAuthorityMetadataRequest_New : option v1_QueryDenomAuthorityMetadataRequest := Some v1_QueryDenomAuthorityMetadataRequest_new.
Definition v1_QueryDenomAuthorityMetadataRequest_ProtoMethods : Methods v1_QueryDenomAuthorityMetadataRequest := {|
  Flags := ["SupportMarshalDeterministic"; "SupportUnmarshalDiscardUnknown"];
  m_Size := v1_QueryDenomAuthorityMetadataRequest_size; m_Marshal := v1_QueryDenomAuthorityMetadataRequest_marshal; m_Unmarshal := v1_QueryDenomAuthorityMetadataRequest_unmarshal;
  m_Merge := None; m_CheckInitialized := None |}.
Definition v1_QueryDenomAuthorityMetadataRequest_ops : message_ops := {|
  o_R := v1_QueryDenomAuthorityMetadataRequest_reflection; o_Descriptor := v1_QueryDenomAuthorityMetadataRequest_Descriptor; o_Type := v1_QueryDenomAuthorityMetadataRequest_Type; o_New := v1_QueryDenomAuthorityMetadataRequest_New;
  o_ProtoMethods := v1_QueryDenomAuthorityMetadataRequest_ProtoMethods; o_IsValid := v1_QueryDenomAuthorityMetadataRequest_IsValid; o_Reset := v1_QueryDenomAuthorityMetadataRequest_Reset |}.

(** ** QueryDenomAuthorityMetadataResponse *)

Definition v1_QueryDenomAuthorityMetadataResponse_messageType : MessageType v1_QueryDenomAuthorityMetadataResponse :=
  {| t_Zero := None; t_New := Some v1_QueryDenomAuthorityMetadataResponse_new; t_Descriptor := "miniwasm.tokenfactory.v1.QueryDenomAuthorityMetadataResponse" |}.
Definition v1_QueryDenomAuthorityMetadataResponse_Descriptor : string := "miniwasm.tokenfactory.v1.QueryDenomAuthorityMetadataResponse".
Definition v1_QueryDenomAuthorityMetadataResponse_Type : MessageType v1_QueryDenomAuthorityMetadataResponse := v1_QueryDenomAuthorityMetadataResponse_messageType.
Definition v1_QueryDenomAuthorityMetadataResponse_New : option v1_QueryDenomAuthorityMetadataResponse := Some v1_QueryDenomAuthorityMetadataResponse_new.
Definition v1_QueryDenomAuthorityMetadataResponse_ProtoMethods : Methods v1_QueryDenomAuthorityMetadataResponse := {|
  Flags := ["SupportMarshalDeterministic"; "SupportUnmarshalDiscardUnknown"];
  m_Size := v1_QueryDenomAuthorityMetadataResponse_size; m_Marshal := v1_QueryDenomAuthorityMetadataResponse_marshal; m_Unmarshal := v1_QueryDenomAuthorityMetadataResponse_unmarshal;
  m_Merge := None; m_CheckInitialized := None |}.
Definition v1_QueryDenomAuthorityMetadataResponse_ops : message_ops := {|
  o_R := v1_QueryDenomAuthorityMetadataResponse_reflection; o_Descriptor := v1_QueryDenomAuthorityMetadataResponse_Descriptor; o_Type := v1_QueryDenomAuthorityMetadataResponse_Type; o_New := v1_QueryDenomAuthorityMetadataResponse_New;
  o_ProtoMethods := v1_QueryDenomAuthorityMetadataResponse_ProtoMethods; o_IsValid := v1_QueryDenomAuthorityMetadataResponse_IsValid; o_Reset := v1_QueryDenomAuthorityMetadataResponse_Reset |}.

(** ** QueryDenomsFromCreatorRequest *)

Definition v1_QueryDenomsFromCreatorRequest_messageType : MessageType v1_QueryDenomsFromCreatorRequest :=
  {| t_Zero := None; t_New := Some v1_QueryDenomsFromCreatorRequest_new; t_Descriptor := "miniwasm.tokenfactory.v1.QueryDenomsFromCreatorRequest" |}.
Definition v1_QueryDenomsFromCreatorRequest_Descriptor : string := "miniwasm.tokenfactory.v1.QueryDenomsFromCreatorRequest".
Definition v1_QueryDenomsFromCreatorRequest_Type : MessageType v1_QueryDenomsFromCreatorRequest := v1_QueryDenomsFromCreatorRequest_messageType.
Definition v1_QueryDenomsFromCreatorRequest_New : option v1_QueryDenomsFromCreatorRequest := Some v1_QueryDenomsFromCreatorRequest_new.
Definition v1_QueryDenomsFromCreatorRequest_ProtoMethods : Methods v1_QueryDenomsFromCreatorRequest := {|
  Flags := ["SupportMarshalDeterministic"; "SupportUnmarshalDiscardUnknown"];
  m_Size := v1_QueryDenomsFromCreatorRequest_size; m_Marshal := v1_QueryDenomsFromCreatorRequest_marshal; m_Unmarshal := v1_QueryDenomsFromCreatorRequest_unmarshal;
  m_Merge := None; m_CheckInitialized := None |}.
Definition v1_QueryDenomsFromCreatorRequest_ops : message_ops := {|
  o_R := v1_QueryDenomsFromCreatorRequest_reflection; o_Descriptor := v1_QueryDenomsFromCreatorRequest_Descriptor; o_Type := v1_QueryDenomsFromCreatorRequest_Type; o_New := v1_QueryDenomsFromCreatorRequest_New;
  o_ProtoMethods := v1_QueryDenomsFromCreatorRequest_ProtoMethods; o_IsValid := v1_QueryDenomsFromCreatorRequest_IsValid; o_Reset := v1_QueryDenomsFromCreatorRequest_Reset |}.

(** ** QueryDenomsFromCreatorResponse *)

Definition v1_QueryDenomsFromCreatorResponse_messageType : MessageType v1_QueryDenomsFromCreatorResponse :=
  {| t_Zero := None; t_New := Some v1_QueryDenomsFromCreatorResponse_new; t_Descriptor := "miniwasm.tokenfactory.v1.QueryDenomsFromCreatorResponse" |}.
Definition v1_QueryDenomsFromCreatorResponse_Descriptor : string := "miniwasm.tokenfactory.v1.QueryDenomsFromCreatorResponse".
Definition v1_QueryDenomsFromCreatorResponse_Type : MessageType v1_QueryDenomsFromCreatorResponse := v1_QueryDenomsFromCreatorResponse_messageType.
Definition v1_QueryDenomsFromCreatorResponse_New : option v1_QueryDenomsFromCreatorResponse := Some v1_QueryDenomsFromCreatorResponse_new.
Definition v1_QueryDenomsFromCreatorResponse_ProtoMethods : Methods v1_QueryDenomsFromCreatorResponse := {|
  Flags := ["SupportMarshalDeterministic"; "SupportUnmarshalDiscardUnknown"];
  m_Size := v1_QueryDenomsFromCreatorResponse_size; m_Marshal := v1_QueryDenomsFromCreatorResponse_marshal; m_Unmarshal := v1_QueryDenomsFromCreatorResponse_unmarshal;
  m_Merge := None; m_CheckInitialized := None |}.
Definition v1_QueryDenomsFromCreatorResponse_ops : message_ops := {|
  o_R := v1_QueryDenomsFromCreatorResponse_reflection; o_Descriptor := v1_QueryDenomsFromCreatorResponse_Descriptor; o_Type := v1_QueryDenomsFromCreatorResponse_Type; o_New := v1_QueryDenomsFromCreatorResponse_New;
  o_ProtoMethods := v1_QueryDenomsFromCreatorResponse_ProtoMethods; o_IsValid := v1_QueryDenomsFromCreatorResponse_IsValid; o_Reset := v1_QueryDenomsFromCreatorResponse_Reset |}.

(** ** QueryBeforeSendHookAddressRequest *)

Definition v1_QueryBeforeSendHookAddressRequest_messageType : MessageType v1_QueryBeforeSendHookAddressRequest :=
  {| t_Zero := None; t_New := Some v1_QueryBeforeSendHookAddressRequest_new; t_Descriptor := "miniwasm.tokenfactory.v1.QueryBeforeSendHookAddressRequest" |}.
Definition v1_QueryBeforeSendHookAddressRequest_Descriptor : string := "miniwasm.tokenfactory.v1.QueryBeforeSendHookAddressRequest".
Definition v1_QueryBeforeSendHookAddressRequest_Type : MessageType v1_QueryBeforeSendHookAddressRequest := v1_QueryBeforeSendHookAddressRequest_messageType.
Definition v1_QueryBeforeSendHookAddressRequest_New : option v1_QueryBeforeSendHookAddressRequest := Some v1_QueryBeforeSendHookAddressRequest_new.
Definition v1_QueryBeforeSendHookAddressRequest_ProtoMethods : Methods v1_QueryBeforeSendHookAddressRequest := {|
  Flags := ["SupportMarshalDeterministic"; "SupportUnmarshalDiscardUnknown"];
  m_Size := v1_QueryBeforeSendHookAddressRequest_size; m_Marshal := v1_QueryBeforeSendHookAddressRequest_marshal; m_Unmarshal := v1_QueryBeforeSendHookAddressRequest_unmarshal;
  m_Merge := None; m_CheckInitialized := None |}.
Definition v1_QueryBeforeSendHookAddressRequest_ops : message_ops := {|
  o_R := v1_QueryBeforeSendHookAddressRequest_reflection; o_Descriptor := v1_QueryBeforeSendHookAddressRequest_Descriptor; o_Type := v1_QueryBeforeSendHookAddressRequest_Type; o_New := v1_QueryBeforeSendHookAddressRequest_New;
  o_ProtoMethods := v1_QueryBeforeSendHookAddressRequest_ProtoMethods; o_IsValid := v1_QueryBeforeSendHookAddressRequest_IsValid; o_Reset := v1_QueryBeforeSendHookAddressRequest_Reset |}.

(** ** QueryBeforeSendHookAddressResponse *)

Definition v1_QueryBeforeSendHookAddressResponse_messageType : MessageType v1_QueryBeforeSendHookAddressResponse :=
  {| t_Zero := None; t_New := Some v1_QueryBeforeSendHookAddressResponse_new; t_Descriptor := "miniwasm.tokenfactory.v1.QueryBeforeSendHookAddressResponse" |}.
Definition v1_QueryBeforeSendHookAddressResponse_Descriptor : string := "miniwasm.tokenfactory.v1.QueryBeforeSendHookAddressResponse".
Definition v1_QueryBeforeSendHookAddressResponse_Type : MessageType v1_QueryBeforeSendHookAddressResponse := v1_QueryBeforeSendHookAddressResponse_messageType.
Definition v1_QueryBeforeSendHookAddressResponse_New : option v1_QueryBeforeSendHookAddressResponse := Some v1_QueryBeforeSendHookAddressResponse_new.
Definition v1_QueryBeforeSendHookAddressResponse_ProtoMethods : Methods v1_QueryBeforeSendHookAddressResponse := {|
  Flags := ["SupportMarshalDeterministic"; "SupportUnmarshalDiscardUnknown"];
  m_Size := v1_QueryBeforeSendHookAddressResponse_size; m_Marshal := v1_QueryBeforeSendHookAddressResponse_marshal; m_Unmarshal := v1_QueryBeforeSendHookAddressResponse_unmarshal;
  m_Merge := None; m_CheckInitialized := None |}.
Definition v1_QueryBeforeSendHookAddressResponse_ops : message_ops := {|
  o_R := v1_QueryBeforeSendHookAddressResponse_reflection; o_Descriptor := v1_QueryBeforeSendHookAddressResponse_Descriptor; o_Type := v1_QueryBeforeSendHookAddressResponse_Type; o_New := v1_QueryBeforeSendHookAddressResponse_New;
  o_ProtoMethods := v1_QueryBeforeSendHookAddressResponse_ProtoMethods; o_IsValid := v1_QueryBeforeSendHookAddressResponse_IsValid; o_Reset := v1_QueryBeforeSendHookAddressResponse_Reset |}.

(** ** AccessConfig *)

Definition wasmv1_AccessConfig_messageType : MessageType wasmv1_AccessConfig :=
  {| t_Zero := None; t_New := Some wasmv1_AccessConfig_new; t_Descriptor := "miniwasm.wasmextension.v1.AccessConfig" |}.
Definition wasmv1_AccessConfig_Descriptor : string := "miniwasm.wasmextension.v1.AccessConfig".
Definition wasmv1_AccessConfig_Type : MessageType wasmv1_AccessConfig := wasmv1_AccessConfig_messageType.
Definition wasmv1_AccessConfig_New : option wasmv1_AccessConfig := Some wasmv1_AccessConfig_new.
Definition wasmv1_AccessConfig_ProtoMethods : Methods wasmv1_AccessConfig := {|
  Flags := ["SupportMarshalDeterministic"; "SupportUnmarshalDiscardUnknown"];
  m_Size := wasmv1_AccessConfig_size; m_Marshal := wasmv1_AccessConfig_marshal; m_Unmarshal := wasmv1_AccessConfig_unmarshal;
  m_Merge := None; m_CheckInitialized := None |}.
Definition wasmv1_AccessConfig_ops : message_ops := {|
  o_R := wasmv1_AccessConfig_reflection; o_Descriptor := wasmv1_AccessConfig_Descriptor; o_Type := wasmv1_AccessConfig_Type; o_New := wasmv1_AccessConfig_New;
  o_ProtoMethods := wasmv1_AccessConfig_ProtoMethods; o_IsValid := wasmv1_AccessConfig_IsValid; o_Reset := wasmv1_AccessConfig_Reset |}.

(** ** MsgStoreCodeAdmin *)

Definition wasmv1_MsgStoreCodeAdmin_messageType : MessageType wasmv1_MsgStoreCodeAdmin :=
  {| t_Zero := None; t_New := Some wasmv1_MsgStoreCodeAdmin_new; t_Descriptor := "miniwasm.wasmextension.v1.MsgStoreCodeAdmin" |}.
Definition wasmv1_MsgStoreCodeAdmin_Descriptor : string := "miniwasm.wasmextension.v1.MsgStoreCodeAdmin".
Definition wasmv1_MsgStoreCodeAdmin_Type : MessageType wasmv1_MsgStoreCodeAdmin := wasmv1_MsgStoreCodeAdmin_messageType.
Definition wasmv1_MsgStoreCodeAdmin_New : option wasmv1_MsgStoreCodeAdmin := Some wasmv1_MsgStoreCodeAdmin_new.
Definition wasmv1_MsgStoreCodeAdmin_ProtoMethods : Methods wasmv1_MsgStoreCodeAdmin := {|
  Flags := ["SupportMarshalDeterministic"; "SupportUnmarshalDiscardUnknown"];
  m_Size := wasmv1_MsgStoreCodeAdmin_size; m_Marshal := wasmv1_MsgStoreCodeAdmin_marshal; m_Unmarshal := wasmv1_MsgStoreCodeAdmin_unmarshal;
  m_Merge := None; m_CheckInitialized := None |}.
Definition wasmv1_MsgStoreCodeAdmin_ops : message_ops := {|
  o_R := wasmv1_MsgStoreCodeAdmin_reflection; o_Descriptor := wasmv1_MsgStoreCodeAdmin_Descriptor; o_Type := wasmv1_MsgStoreCodeAdmin_Type; o_New := wasmv1_MsgStoreCodeAdmin_New;
  o_ProtoMethods := wasmv1_MsgStoreCodeAdmin_ProtoMethods; o_IsValid := wasmv1_MsgStoreCodeAdmin_IsValid; o_Reset := wasmv1_MsgStoreCodeAdmin_Reset |}.

(** ** MsgStoreCodeAdminResponse *)

Definition wasmv1_MsgStoreCodeAdminResponse_messageType : MessageType wasmv1_MsgStoreCodeAdminResponse :=
  {| t_Zero := None; t_New := Some wasmv1_MsgStoreCodeAdminResponse_new; t_Descriptor := "miniwasm.wasmextension.v1.MsgStoreCodeAdminResponse" |}.
Definition wasmv1_MsgStoreCodeAdminResponse_Descriptor : string := "miniwasm.wasmextension.v1.MsgStoreCodeAdminResponse".
Definition wasmv1_MsgStoreCodeAdminResponse_Type : MessageType wasmv1_MsgStoreCodeAdminResponse := wasmv1_MsgStoreCodeAdminResponse_messageType.
Definition wasmv1_MsgStoreCodeAdminResponse_New : option wasmv1_MsgStoreCodeAdminResponse := Some wasmv1_MsgStoreCodeAdminResponse_new.
Definition wasmv1_MsgStoreCodeAdminResponse_ProtoMethods : Methods wasmv1_MsgStoreCodeAdminResponse := {|
  Flags := ["SupportMarshalDeterministic"; "SupportUnmarshalDiscardUnknown"];
  m_Size := wasmv1_MsgStoreCodeAdminResponse_size; m_Marshal := wasmv1_MsgStoreCodeAdminResponse_marshal; m_Unmarshal := wasmv1_MsgStoreCodeAdminResponse_unmarshal;
  m_Merge := None; m_CheckInitialized := None |}.
Definition wasmv1_MsgStoreCodeAdminResponse_ops : message_ops := {|
  o_R := wasmv1_MsgStoreCodeAdminResponse_reflection; o_Descriptor := wasmv1_MsgStoreCodeAdminResponse_Descriptor; o_Type := wasmv1_MsgStoreCodeAdminResponse_Type; o_New := wasmv1_MsgStoreCodeAdminResponse_New;
  o_ProtoMethods := wasmv1_MsgStoreCodeAdminResponse_ProtoMethods; o_IsValid := wasmv1_MsgStoreCodeAdminResponse_IsValid; o_Reset := wasmv1_MsgStoreCodeAdminResponse_Reset |}.

Definition api_types : list message_ops :=
  [v1_Params_ops;
   v1_DenomAuthorityMetadata_ops;
   v1_GenesisDenom_ops;
   v1_GenesisState_ops;
   v1_MsgCreateDenom_ops;
   v1_MsgCreateDenomResponse_ops;
   v1_MsgMint_ops;
   v1_MsgMintResponse_ops;
   v1_MsgBurn_ops;
   v1_MsgBurnResponse_ops;
   v1_MsgChangeAdmin_ops;
   v1_MsgChangeAdminResponse_ops;
   v1_MsgSetBeforeSendHook_ops;
   v1_MsgSetBeforeSendHookResponse_ops;
   v1_MsgSetDenomMetadata_ops;
   v1_MsgSetDenomMetadataResponse_ops;
   v1_MsgUpdateParams_ops;
   v1_MsgUpdateParamsResponse_ops;
   v1_QueryParamsRequest_ops;
   v1_QueryParamsResponse_ops;
   v1_QueryDenomAuthorityMetadataRequest_ops;
   v1_QueryDenomAuthorityMetadataResponse_ops;
   v1_QueryDenomsFromCreatorRequest_ops;
   v1_QueryDenomsFromCreatorResponse_ops;
   v1_QueryBeforeSendHookAddressRequest_ops;
   v1_QueryBeforeSendHookAddressResponse_ops;
   wasmv1_AccessConfig_ops;
   wasmv1_MsgStoreCodeAdmin_ops;
   wasmv1_MsgStoreCodeAdminResponse_ops].

(** ** Theorems *)

(** What is to be said of every message. *)
Definition new_is_empty (T : message_ops) : Prop :=
  let R := o_R T in let methods := o_ProtoMethods T in
  o_R T ∈ api_reflections ∧ o_Descriptor T = r_name R ∧ t_Descriptor (o_Type T) = r_name R ∧
  t_New (o_Type T) = o_New T ∧ o_IsValid T (o_New T) = true ∧
  (∀ x, o_Reset T (Some x) = (Ok (), o_New T)) ∧
  (∀ S (f : FieldDescriptor → Value → M S bool) s, r_Range R S (o_New T) f s = (Ok (), s)) ∧
  r_GetUnknown R (o_New T) = Ok [] ∧
  m_Size methods (o_New T) = 0 ∧ marshalled (m_Marshal methods (o_New T)) = Ok [] ∧
  (∀ discard, m_Unmarshal methods discard [] (o_New T) = (Ok (), o_New T)) ∧
  o_IsValid T (t_Zero (o_Type T)) = false ∧ m_Size methods (t_Zero (o_Type T)) = 0 ∧
  marshalled (m_Marshal methods (t_Zero (o_Type T))) = Ok [].

(** A new message is empty, however it is made: the New of a message and of its type, and
    Reset, give the same valid message, in which no field is populated and no field unknown,
    which takes no bytes on the wire and is what no bytes are read as. The zero value of the
    type is not valid, and takes no bytes either. Both carry the name of the descriptor. *)
Theorem new_message_empty T : T ∈ api_types → new_is_empty T.
Proof.
  assert (Forall new_is_empty api_types) as H.
  { unfold api_types, new_is_empty.
    repeat (apply Forall_cons; split; [split; [by do 29 (apply list_elem_of_here || apply list_elem_of_further)|split_and!; reflexivity]|]).
    constructor. }
  rw Forall_forall in H. apply H.
Qed.

End types.
