(* ===== verification/ApiSpec.v ===== *)
(** The messages of api/ together: what holds of the wire format of every one of them. *)
From S2P Require Import Prelude.
From S2P Require Import GoJson.
From S2P Require Import Wire.
From S2P Require Import WireSpec.
From S2P Require Import WireRead.
From S2P Require Import ApiState.
From S2P Require Import ApiTx.
From S2P Require Import ApiQuery.
From S2P Require Import ApiWasm.

(** * Codecs *)

(** The methods of a message, its reference encoding (the fields in the order of their
    numbers, each as the protobuf documentation has it, and the unknown fields), and the
    messages that it can carry: numbers within their types, no nil among repeated messages,
    unknown fields well formed. *)
Record codec := Codec {
  c_type : Type;
  c_new : c_type;
  c_size : option c_type → Z;
  c_marshal : option c_type → M raw unit;
  c_unmarshal : bool → raw → M (option c_type) unit;
  c_enc : c_type → raw;
  c_ok : c_type → Prop
}.

Record lawful (c : codec) : Prop := {
  lawful_writes x : encodes (c_marshal c (Some x)) (c_size c (Some x)) (c_enc c x);
  lawful_reads x : c_ok c x → len (c_enc c x) < 2 ^ 63 →
    c_unmarshal c false (c_enc c x) (Some (c_new c)) = (Ok (), Some x);
  lawful_total d bz x : len bz < 2 ^ 63 → no_panic (c_unmarshal c d bz x).1
}.

Section api.
Context {WR : WireRuntime} {SM : SdkMessages} {WL : WireRuntimeLaws WR} {SL : SdkMessagesLaws SM}.

Definition v1_Params_codec : codec := Codec v1_Params v1_Params_new v1_Params_size
  v1_Params_marshal v1_Params_unmarshal v1_Params_enc v1_Params_ok.
Definition v1_DenomAuthorityMetadata_codec : codec := Codec v1_DenomAuthorityMetadata v1_DenomAuthorityMetadata_new v1_DenomAuthorityMetadata_size
  v1_DenomAuthorityMetadata_marshal v1_DenomAuthorityMetadata_unmarshal v1_DenomAuthorityMetadata_enc v1_DenomAuthorityMetadata_ok.
Definition v1_GenesisDenom_codec : codec := Codec v1_GenesisDenom v1_GenesisDenom_new v1_GenesisDenom_size
  v1_GenesisDenom_marshal v1_GenesisDenom_unmarshal v1_GenesisDenom_enc v1_GenesisDenom_ok.
Definition v1_GenesisState_codec : codec := Codec v1_GenesisState v1_GenesisState_new v1_GenesisState_size
  v1_GenesisState_marshal v1_GenesisState_unmarshal v1_GenesisState_enc v1_GenesisState_ok.
Definition v1_MsgCreateDenom_codec : codec := Codec v1_MsgCreateDenom v1_MsgCreateDenom_new v1_MsgCreateDenom_size
  v1_MsgCreateDenom_marshal v1_MsgCreateDenom_unmarshal v1_MsgCreateDenom_enc v1_MsgCreateDenom_ok.
Definition v1_MsgCreateDenomResponse_codec : codec := Codec v1_MsgCreateDenomResponse v1_MsgCreateDenomResponse_new v1_MsgCreateDenomResponse_size
  v1_MsgCreateDenomResponse_marshal v1_MsgCreateDenomResponse_unmarshal v1_MsgCreateDenomResponse_enc v1_MsgCreateDenomResponse_ok.
Definition v1_MsgMint_codec : codec := Codec v1_MsgMint v1_MsgMint_new v1_MsgMint_size
  v1_MsgMint_marshal v1_MsgMint_unmarshal v1_MsgMint_enc v1_MsgMint_ok.
Definition v1_MsgMintResponse_codec : codec := Codec v1_MsgMintResponse v1_MsgMintResponse_new v1_MsgMintResponse_size
  v1_MsgMintResponse_marshal v1_MsgMintResponse_unmarshal v1_MsgMintResponse_enc v1_MsgMintResponse_ok.
Definition v1_MsgBurn_codec : codec := Codec v1_MsgBurn v1_MsgBurn_new v1_MsgBurn_size
  v1_MsgBurn_marshal v1_MsgBurn_unmarshal v1_MsgBurn_enc v1_MsgBurn_ok.
Definition v1_MsgBurnResponse_codec : codec := Codec v1_MsgBurnResponse v1_MsgBurnResponse_new v1_MsgBurnResponse_size
  v1_MsgBurnResponse_marshal v1_MsgBurnResponse_unmarshal v1_MsgBurnResponse_enc v1_MsgBurnResponse_ok.
Definition v1_MsgChangeAdmin_codec : codec := Codec v1_MsgChangeAdmin v1_MsgChangeAdmin_new v1_MsgChangeAdmin_size
  v1_MsgChangeAdmin_marshal v1_MsgChangeAdmin_unmarshal v1_MsgChangeAdmin_enc v1_MsgChangeAdmin_ok.
Definition v1_MsgChangeAdminResponse_codec : codec := Codec v1_MsgChangeAdminResponse v1_MsgChangeAdminResponse_new v1_MsgChangeAdminResponse_size
  v1_MsgChangeAdminResponse_marshal v1_MsgChangeAdminResponse_unmarshal v1_MsgChangeAdminResponse_enc v1_MsgChangeAdminResponse_ok.
Definition v1_MsgSetBeforeSendHook_codec : codec := Codec v1_MsgSetBeforeSendHook v1_MsgSetBeforeSendHook_new v1_MsgSetBeforeSendHook_size
  v1_MsgSetBeforeSendHook_marshal v1_MsgSetBeforeSendHook_unmarshal v1_MsgSetBeforeSendHook_enc v1_MsgSetBeforeSendHook_ok.
Definition v1_MsgSetBeforeSendHookResponse_codec : codec := Codec v1_MsgSetBeforeSendHookResponse v1_MsgSetBeforeSendHookResponse_new v1_MsgSetBeforeSendHookResponse_size
  v1_MsgSetBeforeSendHookResponse_marshal v1_MsgSetBeforeSendHookResponse_unmarshal v1_MsgSetBeforeSendHookResponse_enc v1_MsgSetBeforeSendHookResponse_ok.
Definition v1_MsgSetDenomMetadata_codec : codec := Codec v1_MsgSetDenomMetadata v1_MsgSetDenomMetadata_new v1_MsgSetDenomMetadata_size
  v1_MsgSetDenomMetadata_marshal v1_MsgSetDenomMetadata_unmarshal v1_MsgSetDenomMetadata_enc v1_MsgSetDenomMetadata_ok.
Definition v1_MsgSetDenomMetadataResponse_codec : codec := Codec v1_MsgSetDenomMetadataResponse v1_MsgSetDenomMetadataResponse_new v1_MsgSetDenomMetadataResponse_size
  v1_MsgSetDenomMetadataResponse_marshal v1_MsgSetDenomMetadataResponse_unmarshal v1_MsgSetDenomMetadataResponse_enc v1_MsgSetDenomMetadataResponse_ok.
Definition v1_MsgUpdateParams_codec : codec := Codec v1_MsgUpdateParams v1_MsgUpdateParams_new v1_MsgUpdateParams_size
  v1_MsgUpdateParams_marshal v1_MsgUpdateParams_unmarshal v1_MsgUpdateParams_enc v1_MsgUpdateParams_ok.
Definition v1_MsgUpdateParamsResponse_codec : codec := Codec v1_MsgUpdateParamsResponse v1_MsgUpdateParamsResponse_new v1_MsgUpdateParamsResponse_size
  v1_MsgUpdateParamsResponse_marshal v1_MsgUpdateParamsResponse_unmarshal v1_MsgUpdateParamsResponse_enc v1_MsgUpdateParamsResponse_ok.
Definition v1_QueryParamsRequest_codec : codec := Codec v1_QueryParamsRequest v1_QueryParamsRequest_new v1_QueryParamsRequest_size
  v1_QueryParamsRequest_marshal v1_QueryParamsRequest_unmarshal v1_QueryParamsRequest_enc v1_QueryParamsRequest_ok.
Definition v1_QueryParamsResponse_codec : codec := Codec v1_QueryParamsResponse v1_QueryParamsResponse_new v1_QueryParamsResponse_size
  v1_QueryParamsResponse_marshal v1_QueryParamsResponse_unmarshal v1_QueryParamsResponse_enc v1_QueryParamsResponse_ok.
Definition v1_QueryDenomAuthorityMetadataRequest_codec : codec := Codec v1_QueryDenomAuthorityMetadataRequest v1_QueryDenomAuthorityMetadataRequest_new v1_QueryDenomAuthorityMetadataRequest_size
  v1_QueryDenomAuthorityMetadataRequest_marshal v1_QueryDenomAuthorityMetadataRequest_unmarshal v1_QueryDenomAuthorityMetadataRequest_enc v1_QueryDenomAuthorityMetadataRequest_ok.
Definition v1_QueryDenomAuthorityMetadataResponse_codec : codec := Codec v1_QueryDenomAuthorityMetadataResponse v1_QueryDenomAuthorityMetadataResponse_new v1_QueryDenomAuthorityMetadataResponse_size
  v1_QueryDenomAuthorityMetadataResponse_marshal v1_QueryDenomAuthorityMetadataResponse_unmarshal v1_QueryDenomAuthorityMetadataResponse_enc v1_QueryDenomAuthorityMetadataResponse_ok.
Definition v1_QueryDenomsFromCreatorRequest_codec : codec := Codec v1_QueryDenomsFromCreatorRequest v1_QueryDenomsFromCreatorRequest_new v1_QueryDenomsFromCreatorRequest_size
  v1_QueryDenomsFromCreatorRequest_marshal v1_QueryDenomsFromCreatorRequest_unmarshal v1_QueryDenomsFromCreatorRequest_enc v1_QueryDenomsFromCreatorRequest_ok.
Definition v1_QueryDenomsFromCreatorResponse_codec : codec := Codec v1_QueryDenomsFromCreatorResponse v1_QueryDenomsFromCreatorResponse_new v1_QueryDenomsFromCreatorResponse_size
  v1_QueryDenomsFromCreatorResponse_marshal v1_QueryDenomsFromCreatorResponse_unmarshal v1_QueryDenomsFromCreatorResponse_enc v1_QueryDenomsFromCreatorResponse_ok.
Definition v1_QueryBeforeSendHookAddressRequest_codec : codec := Codec v1_QueryBeforeSendHookAddressRequest v1_QueryBeforeSendHookAddressRequest_new v1_QueryBeforeSendHookAddressRequest_size
  v1_QueryBeforeSendHookAddressRequest_marshal v1_QueryBeforeSendHookAddressRequest_unmarshal v1_QueryBeforeSendHookAddressRequest_enc v1_QueryBeforeSendHookAddressRequest_ok.
Definition v1_QueryBeforeSendHookAddressResponse_codec : codec := Codec v1_QueryBeforeSendHookAddressResponse v1_QueryBeforeSendHookAddressResponse_new v1_QueryBeforeSendHookAddressResponse_size
  v1_QueryBeforeSendHookAddressResponse_marshal v1_QueryBeforeSendHookAddressResponse_unmarshal v1_QueryBeforeSendHookAddressResponse_enc v1_QueryBeforeSendHookAddressResponse_ok.
Definition wasmv1_AccessConfig_codec : codec := Codec wasmv1_AccessConfig wasmv1_AccessConfig_new wasmv1_AccessConfig_size
  wasmv1_AccessConfig_marshal wasmv1_AccessConfig_unmarshal wasmv1_AccessConfig_enc wasmv1_AccessConfig_ok.
Definition wasmv1_MsgStoreCodeAdmin_codec : codec := Codec wasmv1_MsgStoreCodeAdmin wasmv1_MsgStoreCodeAdmin_new wasmv1_MsgStoreCodeAdmin_size
  wasmv1_MsgStoreCodeAdmin_marshal wasmv1_MsgStoreCodeAdmin_unmarshal wasmv1_MsgStoreCodeAdmin_enc wasmv1_MsgStoreCodeAdmin_ok.
Definition wasmv1_MsgStoreCodeAdminResponse_codec : codec := Codec wasmv1_MsgStoreCodeAdminResponse wasmv1_MsgStoreCodeAdminResponse_new wasmv1_MsgStoreCodeAdminResponse_size
  wasmv1_MsgStoreCodeAdminResponse_marshal wasmv1_MsgStoreCodeAdminResponse_unmarshal wasmv1_MsgStoreCodeAdminResponse_enc wasmv1_MsgStoreCodeAdminResponse_ok.

(** Every message of the two packages. *)
Definition api_codecs : list codec := [
  v1_Params_codec; v1_DenomAuthorityMetadata_codec; v1_GenesisDenom_codec; v1_GenesisState_codec;
  v1_MsgCreateDenom_codec; v1_MsgCreateDenomResponse_codec; v1_MsgMint_codec; v1_MsgMintResponse_codec;
  v1_MsgBurn_codec; v1_MsgBurnResponse_codec; v1_MsgChangeAdmin_codec; v1_MsgChangeAdminResponse_codec;
  v1_MsgSetBeforeSendHook_codec; v1_MsgSetBeforeSendHookResponse_codec; v1_MsgSetDenomMetadata_codec;
  v1_MsgSetDenomMetadataResponse_codec; v1_MsgUpdateParams_codec; v1_MsgUpdateParamsResponse_codec;
  v1_QueryParamsRequest_codec; v1_QueryParamsResponse_codec;
  v1_QueryDenomAuthorityMetadataRequest_codec; v1_QueryDenomAuthorityMetadataResponse_codec;
  v1_QueryDenomsFromCreatorRequest_codec; v1_QueryDenomsFromCreatorResponse_codec;
  v1_QueryBeforeSendHookAddressRequest_codec; v1_QueryBeforeSendHookAddressResponse_codec;
  wasmv1_AccessConfig_codec; wasmv1_MsgStoreCodeAdmin_codec; wasmv1_MsgStoreCodeAdminResponse_codec
].

Ltac by_laws w r t := constructor; [split; [exact w|exact r|exact t]|].

Lemma api_lawful_all : Forall lawful api_codecs.
Proof.
  by_laws v1_Params_writes v1_Params_reads v1_Params_total.
  by_laws v1_DenomAuthorityMetadata_writes v1_DenomAuthorityMetadata_reads v1_DenomAuthorityMetadata_total.
  by_laws v1_GenesisDenom_writes v1_GenesisDenom_reads v1_GenesisDenom_total.
  by_laws v1_GenesisState_writes v1_GenesisState_reads v1_GenesisState_total.
  by_laws v1_MsgCreateDenom_writes v1_MsgCreateDenom_reads v1_MsgCreateDenom_total.
  by_laws v1_MsgCreateDenomResponse_writes v1_MsgCreateDenomResponse_reads v1_MsgCreateDenomResponse_total.
  by_laws v1_MsgMint_writes v1_MsgMint_reads v1_MsgMint_total.
  by_laws v1_MsgMintResponse_writes v1_MsgMintResponse_reads v1_MsgMintResponse_total.
  by_laws v1_MsgBurn_writes v1_MsgBurn_reads v1_MsgBurn_total.
  by_laws v1_MsgBurnResponse_writes v1_MsgBurnResponse_reads v1_MsgBurnResponse_total.
  by_laws v1_MsgChangeAdmin_writes v1_MsgChangeAdmin_reads v1_MsgChangeAdmin_total.
  by_laws v1_MsgChangeAdminResponse_writes v1_MsgChangeAdminResponse_reads v1_MsgChangeAdminResponse_total.
  by_laws v1_MsgSetBeforeSendHook_writes v1_MsgSetBeforeSendHook_reads v1_MsgSetBeforeSendHook_total.
  by_laws v1_MsgSetBeforeSendHookResponse_writes v1_MsgSetBeforeSendHookResponse_reads v1_MsgSetBeforeSendHookResponse_total.
  by_laws v1_MsgSetDenomMetadata_writes v1_MsgSetDenomMetadata_reads v1_MsgSetDenomMetadata_total.
  by_laws v1_MsgSetDenomMetadataResponse_writes v1_MsgSetDenomMetadataResponse_reads v1_MsgSetDenomMetadataResponse_total.
  by_laws v1_MsgUpdateParams_writes v1_MsgUpdateParams_reads v1_MsgUpdateParams_total.
  by_laws v1_MsgUpdateParamsResponse_writes v1_MsgUpdateParamsResponse_reads v1_MsgUpdateParamsResponse_total.
  by_laws v1_QueryParamsRequest_writes v1_QueryParamsRequest_reads v1_QueryParamsRequest_total.
  by_laws v1_QueryParamsResponse_writes v1_QueryParamsResponse_reads v1_QueryParamsResponse_total.
  by_laws v1_QueryDenomAuthorityMetadataRequest_writes v1_QueryDenomAuthorityMetadataRequest_reads v1_QueryDenomAuthorityMetadataRequest_total.
  by_laws v1_QueryDenomAuthorityMetadataResponse_writes v1_QueryDenomAuthorityMetadataResponse_reads v1_QueryDenomAuthorityMetadataResponse_total.
  by_laws v1_QueryDenomsFromCreatorRequest_writes v1_QueryDenomsFromCreatorRequest_reads v1_QueryDenomsFromCreatorRequest_total.
  by_laws v1_QueryDenomsFromCreatorResponse_writes v1_QueryDenomsFromCreatorResponse_reads v1_QueryDenomsFromCreatorResponse_total.
  by_laws v1_QueryBeforeSendHookAddressRequest_writes v1_QueryBeforeSendHookAddressRequest_reads v1_QueryBeforeSendHookAddressRequest_total.
  by_laws v1_QueryBeforeSendHookAddressResponse_writes v1_QueryBeforeSendHookAddressResponse_reads v1_QueryBeforeSendHookAddressResponse_total.
  by_laws wasmv1_AccessConfig_writes wasmv1_AccessConfig_reads wasmv1_AccessConfig_total.
  by_laws wasmv1_MsgStoreCodeAdmin_writes wasmv1_MsgStoreCodeAdmin_reads wasmv1_MsgStoreCodeAdmin_total.
  by_laws wasmv1_MsgStoreCodeAdminResponse_writes wasmv1_MsgStoreCodeAdminResponse_reads wasmv1_MsgStoreCodeAdminResponse_total.
  constructor.
Qed.

Lemma api_lawful c : c ∈ api_codecs → lawful c.
Proof. intros H. pose proof api_lawful_all as Hall. rw Forall_forall in Hall. by apply Hall. Qed.

(** * Theorems *)

(** C18. The generated writer, which fills a buffer of a size computed before from its end, is
    equivalent to the reference encoding: it never fails and never leaves the buffer, and
    what it appends is the encoding, as long as the size that was computed. *)
Theorem api_marshal_reference c x Buf :
  c ∈ api_codecs →
  c_marshal c (Some x) Buf = (Ok (), Buf ++ c_enc c x) ∧ c_size c (Some x) = len (c_enc c x).
Proof. intros Hc. destruct (lawful_writes _ (api_lawful c Hc) x) as [H1 H2]. by rw H1. Qed.

(** C17. What is written is read back: for every message, whatever its strings, numbers and
    sub-messages are, unknown fields included. *)
Theorem api_roundtrip c x :
  c ∈ api_codecs → c_ok c x → c_size c (Some x) < 2 ^ 63 →
  ∃ bz, c_marshal c (Some x) [] = (Ok (), bz) ∧
    c_unmarshal c false bz (Some (c_new c)) = (Ok (), Some x).
Proof.
  intros Hc Hx Hs. pose proof (api_lawful c Hc) as Hl. destruct (lawful_writes _ Hl x) as [H1 H2].
  exists (c_enc c x). rw H1. split; [done|]. apply (lawful_reads _ Hl); [done|lia].
Qed.

(** Reading ends on every input, with the message filled or with an error: the loops over
    fields and varints come to an end and no index leaves the buffer. *)
Theorem api_unmarshal_total c d bz x :
  c ∈ api_codecs → len bz < 2 ^ 63 → no_panic (c_unmarshal c d bz x).1.
Proof. intros Hc. apply (lawful_total _ (api_lawful c Hc)). Qed.

(** Different messages have different bytes. *)
Theorem api_marshal_inj c x y bz :
  c ∈ api_codecs → c_ok c x → c_ok c y → len bz < 2 ^ 63 →
  c_marshal c (Some x) [] = (Ok (), bz) → c_marshal c (Some y) [] = (Ok (), bz) → x = y.
Proof.
  intros Hc Hx Hy H63. pose proof (api_lawful c Hc) as Hl.
  destruct (lawful_writes _ Hl x) as [-> _], (lawful_writes _ Hl y) as [-> _]. cbn [app].
  intros [= <-] [= E]. pose proof (lawful_reads _ Hl x Hx H63) as Rx.
  rw -E in Rx. rw (lawful_reads _ Hl y Hy) in Rx; [by injection Rx as ->|by rw E].
Qed.

End api.
