(* ===== verification/GogoState.v ===== *)
(** x/tokenfactory/types: params.pb.go, authority_metadata.pb.go and genesis.pb.go, the state of
    the token factory as the chain writes it. The structs are those of [TfTypes], which the
    keeper works on; here are their methods Size, MarshalToSizedBuffer and Unmarshal (the switch
    over field numbers is [.._field]), and the proof that they write and read one format. *)
From S2P Require Import Prelude.
From S2P Require Import Interfaces.
From S2P Require Import TfTypes.
From S2P Require Import GoJson.
From S2P Require Import Wire.
From S2P Require Import WireSpec.
From S2P Require Import WireRead.
From S2P Require Import GogoRuntime.
From S2P Require Import GogoWire.

(** sdk.Coin and banktypes.Metadata of the SDK, which gogoproto generated as well. *)
Class SdkGogo := { Coin_gogo :: GogoMessage coin; Metadata_gogo :: GogoMessage Metadata }.

Class SdkGogoLaws (SG : SdkGogo) := {
  Coin_gogo_laws :: GogoLaws coin Coin_gogo;
  Metadata_gogo_laws :: GogoLaws Metadata Metadata_gogo
}.

(** * The messages *)

Section messages.
Context {SG : SdkGogo}.

(** ** Params *)

Definition Params_new : Params := {|
  DenomCreationFee := []; DenomCreationGasConsume := 0
|}.

Definition Params_set_DenomCreationFee (v : list coin) (x : Params) : Params := {|
  DenomCreationFee := v; DenomCreationGasConsume := DenomCreationGasConsume x
|}.

Definition Params_set_DenomCreationGasConsume (v : Z) (x : Params) : Params := {|
  DenomCreationFee := DenomCreationFee x; DenomCreationGasConsume := v
|}.

Definition Params_Size (m : Params) : Z :=
  size_embeddeds (DenomCreationFee m) +
  size_number (DenomCreationGasConsume m).

Definition Params_MarshalToSizedBuffer (m : Params) : M raw Z := sized_buffer (
  put_number 0x10 (DenomCreationGasConsume m) ;;;
  put_embeddeds 0xa (DenomCreationFee m)).

Definition Params_field (dAtA : raw) (fieldNum : Z) : option (Z → M (rstate Params) unit) :=
  if fieldNum =? 1 then Some (λ wireType, expect_wire 2 "DenomCreationFee" wireType
    (get_embeddeds dAtA DenomCreationFee Params_set_DenomCreationFee))
  else if fieldNum =? 2 then Some (λ wireType, expect_wire 0 "DenomCreationGasConsume" wireType
    (get_number dAtA Uint64 Params_set_DenomCreationGasConsume))
  else None.

Definition Params_Unmarshal (dAtA : raw) : M Params unit := unmarshal_fields dAtA "Params" (Params_field dAtA).

#[export] Instance Params_gogo : GogoMessage Params := {|
  gogo_new := Params_new; gogo_Size := Params_Size;
  gogo_MarshalToSizedBuffer := Params_MarshalToSizedBuffer; gogo_Unmarshal := Params_Unmarshal
|}.

(** ** DenomAuthorityMetadata *)

Definition DenomAuthorityMetadata_new : DenomAuthorityMetadata := {|
  Admin := ""
|}.

Definition DenomAuthorityMetadata_set_Admin (v : string) (x : DenomAuthorityMetadata) : DenomAuthorityMetadata := {|
  Admin := v
|}.

Definition DenomAuthorityMetadata_Size (m : DenomAuthorityMetadata) : Z :=
  size_bytes (Admin m).

Definition DenomAuthorityMetadata_MarshalToSizedBuffer (m : DenomAuthorityMetadata) : M raw Z := sized_buffer (
  put_bytes 0xa (Admin m)).

Definition DenomAuthorityMetadata_field (dAtA : raw) (fieldNum : Z) : option (Z → M (rstate DenomAuthorityMetadata) unit) :=
  if fieldNum =? 1 then Some (λ wireType, expect_wire 2 "Admin" wireType
    (get_string dAtA DenomAuthorityMetadata_set_Admin))
  else None.

Definition DenomAuthorityMetadata_Unmarshal (dAtA : raw) : M DenomAuthorityMetadata unit := unmarshal_fields dAtA "DenomAuthorityMetadata" (DenomAuthorityMetadata_field dAtA).

#[export] Instance DenomAuthorityMetadata_gogo : GogoMessage DenomAuthorityMetadata := {|
  gogo_new := DenomAuthorityMetadata_new; gogo_Size := DenomAuthorityMetadata_Size;
  gogo_MarshalToSizedBuffer := DenomAuthorityMetadata_MarshalToSizedBuffer; gogo_Unmarshal := DenomAuthorityMetadata_Unmarshal
|}.

(** ** GenesisDenom *)

Definition GenesisDenom_new : GenesisDenom := {|
  gd_Denom := ""; gd_AuthorityMetadata := gogo_new
|}.

Definition GenesisDenom_set_Denom (v : string) (x : GenesisDenom) : GenesisDenom := {|
  gd_Denom := v; gd_AuthorityMetadata := gd_AuthorityMetadata x
|}.

Definition GenesisDenom_set_AuthorityMetadata (v : DenomAuthorityMetadata) (x : GenesisDenom) : GenesisDenom := {|
  gd_Denom := gd_Denom x; gd_AuthorityMetadata := v
|}.

Definition GenesisDenom_Size (m : GenesisDenom) : Z :=
  size_bytes (gd_Denom m) +
  size_embedded (gd_AuthorityMetadata m).

Definition GenesisDenom_MarshalToSizedBuffer (m : GenesisDenom) : M raw Z := sized_buffer (
  put_embedded 0x12 (gd_AuthorityMetadata m) ;;;
  put_bytes 0xa (gd_Denom m)).

Definition GenesisDenom_field (dAtA : raw) (fieldNum : Z) : option (Z → M (rstate GenesisDenom) unit) :=
  if fieldNum =? 1 then Some (λ wireType, expect_wire 2 "Denom" wireType
    (get_string dAtA GenesisDenom_set_Denom))
  else if fieldNum =? 2 then Some (λ wireType, expect_wire 2 "AuthorityMetadata" wireType
    (get_embedded dAtA gd_AuthorityMetadata GenesisDenom_set_AuthorityMetadata))
  else None.

Definition GenesisDenom_Unmarshal (dAtA : raw) : M GenesisDenom unit := unmarshal_fields dAtA "GenesisDenom" (GenesisDenom_field dAtA).

#[export] Instance GenesisDenom_gogo : GogoMessage GenesisDenom := {|
  gogo_new := GenesisDenom_new; gogo_Size := GenesisDenom_Size;
  gogo_MarshalToSizedBuffer := GenesisDenom_MarshalToSizedBuffer; gogo_Unmarshal := GenesisDenom_Unmarshal
|}.

(** ** GenesisState *)

Definition GenesisState_new : GenesisState := {|
  gs_Params := gogo_new; gs_FactoryDenoms := []
|}.

Definition GenesisState_set_Params (v : Params) (x : GenesisState) : GenesisState := {|
  gs_Params := v; gs_FactoryDenoms := gs_FactoryDenoms x
|}.

Definition GenesisState_set_FactoryDenoms (v : list GenesisDenom) (x : GenesisState) : GenesisState := {|
  gs_Params := gs_Params x; gs_FactoryDenoms := v
|}.

Definition GenesisState_Size (m : GenesisState) : Z :=
  size_embedded (gs_Params m) +
  size_embeddeds (gs_FactoryDenoms m).

Definition GenesisState_MarshalToSizedBuffer (m : GenesisState) : M raw Z := sized_buffer (
  put_embeddeds 0x12 (gs_FactoryDenoms m) ;;;
  put_embedded 0xa (gs_Params m)).

Definition GenesisState_field (dAtA : raw) (fieldNum : Z) : option (Z → M (rstate GenesisState) unit) :=
  if fieldNum =? 1 then Some (λ wireType, expect_wire 2 "Params" wireType
    (get_embedded dAtA gs_Params GenesisState_set_Params))
  else if fieldNum =? 2 then Some (λ wireType, expect_wire 2 "FactoryDenoms" wireType
    (get_embeddeds dAtA gs_FactoryDenoms GenesisState_set_FactoryDenoms))
  else None.

Definition GenesisState_Unmarshal (dAtA : raw) : M GenesisState unit := unmarshal_fields dAtA "GenesisState" (GenesisState_field dAtA).

#[export] Instance GenesisState_gogo : GogoMessage GenesisState := {|
  gogo_new := GenesisState_new; gogo_Size := GenesisState_Size;
  gogo_MarshalToSizedBuffer := GenesisState_MarshalToSizedBuffer; gogo_Unmarshal := GenesisState_Unmarshal
|}.

End messages.

(** * What they promise *)

Section laws.
Context {SG : SdkGogo}.
Context {SL : SdkGogoLaws SG}.

Definition Params_enc (x : Params) : raw :=
  enc_embeddeds 0xa (DenomCreationFee x) ++
  enc_number 0x10 (DenomCreationGasConsume x).

Definition Params_ok (x : Params) : Prop :=
  Forall gogo_ok (DenomCreationFee x) ∧
  is_int Uint64 (DenomCreationGasConsume x).

Lemma Params_writes x dAtA : len (Params_enc x) <= len dAtA →
  Params_MarshalToSizedBuffer x dAtA =
    (Ok (len (Params_enc x)), take (length dAtA - length (Params_enc x)) dAtA ++ Params_enc x).
Proof. apply sized_buffer_writes. unfold Params_enc. gogo_write. Qed.

Lemma Params_size_enc x : Params_Size x = len (Params_enc x).
Proof. unfold Params_Size, Params_enc. gogo_size. Qed.

Lemma Params_reads_unknown x u :
  Params_ok x → raw_fields Params_field u → len (Params_enc x ++ u) < 2 ^ 63 →
  Params_Unmarshal (Params_enc x ++ u) Params_new = (Ok (), x).
Proof.
  intros Hok Hu H63. destruct x as [f1 f2]. destruct Hok as (HDenomCreationFee & HDenomCreationGasConsume).
  unfold Params_enc in *. cbn [DenomCreationFee DenomCreationGasConsume] in *.
  apply (unmarshal_fields_reads _ Params_field); [|done]. rw -?app_assoc. rw -?app_assoc in H63.
  wire_read (reads_embeddeds (A:=coin) "Params" Params_field (λ _ x, x) 1 "DenomCreationFee").
  wire_read (reads_number "Params" Params_field (λ _ x, x) Uint64 2 "DenomCreationGasConsume").
  by apply reads_skipped.
Qed.

Lemma Params_reads x : Params_ok x → len (Params_enc x) < 2 ^ 63 → Params_Unmarshal (Params_enc x) Params_new = (Ok (), x).
Proof.
  intros Hok H63. rw -{1}(app_nil_r (Params_enc x)). apply Params_reads_unknown; [done|constructor|by rw app_nil_r].
Qed.

Lemma Params_total bz x : len bz < 2 ^ 63 → no_panic (Params_Unmarshal bz x).1.
Proof.
  intros. apply unmarshal_fields_total; [done|]. intros n k wt. unfold Params_field. gogo_moves.
Qed.

#[export] Instance Params_gogo_laws : GogoLaws Params Params_gogo := {|
  gogo_enc := Params_enc; gogo_ok := Params_ok; gogo_writes := Params_writes; gogo_size := Params_size_enc;
  gogo_reads := Params_reads; gogo_total := Params_total
|}.

Definition DenomAuthorityMetadata_enc (x : DenomAuthorityMetadata) : raw :=
  enc_bytes 0xa (Admin x).

Definition DenomAuthorityMetadata_ok (x : DenomAuthorityMetadata) : Prop :=
  True.

Lemma DenomAuthorityMetadata_writes x dAtA : len (DenomAuthorityMetadata_enc x) <= len dAtA →
  DenomAuthorityMetadata_MarshalToSizedBuffer x dAtA =
    (Ok (len (DenomAuthorityMetadata_enc x)), take (length dAtA - length (DenomAuthorityMetadata_enc x)) dAtA ++ DenomAuthorityMetadata_enc x).
Proof. apply sized_buffer_writes. unfold DenomAuthorityMetadata_enc. gogo_write. Qed.

Lemma DenomAuthorityMetadata_size_enc x : DenomAuthorityMetadata_Size x = len (DenomAuthorityMetadata_enc x).
Proof. unfold DenomAuthorityMetadata_Size, DenomAuthorityMetadata_enc. gogo_size. Qed.

Lemma DenomAuthorityMetadata_reads_unknown x u :
  DenomAuthorityMetadata_ok x → raw_fields DenomAuthorityMetadata_field u → len (DenomAuthorityMetadata_enc x ++ u) < 2 ^ 63 →
  DenomAuthorityMetadata_Unmarshal (DenomAuthorityMetadata_enc x ++ u) DenomAuthorityMetadata_new = (Ok (), x).
Proof.
  intros Hok Hu H63. destruct x as [f1].
  unfold DenomAuthorityMetadata_enc in *. cbn [Admin] in *.
  apply (unmarshal_fields_reads _ DenomAuthorityMetadata_field); [|done]. rw -?app_assoc. rw -?app_assoc in H63.
  wire_read (reads_string "DenomAuthorityMetadata" DenomAuthorityMetadata_field (λ _ x, x) 1 "Admin").
  by apply reads_skipped.
Qed.

Lemma DenomAuthorityMetadata_reads x : DenomAuthorityMetadata_ok x → len (DenomAuthorityMetadata_enc x) < 2 ^ 63 → DenomAuthorityMetadata_Unmarshal (DenomAuthorityMetadata_enc x) DenomAuthorityMetadata_new = (Ok (), x).
Proof.
  intros Hok H63. rw -{1}(app_nil_r (DenomAuthorityMetadata_enc x)). apply DenomAuthorityMetadata_reads_unknown; [done|constructor|by rw app_nil_r].
Qed.

Lemma DenomAuthorityMetadata_total bz x : len bz < 2 ^ 63 → no_panic (DenomAuthorityMetadata_Unmarshal bz x).1.
Proof.
  intros. apply unmarshal_fields_total; [done|]. intros n k wt. unfold DenomAuthorityMetadata_field. gogo_moves.
Qed.

#[export] Instance DenomAuthorityMetadata_gogo_laws : GogoLaws DenomAuthorityMetadata DenomAuthorityMetadata_gogo := {|
  gogo_enc := DenomAuthorityMetadata_enc; gogo_ok := DenomAuthorityMetadata_ok; gogo_writes := DenomAuthorityMetadata_writes; gogo_size := DenomAuthorityMetadata_size_enc;
  gogo_reads := DenomAuthorityMetadata_reads; gogo_total := DenomAuthorityMetadata_total
|}.

Definition GenesisDenom_enc (x : GenesisDenom) : raw :=
  enc_bytes 0xa (gd_Denom x) ++
  enc_embedded 0x12 (gd_AuthorityMetadata x).

Definition GenesisDenom_ok (x : GenesisDenom) : Prop :=
  gogo_ok (gd_AuthorityMetadata x).

Lemma GenesisDenom_writes x dAtA : len (GenesisDenom_enc x) <= len dAtA →
  GenesisDenom_MarshalToSizedBuffer x dAtA =
    (Ok (len (GenesisDenom_enc x)), take (length dAtA - length (GenesisDenom_enc x)) dAtA ++ GenesisDenom_enc x).
Proof. apply sized_buffer_writes. unfold GenesisDenom_enc. gogo_write. Qed.

Lemma GenesisDenom_size_enc x : GenesisDenom_Size x = len (GenesisDenom_enc x).
Proof. unfold GenesisDenom_Size, GenesisDenom_enc. gogo_size. Qed.

Lemma GenesisDenom_reads_unknown x u :
  GenesisDenom_ok x → raw_fields GenesisDenom_field u → len (GenesisDenom_enc x ++ u) < 2 ^ 63 →
  GenesisDenom_Unmarshal (GenesisDenom_enc x ++ u) GenesisDenom_new = (Ok (), x).
Proof.
  intros Hok Hu H63. destruct x as [f1 f2]. unfold GenesisDenom_ok in Hok; rename Hok into HAuthorityMetadata.
  unfold GenesisDenom_enc in *. cbn [gd_Denom gd_AuthorityMetadata] in *.
  apply (unmarshal_fields_reads _ GenesisDenom_field); [|done]. rw -?app_assoc. rw -?app_assoc in H63.
  wire_read (reads_string "GenesisDenom" GenesisDenom_field (λ _ x, x) 1 "Denom").
  wire_read (reads_embedded (A:=DenomAuthorityMetadata) "GenesisDenom" GenesisDenom_field (λ _ x, x) 2 "AuthorityMetadata").
  by apply reads_skipped.
Qed.

Lemma GenesisDenom_reads x : GenesisDenom_ok x → len (GenesisDenom_enc x) < 2 ^ 63 → GenesisDenom_Unmarshal (GenesisDenom_enc x) GenesisDenom_new = (Ok (), x).
Proof.
  intros Hok H63. rw -{1}(app_nil_r (GenesisDenom_enc x)). apply GenesisDenom_reads_unknown; [done|constructor|by rw app_nil_r].
Qed.

Lemma GenesisDenom_total bz x : len bz < 2 ^ 63 → no_panic (GenesisDenom_Unmarshal bz x).1.
Proof.
  intros. apply unmarshal_fields_total; [done|]. intros n k wt. unfold GenesisDenom_field. gogo_moves.
Qed.

#[export] Instance GenesisDenom_gogo_laws : GogoLaws GenesisDenom GenesisDenom_gogo := {|
  gogo_enc := GenesisDenom_enc; gogo_ok := GenesisDenom_ok; gogo_writes := GenesisDenom_writes; gogo_size := GenesisDenom_size_enc;
  gogo_reads := GenesisDenom_reads; gogo_total := GenesisDenom_total
|}.

Definition GenesisState_enc (x : GenesisState) : raw :=
  enc_embedded 0xa (gs_Params x) ++
  enc_embeddeds 0x12 (gs_FactoryDenoms x).

Definition GenesisState_ok (x : GenesisState) : Prop :=
  gogo_ok (gs_Params x) ∧
  Forall gogo_ok (gs_FactoryDenoms x).

Lemma GenesisState_writes x dAtA : len (GenesisState_enc x) <= len dAtA →
  GenesisState_MarshalToSizedBuffer x dAtA =
    (Ok (len (GenesisState_enc x)), take (length dAtA - length (GenesisState_enc x)) dAtA ++ GenesisState_enc x).
Proof. apply sized_buffer_writes. unfold GenesisState_enc. gogo_write. Qed.

Lemma GenesisState_size_enc x : GenesisState_Size x = len (GenesisState_enc x).
Proof. unfold GenesisState_Size, GenesisState_enc. gogo_size. Qed.

Lemma GenesisState_reads_unknown x u :
  GenesisState_ok x → raw_fields GenesisState_field u → len (GenesisState_enc x ++ u) < 2 ^ 63 →
  GenesisState_Unmarshal (GenesisState_enc x ++ u) GenesisState_new = (Ok (), x).
Proof.
  intros Hok Hu H63. destruct x as [f1 f2]. destruct Hok as (HParams & HFactoryDenoms).
  unfold GenesisState_enc in *. cbn [gs_Params gs_FactoryDenoms] in *.
  apply (unmarshal_fields_reads _ GenesisState_field); [|done]. rw -?app_assoc. rw -?app_assoc in H63.
  wire_read (reads_embedded (A:=Params) "GenesisState" GenesisState_field (λ _ x, x) 1 "Params").
  wire_read (reads_embeddeds (A:=GenesisDenom) "GenesisState" GenesisState_field (λ _ x, x) 2 "FactoryDenoms").
  by apply reads_skipped.
Qed.

Lemma GenesisState_reads x : GenesisState_ok x → len (GenesisState_enc x) < 2 ^ 63 → GenesisState_Unmarshal (GenesisState_enc x) GenesisState_new = (Ok (), x).
Proof.
  intros Hok H63. rw -{1}(app_nil_r (GenesisState_enc x)). apply GenesisState_reads_unknown; [done|constructor|by rw app_nil_r].
Qed.

Lemma GenesisState_total bz x : len bz < 2 ^ 63 → no_panic (GenesisState_Unmarshal bz x).1.
Proof.
  intros. apply unmarshal_fields_total; [done|]. intros n k wt. unfold GenesisState_field. gogo_moves.
Qed.

#[export] Instance GenesisState_gogo_laws : GogoLaws GenesisState GenesisState_gogo := {|
  gogo_enc := GenesisState_enc; gogo_ok := GenesisState_ok; gogo_writes := GenesisState_writes; gogo_size := GenesisState_size_enc;
  gogo_reads := GenesisState_reads; gogo_total := GenesisState_total
|}.

End laws.
