(* ===== verification/Store.v ===== *)
(** The store of the token factory in bytes: the four collections of keeper.go share one
    key-value store, each under a prefix of its own, with keys and values encoded. The maps
    and sets of [TfStore], which the other files work on, are shown to be what it holds. *)
From stdpp Require Import sorting.
From S2P Require Import Prelude.
From S2P Require Import Interfaces.
From S2P Require Import TfTypes.
From S2P Require Import GoJson.
From S2P Require Import TfKeeper.
From S2P Require Import Wire.
From S2P Require Import WireSpec.
From S2P Require Import GogoWire.
From S2P Require Import GogoState.

(** * Key-value stores *)

Abbreviation kvstore := (gmap (list ascii) (list ascii)).

(** The order of keys: bytes from left to right. *)
Fixpoint raw_leb (x y : raw) : bool :=
  match x, y with
  | [], _ => true
  | _ :: _, [] => false
  | a :: x, b :: y => (N_of_ascii a <? N_of_ascii b)%N || (bool_decide (a = b) && raw_leb x y)
  end.
Definition raw_le (x y : raw) : Prop := raw_leb x y = true.
#[export] Instance raw_le_dec x y : Decision (raw_le x y) := decide (raw_leb x y = true).

(** An iterator over the keys that start with [q], in their order. *)
Definition scan (q : raw) (kv : kvstore) : list raw :=
  filter (λ key, q `prefix_of` key) (merge_sort raw_le (map_to_list kv).*1).

(** * cosmossdk.io/collections *)

Record key_codec K := KeyCodec {
  key_enc : K → res raw;
  key_nonterminal : K → res raw;
  key_dec : raw → res K
}.
Arguments key_enc {K}.
Arguments key_nonterminal {K}.
Arguments key_dec {K}.

Record value_codec V := ValueCodec { val_enc : V → res raw; val_dec : raw → res V }.
Arguments val_enc {V}.
Arguments val_dec {V}.

(** The operations of Map, Item and KeySet, which are given what NewMap, NewItem and NewKeySet
    are: the prefix and the codecs. The function that Walk is given only collects keys. *)
Class Collections := {
  StringKey : key_codec string;
  PairKeyCodec : key_codec string → key_codec string → key_codec (string * string);
  StringValue : value_codec string;
  CollValue : ∀ A {GM : GogoMessage A}, value_codec A;
  map_Get : ∀ {K V}, raw → key_codec K → value_codec V → K → M kvstore V;
  map_Set : ∀ {K V}, raw → key_codec K → value_codec V → K → V → M kvstore unit;
  map_Remove : ∀ {K V}, raw → key_codec K → value_codec V → K → M kvstore unit;
  item_Get : ∀ {V}, raw → value_codec V → M kvstore V;
  item_Set : ∀ {V}, raw → value_codec V → V → M kvstore unit;
  keyset_Set : ∀ {K}, raw → key_codec K → K → M kvstore unit;
  keyset_Walk : raw → key_codec string → key_codec string → option string → M kvstore (list (string * string))
}.

Fixpoint decode_keys {K} (kc : key_codec K) (p : raw) (keys : list raw) : res (list K) :=
  match keys with
  | [] => Ok []
  | key :: keys =>
      let? k := key_dec kc (drop (length p) key) in
      let? ks := decode_keys kc p keys in Ok (k :: ks)
  end.

(** A key is its prefix and its encoding. A string is encoded as its bytes, and is ended by a
    zero byte where more follows, so that it must not contain one; a pair is the one and the
    other. Walk goes over the keys in their order, all of them or those whose first component
    is given. *)
Class CollectionsLaws {CO : Collections} : Prop := {
  StringKey_enc s : key_enc StringKey s = Ok (to_raw s);
  StringKey_nonterminal s :
    key_nonterminal StringKey s = if mem_byte "000" s then Err ErrEncoding else Ok (to_raw s ++ ["000"%char]);
  PairKeyCodec_enc c1 c2 a b :
    key_enc (PairKeyCodec c1 c2) (a, b) =
      (let? x := key_nonterminal c1 a in let? y := key_enc c2 b in Ok (x ++ y));
  PairKeyCodec_dec k bz :
    key_enc (PairKeyCodec StringKey StringKey) k = Ok bz →
    key_dec (PairKeyCodec StringKey StringKey) bz = Ok k;
  StringValue_enc v : val_enc StringValue v = Ok (to_raw v);
  StringValue_dec bz : val_dec StringValue bz = Ok (of_raw bz);
  CollValue_enc A (GM : GogoMessage A) (v : A) : val_enc (CollValue A) v = gogo_Marshal v;
  CollValue_dec A (GM : GogoMessage A) bz :
    val_dec (CollValue A) bz =
      match gogo_Unmarshal bz gogo_new with (Ok _, v) => Ok v | (Err e, _) => Err e | (Panic p, _) => Panic p end;
  map_Get_at {K V} p (kc : key_codec K) (vc : value_codec V) k kb kv :
    key_enc kc k = Ok kb →
    map_Get p kc vc k kv = (match kv !! (p ++ kb) with Some bz => val_dec vc bz | None => Err ErrNotFound end, kv);
  map_Set_at {K V} p (kc : key_codec K) (vc : value_codec V) k v kb vb kv :
    key_enc kc k = Ok kb → val_enc vc v = Ok vb → map_Set p kc vc k v kv = (Ok (), <[p ++ kb := vb]> kv);
  map_Remove_at {K V} p (kc : key_codec K) (vc : value_codec V) k kb kv :
    key_enc kc k = Ok kb → map_Remove p kc vc k kv = (Ok (), delete (p ++ kb) kv);
  item_Get_at {V} p (vc : value_codec V) kv :
    item_Get p vc kv = (match kv !! p with Some bz => val_dec vc bz | None => Err ErrNotFound end, kv);
  item_Set_at {V} p (vc : value_codec V) v vb kv :
    val_enc vc v = Ok vb → item_Set p vc v kv = (Ok (), <[p := vb]> kv);
  keyset_Set_at {K} p (kc : key_codec K) k kv :
    keyset_Set p kc k kv =
      match key_enc kc k with Ok kb => (Ok (), <[p ++ kb := []]> kv) | Err e => (Err e, kv) | Panic q => (Panic q, kv) end;
  keyset_Walk_all p c1 c2 kv :
    keyset_Walk p c1 c2 None kv = (decode_keys (PairKeyCodec c1 c2) p (scan p kv), kv);
  keyset_Walk_first p c1 c2 a kv :
    keyset_Walk p c1 c2 (Some a) kv =
      (let? x := key_nonterminal c1 a in decode_keys (PairKeyCodec c1 c2) p (scan (p ++ x) kv), kv)
}.
#[global] Hint Mode CollectionsLaws ! : typeclass_instances.

(** * The keeper on its store *)

Section keeper.
Context {CO : Collections} {SG : SdkGogo} {AC : AddressCodec}.

(** NewKeeper: each operation of a collection with the prefix and the codecs it is made with. *)
Definition CreatorDenoms_Set : string * string → M kvstore unit :=
  keyset_Set (to_raw CreatorDenomsPrefix) (PairKeyCodec StringKey StringKey).
Definition CreatorDenoms_Walk : option string → M kvstore (list (string * string)) :=
  keyset_Walk (to_raw CreatorDenomsPrefix) StringKey StringKey.
Definition DenomAuthority_Get : string → M kvstore DenomAuthorityMetadata :=
  map_Get (to_raw DenomAuthorityPrefix) StringKey (CollValue DenomAuthorityMetadata).
Definition DenomAuthority_Set : string → DenomAuthorityMetadata → M kvstore unit :=
  map_Set (to_raw DenomAuthorityPrefix) StringKey (CollValue DenomAuthorityMetadata).
Definition DenomHookAddr_Get : string → M kvstore string :=
  map_Get (to_raw DenomHookAddrPrefix) StringKey StringValue.
Definition DenomHookAddr_Set : string → string → M kvstore unit :=
  map_Set (to_raw DenomHookAddrPrefix) StringKey StringValue.
Definition DenomHookAddr_Remove : string → M kvstore unit :=
  map_Remove (to_raw DenomHookAddrPrefix) StringKey StringValue.
Definition Params_Get : M kvstore Params := item_Get (to_raw ParamsKeyPrefix) (CollValue Params).
Definition Params_Set : Params → M kvstore unit := item_Set (to_raw ParamsKeyPrefix) (CollValue Params).

(** admins.go *)
Definition store_GetAuthorityMetadata (denom : string) : M kvstore DenomAuthorityMetadata :=
  DenomAuthority_Get denom.

Definition store_setAuthorityMetadata (denom : string) (metadata : DenomAuthorityMetadata) : M kvstore unit :=
  lift (DenomAuthorityMetadata_Validate metadata) ;;;
  DenomAuthority_Set denom metadata.

Definition store_setAdmin (denom admin : string) : M kvstore unit :=
  let! metadata := store_GetAuthorityMetadata denom in
  store_setAuthorityMetadata denom {| Admin := admin |}.

(** creators.go *)
Definition store_addDenomFromCreator (creator denom : string) : M kvstore unit :=
  CreatorDenoms_Set (creator, denom).

Definition store_getDenomsFromCreator (creator : string) : M kvstore (list string) :=
  let! r := attempt (CreatorDenoms_Walk (Some creator)) in
  match r with
  | inl keys => ret (snd <$> keys)
  | inr err => panic (PanicError err)
  end.

(** params.go *)
Definition store_GetParams : M kvstore Params :=
  let! r := attempt Params_Get in
  match r with
  | inl params => ret params
  | inr _ => ret {| DenomCreationFee := []; DenomCreationGasConsume := 0 |}
  end.

Definition store_SetParams (params : Params) : M kvstore unit := Params_Set params.

(** before_send.go *)
Definition store_GetBeforeSendHook (denom : string) : M kvstore string :=
  let! r := attempt (DenomHookAddr_Get denom) in
  match r with inl wasmAddr => ret wasmAddr | inr _ => ret "" end.

(** What setBeforeSendHook does to the store, for the empty address and for another. *)
Definition store_write_hook (denom cosmwasmAddress : string) : M kvstore unit :=
  if is_empty cosmwasmAddress then DenomHookAddr_Remove denom else DenomHookAddr_Set denom cosmwasmAddress.

(** genesis.go: the walk of ExportGenesis, whose errors are panics. *)
Definition store_must {A} (m : M kvstore A) : M kvstore A := λ kv,
  match m kv with (Err e, kv1) => (Panic (PanicError e), kv1) | out => out end.

Fixpoint store_export_denoms (keys : list (string * string)) : M kvstore (list GenesisDenom) :=
  match keys with
  | [] => ret []
  | (_, denom) :: keys =>
      let! authorityMetadata := store_must (store_GetAuthorityMetadata denom) in
      let! genDenoms := store_export_denoms keys in
      ret ({| gd_Denom := denom; gd_AuthorityMetadata := authorityMetadata |} :: genDenoms)
  end.

Definition store_ExportGenesis : M kvstore GenesisState :=
  let! keys := store_must (CreatorDenoms_Walk None) in
  let! genDenoms := store_export_denoms keys in
  let! params := store_GetParams in
  ret {| gs_Params := params; gs_FactoryDenoms := genDenoms |}.
End keeper.
