(* ===== verification/StoreSpec.v ===== *)
(** The store in bytes of [Store] implements the maps and sets of [TfStore]: every operation of
    the keeper answers the same on both, and they stay in step. *)
From stdpp Require Import sorting.
From S2P Require Import Prelude.
From S2P Require Import Interfaces.
From S2P Require Import TfTypes.
From S2P Require Import GoJson.
From S2P Require Import TfKeeper.
From S2P Require Import TfMsgServer.
From S2P Require Import Wire.
From S2P Require Import WireSpec.
From S2P Require Import GogoWire.
From S2P Require Import GogoState.
From S2P Require Import Store.

(** * The order of the keys *)

Lemma N_of_ascii_inj a b : N_of_ascii a = N_of_ascii b → a = b.
Proof. intros H%(f_equal ascii_of_N). by rw !ascii_N_embedding in H. Qed.

Lemma raw_le_cons a b x y :
  raw_le (a :: x) (b :: y) ↔ (N_of_ascii a < N_of_ascii b)%N ∨ a = b ∧ raw_le x y.
Proof. unfold raw_le. cbn. by rw orb_true_iff andb_true_iff N.ltb_lt bool_decide_eq_true. Qed.

#[export] Instance raw_le_total : Total raw_le.
Proof.
  intros x. induction x as [|a x IH]; intros [|b y]; [by left|by left|by right|]. rw !raw_le_cons.
  destruct (N.lt_trichotomy (N_of_ascii a) (N_of_ascii b)) as [?|[->%N_of_ascii_inj|?]]; [auto| |auto].
  destruct (IH y); auto.
Qed.

#[export] Instance raw_le_trans : Transitive raw_le.
Proof.
  intros x. induction x as [|a x IH]; intros [|b y] [|c z]; try done. rw !raw_le_cons.
  intros [?|[-> ?]] [?|[-> ?]]; [left; by etrans|by left|by left|]. right. split; [done|]. by eapply IH.
Qed.

#[export] Instance raw_le_antisymm : AntiSymm (=) raw_le.
Proof.
  intros x. induction x as [|a x IH]; intros [|b y]; try done. rw !raw_le_cons.
  intros [?|[-> ?]] [?|[? ?]]; subst; try lia. f_equal. by apply IH.
Qed.

Lemma raw_le_app p x y : raw_le (p ++ x) (p ++ y) ↔ raw_le x y.
Proof.
  induction p as [|a p IH]; [done|]. cbn. rw raw_le_cons IH. split; [intros [?|[_ ?]]; [lia|done]|by right].
Qed.

Lemma StronglySorted_filter_in {A} (R : relation A) (P : A → Prop) `{!∀ x, Decision (P x)} l :
  StronglySorted R l → StronglySorted R (filter P l).
Proof.
  induction 1 as [|x l _ IH Hx]; [constructor|]. rw filter_cons. destruct (decide (P x)); [|done].
  constructor; [done|]. apply Forall_forall. intros y [_ Hy]%list_elem_of_filter.
  rw Forall_forall in Hx. by apply Hx.
Qed.

Lemma scan_sorted q kv : StronglySorted raw_le (scan q kv).
Proof. apply StronglySorted_filter_in, StronglySorted_merge_sort; apply _. Qed.

Lemma elem_of_scan q kv key : key ∈ scan q kv ↔ q `prefix_of` key ∧ is_Some (kv !! key).
Proof.
  unfold scan. rw list_elem_of_filter merge_sort_Permutation list_elem_of_fmap. f_equiv. split.
  - intros ([k v] & -> & H%elem_of_map_to_list). by exists v.
  - intros [v H]. exists (key, v). split; [done|]. by apply elem_of_map_to_list.
Qed.

Lemma scan_NoDup q kv : NoDup (scan q kv).
Proof. apply NoDup_filter. rw merge_sort_Permutation. apply NoDup_fst_map_to_list. Qed.

Lemma scan_scan q x kv : scan (q ++ x) kv = filter (λ key, q ++ x `prefix_of` key) (scan q kv).
Proof.
  unfold scan. rw list_filter_filter_l //. intros key [z ->]. exists (x ++ z). by rw app_assoc.
Qed.

(** * Keys of pairs *)

Lemma to_raw_inj s t : to_raw s = to_raw t → s = t.
Proof. intros H%(f_equal of_raw). by rw !of_to_raw in H. Qed.

Lemma mem_byte_to_raw c s : mem_byte c s = false ↔ c ∉ to_raw s.
Proof.
  induction s as [|a s IH]; cbn; [split; [by intros _ ?%elem_of_nil|done]|].
  rw orb_false_iff bool_decide_eq_false IH. unfold to_raw. cbn. rw not_elem_of_cons. naive_solver.
Qed.

(** What stands before the first [z] is determined. *)
Lemma delimited_inj {A} (z : A) c d x y :
  z ∉ c → z ∉ d → c ++ z :: x = d ++ z :: y → c = d ∧ x = y.
Proof.
  revert d. induction c as [|a c IH]; intros [|b d] Hc Hd; cbn; [by intros [= ->]|..].
  - intros [= <- _]. by destruct Hd; left.
  - intros [= -> _]. by destruct Hc; left.
  - intros [= <- H]. rw !not_elem_of_cons in Hc Hd. destruct (IH d) as [-> ->]; naive_solver.
Qed.

(** The bytes of a pair. *)
Definition pair_bytes (k : string * string) : raw := to_raw k.1 ++ "000"%char :: to_raw k.2.

(** A pair that has a key. *)
Definition keyed (k : string * string) : Prop := mem_byte "000" k.1 = false.

Lemma pair_bytes_inj k1 k2 : keyed k1 → keyed k2 → pair_bytes k1 = pair_bytes k2 → k1 = k2.
Proof.
  destruct k1 as [a b], k2 as [c d]. unfold keyed. cbn. intros H1%mem_byte_to_raw H2%mem_byte_to_raw H.
  by apply delimited_inj in H as [->%to_raw_inj ->%to_raw_inj].
Qed.

Lemma pair_bytes_prefix c k :
  mem_byte "000" c = false → keyed k → to_raw c ++ ["000"%char] `prefix_of` pair_bytes k ↔ k.1 = c.
Proof.
  destruct k as [a b]. unfold keyed, pair_bytes. cbn. intros H1%mem_byte_to_raw H2%mem_byte_to_raw. split.
  - intros [y H]. rw -app_assoc in H. cbn in H. apply delimited_inj in H as [H _]; [|done..]. by apply to_raw_inj in H.
  - intros ->. exists (to_raw b). by rw -app_assoc.
Qed.

(** collections.KeySet.Walk on a set of pairs: in the order of the keys. *)
Definition pair_le (k1 k2 : string * string) : Prop := raw_le (pair_bytes k1) (pair_bytes k2).
#[export] Instance pair_le_dec k1 k2 : Decision (pair_le k1 k2) := decide (raw_le _ _).
#[export] Instance pair_le_total : Total pair_le.
Proof. intros k1 k2. apply raw_le_total. Qed.
#[export] Instance pair_le_trans : Transitive pair_le.
Proof. intros k1 k2 k3. apply raw_le_trans. Qed.

Definition byte_walk : KeyWalk := λ ks, merge_sort pair_le (elements ks).

#[export] Instance byte_walk_laws : KeyWalkLaws byte_walk.
Proof. intros ks. apply merge_sort_Permutation. Qed.

(** * Representation *)

Section spec.
Context {CO : Collections} {COL : CollectionsLaws}.
Context {SG : SdkGogo} {SGL : SdkGogoLaws SG} {AC : AddressCodec}.

(** A message that is read back as it was written. *)
Definition fits {A} {GM : GogoMessage A} {GL : GogoLaws A GM} (x : A) : Prop := gogo_ok x ∧ gogo_Size x < 2 ^ 63.

Abbreviation creators := (to_raw CreatorDenomsPrefix).
Abbreviation authorities := (to_raw DenomAuthorityPrefix).
Abbreviation hooks := (to_raw DenomHookAddrPrefix).

(** The store in bytes that holds a [TfStore]: under each prefix there is what the collection
    holds and nothing else. *)
Record represents (kv : kvstore) (t : TfStore) : Prop := {
  rep_creators key : is_Some (kv !! (creators ++ key)) ↔ ∃ k, k ∈ CreatorDenoms t ∧ key = pair_bytes k;
  rep_keyed k : k ∈ CreatorDenoms t → keyed k;
  rep_authority d : kv !! (authorities ++ to_raw d) = gogo_enc <$> DenomAuthority t !! d;
  rep_authority_fits d m : DenomAuthority t !! d = Some m → fits m;
  rep_hook d : kv !! (hooks ++ to_raw d) = to_raw <$> DenomHookAddr t !! d;
  rep_params : kv !! to_raw ParamsKeyPrefix = gogo_enc <$> ParamsItem t;
  rep_params_fit p : ParamsItem t = Some p → fits p
}.

Lemma represents_empty : represents ∅ empty_store.
Proof.
  split; cbn; try done.
  intros key. rw lookup_empty. split; [by intros []|]. by intros (k & Hk%elem_of_empty & _).
Qed.

(** A value that fits is decoded from its encoding. *)
Lemma CollValue_roundtrip {A} {GM : GogoMessage A} {GL : GogoLaws A GM} (x : A) :
  fits x → val_enc (CollValue A) x = Ok (gogo_enc x) ∧ val_dec (CollValue A) (gogo_enc x) = Ok x.
Proof.
  intros [Hok Hs]. rw CollValue_enc gogo_Marshal_enc CollValue_dec. split; [done|]. rw gogo_size in Hs. by rw gogo_reads.
Qed.

Lemma key_enc_pair k :
  key_enc (PairKeyCodec StringKey StringKey) k =
    if mem_byte "000" k.1 then Err ErrEncoding else Ok (pair_bytes k).
Proof.
  destruct k as [a b]. rw PairKeyCodec_enc StringKey_nonterminal StringKey_enc. cbn.
  destruct (mem_byte "000" a); [done|]. cbn. unfold pair_bytes. cbn. by rw -app_assoc.
Qed.

(** ** Walks *)

Lemma represents_scan kv t : represents kv t → scan creators kv = (λ k, creators ++ pair_bytes k) <$> byte_walk (CreatorDenoms t).
Proof.
  intros R. apply (StronglySorted_unique raw_le); [apply scan_sorted|..].
  - apply (StronglySorted_fmap _ pair_le); [|apply StronglySorted_merge_sort; apply _].
    intros k1 k2. by rw raw_le_app.
  - apply NoDup_Permutation; [apply scan_NoDup|..].
    + apply NoDup_fmap_2_strong; [|unfold byte_walk; rw merge_sort_Permutation; apply NoDup_elements].
      intros k1 k2. unfold byte_walk. rw !merge_sort_Permutation !elem_of_elements.
      intros H1%(rep_keyed _ _ R) H2%(rep_keyed _ _ R) H%app_inv_head. by apply pair_bytes_inj.
    + intros key. rw elem_of_scan list_elem_of_fmap. unfold byte_walk. setoid_rewrite merge_sort_Permutation.
      setoid_rewrite elem_of_elements. split.
      * intros [[x ->] Hs]. apply (rep_creators _ _ R) in Hs as (k & Hk & ->). by exists k.
      * intros (k & -> & Hk). split; [by eexists|]. apply (rep_creators _ _ R). by exists k.
Qed.

Lemma decode_pairs ks :
  Forall keyed ks →
  decode_keys (PairKeyCodec StringKey StringKey) creators ((λ k, creators ++ pair_bytes k) <$> ks) = Ok ks.
Proof.
  induction 1 as [|k ks Hk _ IH]; [done|]. cbn [fmap list_fmap decode_keys]. rw drop_app_length.
  rw (PairKeyCodec_dec k); [|by rw key_enc_pair Hk]. cbn. by rw IH.
Qed.

Lemma byte_walk_keyed kv t : represents kv t → Forall keyed (byte_walk (CreatorDenoms t)).
Proof.
  intros R. apply Forall_forall. intros k. unfold byte_walk. rw merge_sort_Permutation elem_of_elements.
  apply (rep_keyed _ _ R).
Qed.

Lemma filter_ext_in {A} (P Q : A → Prop) `{!∀ x, Decision (P x), !∀ x, Decision (Q x)} (l : list A) :
  (∀ x, x ∈ l → P x ↔ Q x) → filter P l = filter Q l.
Proof.
  induction l as [|x l IH]; intros HPQ; [done|]. rw !filter_cons IH; [|by intros; apply HPQ; right].
  apply decide_ext, HPQ. by left.
Qed.

Lemma filter_fmap_l {A B} (f : A → B) (P : B → Prop) `{!∀ x, Decision (P x)} (l : list A) :
  filter P (f <$> l) = f <$> filter (λ x, P (f x)) l.
Proof. induction l as [|x l IH]; [done|]. cbn [fmap list_fmap]. rw !filter_cons IH. by destruct (decide _). Qed.

Lemma walk_all kv t : represents kv t → CreatorDenoms_Walk None kv = (Ok (byte_walk (CreatorDenoms t)), kv).
Proof.
  intros R. unfold CreatorDenoms_Walk. rw keyset_Walk_all (represents_scan _ _ R) decode_pairs; [done|].
  by eapply byte_walk_keyed.
Qed.

Lemma walk_first kv t c :
  represents kv t → mem_byte "000" c = false →
  CreatorDenoms_Walk (Some c) kv = (Ok (filter (λ k, k.1 = c) (byte_walk (CreatorDenoms t))), kv).
Proof.
  intros R Hc. unfold CreatorDenoms_Walk. rw keyset_Walk_first StringKey_nonterminal Hc. cbn [rbind].
  pose proof (byte_walk_keyed _ _ R) as Hk. rw Forall_forall in Hk.
  rw scan_scan (represents_scan _ _ R) filter_fmap_l. rw (filter_ext_in _ (λ k, k.1 = c)).
  - rw decode_pairs; [done|]. apply Forall_forall. intros k [_ H]%list_elem_of_filter. by apply Hk.
  - intros k H%Hk. rw -(pair_bytes_prefix c k Hc H). split; [apply prefix_app_inv|apply prefix_app].
Qed.

(** ** Writes *)

(** A write under another prefix. *)
Ltac other := intros; first [rw lookup_insert_ne; [by auto|by intros [=]]|rw lookup_delete_ne; [by auto|by intros [=]]].

Lemma represents_authority kv t d m :
  represents kv t → fits m →
  represents (<[authorities ++ to_raw d := gogo_enc m]> kv) (set_DenomAuthority (<[d := m]> (DenomAuthority t)) t).
Proof.
  intros [Hc Hk Ha Haf Hh Hp Hpf] Hm. split; cbn [set_DenomAuthority CreatorDenoms DenomAuthority DenomHookAddr ParamsItem];
    [other|done| | |other|other|done]; intros d1; destruct (decide (d1 = d)) as [->|Hne].
  - by rw !lookup_insert_eq.
  - rw !lookup_insert_ne //. by intros [= H%to_raw_inj].
  - intros m1. rw lookup_insert_eq. by intros [= <-].
  - intros m1. rw lookup_insert_ne //. apply Haf.
Qed.

Lemma represents_params kv t p :
  represents kv t → fits p →
  represents (<[to_raw ParamsKeyPrefix := gogo_enc p]> kv) (set_ParamsItem (Some p) t).
Proof.
  intros [Hc Hk Ha Haf Hh Hp Hpf] Hm. split; cbn [set_ParamsItem CreatorDenoms DenomAuthority DenomHookAddr ParamsItem];
    [other|done|other|done|other|by rw lookup_insert_eq|by intros p1 [= <-]].
Qed.

Lemma represents_hook kv t d a :
  represents kv t →
  represents (<[hooks ++ to_raw d := to_raw a]> kv) (set_DenomHookAddr (<[d := a]> (DenomHookAddr t)) t).
Proof.
  intros [Hc Hk Ha Haf Hh Hp Hpf]. split; cbn [set_DenomHookAddr CreatorDenoms DenomAuthority DenomHookAddr ParamsItem];
    [other|done|other|done| |other|done]. intros d1. destruct (decide (d1 = d)) as [->|Hne].
  - by rw !lookup_insert_eq.
  - rw !lookup_insert_ne //. by intros [= H%to_raw_inj].
Qed.

Lemma represents_unhook kv t d :
  represents kv t →
  represents (delete (hooks ++ to_raw d) kv) (set_DenomHookAddr (delete d (DenomHookAddr t)) t).
Proof.
  intros [Hc Hk Ha Haf Hh Hp Hpf]. split; cbn [set_DenomHookAddr CreatorDenoms DenomAuthority DenomHookAddr ParamsItem];
    [other|done|other|done| |other|done]. intros d1. destruct (decide (d1 = d)) as [->|Hne].
  - by rw !lookup_delete_eq.
  - rw !lookup_delete_ne //. by intros [= H%to_raw_inj].
Qed.

Lemma represents_creator kv t k :
  represents kv t → keyed k →
  represents (<[creators ++ pair_bytes k := []]> kv) (set_CreatorDenoms ({[k]} ∪ CreatorDenoms t) t).
Proof.
  intros [Hc Hk Ha Haf Hh Hp Hpf] Hk1. split; cbn [set_CreatorDenoms CreatorDenoms DenomAuthority DenomHookAddr ParamsItem];
    [| |other|done|other|other|done].
  - intros key. rw lookup_insert_is_Some Hc. split.
    + intros [[= <-]|(_ & k1 & ? & ->)]; [exists k|exists k1]; set_solver.
    + intros (k1 & [->%elem_of_singleton|H]%elem_of_union & ->); [by left|].
      destruct (decide (k = k1)) as [->|Hne]; [by left|right]. split; [|by exists k1].
      by intros [= ?%pair_bytes_inj%Hne]%app_inv_head; [..|apply Hk].
  - intros k1 [->%elem_of_singleton|H]%elem_of_union; [done|by apply Hk].
Qed.

(** ** Operations *)

Context {W G : Type} {ST : SdkTypes} {GM : GasMeter G} {CK : ContractKeeper W G}.
Implicit Types (s : state W G).
#[local] Existing Instance byte_walk.

(** An operation on bytes does what the operation on the collections does. *)
Definition refines {A} (c : M kvstore A) (a : M (state W G) A) : Prop := ∀ kv s,
  represents kv (tf s) →
  ∃ kv1, c kv = ((a s).1, kv1) ∧ represents kv1 (tf (a s).2) ∧ ext (a s).2 = ext s.

Lemma refines_bind {A B : Type} (c : M kvstore A) (a : M (state W G) A) (f : A → M kvstore B) (g : A → M (state W G) B) :
  refines c a → (∀ x, refines (f x) (g x)) → refines (bind c f) (bind a g).
Proof.
  intros Hc Hf kv s R. destruct (Hc kv s R) as (kv1 & Hr & R1 & He). unfold bind. rw Hr.
  destruct (a s) as [[x|e|p] s1]; cbn in *; [|by exists kv1..].
  destruct (Hf x kv1 s1 R1) as (kv2 & -> & R2 & He2). exists kv2. by rw He2.
Qed.

Lemma refines_lift {A} (r : res A) : refines (lift r) (lift r).
Proof. intros kv s R. by exists kv. Qed.

(** A read. *)
Lemma refines_read {A} (c : M kvstore A) (a : M (state W G) A) :
  (∀ kv s, represents kv (tf s) → ∃ r, c kv = (r, kv) ∧ a s = (r, s)) → refines c a.
Proof. intros H kv s R. destruct (H kv s R) as (r & -> & ->). by exists kv. Qed.

(** A write. *)
Lemma refines_write (c : M kvstore unit) (f : TfStore → TfStore) :
  (∀ kv t, represents kv t → ∃ kv1, c kv = (Ok (), kv1) ∧ represents kv1 (f t)) → refines c (modify (on_tf f)).
Proof. intros H kv s R. destruct (H kv (tf s) R) as (kv1 & -> & R1). by exists kv1. Qed.

Lemma GetAuthorityMetadata_refines d : refines (store_GetAuthorityMetadata d) (GetAuthorityMetadata d).
Proof.
  apply refines_read. intros kv s R. unfold store_GetAuthorityMetadata, DenomAuthority_Get, GetAuthorityMetadata.
  rw (map_Get_at _ _ _ d _ kv (StringKey_enc d)) (rep_authority _ _ R).
  destruct (DenomAuthority (tf s) !! d) as [m|] eqn:E; cbn [fmap option_fmap option_map]; [|by eexists].
  destruct (CollValue_roundtrip m) as [_ ->]; [by eapply rep_authority_fits|]. by eexists.
Qed.

Lemma setAuthorityMetadata_refines d m :
  fits m → refines (store_setAuthorityMetadata d m) (setAuthorityMetadata d m).
Proof.
  intros Hm. apply refines_bind; [apply refines_lift|]. intros _. apply refines_write. intros kv t R.
  destruct (CollValue_roundtrip m Hm) as [He _]. unfold DenomAuthority_Set.
  rw (map_Set_at _ _ _ d m _ _ kv (StringKey_enc d) He). eexists. split; [done|]. by apply represents_authority.
Qed.

Lemma setAdmin_refines d a : fits {| Admin := a |} → refines (store_setAdmin d a) (setAdmin d a).
Proof.
  intros Hm. apply refines_bind; [apply GetAuthorityMetadata_refines|]. intros _. by apply setAuthorityMetadata_refines.
Qed.

Lemma addDenomFromCreator_refines c d : refines (store_addDenomFromCreator c d) (addDenomFromCreator c d).
Proof.
  intros kv s R. unfold store_addDenomFromCreator, CreatorDenoms_Set, addDenomFromCreator.
  rw keyset_Set_at key_enc_pair. cbn [fst]. destruct (mem_byte "000" c) eqn:Hc; [by exists kv|].
  eexists. split; [done|]. split; [|done]. by apply represents_creator.
Qed.

Lemma getDenomsFromCreator_refines c : refines (store_getDenomsFromCreator c) (getDenomsFromCreator c).
Proof.
  apply refines_read. intros kv s R. unfold store_getDenomsFromCreator, getDenomsFromCreator, bind, attempt.
  destruct (mem_byte "000" c) eqn:Hc.
  - unfold CreatorDenoms_Walk. rw keyset_Walk_first StringKey_nonterminal Hc. by eexists.
  - rw (walk_first _ _ _ R Hc). by eexists.
Qed.

Lemma keys_refines : refines (store_must (CreatorDenoms_Walk None)) (gets (λ s, walk (CreatorDenoms (tf s)))).
Proof. apply refines_read. intros kv s R. unfold store_must. rw (walk_all _ _ R). by eexists. Qed.

Lemma GetParams_refines : refines store_GetParams GetParams.
Proof.
  apply refines_read. intros kv s R. unfold store_GetParams, Params_Get, GetParams, bind, attempt, gets.
  rw item_Get_at (rep_params _ _ R). destruct (ParamsItem (tf s)) as [p|] eqn:E; cbn [fmap option_fmap option_map]; [|by eexists].
  destruct (CollValue_roundtrip p) as [_ ->]; [by eapply rep_params_fit|]. by eexists.
Qed.

Lemma SetParams_refines p : fits p → refines (store_SetParams p) (SetParams p).
Proof.
  intros Hp. apply refines_write. intros kv t R. destruct (CollValue_roundtrip p Hp) as [He _].
  unfold store_SetParams, Params_Set. rw (item_Set_at _ _ p _ kv He). eexists. split; [done|]. by apply represents_params.
Qed.

Lemma GetBeforeSendHook_refines d : refines (store_GetBeforeSendHook d) (GetBeforeSendHook d).
Proof.
  apply refines_read. intros kv s R. unfold store_GetBeforeSendHook, DenomHookAddr_Get, GetBeforeSendHook, bind, attempt, gets.
  rw (map_Get_at _ _ _ d _ kv (StringKey_enc d)) (rep_hook _ _ R).
  destruct (DenomHookAddr (tf s) !! d) as [a|]; cbn; [|by eexists]. rw StringValue_dec of_to_raw. by eexists.
Qed.

(** What setBeforeSendHook writes in the end. *)
Definition write_hook (d a : string) : M (state W G) unit :=
  modify (on_tf (λ t, set_DenomHookAddr
    (if is_empty a then delete d (DenomHookAddr t) else <[d := a]> (DenomHookAddr t)) t)).

Lemma write_hook_refines d a : refines (store_write_hook d a) (write_hook d a).
Proof.
  apply refines_write. intros kv t R. unfold store_write_hook, DenomHookAddr_Remove, DenomHookAddr_Set.
  destruct (is_empty a).
  - rw (map_Remove_at _ _ _ d _ kv (StringKey_enc d)). eexists. split; [done|]. by apply represents_unhook.
  - rw (map_Set_at _ _ _ d a _ _ kv (StringKey_enc d) (StringValue_enc a)). eexists. split; [done|].
    by apply represents_hook.
Qed.

Lemma refines_must {A : Type} (c : M kvstore A) (a : M (state W G) A) : refines c a → refines (store_must c) (must a).
Proof.
  intros H kv s R. destruct (H kv s R) as (kv1 & Hc & R1 & He). unfold store_must, must. rw Hc.
  destruct (a s) as [[x|e|p] s1]; by exists kv1.
Qed.

Lemma refines_ret {A : Type} (x : A) : refines (ret x) (ret x).
Proof. apply refines_lift. Qed.

Lemma export_denoms_refines keys : refines (store_export_denoms keys) (export_denoms keys).
Proof.
  induction keys as [|[c d] keys IH]; [apply refines_ret|]. cbn.
  apply refines_bind; [apply refines_must, GetAuthorityMetadata_refines|]. intros m.
  apply refines_bind; [done|]. intros l. apply refines_ret.
Qed.

Lemma ExportGenesis_refines : refines store_ExportGenesis ExportGenesis.
Proof.
  apply refines_bind; [apply keys_refines|]. intros keys.
  apply refines_bind; [apply export_denoms_refines|]. intros gds.
  apply refines_bind; [apply GetParams_refines|]. intros p. apply refines_ret.
Qed.

(** * Histories *)

(** The calls of the module on its store, and what they answer. *)
Inductive store_call :=
| CallGetAuthority (denom : string)
| CallSetAuthority (denom : string) (m : DenomAuthorityMetadata)
| CallSetAdmin (denom admin : string)
| CallAddDenom (creator denom : string)
| CallDenoms (creator : string)
| CallGetParams
| CallSetParams (p : Params)
| CallGetHook (denom : string)
| CallWriteHook (denom addr : string)
| CallExport.

Inductive store_answer :=
| Done | Authority (m : DenomAuthorityMetadata) | Names (l : list string) | TheParams (p : Params)
| Hook (a : string) | Exported (g : GenesisState).

Definition then_answer {S A : Type} (f : A → store_answer) (m : M S A) : M S store_answer :=
  let! x := m in ret (f x).

Definition call_store (c : store_call) : M kvstore store_answer :=
  match c with
  | CallGetAuthority d => then_answer Authority (store_GetAuthorityMetadata d)
  | CallSetAuthority d m => then_answer (λ _, Done) (store_setAuthorityMetadata d m)
  | CallSetAdmin d a => then_answer (λ _, Done) (store_setAdmin d a)
  | CallAddDenom c d => then_answer (λ _, Done) (store_addDenomFromCreator c d)
  | CallDenoms c => then_answer Names (store_getDenomsFromCreator c)
  | CallGetParams => then_answer TheParams store_GetParams
  | CallSetParams p => then_answer (λ _, Done) (store_SetParams p)
  | CallGetHook d => then_answer Hook (store_GetBeforeSendHook d)
  | CallWriteHook d a => then_answer (λ _, Done) (store_write_hook d a)
  | CallExport => then_answer Exported store_ExportGenesis
  end.

Definition call_keeper (c : store_call) : M (state W G) store_answer :=
  match c with
  | CallGetAuthority d => then_answer Authority (GetAuthorityMetadata d)
  | CallSetAuthority d m => then_answer (λ _, Done) (setAuthorityMetadata d m)
  | CallSetAdmin d a => then_answer (λ _, Done) (setAdmin d a)
  | CallAddDenom c d => then_answer (λ _, Done) (addDenomFromCreator c d)
  | CallDenoms c => then_answer Names (getDenomsFromCreator c)
  | CallGetParams => then_answer TheParams GetParams
  | CallSetParams p => then_answer (λ _, Done) (SetParams p)
  | CallGetHook d => then_answer Hook (GetBeforeSendHook d)
  | CallWriteHook d a => then_answer (λ _, Done) (write_hook d a)
  | CallExport => then_answer Exported ExportGenesis
  end.

(** Values that are written fit in memory. *)
Definition call_fits (c : store_call) : Prop :=
  match c with
  | CallSetAuthority _ m => fits m
  | CallSetAdmin _ a => fits {| Admin := a |}
  | CallSetParams p => fits p
  | _ => True
  end.

Lemma refines_answer {A : Type} (f : A → store_answer) (c : M kvstore A) (a : M (state W G) A) :
  refines c a → refines (then_answer f c) (then_answer f a).
Proof. intros H. apply refines_bind; [done|]. intros x. apply refines_ret. Qed.

Lemma call_refines c : call_fits c → refines (call_store c) (call_keeper c).
Proof.
  destruct c; intros Hf; apply refines_answer; first
    [apply GetAuthorityMetadata_refines|by apply setAuthorityMetadata_refines|by apply setAdmin_refines
    |apply addDenomFromCreator_refines|apply getDenomsFromCreator_refines|apply GetParams_refines
    |by apply SetParams_refines|apply GetBeforeSendHook_refines|apply write_hook_refines|apply ExportGenesis_refines].
Qed.

(** A sequence of calls, each with its outcome: errors and panics are outcomes too. *)
Fixpoint outcomes {S A B : Type} (run : A → M S B) (l : list A) (s : S) : list (res B) * S :=
  match l with
  | [] => ([], s)
  | c :: l =>
      let '(r, s1) := run c s in
      let '(rs, s2) := outcomes run l s1 in (r :: rs, s2)
  end.

(** C3. The store in bytes is the store of the theorems. From the empty store, whatever calls are
    made, in whatever order, the collections in bytes answer exactly as the maps and sets do,
    down to the order of lists, the errors and the panics, and hold the same: collections do
    not run into each other, and what is written is read back. *)
Theorem store_refines calls s :
  tf s = empty_store → Forall call_fits calls →
  (outcomes call_store calls ∅).1 = (outcomes call_keeper calls s).1 ∧
  represents (outcomes call_store calls ∅).2 (tf (outcomes call_keeper calls s).2).
Proof.
  intros Ht Hf. pose proof represents_empty as R. rw -Ht in R. clear Ht. revert R. generalize (∅ : kvstore) as kv.
  revert s. induction Hf as [|c calls Hc _ IH]; intros s kv R; [done|]. cbn.
  destruct (call_refines c Hc kv s R) as (kv1 & -> & R1 & _). destruct (call_keeper c s) as [r s1]. cbn in *.
  destruct (IH s1 kv1 R1) as [H1 H2].
  destruct (outcomes call_store calls kv1), (outcomes call_keeper calls s1). cbn in *. by subst.
Qed.

Lemma fits_inj {A : Type} {GM1 : GogoMessage A} {GL1 : GogoLaws A GM1} (x y : option A) :
  (∀ a, x = Some a → fits a) → (∀ a, y = Some a → fits a) → gogo_enc <$> x = gogo_enc <$> y → x = y.
Proof.
  intros Hx Hy. destruct x as [a|], y as [b|]; try done. intros [= H].
  destruct (CollValue_roundtrip a (Hx _ eq_refl)) as [_ Ha], (CollValue_roundtrip b (Hy _ eq_refl)) as [_ Hb]. congruence.
Qed.

Lemma represents_creators_incl kv t1 t2 : represents kv t1 → represents kv t2 → CreatorDenoms t1 ⊆ CreatorDenoms t2.
Proof.
  intros R1 R2 k Hk. assert (is_Some (kv !! (creators ++ pair_bytes k))) as (k1 & Hk1 & H)%(rep_creators _ _ R2).
  { apply (rep_creators _ _ R1). by exists k. }
  apply pair_bytes_inj in H as ->; [done|by apply (rep_keyed _ _ R1)|by apply (rep_keyed _ _ R2)].
Qed.

(** Bytes represent one store at most. *)
Theorem represents_unique kv t1 t2 : represents kv t1 → represents kv t2 → t1 = t2.
Proof.
  intros R1 R2.
  assert (CreatorDenoms t1 = CreatorDenoms t2) as Hc.
  { apply set_eq. intros k. split; by eapply represents_creators_incl. }
  assert (DenomAuthority t1 = DenomAuthority t2) as Ha.
  { apply map_eq. intros d. apply fits_inj; [apply (rep_authority_fits _ _ R1)|apply (rep_authority_fits _ _ R2)|].
    by rw -(rep_authority _ _ R1) -(rep_authority _ _ R2). }
  assert (DenomHookAddr t1 = DenomHookAddr t2) as Hh.
  { apply map_eq. intros d. pose proof (rep_hook _ _ R1 d) as H. rw (rep_hook _ _ R2 d) in H.
    destruct (DenomHookAddr t1 !! d), (DenomHookAddr t2 !! d); try done. by injection H as ->%to_raw_inj. }
  assert (ParamsItem t1 = ParamsItem t2) as Hp.
  { apply fits_inj; [apply (rep_params_fit _ _ R1)|apply (rep_params_fit _ _ R2)|].
    by rw -(rep_params _ _ R1) -(rep_params _ _ R2). }
  destruct t1, t2. cbn in *. by subst.
Qed.
End spec.
