(* ===== verification/GogoTx.v ===== *)
(** x/tokenfactory/types/tx.pb.go: the messages of the token factory as transactions carry them. *)
From S2P Require Import Prelude.
From S2P Require Import Interfaces.
From S2P Require Import TfTypes.
From S2P Require Import GoJson.
From S2P Require Import Wire.
From S2P Require Import WireSpec.
From S2P Require Import WireRead.
From S2P Require Import GogoRuntime.
From S2P Require Import GogoWire.
From S2P Require Import GogoState.

(** * The messages *)

Section messages.
Context {SG : SdkGogo}.

(** ** MsgCreateDenom *)

Definition MsgCreateDenom_new : MsgCreateDenom := {|
  MsgCreateDenom_Sender := ""; MsgCreateDenom_Subdenom := ""
|}.

Definition MsgCreateDenom_set_Sender (v : string) (x : MsgCreateDenom) : MsgCreateDenom := {|
  MsgCreateDenom_Sender := v; MsgCreateDenom_Subdenom := MsgCreateDenom_Subdenom x
|}.

Definition MsgCreateDenom_set_Subdenom (v : string) (x : MsgCreateDenom) : MsgCreateDenom := {|
  MsgCreateDenom_Sender := MsgCreateDenom_Sender x; MsgCreateDenom_Subdenom := v
|}.

Definition MsgCreateDenom_Size (m : MsgCreateDenom) : Z :=
  size_bytes (MsgCreateDenom_Sender m) +
  size_bytes (MsgCreateDenom_Subdenom m).

Definition MsgCreateDenom_MarshalToSizedBuffer (m : MsgCreateDenom) : M raw Z := sized_buffer (
  put_bytes 0x12 (MsgCreateDenom_Subdenom m) ;;;
  put_bytes 0xa (MsgCreateDenom_Sender m)).

Definition MsgCreateDenom_field (dAtA : raw) (fieldNum : Z) : option (Z → M (rstate MsgCreateDenom) unit) :=
  if fieldNum =? 1 then Some (λ wireType, expect_wire 2 "Sender" wireType
    (get_string dAtA MsgCreateDenom_set_Sender))
  else if fieldNum =? 2 then Some (λ wireType, expect_wire 2 "Subdenom" wireType
    (get_string dAtA MsgCreateDenom_set_Subdenom))
  else None.

Definition MsgCreateDenom_Unmarshal (dAtA : raw) : M MsgCreateDenom unit := unmarshal_fields dAtA "MsgCreateDenom" (MsgCreateDenom_field dAtA).

#[export] Instance MsgCreateDenom_gogo : GogoMessage MsgCreateDenom := {|
  gogo_new := MsgCreateDenom_new; gogo_Size := MsgCreateDenom_Size;
  gogo_MarshalToSizedBuffer := MsgCreateDenom_MarshalToSizedBuffer; gogo_Unmarshal := MsgCreateDenom_Unmarshal
|}.

(** ** MsgCreateDenomResponse *)

Record MsgCreateDenomResponse := {
  MsgCreateDenomResponse_NewTokenDenom : string
}.

Definition MsgCreateDenomResponse_new : MsgCreateDenomResponse := {|
  MsgCreateDenomResponse_NewTokenDenom := ""
|}.

Definition MsgCreateDenomResponse_set_NewTokenDenom (v : string) (x : MsgCreateDenomResponse) : MsgCreateDenomResponse := {|
  MsgCreateDenomResponse_NewTokenDenom := v
|}.

Definition MsgCreateDenomResponse_Size (m : MsgCreateDenomResponse) : Z :=
  size_bytes (MsgCreateDenomResponse_NewTokenDenom m).

Definition MsgCreateDenomResponse_MarshalToSizedBuffer (m : MsgCreateDenomResponse) : M raw Z := sized_buffer (
  put_bytes 0xa (MsgCreateDenomResponse_NewTokenDenom m)).

Definition MsgCreateDenomResponse_field (dAtA : raw) (fieldNum : Z) : option (Z → M (rstate MsgCreateDenomResponse) unit) :=
  if fieldNum =? 1 then Some (λ wireType, expect_wire 2 "NewTokenDenom" wireType
    (get_string dAtA MsgCreateDenomResponse_set_NewTokenDenom))
  else None.

Definition MsgCreateDenomResponse_Unmarshal (dAtA : raw) : M MsgCreateDenomResponse unit := unmarshal_fields dAtA "MsgCreateDenomResponse" (MsgCreateDenomResponse_field dAtA).

#[export] Instance MsgCreateDenomResponse_gogo : GogoMessage MsgCreateDenomResponse := {|
  gogo_new := MsgCreateDenomResponse_new; gogo_Size := MsgCreateDenomResponse_Size;
  gogo_MarshalToSizedBuffer := MsgCreateDenomResponse_MarshalToSizedBuffer; gogo_Unmarshal := MsgCreateDenomResponse_Unmarshal
|}.

(** ** MsgMint *)

Definition MsgMint_new : MsgMint := {|
  MsgMint_Sender := ""; MsgMint_Amount := gogo_new; MsgMint_MintToAddress := ""
|}.

Definition MsgMint_set_Sender (v : string) (x : MsgMint) : MsgMint := {|
  MsgMint_Sender := v; MsgMint_Amount := MsgMint_Amount x;
  MsgMint_MintToAddress := MsgMint_MintToAddress x
|}.

Definition MsgMint_set_Amount (v : coin) (x : MsgMint) : MsgMint := {|
  MsgMint_Sender := MsgMint_Sender x; MsgMint_Amount := v;
  MsgMint_MintToAddress := MsgMint_MintToAddress x
|}.

Definition MsgMint_set_MintToAddress (v : string) (x : MsgMint) : MsgMint := {|
  MsgMint_Sender := MsgMint_Sender x; MsgMint_Amount := MsgMint_Amount x; MsgMint_MintToAddress := v
|}.

Definition MsgMint_Size (m : MsgMint) : Z :=
  size_bytes (MsgMint_Sender m) +
  size_embedded (MsgMint_Amount m) +
  size_bytes (MsgMint_MintToAddress m).

Definition MsgMint_MarshalToSizedBuffer (m : MsgMint) : M raw Z := sized_buffer (
  put_bytes 0x1a (MsgMint_MintToAddress m) ;;;
  put_embedded 0x12 (MsgMint_Amount m) ;;;
  put_bytes 0xa (MsgMint_Sender m)).

Definition MsgMint_field (dAtA : raw) (fieldNum : Z) : option (Z → M (rstate MsgMint) unit) :=
  if fieldNum =? 1 then Some (λ wireType, expect_wire 2 "Sender" wireType
    (get_string dAtA MsgMint_set_Sender))
  else if fieldNum =? 2 then Some (λ wireType, expect_wire 2 "Amount" wireType
    (get_embedded dAtA MsgMint_Amount MsgMint_set_Amount))
  else if fieldNum =? 3 then Some (λ wireType, expect_wire 2 "MintToAddress" wireType
    (get_string dAtA MsgMint_set_MintToAddress))
  else None.

Definition MsgMint_Unmarshal (dAtA : raw) : M MsgMint unit := unmarshal_fields dAtA "MsgMint" (MsgMint_field dAtA).

#[export] Instance MsgMint_gogo : GogoMessage MsgMint := {|
  gogo_new := MsgMint_new; gogo_Size := MsgMint_Size;
  gogo_MarshalToSizedBuffer := MsgMint_MarshalToSizedBuffer; gogo_Unmarshal := MsgMint_Unmarshal
|}.

(** ** MsgMintResponse *)

Inductive MsgMintResponse := Mk_MsgMintResponse.

Definition MsgMintResponse_new : MsgMintResponse := Mk_MsgMintResponse.

Definition MsgMintResponse_Size (m : MsgMintResponse) : Z := 0.

Definition MsgMintResponse_MarshalToSizedBuffer (m : MsgMintResponse) : M raw Z := sized_buffer (ret ()).

Definition MsgMintResponse_field (dAtA : raw) (fieldNum : Z) : option (Z → M (rstate MsgMintResponse) unit) :=
  None.

Definition MsgMintResponse_Unmarshal (dAtA : raw) : M MsgMintResponse unit := unmarshal_fields dAtA "MsgMintResponse" (MsgMintResponse_field dAtA).

#[export] Instance MsgMintResponse_gogo : GogoMessage MsgMintResponse := {|
  gogo_new := MsgMintResponse_new; gogo_Size := MsgMintResponse_Size;
  gogo_MarshalToSizedBuffer := MsgMintResponse_MarshalToSizedBuffer; gogo_Unmarshal := MsgMintResponse_Unmarshal
|}.

(** ** MsgBurn *)

Definition MsgBurn_new : MsgBurn := {|
  MsgBurn_Sender := ""; MsgBurn_Amount := gogo_new
|}.

Definition MsgBurn_set_Sender (v : string) (x : MsgBurn) : MsgBurn := {|
  MsgBurn_Sender := v; MsgBurn_Amount := MsgBurn_Amount x
|}.

Definition MsgBurn_set_Amount (v : coin) (x : MsgBurn) : MsgBurn := {|
  MsgBurn_Sender := MsgBurn_Sender x; MsgBurn_Amount := v
|}.

Definition MsgBurn_Size (m : MsgBurn) : Z :=
  size_bytes (MsgBurn_Sender m) +
  size_embedded (MsgBurn_Amount m).

Definition MsgBurn_MarshalToSizedBuffer (m : MsgBurn) : M raw Z := sized_buffer (
  put_embedded 0x12 (MsgBurn_Amount m) ;;;
  put_bytes 0xa (MsgBurn_Sender m)).

Definition MsgBurn_field (dAtA : raw) (fieldNum : Z) : option (Z → M (rstate MsgBurn) unit) :=
  if fieldNum =? 1 then Some (λ wireType, expect_wire 2 "Sender" wireType
    (get_string dAtA MsgBurn_set_Sender))
  else if fieldNum =? 2 then Some (λ wireType, expect_wire 2 "Amount" wireType
    (get_embedded dAtA MsgBurn_Amount MsgBurn_set_Amount))
  else None.

Definition MsgBurn_Unmarshal (dAtA : raw) : M MsgBurn unit := unmarshal_fields dAtA "MsgBurn" (MsgBurn_field dAtA).

#[export] Instance MsgBurn_gogo : GogoMessage MsgBurn := {|
  gogo_new := MsgBurn_new; gogo_Size := MsgBurn_Size;
  gogo_MarshalToSizedBuffer := MsgBurn_MarshalToSizedBuffer; gogo_Unmarshal := MsgBurn_Unmarshal
|}.

(** ** MsgBurnResponse *)

Inductive MsgBurnResponse := Mk_MsgBurnResponse.

Definition MsgBurnResponse_new : MsgBurnResponse := Mk_MsgBurnResponse.

Definition MsgBurnResponse_Size (m : MsgBurnResponse) : Z := 0.

Definition MsgBurnResponse_MarshalToSizedBuffer (m : MsgBurnResponse) : M raw Z := sized_buffer (ret ()).

Definition MsgBurnResponse_field (dAtA : raw) (fieldNum : Z) : option (Z → M (rstate MsgBurnResponse) unit) :=
  None.

Definition MsgBurnResponse_Unmarshal (dAtA : raw) : M MsgBurnResponse unit := unmarshal_fields dAtA "MsgBurnResponse" (MsgBurnResponse_field dAtA).

#[export] Instance MsgBurnResponse_gogo : GogoMessage MsgBurnResponse := {|
  gogo_new := MsgBurnResponse_new; gogo_Size := MsgBurnResponse_Size;
  gogo_MarshalToSizedBuffer := MsgBurnResponse_MarshalToSizedBuffer; gogo_Unmarshal := MsgBurnResponse_Unmarshal
|}.

(** ** MsgChangeAdmin *)

Definition MsgChangeAdmin_new : MsgChangeAdmin := {|
  MsgChangeAdmin_Sender := ""; MsgChangeAdmin_Denom := ""; MsgChangeAdmin_NewAdmin := ""
|}.

Definition MsgChangeAdmin_set_Sender (v : string) (x : MsgChangeAdmin) : MsgChangeAdmin := {|
  MsgChangeAdmin_Sender := v; MsgChangeAdmin_Denom := MsgChangeAdmin_Denom x;
  MsgChangeAdmin_NewAdmin := MsgChangeAdmin_NewAdmin x
|}.

Definition MsgChangeAdmin_set_Denom (v : string) (x : MsgChangeAdmin) : MsgChangeAdmin := {|
  MsgChangeAdmin_Sender := MsgChangeAdmin_Sender x; MsgChangeAdmin_Denom := v;
  MsgChangeAdmin_NewAdmin := MsgChangeAdmin_NewAdmin x
|}.

Definition MsgChangeAdmin_set_NewAdmin (v : string) (x : MsgChangeAdmin) : MsgChangeAdmin := {|
  MsgChangeAdmin_Sender := MsgChangeAdmin_Sender x; MsgChangeAdmin_Denom := MsgChangeAdmin_Denom x;
  MsgChangeAdmin_NewAdmin := v
|}.

Definition MsgChangeAdmin_Size (m : MsgChangeAdmin) : Z :=
  size_bytes (MsgChangeAdmin_Sender m) +
  size_bytes (MsgChangeAdmin_Denom m) +
  size_bytes (MsgChangeAdmin_NewAdmin m).

Definition MsgChangeAdmin_MarshalToSizedBuffer (m : MsgChangeAdmin) : M raw Z := sized_buffer (
  put_bytes 0x1a (MsgChangeAdmin_NewAdmin m) ;;;
  put_bytes 0x12 (MsgChangeAdmin_Denom m) ;;;
  put_bytes 0xa (MsgChangeAdmin_Sender m)).

Definition MsgChangeAdmin_field (dAtA : raw) (fieldNum : Z) : option (Z → M (rstate MsgChangeAdmin) unit) :=
  if fieldNum =? 1 then Some (λ wireType, expect_wire 2 "Sender" wireType
    (get_string dAtA MsgChangeAdmin_set_Sender))
  else if fieldNum =? 2 then Some (λ wireType, expect_wire 2 "Denom" wireType
    (get_string dAtA MsgChangeAdmin_set_Denom))
  else if fieldNum =? 3 then Some (λ wireType, expect_wire 2 "NewAdmin" wireType
    (get_string dAtA MsgChangeAdmin_set_NewAdmin))
  else None.

Definition MsgChangeAdmin_Unmarshal (dAtA : raw) : M MsgChangeAdmin unit := unmarshal_fields dAtA "MsgChangeAdmin" (MsgChangeAdmin_field dAtA).

#[export] Instance MsgChangeAdmin_gogo : GogoMessage MsgChangeAdmin := {|
  gogo_new := MsgChangeAdmin_new; gogo_Size := MsgChangeAdmin_Size;
  gogo_MarshalToSizedBuffer := MsgChangeAdmin_MarshalToSizedBuffer; gogo_Unmarshal := MsgChangeAdmin_Unmarshal
|}.

(** ** MsgChangeAdminResponse *)

Inductive MsgChangeAdminResponse := Mk_MsgChangeAdminResponse.

Definition MsgChangeAdminResponse_new : MsgChangeAdminResponse := Mk_MsgChangeAdminResponse.

Definition MsgChangeAdminResponse_Size (m : MsgChangeAdminResponse) : Z := 0.

Definition MsgChangeAdminResponse_MarshalToSizedBuffer (m : MsgChangeAdminResponse) : M raw Z := sized_buffer (ret ()).

Definition MsgChangeAdminResponse_field (dAtA : raw) (fieldNum : Z) : option (Z → M (rstate MsgChangeAdminResponse) unit) :=
  None.

Definition MsgChangeAdminResponse_Unmarshal (dAtA : raw) : M MsgChangeAdminResponse unit := unmarshal_fields dAtA "MsgChangeAdminResponse" (MsgChangeAdminResponse_field dAtA).

#[export] Instance MsgChangeAdminResponse_gogo : GogoMessage MsgChangeAdminResponse := {|
  gogo_new := MsgChangeAdminResponse_new; gogo_Size := MsgChangeAdminResponse_Size;
  gogo_MarshalToSizedBuffer := MsgChangeAdminResponse_MarshalToSizedBuffer; gogo_Unmarshal := MsgChangeAdminResponse_Unmarshal
|}.

(** ** MsgSetBeforeSendHook *)

Definition MsgSetBeforeSendHook_new : MsgSetBeforeSendHook := {|
  MsgSetBeforeSendHook_Sender := ""; MsgSetBeforeSendHook_Denom := "";
  MsgSetBeforeSendHook_CosmwasmAddress := ""
|}.

Definition MsgSetBeforeSendHook_set_Sender (v : string) (x : MsgSetBeforeSendHook) : MsgSetBeforeSendHook := {|
  MsgSetBeforeSendHook_Sender := v; MsgSetBeforeSendHook_Denom := MsgSetBeforeSendHook_Denom x;
  MsgSetBeforeSendHook_CosmwasmAddress := MsgSetBeforeSendHook_CosmwasmAddress x
|}.

Definition MsgSetBeforeSendHook_set_Denom (v : string) (x : MsgSetBeforeSendHook) : MsgSetBeforeSendHook := {|
  MsgSetBeforeSendHook_Sender := MsgSetBeforeSendHook_Sender x; MsgSetBeforeSendHook_Denom := v;
  MsgSetBeforeSendHook_CosmwasmAddress := MsgSetBeforeSendHook_CosmwasmAddress x
|}.

Definition MsgSetBeforeSendHook_set_CosmwasmAddress (v : string) (x : MsgSetBeforeSendHook) : MsgSetBeforeSendHook := {|
  MsgSetBeforeSendHook_Sender := MsgSetBeforeSendHook_Sender x;
  MsgSetBeforeSendHook_Denom := MsgSetBeforeSendHook_Denom x; MsgSetBeforeSendHook_CosmwasmAddress := v
|}.

Definition MsgSetBeforeSendHook_Size (m : MsgSetBeforeSendHook) : Z :=
  size_bytes (MsgSetBeforeSendHook_Sender m) +
  size_bytes (MsgSetBeforeSendHook_Denom m) +
  size_bytes (MsgSetBeforeSendHook_CosmwasmAddress m).

Definition MsgSetBeforeSendHook_MarshalToSizedBuffer (m : MsgSetBeforeSendHook) : M raw Z := sized_buffer (
  put_bytes 0x1a (MsgSetBeforeSendHook_CosmwasmAddress m) ;;;
  put_bytes 0x12 (MsgSetBeforeSendHook_Denom m) ;;;
  put_bytes 0xa (MsgSetBeforeSendHook_Sender m)).

Definition MsgSetBeforeSendHook_field (dAtA : raw) (fieldNum : Z) : option (Z → M (rstate MsgSetBeforeSendHook) unit) :=
  if fieldNum =? 1 then Some (λ wireType, expect_wire 2 "Sender" wireType
    (get_string dAtA MsgSetBeforeSendHook_set_Sender))
  else if fieldNum =? 2 then Some (λ wireType, expect_wire 2 "Denom" wireType
    (get_string dAtA MsgSetBeforeSendHook_set_Denom))
  else if fieldNum =? 3 then Some (λ wireType, expect_wire 2 "CosmwasmAddress" wireType
    (get_string dAtA MsgSetBeforeSendHook_set_CosmwasmAddress))
  else None.

Definition MsgSetBeforeSendHook_Unmarshal (dAtA : raw) : M MsgSetBeforeSendHook unit := unmarshal_fields dAtA "MsgSetBeforeSendHook" (MsgSetBeforeSendHook_field dAtA).

#[export] Instance MsgSetBeforeSendHook_gogo : GogoMessage MsgSetBeforeSendHook := {|
  gogo_new := MsgSetBeforeSendHook_new; gogo_Size := MsgSetBeforeSendHook_Size;
  gogo_MarshalToSizedBuffer := MsgSetBeforeSendHook_MarshalToSizedBuffer; gogo_Unmarshal := MsgSetBeforeSendHook_Unmarshal
|}.

(** ** MsgSetBeforeSendHookResponse *)

Inductive MsgSetBeforeSendHookResponse := Mk_MsgSetBeforeSendHookResponse.

Definition MsgSetBeforeSendHookResponse_new : MsgSetBeforeSendHookResponse := Mk_MsgSetBeforeSendHookResponse.

Definition MsgSetBeforeSendHookResponse_Size (m : MsgSetBeforeSendHookResponse) : Z := 0.

Definition MsgSetBeforeSendHookResponse_MarshalToSizedBuffer (m : MsgSetBeforeSendHookResponse) : M raw Z := sized_buffer (ret ()).

Definition MsgSetBeforeSendHookResponse_field (dAtA : raw) (fieldNum : Z) : option (Z → M (rstate MsgSetBeforeSendHookResponse) unit) :=
  None.

Definition MsgSetBeforeSendHookResponse_Unmarshal (dAtA : raw) : M MsgSetBeforeSendHookResponse unit := unmarshal_fields dAtA "MsgSetBeforeSendHookResponse" (MsgSetBeforeSendHookResponse_field dAtA).

#[export] Instance MsgSetBeforeSendHookResponse_gogo : GogoMessage MsgSetBeforeSendHookResponse := {|
  gogo_new := MsgSetBeforeSendHookResponse_new; gogo_Size := MsgSetBeforeSendHookResponse_Size;
  gogo_MarshalToSizedBuffer := MsgSetBeforeSendHookResponse_MarshalToSizedBuffer; gogo_Unmarshal := MsgSetBeforeSendHookResponse_Unmarshal
|}.

(** ** MsgSetDenomMetadata *)

Definition MsgSetDenomMetadata_new : MsgSetDenomMetadata := {|
  MsgSetDenomMetadata_Sender := ""; MsgSetDenomMetadata_Metadata := gogo_new
|}.

Definition MsgSetDenomMetadata_set_Sender (v : string) (x : MsgSetDenomMetadata) : MsgSetDenomMetadata := {|
  MsgSetDenomMetadata_Sender := v; MsgSetDenomMetadata_Metadata := MsgSetDenomMetadata_Metadata x
|}.

Definition MsgSetDenomMetadata_set_Metadata (v : Metadata) (x : MsgSetDenomMetadata) : MsgSetDenomMetadata := {|
  MsgSetDenomMetadata_Sender := MsgSetDenomMetadata_Sender x; MsgSetDenomMetadata_Metadata := v
|}.

Definition MsgSetDenomMetadata_Size (m : MsgSetDenomMetadata) : Z :=
  size_bytes (MsgSetDenomMetadata_Sender m) +
  size_embedded (MsgSetDenomMetadata_Metadata m).

Definition MsgSetDenomMetadata_MarshalToSizedBuffer (m : MsgSetDenomMetadata) : M raw Z := sized_buffer (
  put_embedded 0x12 (MsgSetDenomMetadata_Metadata m) ;;;
  put_bytes 0xa (MsgSetDenomMetadata_Sender m)).

Definition MsgSetDenomMetadata_field (dAtA : raw) (fieldNum : Z) : option (Z → M (rstate MsgSetDenomMetadata) unit) :=
  if fieldNum =? 1 then Some (λ wireType, expect_wire 2 "Sender" wireType
    (get_string dAtA MsgSetDenomMetadata_set_Sender))
  else if fieldNum =? 2 then Some (λ wireType, expect_wire 2 "Metadata" wireType
    (get_embedded dAtA MsgSetDenomMetadata_Metadata MsgSetDenomMetadata_set_Metadata))
  else None.

Definition MsgSetDenomMetadata_Unmarshal (dAtA : raw) : M MsgSetDenomMetadata unit := unmarshal_fields dAtA "MsgSetDenomMetadata" (MsgSetDenomMetadata_field dAtA).

#[export] Instance MsgSetDenomMetadata_gogo : GogoMessage MsgSetDenomMetadata := {|
  gogo_new := MsgSetDenomMetadata_new; gogo_Size := MsgSetDenomMetadata_Size;
  gogo_MarshalToSizedBuffer := MsgSetDenomMetadata_MarshalToSizedBuffer; gogo_Unmarshal := MsgSetDenomMetadata_Unmarshal
|}.

(** ** MsgSetDenomMetadataResponse *)

Inductive MsgSetDenomMetadataResponse := Mk_MsgSetDenomMetadataResponse.

Definition MsgSetDenomMetadataResponse_new : MsgSetDenomMetadataResponse := Mk_MsgSetDenomMetadataResponse.

Definition MsgSetDenomMetadataResponse_Size (m : MsgSetDenomMetadataResponse) : Z := 0.

Definition MsgSetDenomMetadataResponse_MarshalToSizedBuffer (m : MsgSetDenomMetadataResponse) : M raw Z := sized_buffer (ret ()).

Definition MsgSetDenomMetadataResponse_field (dAtA : raw) (fieldNum : Z) : option (Z → M (rstate MsgSetDenomMetadataResponse) unit) :=
  None.

Definition MsgSetDenomMetadataResponse_Unmarshal (dAtA : raw) : M MsgSetDenomMetadataResponse unit := unmarshal_fields dAtA "MsgSetDenomMetadataResponse" (MsgSetDenomMetadataResponse_field dAtA).

#[export] Instance MsgSetDenomMetadataResponse_gogo : GogoMessage MsgSetDenomMetadataResponse := {|
  gogo_new := MsgSetDenomMetadataResponse_new; gogo_Size := MsgSetDenomMetadataResponse_Size;
  gogo_MarshalToSizedBuffer := MsgSetDenomMetadataResponse_MarshalToSizedBuffer; gogo_Unmarshal := MsgSetDenomMetadataResponse_Unmarshal
|}.

(** ** MsgUpdateParams *)

Definition MsgUpdateParams_new : MsgUpdateParams := {|
  MsgUpdateParams_Authority := ""; MsgUpdateParams_Params := gogo_new
|}.

Definition MsgUpdateParams_set_Authority (v : string) (x : MsgUpdateParams) : MsgUpdateParams := {|
  MsgUpdateParams_Authority := v; MsgUpdateParams_Params := MsgUpdateParams_Params x
|}.

Definition MsgUpdateParams_set_Params (v : Params) (x : MsgUpdateParams) : MsgUpdateParams := {|
  MsgUpdateParams_Authority := MsgUpdateParams_Authority x; MsgUpdateParams_Params := v
|}.

Definition MsgUpdateParams_Size (m : MsgUpdateParams) : Z :=
  size_bytes (MsgUpdateParams_Authority m) +
  size_embedded (MsgUpdateParams_Params m).

Definition MsgUpdateParams_MarshalToSizedBuffer (m : MsgUpdateParams) : M raw Z := sized_buffer (
  put_embedded 0x12 (MsgUpdateParams_Params m) ;;;
  put_bytes 0xa (MsgUpdateParams_Authority m)).

Definition MsgUpdateParams_field (dAtA : raw) (fieldNum : Z) : option (Z → M (rstate MsgUpdateParams) unit) :=
  if fieldNum =? 1 then Some (λ wireType, expect_wire 2 "Authority" wireType
    (get_string dAtA MsgUpdateParams_set_Authority))
  else if fieldNum =? 2 then Some (λ wireType, expect_wire 2 "Params" wireType
    (get_embedded dAtA MsgUpdateParams_Params MsgUpdateParams_set_Params))
  else None.

Definition MsgUpdateParams_Unmarshal (dAtA : raw) : M MsgUpdateParams unit := unmarshal_fields dAtA "MsgUpdateParams" (MsgUpdateParams_field dAtA).

#[export] Instance MsgUpdateParams_gogo : GogoMessage MsgUpdateParams := {|
  gogo_new := MsgUpdateParams_new; gogo_Size := MsgUpdateParams_Size;
  gogo_MarshalToSizedBuffer := MsgUpdateParams_MarshalToSizedBuffer; gogo_Unmarshal := MsgUpdateParams_Unmarshal
|}.

(** ** MsgUpdateParamsResponse *)

Inductive MsgUpdateParamsResponse := Mk_MsgUpdateParamsResponse.

Definition MsgUpdateParamsResponse_new : MsgUpdateParamsResponse := Mk_MsgUpdateParamsResponse.

Definition MsgUpdateParamsResponse_Size (m : MsgUpdateParamsResponse) : Z := 0.

Definition MsgUpdateParamsResponse_MarshalToSizedBuffer (m : MsgUpdateParamsResponse) : M raw Z := sized_buffer (ret ()).

Definition MsgUpdateParamsResponse_field (dAtA : raw) (fieldNum : Z) : option (Z → M (rstate MsgUpdateParamsResponse) unit) :=
  None.

Definition MsgUpdateParamsResponse_Unmarshal (dAtA : raw) : M MsgUpdateParamsResponse unit := unmarshal_fields dAtA "MsgUpdateParamsResponse" (MsgUpdateParamsResponse_field dAtA).

#[export] Instance MsgUpdateParamsResponse_gogo : GogoMessage MsgUpdateParamsResponse := {|
  gogo_new := MsgUpdateParamsResponse_new; gogo_Size := MsgUpdateParamsResponse_Size;
  gogo_MarshalToSizedBuffer := MsgUpdateParamsResponse_MarshalToSizedBuffer; gogo_Unmarshal := MsgUpdateParamsResponse_Unmarshal
|}.

End messages.

(** * What they promise *)

Section laws.
Context {SG : SdkGogo}.
Context {SL : SdkGogoLaws SG}.

Definition MsgCreateDenom_enc (x : MsgCreateDenom) : raw :=
  enc_bytes 0xa (MsgCreateDenom_Sender x) ++
  enc_bytes 0x12 (MsgCreateDenom_Subdenom x).

Definition MsgCreateDenom_ok (x : MsgCreateDenom) : Prop :=
  True.

Lemma MsgCreateDenom_writes x dAtA : len (MsgCreateDenom_enc x) <= len dAtA →
  MsgCreateDenom_MarshalToSizedBuffer x dAtA =
    (Ok (len (MsgCreateDenom_enc x)), take (length dAtA - length (MsgCreateDenom_enc x)) dAtA ++ MsgCreateDenom_enc x).
Proof. apply sized_buffer_writes. unfold MsgCreateDenom_enc. gogo_write. Qed.

Lemma MsgCreateDenom_size_enc x : MsgCreateDenom_Size x = len (MsgCreateDenom_enc x).
Proof. unfold MsgCreateDenom_Size, MsgCreateDenom_enc. gogo_size. Qed.

Lemma MsgCreateDenom_reads_unknown x u :
  MsgCreateDenom_ok x → raw_fields MsgCreateDenom_field u → len (MsgCreateDenom_enc x ++ u) < 2 ^ 63 →
  MsgCreateDenom_Unmarshal (MsgCreateDenom_enc x ++ u) MsgCreateDenom_new = (Ok (), x).
Proof.
  intros Hok Hu H63. destruct x as [f1 f2].
  unfold MsgCreateDenom_enc in *. cbn [MsgCreateDenom_Sender MsgCreateDenom_Subdenom] in *.
  apply (unmarshal_fields_reads _ MsgCreateDenom_field); [|done]. rw -?app_assoc. rw -?app_assoc in H63.
  wire_read (reads_string "MsgCreateDenom" MsgCreateDenom_field (λ _ x, x) 1 "Sender").
  wire_read (reads_string "MsgCreateDenom" MsgCreateDenom_field (λ _ x, x) 2 "Subdenom").
  by apply reads_skipped.
Qed.

Lemma MsgCreateDenom_reads x : MsgCreateDenom_ok x → len (MsgCreateDenom_enc x) < 2 ^ 63 → MsgCreateDenom_Unmarshal (MsgCreateDenom_enc x) MsgCreateDenom_new = (Ok (), x).
Proof.
  intros Hok H63. rw -{1}(app_nil_r (MsgCreateDenom_enc x)). apply MsgCreateDenom_reads_unknown; [done|constructor|by rw app_nil_r].
Qed.

Lemma MsgCreateDenom_total bz x : len bz < 2 ^ 63 → no_panic (MsgCreateDenom_Unmarshal bz x).1.
Proof.
  intros. apply unmarshal_fields_total; [done|]. intros n k wt. unfold MsgCreateDenom_field. gogo_moves.
Qed.

#[export] Instance MsgCreateDenom_gogo_laws : GogoLaws MsgCreateDenom MsgCreateDenom_gogo := {|
  gogo_enc := MsgCreateDenom_enc; gogo_ok := MsgCreateDenom_ok; gogo_writes := MsgCreateDenom_writes; gogo_size := MsgCreateDenom_size_enc;
  gogo_reads := MsgCreateDenom_reads; gogo_total := MsgCreateDenom_total
|}.

Definition MsgCreateDenomResponse_enc (x : MsgCreateDenomResponse) : raw :=
  enc_bytes 0xa (MsgCreateDenomResponse_NewTokenDenom x).

Definition MsgCreateDenomResponse_ok (x : MsgCreateDenomResponse) : Prop :=
  True.

Lemma MsgCreateDenomResponse_writes x dAtA : len (MsgCreateDenomResponse_enc x) <= len dAtA →
  MsgCreateDenomResponse_MarshalToSizedBuffer x dAtA =
    (Ok (len (MsgCreateDenomResponse_enc x)), take (length dAtA - length (MsgCreateDenomResponse_enc x)) dAtA ++ MsgCreateDenomResponse_enc x).
Proof. apply sized_buffer_writes. unfold MsgCreateDenomResponse_enc. gogo_write. Qed.

Lemma MsgCreateDenomResponse_size_enc x : MsgCreateDenomResponse_Size x = len (MsgCreateDenomResponse_enc x).
Proof. unfold MsgCreateDenomResponse_Size, MsgCreateDenomResponse_enc. gogo_size. Qed.

Lemma MsgCreateDenomResponse_reads_unknown x u :
  MsgCreateDenomResponse_ok x → raw_fields MsgCreateDenomResponse_field u → len (MsgCreateDenomResponse_enc x ++ u) < 2 ^ 63 →
  MsgCreateDenomResponse_Unmarshal (MsgCreateDenomResponse_enc x ++ u) MsgCreateDenomResponse_new = (Ok (), x).
Proof.
  intros Hok Hu H63. destruct x as [f1].
  unfold MsgCreateDenomResponse_enc in *. cbn [MsgCreateDenomResponse_NewTokenDenom] in *.
  apply (unmarshal_fields_reads _ MsgCreateDenomResponse_field); [|done]. rw -?app_assoc. rw -?app_assoc in H63.
  wire_read (reads_string "MsgCreateDenomResponse" MsgCreateDenomResponse_field (λ _ x, x) 1 "NewTokenDenom").
  by apply reads_skipped.
Qed.

Lemma MsgCreateDenomResponse_reads x : MsgCreateDenomResponse_ok x → len (MsgCreateDenomResponse_enc x) < 2 ^ 63 → MsgCreateDenomResponse_Unmarshal (MsgCreateDenomResponse_enc x) MsgCreateDenomResponse_new = (Ok (), x).
Proof.
  intros Hok H63. rw -{1}(app_nil_r (MsgCreateDenomResponse_enc x)). apply MsgCreateDenomResponse_reads_unknown; [done|constructor|by rw app_nil_r].
Qed.

Lemma MsgCreateDenomResponse_total bz x : len bz < 2 ^ 63 → no_panic (MsgCreateDenomResponse_Unmarshal bz x).1.
Proof.
  intros. apply unmarshal_fields_total; [done|]. intros n k wt. unfold MsgCreateDenomResponse_field. gogo_moves.
Qed.

#[export] Instance MsgCreateDenomResponse_gogo_laws : GogoLaws MsgCreateDenomResponse MsgCreateDenomResponse_gogo := {|
  gogo_enc := MsgCreateDenomResponse_enc; gogo_ok := MsgCreateDenomResponse_ok; gogo_writes := MsgCreateDenomResponse_writes; gogo_size := MsgCreateDenomResponse_size_enc;
  gogo_reads := MsgCreateDenomResponse_reads; gogo_total := MsgCreateDenomResponse_total
|}.

Definition MsgMint_enc (x : MsgMint) : raw :=
  enc_bytes 0xa (MsgMint_Sender x) ++
  enc_embedded 0x12 (MsgMint_Amount x) ++
  enc_bytes 0x1a (MsgMint_MintToAddress x).

Definition MsgMint_ok (x : MsgMint) : Prop :=
  gogo_ok (MsgMint_Amount x).

Lemma MsgMint_writes x dAtA : len (MsgMint_enc x) <= len dAtA →
  MsgMint_MarshalToSizedBuffer x dAtA =
    (Ok (len (MsgMint_enc x)), take (length dAtA - length (MsgMint_enc x)) dAtA ++ MsgMint_enc x).
Proof. apply sized_buffer_writes. unfold MsgMint_enc. gogo_write. Qed.

Lemma MsgMint_size_enc x : MsgMint_Size x = len (MsgMint_enc x).
Proof. unfold MsgMint_Size, MsgMint_enc. gogo_size. Qed.

Lemma MsgMint_reads_unknown x u :
  MsgMint_ok x → raw_fields MsgMint_field u → len (MsgMint_enc x ++ u) < 2 ^ 63 →
  MsgMint_Unmarshal (MsgMint_enc x ++ u) MsgMint_new = (Ok (), x).
Proof.
  intros Hok Hu H63. destruct x as [f1 f2 f3]. unfold MsgMint_ok in Hok; rename Hok into HAmount.
  unfold MsgMint_enc in *. cbn [MsgMint_Sender MsgMint_Amount MsgMint_MintToAddress] in *.
  apply (unmarshal_fields_reads _ MsgMint_field); [|done]. rw -?app_assoc. rw -?app_assoc in H63.
  wire_read (reads_string "MsgMint" MsgMint_field (λ _ x, x) 1 "Sender").
  wire_read (reads_embedded (A:=coin) "MsgMint" MsgMint_field (λ _ x, x) 2 "Amount").
  wire_read (reads_string "MsgMint" MsgMint_field (λ _ x, x) 3 "MintToAddress").
  by apply reads_skipped.
Qed.

Lemma MsgMint_reads x : MsgMint_ok x → len (MsgMint_enc x) < 2 ^ 63 → MsgMint_Unmarshal (MsgMint_enc x) MsgMint_new = (Ok (), x).
Proof.
  intros Hok H63. rw -{1}(app_nil_r (MsgMint_enc x)). apply MsgMint_reads_unknown; [done|constructor|by rw app_nil_r].
Qed.

Lemma MsgMint_total bz x : len bz < 2 ^ 63 → no_panic (MsgMint_Unmarshal bz x).1.
Proof.
  intros. apply unmarshal_fields_total; [done|]. intros n k wt. unfold MsgMint_field. gogo_moves.
Qed.

#[export] Instance MsgMint_gogo_laws : GogoLaws MsgMint MsgMint_gogo := {|
  gogo_enc := MsgMint_enc; gogo_ok := MsgMint_ok; gogo_writes := MsgMint_writes; gogo_size := MsgMint_size_enc;
  gogo_reads := MsgMint_reads; gogo_total := MsgMint_total
|}.

Definition MsgMintResponse_enc (x : MsgMintResponse) : raw :=
  [].

Definition MsgMintResponse_ok (x : MsgMintResponse) : Prop :=
  True.

Lemma MsgMintResponse_writes x dAtA : len (MsgMintResponse_enc x) <= len dAtA →
  MsgMintResponse_MarshalToSizedBuffer x dAtA =
    (Ok (len (MsgMintResponse_enc x)), take (length dAtA - length (MsgMintResponse_enc x)) dAtA ++ MsgMintResponse_enc x).
Proof. apply sized_buffer_writes. unfold MsgMintResponse_enc. gogo_write. Qed.

Lemma MsgMintResponse_size_enc x : MsgMintResponse_Size x = len (MsgMintResponse_enc x).
Proof. unfold MsgMintResponse_Size, MsgMintResponse_enc. gogo_size. Qed.

Lemma MsgMintResponse_reads_unknown x u :
  MsgMintResponse_ok x → raw_fields MsgMintResponse_field u → len (MsgMintResponse_enc x ++ u) < 2 ^ 63 →
  MsgMintResponse_Unmarshal (MsgMintResponse_enc x ++ u) MsgMintResponse_new = (Ok (), x).
Proof.
  intros Hok Hu H63. destruct x.
  unfold MsgMintResponse_enc in *.
  apply (unmarshal_fields_reads _ MsgMintResponse_field); [|done]. rw -?app_assoc. rw -?app_assoc in H63.
  by apply reads_skipped.
Qed.

Lemma MsgMintResponse_reads x : MsgMintResponse_ok x → len (MsgMintResponse_enc x) < 2 ^ 63 → MsgMintResponse_Unmarshal (MsgMintResponse_enc x) MsgMintResponse_new = (Ok (), x).
Proof.
  intros Hok H63. rw -{1}(app_nil_r (MsgMintResponse_enc x)). apply MsgMintResponse_reads_unknown; [done|constructor|by rw app_nil_r].
Qed.

Lemma MsgMintResponse_total bz x : len bz < 2 ^ 63 → no_panic (MsgMintResponse_Unmarshal bz x).1.
Proof.
  intros. apply unmarshal_fields_total; [done|]. intros n k wt. unfold MsgMintResponse_field. done.
Qed.

#[export] Instance MsgMintResponse_gogo_laws : GogoLaws MsgMintResponse MsgMintResponse_gogo := {|
  gogo_enc := MsgMintResponse_enc; gogo_ok := MsgMintResponse_ok; gogo_writes := MsgMintResponse_writes; gogo_size := MsgMintResponse_size_enc;
  gogo_reads := MsgMintResponse_reads; gogo_total := MsgMintResponse_total
|}.

Definition MsgBurn_enc (x : MsgBurn) : raw :=
  enc_bytes 0xa (MsgBurn_Sender x) ++
  enc_embedded 0x12 (MsgBurn_Amount x).

Definition MsgBurn_ok (x : MsgBurn) : Prop :=
  gogo_ok (MsgBurn_Amount x).

Lemma MsgBurn_writes x dAtA : len (MsgBurn_enc x) <= len dAtA →
  MsgBurn_MarshalToSizedBuffer x dAtA =
    (Ok (len (MsgBurn_enc x)), take (length dAtA - length (MsgBurn_enc x)) dAtA ++ MsgBurn_enc x).
Proof. apply sized_buffer_writes. unfold MsgBurn_enc. gogo_write. Qed.

Lemma MsgBurn_size_enc x : MsgBurn_Size x = len (MsgBurn_enc x).
Proof. unfold MsgBurn_Size, MsgBurn_enc. gogo_size. Qed.

Lemma MsgBurn_reads_unknown x u :
  MsgBurn_ok x → raw_fields MsgBurn_field u → len (MsgBurn_enc x ++ u) < 2 ^ 63 →
  MsgBurn_Unmarshal (MsgBurn_enc x ++ u) MsgBurn_new = (Ok (), x).
Proof.
  intros Hok Hu H63. destruct x as [f1 f2]. unfold MsgBurn_ok in Hok; rename Hok into HAmount.
  unfold MsgBurn_enc in *. cbn [MsgBurn_Sender MsgBurn_Amount] in *.
  apply (unmarshal_fields_reads _ MsgBurn_field); [|done]. rw -?app_assoc. rw -?app_assoc in H63.
  wire_read (reads_string "MsgBurn" MsgBurn_field (λ _ x, x) 1 "Sender").
  wire_read (reads_embedded (A:=coin) "MsgBurn" MsgBurn_field (λ _ x, x) 2 "Amount").
  by apply reads_skipped.
Qed.

Lemma MsgBurn_reads x : MsgBurn_ok x → len (MsgBurn_enc x) < 2 ^ 63 → MsgBurn_Unmarshal (MsgBurn_enc x) MsgBurn_new = (Ok (), x).
Proof.
  intros Hok H63. rw -{1}(app_nil_r (MsgBurn_enc x)). apply MsgBurn_reads_unknown; [done|constructor|by rw app_nil_r].
Qed.

Lemma MsgBurn_total bz x : len bz < 2 ^ 63 → no_panic (MsgBurn_Unmarshal bz x).1.
Proof.
  intros. apply unmarshal_fields_total; [done|]. intros n k wt. unfold MsgBurn_field. gogo_moves.
Qed.

#[export] Instance MsgBurn_gogo_laws : GogoLaws MsgBurn MsgBurn_gogo := {|
  gogo_enc := MsgBurn_enc; gogo_ok := MsgBurn_ok; gogo_writes := MsgBurn_writes; gogo_size := MsgBurn_size_enc;
  gogo_reads := MsgBurn_reads; gogo_total := MsgBurn_total
|}.

Definition MsgBurnResponse_enc (x : MsgBurnResponse) : raw :=
  [].

Definition MsgBurnResponse_ok (x : MsgBurnResponse) : Prop :=
  True.

Lemma MsgBurnResponse_writes x dAtA : len (MsgBurnResponse_enc x) <= len dAtA →
  MsgBurnResponse_MarshalToSizedBuffer x dAtA =
    (Ok (len (MsgBurnResponse_enc x)), take (length dAtA - length (MsgBurnResponse_enc x)) dAtA ++ MsgBurnResponse_enc x).
Proof. apply sized_buffer_writes. unfold MsgBurnResponse_enc. gogo_write. Qed.

Lemma MsgBurnResponse_size_enc x : MsgBurnResponse_Size x = len (MsgBurnResponse_enc x).
Proof. unfold MsgBurnResponse_Size, MsgBurnResponse_enc. gogo_size. Qed.

Lemma MsgBurnResponse_reads_unknown x u :
  MsgBurnResponse_ok x → raw_fields MsgBurnResponse_field u → len (MsgBurnResponse_enc x ++ u) < 2 ^ 63 →
  MsgBurnResponse_Unmarshal (MsgBurnResponse_enc x ++ u) MsgBurnResponse_new = (Ok (), x).
Proof.
  intros Hok Hu H63. destruct x.
  unfold MsgBurnResponse_enc in *.
  apply (unmarshal_fields_reads _ MsgBurnResponse_field); [|done]. rw -?app_assoc. rw -?app_assoc in H63.
  by apply reads_skipped.
Qed.

Lemma MsgBurnResponse_reads x : MsgBurnResponse_ok x → len (MsgBurnResponse_enc x) < 2 ^ 63 → MsgBurnResponse_Unmarshal (MsgBurnResponse_enc x) MsgBurnResponse_new = (Ok (), x).
Proof.
  intros Hok H63. rw -{1}(app_nil_r (MsgBurnResponse_enc x)). apply MsgBurnResponse_reads_unknown; [done|constructor|by rw app_nil_r].
Qed.

Lemma MsgBurnResponse_total bz x : len bz < 2 ^ 63 → no_panic (MsgBurnResponse_Unmarshal bz x).1.
Proof.
  intros. apply unmarshal_fields_total; [done|]. intros n k wt. unfold MsgBurnResponse_field. done.
Qed.

#[export] Instance MsgBurnResponse_gogo_laws : GogoLaws MsgBurnResponse MsgBurnResponse_gogo := {|
  gogo_enc := MsgBurnResponse_enc; gogo_ok := MsgBurnResponse_ok; gogo_writes := MsgBurnResponse_writes; gogo_size := MsgBurnResponse_size_enc;
  gogo_reads := MsgBurnResponse_reads; gogo_total := MsgBurnResponse_total
|}.

Definition MsgChangeAdmin_enc (x : MsgChangeAdmin) : raw :=
  enc_bytes 0xa (MsgChangeAdmin_Sender x) ++
  enc_bytes 0x12 (MsgChangeAdmin_Denom x) ++
  enc_bytes 0x1a (MsgChangeAdmin_NewAdmin x).

Definition MsgChangeAdmin_ok (x : MsgChangeAdmin) : Prop :=
  True.

Lemma MsgChangeAdmin_writes x dAtA : len (MsgChangeAdmin_enc x) <= len dAtA →
  MsgChangeAdmin_MarshalToSizedBuffer x dAtA =
    (Ok (len (MsgChangeAdmin_enc x)), take (length dAtA - length (MsgChangeAdmin_enc x)) dAtA ++ MsgChangeAdmin_enc x).
Proof. apply sized_buffer_writes. unfold MsgChangeAdmin_enc. gogo_write. Qed.

Lemma MsgChangeAdmin_size_enc x : MsgChangeAdmin_Size x = len (MsgChangeAdmin_enc x).
Proof. unfold MsgChangeAdmin_Size, MsgChangeAdmin_enc. gogo_size. Qed.

Lemma MsgChangeAdmin_reads_unknown x u :
  MsgChangeAdmin_ok x → raw_fields MsgChangeAdmin_field u → len (MsgChangeAdmin_enc x ++ u) < 2 ^ 63 →
  MsgChangeAdmin_Unmarshal (MsgChangeAdmin_enc x ++ u) MsgChangeAdmin_new = (Ok (), x).
Proof.
  intros Hok Hu H63. destruct x as [f1 f2 f3].
  unfold MsgChangeAdmin_enc in *. cbn [MsgChangeAdmin_Sender MsgChangeAdmin_Denom MsgChangeAdmin_NewAdmin] in *.
  apply (unmarshal_fields_reads _ MsgChangeAdmin_field); [|done]. rw -?app_assoc. rw -?app_assoc in H63.
  wire_read (reads_string "MsgChangeAdmin" MsgChangeAdmin_field (λ _ x, x) 1 "Sender").
  wire_read (reads_string "MsgChangeAdmin" MsgChangeAdmin_field (λ _ x, x) 2 "Denom").
  wire_read (reads_string "MsgChangeAdmin" MsgChangeAdmin_field (λ _ x, x) 3 "NewAdmin").
  by apply reads_skipped.
Qed.

Lemma MsgChangeAdmin_reads x : MsgChangeAdmin_ok x → len (MsgChangeAdmin_enc x) < 2 ^ 63 → MsgChangeAdmin_Unmarshal (MsgChangeAdmin_enc x) MsgChangeAdmin_new = (Ok (), x).
Proof.
  intros Hok H63. rw -{1}(app_nil_r (MsgChangeAdmin_enc x)). apply MsgChangeAdmin_reads_unknown; [done|constructor|by rw app_nil_r].
Qed.

Lemma MsgChangeAdmin_total bz x : len bz < 2 ^ 63 → no_panic (MsgChangeAdmin_Unmarshal bz x).1.
Proof.
  intros. apply unmarshal_fields_total; [done|]. intros n k wt. unfold MsgChangeAdmin_field. gogo_moves.
Qed.

#[export] Instance MsgChangeAdmin_gogo_laws : GogoLaws MsgChangeAdmin MsgChangeAdmin_gogo := {|
  gogo_enc := MsgChangeAdmin_enc; gogo_ok := MsgChangeAdmin_ok; gogo_writes := MsgChangeAdmin_writes; gogo_size := MsgChangeAdmin_size_enc;
  gogo_reads := MsgChangeAdmin_reads; gogo_total := MsgChangeAdmin_total
|}.

Definition MsgChangeAdminResponse_enc (x : MsgChangeAdminResponse) : raw :=
  [].

Definition MsgChangeAdminResponse_ok (x : MsgChangeAdminResponse) : Prop :=
  True.

Lemma MsgChangeAdminResponse_writes x dAtA : len (MsgChangeAdminResponse_enc x) <= len dAtA →
  MsgChangeAdminResponse_MarshalToSizedBuffer x dAtA =
    (Ok (len (MsgChangeAdminResponse_enc x)), take (length dAtA - length (MsgChangeAdminResponse_enc x)) dAtA ++ MsgChangeAdminResponse_enc x).
Proof. apply sized_buffer_writes. unfold MsgChangeAdminResponse_enc. gogo_write. Qed.

Lemma MsgChangeAdminResponse_size_enc x : MsgChangeAdminResponse_Size x = len (MsgChangeAdminResponse_enc x).
Proof. unfold MsgChangeAdminResponse_Size, MsgChangeAdminResponse_enc. gogo_size. Qed.

Lemma MsgChangeAdminResponse_reads_unknown x u :
  MsgChangeAdminResponse_ok x → raw_fields MsgChangeAdminResponse_field u → len (MsgChangeAdminResponse_enc x ++ u) < 2 ^ 63 →
  MsgChangeAdminResponse_Unmarshal (MsgChangeAdminResponse_enc x ++ u) MsgChangeAdminResponse_new = (Ok (), x).
Proof.
  intros Hok Hu H63. destruct x.
  unfold MsgChangeAdminResponse_enc in *.
  apply (unmarshal_fields_reads _ MsgChangeAdminResponse_field); [|done]. rw -?app_assoc. rw -?app_assoc in H63.
  by apply reads_skipped.
Qed.

Lemma MsgChangeAdminResponse_reads x : MsgChangeAdminResponse_ok x → len (MsgChangeAdminResponse_enc x) < 2 ^ 63 → MsgChangeAdminResponse_Unmarshal (MsgChangeAdminResponse_enc x) MsgChangeAdminResponse_new = (Ok (), x).
Proof.
  intros Hok H63. rw -{1}(app_nil_r (MsgChangeAdminResponse_enc x)). apply MsgChangeAdminResponse_reads_unknown; [done|constructor|by rw app_nil_r].
Qed.

Lemma MsgChangeAdminResponse_total bz x : len bz < 2 ^ 63 → no_panic (MsgChangeAdminResponse_Unmarshal bz x).1.
Proof.
  intros. apply unmarshal_fields_total; [done|]. intros n k wt. unfold MsgChangeAdminResponse_field. done.
Qed.

#[export] Instance MsgChangeAdminResponse_gogo_laws : GogoLaws MsgChangeAdminResponse MsgChangeAdminResponse_gogo := {|
  gogo_enc := MsgChangeAdminResponse_enc; gogo_ok := MsgChangeAdminResponse_ok; gogo_writes := MsgChangeAdminResponse_writes; gogo_size := MsgChangeAdminResponse_size_enc;
  gogo_reads := MsgChangeAdminResponse_reads; gogo_total := MsgChangeAdminResponse_total
|}.

Definition MsgSetBeforeSendHook_enc (x : MsgSetBeforeSendHook) : raw :=
  enc_bytes 0xa (MsgSetBeforeSendHook_Sender x) ++
  enc_bytes 0x12 (MsgSetBeforeSendHook_Denom x) ++
  enc_bytes 0x1a (MsgSetBeforeSendHook_CosmwasmAddress x).

Definition MsgSetBeforeSendHook_ok (x : MsgSetBeforeSendHook) : Prop :=
  True.

Lemma MsgSetBeforeSendHook_writes x dAtA : len (MsgSetBeforeSendHook_enc x) <= len dAtA →
  MsgSetBeforeSendHook_MarshalToSizedBuffer x dAtA =
    (Ok (len (MsgSetBeforeSendHook_enc x)), take (length dAtA - length (MsgSetBeforeSendHook_enc x)) dAtA ++ MsgSetBeforeSendHook_enc x).
Proof. apply sized_buffer_writes. unfold MsgSetBeforeSendHook_enc. gogo_write. Qed.

Lemma MsgSetBeforeSendHook_size_enc x : MsgSetBeforeSendHook_Size x = len (MsgSetBeforeSendHook_enc x).
Proof. unfold MsgSetBeforeSendHook_Size, MsgSetBeforeSendHook_enc. gogo_size. Qed.

Lemma MsgSetBeforeSendHook_reads_unknown x u :
  MsgSetBeforeSendHook_ok x → raw_fields MsgSetBeforeSendHook_field u → len (MsgSetBeforeSendHook_enc x ++ u) < 2 ^ 63 →
  MsgSetBeforeSendHook_Unmarshal (MsgSetBeforeSendHook_enc x ++ u) MsgSetBeforeSendHook_new = (Ok (), x).
Proof.
  intros Hok Hu H63. destruct x as [f1 f2 f3].
  unfold MsgSetBeforeSendHook_enc in *. cbn [MsgSetBeforeSendHook_Sender MsgSetBeforeSendHook_Denom MsgSetBeforeSendHook_CosmwasmAddress] in *.
  apply (unmarshal_fields_reads _ MsgSetBeforeSendHook_field); [|done]. rw -?app_assoc. rw -?app_assoc in H63.
  wire_read (reads_string "MsgSetBeforeSendHook" MsgSetBeforeSendHook_field (λ _ x, x) 1 "Sender").
  wire_read (reads_string "MsgSetBeforeSendHook" MsgSetBeforeSendHook_field (λ _ x, x) 2 "Denom").
  wire_read (reads_string "MsgSetBeforeSendHook" MsgSetBeforeSendHook_field (λ _ x, x) 3 "CosmwasmAddress").
  by apply reads_skipped.
Qed.

Lemma MsgSetBeforeSendHook_reads x : MsgSetBeforeSendHook_ok x → len (MsgSetBeforeSendHook_enc x) < 2 ^ 63 → MsgSetBeforeSendHook_Unmarshal (MsgSetBeforeSendHook_enc x) MsgSetBeforeSendHook_new = (Ok (), x).
Proof.
  intros Hok H63. rw -{1}(app_nil_r (MsgSetBeforeSendHook_enc x)). apply MsgSetBeforeSendHook_reads_unknown; [done|constructor|by rw app_nil_r].
Qed.

Lemma MsgSetBeforeSendHook_total bz x : len bz < 2 ^ 63 → no_panic (MsgSetBeforeSendHook_Unmarshal bz x).1.
Proof.
  intros. apply unmarshal_fields_total; [done|]. intros n k wt. unfold MsgSetBeforeSendHook_field. gogo_moves.
Qed.

#[export] Instance MsgSetBeforeSendHook_gogo_laws : GogoLaws MsgSetBeforeSendHook MsgSetBeforeSendHook_gogo := {|
  gogo_enc := MsgSetBeforeSendHook_enc; gogo_ok := MsgSetBeforeSendHook_ok; gogo_writes := MsgSetBeforeSendHook_writes; gogo_size := MsgSetBeforeSendHook_size_enc;
  gogo_reads := MsgSetBeforeSendHook_reads; gogo_total := MsgSetBeforeSendHook_total
|}.

Definition MsgSetBeforeSendHookResponse_enc (x : MsgSetBeforeSendHookResponse) : raw :=
  [].

Definition MsgSetBeforeSendHookResponse_ok (x : MsgSetBeforeSendHookResponse) : Prop :=
  True.

Lemma MsgSetBeforeSendHookResponse_writes x dAtA : len (MsgSetBeforeSendHookResponse_enc x) <= len dAtA →
  MsgSetBeforeSendHookResponse_MarshalToSizedBuffer x dAtA =
    (Ok (len (MsgSetBeforeSendHookResponse_enc x)), take (length dAtA - length (MsgSetBeforeSendHookResponse_enc x)) dAtA ++ MsgSetBeforeSendHookResponse_enc x).
Proof. apply sized_buffer_writes. unfold MsgSetBeforeSendHookResponse_enc. gogo_write. Qed.

Lemma MsgSetBeforeSendHookResponse_size_enc x : MsgSetBeforeSendHookResponse_Size x = len (MsgSetBeforeSendHookResponse_enc x).
Proof. unfold MsgSetBeforeSendHookResponse_Size, MsgSetBeforeSendHookResponse_enc. gogo_size. Qed.

Lemma MsgSetBeforeSendHookResponse_reads_unknown x u :
  MsgSetBeforeSendHookResponse_ok x → raw_fields MsgSetBeforeSendHookResponse_field u → len (MsgSetBeforeSendHookResponse_enc x ++ u) < 2 ^ 63 →
  MsgSetBeforeSendHookResponse_Unmarshal (MsgSetBeforeSendHookResponse_enc x ++ u) MsgSetBeforeSendHookResponse_new = (Ok (), x).
Proof.
  intros Hok Hu H63. destruct x.
  unfold MsgSetBeforeSendHookResponse_enc in *.
  apply (unmarshal_fields_reads _ MsgSetBeforeSendHookResponse_field); [|done]. rw -?app_assoc. rw -?app_assoc in H63.
  by apply reads_skipped.
Qed.

Lemma MsgSetBeforeSendHookResponse_reads x : MsgSetBeforeSendHookResponse_ok x → len (MsgSetBeforeSendHookResponse_enc x) < 2 ^ 63 → MsgSetBeforeSendHookResponse_Unmarshal (MsgSetBeforeSendHookResponse_enc x) MsgSetBeforeSendHookResponse_new = (Ok (), x).
Proof.
  intros Hok H63. rw -{1}(app_nil_r (MsgSetBeforeSendHookResponse_enc x)). apply MsgSetBeforeSendHookResponse_reads_unknown; [done|constructor|by rw app_nil_r].
Qed.

Lemma MsgSetBeforeSendHookResponse_total bz x : len bz < 2 ^ 63 → no_panic (MsgSetBeforeSendHookResponse_Unmarshal bz x).1.
Proof.
  intros. apply unmarshal_fields_total; [done|]. intros n k wt. unfold MsgSetBeforeSendHookResponse_field. done.
Qed.

#[export] Instance MsgSetBeforeSendHookResponse_gogo_laws : GogoLaws MsgSetBeforeSendHookResponse MsgSetBeforeSendHookResponse_gogo := {|
  gogo_enc := MsgSetBeforeSendHookResponse_enc; gogo_ok := MsgSetBeforeSendHookResponse_ok; gogo_writes := MsgSetBeforeSendHookResponse_writes; gogo_size := MsgSetBeforeSendHookResponse_size_enc;
  gogo_reads := MsgSetBeforeSendHookResponse_reads; gogo_total := MsgSetBeforeSendHookResponse_total
|}.

Definition MsgSetDenomMetadata_enc (x : MsgSetDenomMetadata) : raw :=
  enc_bytes 0xa (MsgSetDenomMetadata_Sender x) ++
  enc_embedded 0x12 (MsgSetDenomMetadata_Metadata x).

Definition MsgSetDenomMetadata_ok (x : MsgSetDenomMetadata) : Prop :=
  gogo_ok (MsgSetDenomMetadata_Metadata x).

Lemma MsgSetDenomMetadata_writes x dAtA : len (MsgSetDenomMetadata_enc x) <= len dAtA →
  MsgSetDenomMetadata_MarshalToSizedBuffer x dAtA =
    (Ok (len (MsgSetDenomMetadata_enc x)), take (length dAtA - length (MsgSetDenomMetadata_enc x)) dAtA ++ MsgSetDenomMetadata_enc x).
Proof. apply sized_buffer_writes. unfold MsgSetDenomMetadata_enc. gogo_write. Qed.

Lemma MsgSetDenomMetadata_size_enc x : MsgSetDenomMetadata_Size x = len (MsgSetDenomMetadata_enc x).
Proof. unfold MsgSetDenomMetadata_Size, MsgSetDenomMetadata_enc. gogo_size. Qed.

Lemma MsgSetDenomMetadata_reads_unknown x u :
  MsgSetDenomMetadata_ok x → raw_fields MsgSetDenomMetadata_field u → len (MsgSetDenomMetadata_enc x ++ u) < 2 ^ 63 →
  MsgSetDenomMetadata_Unmarshal (MsgSetDenomMetadata_enc x ++ u) MsgSetDenomMetadata_new = (Ok (), x).
Proof.
  intros Hok Hu H63. destruct x as [f1 f2]. unfold MsgSetDenomMetadata_ok in Hok; rename Hok into HMetadata.
  unfold MsgSetDenomMetadata_enc in *. cbn [MsgSetDenomMetadata_Sender MsgSetDenomMetadata_Metadata] in *.
  apply (unmarshal_fields_reads _ MsgSetDenomMetadata_field); [|done]. rw -?app_assoc. rw -?app_assoc in H63.
  wire_read (reads_string "MsgSetDenomMetadata" MsgSetDenomMetadata_field (λ _ x, x) 1 "Sender").
  wire_read (reads_embedded (A:=Metadata) "MsgSetDenomMetadata" MsgSetDenomMetadata_field (λ _ x, x) 2 "Metadata").
  by apply reads_skipped.
Qed.

Lemma MsgSetDenomMetadata_reads x : MsgSetDenomMetadata_ok x → len (MsgSetDenomMetadata_enc x) < 2 ^ 63 → MsgSetDenomMetadata_Unmarshal (MsgSetDenomMetadata_enc x) MsgSetDenomMetadata_new = (Ok (), x).
Proof.
  intros Hok H63. rw -{1}(app_nil_r (MsgSetDenomMetadata_enc x)). apply MsgSetDenomMetadata_reads_unknown; [done|constructor|by rw app_nil_r].
Qed.

Lemma MsgSetDenomMetadata_total bz x : len bz < 2 ^ 63 → no_panic (MsgSetDenomMetadata_Unmarshal bz x).1.
Proof.
  intros. apply unmarshal_fields_total; [done|]. intros n k wt. unfold MsgSetDenomMetadata_field. gogo_moves.
Qed.

#[export] Instance MsgSetDenomMetadata_gogo_laws : GogoLaws MsgSetDenomMetadata MsgSetDenomMetadata_gogo := {|
  gogo_enc := MsgSetDenomMetadata_enc; gogo_ok := MsgSetDenomMetadata_ok; gogo_writes := MsgSetDenomMetadata_writes; gogo_size := MsgSetDenomMetadata_size_enc;
  gogo_reads := MsgSetDenomMetadata_reads; gogo_total := MsgSetDenomMetadata_total
|}.

Definition MsgSetDenomMetadataResponse_enc (x : MsgSetDenomMetadataResponse) : raw :=
  [].

Definition MsgSetDenomMetadataResponse_ok (x : MsgSetDenomMetadataResponse) : Prop :=
  True.

Lemma MsgSetDenomMetadataResponse_writes x dAtA : len (MsgSetDenomMetadataResponse_enc x) <= len dAtA →
  MsgSetDenomMetadataResponse_MarshalToSizedBuffer x dAtA =
    (Ok (len (MsgSetDenomMetadataResponse_enc x)), take (length dAtA - length (MsgSetDenomMetadataResponse_enc x)) dAtA ++ MsgSetDenomMetadataResponse_enc x).
Proof. apply sized_buffer_writes. unfold MsgSetDenomMetadataResponse_enc. gogo_write. Qed.

Lemma MsgSetDenomMetadataResponse_size_enc x : MsgSetDenomMetadataResponse_Size x = len (MsgSetDenomMetadataResponse_enc x).
Proof. unfold MsgSetDenomMetadataResponse_Size, MsgSetDenomMetadataResponse_enc. gogo_size. Qed.

Lemma MsgSetDenomMetadataResponse_reads_unknown x u :
  MsgSetDenomMetadataResponse_ok x → raw_fields MsgSetDenomMetadataResponse_field u → len (MsgSetDenomMetadataResponse_enc x ++ u) < 2 ^ 63 →
  MsgSetDenomMetadataResponse_Unmarshal (MsgSetDenomMetadataResponse_enc x ++ u) MsgSetDenomMetadataResponse_new = (Ok (), x).
Proof.
  intros Hok Hu H63. destruct x.
  unfold MsgSetDenomMetadataResponse_enc in *.
  apply (unmarshal_fields_reads _ MsgSetDenomMetadataResponse_field); [|done]. rw -?app_assoc. rw -?app_assoc in H63.
  by apply reads_skipped.
Qed.

Lemma MsgSetDenomMetadataResponse_reads x : MsgSetDenomMetadataResponse_ok x → len (MsgSetDenomMetadataResponse_enc x) < 2 ^ 63 → MsgSetDenomMetadataResponse_Unmarshal (MsgSetDenomMetadataResponse_enc x) MsgSetDenomMetadataResponse_new = (Ok (), x).
Proof.
  intros Hok H63. rw -{1}(app_nil_r (MsgSetDenomMetadataResponse_enc x)). apply MsgSetDenomMetadataResponse_reads_unknown; [done|constructor|by rw app_nil_r].
Qed.

Lemma MsgSetDenomMetadataResponse_total bz x : len bz < 2 ^ 63 → no_panic (MsgSetDenomMetadataResponse_Unmarshal bz x).1.
Proof.
  intros. apply unmarshal_fields_total; [done|]. intros n k wt. unfold MsgSetDenomMetadataResponse_field. done.
Qed.

#[export] Instance MsgSetDenomMetadataResponse_gogo_laws : GogoLaws MsgSetDenomMetadataResponse MsgSetDenomMetadataResponse_gogo := {|
  gogo_enc := MsgSetDenomMetadataResponse_enc; gogo_ok := MsgSetDenomMetadataResponse_ok; gogo_writes := MsgSetDenomMetadataResponse_writes; gogo_size := MsgSetDenomMetadataResponse_size_enc;
  gogo_reads := MsgSetDenomMetadataResponse_reads; gogo_total := MsgSetDenomMetadataResponse_total
|}.

Definition MsgUpdateParams_enc (x : MsgUpdateParams) : raw :=
  enc_bytes 0xa (MsgUpdateParams_Authority x) ++
  enc_embedded 0x12 (MsgUpdateParams_Params x).

Definition MsgUpdateParams_ok (x : MsgUpdateParams) : Prop :=
  gogo_ok (MsgUpdateParams_Params x).

Lemma MsgUpdateParams_writes x dAtA : len (MsgUpdateParams_enc x) <= len dAtA →
  MsgUpdateParams_MarshalToSizedBuffer x dAtA =
    (Ok (len (MsgUpdateParams_enc x)), take (length dAtA - length (MsgUpdateParams_enc x)) dAtA ++ MsgUpdateParams_enc x).
Proof. apply sized_buffer_writes. unfold MsgUpdateParams_enc. gogo_write. Qed.

Lemma MsgUpdateParams_size_enc x : MsgUpdateParams_Size x = len (MsgUpdateParams_enc x).
Proof. unfold MsgUpdateParams_Size, MsgUpdateParams_enc. gogo_size. Qed.

Lemma MsgUpdateParams_reads_unknown x u :
  MsgUpdateParams_ok x → raw_fields MsgUpdateParams_field u → len (MsgUpdateParams_enc x ++ u) < 2 ^ 63 →
  MsgUpdateParams_Unmarshal (MsgUpdateParams_enc x ++ u) MsgUpdateParams_new = (Ok (), x).
Proof.
  intros Hok Hu H63. destruct x as [f1 f2]. unfold MsgUpdateParams_ok in Hok; rename Hok into HParams.
  unfold MsgUpdateParams_enc in *. cbn [MsgUpdateParams_Authority MsgUpdateParams_Params] in *.
  apply (unmarshal_fields_reads _ MsgUpdateParams_field); [|done]. rw -?app_assoc. rw -?app_assoc in H63.
  wire_read (reads_string "MsgUpdateParams" MsgUpdateParams_field (λ _ x, x) 1 "Authority").
  wire_read (reads_embedded (A:=Params) "MsgUpdateParams" MsgUpdateParams_field (λ _ x, x) 2 "Params").
  by apply reads_skipped.
Qed.

Lemma MsgUpdateParams_reads x : MsgUpdateParams_ok x → len (MsgUpdateParams_enc x) < 2 ^ 63 → MsgUpdateParams_Unmarshal (MsgUpdateParams_enc x) MsgUpdateParams_new = (Ok (), x).
Proof.
  intros Hok H63. rw -{1}(app_nil_r (MsgUpdateParams_enc x)). apply MsgUpdateParams_reads_unknown; [done|constructor|by rw app_nil_r].
Qed.

Lemma MsgUpdateParams_total bz x : len bz < 2 ^ 63 → no_panic (MsgUpdateParams_Unmarshal bz x).1.
Proof.
  intros. apply unmarshal_fields_total; [done|]. intros n k wt. unfold MsgUpdateParams_field. gogo_moves.
Qed.

#[export] Instance MsgUpdateParams_gogo_laws : GogoLaws MsgUpdateParams MsgUpdateParams_gogo := {|
  gogo_enc := MsgUpdateParams_enc; gogo_ok := MsgUpdateParams_ok; gogo_writes := MsgUpdateParams_writes; gogo_size := MsgUpdateParams_size_enc;
  gogo_reads := MsgUpdateParams_reads; gogo_total := MsgUpdateParams_total
|}.

Definition MsgUpdateParamsResponse_enc (x : MsgUpdateParamsResponse) : raw :=
  [].

Definition MsgUpdateParamsResponse_ok (x : MsgUpdateParamsResponse) : Prop :=
  True.

Lemma MsgUpdateParamsResponse_writes x dAtA : len (MsgUpdateParamsResponse_enc x) <= len dAtA →
  MsgUpdateParamsResponse_MarshalToSizedBuffer x dAtA =
    (Ok (len (MsgUpdateParamsResponse_enc x)), take (length dAtA - length (MsgUpdateParamsResponse_enc x)) dAtA ++ MsgUpdateParamsResponse_enc x).
Proof. apply sized_buffer_writes. unfold MsgUpdateParamsResponse_enc. gogo_write. Qed.

Lemma MsgUpdateParamsResponse_size_enc x : MsgUpdateParamsResponse_Size x = len (MsgUpdateParamsResponse_enc x).
Proof. unfold MsgUpdateParamsResponse_Size, MsgUpdateParamsResponse_enc. gogo_size. Qed.

Lemma MsgUpdateParamsResponse_reads_unknown x u :
  MsgUpdateParamsResponse_ok x → raw_fields MsgUpdateParamsResponse_field u → len (MsgUpdateParamsResponse_enc x ++ u) < 2 ^ 63 →
  MsgUpdateParamsResponse_Unmarshal (MsgUpdateParamsResponse_enc x ++ u) MsgUpdateParamsResponse_new = (Ok (), x).
Proof.
  intros Hok Hu H63. destruct x.
  unfold MsgUpdateParamsResponse_enc in *.
  apply (unmarshal_fields_reads _ MsgUpdateParamsResponse_field); [|done]. rw -?app_assoc. rw -?app_assoc in H63.
  by apply reads_skipped.
Qed.

Lemma MsgUpdateParamsResponse_reads x : MsgUpdateParamsResponse_ok x → len (MsgUpdateParamsResponse_enc x) < 2 ^ 63 → MsgUpdateParamsResponse_Unmarshal (MsgUpdateParamsResponse_enc x) MsgUpdateParamsResponse_new = (Ok (), x).
Proof.
  intros Hok H63. rw -{1}(app_nil_r (MsgUpdateParamsResponse_enc x)). apply MsgUpdateParamsResponse_reads_unknown; [done|constructor|by rw app_nil_r].
Qed.

Lemma MsgUpdateParamsResponse_total bz x : len bz < 2 ^ 63 → no_panic (MsgUpdateParamsResponse_Unmarshal bz x).1.
Proof.
  intros. apply unmarshal_fields_total; [done|]. intros n k wt. unfold MsgUpdateParamsResponse_field. done.
Qed.

#[export] Instance MsgUpdateParamsResponse_gogo_laws : GogoLaws MsgUpdateParamsResponse MsgUpdateParamsResponse_gogo := {|
  gogo_enc := MsgUpdateParamsResponse_enc; gogo_ok := MsgUpdateParamsResponse_ok; gogo_writes := MsgUpdateParamsResponse_writes; gogo_size := MsgUpdateParamsResponse_size_enc;
  gogo_reads := MsgUpdateParamsResponse_reads; gogo_total := MsgUpdateParamsResponse_total
|}.

End laws.
