(* ===== verification/GogoQuery.v ===== *)
(** x/tokenfactory/types/query.pb.go: the queries of the token factory and their answers. *)
From S2P Require Import Prelude.
From S2P Require Import Interfaces.
From S2P Require Import TfTypes.
From S2P Require Import GoJson.
From S2P Require Import Wire.
From S2P Require Import WireSpec.
From S2P Require Import WireRead.
From S2P Require Import GogoRuntime.
From S2P Require Import GogoWire.
From S2P Require Import GogoState.

(** * The messages *)

Section messages.
Context {SG : SdkGogo}.

(** ** QueryParamsRequest *)

Inductive QueryParamsRequest := Mk_QueryParamsRequest.

Definition QueryParamsRequest_new : QueryParamsRequest := Mk_QueryParamsRequest.

Definition QueryParamsRequest_Size (m : QueryParamsRequest) : Z := 0.

Definition QueryParamsRequest_MarshalToSizedBuffer (m : QueryParamsRequest) : M raw Z := sized_buffer (ret ()).

Definition QueryParamsRequest_field (dAtA : raw) (fieldNum : Z) : option (Z → M (rstate QueryParamsRequest) unit) :=
  None.

Definition QueryParamsRequest_Unmarshal (dAtA : raw) : M QueryParamsRequest unit := unmarshal_fields dAtA "QueryParamsRequest" (QueryParamsRequest_field dAtA).

#[export] Instance QueryParamsRequest_gogo : GogoMessage QueryParamsRequest := {|
  gogo_new := QueryParamsRequest_new; gogo_Size := QueryParamsRequest_Size;
  gogo_MarshalToSizedBuffer := QueryParamsRequest_MarshalToSizedBuffer; gogo_Unmarshal := QueryParamsRequest_Unmarshal
|}.

(** ** QueryParamsResponse *)

Record QueryParamsResponse := {
  QueryParamsResponse_Params : Params
}.

Definition QueryParamsResponse_new : QueryParamsResponse := {|
  QueryParamsResponse_Params := gogo_new
|}.

Definition QueryParamsResponse_set_Params (v : Params) (x : QueryParamsResponse) : QueryParamsResponse := {|
  QueryParamsResponse_Params := v
|}.

Definition QueryParamsResponse_Size (m : QueryParamsResponse) : Z :=
  size_embedded (QueryParamsResponse_Params m).

Definition QueryParamsResponse_MarshalToSizedBuffer (m : QueryParamsResponse) : M raw Z := sized_buffer (
  put_embedded 0xa (QueryParamsResponse_Params m)).

Definition QueryParamsResponse_field (dAtA : raw) (fieldNum : Z) : option (Z → M (rstate QueryParamsResponse) unit) :=
  if fieldNum =? 1 then Some (λ wireType, expect_wire 2 "Params" wireType
    (get_embedded dAtA QueryParamsResponse_Params QueryParamsResponse_set_Params))
  else None.

Definition QueryParamsResponse_Unmarshal (dAtA : raw) : M QueryParamsResponse unit := unmarshal_fields dAtA "QueryParamsResponse" (QueryParamsResponse_field dAtA).

#[export] Instance QueryParamsResponse_gogo : GogoMessage QueryParamsResponse := {|
  gogo_new := QueryParamsResponse_new; gogo_Size := QueryParamsResponse_Size;
  gogo_MarshalToSizedBuffer := QueryParamsResponse_MarshalToSizedBuffer; gogo_Unmarshal := QueryParamsResponse_Unmarshal
|}.

(** ** QueryDenomAuthorityMetadataRequest *)

Record QueryDenomAuthorityMetadataRequest := {
  QueryDenomAuthorityMetadataRequest_Denom : string
}.

Definition QueryDenomAuthorityMetadataRequest_new : QueryDenomAuthorityMetadataRequest := {|
  QueryDenomAuthorityMetadataRequest_Denom := ""
|}.

Definition QueryDenomAuthorityMetadataRequest_set_Denom (v : string) (x : QueryDenomAuthorityMetadataRequest) : QueryDenomAuthorityMetadataRequest := {|
  QueryDenomAuthorityMetadataRequest_Denom := v
|}.

Definition QueryDenomAuthorityMetadataRequest_Size (m : QueryDenomAuthorityMetadataRequest) : Z :=
  size_bytes (QueryDenomAuthorityMetadataRequest_Denom m).

Definition QueryDenomAuthorityMetadataRequest_MarshalToSizedBuffer (m : QueryDenomAuthorityMetadataRequest) : M raw Z := sized_buffer (
  put_bytes 0xa (QueryDenomAuthorityMetadataRequest_Denom m)).

Definition QueryDenomAuthorityMetadataRequest_field (dAtA : raw) (fieldNum : Z) : option (Z → M (rstate QueryDenomAuthorityMetadataRequest) unit) :=
  if fieldNum =? 1 then Some (λ wireType, expect_wire 2 "Denom" wireType
    (get_string dAtA QueryDenomAuthorityMetadataRequest_set_Denom))
  else None.

Definition QueryDenomAuthorityMetadataRequest_Unmarshal (dAtA : raw) : M QueryDenomAuthorityMetadataRequest unit := unmarshal_fields dAtA "QueryDenomAuthorityMetadataRequest" (QueryDenomAuthorityMetadataRequest_field dAtA).

#[export] Instance QueryDenomAuthorityMetadataRequest_gogo : GogoMessage QueryDenomAuthorityMetadataRequest := {|
  gogo_new := QueryDenomAuthorityMetadataRequest_new; gogo_Size := QueryDenomAuthorityMetadataRequest_Size;
  gogo_MarshalToSizedBuffer := QueryDenomAuthorityMetadataRequest_MarshalToSizedBuffer; gogo_Unmarshal := QueryDenomAuthorityMetadataRequest_Unmarshal
|}.

(** ** QueryDenomAuthorityMetadataResponse *)

Record QueryDenomAuthorityMetadataResponse := {
  QueryDenomAuthorityMetadataResponse_AuthorityMetadata : DenomAuthorityMetadata
}.

Definition QueryDenomAuthorityMetadataResponse_new : QueryDenomAuthorityMetadataResponse := {|
  QueryDenomAuthorityMetadataResponse_AuthorityMetadata := gogo_new
|}.

Definition QueryDenomAuthorityMetadataResponse_set_AuthorityMetadata (v : DenomAuthorityMetadata) (x : QueryDenomAuthorityMetadataResponse) : QueryDenomAuthorityMetadataResponse := {|
  QueryDenomAuthorityMetadataResponse_AuthorityMetadata := v
|}.

Definition QueryDenomAuthorityMetadataResponse_Size (m : QueryDenomAuthorityMetadataResponse) : Z :=
  size_embedded (QueryDenomAuthorityMetadataResponse_AuthorityMetadata m).

Definition QueryDenomAuthorityMetadataResponse_MarshalToSizedBuffer (m : QueryDenomAuthorityMetadataResponse) : M raw Z := sized_buffer (
  put_embedded 0xa (QueryDenomAuthorityMetadataResponse_AuthorityMetadata m)).

Definition QueryDenomAuthorityMetadataResponse_field (dAtA : raw) (fieldNum : Z) : option (Z → M (rstate QueryDenomAuthorityMetadataResponse) unit) :=
  if fieldNum =? 1 then Some (λ wireType, expect_wire 2 "AuthorityMetadata" wireType
    (get_embedded dAtA QueryDenomAuthorityMetadataResponse_AuthorityMetadata QueryDenomAuthorityMetadataResponse_set_AuthorityMetadata))
  else None.

Definition QueryDenomAuthorityMetadataResponse_Unmarshal (dAtA : raw) : M QueryDenomAuthorityMetadataResponse unit := unmarshal_fields dAtA "QueryDenomAuthorityMetadataResponse" (QueryDenomAuthorityMetadataResponse_field dAtA).

#[export] Instance QueryDenomAuthorityMetadataResponse_gogo : GogoMessage QueryDenomAuthorityMetadataResponse := {|
  gogo_new := QueryDenomAuthorityMetadataResponse_new; gogo_Size := QueryDenomAuthorityMetadataResponse_Size;
  gogo_MarshalToSizedBuffer := QueryDenomAuthorityMetadataResponse_MarshalToSizedBuffer; gogo_Unmarshal := QueryDenomAuthorityMetadataResponse_Unmarshal
|}.

(** ** QueryDenomsFromCreatorRequest *)

Record QueryDenomsFromCreatorRequest := {
  QueryDenomsFromCreatorRequest_Creator : string
}.

Definition QueryDenomsFromCreatorRequest_new : QueryDenomsFromCreatorRequest := {|
  QueryDenomsFromCreatorRequest_Creator := ""
|}.

Definition QueryDenomsFromCreatorRequest_set_Creator (v : string) (x : QueryDenomsFromCreatorRequest) : QueryDenomsFromCreatorRequest := {|
  QueryDenomsFromCreatorRequest_Creator := v
|}.

Definition QueryDenomsFromCreatorRequest_Size (m : QueryDenomsFromCreatorRequest) : Z :=
  size_bytes (QueryDenomsFromCreatorRequest_Creator m).

Definition QueryDenomsFromCreatorRequest_MarshalToSizedBuffer (m : QueryDenomsFromCreatorRequest) : M raw Z := sized_buffer (
  put_bytes 0xa (QueryDenomsFromCreatorRequest_Creator m)).

Definition QueryDenomsFromCreatorRequest_field (dAtA : raw) (fieldNum : Z) : option (Z → M (rstate QueryDenomsFromCreatorRequest) unit) :=
  if fieldNum =? 1 then Some (λ wireType, expect_wire 2 "Creator" wireType
    (get_string dAtA QueryDenomsFromCreatorRequest_set_Creator))
  else None.

Definition QueryDenomsFromCreatorRequest_Unmarshal (dAtA : raw) : M QueryDenomsFromCreatorRequest unit := unmarshal_fields dAtA "QueryDenomsFromCreatorRequest" (QueryDenomsFromCreatorRequest_field dAtA).

#[export] Instance QueryDenomsFromCreatorRequest_gogo : GogoMessage QueryDenomsFromCreatorRequest := {|
  gogo_new := QueryDenomsFromCreatorRequest_new; gogo_Size := QueryDenomsFromCreatorRequest_Size;
  gogo_MarshalToSizedBuffer := QueryDenomsFromCreatorRequest_MarshalToSizedBuffer; gogo_Unmarshal := QueryDenomsFromCreatorRequest_Unmarshal
|}.

(** ** QueryDenomsFromCreatorResponse *)

Record QueryDenomsFromCreatorResponse := {
  QueryDenomsFromCreatorResponse_Denoms : list string
}.

Definition QueryDenomsFromCreatorResponse_new : QueryDenomsFromCreatorResponse := {|
  QueryDenomsFromCreatorResponse_Denoms := []
|}.

Definition QueryDenomsFromCreatorResponse_set_Denoms (v : list string) (x : QueryDenomsFromCreatorResponse) : QueryDenomsFromCreatorResponse := {|
  QueryDenomsFromCreatorResponse_Denoms := v
|}.

Definition QueryDenomsFromCreatorResponse_Size (m : QueryDenomsFromCreatorResponse) : Z :=
  size_strings (QueryDenomsFromCreatorResponse_Denoms m).

Definition QueryDenomsFromCreatorResponse_MarshalToSizedBuffer (m : QueryDenomsFromCreatorResponse) : M raw Z := sized_buffer (
  put_strings 0xa (QueryDenomsFromCreatorResponse_Denoms m)).

Definition QueryDenomsFromCreatorResponse_field (dAtA : raw) (fieldNum : Z) : option (Z → M (rstate QueryDenomsFromCreatorResponse) unit) :=
  if fieldNum =? 1 then Some (λ wireType, expect_wire 2 "Denoms" wireType
    (get_string dAtA (λ s x, QueryDenomsFromCreatorResponse_set_Denoms (QueryDenomsFromCreatorResponse_Denoms x ++ [s]) x)))
  else None.

Definition QueryDenomsFromCreatorResponse_Unmarshal (dAtA : raw) : M QueryDenomsFromCreatorResponse unit := unmarshal_fields dAtA "QueryDenomsFromCreatorResponse" (QueryDenomsFromCreatorResponse_field dAtA).

#[export] Instance QueryDenomsFromCreatorResponse_gogo : GogoMessage QueryDenomsFromCreatorResponse := {|
  gogo_new := QueryDenomsFromCreatorResponse_new; gogo_Size := QueryDenomsFromCreatorResponse_Size;
  gogo_MarshalToSizedBuffer := QueryDenomsFromCreatorResponse_MarshalToSizedBuffer; gogo_Unmarshal := QueryDenomsFromCreatorResponse_Unmarshal
|}.

(** ** QueryBeforeSendHookAddressRequest *)

Record QueryBeforeSendHookAddressRequest := {
  QueryBeforeSendHookAddressRequest_Denom : string
}.

Definition QueryBeforeSendHookAddressRequest_new : QueryBeforeSendHookAddressRequest := {|
  QueryBeforeSendHookAddressRequest_Denom := ""
|}.

Definition QueryBeforeSendHookAddressRequest_set_Denom (v : string) (x : QueryBeforeSendHookAddressRequest) : QueryBeforeSendHookAddressRequest := {|
  QueryBeforeSendHookAddressRequest_Denom := v
|}.

Definition QueryBeforeSendHookAddressRequest_Size (m : QueryBeforeSendHookAddressRequest) : Z :=
  size_bytes (QueryBeforeSendHookAddressRequest_Denom m).

Definition QueryBeforeSendHookAddressRequest_MarshalToSizedBuffer (m : QueryBeforeSendHookAddressRequest) : M raw Z := sized_buffer (
  put_bytes 0xa (QueryBeforeSendHookAddressRequest_Denom m)).

Definition QueryBeforeSendHookAddressRequest_field (dAtA : raw) (fieldNum : Z) : option (Z → M (rstate QueryBeforeSendHookAddressRequest) unit) :=
  if fieldNum =? 1 then Some (λ wireType, expect_wire 2 "Denom" wireType
    (get_string dAtA QueryBeforeSendHookAddressRequest_set_Denom))
  else None.

Definition QueryBeforeSendHookAddressRequest_Unmarshal (dAtA : raw) : M QueryBeforeSendHookAddressRequest unit := unmarshal_fields dAtA "QueryBeforeSendHookAddressRequest" (QueryBeforeSendHookAddressRequest_field dAtA).

#[export] Instance QueryBeforeSendHookAddressRequest_gogo : GogoMessage QueryBeforeSendHookAddressRequest := {|
  gogo_new := QueryBeforeSendHookAddressRequest_new; gogo_Size := QueryBeforeSendHookAddressRequest_Size;
  gogo_MarshalToSizedBuffer := QueryBeforeSendHookAddressRequest_MarshalToSizedBuffer; gogo_Unmarshal := QueryBeforeSendHookAddressRequest_Unmarshal
|}.

(** ** QueryBeforeSendHookAddressResponse *)

Record QueryBeforeSendHookAddressResponse := {
  QueryBeforeSendHookAddressResponse_CosmwasmAddress : string
}.

Definition QueryBeforeSendHookAddressResponse_new : QueryBeforeSendHookAddressResponse := {|
  QueryBeforeSendHookAddressResponse_CosmwasmAddress := ""
|}.

Definition QueryBeforeSendHookAddressResponse_set_CosmwasmAddress (v : string) (x : QueryBeforeSendHookAddressResponse) : QueryBeforeSendHookAddressResponse := {|
  QueryBeforeSendHookAddressResponse_CosmwasmAddress := v
|}.

Definition QueryBeforeSendHookAddressResponse_Size (m : QueryBeforeSendHookAddressResponse) : Z :=
  size_bytes (QueryBeforeSendHookAddressResponse_CosmwasmAddress m).

Definition QueryBeforeSendHookAddressResponse_MarshalToSizedBuffer (m : QueryBeforeSendHookAddressResponse) : M raw Z := sized_buffer (
  put_bytes 0xa (QueryBeforeSendHookAddressResponse_CosmwasmAddress m)).

Definition QueryBeforeSendHookAddressResponse_field (dAtA : raw) (fieldNum : Z) : option (Z → M (rstate QueryBeforeSendHookAddressResponse) unit) :=
  if fieldNum =? 1 then Some (λ wireType, expect_wire 2 "CosmwasmAddress" wireType
    (get_string dAtA QueryBeforeSendHookAddressResponse_set_CosmwasmAddress))
  else None.

Definition QueryBeforeSendHookAddressResponse_Unmarshal (dAtA : raw) : M QueryBeforeSendHookAddressResponse unit := unmarshal_fields dAtA "QueryBeforeSendHookAddressResponse" (QueryBeforeSendHookAddressResponse_field dAtA).

#[export] Instance QueryBeforeSendHookAddressResponse_gogo : GogoMessage QueryBeforeSendHookAddressResponse := {|
  gogo_new := QueryBeforeSendHookAddressResponse_new; gogo_Size := QueryBeforeSendHookAddressResponse_Size;
  gogo_MarshalToSizedBuffer := QueryBeforeSendHookAddressResponse_MarshalToSizedBuffer; gogo_Unmarshal := QueryBeforeSendHookAddressResponse_Unmarshal
|}.

End messages.

(** * What they promise *)

Section laws.
Context {SG : SdkGogo}.
Context {SL : SdkGogoLaws SG}.

Definition QueryParamsRequest_enc (x : QueryParamsRequest) : raw :=
  [].

Definition QueryParamsRequest_ok (x : QueryParamsRequest) : Prop :=
  True.

Lemma QueryParamsRequest_writes x dAtA : len (QueryParamsRequest_enc x) <= len dAtA →
  QueryParamsRequest_MarshalToSizedBuffer x dAtA =
    (Ok (len (QueryParamsRequest_enc x)), take (length dAtA - length (QueryParamsRequest_enc x)) dAtA ++ QueryParamsRequest_enc x).
Proof. apply sized_buffer_writes. unfold QueryParamsRequest_enc. gogo_write. Qed.

Lemma QueryParamsRequest_size_enc x : QueryParamsRequest_Size x = len (QueryParamsRequest_enc x).
Proof. unfold QueryParamsRequest_Size, QueryParamsRequest_enc. gogo_size. Qed.

Lemma QueryParamsRequest_reads_unknown x u :
  QueryParamsRequest_ok x → raw_fields QueryParamsRequest_field u → len (QueryParamsRequest_enc x ++ u) < 2 ^ 63 →
  QueryParamsRequest_Unmarshal (QueryParamsRequest_enc x ++ u) QueryParamsRequest_new = (Ok (), x).
Proof.
  intros Hok Hu H63. destruct x.
  unfold QueryParamsRequest_enc in *.
  apply (unmarshal_fields_reads _ QueryParamsRequest_field); [|done]. rw -?app_assoc. rw -?app_assoc in H63.
  by apply reads_skipped.
Qed.

Lemma QueryParamsRequest_reads x : QueryParamsRequest_ok x → len (QueryParamsRequest_enc x) < 2 ^ 63 → QueryParamsRequest_Unmarshal (QueryParamsRequest_enc x) QueryParamsRequest_new = (Ok (), x).
Proof.
  intros Hok H63. rw -{1}(app_nil_r (QueryParamsRequest_enc x)). apply QueryParamsRequest_reads_unknown; [done|constructor|by rw app_nil_r].
Qed.

Lemma QueryParamsRequest_total bz x : len bz < 2 ^ 63 → no_panic (QueryParamsRequest_Unmarshal bz x).1.
Proof.
  intros. apply unmarshal_fields_total; [done|]. intros n k wt. unfold QueryParamsRequest_field. done.
Qed.

#[export] Instance QueryParamsRequest_gogo_laws : GogoLaws QueryParamsRequest QueryParamsRequest_gogo := {|
  gogo_enc := QueryParamsRequest_enc; gogo_ok := QueryParamsRequest_ok; gogo_writes := QueryParamsRequest_writes; gogo_size := QueryParamsRequest_size_enc;
  gogo_reads := QueryParamsRequest_reads; gogo_total := QueryParamsRequest_total
|}.

Definition QueryParamsResponse_enc (x : QueryParamsResponse) : raw :=
  enc_embedded 0xa (QueryParamsResponse_Params x).

Definition QueryParamsResponse_ok (x : QueryParamsResponse) : Prop :=
  gogo_ok (QueryParamsResponse_Params x).

Lemma QueryParamsResponse_writes x dAtA : len (QueryParamsResponse_enc x) <= len dAtA →
  QueryParamsResponse_MarshalToSizedBuffer x dAtA =
    (Ok (len (QueryParamsResponse_enc x)), take (length dAtA - length (QueryParamsResponse_enc x)) dAtA ++ QueryParamsResponse_enc x).
Proof. apply sized_buffer_writes. unfold QueryParamsResponse_enc. gogo_write. Qed.

Lemma QueryParamsResponse_size_enc x : QueryParamsResponse_Size x = len (QueryParamsResponse_enc x).
Proof. unfold QueryParamsResponse_Size, QueryParamsResponse_enc. gogo_size. Qed.

Lemma QueryParamsResponse_reads_unknown x u :
  QueryParamsResponse_ok x → raw_fields QueryParamsResponse_field u → len (QueryParamsResponse_enc x ++ u) < 2 ^ 63 →
  QueryParamsResponse_Unmarshal (QueryParamsResponse_enc x ++ u) QueryParamsResponse_new = (Ok (), x).
Proof.
  intros Hok Hu H63. destruct x as [f1]. unfold QueryParamsResponse_ok in Hok; rename Hok into HParams.
  unfold QueryParamsResponse_enc in *. cbn [QueryParamsResponse_Params] in *.
  apply (unmarshal_fields_reads _ QueryParamsResponse_field); [|done]. rw -?app_assoc. rw -?app_assoc in H63.
  wire_read (reads_embedded (A:=Params) "QueryParamsResponse" QueryParamsResponse_field (λ _ x, x) 1 "Params").
  by apply reads_skipped.
Qed.

Lemma QueryParamsResponse_reads x : QueryParamsResponse_ok x → len (QueryParamsResponse_enc x) < 2 ^ 63 → QueryParamsResponse_Unmarshal (QueryParamsResponse_enc x) QueryParamsResponse_new = (Ok (), x).
Proof.
  intros Hok H63. rw -{1}(app_nil_r (QueryParamsResponse_enc x)). apply QueryParamsResponse_reads_unknown; [done|constructor|by rw app_nil_r].
Qed.

Lemma QueryParamsResponse_total bz x : len bz < 2 ^ 63 → no_panic (QueryParamsResponse_Unmarshal bz x).1.
Proof.
  intros. apply unmarshal_fields_total; [done|]. intros n k wt. unfold QueryParamsResponse_field. gogo_moves.
Qed.

#[export] Instance QueryParamsResponse_gogo_laws : GogoLaws QueryParamsResponse QueryParamsResponse_gogo := {|
  gogo_enc := QueryParamsResponse_enc; gogo_ok := QueryParamsResponse_ok; gogo_writes := QueryParamsResponse_writes; gogo_size := QueryParamsResponse_size_enc;
  gogo_reads := QueryParamsResponse_reads; gogo_total := QueryParamsResponse_total
|}.

Definition QueryDenomAuthorityMetadataRequest_enc (x : QueryDenomAuthorityMetadataRequest) : raw :=
  enc_bytes 0xa (QueryDenomAuthorityMetadataRequest_Denom x).

Definition QueryDenomAuthorityMetadataRequest_ok (x : QueryDenomAuthorityMetadataRequest) : Prop :=
  True.

Lemma QueryDenomAuthorityMetadataRequest_writes x dAtA : len (QueryDenomAuthorityMetadataRequest_enc x) <= len dAtA →
  QueryDenomAuthorityMetadataRequest_MarshalToSizedBuffer x dAtA =
    (Ok (len (QueryDenomAuthorityMetadataRequest_enc x)), take (length dAtA - length (QueryDenomAuthorityMetadataRequest_enc x)) dAtA ++ QueryDenomAuthorityMetadataRequest_enc x).
Proof. apply sized_buffer_writes. unfold QueryDenomAuthorityMetadataRequest_enc. gogo_write. Qed.

Lemma QueryDenomAuthorityMetadataRequest_size_enc x : QueryDenomAuthorityMetadataRequest_Size x = len (QueryDenomAuthorityMetadataRequest_enc x).
Proof. unfold QueryDenomAuthorityMetadataRequest_Size, QueryDenomAuthorityMetadataRequest_enc. gogo_size. Qed.

Lemma QueryDenomAuthorityMetadataRequest_reads_unknown x u :
  QueryDenomAuthorityMetadataRequest_ok x → raw_fields QueryDenomAuthorityMetadataRequest_field u → len (QueryDenomAuthorityMetadataRequest_enc x ++ u) < 2 ^ 63 →
  QueryDenomAuthorityMetadataRequest_Unmarshal (QueryDenomAuthorityMetadataRequest_enc x ++ u) QueryDenomAuthorityMetadataRequest_new = (Ok (), x).
Proof.
  intros Hok Hu H63. destruct x as [f1].
  unfold QueryDenomAuthorityMetadataRequest_enc in *. cbn [QueryDenomAuthorityMetadataRequest_Denom] in *.
  apply (unmarshal_fields_reads _ QueryDenomAuthorityMetadataRequest_field); [|done]. rw -?app_assoc. rw -?app_assoc in H63.
  wire_read (reads_string "QueryDenomAuthorityMetadataRequest" QueryDenomAuthorityMetadataRequest_field (λ _ x, x) 1 "Denom").
  by apply reads_skipped.
Qed.

Lemma QueryDenomAuthorityMetadataRequest_reads x : QueryDenomAuthorityMetadataRequest_ok x → len (QueryDenomAuthorityMetadataRequest_enc x) < 2 ^ 63 → QueryDenomAuthorityMetadataRequest_Unmarshal (QueryDenomAuthorityMetadataRequest_enc x) QueryDenomAuthorityMetadataRequest_new = (Ok (), x).
Proof.
  intros Hok H63. rw -{1}(app_nil_r (QueryDenomAuthorityMetadataRequest_enc x)). apply QueryDenomAuthorityMetadataRequest_reads_unknown; [done|constructor|by rw app_nil_r].
Qed.

Lemma QueryDenomAuthorityMetadataRequest_total bz x : len bz < 2 ^ 63 → no_panic (QueryDenomAuthorityMetadataRequest_Unmarshal bz x).1.
Proof.
  intros. apply unmarshal_fields_total; [done|]. intros n k wt. unfold QueryDenomAuthorityMetadataRequest_field. gogo_moves.
Qed.

#[export] Instance QueryDenomAuthorityMetadataRequest_gogo_laws : GogoLaws QueryDenomAuthorityMetadataRequest QueryDenomAuthorityMetadataRequest_gogo := {|
  gogo_enc := QueryDenomAuthorityMetadataRequest_enc; gogo_ok := QueryDenomAuthorityMetadataRequest_ok; gogo_writes := QueryDenomAuthorityMetadataRequest_writes; gogo_size := QueryDenomAuthorityMetadataRequest_size_enc;
  gogo_reads := QueryDenomAuthorityMetadataRequest_reads; gogo_total := QueryDenomAuthorityMetadataRequest_total
|}.

Definition QueryDenomAuthorityMetadataResponse_enc (x : QueryDenomAuthorityMetadataResponse) : raw :=
  enc_embedded 0xa (QueryDenomAuthorityMetadataResponse_AuthorityMetadata x).

Definition QueryDenomAuthorityMetadataResponse_ok (x : QueryDenomAuthorityMetadataResponse) : Prop :=
  gogo_ok (QueryDenomAuthorityMetadataResponse_AuthorityMetadata x).

Lemma QueryDenomAuthorityMetadataResponse_writes x dAtA : len (QueryDenomAuthorityMetadataResponse_enc x) <= len dAtA →
  QueryDenomAuthorityMetadataResponse_MarshalToSizedBuffer x dAtA =
    (Ok (len (QueryDenomAuthorityMetadataResponse_enc x)), take (length dAtA - length (QueryDenomAuthorityMetadataResponse_enc x)) dAtA ++ QueryDenomAuthorityMetadataResponse_enc x).
Proof. apply sized_buffer_writes. unfold QueryDenomAuthorityMetadataResponse_enc. gogo_write. Qed.

Lemma QueryDenomAuthorityMetadataResponse_size_enc x : QueryDenomAuthorityMetadataResponse_Size x = len (QueryDenomAuthorityMetadataResponse_enc x).
Proof. unfold QueryDenomAuthorityMetadataResponse_Size, QueryDenomAuthorityMetadataResponse_enc. gogo_size. Qed.

Lemma QueryDenomAuthorityMetadataResponse_reads_unknown x u :
  QueryDenomAuthorityMetadataResponse_ok x → raw_fields QueryDenomAuthorityMetadataResponse_field u → len (QueryDenomAuthorityMetadataResponse_enc x ++ u) < 2 ^ 63 →
  QueryDenomAuthorityMetadataResponse_Unmarshal (QueryDenomAuthorityMetadataResponse_enc x ++ u) QueryDenomAuthorityMetadataResponse_new = (Ok (), x).
Proof.
  intros Hok Hu H63. destruct x as [f1]. unfold QueryDenomAuthorityMetadataResponse_ok in Hok; rename Hok into HAuthorityMetadata.
  unfold QueryDenomAuthorityMetadataResponse_enc in *. cbn [QueryDenomAuthorityMetadataResponse_AuthorityMetadata] in *.
  apply (unmarshal_fields_reads _ QueryDenomAuthorityMetadataResponse_field); [|done]. rw -?app_assoc. rw -?app_assoc in H63.
  wire_read (reads_embedded (A:=DenomAuthorityMetadata) "QueryDenomAuthorityMetadataResponse" QueryDenomAuthorityMetadataResponse_field (λ _ x, x) 1 "AuthorityMetadata").
  by apply reads_skipped.
Qed.

Lemma QueryDenomAuthorityMetadataResponse_reads x : QueryDenomAuthorityMetadataResponse_ok x → len (QueryDenomAuthorityMetadataResponse_enc x) < 2 ^ 63 → QueryDenomAuthorityMetadataResponse_Unmarshal (QueryDenomAuthorityMetadataResponse_enc x) QueryDenomAuthorityMetadataResponse_new = (Ok (), x).
Proof.
  intros Hok H63. rw -{1}(app_nil_r (QueryDenomAuthorityMetadataResponse_enc x)). apply QueryDenomAuthorityMetadataResponse_reads_unknown; [done|constructor|by rw app_nil_r].
Qed.

Lemma QueryDenomAuthorityMetadataResponse_total bz x : len bz < 2 ^ 63 → no_panic (QueryDenomAuthorityMetadataResponse_Unmarshal bz x).1.
Proof.
  intros. apply unmarshal_fields_total; [done|]. intros n k wt. unfold QueryDenomAuthorityMetadataResponse_field. gogo_moves.
Qed.

#[export] Instance QueryDenomAuthorityMetadataResponse_gogo_laws : GogoLaws QueryDenomAuthorityMetadataResponse QueryDenomAuthorityMetadataResponse_gogo := {|
  gogo_enc := QueryDenomAuthorityMetadataResponse_enc; gogo_ok := QueryDenomAuthorityMetadataResponse_ok; gogo_writes := QueryDenomAuthorityMetadataResponse_writes; gogo_size := QueryDenomAuthorityMetadataResponse_size_enc;
  gogo_reads := QueryDenomAuthorityMetadataResponse_reads; gogo_total := QueryDenomAuthorityMetadataResponse_total
|}.

Definition QueryDenomsFromCreatorRequest_enc (x : QueryDenomsFromCreatorRequest) : raw :=
  enc_bytes 0xa (QueryDenomsFromCreatorRequest_Creator x).

Definition QueryDenomsFromCreatorRequest_ok (x : QueryDenomsFromCreatorRequest) : Prop :=
  True.

Lemma QueryDenomsFromCreatorRequest_writes x dAtA : len (QueryDenomsFromCreatorRequest_enc x) <= len dAtA →
  QueryDenomsFromCreatorRequest_MarshalToSizedBuffer x dAtA =
    (Ok (len (QueryDenomsFromCreatorRequest_enc x)), take (length dAtA - length (QueryDenomsFromCreatorRequest_enc x)) dAtA ++ QueryDenomsFromCreatorRequest_enc x).
Proof. apply sized_buffer_writes. unfold QueryDenomsFromCreatorRequest_enc. gogo_write. Qed.

Lemma QueryDenomsFromCreatorRequest_size_enc x : QueryDenomsFromCreatorRequest_Size x = len (QueryDenomsFromCreatorRequest_enc x).
Proof. unfold QueryDenomsFromCreatorRequest_Size, QueryDenomsFromCreatorRequest_enc. gogo_size. Qed.

Lemma QueryDenomsFromCreatorRequest_reads_unknown x u :
  QueryDenomsFromCreatorRequest_ok x → raw_fields QueryDenomsFromCreatorRequest_field u → len (QueryDenomsFromCreatorRequest_enc x ++ u) < 2 ^ 63 →
  QueryDenomsFromCreatorRequest_Unmarshal (QueryDenomsFromCreatorRequest_enc x ++ u) QueryDenomsFromCreatorRequest_new = (Ok (), x).
Proof.
  intros Hok Hu H63. destruct x as [f1].
  unfold QueryDenomsFromCreatorRequest_enc in *. cbn [QueryDenomsFromCreatorRequest_Creator] in *.
  apply (unmarshal_fields_reads _ QueryDenomsFromCreatorRequest_field); [|done]. rw -?app_assoc. rw -?app_assoc in H63.
  wire_read (reads_string "QueryDenomsFromCreatorRequest" QueryDenomsFromCreatorRequest_field (λ _ x, x) 1 "Creator").
  by apply reads_skipped.
Qed.

Lemma QueryDenomsFromCreatorRequest_reads x : QueryDenomsFromCreatorRequest_ok x → len (QueryDenomsFromCreatorRequest_enc x) < 2 ^ 63 → QueryDenomsFromCreatorRequest_Unmarshal (QueryDenomsFromCreatorRequest_enc x) QueryDenomsFromCreatorRequest_new = (Ok (), x).
Proof.
  intros Hok H63. rw -{1}(app_nil_r (QueryDenomsFromCreatorRequest_enc x)). apply QueryDenomsFromCreatorRequest_reads_unknown; [done|constructor|by rw app_nil_r].
Qed.

Lemma QueryDenomsFromCreatorRequest_total bz x : len bz < 2 ^ 63 → no_panic (QueryDenomsFromCreatorRequest_Unmarshal bz x).1.
Proof.
  intros. apply unmarshal_fields_total; [done|]. intros n k wt. unfold QueryDenomsFromCreatorRequest_field. gogo_moves.
Qed.

#[export] Instance QueryDenomsFromCreatorRequest_gogo_laws : GogoLaws QueryDenomsFromCreatorRequest QueryDenomsFromCreatorRequest_gogo := {|
  gogo_enc := QueryDenomsFromCreatorRequest_enc; gogo_ok := QueryDenomsFromCreatorRequest_ok; gogo_writes := QueryDenomsFromCreatorRequest_writes; gogo_size := QueryDenomsFromCreatorRequest_size_enc;
  gogo_reads := QueryDenomsFromCreatorRequest_reads; gogo_total := QueryDenomsFromCreatorRequest_total
|}.

Definition QueryDenomsFromCreatorResponse_enc (x : QueryDenomsFromCreatorResponse) : raw :=
  enc_strings 0xa (QueryDenomsFromCreatorResponse_Denoms x).

Definition QueryDenomsFromCreatorResponse_ok (x : QueryDenomsFromCreatorResponse) : Prop :=
  True.

Lemma QueryDenomsFromCreatorResponse_writes x dAtA : len (QueryDenomsFromCreatorResponse_enc x) <= len dAtA →
  QueryDenomsFromCreatorResponse_MarshalToSizedBuffer x dAtA =
    (Ok (len (QueryDenomsFromCreatorResponse_enc x)), take (length dAtA - length (QueryDenomsFromCreatorResponse_enc x)) dAtA ++ QueryDenomsFromCreatorResponse_enc x).
Proof. apply sized_buffer_writes. unfold QueryDenomsFromCreatorResponse_enc. gogo_write. Qed.

Lemma QueryDenomsFromCreatorResponse_size_enc x : QueryDenomsFromCreatorResponse_Size x = len (QueryDenomsFromCreatorResponse_enc x).
Proof. unfold QueryDenomsFromCreatorResponse_Size, QueryDenomsFromCreatorResponse_enc. gogo_size. Qed.

Lemma QueryDenomsFromCreatorResponse_reads_unknown x u :
  QueryDenomsFromCreatorResponse_ok x → raw_fields QueryDenomsFromCreatorResponse_field u → len (QueryDenomsFromCreatorResponse_enc x ++ u) < 2 ^ 63 →
  QueryDenomsFromCreatorResponse_Unmarshal (QueryDenomsFromCreatorResponse_enc x ++ u) QueryDenomsFromCreatorResponse_new = (Ok (), x).
Proof.
  intros Hok Hu H63. destruct x as [f1].
  unfold QueryDenomsFromCreatorResponse_enc in *. cbn [QueryDenomsFromCreatorResponse_Denoms] in *.
  apply (unmarshal_fields_reads _ QueryDenomsFromCreatorResponse_field); [|done]. rw -?app_assoc. rw -?app_assoc in H63.
  wire_read (reads_strings "QueryDenomsFromCreatorResponse" QueryDenomsFromCreatorResponse_field (λ _ x, x) 1 "Denoms").
  by apply reads_skipped.
Qed.

Lemma QueryDenomsFromCreatorResponse_reads x : QueryDenomsFromCreatorResponse_ok x → len (QueryDenomsFromCreatorResponse_enc x) < 2 ^ 63 → QueryDenomsFromCreatorResponse_Unmarshal (QueryDenomsFromCreatorResponse_enc x) QueryDenomsFromCreatorResponse_new = (Ok (), x).
Proof.
  intros Hok H63. rw -{1}(app_nil_r (QueryDenomsFromCreatorResponse_enc x)). apply QueryDenomsFromCreatorResponse_reads_unknown; [done|constructor|by rw app_nil_r].
Qed.

Lemma QueryDenomsFromCreatorResponse_total bz x : len bz < 2 ^ 63 → no_panic (QueryDenomsFromCreatorResponse_Unmarshal bz x).1.
Proof.
  intros. apply unmarshal_fields_total; [done|]. intros n k wt. unfold QueryDenomsFromCreatorResponse_field. gogo_moves.
Qed.

#[export] Instance QueryDenomsFromCreatorResponse_gogo_laws : GogoLaws QueryDenomsFromCreatorResponse QueryDenomsFromCreatorResponse_gogo := {|
  gogo_enc := QueryDenomsFromCreatorResponse_enc; gogo_ok := QueryDenomsFromCreatorResponse_ok; gogo_writes := QueryDenomsFromCreatorResponse_writes; gogo_size := QueryDenomsFromCreatorResponse_size_enc;
  gogo_reads := QueryDenomsFromCreatorResponse_reads; gogo_total := QueryDenomsFromCreatorResponse_total
|}.

Definition QueryBeforeSendHookAddressRequest_enc (x : QueryBeforeSendHookAddressRequest) : raw :=
  enc_bytes 0xa (QueryBeforeSendHookAddressRequest_Denom x).

Definition QueryBeforeSendHookAddressRequest_ok (x : QueryBeforeSendHookAddressRequest) : Prop :=
  True.

Lemma QueryBeforeSendHookAddressRequest_writes x dAtA : len (QueryBeforeSendHookAddressRequest_enc x) <= len dAtA →
  QueryBeforeSendHookAddressRequest_MarshalToSizedBuffer x dAtA =
    (Ok (len (QueryBeforeSendHookAddressRequest_enc x)), take (length dAtA - length (QueryBeforeSendHookAddressRequest_enc x)) dAtA ++ QueryBeforeSendHookAddressRequest_enc x).
Proof. apply sized_buffer_writes. unfold QueryBeforeSendHookAddressRequest_enc. gogo_write. Qed.

Lemma QueryBeforeSendHookAddressRequest_size_enc x : QueryBeforeSendHookAddressRequest_Size x = len (QueryBeforeSendHookAddressRequest_enc x).
Proof. unfold QueryBeforeSendHookAddressRequest_Size, QueryBeforeSendHookAddressRequest_enc. gogo_size. Qed.

Lemma QueryBeforeSendHookAddressRequest_reads_unknown x u :
  QueryBeforeSendHookAddressRequest_ok x → raw_fields QueryBeforeSendHookAddressRequest_field u → len (QueryBeforeSendHookAddressRequest_enc x ++ u) < 2 ^ 63 →
  QueryBeforeSendHookAddressRequest_Unmarshal (QueryBeforeSendHookAddressRequest_enc x ++ u) QueryBeforeSendHookAddressRequest_new = (Ok (), x).
Proof.
  intros Hok Hu H63. destruct x as [f1].
  unfold QueryBeforeSendHookAddressRequest_enc in *. cbn [QueryBeforeSendHookAddressRequest_Denom] in *.
  apply (unmarshal_fields_reads _ QueryBeforeSendHookAddressRequest_field); [|done]. rw -?app_assoc. rw -?app_assoc in H63.
  wire_read (reads_string "QueryBeforeSendHookAddressRequest" QueryBeforeSendHookAddressRequest_field (λ _ x, x) 1 "Denom").
  by apply reads_skipped.
Qed.

Lemma QueryBeforeSendHookAddressRequest_reads x : QueryBeforeSendHookAddressRequest_ok x → len (QueryBeforeSendHookAddressRequest_enc x) < 2 ^ 63 → QueryBeforeSendHookAddressRequest_Unmarshal (QueryBeforeSendHookAddressRequest_enc x) QueryBeforeSendHookAddressRequest_new = (Ok (), x).
Proof.
  intros Hok H63. rw -{1}(app_nil_r (QueryBeforeSendHookAddressRequest_enc x)). apply QueryBeforeSendHookAddressRequest_reads_unknown; [done|constructor|by rw app_nil_r].
Qed.

Lemma QueryBeforeSendHookAddressRequest_total bz x : len bz < 2 ^ 63 → no_panic (QueryBeforeSendHookAddressRequest_Unmarshal bz x).1.
Proof.
  intros. apply unmarshal_fields_total; [done|]. intros n k wt. unfold QueryBeforeSendHookAddressRequest_field. gogo_moves.
Qed.

#[export] Instance QueryBeforeSendHookAddressRequest_gogo_laws : GogoLaws QueryBeforeSendHookAddressRequest QueryBeforeSendHookAddressRequest_gogo := {|
  gogo_enc := QueryBeforeSendHookAddressRequest_enc; gogo_ok := QueryBeforeSendHookAddressRequest_ok; gogo_writes := QueryBeforeSendHookAddressRequest_writes; gogo_size := QueryBeforeSendHookAddressRequest_size_enc;
  gogo_reads := QueryBeforeSendHookAddressRequest_reads; gogo_total := QueryBeforeSendHookAddressRequest_total
|}.

Definition QueryBeforeSendHookAddressResponse_enc (x : QueryBeforeSendHookAddressResponse) : raw :=
  enc_bytes 0xa (QueryBeforeSendHookAddressResponse_CosmwasmAddress x).

Definition QueryBeforeSendHookAddressResponse_ok (x : QueryBeforeSendHookAddressResponse) : Prop :=
  True.

Lemma QueryBeforeSendHookAddressResponse_writes x dAtA : len (QueryBeforeSendHookAddressResponse_enc x) <= len dAtA →
  QueryBeforeSendHookAddressResponse_MarshalToSizedBuffer x dAtA =
    (Ok (len (QueryBeforeSendHookAddressResponse_enc x)), take (length dAtA - length (QueryBeforeSendHookAddressResponse_enc x)) dAtA ++ QueryBeforeSendHookAddressResponse_enc x).
Proof. apply sized_buffer_writes. unfold QueryBeforeSendHookAddressResponse_enc. gogo_write. Qed.

Lemma QueryBeforeSendHookAddressResponse_size_enc x : QueryBeforeSendHookAddressResponse_Size x = len (QueryBeforeSendHookAddressResponse_enc x).
Proof. unfold QueryBeforeSendHookAddressResponse_Size, QueryBeforeSendHookAddressResponse_enc. gogo_size. Qed.

Lemma QueryBeforeSendHookAddressResponse_reads_unknown x u :
  QueryBeforeSendHookAddressResponse_ok x → raw_fields QueryBeforeSendHookAddressResponse_field u → len (QueryBeforeSendHookAddressResponse_enc x ++ u) < 2 ^ 63 →
  QueryBeforeSendHookAddressResponse_Unmarshal (QueryBeforeSendHookAddressResponse_enc x ++ u) QueryBeforeSendHookAddressResponse_new = (Ok (), x).
Proof.
  intros Hok Hu H63. destruct x as [f1].
  unfold QueryBeforeSendHookAddressResponse_enc in *. cbn [QueryBeforeSendHookAddressResponse_CosmwasmAddress] in *.
  apply (unmarshal_fields_reads _ QueryBeforeSendHookAddressResponse_field); [|done]. rw -?app_assoc. rw -?app_assoc in H63.
  wire_read (reads_string "QueryBeforeSendHookAddressResponse" QueryBeforeSendHookAddressResponse_field (λ _ x, x) 1 "CosmwasmAddress").
  by apply reads_skipped.
Qed.

Lemma QueryBeforeSendHookAddressResponse_reads x : QueryBeforeSendHookAddressResponse_ok x → len (QueryBeforeSendHookAddressResponse_enc x) < 2 ^ 63 → QueryBeforeSendHookAddressResponse_Unmarshal (QueryBeforeSendHookAddressResponse_enc x) QueryBeforeSendHookAddressResponse_new = (Ok (), x).
Proof.
  intros Hok H63. rw -{1}(app_nil_r (QueryBeforeSendHookAddressResponse_enc x)). apply QueryBeforeSendHookAddressResponse_reads_unknown; [done|constructor|by rw app_nil_r].
Qed.

Lemma QueryBeforeSendHookAddressResponse_total bz x : len bz < 2 ^ 63 → no_panic (QueryBeforeSendHookAddressResponse_Unmarshal bz x).1.
Proof.
  intros. apply unmarshal_fields_total; [done|]. intros n k wt. unfold QueryBeforeSendHookAddressResponse_field. gogo_moves.
Qed.

#[export] Instance QueryBeforeSendHookAddressResponse_gogo_laws : GogoLaws QueryBeforeSendHookAddressResponse QueryBeforeSendHookAddressResponse_gogo := {|
  gogo_enc := QueryBeforeSendHookAddressResponse_enc; gogo_ok := QueryBeforeSendHookAddressResponse_ok; gogo_writes := QueryBeforeSendHookAddressResponse_writes; gogo_size := QueryBeforeSendHookAddressResponse_size_enc;
  gogo_reads := QueryBeforeSendHookAddressResponse_reads; gogo_total := QueryBeforeSendHookAddressResponse_total
|}.

End laws.
