(* ===== verification/GogoWasm.v ===== *)
(** x/wasmextension/types: types.pb.go and tx.pb.go. *)
From S2P Require Import Prelude.
From S2P Require Import Interfaces.
From S2P Require Import TfTypes.
From S2P Require Import GoJson.
From S2P Require Import Wire.
From S2P Require Import WireSpec.
From S2P Require Import WireRead.
From S2P Require Import GogoRuntime.
From S2P Require Import GogoWire.
From S2P Require Import Bank.
From S2P Require Import WasmExt.

(** * The messages *)

Section messages.

(** ** AccessConfig *)

Definition AccessConfig_new : AccessConfig := {|
  Permission := 0; Addresses := []
|}.

Definition AccessConfig_set_Permission (v : Z) (x : AccessConfig) : AccessConfig := {|
  Permission := v; Addresses := Addresses x
|}.

Definition AccessConfig_set_Addresses (v : list string) (x : AccessConfig) : AccessConfig := {|
  Permission := Permission x; Addresses := v
|}.

Definition AccessConfig_Size (m : AccessConfig) : Z :=
  size_number (Permission m) +
  size_strings (Addresses m).

Definition AccessConfig_MarshalToSizedBuffer (m : AccessConfig) : M raw Z := sized_buffer (
  put_strings 0x12 (Addresses m) ;;;
  put_number 0x8 (Permission m)).

Definition AccessConfig_field (dAtA : raw) (fieldNum : Z) : option (Z → M (rstate AccessConfig) unit) :=
  if fieldNum =? 1 then Some (λ wireType, expect_wire 0 "Permission" wireType
    (get_number dAtA Int32 AccessConfig_set_Permission))
  else if fieldNum =? 2 then Some (λ wireType, expect_wire 2 "Addresses" wireType
    (get_string dAtA (λ s x, AccessConfig_set_Addresses (Addresses x ++ [s]) x)))
  else None.

Definition AccessConfig_Unmarshal (dAtA : raw) : M AccessConfig unit := unmarshal_fields dAtA "AccessConfig" (AccessConfig_field dAtA).

#[export] Instance AccessConfig_gogo : GogoMessage AccessConfig := {|
  gogo_new := AccessConfig_new; gogo_Size := AccessConfig_Size;
  gogo_MarshalToSizedBuffer := AccessConfig_MarshalToSizedBuffer; gogo_Unmarshal := AccessConfig_Unmarshal
|}.

(** ** MsgStoreCodeAdmin *)

Definition MsgStoreCodeAdmin_new : MsgStoreCodeAdmin := {|
  MsgStoreCodeAdmin_Authority := ""; MsgStoreCodeAdmin_Creator := "";
  MsgStoreCodeAdmin_WASMByteCode := ""; MsgStoreCodeAdmin_InstantiatePermission := None
|}.

Definition MsgStoreCodeAdmin_set_Authority (v : string) (x : MsgStoreCodeAdmin) : MsgStoreCodeAdmin := {|
  MsgStoreCodeAdmin_Authority := v; MsgStoreCodeAdmin_Creator := MsgStoreCodeAdmin_Creator x;
  MsgStoreCodeAdmin_WASMByteCode := MsgStoreCodeAdmin_WASMByteCode x;
  MsgStoreCodeAdmin_InstantiatePermission := MsgStoreCodeAdmin_InstantiatePermission x
|}.

Definition MsgStoreCodeAdmin_set_Creator (v : string) (x : MsgStoreCodeAdmin) : MsgStoreCodeAdmin := {|
  MsgStoreCodeAdmin_Authority := MsgStoreCodeAdmin_Authority x; MsgStoreCodeAdmin_Creator := v;
  MsgStoreCodeAdmin_WASMByteCode := MsgStoreCodeAdmin_WASMByteCode x;
  MsgStoreCodeAdmin_InstantiatePermission := MsgStoreCodeAdmin_InstantiatePermission x
|}.

Definition MsgStoreCodeAdmin_set_WASMByteCode (v : bytes) (x : MsgStoreCodeAdmin) : MsgStoreCodeAdmin := {|
  MsgStoreCodeAdmin_Authority := MsgStoreCodeAdmin_Authority x;
  MsgStoreCodeAdmin_Creator := MsgStoreCodeAdmin_Creator x; MsgStoreCodeAdmin_WASMByteCode := v;
  MsgStoreCodeAdmin_InstantiatePermission := MsgStoreCodeAdmin_InstantiatePermission x
|}.

Definition MsgStoreCodeAdmin_set_InstantiatePermission (v : option AccessConfig) (x : MsgStoreCodeAdmin) : MsgStoreCodeAdmin := {|
  MsgStoreCodeAdmin_Authority := MsgStoreCodeAdmin_Authority x;
  MsgStoreCodeAdmin_Creator := MsgStoreCodeAdmin_Creator x;
  MsgStoreCodeAdmin_WASMByteCode := MsgStoreCodeAdmin_WASMByteCode x;
  MsgStoreCodeAdmin_InstantiatePermission := v
|}.

Definition MsgStoreCodeAdmin_Size (m : MsgStoreCodeAdmin) : Z :=
  size_bytes (MsgStoreCodeAdmin_Authority m) +
  size_bytes (MsgStoreCodeAdmin_Creator m) +
  size_bytes (MsgStoreCodeAdmin_WASMByteCode m) +
  size_nullable (MsgStoreCodeAdmin_InstantiatePermission m).

Definition MsgStoreCodeAdmin_MarshalToSizedBuffer (m : MsgStoreCodeAdmin) : M raw Z := sized_buffer (
  put_nullable 0x22 (MsgStoreCodeAdmin_InstantiatePermission m) ;;;
  put_bytes 0x1a (MsgStoreCodeAdmin_WASMByteCode m) ;;;
  put_bytes 0x12 (MsgStoreCodeAdmin_Creator m) ;;;
  put_bytes 0xa (MsgStoreCodeAdmin_Authority m)).

Definition MsgStoreCodeAdmin_field (dAtA : raw) (fieldNum : Z) : option (Z → M (rstate MsgStoreCodeAdmin) unit) :=
  if fieldNum =? 1 then Some (λ wireType, expect_wire 2 "Authority" wireType
    (get_string dAtA MsgStoreCodeAdmin_set_Authority))
  else if fieldNum =? 2 then Some (λ wireType, expect_wire 2 "Creator" wireType
    (get_string dAtA MsgStoreCodeAdmin_set_Creator))
  else if fieldNum =? 3 then Some (λ wireType, expect_wire 2 "WASMByteCode" wireType
    (get_bytes dAtA MsgStoreCodeAdmin_set_WASMByteCode))
  else if fieldNum =? 4 then Some (λ wireType, expect_wire 2 "InstantiatePermission" wireType
    (get_nullable dAtA MsgStoreCodeAdmin_InstantiatePermission MsgStoreCodeAdmin_set_InstantiatePermission))
  else None.

Definition MsgStoreCodeAdmin_Unmarshal (dAtA : raw) : M MsgStoreCodeAdmin unit := unmarshal_fields dAtA "MsgStoreCodeAdmin" (MsgStoreCodeAdmin_field dAtA).

#[export] Instance MsgStoreCodeAdmin_gogo : GogoMessage MsgStoreCodeAdmin := {|
  gogo_new := MsgStoreCodeAdmin_new; gogo_Size := MsgStoreCodeAdmin_Size;
  gogo_MarshalToSizedBuffer := MsgStoreCodeAdmin_MarshalToSizedBuffer; gogo_Unmarshal := MsgStoreCodeAdmin_Unmarshal
|}.

(** ** MsgStoreCodeAdminResponse *)

Record MsgStoreCodeAdminResponse := {
  MsgStoreCodeAdminResponse_CodeID : Z;
  MsgStoreCodeAdminResponse_Checksum : bytes
}.

Definition MsgStoreCodeAdminResponse_new : MsgStoreCodeAdminResponse := {|
  MsgStoreCodeAdminResponse_CodeID := 0; MsgStoreCodeAdminResponse_Checksum := ""
|}.

Definition MsgStoreCodeAdminResponse_set_CodeID (v : Z) (x : MsgStoreCodeAdminResponse) : MsgStoreCodeAdminResponse := {|
  MsgStoreCodeAdminResponse_CodeID := v;
  MsgStoreCodeAdminResponse_Checksum := MsgStoreCodeAdminResponse_Checksum x
|}.

Definition MsgStoreCodeAdminResponse_set_Checksum (v : bytes) (x : MsgStoreCodeAdminResponse) : MsgStoreCodeAdminResponse := {|
  MsgStoreCodeAdminResponse_CodeID := MsgStoreCodeAdminResponse_CodeID x;
  MsgStoreCodeAdminResponse_Checksum := v
|}.

Definition MsgStoreCodeAdminResponse_Size (m : MsgStoreCodeAdminResponse) : Z :=
  size_number (MsgStoreCodeAdminResponse_CodeID m) +
  size_bytes (MsgStoreCodeAdminResponse_Checksum m).

Definition MsgStoreCodeAdminResponse_MarshalToSizedBuffer (m : MsgStoreCodeAdminResponse) : M raw Z := sized_buffer (
  put_bytes 0x12 (MsgStoreCodeAdminResponse_Checksum m) ;;;
  put_number 0x8 (MsgStoreCodeAdminResponse_CodeID m)).

Definition MsgStoreCodeAdminResponse_field (dAtA : raw) (fieldNum : Z) : option (Z → M (rstate MsgStoreCodeAdminResponse) unit) :=
  if fieldNum =? 1 then Some (λ wireType, expect_wire 0 "CodeID" wireType
    (get_number dAtA Uint64 MsgStoreCodeAdminResponse_set_CodeID))
  else if fieldNum =? 2 then Some (λ wireType, expect_wire 2 "Checksum" wireType
    (get_bytes dAtA MsgStoreCodeAdminResponse_set_Checksum))
  else None.

Definition MsgStoreCodeAdminResponse_Unmarshal (dAtA : raw) : M MsgStoreCodeAdminResponse unit := unmarshal_fields dAtA "MsgStoreCodeAdminResponse" (MsgStoreCodeAdminResponse_field dAtA).

#[export] Instance MsgStoreCodeAdminResponse_gogo : GogoMessage MsgStoreCodeAdminResponse := {|
  gogo_new := MsgStoreCodeAdminResponse_new; gogo_Size := MsgStoreCodeAdminResponse_Size;
  gogo_MarshalToSizedBuffer := MsgStoreCodeAdminResponse_MarshalToSizedBuffer; gogo_Unmarshal := MsgStoreCodeAdminResponse_Unmarshal
|}.

End messages.

(** * What they promise *)

Section laws.

Definition AccessConfig_enc (x : AccessConfig) : raw :=
  enc_number 0x8 (Permission x) ++
  enc_strings 0x12 (Addresses x).

Definition AccessConfig_ok (x : AccessConfig) : Prop :=
  is_int Int32 (Permission x).

Lemma AccessConfig_writes x dAtA : len (AccessConfig_enc x) <= len dAtA →
  AccessConfig_MarshalToSizedBuffer x dAtA =
    (Ok (len (AccessConfig_enc x)), take (length dAtA - length (AccessConfig_enc x)) dAtA ++ AccessConfig_enc x).
Proof. apply sized_buffer_writes. unfold AccessConfig_enc. gogo_write. Qed.

Lemma AccessConfig_size_enc x : AccessConfig_Size x = len (AccessConfig_enc x).
Proof. unfold AccessConfig_Size, AccessConfig_enc. gogo_size. Qed.

Lemma AccessConfig_reads_unknown x u :
  AccessConfig_ok x → raw_fields AccessConfig_field u → len (AccessConfig_enc x ++ u) < 2 ^ 63 →
  AccessConfig_Unmarshal (AccessConfig_enc x ++ u) AccessConfig_new = (Ok (), x).
Proof.
  intros Hok Hu H63. destruct x as [f1 f2]. unfold AccessConfig_ok in Hok; rename Hok into HPermission.
  unfold AccessConfig_enc in *. cbn [Permission Addresses] in *.
  apply (unmarshal_fields_reads _ AccessConfig_field); [|done]. rw -?app_assoc. rw -?app_assoc in H63.
  wire_read (reads_number "AccessConfig" AccessConfig_field (λ _ x, x) Int32 1 "Permission").
  wire_read (reads_strings "AccessConfig" AccessConfig_field (λ _ x, x) 2 "Addresses").
  by apply reads_skipped.
Qed.

Lemma AccessConfig_reads x : AccessConfig_ok x → len (AccessConfig_enc x) < 2 ^ 63 → AccessConfig_Unmarshal (AccessConfig_enc x) AccessConfig_new = (Ok (), x).
Proof.
  intros Hok H63. rw -{1}(app_nil_r (AccessConfig_enc x)). apply AccessConfig_reads_unknown; [done|constructor|by rw app_nil_r].
Qed.

Lemma AccessConfig_total bz x : len bz < 2 ^ 63 → no_panic (AccessConfig_Unmarshal bz x).1.
Proof.
  intros. apply unmarshal_fields_total; [done|]. intros n k wt. unfold AccessConfig_field. gogo_moves.
Qed.

#[export] Instance AccessConfig_gogo_laws : GogoLaws AccessConfig AccessConfig_gogo := {|
  gogo_enc := AccessConfig_enc; gogo_ok := AccessConfig_ok; gogo_writes := AccessConfig_writes; gogo_size := AccessConfig_size_enc;
  gogo_reads := AccessConfig_reads; gogo_total := AccessConfig_total
|}.

Definition MsgStoreCodeAdmin_enc (x : MsgStoreCodeAdmin) : raw :=
  enc_bytes 0xa (MsgStoreCodeAdmin_Authority x) ++
  enc_bytes 0x12 (MsgStoreCodeAdmin_Creator x) ++
  enc_bytes 0x1a (MsgStoreCodeAdmin_WASMByteCode x) ++
  enc_nullable 0x22 (MsgStoreCodeAdmin_InstantiatePermission x).

Definition MsgStoreCodeAdmin_ok (x : MsgStoreCodeAdmin) : Prop :=
  (∀ a, MsgStoreCodeAdmin_InstantiatePermission x = Some a → gogo_ok a).

Lemma MsgStoreCodeAdmin_writes x dAtA : len (MsgStoreCodeAdmin_enc x) <= len dAtA →
  MsgStoreCodeAdmin_MarshalToSizedBuffer x dAtA =
    (Ok (len (MsgStoreCodeAdmin_enc x)), take (length dAtA - length (MsgStoreCodeAdmin_enc x)) dAtA ++ MsgStoreCodeAdmin_enc x).
Proof. apply sized_buffer_writes. unfold MsgStoreCodeAdmin_enc. gogo_write. Qed.

Lemma MsgStoreCodeAdmin_size_enc x : MsgStoreCodeAdmin_Size x = len (MsgStoreCodeAdmin_enc x).
Proof. unfold MsgStoreCodeAdmin_Size, MsgStoreCodeAdmin_enc. gogo_size. Qed.

Lemma MsgStoreCodeAdmin_reads_unknown x u :
  MsgStoreCodeAdmin_ok x → raw_fields MsgStoreCodeAdmin_field u → len (MsgStoreCodeAdmin_enc x ++ u) < 2 ^ 63 →
  MsgStoreCodeAdmin_Unmarshal (MsgStoreCodeAdmin_enc x ++ u) MsgStoreCodeAdmin_new = (Ok (), x).
Proof.
  intros Hok Hu H63. destruct x as [f2 f3 f4 f1]. unfold MsgStoreCodeAdmin_ok in Hok; rename Hok into HInstantiatePermission.
  unfold MsgStoreCodeAdmin_enc in *. cbn [MsgStoreCodeAdmin_Authority MsgStoreCodeAdmin_Creator MsgStoreCodeAdmin_WASMByteCode MsgStoreCodeAdmin_InstantiatePermission] in *.
  apply (unmarshal_fields_reads _ MsgStoreCodeAdmin_field); [|done]. rw -?app_assoc. rw -?app_assoc in H63.
  wire_read (reads_string "MsgStoreCodeAdmin" MsgStoreCodeAdmin_field (λ _ x, x) 1 "Authority").
  wire_read (reads_string "MsgStoreCodeAdmin" MsgStoreCodeAdmin_field (λ _ x, x) 2 "Creator").
  wire_read (reads_bytes "MsgStoreCodeAdmin" MsgStoreCodeAdmin_field (λ _ x, x) 3 "WASMByteCode").
  wire_read (reads_nullable (A:=AccessConfig) "MsgStoreCodeAdmin" MsgStoreCodeAdmin_field (λ _ x, x) 4 "InstantiatePermission").
  by apply reads_skipped.
Qed.

Lemma MsgStoreCodeAdmin_reads x : MsgStoreCodeAdmin_ok x → len (MsgStoreCodeAdmin_enc x) < 2 ^ 63 → MsgStoreCodeAdmin_Unmarshal (MsgStoreCodeAdmin_enc x) MsgStoreCodeAdmin_new = (Ok (), x).
Proof.
  intros Hok H63. rw -{1}(app_nil_r (MsgStoreCodeAdmin_enc x)). apply MsgStoreCodeAdmin_reads_unknown; [done|constructor|by rw app_nil_r].
Qed.

Lemma MsgStoreCodeAdmin_total bz x : len bz < 2 ^ 63 → no_panic (MsgStoreCodeAdmin_Unmarshal bz x).1.
Proof.
  intros. apply unmarshal_fields_total; [done|]. intros n k wt. unfold MsgStoreCodeAdmin_field. gogo_moves.
Qed.

#[export] Instance MsgStoreCodeAdmin_gogo_laws : GogoLaws MsgStoreCodeAdmin MsgStoreCodeAdmin_gogo := {|
  gogo_enc := MsgStoreCodeAdmin_enc; gogo_ok := MsgStoreCodeAdmin_ok; gogo_writes := MsgStoreCodeAdmin_writes; gogo_size := MsgStoreCodeAdmin_size_enc;
  gogo_reads := MsgStoreCodeAdmin_reads; gogo_total := MsgStoreCodeAdmin_total
|}.

Definition MsgStoreCodeAdminResponse_enc (x : MsgStoreCodeAdminResponse) : raw :=
  enc_number 0x8 (MsgStoreCodeAdminResponse_CodeID x) ++
  enc_bytes 0x12 (MsgStoreCodeAdminResponse_Checksum x).

Definition MsgStoreCodeAdminResponse_ok (x : MsgStoreCodeAdminResponse) : Prop :=
  is_int Uint64 (MsgStoreCodeAdminResponse_CodeID x).

Lemma MsgStoreCodeAdminResponse_writes x dAtA : len (MsgStoreCodeAdminResponse_enc x) <= len dAtA →
  MsgStoreCodeAdminResponse_MarshalToSizedBuffer x dAtA =
    (Ok (len (MsgStoreCodeAdminResponse_enc x)), take (length dAtA - length (MsgStoreCodeAdminResponse_enc x)) dAtA ++ MsgStoreCodeAdminResponse_enc x).
Proof. apply sized_buffer_writes. unfold MsgStoreCodeAdminResponse_enc. gogo_write. Qed.

Lemma MsgStoreCodeAdminResponse_size_enc x : MsgStoreCodeAdminResponse_Size x = len (MsgStoreCodeAdminResponse_enc x).
Proof. unfold MsgStoreCodeAdminResponse_Size, MsgStoreCodeAdminResponse_enc. gogo_size. Qed.

Lemma MsgStoreCodeAdminResponse_reads_unknown x u :
  MsgStoreCodeAdminResponse_ok x → raw_fields MsgStoreCodeAdminResponse_field u → len (MsgStoreCodeAdminResponse_enc x ++ u) < 2 ^ 63 →
  MsgStoreCodeAdminResponse_Unmarshal (MsgStoreCodeAdminResponse_enc x ++ u) MsgStoreCodeAdminResponse_new = (Ok (), x).
Proof.
  intros Hok Hu H63. destruct x as [f1 f2]. unfold MsgStoreCodeAdminResponse_ok in Hok; rename Hok into HCodeID.
  unfold MsgStoreCodeAdminResponse_enc in *. cbn [MsgStoreCodeAdminResponse_CodeID MsgStoreCodeAdminResponse_Checksum] in *.
  apply (unmarshal_fields_reads _ MsgStoreCodeAdminResponse_field); [|done]. rw -?app_assoc. rw -?app_assoc in H63.
  wire_read (reads_number "MsgStoreCodeAdminResponse" MsgStoreCodeAdminResponse_field (λ _ x, x) Uint64 1 "CodeID").
  wire_read (reads_bytes "MsgStoreCodeAdminResponse" MsgStoreCodeAdminResponse_field (λ _ x, x) 2 "Checksum").
  by apply reads_skipped.
Qed.

Lemma MsgStoreCodeAdminResponse_reads x : MsgStoreCodeAdminResponse_ok x → len (MsgStoreCodeAdminResponse_enc x) < 2 ^ 63 → MsgStoreCodeAdminResponse_Unmarshal (MsgStoreCodeAdminResponse_enc x) MsgStoreCodeAdminResponse_new = (Ok (), x).
Proof.
  intros Hok H63. rw -{1}(app_nil_r (MsgStoreCodeAdminResponse_enc x)). apply MsgStoreCodeAdminResponse_reads_unknown; [done|constructor|by rw app_nil_r].
Qed.

Lemma MsgStoreCodeAdminResponse_total bz x : len bz < 2 ^ 63 → no_panic (MsgStoreCodeAdminResponse_Unmarshal bz x).1.
Proof.
  intros. apply unmarshal_fields_total; [done|]. intros n k wt. unfold MsgStoreCodeAdminResponse_field. gogo_moves.
Qed.

#[export] Instance MsgStoreCodeAdminResponse_gogo_laws : GogoLaws MsgStoreCodeAdminResponse MsgStoreCodeAdminResponse_gogo := {|
  gogo_enc := MsgStoreCodeAdminResponse_enc; gogo_ok := MsgStoreCodeAdminResponse_ok; gogo_writes := MsgStoreCodeAdminResponse_writes; gogo_size := MsgStoreCodeAdminResponse_size_enc;
  gogo_reads := MsgStoreCodeAdminResponse_reads; gogo_total := MsgStoreCodeAdminResponse_total
|}.

End laws.
