(* ===== verification/GogoSpec.v ===== *)
(** The two encodings together: the messages of x/, which the chain writes and reads, and the
    messages of api/, which clients use, have the same bytes, and each side reads what the
    other wrote. *)
From S2P Require Import Prelude.
From S2P Require Import Interfaces.
From S2P Require Import TfTypes.
From S2P Require Import GoJson.
From S2P Require Import Wire.
From S2P Require Import WireSpec.
From S2P Require Import WireRead.
From S2P Require Import ApiState.
From S2P Require Import ApiTx.
From S2P Require Import ApiQuery.
From S2P Require Import ApiWasm.
From S2P Require Import ApiSpec.
From S2P Require Import Bank.
From S2P Require Import WasmExt.
From S2P Require Import GogoRuntime.
From S2P Require Import GogoWire.
From S2P Require Import GogoState.
From S2P Require Import GogoTx.
From S2P Require Import GogoQuery.
From S2P Require Import GogoWasm.

(** * Messages on both sides *)

(** A message of x/ as one of api/: the same fields; what cannot be nil is a pointer. *)
Class Interop A B {GM : GogoMessage A} {GL : GogoLaws A GM} {PM : ProtoMessage B} {PL : ProtoLaws B PM} := {
  to_api : A → B;
  interop_enc a : options_Marshal (Some (to_api a)) = Ok (gogo_enc a);
  interop_ok a : gogo_ok a → proto_ok (to_api a)
}.

Section fields.
Context {A B} `{IO : Interop A B}.

Lemma enc_message_embedded tag (a : A) : enc_message tag (Some (to_api a)) = enc_embedded tag a.
Proof. unfold enc_message, enc_pointer. by rw interop_enc. Qed.

Lemma enc_message_nullable tag (a : option A) : enc_message tag (to_api <$> a) = enc_nullable tag a.
Proof. destruct a; [apply enc_message_embedded|done]. Qed.

Lemma enc_messages_embeddeds tag (l : list A) :
  enc_messages tag ((λ a, Some (to_api a)) <$> l) = enc_embeddeds tag l.
Proof.
  unfold enc_messages, enc_embeddeds. f_equal. rw -list_fmap_compose. apply list_fmap_ext. intros i a _.
  apply enc_message_embedded.
Qed.

Lemma ok_message_embedded (a : A) : gogo_ok a → ok_message (Some (to_api a)).
Proof. intros H b [= <-]. by apply interop_ok. Qed.

Lemma ok_message_nullable (a : option A) : (∀ x, a = Some x → gogo_ok x) → ok_message (to_api <$> a).
Proof. intros H b. destruct a as [a|]; [|done]. intros [= <-]. by apply interop_ok, H. Qed.

Lemma ok_messages_embeddeds (l : list A) : Forall gogo_ok l → ok_messages ((λ a, Some (to_api a)) <$> l).
Proof.
  intros H. apply Forall_fmap. eapply Forall_impl; [exact H|]. intros a Ha. exists (to_api a).
  split; [done|]. by apply interop_ok.
Qed.
End fields.

(** A message whose encodings agree. *)
Definition interop_intro {A B} {GM : GogoMessage A} {GL : GogoLaws A GM} {PM : ProtoMessage B} {PL : ProtoLaws B PM}
    (f : A → B) (marshal : option B → M raw unit) (enc : B → raw)
    (Hm : ∀ x, options_Marshal x = marshalled (marshal x))
    (Hw : ∀ x, encodes (marshal (Some x)) (options_Size (Some x)) (enc x))
    (He : ∀ a, enc (f a) = gogo_enc a) (Hok : ∀ a, gogo_ok a → proto_ok (f a)) : Interop A B.
Proof.
  refine {| to_api := f; interop_ok := Hok |}. intros a. rw Hm. unfold marshalled. destruct (Hw (f a)) as [-> _].
  by rw He.
Defined.

(** Encodings field by field, and what is asked of the fields. *)
Ltac api_enc := by rw ?app_nil_r ?enc_message_embedded ?enc_message_nullable ?enc_messages_embeddeds.

Ltac api_ok :=
  intros; destruct_and?; split_and?;
  first [done|by apply ok_message_embedded|by apply ok_message_nullable|by apply ok_messages_embeddeds|constructor].

Section interop.
Context {WR : WireRuntime} {WL : WireRuntimeLaws WR}.
Context {SM : SdkMessages} {SML : SdkMessagesLaws SM} {SG : SdkGogo} {SGL : SdkGogoLaws SG}.
Context {IC : Interop coin ApiCoin} {IM : Interop Metadata ApiMetadata}.

Definition Params_to_api (m : Params) : v1_Params := {|
  v1_Params_DenomCreationFee := (λ x, Some (to_api x)) <$> DenomCreationFee m;
  v1_Params_DenomCreationGasConsume := DenomCreationGasConsume m; v1_Params_unknownFields := []
|}.

Lemma Params_api_enc m : v1_Params_enc (Params_to_api m) = Params_enc m.
Proof.
  unfold v1_Params_enc, Params_enc, Params_to_api.
  cbn [v1_Params_DenomCreationFee v1_Params_DenomCreationGasConsume v1_Params_unknownFields]. api_enc.
Qed.

Lemma Params_api_ok m : Params_ok m → v1_Params_ok (Params_to_api m).
Proof.
  unfold v1_Params_ok, Params_ok, Params_to_api.
  cbn [v1_Params_DenomCreationFee v1_Params_DenomCreationGasConsume v1_Params_unknownFields]. api_ok.
Qed.

#[export] Instance Params_interop : Interop Params v1_Params :=
  interop_intro Params_to_api v1_Params_marshal v1_Params_enc (λ _, eq_refl) v1_Params_writes Params_api_enc Params_api_ok.

Definition DenomAuthorityMetadata_to_api (m : DenomAuthorityMetadata) : v1_DenomAuthorityMetadata := {|
  v1_DenomAuthorityMetadata_Admin := Admin m; v1_DenomAuthorityMetadata_unknownFields := []
|}.

Lemma DenomAuthorityMetadata_api_enc m : v1_DenomAuthorityMetadata_enc (DenomAuthorityMetadata_to_api m) = DenomAuthorityMetadata_enc m.
Proof.
  unfold v1_DenomAuthorityMetadata_enc, DenomAuthorityMetadata_enc, DenomAuthorityMetadata_to_api.
  cbn [v1_DenomAuthorityMetadata_Admin v1_DenomAuthorityMetadata_unknownFields]. api_enc.
Qed.

Lemma DenomAuthorityMetadata_api_ok m : DenomAuthorityMetadata_ok m → v1_DenomAuthorityMetadata_ok (DenomAuthorityMetadata_to_api m).
Proof.
  unfold v1_DenomAuthorityMetadata_ok, DenomAuthorityMetadata_ok, DenomAuthorityMetadata_to_api.
  cbn [v1_DenomAuthorityMetadata_Admin v1_DenomAuthorityMetadata_unknownFields]. api_ok.
Qed.

#[export] Instance DenomAuthorityMetadata_interop : Interop DenomAuthorityMetadata v1_DenomAuthorityMetadata :=
  interop_intro DenomAuthorityMetadata_to_api v1_DenomAuthorityMetadata_marshal v1_DenomAuthorityMetadata_enc (λ _, eq_refl) v1_DenomAuthorityMetadata_writes DenomAuthorityMetadata_api_enc DenomAuthorityMetadata_api_ok.

Definition GenesisDenom_to_api (m : GenesisDenom) : v1_GenesisDenom := {|
  v1_GenesisDenom_Denom := gd_Denom m;
  v1_GenesisDenom_AuthorityMetadata := Some (to_api (gd_AuthorityMetadata m));
  v1_GenesisDenom_unknownFields := []
|}.

Lemma GenesisDenom_api_enc m : v1_GenesisDenom_enc (GenesisDenom_to_api m) = GenesisDenom_enc m.
Proof.
  unfold v1_GenesisDenom_enc, GenesisDenom_enc, GenesisDenom_to_api.
  cbn [v1_GenesisDenom_Denom v1_GenesisDenom_AuthorityMetadata v1_GenesisDenom_unknownFields]. api_enc.
Qed.

Lemma GenesisDenom_api_ok m : GenesisDenom_ok m → v1_GenesisDenom_ok (GenesisDenom_to_api m).
Proof.
  unfold v1_GenesisDenom_ok, GenesisDenom_ok, GenesisDenom_to_api.
  cbn [v1_GenesisDenom_Denom v1_GenesisDenom_AuthorityMetadata v1_GenesisDenom_unknownFields]. api_ok.
Qed.

#[export] Instance GenesisDenom_interop : Interop GenesisDenom v1_GenesisDenom :=
  interop_intro GenesisDenom_to_api v1_GenesisDenom_marshal v1_GenesisDenom_enc (λ _, eq_refl) v1_GenesisDenom_writes GenesisDenom_api_enc GenesisDenom_api_ok.

Definition GenesisState_to_api (m : GenesisState) : v1_GenesisState := {|
  v1_GenesisState_Params := Some (to_api (gs_Params m));
  v1_GenesisState_FactoryDenoms := (λ x, Some (to_api x)) <$> gs_FactoryDenoms m;
  v1_GenesisState_unknownFields := []
|}.

Lemma GenesisState_api_enc m : v1_GenesisState_enc (GenesisState_to_api m) = GenesisState_enc m.
Proof.
  unfold v1_GenesisState_enc, GenesisState_enc, GenesisState_to_api.
  cbn [v1_GenesisState_Params v1_GenesisState_FactoryDenoms v1_GenesisState_unknownFields]. api_enc.
Qed.

Lemma GenesisState_api_ok m : GenesisState_ok m → v1_GenesisState_ok (GenesisState_to_api m).
Proof.
  unfold v1_GenesisState_ok, GenesisState_ok, GenesisState_to_api.
  cbn [v1_GenesisState_Params v1_GenesisState_FactoryDenoms v1_GenesisState_unknownFields]. api_ok.
Qed.

#[export] Instance GenesisState_interop : Interop GenesisState v1_GenesisState :=
  interop_intro GenesisState_to_api v1_GenesisState_marshal v1_GenesisState_enc (λ _, eq_refl) v1_GenesisState_writes GenesisState_api_enc GenesisState_api_ok.

Definition MsgCreateDenom_to_api (m : MsgCreateDenom) : v1_MsgCreateDenom := {|
  v1_MsgCreateDenom_Sender := MsgCreateDenom_Sender m;
  v1_MsgCreateDenom_Subdenom := MsgCreateDenom_Subdenom m; v1_MsgCreateDenom_unknownFields := []
|}.

Lemma MsgCreateDenom_api_enc m : v1_MsgCreateDenom_enc (MsgCreateDenom_to_api m) = MsgCreateDenom_enc m.
Proof.
  unfold v1_MsgCreateDenom_enc, MsgCreateDenom_enc, MsgCreateDenom_to_api.
  cbn [v1_MsgCreateDenom_Sender v1_MsgCreateDenom_Subdenom v1_MsgCreateDenom_unknownFields]. api_enc.
Qed.

Lemma MsgCreateDenom_api_ok m : MsgCreateDenom_ok m → v1_MsgCreateDenom_ok (MsgCreateDenom_to_api m).
Proof.
  unfold v1_MsgCreateDenom_ok, MsgCreateDenom_ok, MsgCreateDenom_to_api.
  cbn [v1_MsgCreateDenom_Sender v1_MsgCreateDenom_Subdenom v1_MsgCreateDenom_unknownFields]. api_ok.
Qed.

#[export] Instance MsgCreateDenom_interop : Interop MsgCreateDenom v1_MsgCreateDenom :=
  interop_intro MsgCreateDenom_to_api v1_MsgCreateDenom_marshal v1_MsgCreateDenom_enc (λ _, eq_refl) v1_MsgCreateDenom_writes MsgCreateDenom_api_enc MsgCreateDenom_api_ok.

Definition MsgCreateDenomResponse_to_api (m : MsgCreateDenomResponse) : v1_MsgCreateDenomResponse := {|
  v1_MsgCreateDenomResponse_NewTokenDenom := MsgCreateDenomResponse_NewTokenDenom m;
  v1_MsgCreateDenomResponse_unknownFields := []
|}.

Lemma MsgCreateDenomResponse_api_enc m : v1_MsgCreateDenomResponse_enc (MsgCreateDenomResponse_to_api m) = MsgCreateDenomResponse_enc m.
Proof.
  unfold v1_MsgCreateDenomResponse_enc, MsgCreateDenomResponse_enc, MsgCreateDenomResponse_to_api.
  cbn [v1_MsgCreateDenomResponse_NewTokenDenom v1_MsgCreateDenomResponse_unknownFields]. api_enc.
Qed.

Lemma MsgCreateDenomResponse_api_ok m : MsgCreateDenomResponse_ok m → v1_MsgCreateDenomResponse_ok (MsgCreateDenomResponse_to_api m).
Proof.
  unfold v1_MsgCreateDenomResponse_ok, MsgCreateDenomResponse_ok, MsgCreateDenomResponse_to_api.
  cbn [v1_MsgCreateDenomResponse_NewTokenDenom v1_MsgCreateDenomResponse_unknownFields]. api_ok.
Qed.

#[export] Instance MsgCreateDenomResponse_interop : Interop MsgCreateDenomResponse v1_MsgCreateDenomResponse :=
  interop_intro MsgCreateDenomResponse_to_api v1_MsgCreateDenomResponse_marshal v1_MsgCreateDenomResponse_enc (λ _, eq_refl) v1_MsgCreateDenomResponse_writes MsgCreateDenomResponse_api_enc MsgCreateDenomResponse_api_ok.

Definition MsgMint_to_api (m : MsgMint) : v1_MsgMint := {|
  v1_MsgMint_Sender := MsgMint_Sender m; v1_MsgMint_Amount := Some (to_api (MsgMint_Amount m));
  v1_MsgMint_MintToAddress := MsgMint_MintToAddress m; v1_MsgMint_unknownFields := []
|}.

Lemma MsgMint_api_enc m : v1_MsgMint_enc (MsgMint_to_api m) = MsgMint_enc m.
Proof.
  unfold v1_MsgMint_enc, MsgMint_enc, MsgMint_to_api.
  cbn [v1_MsgMint_Sender v1_MsgMint_Amount v1_MsgMint_MintToAddress v1_MsgMint_unknownFields]. api_enc.
Qed.

Lemma MsgMint_api_ok m : MsgMint_ok m → v1_MsgMint_ok (MsgMint_to_api m).
Proof.
  unfold v1_MsgMint_ok, MsgMint_ok, MsgMint_to_api.
  cbn [v1_MsgMint_Sender v1_MsgMint_Amount v1_MsgMint_MintToAddress v1_MsgMint_unknownFields]. api_ok.
Qed.

#[export] Instance MsgMint_interop : Interop MsgMint v1_MsgMint :=
  interop_intro MsgMint_to_api v1_MsgMint_marshal v1_MsgMint_enc (λ _, eq_refl) v1_MsgMint_writes MsgMint_api_enc MsgMint_api_ok.

Definition MsgMintResponse_to_api (m : MsgMintResponse) : v1_MsgMintResponse := {|
  v1_MsgMintResponse_unknownFields := []
|}.

Lemma MsgMintResponse_api_enc m : v1_MsgMintResponse_enc (MsgMintResponse_to_api m) = MsgMintResponse_enc m.
Proof.
  unfold v1_MsgMintResponse_enc, MsgMintResponse_enc, MsgMintResponse_to_api.
  cbn [v1_MsgMintResponse_unknownFields]. api_enc.
Qed.

Lemma MsgMintResponse_api_ok m : MsgMintResponse_ok m → v1_MsgMintResponse_ok (MsgMintResponse_to_api m).
Proof.
  unfold v1_MsgMintResponse_ok, MsgMintResponse_ok, MsgMintResponse_to_api.
  cbn [v1_MsgMintResponse_unknownFields]. api_ok.
Qed.

#[export] Instance MsgMintResponse_interop : Interop MsgMintResponse v1_MsgMintResponse :=
  interop_intro MsgMintResponse_to_api v1_MsgMintResponse_marshal v1_MsgMintResponse_enc (λ _, eq_refl) v1_MsgMintResponse_writes MsgMintResponse_api_enc MsgMintResponse_api_ok.

Definition MsgBurn_to_api (m : MsgBurn) : v1_MsgBurn := {|
  v1_MsgBurn_Sender := MsgBurn_Sender m; v1_MsgBurn_Amount := Some (to_api (MsgBurn_Amount m));
  v1_MsgBurn_unknownFields := []
|}.

Lemma MsgBurn_api_enc m : v1_MsgBurn_enc (MsgBurn_to_api m) = MsgBurn_enc m.
Proof.
  unfold v1_MsgBurn_enc, MsgBurn_enc, MsgBurn_to_api.
  cbn [v1_MsgBurn_Sender v1_MsgBurn_Amount v1_MsgBurn_unknownFields]. api_enc.
Qed.

Lemma MsgBurn_api_ok m : MsgBurn_ok m → v1_MsgBurn_ok (MsgBurn_to_api m).
Proof.
  unfold v1_MsgBurn_ok, MsgBurn_ok, MsgBurn_to_api.
  cbn [v1_MsgBurn_Sender v1_MsgBurn_Amount v1_MsgBurn_unknownFields]. api_ok.
Qed.

#[export] Instance MsgBurn_interop : Interop MsgBurn v1_MsgBurn :=
  interop_intro MsgBurn_to_api v1_MsgBurn_marshal v1_MsgBurn_enc (λ _, eq_refl) v1_MsgBurn_writes MsgBurn_api_enc MsgBurn_api_ok.

Definition MsgBurnResponse_to_api (m : MsgBurnResponse) : v1_MsgBurnResponse := {|
  v1_MsgBurnResponse_unknownFields := []
|}.

Lemma MsgBurnResponse_api_enc m : v1_MsgBurnResponse_enc (MsgBurnResponse_to_api m) = MsgBurnResponse_enc m.
Proof.
  unfold v1_MsgBurnResponse_enc, MsgBurnResponse_enc, MsgBurnResponse_to_api.
  cbn [v1_MsgBurnResponse_unknownFields]. api_enc.
Qed.

Lemma MsgBurnResponse_api_ok m : MsgBurnResponse_ok m → v1_MsgBurnResponse_ok (MsgBurnResponse_to_api m).
Proof.
  unfold v1_MsgBurnResponse_ok, MsgBurnResponse_ok, MsgBurnResponse_to_api.
  cbn [v1_MsgBurnResponse_unknownFields]. api_ok.
Qed.

#[export] Instance MsgBurnResponse_interop : Interop MsgBurnResponse v1_MsgBurnResponse :=
  interop_intro MsgBurnResponse_to_api v1_MsgBurnResponse_marshal v1_MsgBurnResponse_enc (λ _, eq_refl) v1_MsgBurnResponse_writes MsgBurnResponse_api_enc MsgBurnResponse_api_ok.

Definition MsgChangeAdmin_to_api (m : MsgChangeAdmin) : v1_MsgChangeAdmin := {|
  v1_MsgChangeAdmin_Sender := MsgChangeAdmin_Sender m;
  v1_MsgChangeAdmin_Denom := MsgChangeAdmin_Denom m;
  v1_MsgChangeAdmin_NewAdmin := MsgChangeAdmin_NewAdmin m; v1_MsgChangeAdmin_unknownFields := []
|}.

Lemma MsgChangeAdmin_api_enc m : v1_MsgChangeAdmin_enc (MsgChangeAdmin_to_api m) = MsgChangeAdmin_enc m.
Proof.
  unfold v1_MsgChangeAdmin_enc, MsgChangeAdmin_enc, MsgChangeAdmin_to_api.
  cbn [v1_MsgChangeAdmin_Sender v1_MsgChangeAdmin_Denom v1_MsgChangeAdmin_NewAdmin
    v1_MsgChangeAdmin_unknownFields]. api_enc.
Qed.

Lemma MsgChangeAdmin_api_ok m : MsgChangeAdmin_ok m → v1_MsgChangeAdmin_ok (MsgChangeAdmin_to_api m).
Proof.
  unfold v1_MsgChangeAdmin_ok, MsgChangeAdmin_ok, MsgChangeAdmin_to_api.
  cbn [v1_MsgChangeAdmin_Sender v1_MsgChangeAdmin_Denom v1_MsgChangeAdmin_NewAdmin
    v1_MsgChangeAdmin_unknownFields]. api_ok.
Qed.

#[export] Instance MsgChangeAdmin_interop : Interop MsgChangeAdmin v1_MsgChangeAdmin :=
  interop_intro MsgChangeAdmin_to_api v1_MsgChangeAdmin_marshal v1_MsgChangeAdmin_enc (λ _, eq_refl) v1_MsgChangeAdmin_writes MsgChangeAdmin_api_enc MsgChangeAdmin_api_ok.

Definition MsgChangeAdminResponse_to_api (m : MsgChangeAdminResponse) : v1_MsgChangeAdminResponse := {|
  v1_MsgChangeAdminResponse_unknownFields := []
|}.

Lemma MsgChangeAdminResponse_api_enc m : v1_MsgChangeAdminResponse_enc (MsgChangeAdminResponse_to_api m) = MsgChangeAdminResponse_enc m.
Proof.
  unfold v1_MsgChangeAdminResponse_enc, MsgChangeAdminResponse_enc, MsgChangeAdminResponse_to_api.
  cbn [v1_MsgChangeAdminResponse_unknownFields]. api_enc.
Qed.

Lemma MsgChangeAdminResponse_api_ok m : MsgChangeAdminResponse_ok m → v1_MsgChangeAdminResponse_ok (MsgChangeAdminResponse_to_api m).
Proof.
  unfold v1_MsgChangeAdminResponse_ok, MsgChangeAdminResponse_ok, MsgChangeAdminResponse_to_api.
  cbn [v1_MsgChangeAdminResponse_unknownFields]. api_ok.
Qed.

#[export] Instance MsgChangeAdminResponse_interop : Interop MsgChangeAdminResponse v1_MsgChangeAdminResponse :=
  interop_intro MsgChangeAdminResponse_to_api v1_MsgChangeAdminResponse_marshal v1_MsgChangeAdminResponse_enc (λ _, eq_refl) v1_MsgChangeAdminResponse_writes MsgChangeAdminResponse_api_enc MsgChangeAdminResponse_api_ok.

Definition MsgSetBeforeSendHook_to_api (m : MsgSetBeforeSendHook) : v1_MsgSetBeforeSendHook := {|
  v1_MsgSetBeforeSendHook_Sender := MsgSetBeforeSendHook_Sender m;
  v1_MsgSetBeforeSendHook_Denom := MsgSetBeforeSendHook_Denom m;
  v1_MsgSetBeforeSendHook_CosmwasmAddress := MsgSetBeforeSendHook_CosmwasmAddress m;
  v1_MsgSetBeforeSendHook_unknownFields := []
|}.

Lemma MsgSetBeforeSendHook_api_enc m : v1_MsgSetBeforeSendHook_enc (MsgSetBeforeSendHook_to_api m) = MsgSetBeforeSendHook_enc m.
Proof.
  unfold v1_MsgSetBeforeSendHook_enc, MsgSetBeforeSendHook_enc, MsgSetBeforeSendHook_to_api.
  cbn [v1_MsgSetBeforeSendHook_Sender v1_MsgSetBeforeSendHook_Denom
    v1_MsgSetBeforeSendHook_CosmwasmAddress v1_MsgSetBeforeSendHook_unknownFields]. api_enc.
Qed.

Lemma MsgSetBeforeSendHook_api_ok m : MsgSetBeforeSendHook_ok m → v1_MsgSetBeforeSendHook_ok (MsgSetBeforeSendHook_to_api m).
Proof.
  unfold v1_MsgSetBeforeSendHook_ok, MsgSetBeforeSendHook_ok, MsgSetBeforeSendHook_to_api.
  cbn [v1_MsgSetBeforeSendHook_Sender v1_MsgSetBeforeSendHook_Denom
    v1_MsgSetBeforeSendHook_CosmwasmAddress v1_MsgSetBeforeSendHook_unknownFields]. api_ok.
Qed.

#[export] Instance MsgSetBeforeSendHook_interop : Interop MsgSetBeforeSendHook v1_MsgSetBeforeSendHook :=
  interop_intro MsgSetBeforeSendHook_to_api v1_MsgSetBeforeSendHook_marshal v1_MsgSetBeforeSendHook_enc (λ _, eq_refl) v1_MsgSetBeforeSendHook_writes MsgSetBeforeSendHook_api_enc MsgSetBeforeSendHook_api_ok.

Definition MsgSetBeforeSendHookResponse_to_api (m : MsgSetBeforeSendHookResponse) : v1_MsgSetBeforeSendHookResponse := {|
  v1_MsgSetBeforeSendHookResponse_unknownFields := []
|}.

Lemma MsgSetBeforeSendHookResponse_api_enc m : v1_MsgSetBeforeSendHookResponse_enc (MsgSetBeforeSendHookResponse_to_api m) = MsgSetBeforeSendHookResponse_enc m.
Proof.
  unfold v1_MsgSetBeforeSendHookResponse_enc, MsgSetBeforeSendHookResponse_enc, MsgSetBeforeSendHookResponse_to_api.
  cbn [v1_MsgSetBeforeSendHookResponse_unknownFields]. api_enc.
Qed.

Lemma MsgSetBeforeSendHookResponse_api_ok m : MsgSetBeforeSendHookResponse_ok m → v1_MsgSetBeforeSendHookResponse_ok (MsgSetBeforeSendHookResponse_to_api m).
Proof.
  unfold v1_MsgSetBeforeSendHookResponse_ok, MsgSetBeforeSendHookResponse_ok, MsgSetBeforeSendHookResponse_to_api.
  cbn [v1_MsgSetBeforeSendHookResponse_unknownFields]. api_ok.
Qed.

#[export] Instance MsgSetBeforeSendHookResponse_interop : Interop MsgSetBeforeSendHookResponse v1_MsgSetBeforeSendHookResponse :=
  interop_intro MsgSetBeforeSendHookResponse_to_api v1_MsgSetBeforeSendHookResponse_marshal v1_MsgSetBeforeSendHookResponse_enc (λ _, eq_refl) v1_MsgSetBeforeSendHookResponse_writes MsgSetBeforeSendHookResponse_api_enc MsgSetBeforeSendHookResponse_api_ok.

Definition MsgSetDenomMetadata_to_api (m : MsgSetDenomMetadata) : v1_MsgSetDenomMetadata := {|
  v1_MsgSetDenomMetadata_Sender := MsgSetDenomMetadata_Sender m;
  v1_MsgSetDenomMetadata_Metadata := Some (to_api (MsgSetDenomMetadata_Metadata m));
  v1_MsgSetDenomMetadata_unknownFields := []
|}.

Lemma MsgSetDenomMetadata_api_enc m : v1_MsgSetDenomMetadata_enc (MsgSetDenomMetadata_to_api m) = MsgSetDenomMetadata_enc m.
Proof.
  unfold v1_MsgSetDenomMetadata_enc, MsgSetDenomMetadata_enc, MsgSetDenomMetadata_to_api.
  cbn [v1_MsgSetDenomMetadata_Sender v1_MsgSetDenomMetadata_Metadata
    v1_MsgSetDenomMetadata_unknownFields]. api_enc.
Qed.

Lemma MsgSetDenomMetadata_api_ok m : MsgSetDenomMetadata_ok m → v1_MsgSetDenomMetadata_ok (MsgSetDenomMetadata_to_api m).
Proof.
  unfold v1_MsgSetDenomMetadata_ok, MsgSetDenomMetadata_ok, MsgSetDenomMetadata_to_api.
  cbn [v1_MsgSetDenomMetadata_Sender v1_MsgSetDenomMetadata_Metadata
    v1_MsgSetDenomMetadata_unknownFields]. api_ok.
Qed.

#[export] Instance MsgSetDenomMetadata_interop : Interop MsgSetDenomMetadata v1_MsgSetDenomMetadata :=
  interop_intro MsgSetDenomMetadata_to_api v1_MsgSetDenomMetadata_marshal v1_MsgSetDenomMetadata_enc (λ _, eq_refl) v1_MsgSetDenomMetadata_writes MsgSetDenomMetadata_api_enc MsgSetDenomMetadata_api_ok.

Definition MsgSetDenomMetadataResponse_to_api (m : MsgSetDenomMetadataResponse) : v1_MsgSetDenomMetadataResponse := {|
  v1_MsgSetDenomMetadataResponse_unknownFields := []
|}.

Lemma MsgSetDenomMetadataResponse_api_enc m : v1_MsgSetDenomMetadataResponse_enc (MsgSetDenomMetadataResponse_to_api m) = MsgSetDenomMetadataResponse_enc m.
Proof.
  unfold v1_MsgSetDenomMetadataResponse_enc, MsgSetDenomMetadataResponse_enc, MsgSetDenomMetadataResponse_to_api.
  cbn [v1_MsgSetDenomMetadataResponse_unknownFields]. api_enc.
Qed.

Lemma MsgSetDenomMetadataResponse_api_ok m : MsgSetDenomMetadataResponse_ok m → v1_MsgSetDenomMetadataResponse_ok (MsgSetDenomMetadataResponse_to_api m).
Proof.
  unfold v1_MsgSetDenomMetadataResponse_ok, MsgSetDenomMetadataResponse_ok, MsgSetDenomMetadataResponse_to_api.
  cbn [v1_MsgSetDenomMetadataResponse_unknownFields]. api_ok.
Qed.

#[export] Instance MsgSetDenomMetadataResponse_interop : Interop MsgSetDenomMetadataResponse v1_MsgSetDenomMetadataResponse :=
  interop_intro MsgSetDenomMetadataResponse_to_api v1_MsgSetDenomMetadataResponse_marshal v1_MsgSetDenomMetadataResponse_enc (λ _, eq_refl) v1_MsgSetDenomMetadataResponse_writes MsgSetDenomMetadataResponse_api_enc MsgSetDenomMetadataResponse_api_ok.

Definition MsgUpdateParams_to_api (m : MsgUpdateParams) : v1_MsgUpdateParams := {|
  v1_MsgUpdateParams_Authority := MsgUpdateParams_Authority m;
  v1_MsgUpdateParams_Params := Some (to_api (MsgUpdateParams_Params m));
  v1_MsgUpdateParams_unknownFields := []
|}.

Lemma MsgUpdateParams_api_enc m : v1_MsgUpdateParams_enc (MsgUpdateParams_to_api m) = MsgUpdateParams_enc m.
Proof.
  unfold v1_MsgUpdateParams_enc, MsgUpdateParams_enc, MsgUpdateParams_to_api.
  cbn [v1_MsgUpdateParams_Authority v1_MsgUpdateParams_Params v1_MsgUpdateParams_unknownFields]. api_enc.
Qed.

Lemma MsgUpdateParams_api_ok m : MsgUpdateParams_ok m → v1_MsgUpdateParams_ok (MsgUpdateParams_to_api m).
Proof.
  unfold v1_MsgUpdateParams_ok, MsgUpdateParams_ok, MsgUpdateParams_to_api.
  cbn [v1_MsgUpdateParams_Authority v1_MsgUpdateParams_Params v1_MsgUpdateParams_unknownFields]. api_ok.
Qed.

#[export] Instance MsgUpdateParams_interop : Interop MsgUpdateParams v1_MsgUpdateParams :=
  interop_intro MsgUpdateParams_to_api v1_MsgUpdateParams_marshal v1_MsgUpdateParams_enc (λ _, eq_refl) v1_MsgUpdateParams_writes MsgUpdateParams_api_enc MsgUpdateParams_api_ok.

Definition MsgUpdateParamsResponse_to_api (m : MsgUpdateParamsResponse) : v1_MsgUpdateParamsResponse := {|
  v1_MsgUpdateParamsResponse_unknownFields := []
|}.

Lemma MsgUpdateParamsResponse_api_enc m : v1_MsgUpdateParamsResponse_enc (MsgUpdateParamsResponse_to_api m) = MsgUpdateParamsResponse_enc m.
Proof.
  unfold v1_MsgUpdateParamsResponse_enc, MsgUpdateParamsResponse_enc, MsgUpdateParamsResponse_to_api.
  cbn [v1_MsgUpdateParamsResponse_unknownFields]. api_enc.
Qed.

Lemma MsgUpdateParamsResponse_api_ok m : MsgUpdateParamsResponse_ok m → v1_MsgUpdateParamsResponse_ok (MsgUpdateParamsResponse_to_api m).
Proof.
  unfold v1_MsgUpdateParamsResponse_ok, MsgUpdateParamsResponse_ok, MsgUpdateParamsResponse_to_api.
  cbn [v1_MsgUpdateParamsResponse_unknownFields]. api_ok.
Qed.

#[export] Instance MsgUpdateParamsResponse_interop : Interop MsgUpdateParamsResponse v1_MsgUpdateParamsResponse :=
  interop_intro MsgUpdateParamsResponse_to_api v1_MsgUpdateParamsResponse_marshal v1_MsgUpdateParamsResponse_enc (λ _, eq_refl) v1_MsgUpdateParamsResponse_writes MsgUpdateParamsResponse_api_enc MsgUpdateParamsResponse_api_ok.

Definition QueryParamsRequest_to_api (m : QueryParamsRequest) : v1_QueryParamsRequest := {|
  v1_QueryParamsRequest_unknownFields := []
|}.

Lemma QueryParamsRequest_api_enc m : v1_QueryParamsRequest_enc (QueryParamsRequest_to_api m) = QueryParamsRequest_enc m.
Proof.
  unfold v1_QueryParamsRequest_enc, QueryParamsRequest_enc, QueryParamsRequest_to_api.
  cbn [v1_QueryParamsRequest_unknownFields]. api_enc.
Qed.

Lemma QueryParamsRequest_api_ok m : QueryParamsRequest_ok m → v1_QueryParamsRequest_ok (QueryParamsRequest_to_api m).
Proof.
  unfold v1_QueryParamsRequest_ok, QueryParamsRequest_ok, QueryParamsRequest_to_api.
  cbn [v1_QueryParamsRequest_unknownFields]. api_ok.
Qed.

#[export] Instance QueryParamsRequest_interop : Interop QueryParamsRequest v1_QueryParamsRequest :=
  interop_intro QueryParamsRequest_to_api v1_QueryParamsRequest_marshal v1_QueryParamsRequest_enc (λ _, eq_refl) v1_QueryParamsRequest_writes QueryParamsRequest_api_enc QueryParamsRequest_api_ok.

Definition QueryParamsResponse_to_api (m : QueryParamsResponse) : v1_QueryParamsResponse := {|
  v1_QueryParamsResponse_Params := Some (to_api (QueryParamsResponse_Params m));
  v1_QueryParamsResponse_unknownFields := []
|}.

Lemma QueryParamsResponse_api_enc m : v1_QueryParamsResponse_enc (QueryParamsResponse_to_api m) = QueryParamsResponse_enc m.
Proof.
  unfold v1_QueryParamsResponse_enc, QueryParamsResponse_enc, QueryParamsResponse_to_api.
  cbn [v1_QueryParamsResponse_Params v1_QueryParamsResponse_unknownFields]. api_enc.
Qed.

Lemma QueryParamsResponse_api_ok m : QueryParamsResponse_ok m → v1_QueryParamsResponse_ok (QueryParamsResponse_to_api m).
Proof.
  unfold v1_QueryParamsResponse_ok, QueryParamsResponse_ok, QueryParamsResponse_to_api.
  cbn [v1_QueryParamsResponse_Params v1_QueryParamsResponse_unknownFields]. api_ok.
Qed.

#[export] Instance QueryParamsResponse_interop : Interop QueryParamsResponse v1_QueryParamsResponse :=
  interop_intro QueryParamsResponse_to_api v1_QueryParamsResponse_marshal v1_QueryParamsResponse_enc (λ _, eq_refl) v1_QueryParamsResponse_writes QueryParamsResponse_api_enc QueryParamsResponse_api_ok.

Definition QueryDenomAuthorityMetadataRequest_to_api (m : QueryDenomAuthorityMetadataRequest) : v1_QueryDenomAuthorityMetadataRequest := {|
  v1_QueryDenomAuthorityMetadataRequest_Denom := QueryDenomAuthorityMetadataRequest_Denom m;
  v1_QueryDenomAuthorityMetadataRequest_unknownFields := []
|}.

Lemma QueryDenomAuthorityMetadataRequest_api_enc m : v1_QueryDenomAuthorityMetadataRequest_enc (QueryDenomAuthorityMetadataRequest_to_api m) = QueryDenomAuthorityMetadataRequest_enc m.
Proof.
  unfold v1_QueryDenomAuthorityMetadataRequest_enc, QueryDenomAuthorityMetadataRequest_enc, QueryDenomAuthorityMetadataRequest_to_api.
  cbn [v1_QueryDenomAuthorityMetadataRequest_Denom v1_QueryDenomAuthorityMetadataRequest_unknownFields]. api_enc.
Qed.

Lemma QueryDenomAuthorityMetadataRequest_api_ok m : QueryDenomAuthorityMetadataRequest_ok m → v1_QueryDenomAuthorityMetadataRequest_ok (QueryDenomAuthorityMetadataRequest_to_api m).
Proof.
  unfold v1_QueryDenomAuthorityMetadataRequest_ok, QueryDenomAuthorityMetadataRequest_ok, QueryDenomAuthorityMetadataRequest_to_api.
  cbn [v1_QueryDenomAuthorityMetadataRequest_Denom v1_QueryDenomAuthorityMetadataRequest_unknownFields]. api_ok.
Qed.

#[export] Instance QueryDenomAuthorityMetadataRequest_interop : Interop QueryDenomAuthorityMetadataRequest v1_QueryDenomAuthorityMetadataRequest :=
  interop_intro QueryDenomAuthorityMetadataRequest_to_api v1_QueryDenomAuthorityMetadataRequest_marshal v1_QueryDenomAuthorityMetadataRequest_enc (λ _, eq_refl) v1_QueryDenomAuthorityMetadataRequest_writes QueryDenomAuthorityMetadataRequest_api_enc QueryDenomAuthorityMetadataRequest_api_ok.

Definition QueryDenomAuthorityMetadataResponse_to_api (m : QueryDenomAuthorityMetadataResponse) : v1_QueryDenomAuthorityMetadataResponse := {|
  v1_QueryDenomAuthorityMetadataResponse_AuthorityMetadata := Some (to_api (QueryDenomAuthorityMetadataResponse_AuthorityMetadata m));
  v1_QueryDenomAuthorityMetadataResponse_unknownFields := []
|}.

Lemma QueryDenomAuthorityMetadataResponse_api_enc m : v1_QueryDenomAuthorityMetadataResponse_enc (QueryDenomAuthorityMetadataResponse_to_api m) = QueryDenomAuthorityMetadataResponse_enc m.
Proof.
  unfold v1_QueryDenomAuthorityMetadataResponse_enc, QueryDenomAuthorityMetadataResponse_enc, QueryDenomAuthorityMetadataResponse_to_api.
  cbn [v1_QueryDenomAuthorityMetadataResponse_AuthorityMetadata
    v1_QueryDenomAuthorityMetadataResponse_unknownFields]. api_enc.
Qed.

Lemma QueryDenomAuthorityMetadataResponse_api_ok m : QueryDenomAuthorityMetadataResponse_ok m → v1_QueryDenomAuthorityMetadataResponse_ok (QueryDenomAuthorityMetadataResponse_to_api m).
Proof.
  unfold v1_QueryDenomAuthorityMetadataResponse_ok, QueryDenomAuthorityMetadataResponse_ok, QueryDenomAuthorityMetadataResponse_to_api.
  cbn [v1_QueryDenomAuthorityMetadataResponse_AuthorityMetadata
    v1_QueryDenomAuthorityMetadataResponse_unknownFields]. api_ok.
Qed.

#[export] Instance QueryDenomAuthorityMetadataResponse_interop : Interop QueryDenomAuthorityMetadataResponse v1_QueryDenomAuthorityMetadataResponse :=
  interop_intro QueryDenomAuthorityMetadataResponse_to_api v1_QueryDenomAuthorityMetadataResponse_marshal v1_QueryDenomAuthorityMetadataResponse_enc (λ _, eq_refl) v1_QueryDenomAuthorityMetadataResponse_writes QueryDenomAuthorityMetadataResponse_api_enc QueryDenomAuthorityMetadataResponse_api_ok.

Definition QueryDenomsFromCreatorRequest_to_api (m : QueryDenomsFromCreatorRequest) : v1_QueryDenomsFromCreatorRequest := {|
  v1_QueryDenomsFromCreatorRequest_Creator := QueryDenomsFromCreatorRequest_Creator m;
  v1_QueryDenomsFromCreatorRequest_unknownFields := []
|}.

Lemma QueryDenomsFromCreatorRequest_api_enc m : v1_QueryDenomsFromCreatorRequest_enc (QueryDenomsFromCreatorRequest_to_api m) = QueryDenomsFromCreatorRequest_enc m.
Proof.
  unfold v1_QueryDenomsFromCreatorRequest_enc, QueryDenomsFromCreatorRequest_enc, QueryDenomsFromCreatorRequest_to_api.
  cbn [v1_QueryDenomsFromCreatorRequest_Creator v1_QueryDenomsFromCreatorRequest_unknownFields]. api_enc.
Qed.

Lemma QueryDenomsFromCreatorRequest_api_ok m : QueryDenomsFromCreatorRequest_ok m → v1_QueryDenomsFromCreatorRequest_ok (QueryDenomsFromCreatorRequest_to_api m).
Proof.
  unfold v1_QueryDenomsFromCreatorRequest_ok, QueryDenomsFromCreatorRequest_ok, QueryDenomsFromCreatorRequest_to_api.
  cbn [v1_QueryDenomsFromCreatorRequest_Creator v1_QueryDenomsFromCreatorRequest_unknownFields]. api_ok.
Qed.

#[export] Instance QueryDenomsFromCreatorRequest_interop : Interop QueryDenomsFromCreatorRequest v1_QueryDenomsFromCreatorRequest :=
  interop_intro QueryDenomsFromCreatorRequest_to_api v1_QueryDenomsFromCreatorRequest_marshal v1_QueryDenomsFromCreatorRequest_enc (λ _, eq_refl) v1_QueryDenomsFromCreatorRequest_writes QueryDenomsFromCreatorRequest_api_enc QueryDenomsFromCreatorRequest_api_ok.

Definition QueryDenomsFromCreatorResponse_to_api (m : QueryDenomsFromCreatorResponse) : v1_QueryDenomsFromCreatorResponse := {|
  v1_QueryDenomsFromCreatorResponse_Denoms := QueryDenomsFromCreatorResponse_Denoms m;
  v1_QueryDenomsFromCreatorResponse_unknownFields := []
|}.

Lemma QueryDenomsFromCreatorResponse_api_enc m : v1_QueryDenomsFromCreatorResponse_enc (QueryDenomsFromCreatorResponse_to_api m) = QueryDenomsFromCreatorResponse_enc m.
Proof.
  unfold v1_QueryDenomsFromCreatorResponse_enc, QueryDenomsFromCreatorResponse_enc, QueryDenomsFromCreatorResponse_to_api.
  cbn [v1_QueryDenomsFromCreatorResponse_Denoms v1_QueryDenomsFromCreatorResponse_unknownFields]. api_enc.
Qed.

Lemma QueryDenomsFromCreatorResponse_api_ok m : QueryDenomsFromCreatorResponse_ok m → v1_QueryDenomsFromCreatorResponse_ok (QueryDenomsFromCreatorResponse_to_api m).
Proof.
  unfold v1_QueryDenomsFromCreatorResponse_ok, QueryDenomsFromCreatorResponse_ok, QueryDenomsFromCreatorResponse_to_api.
  cbn [v1_QueryDenomsFromCreatorResponse_Denoms v1_QueryDenomsFromCreatorResponse_unknownFields]. api_ok.
Qed.

#[export] Instance QueryDenomsFromCreatorResponse_interop : Interop QueryDenomsFromCreatorResponse v1_QueryDenomsFromCreatorResponse :=
  interop_intro QueryDenomsFromCreatorResponse_to_api v1_QueryDenomsFromCreatorResponse_marshal v1_QueryDenomsFromCreatorResponse_enc (λ _, eq_refl) v1_QueryDenomsFromCreatorResponse_writes QueryDenomsFromCreatorResponse_api_enc QueryDenomsFromCreatorResponse_api_ok.

Definition QueryBeforeSendHookAddressRequest_to_api (m : QueryBeforeSendHookAddressRequest) : v1_QueryBeforeSendHookAddressRequest := {|
  v1_QueryBeforeSendHookAddressRequest_Denom := QueryBeforeSendHookAddressRequest_Denom m;
  v1_QueryBeforeSendHookAddressRequest_unknownFields := []
|}.

Lemma QueryBeforeSendHookAddressRequest_api_enc m : v1_QueryBeforeSendHookAddressRequest_enc (QueryBeforeSendHookAddressRequest_to_api m) = QueryBeforeSendHookAddressRequest_enc m.
Proof.
  unfold v1_QueryBeforeSendHookAddressRequest_enc, QueryBeforeSendHookAddressRequest_enc, QueryBeforeSendHookAddressRequest_to_api.
  cbn [v1_QueryBeforeSendHookAddressRequest_Denom v1_QueryBeforeSendHookAddressRequest_unknownFields]. api_enc.
Qed.

Lemma QueryBeforeSendHookAddressRequest_api_ok m : QueryBeforeSendHookAddressRequest_ok m → v1_QueryBeforeSendHookAddressRequest_ok (QueryBeforeSendHookAddressRequest_to_api m).
Proof.
  unfold v1_QueryBeforeSendHookAddressRequest_ok, QueryBeforeSendHookAddressRequest_ok, QueryBeforeSendHookAddressRequest_to_api.
  cbn [v1_QueryBeforeSendHookAddressRequest_Denom v1_QueryBeforeSendHookAddressRequest_unknownFields]. api_ok.
Qed.

#[export] Instance QueryBeforeSendHookAddressRequest_interop : Interop QueryBeforeSendHookAddressRequest v1_QueryBeforeSendHookAddressRequest :=
  interop_intro QueryBeforeSendHookAddressRequest_to_api v1_QueryBeforeSendHookAddressRequest_marshal v1_QueryBeforeSendHookAddressRequest_enc (λ _, eq_refl) v1_QueryBeforeSendHookAddressRequest_writes QueryBeforeSendHookAddressRequest_api_enc QueryBeforeSendHookAddressRequest_api_ok.

Definition QueryBeforeSendHookAddressResponse_to_api (m : QueryBeforeSendHookAddressResponse) : v1_QueryBeforeSendHookAddressResponse := {|
  v1_QueryBeforeSendHookAddressResponse_CosmwasmAddress := QueryBeforeSendHookAddressResponse_CosmwasmAddress m;
  v1_QueryBeforeSendHookAddressResponse_unknownFields := []
|}.

Lemma QueryBeforeSendHookAddressResponse_api_enc m : v1_QueryBeforeSendHookAddressResponse_enc (QueryBeforeSendHookAddressResponse_to_api m) = QueryBeforeSendHookAddressResponse_enc m.
Proof.
  unfold v1_QueryBeforeSendHookAddressResponse_enc, QueryBeforeSendHookAddressResponse_enc, QueryBeforeSendHookAddressResponse_to_api.
  cbn [v1_QueryBeforeSendHookAddressResponse_CosmwasmAddress
    v1_QueryBeforeSendHookAddressResponse_unknownFields]. api_enc.
Qed.

Lemma QueryBeforeSendHookAddressResponse_api_ok m : QueryBeforeSendHookAddressResponse_ok m → v1_QueryBeforeSendHookAddressResponse_ok (QueryBeforeSendHookAddressResponse_to_api m).
Proof.
  unfold v1_QueryBeforeSendHookAddressResponse_ok, QueryBeforeSendHookAddressResponse_ok, QueryBeforeSendHookAddressResponse_to_api.
  cbn [v1_QueryBeforeSendHookAddressResponse_CosmwasmAddress
    v1_QueryBeforeSendHookAddressResponse_unknownFields]. api_ok.
Qed.

#[export] Instance QueryBeforeSendHookAddressResponse_interop : Interop QueryBeforeSendHookAddressResponse v1_QueryBeforeSendHookAddressResponse :=
  interop_intro QueryBeforeSendHookAddressResponse_to_api v1_QueryBeforeSendHookAddressResponse_marshal v1_QueryBeforeSendHookAddressResponse_enc (λ _, eq_refl) v1_QueryBeforeSendHookAddressResponse_writes QueryBeforeSendHookAddressResponse_api_enc QueryBeforeSendHookAddressResponse_api_ok.

Definition AccessConfig_to_api (m : AccessConfig) : wasmv1_AccessConfig := {|
  wasmv1_AccessConfig_Permission := Permission m; wasmv1_AccessConfig_Addresses := Addresses m;
  wasmv1_AccessConfig_unknownFields := []
|}.

Lemma AccessConfig_api_enc m : wasmv1_AccessConfig_enc (AccessConfig_to_api m) = AccessConfig_enc m.
Proof.
  unfold wasmv1_AccessConfig_enc, AccessConfig_enc, AccessConfig_to_api.
  cbn [wasmv1_AccessConfig_Permission wasmv1_AccessConfig_Addresses wasmv1_AccessConfig_unknownFields]. api_enc.
Qed.

Lemma AccessConfig_api_ok m : AccessConfig_ok m → wasmv1_AccessConfig_ok (AccessConfig_to_api m).
Proof.
  unfold wasmv1_AccessConfig_ok, AccessConfig_ok, AccessConfig_to_api.
  cbn [wasmv1_AccessConfig_Permission wasmv1_AccessConfig_Addresses wasmv1_AccessConfig_unknownFields]. api_ok.
Qed.

#[export] Instance AccessConfig_interop : Interop AccessConfig wasmv1_AccessConfig :=
  interop_intro AccessConfig_to_api wasmv1_AccessConfig_marshal wasmv1_AccessConfig_enc (λ _, eq_refl) wasmv1_AccessConfig_writes AccessConfig_api_enc AccessConfig_api_ok.

Definition MsgStoreCodeAdmin_to_api (m : MsgStoreCodeAdmin) : wasmv1_MsgStoreCodeAdmin := {|
  wasmv1_MsgStoreCodeAdmin_Authority := MsgStoreCodeAdmin_Authority m;
  wasmv1_MsgStoreCodeAdmin_Creator := MsgStoreCodeAdmin_Creator m;
  wasmv1_MsgStoreCodeAdmin_WasmByteCode := MsgStoreCodeAdmin_WASMByteCode m;
  wasmv1_MsgStoreCodeAdmin_InstantiatePermission := to_api <$> MsgStoreCodeAdmin_InstantiatePermission m;
  wasmv1_MsgStoreCodeAdmin_unknownFields := []
|}.

Lemma MsgStoreCodeAdmin_api_enc m : wasmv1_MsgStoreCodeAdmin_enc (MsgStoreCodeAdmin_to_api m) = MsgStoreCodeAdmin_enc m.
Proof.
  unfold wasmv1_MsgStoreCodeAdmin_enc, MsgStoreCodeAdmin_enc, MsgStoreCodeAdmin_to_api.
  cbn [wasmv1_MsgStoreCodeAdmin_Authority wasmv1_MsgStoreCodeAdmin_Creator
    wasmv1_MsgStoreCodeAdmin_WasmByteCode wasmv1_MsgStoreCodeAdmin_InstantiatePermission
    wasmv1_MsgStoreCodeAdmin_unknownFields]. api_enc.
Qed.

Lemma MsgStoreCodeAdmin_api_ok m : MsgStoreCodeAdmin_ok m → wasmv1_MsgStoreCodeAdmin_ok (MsgStoreCodeAdmin_to_api m).
Proof.
  unfold wasmv1_MsgStoreCodeAdmin_ok, MsgStoreCodeAdmin_ok, MsgStoreCodeAdmin_to_api.
  cbn [wasmv1_MsgStoreCodeAdmin_Authority wasmv1_MsgStoreCodeAdmin_Creator
    wasmv1_MsgStoreCodeAdmin_WasmByteCode wasmv1_MsgStoreCodeAdmin_InstantiatePermission
    wasmv1_MsgStoreCodeAdmin_unknownFields]. api_ok.
Qed.

#[export] Instance MsgStoreCodeAdmin_interop : Interop MsgStoreCodeAdmin wasmv1_MsgStoreCodeAdmin :=
  interop_intro MsgStoreCodeAdmin_to_api wasmv1_MsgStoreCodeAdmin_marshal wasmv1_MsgStoreCodeAdmin_enc (λ _, eq_refl) wasmv1_MsgStoreCodeAdmin_writes MsgStoreCodeAdmin_api_enc MsgStoreCodeAdmin_api_ok.

Definition MsgStoreCodeAdminResponse_to_api (m : MsgStoreCodeAdminResponse) : wasmv1_MsgStoreCodeAdminResponse := {|
  wasmv1_MsgStoreCodeAdminResponse_CodeId := MsgStoreCodeAdminResponse_CodeID m;
  wasmv1_MsgStoreCodeAdminResponse_Checksum := MsgStoreCodeAdminResponse_Checksum m;
  wasmv1_MsgStoreCodeAdminResponse_unknownFields := []
|}.

Lemma MsgStoreCodeAdminResponse_api_enc m : wasmv1_MsgStoreCodeAdminResponse_enc (MsgStoreCodeAdminResponse_to_api m) = MsgStoreCodeAdminResponse_enc m.
Proof.
  unfold wasmv1_MsgStoreCodeAdminResponse_enc, MsgStoreCodeAdminResponse_enc, MsgStoreCodeAdminResponse_to_api.
  cbn [wasmv1_MsgStoreCodeAdminResponse_CodeId wasmv1_MsgStoreCodeAdminResponse_Checksum
    wasmv1_MsgStoreCodeAdminResponse_unknownFields]. api_enc.
Qed.

Lemma MsgStoreCodeAdminResponse_api_ok m : MsgStoreCodeAdminResponse_ok m → wasmv1_MsgStoreCodeAdminResponse_ok (MsgStoreCodeAdminResponse_to_api m).
Proof.
  unfold wasmv1_MsgStoreCodeAdminResponse_ok, MsgStoreCodeAdminResponse_ok, MsgStoreCodeAdminResponse_to_api.
  cbn [wasmv1_MsgStoreCodeAdminResponse_CodeId wasmv1_MsgStoreCodeAdminResponse_Checksum
    wasmv1_MsgStoreCodeAdminResponse_unknownFields]. api_ok.
Qed.

#[export] Instance MsgStoreCodeAdminResponse_interop : Interop MsgStoreCodeAdminResponse wasmv1_MsgStoreCodeAdminResponse :=
  interop_intro MsgStoreCodeAdminResponse_to_api wasmv1_MsgStoreCodeAdminResponse_marshal wasmv1_MsgStoreCodeAdminResponse_enc (λ _, eq_refl) wasmv1_MsgStoreCodeAdminResponse_writes MsgStoreCodeAdminResponse_api_enc MsgStoreCodeAdminResponse_api_ok.

(** * All messages *)

(** A message of x/ with its methods, the encoding it is meant to have, the messages that can be
    written (the numbers of theirs fit), and what it is on the other side. *)
Record gogo_codec := GogoCodec {
  g_type : Type;
  g_message : GogoMessage g_type;
  g_enc : g_type → raw;
  g_ok : g_type → Prop;
  g_field : raw → Z → option (Z → M (rstate g_type) unit);
  g_api : codec;
  g_to_api : g_type → c_type g_api
}.
#[local] Existing Instance g_message.

Definition Params_gogo_codec : gogo_codec := GogoCodec Params _ Params_enc Params_ok Params_field v1_Params_codec Params_to_api.
Definition DenomAuthorityMetadata_gogo_codec : gogo_codec := GogoCodec DenomAuthorityMetadata _ DenomAuthorityMetadata_enc DenomAuthorityMetadata_ok DenomAuthorityMetadata_field v1_DenomAuthorityMetadata_codec DenomAuthorityMetadata_to_api.
Definition GenesisDenom_gogo_codec : gogo_codec := GogoCodec GenesisDenom _ GenesisDenom_enc GenesisDenom_ok GenesisDenom_field v1_GenesisDenom_codec GenesisDenom_to_api.
Definition GenesisState_gogo_codec : gogo_codec := GogoCodec GenesisState _ GenesisState_enc GenesisState_ok GenesisState_field v1_GenesisState_codec GenesisState_to_api.
Definition MsgCreateDenom_gogo_codec : gogo_codec := GogoCodec MsgCreateDenom _ MsgCreateDenom_enc MsgCreateDenom_ok MsgCreateDenom_field v1_MsgCreateDenom_codec MsgCreateDenom_to_api.
Definition MsgCreateDenomResponse_gogo_codec : gogo_codec := GogoCodec MsgCreateDenomResponse _ MsgCreateDenomResponse_enc MsgCreateDenomResponse_ok MsgCreateDenomResponse_field v1_MsgCreateDenomResponse_codec MsgCreateDenomResponse_to_api.
Definition MsgMint_gogo_codec : gogo_codec := GogoCodec MsgMint _ MsgMint_enc MsgMint_ok MsgMint_field v1_MsgMint_codec MsgMint_to_api.
Definition MsgMintResponse_gogo_codec : gogo_codec := GogoCodec MsgMintResponse _ MsgMintResponse_enc MsgMintResponse_ok MsgMintResponse_field v1_MsgMintResponse_codec MsgMintResponse_to_api.
Definition MsgBurn_gogo_codec : gogo_codec := GogoCodec MsgBurn _ MsgBurn_enc MsgBurn_ok MsgBurn_field v1_MsgBurn_codec MsgBurn_to_api.
Definition MsgBurnResponse_gogo_codec : gogo_codec := GogoCodec MsgBurnResponse _ MsgBurnResponse_enc MsgBurnResponse_ok MsgBurnResponse_field v1_MsgBurnResponse_codec MsgBurnResponse_to_api.
Definition MsgChangeAdmin_gogo_codec : gogo_codec := GogoCodec MsgChangeAdmin _ MsgChangeAdmin_enc MsgChangeAdmin_ok MsgChangeAdmin_field v1_MsgChangeAdmin_codec MsgChangeAdmin_to_api.
Definition MsgChangeAdminResponse_gogo_codec : gogo_codec := GogoCodec MsgChangeAdminResponse _ MsgChangeAdminResponse_enc MsgChangeAdminResponse_ok MsgChangeAdminResponse_field v1_MsgChangeAdminResponse_codec MsgChangeAdminResponse_to_api.
Definition MsgSetBeforeSendHook_gogo_codec : gogo_codec := GogoCodec MsgSetBeforeSendHook _ MsgSetBeforeSendHook_enc MsgSetBeforeSendHook_ok MsgSetBeforeSendHook_field v1_MsgSetBeforeSendHook_codec MsgSetBeforeSendHook_to_api.
Definition MsgSetBeforeSendHookResponse_gogo_codec : gogo_codec := GogoCodec MsgSetBeforeSendHookResponse _ MsgSetBeforeSendHookResponse_enc MsgSetBeforeSendHookResponse_ok MsgSetBeforeSendHookResponse_field v1_MsgSetBeforeSendHookResponse_codec MsgSetBeforeSendHookResponse_to_api.
Definition MsgSetDenomMetadata_gogo_codec : gogo_codec := GogoCodec MsgSetDenomMetadata _ MsgSetDenomMetadata_enc MsgSetDenomMetadata_ok MsgSetDenomMetadata_field v1_MsgSetDenomMetadata_codec MsgSetDenomMetadata_to_api.
Definition MsgSetDenomMetadataResponse_gogo_codec : gogo_codec := GogoCodec MsgSetDenomMetadataResponse _ MsgSetDenomMetadataResponse_enc MsgSetDenomMetadataResponse_ok MsgSetDenomMetadataResponse_field v1_MsgSetDenomMetadataResponse_codec MsgSetDenomMetadataResponse_to_api.
Definition MsgUpdateParams_gogo_codec : gogo_codec := GogoCodec MsgUpdateParams _ MsgUpdateParams_enc MsgUpdateParams_ok MsgUpdateParams_field v1_MsgUpdateParams_codec MsgUpdateParams_to_api.
Definition MsgUpdateParamsResponse_gogo_codec : gogo_codec := GogoCodec MsgUpdateParamsResponse _ MsgUpdateParamsResponse_enc MsgUpdateParamsResponse_ok MsgUpdateParamsResponse_field v1_MsgUpdateParamsResponse_codec MsgUpdateParamsResponse_to_api.
Definition QueryParamsRequest_gogo_codec : gogo_codec := GogoCodec QueryParamsRequest _ QueryParamsRequest_enc QueryParamsRequest_ok QueryParamsRequest_field v1_QueryParamsRequest_codec QueryParamsRequest_to_api.
Definition QueryParamsResponse_gogo_codec : gogo_codec := GogoCodec QueryParamsResponse _ QueryParamsResponse_enc QueryParamsResponse_ok QueryParamsResponse_field v1_QueryParamsResponse_codec QueryParamsResponse_to_api.
Definition QueryDenomAuthorityMetadataRequest_gogo_codec : gogo_codec := GogoCodec QueryDenomAuthorityMetadataRequest _ QueryDenomAuthorityMetadataRequest_enc QueryDenomAuthorityMetadataRequest_ok QueryDenomAuthorityMetadataRequest_field v1_QueryDenomAuthorityMetadataRequest_codec QueryDenomAuthorityMetadataRequest_to_api.
Definition QueryDenomAuthorityMetadataResponse_gogo_codec : gogo_codec := GogoCodec QueryDenomAuthorityMetadataResponse _ QueryDenomAuthorityMetadataResponse_enc QueryDenomAuthorityMetadataResponse_ok QueryDenomAuthorityMetadataResponse_field v1_QueryDenomAuthorityMetadataResponse_codec QueryDenomAuthorityMetadataResponse_to_api.
Definition QueryDenomsFromCreatorRequest_gogo_codec : gogo_codec := GogoCodec QueryDenomsFromCreatorRequest _ QueryDenomsFromCreatorRequest_enc QueryDenomsFromCreatorRequest_ok QueryDenomsFromCreatorRequest_field v1_QueryDenomsFromCreatorRequest_codec QueryDenomsFromCreatorRequest_to_api.
Definition QueryDenomsFromCreatorResponse_gogo_codec : gogo_codec := GogoCodec QueryDenomsFromCreatorResponse _ QueryDenomsFromCreatorResponse_enc QueryDenomsFromCreatorResponse_ok QueryDenomsFromCreatorResponse_field v1_QueryDenomsFromCreatorResponse_codec QueryDenomsFromCreatorResponse_to_api.
Definition QueryBeforeSendHookAddressRequest_gogo_codec : gogo_codec := GogoCodec QueryBeforeSendHookAddressRequest _ QueryBeforeSendHookAddressRequest_enc QueryBeforeSendHookAddressRequest_ok QueryBeforeSendHookAddressRequest_field v1_QueryBeforeSendHookAddressRequest_codec QueryBeforeSendHookAddressRequest_to_api.
Definition QueryBeforeSendHookAddressResponse_gogo_codec : gogo_codec := GogoCodec QueryBeforeSendHookAddressResponse _ QueryBeforeSendHookAddressResponse_enc QueryBeforeSendHookAddressResponse_ok QueryBeforeSendHookAddressResponse_field v1_QueryBeforeSendHookAddressResponse_codec QueryBeforeSendHookAddressResponse_to_api.
Definition AccessConfig_gogo_codec : gogo_codec := GogoCodec AccessConfig _ AccessConfig_enc AccessConfig_ok AccessConfig_field wasmv1_AccessConfig_codec AccessConfig_to_api.
Definition MsgStoreCodeAdmin_gogo_codec : gogo_codec := GogoCodec MsgStoreCodeAdmin _ MsgStoreCodeAdmin_enc MsgStoreCodeAdmin_ok MsgStoreCodeAdmin_field wasmv1_MsgStoreCodeAdmin_codec MsgStoreCodeAdmin_to_api.
Definition MsgStoreCodeAdminResponse_gogo_codec : gogo_codec := GogoCodec MsgStoreCodeAdminResponse _ MsgStoreCodeAdminResponse_enc MsgStoreCodeAdminResponse_ok MsgStoreCodeAdminResponse_field wasmv1_MsgStoreCodeAdminResponse_codec MsgStoreCodeAdminResponse_to_api.

Definition gogo_codecs : list gogo_codec := [
  Params_gogo_codec; DenomAuthorityMetadata_gogo_codec; GenesisDenom_gogo_codec;
  GenesisState_gogo_codec; MsgCreateDenom_gogo_codec; MsgCreateDenomResponse_gogo_codec;
  MsgMint_gogo_codec; MsgMintResponse_gogo_codec; MsgBurn_gogo_codec; MsgBurnResponse_gogo_codec;
  MsgChangeAdmin_gogo_codec; MsgChangeAdminResponse_gogo_codec; MsgSetBeforeSendHook_gogo_codec;
  MsgSetBeforeSendHookResponse_gogo_codec; MsgSetDenomMetadata_gogo_codec;
  MsgSetDenomMetadataResponse_gogo_codec; MsgUpdateParams_gogo_codec;
  MsgUpdateParamsResponse_gogo_codec; QueryParamsRequest_gogo_codec; QueryParamsResponse_gogo_codec;
  QueryDenomAuthorityMetadataRequest_gogo_codec; QueryDenomAuthorityMetadataResponse_gogo_codec;
  QueryDenomsFromCreatorRequest_gogo_codec; QueryDenomsFromCreatorResponse_gogo_codec;
  QueryBeforeSendHookAddressRequest_gogo_codec; QueryBeforeSendHookAddressResponse_gogo_codec;
  AccessConfig_gogo_codec; MsgStoreCodeAdmin_gogo_codec; MsgStoreCodeAdminResponse_gogo_codec
].

(** The methods write and read the encoding, which is that of the other side, and fields that
    the message does not have are skipped. *)
Record interoperates (g : gogo_codec) : Prop := {
  io_laws : ∃ L : GogoLaws (g_type g) (g_message g), gogo_enc = g_enc g ∧ gogo_ok = g_ok g;
  io_api : g_api g ∈ api_codecs;
  io_enc m : c_enc (g_api g) (g_to_api g m) = g_enc g m;
  io_ok m : g_ok g m → c_ok (g_api g) (g_to_api g m);
  io_skips m u : g_ok g m → raw_fields (WR:=gogo_runtime) (g_field g) u → len (g_enc g m ++ u) < 2 ^ 63 →
    gogo_Unmarshal (g_enc g m ++ u) gogo_new = (Ok (), m)
}.

Ltac by_interop e o r :=
  constructor; [split; [by eexists|by do 29 (apply list_elem_of_here || apply list_elem_of_further)|exact e|exact o|exact r]|].

Lemma gogo_interoperates : Forall interoperates gogo_codecs.
Proof.
  by_interop Params_api_enc Params_api_ok Params_reads_unknown.
  by_interop DenomAuthorityMetadata_api_enc DenomAuthorityMetadata_api_ok DenomAuthorityMetadata_reads_unknown.
  by_interop GenesisDenom_api_enc GenesisDenom_api_ok GenesisDenom_reads_unknown.
  by_interop GenesisState_api_enc GenesisState_api_ok GenesisState_reads_unknown.
  by_interop MsgCreateDenom_api_enc MsgCreateDenom_api_ok MsgCreateDenom_reads_unknown.
  by_interop MsgCreateDenomResponse_api_enc MsgCreateDenomResponse_api_ok MsgCreateDenomResponse_reads_unknown.
  by_interop MsgMint_api_enc MsgMint_api_ok MsgMint_reads_unknown.
  by_interop MsgMintResponse_api_enc MsgMintResponse_api_ok MsgMintResponse_reads_unknown.
  by_interop MsgBurn_api_enc MsgBurn_api_ok MsgBurn_reads_unknown.
  by_interop MsgBurnResponse_api_enc MsgBurnResponse_api_ok MsgBurnResponse_reads_unknown.
  by_interop MsgChangeAdmin_api_enc MsgChangeAdmin_api_ok MsgChangeAdmin_reads_unknown.
  by_interop MsgChangeAdminResponse_api_enc MsgChangeAdminResponse_api_ok MsgChangeAdminResponse_reads_unknown.
  by_interop MsgSetBeforeSendHook_api_enc MsgSetBeforeSendHook_api_ok MsgSetBeforeSendHook_reads_unknown.
  by_interop MsgSetBeforeSendHookResponse_api_enc MsgSetBeforeSendHookResponse_api_ok MsgSetBeforeSendHookResponse_reads_unknown.
  by_interop MsgSetDenomMetadata_api_enc MsgSetDenomMetadata_api_ok MsgSetDenomMetadata_reads_unknown.
  by_interop MsgSetDenomMetadataResponse_api_enc MsgSetDenomMetadataResponse_api_ok MsgSetDenomMetadataResponse_reads_unknown.
  by_interop MsgUpdateParams_api_enc MsgUpdateParams_api_ok MsgUpdateParams_reads_unknown.
  by_interop MsgUpdateParamsResponse_api_enc MsgUpdateParamsResponse_api_ok MsgUpdateParamsResponse_reads_unknown.
  by_interop QueryParamsRequest_api_enc QueryParamsRequest_api_ok QueryParamsRequest_reads_unknown.
  by_interop QueryParamsResponse_api_enc QueryParamsResponse_api_ok QueryParamsResponse_reads_unknown.
  by_interop QueryDenomAuthorityMetadataRequest_api_enc QueryDenomAuthorityMetadataRequest_api_ok QueryDenomAuthorityMetadataRequest_reads_unknown.
  by_interop QueryDenomAuthorityMetadataResponse_api_enc QueryDenomAuthorityMetadataResponse_api_ok QueryDenomAuthorityMetadataResponse_reads_unknown.
  by_interop QueryDenomsFromCreatorRequest_api_enc QueryDenomsFromCreatorRequest_api_ok QueryDenomsFromCreatorRequest_reads_unknown.
  by_interop QueryDenomsFromCreatorResponse_api_enc QueryDenomsFromCreatorResponse_api_ok QueryDenomsFromCreatorResponse_reads_unknown.
  by_interop QueryBeforeSendHookAddressRequest_api_enc QueryBeforeSendHookAddressRequest_api_ok QueryBeforeSendHookAddressRequest_reads_unknown.
  by_interop QueryBeforeSendHookAddressResponse_api_enc QueryBeforeSendHookAddressResponse_api_ok QueryBeforeSendHookAddressResponse_reads_unknown.
  by_interop AccessConfig_api_enc AccessConfig_api_ok AccessConfig_reads_unknown.
  by_interop MsgStoreCodeAdmin_api_enc MsgStoreCodeAdmin_api_ok MsgStoreCodeAdmin_reads_unknown.
  by_interop MsgStoreCodeAdminResponse_api_enc MsgStoreCodeAdminResponse_api_ok MsgStoreCodeAdminResponse_reads_unknown.
  constructor.
Qed.

(** ** Theorems *)

Lemma gogo_lawful g : g ∈ gogo_codecs → interoperates g.
Proof. intros H. pose proof gogo_interoperates as Hall. rw Forall_forall in Hall. by apply Hall. Qed.

(** C14. What the chain writes is what a client writes, byte for byte, and each side reads what the
    other wrote as the same message; fields that the chain does not know are skipped. *)
Theorem gogo_api_interop g (m : g_type g) :
  g ∈ gogo_codecs → g_ok g m → gogo_Size m < 2 ^ 63 →
  ∃ bz, gogo_Marshal m = Ok bz ∧ c_marshal (g_api g) (Some (g_to_api g m)) [] = (Ok (), bz) ∧
    gogo_Unmarshal bz gogo_new = (Ok (), m) ∧
    c_unmarshal (g_api g) false bz (Some (c_new (g_api g))) = (Ok (), Some (g_to_api g m)) ∧
    ∀ u, raw_fields (WR:=gogo_runtime) (g_field g) u → len (bz ++ u) < 2 ^ 63 → gogo_Unmarshal (bz ++ u) gogo_new = (Ok (), m).
Proof.
  intros Hg Hok Hs. destruct (gogo_lawful g Hg) as [(L & Hle & Hlo) Ha He Ho Hu].
  pose proof (api_lawful (g_api g) Ha) as Hl. rw gogo_size Hle in Hs.
  destruct (lawful_writes _ Hl (g_to_api g m)) as [Hw _]. exists (g_enc g m). split_and!.
  - rw gogo_Marshal_enc Hle. done.
  - rw Hw He. done.
  - rw -Hle. apply gogo_reads; [by rw Hlo|by rw Hle].
  - rw -He. apply (lawful_reads _ Hl); [by apply Ho|by rw He].
  - intros u Hraw Hlen. by apply Hu.
Qed.

(** Writing never fails: Marshal and MarshalTo, which is given a slice with room, write the same
    bytes, and MarshalTo leaves the rest of the slice alone. *)
Theorem gogo_marshal_to g (m : g_type g) dAtA :
  g ∈ gogo_codecs → gogo_Size m <= len dAtA →
  ∃ bz, gogo_Marshal m = Ok bz ∧ gogo_MarshalTo m dAtA = (Ok (len bz), bz ++ drop (length bz) dAtA).
Proof.
  intros Hg. destruct (gogo_lawful g Hg) as [(L & _) _ _ _ _]. rw gogo_Marshal_enc gogo_size. intros Hl.
  eexists. split; [done|]. by apply gogo_MarshalTo_enc.
Qed.

(** C15. Reading ends on every input, with a message or an error: what comes in a transaction
    cannot make the reader panic. *)
Theorem gogo_unmarshal_total g bz (x : g_type g) :
  g ∈ gogo_codecs → len bz < 2 ^ 63 → no_panic (gogo_Unmarshal bz x).1.
Proof. intros Hg. destruct (gogo_lawful g Hg) as [(L & _) _ _ _ _]. apply gogo_total. Qed.

End interop.
