(* ===== verification/Gzip.v ===== *)
(** compress/gzip, the reading half (RFC 1951, RFC 1952): bits, Huffman codes, the three kinds
    of blocks and the checksum. The descriptors that the .pb.go files of x/ carry are
    compressed. *)
From S2P Require Import Prelude.

(** * Bits *)

(** A byte is read from its lowest bit. *)
Definition byte_bits (b : Z) : list bool := Z.testbit b <$> [0; 1; 2; 3; 4; 5; 6; 7].

(** A reader of bits; [None] is an error. *)
Abbreviation reader A := (list bool → option (A * list bool)).

(** A number of [n] bits, the lowest first. *)
Fixpoint bits (n : nat) : reader Z := λ bs,
  match n, bs with
  | O, _ => Some (0, bs)
  | S _, [] => None
  | S n, b :: bs => '(x, bs) ← bits n bs; Some (Z.b2z b + 2 * x, bs)
  end.

(** What is left of the current byte is dropped: the stream has whole bytes. *)
Definition to_byte (bs : list bool) : list bool := drop (length bs mod 8) bs.

(** * Huffman codes *)

(** A canonical code: the symbols with a code of one bit, of two bits and so on, in order. *)
Definition huffman (lengths : list Z) : list (list Z) :=
  (λ len, omap (λ '(sym, l), if l =? len then Some sym else None) (zip (Z.of_nat <$> seq 0 (length lengths)) lengths))
  <$> (Z.of_nat <$> seq 1 15).

(** The next symbol: [code] is what was read so far and [first] the first code of that length;
    the bits of a code come highest first. *)
Fixpoint symbol (h : list (list Z)) (code first : Z) : reader Z := λ bs,
  match h, bs with
  | syms :: h, b :: bs =>
      let code := 2 * code + Z.b2z b in
      let first := 2 * first in
      match syms !! Z.to_nat (code - first) with
      | Some sym => Some (sym, bs)
      | None => symbol h code (first + Z.of_nat (length syms)) bs
      end
  | _, _ => None
  end.

(** * Blocks *)

Definition length_base : list Z :=
  [3; 4; 5; 6; 7; 8; 9; 10; 11; 13; 15; 17; 19; 23; 27; 31; 35; 43; 51; 59; 67; 83; 99; 115; 131; 163; 195; 227; 258].
Definition length_extra : list nat :=
  [0; 0; 0; 0; 0; 0; 0; 0; 1; 1; 1; 1; 2; 2; 2; 2; 3; 3; 3; 3; 4; 4; 4; 4; 5; 5; 5; 5; 0]%nat.
Definition dist_base : list Z :=
  [1; 2; 3; 4; 5; 7; 9; 13; 17; 25; 33; 49; 65; 97; 129; 193; 257; 385; 513; 769; 1025; 1537; 2049; 3073; 4097;
   6145; 8193; 12289; 16385; 24577].
Definition dist_extra : list nat :=
  [0; 0; 0; 0; 1; 1; 2; 2; 3; 3; 4; 4; 5; 5; 6; 6; 7; 7; 8; 8; 9; 9; 10; 10; 11; 11; 12; 12; 13; 13]%nat.

(** [n] bytes from [dist] bytes back; the output is kept from its end. *)
Fixpoint copy_match (n : nat) (dist : nat) (out : list Z) : option (list Z) :=
  match n with
  | O => Some out
  | S n => match dist with
           | O => None
           | S d => c ← out !! d; copy_match n dist (c :: out)
           end
  end.

(** The symbols of a block: bytes, copies, and the end. Every symbol is a bit at least, so the
    number of bits is fuel enough. *)
Fixpoint symbols (fuel : nat) (lit dist : list (list Z)) (out : list Z) : reader (list Z) := λ bs,
  match fuel with
  | O => None
  | S fuel =>
      '(sym, bs) ← symbol lit 0 0 bs;
      if sym <? 256 then symbols fuel lit dist (sym :: out) bs
      else if sym =? 256 then Some (out, bs)
      else
        let i := Z.to_nat (sym - 257) in
        base ← length_base !! i; extra ← length_extra !! i;
        '(x, bs) ← bits extra bs;
        '(d, bs) ← symbol dist 0 0 bs;
        dbase ← dist_base !! Z.to_nat d; dextra ← dist_extra !! Z.to_nat d;
        '(y, bs) ← bits dextra bs;
        out ← copy_match (Z.to_nat (base + x)) (Z.to_nat (dbase + y)) out;
        symbols fuel lit dist out bs
  end.

(** A stored block. *)
Fixpoint stored_bytes (n : nat) (out : list Z) : reader (list Z) := λ bs,
  match n with
  | O => Some (out, bs)
  | S n => '(b, bs) ← bits 8 bs; stored_bytes n (b :: out) bs
  end.

Definition stored (out : list Z) : reader (list Z) := λ bs,
  '(n, bs) ← bits 16 (to_byte bs); '(c, bs) ← bits 16 bs;
  if c =? 65535 - n then stored_bytes (Z.to_nat n) out bs else None.

(** The code of a block of the second kind. *)
Definition fixed_lit : list (list Z) :=
  huffman (replicate 144 8 ++ replicate 112 9 ++ replicate 24 7 ++ replicate 8 8).
Definition fixed_dist : list (list Z) := huffman (replicate 30 5).

(** The lengths of the codes of a block of the third kind, which are coded themselves. *)
Definition code_order : list nat := [16; 17; 18; 0; 8; 7; 9; 6; 10; 5; 11; 4; 12; 3; 13; 2; 14; 1; 15]%nat.

Fixpoint code_lengths (order : list nat) (ls : list Z) : reader (list Z) := λ bs,
  match order with
  | [] => Some (ls, bs)
  | i :: order => '(l, bs) ← bits 3 bs; code_lengths order (<[i := l]> ls) bs
  end.

(** [n] lengths, the last one first. *)
Fixpoint read_lengths (fuel : nat) (h : list (list Z)) (n : nat) (ls : list Z) : reader (list Z) := λ bs,
  if (n <=? length ls)%nat then if (length ls =? n)%nat then Some (reverse ls, bs) else None
  else match fuel with
  | O => None
  | S fuel =>
      '(sym, bs) ← symbol h 0 0 bs;
      if sym <? 16 then read_lengths fuel h n (sym :: ls) bs
      else if sym =? 16 then
        prev ← head ls; '(x, bs) ← bits 2 bs; read_lengths fuel h n (replicate (Z.to_nat (3 + x)) prev ++ ls) bs
      else if sym =? 17 then
        '(x, bs) ← bits 3 bs; read_lengths fuel h n (replicate (Z.to_nat (3 + x)) 0 ++ ls) bs
      else '(x, bs) ← bits 7 bs; read_lengths fuel h n (replicate (Z.to_nat (11 + x)) 0 ++ ls) bs
  end.

Definition dynamic_codes : reader (list (list Z) * list (list Z)) := λ bs,
  '(nlit, bs) ← bits 5 bs; '(ndist, bs) ← bits 5 bs; '(ncode, bs) ← bits 4 bs;
  '(cl, bs) ← code_lengths (take (Z.to_nat (4 + ncode)) code_order) (replicate 19 0) bs;
  let nlit := Z.to_nat (257 + nlit) in let ndist := Z.to_nat (1 + ndist) in
  '(ls, bs) ← read_lengths (length bs) (huffman cl) (nlit + ndist) [] bs;
  Some ((huffman (take nlit ls), huffman (drop nlit ls)), bs).

(** Blocks up to the last one; each has three bits at least. *)
Fixpoint blocks (fuel : nat) (out : list Z) : reader (list Z) := λ bs,
  match fuel with
  | O => None
  | S fuel =>
      '(final, bs) ← bits 1 bs; '(kind, bs) ← bits 2 bs;
      '(out, bs) ←
        (if kind =? 0 then stored out bs
         else if kind =? 1 then symbols (length bs) fixed_lit fixed_dist out bs
         else if kind =? 2 then '((lit, dist), bs) ← dynamic_codes bs; symbols (length bs) lit dist out bs
         else None);
      if final =? 1 then Some (out, bs) else blocks fuel out bs
  end.

Definition inflate : reader (list Z) := λ bs,
  '(out, bs) ← blocks (length bs) [] bs; Some (reverse out, bs).

(** * The checksum and the frame *)

Fixpoint crc_shift (n : nat) (c : Z) : Z :=
  match n with
  | O => c
  | S n => crc_shift n (if Z.odd c then Z.lxor 0xEDB88320 (Z.shiftr c 1) else Z.shiftr c 1)
  end.

Definition crc32 (bz : list Z) : Z :=
  Z.lxor 0xFFFFFFFF (foldl (λ c b, crc_shift 8 (Z.lxor c b)) 0xFFFFFFFF bz).

(** gzip.NewReader and io.ReadAll: a header without options, the stream, the checksum and the
    length, and nothing after it. *)
Definition gunzip (bz : list Z) : option (list Z) :=
  match bz with
  | 0x1f :: 0x8b :: 8 :: 0 :: _ :: _ :: _ :: _ :: _ :: _ :: bz =>
      '(out, bs) ← inflate (concat (byte_bits <$> bz));
      '(crc, bs) ← bits 32 (to_byte bs); '(size, bs) ← bits 32 bs;
      if (crc =? crc32 out) && (size =? Z.of_nat (length out) mod 2 ^ 32) && bool_decide (bs = [])
      then Some out else None
  | _ => None
  end.
