(* ===== verification/DescData.v ===== *)
(** The descriptors that the .pulsar.go files of api/ carry: the bytes of the schema of each
    file (a google.protobuf.FileDescriptorProto), the Go types it names, and the indexes by
    which fields and methods find their types. *)
From S2P Require Import Prelude.

(** An entry of goTypes: a type of the package, or of an imported one. *)
Inductive gotype := Own (name : string) | Imported (name : string).

#[export] Instance gotype_eq_dec : EqDecision gotype.
Proof. solve_decision. Defined.

(** ** api/miniwasm/tokenfactory/v1/params.pulsar.go *)

Definition v1_params_rawDesc : list Z :=
  [0x0a; 0x25; 0x6d; 0x69; 0x6e; 0x69; 0x77; 0x61; 0x73; 0x6d; 0x2f; 0x74; 0x6f; 0x6b; 0x65; 0x6e;
   0x66; 0x61; 0x63; 0x74; 0x6f; 0x72; 0x79; 0x2f; 0x76; 0x31; 0x2f; 0x70; 0x61; 0x72; 0x61; 0x6d;
   0x73; 0x2e; 0x70; 0x72; 0x6f; 0x74; 0x6f; 0x12; 0x18; 0x6d; 0x69; 0x6e; 0x69; 0x77; 0x61; 0x73;
   0x6d; 0x2e; 0x74; 0x6f; 0x6b; 0x65; 0x6e; 0x66; 0x61; 0x63; 0x74; 0x6f; 0x72; 0x79; 0x2e; 0x76;
   0x31; 0x1a; 0x1e; 0x63; 0x6f; 0x73; 0x6d; 0x6f; 0x73; 0x2f; 0x62; 0x61; 0x73; 0x65; 0x2f; 0x76;
   0x31; 0x62; 0x65; 0x74; 0x61; 0x31; 0x2f; 0x63; 0x6f; 0x69; 0x6e; 0x2e; 0x70; 0x72; 0x6f; 0x74;
   0x6f; 0x1a; 0x14; 0x67; 0x6f; 0x67; 0x6f; 0x70; 0x72; 0x6f; 0x74; 0x6f; 0x2f; 0x67; 0x6f; 0x67;
   0x6f; 0x2e; 0x70; 0x72; 0x6f; 0x74; 0x6f; 0x22; 0x89; 0x02; 0x0a; 0x06; 0x50; 0x61; 0x72; 0x61;
   0x6d; 0x73; 0x12; 0x96; 0x01; 0x0a; 0x12; 0x64; 0x65; 0x6e; 0x6f; 0x6d; 0x5f; 0x63; 0x72; 0x65;
   0x61; 0x74; 0x69; 0x6f; 0x6e; 0x5f; 0x66; 0x65; 0x65; 0x18; 0x01; 0x20; 0x03; 0x28; 0x0b; 0x32;
   0x19; 0x2e; 0x63; 0x6f; 0x73; 0x6d; 0x6f; 0x73; 0x2e; 0x62; 0x61; 0x73; 0x65; 0x2e; 0x76; 0x31;
   0x62; 0x65; 0x74; 0x61; 0x31; 0x2e; 0x43; 0x6f; 0x69; 0x6e; 0x42; 0x4d; 0xc8; 0xde; 0x1f; 0x00;
   0xf2; 0xde; 0x1f; 0x19; 0x79; 0x61; 0x6d; 0x6c; 0x3a; 0x22; 0x64; 0x65; 0x6e; 0x6f; 0x6d; 0x5f;
   0x63; 0x72; 0x65; 0x61; 0x74; 0x69; 0x6f; 0x6e; 0x5f; 0x66; 0x65; 0x65; 0x22; 0xaa; 0xdf; 0x1f;
   0x28; 0x67; 0x69; 0x74; 0x68; 0x75; 0x62; 0x2e; 0x63; 0x6f; 0x6d; 0x2f; 0x63; 0x6f; 0x73; 0x6d;
   0x6f; 0x73; 0x2f; 0x63; 0x6f; 0x73; 0x6d; 0x6f; 0x73; 0x2d; 0x73; 0x64; 0x6b; 0x2f; 0x74; 0x79;
   0x70; 0x65; 0x73; 0x2e; 0x43; 0x6f; 0x69; 0x6e; 0x73; 0x52; 0x10; 0x64; 0x65; 0x6e; 0x6f; 0x6d;
   0x43; 0x72; 0x65; 0x61; 0x74; 0x69; 0x6f; 0x6e; 0x46; 0x65; 0x65; 0x12; 0x66; 0x0a; 0x1a; 0x64;
   0x65; 0x6e; 0x6f; 0x6d; 0x5f; 0x63; 0x72; 0x65; 0x61; 0x74; 0x69; 0x6f; 0x6e; 0x5f; 0x67; 0x61;
   0x73; 0x5f; 0x63; 0x6f; 0x6e; 0x73; 0x75; 0x6d; 0x65; 0x18; 0x02; 0x20; 0x01; 0x28; 0x04; 0x42;
   0x29; 0xc8; 0xde; 0x1f; 0x01; 0xf2; 0xde; 0x1f; 0x21; 0x79; 0x61; 0x6d; 0x6c; 0x3a; 0x22; 0x64;
   0x65; 0x6e; 0x6f; 0x6d; 0x5f; 0x63; 0x72; 0x65; 0x61; 0x74; 0x69; 0x6f; 0x6e; 0x5f; 0x67; 0x61;
   0x73; 0x5f; 0x63; 0x6f; 0x6e; 0x73; 0x75; 0x6d; 0x65; 0x22; 0x52; 0x17; 0x64; 0x65; 0x6e; 0x6f;
   0x6d; 0x43; 0x72; 0x65; 0x61; 0x74; 0x69; 0x6f; 0x6e; 0x47; 0x61; 0x73; 0x43; 0x6f; 0x6e; 0x73;
   0x75; 0x6d; 0x65; 0x42; 0xfa; 0x01; 0x0a; 0x1c; 0x63; 0x6f; 0x6d; 0x2e; 0x6d; 0x69; 0x6e; 0x69;
   0x77; 0x61; 0x73; 0x6d; 0x2e; 0x74; 0x6f; 0x6b; 0x65; 0x6e; 0x66; 0x61; 0x63; 0x74; 0x6f; 0x72;
   0x79; 0x2e; 0x76; 0x31; 0x42; 0x0b; 0x50; 0x61; 0x72; 0x61; 0x6d; 0x73; 0x50; 0x72; 0x6f; 0x74;
   0x6f; 0x50; 0x01; 0x5a; 0x4b; 0x67; 0x69; 0x74; 0x68; 0x75; 0x62; 0x2e; 0x63; 0x6f; 0x6d; 0x2f;
   0x69; 0x6e; 0x69; 0x74; 0x69; 0x61; 0x2d; 0x6c; 0x61; 0x62; 0x73; 0x2f; 0x6d; 0x69; 0x6e; 0x69;
   0x77; 0x61; 0x73; 0x6d; 0x2f; 0x61; 0x70; 0x69; 0x2f; 0x6d; 0x69; 0x6e; 0x69; 0x77; 0x61; 0x73;
   0x6d; 0x2f; 0x74; 0x6f; 0x6b; 0x65; 0x6e; 0x66; 0x61; 0x63; 0x74; 0x6f; 0x72; 0x79; 0x2f; 0x76;
   0x31; 0x3b; 0x74; 0x6f; 0x6b; 0x65; 0x6e; 0x66; 0x61; 0x63; 0x74; 0x6f; 0x72; 0x79; 0x76; 0x31;
   0xa2; 0x02; 0x03; 0x4d; 0x54; 0x58; 0xaa; 0x02; 0x18; 0x4d; 0x69; 0x6e; 0x69; 0x77; 0x61; 0x73;
   0x6d; 0x2e; 0x54; 0x6f; 0x6b; 0x65; 0x6e; 0x66; 0x61; 0x63; 0x74; 0x6f; 0x72; 0x79; 0x2e; 0x56;
   0x31; 0xca; 0x02; 0x18; 0x4d; 0x69; 0x6e; 0x69; 0x77; 0x61; 0x73; 0x6d; 0x5c; 0x54; 0x6f; 0x6b;
   0x65; 0x6e; 0x66; 0x61; 0x63; 0x74; 0x6f; 0x72; 0x79; 0x5c; 0x56; 0x31; 0xe2; 0x02; 0x24; 0x4d;
   0x69; 0x6e; 0x69; 0x77; 0x61; 0x73; 0x6d; 0x5c; 0x54; 0x6f; 0x6b; 0x65; 0x6e; 0x66; 0x61; 0x63;
   0x74; 0x6f; 0x72; 0x79; 0x5c; 0x56; 0x31; 0x5c; 0x47; 0x50; 0x42; 0x4d; 0x65; 0x74; 0x61; 0x64;
   0x61; 0x74; 0x61; 0xea; 0x02; 0x1a; 0x4d; 0x69; 0x6e; 0x69; 0x77; 0x61; 0x73; 0x6d; 0x3a; 0x3a;
   0x54; 0x6f; 0x6b; 0x65; 0x6e; 0x66; 0x61; 0x63; 0x74; 0x6f; 0x72; 0x79; 0x3a; 0x3a; 0x56; 0x31;
   0x62; 0x06; 0x70; 0x72; 0x6f; 0x74; 0x6f; 0x33].

Definition v1_params_goTypes : list gotype :=
  [Own "Params";
   Imported "v1beta1.Coin"].

Definition v1_params_depIdxs : list Z := [1; 1; 1; 1; 1; 0].


(** ** api/miniwasm/tokenfactory/v1/authority_metadata.pulsar.go *)

Definition v1_authority_metadata_rawDesc : list Z :=
  [0x0a; 0x31; 0x6d; 0x69; 0x6e; 0x69; 0x77; 0x61; 0x73; 0x6d; 0x2f; 0x74; 0x6f; 0x6b; 0x65; 0x6e;
   0x66; 0x61; 0x63; 0x74; 0x6f; 0x72; 0x79; 0x2f; 0x76; 0x31; 0x2f; 0x61; 0x75; 0x74; 0x68; 0x6f;
   0x72; 0x69; 0x74; 0x79; 0x5f; 0x6d; 0x65; 0x74; 0x61; 0x64; 0x61; 0x74; 0x61; 0x2e; 0x70; 0x72;
   0x6f; 0x74; 0x6f; 0x12; 0x18; 0x6d; 0x69; 0x6e; 0x69; 0x77; 0x61; 0x73; 0x6d; 0x2e; 0x74; 0x6f;
   0x6b; 0x65; 0x6e; 0x66; 0x61; 0x63; 0x74; 0x6f; 0x72; 0x79; 0x2e; 0x76; 0x31; 0x1a; 0x14; 0x67;
   0x6f; 0x67; 0x6f; 0x70; 0x72; 0x6f; 0x74; 0x6f; 0x2f; 0x67; 0x6f; 0x67; 0x6f; 0x2e; 0x70; 0x72;
   0x6f; 0x74; 0x6f; 0x22; 0x46; 0x0a; 0x16; 0x44; 0x65; 0x6e; 0x6f; 0x6d; 0x41; 0x75; 0x74; 0x68;
   0x6f; 0x72; 0x69; 0x74; 0x79; 0x4d; 0x65; 0x74; 0x61; 0x64; 0x61; 0x74; 0x61; 0x12; 0x26; 0x0a;
   0x05; 0x61; 0x64; 0x6d; 0x69; 0x6e; 0x18; 0x01; 0x20; 0x01; 0x28; 0x09; 0x42; 0x10; 0xf2; 0xde;
   0x1f; 0x0c; 0x79; 0x61; 0x6d; 0x6c; 0x3a; 0x22; 0x61; 0x64; 0x6d; 0x69; 0x6e; 0x22; 0x52; 0x05;
   0x61; 0x64; 0x6d; 0x69; 0x6e; 0x3a; 0x04; 0xe8; 0xa0; 0x1f; 0x01; 0x42; 0x85; 0x02; 0x0a; 0x1c;
   0x63; 0x6f; 0x6d; 0x2e; 0x6d; 0x69; 0x6e; 0x69; 0x77; 0x61; 0x73; 0x6d; 0x2e; 0x74; 0x6f; 0x6b;
   0x65; 0x6e; 0x66; 0x61; 0x63; 0x74; 0x6f; 0x72; 0x79; 0x2e; 0x76; 0x31; 0x42; 0x16; 0x41; 0x75;
   0x74; 0x68; 0x6f; 0x72; 0x69; 0x74; 0x79; 0x4d; 0x65; 0x74; 0x61; 0x64; 0x61; 0x74; 0x61; 0x50;
   0x72; 0x6f; 0x74; 0x6f; 0x50; 0x01; 0x5a; 0x4b; 0x67; 0x69; 0x74; 0x68; 0x75; 0x62; 0x2e; 0x63;
   0x6f; 0x6d; 0x2f; 0x69; 0x6e; 0x69; 0x74; 0x69; 0x61; 0x2d; 0x6c; 0x61; 0x62; 0x73; 0x2f; 0x6d;
   0x69; 0x6e; 0x69; 0x77; 0x61; 0x73; 0x6d; 0x2f; 0x61; 0x70; 0x69; 0x2f; 0x6d; 0x69; 0x6e; 0x69;
   0x77; 0x61; 0x73; 0x6d; 0x2f; 0x74; 0x6f; 0x6b; 0x65; 0x6e; 0x66; 0x61; 0x63; 0x74; 0x6f; 0x72;
   0x79; 0x2f; 0x76; 0x31; 0x3b; 0x74; 0x6f; 0x6b; 0x65; 0x6e; 0x66; 0x61; 0x63; 0x74; 0x6f; 0x72;
   0x79; 0x76; 0x31; 0xa2; 0x02; 0x03; 0x4d; 0x54; 0x58; 0xaa; 0x02; 0x18; 0x4d; 0x69; 0x6e; 0x69;
   0x77; 0x61; 0x73; 0x6d; 0x2e; 0x54; 0x6f; 0x6b; 0x65; 0x6e; 0x66; 0x61; 0x63; 0x74; 0x6f; 0x72;
   0x79; 0x2e; 0x56; 0x31; 0xca; 0x02; 0x18; 0x4d; 0x69; 0x6e; 0x69; 0x77; 0x61; 0x73; 0x6d; 0x5c;
   0x54; 0x6f; 0x6b; 0x65; 0x6e; 0x66; 0x61; 0x63; 0x74; 0x6f; 0x72; 0x79; 0x5c; 0x56; 0x31; 0xe2;
   0x02; 0x24; 0x4d; 0x69; 0x6e; 0x69; 0x77; 0x61; 0x73; 0x6d; 0x5c; 0x54; 0x6f; 0x6b; 0x65; 0x6e;
   0x66; 0x61; 0x63; 0x74; 0x6f; 0x72; 0x79; 0x5c; 0x56; 0x31; 0x5c; 0x47; 0x50; 0x42; 0x4d; 0x65;
   0x74; 0x61; 0x64; 0x61; 0x74; 0x61; 0xea; 0x02; 0x1a; 0x4d; 0x69; 0x6e; 0x69; 0x77; 0x61; 0x73;
   0x6d; 0x3a; 0x3a; 0x54; 0x6f; 0x6b; 0x65; 0x6e; 0x66; 0x61; 0x63; 0x74; 0x6f; 0x72; 0x79; 0x3a;
   0x3a; 0x56; 0x31; 0x62; 0x06; 0x70; 0x72; 0x6f; 0x74; 0x6f; 0x33].

Definition v1_authority_metadata_goTypes : list gotype :=
  [Own "DenomAuthorityMetadata"].

Definition v1_authority_metadata_depIdxs : list Z := [0; 0; 0; 0; 0].


(** ** api/miniwasm/tokenfactory/v1/genesis.pulsar.go *)

Definition v1_genesis_rawDesc : list Z :=
  [0x0a; 0x26; 0x6d; 0x69; 0x6e; 0x69; 0x77; 0x61; 0x73; 0x6d; 0x2f; 0x74; 0x6f; 0x6b; 0x65; 0x6e;
   0x66; 0x61; 0x63; 0x74; 0x6f; 0x72; 0x79; 0x2f; 0x76; 0x31; 0x2f; 0x67; 0x65; 0x6e; 0x65; 0x73;
   0x69; 0x73; 0x2e; 0x70; 0x72; 0x6f; 0x74; 0x6f; 0x12; 0x18; 0x6d; 0x69; 0x6e; 0x69; 0x77; 0x61;
   0x73; 0x6d; 0x2e; 0x74; 0x6f; 0x6b; 0x65; 0x6e; 0x66; 0x61; 0x63; 0x74; 0x6f; 0x72; 0x79; 0x2e;
   0x76; 0x31; 0x1a; 0x14; 0x67; 0x6f; 0x67; 0x6f; 0x70; 0x72; 0x6f; 0x74; 0x6f; 0x2f; 0x67; 0x6f;
   0x67; 0x6f; 0x2e; 0x70; 0x72; 0x6f; 0x74; 0x6f; 0x1a; 0x31; 0x6d; 0x69; 0x6e; 0x69; 0x77; 0x61;
   0x73; 0x6d; 0x2f; 0x74; 0x6f; 0x6b; 0x65; 0x6e; 0x66; 0x61; 0x63; 0x74; 0x6f; 0x72; 0x79; 0x2f;
   0x76; 0x31; 0x2f; 0x61; 0x75; 0x74; 0x68; 0x6f; 0x72; 0x69; 0x74; 0x79; 0x5f; 0x6d; 0x65; 0x74;
   0x61; 0x64; 0x61; 0x74; 0x61; 0x2e; 0x70; 0x72; 0x6f; 0x74; 0x6f; 0x1a; 0x25; 0x6d; 0x69; 0x6e;
   0x69; 0x77; 0x61; 0x73; 0x6d; 0x2f; 0x74; 0x6f; 0x6b; 0x65; 0x6e; 0x66; 0x61; 0x63; 0x74; 0x6f;
   0x72; 0x79; 0x2f; 0x76; 0x31; 0x2f; 0x70; 0x61; 0x72; 0x61; 0x6d; 0x73; 0x2e; 0x70; 0x72; 0x6f;
   0x74; 0x6f; 0x22; 0xbc; 0x01; 0x0a; 0x0c; 0x47; 0x65; 0x6e; 0x65; 0x73; 0x69; 0x73; 0x53; 0x74;
   0x61; 0x74; 0x65; 0x12; 0x3e; 0x0a; 0x06; 0x70; 0x61; 0x72; 0x61; 0x6d; 0x73; 0x18; 0x01; 0x20;
   0x01; 0x28; 0x0b; 0x32; 0x20; 0x2e; 0x6d; 0x69; 0x6e; 0x69; 0x77; 0x61; 0x73; 0x6d; 0x2e; 0x74;
   0x6f; 0x6b; 0x65; 0x6e; 0x66; 0x61; 0x63; 0x74; 0x6f; 0x72; 0x79; 0x2e; 0x76; 0x31; 0x2e; 0x50;
   0x61; 0x72; 0x61; 0x6d; 0x73; 0x42; 0x04; 0xc8; 0xde; 0x1f; 0x00; 0x52; 0x06; 0x70; 0x61; 0x72;
   0x61; 0x6d; 0x73; 0x12; 0x6c; 0x0a; 0x0e; 0x66; 0x61; 0x63; 0x74; 0x6f; 0x72; 0x79; 0x5f; 0x64;
   0x65; 0x6e; 0x6f; 0x6d; 0x73; 0x18; 0x02; 0x20; 0x03; 0x28; 0x0b; 0x32; 0x26; 0x2e; 0x6d; 0x69;
   0x6e; 0x69; 0x77; 0x61; 0x73; 0x6d; 0x2e; 0x74; 0x6f; 0x6b; 0x65; 0x6e; 0x66; 0x61; 0x63; 0x74;
   0x6f; 0x72; 0x79; 0x2e; 0x76; 0x31; 0x2e; 0x47; 0x65; 0x6e; 0x65; 0x73; 0x69; 0x73; 0x44; 0x65;
   0x6e; 0x6f; 0x6d; 0x42; 0x1d; 0xc8; 0xde; 0x1f; 0x00; 0xf2; 0xde; 0x1f; 0x15; 0x79; 0x61; 0x6d;
   0x6c; 0x3a; 0x22; 0x66; 0x61; 0x63; 0x74; 0x6f; 0x72; 0x79; 0x5f; 0x64; 0x65; 0x6e; 0x6f; 0x6d;
   0x73; 0x22; 0x52; 0x0d; 0x66; 0x61; 0x63; 0x74; 0x6f; 0x72; 0x79; 0x44; 0x65; 0x6e; 0x6f; 0x6d;
   0x73; 0x22; 0xc1; 0x01; 0x0a; 0x0c; 0x47; 0x65; 0x6e; 0x65; 0x73; 0x69; 0x73; 0x44; 0x65; 0x6e;
   0x6f; 0x6d; 0x12; 0x26; 0x0a; 0x05; 0x64; 0x65; 0x6e; 0x6f; 0x6d; 0x18; 0x01; 0x20; 0x01; 0x28;
   0x09; 0x42; 0x10; 0xf2; 0xde; 0x1f; 0x0c; 0x79; 0x61; 0x6d; 0x6c; 0x3a; 0x22; 0x64; 0x65; 0x6e;
   0x6f; 0x6d; 0x22; 0x52; 0x05; 0x64; 0x65; 0x6e; 0x6f; 0x6d; 0x12; 0x82; 0x01; 0x0a; 0x12; 0x61;
   0x75; 0x74; 0x68; 0x6f; 0x72; 0x69; 0x74; 0x79; 0x5f; 0x6d; 0x65; 0x74; 0x61; 0x64; 0x61; 0x74;
   0x61; 0x18; 0x02; 0x20; 0x01; 0x28; 0x0b; 0x32; 0x30; 0x2e; 0x6d; 0x69; 0x6e; 0x69; 0x77; 0x61;
   0x73; 0x6d; 0x2e; 0x74; 0x6f; 0x6b; 0x65; 0x6e; 0x66; 0x61; 0x63; 0x74; 0x6f; 0x72; 0x79; 0x2e;
   0x76; 0x31; 0x2e; 0x44; 0x65; 0x6e; 0x6f; 0x6d; 0x41; 0x75; 0x74; 0x68; 0x6f; 0x72; 0x69; 0x74;
   0x79; 0x4d; 0x65; 0x74; 0x61; 0x64; 0x61; 0x74; 0x61; 0x42; 0x21; 0xc8; 0xde; 0x1f; 0x00; 0xf2;
   0xde; 0x1f; 0x19; 0x79; 0x61; 0x6d; 0x6c; 0x3a; 0x22; 0x61; 0x75; 0x74; 0x68; 0x6f; 0x72; 0x69;
   0x74; 0x79; 0x5f; 0x6d; 0x65; 0x74; 0x61; 0x64; 0x61; 0x74; 0x61; 0x22; 0x52; 0x11; 0x61; 0x75;
   0x74; 0x68; 0x6f; 0x72; 0x69; 0x74; 0x79; 0x4d; 0x65; 0x74; 0x61; 0x64; 0x61; 0x74; 0x61; 0x3a;
   0x04; 0xe8; 0xa0; 0x1f; 0x01; 0x42; 0xfb; 0x01; 0x0a; 0x1c; 0x63; 0x6f; 0x6d; 0x2e; 0x6d; 0x69;
   0x6e; 0x69; 0x77; 0x61; 0x73; 0x6d; 0x2e; 0x74; 0x6f; 0x6b; 0x65; 0x6e; 0x66; 0x61; 0x63; 0x74;
   0x6f; 0x72; 0x79; 0x2e; 0x76; 0x31; 0x42; 0x0c; 0x47; 0x65; 0x6e; 0x65; 0x73; 0x69; 0x73; 0x50;
   0x72; 0x6f; 0x74; 0x6f; 0x50; 0x01; 0x5a; 0x4b; 0x67; 0x69; 0x74; 0x68; 0x75; 0x62; 0x2e; 0x63;
   0x6f; 0x6d; 0x2f; 0x69; 0x6e; 0x69; 0x74; 0x69; 0x61; 0x2d; 0x6c; 0x61; 0x62; 0x73; 0x2f; 0x6d;
   0x69; 0x6e; 0x69; 0x77; 0x61; 0x73; 0x6d; 0x2f; 0x61; 0x70; 0x69; 0x2f; 0x6d; 0x69; 0x6e; 0x69;
   0x77; 0x61; 0x73; 0x6d; 0x2f; 0x74; 0x6f; 0x6b; 0x65; 0x6e; 0x66; 0x61; 0x63; 0x74; 0x6f; 0x72;
   0x79; 0x2f; 0x76; 0x31; 0x3b; 0x74; 0x6f; 0x6b; 0x65; 0x6e; 0x66; 0x61; 0x63; 0x74; 0x6f; 0x72;
   0x79; 0x76; 0x31; 0xa2; 0x02; 0x03; 0x4d; 0x54; 0x58; 0xaa; 0x02; 0x18; 0x4d; 0x69; 0x6e; 0x69;
   0x77; 0x61; 0x73; 0x6d; 0x2e; 0x54; 0x6f; 0x6b; 0x65; 0x6e; 0x66; 0x61; 0x63; 0x74; 0x6f; 0x72;
   0x79; 0x2e; 0x56; 0x31; 0xca; 0x02; 0x18; 0x4d; 0x69; 0x6e; 0x69; 0x77; 0x61; 0x73; 0x6d; 0x5c;
   0x54; 0x6f; 0x6b; 0x65; 0x6e; 0x66; 0x61; 0x63; 0x74; 0x6f; 0x72; 0x79; 0x5c; 0x56; 0x31; 0xe2;
   0x02; 0x24; 0x4d; 0x69; 0x6e; 0x69; 0x77; 0x61; 0x73; 0x6d; 0x5c; 0x54; 0x6f; 0x6b; 0x65; 0x6e;
   0x66; 0x61; 0x63; 0x74; 0x6f; 0x72; 0x79; 0x5c; 0x56; 0x31; 0x5c; 0x47; 0x50; 0x42; 0x4d; 0x65;
   0x74; 0x61; 0x64; 0x61; 0x74; 0x61; 0xea; 0x02; 0x1a; 0x4d; 0x69; 0x6e; 0x69; 0x77; 0x61; 0x73;
   0x6d; 0x3a; 0x3a; 0x54; 0x6f; 0x6b; 0x65; 0x6e; 0x66; 0x61; 0x63; 0x74; 0x6f; 0x72; 0x79; 0x3a;
   0x3a; 0x56; 0x31; 0x62; 0x06; 0x70; 0x72; 0x6f; 0x74; 0x6f; 0x33].

Definition v1_genesis_goTypes : list gotype :=
  [Own "GenesisState";
   Own "GenesisDenom";
   Own "Params";
   Own "DenomAuthorityMetadata"].

Definition v1_genesis_depIdxs : list Z := [2; 1; 3; 3; 3; 3; 3; 0].


(** ** api/miniwasm/tokenfactory/v1/query.pulsar.go *)

Definition v1_query_rawDesc : list Z :=
  [0x0a; 0x24; 0x6d; 0x69; 0x6e; 0x69; 0x77; 0x61; 0x73; 0x6d; 0x2f; 0x74; 0x6f; 0x6b; 0x65; 0x6e;
   0x66; 0x61; 0x63; 0x74; 0x6f; 0x72; 0x79; 0x2f; 0x76; 0x31; 0x2f; 0x71; 0x75; 0x65; 0x72; 0x79;
   0x2e; 0x70; 0x72; 0x6f; 0x74; 0x6f; 0x12; 0x18; 0x6d; 0x69; 0x6e; 0x69; 0x77; 0x61; 0x73; 0x6d;
   0x2e; 0x74; 0x6f; 0x6b; 0x65; 0x6e; 0x66; 0x61; 0x63; 0x74; 0x6f; 0x72; 0x79; 0x2e; 0x76; 0x31;
   0x1a; 0x14; 0x67; 0x6f; 0x67; 0x6f; 0x70; 0x72; 0x6f; 0x74; 0x6f; 0x2f; 0x67; 0x6f; 0x67; 0x6f;
   0x2e; 0x70; 0x72; 0x6f; 0x74; 0x6f; 0x1a; 0x1c; 0x67; 0x6f; 0x6f; 0x67; 0x6c; 0x65; 0x2f; 0x61;
   0x70; 0x69; 0x2f; 0x61; 0x6e; 0x6e; 0x6f; 0x74; 0x61; 0x74; 0x69; 0x6f; 0x6e; 0x73; 0x2e; 0x70;
   0x72; 0x6f; 0x74; 0x6f; 0x1a; 0x31; 0x6d; 0x69; 0x6e; 0x69; 0x77; 0x61; 0x73; 0x6d; 0x2f; 0x74;
   0x6f; 0x6b; 0x65; 0x6e; 0x66; 0x61; 0x63; 0x74; 0x6f; 0x72; 0x79; 0x2f; 0x76; 0x31; 0x2f; 0x61;
   0x75; 0x74; 0x68; 0x6f; 0x72; 0x69; 0x74; 0x79; 0x5f; 0x6d; 0x65; 0x74; 0x61; 0x64; 0x61; 0x74;
   0x61; 0x2e; 0x70; 0x72; 0x6f; 0x74; 0x6f; 0x1a; 0x25; 0x6d; 0x69; 0x6e; 0x69; 0x77; 0x61; 0x73;
   0x6d; 0x2f; 0x74; 0x6f; 0x6b; 0x65; 0x6e; 0x66; 0x61; 0x63; 0x74; 0x6f; 0x72; 0x79; 0x2f; 0x76;
   0x31; 0x2f; 0x70; 0x61; 0x72; 0x61; 0x6d; 0x73; 0x2e; 0x70; 0x72; 0x6f; 0x74; 0x6f; 0x22; 0x14;
   0x0a; 0x12; 0x51; 0x75; 0x65; 0x72; 0x79; 0x50; 0x61; 0x72; 0x61; 0x6d; 0x73; 0x52; 0x65; 0x71;
   0x75; 0x65; 0x73; 0x74; 0x22; 0x55; 0x0a; 0x13; 0x51; 0x75; 0x65; 0x72; 0x79; 0x50; 0x61; 0x72;
   0x61; 0x6d; 0x73; 0x52; 0x65; 0x73; 0x70; 0x6f; 0x6e; 0x73; 0x65; 0x12; 0x3e; 0x0a; 0x06; 0x70;
   0x61; 0x72; 0x61; 0x6d; 0x73; 0x18; 0x01; 0x20; 0x01; 0x28; 0x0b; 0x32; 0x20; 0x2e; 0x6d; 0x69;
   0x6e; 0x69; 0x77; 0x61; 0x73; 0x6d; 0x2e; 0x74; 0x6f; 0x6b; 0x65; 0x6e; 0x66; 0x61; 0x63; 0x74;
   0x6f; 0x72; 0x79; 0x2e; 0x76; 0x31; 0x2e; 0x50; 0x61; 0x72; 0x61; 0x6d; 0x73; 0x42; 0x04; 0xc8;
   0xde; 0x1f; 0x00; 0x52; 0x06; 0x70; 0x61; 0x72; 0x61; 0x6d; 0x73; 0x22; 0x4c; 0x0a; 0x22; 0x51;
   0x75; 0x65; 0x72; 0x79; 0x44; 0x65; 0x6e; 0x6f; 0x6d; 0x41; 0x75; 0x74; 0x68; 0x6f; 0x72; 0x69;
   0x74; 0x79; 0x4d; 0x65; 0x74; 0x61; 0x64; 0x61; 0x74; 0x61; 0x52; 0x65; 0x71; 0x75; 0x65; 0x73;
   0x74; 0x12; 0x26; 0x0a; 0x05; 0x64; 0x65; 0x6e; 0x6f; 0x6d; 0x18; 0x01; 0x20; 0x01; 0x28; 0x09;
   0x42; 0x10; 0xf2; 0xde; 0x1f; 0x0c; 0x79; 0x61; 0x6d; 0x6c; 0x3a; 0x22; 0x64; 0x65; 0x6e; 0x6f;
   0x6d; 0x22; 0x52; 0x05; 0x64; 0x65; 0x6e; 0x6f; 0x6d; 0x22; 0xaa; 0x01; 0x0a; 0x23; 0x51; 0x75;
   0x65; 0x72; 0x79; 0x44; 0x65; 0x6e; 0x6f; 0x6d; 0x41; 0x75; 0x74; 0x68; 0x6f; 0x72; 0x69; 0x74;
   0x79; 0x4d; 0x65; 0x74; 0x61; 0x64; 0x61; 0x74; 0x61; 0x52; 0x65; 0x73; 0x70; 0x6f; 0x6e; 0x73;
   0x65; 0x12; 0x82; 0x01; 0x0a; 0x12; 0x61; 0x75; 0x74; 0x68; 0x6f; 0x72; 0x69; 0x74; 0x79; 0x5f;
   0x6d; 0x65; 0x74; 0x61; 0x64; 0x61; 0x74; 0x61; 0x18; 0x01; 0x20; 0x01; 0x28; 0x0b; 0x32; 0x30;
   0x2e; 0x6d; 0x69; 0x6e; 0x69; 0x77; 0x61; 0x73; 0x6d; 0x2e; 0x74; 0x6f; 0x6b; 0x65; 0x6e; 0x66;
   0x61; 0x63; 0x74; 0x6f; 0x72; 0x79; 0x2e; 0x76; 0x31; 0x2e; 0x44; 0x65; 0x6e; 0x6f; 0x6d; 0x41;
   0x75; 0x74; 0x68; 0x6f; 0x72; 0x69; 0x74; 0x79; 0x4d; 0x65; 0x74; 0x61; 0x64; 0x61; 0x74; 0x61;
   0x42; 0x21; 0xc8; 0xde; 0x1f; 0x00; 0xf2; 0xde; 0x1f; 0x19; 0x79; 0x61; 0x6d; 0x6c; 0x3a; 0x22;
   0x61; 0x75; 0x74; 0x68; 0x6f; 0x72; 0x69; 0x74; 0x79; 0x5f; 0x6d; 0x65; 0x74; 0x61; 0x64; 0x61;
   0x74; 0x61; 0x22; 0x52; 0x11; 0x61; 0x75; 0x74; 0x68; 0x6f; 0x72; 0x69; 0x74; 0x79; 0x4d; 0x65;
   0x74; 0x61; 0x64; 0x61; 0x74; 0x61; 0x22; 0x4d; 0x0a; 0x1d; 0x51; 0x75; 0x65; 0x72; 0x79; 0x44;
   0x65; 0x6e; 0x6f; 0x6d; 0x73; 0x46; 0x72; 0x6f; 0x6d; 0x43; 0x72; 0x65; 0x61; 0x74; 0x6f; 0x72;
   0x52; 0x65; 0x71; 0x75; 0x65; 0x73; 0x74; 0x12; 0x2c; 0x0a; 0x07; 0x63; 0x72; 0x65; 0x61; 0x74;
   0x6f; 0x72; 0x18; 0x01; 0x20; 0x01; 0x28; 0x09; 0x42; 0x12; 0xf2; 0xde; 0x1f; 0x0e; 0x79; 0x61;
   0x6d; 0x6c; 0x3a; 0x22; 0x63; 0x72; 0x65; 0x61; 0x74; 0x6f; 0x72; 0x22; 0x52; 0x07; 0x63; 0x72;
   0x65; 0x61; 0x74; 0x6f; 0x72; 0x22; 0x4b; 0x0a; 0x1e; 0x51; 0x75; 0x65; 0x72; 0x79; 0x44; 0x65;
   0x6e; 0x6f; 0x6d; 0x73; 0x46; 0x72; 0x6f; 0x6d; 0x43; 0x72; 0x65; 0x61; 0x74; 0x6f; 0x72; 0x52;
   0x65; 0x73; 0x70; 0x6f; 0x6e; 0x73; 0x65; 0x12; 0x29; 0x0a; 0x06; 0x64; 0x65; 0x6e; 0x6f; 0x6d;
   0x73; 0x18; 0x01; 0x20; 0x03; 0x28; 0x09; 0x42; 0x11; 0xf2; 0xde; 0x1f; 0x0d; 0x79; 0x61; 0x6d;
   0x6c; 0x3a; 0x22; 0x64; 0x65; 0x6e; 0x6f; 0x6d; 0x73; 0x22; 0x52; 0x06; 0x64; 0x65; 0x6e; 0x6f;
   0x6d; 0x73; 0x22; 0x4b; 0x0a; 0x21; 0x51; 0x75; 0x65; 0x72; 0x79; 0x42; 0x65; 0x66; 0x6f; 0x72;
   0x65; 0x53; 0x65; 0x6e; 0x64; 0x48; 0x6f; 0x6f; 0x6b; 0x41; 0x64; 0x64; 0x72; 0x65; 0x73; 0x73;
   0x52; 0x65; 0x71; 0x75; 0x65; 0x73; 0x74; 0x12; 0x26; 0x0a; 0x05; 0x64; 0x65; 0x6e; 0x6f; 0x6d;
   0x18; 0x01; 0x20; 0x01; 0x28; 0x09; 0x42; 0x10; 0xf2; 0xde; 0x1f; 0x0c; 0x79; 0x61; 0x6d; 0x6c;
   0x3a; 0x22; 0x64; 0x65; 0x6e; 0x6f; 0x6d; 0x22; 0x52; 0x05; 0x64; 0x65; 0x6e; 0x6f; 0x6d; 0x22;
   0x6c; 0x0a; 0x22; 0x51; 0x75; 0x65; 0x72; 0x79; 0x42; 0x65; 0x66; 0x6f; 0x72; 0x65; 0x53; 0x65;
   0x6e; 0x64; 0x48; 0x6f; 0x6f; 0x6b; 0x41; 0x64; 0x64; 0x72; 0x65; 0x73; 0x73; 0x52; 0x65; 0x73;
   0x70; 0x6f; 0x6e; 0x73; 0x65; 0x12; 0x46; 0x0a; 0x10; 0x63; 0x6f; 0x73; 0x6d; 0x77; 0x61; 0x73;
   0x6d; 0x5f; 0x61; 0x64; 0x64; 0x72; 0x65; 0x73; 0x73; 0x18; 0x01; 0x20; 0x01; 0x28; 0x09; 0x42;
   0x1b; 0xf2; 0xde; 0x1f; 0x17; 0x79; 0x61; 0x6d; 0x6c; 0x3a; 0x22; 0x63; 0x6f; 0x73; 0x6d; 0x77;
   0x61; 0x73; 0x6d; 0x5f; 0x61; 0x64; 0x64; 0x72; 0x65; 0x73; 0x73; 0x22; 0x52; 0x0f; 0x63; 0x6f;
   0x73; 0x6d; 0x77; 0x61; 0x73; 0x6d; 0x41; 0x64; 0x64; 0x72; 0x65; 0x73; 0x73; 0x32; 0x98; 0x06;
   0x0a; 0x05; 0x51; 0x75; 0x65; 0x72; 0x79; 0x12; 0x8f; 0x01; 0x0a; 0x06; 0x50; 0x61; 0x72; 0x61;
   0x6d; 0x73; 0x12; 0x2c; 0x2e; 0x6d; 0x69; 0x6e; 0x69; 0x77; 0x61; 0x73; 0x6d; 0x2e; 0x74; 0x6f;
   0x6b; 0x65; 0x6e; 0x66; 0x61; 0x63; 0x74; 0x6f; 0x72; 0x79; 0x2e; 0x76; 0x31; 0x2e; 0x51; 0x75;
   0x65; 0x72; 0x79; 0x50; 0x61; 0x72; 0x61; 0x6d; 0x73; 0x52; 0x65; 0x71; 0x75; 0x65; 0x73; 0x74;
   0x1a; 0x2d; 0x2e; 0x6d; 0x69; 0x6e; 0x69; 0x77; 0x61; 0x73; 0x6d; 0x2e; 0x74; 0x6f; 0x6b; 0x65;
   0x6e; 0x66; 0x61; 0x63; 0x74; 0x6f; 0x72; 0x79; 0x2e; 0x76; 0x31; 0x2e; 0x51; 0x75; 0x65; 0x72;
   0x79; 0x50; 0x61; 0x72; 0x61; 0x6d; 0x73; 0x52; 0x65; 0x73; 0x70; 0x6f; 0x6e; 0x73; 0x65; 0x22;
   0x28; 0x82; 0xd3; 0xe4; 0x93; 0x02; 0x22; 0x12; 0x20; 0x2f; 0x6d; 0x69; 0x6e; 0x69; 0x77; 0x61;
   0x73; 0x6d; 0x2f; 0x74; 0x6f; 0x6b; 0x65; 0x6e; 0x66; 0x61; 0x63; 0x74; 0x6f; 0x72; 0x79; 0x2f;
   0x76; 0x31; 0x2f; 0x70; 0x61; 0x72; 0x61; 0x6d; 0x73; 0x12; 0xda; 0x01; 0x0a; 0x16; 0x44; 0x65;
   0x6e; 0x6f; 0x6d; 0x41; 0x75; 0x74; 0x68; 0x6f; 0x72; 0x69; 0x74; 0x79; 0x4d; 0x65; 0x74; 0x61;
   0x64; 0x61; 0x74; 0x61; 0x12; 0x3c; 0x2e; 0x6d; 0x69; 0x6e; 0x69; 0x77; 0x61; 0x73; 0x6d; 0x2e;
   0x74; 0x6f; 0x6b; 0x65; 0x6e; 0x66; 0x61; 0x63; 0x74; 0x6f; 0x72; 0x79; 0x2e; 0x76; 0x31; 0x2e;
   0x51; 0x75; 0x65; 0x72; 0x79; 0x44; 0x65; 0x6e; 0x6f; 0x6d; 0x41; 0x75; 0x74; 0x68; 0x6f; 0x72;
   0x69; 0x74; 0x79; 0x4d; 0x65; 0x74; 0x61; 0x64; 0x61; 0x74; 0x61; 0x52; 0x65; 0x71; 0x75; 0x65;
   0x73; 0x74; 0x1a; 0x3d; 0x2e; 0x6d; 0x69; 0x6e; 0x69; 0x77; 0x61; 0x73; 0x6d; 0x2e; 0x74; 0x6f;
   0x6b; 0x65; 0x6e; 0x66; 0x61; 0x63; 0x74; 0x6f; 0x72; 0x79; 0x2e; 0x76; 0x31; 0x2e; 0x51; 0x75;
   0x65; 0x72; 0x79; 0x44; 0x65; 0x6e; 0x6f; 0x6d; 0x41; 0x75; 0x74; 0x68; 0x6f; 0x72; 0x69; 0x74;
   0x79; 0x4d; 0x65; 0x74; 0x61; 0x64; 0x61; 0x74; 0x61; 0x52; 0x65; 0x73; 0x70; 0x6f; 0x6e; 0x73;
   0x65; 0x22; 0x43; 0x82; 0xd3; 0xe4; 0x93; 0x02; 0x3d; 0x12; 0x3b; 0x2f; 0x6d; 0x69; 0x6e; 0x69;
   0x77; 0x61; 0x73; 0x6d; 0x2f; 0x74; 0x6f; 0x6b; 0x65; 0x6e; 0x66; 0x61; 0x63; 0x74; 0x6f; 0x72;
   0x79; 0x2f; 0x76; 0x31; 0x2f; 0x64; 0x65; 0x6e; 0x6f; 0x6d; 0x73; 0x2f; 0x7b; 0x64; 0x65; 0x6e;
   0x6f; 0x6d; 0x7d; 0x2f; 0x61; 0x75; 0x74; 0x68; 0x6f; 0x72; 0x69; 0x74; 0x79; 0x5f; 0x6d; 0x65;
   0x74; 0x61; 0x64; 0x61; 0x74; 0x61; 0x12; 0xc7; 0x01; 0x0a; 0x11; 0x44; 0x65; 0x6e; 0x6f; 0x6d;
   0x73; 0x46; 0x72; 0x6f; 0x6d; 0x43; 0x72; 0x65; 0x61; 0x74; 0x6f; 0x72; 0x12; 0x37; 0x2e; 0x6d;
   0x69; 0x6e; 0x69; 0x77; 0x61; 0x73; 0x6d; 0x2e; 0x74; 0x6f; 0x6b; 0x65; 0x6e; 0x66; 0x61; 0x63;
   0x74; 0x6f; 0x72; 0x79; 0x2e; 0x76; 0x31; 0x2e; 0x51; 0x75; 0x65; 0x72; 0x79; 0x44; 0x65; 0x6e;
   0x6f; 0x6d; 0x73; 0x46; 0x72; 0x6f; 0x6d; 0x43; 0x72; 0x65; 0x61; 0x74; 0x6f; 0x72; 0x52; 0x65;
   0x71; 0x75; 0x65; 0x73; 0x74; 0x1a; 0x38; 0x2e; 0x6d; 0x69; 0x6e; 0x69; 0x77; 0x61; 0x73; 0x6d;
   0x2e; 0x74; 0x6f; 0x6b; 0x65; 0x6e; 0x66; 0x61; 0x63; 0x74; 0x6f; 0x72; 0x79; 0x2e; 0x76; 0x31;
   0x2e; 0x51; 0x75; 0x65; 0x72; 0x79; 0x44; 0x65; 0x6e; 0x6f; 0x6d; 0x73; 0x46; 0x72; 0x6f; 0x6d;
   0x43; 0x72; 0x65; 0x61; 0x74; 0x6f; 0x72; 0x52; 0x65; 0x73; 0x70; 0x6f; 0x6e; 0x73; 0x65; 0x22;
   0x3f; 0x82; 0xd3; 0xe4; 0x93; 0x02; 0x39; 0x12; 0x37; 0x2f; 0x6d; 0x69; 0x6e; 0x69; 0x77; 0x61;
   0x73; 0x6d; 0x2f; 0x74; 0x6f; 0x6b; 0x65; 0x6e; 0x66; 0x61; 0x63; 0x74; 0x6f; 0x72; 0x79; 0x2f;
   0x76; 0x31; 0x2f; 0x64; 0x65; 0x6e; 0x6f; 0x6d; 0x73; 0x5f; 0x66; 0x72; 0x6f; 0x6d; 0x5f; 0x63;
   0x72; 0x65; 0x61; 0x74; 0x6f; 0x72; 0x2f; 0x7b; 0x63; 0x72; 0x65; 0x61; 0x74; 0x6f; 0x72; 0x7d;
   0x12; 0xd5; 0x01; 0x0a; 0x15; 0x42; 0x65; 0x66; 0x6f; 0x72; 0x65; 0x53; 0x65; 0x6e; 0x64; 0x48;
   0x6f; 0x6f; 0x6b; 0x41; 0x64; 0x64; 0x72; 0x65; 0x73; 0x73; 0x12; 0x3b; 0x2e; 0x6d; 0x69; 0x6e;
   0x69; 0x77; 0x61; 0x73; 0x6d; 0x2e; 0x74; 0x6f; 0x6b; 0x65; 0x6e; 0x66; 0x61; 0x63; 0x74; 0x6f;
   0x72; 0x79; 0x2e; 0x76; 0x31; 0x2e; 0x51; 0x75; 0x65; 0x72; 0x79; 0x42; 0x65; 0x66; 0x6f; 0x72;
   0x65; 0x53; 0x65; 0x6e; 0x64; 0x48; 0x6f; 0x6f; 0x6b; 0x41; 0x64; 0x64; 0x72; 0x65; 0x73; 0x73;
   0x52; 0x65; 0x71; 0x75; 0x65; 0x73; 0x74; 0x1a; 0x3c; 0x2e; 0x6d; 0x69; 0x6e; 0x69; 0x77; 0x61;
   0x73; 0x6d; 0x2e; 0x74; 0x6f; 0x6b; 0x65; 0x6e; 0x66; 0x61; 0x63; 0x74; 0x6f; 0x72; 0x79; 0x2e;
   0x76; 0x31; 0x2e; 0x51; 0x75; 0x65; 0x72; 0x79; 0x42; 0x65; 0x66; 0x6f; 0x72; 0x65; 0x53; 0x65;
   0x6e; 0x64; 0x48; 0x6f; 0x6f; 0x6b; 0x41; 0x64; 0x64; 0x72; 0x65; 0x73; 0x73; 0x52; 0x65; 0x73;
   0x70; 0x6f; 0x6e; 0x73; 0x65; 0x22; 0x41; 0x82; 0xd3; 0xe4; 0x93; 0x02; 0x3b; 0x12; 0x39; 0x2f;
   0x6d; 0x69; 0x6e; 0x69; 0x77; 0x61; 0x73; 0x6d; 0x2f; 0x74; 0x6f; 0x6b; 0x65; 0x6e; 0x66; 0x61;
   0x63; 0x74; 0x6f; 0x72; 0x79; 0x2f; 0x76; 0x31; 0x2f; 0x64; 0x65; 0x6e; 0x6f; 0x6d; 0x73; 0x2f;
   0x7b; 0x64; 0x65; 0x6e; 0x6f; 0x6d; 0x7d; 0x2f; 0x62; 0x65; 0x66; 0x6f; 0x72; 0x65; 0x5f; 0x73;
   0x65; 0x6e; 0x64; 0x5f; 0x68; 0x6f; 0x6f; 0x6b; 0x42; 0xf9; 0x01; 0x0a; 0x1c; 0x63; 0x6f; 0x6d;
   0x2e; 0x6d; 0x69; 0x6e; 0x69; 0x77; 0x61; 0x73; 0x6d; 0x2e; 0x74; 0x6f; 0x6b; 0x65; 0x6e; 0x66;
   0x61; 0x63; 0x74; 0x6f; 0x72; 0x79; 0x2e; 0x76; 0x31; 0x42; 0x0a; 0x51; 0x75; 0x65; 0x72; 0x79;
   0x50; 0x72; 0x6f; 0x74; 0x6f; 0x50; 0x01; 0x5a; 0x4b; 0x67; 0x69; 0x74; 0x68; 0x75; 0x62; 0x2e;
   0x63; 0x6f; 0x6d; 0x2f; 0x69; 0x6e; 0x69; 0x74; 0x69; 0x61; 0x2d; 0x6c; 0x61; 0x62; 0x73; 0x2f;
   0x6d; 0x69; 0x6e; 0x69; 0x77; 0x61; 0x73; 0x6d; 0x2f; 0x61; 0x70; 0x69; 0x2f; 0x6d; 0x69; 0x6e;
   0x69; 0x77; 0x61; 0x73; 0x6d; 0x2f; 0x74; 0x6f; 0x6b; 0x65; 0x6e; 0x66; 0x61; 0x63; 0x74; 0x6f;
   0x72; 0x79; 0x2f; 0x76; 0x31; 0x3b; 0x74; 0x6f; 0x6b; 0x65; 0x6e; 0x66; 0x61; 0x63; 0x74; 0x6f;
   0x72; 0x79; 0x76; 0x31; 0xa2; 0x02; 0x03; 0x4d; 0x54; 0x58; 0xaa; 0x02; 0x18; 0x4d; 0x69; 0x6e;
   0x69; 0x77; 0x61; 0x73; 0x6d; 0x2e; 0x54; 0x6f; 0x6b; 0x65; 0x6e; 0x66; 0x61; 0x63; 0x74; 0x6f;
   0x72; 0x79; 0x2e; 0x56; 0x31; 0xca; 0x02; 0x18; 0x4d; 0x69; 0x6e; 0x69; 0x77; 0x61; 0x73; 0x6d;
   0x5c; 0x54; 0x6f; 0x6b; 0x65; 0x6e; 0x66; 0x61; 0x63; 0x74; 0x6f; 0x72; 0x79; 0x5c; 0x56; 0x31;
   0xe2; 0x02; 0x24; 0x4d; 0x69; 0x6e; 0x69; 0x77; 0x61; 0x73; 0x6d; 0x5c; 0x54; 0x6f; 0x6b; 0x65;
   0x6e; 0x66; 0x61; 0x63; 0x74; 0x6f; 0x72; 0x79; 0x5c; 0x56; 0x31; 0x5c; 0x47; 0x50; 0x42; 0x4d;
   0x65; 0x74; 0x61; 0x64; 0x61; 0x74; 0x61; 0xea; 0x02; 0x1a; 0x4d; 0x69; 0x6e; 0x69; 0x77; 0x61;
   0x73; 0x6d; 0x3a; 0x3a; 0x54; 0x6f; 0x6b; 0x65; 0x6e; 0x66; 0x61; 0x63; 0x74; 0x6f; 0x72; 0x79;
   0x3a; 0x3a; 0x56; 0x31; 0x62; 0x06; 0x70; 0x72; 0x6f; 0x74; 0x6f; 0x33].

Definition v1_query_goTypes : list gotype :=
  [Own "QueryParamsRequest";
   Own "QueryParamsResponse";
   Own "QueryDenomAuthorityMetadataRequest";
   Own "QueryDenomAuthorityMetadataResponse";
   Own "QueryDenomsFromCreatorRequest";
   Own "QueryDenomsFromCreatorResponse";
   Own "QueryBeforeSendHookAddressRequest";
   Own "QueryBeforeSendHookAddressResponse";
   Own "Params";
   Own "DenomAuthorityMetadata"].

Definition v1_query_depIdxs : list Z := [8; 9; 0; 2; 4; 6; 1; 3; 5; 7; 6; 2; 2; 2; 0].


(** ** api/miniwasm/tokenfactory/v1/tx.pulsar.go *)

Definition v1_tx_rawDesc : list Z :=
  [0x0a; 0x21; 0x6d; 0x69; 0x6e; 0x69; 0x77; 0x61; 0x73; 0x6d; 0x2f; 0x74; 0x6f; 0x6b; 0x65; 0x6e;
   0x66; 0x61; 0x63; 0x74; 0x6f; 0x72; 0x79; 0x2f; 0x76; 0x31; 0x2f; 0x74; 0x78; 0x2e; 0x70; 0x72;
   0x6f; 0x74; 0x6f; 0x12; 0x18; 0x6d; 0x69; 0x6e; 0x69; 0x77; 0x61; 0x73; 0x6d; 0x2e; 0x74; 0x6f;
   0x6b; 0x65; 0x6e; 0x66; 0x61; 0x63; 0x74; 0x6f; 0x72; 0x79; 0x2e; 0x76; 0x31; 0x1a; 0x11; 0x61;
   0x6d; 0x69; 0x6e; 0x6f; 0x2f; 0x61; 0x6d; 0x69; 0x6e; 0x6f; 0x2e; 0x70; 0x72; 0x6f; 0x74; 0x6f;
   0x1a; 0x1e; 0x63; 0x6f; 0x73; 0x6d; 0x6f; 0x73; 0x2f; 0x62; 0x61; 0x6e; 0x6b; 0x2f; 0x76; 0x31;
   0x62; 0x65; 0x74; 0x61; 0x31; 0x2f; 0x62; 0x61; 0x6e; 0x6b; 0x2e; 0x70; 0x72; 0x6f; 0x74; 0x6f;
   0x1a; 0x1e; 0x63; 0x6f; 0x73; 0x6d; 0x6f; 0x73; 0x2f; 0x62; 0x61; 0x73; 0x65; 0x2f; 0x76; 0x31;
   0x62; 0x65; 0x74; 0x61; 0x31; 0x2f; 0x63; 0x6f; 0x69; 0x6e; 0x2e; 0x70; 0x72; 0x6f; 0x74; 0x6f;
   0x1a; 0x17; 0x63; 0x6f; 0x73; 0x6d; 0x6f; 0x73; 0x2f; 0x6d; 0x73; 0x67; 0x2f; 0x76; 0x31; 0x2f;
   0x6d; 0x73; 0x67; 0x2e; 0x70; 0x72; 0x6f; 0x74; 0x6f; 0x1a; 0x19; 0x63; 0x6f; 0x73; 0x6d; 0x6f;
   0x73; 0x5f; 0x70; 0x72; 0x6f; 0x74; 0x6f; 0x2f; 0x63; 0x6f; 0x73; 0x6d; 0x6f; 0x73; 0x2e; 0x70;
   0x72; 0x6f; 0x74; 0x6f; 0x1a; 0x14; 0x67; 0x6f; 0x67; 0x6f; 0x70; 0x72; 0x6f; 0x74; 0x6f; 0x2f;
   0x67; 0x6f; 0x67; 0x6f; 0x2e; 0x70; 0x72; 0x6f; 0x74; 0x6f; 0x1a; 0x25; 0x6d; 0x69; 0x6e; 0x69;
   0x77; 0x61; 0x73; 0x6d; 0x2f; 0x74; 0x6f; 0x6b; 0x65; 0x6e; 0x66; 0x61; 0x63; 0x74; 0x6f; 0x72;
   0x79; 0x2f; 0x76; 0x31; 0x2f; 0x70; 0x61; 0x72; 0x61; 0x6d; 0x73; 0x2e; 0x70; 0x72; 0x6f; 0x74;
   0x6f; 0x22; 0xa0; 0x01; 0x0a; 0x0e; 0x4d; 0x73; 0x67; 0x43; 0x72; 0x65; 0x61; 0x74; 0x65; 0x44;
   0x65; 0x6e; 0x6f; 0x6d; 0x12; 0x30; 0x0a; 0x06; 0x73; 0x65; 0x6e; 0x64; 0x65; 0x72; 0x18; 0x01;
   0x20; 0x01; 0x28; 0x09; 0x42; 0x18; 0xd2; 0xb4; 0x2d; 0x14; 0x63; 0x6f; 0x73; 0x6d; 0x6f; 0x73;
   0x2e; 0x41; 0x64; 0x64; 0x72; 0x65; 0x73; 0x73; 0x53; 0x74; 0x72; 0x69; 0x6e; 0x67; 0x52; 0x06;
   0x73; 0x65; 0x6e; 0x64; 0x65; 0x72; 0x12; 0x2f; 0x0a; 0x08; 0x73; 0x75; 0x62; 0x64; 0x65; 0x6e;
   0x6f; 0x6d; 0x18; 0x02; 0x20; 0x01; 0x28; 0x09; 0x42; 0x13; 0xf2; 0xde; 0x1f; 0x0f; 0x79; 0x61;
   0x6d; 0x6c; 0x3a; 0x22; 0x73; 0x75; 0x62; 0x64; 0x65; 0x6e; 0x6f; 0x6d; 0x22; 0x52; 0x08; 0x73;
   0x75; 0x62; 0x64; 0x65; 0x6e; 0x6f; 0x6d; 0x3a; 0x2b; 0x82; 0xe7; 0xb0; 0x2a; 0x06; 0x73; 0x65;
   0x6e; 0x64; 0x65; 0x72; 0x8a; 0xe7; 0xb0; 0x2a; 0x1b; 0x74; 0x6f; 0x6b; 0x65; 0x6e; 0x66; 0x61;
   0x63; 0x74; 0x6f; 0x72; 0x79; 0x2f; 0x4d; 0x73; 0x67; 0x43; 0x72; 0x65; 0x61; 0x74; 0x65; 0x44;
   0x65; 0x6e; 0x6f; 0x6d; 0x22; 0x5c; 0x0a; 0x16; 0x4d; 0x73; 0x67; 0x43; 0x72; 0x65; 0x61; 0x74;
   0x65; 0x44; 0x65; 0x6e; 0x6f; 0x6d; 0x52; 0x65; 0x73; 0x70; 0x6f; 0x6e; 0x73; 0x65; 0x12; 0x42;
   0x0a; 0x0f; 0x6e; 0x65; 0x77; 0x5f; 0x74; 0x6f; 0x6b; 0x65; 0x6e; 0x5f; 0x64; 0x65; 0x6e; 0x6f;
   0x6d; 0x18; 0x01; 0x20; 0x01; 0x28; 0x09; 0x42; 0x1a; 0xf2; 0xde; 0x1f; 0x16; 0x79; 0x61; 0x6d;
   0x6c; 0x3a; 0x22; 0x6e; 0x65; 0x77; 0x5f; 0x74; 0x6f; 0x6b; 0x65; 0x6e; 0x5f; 0x64; 0x65; 0x6e;
   0x6f; 0x6d; 0x22; 0x52; 0x0d; 0x6e; 0x65; 0x77; 0x54; 0x6f; 0x6b; 0x65; 0x6e; 0x44; 0x65; 0x6e;
   0x6f; 0x6d; 0x22; 0xf4; 0x01; 0x0a; 0x07; 0x4d; 0x73; 0x67; 0x4d; 0x69; 0x6e; 0x74; 0x12; 0x30;
   0x0a; 0x06; 0x73; 0x65; 0x6e; 0x64; 0x65; 0x72; 0x18; 0x01; 0x20; 0x01; 0x28; 0x09; 0x42; 0x18;
   0xd2; 0xb4; 0x2d; 0x14; 0x63; 0x6f; 0x73; 0x6d; 0x6f; 0x73; 0x2e; 0x41; 0x64; 0x64; 0x72; 0x65;
   0x73; 0x73; 0x53; 0x74; 0x72; 0x69; 0x6e; 0x67; 0x52; 0x06; 0x73; 0x65; 0x6e; 0x64; 0x65; 0x72;
   0x12; 0x48; 0x0a; 0x06; 0x61; 0x6d; 0x6f; 0x75; 0x6e; 0x74; 0x18; 0x02; 0x20; 0x01; 0x28; 0x0b;
   0x32; 0x19; 0x2e; 0x63; 0x6f; 0x73; 0x6d; 0x6f; 0x73; 0x2e; 0x62; 0x61; 0x73; 0x65; 0x2e; 0x76;
   0x31; 0x62; 0x65; 0x74; 0x61; 0x31; 0x2e; 0x43; 0x6f; 0x69; 0x6e; 0x42; 0x15; 0xc8; 0xde; 0x1f;
   0x00; 0xf2; 0xde; 0x1f; 0x0d; 0x79; 0x61; 0x6d; 0x6c; 0x3a; 0x22; 0x61; 0x6d; 0x6f; 0x75; 0x6e;
   0x74; 0x22; 0x52; 0x06; 0x61; 0x6d; 0x6f; 0x75; 0x6e; 0x74; 0x12; 0x47; 0x0a; 0x0f; 0x6d; 0x69;
   0x6e; 0x74; 0x5f; 0x74; 0x6f; 0x5f; 0x61; 0x64; 0x64; 0x72; 0x65; 0x73; 0x73; 0x18; 0x03; 0x20;
   0x01; 0x28; 0x09; 0x42; 0x1f; 0xf2; 0xde; 0x1f; 0x16; 0x79; 0x61; 0x6d; 0x6c; 0x3a; 0x22; 0x6d;
   0x69; 0x6e; 0x74; 0x5f; 0x74; 0x6f; 0x5f; 0x61; 0x64; 0x64; 0x72; 0x65; 0x73; 0x73; 0x22; 0xa8;
   0xe7; 0xb0; 0x2a; 0x01; 0x52; 0x0d; 0x6d; 0x69; 0x6e; 0x74; 0x54; 0x6f; 0x41; 0x64; 0x64; 0x72;
   0x65; 0x73; 0x73; 0x3a; 0x24; 0x82; 0xe7; 0xb0; 0x2a; 0x06; 0x73; 0x65; 0x6e; 0x64; 0x65; 0x72;
   0x8a; 0xe7; 0xb0; 0x2a; 0x14; 0x74; 0x6f; 0x6b; 0x65; 0x6e; 0x66; 0x61; 0x63; 0x74; 0x6f; 0x72;
   0x79; 0x2f; 0x4d; 0x73; 0x67; 0x4d; 0x69; 0x6e; 0x74; 0x22; 0x11; 0x0a; 0x0f; 0x4d; 0x73; 0x67;
   0x4d; 0x69; 0x6e; 0x74; 0x52; 0x65; 0x73; 0x70; 0x6f; 0x6e; 0x73; 0x65; 0x22; 0xab; 0x01; 0x0a;
   0x07; 0x4d; 0x73; 0x67; 0x42; 0x75; 0x72; 0x6e; 0x12; 0x30; 0x0a; 0x06; 0x73; 0x65; 0x6e; 0x64;
   0x65; 0x72; 0x18; 0x01; 0x20; 0x01; 0x28; 0x09; 0x42; 0x18; 0xd2; 0xb4; 0x2d; 0x14; 0x63; 0x6f;
   0x73; 0x6d; 0x6f; 0x73; 0x2e; 0x41; 0x64; 0x64; 0x72; 0x65; 0x73; 0x73; 0x53; 0x74; 0x72; 0x69;
   0x6e; 0x67; 0x52; 0x06; 0x73; 0x65; 0x6e; 0x64; 0x65; 0x72; 0x12; 0x48; 0x0a; 0x06; 0x61; 0x6d;
   0x6f; 0x75; 0x6e; 0x74; 0x18; 0x02; 0x20; 0x01; 0x28; 0x0b; 0x32; 0x19; 0x2e; 0x63; 0x6f; 0x73;
   0x6d; 0x6f; 0x73; 0x2e; 0x62; 0x61; 0x73; 0x65; 0x2e; 0x76; 0x31; 0x62; 0x65; 0x74; 0x61; 0x31;
   0x2e; 0x43; 0x6f; 0x69; 0x6e; 0x42; 0x15; 0xc8; 0xde; 0x1f; 0x00; 0xf2; 0xde; 0x1f; 0x0d; 0x79;
   0x61; 0x6d; 0x6c; 0x3a; 0x22; 0x61; 0x6d; 0x6f; 0x75; 0x6e; 0x74; 0x22; 0x52; 0x06; 0x61; 0x6d;
   0x6f; 0x75; 0x6e; 0x74; 0x3a; 0x24; 0x82; 0xe7; 0xb0; 0x2a; 0x06; 0x73; 0x65; 0x6e; 0x64; 0x65;
   0x72; 0x8a; 0xe7; 0xb0; 0x2a; 0x14; 0x74; 0x6f; 0x6b; 0x65; 0x6e; 0x66; 0x61; 0x63; 0x74; 0x6f;
   0x72; 0x79; 0x2f; 0x4d; 0x73; 0x67; 0x42; 0x75; 0x72; 0x6e; 0x22; 0x11; 0x0a; 0x0f; 0x4d; 0x73;
   0x67; 0x42; 0x75; 0x72; 0x6e; 0x52; 0x65; 0x73; 0x70; 0x6f; 0x6e; 0x73; 0x65; 0x22; 0xca; 0x01;
   0x0a; 0x0e; 0x4d; 0x73; 0x67; 0x43; 0x68; 0x61; 0x6e; 0x67; 0x65; 0x41; 0x64; 0x6d; 0x69; 0x6e;
   0x12; 0x30; 0x0a; 0x06; 0x73; 0x65; 0x6e; 0x64; 0x65; 0x72; 0x18; 0x01; 0x20; 0x01; 0x28; 0x09;
   0x42; 0x18; 0xd2; 0xb4; 0x2d; 0x14; 0x63; 0x6f; 0x73; 0x6d; 0x6f; 0x73; 0x2e; 0x41; 0x64; 0x64;
   0x72; 0x65; 0x73; 0x73; 0x53; 0x74; 0x72; 0x69; 0x6e; 0x67; 0x52; 0x06; 0x73; 0x65; 0x6e; 0x64;
   0x65; 0x72; 0x12; 0x26; 0x0a; 0x05; 0x64; 0x65; 0x6e; 0x6f; 0x6d; 0x18; 0x02; 0x20; 0x01; 0x28;
   0x09; 0x42; 0x10; 0xf2; 0xde; 0x1f; 0x0c; 0x79; 0x61; 0x6d; 0x6c; 0x3a; 0x22; 0x64; 0x65; 0x6e;
   0x6f; 0x6d; 0x22; 0x52; 0x05; 0x64; 0x65; 0x6e; 0x6f; 0x6d; 0x12; 0x31; 0x0a; 0x09; 0x6e; 0x65;
   0x77; 0x5f; 0x61; 0x64; 0x6d; 0x69; 0x6e; 0x18; 0x03; 0x20; 0x01; 0x28; 0x09; 0x42; 0x14; 0xf2;
   0xde; 0x1f; 0x10; 0x79; 0x61; 0x6d; 0x6c; 0x3a; 0x22; 0x6e; 0x65; 0x77; 0x5f; 0x61; 0x64; 0x6d;
   0x69; 0x6e; 0x22; 0x52; 0x08; 0x6e; 0x65; 0x77; 0x41; 0x64; 0x6d; 0x69; 0x6e; 0x3a; 0x2b; 0x82;
   0xe7; 0xb0; 0x2a; 0x06; 0x73; 0x65; 0x6e; 0x64; 0x65; 0x72; 0x8a; 0xe7; 0xb0; 0x2a; 0x1b; 0x74;
   0x6f; 0x6b; 0x65; 0x6e; 0x66; 0x61; 0x63; 0x74; 0x6f; 0x72; 0x79; 0x2f; 0x4d; 0x73; 0x67; 0x43;
   0x68; 0x61; 0x6e; 0x67; 0x65; 0x41; 0x64; 0x6d; 0x69; 0x6e; 0x22; 0x18; 0x0a; 0x16; 0x4d; 0x73;
   0x67; 0x43; 0x68; 0x61; 0x6e; 0x67; 0x65; 0x41; 0x64; 0x6d; 0x69; 0x6e; 0x52; 0x65; 0x73; 0x70;
   0x6f; 0x6e; 0x73; 0x65; 0x22; 0xf0; 0x01; 0x0a; 0x14; 0x4d; 0x73; 0x67; 0x53; 0x65; 0x74; 0x42;
   0x65; 0x66; 0x6f; 0x72; 0x65; 0x53; 0x65; 0x6e; 0x64; 0x48; 0x6f; 0x6f; 0x6b; 0x12; 0x30; 0x0a;
   0x06; 0x73; 0x65; 0x6e; 0x64; 0x65; 0x72; 0x18; 0x01; 0x20; 0x01; 0x28; 0x09; 0x42; 0x18; 0xd2;
   0xb4; 0x2d; 0x14; 0x63; 0x6f; 0x73; 0x6d; 0x6f; 0x73; 0x2e; 0x41; 0x64; 0x64; 0x72; 0x65; 0x73;
   0x73; 0x53; 0x74; 0x72; 0x69; 0x6e; 0x67; 0x52; 0x06; 0x73; 0x65; 0x6e; 0x64; 0x65; 0x72; 0x12;
   0x26; 0x0a; 0x05; 0x64; 0x65; 0x6e; 0x6f; 0x6d; 0x18; 0x02; 0x20; 0x01; 0x28; 0x09; 0x42; 0x10;
   0xf2; 0xde; 0x1f; 0x0c; 0x79; 0x61; 0x6d; 0x6c; 0x3a; 0x22; 0x64; 0x65; 0x6e; 0x6f; 0x6d; 0x22;
   0x52; 0x05; 0x64; 0x65; 0x6e; 0x6f; 0x6d; 0x12; 0x4b; 0x0a; 0x10; 0x63; 0x6f; 0x73; 0x6d; 0x77;
   0x61; 0x73; 0x6d; 0x5f; 0x61; 0x64; 0x64; 0x72; 0x65; 0x73; 0x73; 0x18; 0x03; 0x20; 0x01; 0x28;
   0x09; 0x42; 0x20; 0xf2; 0xde; 0x1f; 0x17; 0x79; 0x61; 0x6d; 0x6c; 0x3a; 0x22; 0x63; 0x6f; 0x73;
   0x6d; 0x77; 0x61; 0x73; 0x6d; 0x5f; 0x61; 0x64; 0x64; 0x72; 0x65; 0x73; 0x73; 0x22; 0xa8; 0xe7;
   0xb0; 0x2a; 0x01; 0x52; 0x0f; 0x63; 0x6f; 0x73; 0x6d; 0x77; 0x61; 0x73; 0x6d; 0x41; 0x64; 0x64;
   0x72; 0x65; 0x73; 0x73; 0x3a; 0x31; 0x82; 0xe7; 0xb0; 0x2a; 0x06; 0x73; 0x65; 0x6e; 0x64; 0x65;
   0x72; 0x8a; 0xe7; 0xb0; 0x2a; 0x21; 0x74; 0x6f; 0x6b; 0x65; 0x6e; 0x66; 0x61; 0x63; 0x74; 0x6f;
   0x72; 0x79; 0x2f; 0x4d; 0x73; 0x67; 0x53; 0x65; 0x74; 0x42; 0x65; 0x66; 0x6f; 0x72; 0x65; 0x53;
   0x65; 0x6e; 0x64; 0x48; 0x6f; 0x6f; 0x6b; 0x22; 0x1e; 0x0a; 0x1c; 0x4d; 0x73; 0x67; 0x53; 0x65;
   0x74; 0x42; 0x65; 0x66; 0x6f; 0x72; 0x65; 0x53; 0x65; 0x6e; 0x64; 0x48; 0x6f; 0x6f; 0x6b; 0x52;
   0x65; 0x73; 0x70; 0x6f; 0x6e; 0x73; 0x65; 0x22; 0xcd; 0x01; 0x0a; 0x13; 0x4d; 0x73; 0x67; 0x53;
   0x65; 0x74; 0x44; 0x65; 0x6e; 0x6f; 0x6d; 0x4d; 0x65; 0x74; 0x61; 0x64; 0x61; 0x74; 0x61; 0x12;
   0x30; 0x0a; 0x06; 0x73; 0x65; 0x6e; 0x64; 0x65; 0x72; 0x18; 0x01; 0x20; 0x01; 0x28; 0x09; 0x42;
   0x18; 0xd2; 0xb4; 0x2d; 0x14; 0x63; 0x6f; 0x73; 0x6d; 0x6f; 0x73; 0x2e; 0x41; 0x64; 0x64; 0x72;
   0x65; 0x73; 0x73; 0x53; 0x74; 0x72; 0x69; 0x6e; 0x67; 0x52; 0x06; 0x73; 0x65; 0x6e; 0x64; 0x65;
   0x72; 0x12; 0x52; 0x0a; 0x08; 0x6d; 0x65; 0x74; 0x61; 0x64; 0x61; 0x74; 0x61; 0x18; 0x02; 0x20;
   0x01; 0x28; 0x0b; 0x32; 0x1d; 0x2e; 0x63; 0x6f; 0x73; 0x6d; 0x6f; 0x73; 0x2e; 0x62; 0x61; 0x6e;
   0x6b; 0x2e; 0x76; 0x31; 0x62; 0x65; 0x74; 0x61; 0x31; 0x2e; 0x4d; 0x65; 0x74; 0x61; 0x64; 0x61;
   0x74; 0x61; 0x42; 0x17; 0xc8; 0xde; 0x1f; 0x00; 0xf2; 0xde; 0x1f; 0x0f; 0x79; 0x61; 0x6d; 0x6c;
   0x3a; 0x22; 0x6d; 0x65; 0x74; 0x61; 0x64; 0x61; 0x74; 0x61; 0x22; 0x52; 0x08; 0x6d; 0x65; 0x74;
   0x61; 0x64; 0x61; 0x74; 0x61; 0x3a; 0x30; 0x82; 0xe7; 0xb0; 0x2a; 0x06; 0x73; 0x65; 0x6e; 0x64;
   0x65; 0x72; 0x8a; 0xe7; 0xb0; 0x2a; 0x20; 0x74; 0x6f; 0x6b; 0x65; 0x6e; 0x66; 0x61; 0x63; 0x74;
   0x6f; 0x72; 0x79; 0x2f; 0x4d; 0x73; 0x67; 0x53; 0x65; 0x74; 0x44; 0x65; 0x6e; 0x6f; 0x6d; 0x4d;
   0x65; 0x74; 0x61; 0x64; 0x61; 0x74; 0x61; 0x22; 0x1d; 0x0a; 0x1b; 0x4d; 0x73; 0x67; 0x53; 0x65;
   0x74; 0x44; 0x65; 0x6e; 0x6f; 0x6d; 0x4d; 0x65; 0x74; 0x61; 0x64; 0x61; 0x74; 0x61; 0x52; 0x65;
   0x73; 0x70; 0x6f; 0x6e; 0x73; 0x65; 0x22; 0xbf; 0x01; 0x0a; 0x0f; 0x4d; 0x73; 0x67; 0x55; 0x70;
   0x64; 0x61; 0x74; 0x65; 0x50; 0x61; 0x72; 0x61; 0x6d; 0x73; 0x12; 0x36; 0x0a; 0x09; 0x61; 0x75;
   0x74; 0x68; 0x6f; 0x72; 0x69; 0x74; 0x79; 0x18; 0x01; 0x20; 0x01; 0x28; 0x09; 0x42; 0x18; 0xd2;
   0xb4; 0x2d; 0x14; 0x63; 0x6f; 0x73; 0x6d; 0x6f; 0x73; 0x2e; 0x41; 0x64; 0x64; 0x72; 0x65; 0x73;
   0x73; 0x53; 0x74; 0x72; 0x69; 0x6e; 0x67; 0x52; 0x09; 0x61; 0x75; 0x74; 0x68; 0x6f; 0x72; 0x69;
   0x74; 0x79; 0x12; 0x43; 0x0a; 0x06; 0x70; 0x61; 0x72; 0x61; 0x6d; 0x73; 0x18; 0x02; 0x20; 0x01;
   0x28; 0x0b; 0x32; 0x20; 0x2e; 0x6d; 0x69; 0x6e; 0x69; 0x77; 0x61; 0x73; 0x6d; 0x2e; 0x74; 0x6f;
   0x6b; 0x65; 0x6e; 0x66; 0x61; 0x63; 0x74; 0x6f; 0x72; 0x79; 0x2e; 0x76; 0x31; 0x2e; 0x50; 0x61;
   0x72; 0x61; 0x6d; 0x73; 0x42; 0x09; 0xc8; 0xde; 0x1f; 0x00; 0xa8; 0xe7; 0xb0; 0x2a; 0x01; 0x52;
   0x06; 0x70; 0x61; 0x72; 0x61; 0x6d; 0x73; 0x3a; 0x2f; 0x82; 0xe7; 0xb0; 0x2a; 0x09; 0x61; 0x75;
   0x74; 0x68; 0x6f; 0x72; 0x69; 0x74; 0x79; 0x8a; 0xe7; 0xb0; 0x2a; 0x1c; 0x74; 0x6f; 0x6b; 0x65;
   0x6e; 0x66; 0x61; 0x63; 0x74; 0x6f; 0x72; 0x79; 0x2f; 0x4d; 0x73; 0x67; 0x55; 0x70; 0x64; 0x61;
   0x74; 0x65; 0x50; 0x61; 0x72; 0x61; 0x6d; 0x73; 0x22; 0x19; 0x0a; 0x17; 0x4d; 0x73; 0x67; 0x55;
   0x70; 0x64; 0x61; 0x74; 0x65; 0x50; 0x61; 0x72; 0x61; 0x6d; 0x73; 0x52; 0x65; 0x73; 0x70; 0x6f;
   0x6e; 0x73; 0x65; 0x32; 0xf3; 0x05; 0x0a; 0x03; 0x4d; 0x73; 0x67; 0x12; 0x69; 0x0a; 0x0b; 0x43;
   0x72; 0x65; 0x61; 0x74; 0x65; 0x44; 0x65; 0x6e; 0x6f; 0x6d; 0x12; 0x28; 0x2e; 0x6d; 0x69; 0x6e;
   0x69; 0x77; 0x61; 0x73; 0x6d; 0x2e; 0x74; 0x6f; 0x6b; 0x65; 0x6e; 0x66; 0x61; 0x63; 0x74; 0x6f;
   0x72; 0x79; 0x2e; 0x76; 0x31; 0x2e; 0x4d; 0x73; 0x67; 0x43; 0x72; 0x65; 0x61; 0x74; 0x65; 0x44;
   0x65; 0x6e; 0x6f; 0x6d; 0x1a; 0x30; 0x2e; 0x6d; 0x69; 0x6e; 0x69; 0x77; 0x61; 0x73; 0x6d; 0x2e;
   0x74; 0x6f; 0x6b; 0x65; 0x6e; 0x66; 0x61; 0x63; 0x74; 0x6f; 0x72; 0x79; 0x2e; 0x76; 0x31; 0x2e;
   0x4d; 0x73; 0x67; 0x43; 0x72; 0x65; 0x61; 0x74; 0x65; 0x44; 0x65; 0x6e; 0x6f; 0x6d; 0x52; 0x65;
   0x73; 0x70; 0x6f; 0x6e; 0x73; 0x65; 0x12; 0x54; 0x0a; 0x04; 0x4d; 0x69; 0x6e; 0x74; 0x12; 0x21;
   0x2e; 0x6d; 0x69; 0x6e; 0x69; 0x77; 0x61; 0x73; 0x6d; 0x2e; 0x74; 0x6f; 0x6b; 0x65; 0x6e; 0x66;
   0x61; 0x63; 0x74; 0x6f; 0x72; 0x79; 0x2e; 0x76; 0x31; 0x2e; 0x4d; 0x73; 0x67; 0x4d; 0x69; 0x6e;
   0x74; 0x1a; 0x29; 0x2e; 0x6d; 0x69; 0x6e; 0x69; 0x77; 0x61; 0x73; 0x6d; 0x2e; 0x74; 0x6f; 0x6b;
   0x65; 0x6e; 0x66; 0x61; 0x63; 0x74; 0x6f; 0x72; 0x79; 0x2e; 0x76; 0x31; 0x2e; 0x4d; 0x73; 0x67;
   0x4d; 0x69; 0x6e; 0x74; 0x52; 0x65; 0x73; 0x70; 0x6f; 0x6e; 0x73; 0x65; 0x12; 0x54; 0x0a; 0x04;
   0x42; 0x75; 0x72; 0x6e; 0x12; 0x21; 0x2e; 0x6d; 0x69; 0x6e; 0x69; 0x77; 0x61; 0x73; 0x6d; 0x2e;
   0x74; 0x6f; 0x6b; 0x65; 0x6e; 0x66; 0x61; 0x63; 0x74; 0x6f; 0x72; 0x79; 0x2e; 0x76; 0x31; 0x2e;
   0x4d; 0x73; 0x67; 0x42; 0x75; 0x72; 0x6e; 0x1a; 0x29; 0x2e; 0x6d; 0x69; 0x6e; 0x69; 0x77; 0x61;
   0x73; 0x6d; 0x2e; 0x74; 0x6f; 0x6b; 0x65; 0x6e; 0x66; 0x61; 0x63; 0x74; 0x6f; 0x72; 0x79; 0x2e;
   0x76; 0x31; 0x2e; 0x4d; 0x73; 0x67; 0x42; 0x75; 0x72; 0x6e; 0x52; 0x65; 0x73; 0x70; 0x6f; 0x6e;
   0x73; 0x65; 0x12; 0x69; 0x0a; 0x0b; 0x43; 0x68; 0x61; 0x6e; 0x67; 0x65; 0x41; 0x64; 0x6d; 0x69;
   0x6e; 0x12; 0x28; 0x2e; 0x6d; 0x69; 0x6e; 0x69; 0x77; 0x61; 0x73; 0x6d; 0x2e; 0x74; 0x6f; 0x6b;
   0x65; 0x6e; 0x66; 0x61; 0x63; 0x74; 0x6f; 0x72; 0x79; 0x2e; 0x76; 0x31; 0x2e; 0x4d; 0x73; 0x67;
   0x43; 0x68; 0x61; 0x6e; 0x67; 0x65; 0x41; 0x64; 0x6d; 0x69; 0x6e; 0x1a; 0x30; 0x2e; 0x6d; 0x69;
   0x6e; 0x69; 0x77; 0x61; 0x73; 0x6d; 0x2e; 0x74; 0x6f; 0x6b; 0x65; 0x6e; 0x66; 0x61; 0x63; 0x74;
   0x6f; 0x72; 0x79; 0x2e; 0x76; 0x31; 0x2e; 0x4d; 0x73; 0x67; 0x43; 0x68; 0x61; 0x6e; 0x67; 0x65;
   0x41; 0x64; 0x6d; 0x69; 0x6e; 0x52; 0x65; 0x73; 0x70; 0x6f; 0x6e; 0x73; 0x65; 0x12; 0x78; 0x0a;
   0x10; 0x53; 0x65; 0x74; 0x44; 0x65; 0x6e; 0x6f; 0x6d; 0x4d; 0x65; 0x74; 0x61; 0x64; 0x61; 0x74;
   0x61; 0x12; 0x2d; 0x2e; 0x6d; 0x69; 0x6e; 0x69; 0x77; 0x61; 0x73; 0x6d; 0x2e; 0x74; 0x6f; 0x6b;
   0x65; 0x6e; 0x66; 0x61; 0x63; 0x74; 0x6f; 0x72; 0x79; 0x2e; 0x76; 0x31; 0x2e; 0x4d; 0x73; 0x67;
   0x53; 0x65; 0x74; 0x44; 0x65; 0x6e; 0x6f; 0x6d; 0x4d; 0x65; 0x74; 0x61; 0x64; 0x61; 0x74; 0x61;
   0x1a; 0x35; 0x2e; 0x6d; 0x69; 0x6e; 0x69; 0x77; 0x61; 0x73; 0x6d; 0x2e; 0x74; 0x6f; 0x6b; 0x65;
   0x6e; 0x66; 0x61; 0x63; 0x74; 0x6f; 0x72; 0x79; 0x2e; 0x76; 0x31; 0x2e; 0x4d; 0x73; 0x67; 0x53;
   0x65; 0x74; 0x44; 0x65; 0x6e; 0x6f; 0x6d; 0x4d; 0x65; 0x74; 0x61; 0x64; 0x61; 0x74; 0x61; 0x52;
   0x65; 0x73; 0x70; 0x6f; 0x6e; 0x73; 0x65; 0x12; 0x7b; 0x0a; 0x11; 0x53; 0x65; 0x74; 0x42; 0x65;
   0x66; 0x6f; 0x72; 0x65; 0x53; 0x65; 0x6e; 0x64; 0x48; 0x6f; 0x6f; 0x6b; 0x12; 0x2e; 0x2e; 0x6d;
   0x69; 0x6e; 0x69; 0x77; 0x61; 0x73; 0x6d; 0x2e; 0x74; 0x6f; 0x6b; 0x65; 0x6e; 0x66; 0x61; 0x63;
   0x74; 0x6f; 0x72; 0x79; 0x2e; 0x76; 0x31; 0x2e; 0x4d; 0x73; 0x67; 0x53; 0x65; 0x74; 0x42; 0x65;
   0x66; 0x6f; 0x72; 0x65; 0x53; 0x65; 0x6e; 0x64; 0x48; 0x6f; 0x6f; 0x6b; 0x1a; 0x36; 0x2e; 0x6d;
   0x69; 0x6e; 0x69; 0x77; 0x61; 0x73; 0x6d; 0x2e; 0x74; 0x6f; 0x6b; 0x65; 0x6e; 0x66; 0x61; 0x63;
   0x74; 0x6f; 0x72; 0x79; 0x2e; 0x76; 0x31; 0x2e; 0x4d; 0x73; 0x67; 0x53; 0x65; 0x74; 0x42; 0x65;
   0x66; 0x6f; 0x72; 0x65; 0x53; 0x65; 0x6e; 0x64; 0x48; 0x6f; 0x6f; 0x6b; 0x52; 0x65; 0x73; 0x70;
   0x6f; 0x6e; 0x73; 0x65; 0x12; 0x6c; 0x0a; 0x0c; 0x55; 0x70; 0x64; 0x61; 0x74; 0x65; 0x50; 0x61;
   0x72; 0x61; 0x6d; 0x73; 0x12; 0x29; 0x2e; 0x6d; 0x69; 0x6e; 0x69; 0x77; 0x61; 0x73; 0x6d; 0x2e;
   0x74; 0x6f; 0x6b; 0x65; 0x6e; 0x66; 0x61; 0x63; 0x74; 0x6f; 0x72; 0x79; 0x2e; 0x76; 0x31; 0x2e;
   0x4d; 0x73; 0x67; 0x55; 0x70; 0x64; 0x61; 0x74; 0x65; 0x50; 0x61; 0x72; 0x61; 0x6d; 0x73; 0x1a;
   0x31; 0x2e; 0x6d; 0x69; 0x6e; 0x69; 0x77; 0x61; 0x73; 0x6d; 0x2e; 0x74; 0x6f; 0x6b; 0x65; 0x6e;
   0x66; 0x61; 0x63; 0x74; 0x6f; 0x72; 0x79; 0x2e; 0x76; 0x31; 0x2e; 0x4d; 0x73; 0x67; 0x55; 0x70;
   0x64; 0x61; 0x74; 0x65; 0x50; 0x61; 0x72; 0x61; 0x6d; 0x73; 0x52; 0x65; 0x73; 0x70; 0x6f; 0x6e;
   0x73; 0x65; 0x1a; 0x05; 0x80; 0xe7; 0xb0; 0x2a; 0x01; 0x42; 0xf6; 0x01; 0x0a; 0x1c; 0x63; 0x6f;
   0x6d; 0x2e; 0x6d; 0x69; 0x6e; 0x69; 0x77; 0x61; 0x73; 0x6d; 0x2e; 0x74; 0x6f; 0x6b; 0x65; 0x6e;
   0x66; 0x61; 0x63; 0x74; 0x6f; 0x72; 0x79; 0x2e; 0x76; 0x31; 0x42; 0x07; 0x54; 0x78; 0x50; 0x72;
   0x6f; 0x74; 0x6f; 0x50; 0x01; 0x5a; 0x4b; 0x67; 0x69; 0x74; 0x68; 0x75; 0x62; 0x2e; 0x63; 0x6f;
   0x6d; 0x2f; 0x69; 0x6e; 0x69; 0x74; 0x69; 0x61; 0x2d; 0x6c; 0x61; 0x62; 0x73; 0x2f; 0x6d; 0x69;
   0x6e; 0x69; 0x77; 0x61; 0x73; 0x6d; 0x2f; 0x61; 0x70; 0x69; 0x2f; 0x6d; 0x69; 0x6e; 0x69; 0x77;
   0x61; 0x73; 0x6d; 0x2f; 0x74; 0x6f; 0x6b; 0x65; 0x6e; 0x66; 0x61; 0x63; 0x74; 0x6f; 0x72; 0x79;
   0x2f; 0x76; 0x31; 0x3b; 0x74; 0x6f; 0x6b; 0x65; 0x6e; 0x66; 0x61; 0x63; 0x74; 0x6f; 0x72; 0x79;
   0x76; 0x31; 0xa2; 0x02; 0x03; 0x4d; 0x54; 0x58; 0xaa; 0x02; 0x18; 0x4d; 0x69; 0x6e; 0x69; 0x77;
   0x61; 0x73; 0x6d; 0x2e; 0x54; 0x6f; 0x6b; 0x65; 0x6e; 0x66; 0x61; 0x63; 0x74; 0x6f; 0x72; 0x79;
   0x2e; 0x56; 0x31; 0xca; 0x02; 0x18; 0x4d; 0x69; 0x6e; 0x69; 0x77; 0x61; 0x73; 0x6d; 0x5c; 0x54;
   0x6f; 0x6b; 0x65; 0x6e; 0x66; 0x61; 0x63; 0x74; 0x6f; 0x72; 0x79; 0x5c; 0x56; 0x31; 0xe2; 0x02;
   0x24; 0x4d; 0x69; 0x6e; 0x69; 0x77; 0x61; 0x73; 0x6d; 0x5c; 0x54; 0x6f; 0x6b; 0x65; 0x6e; 0x66;
   0x61; 0x63; 0x74; 0x6f; 0x72; 0x79; 0x5c; 0x56; 0x31; 0x5c; 0x47; 0x50; 0x42; 0x4d; 0x65; 0x74;
   0x61; 0x64; 0x61; 0x74; 0x61; 0xea; 0x02; 0x1a; 0x4d; 0x69; 0x6e; 0x69; 0x77; 0x61; 0x73; 0x6d;
   0x3a; 0x3a; 0x54; 0x6f; 0x6b; 0x65; 0x6e; 0x66; 0x61; 0x63; 0x74; 0x6f; 0x72; 0x79; 0x3a; 0x3a;
   0x56; 0x31; 0x62; 0x06; 0x70; 0x72; 0x6f; 0x74; 0x6f; 0x33].

Definition v1_tx_goTypes : list gotype :=
  [Own "MsgCreateDenom";
   Own "MsgCreateDenomResponse";
   Own "MsgMint";
   Own "MsgMintResponse";
   Own "MsgBurn";
   Own "MsgBurnResponse";
   Own "MsgChangeAdmin";
   Own "MsgChangeAdminResponse";
   Own "MsgSetBeforeSendHook";
   Own "MsgSetBeforeSendHookResponse";
   Own "MsgSetDenomMetadata";
   Own "MsgSetDenomMetadataResponse";
   Own "MsgUpdateParams";
   Own "MsgUpdateParamsResponse";
   Imported "v1beta1.Coin";
   Imported "v1beta11.Metadata";
   Own "Params"].

Definition v1_tx_depIdxs : list Z := [14; 14; 15; 16; 0; 2; 4; 6; 10; 8; 12; 1; 3; 5; 7; 11; 9; 13; 11; 4; 4; 4; 0].


(** ** api/miniwasm/wasmextension/v1/types.pulsar.go *)

Definition wasmv1_types_rawDesc : list Z :=
  [0x0a; 0x25; 0x6d; 0x69; 0x6e; 0x69; 0x77; 0x61; 0x73; 0x6d; 0x2f; 0x77; 0x61; 0x73; 0x6d; 0x65;
   0x78; 0x74; 0x65; 0x6e; 0x73; 0x69; 0x6f; 0x6e; 0x2f; 0x76; 0x31; 0x2f; 0x74; 0x79; 0x70; 0x65;
   0x73; 0x2e; 0x70; 0x72; 0x6f; 0x74; 0x6f; 0x12; 0x19; 0x6d; 0x69; 0x6e; 0x69; 0x77; 0x61; 0x73;
   0x6d; 0x2e; 0x77; 0x61; 0x73; 0x6d; 0x65; 0x78; 0x74; 0x65; 0x6e; 0x73; 0x69; 0x6f; 0x6e; 0x2e;
   0x76; 0x31; 0x1a; 0x19; 0x63; 0x6f; 0x73; 0x6d; 0x6f; 0x73; 0x5f; 0x70; 0x72; 0x6f; 0x74; 0x6f;
   0x2f; 0x63; 0x6f; 0x73; 0x6d; 0x6f; 0x73; 0x2e; 0x70; 0x72; 0x6f; 0x74; 0x6f; 0x1a; 0x1c; 0x63;
   0x6f; 0x73; 0x6d; 0x77; 0x61; 0x73; 0x6d; 0x2f; 0x77; 0x61; 0x73; 0x6d; 0x2f; 0x76; 0x31; 0x2f;
   0x74; 0x79; 0x70; 0x65; 0x73; 0x2e; 0x70; 0x72; 0x6f; 0x74; 0x6f; 0x1a; 0x14; 0x67; 0x6f; 0x67;
   0x6f; 0x70; 0x72; 0x6f; 0x74; 0x6f; 0x2f; 0x67; 0x6f; 0x67; 0x6f; 0x2e; 0x70; 0x72; 0x6f; 0x74;
   0x6f; 0x22; 0xa1; 0x01; 0x0a; 0x0c; 0x41; 0x63; 0x63; 0x65; 0x73; 0x73; 0x43; 0x6f; 0x6e; 0x66;
   0x69; 0x67; 0x12; 0x53; 0x0a; 0x0a; 0x70; 0x65; 0x72; 0x6d; 0x69; 0x73; 0x73; 0x69; 0x6f; 0x6e;
   0x18; 0x01; 0x20; 0x01; 0x28; 0x0e; 0x32; 0x1c; 0x2e; 0x63; 0x6f; 0x73; 0x6d; 0x77; 0x61; 0x73;
   0x6d; 0x2e; 0x77; 0x61; 0x73; 0x6d; 0x2e; 0x76; 0x31; 0x2e; 0x41; 0x63; 0x63; 0x65; 0x73; 0x73;
   0x54; 0x79; 0x70; 0x65; 0x42; 0x15; 0xf2; 0xde; 0x1f; 0x11; 0x79; 0x61; 0x6d; 0x6c; 0x3a; 0x22;
   0x70; 0x65; 0x72; 0x6d; 0x69; 0x73; 0x73; 0x69; 0x6f; 0x6e; 0x22; 0x52; 0x0a; 0x70; 0x65; 0x72;
   0x6d; 0x69; 0x73; 0x73; 0x69; 0x6f; 0x6e; 0x12; 0x36; 0x0a; 0x09; 0x61; 0x64; 0x64; 0x72; 0x65;
   0x73; 0x73; 0x65; 0x73; 0x18; 0x02; 0x20; 0x03; 0x28; 0x09; 0x42; 0x18; 0xd2; 0xb4; 0x2d; 0x14;
   0x63; 0x6f; 0x73; 0x6d; 0x6f; 0x73; 0x2e; 0x41; 0x64; 0x64; 0x72; 0x65; 0x73; 0x73; 0x53; 0x74;
   0x72; 0x69; 0x6e; 0x67; 0x52; 0x09; 0x61; 0x64; 0x64; 0x72; 0x65; 0x73; 0x73; 0x65; 0x73; 0x3a;
   0x04; 0x98; 0xa0; 0x1f; 0x01; 0x42; 0x84; 0x02; 0xc8; 0xe1; 0x1e; 0x00; 0x0a; 0x1d; 0x63; 0x6f;
   0x6d; 0x2e; 0x6d; 0x69; 0x6e; 0x69; 0x77; 0x61; 0x73; 0x6d; 0x2e; 0x77; 0x61; 0x73; 0x6d; 0x65;
   0x78; 0x74; 0x65; 0x6e; 0x73; 0x69; 0x6f; 0x6e; 0x2e; 0x76; 0x31; 0x42; 0x0a; 0x54; 0x79; 0x70;
   0x65; 0x73; 0x50; 0x72; 0x6f; 0x74; 0x6f; 0x50; 0x01; 0x5a; 0x4d; 0x67; 0x69; 0x74; 0x68; 0x75;
   0x62; 0x2e; 0x63; 0x6f; 0x6d; 0x2f; 0x69; 0x6e; 0x69; 0x74; 0x69; 0x61; 0x2d; 0x6c; 0x61; 0x62;
   0x73; 0x2f; 0x6d; 0x69; 0x6e; 0x69; 0x77; 0x61; 0x73; 0x6d; 0x2f; 0x61; 0x70; 0x69; 0x2f; 0x6d;
   0x69; 0x6e; 0x69; 0x77; 0x61; 0x73; 0x6d; 0x2f; 0x77; 0x61; 0x73; 0x6d; 0x65; 0x78; 0x74; 0x65;
   0x6e; 0x73; 0x69; 0x6f; 0x6e; 0x2f; 0x76; 0x31; 0x3b; 0x77; 0x61; 0x73; 0x6d; 0x65; 0x78; 0x74;
   0x65; 0x6e; 0x73; 0x69; 0x6f; 0x6e; 0x76; 0x31; 0xa2; 0x02; 0x03; 0x4d; 0x57; 0x58; 0xaa; 0x02;
   0x19; 0x4d; 0x69; 0x6e; 0x69; 0x77; 0x61; 0x73; 0x6d; 0x2e; 0x57; 0x61; 0x73; 0x6d; 0x65; 0x78;
   0x74; 0x65; 0x6e; 0x73; 0x69; 0x6f; 0x6e; 0x2e; 0x56; 0x31; 0xca; 0x02; 0x19; 0x4d; 0x69; 0x6e;
   0x69; 0x77; 0x61; 0x73; 0x6d; 0x5c; 0x57; 0x61; 0x73; 0x6d; 0x65; 0x78; 0x74; 0x65; 0x6e; 0x73;
   0x69; 0x6f; 0x6e; 0x5c; 0x56; 0x31; 0xe2; 0x02; 0x25; 0x4d; 0x69; 0x6e; 0x69; 0x77; 0x61; 0x73;
   0x6d; 0x5c; 0x57; 0x61; 0x73; 0x6d; 0x65; 0x78; 0x74; 0x65; 0x6e; 0x73; 0x69; 0x6f; 0x6e; 0x5c;
   0x56; 0x31; 0x5c; 0x47; 0x50; 0x42; 0x4d; 0x65; 0x74; 0x61; 0x64; 0x61; 0x74; 0x61; 0xea; 0x02;
   0x1b; 0x4d; 0x69; 0x6e; 0x69; 0x77; 0x61; 0x73; 0x6d; 0x3a; 0x3a; 0x57; 0x61; 0x73; 0x6d; 0x65;
   0x78; 0x74; 0x65; 0x6e; 0x73; 0x69; 0x6f; 0x6e; 0x3a; 0x3a; 0x56; 0x31; 0x62; 0x06; 0x70; 0x72;
   0x6f; 0x74; 0x6f; 0x33].

Definition wasmv1_types_goTypes : list gotype :=
  [Own "AccessConfig";
   Imported "types.AccessType"].

Definition wasmv1_types_depIdxs : list Z := [1; 1; 1; 1; 1; 0].


(** ** api/miniwasm/wasmextension/v1/tx.pulsar.go *)

Definition wasmv1_tx_rawDesc : list Z :=
  [0x0a; 0x22; 0x6d; 0x69; 0x6e; 0x69; 0x77; 0x61; 0x73; 0x6d; 0x2f; 0x77; 0x61; 0x73; 0x6d; 0x65;
   0x78; 0x74; 0x65; 0x6e; 0x73; 0x69; 0x6f; 0x6e; 0x2f; 0x76; 0x31; 0x2f; 0x74; 0x78; 0x2e; 0x70;
   0x72; 0x6f; 0x74; 0x6f; 0x12; 0x19; 0x6d; 0x69; 0x6e; 0x69; 0x77; 0x61; 0x73; 0x6d; 0x2e; 0x77;
   0x61; 0x73; 0x6d; 0x65; 0x78; 0x74; 0x65; 0x6e; 0x73; 0x69; 0x6f; 0x6e; 0x2e; 0x76; 0x31; 0x1a;
   0x11; 0x61; 0x6d; 0x69; 0x6e; 0x6f; 0x2f; 0x61; 0x6d; 0x69; 0x6e; 0x6f; 0x2e; 0x70; 0x72; 0x6f;
   0x74; 0x6f; 0x1a; 0x17; 0x63; 0x6f; 0x73; 0x6d; 0x6f; 0x73; 0x2f; 0x6d; 0x73; 0x67; 0x2f; 0x76;
   0x31; 0x2f; 0x6d; 0x73; 0x67; 0x2e; 0x70; 0x72; 0x6f; 0x74; 0x6f; 0x1a; 0x19; 0x63; 0x6f; 0x73;
   0x6d; 0x6f; 0x73; 0x5f; 0x70; 0x72; 0x6f; 0x74; 0x6f; 0x2f; 0x63; 0x6f; 0x73; 0x6d; 0x6f; 0x73;
   0x2e; 0x70; 0x72; 0x6f; 0x74; 0x6f; 0x1a; 0x14; 0x67; 0x6f; 0x67; 0x6f; 0x70; 0x72; 0x6f; 0x74;
   0x6f; 0x2f; 0x67; 0x6f; 0x67; 0x6f; 0x2e; 0x70; 0x72; 0x6f; 0x74; 0x6f; 0x1a; 0x25; 0x6d; 0x69;
   0x6e; 0x69; 0x77; 0x61; 0x73; 0x6d; 0x2f; 0x77; 0x61; 0x73; 0x6d; 0x65; 0x78; 0x74; 0x65; 0x6e;
   0x73; 0x69; 0x6f; 0x6e; 0x2f; 0x76; 0x31; 0x2f; 0x74; 0x79; 0x70; 0x65; 0x73; 0x2e; 0x70; 0x72;
   0x6f; 0x74; 0x6f; 0x22; 0xcb; 0x02; 0x0a; 0x11; 0x4d; 0x73; 0x67; 0x53; 0x74; 0x6f; 0x72; 0x65;
   0x43; 0x6f; 0x64; 0x65; 0x41; 0x64; 0x6d; 0x69; 0x6e; 0x12; 0x36; 0x0a; 0x09; 0x61; 0x75; 0x74;
   0x68; 0x6f; 0x72; 0x69; 0x74; 0x79; 0x18; 0x01; 0x20; 0x01; 0x28; 0x09; 0x42; 0x18; 0xd2; 0xb4;
   0x2d; 0x14; 0x63; 0x6f; 0x73; 0x6d; 0x6f; 0x73; 0x2e; 0x41; 0x64; 0x64; 0x72; 0x65; 0x73; 0x73;
   0x53; 0x74; 0x72; 0x69; 0x6e; 0x67; 0x52; 0x09; 0x61; 0x75; 0x74; 0x68; 0x6f; 0x72; 0x69; 0x74;
   0x79; 0x12; 0x32; 0x0a; 0x07; 0x63; 0x72; 0x65; 0x61; 0x74; 0x6f; 0x72; 0x18; 0x02; 0x20; 0x01;
   0x28; 0x09; 0x42; 0x18; 0xd2; 0xb4; 0x2d; 0x14; 0x63; 0x6f; 0x73; 0x6d; 0x6f; 0x73; 0x2e; 0x41;
   0x64; 0x64; 0x72; 0x65; 0x73; 0x73; 0x53; 0x74; 0x72; 0x69; 0x6e; 0x67; 0x52; 0x07; 0x63; 0x72;
   0x65; 0x61; 0x74; 0x6f; 0x72; 0x12; 0x36; 0x0a; 0x0e; 0x77; 0x61; 0x73; 0x6d; 0x5f; 0x62; 0x79;
   0x74; 0x65; 0x5f; 0x63; 0x6f; 0x64; 0x65; 0x18; 0x03; 0x20; 0x01; 0x28; 0x0c; 0x42; 0x10; 0xe2;
   0xde; 0x1f; 0x0c; 0x57; 0x41; 0x53; 0x4d; 0x42; 0x79; 0x74; 0x65; 0x43; 0x6f; 0x64; 0x65; 0x52;
   0x0c; 0x77; 0x61; 0x73; 0x6d; 0x42; 0x79; 0x74; 0x65; 0x43; 0x6f; 0x64; 0x65; 0x12; 0x5e; 0x0a;
   0x16; 0x69; 0x6e; 0x73; 0x74; 0x61; 0x6e; 0x74; 0x69; 0x61; 0x74; 0x65; 0x5f; 0x70; 0x65; 0x72;
   0x6d; 0x69; 0x73; 0x73; 0x69; 0x6f; 0x6e; 0x18; 0x04; 0x20; 0x01; 0x28; 0x0b; 0x32; 0x27; 0x2e;
   0x6d; 0x69; 0x6e; 0x69; 0x77; 0x61; 0x73; 0x6d; 0x2e; 0x77; 0x61; 0x73; 0x6d; 0x65; 0x78; 0x74;
   0x65; 0x6e; 0x73; 0x69; 0x6f; 0x6e; 0x2e; 0x76; 0x31; 0x2e; 0x41; 0x63; 0x63; 0x65; 0x73; 0x73;
   0x43; 0x6f; 0x6e; 0x66; 0x69; 0x67; 0x52; 0x15; 0x69; 0x6e; 0x73; 0x74; 0x61; 0x6e; 0x74; 0x69;
   0x61; 0x74; 0x65; 0x50; 0x65; 0x72; 0x6d; 0x69; 0x73; 0x73; 0x69; 0x6f; 0x6e; 0x3a; 0x32; 0x82;
   0xe7; 0xb0; 0x2a; 0x09; 0x61; 0x75; 0x74; 0x68; 0x6f; 0x72; 0x69; 0x74; 0x79; 0x8a; 0xe7; 0xb0;
   0x2a; 0x1f; 0x77; 0x61; 0x73; 0x6d; 0x65; 0x78; 0x74; 0x65; 0x6e; 0x73; 0x69; 0x6f; 0x6e; 0x2f;
   0x4d; 0x73; 0x67; 0x53; 0x74; 0x6f; 0x72; 0x65; 0x43; 0x6f; 0x64; 0x65; 0x41; 0x64; 0x6d; 0x69;
   0x6e; 0x22; 0x5c; 0x0a; 0x19; 0x4d; 0x73; 0x67; 0x53; 0x74; 0x6f; 0x72; 0x65; 0x43; 0x6f; 0x64;
   0x65; 0x41; 0x64; 0x6d; 0x69; 0x6e; 0x52; 0x65; 0x73; 0x70; 0x6f; 0x6e; 0x73; 0x65; 0x12; 0x23;
   0x0a; 0x07; 0x63; 0x6f; 0x64; 0x65; 0x5f; 0x69; 0x64; 0x18; 0x01; 0x20; 0x01; 0x28; 0x04; 0x42;
   0x0a; 0xe2; 0xde; 0x1f; 0x06; 0x43; 0x6f; 0x64; 0x65; 0x49; 0x44; 0x52; 0x06; 0x63; 0x6f; 0x64;
   0x65; 0x49; 0x64; 0x12; 0x1a; 0x0a; 0x08; 0x63; 0x68; 0x65; 0x63; 0x6b; 0x73; 0x75; 0x6d; 0x18;
   0x02; 0x20; 0x01; 0x28; 0x0c; 0x52; 0x08; 0x63; 0x68; 0x65; 0x63; 0x6b; 0x73; 0x75; 0x6d; 0x32;
   0x82; 0x01; 0x0a; 0x03; 0x4d; 0x73; 0x67; 0x12; 0x74; 0x0a; 0x0e; 0x53; 0x74; 0x6f; 0x72; 0x65;
   0x43; 0x6f; 0x64; 0x65; 0x41; 0x64; 0x6d; 0x69; 0x6e; 0x12; 0x2c; 0x2e; 0x6d; 0x69; 0x6e; 0x69;
   0x77; 0x61; 0x73; 0x6d; 0x2e; 0x77; 0x61; 0x73; 0x6d; 0x65; 0x78; 0x74; 0x65; 0x6e; 0x73; 0x69;
   0x6f; 0x6e; 0x2e; 0x76; 0x31; 0x2e; 0x4d; 0x73; 0x67; 0x53; 0x74; 0x6f; 0x72; 0x65; 0x43; 0x6f;
   0x64; 0x65; 0x41; 0x64; 0x6d; 0x69; 0x6e; 0x1a; 0x34; 0x2e; 0x6d; 0x69; 0x6e; 0x69; 0x77; 0x61;
   0x73; 0x6d; 0x2e; 0x77; 0x61; 0x73; 0x6d; 0x65; 0x78; 0x74; 0x65; 0x6e; 0x73; 0x69; 0x6f; 0x6e;
   0x2e; 0x76; 0x31; 0x2e; 0x4d; 0x73; 0x67; 0x53; 0x74; 0x6f; 0x72; 0x65; 0x43; 0x6f; 0x64; 0x65;
   0x41; 0x64; 0x6d; 0x69; 0x6e; 0x52; 0x65; 0x73; 0x70; 0x6f; 0x6e; 0x73; 0x65; 0x1a; 0x05; 0x80;
   0xe7; 0xb0; 0x2a; 0x01; 0x42; 0x81; 0x02; 0xc8; 0xe1; 0x1e; 0x00; 0x0a; 0x1d; 0x63; 0x6f; 0x6d;
   0x2e; 0x6d; 0x69; 0x6e; 0x69; 0x77; 0x61; 0x73; 0x6d; 0x2e; 0x77; 0x61; 0x73; 0x6d; 0x65; 0x78;
   0x74; 0x65; 0x6e; 0x73; 0x69; 0x6f; 0x6e; 0x2e; 0x76; 0x31; 0x42; 0x07; 0x54; 0x78; 0x50; 0x72;
   0x6f; 0x74; 0x6f; 0x50; 0x01; 0x5a; 0x4d; 0x67; 0x69; 0x74; 0x68; 0x75; 0x62; 0x2e; 0x63; 0x6f;
   0x6d; 0x2f; 0x69; 0x6e; 0x69; 0x74; 0x69; 0x61; 0x2d; 0x6c; 0x61; 0x62; 0x73; 0x2f; 0x6d; 0x69;
   0x6e; 0x69; 0x77; 0x61; 0x73; 0x6d; 0x2f; 0x61; 0x70; 0x69; 0x2f; 0x6d; 0x69; 0x6e; 0x69; 0x77;
   0x61; 0x73; 0x6d; 0x2f; 0x77; 0x61; 0x73; 0x6d; 0x65; 0x78; 0x74; 0x65; 0x6e; 0x73; 0x69; 0x6f;
   0x6e; 0x2f; 0x76; 0x31; 0x3b; 0x77; 0x61; 0x73; 0x6d; 0x65; 0x78; 0x74; 0x65; 0x6e; 0x73; 0x69;
   0x6f; 0x6e; 0x76; 0x31; 0xa2; 0x02; 0x03; 0x4d; 0x57; 0x58; 0xaa; 0x02; 0x19; 0x4d; 0x69; 0x6e;
   0x69; 0x77; 0x61; 0x73; 0x6d; 0x2e; 0x57; 0x61; 0x73; 0x6d; 0x65; 0x78; 0x74; 0x65; 0x6e; 0x73;
   0x69; 0x6f; 0x6e; 0x2e; 0x56; 0x31; 0xca; 0x02; 0x19; 0x4d; 0x69; 0x6e; 0x69; 0x77; 0x61; 0x73;
   0x6d; 0x5c; 0x57; 0x61; 0x73; 0x6d; 0x65; 0x78; 0x74; 0x65; 0x6e; 0x73; 0x69; 0x6f; 0x6e; 0x5c;
   0x56; 0x31; 0xe2; 0x02; 0x25; 0x4d; 0x69; 0x6e; 0x69; 0x77; 0x61; 0x73; 0x6d; 0x5c; 0x57; 0x61;
   0x73; 0x6d; 0x65; 0x78; 0x74; 0x65; 0x6e; 0x73; 0x69; 0x6f; 0x6e; 0x5c; 0x56; 0x31; 0x5c; 0x47;
   0x50; 0x42; 0x4d; 0x65; 0x74; 0x61; 0x64; 0x61; 0x74; 0x61; 0xea; 0x02; 0x1b; 0x4d; 0x69; 0x6e;
   0x69; 0x77; 0x61; 0x73; 0x6d; 0x3a; 0x3a; 0x57; 0x61; 0x73; 0x6d; 0x65; 0x78; 0x74; 0x65; 0x6e;
   0x73; 0x69; 0x6f; 0x6e; 0x3a; 0x3a; 0x56; 0x31; 0x62; 0x06; 0x70; 0x72; 0x6f; 0x74; 0x6f; 0x33].

Definition wasmv1_tx_goTypes : list gotype :=
  [Own "MsgStoreCodeAdmin";
   Own "MsgStoreCodeAdminResponse";
   Own "AccessConfig"].

Definition wasmv1_tx_depIdxs : list Z := [2; 0; 1; 2; 1; 1; 1; 0].
