(* ===== verification/Descriptors.v ===== *)
(** What the descriptors of api/ are read as, and how the .pulsar.go files register them: a
    reader for the part of google/protobuf/descriptor.proto that says which messages, fields
    and services a file has, the variables and the init function that each file has, and
    slowProtoReflect and Descriptor, which find a message in its file by a number. *)
From S2P Require Import Prelude.
From S2P Require Import GoJson.
From S2P Require Import JsonScan.
From S2P Require Import Wire.
From S2P Require Import DescData.

(** * The format *)

(** ** Fields of the wire format *)

Inductive wire_value := WVarint (n : Z) | WBytes (bz : list Z).

Fixpoint read_varint (bz : list Z) : option (Z * list Z) :=
  match bz with
  | [] => None
  | b :: bz =>
      if b <? 128 then Some (b, bz) else '(n, rest) ← read_varint bz; Some (b - 128 + 128 * n, rest)
  end.

(** The numbers and values of the fields; groups and fixed-width numbers are not in use. *)
Fixpoint read_fields (fuel : nat) (bz : list Z) : option (list (Z * wire_value)) :=
  match bz, fuel with
  | [], _ => Some []
  | _, O => None
  | _, S fuel =>
      '(tag, bz) ← read_varint bz;
      '(n, bz) ← read_varint bz;
      if tag mod 8 =? 0 then l ← read_fields fuel bz; Some ((tag / 8, WVarint n) :: l)
      else if (tag mod 8 =? 2) && (n <=? Z.of_nat (length bz)) then
        l ← read_fields fuel (drop (Z.to_nat n) bz); Some ((tag / 8, WBytes (take (Z.to_nat n) bz)) :: l)
      else None
  end.

Definition fields_of (bz : list Z) : option (list (Z * wire_value)) := read_fields (length bz) bz.

(** The values of a field that is repeated, and of one that is not. *)
Definition all_bytes (k : Z) (l : list (Z * wire_value)) : list (list Z) :=
  omap (λ '(n, v), match v with WBytes bz => if n =? k then Some bz else None | WVarint _ => None end) l.

Definition text (bz : list Z) : string := of_raw (chr <$> bz).
Definition one_text (k : Z) (l : list (Z * wire_value)) : string := text (default [] (last (all_bytes k l))).
Definition one_number (k : Z) (l : list (Z * wire_value)) : Z :=
  default 0 (last (omap (λ '(n, v), match v with WVarint x => if n =? k then Some x else None | WBytes _ => None end) l)).

(** ** descriptor.proto *)

(** Of the options of a message the signers (cosmos.msg.v1.signer) and the name for amino
    (amino.name) are read, of those of a method the path of google.api.http. *)

Record FieldDescriptorProto := {
  f_name : string; f_number : Z; f_label : Z; f_type : Z; f_type_name : string }.
Record DescriptorProto := {
  d_name : string; d_fields : list FieldDescriptorProto; d_signers : list string; d_amino : string }.
Record MethodDescriptorProto := {
  me_name : string; input_type : string; output_type : string; me_http_get : string }.
Record ServiceDescriptorProto := { s_name : string; s_methods : list MethodDescriptorProto }.
Record FileDescriptorProto := {
  file_name : string; package : string; dependency : list string; file_messages : list DescriptorProto;
  n_enums : Z; service : list ServiceDescriptorProto; n_extensions : Z; syntax : string }.

Definition read_FieldDescriptorProto (bz : list Z) : option FieldDescriptorProto :=
  l ← fields_of bz;
  Some {| f_name := one_text 1 l; f_number := one_number 3 l; f_label := one_number 4 l;
          f_type := one_number 5 l; f_type_name := one_text 6 l |}.

Definition read_DescriptorProto (bz : list Z) : option DescriptorProto :=
  l ← fields_of bz;
  fs ← mapM read_FieldDescriptorProto (all_bytes 2 l);
  os ← fields_of (concat (all_bytes 7 l));
  Some {| d_name := one_text 1 l; d_fields := fs; d_signers := text <$> all_bytes 11110000 os;
          d_amino := one_text 11110001 os |}.

Definition read_MethodDescriptorProto (bz : list Z) : option MethodDescriptorProto :=
  l ← fields_of bz;
  os ← fields_of (concat (all_bytes 4 l));
  http ← fields_of (concat (all_bytes 72295728 os));
  Some {| me_name := one_text 1 l; input_type := one_text 2 l; output_type := one_text 3 l;
          me_http_get := one_text 2 http |}.

Definition read_ServiceDescriptorProto (bz : list Z) : option ServiceDescriptorProto :=
  l ← fields_of bz;
  ms ← mapM read_MethodDescriptorProto (all_bytes 2 l);
  Some {| s_name := one_text 1 l; s_methods := ms |}.

Definition read_FileDescriptorProto (bz : list Z) : option FileDescriptorProto :=
  l ← fields_of bz;
  ms ← mapM read_DescriptorProto (all_bytes 4 l);
  ss ← mapM read_ServiceDescriptorProto (all_bytes 6 l);
  Some {| file_name := one_text 1 l; package := one_text 2 l; dependency := text <$> all_bytes 3 l;
          file_messages := ms; n_enums := Z.of_nat (length (all_bytes 5 l)); service := ss;
          n_extensions := Z.of_nat (length (all_bytes 7 l)); syntax := one_text 12 l |}.

(** * The variables of a file *)

(** An Exporter answers for a number the part of the message that it points to. *)
Abbreviation exporter := (Z → option string) (only parsing).

(** [case 0: return &v.state] and so on, of the message of a type. *)
Definition exporter_case (X : string) (i : Z) : option string :=
  if i =? 0 then Some (X +:+ ".state")
  else if i =? 1 then Some (X +:+ ".sizeCache")
  else if i =? 2 then Some (X +:+ ".unknownFields")
  else None.

(** protoimpl.TypeBuilder; a variable that was set to nil is [None]. *)
Record TypeBuilder := {
  GoPackagePath : string;
  RawDescriptor : option (list Z);
  NumEnums : Z; NumMessages : Z; NumExtensions : Z; NumServices : Z;
  GoTypes : option (list gotype);
  DependencyIndexes : option (list Z);
  MessageInfos : list (option exporter)
}.

(** The files of the two packages. *)
Inductive file_id := tf_params | tf_authority_metadata | tf_genesis | tf_query | tf_tx | we_types | we_tx.

#[export] Instance file_id_eq_dec : EqDecision file_id.
Proof. solve_decision. Defined.

Definition all_files : list file_id :=
  [tf_params; tf_authority_metadata; tf_genesis; tf_query; tf_tx; we_types; we_tx].

Section registration.
Context {FD : Type} (Build : TypeBuilder → res FD) (UnsafeEnabled : bool).

Record file_vars := {
  v_File : option FD;
  v_rawDesc : option (list Z);
  v_goTypes : option (list gotype);
  v_depIdxs : option (list Z);
  v_msgTypes : list (option exporter)
}.

(** The variables of every file, and the builders that Build was called on. *)
Record registry := { vars : file_id → file_vars; built : list (file_id * TypeBuilder) }.

Definition set_vars (F : file_id) (v : file_vars) (s : registry) : registry :=
  {| vars := λ G, if decide (G = F) then v else vars s G; built := built s |}.

Definition log_build (F : file_id) (b : TypeBuilder) (s : registry) : registry :=
  {| vars := vars s; built := built s ++ [(F, b)] |}.

(** [msgTypes[i].Exporter = ...] for every message. *)
Definition set_exporters (es : list exporter) (v : file_vars) : file_vars :=
  {| v_File := v_File v; v_rawDesc := v_rawDesc v; v_goTypes := v_goTypes v; v_depIdxs := v_depIdxs v;
     v_msgTypes := Some <$> es |}.

(** [File = out.File], and the variables that are not needed any more. *)
Definition set_File (f : FD) (v : file_vars) : file_vars :=
  {| v_File := Some f; v_rawDesc := None; v_goTypes := None; v_depIdxs := None; v_msgTypes := v_msgTypes v |}.

(** The init function of a file: the files it imports, the exporters, the builder. *)
Definition file_init (F : file_id) (imports : M registry unit) (es : list exporter)
    (builder : file_vars → TypeBuilder) : M registry unit :=
  let! v := gets (λ s, vars s F) in
  match v_File v with
  | Some _ => ret ()
  | None =>
      imports ;;;
      (if UnsafeEnabled then ret () else modify (λ s, set_vars F (set_exporters es (vars s F)) s)) ;;;
      let! v := gets (λ s, vars s F) in
      let! out := lift (Build (builder v)) in
      modify (log_build F (builder v)) ;;;
      modify (λ s, set_vars F (set_File out (vars s F)) s)
  end.
End registration.
Arguments v_File {_}.
Arguments v_rawDesc {_}.
Arguments v_goTypes {_}.
Arguments v_depIdxs {_}.
Arguments v_msgTypes {_}.
Arguments vars {_}.
Arguments built {_}.

(** * A message in its file *)

(** A pointer to a protoimpl.MessageInfo: an element of msgTypes of a file. *)
Abbreviation msginfo := (file_id * nat)%type (only parsing).

(** slowProtoReflect: which info the message is reflected by, and the info that is stored in
    the message after it. A nil message has no place to store it. *)
Definition slow_reflect (UnsafeEnabled : bool) (mi : msginfo) (x : option (option msginfo))
    : msginfo * option (option msginfo) :=
  match x with
  | Some ms =>
      if UnsafeEnabled then let ms := match ms with None => mi | Some i => i end in (ms, Some (Some ms))
      else (mi, x)
  | None => (mi, None)
  end.

(** rawDescGZIP, with its once and the variable rawDescData. *)
Record gzip_vars := { once_done : bool; rawDescData : list Z }.

Definition raw_gzip (CompressGZIP : list Z → list Z) : M gzip_vars (list Z) :=
  let! v := get in
  (if once_done v then ret ()
   else modify (λ v, {| once_done := true; rawDescData := CompressGZIP (rawDescData v) |})) ;;;
  gets rawDescData.

(** The descriptor of a message: the compressed bytes of its file, and where it is in it. *)
Definition raw_descriptor (gzip : M gzip_vars (list Z)) (i : Z) : M gzip_vars (list Z * list Z) :=
  let! bz := gzip in ret (bz, [i]).
