(* ===== verification/DescFiles.v ===== *)
(** The files of api/ and their messages: what each .pulsar.go file registers, and the place of
    its messages in it. *)
From S2P Require Import Prelude.
From S2P Require Import GoJson.
From S2P Require Import Wire.
From S2P Require Import WireSpec.
From S2P Require Import WireRead.
From S2P Require Import ApiState.
From S2P Require Import ApiTx.
From S2P Require Import ApiQuery.
From S2P Require Import ApiWasm.
From S2P Require Import ApiSpec.
From S2P Require Import Reflect.
From S2P Require Import ReflectState.
From S2P Require Import ReflectTx.
From S2P Require Import ReflectQuery.
From S2P Require Import ReflectWasm.
From S2P Require Import ReflectTypes.
From S2P Require Import DescData.
From S2P Require Import Descriptors.

(** * Registration *)

Section files.
Context {FD : Type} (Build : TypeBuilder → res FD) (UnsafeEnabled : bool).
Context (CompressGZIP : list Z → list Z).

(** ** tokenfactory/v1/params.pulsar.go *)

Definition v1_Params_Exporter (i : Z) : option string := exporter_case "Params" i.
Definition v1_Params_slowProtoReflect := slow_reflect UnsafeEnabled (tf_params, 0%nat).

Definition v1_params_rawDescGZIP : M gzip_vars (list Z) := raw_gzip CompressGZIP.

Definition v1_Params_rawDescriptor := raw_descriptor v1_params_rawDescGZIP 0.

Definition v1_params_builder (v : file_vars (FD:=FD)) : TypeBuilder := {|
  GoPackagePath := "github.com/initia-labs/miniwasm/api/miniwasm/tokenfactory/v1";
  RawDescriptor := v_rawDesc v; NumEnums := 0; NumMessages := 1; NumExtensions := 0;
  NumServices := 0; GoTypes := v_goTypes v; DependencyIndexes := v_depIdxs v; MessageInfos := v_msgTypes v |}.

Definition v1_params_init : M (registry (FD:=FD)) unit :=
  file_init Build UnsafeEnabled tf_params (ret ())
    [v1_Params_Exporter] v1_params_builder.

(** ** tokenfactory/v1/authority_metadata.pulsar.go *)

Definition v1_DenomAuthorityMetadata_Exporter (i : Z) : option string := exporter_case
    "DenomAuthorityMetadata" i.
Definition v1_DenomAuthorityMetadata_slowProtoReflect := slow_reflect UnsafeEnabled (tf_authority_metadata,
    0%nat).

Definition v1_authority_metadata_rawDescGZIP : M gzip_vars (list Z) := raw_gzip CompressGZIP.

Definition v1_DenomAuthorityMetadata_rawDescriptor := raw_descriptor v1_authority_metadata_rawDescGZIP 0.

Definition v1_authority_metadata_builder (v : file_vars (FD:=FD)) : TypeBuilder := {|
  GoPackagePath := "github.com/initia-labs/miniwasm/api/miniwasm/tokenfactory/v1";
  RawDescriptor := v_rawDesc v; NumEnums := 0; NumMessages := 1; NumExtensions := 0;
  NumServices := 0; GoTypes := v_goTypes v; DependencyIndexes := v_depIdxs v; MessageInfos := v_msgTypes v |}.

Definition v1_authority_metadata_init : M (registry (FD:=FD)) unit :=
  file_init Build UnsafeEnabled tf_authority_metadata (ret ())
    [v1_DenomAuthorityMetadata_Exporter] v1_authority_metadata_builder.

(** ** tokenfactory/v1/genesis.pulsar.go *)

Definition v1_GenesisState_Exporter (i : Z) : option string := exporter_case "GenesisState" i.
Definition v1_GenesisState_slowProtoReflect := slow_reflect UnsafeEnabled (tf_genesis, 0%nat).
Definition v1_GenesisDenom_Exporter (i : Z) : option string := exporter_case "GenesisDenom" i.
Definition v1_GenesisDenom_slowProtoReflect := slow_reflect UnsafeEnabled (tf_genesis, 1%nat).

Definition v1_genesis_rawDescGZIP : M gzip_vars (list Z) := raw_gzip CompressGZIP.

Definition v1_GenesisState_rawDescriptor := raw_descriptor v1_genesis_rawDescGZIP 0.
Definition v1_GenesisDenom_rawDescriptor := raw_descriptor v1_genesis_rawDescGZIP 1.

Definition v1_genesis_builder (v : file_vars (FD:=FD)) : TypeBuilder := {|
  GoPackagePath := "github.com/initia-labs/miniwasm/api/miniwasm/tokenfactory/v1";
  RawDescriptor := v_rawDesc v; NumEnums := 0; NumMessages := 2; NumExtensions := 0;
  NumServices := 0; GoTypes := v_goTypes v; DependencyIndexes := v_depIdxs v; MessageInfos := v_msgTypes v |}.

Definition v1_genesis_init : M (registry (FD:=FD)) unit :=
  file_init Build UnsafeEnabled tf_genesis (v1_authority_metadata_init ;;; v1_params_init)
    [v1_GenesisState_Exporter; v1_GenesisDenom_Exporter] v1_genesis_builder.

(** ** tokenfactory/v1/query.pulsar.go *)

Definition v1_QueryParamsRequest_Exporter (i : Z) : option string := exporter_case "QueryParamsRequest" i.
Definition v1_QueryParamsRequest_slowProtoReflect := slow_reflect UnsafeEnabled (tf_query, 0%nat).
Definition v1_QueryParamsResponse_Exporter (i : Z) : option string := exporter_case "QueryParamsResponse" i.
Definition v1_QueryParamsResponse_slowProtoReflect := slow_reflect UnsafeEnabled (tf_query, 1%nat).
Definition v1_QueryDenomAuthorityMetadataRequest_Exporter (i : Z) : option string := exporter_case
    "QueryDenomAuthorityMetadataRequest" i.
Definition v1_QueryDenomAuthorityMetadataRequest_slowProtoReflect := slow_reflect UnsafeEnabled (tf_query,
    2%nat).
Definition v1_QueryDenomAuthorityMetadataResponse_Exporter (i : Z) : option string := exporter_case
    "QueryDenomAuthorityMetadataResponse" i.
Definition v1_QueryDenomAuthorityMetadataResponse_slowProtoReflect := slow_reflect UnsafeEnabled (tf_query,
    3%nat).
Definition v1_QueryDenomsFromCreatorRequest_Exporter (i : Z) : option string := exporter_case
    "QueryDenomsFromCreatorRequest" i.
Definition v1_QueryDenomsFromCreatorRequest_slowProtoReflect := slow_reflect UnsafeEnabled (tf_query, 4%nat).
Definition v1_QueryDenomsFromCreatorResponse_Exporter (i : Z) : option string := exporter_case
    "QueryDenomsFromCreatorResponse" i.
Definition v1_QueryDenomsFromCreatorResponse_slowProtoReflect := slow_reflect UnsafeEnabled (tf_query, 5%nat).
Definition v1_QueryBeforeSendHookAddressRequest_Exporter (i : Z) : option string := exporter_case
    "QueryBeforeSendHookAddressRequest" i.
Definition v1_QueryBeforeSendHookAddressRequest_slowProtoReflect := slow_reflect UnsafeEnabled (tf_query,
    6%nat).
Definition v1_QueryBeforeSendHookAddressResponse_Exporter (i : Z) : option string := exporter_case
    "QueryBeforeSendHookAddressResponse" i.
Definition v1_QueryBeforeSendHookAddressResponse_slowProtoReflect := slow_reflect UnsafeEnabled (tf_query,
    7%nat).

Definition v1_query_rawDescGZIP : M gzip_vars (list Z) := raw_gzip CompressGZIP.

Definition v1_QueryParamsRequest_rawDescriptor := raw_descriptor v1_query_rawDescGZIP 0.
Definition v1_QueryParamsResponse_rawDescriptor := raw_descriptor v1_query_rawDescGZIP 1.
Definition v1_QueryDenomAuthorityMetadataRequest_rawDescriptor := raw_descriptor v1_query_rawDescGZIP 2.
Definition v1_QueryDenomAuthorityMetadataResponse_rawDescriptor := raw_descriptor v1_query_rawDescGZIP 3.
Definition v1_QueryDenomsFromCreatorRequest_rawDescriptor := raw_descriptor v1_query_rawDescGZIP 4.
Definition v1_QueryDenomsFromCreatorResponse_rawDescriptor := raw_descriptor v1_query_rawDescGZIP 5.
Definition v1_QueryBeforeSendHookAddressRequest_rawDescriptor := raw_descriptor v1_query_rawDescGZIP 6.
Definition v1_QueryBeforeSendHookAddressResponse_rawDescriptor := raw_descriptor v1_query_rawDescGZIP 7.

Definition v1_query_builder (v : file_vars (FD:=FD)) : TypeBuilder := {|
  GoPackagePath := "github.com/initia-labs/miniwasm/api/miniwasm/tokenfactory/v1";
  RawDescriptor := v_rawDesc v; NumEnums := 0; NumMessages := 8; NumExtensions := 0;
  NumServices := 1; GoTypes := v_goTypes v; DependencyIndexes := v_depIdxs v; MessageInfos := v_msgTypes v |}.

Definition v1_query_init : M (registry (FD:=FD)) unit :=
  file_init Build UnsafeEnabled tf_query (v1_authority_metadata_init ;;; v1_params_init)
    [v1_QueryParamsRequest_Exporter; v1_QueryParamsResponse_Exporter;
        v1_QueryDenomAuthorityMetadataRequest_Exporter; v1_QueryDenomAuthorityMetadataResponse_Exporter;
        v1_QueryDenomsFromCreatorRequest_Exporter; v1_QueryDenomsFromCreatorResponse_Exporter;
        v1_QueryBeforeSendHookAddressRequest_Exporter; v1_QueryBeforeSendHookAddressResponse_Exporter]
        v1_query_builder.

(** ** tokenfactory/v1/tx.pulsar.go *)

Definition v1_MsgCreateDenom_Exporter (i : Z) : option string := exporter_case "MsgCreateDenom" i.
Definition v1_MsgCreateDenom_slowProtoReflect := slow_reflect UnsafeEnabled (tf_tx, 0%nat).
Definition v1_MsgCreateDenomResponse_Exporter (i : Z) : option string := exporter_case
    "MsgCreateDenomResponse" i.
Definition v1_MsgCreateDenomResponse_slowProtoReflect := slow_reflect UnsafeEnabled (tf_tx, 1%nat).
Definition v1_MsgMint_Exporter (i : Z) : option string := exporter_case "MsgMint" i.
Definition v1_MsgMint_slowProtoReflect := slow_reflect UnsafeEnabled (tf_tx, 2%nat).
Definition v1_MsgMintResponse_Exporter (i : Z) : option string := exporter_case "MsgMintResponse" i.
Definition v1_MsgMintResponse_slowProtoReflect := slow_reflect UnsafeEnabled (tf_tx, 3%nat).
Definition v1_MsgBurn_Exporter (i : Z) : option string := exporter_case "MsgBurn" i.
Definition v1_MsgBurn_slowProtoReflect := slow_reflect UnsafeEnabled (tf_tx, 4%nat).
Definition v1_MsgBurnResponse_Exporter (i : Z) : option string := exporter_case "MsgBurnResponse" i.
Definition v1_MsgBurnResponse_slowProtoReflect := slow_reflect UnsafeEnabled (tf_tx, 5%nat).
Definition v1_MsgChangeAdmin_Exporter (i : Z) : option string := exporter_case "MsgChangeAdmin" i.
Definition v1_MsgChangeAdmin_slowProtoReflect := slow_reflect UnsafeEnabled (tf_tx, 6%nat).
Definition v1_MsgChangeAdminResponse_Exporter (i : Z) : option string := exporter_case
    "MsgChangeAdminResponse" i.
Definition v1_MsgChangeAdminResponse_slowProtoReflect := slow_reflect UnsafeEnabled (tf_tx, 7%nat).
Definition v1_MsgSetBeforeSendHook_Exporter (i : Z) : option string := exporter_case "MsgSetBeforeSendHook" i.
Definition v1_MsgSetBeforeSendHook_slowProtoReflect := slow_reflect UnsafeEnabled (tf_tx, 8%nat).
Definition v1_MsgSetBeforeSendHookResponse_Exporter (i : Z) : option string := exporter_case
    "MsgSetBeforeSendHookResponse" i.
Definition v1_MsgSetBeforeSendHookResponse_slowProtoReflect := slow_reflect UnsafeEnabled (tf_tx, 9%nat).
Definition v1_MsgSetDenomMetadata_Exporter (i : Z) : option string := exporter_case "MsgSetDenomMetadata" i.
Definition v1_MsgSetDenomMetadata_slowProtoReflect := slow_reflect UnsafeEnabled (tf_tx, 10%nat).
Definition v1_MsgSetDenomMetadataResponse_Exporter (i : Z) : option string := exporter_case
    "MsgSetDenomMetadataResponse" i.
Definition v1_MsgSetDenomMetadataResponse_slowProtoReflect := slow_reflect UnsafeEnabled (tf_tx, 11%nat).
Definition v1_MsgUpdateParams_Exporter (i : Z) : option string := exporter_case "MsgUpdateParams" i.
Definition v1_MsgUpdateParams_slowProtoReflect := slow_reflect UnsafeEnabled (tf_tx, 12%nat).
Definition v1_MsgUpdateParamsResponse_Exporter (i : Z) : option string := exporter_case
    "MsgUpdateParamsResponse" i.
Definition v1_MsgUpdateParamsResponse_slowProtoReflect := slow_reflect UnsafeEnabled (tf_tx, 13%nat).

Definition v1_tx_rawDescGZIP : M gzip_vars (list Z) := raw_gzip CompressGZIP.

Definition v1_MsgCreateDenom_rawDescriptor := raw_descriptor v1_tx_rawDescGZIP 0.
Definition v1_MsgCreateDenomResponse_rawDescriptor := raw_descriptor v1_tx_rawDescGZIP 1.
Definition v1_MsgMint_rawDescriptor := raw_descriptor v1_tx_rawDescGZIP 2.
Definition v1_MsgMintResponse_rawDescriptor := raw_descriptor v1_tx_rawDescGZIP 3.
Definition v1_MsgBurn_rawDescriptor := raw_descriptor v1_tx_rawDescGZIP 4.
Definition v1_MsgBurnResponse_rawDescriptor := raw_descriptor v1_tx_rawDescGZIP 5.
Definition v1_MsgChangeAdmin_rawDescriptor := raw_descriptor v1_tx_rawDescGZIP 6.
Definition v1_MsgChangeAdminResponse_rawDescriptor := raw_descriptor v1_tx_rawDescGZIP 7.
Definition v1_MsgSetBeforeSendHook_rawDescriptor := raw_descriptor v1_tx_rawDescGZIP 8.
Definition v1_MsgSetBeforeSendHookResponse_rawDescriptor := raw_descriptor v1_tx_rawDescGZIP 9.
Definition v1_MsgSetDenomMetadata_rawDescriptor := raw_descriptor v1_tx_rawDescGZIP 10.
Definition v1_MsgSetDenomMetadataResponse_rawDescriptor := raw_descriptor v1_tx_rawDescGZIP 11.
Definition v1_MsgUpdateParams_rawDescriptor := raw_descriptor v1_tx_rawDescGZIP 12.
Definition v1_MsgUpdateParamsResponse_rawDescriptor := raw_descriptor v1_tx_rawDescGZIP 13.

Definition v1_tx_builder (v : file_vars (FD:=FD)) : TypeBuilder := {|
  GoPackagePath := "github.com/initia-labs/miniwasm/api/miniwasm/tokenfactory/v1";
  RawDescriptor := v_rawDesc v; NumEnums := 0; NumMessages := 14; NumExtensions := 0;
  NumServices := 1; GoTypes := v_goTypes v; DependencyIndexes := v_depIdxs v; MessageInfos := v_msgTypes v |}.

Definition v1_tx_init : M (registry (FD:=FD)) unit :=
  file_init Build UnsafeEnabled tf_tx (v1_params_init)
    [v1_MsgCreateDenom_Exporter; v1_MsgCreateDenomResponse_Exporter; v1_MsgMint_Exporter;
        v1_MsgMintResponse_Exporter; v1_MsgBurn_Exporter; v1_MsgBurnResponse_Exporter;
        v1_MsgChangeAdmin_Exporter; v1_MsgChangeAdminResponse_Exporter; v1_MsgSetBeforeSendHook_Exporter;
        v1_MsgSetBeforeSendHookResponse_Exporter; v1_MsgSetDenomMetadata_Exporter;
        v1_MsgSetDenomMetadataResponse_Exporter; v1_MsgUpdateParams_Exporter;
        v1_MsgUpdateParamsResponse_Exporter] v1_tx_builder.

(** ** wasmextension/v1/types.pulsar.go *)

Definition wasmv1_AccessConfig_Exporter (i : Z) : option string := exporter_case "AccessConfig" i.
Definition wasmv1_AccessConfig_slowProtoReflect := slow_reflect UnsafeEnabled (we_types, 0%nat).

Definition wasmv1_types_rawDescGZIP : M gzip_vars (list Z) := raw_gzip CompressGZIP.

Definition wasmv1_AccessConfig_rawDescriptor := raw_descriptor wasmv1_types_rawDescGZIP 0.

Definition wasmv1_types_builder (v : file_vars (FD:=FD)) : TypeBuilder := {|
  GoPackagePath := "github.com/initia-labs/miniwasm/api/miniwasm/wasmextension/v1";
  RawDescriptor := v_rawDesc v; NumEnums := 0; NumMessages := 1; NumExtensions := 0;
  NumServices := 0; GoTypes := v_goTypes v; DependencyIndexes := v_depIdxs v; MessageInfos := v_msgTypes v |}.

Definition wasmv1_types_init : M (registry (FD:=FD)) unit :=
  file_init Build UnsafeEnabled we_types (ret ())
    [wasmv1_AccessConfig_Exporter] wasmv1_types_builder.

(** ** wasmextension/v1/tx.pulsar.go *)

Definition wasmv1_MsgStoreCodeAdmin_Exporter (i : Z) : option string := exporter_case "MsgStoreCodeAdmin" i.
Definition wasmv1_MsgStoreCodeAdmin_slowProtoReflect := slow_reflect UnsafeEnabled (we_tx, 0%nat).
Definition wasmv1_MsgStoreCodeAdminResponse_Exporter (i : Z) : option string := exporter_case
    "MsgStoreCodeAdminResponse" i.
Definition wasmv1_MsgStoreCodeAdminResponse_slowProtoReflect := slow_reflect UnsafeEnabled (we_tx, 1%nat).

Definition wasmv1_tx_rawDescGZIP : M gzip_vars (list Z) := raw_gzip CompressGZIP.

Definition wasmv1_MsgStoreCodeAdmin_rawDescriptor := raw_descriptor wasmv1_tx_rawDescGZIP 0.
Definition wasmv1_MsgStoreCodeAdminResponse_rawDescriptor := raw_descriptor wasmv1_tx_rawDescGZIP 1.

Definition wasmv1_tx_builder (v : file_vars (FD:=FD)) : TypeBuilder := {|
  GoPackagePath := "github.com/initia-labs/miniwasm/api/miniwasm/wasmextension/v1";
  RawDescriptor := v_rawDesc v; NumEnums := 0; NumMessages := 2; NumExtensions := 0;
  NumServices := 1; GoTypes := v_goTypes v; DependencyIndexes := v_depIdxs v; MessageInfos := v_msgTypes v |}.

Definition wasmv1_tx_init : M (registry (FD:=FD)) unit :=
  file_init Build UnsafeEnabled we_tx (wasmv1_types_init)
    [wasmv1_MsgStoreCodeAdmin_Exporter; wasmv1_MsgStoreCodeAdminResponse_Exporter] wasmv1_tx_builder.

(** ** All files *)

Definition init_of (F : file_id) : M (registry (FD:=FD)) unit :=
  match F with
  | tf_params => v1_params_init
  | tf_authority_metadata => v1_authority_metadata_init
  | tf_genesis => v1_genesis_init
  | tf_query => v1_query_init
  | tf_tx => v1_tx_init
  | we_types => wasmv1_types_init
  | we_tx => wasmv1_tx_init
  end.

Definition builder_of (F : file_id) : file_vars (FD:=FD) → TypeBuilder :=
  match F with
  | tf_params => v1_params_builder
  | tf_authority_metadata => v1_authority_metadata_builder
  | tf_genesis => v1_genesis_builder
  | tf_query => v1_query_builder
  | tf_tx => v1_tx_builder
  | we_types => wasmv1_types_builder
  | we_tx => wasmv1_tx_builder
  end.

Definition exporters_of (F : file_id) : list (Z → option string) :=
  match F with
  | tf_params => [v1_Params_Exporter]
  | tf_authority_metadata => [v1_DenomAuthorityMetadata_Exporter]
  | tf_genesis => [v1_GenesisState_Exporter; v1_GenesisDenom_Exporter]
  | tf_query => [v1_QueryParamsRequest_Exporter; v1_QueryParamsResponse_Exporter;
      v1_QueryDenomAuthorityMetadataRequest_Exporter; v1_QueryDenomAuthorityMetadataResponse_Exporter;
      v1_QueryDenomsFromCreatorRequest_Exporter; v1_QueryDenomsFromCreatorResponse_Exporter;
      v1_QueryBeforeSendHookAddressRequest_Exporter; v1_QueryBeforeSendHookAddressResponse_Exporter]
  | tf_tx => [v1_MsgCreateDenom_Exporter; v1_MsgCreateDenomResponse_Exporter; v1_MsgMint_Exporter;
      v1_MsgMintResponse_Exporter; v1_MsgBurn_Exporter; v1_MsgBurnResponse_Exporter;
      v1_MsgChangeAdmin_Exporter; v1_MsgChangeAdminResponse_Exporter; v1_MsgSetBeforeSendHook_Exporter;
      v1_MsgSetBeforeSendHookResponse_Exporter; v1_MsgSetDenomMetadata_Exporter;
      v1_MsgSetDenomMetadataResponse_Exporter; v1_MsgUpdateParams_Exporter;
      v1_MsgUpdateParamsResponse_Exporter]
  | we_types => [wasmv1_AccessConfig_Exporter]
  | we_tx => [wasmv1_MsgStoreCodeAdmin_Exporter; wasmv1_MsgStoreCodeAdminResponse_Exporter]
  end.

(** The functions slowProtoReflect of the messages of a file, and Descriptor. *)
Definition slow_of (F : file_id) : list (option (option (file_id * nat)) → (file_id * nat) * option (option
    (file_id * nat))) :=
  match F with
  | tf_params => [v1_Params_slowProtoReflect]
  | tf_authority_metadata => [v1_DenomAuthorityMetadata_slowProtoReflect]
  | tf_genesis => [v1_GenesisState_slowProtoReflect; v1_GenesisDenom_slowProtoReflect]
  | tf_query => [v1_QueryParamsRequest_slowProtoReflect; v1_QueryParamsResponse_slowProtoReflect;
      v1_QueryDenomAuthorityMetadataRequest_slowProtoReflect;
      v1_QueryDenomAuthorityMetadataResponse_slowProtoReflect;
      v1_QueryDenomsFromCreatorRequest_slowProtoReflect; v1_QueryDenomsFromCreatorResponse_slowProtoReflect;
      v1_QueryBeforeSendHookAddressRequest_slowProtoReflect;
      v1_QueryBeforeSendHookAddressResponse_slowProtoReflect]
  | tf_tx => [v1_MsgCreateDenom_slowProtoReflect; v1_MsgCreateDenomResponse_slowProtoReflect;
      v1_MsgMint_slowProtoReflect; v1_MsgMintResponse_slowProtoReflect; v1_MsgBurn_slowProtoReflect;
      v1_MsgBurnResponse_slowProtoReflect; v1_MsgChangeAdmin_slowProtoReflect;
      v1_MsgChangeAdminResponse_slowProtoReflect; v1_MsgSetBeforeSendHook_slowProtoReflect;
      v1_MsgSetBeforeSendHookResponse_slowProtoReflect; v1_MsgSetDenomMetadata_slowProtoReflect;
      v1_MsgSetDenomMetadataResponse_slowProtoReflect; v1_MsgUpdateParams_slowProtoReflect;
      v1_MsgUpdateParamsResponse_slowProtoReflect]
  | we_types => [wasmv1_AccessConfig_slowProtoReflect]
  | we_tx => [wasmv1_MsgStoreCodeAdmin_slowProtoReflect; wasmv1_MsgStoreCodeAdminResponse_slowProtoReflect]
  end.

Definition rawDescriptors_of (F : file_id) : list (M gzip_vars (list Z * list Z)) :=
  match F with
  | tf_params => [v1_Params_rawDescriptor]
  | tf_authority_metadata => [v1_DenomAuthorityMetadata_rawDescriptor]
  | tf_genesis => [v1_GenesisState_rawDescriptor; v1_GenesisDenom_rawDescriptor]
  | tf_query => [v1_QueryParamsRequest_rawDescriptor; v1_QueryParamsResponse_rawDescriptor;
      v1_QueryDenomAuthorityMetadataRequest_rawDescriptor;
      v1_QueryDenomAuthorityMetadataResponse_rawDescriptor; v1_QueryDenomsFromCreatorRequest_rawDescriptor;
      v1_QueryDenomsFromCreatorResponse_rawDescriptor; v1_QueryBeforeSendHookAddressRequest_rawDescriptor;
      v1_QueryBeforeSendHookAddressResponse_rawDescriptor]
  | tf_tx => [v1_MsgCreateDenom_rawDescriptor; v1_MsgCreateDenomResponse_rawDescriptor;
      v1_MsgMint_rawDescriptor; v1_MsgMintResponse_rawDescriptor; v1_MsgBurn_rawDescriptor;
      v1_MsgBurnResponse_rawDescriptor; v1_MsgChangeAdmin_rawDescriptor;
      v1_MsgChangeAdminResponse_rawDescriptor; v1_MsgSetBeforeSendHook_rawDescriptor;
      v1_MsgSetBeforeSendHookResponse_rawDescriptor; v1_MsgSetDenomMetadata_rawDescriptor;
      v1_MsgSetDenomMetadataResponse_rawDescriptor; v1_MsgUpdateParams_rawDescriptor;
      v1_MsgUpdateParamsResponse_rawDescriptor]
  | we_types => [wasmv1_AccessConfig_rawDescriptor]
  | we_tx => [wasmv1_MsgStoreCodeAdmin_rawDescriptor; wasmv1_MsgStoreCodeAdminResponse_rawDescriptor]
  end.

End files.

Definition rawDesc_of (F : file_id) : list Z :=
  match F with
  | tf_params => v1_params_rawDesc
  | tf_authority_metadata => v1_authority_metadata_rawDesc
  | tf_genesis => v1_genesis_rawDesc
  | tf_query => v1_query_rawDesc
  | tf_tx => v1_tx_rawDesc
  | we_types => wasmv1_types_rawDesc
  | we_tx => wasmv1_tx_rawDesc
  end.

Definition goTypes_of (F : file_id) : list gotype :=
  match F with
  | tf_params => v1_params_goTypes
  | tf_authority_metadata => v1_authority_metadata_goTypes
  | tf_genesis => v1_genesis_goTypes
  | tf_query => v1_query_goTypes
  | tf_tx => v1_tx_goTypes
  | we_types => wasmv1_types_goTypes
  | we_tx => wasmv1_tx_goTypes
  end.

Definition depIdxs_of (F : file_id) : list Z :=
  match F with
  | tf_params => v1_params_depIdxs
  | tf_authority_metadata => v1_authority_metadata_depIdxs
  | tf_genesis => v1_genesis_depIdxs
  | tf_query => v1_query_depIdxs
  | tf_tx => v1_tx_depIdxs
  | we_types => wasmv1_types_depIdxs
  | we_tx => wasmv1_tx_depIdxs
  end.

(** The file whose descriptor has a name, and the files of the repository that a file imports,
    read from the dependency field of its descriptor. *)
Definition file_named (n : string) : option file_id :=
  snd <$> list_find (λ F, file_name <$> read_FileDescriptorProto (rawDesc_of F) = Some n) all_files.

Definition imports_of (F : file_id) : list file_id :=
  omap file_named (from_option dependency [] (read_FileDescriptorProto (rawDesc_of F))).

Definition package_of (F : file_id) : string :=
  match F with
  | tf_params => "miniwasm.tokenfactory.v1"
  | tf_authority_metadata => "miniwasm.tokenfactory.v1"
  | tf_genesis => "miniwasm.tokenfactory.v1"
  | tf_query => "miniwasm.tokenfactory.v1"
  | tf_tx => "miniwasm.tokenfactory.v1"
  | we_types => "miniwasm.wasmextension.v1"
  | we_tx => "miniwasm.wasmextension.v1"
  end.

Section messages.
Context {WR : WireRuntime} {SM : SdkMessages}.

(** The messages of a file, in the order of msgTypes. *)
Definition messages_of (F : file_id) : list message_ops :=
  match F with
  | tf_params => [v1_Params_ops]
  | tf_authority_metadata => [v1_DenomAuthorityMetadata_ops]
  | tf_genesis => [v1_GenesisState_ops; v1_GenesisDenom_ops]
  | tf_query => [v1_QueryParamsRequest_ops; v1_QueryParamsResponse_ops;
      v1_QueryDenomAuthorityMetadataRequest_ops; v1_QueryDenomAuthorityMetadataResponse_ops;
      v1_QueryDenomsFromCreatorRequest_ops; v1_QueryDenomsFromCreatorResponse_ops;
      v1_QueryBeforeSendHookAddressRequest_ops; v1_QueryBeforeSendHookAddressResponse_ops]
  | tf_tx => [v1_MsgCreateDenom_ops; v1_MsgCreateDenomResponse_ops; v1_MsgMint_ops; v1_MsgMintResponse_ops;
      v1_MsgBurn_ops; v1_MsgBurnResponse_ops; v1_MsgChangeAdmin_ops; v1_MsgChangeAdminResponse_ops;
      v1_MsgSetBeforeSendHook_ops; v1_MsgSetBeforeSendHookResponse_ops; v1_MsgSetDenomMetadata_ops;
      v1_MsgSetDenomMetadataResponse_ops; v1_MsgUpdateParams_ops; v1_MsgUpdateParamsResponse_ops]
  | we_types => [wasmv1_AccessConfig_ops]
  | we_tx => [wasmv1_MsgStoreCodeAdmin_ops; wasmv1_MsgStoreCodeAdminResponse_ops]
  end.

End messages.
