(* ===== verification/DescSpec.v ===== *)
(** What holds of the descriptors of api/: every file is registered once, after the files that
    it imports; what a descriptor says of a message is what the generated methods do; and what
    it says of signers, of names and of paths is what the rest of the program goes by. *)
From S2P Require Import Prelude.
From S2P Require Import GoJson.
From S2P Require Import Wire.
From S2P Require Import WireSpec.
From S2P Require Import WireRead.
From S2P Require Import ApiState.
From S2P Require Import ApiTx.
From S2P Require Import ApiQuery.
From S2P Require Import ApiWasm.
From S2P Require Import ApiSpec.
From S2P Require Import Reflect.
From S2P Require Import ReflectState.
From S2P Require Import ReflectTx.
From S2P Require Import ReflectQuery.
From S2P Require Import ReflectWasm.
From S2P Require Import ReflectTypes.
From S2P Require Import DescData.
From S2P Require Import Descriptors.
From S2P Require Import DescFiles.

(** * Registration *)

Section registered.
Context {FD : Type} (Build : TypeBuilder → res FD) (UnsafeEnabled : bool).

(** The variables of a file as they are declared, and when init gives them to Build. *)
Definition declared_vars (F : file_id) : file_vars (FD:=FD) :=
  {| v_File := None; v_rawDesc := Some (rawDesc_of F); v_goTypes := Some (goTypes_of F);
     v_depIdxs := Some (depIdxs_of F);
     v_msgTypes := replicate (length (exporters_of F)) None |}.

Definition ready_vars (F : file_id) : file_vars (FD:=FD) :=
  if UnsafeEnabled then declared_vars F else set_exporters (exporters_of F) (declared_vars F).

Definition declared_builder (F : file_id) : TypeBuilder := builder_of F (ready_vars F).

Definition start : registry := {| vars := declared_vars; built := [] |}.

(** The init functions of some files, one after the other. *)
Fixpoint inits (l : list file_id) : M (registry (FD:=FD)) unit :=
  match l with
  | [] => ret ()
  | F :: l => init_of Build UnsafeEnabled F ;;; inits l
  end.

(** Files that are built have a descriptor, the others are as they were declared. *)
Record registered (fd : file_id → FD) (s : registry) : Prop := {
  reg_vars F : vars s F = if decide (F ∈ (built s).*1) then set_File (fd F) (ready_vars F) else declared_vars F;
  reg_builders F b : (F, b) ∈ built s → b = declared_builder F;
  reg_once : NoDup (built s).*1;
  reg_imports i F : (built s).*1 !! i = Some F →
    ∀ G, G ∈ imports_of F → ∃ j, (j < i)%nat ∧ (built s).*1 !! j = Some G
}.

Context (fd : file_id → FD) (Hbuild : ∀ F, Build (declared_builder F) = Ok (fd F)).

Lemma registered_start : registered fd start.
Proof. split; [done|set_solver|constructor|done]. Qed.

(** A file that was not built and whose imports were is built next. *)
Lemma registered_build F s s' :
  registered fd s → F ∉ (built s).*1 → (∀ G, G ∈ imports_of F → G ∈ (built s).*1) →
  built s' = built s ++ [(F, declared_builder F)] →
  (∀ G, vars s' G = if decide (G = F) then set_File (fd F) (ready_vars F) else vars s G) →
  registered fd s'.
Proof.
  intros [Hv Hb Hn Hi] HF HG E Ev. split.
  - intros G. rw Ev E fmap_app. destruct (decide (G = F)) as [->|].
    + rw decide_True; [done|]. set_solver.
    + rw Hv. apply decide_ext. set_solver.
  - intros G b. rw E. rw elem_of_app list_elem_of_singleton. naive_solver.
  - rw E fmap_app. apply NoDup_app. split_and!; [done|set_solver|apply NoDup_singleton].
  - intros i G. rw E fmap_app. intros [H|[Hl H]]%lookup_app_Some G' HG'.
    + destruct (Hi i G H G' HG') as (j & ? & Hj). exists j. split; [done|]. by apply lookup_app_l_Some.
    + destruct (i - _)%nat eqn:Ei; simplify_eq/=. apply HG, list_elem_of_lookup in HG' as [j Hj].
      exists j. split; [apply lookup_lt_Some in Hj; lia|by apply lookup_app_l_Some].
Qed.

(** What running some init functions does: nothing is forgotten, and only [new] is built. *)
Definition registers (m : M (registry (FD:=FD)) unit) (new : list file_id) : Prop := ∀ s,
  registered fd s → ∃ s', m s = (Ok (), s') ∧ registered fd s' ∧ built s `prefix_of` built s' ∧
    new ⊆ (built s').*1 ∧ (∀ G, G ∈ (built s').*1 → G ∈ new ∨ G ∈ (built s).*1).

Lemma registers_ret : registers (ret ()) [].
Proof. intros s H. exists s. split_and!; [done..|set_solver|auto]. Qed.

Lemma prefix_fst (l l' : list (file_id * TypeBuilder)) G : l `prefix_of` l' → G ∈ l.*1 → G ∈ l'.*1.
Proof. intros [k ->]. rw fmap_app. set_solver. Qed.

Lemma registers_seq m m' new new' :
  registers m new → registers m' new' → registers (m ;;; m') (new ++ new').
Proof.
  intros H H' s Hs. destruct (H s Hs) as (s1 & E & H1 & Hp & Hn & Ho).
  destruct (H' s1 H1) as (s2 & E' & H2 & Hp' & Hn' & Ho'). exists s2.
  rw (bind_ok _ _ _ _ _ E). split_and!; [done..|by etrans| |].
  - intros G [HG|HG]%elem_of_app; [eapply prefix_fst; eauto|auto].
  - intros G HG. rw elem_of_app. naive_solver.
Qed.

Lemma reg_File_built s F : registered fd s → F ∈ (built s).*1 → v_File (vars s F) = Some (fd F).
Proof. intros Hs HF. by rw (reg_vars _ _ Hs) decide_True. Qed.

Lemma reg_File_declared s F : registered fd s → F ∉ (built s).*1 → vars s F = declared_vars F.
Proof. intros Hs HF. by rw (reg_vars _ _ Hs) decide_False. Qed.

(** The step between the imports and Build. *)
Lemma exporters_ready F s :
  vars s F = declared_vars F →
  ∃ s', (if UnsafeEnabled then ret () else modify (λ s, set_vars F (set_exporters (exporters_of F) (vars s F)) s)) s = (Ok (), s') ∧
    built s' = built s ∧ ∀ G, vars s' G = if decide (G = F) then ready_vars F else vars s G.
Proof.
  intros E. unfold ready_vars. destruct UnsafeEnabled; eexists; (split_and!; [done..|]); intros G; [|by rw E].
  by destruct (decide (G = F)) as [->|].
Qed.

Lemma registers_file F m :
  registers m (imports_of F) → F ∉ imports_of F →
  registers (file_init Build UnsafeEnabled F m (exporters_of F) (builder_of F)) (F :: imports_of F).
Proof.
  intros Hm HF s Hs. unfold file_init, bind at 1, gets at 1. destruct (decide (F ∈ (built s).*1)) as [Hin|Hin].
  - rw (reg_File_built s F Hs Hin). exists s. split_and!; [done..| |auto].
    intros G [->|HG]%elem_of_cons; [done|]. apply list_elem_of_lookup in Hin as [i Hi].
    destruct (reg_imports _ _ Hs i F Hi G HG) as (j & _ & Hj). by eapply list_elem_of_lookup_2.
  - rw (reg_File_declared s F Hs Hin). cbn [declared_vars v_File].
    destruct (Hm s Hs) as (s1 & E & H1 & Hp & Hn & Ho). rw (bind_ok _ _ _ _ _ E).
    assert (F ∉ (built s1).*1) as HF1 by naive_solver.
    destruct (exporters_ready F s1 (reg_File_declared s1 F H1 HF1)) as (s2 & E2 & Eb & Ev). rw (bind_ok _ _ _ _ _ E2).
    pose proof (Ev F) as EF. rw decide_True in EF; [|done].
    unfold bind, gets, lift. rw EF -/(declared_builder F) Hbuild. cbn [modify].
    eexists. split; [reflexivity|]. unfold set_vars, log_build. cbn [vars built]. rw EF Eb. split.
    + eapply (registered_build F s1); [done..|]. intros G. cbn [vars]. rw Ev. by destruct (decide (G = F)).
    + rw fmap_app. split_and!; [by apply prefix_app_r|set_solver|set_solver].
Qed.

Lemma imports_read F : imports_of F =
  match F with
  | tf_genesis | tf_query => [tf_authority_metadata; tf_params]
  | tf_tx => [tf_params]
  | we_tx => [we_types]
  | tf_params | tf_authority_metadata | we_types => []
  end.
Proof. destruct F; vm_compute; reflexivity. Qed.

#[local] Opaque imports_of.

Lemma registers_importing F m l :
  imports_of F = l → registers m l → F ∉ l →
  registers (file_init Build UnsafeEnabled F m (exporters_of F) (builder_of F)) (F :: l).
Proof. intros <-. apply registers_file. Qed.

Lemma registers_init F : registers (init_of Build UnsafeEnabled F) (F :: imports_of F).
Proof.
  assert (∀ G, imports_of G = [] →
    registers (file_init Build UnsafeEnabled G (ret ()) (exporters_of G) (builder_of G)) [G]) as Hleaf.
  { intros G EG. apply registers_importing; [done|apply registers_ret|set_solver]. }
  pose proof (Hleaf tf_params (imports_read _)). pose proof (Hleaf tf_authority_metadata (imports_read _)).
  pose proof (Hleaf we_types (imports_read _)).
  rw imports_read. destruct F; try done; (apply registers_importing; [apply imports_read| |set_solver]); try done.
  all: by apply (registers_seq _ _ [_] [_]).
Qed.

(** C22. Whatever the order in which the init functions are called, and however often, every file
    is built once, from the bytes, the types and the indexes that it declares, after the files
    that it imports, and the File of every file that was called is set; a call for a file that
    is set changes nothing. *)
Theorem registration calls :
  ∃ s, inits calls start = (Ok (), s) ∧ registered fd s ∧
    (∀ F, F ∈ calls → v_File (vars s F) = Some (fd F)) ∧
    (∀ F, F ∈ calls → init_of Build UnsafeEnabled F s = (Ok (), s)).
Proof.
  assert (∀ s, registered fd s → ∃ s', inits calls s = (Ok (), s') ∧ registered fd s' ∧
    built s `prefix_of` built s' ∧ calls ⊆ (built s').*1) as H.
  { induction calls as [|F l IH]; intros s Hs; [exists s; split_and!; done || set_solver|].
    destruct (registers_init F s Hs) as (s1 & E & H1 & Hp & Hn & _).
    destruct (IH s1 H1) as (s2 & E2 & H2 & Hp2 & Hn2). exists s2. cbn [inits]. rw (bind_ok _ _ _ _ _ E).
    split_and!; [done..|by etrans|]. intros G [->|HG]%elem_of_cons; [|auto].
    eapply prefix_fst; [done|]. set_solver. }
  destruct (H start registered_start) as (s & E & Hs & _ & Hc). exists s. split_and!; [done..| |].
  - intros F HF. apply reg_File_built; auto.
  - intros F HF. pose proof (reg_File_built s F Hs (Hc F HF)) as EF.
    destruct F; cbn [init_of]; unfold bind, gets, file_init; cbn; by rw EF.
Qed.
End registered.

(** * What the descriptors say of the messages *)

(** FieldDescriptorProto.Label and .Type, and the name of the type, of a field of a kind. *)
Definition message_name (t : message_type) : string :=
  match t with
  | TCoin => ".cosmos.base.v1beta1.Coin"
  | TMetadata => ".cosmos.bank.v1beta1.Metadata"
  | TParams => ".miniwasm.tokenfactory.v1.Params"
  | TDenomAuthorityMetadata => ".miniwasm.tokenfactory.v1.DenomAuthorityMetadata"
  | TGenesisDenom => ".miniwasm.tokenfactory.v1.GenesisDenom"
  | TAccessConfig => ".miniwasm.wasmextension.v1.AccessConfig"
  end.

Definition kind_type (k : field_kind) : Z * Z * string :=
  match k with
  | KString => (1, 9, "")
  | KBytes => (1, 12, "")
  | KUint => (1, 4, "")
  | KEnum => (1, 14, ".cosmwasm.wasm.v1.AccessType")
  | KMessage t => (1, 11, message_name t)
  | KList T_Params_1 => (3, 11, message_name TCoin)
  | KList T_GenesisState_2 => (3, 11, message_name TGenesisDenom)
  | KList (T_QueryDenomsFromCreatorResponse_1 | T_AccessConfig_2) => (3, 9, "")
  end.

(** The name of a Go type of a file in its descriptor. *)
Definition type_name (F : file_id) (t : gotype) : string :=
  match t with
  | Own X => "." +:+ package_of F +:+ "." +:+ X
  | Imported X =>
      if bool_decide (X = "v1beta1.Coin") then message_name TCoin
      else if bool_decide (X = "v1beta11.Metadata") then message_name TMetadata
      else if bool_decide (X = "types.AccessType") then ".cosmwasm.wasm.v1.AccessType"
      else X
  end.

(** The part of depIdxs from [a] to [b], its entries looked up among the types. *)
Definition dependencies (F : file_id) (a b : Z) : option (list string) :=
  mapM (λ i, type_name F <$> goTypes_of F !! Z.to_nat i) (take (Z.to_nat (b - a)) (drop (Z.to_nat a) (depIdxs_of F))).

Definition methods (d : FileDescriptorProto) : list MethodDescriptorProto := concat (s_methods <$> service d).
Definition type_names (d : FileDescriptorProto) : list string :=
  filter (λ t, t ≠ "") (f_type_name <$> concat (d_fields <$> file_messages d)).

Section messages.
Context {WR : WireRuntime} {SM : SdkMessages}.

(** A field of a descriptor is the one of that name in the message. *)
Definition field_descriptor (D : DescriptorProto) (pkg : string) (f : FieldDescriptorProto) : FieldDescriptor :=
  {| FullName := pkg +:+ "." +:+ d_name D +:+ "." +:+ f_name f; IsExtension := false |}.

Definition describes (pkg : string) (D : DescriptorProto) (T : message_ops) : Prop :=
  pkg +:+ "." +:+ d_name D = r_name (o_R T) ∧
  ((λ f, (field_descriptor D pkg f, (f_label f, f_type f, f_type_name f))) <$> d_fields D)
    = (λ '(fd, k), (fd, kind_type k)) <$> r_fields (o_R T).

(** The message at a place of the file: slowProtoReflect takes the info at that place for a
    message that has none, Descriptor answers the place, and the exporter and the Go type
    there are of one message. *)
Definition message_at (F : file_id) (i : nat) : Prop :=
  (∀ UnsafeEnabled, ∃ slow, slow_of UnsafeEnabled F !! i = Some slow ∧
    ∀ x, default None x = None → (slow x).1 = (F, i)) ∧
  (∀ CompressGZIP, ∃ desc, rawDescriptors_of CompressGZIP F !! i = Some desc ∧
    ∀ v, ∃ v', desc v = (Ok (rawDescData v', [Z.of_nat i]), v')) ∧
  ∃ e T, exporters_of F !! i = Some e ∧ goTypes_of F !! i = Some (Own T) ∧ e 0 = Some (T +:+ ".state").

Record file_agrees (F : file_id) (d : FileDescriptorProto) : Prop := {
  agree_package : package d = package_of F ∧ syntax d = "proto3";
  agree_messages : Forall2 (describes (package d)) (file_messages d) (messages_of F);
  agree_counts FD (v : file_vars (FD:=FD)) : let b := builder_of F v in
    NumMessages b = len (file_messages d) ∧ NumServices b = len (service d) ∧
    NumEnums b = n_enums d ∧ NumExtensions b = n_extensions d;
  agree_types : take (length (file_messages d)) (goTypes_of F) = Own <$> (d_name <$> file_messages d);
  agree_dependencies : ∃ extensions inputs outputs,
    take 5 (reverse (depIdxs_of F)) = [0; extensions; extensions; inputs; outputs] ∧
    dependencies F 0 extensions = Some (type_names d) ∧ inputs = extensions ∧
    dependencies F inputs outputs = Some (input_type <$> methods d) ∧
    dependencies F outputs (len (depIdxs_of F) - 5) = Some (output_type <$> methods d);
  agree_infos : Forall (message_at F) (seq 0 (length (file_messages d)))
}.

(** C20. Every descriptor can be decoded, and agrees with the code of its file. *)
Theorem descriptors_agree F : ∃ d, read_FileDescriptorProto (rawDesc_of F) = Some d ∧ file_agrees F d.
Proof.
  destruct F; (eexists; split; [vm_compute; reflexivity|]); split; try done.
  all: try (by repeat (constructor; [split; reflexivity|]); constructor).
  all: try (by do 3 eexists; split_and!; vm_compute; reflexivity).
  all: repeat (constructor; [split_and!|]); [..|constructor].
  all: try (by intros U; eexists; split; [reflexivity|]; intros [[]|] E; cbn in E; try discriminate E; destruct U).
  all: try (by intros C; eexists; split; [reflexivity|]; intros [[] z]; eexists; reflexivity).
  all: by do 2 eexists; split_and!.
Qed.
(** * Encoding by a descriptor *)

(** The tag of a field on the wire: its number, and 2 for what has a length. *)
Definition wire_tag (f : FieldDescriptorProto) : Z :=
  8 * f_number f + (if (f_type f =? 9) || (f_type f =? 11) || (f_type f =? 12) then 2 else 0).

(** A value on the wire: what is not populated is left out. *)
Definition enc_value (tag : Z) (v : Value) : raw :=
  match v with
  | VString s | VBytes s => enc_bytes tag s
  | VUint32 n | VUint64 n | VEnum n => enc_number tag n
  | VMessage (MCoin x) => enc_message tag x
  | VMessage (MMetadata x) => enc_message tag x
  | VMessage (MParams x) => enc_message tag x
  | VMessage (MDenomAuthorityMetadata x) => enc_message tag x
  | VMessage (MGenesisDenom x) => enc_message tag x
  | VMessage (MAccessConfig x) => enc_message tag x
  | VList (L_Params_1 l) => enc_messages tag (default [] l)
  | VList (L_GenesisState_2 l) => enc_messages tag (default [] l)
  | VList (L_QueryDenomsFromCreatorResponse_1 l) => enc_strings tag (default [] l)
  | VList (L_AccessConfig_2 l) => enc_strings tag (default [] l)
  | VMessage (MOther _) | VList (LOther _) | VOther _ => []
  end.

(** The fields of the descriptor in their order, each with its tag and what Get answers for
    it; on the wire these come one after the other, and then the fields that are unknown. *)
Fixpoint tagged_fields (pkg : string) (D : DescriptorProto) (T : message_ops) (x : r_message (o_R T))
    (fs : list FieldDescriptorProto) : res (list (Z * Value)) :=
  match fs with
  | [] => Ok []
  | f :: fs =>
      let? v := r_Get (o_R T) (Some x) (field_descriptor D pkg f) in
      let? rest := tagged_fields pkg D T x fs in
      Ok ((wire_tag f, v) :: rest)
  end.

Fixpoint enc_values (l : list (Z * Value)) (unknown : raw) : raw :=
  match l with [] => unknown | (tag, v) :: l => enc_value tag v ++ enc_values l unknown end.

Definition enc_message_by (pkg : string) (D : DescriptorProto) (T : message_ops) (x : r_message (o_R T)) : res raw :=
  let? l := tagged_fields pkg D T x (d_fields D) in
  let? unknown := r_GetUnknown (o_R T) (Some x) in
  Ok (enc_values l unknown).

Context {WL : WireRuntimeLaws WR} {SL : SdkMessagesLaws SM}.

Definition encoded_by (pkg : string) (D : DescriptorProto) (T : message_ops) : Prop := ∀ x,
  ∃ bz, enc_message_by pkg D T x = Ok bz ∧
    encodes (m_Marshal (o_ProtoMethods T) (Some x)) (m_Size (o_ProtoMethods T) (Some x)) bz.

Lemma encoded_by_intro T pkg D enc :
  (∀ x, enc_message_by pkg D T x = Ok (enc x)) →
  (∀ x, encodes (m_Marshal (o_ProtoMethods T) (Some x)) (m_Size (o_ProtoMethods T) (Some x)) (enc x)) →
  encoded_by pkg D T.
Proof. intros He Hw x. eauto. Qed.

Tactic Notation "by_vm" open_constr(t) :=
  match goal with |- context [?u] => unify u t; let v := eval vm_compute in u in
    replace u with v by (vm_compute; reflexivity) end.

Ltac by_desc enc w :=
  constructor; [unshelve eapply encoded_by_intro; [exact enc| |exact w];
    intros x; destruct x; repeat match goal with l : list _ |- _ => revert l end; repeat intros [|];
    unfold enc_message_by; by_vm (tagged_fields _ _ _ _ _);
    cbn [rbind enc_values enc_value default from_option]; reflexivity|].

Lemma fast_paths F d : read_FileDescriptorProto (rawDesc_of F) = Some d →
  Forall2 (encoded_by (package d)) (file_messages d) (messages_of F).
Proof.
  destruct F; by_vm (read_FileDescriptorProto _); intros [= <-]; cbn [package file_messages].
  - by_desc v1_Params_enc v1_Params_writes. constructor.
  - by_desc v1_DenomAuthorityMetadata_enc v1_DenomAuthorityMetadata_writes. constructor.
  - by_desc v1_GenesisState_enc v1_GenesisState_writes.
    by_desc v1_GenesisDenom_enc v1_GenesisDenom_writes. constructor.
  - by_desc v1_QueryParamsRequest_enc v1_QueryParamsRequest_writes.
    by_desc v1_QueryParamsResponse_enc v1_QueryParamsResponse_writes.
    by_desc v1_QueryDenomAuthorityMetadataRequest_enc v1_QueryDenomAuthorityMetadataRequest_writes.
    by_desc v1_QueryDenomAuthorityMetadataResponse_enc v1_QueryDenomAuthorityMetadataResponse_writes.
    by_desc v1_QueryDenomsFromCreatorRequest_enc v1_QueryDenomsFromCreatorRequest_writes.
    by_desc v1_QueryDenomsFromCreatorResponse_enc v1_QueryDenomsFromCreatorResponse_writes.
    by_desc v1_QueryBeforeSendHookAddressRequest_enc v1_QueryBeforeSendHookAddressRequest_writes.
    by_desc v1_QueryBeforeSendHookAddressResponse_enc v1_QueryBeforeSendHookAddressResponse_writes. constructor.
  - by_desc v1_MsgCreateDenom_enc v1_MsgCreateDenom_writes.
    by_desc v1_MsgCreateDenomResponse_enc v1_MsgCreateDenomResponse_writes.
    by_desc v1_MsgMint_enc v1_MsgMint_writes.
    by_desc v1_MsgMintResponse_enc v1_MsgMintResponse_writes.
    by_desc v1_MsgBurn_enc v1_MsgBurn_writes.
    by_desc v1_MsgBurnResponse_enc v1_MsgBurnResponse_writes.
    by_desc v1_MsgChangeAdmin_enc v1_MsgChangeAdmin_writes.
    by_desc v1_MsgChangeAdminResponse_enc v1_MsgChangeAdminResponse_writes.
    by_desc v1_MsgSetBeforeSendHook_enc v1_MsgSetBeforeSendHook_writes.
    by_desc v1_MsgSetBeforeSendHookResponse_enc v1_MsgSetBeforeSendHookResponse_writes.
    by_desc v1_MsgSetDenomMetadata_enc v1_MsgSetDenomMetadata_writes.
    by_desc v1_MsgSetDenomMetadataResponse_enc v1_MsgSetDenomMetadataResponse_writes.
    by_desc v1_MsgUpdateParams_enc v1_MsgUpdateParams_writes.
    by_desc v1_MsgUpdateParamsResponse_enc v1_MsgUpdateParamsResponse_writes. constructor.
  - by_desc wasmv1_AccessConfig_enc wasmv1_AccessConfig_writes. constructor.
  - by_desc wasmv1_MsgStoreCodeAdmin_enc wasmv1_MsgStoreCodeAdmin_writes.
    by_desc wasmv1_MsgStoreCodeAdminResponse_enc wasmv1_MsgStoreCodeAdminResponse_writes. constructor.
Qed.

(** C19. The fast path and the descriptor have one wire format: what the generated writer of a
    message appends is what one gets by going through the fields of its descriptor, with the
    numbers and the types that it gives them and the values that Get answers for their names. *)
Theorem fast_path_by_descriptor F d i D T x Buf :
  read_FileDescriptorProto (rawDesc_of F) = Some d → file_messages d !! i = Some D → messages_of F !! i = Some T →
  ∃ bz, enc_message_by (package d) D T x = Ok bz ∧
    m_Marshal (o_ProtoMethods T) (Some x) Buf = (Ok (), Buf ++ bz) ∧ m_Size (o_ProtoMethods T) (Some x) = len bz.
Proof.
  intros Hd HD HT. destruct (Forall2_lookup_lr _ _ _ _ _ _ (fast_paths F d Hd) HD HT x) as (bz & E & Hw & Hs).
  exists bz. by rw Hw.
Qed.

End messages.
