(* ===== verification/GogoDescData.v ===== *)
(** The descriptors that the .pb.go files of x/ carry: the schema of each file, compressed; the
    names under which its messages are registered; and where each message says it is in the
    file. *)
From S2P Require Import Prelude.
From S2P Require Import Descriptors.

(** ** x/tokenfactory/types/params.pb.go *)

Definition tf_params_fileDescriptor : list Z :=
  [0x1f; 0x8b; 0x08; 0x00; 0x00; 0x00; 0x00; 0x00; 0x02; 0xff; 0x6c; 0x91; 0xb1; 0x4e; 0x3a; 0x41;
   0x10; 0xc6; 0x6f; 0xf9; 0xff; 0x43; 0x71; 0x36; 0xe6; 0x62; 0x22; 0x50; 0xec; 0xe1; 0x25; 0x26;
   0x58; 0xb0; 0x9b; 0x53; 0x2b; 0x4b; 0x48; 0xb4; 0xd2; 0x18; 0x4a; 0x1b; 0xb2; 0x77; 0x2c; 0xe7;
   0x06; 0x76; 0x87; 0xdc; 0x2c; 0x28; 0x8f; 0x60; 0x67; 0xe5; 0x43; 0xf8; 0x24; 0x94; 0x94; 0x56;
   0xa7; 0x81; 0x37; 0xe0; 0x09; 0x0c; 0x77; 0x68; 0x40; 0xad; 0x76; 0xb2; 0xfb; 0xcd; 0x6f; 0xbe;
   0x9d; 0xcf; 0x3d; 0xd6; 0xca; 0xa8; 0x07; 0x81; 0x9a; 0x5b; 0x18; 0x48; 0xd3; 0x17; 0xb1; 0x85;
   0x74; 0xca; 0x27; 0x21; 0x1f; 0x89; 0x54; 0x68; 0x64; 0xa3; 0x14; 0x2c; 0x78; 0x95; 0x2f; 0x19;
   0xdb; 0x96; 0xb1; 0x49; 0x58; 0xa3; 0x31; 0xa0; 0x06; 0xe4; 0x91; 0x40; 0xc9; 0x27; 0x61; 0x24;
   0xad; 0x08; 0x79; 0x0c; 0xca; 0x14; 0x9d; 0xb5; 0x83; 0x04; 0x12; 0xc8; 0x4b; 0xbe; 0xae; 0x8a;
   0xdb; 0xe0; 0xa9; 0xe4; 0x96; 0x6f; 0xf3; 0x01; 0xde; 0x0b; 0x71; 0xbd; 0x9e; 0x34; 0xa0; 0xbb;
   0x71; 0x2a; 0x85; 0x55; 0x60; 0xba; 0x7d; 0x29; 0x2b; 0xa4; 0xfe; 0xaf; 0xb1; 0x77; 0x5a; 0x65;
   0x05; 0x9e; 0xad; 0xf1; 0x6c; 0x83; 0x67; 0x6d; 0x50; 0xa6; 0x75; 0x3d; 0xcb; 0x7c; 0x67; 0x95;
   0xf9; 0xd5; 0xa9; 0xd0; 0xc3; 0x8b; 0xe0; 0x37; 0x22; 0x78; 0x7d; 0xf7; 0x1b; 0x89; 0xb2; 0xf7;
   0xe3; 0x88; 0xc5; 0xa0; 0xf9; 0xc6; 0x68; 0x71; 0x34; 0xb1; 0x37; 0xe0; 0x76; 0x3a; 0x92; 0x98;
   0xd3; 0xb0; 0xb3; 0x9f; 0x03; 0xda; 0x9b; 0xfe; 0x4b; 0x29; 0xbd; 0xbe; 0x5b; 0xfb; 0x01; 0x4d;
   0x04; 0x76; 0x63; 0x30; 0x38; 0xd6; 0xb2; 0x52; 0xaa; 0x93; 0xc6; 0xff; 0xd6; 0xc9; 0x2c; 0xf3;
   0xc9; 0x2a; 0xf3; 0x8f; 0xfe; 0x34; 0xb1; 0xa5; 0x0f; 0x3a; 0x87; 0x3b; 0x03; 0xae; 0x04; 0xb6;
   0x8b; 0x97; 0xd6; 0xcd; 0x6c; 0x41; 0xc9; 0x7c; 0x41; 0xc9; 0xc7; 0x82; 0x92; 0xe7; 0x25; 0x75;
   0xe6; 0x4b; 0xea; 0xbc; 0x2d; 0xa9; 0x73; 0x77; 0xbe; 0xe5; 0x5e; 0x19; 0x65; 0x95; 0x68; 0x0e;
   0x45; 0x84; 0xfc; 0x3b; 0xb3; 0xc7; 0xdd; 0xd4; 0xf2; 0xff; 0x44; 0xe5; 0x7c; 0xc5; 0x67; 0x9f;
   0x01; 0x00; 0x00; 0xff; 0xff; 0x5a; 0x68; 0x00; 0xf9; 0xdb; 0x01; 0x00; 0x00].

Definition tf_params_RegisterType : list (string * string) :=
  [("Params", "miniwasm.tokenfactory.v1.Params")].

Definition tf_params_RegisterFile : string * list Z :=
  ("miniwasm/tokenfactory/v1/params.proto", tf_params_fileDescriptor).

Definition tf_params_Descriptor : list (string * (list Z * list nat)) :=
  [("Params", (tf_params_fileDescriptor, [0]))]%nat.

(** ** x/tokenfactory/types/authority_metadata.pb.go *)

Definition tf_authority_metadata_fileDescriptor : list Z :=
  [0x1f; 0x8b; 0x08; 0x00; 0x00; 0x00; 0x00; 0x00; 0x02; 0xff; 0xe2; 0x32; 0xcc; 0xcd; 0xcc; 0xcb;
   0x2c; 0x4f; 0x2c; 0xce; 0xd5; 0x2f; 0xc9; 0xcf; 0x4e; 0xcd; 0x4b; 0x4b; 0x4c; 0x2e; 0xc9; 0x2f;
   0xaa; 0xd4; 0x2f; 0x33; 0xd4; 0x4f; 0x2c; 0x2d; 0xc9; 0xc8; 0x2f; 0xca; 0x2c; 0xa9; 0x8c; 0xcf;
   0x4d; 0x2d; 0x49; 0x4c; 0x49; 0x2c; 0x49; 0xd4; 0x2b; 0x28; 0xca; 0x2f; 0xc9; 0x17; 0x92; 0x80;
   0x69; 0xd1; 0x43; 0xd6; 0xa2; 0x57; 0x66; 0x28; 0x25; 0x92; 0x9e; 0x9f; 0x9e; 0x0f; 0x56; 0xa4;
   0x0f; 0x62; 0x41; 0xd4; 0x2b; 0xb9; 0x71; 0x89; 0xb9; 0xa4; 0xe6; 0xe5; 0xe7; 0x3a; 0xc2; 0x0c;
   0xf4; 0x85; 0x9a; 0x27; 0xa4; 0xc6; 0xc5; 0x9a; 0x98; 0x92; 0x9b; 0x99; 0x27; 0xc1; 0xa8; 0xc0;
   0xa8; 0xc1; 0xe9; 0x24; 0xf0; 0xe9; 0x9e; 0x3c; 0x4f; 0x65; 0x62; 0x6e; 0x8e; 0x95; 0x12; 0x58;
   0x58; 0x29; 0x08; 0x22; 0x6d; 0xc5; 0xf2; 0x62; 0x81; 0x3c; 0xa3; 0x93; 0xdf; 0x89; 0x47; 0x72;
   0x8c; 0x17; 0x1e; 0xc9; 0x31; 0x3e; 0x78; 0x24; 0xc7; 0x38; 0xe1; 0xb1; 0x1c; 0xc3; 0x85; 0xc7;
   0x72; 0x0c; 0x37; 0x1e; 0xcb; 0x31; 0x44; 0x99; 0xa4; 0x67; 0x96; 0x64; 0x94; 0x26; 0xe9; 0x25;
   0xe7; 0xe7; 0xea; 0x67; 0xe6; 0x65; 0x96; 0x64; 0x26; 0xea; 0xe6; 0x24; 0x26; 0x15; 0xeb; 0xc3;
   0xfd; 0x56; 0x81; 0xea; 0xbb; 0x92; 0xca; 0x82; 0xd4; 0xe2; 0x24; 0x36; 0xb0; 0xf3; 0x8c; 0x01;
   0x01; 0x00; 0x00; 0xff; 0xff; 0x14; 0x86; 0x7e; 0x0b; 0x03; 0x01; 0x00; 0x00].

Definition tf_authority_metadata_RegisterType : list (string * string) :=
  [("DenomAuthorityMetadata", "miniwasm.tokenfactory.v1.DenomAuthorityMetadata")].

Definition tf_authority_metadata_RegisterFile : string * list Z :=
  ("miniwasm/tokenfactory/v1/authority_metadata.proto", tf_authority_metadata_fileDescriptor).

Definition tf_authority_metadata_Descriptor : list (string * (list Z * list nat)) :=
  [("DenomAuthorityMetadata", (tf_authority_metadata_fileDescriptor, [0]))]%nat.

(** ** x/tokenfactory/types/genesis.pb.go *)

Definition tf_genesis_fileDescriptor : list Z :=
  [0x1f; 0x8b; 0x08; 0x00; 0x00; 0x00; 0x00; 0x00; 0x02; 0xff; 0xe2; 0x52; 0xcb; 0xcd; 0xcc; 0xcb;
   0x2c; 0x4f; 0x2c; 0xce; 0xd5; 0x2f; 0xc9; 0xcf; 0x4e; 0xcd; 0x4b; 0x4b; 0x4c; 0x2e; 0xc9; 0x2f;
   0xaa; 0xd4; 0x2f; 0x33; 0xd4; 0x4f; 0x4f; 0xcd; 0x4b; 0x2d; 0xce; 0x2c; 0xd6; 0x2b; 0x28; 0xca;
   0x2f; 0xc9; 0x17; 0x92; 0x80; 0xa9; 0xd3; 0x43; 0x56; 0xa7; 0x57; 0x66; 0x28; 0x25; 0x92; 0x9e;
   0x9f; 0x9e; 0x0f; 0x56; 0xa4; 0x0f; 0x62; 0x41; 0xd4; 0x4b; 0x19; 0xe2; 0x34; 0x37; 0xb1; 0xb4;
   0x24; 0x23; 0xbf; 0x28; 0xb3; 0xa4; 0x32; 0x3e; 0x37; 0xb5; 0x24; 0x31; 0x25; 0xb1; 0x24; 0x11;
   0xaa; 0x45; 0x15; 0xa7; 0x96; 0x82; 0xc4; 0xa2; 0xc4; 0x5c; 0xa8; 0x4b; 0x94; 0xf6; 0x30; 0x72;
   0xf1; 0xb8; 0x43; 0xdc; 0x16; 0x5c; 0x92; 0x58; 0x92; 0x2a; 0x64; 0xc7; 0xc5; 0x06; 0x51; 0x20;
   0xc1; 0xa8; 0xc0; 0xa8; 0xc1; 0x6d; 0xa4; 0xa0; 0x87; 0xcb; 0xad; 0x7a; 0x01; 0x60; 0x75; 0x4e;
   0x2c; 0x27; 0xee; 0xc9; 0x33; 0x04; 0x41; 0x75; 0x09; 0xe5; 0x70; 0xf1; 0x41; 0x95; 0xc4; 0xa7;
   0xa4; 0xe6; 0xe5; 0xe7; 0x16; 0x4b; 0x30; 0x29; 0x30; 0x6b; 0x70; 0x1b; 0xa9; 0xe1; 0x36; 0x07;
   0x6a; 0xbf; 0x0b; 0x48; 0xb9; 0x93; 0x2c; 0xc8; 0xb4; 0x4f; 0xf7; 0xe4; 0x45; 0x2b; 0x13; 0x73;
   0x73; 0xac; 0x94; 0x50; 0xcd; 0x52; 0x0a; 0xe2; 0x85; 0x0a; 0xb8; 0x40; 0xf8; 0x07; 0x11; 0xce;
   0x07; 0x8b; 0x08; 0xa9; 0x71; 0xb1; 0x82; 0x95; 0x82; 0x5d; 0xcf; 0xe9; 0x24; 0xf0; 0xe9; 0x9e;
   0x3c; 0x0f; 0xc4; 0x24; 0xb0; 0xb0; 0x52; 0x10; 0x44; 0x5a; 0xa8; 0x89; 0x91; 0x4b; 0x08; 0x33;
   0xec; 0x24; 0x98; 0xc0; 0x7e; 0x36; 0xc0; 0xed; 0x56; 0xb0; 0x2d; 0x8e; 0x30; 0x8d; 0xbe; 0x50;
   0x7d; 0x4e; 0x8a; 0x50; 0x57; 0x4b; 0x42; 0xec; 0xc2; 0x34; 0x59; 0x29; 0x48; 0x30; 0x11; 0x5d;
   0x97; 0x15; 0xcb; 0x8b; 0x05; 0xf2; 0x8c; 0x4e; 0x7e; 0x27; 0x1e; 0xc9; 0x31; 0x5e; 0x78; 0x24;
   0xc7; 0xf8; 0xe0; 0x91; 0x1c; 0xe3; 0x84; 0xc7; 0x72; 0x0c; 0x17; 0x1e; 0xcb; 0x31; 0xdc; 0x78;
   0x2c; 0xc7; 0x10; 0x65; 0x92; 0x9e; 0x59; 0x92; 0x51; 0x9a; 0xa4; 0x97; 0x9c; 0x9f; 0xab; 0x9f;
   0x99; 0x97; 0x59; 0x92; 0x99; 0xa8; 0x9b; 0x93; 0x98; 0x54; 0xac; 0x0f; 0x8f; 0xda; 0x0a; 0xd4;
   0xc8; 0x2d; 0xa9; 0x2c; 0x48; 0x2d; 0x4e; 0x62; 0x03; 0xc7; 0xac; 0x31; 0x20; 0x00; 0x00; 0xff;
   0xff; 0xfc; 0xc2; 0x79; 0x63; 0x8d; 0x02; 0x00; 0x00].

Definition tf_genesis_RegisterType : list (string * string) :=
  [("GenesisState", "miniwasm.tokenfactory.v1.GenesisState");
   ("GenesisDenom", "miniwasm.tokenfactory.v1.GenesisDenom")].

Definition tf_genesis_RegisterFile : string * list Z :=
  ("miniwasm/tokenfactory/v1/genesis.proto", tf_genesis_fileDescriptor).

Definition tf_genesis_Descriptor : list (string * (list Z * list nat)) :=
  [("GenesisState", (tf_genesis_fileDescriptor, [0]));
   ("GenesisDenom", (tf_genesis_fileDescriptor, [1]))]%nat.

(** ** x/tokenfactory/types/query.pb.go *)

Definition tf_query_fileDescriptor : list Z :=
  [0x1f; 0x8b; 0x08; 0x00; 0x00; 0x00; 0x00; 0x00; 0x02; 0xff; 0x9c; 0x55; 0xdf; 0x4e; 0x13; 0x4f;
   0x18; 0xed; 0xfe; 0x7e; 0x52; 0xc3; 0xf8; 0x0f; 0x46; 0x54; 0x5c; 0x75; 0x17; 0xc6; 0x3f; 0xc1;
   0x04; 0x76; 0x05; 0x4d; 0x10; 0x01; 0x0d; 0x8b; 0x21; 0x26; 0x88; 0xd1; 0x35; 0xde; 0x78; 0xb3;
   0x99; 0x76; 0xa7; 0xed; 0xa6; 0xdd; 0x9d; 0xb2; 0x33; 0x45; 0x1b; 0xc2; 0x0d; 0x2f; 0xa0; 0x89;
   0x37; 0x3e; 0x83; 0x2f; 0x22; 0x97; 0x24; 0xc6; 0xc4; 0x78; 0xb1; 0x31; 0xad; 0x4f; 0xd0; 0x27;
   0x30; 0x3b; 0x3b; 0x0d; 0x7f; 0xda; 0x6d; 0x0b; 0x57; 0x6c; 0xbe; 0x39; 0xe7; 0x7c; 0xe7; 0xcc;
   0xf7; 0x0d; 0x05; 0x77; 0x7c; 0x2f; 0xf0; 0x3e; 0x60; 0xe6; 0x9b; 0x9c; 0x96; 0x49; 0x50; 0xc0;
   0x79; 0x4e; 0xc3; 0xba; 0xb9; 0x35; 0x6b; 0x6e; 0xd6; 0x48; 0x58; 0x37; 0xaa; 0x21; 0xe5; 0x14;
   0x8e; 0xb7; 0x51; 0xc6; 0x61; 0x94; 0xb1; 0x35; 0xab; 0x8e; 0x15; 0x69; 0x91; 0x0a; 0x90; 0x19;
   0x7f; 0x25; 0x78; 0xf5; 0x66; 0x91; 0xd2; 0x62; 0x85; 0x98; 0xb8; 0xea; 0x99; 0x38; 0x08; 0x28;
   0xc7; 0xdc; 0xa3; 0x01; 0x93; 0xa7; 0xb3; 0xa9; 0x3d; 0x71; 0x8d; 0x97; 0x68; 0xe8; 0xf1; 0xba;
   0xe3; 0x13; 0x8e; 0x5d; 0xcc; 0xb1; 0xa4; 0xdc; 0x4d; 0xa5; 0x54; 0x71; 0x88; 0x7d; 0xa9; 0x8c;
   0xc6; 0x00; 0x7c; 0x13; 0xdb; 0x7e; 0x2d; 0x8a; 0x36; 0xd9; 0xac; 0x11; 0xc6; 0xd1; 0x3b; 0x70;
   0xf9; 0x48; 0x95; 0x55; 0x69; 0xc0; 0x08; 0x7c; 0x0a; 0xb2; 0x09; 0x79; 0x5c; 0x99; 0x50; 0xa6;
   0xce; 0xcd; 0x4d; 0x18; 0x69; 0x29; 0x8d; 0x84; 0x69; 0x9d; 0xd9; 0x8b; 0xf4; 0x8c; 0x2d; 0x59;
   0xe8; 0x25; 0x40; 0x42; 0xf6; 0x39; 0x09; 0xa8; 0xbf; 0xd2; 0x76; 0xbe; 0x21; 0x8d; 0xcb; 0xe6;
   0xf0; 0x1e; 0x18; 0x72; 0x63; 0x80; 0x68; 0x32; 0x6c; 0x8d; 0xb4; 0x22; 0xfd; 0x7c; 0x1d; 0xfb;
   0x95; 0x27; 0x48; 0x94; 0x91; 0x9d; 0x1c; 0xa3; 0x6f; 0x0a; 0xb8; 0xdd; 0x53; 0x4e; 0xba; 0xde;
   0x55; 0x00; 0xec; 0xbc; 0x26; 0x19; 0xe1; 0x41; 0x7a; 0x84; 0xee; 0xb2; 0xd6; 0x64; 0x1c; 0xa9;
   0x15; 0xe9; 0xd7; 0x13; 0x4f; 0x9d; 0xca; 0xc8; 0x1e; 0xc5; 0xc7; 0x59; 0x68; 0x03; 0xdc; 0x3a;
   0xf0; 0xca; 0xd6; 0x42; 0xea; 0xaf; 0x86; 0x04; 0x73; 0x1a; 0xb6; 0x53; 0x4f; 0x83; 0xb3; 0xf9;
   0xa4; 0x22; 0x73; 0xc3; 0x56; 0xa4; 0x5f; 0x4c; 0x7a; 0xc8; 0x03; 0x64; 0xb7; 0x21; 0x68; 0x1d;
   0x68; 0x69; 0x72; 0x32; 0xf5; 0x7d; 0x90; 0x15; 0xd7; 0x14; 0xcf; 0xea; 0xff; 0xa9; 0x61; 0x6b;
   0xb4; 0x15; 0xe9; 0x17; 0x0e; 0x5d; 0x23; 0x43; 0xb6; 0x04; 0xa0; 0x75; 0x30; 0x29; 0xc4; 0x2c;
   0x52; 0xa0; 0x21; 0x79; 0x4b; 0x02; 0xf7; 0x05; 0xa5; 0xe5; 0x15; 0xd7; 0x0d; 0x09; 0x63; 0x27;
   0x9d; 0x4a; 0x45; 0xce; 0x38; 0x45; 0x4c; 0xba; 0x5b; 0x03; 0x23; 0x79; 0xca; 0xfc; 0xf8; 0xde;
   0x1d; 0x9c; 0x9c; 0x49; 0xe1; 0x1b; 0xad; 0x48; 0xbf; 0x26; 0x63; 0x1f; 0x43; 0x20; 0xfb; 0x52;
   0xbb; 0x24; 0xf5; 0xe6; 0xbe; 0x66; 0xc1; 0x90; 0x68; 0x07; 0x3f; 0x29; 0x20; 0x9b; 0x2c; 0x1d;
   0x9c; 0x4e; 0x9f; 0x69; 0xe7; 0xae; 0xab; 0x33; 0x03; 0xa2; 0x13; 0xe7; 0x68; 0x6a; 0xf7; 0xc7;
   0xdf; 0x2f; 0xff; 0x21; 0x38; 0x61; 0xf6; 0x79; 0x60; 0xf0; 0xb7; 0x02; 0xae; 0x76; 0xdf; 0x21;
   0xb8; 0xd4; 0xa7; 0x67; 0xcf; 0x07; 0xa2; 0x2e; 0x9f; 0x92; 0x2d; 0x13; 0xac; 0x8a; 0x04; 0xcb;
   0x70; 0x31; 0x3d; 0x41; 0xb2; 0x18; 0xe6; 0xb6; 0xf8; 0xbb; 0xd3; 0xe5; 0x9f; 0x0c; 0xfc; 0xae;
   0x80; 0xd1; 0x8e; 0xe5; 0x83; 0xf3; 0x83; 0x38; 0xeb; 0xb2; 0xfd; 0xea; 0xe3; 0x93; 0x13; 0x65;
   0x9a; 0x67; 0x22; 0xcd; 0x02; 0x9c; 0xef; 0x97; 0xc6; 0x29; 0x84; 0xd4; 0x77; 0xe4; 0x03; 0x32;
   0xb7; 0xe5; 0xc7; 0x0e; 0xfc; 0xa9; 0x80; 0x2b; 0x5d; 0x97; 0x15; 0x2e; 0xf6; 0x31; 0xd5; 0xeb;
   0xbd; 0xa8; 0x4b; 0xa7; 0x23; 0xcb; 0x54; 0x2b; 0x22; 0xd5; 0x22; 0x5c; 0x18; 0x78; 0x46; 0x39;
   0xa1; 0xe7; 0x30; 0x12; 0xb8; 0x4e; 0x89; 0xd2; 0xb2; 0xf5; 0x6a; 0xaf; 0xa1; 0x29; 0xfb; 0x0d;
   0x4d; 0xf9; 0xd3; 0xd0; 0x94; 0xcf; 0x4d; 0x2d; 0xb3; 0xdf; 0xd4; 0x32; 0xbf; 0x9a; 0x5a; 0xe6;
   0xfd; 0xa3; 0xa2; 0xc7; 0x4b; 0xb5; 0x9c; 0x91; 0xa7; 0xbe; 0xe9; 0x05; 0x1e; 0xf7; 0xf0; 0x4c;
   0x05; 0xe7; 0xd8; 0x41; 0xab; 0x8f; 0x47; 0x9b; 0xf1; 0x7a; 0x95; 0xb0; 0x5c; 0x56; 0xfc; 0x60;
   0x3c; 0xfc; 0x17; 0x00; 0x00; 0xff; 0xff; 0xa0; 0x5c; 0xc2; 0x3d; 0x00; 0x07; 0x00; 0x00].

Definition tf_query_RegisterType : list (string * string) :=
  [("QueryParamsRequest", "miniwasm.tokenfactory.v1.QueryParamsRequest");
   ("QueryParamsResponse", "miniwasm.tokenfactory.v1.QueryParamsResponse");
   ("QueryDenomAuthorityMetadataRequest", "miniwasm.tokenfactory.v1.QueryDenomAuthorityMetadataRequest");
   ("QueryDenomAuthorityMetadataResponse", "miniwasm.tokenfactory.v1.QueryDenomAuthorityMetadataResponse");
   ("QueryDenomsFromCreatorRequest", "miniwasm.tokenfactory.v1.QueryDenomsFromCreatorRequest");
   ("QueryDenomsFromCreatorResponse", "miniwasm.tokenfactory.v1.QueryDenomsFromCreatorResponse");
   ("QueryBeforeSendHookAddressRequest", "miniwasm.tokenfactory.v1.QueryBeforeSendHookAddressRequest");
   ("QueryBeforeSendHookAddressResponse", "miniwasm.tokenfactory.v1.QueryBeforeSendHookAddressResponse")].

Definition tf_query_RegisterFile : string * list Z :=
  ("miniwasm/tokenfactory/v1/query.proto", tf_query_fileDescriptor).

Definition tf_query_Descriptor : list (string * (list Z * list nat)) :=
  [("QueryParamsRequest", (tf_query_fileDescriptor, [0]));
   ("QueryParamsResponse", (tf_query_fileDescriptor, [1]));
   ("QueryDenomAuthorityMetadataRequest", (tf_query_fileDescriptor, [2]));
   ("QueryDenomAuthorityMetadataResponse", (tf_query_fileDescriptor, [3]));
   ("QueryDenomsFromCreatorRequest", (tf_query_fileDescriptor, [4]));
   ("QueryDenomsFromCreatorResponse", (tf_query_fileDescriptor, [5]));
   ("QueryBeforeSendHookAddressRequest", (tf_query_fileDescriptor, [6]));
   ("QueryBeforeSendHookAddressResponse", (tf_query_fileDescriptor, [7]))]%nat.

(** ** x/tokenfactory/types/tx.pb.go *)

Definition tf_tx_fileDescriptor : list Z :=
  [0x1f; 0x8b; 0x08; 0x00; 0x00; 0x00; 0x00; 0x00; 0x02; 0xff; 0xc4; 0x56; 0xcd; 0x6f; 0xe3; 0x44;
   0x14; 0xaf; 0x59; 0x5a; 0xda; 0xd9; 0x2d; 0x69; 0xbd; 0x61; 0x9b; 0x7a; 0x77; 0xed; 0xd6; 0x02;
   0xb4; 0x14; 0xd5; 0x6e; 0x16; 0xd8; 0x43; 0x6e; 0xeb; 0x22; 0xb1; 0x12; 0x0a; 0x42; 0x6e; 0xb9;
   0x20; 0xa4; 0x68; 0x52; 0xcf; 0xba; 0x56; 0xeb; 0x99; 0xc8; 0x33; 0x69; 0x1b; 0x71; 0x41; 0x1c;
   0x39; 0xf1; 0x27; 0x70; 0x44; 0xe2; 0xd2; 0x03; 0x77; 0xae; 0x2b; 0x24; 0xa4; 0x15; 0x27; 0x4e;
   0x11; 0x6a; 0x0f; 0xbd; 0xa2; 0xc0; 0x1f; 0x80; 0xe6; 0xc3; 0x9f; 0x69; 0x93; 0x6e; 0x25; 0xc4;
   0x25; 0x8a; 0xdf; 0xfb; 0xbd; 0x8f; 0xdf; 0x9b; 0x9f; 0xdf; 0x18; 0xac; 0xc7; 0x11; 0x8e; 0x8e;
   0x21; 0x8d; 0x5d; 0x46; 0x0e; 0x10; 0x7e; 0x0e; 0xf7; 0x18; 0x49; 0x06; 0xee; 0x51; 0xd3; 0x65;
   0x27; 0x4e; 0x2f; 0x21; 0x8c; 0xe8; 0x8d; 0x14; 0xe2; 0x14; 0x21; 0xce; 0x51; 0xd3; 0x58; 0x86;
   0x71; 0x84; 0x89; 0x2b; 0x7e; 0x25; 0xd8; 0x30; 0xf7; 0x08; 0x8d; 0x09; 0x75; 0xbb; 0x10; 0x1f;
   0xb8; 0x47; 0xcd; 0x2e; 0x62; 0xb0; 0x29; 0x1e; 0xc6; 0xfc; 0x14; 0x65; 0xfe; 0x3d; 0x12; 0x61;
   0xe5; 0x5f; 0x51; 0xfe; 0x98; 0x86; 0xbc; 0x89; 0x98; 0x86; 0xca; 0xb1; 0x2a; 0x1d; 0x1d; 0xf1;
   0xe4; 0xca; 0x07; 0xe5; 0xaa; 0x87; 0x24; 0x24; 0xd2; 0xce; 0xff; 0x29; 0xeb; 0x3b; 0x57; 0x32;
   0xeb; 0xc1; 0x04; 0xc6; 0x2a; 0xd8; 0xfe; 0x41; 0x03; 0x6f; 0xb6; 0x69; 0xb8; 0x9d; 0x20; 0xc8;
   0xd0; 0xc7; 0x08; 0x93; 0x58; 0xdf; 0x02; 0x73; 0x14; 0xe1; 0x00; 0x25; 0x0d; 0x6d; 0x4d; 0x7b;
   0xb4; 0xe0; 0x35; 0x7e; 0xff; 0x79; 0xb3; 0xae; 0x2a; 0x3e; 0x0d; 0x82; 0x04; 0x51; 0xba; 0xc3;
   0x92; 0x08; 0x87; 0xbe; 0xc2; 0xe9; 0x2e; 0x98; 0xa7; 0xfd; 0x6e; 0xc0; 0xa3; 0x1b; 0xaf; 0x89;
   0x98; 0xbb; 0xa3; 0xa1; 0x55; 0x1b; 0xc0; 0xf8; 0xb0; 0x65; 0xa7; 0x1e; 0xdb; 0xcf; 0x40; 0xad;
   0xf7; 0xbf; 0xbd; 0x38; 0xdd; 0x50; 0xd1; 0xdf; 0x5d; 0x9c; 0x6e; 0xdc; 0x2f; 0xf5; 0x58; 0xee;
   0xc7; 0xfe; 0x0a; 0xdc; 0x2b; 0x5b; 0x7c; 0x44; 0x7b; 0x04; 0x53; 0xa4; 0x7b; 0xa0; 0x86; 0xd1;
   0x71; 0x47; 0x04; 0x77; 0x64; 0x79; 0xd9; 0xb2; 0x31; 0x1a; 0x5a; 0xf7; 0x64; 0xf9; 0x0a; 0xc0;
   0xf6; 0x17; 0x31; 0x3a; 0xde; 0xe5; 0x06; 0x99; 0xfd; 0x1f; 0x0d; 0xbc; 0xd1; 0xa6; 0x61; 0x3b;
   0xc2; 0xec; 0x06; 0xcc; 0x9f; 0x81; 0x39; 0x18; 0x93; 0x3e; 0x66; 0x82; 0xf7; 0xed; 0xc7; 0xab;
   0x8e; 0x82; 0xf3; 0x03; 0x76; 0xd4; 0x01; 0x3b; 0xdb; 0x24; 0xc2; 0xde; 0x5b; 0x2f; 0x86; 0xd6;
   0xcc; 0x68; 0x68; 0x2d; 0xca; 0xbe; 0x64; 0x98; 0xed; 0xab; 0x78; 0xfd; 0x13; 0x50; 0x8b; 0x23;
   0xcc; 0x3a; 0x8c; 0x74; 0xa0; 0x2c; 0xd5; 0xb8; 0x25; 0x9a; 0xb0; 0x72; 0x2e; 0x15; 0x80; 0xfd;
   0xe3; 0xc5; 0xe9; 0x86; 0xe6; 0x2f; 0x72; 0xf3; 0x2e; 0x51; 0x0d; 0xb6; 0xde; 0xae; 0xcc; 0xb6;
   0x5e; 0x9d; 0x2d; 0xa7; 0x6a; 0x2f; 0x83; 0x9a; 0xfa; 0x9b; 0x4e; 0xd3; 0xfe; 0x49; 0x4e; 0xc2;
   0xeb; 0x27; 0xf8; 0xff; 0x9c; 0xc4; 0x74; 0x02; 0xbc; 0x43; 0x45; 0x80; 0xff; 0xcd; 0x08; 0xfc;
   0xaa; 0xb4; 0xbc; 0x0f; 0x71; 0x88; 0x9e; 0x06; 0x71; 0x74; 0x13; 0x1e; 0xef; 0x82; 0xd9; 0xa2;
   0x90; 0x97; 0x46; 0x43; 0xeb; 0x8e; 0xec; 0x53; 0xe9; 0x47; 0xba; 0xf5; 0x26; 0x58; 0xe0; 0xd2;
   0x82; 0xbc; 0x8c; 0x3a; 0xa9; 0xfa; 0x68; 0x68; 0x2d; 0xe5; 0xaa; 0x13; 0x2e; 0xdb; 0x9f; 0xc7;
   0xe8; 0x58; 0x34; 0x73; 0x0d; 0xd5; 0xe7; 0x9d; 0xdb; 0x0d; 0xa9; 0xfa; 0xdc; 0x92; 0xd1; 0xfc;
   0x4b; 0x03; 0xf5; 0x36; 0x0d; 0x77; 0x10; 0xf3; 0xd0; 0x73; 0x92; 0xa0; 0x1d; 0x84; 0x83; 0x67;
   0x84; 0x1c; 0xfc; 0x87; 0x64; 0x3f; 0x05; 0x4b; 0x3c; 0x0f; 0x5f; 0x27; 0x15; 0x75; 0xae; 0x8d;
   0x86; 0xd6; 0x8a; 0x0c; 0xa9; 0x22; 0x94; 0x3c; 0x6b; 0xa9; 0x3d; 0x15; 0x68; 0xb3; 0x32; 0x86;
   0xf5; 0xea; 0x18; 0xc6; 0x98; 0xd9; 0x26; 0x78; 0x70; 0x99; 0x3d; 0x1b; 0xc9; 0x6f; 0x1a; 0xb8;
   0x2b; 0x01; 0xe2; 0xa5; 0x6e; 0x23; 0x06; 0x03; 0xc8; 0xe0; 0x0d; 0x26; 0xe2; 0x83; 0xf9; 0x58;
   0x45; 0x2b; 0x21; 0x3f; 0xcc; 0x85; 0x8c; 0x0f; 0x32; 0x21; 0xa7; 0x25; 0xbc; 0x15; 0x25; 0x66;
   0xb5; 0xed; 0xd2; 0x60; 0xdb; 0xcf; 0xf2; 0xb4; 0xb6; 0x2a; 0x84; 0xd7; 0x2e; 0x21; 0x5c; 0xea;
   0xdb; 0x7e; 0x08; 0xee; 0x5f; 0x62; 0xce; 0xe8; 0xfe; 0xa2; 0x09; 0xf1; 0x7f; 0xd1; 0x0b; 0x20;
   0x43; 0x9f; 0x8b; 0x75; 0xae; 0x3f; 0x01; 0x0b; 0xb0; 0xcf; 0xf6; 0x49; 0x12; 0xb1; 0xc1; 0x54;
   0xb6; 0x39; 0x54; 0xdf; 0x06; 0x73; 0xf2; 0x42; 0x50; 0x74; 0xd7; 0x9c; 0xab; 0xee; 0x3b; 0x47;
   0x56; 0xf2; 0x16; 0x38; 0x63; 0x79; 0xb6; 0x2a; 0xb4; 0xe5; 0x72; 0x86; 0x79; 0x52; 0x4e; 0xf2;
   0x41; 0x95; 0x64; 0xb1; 0x5b; 0x7b; 0x15; 0xac; 0x54; 0x4c; 0x29; 0xb9; 0xc7; 0x7f; 0xcf; 0x82;
   0x5b; 0x6d; 0x1a; 0xea; 0x11; 0xb8; 0x5d; 0xbc; 0x95; 0x1e; 0x5d; 0xdd; 0x57; 0xf9; 0x76; 0x30;
   0xb6; 0xae; 0x8b; 0xcc; 0xee; 0x91; 0x5d; 0xf0; 0xba; 0xd8; 0xff; 0xeb; 0x13; 0x23; 0x39; 0xc4;
   0x78; 0x6f; 0x2a; 0xa4; 0x98; 0x55; 0xec; 0xd2; 0xc9; 0x59; 0x39; 0x64; 0x4a; 0xd6; 0xe2; 0x92;
   0x13; 0x63; 0x29; 0x2c; 0xb8; 0x29; 0x63; 0xc9; 0x91; 0xd3; 0xc6; 0x32; 0xbe; 0x68; 0xf4; 0x13;
   0xb0; 0x34; 0xf6; 0x46; 0x6d; 0x4e; 0xcc; 0x52; 0x85; 0x1b; 0x1f; 0xbd; 0x12; 0x3c; 0xab; 0xfc;
   0x35; 0x58; 0x1e; 0x5f; 0x6f; 0xce; 0xb4; 0x5c; 0x65; 0xbc; 0xf1; 0xe4; 0xd5; 0xf0; 0x59; 0xf1;
   0x43; 0x70; 0xa7; 0xf4; 0x66; 0x4d; 0x3e; 0x9c; 0x22; 0xd4; 0x68; 0x5e; 0x1b; 0x9a; 0x56; 0x33;
   0x66; 0xbf; 0xe1; 0x6f; 0x92; 0xf7; 0xd9; 0x8b; 0x33; 0x53; 0x7b; 0x79; 0x66; 0x6a; 0x7f; 0x9e;
   0x99; 0xda; 0xf7; 0xe7; 0xe6; 0xcc; 0xcb; 0x73; 0x73; 0xe6; 0x8f; 0x73; 0x73; 0xe6; 0xcb; 0x0f;
   0xc3; 0x88; 0xed; 0xf7; 0xbb; 0xce; 0x1e; 0x89; 0xdd; 0x08; 0x47; 0x2c; 0x82; 0x9b; 0x87; 0xb0;
   0x4b; 0xdd; 0xec; 0xfb; 0xee; 0xa4; 0xfc; 0x85; 0xc7; 0x06; 0x3d; 0x44; 0xbb; 0x73; 0xe2; 0xf3;
   0xee; 0x83; 0x7f; 0x03; 0x00; 0x00; 0xff; 0xff; 0x60; 0x06; 0x64; 0x05; 0xe1; 0x0a; 0x00; 0x00].

Definition tf_tx_RegisterType : list (string * string) :=
  [("MsgCreateDenom", "miniwasm.tokenfactory.v1.MsgCreateDenom");
   ("MsgCreateDenomResponse", "miniwasm.tokenfactory.v1.MsgCreateDenomResponse");
   ("MsgMint", "miniwasm.tokenfactory.v1.MsgMint");
   ("MsgMintResponse", "miniwasm.tokenfactory.v1.MsgMintResponse");
   ("MsgBurn", "miniwasm.tokenfactory.v1.MsgBurn");
   ("MsgBurnResponse", "miniwasm.tokenfactory.v1.MsgBurnResponse");
   ("MsgChangeAdmin", "miniwasm.tokenfactory.v1.MsgChangeAdmin");
   ("MsgChangeAdminResponse", "miniwasm.tokenfactory.v1.MsgChangeAdminResponse");
   ("MsgSetBeforeSendHook", "miniwasm.tokenfactory.v1.MsgSetBeforeSendHook");
   ("MsgSetBeforeSendHookResponse", "miniwasm.tokenfactory.v1.MsgSetBeforeSendHookResponse");
   ("MsgSetDenomMetadata", "miniwasm.tokenfactory.v1.MsgSetDenomMetadata");
   ("MsgSetDenomMetadataResponse", "miniwasm.tokenfactory.v1.MsgSetDenomMetadataResponse");
   ("MsgUpdateParams", "miniwasm.tokenfactory.v1.MsgUpdateParams");
   ("MsgUpdateParamsResponse", "miniwasm.tokenfactory.v1.MsgUpdateParamsResponse")].

Definition tf_tx_RegisterFile : string * list Z :=
  ("miniwasm/tokenfactory/v1/tx.proto", tf_tx_fileDescriptor).

Definition tf_tx_Descriptor : list (string * (list Z * list nat)) :=
  [("MsgCreateDenom", (tf_tx_fileDescriptor, [0]));
   ("MsgCreateDenomResponse", (tf_tx_fileDescriptor, [1]));
   ("MsgMint", (tf_tx_fileDescriptor, [2]));
   ("MsgMintResponse", (tf_tx_fileDescriptor, [3]));
   ("MsgBurn", (tf_tx_fileDescriptor, [4]));
   ("MsgBurnResponse", (tf_tx_fileDescriptor, [5]));
   ("MsgChangeAdmin", (tf_tx_fileDescriptor, [6]));
   ("MsgChangeAdminResponse", (tf_tx_fileDescriptor, [7]));
   ("MsgSetBeforeSendHook", (tf_tx_fileDescriptor, [8]));
   ("MsgSetBeforeSendHookResponse", (tf_tx_fileDescriptor, [9]));
   ("MsgSetDenomMetadata", (tf_tx_fileDescriptor, [10]));
   ("MsgSetDenomMetadataResponse", (tf_tx_fileDescriptor, [11]));
   ("MsgUpdateParams", (tf_tx_fileDescriptor, [12]));
   ("MsgUpdateParamsResponse", (tf_tx_fileDescriptor, [13]))]%nat.

(** ** x/wasmextension/types/types.pb.go *)

Definition we_types_fileDescriptor : list Z :=
  [0x1f; 0x8b; 0x08; 0x00; 0x00; 0x00; 0x00; 0x00; 0x02; 0xff; 0xe2; 0x52; 0xcd; 0xcd; 0xcc; 0xcb;
   0x2c; 0x4f; 0x2c; 0xce; 0xd5; 0x07; 0x11; 0xa9; 0x15; 0x25; 0xa9; 0x79; 0xc5; 0x99; 0xf9; 0x79;
   0xfa; 0x65; 0x86; 0xfa; 0x25; 0x95; 0x05; 0xa9; 0xc5; 0x7a; 0x05; 0x45; 0xf9; 0x25; 0xf9; 0x42;
   0x92; 0x30; 0x65; 0x7a; 0x28; 0xca; 0xf4; 0xca; 0x0c; 0xa5; 0x24; 0x93; 0xf3; 0x8b; 0x73; 0xf3;
   0x8b; 0xe3; 0xc1; 0x0a; 0xf5; 0x21; 0x1c; 0x88; 0x2e; 0x29; 0x19; 0x10; 0x0f; 0x6e; 0x38; 0x9a;
   0x99; 0x52; 0x22; 0xe9; 0xf9; 0xe9; 0xf9; 0x10; 0x5d; 0x20; 0x16; 0x44; 0x54; 0x69; 0x21; 0x23;
   0x17; 0x8f; 0x63; 0x72; 0x72; 0x6a; 0x71; 0xb1; 0x73; 0x7e; 0x5e; 0x5a; 0x66; 0xba; 0x50; 0x30;
   0x17; 0x57; 0x41; 0x6a; 0x51; 0x6e; 0x66; 0x31; 0xc8; 0x42; 0x09; 0x46; 0x05; 0x46; 0x0d; 0x3e;
   0x23; 0x19; 0x3d; 0x98; 0xc9; 0x60; 0xf7; 0xe8; 0x95; 0x19; 0xea; 0x41; 0xf4; 0x84; 0x54; 0x16;
   0xa4; 0x3a; 0x89; 0x7e; 0xba; 0x27; 0x2f; 0x58; 0x99; 0x98; 0x9b; 0x63; 0xa5; 0x84; 0xd0; 0xa9;
   0x14; 0x84; 0x64; 0x8c; 0x90; 0x19; 0x17; 0x67; 0x62; 0x4a; 0x4a; 0x51; 0x6a; 0x71; 0x71; 0x6a;
   0xb1; 0x04; 0x93; 0x02; 0xb3; 0x06; 0xa7; 0x93; 0xc4; 0xa5; 0x2d; 0xba; 0x22; 0x50; 0xe7; 0x3b;
   0x42; 0xe4; 0x82; 0x4b; 0x8a; 0x32; 0xf3; 0xd2; 0x83; 0x10; 0x4a; 0xad; 0x58; 0x66; 0x2c; 0x90;
   0x67; 0x74; 0x0a; 0x3e; 0xf1; 0x50; 0x8e; 0xe1; 0xc4; 0x23; 0x39; 0xc6; 0x0b; 0x8f; 0xe4; 0x18;
   0x1f; 0x3c; 0x92; 0x63; 0x9c; 0xf0; 0x58; 0x8e; 0xe1; 0xc2; 0x63; 0x39; 0x86; 0x1b; 0x8f; 0xe5;
   0x18; 0xa2; 0x4c; 0xd3; 0x33; 0x4b; 0x32; 0x4a; 0x93; 0xf4; 0x92; 0xf3; 0x73; 0xf5; 0x33; 0xf3;
   0x32; 0x4b; 0x32; 0x13; 0x75; 0x73; 0x12; 0x93; 0x8a; 0xf5; 0xe1; 0x21; 0x5d; 0x81; 0x16; 0xd6;
   0xe0; 0x40; 0x49; 0x62; 0x03; 0xfb; 0xdf; 0x18; 0x10; 0x00; 0x00; 0xff; 0xff; 0x4c; 0x08; 0xb0;
   0x87; 0x92; 0x01; 0x00; 0x00].

Definition we_types_RegisterType : list (string * string) :=
  [("AccessConfig", "miniwasm.wasmextension.v1.AccessConfig")].

Definition we_types_RegisterFile : string * list Z :=
  ("miniwasm/wasmextension/v1/types.proto", we_types_fileDescriptor).

Definition we_types_Descriptor : list (string * (list Z * list nat)) :=
  [("AccessConfig", (we_types_fileDescriptor, [0]))]%nat.

(** ** x/wasmextension/types/tx.pb.go *)

Definition we_tx_fileDescriptor : list Z :=
  [0x1f; 0x8b; 0x08; 0x00; 0x00; 0x00; 0x00; 0x00; 0x02; 0xff; 0x94; 0x92; 0x31; 0x6f; 0xd3; 0x40;
   0x14; 0xc7; 0x73; 0x6d; 0x49; 0xe9; 0x11; 0x55; 0xd4; 0x2a; 0xe0; 0x78; 0x70; 0xa2; 0x20; 0x44;
   0x14; 0x51; 0x5b; 0x0d; 0xd0; 0x81; 0x2d; 0x2e; 0x4b; 0x87; 0x48; 0xc8; 0x19; 0x90; 0x10; 0xc2;
   0x72; 0xec; 0xe3; 0x72; 0x82; 0xbb; 0x8b; 0xfc; 0x2e; 0x25; 0xd9; 0x50; 0x47; 0x26; 0x3e; 0x4a;
   0x06; 0x3e; 0x44; 0x25; 0x96; 0x8a; 0x89; 0xa9; 0x02; 0x67; 0xc8; 0xd7; 0x40; 0xe7; 0xd8; 0x29;
   0x6d; 0x44; 0x51; 0x97; 0x93; 0xdf; 0x7b; 0xbf; 0x7b; 0xfe; 0xbf; 0xff; 0x3d; 0xdc; 0xe0; 0x4c;
   0xb0; 0x4f; 0x21; 0x70; 0x57; 0x1f; 0x64; 0xac; 0x88; 0x00; 0x26; 0x85; 0x7b; 0xbc; 0xef; 0xaa;
   0xb1; 0x33; 0x4c; 0xa4; 0x92; 0x46; 0xb5; 0x60; 0x9c; 0x4b; 0x8c; 0x73; 0xbc; 0x6f; 0xed; 0x84;
   0x9c; 0x09; 0xe9; 0x66; 0xe7; 0x82; 0xb6; 0x1e; 0x44; 0x12; 0xb8; 0x04; 0x97; 0x03; 0xd5; 0x5d;
   0x38; 0xd0; 0xbc; 0x50; 0x5d; 0x14; 0x82; 0x2c; 0x72; 0x17; 0x41; 0x5e; 0xda; 0xa5; 0x92; 0xca;
   0x45; 0x5e; 0x7f; 0xe5; 0xd9; 0x47; 0xd7; 0x68; 0x9b; 0x0c; 0x49; 0x7e; 0xb9; 0xf1; 0x7d; 0x0d;
   0xef; 0x74; 0x81; 0xf6; 0x94; 0x4c; 0xc8; 0xa1; 0x8c; 0x49; 0x27; 0xe6; 0x4c; 0x18; 0x07; 0x78;
   0x2b; 0x1c; 0xa9; 0x81; 0x4c; 0x98; 0x9a; 0x98; 0xa8; 0x8e; 0x9a; 0x5b; 0x9e; 0xf9; 0xe3; 0xdb;
   0xde; 0x6e; 0xfe; 0xdf; 0x4e; 0x1c; 0x27; 0x04; 0xa0; 0xa7; 0x12; 0x26; 0xa8; 0x7f; 0x81; 0x1a;
   0x6d; 0xbc; 0x19; 0x25; 0x24; 0x54; 0x32; 0x31; 0xd7; 0xfe; 0x73; 0xab; 0x00; 0x8d; 0x03; 0xbc;
   0xad; 0x15; 0x06; 0xfd; 0x89; 0x22; 0x41; 0x24; 0x63; 0x62; 0xae; 0xd7; 0x51; 0xb3; 0xe2; 0xdd;
   0x4d; 0xcf; 0x6b; 0x95; 0xd7; 0x9d; 0x5e; 0xd7; 0x9b; 0xa8; 0x4c; 0x9a; 0x5f; 0xd1; 0x5c; 0x11;
   0x19; 0xef; 0xf0; 0x7d; 0x26; 0x40; 0x85; 0x42; 0xb1; 0x50; 0x91; 0x60; 0x48; 0x12; 0xce; 0x40;
   0x8f; 0x68; 0x6e; 0xd4; 0x51; 0xf3; 0x4e; 0xfb; 0xb1; 0xf3; 0x4f; 0xe7; 0x9d; 0x4e; 0x14; 0x11;
   0x80; 0x43; 0x29; 0xde; 0x33; 0xea; 0xdf; 0xfb; 0xab; 0xcd; 0xab; 0x65; 0x97; 0x17; 0xed; 0x93;
   0xf9; 0xb4; 0x75; 0x31; 0xdb; 0x97; 0xf9; 0xb4; 0x55; 0xbb; 0x6c; 0xe5; 0x8a; 0x6f; 0x8d; 0xb7;
   0xb8; 0xba; 0x92; 0xf4; 0x09; 0x0c; 0xa5; 0x00; 0x62; 0x3c; 0xc4; 0x9b; 0x7a; 0xbc; 0x80; 0xc5;
   0x99; 0xa5; 0x1b; 0x1e; 0x4e; 0xcf; 0x6b; 0x65; 0xcd; 0x1d; 0xbd; 0xf4; 0xcb; 0xba; 0x74; 0x14;
   0x1b; 0x16; 0xbe; 0x1d; 0x0d; 0x48; 0xf4; 0x01; 0x46; 0x3c; 0xb3; 0xb0; 0xe2; 0x2f; 0xe3; 0xf6;
   0x09; 0xc2; 0xeb; 0x5d; 0xa0; 0x86; 0xc2; 0xdb; 0x57; 0xde; 0xeb; 0xc9; 0x35; 0xb3; 0xae; 0x08;
   0xb2; 0x9e; 0xdd; 0x84; 0x2e; 0xe4; 0x5b; 0xb7; 0x3e; 0xcf; 0xa7; 0x2d; 0xe4; 0xf5; 0x4e; 0x7f;
   0xdb; 0xa5; 0xd3; 0xd4; 0x46; 0x67; 0xa9; 0x8d; 0x7e; 0xa5; 0x36; 0xfa; 0x3a; 0xb3; 0x4b; 0x67;
   0x33; 0xbb; 0xf4; 0x73; 0x66; 0x97; 0xde; 0x3c; 0xa7; 0x4c; 0x0d; 0x46; 0x7d; 0x27; 0x92; 0xdc;
   0x65; 0x82; 0x29; 0x16; 0xee; 0x7d; 0x0c; 0xfb; 0xe0; 0x2e; 0x97; 0x71; 0x7c; 0x65; 0x1d; 0xb3;
   0x5d; 0xec; 0x97; 0xb3; 0x65; 0x7c; 0xfa; 0x27; 0x00; 0x00; 0xff; 0xff; 0xea; 0x8f; 0xe6; 0x32;
   0x51; 0x03; 0x00; 0x00].

Definition we_tx_RegisterType : list (string * string) :=
  [("MsgStoreCodeAdmin", "miniwasm.wasmextension.v1.MsgStoreCodeAdmin");
   ("MsgStoreCodeAdminResponse", "miniwasm.wasmextension.v1.MsgStoreCodeAdminResponse")].

Definition we_tx_RegisterFile : string * list Z :=
  ("miniwasm/wasmextension/v1/tx.proto", we_tx_fileDescriptor).

Definition we_tx_Descriptor : list (string * (list Z * list nat)) :=
  [("MsgStoreCodeAdmin", (we_tx_fileDescriptor, [0]));
   ("MsgStoreCodeAdminResponse", (we_tx_fileDescriptor, [1]))]%nat.

(** ** By file *)

Definition registered_types (F : file_id) : list (string * string) :=
  match F with
  | tf_params => tf_params_RegisterType
  | tf_authority_metadata => tf_authority_metadata_RegisterType
  | tf_genesis => tf_genesis_RegisterType
  | tf_query => tf_query_RegisterType
  | tf_tx => tf_tx_RegisterType
  | we_types => we_types_RegisterType
  | we_tx => we_tx_RegisterType
  end.

Definition registered_file (F : file_id) : string * list Z :=
  match F with
  | tf_params => tf_params_RegisterFile
  | tf_authority_metadata => tf_authority_metadata_RegisterFile
  | tf_genesis => tf_genesis_RegisterFile
  | tf_query => tf_query_RegisterFile
  | tf_tx => tf_tx_RegisterFile
  | we_types => we_types_RegisterFile
  | we_tx => we_tx_RegisterFile
  end.

Definition descriptors_of (F : file_id) : list (string * (list Z * list nat)) :=
  match F with
  | tf_params => tf_params_Descriptor
  | tf_authority_metadata => tf_authority_metadata_Descriptor
  | tf_genesis => tf_genesis_Descriptor
  | tf_query => tf_query_Descriptor
  | tf_tx => tf_tx_Descriptor
  | we_types => we_types_Descriptor
  | we_tx => we_tx_Descriptor
  end.
