(* ===== verification/GogoDesc.v ===== *)
(** The registrations of the .pb.go files of x/, compared with the descriptors of api/. The SDK
    merges both registries when it starts, and every file is in both. *)
From S2P Require Import Prelude.
From S2P Require Import Gzip.
From S2P Require Import DescData.
From S2P Require Import Descriptors.
From S2P Require Import DescFiles.
From S2P Require Import GogoDescData.

#[export] Instance wire_value_eq_dec : EqDecision wire_value.
Proof. solve_decision. Defined.
#[export] Instance FieldDescriptorProto_eq_dec : EqDecision FieldDescriptorProto.
Proof. solve_decision. Defined.
#[export] Instance DescriptorProto_eq_dec : EqDecision DescriptorProto.
Proof. solve_decision. Defined.
#[export] Instance MethodDescriptorProto_eq_dec : EqDecision MethodDescriptorProto.
Proof. solve_decision. Defined.
#[export] Instance ServiceDescriptorProto_eq_dec : EqDecision ServiceDescriptorProto.
Proof. solve_decision. Defined.
#[export] Instance FileDescriptorProto_eq_dec : EqDecision FileDescriptorProto.
Proof. solve_decision. Defined.

(** * The checksum and the reader on known inputs *)

Definition of_text (s : string) : list Z := (λ a, Z.of_N (N_of_ascii a)) <$> String.list_ascii_of_string s.

(** The check value of the polynomial. *)
Example crc32_check : crc32 (of_text "123456789") = 0xCBF43926.
Proof. by vm_compute. Qed.

(** A stored block. *)
Example gunzip_stored :
  gunzip [0x1f; 0x8b; 8; 0; 0; 0; 0; 0; 0; 255; 1; 2; 0; 253; 255; 104; 105; 0xac; 0x2a; 0x93; 0xd8; 2; 0; 0; 0]
  = Some (of_text "hi").
Proof. by vm_compute. Qed.

(** A byte of the checksum that is wrong is an error. *)
Example gunzip_corrupt :
  gunzip [0x1f; 0x8b; 8; 0; 0; 0; 0; 0; 0; 255; 1; 2; 0; 253; 255; 104; 105; 0xad; 0x2a; 0x93; 0xd8; 2; 0; 0; 0] = None.
Proof. by vm_compute. Qed.

(** * Agreement *)

(** The fields of a file but for its options, which name the Go package. *)
Definition without_options (l : list (Z * wire_value)) : list (Z * wire_value) := filter (λ f, f.1 ≠ 8) l.

(** A message of x/ with the descriptor it names: it is in that file, at that place. *)
Definition placed (F : file_id) (d : FileDescriptorProto) (x : string * (list Z * list nat)) : Prop :=
  x.2.1 = (registered_file F).2 ∧ Some (Some x.1) = (λ i, d_name <$> file_messages d !! i) <$> head x.2.2 ∧
  length x.2.2 = 1%nat.

Record registers (F : file_id) (bz : list Z) (d : FileDescriptorProto) : Prop := {
  reg_unzip : gunzip (registered_file F).2 = Some bz;
  reg_fields : without_options <$> fields_of bz = without_options <$> fields_of (rawDesc_of F);
  reg_read : read_FileDescriptorProto bz = Some d;
  reg_api : read_FileDescriptorProto (rawDesc_of F) = Some d;
  reg_path : (registered_file F).1 = file_name d;
  reg_types : (registered_types F).*2 = (λ m, package d +:+ "." +:+ d_name m) <$> file_messages d;
  reg_gotypes : (registered_types F).*1 = d_name <$> file_messages d;
  reg_placed : Forall (placed F d) (descriptors_of F);
  reg_each : (descriptors_of F).*1 = d_name <$> file_messages d
}.

#[export] Instance placed_dec F d x : Decision (placed F d x).
Proof. unfold placed. apply _. Defined.

Definition unzipped (F : file_id) : list Z := default [] (gunzip (registered_file F).2).
Definition described (F : file_id) : FileDescriptorProto :=
  default {| file_name := ""; package := ""; dependency := []; file_messages := []; n_enums := 0; service := [];
             n_extensions := 0; syntax := "" |} (read_FileDescriptorProto (unzipped F)).

(** C21. What x/ registers for a file is what api/ describes: the compressed descriptor can be
    read, its checksum is right, and it is the descriptor of api/ byte for byte in everything
    but the options of the file. The file is registered under its own path and each of its
    messages under its full name, and the descriptor and index that a message answers are its
    own. So the two registries can be merged. *)
Theorem registrations_agree F : ∃ bz d, registers F bz d.
Proof.
  exists (unzipped F), (described F).
  split; try (destruct F; vm_compute; reflexivity).
  destruct F; eapply bool_decide_unpack; vm_compute; exact I.
Qed.
