(* ===== verification/GogoService.v ===== *)
(** The services of x/: the stubs that gogoproto generated for gRPC, on both sides of a
    connection, and what a message of a client meets on its way to the handler. *)
From S2P Require Import Prelude.
From S2P Require Import Interfaces.
From S2P Require Import TfTypes.
From S2P Require Import TfKeeper.
From S2P Require Import Bank.
From S2P Require Import TfMsgServer.
From S2P Require Import GoJson.
From S2P Require Import Wire.
From S2P Require Import WireSpec.
From S2P Require Import WireRead.
From S2P Require Import ApiState.
From S2P Require Import ApiTx.
From S2P Require Import ApiQuery.
From S2P Require Import ApiWasm.
From S2P Require Import ApiSpec.
From S2P Require Import WasmExt.
From S2P Require Import GogoWire.
From S2P Require Import GogoState.
From S2P Require Import GogoTx.
From S2P Require Import GogoQuery.
From S2P Require Import GogoWasm.
From S2P Require Import GogoSpec.
From S2P Require Import DescData.
From S2P Require Import Descriptors.
From S2P Require Import DescFiles.

(** Membership in a list that is written out. *)
Ltac in_list := repeat first [apply list_elem_of_here|apply list_elem_of_further].

(** * Stubs *)

Section stubs.
Context {S : Type}.

(** grpc.UnaryServerInterceptor: it is given the full name of the method, the request and the
    function that handles it. *)
Definition interceptor : Type := ∀ Req Res, string → Req → (Req → M S Res) → M S Res.

(** The body of a handler: a new request is decoded into, and goes to the server, through the
    interceptor if there is one. *)
Definition unary_handler {Req Res} `{!GogoMessage Req} (FullMethod : string) (srv : Req → M S Res)
    (dec : M Req unit) (i : option interceptor) : M S Res := λ s,
  match dec gogo_new with
  | (Ok _, req) => match i with None => srv req s | Some i => i Req Res FullMethod req srv s end
  | (Err e, _) => (Err e, s)
  | (Panic p, _) => (Panic p, s)
  end.

(** grpc.MethodDesc, with the types of the method, and grpc.ServiceDesc. *)
Record MethodDesc := {
  MethodName : string;
  Req : Type; Res : Type;
  Req_gogo : GogoMessage Req; Res_gogo : GogoMessage Res;
  Handler : M Req unit → option interceptor → M S Res
}.
#[local] Existing Instances Req_gogo Res_gogo.

Record ServiceDesc := { ServiceName : string; ServiceMethods : list MethodDesc; ServiceMetadata : string }.

Definition full_method (service method : string) : string := "/" +:+ service +:+ "/" +:+ method.

(** A connection: the name of a method and the bytes of the request, answered by bytes. *)
Definition ClientConn : Type := string → raw → M S raw.

(** The full names of the methods of a service. *)
Definition method_names (sd : ServiceDesc) : list string :=
  (λ md, full_method (ServiceName sd) (MethodName md)) <$> ServiceMethods sd.

End stubs.
Arguments interceptor : clear implicits.
Arguments MethodDesc : clear implicits.
Arguments ServiceDesc : clear implicits.
Arguments ClientConn : clear implicits.

(** gRPC, which is a library: Invoke of a connection, with the request and a new response, and a
    server on which services are registered, as the connection to it. *)
Class GrpcLib (S : Type) := {
  Invoke : ∀ A B : Type, GogoMessage A → GogoMessage B → ClientConn S → string → A → B → M S B;
  grpc_serve : list (ServiceDesc S) → option (interceptor S) → ClientConn S
}.

(** What it is documented to do. Invoke writes the request, sends it under the name of the
    method and reads the answer into the response; a server on which no name is registered twice
    finds the method by its full name, gives its handler a decoder of the bytes and the
    interceptor, and writes the response. *)
Class GrpcLaws (S : Type) (GR : GrpcLib S) : Prop := {
  Invoke_spec : ∀ A B (GA : GogoMessage A) (GB : GogoMessage B) cc method (req : A) (out : B) s,
    Invoke A B GA GB cc method req out s =
    (let! bz := lift (gogo_Marshal req) in
     let! answer := cc method bz in
     lift (match gogo_Unmarshal answer out with
           | (Ok _, res) => Ok res | (Err e, _) => Err e | (Panic p, _) => Panic p end)) s;
  grpc_serves : ∀ services i sd md bz s,
    NoDup (services ≫= method_names) → sd ∈ services → md ∈ ServiceMethods sd →
    grpc_serve services i (full_method (ServiceName sd) (MethodName md)) bz s =
    (let! res := Handler md (@gogo_Unmarshal _ (Req_gogo md) bz) i in
     lift (@gogo_Marshal _ (Res_gogo md) res)) s
}.

(** A method of a client: a new response, and cc.Invoke(ctx, method, in, out). *)
Definition client_call {S A B} `{!GrpcLib S, !GogoMessage A, !GogoMessage B} (cc : ClientConn S)
    (method : string) (req : A) : M S B :=
  let out := gogo_new in
  Invoke A B _ _ cc method req out.

(** * The services *)

Section services.
Context {SG : SdkGogo} {S : Type} {GR : GrpcLib S}.

(** ** Msg of the token factory *)

Record TfServer := {
  srv_CreateDenom : MsgCreateDenom → M S MsgCreateDenomResponse;
  srv_Mint : MsgMint → M S MsgMintResponse;
  srv_Burn : MsgBurn → M S MsgBurnResponse;
  srv_ChangeAdmin : MsgChangeAdmin → M S MsgChangeAdminResponse;
  srv_SetDenomMetadata : MsgSetDenomMetadata → M S MsgSetDenomMetadataResponse;
  srv_SetBeforeSendHook : MsgSetBeforeSendHook → M S MsgSetBeforeSendHookResponse;
  srv_UpdateParams : MsgUpdateParams → M S MsgUpdateParamsResponse
}.

Definition Msg_CreateDenom_Handler (srv : TfServer) := unary_handler "/miniwasm.tokenfactory.v1.Msg/CreateDenom" (srv_CreateDenom srv).
Definition Msg_Mint_Handler (srv : TfServer) := unary_handler "/miniwasm.tokenfactory.v1.Msg/Mint" (srv_Mint srv).
Definition Msg_Burn_Handler (srv : TfServer) := unary_handler "/miniwasm.tokenfactory.v1.Msg/Burn" (srv_Burn srv).
Definition Msg_ChangeAdmin_Handler (srv : TfServer) := unary_handler "/miniwasm.tokenfactory.v1.Msg/ChangeAdmin" (srv_ChangeAdmin srv).
Definition Msg_SetDenomMetadata_Handler (srv : TfServer) :=
  unary_handler "/miniwasm.tokenfactory.v1.Msg/SetDenomMetadata" (srv_SetDenomMetadata srv).
Definition Msg_SetBeforeSendHook_Handler (srv : TfServer) :=
  unary_handler "/miniwasm.tokenfactory.v1.Msg/SetBeforeSendHook" (srv_SetBeforeSendHook srv).
Definition Msg_UpdateParams_Handler (srv : TfServer) := unary_handler "/miniwasm.tokenfactory.v1.Msg/UpdateParams" (srv_UpdateParams srv).

Definition method_desc {A B} `{!GogoMessage A, !GogoMessage B} (name : string)
    (h : M A unit → option (interceptor S) → M S B) : MethodDesc S :=
  {| MethodName := name; Req := A; Res := B; Req_gogo := _; Res_gogo := _; Handler := h |}.

Definition Msg_serviceDesc (srv : TfServer) : ServiceDesc S := {|
  ServiceName := "miniwasm.tokenfactory.v1.Msg";
  ServiceMethods :=
    [method_desc "CreateDenom" (Msg_CreateDenom_Handler srv);
     method_desc "Mint" (Msg_Mint_Handler srv);
     method_desc "Burn" (Msg_Burn_Handler srv);
     method_desc "ChangeAdmin" (Msg_ChangeAdmin_Handler srv);
     method_desc "SetDenomMetadata" (Msg_SetDenomMetadata_Handler srv);
     method_desc "SetBeforeSendHook" (Msg_SetBeforeSendHook_Handler srv);
     method_desc "UpdateParams" (Msg_UpdateParams_Handler srv)];
  ServiceMetadata := "miniwasm/tokenfactory/v1/tx.proto"
|}.

(** NewMsgClient: every method calls the connection by its name. *)
Definition NewMsgClient (cc : ClientConn S) : TfServer := {|
  srv_CreateDenom := client_call cc "/miniwasm.tokenfactory.v1.Msg/CreateDenom";
  srv_Mint := client_call cc "/miniwasm.tokenfactory.v1.Msg/Mint";
  srv_Burn := client_call cc "/miniwasm.tokenfactory.v1.Msg/Burn";
  srv_ChangeAdmin := client_call cc "/miniwasm.tokenfactory.v1.Msg/ChangeAdmin";
  srv_SetDenomMetadata := client_call cc "/miniwasm.tokenfactory.v1.Msg/SetDenomMetadata";
  srv_SetBeforeSendHook := client_call cc "/miniwasm.tokenfactory.v1.Msg/SetBeforeSendHook";
  srv_UpdateParams := client_call cc "/miniwasm.tokenfactory.v1.Msg/UpdateParams"
|}.

(** ** Query of the token factory *)

Record TfQueryServer := {
  q_Params : QueryParamsRequest → M S QueryParamsResponse;
  q_DenomAuthorityMetadata : QueryDenomAuthorityMetadataRequest → M S QueryDenomAuthorityMetadataResponse;
  q_DenomsFromCreator : QueryDenomsFromCreatorRequest → M S QueryDenomsFromCreatorResponse;
  q_BeforeSendHookAddress : QueryBeforeSendHookAddressRequest → M S QueryBeforeSendHookAddressResponse
}.

Definition Query_Params_Handler (srv : TfQueryServer) := unary_handler "/miniwasm.tokenfactory.v1.Query/Params" (q_Params srv).
Definition Query_DenomAuthorityMetadata_Handler (srv : TfQueryServer) :=
  unary_handler "/miniwasm.tokenfactory.v1.Query/DenomAuthorityMetadata" (q_DenomAuthorityMetadata srv).
Definition Query_DenomsFromCreator_Handler (srv : TfQueryServer) :=
  unary_handler "/miniwasm.tokenfactory.v1.Query/DenomsFromCreator" (q_DenomsFromCreator srv).
Definition Query_BeforeSendHookAddress_Handler (srv : TfQueryServer) :=
  unary_handler "/miniwasm.tokenfactory.v1.Query/BeforeSendHookAddress" (q_BeforeSendHookAddress srv).

Definition Query_serviceDesc (srv : TfQueryServer) : ServiceDesc S := {|
  ServiceName := "miniwasm.tokenfactory.v1.Query";
  ServiceMethods :=
    [method_desc "Params" (Query_Params_Handler srv);
     method_desc "DenomAuthorityMetadata" (Query_DenomAuthorityMetadata_Handler srv);
     method_desc "DenomsFromCreator" (Query_DenomsFromCreator_Handler srv);
     method_desc "BeforeSendHookAddress" (Query_BeforeSendHookAddress_Handler srv)];
  ServiceMetadata := "miniwasm/tokenfactory/v1/query.proto"
|}.

Definition NewQueryClient (cc : ClientConn S) : TfQueryServer := {|
  q_Params := client_call cc "/miniwasm.tokenfactory.v1.Query/Params";
  q_DenomAuthorityMetadata := client_call cc "/miniwasm.tokenfactory.v1.Query/DenomAuthorityMetadata";
  q_DenomsFromCreator := client_call cc "/miniwasm.tokenfactory.v1.Query/DenomsFromCreator";
  q_BeforeSendHookAddress := client_call cc "/miniwasm.tokenfactory.v1.Query/BeforeSendHookAddress"
|}.

(** ** Msg of the wasm extension *)

Definition wasmextension_Msg_StoreCodeAdmin_Handler (srv : MsgStoreCodeAdmin → M S MsgStoreCodeAdminResponse) :=
  unary_handler "/miniwasm.wasmextension.v1.Msg/StoreCodeAdmin" srv.

Definition wasmextension_Msg_serviceDesc (srv : MsgStoreCodeAdmin → M S MsgStoreCodeAdminResponse) : ServiceDesc S := {|
  ServiceName := "miniwasm.wasmextension.v1.Msg";
  ServiceMethods := [method_desc "StoreCodeAdmin" (wasmextension_Msg_StoreCodeAdmin_Handler srv)];
  ServiceMetadata := "miniwasm/wasmextension/v1/tx.proto"
|}.

Definition wasmextension_NewMsgClient (cc : ClientConn S) : MsgStoreCodeAdmin → M S MsgStoreCodeAdminResponse :=
  client_call cc "/miniwasm.wasmextension.v1.Msg/StoreCodeAdmin".

(** ** Servers without methods, and registration *)

(** status.Errorf(codes.Unimplemented, "method %s not implemented") *)
Definition not_implemented {A B} (method : string) : A → M S B :=
  λ _, fail (Errorf ("method " +:+ method +:+ " not implemented") []).

Definition UnimplementedMsgServer : TfServer := {|
  srv_CreateDenom := not_implemented "CreateDenom";
  srv_Mint := not_implemented "Mint";
  srv_Burn := not_implemented "Burn";
  srv_ChangeAdmin := not_implemented "ChangeAdmin";
  srv_SetDenomMetadata := not_implemented "SetDenomMetadata";
  srv_SetBeforeSendHook := not_implemented "SetBeforeSendHook";
  srv_UpdateParams := not_implemented "UpdateParams"
|}.

Definition UnimplementedQueryServer : TfQueryServer := {|
  q_Params := not_implemented "Params";
  q_DenomAuthorityMetadata := not_implemented "DenomAuthorityMetadata";
  q_DenomsFromCreator := not_implemented "DenomsFromCreator";
  q_BeforeSendHookAddress := not_implemented "BeforeSendHookAddress"
|}.

Definition wasmextension_UnimplementedMsgServer : MsgStoreCodeAdmin → M S MsgStoreCodeAdminResponse :=
  not_implemented "StoreCodeAdmin".

(** s.RegisterService(&_Msg_serviceDesc, srv): the server keeps the services in order. *)
Definition RegisterMsgServer (s : list (ServiceDesc S)) (srv : TfServer) : list (ServiceDesc S) :=
  s ++ [Msg_serviceDesc srv].
Definition RegisterQueryServer (s : list (ServiceDesc S)) (srv : TfQueryServer) : list (ServiceDesc S) :=
  s ++ [Query_serviceDesc srv].
Definition wasmextension_RegisterMsgServer (s : list (ServiceDesc S))
    (srv : MsgStoreCodeAdmin → M S MsgStoreCodeAdminResponse) : list (ServiceDesc S) :=
  s ++ [wasmextension_Msg_serviceDesc srv].

End services.

(** keeper.NewMsgServerImpl: the handlers of the token factory as a server. *)
Section impl.
Context {W G : Type} {AC : AddressCodec} {ST : SdkTypes} {GM : GasMeter G}.
Context {AK : AccountKeeper W G} {BV : BankView W} {BK : BankKeeper W G}.
Context {CP : CommunityPoolKeeper W G} {CK : ContractKeeper W G} {KW : KeyWalk}.

Definition NewMsgServerImpl (authority : string) : TfServer (S:=state W G) := {|
  srv_CreateDenom m := let! denom := MsgServer_CreateDenom m in ret {| MsgCreateDenomResponse_NewTokenDenom := denom |};
  srv_Mint m := MsgServer_Mint m ;;; ret Mk_MsgMintResponse;
  srv_Burn m := MsgServer_Burn m ;;; ret Mk_MsgBurnResponse;
  srv_ChangeAdmin m := MsgServer_ChangeAdmin m ;;; ret Mk_MsgChangeAdminResponse;
  srv_SetDenomMetadata m := MsgServer_SetDenomMetadata m ;;; ret Mk_MsgSetDenomMetadataResponse;
  srv_SetBeforeSendHook m := MsgServer_SetBeforeSendHook m ;;; ret Mk_MsgSetBeforeSendHookResponse;
  srv_UpdateParams m := MsgServer_UpdateParams authority m ;;; ret Mk_MsgUpdateParamsResponse
|}.

Definition NewQuerier : TfQueryServer (S:=state W G) := {|
  q_Params _ := let! p := Query_Params in ret {| QueryParamsResponse_Params := p |};
  q_DenomAuthorityMetadata r :=
    let! m := Query_DenomAuthorityMetadata (QueryDenomAuthorityMetadataRequest_Denom r) in
    ret {| QueryDenomAuthorityMetadataResponse_AuthorityMetadata := m |};
  q_DenomsFromCreator r :=
    let! ds := Query_DenomsFromCreator (QueryDenomsFromCreatorRequest_Creator r) in
    ret {| QueryDenomsFromCreatorResponse_Denoms := ds |};
  q_BeforeSendHookAddress r :=
    let! a := Query_BeforeSendHookAddress (QueryBeforeSendHookAddressRequest_Denom r) in
    ret {| QueryBeforeSendHookAddressResponse_CosmwasmAddress := a |}
|}.
End impl.

(** * Theorems *)

Section theorems.
Context {S : Type}.

(** What a handler does with a request. *)
Definition intercepted {A B} (i : option (interceptor S)) (method : string) (srv : A → M S B) (req : A) : M S B :=
  match i with None => srv req | Some i => i A B method req srv end.

(** A call does what the server does, for a request that can be written and a response that
    can be. *)
Definition same_call {A B} {GA : GogoMessage A} {GB : GogoMessage B} {LA : GogoLaws A GA} {LB : GogoLaws B GB}
    (call srv : A → M S B) : Prop := ∀ req s,
  gogo_ok req → gogo_Size req < 2 ^ 63 →
  (∀ res s', srv req s = (Ok res, s') → gogo_ok res ∧ gogo_Size res < 2 ^ 63) →
  call req s = srv req s.

Section call.
Context {A B} {GA : GogoMessage A} {GB : GogoMessage B} {LA : GogoLaws A GA} {LB : GogoLaws B GB}.

Lemma unary_handler_decodes method (srv : A → M S B) req i s :
  gogo_ok req → gogo_Size req < 2 ^ 63 →
  unary_handler method srv (gogo_Unmarshal (gogo_enc req)) i s = intercepted i method srv req s.
Proof.
  intros Hok Hs. unfold unary_handler, intercepted. rw gogo_size in Hs. rw gogo_reads //. by destruct i.
Qed.

Lemma call_through {GR : GrpcLib S} {GRL : GrpcLaws S GR} (cc : ClientConn S) method i (srv : A → M S B) :
  (∀ bz s, cc method bz s =
    (let! res := unary_handler method srv (gogo_Unmarshal bz) i in lift (gogo_Marshal res)) s) →
  same_call (client_call cc method) (intercepted i method srv).
Proof.
  intros Hcc req s Hok Hs Hres. unfold client_call. rw Invoke_spec gogo_Marshal_enc.
  unfold bind at 1, lift at 1. unfold bind at 1. rw Hcc. unfold bind. rw unary_handler_decodes //.
  destruct (intercepted i method srv req s) as [[res|e|p] s'] eqn:E; [|done..].
  destruct (Hres res s' eq_refl) as [Hr Hl]. unfold lift. rw gogo_Marshal_enc. rw gogo_size in Hl. by rw gogo_reads.
Qed.

(** A client's call to a method of a registered service. *)
Lemma call_service {GR : GrpcLib S} {GRL : GrpcLaws S GR} services i sd name (srv : A → M S B) :
  NoDup (services ≫= method_names) → sd ∈ services →
  method_desc name (unary_handler (full_method (ServiceName sd) name) srv) ∈ ServiceMethods sd →
  same_call (client_call (grpc_serve services i) (full_method (ServiceName sd) name))
    (intercepted i (full_method (ServiceName sd) name) srv).
Proof.
  intros Hnd Hin Hmd. apply call_through. intros bz s. exact (grpc_serves _ _ _ _ _ _ Hnd Hin Hmd).
Qed.
End call.

Context {SG : SdkGogo} {SGL : SdkGogoLaws SG}.

Context {GR : GrpcLib S} {GRL : GrpcLaws S GR}.

(** C16. Calling through the generated client, a connection and the generated handlers is calling
    the server, with the interceptor around it: every method reaches its own handler, under the
    name that the interceptor is told, with the request and the response unchanged. The services
    may be registered on a server with any others, as long as no full name is registered twice. *)
Theorem clients_reach_servers (srv : TfServer (S:=S)) (q : TfQueryServer (S:=S)) w services i :
  NoDup (services ≫= method_names) →
  let cc := grpc_serve services i in
  let msg := NewMsgClient cc in
  let query := NewQueryClient cc in
  let full := full_method "miniwasm.tokenfactory.v1.Msg" in
  let qfull := full_method "miniwasm.tokenfactory.v1.Query" in
  (Msg_serviceDesc srv ∈ services →
   same_call (srv_CreateDenom msg) (intercepted i (full "CreateDenom") (srv_CreateDenom srv)) ∧
   same_call (srv_Mint msg) (intercepted i (full "Mint") (srv_Mint srv)) ∧
   same_call (srv_Burn msg) (intercepted i (full "Burn") (srv_Burn srv)) ∧
   same_call (srv_ChangeAdmin msg) (intercepted i (full "ChangeAdmin") (srv_ChangeAdmin srv)) ∧
   same_call (srv_SetDenomMetadata msg) (intercepted i (full "SetDenomMetadata") (srv_SetDenomMetadata srv)) ∧
   same_call (srv_SetBeforeSendHook msg) (intercepted i (full "SetBeforeSendHook") (srv_SetBeforeSendHook srv)) ∧
   same_call (srv_UpdateParams msg) (intercepted i (full "UpdateParams") (srv_UpdateParams srv))) ∧
  (Query_serviceDesc q ∈ services →
   same_call (q_Params query) (intercepted i (qfull "Params") (q_Params q)) ∧
   same_call (q_DenomAuthorityMetadata query) (intercepted i (qfull "DenomAuthorityMetadata") (q_DenomAuthorityMetadata q)) ∧
   same_call (q_DenomsFromCreator query) (intercepted i (qfull "DenomsFromCreator") (q_DenomsFromCreator q)) ∧
   same_call (q_BeforeSendHookAddress query) (intercepted i (qfull "BeforeSendHookAddress") (q_BeforeSendHookAddress q))) ∧
  (wasmextension_Msg_serviceDesc w ∈ services →
   same_call (wasmextension_NewMsgClient cc)
     (intercepted i (full_method "miniwasm.wasmextension.v1.Msg" "StoreCodeAdmin") w)).
Proof.
  intros Hnd. cbn zeta. split_and!; intros Hin.
  - pose proof (λ A B GA GB LA LB name f, call_service (A:=A) (B:=B) (GA:=GA) (GB:=GB) (LA:=LA) (LB:=LB)
      services i (Msg_serviceDesc srv) name f Hnd Hin) as Hc.
    split_and!; apply (Hc _ _ _ _ _ _); in_list.
  - pose proof (λ A B GA GB LA LB name f, call_service (A:=A) (B:=B) (GA:=GA) (GB:=GB) (LA:=LA) (LB:=LB)
      services i (Query_serviceDesc q) name f Hnd Hin) as Hc.
    split_and!; apply (Hc _ _ _ _ _ _); in_list.
  - apply (call_service services i (wasmextension_Msg_serviceDesc w) "StoreCodeAdmin" w Hnd Hin). in_list.
Qed.
End theorems.

(** ** From a client of the API to the handler *)

Section delivery.
Context {W G : Type} {AC : AddressCodec} {ST : SdkTypes} {GM : GasMeter G}.
Context {AK : AccountKeeper W G} {BV : BankView W} {BK : BankKeeper W G}.
Context {CP : CommunityPoolKeeper W G} {CK : ContractKeeper W G} {KW : KeyWalk}.
Context {WR : WireRuntime} {WL : WireRuntimeLaws WR}.
Context {SM : SdkMessages} {SML : SdkMessagesLaws SM} {SG : SdkGogo} {SGL : SdkGogoLaws SG}.
Context {IC : Interop coin ApiCoin} {IM : Interop Metadata ApiMetadata}.
Context {GR : GrpcLib (state W G)} {GRL : GrpcLaws (state W G) GR}.

(** What a client that uses the messages of api/ sends: the method and the bytes. *)
Definition api_request (m : tf_msg) : string * res raw :=
  let full := full_method "miniwasm.tokenfactory.v1.Msg" in
  match m with
  | CreateDenom m => (full "CreateDenom", marshalled (v1_MsgCreateDenom_marshal (Some (MsgCreateDenom_to_api m))))
  | Mint m => (full "Mint", marshalled (v1_MsgMint_marshal (Some (MsgMint_to_api m))))
  | Burn m => (full "Burn", marshalled (v1_MsgBurn_marshal (Some (MsgBurn_to_api m))))
  | ChangeAdmin m => (full "ChangeAdmin", marshalled (v1_MsgChangeAdmin_marshal (Some (MsgChangeAdmin_to_api m))))
  | SetDenomMetadata m =>
      (full "SetDenomMetadata", marshalled (v1_MsgSetDenomMetadata_marshal (Some (MsgSetDenomMetadata_to_api m))))
  | SetBeforeSendHook m =>
      (full "SetBeforeSendHook", marshalled (v1_MsgSetBeforeSendHook_marshal (Some (MsgSetBeforeSendHook_to_api m))))
  | UpdateParams m => (full "UpdateParams", marshalled (v1_MsgUpdateParams_marshal (Some (MsgUpdateParams_to_api m))))
  end.

Definition tf_msg_fits (m : tf_msg) : Prop :=
  match m with
  | CreateDenom m => gogo_ok m ∧ gogo_Size m < 2 ^ 63
  | Mint m => gogo_ok m ∧ gogo_Size m < 2 ^ 63
  | Burn m => gogo_ok m ∧ gogo_Size m < 2 ^ 63
  | ChangeAdmin m => gogo_ok m ∧ gogo_Size m < 2 ^ 63
  | SetDenomMetadata m => gogo_ok m ∧ gogo_Size m < 2 ^ 63
  | SetBeforeSendHook m => gogo_ok m ∧ gogo_Size m < 2 ^ 63
  | UpdateParams m => gogo_ok m ∧ gogo_Size m < 2 ^ 63
  end.

(** The answer to a request: the outcome of a handler with some bytes for its response. *)
Definition answered (out : raw) (r : res unit * state W G) : res raw * state W G :=
  match r with
  | (Ok _, s) => (Ok out, s) | (Err e, s) => (Err e, s) | (Panic p, s) => (Panic p, s)
  end.

(** A method whose handler runs [run] and gives a response that is not looked at. *)
Lemma served {A B C} {GA : GogoMessage A} {GB : GogoMessage B} {LA : GogoLaws A GA} {LB : GogoLaws B GB}
    (cc : ClientConn (state W G)) method (run : A → M (state W G) C) (resp : C → B) req s :
  (∀ bz s, cc method bz s =
    (let! res := unary_handler method (λ req, let! c := run req in ret (resp c)) (gogo_Unmarshal bz) None in
     lift (gogo_Marshal res)) s) →
  gogo_ok req → gogo_Size req < 2 ^ 63 →
  ∃ out, cc method (gogo_enc req) s = answered out ((run req ;;; ret ()) s).
Proof.
  intros Hcc Hok Hs. rw Hcc. unfold bind at 1. rw unary_handler_decodes //. unfold intercepted, bind, ret, answered.
  destruct (run req s) as [[c|e|p] s1]; [|by exists []..].
  exists (gogo_enc (resp c)). unfold lift. by rw gogo_Marshal_enc.
Qed.

Lemma run_ret (m : M (state W G) unit) s : (m ;;; ret ()) s = m s.
Proof. unfold bind, ret. by destruct (m s) as [[[]|e|p] s1]. Qed.

(** The same for a method of the registered message server. *)
Lemma delivered {A B C} {GA : GogoMessage A} {GB : GogoMessage B} {LA : GogoLaws A GA} {LB : GogoLaws B GB}
    authority services name (run : A → M (state W G) C) (resp : C → B) req s :
  let sd := Msg_serviceDesc (NewMsgServerImpl authority) in
  NoDup (services ≫= method_names) → sd ∈ services →
  method_desc name (unary_handler (full_method (ServiceName sd) name)
    (λ req, let! c := run req in ret (resp c))) ∈ ServiceMethods sd →
  gogo_ok req → gogo_Size req < 2 ^ 63 →
  ∃ out, grpc_serve services None (full_method (ServiceName sd) name) (gogo_enc req) s =
    answered out ((run req ;;; ret ()) s).
Proof.
  intros sd Hnd Hin Hmd Hok Hs. eapply served; [|done..].
  intros bz s1. exact (grpc_serves services None sd _ bz s1 Hnd Hin Hmd).
Qed.

Ltac deliver authority services name run resp m s :=
  let out := fresh in let H := fresh in
  destruct (delivered authority services name run resp m s) as [out H];
    [done|done|in_list|done|done|]; exists out; split; [done|]; first [exact H|rw run_ret in H; exact H].

(** C13. A message that a client writes with the API and sends to its method is handled as the
    message it is: the bytes are the ones the stub reads, and what happens to the state and to
    the outcome is what [handle], which the theorems on the chain are about, does. *)
Theorem api_message_handled authority services m s :
  NoDup (services ≫= method_names) → Msg_serviceDesc (NewMsgServerImpl authority) ∈ services →
  tf_msg_fits m →
  ∃ bz out, (api_request m).2 = Ok bz ∧
    grpc_serve services None (api_request m).1 bz s = answered out (handle authority m s).
Proof.
  intros Hnd Hin Hm.
  destruct m as [m|m|m|m|m|m|m]; destruct Hm as [Hok Hs]; cbn [api_request fst snd handle];
    pose proof (interop_enc m) as He; exists (gogo_enc m).
  - deliver authority services "CreateDenom" MsgServer_CreateDenom
      (λ d, {| MsgCreateDenomResponse_NewTokenDenom := d |}) m s.
  - deliver authority services "Mint" MsgServer_Mint (λ _ : unit, Mk_MsgMintResponse) m s.
  - deliver authority services "Burn" MsgServer_Burn (λ _ : unit, Mk_MsgBurnResponse) m s.
  - deliver authority services "ChangeAdmin" (MsgServer_ChangeAdmin (W:=W) (G:=G)) (λ _ : unit, Mk_MsgChangeAdminResponse) m s.
  - deliver authority services "SetDenomMetadata" (MsgServer_SetDenomMetadata (G:=G)) (λ _ : unit, Mk_MsgSetDenomMetadataResponse) m s.
  - deliver authority services "SetBeforeSendHook" (MsgServer_SetBeforeSendHook (W:=W) (G:=G)) (λ _ : unit, Mk_MsgSetBeforeSendHookResponse) m s.
  - deliver authority services "UpdateParams" (MsgServer_UpdateParams (W:=W) (G:=G) authority) (λ _ : unit, Mk_MsgUpdateParamsResponse) m s.
Qed.
End delivery.

(** ** Names *)

Definition service_declared {S} (F : file_id) (sd : ServiceDesc S) : Prop :=
  ∃ d sv, read_FileDescriptorProto (rawDesc_of F) = Some d ∧ service d = [sv] ∧
    ServiceName sd = package d +:+ "." +:+ s_name sv ∧ ServiceMetadata sd = file_name d ∧
    MethodName <$> ServiceMethods sd = me_name <$> s_methods sv.

(** The services that x/ registers are those that the descriptors of api/ declare: the same
    service, file and methods, in their order. *)
Theorem services_declared {SG : SdkGogo} {S} (srv : TfServer (S:=S)) (q : TfQueryServer (S:=S)) w :
  service_declared tf_tx (Msg_serviceDesc srv) ∧ service_declared tf_query (Query_serviceDesc q) ∧
  service_declared we_tx (wasmextension_Msg_serviceDesc (S:=S) w).
Proof. split_and!; do 2 eexists; (split; [vm_compute; reflexivity|]); by split_and!. Qed.

(** ** Several services on one server *)

(** The services of the two modules, registered one after the other on a server that has none
    of their methods yet, do not get in each other's way: no name is registered twice. *)
Theorem services_coexist {SG : SdkGogo} {S} (others : list (ServiceDesc S))
    (srv : TfServer (S:=S)) (q : TfQueryServer (S:=S)) w :
  NoDup (others ≫= method_names) →
  (∀ sd m, sd ∈ others → m ∈ method_names sd →
     m ∉ [Msg_serviceDesc srv; Query_serviceDesc q; wasmextension_Msg_serviceDesc w] ≫= method_names) →
  NoDup (wasmextension_RegisterMsgServer (RegisterQueryServer (RegisterMsgServer others srv) q) w
         ≫= method_names).
Proof.
  intros Hnd Ho. unfold wasmextension_RegisterMsgServer, RegisterQueryServer, RegisterMsgServer.
  rw -!app_assoc bind_app. apply NoDup_app. split; [done|]. split.
  - intros m (sd & Hm & Hsd)%list_elem_of_bind. by apply (Ho sd).
  - eapply bool_decide_unpack. by vm_compute.
Qed.
