(* ===== verification/Rest.v ===== *)
(** Queries over HTTP, all the way: the routes that the token factory's module.go registers
    hand a request to the generated client, which sends it over a connection to the generated
    handler of the query server. *)
From S2P Require Import Prelude.
From S2P Require Import Interfaces.
From S2P Require Import TfTypes.
From S2P Require Import TfKeeper.
From S2P Require Import Bank.
From S2P Require Import TfMsgServer.
From S2P Require Import GoJson.
From S2P Require Import Wire.
From S2P Require Import WireSpec.
From S2P Require Import WireRead.
From S2P Require Import GogoWire.
From S2P Require Import GogoState.
From S2P Require Import GogoTx.
From S2P Require Import GogoQuery.
From S2P Require Import GogoService.
From S2P Require Import Gateway.

Section routes.
Context {S : Type} {GL : GatewayLib} {SG : SdkGogo} {GR : GrpcLib S}.

(** The client as the handlers of the gateway use it: they fill the one field of a request and
    forward the response, of which the one field is kept here. *)
Definition gateway_client (c : TfQueryServer (S:=S)) : QueryServer (S:=S) := {|
  srv_Params := let! r := q_Params c Mk_QueryParamsRequest in ret (QueryParamsResponse_Params r);
  srv_DenomAuthorityMetadata d :=
    let! r := q_DenomAuthorityMetadata c {| QueryDenomAuthorityMetadataRequest_Denom := d |} in
    ret (QueryDenomAuthorityMetadataResponse_AuthorityMetadata r);
  srv_DenomsFromCreator a :=
    let! r := q_DenomsFromCreator c {| QueryDenomsFromCreatorRequest_Creator := a |} in
    ret (QueryDenomsFromCreatorResponse_Denoms r);
  srv_BeforeSendHookAddress d :=
    let! r := q_BeforeSendHookAddress c {| QueryBeforeSendHookAddressRequest_Denom := d |} in
    ret (QueryBeforeSendHookAddressResponse_CosmwasmAddress r)
|}.

(** module.go: RegisterGRPCGatewayRoutes. *)
Definition AppModuleBasic_RegisterGRPCGatewayRoutes (clientCtx : ClientConn S) : list handler :=
  RegisterQueryHandlerClient None (gateway_client (NewQueryClient clientCtx)).
End routes.

Section rest.
Context {W G : Type} {AC : AddressCodec} {KW : KeyWalk} {GL : GatewayLib} {GLL : GatewayLibLaws GL}.
Context {SG : SdkGogo} {SGL : SdkGogoLaws SG}.
Context {SX : ServeMux (state W G)} {SXL : ServeMuxLaws (state W G) GL SX}.
Context {GR : GrpcLib (state W G)} {GRL : GrpcLaws (state W G) GR}.
Implicit Types (s : state W G).

(** The module's query server behind a connection. *)
Definition node : ClientConn (state W G) := grpc_serve [Query_serviceDesc NewQuerier] None.

(** A call of the client that is answered as by the server. *)
Lemma over_the_wire {A B C D} {GA : GogoMessage A} {GB : GogoMessage B} {LA : GogoLaws A GA} {LB : GogoLaws B GB}
    (call : A → M (state W G) B) method (run : C → M (state W G) D) (make : D → B) (field : B → D) (name : A → C) req s :
  same_call call (intercepted None method (λ r, let! x := run (name r) in ret (make x))) →
  (∀ x, field (make x) = x) → gogo_ok req → gogo_Size req < 2 ^ 63 →
  (∀ x s1, run (name req) s = (Ok x, s1) → gogo_ok (make x) ∧ gogo_Size (make x) < 2 ^ 63) →
  (let! r := call req in ret (field r)) s = run (name req) s.
Proof.
  intros Hc Hf Hok Hs Hr. unfold bind at 1. rw (Hc req s Hok Hs).
  - unfold intercepted, bind, ret. destruct (run (name req) s) as [[x|e|p] s1]; [by rw Hf|done..].
  - intros res s1. unfold intercepted, bind, ret. destruct (run (name req) s) as [[x|e|p] s2] eqn:E; [|done..].
    intros [= <- <-]. by eapply Hr.
Qed.

(** A value that fits in memory with its message around it. *)
Definition fits_message {A} {GM : GogoMessage A} (x : A) : Prop := gogo_Size x < 2 ^ 63.

Lemma node_names : NoDup ([Query_serviceDesc (S:=state W G) NewQuerier] ≫= method_names).
Proof. eapply bool_decide_unpack. by vm_compute. Qed.

(** The two queries about a denom, as the gateway's client asks them with an escaped name. *)
Lemma authority_over_wire d s :
  fits_message {| QueryDenomAuthorityMetadataRequest_Denom := QueryEscape d |} →
  (∀ m, DenomAuthority (tf s) !! d = Some m →
     fits_message {| QueryDenomAuthorityMetadataResponse_AuthorityMetadata := m |}) →
  srv_DenomAuthorityMetadata (gateway_client (NewQueryClient node)) (QueryEscape d) s =
  (match DenomAuthority (tf s) !! d with Some a => Ok a | None => Err ErrNotFound end, s).
Proof.
  intros Hq Hr. destruct (QueryEscape_spec d) as [Hu Hn].
  assert (Hrun : Query_DenomAuthorityMetadata (QueryEscape d) s =
    (match DenomAuthority (tf s) !! d with Some a => Ok a | None => Err ErrNotFound end, s)).
  { unfold Query_DenomAuthorityMetadata, decoded_denom, GetAuthorityMetadata. rw Hu. cbn. by destruct (_ !! _). }
  rw -Hrun. cbn [gateway_client srv_DenomAuthorityMetadata].
  eapply (over_the_wire _ _ Query_DenomAuthorityMetadata Build_QueryDenomAuthorityMetadataResponse _
    QueryDenomAuthorityMetadataRequest_Denom); [|done..|].
  - apply (call_service [Query_serviceDesc NewQuerier] None (Query_serviceDesc NewQuerier)
      "DenomAuthorityMetadata" _ node_names); in_list.
  - cbn. rw Hrun. intros x s1. destruct (DenomAuthority (tf s) !! d) as [m|]; [|done].
    intros [= <- <-]. split; [done|]. by apply Hr.
Qed.

Lemma hook_over_wire d s :
  fits_message {| QueryBeforeSendHookAddressRequest_Denom := QueryEscape d |} →
  fits_message {| QueryBeforeSendHookAddressResponse_CosmwasmAddress := default "" (DenomHookAddr (tf s) !! d) |} →
  srv_BeforeSendHookAddress (gateway_client (NewQueryClient node)) (QueryEscape d) s =
  (Ok (default "" (DenomHookAddr (tf s) !! d)), s).
Proof.
  intros Hq Hr. destruct (QueryEscape_spec d) as [Hu Hn].
  assert (Hrun : Query_BeforeSendHookAddress (QueryEscape d) s =
    (Ok (default "" (DenomHookAddr (tf s) !! d)), s)).
  { unfold Query_BeforeSendHookAddress, decoded_denom, GetBeforeSendHook, gets. rw Hu. cbn. by destruct (_ !! _). }
  rw -Hrun. cbn [gateway_client srv_BeforeSendHookAddress].
  eapply (over_the_wire _ _ Query_BeforeSendHookAddress Build_QueryBeforeSendHookAddressResponse _
    QueryBeforeSendHookAddressRequest_Denom); [|done..|].
  - apply (call_service [Query_serviceDesc NewQuerier] None (Query_serviceDesc NewQuerier)
      "BeforeSendHookAddress" _ node_names); in_list.
  - cbn. rw Hrun. by intros x s1 [= <- <-].
Qed.

(** C36. A denom of the factory has slashes. net/http decodes the path of a URL before the gateway
    matches it, so a denom that is escaped once has its slashes back by then and makes, like one
    that is not escaped, a path that no handler has. The query server decodes the denom once
    more; so escaped twice it is found, whatever its bytes are: through the URL, the gateway, the
    client, the wire, the handler and the query server the answer is the admin, or the hook, that
    the store of the module has for that denom, or the error of the query. *)
Theorem denoms_over_rest d s :
  let url x op := base +:+ "denoms" +:+ "/" +:+ x +:+ "/" +:+ op in
  let hs := AppModuleBasic_RegisterGRPCGatewayRoutes node in
  fits_message {| QueryDenomAuthorityMetadataRequest_Denom := QueryEscape d |} →
  fits_message {| QueryBeforeSendHookAddressRequest_Denom := QueryEscape d |} →
  (∀ m, DenomAuthority (tf s) !! d = Some m →
     fits_message {| QueryDenomAuthorityMetadataResponse_AuthorityMetadata := m |}) →
  fits_message {| QueryBeforeSendHookAddressResponse_CosmwasmAddress := default "" (DenomHookAddr (tf s) !! d) |} →
  (∃ m, get_url hs (url (QueryEscape (QueryEscape d)) "authority_metadata") = Some m ∧
     m s = replied Gateway.QueryDenomAuthorityMetadataResponse
       (match DenomAuthority (tf s) !! d with Some a => Ok a | None => Err ErrNotFound end, s)) ∧
  (∃ m, get_url hs (url (QueryEscape (QueryEscape d)) "before_send_hook") = Some m ∧
     m s = replied Gateway.QueryBeforeSendHookAddressResponse (Ok (default "" (DenomHookAddr (tf s) !! d)), s)) ∧
  (mem_byte "/" d = true → ∀ op, op ∈ ["authority_metadata"; "before_send_hook"] →
     get_url hs (url (QueryEscape d) op) = None ∧
     (mem_byte "%" d = false → get_url hs (url d op) = None)).
Proof.
  cbn zeta. intros Hq1 Hq2 Hr1 Hr2. destruct (QueryEscape_spec d) as [_ Hn].
  unfold AppModuleBasic_RegisterGRPCGatewayRoutes.
  change (RegisterQueryHandlerClient None) with (RegisterQueryHandlerServer (S:=state W G) None).
  split_and!.
  - eexists. rw get_url_escaped // plus_spaces_id; [|apply QueryEscape_no_space].
    rw get_item // serve_spec. split; [done|]. rw -authority_over_wire //. apply param_replies, lookup_singleton_eq.
  - eexists. rw get_url_escaped // plus_spaces_id; [|apply QueryEscape_no_space].
    rw get_item // serve_spec. split; [done|]. rw -hook_over_wire //. apply param_replies, lookup_singleton_eq.
  - intros Hd op Hop. apply elem_of_cons in Hop as [->|Hop]; [|apply list_elem_of_singleton in Hop as ->].
    all: split; [rw get_url_escaped // slash_unserved //; by rw plus_spaces_slash
                |intros Hp; by rw get_url_plain // slash_unserved].
Qed.
End rest.
