(* ===== verification/WireWitnesses.v ===== *)
(** The theorems on the wire format applied: the runtime is that of the generated gogoproto
    code, and the coin and the metadata of the SDK are messages of two strings. *)
From S2P Require Import Prelude.
From S2P Require Import GoJson.
From S2P Require Import JsonScan.
From S2P Require Import Wire.
From S2P Require Import WireSpec.
From S2P Require Import WireRead.
From S2P Require Import GogoRuntime.
From S2P Require Import ApiState.
From S2P Require Import ApiTx.
From S2P Require Import ApiQuery.
From S2P Require Import ApiWasm.
From S2P Require Import ApiSpec.
From S2P Require Import Reflect.
From S2P Require Import ReflectTx.
From S2P Require Import ReflectWasm.
From S2P Require Import ReflectLists.
From S2P Require Import ReflectSpec.
From S2P Require Import ReflectTypes.
From S2P Require Import Descriptors.
From S2P Require Import DescFiles.
From S2P Require Import DescSpec.

(** A coin is its denom, field 1, and its amount, field 2, two strings, as in a
    MsgCreateDenom; so are the description and the base of a metadata. *)
#[local] Instance demo_messages : SdkMessages := {|
  ApiCoin := v1_MsgCreateDenom; ApiMetadata := v1_MsgCreateDenom;
  Coin_proto := v1_MsgCreateDenom_proto; Metadata_proto := v1_MsgCreateDenom_proto
|}.

#[local] Instance demo_messages_laws : SdkMessagesLaws demo_messages := {|
  Coin_laws := v1_MsgCreateDenom_laws; Metadata_laws := v1_MsgCreateDenom_laws
|}.

Definition demo_coin : v1_MsgCreateDenom := {|
  v1_MsgCreateDenom_Sender := "factory/init1alice/gold"; v1_MsgCreateDenom_Subdenom := "50";
  v1_MsgCreateDenom_unknownFields := []
|}.

(** Field 9, a string that MsgMint does not know. *)
Definition demo_unknown : raw := enc_delimited 0x4a (to_raw "later").

Definition demo_mint : v1_MsgMint := {|
  v1_MsgMint_Sender := "init1alice"; v1_MsgMint_Amount := Some demo_coin;
  v1_MsgMint_MintToAddress := ""; v1_MsgMint_unknownFields := demo_unknown
|}.

Lemma demo_coin_ok : v1_MsgCreateDenom_ok demo_coin.
Proof. constructor. Qed.

Lemma demo_mint_ok : v1_MsgMint_ok demo_mint.
Proof.
  split; [intros a [= <-]; exact demo_coin_ok|].
  rw -(app_nil_r (v1_MsgMint_unknownFields _)). constructor; [|done|constructor].
  exists 9, 2, (varint 5 ++ to_raw "later"). split_and!; try done.
  intros rest. exact (skipTx_delimited 9 (to_raw "later") rest ltac:(done) ltac:(by vm_compute)).
Qed.

(** The codec of a message is one of them. *)
Ltac listed := apply (list_elem_of_lookup_2 _ 6); reflexivity.

Lemma api_marshal_reference_witness :
  c_marshal v1_MsgMint_codec (Some demo_mint) [] = (Ok (), [] ++ c_enc v1_MsgMint_codec demo_mint).
Proof.
  destruct (api_marshal_reference v1_MsgMint_codec demo_mint []) as [H _].
  - listed.
  - exact H.
Defined.

Lemma api_roundtrip_witness :
  ∃ bz, c_marshal v1_MsgMint_codec (Some demo_mint) [] = (Ok (), bz) ∧
    c_unmarshal v1_MsgMint_codec false bz (Some (c_new v1_MsgMint_codec)) = (Ok (), Some demo_mint).
Proof.
  apply (api_roundtrip v1_MsgMint_codec demo_mint).
  - listed.
  - exact demo_mint_ok.
  - vm_compute. reflexivity.
Defined.

(** A field whose length is larger than what is left. *)
Lemma api_unmarshal_total_witness :
  no_panic (c_unmarshal v1_MsgMint_codec true (chr 10 :: varint (2 ^ 64 - 1)) (Some v1_MsgMint_new)).1.
Proof.
  apply (api_unmarshal_total v1_MsgMint_codec true (chr 10 :: varint (2 ^ 64 - 1)) (Some v1_MsgMint_new)).
  - listed.
  - vm_compute. reflexivity.
Defined.

Lemma api_marshal_inj_witness : demo_mint = demo_mint.
Proof.
  apply (api_marshal_inj v1_MsgMint_codec demo_mint demo_mint (v1_MsgMint_enc demo_mint)).
  - listed.
  - exact demo_mint_ok.
  - exact demo_mint_ok.
  - vm_compute. reflexivity.
  - vm_compute. reflexivity.
  - vm_compute. reflexivity.
Defined.

(** * Reflection *)

(** The amount of a mint is a coin: a coin can be stored there, a string cannot. *)
Lemma reflect_set_witness :
  (∃ m', r_Set v1_MsgMint_reflection v1_MsgMint_fd_Amount (VMessage (MCoin None)) (Some demo_mint) = (Ok (), Some m')) ∧
  has_kind (KMessage TCoin) (VString "50") = false.
Proof.
  destruct (reflect_set v1_MsgMint_reflection v1_MsgMint_fd_Amount (KMessage TCoin) (VMessage (MCoin None)) demo_mint)
    as (H & _ & _).
  - listed.
  - apply (list_elem_of_lookup_2 _ 1). reflexivity.
  - destruct (H eq_refl) as (m' & H' & _). split; [exists m'; exact H'|reflexivity].
Defined.

(** The address is empty, so two of the three fields are shown. *)
Definition collect (fd : FieldDescriptor) (v : Value) : M (list string) bool :=
  modify (λ l, l ++ [FullName fd]) ;;; ret true.

Lemma reflect_range_witness :
  (r_Range v1_MsgMint_reflection _ (Some demo_mint) collect []).2 =
  ["miniwasm.tokenfactory.v1.MsgMint.sender"; "miniwasm.tokenfactory.v1.MsgMint.amount"].
Proof.
  destruct (reflect_range v1_MsgMint_reflection collect demo_mint []) as [H _].
  - listed.
  - rw H. vm_compute. reflexivity.
Defined.

Lemma reflect_clear_mutable_witness :
  ∃ m', r_Clear v1_MsgMint_reflection v1_MsgMint_fd_Amount (Some demo_mint) = (Ok (), Some m') ∧
    r_Has v1_MsgMint_reflection (Some m') v1_MsgMint_fd_Amount = Ok false.
Proof.
  destruct (reflect_clear_mutable v1_MsgMint_reflection v1_MsgMint_fd_Amount (KMessage TCoin) demo_mint)
    as [(m' & H1 & H2 & _) _].
  - listed.
  - apply (list_elem_of_lookup_2 _ 1). reflexivity.
  - exists m'. split; [exact H1|exact H2].
Defined.

Lemma reflect_unknown_witness :
  r_Get v1_MsgMint_reflection (Some demo_mint) (declared "bar") = no_field "miniwasm.tokenfactory.v1.MsgMint" (declared "bar").
Proof.
  destruct (reflect_unknown v1_MsgMint_reflection (declared "bar") (VString "") (Some demo_mint)) as (_ & _ & H & _).
  - listed.
  - repeat constructor; discriminate.
  - exact H.
Defined.

(** Addresses are added and taken off again; setting the third of two panics, and leaves the
    two. *)
#[local] Instance demo_value_string : ValueString :=
  {| Value_String := λ _ _ v, match v with VString s => s | _ => "<value>" end |}.

Definition demo_ops : list (list_op bytes) :=
  [OAppend (VString "init1alice"); OAppend (VString "init1bob"); OAppend (VString "init1carol");
   OTruncate [] 2; OSet 0 (VString "init1dave"); OSet 2 (VString "init1eve"); OAppend (VString "init1fay")].

Lemma list_refines_witness :
  let F := wasmv1_AccessConfig_Addresses_list in
  ∃ r m', run_list_ops F (Some (lf_ref F)) demo_ops (Some wasmv1_AccessConfig_new) = (r, Some m') ∧
    (∃ p, r = Panic p) ∧
    wasmv1_AccessConfig_Get (Some m') wasmv1_AccessConfig_fd_Addresses =
      Ok (VList (L_AccessConfig_2 (Some ["init1dave"; "init1bob"]))).
Proof.
  destruct (list_refines wasmv1_AccessConfig_Addresses_list demo_ops wasmv1_AccessConfig_new)
    as (r & m' & _ & H1 & H2 & H3 & _).
  - apply (list_elem_of_lookup_2 _ 3). reflexivity.
  - exists r, m'. split; [exact H1|]. split; [exact H2|exact H3].
Defined.

(** The message of Alice that mints gold is written as its descriptor says. *)
Lemma tx_described :
  ∃ d D, read_FileDescriptorProto (rawDesc_of tf_tx) = Some d ∧ file_messages d !! 2%nat = Some D.
Proof. do 2 eexists. split; [vm_compute; reflexivity|reflexivity]. Qed.

Lemma fast_path_by_descriptor_witness :
  ∃ d D bz, read_FileDescriptorProto (rawDesc_of tf_tx) = Some d ∧ file_messages d !! 2%nat = Some D ∧
    enc_message_by (package d) D v1_MsgMint_ops demo_mint = Ok bz ∧
    m_Marshal (o_ProtoMethods v1_MsgMint_ops) (Some demo_mint) [] = (Ok (), bz).
Proof.
  destruct tx_described as (d & D & Hd & HD).
  destruct (fast_path_by_descriptor tf_tx d 2 D v1_MsgMint_ops demo_mint [] Hd HD eq_refl) as (bz & E & Hm & _).
  exists d, D, bz. auto.
Defined.
