(* ===== verification/IbcHooks.v ===== *)
(** app/ibc-hooks: the wasm hooks of IBC transfers. A packet whose memo carries a wasm
    message makes the receiving chain call a contract with the coins it received
    (receive.go); a packet sent with an asynchronous callback makes this chain notify a
    contract of the acknowledgement (ack.go) or the timeout (timeout.go). The middleware
    below, the hooks keeper, the wasm keeper and the packet types are parameters. *)
From S2P Require Import Prelude.
From S2P Require Import Interfaces.
From S2P Require Import TfTypes.
From S2P Require Import GoJson.
From S2P Require Import JsonScan.

(** * Data *)

(** channeltypes.Packet. *)
Record Packet := {
  Sequence : Z;
  SourcePort : string;
  SourceChannel : string;
  DestinationPort : string;
  DestinationChannel : string;
  PacketData : bytes
}.

Definition set_PacketData (d : bytes) (p : Packet) : Packet :=
  {| Sequence := Sequence p; SourcePort := SourcePort p; SourceChannel := SourceChannel p;
     DestinationPort := DestinationPort p; DestinationChannel := DestinationChannel p;
     PacketData := d |}.

(** wasmtypes.MsgExecuteContract. *)
Record MsgExecuteContract := {
  mec_Sender : string;
  mec_Contract : string;
  mec_Msg : bytes;
  mec_Funds : coins
}.

(** An acknowledgement: one the application made, or the error acknowledgement of the
    hooks. *)
Inductive Acknowledgement :=
| AppAck (success : bool) (bz : bytes)
| ErrorAck (error : string).

Definition Success (a : Acknowledgement) : bool :=
  match a with AppAck b _ => b | ErrorAck _ => false end.

(** The memo key of message.go. *)
Definition wasmHookMemoKey : string := "wasm".

(** HookData of message.go; [None] is a nil pointer. *)
Record HookData := { Message : option MsgExecuteContract; AsyncCallback : string }.

Definition empty_HookData : HookData := {| Message := None; AsyncCallback := "" |}.

Definition senderPrefix : string := "ibc-wasm-hook-intermediary".

(** Sentinels and names of ibc-go and of the hooks module. *)
Definition ErrInvalidPacket := ExtSentinel "channeltypes.ErrInvalidPacket".
Definition EventTypeHookFailed : string := "types.EventTypeHookFailed".
Definition AttributeKeyReason : string := "types.AttributeKeyReason".
Definition AttributeKeyError : string := "types.AttributeKeyError".

(** * Parameters *)

(** ICS-20 data has its fields named; ICS-721 data is only asked for three of them. *)
Record FungibleTokenPacketData := {
  ft_Denom : string;
  ft_Amount : string;
  ft_Sender : string;
  ft_Receiver : string;
  ft_Memo : string
}.

(** Decoding and encoding of packet data, and the pure functions of ibc-go and the SDK
    the hooks call. [address_Hash] is address.Hash of the SDK. *)
Class IbcTypes (N : Type) := {
  decode_ics20 : bytes → option FungibleTokenPacketData;
  ics20_GetBytes : FungibleTokenPacketData → bytes;
  decode_ics721 : bytes → option N;
  ics721_GetBytes : N → bytes;
  nft_Sender : N → string;
  nft_Receiver : N → string;
  nft_Memo : N → string;
  nft_SetReceiver : string → N → N;
  decode_MsgExecuteContract : option MsgExecuteContract → string → MsgExecuteContract + goerror;
  MsgExecuteContract_ValidateBasic : MsgExecuteContract → option goerror;
  ReceiverChainIsSource : string → string → string → bool;
  GetDenomPrefix : string → string → string;
  ParseDenomTrace : string → string * string;
  IsNativeDenom : string * string → bool;
  IBCDenom : string * string → string;
  address_Hash : string → bytes → bytes;
  NewIntFromString : string → option Z;
  NewCoin : string → Z → res coin;
  decode_ack_success : bytes → option bool
}.

(** The keepers and the application below, each working on the whole context. *)
Class IbcKeepers (W G : Type) := {
  App_OnRecvPacket : Packet → bytes → M (env W G) (option Acknowledgement);
  App_OnAcknowledgementPacket : Packet → bytes → bytes → M (env W G) unit;
  App_OnTimeoutPacket : Packet → bytes → M (env W G) unit;
  GetAllowed : bytes → M (env W G) bool;
  GetAsyncCallback : string → string → Z → M (env W G) bytes;
  RemoveAsyncCallback : string → string → Z → M (env W G) unit;
  HasIBCToL2DenomMap : string → M (env W G) bool;
  GetIBCToL2DenomMap : string → M (env W G) string;
  ExecuteContract : MsgExecuteContract → M (env W G) unit;
  WasmSudo : bytes → string → M (env W G) string
}.

Section hooks.
Context {W G N : Type} {AC : AddressCodec} {ST : SdkTypes} {IT : IbcTypes N} {IK : IbcKeepers W G}.

(** * util.go *)

Definition DeriveIntermediateSender (channel originalSender : string) : string :=
  let senderStr := sprintf "%s/%s" [channel; originalSender] in
  let senderAddr := address_Hash senderPrefix senderStr in
  AccAddress_String senderAddr.

Definition isIcs20Packet (packetData : bytes) : option FungibleTokenPacketData :=
  decode_ics20 packetData.

Definition isIcs721Packet (packetData : bytes) : option N := decode_ics721 packetData.

(** The name of a JSON value in the errors of encoding/json. *)
Definition shape_name (s : json_shape) : string :=
  match s with
  | JNull => "null" | JBoolean => "bool" | JNumber => "number" | JText _ => "string"
  | JArray => "array" | JObject _ => "object"
  end.

(** The errors of the decoder are kept, and the first one is reported at the end. *)
Definition first_error (e1 e2 : option goerror) : option goerror :=
  match e1 with Some e => Some e | None => e2 end.

(** One member of the object decoded into a HookData, unknown fields being errors. *)
Definition decode_HookData_member (h : HookData) (m : string * string) :
    HookData * option goerror :=
  let '(key, raw) := m in
  match field_named ["message"; "async_callback"] key with
  | Some "message" =>
      match json_decode raw with
      | Some JNull => ({| Message := None; AsyncCallback := AsyncCallback h |}, None)
      | _ => match decode_MsgExecuteContract (Message h) raw with
             | inl msg => ({| Message := Some msg; AsyncCallback := AsyncCallback h |}, None)
             | inr e => (h, Some e)
             end
      end
  | Some _ =>
      match json_decode raw with
      | Some JNull => (h, None)
      | Some (JText s) => ({| Message := Message h; AsyncCallback := s |}, None)
      | Some sh => (h, Some (Errorf "json: cannot unmarshal %s into Go struct field HookData.%s of type string"
                               [shape_name sh; "async_callback"]))
      | None => (h, None)
      end
  | None => (h, Some (Errorf "json: unknown field %q" [key]))
  end.

Fixpoint decode_HookData_members (h : HookData) (l : list (string * string)) :
    HookData * option goerror :=
  match l with
  | [] => (h, None)
  | m :: l =>
      let '(h1, e1) := decode_HookData_member h m in
      let '(h2, e2) := decode_HookData_members h1 l in
      (h2, first_error e1 e2)
  end.

(** decoder.Decode(&hookData) on the raw text of the member. *)
Definition decode_HookData (raw : string) : HookData * option goerror :=
  match json_decode raw with
  | Some (JObject l) => decode_HookData_members empty_HookData l
  | Some JNull => (empty_HookData, None)
  | Some sh => (empty_HookData, Some (Errorf "json: cannot unmarshal %s into Go value of type wasm_hooks.HookData" [shape_name sh]))
  | None => (empty_HookData, Some (Errorf "EOF" []))
  end.

(** The three results: the data or nil, whether the memo is routed to the hooks, and the
    error. *)
Definition parseHookData (memo : string) : option HookData * bool * option goerror :=
  if is_empty memo then (None, false, None)
  else match unmarshal_raw_map memo with
       | None => (None, false, None)
       | Some memoMap =>
           match memoMap !! wasmHookMemoKey with
           | None => (None, false, None)
           | Some raw =>
               match decode_HookData raw with
               | (_, Some err) => (None, true, Some (Wrapf ErrInvalidPacket "%s" [Error err]))
               | (hookData, None) => (Some hookData, true, None)
               end
           end
       end.

Definition validateReceiver (msg : MsgExecuteContract) (receiver : string) : option goerror :=
  if decide (receiver = mec_Contract msg) then None
  else Some (Wrapf ErrInvalidPacket "receiver is not properly set" []).

Definition newEmitErrorAcknowledgement (err : goerror) : Acknowledgement :=
  ErrorAck (sprintf "ibc wasm hook error: %s" [Error err]).

Definition isAckError (acknowledgement : bytes) : bool :=
  match decode_ack_success acknowledgement with
  | Some success => negb success
  | None => false
  end.

(** [s[n:]], which panics beyond the end. *)
Definition slice_from (n : nat) (s : string) : res string :=
  if (n <=? String.length s)%nat then Ok (drop_bytes n s)
  else Panic (PanicString "slice bounds out of range").

Definition LocalDenom (packet : Packet) (denom : string) : res string :=
  if ReceiverChainIsSource (SourcePort packet) (SourceChannel packet) denom then
    let voucherPrefix := GetDenomPrefix (SourcePort packet) (SourceChannel packet) in
    let? unprefixedDenom := slice_from (String.length voucherPrefix) denom in
    let denomTrace := ParseDenomTrace unprefixedDenom in
    if IsNativeDenom denomTrace then Ok unprefixedDenom else Ok (IBCDenom denomTrace)
  else
    let sourcePrefix := GetDenomPrefix (DestinationPort packet) (DestinationChannel packet) in
    let prefixedDenom := sourcePrefix +:+ denom in
    Ok (IBCDenom (ParseDenomTrace prefixedDenom)).

(** * hooks.go: checkACL *)

Definition checkACL (addrStr : string) : M (env W G) bool :=
  let! addr := lift (StringToBytes addrStr) in
  GetAllowed addr.

(** * receive.go *)

(** ibchookstypes.ICSData: data of one of the two kinds. *)
Inductive ICSData := ICS20Data (d : FungibleTokenPacketData) | ICS721Data (d : N).

Definition GetMemo (d : ICSData) : string :=
  match d with ICS20Data d => ft_Memo d | ICS721Data d => nft_Memo d end.
Definition GetReceiver (d : ICSData) : string :=
  match d with ICS20Data d => ft_Receiver d | ICS721Data d => nft_Receiver d end.
Definition GetSender (d : ICSData) : string :=
  match d with ICS20Data d => ft_Sender d | ICS721Data d => nft_Sender d end.
Definition SetReceiver (r : string) (d : ICSData) : ICSData :=
  match d with
  | ICS20Data d => ICS20Data {| ft_Denom := ft_Denom d; ft_Amount := ft_Amount d;
      ft_Sender := ft_Sender d; ft_Receiver := r; ft_Memo := ft_Memo d |}
  | ICS721Data d => ICS721Data (nft_SetReceiver r d)
  end.
Definition GetBytes (d : ICSData) : bytes :=
  match d with ICS20Data d => ics20_GetBytes d | ICS721Data d => ics721_GetBytes d end.

Definition execMsg (msg : MsgExecuteContract) : M (env W G) unit :=
  lift (check (MsgExecuteContract_ValidateBasic msg)) ;;;
  ExecuteContract msg.

(** A call whose error becomes an error acknowledgement. *)
Definition or_error_ack {A} (m : M (env W G) A) (k : A → M (env W G) (option Acknowledgement)) :
    M (env W G) (option Acknowledgement) :=
  let! r := attempt m in
  match r with
  | inl a => k a
  | inr err => ret (Some (newEmitErrorAcknowledgement err))
  end.

(** What handleOnReceive does once the memo holds a message. A nil acknowledgement of the
    application is an interface without a method to call. *)
Definition receive_message (packet : Packet) (relayer : bytes) (data : ICSData)
    (msg : MsgExecuteContract) (computeFunds : option (M (env W G) coins)) :
    M (env W G) (option Acknowledgement) :=
  or_error_ack (checkACL (mec_Contract msg)) (λ allowed : bool,
    if negb allowed then
      ret (Some (newEmitErrorAcknowledgement
        (Errorf "contract `%s` is not allowed to be used in ibchooks" [mec_Contract msg])))
    else
      or_error_ack (lift (check (validateReceiver msg (GetReceiver data)))) (λ _,
        let intermediateSender :=
          DeriveIntermediateSender (DestinationChannel packet) (GetSender data) in
        let packet := set_PacketData (GetBytes (SetReceiver intermediateSender data)) packet in
        let! ack := App_OnRecvPacket packet relayer in
        match ack with
        | None => panic (PanicString "nil pointer dereference")
        | Some ack =>
            if negb (Success ack) then ret (Some ack)
            else
              or_error_ack
                (match computeFunds with
                 | Some f => f
                 | None => lift (NewCoins [])
                 end)
                (λ funds,
                  let msg := {| mec_Sender := intermediateSender; mec_Contract := mec_Contract msg;
                                mec_Msg := mec_Msg msg; mec_Funds := funds |} in
                  or_error_ack (execMsg msg) (λ _, ret (Some ack)))
        end)).

Definition handleOnReceive (packet : Packet) (relayer : bytes) (data : ICSData)
    (computeFunds : option (M (env W G) coins)) : M (env W G) (option Acknowledgement) :=
  match parseHookData (GetMemo data) with
  | (_, false, _) => App_OnRecvPacket packet relayer
  | (_, true, Some err) => ret (Some (newEmitErrorAcknowledgement err))
  | (Some {| Message := Some msg |}, true, None) =>
      receive_message packet relayer data msg computeFunds
  | (_, true, None) => App_OnRecvPacket packet relayer
  end.

(** The coins an ICS-20 packet brings: in the migrated denom when there is one. *)
Definition packet_funds (packet : Packet) (data : FungibleTokenPacketData) : M (env W G) coins :=
  let! localDenom := lift (LocalDenom packet (ft_Denom data)) in
  match NewIntFromString (ft_Amount data) with
  | None => fail (Errorf "invalid amount: %s" [ft_Amount data])
  | Some amount =>
      let! migrated := HasIBCToL2DenomMap localDenom in
      let! localDenom := (if migrated : bool then GetIBCToL2DenomMap localDenom else ret localDenom) in
      let! c := lift (NewCoin localDenom amount) in
      lift (NewCoins [c])
  end.

Definition onRecvIcs20Packet (packet : Packet) (relayer : bytes) (data : FungibleTokenPacketData) :
    M (env W G) (option Acknowledgement) :=
  handleOnReceive packet relayer (ICS20Data data) (Some (packet_funds packet data)).

Definition onRecvIcs721Packet (packet : Packet) (relayer : bytes) (data : N) :
    M (env W G) (option Acknowledgement) :=
  handleOnReceive packet relayer (ICS721Data data) None.

Definition OnRecvPacketOverride (packet : Packet) (relayer : bytes) :
    M (env W G) (option Acknowledgement) :=
  match isIcs20Packet (PacketData packet) with
  | Some ics20Data => onRecvIcs20Packet packet relayer ics20Data
  | None =>
      match isIcs721Packet (PacketData packet) with
      | Some ics721Data => onRecvIcs721Packet packet relayer ics721Data
      | None => App_OnRecvPacket packet relayer
      end
  end.

(** * ack.go and timeout.go *)

Definition EmitEvent (ev : event) : M (env W G) unit :=
  modify (λ e, Env (world e) (gas e) (events e ++ [ev])).

(** The event of a hook that failed. *)
Definition hook_failed (reason error : string) : M (env W G) unit :=
  EmitEvent (NewEvent EventTypeHookFailed [(AttributeKeyReason, reason); (AttributeKeyError, error)]).

(** ctx.CacheContext(): the call runs on a branch of the store with events of its own;
    only when it answers true is the branch written. The gas is the caller's. *)
Definition cached {A} (m : M (env W G) (A * bool)) : M (env W G) A := λ e,
  match m (Env (world e) (gas e) []) with
  | (Ok (a, true), e1) => (Ok a, Env (world e1) (gas e1) (events e ++ events e1))
  | (Ok (a, false), e1) => (Ok a, Env (world e) (gas e1) (events e))
  | (Err err, e1) => (Err err, Env (world e) (gas e1) (events e))
  | (Panic p, e1) => (Panic p, Env (world e) (gas e1) (events e))
  end.

(** What the callback asks to be emitted on the caller's context: nothing, or the reason
    and the error of its failure. *)
Definition callback (asyncCallback sudoMsg : string) :
    M (env W G) (option (string * string) * bool) :=
  let! allowed := attempt (checkACL asyncCallback) in
  match allowed with
  | inr err => ret (Some ("failed to check ACL", Error err), false)
  | inl false => ret (Some ("failed to check ACL", "not allowed"), false)
  | inl true =>
      let! contractAddr := attempt (lift (StringToBytes asyncCallback)) in
      match contractAddr with
      | inr err => ret (Some ("invalid contract address", Error err), false)
      | inl contractAddr =>
          let! r := attempt (WasmSudo contractAddr sudoMsg) in
          match r with
          | inr err => ret (Some ("failed to execute callback", Error err), false)
          | inl _ => ret (None, true)
          end
      end
  end.

(** What handleOnAck and handleOnTimeout do after the application: look the callback up,
    remove it, and run it on a branch of the store. *)
Definition run_async_callback (packet : Packet) (sudoMsg : string) : M (env W G) unit :=
  let! bz := attempt (GetAsyncCallback (SourcePort packet) (SourceChannel packet) (Sequence packet)) in
  match bz with
  | inr err =>
      if error_is err ErrNotFound then ret ()
      else hook_failed "failed to get async callback" (Error err)
  | inl asyncCallback =>
      attempt (RemoveAsyncCallback (SourcePort packet) (SourceChannel packet) (Sequence packet)) ;;;
      let! failed := cached (callback asyncCallback sudoMsg) in
      match failed with
      | Some (reason, error) => hook_failed reason error
      | None => ret ()
      end
  end.

Definition ack_sudo_msg (packet : Packet) (acknowledgement : bytes) : string :=
  let success := if isAckError acknowledgement then "false" else "true" in
  let ackAsJson := json_marshal_bytes (Some acknowledgement) in
  with_quotes "{'ibc_lifecycle_complete': {'ibc_ack': {'channel': '" +:+ SourceChannel packet +:+
  with_quotes "', 'sequence': " +:+ pretty (Sequence packet) +:+ with_quotes ", 'ack': " +:+ ackAsJson +:+
  with_quotes ", 'success': " +:+ success +:+ "}}}".

Definition handleOnAck (packet : Packet) (acknowledgement relayer : bytes) : M (env W G) unit :=
  App_OnAcknowledgementPacket packet acknowledgement relayer ;;;
  run_async_callback packet (ack_sudo_msg packet acknowledgement).

Definition onAckIcs20Packet (packet : Packet) (acknowledgement relayer : bytes)
    (_ : FungibleTokenPacketData) : M (env W G) unit :=
  handleOnAck packet acknowledgement relayer.

Definition onAckIcs721Packet (packet : Packet) (acknowledgement relayer : bytes) (_ : N) :
    M (env W G) unit :=
  handleOnAck packet acknowledgement relayer.

Definition OnAcknowledgementPacketOverride (packet : Packet) (acknowledgement relayer : bytes) :
    M (env W G) unit :=
  match isIcs20Packet (PacketData packet) with
  | Some ics20Data => onAckIcs20Packet packet acknowledgement relayer ics20Data
  | None =>
      match isIcs721Packet (PacketData packet) with
      | Some ics721Data => onAckIcs721Packet packet acknowledgement relayer ics721Data
      | None => App_OnAcknowledgementPacket packet acknowledgement relayer
      end
  end.

Definition timeout_sudo_msg (packet : Packet) : string :=
  with_quotes "{'ibc_lifecycle_complete': {'ibc_timeout': {'channel': '" +:+ SourceChannel packet +:+
  with_quotes "', 'sequence': " +:+ pretty (Sequence packet) +:+ "}}}".

Definition handleOnTimeout (packet : Packet) (relayer : bytes) : M (env W G) unit :=
  App_OnTimeoutPacket packet relayer ;;;
  run_async_callback packet (timeout_sudo_msg packet).

Definition onTimeoutIcs20Packet (packet : Packet) (relayer : bytes) (_ : FungibleTokenPacketData) :
    M (env W G) unit :=
  handleOnTimeout packet relayer.

Definition onTimeoutIcs721Packet (packet : Packet) (relayer : bytes) (_ : N) : M (env W G) unit :=
  handleOnTimeout packet relayer.

Definition OnTimeoutPacketOverride (packet : Packet) (relayer : bytes) : M (env W G) unit :=
  match isIcs20Packet (PacketData packet) with
  | Some ics20Data => onTimeoutIcs20Packet packet relayer ics20Data
  | None =>
      match isIcs721Packet (PacketData packet) with
      | Some ics721Data => onTimeoutIcs721Packet packet relayer ics721Data
      | None => App_OnTimeoutPacket packet relayer
      end
  end.

End hooks.
