(* ===== verification/IbcSpec.v ===== *)
(** What the wasm hooks of IBC guarantee: which packets they leave alone, under whose name
    and with which coins a contract is called, how refusals are answered, and that no error of a
    callback makes the acknowledgement or the timeout of a packet fail (app/ibc-hooks). *)
From S2P Require Import Prelude.
From S2P Require Import Interfaces.
From S2P Require Import TfTypes.
From S2P Require Import JsonScan.
From S2P Require Import IbcHooks.

Section spec.
Context {W G N : Type} {AC : AddressCodec} {ST : SdkTypes} {IT : IbcTypes N} {IK : IbcKeepers W G}.
Implicit Types (e : env W G).

(** * Calls that answer with an acknowledgement *)

Lemma or_error_ack_success {A} (m : M (env W G) A) k e ack e1 :
  or_error_ack m k e = (Ok (Some ack), e1) → Success ack = true →
  ∃ a e2, m e = (Ok a, e2) ∧ k a e2 = (Ok (Some ack), e1).
Proof.
  unfold or_error_ack, bind, attempt, ret. destruct (m e) as [[a|err|p] e2]; [|intros; by simplify_eq/=..].
  intros H _. by exists a, e2.
Qed.

Lemma or_error_ack_err {A} (m : M (env W G) A) k e err e1 :
  m e = (Err err, e1) → or_error_ack m k e = (Ok (Some (newEmitErrorAcknowledgement err)), e1).
Proof. intros H. unfold or_error_ack, bind, attempt. by rw H. Qed.

Lemma or_error_ack_ok {A} (m : M (env W G) A) k e a e1 :
  m e = (Ok a, e1) → or_error_ack m k e = k a e1.
Proof. intros H. unfold or_error_ack, bind, attempt. by rw H. Qed.

(** * Receiving *)

(** The packet that reaches the application when a hook is run: its receiver is the
    intermediate account. *)
Definition hijacked (packet : Packet) (data : ICSData (N:=N)) : Packet :=
  set_PacketData (GetBytes (SetReceiver
    (DeriveIntermediateSender (DestinationChannel packet) (GetSender data)) data)) packet.

(** The call a hook makes: neither the sender nor the funds are those of the memo. *)
Definition hooked_call (packet : Packet) (data : ICSData (N:=N)) (msg : MsgExecuteContract)
    (funds : coins) : MsgExecuteContract :=
  {| mec_Sender := DeriveIntermediateSender (DestinationChannel packet) (GetSender data);
     mec_Contract := mec_Contract msg; mec_Msg := mec_Msg msg; mec_Funds := funds |}.

(** The data of a packet of one of the two kinds. *)
Definition packet_data (packet : Packet) : option (ICSData (N:=N)) :=
  match isIcs20Packet (PacketData packet) with
  | Some d => Some (ICS20Data d)
  | None => ICS721Data <$> isIcs721Packet (PacketData packet)
  end.

(** The coins a packet of either kind brings. *)
Definition data_funds (packet : Packet) (data : ICSData (N:=N)) : M (env W G) coins :=
  match data with ICS20Data d => packet_funds packet d | ICS721Data _ => lift (NewCoins []) end.

Lemma override_data packet relayer data :
  packet_data packet = Some data →
  OnRecvPacketOverride packet relayer = handleOnReceive packet relayer data
    (match data with ICS20Data d => Some (packet_funds packet d) | ICS721Data _ => None end).
Proof.
  unfold packet_data, OnRecvPacketOverride. destruct (isIcs20Packet _) as [d|]; [by intros [= <-]|].
  destruct (isIcs721Packet _) as [d|]; [by intros [= <-]|done].
Qed.

(** The packet asks for [msg]. *)
Definition asks packet data msg : Prop :=
  packet_data packet = Some data ∧
  ∃ cb, parseHookData (GetMemo data) = (Some {| Message := Some msg; AsyncCallback := cb |}, true, None).

Lemma asks_message packet relayer data msg :
  asks packet data msg →
  OnRecvPacketOverride packet relayer = receive_message packet relayer data msg
    (match data with ICS20Data d => Some (packet_funds packet d) | ICS721Data _ => None end).
Proof. intros [Hd (cb & Hp)]. rw (override_data _ _ _ Hd). unfold handleOnReceive. by rw Hp. Qed.

(** The contract is on the access list and is the receiver. *)
Definition cleared data (msg : MsgExecuteContract) e e1 : Prop :=
  (∃ addr, StringToBytes (mec_Contract msg) = Ok addr ∧ GetAllowed addr e = (Ok true, e1)) ∧
  GetReceiver data = mec_Contract msg.

(** What follows the checks: the application, the funds and the contract. *)
Lemma cleared_message packet relayer data msg e e1 :
  asks packet data msg → cleared data msg e e1 →
  OnRecvPacketOverride packet relayer e =
  (let! ack := App_OnRecvPacket (hijacked packet data) relayer in
   match ack with
   | None => panic (PanicString "nil pointer dereference")
   | Some ack =>
       if negb (Success ack) then ret (Some ack)
       else or_error_ack (data_funds packet data) (λ funds,
              or_error_ack (execMsg (hooked_call packet data msg funds)) (λ _, ret (Some ack)))
   end) e1.
Proof.
  intros Ha [(addr & Hs & Hg) Hr]. rw (asks_message _ _ _ _ Ha). unfold receive_message.
  rw (or_error_ack_ok _ _ e true e1); [|unfold checkACL, bind, lift; by rw Hs Hg]. cbn [negb].
  rw (or_error_ack_ok _ _ e1 () e1); [|unfold lift, validateReceiver; by rw decide_True].
  by destruct data.
Qed.

(** The coins of an ICS-20 packet: its amount, in the denom that the packet's denom has on this
    chain, or the denom that one was migrated to. *)
Definition received_coins (packet : Packet) (d : FungibleTokenPacketData) e funds e1 : Prop :=
  ∃ local amount denom c,
    LocalDenom packet (ft_Denom d) = Ok local ∧ NewIntFromString (ft_Amount d) = Some amount ∧
    (HasIBCToL2DenomMap local e = (Ok false, e1) ∧ denom = local ∨
     ∃ e0, HasIBCToL2DenomMap local e = (Ok true, e0) ∧ GetIBCToL2DenomMap local e0 = (Ok denom, e1)) ∧
    NewCoin denom amount = Ok c ∧ NewCoins [c] = Ok funds.

Lemma packet_funds_ok packet d e funds e1 :
  packet_funds packet d e = (Ok funds, e1) → received_coins packet d e funds e1.
Proof.
  unfold packet_funds. intros (local & e0 & Hl & H)%bind_ok_inv. unfold lift in Hl. injection Hl as Hl <-.
  destruct (NewIntFromString (ft_Amount d)) as [amount|] eqn:Ha; [|done].
  apply bind_ok_inv in H as (b & e2 & Hb & H). apply bind_ok_inv in H as (denom & e3 & Hd & H).
  apply bind_ok_inv in H as (c & e4 & Hc & H). unfold lift in Hc, H. injection Hc as Hc <-. injection H as H <-.
  exists local, amount, denom, c. split_and!; [done..| |done|done].
  destruct b; [right; by exists e2|left]. unfold ret in Hd. by injection Hd as -> <-.
Qed.

(** C37. A packet whose memo asks for a contract call is acknowledged with success only when the
    contract is on the access list and is the packet's receiver (a blank receiver, which the
    README allows, is not), the application accepted the packet on behalf of the intermediate
    account of the channel and the sender, which the README calls a hardcoded module account, and
    the contract then succeeded, called by that account with the coins of the packet, whatever
    sender and funds the memo names: for an ICS-20 packet its amount of the local denom, or of
    the denom that one was migrated to; for an ICS-721 packet none. *)
Theorem receive_success packet relayer data msg e ack e' :
  asks packet data msg →
  OnRecvPacketOverride packet relayer e = (Ok (Some ack), e') → Success ack = true →
  ∃ addr e1 e2 funds e3,
    StringToBytes (mec_Contract msg) = Ok addr ∧ GetAllowed addr e = (Ok true, e1) ∧
    GetReceiver data = mec_Contract msg ∧
    App_OnRecvPacket (hijacked packet data) relayer e1 = (Ok (Some ack), e2) ∧
    match data with
    | ICS20Data d => received_coins packet d e2 funds e3
    | ICS721Data _ => NewCoins [] = Ok funds ∧ e3 = e2
    end ∧
    execMsg (hooked_call packet data msg funds) e3 = (Ok (), e').
Proof.
  intros Hask H Hs. pose proof H as H0. rw (asks_message _ _ _ _ Hask) in H.
  apply or_error_ack_success in H as (allowed & e1 & Hacl & H); [|done].
  unfold checkACL in Hacl. apply bind_ok_inv in Hacl as (addr & e0 & Ha & Hacl).
  unfold lift in Ha. injection Ha as Ha <-.
  destruct allowed; [|unfold ret in H; by simplify_eq/=]. cbn [negb] in H.
  apply or_error_ack_success in H as (u & e2 & Hv & _); [|done].
  unfold lift, validateReceiver in Hv. case_decide as Hr; [|done].
  rw (cleared_message _ _ data msg _ e1) // in H0; [|by split; [exists addr|]].
  apply bind_ok_inv in H0 as (a & e3 & Happ & H). destruct a as [a|]; [|done].
  destruct (Success a) eqn:Hsa; [|unfold ret in H; cbn in H; injection H as -> <-; congruence]. cbn [negb] in H.
  apply or_error_ack_success in H as (funds & e4 & Hf & H); [|done].
  apply or_error_ack_success in H as (u2 & e5 & Hx & H); [|done].
  unfold ret in H. injection H as -> <-. destruct u2. exists addr, e1, e3, funds, e4.
  do 4 (split; [done|]). split; [|done]. destruct data as [d|d]; [by apply packet_funds_ok|].
  cbn in Hf. unfold lift in Hf. by injection Hf as -> <-.
Qed.

(** The answer to a packet is an error acknowledgement of the hooks, and the state is [e1]. *)
Definition refused packet relayer e err e1 : Prop :=
  OnRecvPacketOverride packet relayer e = (Ok (Some (newEmitErrorAcknowledgement err)), e1).

(** C38. Every refusal of the hooks is an error acknowledgement, and where it stands. A memo that
    does not decode, a contract that is not an address, is not on the access list or whose
    lookup there fails, and a receiver that is not the contract (a blank one, too) are
    refused before the application sees the packet: the state is the one before, or that after
    the lookup. If the application itself refuses, its acknowledgement is passed on and
    no contract is called. After the application has accepted the packet, an error in the
    computation of the coins, in ValidateBasic or in the contract still gives an error
    acknowledgement; the state has the transfer in it then, and it is for the caller, which
    is given an acknowledgement without success, to drop it. *)
Theorem receive_refused packet relayer data e :
  packet_data packet = Some data →
  (∀ h err, parseHookData (GetMemo data) = (h, true, Some err) → refused packet relayer e err e) ∧
  (∀ msg, asks packet data msg →
     (∀ err, StringToBytes (mec_Contract msg) = Err err → refused packet relayer e err e) ∧
     (∀ addr, StringToBytes (mec_Contract msg) = Ok addr →
        (∀ err e1, GetAllowed addr e = (Err err, e1) → refused packet relayer e err e1) ∧
        (∀ e1, GetAllowed addr e = (Ok false, e1) → ∃ err, refused packet relayer e err e1) ∧
        (∀ e1, GetAllowed addr e = (Ok true, e1) → GetReceiver data ≠ mec_Contract msg →
           ∃ err, refused packet relayer e err e1)) ∧
     (∀ e1 ack e2, cleared data msg e e1 →
        App_OnRecvPacket (hijacked packet data) relayer e1 = (Ok (Some ack), e2) →
        (Success ack = false → OnRecvPacketOverride packet relayer e = (Ok (Some ack), e2)) ∧
        (Success ack = true →
           (∀ err e3, data_funds packet data e2 = (Err err, e3) → refused packet relayer e err e3) ∧
           (∀ funds e3, data_funds packet data e2 = (Ok funds, e3) →
              let call := hooked_call packet data msg funds in
              (∀ err, MsgExecuteContract_ValidateBasic call = Some err → refused packet relayer e err e3) ∧
              (∀ err e4, MsgExecuteContract_ValidateBasic call = None →
                 ExecuteContract call e3 = (Err err, e4) → refused packet relayer e err e4))))).
Proof.
  intros Hd. unfold refused. split.
  { intros h err Hp. rw (override_data _ _ _ Hd). unfold handleOnReceive. rw Hp. by destruct h as [[[]]|]. }
  intros msg Hask. split; [|split].
  - intros err Ha. rw (asks_message _ _ _ _ Hask). apply or_error_ack_err.
    unfold checkACL, bind, lift. by rw Ha.
  - intros addr Ha. rw (asks_message _ _ _ _ Hask).
    assert (Hacl : checkACL (mec_Contract msg) e = GetAllowed addr e) by by unfold checkACL, bind, lift; rw Ha.
    unfold receive_message. split_and!.
    + intros err e1 Hg. apply or_error_ack_err. by rw Hacl.
    + intros e1 Hg. rw -Hacl in Hg. rw (or_error_ack_ok _ _ _ _ _ Hg). by eexists.
    + intros e1 Hg Hr. rw -Hacl in Hg. rw (or_error_ack_ok _ _ _ _ _ Hg). cbn [negb].
      eexists. apply or_error_ack_err. unfold lift, validateReceiver. by case_decide.
  - intros e1 ack e2 Hcl Happ. rw (cleared_message _ _ _ _ _ _ Hask Hcl).
    rw (bind_ok _ _ _ _ _ Happ). split; [by intros ->|]. intros ->. cbn [negb]. split.
    + intros err e3. apply or_error_ack_err.
    + intros funds e3 Hf. rw (or_error_ack_ok _ _ _ _ _ Hf). cbn zeta.
      split; [intros err Hv|intros err e4 Hv Hx]; apply or_error_ack_err; unfold execMsg, bind, lift, check; by rw Hv.
Qed.

(** The memos that ask for a contract call, or fail to. *)
Definition asks_for_call (memo : string) : bool :=
  match parseHookData memo with
  | (_, true, Some _) => true
  | (Some {| Message := Some _ |}, true, None) => true
  | _ => false
  end.

Lemma handleOnReceive_passes packet relayer data computeFunds e :
  asks_for_call (GetMemo data) = false →
  handleOnReceive packet relayer data computeFunds e = App_OnRecvPacket packet relayer e.
Proof.
  unfold asks_for_call, handleOnReceive.
  by destruct (parseHookData (GetMemo data)) as [[[[[]]|] []] []].
Qed.

(** A packet that does not ask for a contract call reaches the application untouched: its
    data is of neither kind, or its memo is empty, is not a JSON object, has no wasm key,
    or has no message under it. *)
Theorem receive_passes_through packet relayer e :
  (∀ d, isIcs20Packet (PacketData packet) = Some d → asks_for_call (ft_Memo d) = false) →
  (∀ d, isIcs20Packet (PacketData packet) = None → isIcs721Packet (PacketData packet) = Some d →
     asks_for_call (nft_Memo d) = false) →
  OnRecvPacketOverride packet relayer e = App_OnRecvPacket packet relayer e.
Proof.
  intros H1 H2. unfold OnRecvPacketOverride, onRecvIcs20Packet, onRecvIcs721Packet.
  destruct (isIcs20Packet (PacketData packet)) as [d|].
  - apply handleOnReceive_passes. by apply H1.
  - destruct (isIcs721Packet (PacketData packet)) as [d|]; [|done].
    apply handleOnReceive_passes. by apply H2.
Qed.

(** When a memo is routed to the hooks. *)
Lemma parseHookData_routed memo h err :
  parseHookData memo = (h, true, err) →
  ∃ m raw, unmarshal_raw_map memo = Some m ∧ m !! wasmHookMemoKey = Some raw.
Proof.
  unfold parseHookData. destruct (is_empty memo); [done|].
  destruct (unmarshal_raw_map memo) as [m|]; [|done].
  destruct (m !! wasmHookMemoKey) as [raw|] eqn:Hm; [|done]. intros _. by exists m, raw.
Qed.

(** ** The intermediate account *)

Lemma sprintf_channel c s : sprintf "%s/%s" [c; s] = c +:+ String "/" s.
Proof. unfold sprintf. cbn. by rw app_nil_s. Qed.

(** Accounts of different channels or senders never share an intermediate account,
    unless the address hash collides: the text that is hashed determines both, because
    a channel identifier has no slash. *)
Theorem DeriveIntermediateSender_inj c1 s1 c2 s2 :
  mem_byte "/" c1 = false → mem_byte "/" c2 = false →
  DeriveIntermediateSender c1 s1 = DeriveIntermediateSender c2 s2 →
  (c1 = c2 ∧ s1 = s2) ∨
  ∃ x y, x ≠ y ∧ AccAddress_String (address_Hash senderPrefix x) =
                 AccAddress_String (address_Hash senderPrefix y).
Proof.
  intros H1 H2. unfold DeriveIntermediateSender. rw !sprintf_channel. intros Heq.
  destruct (decide (c1 +:+ String "/" s1 = c2 +:+ String "/" s2)) as [E|E].
  - left. apply (f_equal (split_on "/")) in E. rw !split_on_app // in E. injection E as -> E.
    split; [done|]. by rw -(join_split "/" s1) -(join_split "/" s2) E.
  - right. by exists (c1 +:+ String "/" s1), (c2 +:+ String "/" s2).
Qed.

(** ** The local denom *)

(** The documented meaning of ReceiverChainIsSource. *)
Class TransferLaws : Prop :=
  ReceiverChainIsSource_prefix : ∀ p c d,
    ReceiverChainIsSource p c d = has_prefix (GetDenomPrefix p c) d.

Lemma has_prefix_split p s : has_prefix p s = true → ∃ t, s = p +:+ t.
Proof.
  revert s. induction p as [|a p IH]; intros s; [by exists s|]. destruct s as [|b s]; [done|].
  cbn. intros [<-%bool_decide_eq_true Hp]%andb_true_iff. destruct (IH s Hp) as [t ->].
  exists t. by rw app_cons_s.
Qed.

Lemma slice_from_app p t : slice_from (String.length p) (p +:+ t) = Ok t.
Proof.
  unfold slice_from. rw length_app_s.
  destruct (Nat.leb_spec (String.length p) (String.length p + String.length t)); [|lia].
  f_equal. clear. induction p as [|a p IH]; [done|]. by rw app_cons_s.
Qed.

(** The denom of received coins. A coin that comes home is unprefixed, and is then a
    native denom or the hash of the shorter trace; any other coin is the voucher of this
    end of the channel. The slice of the denom never goes out of range. *)
Theorem LocalDenom_spec `{TransferLaws} packet :
  (∀ d, let voucher := GetDenomPrefix (SourcePort packet) (SourceChannel packet) in
     LocalDenom packet (voucher +:+ d) =
       Ok (if IsNativeDenom (ParseDenomTrace d) then d else IBCDenom (ParseDenomTrace d))) ∧
  (∀ d, has_prefix (GetDenomPrefix (SourcePort packet) (SourceChannel packet)) d = false →
     LocalDenom packet d = Ok (IBCDenom (ParseDenomTrace
       (GetDenomPrefix (DestinationPort packet) (DestinationChannel packet) +:+ d)))) ∧
  (∀ d p, LocalDenom packet d ≠ Panic p).
Proof.
  assert (Hhome : ∀ d, LocalDenom packet (GetDenomPrefix (SourcePort packet) (SourceChannel packet) +:+ d) =
    Ok (if IsNativeDenom (ParseDenomTrace d) then d else IBCDenom (ParseDenomTrace d))).
  { intros d. unfold LocalDenom. rw ReceiverChainIsSource_prefix.
    assert (Hp : ∀ q t, has_prefix q (q +:+ t) = true).
    { intros q t. induction q as [|c q IH]; [done|]. rw app_cons_s. cbn. by rw bool_decide_true. }
    rw Hp slice_from_app. cbn. by destruct (IsNativeDenom _). }
  split; [exact Hhome|]. split.
  - intros d Hd. unfold LocalDenom. by rw ReceiverChainIsSource_prefix Hd.
  - intros d p. destruct (has_prefix (GetDenomPrefix (SourcePort packet) (SourceChannel packet)) d) eqn:Hd.
    + destruct (has_prefix_split _ _ Hd) as [t ->]. by rw Hhome.
    + unfold LocalDenom. by rw ReceiverChainIsSource_prefix Hd.
Qed.

(** * Callbacks *)

(** What running a registered callback leaves: the callback is removed first; the
    contract runs on a branch of the store, which is kept with its events exactly when
    the contract succeeds, and otherwise dropped and reported in an event. *)
Lemma run_async_callback_out packet msg e cb e1 r e2 addr e3 :
  GetAsyncCallback (SourcePort packet) (SourceChannel packet) (Sequence packet) e = (Ok cb, e1) →
  RemoveAsyncCallback (SourcePort packet) (SourceChannel packet) (Sequence packet) e1 = (r, e2) →
  (∀ p, r ≠ Panic p) → StringToBytes cb = Ok addr →
  GetAllowed addr (Env (world e2) (gas e2) []) = (Ok true, e3) →
  run_async_callback packet msg e =
  match WasmSudo addr msg e3 with
  | (Ok _, e4) => (Ok (), Env (world e4) (gas e4) (events e2 ++ events e4))
  | (Err err, e4) => (Ok (), Env (world e2) (gas e4) (events e2 ++ [NewEvent EventTypeHookFailed
      [(AttributeKeyReason, "failed to execute callback"); (AttributeKeyError, Error err)]]))
  | (Panic p, e4) => (Panic p, Env (world e2) (gas e4) (events e2))
  end.
Proof.
  intros Hg Hr Hnp Ha Hall. unfold run_async_callback, bind at 1, attempt at 1. rw Hg.
  unfold bind at 1, attempt at 1. rw Hr.
  assert (Hc : callback cb msg (Env (world e2) (gas e2) []) =
    match WasmSudo addr msg e3 with
    | (Ok _, e4) => (Ok (None, true), e4)
    | (Err err, e4) => (Ok (Some ("failed to execute callback", Error err), false), e4)
    | (Panic p, e4) => (Panic p, e4)
    end).
  { unfold callback, checkACL, bind, attempt, lift. rw Ha Hall.
    by destruct (WasmSudo addr msg e3) as [[]]. }
  destruct r as [u|er|p]; [..|by destruct (Hnp p)];
    unfold bind, cached; rw Hc; by destruct (WasmSudo addr msg e3) as [[]].
Qed.

(** The calls of a callback that panic with [p], in their order: the lookup, the removal, the
    access list on the branch of the store, and the contract. *)
Definition callback_panics packet msg e p : Prop :=
  let get := GetAsyncCallback (SourcePort packet) (SourceChannel packet) (Sequence packet) in
  let remove := RemoveAsyncCallback (SourcePort packet) (SourceChannel packet) (Sequence packet) in
  (get e).1 = Panic p ∨
  ∃ cb e1, get e = (Ok cb, e1) ∧
    ((remove e1).1 = Panic p ∨
     let e2 := (remove e1).2 in
     let branch := Env (world e2) (gas e2) [] in
     (checkACL cb branch).1 = Panic p ∨
     ∃ addr e3, StringToBytes cb = Ok addr ∧ checkACL cb branch = (Ok true, e3) ∧
       (WasmSudo addr msg e3).1 = Panic p).

Lemma callback_outcome cb msg e :
  (∃ x, (callback cb msg e).1 = Ok x) ∨
  ∃ p, (callback cb msg e).1 = Panic p ∧
    ((checkACL cb e).1 = Panic p ∨
     ∃ addr e3, StringToBytes cb = Ok addr ∧ checkACL cb e = (Ok true, e3) ∧ (WasmSudo addr msg e3).1 = Panic p).
Proof.
  assert (Hd : ∀ p, StringToBytes cb = Panic p → ∀ r, checkACL cb e ≠ (Ok true, r)).
  { intros p Ha r. unfold checkACL, bind, lift. by rw Ha. }
  unfold callback, bind, attempt, lift.
  destruct (checkACL cb e) as [[[]|er|p] e1] eqn:Hacl; [|(left; by eexists)..|right; eauto].
  destruct (StringToBytes cb) as [addr|er|p] eqn:Ha; [|(left; by eexists)|by destruct (Hd p eq_refl e1)].
  destruct (WasmSudo addr msg e1) as [[o|er|p] e2] eqn:Hw; [(left; by eexists)..|].
  right. exists p. split; [done|]. right. exists addr, e1. by rw Hw.
Qed.

Lemma run_async_callback_outcome packet msg e :
  (run_async_callback packet msg e).1 = Ok () ∨
  ∃ p, (run_async_callback packet msg e).1 = Panic p ∧ callback_panics packet msg e p.
Proof.
  unfold run_async_callback, callback_panics, bind, attempt, cached.
  destruct (GetAsyncCallback _ _ _ e) as [[cb|er|p] e1]; [|by destruct (error_is er _); left|right; eauto].
  destruct (RemoveAsyncCallback _ _ _ e1) as [[u|er|p] e2] eqn:Hr.
  3: { right. exists p. split; [done|]. right. exists cb, e1. rw Hr. by split; [|left]. }
  all: pose proof (callback_outcome cb msg (Env (world e2) (gas e2) [])) as Hc;
    destruct (callback cb msg _) as [[[f []]|er2|p2] e3]; cbn in Hc;
    [left; by destruct f as [[]|]|left; by destruct f as [[]|]|by destruct Hc as [[]|(? & ? & _)]|];
    destruct Hc as [[]|(p & [= <-] & Hc)]; [done|]; right; exists p2; (split; [done|]); right;
    exists cb, e1; rw Hr; by split; [|right].
Qed.

(** C39. Once the application has accepted an acknowledgement or a timeout, no error of the
    callback makes it fail: an error of the lookup, of the access list or of the contract is
    not returned. What does go through is a panic: the contract runs on the relayer's gas meter,
    which the branch of the store does not change, so if it (or the lookup, the removal or the
    access list before it) panics, for want of gas or otherwise, the acknowledgement or timeout
    panics with it. *)
Theorem callbacks_fail_only_by_panic packet acknowledgement relayer e e1 :
  (App_OnAcknowledgementPacket packet acknowledgement relayer e = (Ok (), e1) →
     (handleOnAck packet acknowledgement relayer e).1 = Ok () ∨
     ∃ p, (handleOnAck packet acknowledgement relayer e).1 = Panic p ∧
       callback_panics packet (ack_sudo_msg packet acknowledgement) e1 p) ∧
  (App_OnTimeoutPacket packet relayer e = (Ok (), e1) →
     (handleOnTimeout packet relayer e).1 = Ok () ∨
     ∃ p, (handleOnTimeout packet relayer e).1 = Panic p ∧
       callback_panics packet (timeout_sudo_msg packet) e1 p).
Proof.
  split; intros H; unfold handleOnAck, handleOnTimeout; rw (bind_ok _ _ _ _ _ H);
    apply run_async_callback_outcome.
Qed.

(** The callback of an acknowledged packet is removed before its contract is called, the
    contract learns the channel, the sequence, the acknowledgement and its success, and
    what it did is kept only when it succeeded. *)
Theorem handleOnAck_callback packet acknowledgement relayer e e0 cb e1 r e2 addr e3 :
  App_OnAcknowledgementPacket packet acknowledgement relayer e = (Ok (), e0) →
  GetAsyncCallback (SourcePort packet) (SourceChannel packet) (Sequence packet) e0 = (Ok cb, e1) →
  RemoveAsyncCallback (SourcePort packet) (SourceChannel packet) (Sequence packet) e1 = (r, e2) →
  (∀ p, r ≠ Panic p) → StringToBytes cb = Ok addr →
  GetAllowed addr (Env (world e2) (gas e2) []) = (Ok true, e3) →
  handleOnAck packet acknowledgement relayer e =
  match WasmSudo addr (ack_sudo_msg packet acknowledgement) e3 with
  | (Ok _, e4) => (Ok (), Env (world e4) (gas e4) (events e2 ++ events e4))
  | (Err err, e4) => (Ok (), Env (world e2) (gas e4) (events e2 ++ [NewEvent EventTypeHookFailed
      [(AttributeKeyReason, "failed to execute callback"); (AttributeKeyError, Error err)]]))
  | (Panic p, e4) => (Panic p, Env (world e2) (gas e4) (events e2))
  end.
Proof.
  intros Happ Hg Hr Hnp Ha Hall. unfold handleOnAck. rw (bind_ok _ _ _ _ _ Happ).
  by eapply run_async_callback_out.
Qed.

End spec.
