(* ===== verification/IbcSend.v ===== *)
(** app/ibc-hooks/send.go: sending a packet. A memo that names an asynchronous callback has
    it taken out before the packet leaves, and the callback is stored under the sequence the
    packet got; ack.go and timeout.go look it up there. The wrapped sender of packets, the
    hooks keeper and the encoder of the contract message are parameters. *)
From S2P Require Import Prelude.
From S2P Require Import Interfaces.
From S2P Require Import TfTypes.
From S2P Require Import GoJson.
From S2P Require Import JsonScan.
From S2P Require Import JsonRoundtrip.
From S2P Require Import JsonAny.
From S2P Require Import JsonMemo.
From S2P Require Import IbcHooks.
From S2P Require Import IbcSpec.

(** * Parameters *)

(** SetMemo of the ICS-721 data, and json.Marshal of the message of a contract. *)
Class IbcSendTypes (N : Type) := {
  nft_SetMemo : string → N → N;
  encode_MsgExecuteContract : MsgExecuteContract → res string
}.

(** The wrapped sender, which answers with the sequence of the packet, and the keeper of
    the callbacks. *)
Class Ics4 (W G Cap Height : Type) := {
  ICS4_SendPacket : Cap → string → string → Height → Z → bytes → M (env W G) Z;
  SetAsyncCallback : string → string → Z → bytes → M (env W G) unit
}.

Section send.
Context {W G N Cap Height : Type} {AC : AddressCodec} {ST : SdkTypes} {IT : IbcTypes N}
  {IK : IbcKeepers W G} {SNT : IbcSendTypes N} {I4 : Ics4 W G Cap Height}.

Definition SetMemo (memo : string) (d : ICSData (N:=N)) : ICSData (N:=N) :=
  match d with
  | ICS20Data d => ICS20Data {| ft_Denom := ft_Denom d; ft_Amount := ft_Amount d;
      ft_Sender := ft_Sender d; ft_Receiver := ft_Receiver d; ft_Memo := memo |}
  | ICS721Data d => ICS721Data (nft_SetMemo memo d)
  end.

(** json.Marshal of a HookData: both fields have omitempty. *)
Definition marshal_HookData (h : HookData) : res string :=
  let? message :=
    (match Message h with
     | None => Ok []
     | Some msg => let? text := encode_MsgExecuteContract msg in Ok [("message", text)]
     end) in
  Ok (object_text (message ++
    (if is_empty (AsyncCallback h) then [] else [("async_callback", json_string (AsyncCallback h))]))).

(** json.Marshal of a map[string]any, which refuses a RawMessage that is not valid. *)
Definition raw_valid (e : string * jany) : bool :=
  match e.2 with ARaw s => json_valid s | _ => true end.

Definition marshal_map (m : list (string * jany)) : res string :=
  if forallb raw_valid m then Ok (marshal_any (AObject m))
  else Err (Errorf "json: error calling MarshalJSON for type json.RawMessage" []).

(** The memo without the callback: the wasm member is deleted, or written again when it
    has a message. The map is not nil, as the memo has that member. *)
Definition rewrite_memo (memo : string) (hookData : HookData) : res string :=
  let memoMap := unmarshal_any_map memo in
  match Message hookData with
  | None => marshal_map (entry_delete wasmHookMemoKey memoMap)
  | Some _ =>
      let? bz := marshal_HookData {| Message := Message hookData; AsyncCallback := "" |} in
      marshal_map (entry_set wasmHookMemoKey (ARaw bz) memoMap)
  end.

Definition handleSendPacket (chanCap : Cap) (sourcePort sourceChannel : string)
    (timeoutHeight : Height) (timeoutTimestamp : Z) (icsData : ICSData (N:=N)) : M (env W G) Z :=
  let SendPacket := ICS4_SendPacket chanCap sourcePort sourceChannel timeoutHeight timeoutTimestamp in
  match parseHookData (GetMemo icsData) with
  | (_, _, Some err) => fail err
  | (Some hookData, true, None) =>
      let asyncCallback := AsyncCallback hookData in
      if is_empty asyncCallback then SendPacket (GetBytes icsData)
      else
        lift (StringToBytes asyncCallback) ;;;
        let! memo := lift (rewrite_memo (GetMemo icsData) hookData) in
        let! sequence := SendPacket (GetBytes (SetMemo memo icsData)) in
        SetAsyncCallback sourcePort sourceChannel sequence asyncCallback ;;;
        ret sequence
  | (_, _, None) => SendPacket (GetBytes icsData)
  end.

Definition sendIcs20Packet (chanCap : Cap) (sourcePort sourceChannel : string)
    (timeoutHeight : Height) (timeoutTimestamp : Z) (ics20Data : FungibleTokenPacketData) :
    M (env W G) Z :=
  handleSendPacket chanCap sourcePort sourceChannel timeoutHeight timeoutTimestamp (ICS20Data ics20Data).

Definition sendIcs721Packet (chanCap : Cap) (sourcePort sourceChannel : string)
    (timeoutHeight : Height) (timeoutTimestamp : Z) (ics721Data : N) : M (env W G) Z :=
  handleSendPacket chanCap sourcePort sourceChannel timeoutHeight timeoutTimestamp (ICS721Data ics721Data).

(** hooks.go. *)
Definition SendPacketOverride (chanCap : Cap) (sourcePort sourceChannel : string)
    (timeoutHeight : Height) (timeoutTimestamp : Z) (data : bytes) : M (env W G) Z :=
  match isIcs20Packet data with
  | Some ics20Data => sendIcs20Packet chanCap sourcePort sourceChannel timeoutHeight timeoutTimestamp ics20Data
  | None =>
      match isIcs721Packet data with
      | Some ics721Data =>
          sendIcs721Packet chanCap sourcePort sourceChannel timeoutHeight timeoutTimestamp ics721Data
      | None => ICS4_SendPacket chanCap sourcePort sourceChannel timeoutHeight timeoutTimestamp data
      end
  end.

End send.

Section spec.
Context {W G N Cap Height : Type} {AC : AddressCodec} {ST : SdkTypes} {IT : IbcTypes N}
  {IK : IbcKeepers W G} {SNT : IbcSendTypes N} {I4 : Ics4 W G Cap Height}.
Implicit Types (e : env W G) (data : ICSData (N:=N)) (h : HookData).

(** A memo that asks for a callback, and one that asks for none. *)
Definition asks_callback (memo : string) h : Prop :=
  parseHookData memo = (Some h, true, None) ∧ AsyncCallback h ≠ "".

Definition asks_no_callback (memo : string) : bool :=
  match parseHookData memo with
  | (_, _, Some _) => false
  | (Some h, true, None) => is_empty (AsyncCallback h)
  | _ => true
  end.

Lemma handleSendPacket_callback cap port channel height timestamp data h e :
  asks_callback (GetMemo data) h →
  handleSendPacket cap port channel height timestamp data e =
  (lift (StringToBytes (AsyncCallback h)) ;;;
   let! memo := lift (rewrite_memo (GetMemo data) h) in
   let! sequence := ICS4_SendPacket cap port channel height timestamp (GetBytes (SetMemo memo data)) in
   SetAsyncCallback port channel sequence (AsyncCallback h) ;;;
   ret sequence) e.
Proof.
  intros [Hp Hc]. unfold handleSendPacket. rw Hp. by destruct (AsyncCallback h).
Qed.

Lemma handleSendPacket_passes cap port channel height timestamp data e :
  asks_no_callback (GetMemo data) = true →
  handleSendPacket cap port channel height timestamp data e =
    ICS4_SendPacket cap port channel height timestamp (GetBytes data) e.
Proof.
  unfold asks_no_callback, handleSendPacket. destruct (parseHookData (GetMemo data)) as [[[h|] []] []]; try done.
  by intros ->.
Qed.

(** The data of a packet, by its kind. *)
Definition packet_kind (bz : bytes) : option (ICSData (N:=N)) :=
  match isIcs20Packet bz with
  | Some d => Some (ICS20Data d)
  | None => ICS721Data <$> isIcs721Packet bz
  end.

Lemma SendPacketOverride_kind cap port channel height timestamp bz :
  SendPacketOverride cap port channel height timestamp bz =
  match packet_kind bz with
  | Some d => handleSendPacket cap port channel height timestamp d
  | None => ICS4_SendPacket cap port channel height timestamp bz
  end.
Proof.
  unfold SendPacketOverride, packet_kind, sendIcs20Packet, sendIcs721Packet.
  destruct (isIcs20Packet bz); [done|]. by destruct (isIcs721Packet bz).
Qed.

(** A packet that asks for no callback is sent as it is: data of neither kind in its own
    bytes, data of a kind encoded again, with the memo it had. *)
Theorem send_passes_through cap port channel height timestamp bz e :
  match packet_kind bz with Some d => asks_no_callback (GetMemo d) = true | None => True end →
  SendPacketOverride cap port channel height timestamp bz e =
    ICS4_SendPacket cap port channel height timestamp
      (match packet_kind bz with Some d => GetBytes d | None => bz end) e.
Proof.
  rw SendPacketOverride_kind. destruct (packet_kind bz) as [d|]; [|done]. apply handleSendPacket_passes.
Qed.

(** A packet that cannot be prepared is refused before anything is sent or stored: its hook
    data does not decode, its callback is not an address, or its message cannot be written
    again. *)
Theorem send_refused cap port channel height timestamp bz d e :
  packet_kind bz = Some d →
  (∀ oh routed err, parseHookData (GetMemo d) = (oh, routed, Some err) →
     SendPacketOverride cap port channel height timestamp bz e = (Err err, e)) ∧
  (∀ h err, asks_callback (GetMemo d) h → StringToBytes (AsyncCallback h) = Err err →
     SendPacketOverride cap port channel height timestamp bz e = (Err err, e)) ∧
  (∀ h addr err, asks_callback (GetMemo d) h → StringToBytes (AsyncCallback h) = Ok addr →
     rewrite_memo (GetMemo d) h = Err err →
     SendPacketOverride cap port channel height timestamp bz e = (Err err, e)).
Proof.
  intros Hd. rw SendPacketOverride_kind Hd. split_and!.
  - intros oh routed err Hp. unfold handleSendPacket. rw Hp. by destruct oh, routed.
  - intros h err Hc Ha. rw (handleSendPacket_callback _ _ _ _ _ _ h) //. unfold bind, lift. by rw Ha.
  - intros h addr err Hc Ha Hr. rw (handleSendPacket_callback _ _ _ _ _ _ h) //. unfold bind, lift. by rw Ha Hr.
Qed.

(** * The callback, from the packet that is sent to its acknowledgement *)

(** What the hooks keeper promises: a table of callbacks, which a lookup reads and leaves
    as it is. Any of the operations may also panic when the gas runs out. *)
Class CallbackStore (callbacks : W → string → string → Z → option bytes) : Prop := {
  Get_callback : ∀ p c n e cb e1, GetAsyncCallback p c n e = (Ok cb, e1) →
    callbacks (world e) p c n = Some cb ∧ world e1 = world e;
  Get_missing : ∀ p c n e err e1, GetAsyncCallback p c n e = (Err err, e1) →
    callbacks (world e) p c n = None ∧ error_is err ErrNotFound = true ∧ world e1 = world e;
  Set_callback : ∀ p c n cb e e1, SetAsyncCallback (Cap:=Cap) (Height:=Height) p c n cb e = (Ok (), e1) →
    callbacks (world e1) p c n = Some cb;
  Remove_callback : ∀ p c n e r e1, RemoveAsyncCallback p c n e = (r, e1) →
    (∀ q, r ≠ Panic q) → callbacks (world e1) p c n = None
}.

Section delivery.
Context (callbacks : W → string → string → Z → option bytes) {CS : CallbackStore callbacks}.

Lemma send_registered cap port channel height timestamp bz d h e seq e' :
  packet_kind bz = Some d → asks_callback (GetMemo d) h →
  SendPacketOverride cap port channel height timestamp bz e = (Ok seq, e') →
  ∃ addr memo e1,
    StringToBytes (AsyncCallback h) = Ok addr ∧ rewrite_memo (GetMemo d) h = Ok memo ∧
    ICS4_SendPacket cap port channel height timestamp (GetBytes (SetMemo memo d)) e = (Ok seq, e1) ∧
    SetAsyncCallback (Cap:=Cap) (Height:=Height) port channel seq (AsyncCallback h) e1 = (Ok (), e') ∧
    callbacks (world e') port channel seq = Some (AsyncCallback h).
Proof.
  intros Hd Hc. rw SendPacketOverride_kind Hd (handleSendPacket_callback _ _ _ _ _ _ h) //. intros H.
  apply bind_ok_inv in H as (addr & e0 & Ha & H). unfold lift in Ha. injection Ha as Ha <-.
  apply bind_ok_inv in H as (memo & e0 & Hr & H). unfold lift in Hr. injection Hr as Hr <-.
  apply bind_ok_inv in H as (n & e1 & Hs & H). apply bind_ok_inv in H as ([] & e2 & Hset & H).
  unfold ret in H. injection H as -> <-. exists addr, memo, e1. split_and!; try done. by apply Set_callback in Hset.
Qed.

(** A packet that asks for a callback and is sent: the packet that left carries the memo
    without the callback, and the callback is in the table under the port, the channel and
    the sequence of the packet. *)
Theorem send_registers cap port channel height timestamp bz d h e seq e' :
  packet_kind bz = Some d → asks_callback (GetMemo d) h →
  SendPacketOverride cap port channel height timestamp bz e = (Ok seq, e') →
  ∃ addr memo e1,
    StringToBytes (AsyncCallback h) = Ok addr ∧ rewrite_memo (GetMemo d) h = Ok memo ∧
    ICS4_SendPacket cap port channel height timestamp (GetBytes (SetMemo memo d)) e = (Ok seq, e1) ∧
    SetAsyncCallback (Cap:=Cap) (Height:=Height) port channel seq (AsyncCallback h) e1 = (Ok (), e') ∧
    callbacks (world e') port channel seq = Some (AsyncCallback h).
Proof. apply send_registered. Qed.

(** Running the callback of a packet that is in the table: it is taken out, and then the
    contract is called, when the access list allows it. What the contract did is kept when
    it succeeded, and nothing else is changed. *)
Lemma run_async_callback_table packet msg cb addr e e' :
  callbacks (world e) (SourcePort packet) (SourceChannel packet) (Sequence packet) = Some cb →
  StringToBytes cb = Ok addr →
  run_async_callback packet msg e = (Ok (), e') →
  ∃ e1 r e2, callbacks (world e1) (SourcePort packet) (SourceChannel packet) (Sequence packet) = None ∧
    GetAllowed addr (Env (world e1) (gas e1) []) = (r, e2) ∧
    match r with
    | Ok true =>
        (∃ out e3, WasmSudo addr msg e2 = (Ok out, e3) ∧ world e' = world e3) ∨
        (∃ err e3, WasmSudo addr msg e2 = (Err err, e3) ∧ world e' = world e1)
    | _ => world e' = world e1
    end.
Proof.
  intros Hcb Ha. unfold run_async_callback, bind at 1, attempt at 1.
  destruct (GetAsyncCallback _ _ _ e) as [[cb'|err|p] e0] eqn:Hg; [|destruct (Get_missing _ _ _ _ _ _ Hg); congruence|done].
  apply Get_callback in Hg as [Hg _]. assert (cb' = cb) as -> by congruence.
  unfold bind at 1, attempt at 1. destruct (RemoveAsyncCallback _ _ _ e0) as [r e1] eqn:Hr.
  intros H. assert ((∀ q, r ≠ Panic q) ∧ bind (cached (callback cb msg)) (λ failed,
      match failed with Some (reason, error) => hook_failed reason error | None => ret () end) e1 = (Ok (), e')) as [Hnp Hrun].
  { by destruct r. }
  clear H. exists e1. destruct (GetAllowed addr (Env (world e1) (gas e1) [])) as [al e2] eqn:Hal. exists al, e2.
  split; [by eapply Remove_callback|]. split; [done|]. revert Hrun.
  unfold bind at 1, cached, callback, checkACL, bind, attempt, lift. rw Ha Hal.
  destruct al as [[]|err|q]; [|by intros [= <-]|by intros [= <-]|done].
  destruct (WasmSudo addr msg e2) as [[out|err|q] e3] eqn:Hw; [| |done]; intros [= <-]; [left|right]; by eexists _, _.
Qed.

(** C28. A callback is delivered. In any later state in which the callback a packet was sent with
    is still in the table, its acknowledgement takes it out, and then calls that contract,
    when the access list allows it, with the channel and the sequence of the packet. A call
    that fails leaves the table without the callback: it is not tried again. *)
Theorem callback_delivered cap height timestamp bz d h e seq e' packet acknowledgement relayer e0 e1 e2 :
  packet_kind bz = Some d → asks_callback (GetMemo d) h →
  SendPacketOverride cap (SourcePort packet) (SourceChannel packet) height timestamp bz e = (Ok seq, e') →
  Sequence packet = seq →
  App_OnAcknowledgementPacket packet acknowledgement relayer e0 = (Ok (), e1) →
  callbacks (world e1) (SourcePort packet) (SourceChannel packet) seq =
    callbacks (world e') (SourcePort packet) (SourceChannel packet) seq →
  handleOnAck packet acknowledgement relayer e0 = (Ok (), e2) →
  ∃ addr e3 r e4, StringToBytes (AsyncCallback h) = Ok addr ∧
    callbacks (world e3) (SourcePort packet) (SourceChannel packet) seq = None ∧
    GetAllowed addr (Env (world e3) (gas e3) []) = (r, e4) ∧
    match r with
    | Ok true =>
        (∃ out e5, WasmSudo addr (ack_sudo_msg packet acknowledgement) e4 = (Ok out, e5) ∧ world e2 = world e5) ∨
        (∃ err e5, WasmSudo addr (ack_sudo_msg packet acknowledgement) e4 = (Err err, e5) ∧ world e2 = world e3)
    | _ => world e2 = world e3
    end.
Proof.
  intros Hd Hc Hs Hseq Happ Hkeep Hack. destruct (send_registered _ _ _ _ _ _ _ _ _ _ _ Hd Hc Hs) as (addr & memo & es & Ha & _ & _ & _ & Hcb).
  unfold handleOnAck in Hack. rw (bind_ok _ _ _ _ _ Happ) in Hack. rw -Hkeep -Hseq in Hcb.
  destruct (run_async_callback_table _ _ _ _ _ _ Hcb Ha Hack) as (e3 & r & e4 & Hn & H). rw Hseq in Hn. by exists addr, e3, r, e4.
Qed.

End delivery.
(** * The memo that is sent *)

(** What json.Marshal writes for a message: a valid text of an object, already compact, so
    that appendCompact copies it whatever follows, and read as [msg'] by the other side. *)
Definition encodes (msg : MsgExecuteContract) (text : string) (msg' : MsgExecuteContract) : Prop :=
  encode_MsgExecuteContract msg = Ok text ∧ scans 2 text ∧
  (∀ t, compact (text +:+ t) = text +:+ compact t) ∧
  (∃ l, json_decode text = Some (JObject l)) ∧ decode_MsgExecuteContract None text = inl msg'.

Lemma scans_valid raw : scans 0 raw → json_valid raw = true.
Proof.
  intros Hs. unfold json_valid. rw -(app_nil_s raw) skip_ws_value; [|apply Hs]. by rw (scans_value 0).
Qed.

(** The hook data that is left when the callback is taken out. *)
Definition hook_text (text : string) : string := object_text [("message", text)].

Lemma compact_hook_text text :
  (∀ t, compact (text +:+ t) = text +:+ compact t) → compact (hook_text text) = hook_text text.
Proof.
  intros Hc. unfold hook_text, object_text. cbn [fmap list_fmap join]. unfold member_text. cbn [fst snd].
  assert (∀ s, compact ("{" +:+ (json_string "message" +:+ ":" +:+ s)) = "{" +:+ json_string "message" +:+ ":" +:+ compact s) as H.
  { by intros [|a [|b s]]. }
  rw !app_assoc_s H Hc. done.
Qed.

Lemma scans_hook_text text d : d <= 1 → scans 2 text → scans d (hook_text text).
Proof.
  intros Hd Hs. apply (scans_depth 1); [done|]. apply scans_object; [done|]. constructor; [|constructor].
  split; [|done]. cbn. repeat (apply utf8_ascii; [done|]). constructor.
Qed.

Lemma decode_hook_text msg text msg' :
  encodes msg text msg' → decode_HookData (hook_text text) = ({| Message := Some msg'; AsyncCallback := "" |}, None).
Proof.
  intros (_ & Hs & _ & [l Hl] & Hd). unfold decode_HookData, hook_text. rw decode_object.
  - cbn -[json_decode]. rw Hl. by rw Hd.
  - constructor; [|constructor]. split; [cbn; repeat (apply utf8_ascii; [done|]); constructor|].
    by apply (scans_depth 2).
Qed.

Lemma any_ok_raw_valid (l : list (string * jany)) : Forall (read_ok 1) l → forallb raw_valid l = true.
Proof.
  intros Hl. apply forallb_forall. intros [k v] Hin%list_elem_of_In. rw Forall_forall in Hl.
  destruct (Hl _ Hin) as (_ & Hv & _). unfold raw_valid. cbn in *. by destruct Hv.
Qed.

Lemma read_ok_scans (l : list (string * jany)) :
  Forall (read_ok 1) l → Forall (λ x, utf8 x.1 ∧ scans 1 (marshal_any x.2)) l.
Proof. intros Hl. eapply Forall_impl; [exact Hl|]. intros x (Hu & Hv & Hd). split; [done|]. by apply any_scans. Qed.

Lemma routed_memo memo h err :
  parseHookData memo = (Some h, true, err) → ∃ m, unmarshal_raw_map memo = Some m ∧ is_Some (m !! wasmHookMemoKey).
Proof. intros (m & raw & Hm & Hk)%parseHookData_routed. exists m. split; [done|]. by rw Hk. Qed.

(** The memo without its wasm member. *)
Lemma rewrite_deleted memo h m :
  unmarshal_raw_map memo = Some m → Message h = None →
  ∃ memo' m', rewrite_memo memo h = Ok memo' ∧ unmarshal_raw_map memo' = Some m' ∧ memo' ≠ "" ∧
    m' !! wasmHookMemoKey = None ∧
    ∀ k raw, k ≠ wasmHookMemoKey →
      m' !! k = Some raw ↔ ∃ v, (k, v) ∈ unmarshal_any_map memo ∧ raw = marshal_any v.
Proof.
  intros Hm Hnone. destruct (unmarshal_any_map_spec memo m Hm) as (Hs & Hl & _).
  unfold rewrite_memo, marshal_map. rw Hnone. set (l := unmarshal_any_map memo) in *. clearbody l.
  assert (Forall (read_ok 1) (entry_delete wasmHookMemoKey l)) as Hd.
  { apply Forall_forall. intros x [_ Hx]%list_elem_of_filter. rw Forall_forall in Hl. auto. }
  rw any_ok_raw_valid //. destruct (marshal_map_read (entry_delete wasmHookMemoKey l)) as (m' & Hm' & Hk);
    [by apply entry_delete_sorted|by apply read_ok_scans|].
  eexists _, m'. split_and!; [done|done|done| |].
  - apply eq_None_not_Some. intros [raw (v & [Hne _]%list_elem_of_filter & _)%Hk]. by apply Hne.
  - intros k raw Hne. rw Hk. unfold entry_delete. setoid_rewrite list_elem_of_filter. naive_solver.
Qed.

(** The memo with its wasm member written again. *)
Lemma rewrite_set memo h m msg text msg' :
  unmarshal_raw_map memo = Some m → Message h = Some msg → encodes msg text msg' →
  ∃ memo' m', rewrite_memo memo h = Ok memo' ∧ unmarshal_raw_map memo' = Some m' ∧ memo' ≠ "" ∧
    m' !! wasmHookMemoKey = Some (hook_text text) ∧
    ∀ k raw, k ≠ wasmHookMemoKey →
      m' !! k = Some raw ↔ ∃ v, (k, v) ∈ unmarshal_any_map memo ∧ raw = marshal_any v.
Proof.
  intros Hm Hsome (Henc & Hsc & Hc & _). destruct (unmarshal_any_map_spec memo m Hm) as (Hs & Hl & _).
  unfold rewrite_memo, marshal_map, marshal_HookData. rw Hsome. cbn [Message AsyncCallback]. rw Henc.
  cbn [rbind is_empty app]. change (object_text [("message", text)]) with (hook_text text).
  set (l := unmarshal_any_map memo) in *. clearbody l.
  set (l' := entry_set wasmHookMemoKey (ARaw (hook_text text)) l).
  assert (∀ x, x ∈ l' ↔ x = (wasmHookMemoKey, ARaw (hook_text text)) ∨ (x.1 ≠ wasmHookMemoKey ∧ x ∈ l)) as Hel
    by (intros x; by apply entry_set_elem).
  assert (forallb raw_valid l' = true) as ->.
  { apply forallb_forall. intros x [->|[_ Hx]]%list_elem_of_In%Hel; [by apply scans_valid, scans_hook_text|].
    apply list_elem_of_In in Hx. eapply forallb_forall; [by apply any_ok_raw_valid|exact Hx]. }
  destruct (marshal_map_read l') as (m' & Hm' & Hk); [by apply entry_set_sorted| |].
  { apply read_ok_scans in Hl. rw Forall_forall in Hl. apply Forall_forall. intros x [->|[_ Hx]]%Hel; [|auto].
    cbn [fst snd marshal_any]. rw compact_hook_text //. split; [|by apply scans_hook_text].
    repeat (apply utf8_ascii; [done|]). constructor. }
  eexists _, m'. split_and!; [done|done|done| |].
  - apply Hk. eexists. split; [apply Hel; by left|]. cbn [marshal_any]. by rw compact_hook_text.
  - intros k raw Hne. rw Hk. setoid_rewrite Hel. split; [intros (v & [[= -> ->]|[_ Hin]] & ->); [done|eauto]|].
    intros (v & Hin & ->). exists v. split; [by right|done].
Qed.

(** Two memos are objects with the same members, the wasm member aside. *)
Definition same_other_keys (memo memo' : string) : Prop :=
  ∃ m m', unmarshal_raw_map memo = Some m ∧ unmarshal_raw_map memo' = Some m' ∧
    ∀ k, k ≠ wasmHookMemoKey → is_Some (m !! k) ↔ is_Some (m' !! k).

Lemma same_other_keys_intro memo memo' m m' :
  unmarshal_raw_map memo = Some m → unmarshal_raw_map memo' = Some m' →
  (∀ k raw, k ≠ wasmHookMemoKey →
     m' !! k = Some raw ↔ ∃ v, (k, v) ∈ unmarshal_any_map memo ∧ raw = marshal_any v) →
  same_other_keys memo memo'.
Proof.
  intros Hm Hm' Hk. exists m, m'. split_and!; [done..|]. intros k Hne.
  destruct (unmarshal_any_map_spec memo m Hm) as (_ & _ & ->). rw list_elem_of_fmap. split.
  - intros ([k' v] & -> & Hin). eexists. apply Hk; [done|]. by exists v.
  - intros [raw (v & Hin & ->)%Hk]; [|done]. by exists (k, v).
Qed.

Lemma parseHookData_raw memo m :
  memo ≠ "" → unmarshal_raw_map memo = Some m →
  parseHookData memo =
  match m !! wasmHookMemoKey with
  | None => (None, false, None)
  | Some raw =>
      match decode_HookData raw with
      | (_, Some err) => (None, true, Some (Wrapf ErrInvalidPacket "%s" [Error err]))
      | (hookData, None) => (Some hookData, true, None)
      end
  end.
Proof. intros Hne Hm. unfold parseHookData. rw Hm. by destruct memo. Qed.

(** C27. The memo of a packet that asks for a callback is always written again, as the hooks of
    the other chain should see it: without a message it is not theirs at all, with one they
    read the message and no callback; every other key of the memo is still there, and no
    other is new. *)
Theorem sent_memo memo h :
  asks_callback memo h →
  (Message h = None →
     ∃ memo', rewrite_memo memo h = Ok memo' ∧ parseHookData memo' = (None, false, None) ∧
       same_other_keys memo memo') ∧
  (∀ msg text msg', Message h = Some msg → encodes msg text msg' →
     ∃ memo', rewrite_memo memo h = Ok memo' ∧
       parseHookData memo' = (Some {| Message := Some msg'; AsyncCallback := "" |}, true, None) ∧
       same_other_keys memo memo').
Proof.
  intros [Hp _]. destruct (routed_memo _ _ _ Hp) as (m & Hm & _). split.
  - intros Hn. destruct (rewrite_deleted memo h m Hm Hn) as (memo' & m' & Hr & Hm' & Hne & Hw & Hk).
    exists memo'. split_and!; [done| |by eapply same_other_keys_intro]. rw (parseHookData_raw memo' m') //. by rw Hw.
  - intros msg text msg' Hsome He.
    destruct (rewrite_set memo h m msg text msg' Hm Hsome He) as (memo' & m' & Hr & Hm' & Hne & Hw & Hk).
    exists memo'. split_and!; [done| |by eapply same_other_keys_intro]. rw (parseHookData_raw memo' m') //.
    by rw Hw (decode_hook_text msg text msg').
Qed.

End spec.
