(* ===== verification/Instances.v ===== *)
(** A concrete chain: instances of every interface the sources call and do not contain,
    with their laws proved. The theorems of the development are applied to it, which
    shows that what they assume can hold together. *)
From S2P Require Import Prelude.
From S2P Require Import Interfaces.
From S2P Require Import TfTypes.
From S2P Require Import TfKeeper.
From S2P Require Import Bank.
From S2P Require Import TfMsgServer.
From S2P Require Import TfInvariants.
From S2P Require Import Wiring.
From S2P Require Import Chain.

(** * Addresses, coins and gas *)

(** Addresses are spelled init1 followed by their bytes; the other spelling INIT1 is
    accepted, as bech32 accepts upper case. *)
Definition demo_decode (s : string) : res bytes :=
  if (has_prefix "init1" s || has_prefix "INIT1" s) && negb (is_empty (drop_bytes 5 s)) &&
     negb (mem_byte "000" s)
  then Ok (drop_bytes 5 s) else Err (Errorf "decoding bech32 failed" []).

#[export] Instance demo_codec : AddressCodec := {|
  StringToBytes := demo_decode;
  BytesToString := λ b, Ok ("init1" +:+ b);
  AccAddressFromBech32 := demo_decode;
  AccAddress_String := λ b, "init1" +:+ b
|}.

Definition demo_ValidateDenom (d : string) : option goerror :=
  if (3 <=? len d) && (len d <=? 128) && negb (mem_byte " " d) then None
  else Some (Errorf "invalid denom: %s" [d]).

Definition demo_Coin_Validate (c : coin) : option goerror :=
  match demo_ValidateDenom (coin_Denom c) with
  | Some e => Some e
  | None => if coin_Amount c <? 0 then Some (Errorf "negative coin amount" []) else None
  end.

Definition demo_NewCoins (cs : coins) : res coins :=
  let cs := filter (λ c, coin_Amount c ≠ 0) cs in
  if bool_decide (Forall (λ c, demo_Coin_Validate c = None) cs) &&
     bool_decide (NoDup (coin_Denom <$> cs))
  then Ok cs else Panic (PanicString "invalid coins").

Definition Z_string (n : Z) : string := pretty n.

#[export] Instance demo_types : SdkTypes := {|
  ValidateDenom := demo_ValidateDenom;
  Coin_Validate := demo_Coin_Validate;
  Coins_Validate := λ cs, if bool_decide (Forall (λ c, demo_Coin_Validate c = None) cs)
    then None else Some (Errorf "invalid coins" []);
  NewCoins := demo_NewCoins;
  Coin_String := λ c, Z_string (coin_Amount c) +:+ coin_Denom c;
  Coins_String := λ cs, join "," ((λ c, Z_string (coin_Amount c) +:+ coin_Denom c) <$> cs);
  Int_String := Z_string;
  Metadata_Validate := λ md,
    if is_empty (md_Base md) then Some (Errorf "empty base" []) else None;
  Metadata_String := λ md, md_Base md
|}.

(** A gas meter with a limit. *)
Record demo_gas := { dg_limit : Z; dg_consumed : Z }.

#[export] Instance demo_meter : GasMeter demo_gas := {|
  NewGasMeter := λ l, {| dg_limit := l; dg_consumed := 0 |};
  GasLimit := dg_limit;
  GasConsumed := dg_consumed;
  GasRemaining := λ g, Z.max 0 (dg_limit g - dg_consumed g);
  GasConsumedToLimit := λ g, Z.max 0 (Z.min (dg_consumed g) (dg_limit g));
  ConsumeGas := λ a d g,
    let g1 := {| dg_limit := dg_limit g; dg_consumed := dg_consumed g + a |} in
    if dg_limit g <? dg_consumed g1 then (Panic (ErrorOutOfGas d), g1) else (Ok (), g1)
|}.

(** * The bank and the accounts *)

Record demo_world := {
  dw_balance : bytes → string → Z;
  dw_supply : string → Z;
  dw_metadata : string → option Metadata;
  dw_disabled : gset string
}.

Abbreviation demo_env := (env demo_world demo_gas).
Abbreviation demo_state := (state demo_world demo_gas).

(** Module accounts live at the name of their module. *)
#[export] Instance demo_accounts : AccountKeeper demo_world demo_gas := {|
  GetModuleAddress := λ n,
    if decide (n ∈ ["tokenfactory"; "fee_collector"; "mint"]) then Some n else None;
  GetModuleAccount := λ n e,
    (Ok (if decide (n ∈ ["tokenfactory"; "fee_collector"; "mint"]) then Some n else None), e);
  GetAccount := λ b _, Some (Account b (bool_decide (b ∈ ["tokenfactory"; "fee_collector"; "mint"])))
|}.

Definition set_ledger (bal : bytes → string → Z) (sup : string → Z) (e : demo_env) : demo_env :=
  Env {| dw_balance := bal; dw_supply := sup; dw_metadata := dw_metadata (world e);
         dw_disabled := dw_disabled (world e) |} (gas e) (events e).

Definition demo_mint (sign : Z) (m : string) (cs : coins) : M demo_env unit := λ e,
  match GetModuleAddress m with
  | None => (Panic (PanicString "no module account"), e)
  | Some a =>
      if bool_decide (Forall (λ c, 0 <= dw_balance (world e) a (coin_Denom c) + sign * AmountOf cs (coin_Denom c)) cs)
      then (Ok (), set_ledger
        (λ b d, dw_balance (world e) b d + if decide (b = a) then sign * AmountOf cs d else 0)
        (λ d, dw_supply (world e) d + sign * AmountOf cs d) e)
      else (Err (Errorf "insufficient funds" []), e)
  end.

Definition demo_send (f t : bytes) (cs : coins) : M demo_env unit := λ e,
  if bool_decide (Forall (λ c, AmountOf cs (coin_Denom c) <= dw_balance (world e) f (coin_Denom c)) cs)
  then (Ok (), set_ledger
    (λ b d, dw_balance (world e) b d - (if decide (b = f) then AmountOf cs d else 0)
              + (if decide (b = t) then AmountOf cs d else 0))
    (dw_supply (world e)) e)
  else (Err (Errorf "insufficient funds" []), e).

Definition with_world (f : demo_world → demo_world) (e : demo_env) : demo_env :=
  Env (f (world e)) (gas e) (events e).

Definition set_disabled (v : gset string) (w : demo_world) : demo_world :=
  {| dw_balance := dw_balance w; dw_supply := dw_supply w; dw_metadata := dw_metadata w;
     dw_disabled := v |}.

#[export] Instance demo_bank : BankBase demo_world demo_gas := {|
  GetDenomMetaData := λ d w, dw_metadata w d;
  SetDenomMetaData := λ md w,
    {| dw_balance := dw_balance w; dw_supply := dw_supply w;
       dw_metadata := λ d, if decide (d = md_Base md) then Some md else dw_metadata w d;
       dw_disabled := dw_disabled w |};
  HasSupply := λ d w, 0 <? dw_supply w d;
  HasBalance := λ b c w, coin_Amount c <=? dw_balance w b (coin_Denom c);
  BlockedAddr := λ b, bool_decide (b = "fee_collector");
  MintCoins := demo_mint 1;
  BurnCoins := demo_mint (-1);
  BaseSendCoins := demo_send;
  InputOutputCoins := λ i os e,
    match StringToBytes (io_Address i) with
    | Ok f => for_each os (λ o e,
        match StringToBytes (io_Address o) with
        | Ok t => demo_send f t (io_Coins o) e
        | _ => (Err (Errorf "invalid address" []), e)
        end) e
    | _ => (Err (Errorf "invalid address" []), e)
    end;
  IsSendEnabledCoins := λ cs w,
    if bool_decide (Forall (λ c, coin_Denom c ∉ dw_disabled w) cs) then None
    else Some (Errorf "transfers are disabled" []);
  ValidateInputOutputs := λ i os, if is_empty (io_Address i) then Some (Errorf "no input" []) else None;
  BankParams_Validate := λ _, None;
  SendEnabled_Validate := λ e, demo_ValidateDenom (se_Denom e);
  BankSetParams := λ p e, (Ok (), e);
  SetAllSendEnabled := λ l w, set_disabled
    (foldr (λ e v, if se_Enabled e then v ∖ {[se_Denom e]} else {[se_Denom e]} ∪ v) (dw_disabled w) l) w;
  DeleteSendEnabled := λ l w, set_disabled (dw_disabled w ∖ list_to_set l) w;
  BankAuthority := "init1gov"
|}.

#[export] Instance demo_ledger : BankLedger demo_world :=
  {| Balance := λ b d w, dw_balance w b d; Supply := λ d w, dw_supply w d |}.

#[export] Instance demo_walk : KeyWalk := elements.

(** * Contracts *)

(** The contract at "hook" refuses every send it may block; the contract at "broken"
    panics; the contract at "agent" creates a denom of its own when it is called, in a
    call that is committed only when it succeeds; no other contract exists. *)
Definition agent_msg : tf_msg :=
  CreateDenom {| MsgCreateDenom_Sender := "init1agent"; MsgCreateDenom_Subdenom := "gold" |}.

Definition demo_level (inner : ContractKeeper demo_world demo_gas) :
    ContractKeeper demo_world demo_gas := λ a m s,
  if decide (a = "hook") then
    if contains m "block_before_send" then (Err (Errorf "blocked" []), s) else (Ok "", s)
  else if decide (a = "broken") then (Panic (PanicString "broken"), s)
  else if decide (a = "agent") then
    match handle (CK:=inner) (BK:=app_BankKeeper (CK:=inner))
            (CP:=app_CommunityPoolKeeper (CK:=inner) "fee_collector") "init1gov" agent_msg s with
    | (Ok _, s1) => (Ok "", s1)
    | _ => (Err (Errorf "agent failed" []), s)
    end
  else (Err (Errorf "no such contract" []), s).

Fixpoint demo_contracts (n : nat) : ContractKeeper demo_world demo_gas :=
  match n with
  | O => λ _ _ s, (Err (Errorf "max call depth reached" []), s)
  | S n => demo_level (demo_contracts n)
  end.

(** * The laws hold *)

Lemma mem_byte_drop c n s : mem_byte c s = false → mem_byte c (drop_bytes n s) = false.
Proof.
  revert n. induction s as [|a s IH]; intros [|n]; try done. cbn. intros [_ H]%orb_false_iff. by apply IH.
Qed.

#[export] Instance demo_codec_laws : AddressCodecLaws demo_codec.
Proof.
  assert (Hd : ∀ s b, demo_decode s = Ok b → b = drop_bytes 5 s ∧ b ≠ "" ∧ mem_byte "000" s = false).
  { intros s b. unfold demo_decode. destruct (_ || _); [|done]. cbn [andb].
    destruct (drop_bytes 5 s) eqn:E; [done|]. cbn [is_empty negb andb]. destruct (mem_byte _ _); [done|].
    by intros [= <-]. }
  split; cbn.
  - done.
  - intros s p. unfold demo_decode. by destruct (_ && _).
  - done.
  - intros s b Hs. by destruct (Hd s b Hs) as (_ & ? & _).
  - intros s b (-> & Hb & Hz)%Hd. apply (mem_byte_drop _ 5) in Hz.
    destruct (drop_bytes 5 s) as [|x b]; [done|]. eexists. split; [done|]. unfold demo_decode.
    rw mem_byte_app Hz. done.
  - intros s b Hs. by destruct (Hd s b Hs) as (_ & _ & ?).
Qed.

#[export] Instance demo_types_laws : SdkTypesLaws demo_types.
Proof.
  split; cbn.
  - done.
  - intros c Hv Hne. unfold demo_NewCoins. rw filter_cons_True // filter_nil.
    case_bool_decide as H1; [|by destruct H1; repeat constructor].
    case_bool_decide as H2; [done|]. destruct H2. cbn. apply NoDup_singleton.
  - intros c. unfold demo_Coin_Validate. destruct (demo_ValidateDenom _); [done|].
    by destruct (Z.ltb_spec (coin_Amount c) 0).
Qed.

#[export] Instance demo_meter_laws : GasMeterLaws demo_gas demo_meter.
Proof.
  split; cbn; unfold within_limit; cbn; intros; try lia. destruct (Z.ltb_spec (dg_limit g) (dg_consumed g + a)); [lia|].
  eexists. split; [done|]. cbn. lia.
Qed.

#[export] Instance demo_walk_laws : KeyWalkLaws demo_walk.
Proof. by intros k. Qed.

Lemma demo_mint_same sign m cs e :
  same_metadata (world e) (world (demo_mint sign m cs e).2) ∧
  ∀ d, Forall (λ c, coin_Denom c ≠ d) cs →
    Supply d (world (demo_mint sign m cs e).2) = Supply d (world e).
Proof.
  unfold demo_mint. destruct (GetModuleAddress m); [|done]. case_bool_decide; [|done].
  split; [done|]. cbn. intros d Hd. assert (AmountOf cs d = 0) as ->; [|lia].
  clear -Hd. induction Hd as [|c cs Hc _ IH]; [done|]. cbn. by case_decide.
Qed.

Lemma demo_send_same f t cs e :
  same_metadata (world e) (world (demo_send f t cs e).2) ∧
  same_supply (world e) (world (demo_send f t cs e).2).
Proof. unfold demo_send. by case_bool_decide. Qed.

Lemma demo_io_same i os e :
  same_metadata (world e) (world (InputOutputCoins i os e).2) ∧
  same_supply (world e) (world (InputOutputCoins i os e).2).
Proof.
  cbn. destruct (demo_decode (io_Address i)) as [f| |]; [|done..].
  revert e. induction os as [|o os IH]; intros e; cbn; [done|]. unfold bind.
  destruct (demo_decode (io_Address o)) as [t| |]; [|done..].
  destruct (demo_send_same f t (io_Coins o) e) as [H1 H2].
  destruct (demo_send f t (io_Coins o) e) as [[] e1]; [|done..]. cbn in *.
  destruct (IH e1) as [H3 H4]. split; intros d; [by rw H3|by rw H4].
Qed.

#[export] Instance demo_bank_laws : BankBaseLaws demo_accounts demo_bank demo_ledger.
Proof.
  split.
  - intros md w. cbn. by case_decide.
  - intros md d w Hne. cbn. by case_decide.
  - done.
  - done.
  - done.
  - done.
  - done.
  - apply demo_send_same.
  - apply demo_io_same.
  - apply (demo_mint_same 1).
  - apply (demo_mint_same (-1)).
  - intros m a cs e e1 Ha. cbn. unfold demo_mint. rw Ha. case_bool_decide; [|done].
    intros [= <-]. cbn. split; intros; [lia|case_decide; lia].
  - intros m a cs e e1 Ha. cbn. unfold demo_mint. rw Ha. case_bool_decide; [|done].
    intros [= <-]. cbn. split; intros; [lia|case_decide; lia].
  - intros f t cs e e1. cbn. unfold demo_send. case_bool_decide; [|done]. by intros [= <-].
Qed.

(** A call of a contract of the chain is a sequence of transitions of the chain, with
    messages among those the contract may send. *)
Lemma demo_contract_levels (ok : tf_msg → Prop) :
  ok agent_msg → contract_levels "init1gov" "fee_collector" ok demo_contracts.
Proof.
  intros Hok. split.
  - intros a m s. exists (ext s). split; [by destruct s|apply world_kept_refl].
  - intros n a m s. cbn [demo_contracts]. unfold demo_level.
    case_decide; [destruct (contains m _); apply rtc_refl|].
    case_decide; [apply rtc_refl|]. case_decide; [|apply rtc_refl].
    lazymatch goal with |- context [handle ?x agent_msg s] =>
      destruct (handle x agent_msg s) as [[u|e|p] s1] eqn:Hh end; [|apply rtc_refl..].
    apply rtc_once, (step_tf _ _ _ agent_msg); [done|]. rw Hh. by destruct u.
Qed.
