(* ===== verification/Witnesses.v ===== *)
(** The theorems applied on the concrete chain of Instances: the hypotheses of each hold
    there, and its conclusion is about runs that can be evaluated. *)
From S2P Require Import Prelude.
From S2P Require Import Interfaces.
From S2P Require Import TfTypes.
From S2P Require Import TfKeeper.
From S2P Require Import Bank.
From S2P Require Import TfMsgServer.
From S2P Require Import TfInvariants.
From S2P Require Import TfGenesis.
From S2P Require Import Wiring.
From S2P Require Import BankSpec.
From S2P Require Import TfSpec.
From S2P Require Import Chain.
From S2P Require Import Registry.
From S2P Require Import GoJson.
From S2P Require Import JsonScan.
From S2P Require Import JsonRoundtrip.
From S2P Require Import HookJson.
From S2P Require Import Instances.

(** * A small chain *)

Definition alice : string := "init1alice".
Definition gold : string := "factory/init1alice/gold".
Definition free : string := "factory/init1bob/free".

(** The rest of the chain before genesis: alice holds some stake, nothing has metadata. *)
Definition demo_world0 : demo_world := {|
  dw_balance := λ b d, if decide (b = "alice" ∧ d = "stake") then 100 else 0;
  dw_supply := λ d, if decide (d = "stake") then 100 else 0;
  dw_metadata := λ _, None;
  dw_disabled := ∅
|}.

Definition demo_state0 : demo_state :=
  State empty_store (Env demo_world0 {| dg_limit := 10000000; dg_consumed := 0 |} []).

(** Gold is alice's; free has been renounced. *)
Definition demo_genesis : GenesisState := {|
  gs_Params := {| DenomCreationFee := [Coin "stake" 7]; DenomCreationGasConsume := 1000 |};
  gs_FactoryDenoms :=
    [{| gd_Denom := gold; gd_AuthorityMetadata := {| Admin := alice |} |};
     {| gd_Denom := free; gd_AuthorityMetadata := {| Admin := "" |} |}]
|}.

(** Contracts call back to depth two. *)
#[local] Instance demo_contract : ContractKeeper demo_world demo_gas := demo_contracts 2.
#[local] Instance demo_pool : CommunityPoolKeeper demo_world demo_gas :=
  app_CommunityPoolKeeper "fee_collector".

Definition demo_state1 : demo_state := (InitGenesis demo_genesis demo_state0).2.

Definition demo_handle (m : tf_msg) : M demo_state unit := handle "init1gov" m.

(** Alice mints 50 gold to herself and registers the contract at "hook" on it. *)
Definition mint50 : MsgMint :=
  {| MsgMint_Sender := alice; MsgMint_Amount := Coin gold 50; MsgMint_MintToAddress := "" |}.
Definition hook_gold : MsgSetBeforeSendHook :=
  {| MsgSetBeforeSendHook_Sender := alice; MsgSetBeforeSendHook_Denom := gold;
     MsgSetBeforeSendHook_CosmwasmAddress := "init1hook" |}.

Definition demo_state2 : demo_state := (demo_handle (Mint mint50) demo_state1).2.
Definition demo_state3 : demo_state := (demo_handle (SetBeforeSendHook hook_gold) demo_state2).2.

Lemma run_ok {S} (m : M S unit) s : is_ok (m s).1 = true → m s = (Ok (), (m s).2).
Proof. by destruct (m s) as [[[]| |]]. Qed.

(** The history: two messages of alice. *)
Lemma demo_history (ok : tf_msg → Prop) :
  ok (Mint mint50) → ok (SetBeforeSendHook hook_gold) →
  rtc (chain_step (CK:=demo_contracts 2) "init1gov" "fee_collector" ok) demo_state1 demo_state3.
Proof.
  intros H1 H2. apply (rtc_l _ _ demo_state2); [|apply rtc_once].
  - apply (step_tf _ _ _ (Mint mint50)); [done|].
    apply (run_ok (demo_handle (Mint mint50)) demo_state1). by vm_compute.
  - apply (step_tf _ _ _ (SetBeforeSendHook hook_gold)); [done|].
    apply (run_ok (demo_handle (SetBeforeSendHook hook_gold)) demo_state2). by vm_compute.
Qed.

Lemma demo_genesis_run : InitGenesis demo_genesis demo_state0 = (Ok (), demo_state1).
Proof. apply run_ok. by vm_compute. Qed.

Lemma demo_levels : contract_levels "init1gov" "fee_collector" (λ _, True) demo_contracts.
Proof. by apply demo_contract_levels. Qed.

Lemma demo_inv1 : module_inv demo_state1.
Proof. apply (init_genesis_inv demo_genesis demo_state0); [done|by vm_compute|apply demo_genesis_run]. Qed.

(** * Histories *)

Lemma reachable_inv_witness : module_inv demo_state3.
Proof.
  apply (reachable_inv "init1gov" "fee_collector" demo_contracts 2 demo_genesis demo_state0 demo_state1).
  - apply demo_levels.
  - reflexivity.
  - vm_compute. reflexivity.
  - apply demo_genesis_run.
  - by apply demo_history.
Defined.

(** The messages of the history: alice's two, and the one a contract may send. *)
Definition demo_ok (m : tf_msg) : Prop :=
  m = Mint mint50 ∨ m = SetBeforeSendHook hook_gold ∨ m = agent_msg.

(** The registry of the history: gold has no hook at the start and one at the end, so the
    registry has made transitions in between, by these messages. *)
Lemma chain_refines_registry_witness :
  shows (registry_of demo_state1) demo_state1 ∧
  ∃ r, rtc (reg_by "init1gov" demo_ok) (registry_of demo_state1) r ∧ shows r demo_state3.
Proof.
  apply (chain_refines_registry "init1gov" "fee_collector" "tokenfactory" demo_contracts demo_ok 2
           demo_genesis demo_state0 demo_state1 demo_state3).
  - reflexivity.
  - apply demo_contract_levels. unfold demo_ok. tauto.
  - reflexivity.
  - vm_compute. reflexivity.
  - apply demo_genesis_run.
  - apply demo_history; unfold demo_ok; tauto.
Defined.

Lemma renounced_forever_witness : supply_is free "" 0 demo_state3.
Proof.
  apply (renounced_forever "init1gov" "fee_collector" demo_contracts 2 free demo_state1).
  - apply demo_levels.
  - split; [split; [apply demo_inv1|vm_compute; reflexivity]|vm_compute; reflexivity].
  - by apply demo_history.
Defined.

Lemma admin_changes_only_by_admin_witness : admin_is gold alice demo_state3.
Proof.
  apply (admin_changes_only_by_admin "init1gov" "fee_collector" demo_contracts 2 gold alice demo_state1).
  - apply demo_contract_levels. by intros (c & H & _).
  - split; [apply demo_inv1|vm_compute; reflexivity].
  - apply demo_history; by intros (c & H & _).
Defined.

(** Alice registers a hook on gold without minting. *)
Lemma supply_changes_only_by_admin_witness :
  supply_is gold alice 0 (demo_handle (SetBeforeSendHook hook_gold) demo_state1).2.
Proof.
  apply (supply_changes_only_by_admin "init1gov" "fee_collector" demo_contracts 2 gold alice demo_state1).
  - apply demo_contract_levels. split; [by intros (c & H & _)|by intros [(c & H & _)|(c & H & _)]].
  - split; [split; [apply demo_inv1|vm_compute; reflexivity]|vm_compute; reflexivity].
  - apply rtc_once, (step_tf _ _ _ (SetBeforeSendHook hook_gold)).
    + split; [by intros (c & H & _)|by intros [(c & H & _)|(c & H & _)]].
    + apply run_ok. by vm_compute.
Defined.

(** * Messages *)

(** Bob tries to mint gold. *)
Definition bob_mints : tf_msg :=
  Mint {| MsgMint_Sender := "init1bob"; MsgMint_Amount := Coin gold 50; MsgMint_MintToAddress := "" |}.

Lemma only_admin_witness :
  demo_handle bob_mints demo_state1 = (Err ErrUnauthorized, demo_state1).
Proof.
  apply (only_admin "init1gov" bob_mints gold "init1bob" demo_state1).
  - reflexivity.
  - vm_compute. discriminate.
  - vm_compute. reflexivity.
  - vm_compute. by eexists.
  - vm_compute. by eexists.
Defined.

Definition create_silver : MsgCreateDenom :=
  {| MsgCreateDenom_Sender := alice; MsgCreateDenom_Subdenom := "silver" |}.
Definition silver : string := "factory/init1alice/silver".

(** Alice pays the fee of 7 stake and becomes the admin of silver. *)
Lemma CreateDenom_ok_witness :
  ∃ s2, MsgServer_CreateDenom create_silver demo_state1 = (Ok silver, s2) ∧
    DenomAuthority (tf s2) !! silver = Some {| Admin := alice |} ∧
    Balance "fee_collector" "stake" (world (ext s2)) = 7.
Proof.
  destruct (CreateDenom_ok create_silver demo_state1 silver
    (chargeForCreateDenom alice demo_state1).2) as (s2 & H & Ht & _).
  - vm_compute. reflexivity.
  - vm_compute. reflexivity.
  - vm_compute. reflexivity.
  - vm_compute. reflexivity.
  - apply run_ok. by vm_compute.
  - exists s2. split; [exact H|]. rw Ht. split; [by vm_compute|].
    assert (s2 = (MsgServer_CreateDenom create_silver demo_state1).2) as -> by by rw H.
    by vm_compute.
Defined.

Lemma CreateDenom_refused_witness :
  MsgServer_CreateDenom {| MsgCreateDenom_Sender := alice; MsgCreateDenom_Subdenom := "gold" |}
    demo_state1 = (Err ErrDenomExists, demo_state1).
Proof.
  apply (CreateDenom_refused {| MsgCreateDenom_Sender := alice; MsgCreateDenom_Subdenom := "gold" |}
    demo_state1) with (denom := gold).
  - vm_compute. reflexivity.
  - vm_compute. reflexivity.
  - vm_compute. reflexivity.
  - vm_compute. by eexists.
Defined.

Lemma Mint_ok_witness :
  ∃ s2, MsgServer_Mint mint50 demo_state1 = (Ok (), s2) ∧
    Balance "alice" gold (world (ext s2)) = Balance "alice" gold (world (ext demo_state1)) + 50.
Proof.
  destruct (Mint_ok mint50 demo_state1 "alice" "tokenfactory"
    (MintCoins ModuleName [MsgMint_Amount mint50] (ext demo_state1)).2
    (BaseSendCoins "tokenfactory" "alice" [MsgMint_Amount mint50]
      (MintCoins ModuleName [MsgMint_Amount mint50] (ext demo_state1)).2).2
    "init1tokenfactory" alice) as (s2 & H & _ & _ & Hb & _).
  - by vm_compute.
  - vm_compute. by eexists.
  - by vm_compute.
  - eexists. by vm_compute.
  - by vm_compute.
  - by vm_compute.
  - by vm_compute.
  - by vm_compute.
  - by vm_compute.
  - by vm_compute.
  - apply run_ok. by vm_compute.
  - apply run_ok. by vm_compute.
  - exists s2. split; [exact H|]. apply Hb.
Defined.

Definition burn20 : MsgBurn := {| MsgBurn_Sender := alice; MsgBurn_Amount := Coin gold 20 |}.

Lemma Burn_ok_witness :
  ∃ s2, MsgServer_Burn burn20 demo_state2 = (Ok (), s2) ∧
    Supply gold (world (ext s2)) = Supply gold (world (ext demo_state2)) - 20.
Proof.
  destruct (Burn_ok burn20 demo_state2 "alice" "tokenfactory" (ext demo_state2)
    (BaseSendCoins "alice" "tokenfactory" [MsgBurn_Amount burn20] (ext demo_state2)).2
    (BurnCoins ModuleName [MsgBurn_Amount burn20]
      (BaseSendCoins "alice" "tokenfactory" [MsgBurn_Amount burn20] (ext demo_state2)).2).2
    alice "init1tokenfactory") as (s2 & H & _ & Hs & _).
  - by vm_compute.
  - by vm_compute.
  - eexists. by vm_compute.
  - by vm_compute.
  - by vm_compute.
  - by vm_compute.
  - intros b. vm_compute. discriminate.
  - by vm_compute.
  - by vm_compute.
  - by vm_compute.
  - reflexivity.
  - apply run_ok. by vm_compute.
  - apply run_ok. by vm_compute.
  - exists s2. split; [exact H|]. apply Hs.
Defined.

(** * Hooks and sends *)

(** The contract keepers of the chain keep the limit of the meter they are given: the
    ones that make no call back. *)
Lemma demo_gas_laws : ContractGasLaws (demo_contracts 0).
Proof. done. Qed.

(** A contract keeper whose only contract refuses to be called, after using some gas. *)
Definition refusing : ContractKeeper demo_world demo_gas := λ a m s,
  let g := gas (ext s) in
  (Err (Errorf "refused" []), put_gas {| dg_limit := dg_limit g; dg_consumed := 20000 |} s).

Lemma refusing_gas_laws : ContractGasLaws refusing.
Proof. done. Qed.

(** A read that costs a thousand, or panics if that much gas is not left. *)
Definition read_1000 (d : string) : M demo_state string := λ s,
  let g := gas (ext s) in
  let g1 := {| dg_limit := dg_limit g; dg_consumed := dg_consumed g + 1000 |} in
  (if decide (dg_consumed g1 <= dg_limit g1) then (GetBeforeSendHook d s).1
   else Panic (ErrorOutOfGas "ReadFlat"), put_gas g1 s).

Lemma read_1000_charged : charged_read 1000 read_1000.
Proof.
  intros d s Hw. unfold read_1000. eexists. cbn. split; [done|]. split; [done|]. split; [cbn; lia|].
  case_decide; [by left|right; eauto].
Qed.

Lemma callBeforeSendListener_contained_witness :
  charged (1 * (1000 + 500000)) demo_state3
    (callBeforeSendListener_reading (CK:=refusing) read_1000 "alice" "carol" [Coin gold 5] false demo_state3).2.
Proof.
  apply (callBeforeSendListener_contained (CK:=refusing) (CGL:=refusing_gas_laws) 1000 read_1000
    ltac:(lia) read_1000_charged "alice" "carol" [Coin gold 5] false demo_state3
    (callBeforeSendListener_reading (CK:=refusing) read_1000 "alice" "carol" [Coin gold 5] false demo_state3).1).
  - vm_compute. discriminate.
  - apply surjective_pairing.
Defined.

Lemma safeSudo_spec_witness :
  gas_used_at_most 500000 demo_state3 (safeSudo (CK:=refusing) "hook" "{}" gold demo_state3).2.
Proof.
  set (child := put_events [] (put_gas (NewGasMeter
    (Z.min (GasRemaining (gas (ext demo_state3))) BeforeSendHookGasLimit)) demo_state3)).
  destruct (safeSudo_spec (CK:=refusing) (CGL:=refusing_gas_laws) "hook" "{}" gold demo_state3
    (refusing "hook" "{}" child).1 (refusing "hook" "{}" child).2) as (_ & _ & _ & _ & H).
  - vm_compute. discriminate.
  - apply surjective_pairing.
  - exact H.
Defined.

Lemma setBeforeSendHook_spec_witness :
  DenomHookAddr (tf (setBeforeSendHook gold "init1hook" demo_state2).2) !! gold = Some "init1hook".
Proof.
  destruct (setBeforeSendHook_spec gold "init1hook" demo_state2 (Ok ())
    (setBeforeSendHook gold "init1hook" demo_state2).2) as (H & _).
  - apply run_ok. by vm_compute.
  - destruct (H eq_refl) as (_ & _ & Ht). rw Ht. by vm_compute.
Defined.

(** Gold now has a hook that refuses: alice cannot send it, but a module can. *)
Example hook_refuses :
  is_ok (SendCoins app_bank "alice" "carol" [Coin gold 5] demo_state3).1 = false ∧
  is_ok (SendCoins app_bank "alice" "carol" [Coin gold 5] demo_state2).1 = true.
Proof. by vm_compute. Qed.

Lemma ModuleToModule_not_blockable_witness :
  ∃ s1, SendCoinsFromModuleToModule app_bank "mint" "tokenfactory" [Coin gold 0] demo_state3 =
    base_send "mint" "tokenfactory" [Coin gold 0] s1.
Proof.
  destruct (ModuleToModule_not_blockable "mint" "tokenfactory" [Coin gold 0] demo_state3
    "mint" "tokenfactory" (ext demo_state3)) as (s1 & H & _).
  - by vm_compute.
  - reflexivity.
  - exists s1. exact H.
Defined.

Definition multi : MsgMultiSend := {|
  MsgMultiSend_Inputs := [{| io_Address := alice; io_Coins := [Coin gold 5] |}];
  MsgMultiSend_Outputs := [{| io_Address := "init1bob"; io_Coins := [Coin gold 2] |};
                           {| io_Address := "init1carol"; io_Coins := [Coin gold 3] |}]
|}.

Lemma MultiSend_ok_witness :
  ∃ inAddr s2, StringToBytes alice = Ok inAddr ∧
    in_ext (InputOutputCoins {| io_Address := alice; io_Coins := [Coin gold 5] |}
      (MsgMultiSend_Outputs multi)) s2 = (Ok (), (BankMsgServer_MultiSend app_bank multi demo_state2).2).
Proof.
  destruct (MultiSend_ok {| io_Address := alice; io_Coins := [Coin gold 5] |}
    (MsgMultiSend_Outputs multi) demo_state2
    (BankMsgServer_MultiSend app_bank multi demo_state2).2) as (a & s2 & Ha & _ & Hio & _).
  - apply run_ok. by vm_compute.
  - exists a, s2. split; [exact Ha|exact Hio].
Defined.

Definition disable_gold : MsgSetSendEnabled := {|
  MsgSetSendEnabled_Authority := "init1gov";
  MsgSetSendEnabled_SendEnabled := [{| se_Denom := gold; se_Enabled := false |}];
  MsgSetSendEnabled_UseDefaultFor := []
|}.

Lemma SetSendEnabled_spec_witness :
  IsSendEnabledCoins [Coin gold 1]
    (world (ext (BankMsgServer_SetSendEnabled disable_gold demo_state2).2)) ≠ None.
Proof.
  destruct (SetSendEnabled_spec disable_gold demo_state2) as [H _]. rw H.
  - vm_compute. discriminate.
  - split_and!; [vm_compute; reflexivity|apply NoDup_singleton| |constructor].
    apply Forall_singleton. vm_compute. reflexivity.
Defined.

(** * Genesis *)

Lemma InitGenesis_ok_witness :
  ∃ s1, InitGenesis demo_genesis demo_state0 = (Ok (), s1) ∧ module_inv s1 ∧
    DenomHookAddr (tf s1) = ∅.
Proof.
  destruct (InitGenesis_ok demo_genesis demo_state0 (ext demo_state0) (Some "tokenfactory"))
    as (s1 & H & Hi & _ & Hh & _).
  - reflexivity.
  - vm_compute. reflexivity.
  - reflexivity.
  - exists s1. split; [exact H|]. split; [exact Hi|exact Hh].
Defined.

Lemma Export_InitGenesis_witness :
  ∃ s1 g1, InitGenesis demo_genesis demo_state0 = (Ok (), s1) ∧ ExportGenesis s1 = (Ok g1, s1) ∧
    gs_FactoryDenoms g1 ≡ₚ gs_FactoryDenoms demo_genesis.
Proof.
  destruct (Export_InitGenesis demo_genesis demo_state0 (ext demo_state0) (Some "tokenfactory"))
    as (s1 & g1 & H1 & H2 & _ & H3).
  - reflexivity.
  - vm_compute. reflexivity.
  - reflexivity.
  - exists s1, g1. split; [exact H1|]. split; [exact H2|exact H3].
Defined.

(** The module's invariant after alice registered the hook, from the helper lemmas. *)
Lemma demo_inv3 : module_inv demo_state3.
Proof.
  apply (reachable_keeps "init1gov" "fee_collector" (λ _, True) demo_contracts demo_levels module_inv
    (λ CK m Hm HS, handle_module_inv "init1gov" "fee_collector" (λ _, True) CK m Hm HS) 2 demo_state1).
  - by apply demo_history.
  - apply demo_inv1.
Qed.

(** * The messages of hooks *)

(** A blocking hook on gold, with a quote and a control character in the address. *)
Definition demo_sudo : BeforeSendSudoMsg :=
  BlockBeforeSendSudoMsg {| bs_From := alice; bs_To := String "010" (with_quotes "init1'bob'");
    bs_Amount := {| wc_Denom := gold; wc_Amount := "12" |} |}.

Lemma sudo_roundtrip_witness : read_sudo (marshal_sudo demo_sudo) = Some demo_sudo.
Proof.
  apply (sudo_roundtrip demo_sudo). repeat split; utf8_const.
Defined.

(** * Denoms *)

Lemma DeconstructDenom_GetTokenDenom_witness :
  DeconstructDenom "factory/INIT1alice/a/b" = Ok (alice, "a/b").
Proof.
  apply (DeconstructDenom_GetTokenDenom "INIT1alice" "a/b" "factory/INIT1alice/a/b" "alice" alice).
  - vm_compute. reflexivity.
  - vm_compute. reflexivity.
  - vm_compute. reflexivity.
Defined.

Lemma GetTokenDenom_inj_witness : alice = alice ∧ "gold" = "gold".
Proof.
  apply (GetTokenDenom_inj alice "gold" alice "gold" gold).
  - vm_compute. reflexivity.
  - vm_compute. reflexivity.
Defined.

Lemma queries_spec_witness :
  Query_DenomAuthorityMetadata gold demo_state3 = (Ok {| Admin := alice |}, demo_state3).
Proof.
  destruct (queries_spec demo_state3 alice gold) as (_ & H & _).
  - vm_compute. reflexivity.
  - vm_compute. reflexivity.
  - rw H. f_equal.
Defined.

(** A subdenom of 45 bytes. *)
Lemma GetTokenDenom_spec_witness :
  GetTokenDenom alice "aaaaaaaaaaaaaaaaaaaaaaaaaaaaaaaaaaaaaaaaaaaaa" = Err ErrSubdenomTooLong.
Proof.
  apply (GetTokenDenom_spec alice "aaaaaaaaaaaaaaaaaaaaaaaaaaaaaaaaaaaaaaaaaaaaa").
  vm_compute. reflexivity.
Defined.

Lemma UpdateParams_spec_witness :
  MsgServer_UpdateParams "init1gov"
    {| MsgUpdateParams_Authority := "init1gov"; MsgUpdateParams_Params := gs_Params demo_genesis |}
    demo_state0 = (Ok (), on_tf (set_ParamsItem (Some (gs_Params demo_genesis))) demo_state0).
Proof.
  apply (UpdateParams_spec "init1gov" {| MsgUpdateParams_Authority := "init1gov";
    MsgUpdateParams_Params := gs_Params demo_genesis |} demo_state0).
  split; [reflexivity|vm_compute; reflexivity].
Defined.
