(* ===== verification/GogoWitnesses.v ===== *)
(** The theorems on the gogoproto messages applied: the coin of the SDK is two strings, its
    denom and its amount in decimal, here below a hundred; of a metadata the description and
    the base are written. *)
From S2P Require Import Prelude.
From S2P Require Import Interfaces.
From S2P Require Import TfTypes.
From S2P Require Import GoJson.
From S2P Require Import JsonScan.
From S2P Require Import Wire.
From S2P Require Import WireSpec.
From S2P Require Import WireRead.
From S2P Require Import GogoRuntime.
From S2P Require Import ApiState.
From S2P Require Import ApiTx.
From S2P Require Import ApiQuery.
From S2P Require Import ApiWasm.
From S2P Require Import ApiSpec.
From S2P Require Import GogoWire.
From S2P Require Import GogoState.
From S2P Require Import GogoTx.
From S2P Require Import GogoQuery.
From S2P Require Import GogoWasm.
From S2P Require Import WasmExt.
From S2P Require Import GogoSpec.
From S2P Require Import GogoService.
From S2P Require Import TfKeeper.
From S2P Require Import Bank.
From S2P Require Import TfMsgServer.
From S2P Require Import Wiring.
From S2P Require Import Chain.
From S2P Require Import Instances.
From S2P Require Import Witnesses.
From S2P Require Import WireWitnesses.

#[local] Existing Instances demo_messages demo_messages_laws demo_contract demo_pool.

(** * A message written as another *)

Section through.
Context {A B : Type} {GM : GogoMessage B} {GL : GogoLaws B GM}.
Context (zero : A) (f : A → B) (g : B → option A) (ok : A → Prop).
Hypothesis Hgf : ∀ a, ok a → g (f a) = Some a ∧ gogo_ok (f a).

Definition through : GogoMessage A := {|
  gogo_new := zero; gogo_Size a := gogo_Size (f a);
  gogo_MarshalToSizedBuffer a := gogo_MarshalToSizedBuffer (f a);
  gogo_Unmarshal bz := λ a,
    match gogo_Unmarshal bz gogo_new with
    | (Ok _, b) => match g b with Some a' => (Ok (), a') | None => (Err (Errorf "not a number" []), a) end
    | (Err e, _) => (Err e, a)
    | (Panic p, _) => (Panic p, a)
    end
|}.

Lemma through_reads a :
  ok a → len (gogo_enc (f a)) < 2 ^ 63 → @gogo_Unmarshal _ through (gogo_enc (f a)) zero = (Ok (), a).
Proof. intros Ha Hl. destruct (Hgf a Ha) as [Hg Hok]. cbn. by rw gogo_reads // Hg. Qed.

Lemma through_total bz a : len bz < 2 ^ 63 → no_panic (@gogo_Unmarshal _ through bz a).1.
Proof.
  intros Hl. pose proof (gogo_total bz gogo_new Hl) as H. cbn.
  destruct (gogo_Unmarshal bz gogo_new) as [[] b]; try done. by destruct (g b).
Qed.

Definition through_laws : GogoLaws A through.
Proof.
  refine {| gogo_enc a := gogo_enc (f a); gogo_ok := ok; gogo_reads := through_reads; gogo_total := through_total |}.
  - intros a. exact (gogo_writes (f a)).
  - intros a. exact (gogo_size (f a)).
Defined.
End through.

(** * The coin and the metadata *)

Definition amounts : list Z := Z.of_nat <$> seq 0 100.

Definition coin_strings (c : coin) : MsgCreateDenom :=
  {| MsgCreateDenom_Sender := coin_Denom c; MsgCreateDenom_Subdenom := pretty (coin_Amount c) |}.
Definition strings_coin (m : MsgCreateDenom) : option coin :=
  Coin (MsgCreateDenom_Sender m) <$> List.find (λ n, bool_decide (pretty n = MsgCreateDenom_Subdenom m)) amounts.

Lemma amounts_read : Forall (λ n, List.find (λ k, bool_decide (pretty k = pretty n)) amounts = Some n) amounts.
Proof. eapply bool_decide_unpack. by vm_compute. Qed.

Lemma coin_through c : coin_Amount c ∈ amounts → strings_coin (coin_strings c) = Some c ∧ gogo_ok (coin_strings c).
Proof.
  intros Hc. split; [|done]. destruct c as [d n]. unfold strings_coin, coin_strings.
  cbn [coin_Denom coin_Amount MsgCreateDenom_Sender MsgCreateDenom_Subdenom] in *.
  pose proof amounts_read as H. rw Forall_forall in H. by rw (H n Hc).
Qed.

Definition only_base (description base : string) : Metadata := {|
  md_Description := description; md_DenomUnits := []; md_Base := base; md_Display := ""; md_Name := "";
  md_Symbol := ""; md_URI := ""; md_URIHash := "" |}.

Definition metadata_strings (m : Metadata) : MsgCreateDenom :=
  {| MsgCreateDenom_Sender := md_Description m; MsgCreateDenom_Subdenom := md_Base m |}.
Definition strings_metadata (m : MsgCreateDenom) : option Metadata :=
  Some (only_base (MsgCreateDenom_Sender m) (MsgCreateDenom_Subdenom m)).

Lemma metadata_through m : m = only_base (md_Description m) (md_Base m) →
  strings_metadata (metadata_strings m) = Some m ∧ gogo_ok (metadata_strings m).
Proof. intros ->. done. Qed.

#[local] Instance demo_gogo : SdkGogo := {|
  Coin_gogo := through (Coin "" 0) coin_strings strings_coin;
  Metadata_gogo := through (only_base "" "") metadata_strings strings_metadata
|}.

#[local] Instance demo_gogo_laws : SdkGogoLaws demo_gogo := {|
  Coin_gogo_laws := through_laws (Coin "" 0) coin_strings strings_coin (λ c, coin_Amount c ∈ amounts) coin_through;
  Metadata_gogo_laws := through_laws (only_base "" "") metadata_strings strings_metadata _ metadata_through
|}.

(** The coin of the API has the same two strings. *)
#[local] Instance demo_coin_interop : Interop coin ApiCoin.
Proof.
  refine {| to_api c := MsgCreateDenom_to_api (coin_strings c) |}.
  - intros c. exact (@interop_enc _ _ _ _ _ _ MsgCreateDenom_interop (coin_strings c)).
  - intros c Hc. exact (@interop_ok _ _ _ _ _ _ MsgCreateDenom_interop (coin_strings c) I).
Defined.

#[local] Instance demo_metadata_interop : Interop Metadata ApiMetadata.
Proof.
  refine {| to_api m := MsgCreateDenom_to_api (metadata_strings m) |}.
  - intros m. exact (@interop_enc _ _ _ _ _ _ MsgCreateDenom_interop (metadata_strings m)).
  - intros m Hm. exact (@interop_ok _ _ _ _ _ _ MsgCreateDenom_interop (metadata_strings m) I).
Defined.

(** * The theorems at a message that mints 50 gold *)

Abbreviation gogo_mint := mint50 (only parsing).

Lemma demo_unknown_raw : raw_fields MsgMint_field demo_unknown.
Proof.
  rw -(app_nil_r demo_unknown). constructor; [|done|constructor].
  exists 9, 2, (varint 5 ++ to_raw "later"). split; [reflexivity|]. split; [lia|]. split; [lia|]. split; [lia|].
  split; [reflexivity|].
  intros rest. exact (skipTx_delimited 9 (to_raw "later") rest ltac:(done) ltac:(by vm_compute)).
Qed.

Lemma gogo_api_interop_witness :
  ∃ bz, gogo_Marshal gogo_mint = Ok bz ∧
    v1_MsgMint_marshal (Some (MsgMint_to_api gogo_mint)) [] = (Ok (), bz) ∧
    MsgMint_Unmarshal bz MsgMint_new = (Ok (), gogo_mint) ∧
    MsgMint_Unmarshal (bz ++ demo_unknown) MsgMint_new = (Ok (), gogo_mint).
Proof.
  destruct (gogo_api_interop MsgMint_gogo_codec gogo_mint) as (bz & H1 & H2 & H3 & _ & H5).
  - apply (list_elem_of_lookup_2 _ 6). reflexivity.
  - cbn. unfold MsgMint_ok. eapply bool_decide_unpack. by vm_compute.
  - vm_compute. reflexivity.
  - exists bz. split_and!; [exact H1|exact H2|exact H3|]. apply H5.
    + exact demo_unknown_raw.
    + rw gogo_Marshal_enc in H1. injection H1 as <-. vm_compute. reflexivity.
Defined.

Lemma gogo_unmarshal_total_witness :
  no_panic (MsgMint_Unmarshal [chr 18; chr 255; chr 255; chr 255; chr 255; chr 15; chr 0] MsgMint_new).1.
Proof.
  apply (gogo_unmarshal_total MsgMint_gogo_codec); [|by vm_compute].
  apply (list_elem_of_lookup_2 _ 6). reflexivity.
Defined.

(** ** A gRPC in memory *)

Section grpc.
Context {S : Type}.

(** The bytes are handed to the method with that name. *)
Definition serve_method (md : MethodDesc S) (i : option (interceptor S)) (bz : raw) : M S raw :=
  let! res := Handler md (@gogo_Unmarshal _ (Req_gogo md) bz) i in lift (@gogo_Marshal _ (Res_gogo md) res).

Definition named_methods (services : list (ServiceDesc S)) : list (string * MethodDesc S) :=
  services ≫= λ sd, (λ md, (full_method (ServiceName sd) (MethodName md), md)) <$> ServiceMethods sd.

Definition demo_grpc : GrpcLib S := {|
  Invoke A B GA GB cc method req out :=
    let! bz := lift (gogo_Marshal req) in
    let! answer := cc method bz in
    lift (match gogo_Unmarshal answer out with
          | (Ok _, res) => Ok res | (Err e, _) => Err e | (Panic p, _) => Panic p end);
  grpc_serve services i method bz :=
    match List.find (λ m, bool_decide (m.1 = method)) (named_methods services) with
    | Some (_, md) => serve_method md i bz
    | None => fail (Errorf "unknown method %s" [method])
    end
|}.

Lemma named_methods_names services : fst <$> named_methods services = services ≫= method_names.
Proof.
  induction services as [|sd services IH]; [done|]. cbn. rw fmap_app. f_equal; [|exact IH].
  unfold method_names. by rw -list_fmap_compose.
Qed.

(** A method is found when no name occurs twice. *)
Lemma find_named (l : list (string * MethodDesc S)) name md :
  NoDup (fst <$> l) → (name, md) ∈ l → List.find (λ m, bool_decide (m.1 = name)) l = Some (name, md).
Proof.
  induction l as [|[n x] l IH]; intros Hnd Hin; [by apply elem_of_nil in Hin|].
  apply NoDup_cons in Hnd as [Hn Hnd]. cbn. apply elem_of_cons in Hin as [[= -> ->]|Hin].
  - by rw bool_decide_true.
  - rw bool_decide_false; [by apply IH|]. intros ->. apply Hn. by apply (list_elem_of_fmap_2 fst _ (name, md)).
Qed.

Lemma demo_grpc_laws : GrpcLaws S demo_grpc.
Proof.
  split; [done|]. intros services i sd md bz s Hnd Hsd Hmd. cbn.
  rw -named_methods_names in Hnd. rw (find_named _ _ md Hnd) //.
  apply list_elem_of_bind. exists sd. split; [|done].
  by apply (list_elem_of_fmap_2 (λ md, (full_method (ServiceName sd) (MethodName md), md))).
Qed.
End grpc.

#[local] Existing Instances demo_grpc demo_grpc_laws.

(** The services of the two modules, registered on one server. *)
Definition demo_services : list (ServiceDesc demo_state) :=
  wasmextension_RegisterMsgServer
    (RegisterQueryServer (RegisterMsgServer [] (NewMsgServerImpl "init1gov")) NewQuerier)
    (λ _, fail ErrUnauthorized).

Lemma demo_services_names : NoDup (demo_services ≫= method_names).
Proof. apply services_coexist; [constructor|]. by intros sd m ?%elem_of_nil. Qed.

(** Alice's message reaches the handler over a connection: 50 gold are minted. *)
Lemma api_message_handled_witness :
  ∃ bz out, (api_request (Mint mint50)).2 = Ok bz ∧
    grpc_serve demo_services None "/miniwasm.tokenfactory.v1.Msg/Mint" bz demo_state1 = (Ok out, demo_state2).
Proof.
  destruct (api_message_handled "init1gov" demo_services (Mint mint50) demo_state1) as (bz & out & Hbz & H).
  - apply demo_services_names.
  - apply list_elem_of_here.
  - split; [|by vm_compute]. cbn. unfold MsgMint_ok. eapply bool_decide_unpack. by vm_compute.
  - exists bz, out. split; [exact Hbz|].
    assert (handle "init1gov" (Mint mint50) demo_state1 = (Ok (), demo_state2)) as E by (apply run_ok; by vm_compute).
    rw E in H. exact H.
Defined.

(** An interceptor that lets requests through; the params of a chain with a fee are asked for. *)
Definition pass {S} : interceptor S := λ _ _ _ req handler, handler req.

Lemma demo_params_item :
  ParamsItem (tf demo_state1) =
  Some {| DenomCreationFee := [Coin "stake" 7]; DenomCreationGasConsume := 1000 |}.
Proof. by vm_compute. Qed.

Lemma demo_params :
  q_Params NewQuerier Mk_QueryParamsRequest demo_state1 =
  (Ok {| QueryParamsResponse_Params := {| DenomCreationFee := [Coin "stake" 7]; DenomCreationGasConsume := 1000 |} |},
   demo_state1).
Proof. unfold NewQuerier, q_Params, Query_Params, GetParams, bind, gets, ret. cbn. by rw demo_params_item. Qed.

Lemma clients_reach_servers_witness :
  q_Params (NewQueryClient (grpc_serve demo_services (Some pass))) Mk_QueryParamsRequest demo_state1 =
  q_Params NewQuerier Mk_QueryParamsRequest demo_state1.
Proof.
  destruct (clients_reach_servers (NewMsgServerImpl "init1gov") NewQuerier (λ _, fail ErrUnauthorized)
    demo_services (Some (pass (S:=demo_state)))) as (_ & H & _); [apply demo_services_names|].
  destruct H as [H _]; [apply list_elem_of_further, list_elem_of_here|].
  apply (H Mk_QueryParamsRequest demo_state1).
  - exact I.
  - by vm_compute.
  - intros res s'. unfold intercepted, pass. rw demo_params. intros [= <- _]. split; [|by vm_compute].
    split; [|by cbn; unfold is_uint64, max_uint64; lia].
    constructor; [|constructor]. cbn. eapply bool_decide_unpack. by vm_compute.
Defined.
