(* ===== verification/StoreWitnesses.v ===== *)
(** The theorem on the store in bytes applied, with collections that do what the laws say. *)
From S2P Require Import Prelude.
From S2P Require Import Interfaces.
From S2P Require Import TfTypes.
From S2P Require Import GoJson.
From S2P Require Import TfKeeper.
From S2P Require Import TfMsgServer.
From S2P Require Import Wire.
From S2P Require Import WireSpec.
From S2P Require Import GogoRuntime.
From S2P Require Import GogoWire.
From S2P Require Import GogoState.
From S2P Require Import Store.
From S2P Require Import StoreSpec.
From S2P Require Import Chain.
From S2P Require Import Instances.
From S2P Require Import Witnesses.
From S2P Require Import GogoWitnesses.

#[local] Existing Instances demo_contract demo_gogo demo_gogo_laws.

(** * Collections *)

Definition string_key : key_codec string := {|
  key_enc s := Ok (to_raw s);
  key_nonterminal s := if mem_byte "000" s then Err ErrEncoding else Ok (to_raw s ++ ["000"%char]);
  key_dec bz := Ok (of_raw bz)
|}.

(** What stands before and after the first zero byte. *)
Fixpoint split_zero (bz : raw) : option (raw * raw) :=
  match bz with
  | [] => None
  | a :: bz => if bool_decide (a = "000"%char) then Some ([], bz)
               else match split_zero bz with Some (x, y) => Some (a :: x, y) | None => None end
  end.

Definition pair_key (c1 c2 : key_codec string) : key_codec (string * string) := {|
  key_enc k := let? x := key_nonterminal c1 k.1 in let? y := key_enc c2 k.2 in Ok (x ++ y);
  key_nonterminal _ := Err ErrEncoding;
  key_dec bz := match split_zero bz with
                | Some (x, y) => let? a := key_dec c1 x in let? b := key_dec c2 y in Ok (a, b)
                | None => Err ErrEncoding end
|}.

Lemma split_zero_delimited x y : "000"%char ∉ x → split_zero (x ++ "000"%char :: y) = Some (x, y).
Proof.
  induction x as [|a x IH]; [done|]. rw not_elem_of_cons. intros [Ha Hx]. cbn.
  rw bool_decide_eq_false_2; [by rw IH|]. by intros ->.
Qed.

#[export] Instance demo_collections : Collections := {|
  StringKey := string_key; PairKeyCodec := pair_key;
  StringValue := {| val_enc v := Ok (to_raw v); val_dec bz := Ok (of_raw bz) |};
  CollValue A GM := {|
    val_enc v := gogo_Marshal v;
    val_dec bz := match gogo_Unmarshal bz gogo_new with
                  | (Ok _, v) => Ok v | (Err e, _) => Err e | (Panic p, _) => Panic p end |};
  map_Get K V p kc vc k := λ kv,
    (let? kb := key_enc kc k in match kv !! (p ++ kb) with Some bz => val_dec vc bz | None => Err ErrNotFound end, kv);
  map_Set K V p kc vc k v :=
    let! kb := lift (key_enc kc k) in let! vb := lift (val_enc vc v) in modify (λ kv, <[p ++ kb := vb]> kv);
  map_Remove K V p kc vc k := let! kb := lift (key_enc kc k) in modify (λ kv, delete (p ++ kb) kv);
  item_Get V p vc := λ kv, (match kv !! p with Some bz => val_dec vc bz | None => Err ErrNotFound end, kv);
  item_Set V p vc v := let! vb := lift (val_enc vc v) in modify (λ kv, <[p := vb]> kv);
  keyset_Set K p kc k := let! kb := lift (key_enc kc k) in modify (λ kv, <[p ++ kb := []]> kv);
  keyset_Walk p c1 c2 range := λ kv,
    (match range with
     | None => decode_keys (pair_key c1 c2) p (scan p kv)
     | Some a => let? x := key_nonterminal c1 a in decode_keys (pair_key c1 c2) p (scan (p ++ x) kv)
     end, kv)
|}.

#[export] Instance demo_collections_laws : CollectionsLaws.
Proof.
  split; try done.
  - intros [a b] bz. cbn. destruct (mem_byte "000" a) eqn:Ha; [done|]. cbn. intros [= <-].
    rw -app_assoc split_zero_delimited; [|by apply mem_byte_to_raw]. cbn. by rw !of_to_raw.
  - intros K V p kc vc k kb kv Hk. cbn. by rw Hk.
  - intros K V p kc vc k v kb vb kv Hk Hv. cbn. unfold bind, lift, modify. by rw Hk Hv.
  - intros K V p kc vc k kb kv Hk. cbn. unfold bind, lift, modify. by rw Hk.
  - intros V p vc v vb kv Hv. cbn. unfold bind, lift, modify. by rw Hv.
Qed.

(** * A history *)

(** Two denoms of one creator and one of another, parameters, a hook that is set and taken
    off, and a creator that has no key. *)
Definition demo_calls : list store_call :=
  [CallGetParams; CallSetParams {| DenomCreationFee := [Coin "stake" 7]; DenomCreationGasConsume := 1000 |};
   CallAddDenom "init1bob" "factory/init1bob/tin"; CallAddDenom "init1al" "factory/init1al/gold";
   CallAddDenom "init1al" "factory/init1al/bronze"; CallGetAuthority "factory/init1al/gold";
   CallSetAuthority "factory/init1al/gold" {| Admin := "init1al" |};
   CallSetAuthority "factory/init1al/bronze" {| Admin := "init1al" |};
   CallSetAuthority "factory/init1bob/tin" {| Admin := "" |};
   CallSetAdmin "factory/init1al/gold" "init1bob"; CallWriteHook "factory/init1al/gold" "init1hook";
   CallGetHook "factory/init1al/gold"; CallWriteHook "factory/init1al/gold" ""; CallGetHook "factory/init1al/gold";
   CallDenoms "init1al"; CallDenoms (String "000" "init1al"); CallExport].

Definition demo_fresh : demo_state := State empty_store (ext demo_state1).

Lemma demo_calls_fit : Forall call_fits demo_calls.
Proof.
  repeat constructor; by vm_compute.
Qed.

Lemma store_refines_witness :
  (outcomes call_store demo_calls ∅).1 = (outcomes (call_keeper (W:=demo_world) (G:=demo_gas)) demo_calls demo_fresh).1.
Proof.
  apply (store_refines demo_calls demo_fresh); [reflexivity|exact demo_calls_fit].
Defined.

(** The denoms of a creator come in the order of their bytes. *)
Lemma demo_names :
  (outcomes call_store demo_calls ∅).1 !! 14%nat =
    Some (Ok (Names ["factory/init1al/bronze"; "factory/init1al/gold"])).
Proof. by vm_compute. Qed.
