(* ===== verification/IbcWitnesses.v ===== *)
(** The theorems on the wasm hooks of IBC, applied on a concrete chain: packets, keepers
    and contracts are instances that can be evaluated. *)
From S2P Require Import Prelude.
From S2P Require Import Interfaces.
From S2P Require Import TfTypes.
From S2P Require Import JsonScan.
From S2P Require Import IbcHooks.
From S2P Require Import IbcSpec.
From S2P Require Import GoJson.
From S2P Require Import JsonRoundtrip.
From S2P Require Import JsonAny.
From S2P Require Import IbcSend.
From S2P Require Import Instances.

(** * A small chain *)

(** The callbacks that are registered, the contract calls made and the notifications. *)
Record ibc_world := {
  iw_callbacks : gmap (string * string * Z) string;
  iw_calls : list MsgExecuteContract;
  iw_sudos : list (string * string)
}.

Abbreviation ibc_env := (env ibc_world demo_gas).

(** The text of a packet is its denom, amount, sender, receiver and memo, in lines. *)
Definition newline : ascii := ascii_of_N 10.

Definition demo_decode_ics20 (bz : bytes) : option FungibleTokenPacketData :=
  match split_on newline bz with
  | [d; a; s; r; m] => Some {| ft_Denom := d; ft_Amount := a; ft_Sender := s; ft_Receiver := r; ft_Memo := m |}
  | _ => None
  end.

(** A message is a JSON object; its contract is the member of that name. *)
Definition demo_decode_msg (prev : option MsgExecuteContract) (raw : string) :
    MsgExecuteContract + goerror :=
  match json_decode raw with
  | Some (JObject l) =>
      let text k := default "" (members_map l !! k ≫= json_unquote) in
      inl {| mec_Sender := text "sender"; mec_Contract := text "contract"; mec_Msg := text "msg";
             mec_Funds := [] |}
  | _ => inr (Errorf "json: not an object" [])
  end.

#[export] Instance demo_ibc_types : IbcTypes unit := {|
  decode_ics20 := demo_decode_ics20;
  ics20_GetBytes := λ d,
    join (String newline "") [ft_Denom d; ft_Amount d; ft_Sender d; ft_Receiver d; ft_Memo d];
  decode_ics721 := λ _, None;
  ics721_GetBytes := λ _, "";
  nft_Sender := λ _, "";
  nft_Receiver := λ _, "";
  nft_Memo := λ _, "";
  nft_SetReceiver := λ _ d, d;
  decode_MsgExecuteContract := demo_decode_msg;
  MsgExecuteContract_ValidateBasic := λ _, None;
  ReceiverChainIsSource := λ p c d, has_prefix (p +:+ "/" +:+ c +:+ "/") d;
  GetDenomPrefix := λ p c, p +:+ "/" +:+ c +:+ "/";
  ParseDenomTrace := λ d,
    match split_on "/" d with
    | [b] => ("", b)
    | l => (join "/" (take (length l - 1) l), default "" (last l))
    end;
  IsNativeDenom := λ t, is_empty t.1;
  IBCDenom := λ t, "ibc/" +:+ t.1 +:+ "/" +:+ t.2;
  address_Hash := λ p b, p +:+ ":" +:+ b;
  NewIntFromString := λ s, if decide (s = "100") then Some 100 else None;
  NewCoin := λ d n, Ok (Coin d n);
  decode_ack_success := λ b, Some (has_prefix "result" b)
|}.

(** The contract at "ok" accepts calls and notifications, the contract at "bad" refuses
    them; both are on the access list. *)
#[export] Instance demo_ibc_keepers : IbcKeepers ibc_world demo_gas := {|
  App_OnRecvPacket := λ _ _ e, (Ok (Some (AppAck true "result")), e);
  App_OnAcknowledgementPacket := λ _ _ _ e, (Ok (), e);
  App_OnTimeoutPacket := λ _ _ e, (Ok (), e);
  GetAllowed := λ a e, (Ok (bool_decide (a ∈ ["ok"; "bad"])), e);
  GetAsyncCallback := λ p c n e,
    match iw_callbacks (world e) !! (p, c, n) with
    | Some cb => (Ok cb, e)
    | None => (Err ErrNotFound, e)
    end;
  RemoveAsyncCallback := λ p c n e,
    (Ok (), Env {| iw_callbacks := delete (p, c, n) (iw_callbacks (world e));
                   iw_calls := iw_calls (world e); iw_sudos := iw_sudos (world e) |} (gas e) (events e));
  HasIBCToL2DenomMap := λ _ e, (Ok false, e);
  GetIBCToL2DenomMap := λ d e, (Ok d, e);
  ExecuteContract := λ m e,
    if decide (mec_Contract m = "init1ok") then
      (Ok (), Env {| iw_callbacks := iw_callbacks (world e); iw_calls := iw_calls (world e) ++ [m];
                     iw_sudos := iw_sudos (world e) |} (gas e) (events e))
    else (Err (Errorf "refused" []), e);
  WasmSudo := λ a m e,
    let e1 := Env {| iw_callbacks := iw_callbacks (world e); iw_calls := iw_calls (world e);
                     iw_sudos := iw_sudos (world e) ++ [(a, m)] |} (gas e) (events e) in
    if decide (a = "ok") then (Ok "", e1) else (Err (Errorf "refused" []), e1)
|}.

#[export] Instance demo_transfer_laws : TransferLaws.
Proof. done. Qed.

Definition ibc_env0 : ibc_env :=
  Env {| iw_callbacks := {[("transfer", "channel-1", 7) := "init1ok"; ("transfer", "channel-1", 8) := "init1bad"]};
         iw_calls := []; iw_sudos := [] |} {| dg_limit := 100; dg_consumed := 0 |} [].

(** A transfer of 100 uinit from osmo1x to the contract, which names another sender. *)
Definition demo_memo : string :=
  with_quotes "{'wasm': {'message': {'sender': 'init1victim', 'contract': 'init1ok', 'msg': 'go'}}}".

Definition demo_data (receiver memo : string) : FungibleTokenPacketData :=
  {| ft_Denom := "uosmo"; ft_Amount := "100"; ft_Sender := "osmo1x"; ft_Receiver := receiver;
     ft_Memo := memo |}.

Definition demo_packet (n : Z) (receiver memo : string) : Packet :=
  {| Sequence := n; SourcePort := "transfer"; SourceChannel := "channel-1";
     DestinationPort := "transfer"; DestinationChannel := "channel-2";
     PacketData := ics20_GetBytes (demo_data receiver memo) |}.

Definition demo_msg : MsgExecuteContract :=
  {| mec_Sender := "init1victim"; mec_Contract := "init1ok"; mec_Msg := "go"; mec_Funds := [] |}.

(** * Witnesses *)

Lemma demo_asks_for receiver : receiver ∈ [""; "init1ok"] →
  asks (demo_packet 1 receiver demo_memo) (ICS20Data (demo_data receiver demo_memo)) demo_msg.
Proof.
  rw elem_of_cons list_elem_of_singleton. intros [->| ->]; (split; [by vm_compute|]); exists ""; by vm_compute.
Qed.

Lemma receive_success_witness :
  ∃ funds e2 e3, received_coins (demo_packet 1 "init1ok" demo_memo) (demo_data "init1ok" demo_memo) e2 funds e3 ∧
    execMsg (hooked_call (demo_packet 1 "init1ok" demo_memo)
      (ICS20Data (demo_data "init1ok" demo_memo)) demo_msg funds) e3 =
    (Ok (), (OnRecvPacketOverride (demo_packet 1 "init1ok" demo_memo) "relayer" ibc_env0).2).
Proof.
  destruct (receive_success (demo_packet 1 "init1ok" demo_memo) "relayer"
    (ICS20Data (demo_data "init1ok" demo_memo)) demo_msg ibc_env0 (AppAck true "result")
    (OnRecvPacketOverride (demo_packet 1 "init1ok" demo_memo) "relayer" ibc_env0).2)
    as (addr & e1 & e2 & funds & e3 & _ & _ & _ & _ & Hf & H).
  - apply demo_asks_for. set_solver.
  - vm_compute. reflexivity.
  - reflexivity.
  - exists funds, e2, e3. split; [exact Hf|exact H].
Defined.

(** The call was made by the intermediate account, with the coins of the packet. *)
Example receive_call :
  iw_calls (world (OnRecvPacketOverride (demo_packet 1 "init1ok" demo_memo) "relayer" ibc_env0).2) =
  [{| mec_Sender := DeriveIntermediateSender "channel-2" "osmo1x"; mec_Contract := "init1ok";
      mec_Msg := "go"; mec_Funds := [Coin "ibc/transfer/channel-2/uosmo" 100] |}].
Proof. by vm_compute. Qed.

(** A blank receiver is refused. *)
Lemma receive_refused_witness :
  ∃ err, OnRecvPacketOverride (demo_packet 1 "" demo_memo) "relayer" ibc_env0 =
    (Ok (Some (newEmitErrorAcknowledgement err)), ibc_env0).
Proof.
  destruct (receive_refused (demo_packet 1 "" demo_memo) "relayer"
    (ICS20Data (demo_data "" demo_memo)) ibc_env0) as [_ H]; [apply demo_asks_for; set_solver|].
  destruct (H demo_msg) as (_ & H2 & _); [apply demo_asks_for; set_solver|].
  destruct (H2 "ok") as (_ & _ & H3); [vm_compute; reflexivity|].
  apply (H3 ibc_env0); [vm_compute; reflexivity|vm_compute; discriminate].
Defined.

Lemma receive_passes_through_witness :
  OnRecvPacketOverride (demo_packet 1 "init1bob" "hello") "relayer" ibc_env0 =
    App_OnRecvPacket (demo_packet 1 "init1bob" "hello") "relayer" ibc_env0.
Proof.
  apply receive_passes_through.
  - intros d Hd. vm_compute in Hd. injection Hd as <-. vm_compute. reflexivity.
  - intros d Hd. vm_compute in Hd. discriminate Hd.
Defined.

Lemma DeriveIntermediateSender_inj_witness :
  ("channel-2" = "channel-2" ∧ "osmo1x" = "osmo1x") ∨
  ∃ x y, x ≠ y ∧ AccAddress_String (address_Hash senderPrefix x) =
                 AccAddress_String (address_Hash senderPrefix y).
Proof.
  apply (DeriveIntermediateSender_inj "channel-2" "osmo1x" "channel-2" "osmo1x").
  - vm_compute. reflexivity.
  - vm_compute. reflexivity.
  - reflexivity.
Defined.

Lemma LocalDenom_spec_witness :
  LocalDenom (demo_packet 1 "" "") "uosmo" = Ok "ibc/transfer/channel-2/uosmo".
Proof.
  destruct (LocalDenom_spec (demo_packet 1 "" "")) as (_ & H & _). rw H.
  - vm_compute. reflexivity.
  - vm_compute. reflexivity.
Defined.

Lemma callbacks_fail_only_by_panic_witness :
  (handleOnAck (demo_packet 8 "" "") "result" "relayer" ibc_env0).1 = Ok () ∨
  ∃ p, (handleOnAck (demo_packet 8 "" "") "result" "relayer" ibc_env0).1 = Panic p ∧
    callback_panics (demo_packet 8 "" "") (ack_sudo_msg (demo_packet 8 "" "") "result") ibc_env0 p.
Proof.
  apply (callbacks_fail_only_by_panic (demo_packet 8 "" "") "result" "relayer" ibc_env0 ibc_env0).
  vm_compute. reflexivity.
Defined.

(** The packet with sequence 8 has a callback that refuses: its effects are dropped. *)
Lemma handleOnAck_callback_witness :
  ∃ ev, handleOnAck (demo_packet 8 "" "") "result" "relayer" ibc_env0 =
    (Ok (), Env {| iw_callbacks := {[("transfer", "channel-1", 7) := "init1ok"]};
                   iw_calls := []; iw_sudos := [] |} {| dg_limit := 100; dg_consumed := 0 |} [ev]).
Proof.
  eexists. rw (handleOnAck_callback (demo_packet 8 "" "") "result" "relayer" ibc_env0 ibc_env0
    "init1bad" ibc_env0 (Ok ())
    (RemoveAsyncCallback "transfer" "channel-1" 8 ibc_env0).2 "bad"
    (Env (world (RemoveAsyncCallback "transfer" "channel-1" 8 ibc_env0).2) (gas ibc_env0) [])).
  - vm_compute. reflexivity.
  - reflexivity.
  - vm_compute. reflexivity.
  - reflexivity.
  - discriminate.
  - vm_compute. reflexivity.
  - vm_compute. reflexivity.
Defined.

(** * Sending *)

(** The sequence of the next packet is 9; what is sent is in the events. *)
#[export] Instance demo_send_types : IbcSendTypes unit := {|
  nft_SetMemo := λ _ d, d;
  encode_MsgExecuteContract := λ m,
    Ok (json_marshal (JStruct [("sender", JString (mec_Sender m)); ("contract", JString (mec_Contract m));
                               ("msg", JString (mec_Msg m))]))
|}.

#[export] Instance demo_ics4 : Ics4 ibc_world demo_gas unit Z := {|
  ICS4_SendPacket := λ _ p c _ _ d e, (Ok 9, Env (world e) (gas e) (events e ++ [NewEvent "send_packet" [(c, d)]]));
  SetAsyncCallback := λ p c n cb e,
    (Ok (), Env {| iw_callbacks := <[(p, c, n) := cb]> (iw_callbacks (world e));
                   iw_calls := iw_calls (world e); iw_sudos := iw_sudos (world e) |} (gas e) (events e))
|}.

Definition demo_callbacks (w : ibc_world) (p c : string) (n : Z) : option bytes := iw_callbacks w !! (p, c, n).

#[export] Instance demo_callback_store : CallbackStore (Cap:=unit) (Height:=Z) demo_callbacks.
Proof.
  constructor; unfold demo_callbacks; cbn [GetAsyncCallback SetAsyncCallback RemoveAsyncCallback demo_ibc_keepers demo_ics4].
  - intros p c n e cb e1. by destruct (iw_callbacks (world e) !! (p, c, n)); intros [= <- <-].
  - intros p c n e err e1. by destruct (iw_callbacks (world e) !! (p, c, n)); intros [= <- <-].
  - intros p c n cb e e1 [= <-]. cbn. by rw lookup_insert_eq.
  - intros p c n e r e1 [= <- <-] _. cbn. by rw lookup_delete_eq.
Qed.

Definition demo_send_memo : string :=
  with_quotes "{'wasm': {'message': {'sender': 'init1victim', 'contract': 'init1ok', 'msg': 'go'}, 'async_callback': 'init1ok'}, 'forward': {'id': 9007199254740993, 'n': 1e400}}".

Definition demo_sent_memo : string :=
  with_quotes "{'forward':{'id':9007199254740992,'n':null},'wasm':{'message':{'sender':'init1victim','contract':'init1ok','msg':'go'}}}".

Definition demo_hook : HookData := {| Message := Some demo_msg; AsyncCallback := "init1ok" |}.

(** The numbers of the other keys do not survive: they are read as float64, and one that is
    out of range becomes null, because the error of the decoder is ignored. *)
Example memo_numbers_rewritten : rewrite_memo demo_send_memo demo_hook = Ok demo_sent_memo.
Proof. by vm_compute. Qed.

Lemma send_passes_through_witness :
  SendPacketOverride () "transfer" "channel-1" 0 0 (ics20_GetBytes (demo_data "osmo1y" "hello")) ibc_env0 =
  ICS4_SendPacket () "transfer" "channel-1" 0 0 (ics20_GetBytes (demo_data "osmo1y" "hello")) ibc_env0.
Proof.
  rw (send_passes_through () "transfer" "channel-1" 0 0 (ics20_GetBytes (demo_data "osmo1y" "hello")) ibc_env0).
  - vm_compute. reflexivity.
  - vm_compute. reflexivity.
Defined.

Lemma send_refused_witness :
  ∃ err, SendPacketOverride () "transfer" "channel-1" 0 0
    (ics20_GetBytes (demo_data "osmo1y" (with_quotes "{'wasm': {'async_callback': 'nobody'}}"))) ibc_env0 = (Err err, ibc_env0).
Proof.
  destruct (send_refused () "transfer" "channel-1" 0 0
    (ics20_GetBytes (demo_data "osmo1y" (with_quotes "{'wasm': {'async_callback': 'nobody'}}")))
    (ICS20Data (demo_data "osmo1y" (with_quotes "{'wasm': {'async_callback': 'nobody'}}"))) ibc_env0) as (_ & H & _).
  - vm_compute. reflexivity.
  - eexists. apply (H {| Message := None; AsyncCallback := "nobody" |}).
    + split; [vm_compute; reflexivity|discriminate].
    + vm_compute. reflexivity.
Defined.

Definition demo_send_data : FungibleTokenPacketData := demo_data "osmo1y" demo_send_memo.

Lemma demo_asks : asks_callback demo_send_memo demo_hook.
Proof. split; [vm_compute; reflexivity|discriminate]. Qed.

Definition demo_send : res Z * ibc_env :=
  SendPacketOverride () "transfer" "channel-1" 0 0 (ics20_GetBytes demo_send_data) ibc_env0.

Lemma send_registers_witness :
  ∃ memo, rewrite_memo demo_send_memo demo_hook = Ok memo ∧
    demo_callbacks (world demo_send.2) "transfer" "channel-1" 9 = Some "init1ok".
Proof.
  destruct (send_registers demo_callbacks () "transfer" "channel-1" 0 0 (ics20_GetBytes demo_send_data)
    (ICS20Data demo_send_data) demo_hook ibc_env0 9 demo_send.2) as (addr & memo & e1 & _ & H1 & _ & _ & H2).
  - vm_compute. reflexivity.
  - exact demo_asks.
  - vm_compute. reflexivity.
  - exists memo. split; [exact H1|exact H2].
Defined.

(** The packet that was sent is acknowledged: the contract is told. *)
Definition sent_packet : Packet := demo_packet 9 "osmo1y" demo_sent_memo.

Lemma callback_delivered_witness :
  ∃ addr, StringToBytes (AsyncCallback demo_hook) = Ok addr ∧
    iw_sudos (world (handleOnAck sent_packet "result" "relayer" demo_send.2).2) =
      [(addr, ack_sudo_msg sent_packet "result")].
Proof.
  destruct (callback_delivered demo_callbacks () 0 0 (ics20_GetBytes demo_send_data)
    (ICS20Data demo_send_data) demo_hook ibc_env0 9 demo_send.2 sent_packet "result" "relayer" demo_send.2
    demo_send.2 (handleOnAck sent_packet "result" "relayer" demo_send.2).2) as (addr & e3 & r & e4 & H & _).
  - vm_compute. reflexivity.
  - exact demo_asks.
  - vm_compute. reflexivity.
  - reflexivity.
  - reflexivity.
  - reflexivity.
  - vm_compute. reflexivity.
  - exists addr. split; [exact H|]. vm_compute in H. injection H as <-. vm_compute. reflexivity.
Defined.

Definition demo_text : string :=
  with_quotes "{'sender':'init1victim','contract':'init1ok','msg':'go'}".

Lemma demo_encodes : encodes demo_msg demo_text demo_msg.
Proof.
  split_and!.
  - vm_compute. reflexivity.
  - change demo_text with (json_marshal (JStruct [("sender", JString "init1victim");
      ("contract", JString "init1ok"); ("msg", JString "go")])).
    apply scans_marshal; [|done]. constructor. repeat constructor; done.
  - by intros [|a [|b t]].
  - eexists. vm_compute. reflexivity.
  - vm_compute. reflexivity.
Qed.

Lemma sent_memo_witness :
  ∃ memo', rewrite_memo demo_send_memo demo_hook = Ok memo' ∧
    parseHookData memo' = (Some {| Message := Some demo_msg; AsyncCallback := "" |}, true, None).
Proof.
  destruct (sent_memo demo_send_memo demo_hook demo_asks) as [_ H].
  destruct (H demo_msg demo_text demo_msg eq_refl demo_encodes) as (memo' & H1 & H2 & _).
  exists memo'. split; [exact H1|exact H2].
Defined.
