(* ===== verification/Ante.v ===== *)
(** app/ante and the fee and mempool rules of app/abcipp.go: which checks a transaction
    passes, in which order, in CheckTx and when it is executed; which transactions pay no
    fee; and which go to the system tier of the mempool. The decorators of the libraries
    are names with a meaning given as a parameter. *)
From S2P Require Import Prelude.
From S2P Require Import Interfaces.

Definition ErrLogic := ExtSentinel "sdkerrors.ErrLogic".
Definition ErrTxDecode := ExtSentinel "sdkerrors.ErrTxDecode".

(** * Transactions *)

(** The part of a transaction that makes it a sdk.FeeTx. *)
Record FeeTx := { FeePayer : bytes; FeeGranter : option bytes; GetFee : coins }.

#[local] Set Warnings "-register-all".

(** A message, as systemTierMatcher tells them apart. [MsgExec] holds what its
    GetMessages returns, [None] being an error. *)
Inductive sdk_msg :=
| MsgUpdateClient
| MsgUpdateOracle
| MsgRelayOracleData
| MsgExec (msgs : option (list sdk_msg))
| MsgOther (name : string).

(** A transaction: its messages, and its fee part when it has one. *)
Record Tx := { tx_FeeTx : option FeeTx; GetMsgs : list sdk_msg }.

(** * Decorators *)

Section ante.
(** The context with the stores behind it; the types of the keepers and functions the
    options hold. *)
Context {C : Type} {AKT BKT FGT SMH EOC SGC IBK OPK WK WC TXS : Type}.

(** sdk.AnteHandler, and a sdk.AnteDecorator's AnteHandle. *)
Definition AnteHandler : Type := Tx → bool → M C unit.
Definition AnteHandle : Type := Tx → bool → AnteHandler → M C unit.

(** ante.TxFeeChecker *)
Definition TxFeeChecker : Type := Tx → M C (coins * Z).

(** The decorators the chains are made of, with the arguments of their constructors. *)
Inductive decorator :=
| SetUpContextDecorator
| ExtensionOptionsDecorator (c : option EOC)
| LimitSimulationGasDecorator (c : WC)
| CountTXDecorator (s : TXS)
| GasRegisterDecorator (k : WK)
| ValidateBasicDecorator
| TxTimeoutHeightDecorator
| ValidateMemoDecorator (k : AKT)
| ConsumeGasForTxSizeDecorator (k : AKT)
| DeductFeeDecorator (ak : AKT) (bk : BKT) (fg : option FGT) (c : TxFeeChecker)
| CheckFeeDecorator (c : TxFeeChecker)
| SetPubKeyDecorator (k : AKT)
| ValidateSigCountDecorator (k : AKT)
| SigGasConsumeDecorator (k : AKT) (c : SGC)
| SigVerificationDecorator (k : AKT) (h : SMH)
| IncrementSequenceDecorator (k : AKT)
| RedundantRelayDecorator (k : IBK)
| RedundantBridgeDecorator (k : OPK).

(** HandlerOptions of ante.go; [None] is nil. *)
Record HandlerOptions := {
  opt_AccountKeeper : option AKT;
  opt_BankKeeper : option BKT;
  opt_FeegrantKeeper : option FGT;
  opt_SignModeHandler : option SMH;
  opt_ExtensionOptionChecker : option EOC;
  opt_SigGasConsumer : option SGC;
  opt_TxFeeChecker : option TxFeeChecker;
  opt_IBCkeeper : option IBK;
  opt_OPChildKeeper : option OPK;
  opt_WasmKeeper : option WK;
  opt_WasmConfig : option WC;
  opt_TXCounterStoreService : option TXS
}.

(** sigverify.DefaultSigVerificationGasConsumer, what a library's decorator does, and how
    the priority of a transaction is set. *)
Class AnteLib := {
  DefaultSigVerificationGasConsumer : SGC;
  lib_AnteHandle : decorator → AnteHandle;
  WithPriority : Z → C → C
}.

Context {AL : AnteLib}.

(** [if o == nil { return nil, errorsmod.Wrap(sdkerrors.ErrLogic, msg) }] *)
Definition required {A} (o : option A) (msg : string) : res A :=
  match o with Some a => Ok a | None => Err (Wrapf ErrLogic msg []) end.

Definition NewAnteHandler (options : HandlerOptions) : res (list decorator) :=
  let? ak := required (opt_AccountKeeper options) "account keeper is required for ante builder" in
  let? bk := required (opt_BankKeeper options) "bank keeper is required for ante builder" in
  let? smh := required (opt_SignModeHandler options) "sign mode handler is required for ante builder" in
  let? wc := required (opt_WasmConfig options) "wasm config is required for ante builder" in
  let? wk := required (opt_WasmKeeper options) "wasm keeper is required for ante builder" in
  let? txs := required (opt_TXCounterStoreService options) "wasm store service is required for ante builder" in
  let? opk := required (opt_OPChildKeeper options) "opchild keeper is required for ante builder" in
  let? ibk := required (opt_IBCkeeper options) "IBC keeper is required for ante builder" in
  let sigGasConsumer := default DefaultSigVerificationGasConsumer (opt_SigGasConsumer options) in
  let? txFeeChecker := required (opt_TxFeeChecker options) "tx fee checker is required for ante builder" in
  Ok [SetUpContextDecorator;
      ExtensionOptionsDecorator (opt_ExtensionOptionChecker options);
      LimitSimulationGasDecorator wc;
      CountTXDecorator txs;
      GasRegisterDecorator wk;
      ValidateBasicDecorator;
      TxTimeoutHeightDecorator;
      ValidateMemoDecorator ak;
      ConsumeGasForTxSizeDecorator ak;
      DeductFeeDecorator ak bk (opt_FeegrantKeeper options) txFeeChecker;
      SetPubKeyDecorator ak;
      ValidateSigCountDecorator ak;
      SigGasConsumeDecorator ak sigGasConsumer;
      SigVerificationDecorator ak smh;
      IncrementSequenceDecorator ak;
      RedundantRelayDecorator ibk;
      RedundantBridgeDecorator opk].

Definition CreateAnteHandlerForOPinit (ak : AKT) (signModeHandler : SMH) : list decorator :=
  [ValidateBasicDecorator;
   TxTimeoutHeightDecorator;
   SetPubKeyDecorator ak;
   ValidateSigCountDecorator ak;
   SigGasConsumeDecorator ak DefaultSigVerificationGasConsumer;
   SigVerificationDecorator ak signModeHandler;
   IncrementSequenceDecorator ak].

Definition NewMinimalAnteHandler (options : HandlerOptions) : res (list decorator) :=
  let? ak := required (opt_AccountKeeper options) "account keeper is required for minimal ante handler" in
  let? smh := required (opt_SignModeHandler options) "sign mode handler is required for minimal ante handler" in
  let? opk := required (opt_OPChildKeeper options) "opchild keeper is required for minimal ante handler" in
  let? ibk := required (opt_IBCkeeper options) "IBC keeper is required for minimal ante handler" in
  let? wc := required (opt_WasmConfig options) "wasm config is required for minimal ante handler" in
  let? wk := required (opt_WasmKeeper options) "wasm keeper is required for minimal ante handler" in
  let? txs := required (opt_TXCounterStoreService options) "wasm store service is required for minimal ante handler" in
  let sigGasConsumer := default DefaultSigVerificationGasConsumer (opt_SigGasConsumer options) in
  let? txFeeChecker := required (opt_TxFeeChecker options) "tx fee checker is required for minimal ante handler" in
  Ok [SetUpContextDecorator;
      ExtensionOptionsDecorator (opt_ExtensionOptionChecker options);
      LimitSimulationGasDecorator wc;
      CountTXDecorator txs;
      GasRegisterDecorator wk;
      ValidateBasicDecorator;
      TxTimeoutHeightDecorator;
      ValidateMemoDecorator ak;
      ConsumeGasForTxSizeDecorator ak;
      CheckFeeDecorator txFeeChecker;
      SetPubKeyDecorator ak;
      ValidateSigCountDecorator ak;
      SigGasConsumeDecorator ak sigGasConsumer;
      SigVerificationDecorator ak smh;
      RedundantRelayDecorator ibk;
      RedundantBridgeDecorator opk].

(** CheckFeeDecorator.AnteHandle of checkfee.go. *)
Definition CheckFeeDecorator_AnteHandle (feeChecker : TxFeeChecker) : AnteHandle :=
  λ tx simulate next,
    match tx_FeeTx tx with
    | None => fail (Wrapf ErrTxDecode "Tx must be a FeeTx" [])
    | Some _ =>
        (if simulate then ret ()
         else let! r := feeChecker tx in modify (WithPriority r.2)) ;;;
        next tx simulate
    end.

(** What a decorator of a chain does. *)
Definition decorator_AnteHandle (d : decorator) : AnteHandle :=
  match d with
  | CheckFeeDecorator c => CheckFeeDecorator_AnteHandle c
  | d => lib_AnteHandle d
  end.

(** sdk.ChainAnteDecorators: each decorator is given the chain of those after it, and the
    last one a handler that accepts. *)
Fixpoint ChainAnteDecorators (ds : list decorator) : AnteHandler :=
  match ds with
  | [] => λ _ _, ret ()
  | d :: ds => λ tx simulate, decorator_AnteHandle d tx simulate (ChainAnteDecorators ds)
  end.

(** ctx.IsCheckTx() and ctx.IsReCheckTx(). *)
Class CheckModes := { IsCheckTx : C → bool; IsReCheckTx : C → bool }.

Definition NewDualAnteHandler {CM : CheckModes} (minimal full : AnteHandler) : AnteHandler :=
  λ tx simulate ctx,
    if IsCheckTx ctx || IsReCheckTx ctx then minimal tx simulate ctx else full tx simulate ctx.

(** * Fees and tiers: setupABCIPP *)

Context {AC : AddressCodec}.

(** The whitelist of the opchild module, and its fee checker. *)
Class OpChildFees := {
  FeeWhitelist : C → res (list string);
  CheckTxFeeWithMinGasPrices : TxFeeChecker
}.

Context {OF : OpChildFees}.

Definition freeFeeChecker (ctx : C) (tx : Tx) : bool :=
  match tx_FeeTx tx with
  | None => false
  | Some feeTx =>
      match FeeWhitelist ctx with
      | Ok whitelist =>
          match BytesToString (FeePayer feeTx) with
          | Ok payer =>
              match
                match FeeGranter feeTx with
                | None => Ok ""
                | Some g => BytesToString g
                end
              with
              | Ok granter =>
                  existsb (λ addr, bool_decide (addr = payer) || bool_decide (addr = granter)) whitelist
              | _ => false
              end
          | _ => false
          end
      | _ => false
      end
  end.

Definition feeCheckerWrapper : TxFeeChecker := λ tx ctx,
  if negb (freeFeeChecker ctx tx) then CheckTxFeeWithMinGasPrices tx ctx
  else match tx_FeeTx tx with
       | None => (Err (Wrapf ErrTxDecode "Tx must be a FeeTx" []), ctx)
       | Some feeTx => (Ok (GetFee feeTx, 1), ctx)
       end.

(** The messages of the system tier. *)
Definition is_system_msg (m : sdk_msg) : bool :=
  match m with
  | MsgUpdateClient | MsgUpdateOracle | MsgRelayOracleData => true
  | MsgExec (Some [MsgUpdateOracle]) | MsgExec (Some [MsgRelayOracleData]) => true
  | MsgExec _ | MsgOther _ => false
  end.

Fixpoint systemTierMatcher_go (msgs : list sdk_msg) : bool :=
  match msgs with
  | [] => true
  | m :: msgs => if is_system_msg m then systemTierMatcher_go msgs else false
  end.

Definition systemTierMatcher (ctx : C) (tx : Tx) : bool := systemTierMatcher_go (GetMsgs tx).

(** The tiers of the mempool in order, each with its matcher. *)
Definition Tiers : list (string * (C → Tx → bool)) :=
  [("system", systemTierMatcher); ("admin", freeFeeChecker)].

(** The handlers setupABCIPP builds: the full one, and the one CheckTx is routed by. *)
Definition setup_handlers {CM : CheckModes} (options : HandlerOptions) :
    res (AnteHandler * AnteHandler) :=
  let? full := NewAnteHandler options in
  let? minimal := NewMinimalAnteHandler options in
  Ok (ChainAnteDecorators full,
      NewDualAnteHandler (ChainAnteDecorators minimal) (ChainAnteDecorators full)).

End ante.

(** * Theorems *)

Section ante_facts.
Context {C : Type} {AKT BKT FGT SMH EOC SGC IBK OPK WK WC TXS : Type}.
Context {AC : AddressCodec} {CM : CheckModes (C:=C)} {OF : OpChildFees (C:=C)}.

Abbreviation dec := (decorator (C:=C) (AKT:=AKT) (BKT:=BKT) (FGT:=FGT) (SMH:=SMH) (EOC:=EOC)
  (SGC:=SGC) (IBK:=IBK) (OPK:=OPK) (WK:=WK) (WC:=WC) (TXS:=TXS)).
Abbreviation options := (HandlerOptions (C:=C) (AKT:=AKT) (BKT:=BKT) (FGT:=FGT) (SMH:=SMH)
  (EOC:=EOC) (SGC:=SGC) (IBK:=IBK) (OPK:=OPK) (WK:=WK) (WC:=WC) (TXS:=TXS)).
Context {AL : AnteLib (C:=C) (AKT:=AKT) (BKT:=BKT) (FGT:=FGT) (SMH:=SMH) (EOC:=EOC)
  (SGC:=SGC) (IBK:=IBK) (OPK:=OPK) (WK:=WK) (WC:=WC) (TXS:=TXS)}.

(** The options both handlers need; the full one also needs the bank keeper. *)
Definition minimal_options (o : options) : Prop :=
  is_Some (opt_AccountKeeper o) ∧ is_Some (opt_SignModeHandler o) ∧ is_Some (opt_OPChildKeeper o) ∧
  is_Some (opt_IBCkeeper o) ∧ is_Some (opt_WasmConfig o) ∧ is_Some (opt_WasmKeeper o) ∧
  is_Some (opt_TXCounterStoreService o) ∧ is_Some (opt_TxFeeChecker o).

(** What CheckTx does in place of a decorator of the full chain. *)
Definition in_check_tx (d : dec) : option dec :=
  match d with
  | DeductFeeDecorator _ _ _ c => Some (CheckFeeDecorator c)
  | IncrementSequenceDecorator _ => None
  | d => Some d
  end.

(** The decorators that take a fee or use up a sequence number. *)
Definition charges (d : dec) : Prop :=
  match d with
  | DeductFeeDecorator _ _ _ _ | IncrementSequenceDecorator _ => True
  | _ => False
  end.

Lemma required_ok {A} (o : option A) msg a : required o msg = Ok a → o = Some a.
Proof. destruct o; cbn; [by intros [= ->]|done]. Qed.

(** A full chain and the options it was made of. *)
Lemma full_inv (o : options) ds :
  NewAnteHandler o = Ok ds →
  ∃ ak bk smh wc wk txs opk ibk c,
    o = {| opt_AccountKeeper := Some ak; opt_BankKeeper := Some bk;
           opt_FeegrantKeeper := opt_FeegrantKeeper o; opt_SignModeHandler := Some smh;
           opt_ExtensionOptionChecker := opt_ExtensionOptionChecker o;
           opt_SigGasConsumer := opt_SigGasConsumer o; opt_TxFeeChecker := Some c;
           opt_IBCkeeper := Some ibk; opt_OPChildKeeper := Some opk; opt_WasmKeeper := Some wk;
           opt_WasmConfig := Some wc; opt_TXCounterStoreService := Some txs |}.
Proof.
  unfold NewAnteHandler. intros H. go_inv.
  repeat match goal with H : required _ _ = Ok _ |- _ => apply required_ok in H end.
  destruct o; cbn in *; subst. repeat eexists.
Qed.

Lemma minimal_inv (o : options) ds : NewMinimalAnteHandler o = Ok ds → minimal_options o.
Proof.
  unfold NewMinimalAnteHandler, minimal_options. intros H. go_inv.
  repeat match goal with H : required _ _ = Ok _ |- _ => apply required_ok in H end.
  split_and!; by eexists.
Qed.

(** Both handlers can be built exactly when the options they need are there; nothing
    else is checked, and a missing signature gas consumer has a default. *)
Theorem handlers_built (o : options) :
  ((∃ ds, NewMinimalAnteHandler o = Ok ds) ↔ minimal_options o) ∧
  ((∃ ds, NewAnteHandler o = Ok ds) ↔ minimal_options o ∧ is_Some (opt_BankKeeper o)).
Proof.
  split; split.
  - intros [ds H]. by eapply minimal_inv.
  - destruct o. intros ([] & [] & [] & [] & [] & [] & [] & []); cbn in *; subst. by eexists.
  - intros [ds (ak & bk & smh & wc & wk & txs & opk & ibk & c & ->)%full_inv].
    split; [split_and!|]; by eexists.
  - destruct o. intros [([] & [] & [] & [] & [] & [] & [] & []) []]; cbn in *; subst. by eexists.
Qed.

Lemma minimal_shape (o : options) full :
  NewAnteHandler o = Ok full → NewMinimalAnteHandler o = Ok (omap in_check_tx full).
Proof.
  intros H. pose proof H as (ak & bk & smh & wc & wk & txs & opk & ibk & c & Ho)%full_inv.
  rw Ho in H. rw Ho. cbn in H. by injection H as <-.
Qed.

Lemma in_check_tx_charges (ds : list dec) : Forall (λ d, ¬ charges d) (omap in_check_tx ds).
Proof.
  induction ds as [|d ds IH]; [constructor|]. destruct d; cbn; first [apply IH|constructor; [by intros []|apply IH]].
Qed.

(** In the full chain the context is set up first, the fee is deducted before the
    signatures are verified, the public keys are set before every decorator that looks
    at signatures, and sequence numbers are incremented only after verification. *)
Theorem full_chain_order (o : options) full :
  NewAnteHandler o = Ok full →
  ∃ ak bk fg c smh sgc l0 l1 l2,
    full = SetUpContextDecorator :: l0 ++ DeductFeeDecorator ak bk fg c :: SetPubKeyDecorator ak ::
      l1 ++ SigVerificationDecorator ak smh :: IncrementSequenceDecorator ak :: l2 ∧
    l1 = [ValidateSigCountDecorator ak; SigGasConsumeDecorator ak sgc] ∧
    Forall (λ d, ¬ charges d) (l0 ++ l1 ++ l2).
Proof.
  intros H. pose proof H as (ak & bk & smh & wc & wk & txs & opk & ibk & c & Ho)%full_inv.
  rw Ho in H. cbn in H. injection H as <-. clear Ho.
  set (fg := opt_FeegrantKeeper o). set (eoc := opt_ExtensionOptionChecker o).
  set (sgc := opt_SigGasConsumer o). exists ak, bk, fg, c, smh, (default DefaultSigVerificationGasConsumer sgc),
    [ExtensionOptionsDecorator eoc; LimitSimulationGasDecorator wc; CountTXDecorator txs;
     GasRegisterDecorator wk; ValidateBasicDecorator; TxTimeoutHeightDecorator;
     ValidateMemoDecorator ak; ConsumeGasForTxSizeDecorator ak],
    [ValidateSigCountDecorator ak; SigGasConsumeDecorator ak (default DefaultSigVerificationGasConsumer sgc)],
    [RedundantRelayDecorator ibk; RedundantBridgeDecorator opk].
  split; [done|]. split; [done|]. repeat constructor; by intros [].
Qed.

(** C40. The handler of the application never charges in CheckTx: there it runs the decorators
    of the full chain in their order, except that the fee is checked and not deducted and
    that no sequence is incremented; elsewhere it runs the full chain. *)
Theorem dual_handler (o : options) full dual :
  setup_handlers o = Ok (full, dual) →
  ∃ ds, NewAnteHandler o = Ok ds ∧ full = ChainAnteDecorators ds ∧
    Forall (λ d, ¬ charges d) (omap in_check_tx ds) ∧
    ∀ tx simulate ctx,
      dual tx simulate ctx =
      if IsCheckTx ctx || IsReCheckTx ctx
      then ChainAnteDecorators (omap in_check_tx ds) tx simulate ctx
      else ChainAnteDecorators ds tx simulate ctx.
Proof.
  unfold setup_handlers. intros H.
  destruct (NewAnteHandler o) as [ds| |] eqn:Hf; try discriminate H.
  rw (minimal_shape o ds Hf) in H. cbn in H. injection H as <- <-.
  exists ds. split_and!; [done|done|apply in_check_tx_charges|done].
Qed.

(** The fee decorator of CheckTx refuses a transaction that is not a FeeTx, skips the
    checker in a simulation, and otherwise passes the transaction on exactly when the
    checker accepts it, with the checker's priority. *)
Theorem CheckFee_spec c tx simulate (next : AnteHandler (C:=C)) ctx :
  CheckFeeDecorator_AnteHandle (AL:=AL) c tx simulate next ctx =
  match tx_FeeTx tx with
  | None => (Err (Wrapf ErrTxDecode "Tx must be a FeeTx" []), ctx)
  | Some _ =>
      if simulate then next tx simulate ctx
      else match c tx ctx with
           | (Ok (_, priority), ctx1) => next tx simulate (WithPriority priority ctx1)
           | (Err e, ctx1) => (Err e, ctx1)
           | (Panic p, ctx1) => (Panic p, ctx1)
           end
  end.
Proof.
  unfold CheckFeeDecorator_AnteHandle. destruct (tx_FeeTx tx); [|done]. destruct simulate; [done|].
  unfold bind at 1, bind. by destruct (c tx ctx) as [[[] | |]].
Qed.

(** A transaction is exempt from the fee check exactly when its payer or its granter is
    on the whitelist, in the codec's spelling; it then declares its own fee, with
    priority one, and the context is as it was. Any other transaction is left to the
    opchild module's checker. *)
Theorem feeCheckerWrapper_spec tx ctx :
  let exempt := ∃ feeTx whitelist payer,
    tx_FeeTx tx = Some feeTx ∧ FeeWhitelist ctx = Ok whitelist ∧
    BytesToString (FeePayer feeTx) = Ok payer ∧
    ((FeeGranter feeTx = None ∧ (payer ∈ whitelist ∨ "" ∈ whitelist)) ∨
     ∃ g granter, FeeGranter feeTx = Some g ∧ BytesToString g = Ok granter ∧
       (payer ∈ whitelist ∨ granter ∈ whitelist)) in
  (exempt → ∃ feeTx, tx_FeeTx tx = Some feeTx ∧ feeCheckerWrapper tx ctx = (Ok (GetFee feeTx, 1), ctx)) ∧
  (¬ exempt → feeCheckerWrapper tx ctx = CheckTxFeeWithMinGasPrices tx ctx).
Proof.
  cbn zeta.
  assert (Hex : ∀ (wl : list string) (p g : string), existsb (λ addr, bool_decide (addr = p) || bool_decide (addr = g)) wl = true ↔
    p ∈ wl ∨ g ∈ wl).
  { intros wl p g. rw existsb_exists. setoid_rewrite <-list_elem_of_In.
    setoid_rewrite orb_true_iff. setoid_rewrite bool_decide_eq_true. naive_solver. }
  unfold feeCheckerWrapper, freeFeeChecker. split.
  - intros (f & wl & p & Hf & Hw & Hp & Hg). rw Hf Hw Hp. exists f. split; [done|].
    destruct Hg as [[-> Hin]|(g & gr & -> & -> & Hin)]; by rw (proj2 (Hex wl p _) Hin).
  - intros Hno. destruct (tx_FeeTx tx) as [f|]; [|done].
    destruct (FeeWhitelist ctx) as [wl| |]; try done.
    destruct (BytesToString (FeePayer f)) as [p| |] eqn:Hp; try done.
    destruct (FeeGranter f) as [g|] eqn:Hg; [destruct (BytesToString g) as [gr| |] eqn:Hgr; try done|];
      (destruct (existsb _ wl) eqn:He; [|done]); apply Hex in He; destruct Hno; naive_solver.
Qed.

(** The messages of the system tier: client updates, oracle updates, oracle data, and the
    execution of exactly one of the last two on another's behalf. *)
Definition system_msg (m : sdk_msg) : Prop :=
  m = MsgUpdateClient ∨ m = MsgUpdateOracle ∨ m = MsgRelayOracleData ∨
  ∃ m1, m = MsgExec (Some [m1]) ∧ (m1 = MsgUpdateOracle ∨ m1 = MsgRelayOracleData).

(** A transaction is in the system tier exactly when all its messages are system
    messages; one message of another kind, or nested deeper, takes it out. *)
Theorem systemTier_spec (ctx : C) tx :
  systemTierMatcher ctx tx = true ↔ Forall system_msg (GetMsgs tx).
Proof.
  assert (Hm : ∀ m, is_system_msg m = true ↔ system_msg m).
  { intros m. unfold system_msg. split.
    - destruct m as [| | |[[|[] []]|]|]; cbn; naive_solver.
    - intros [->|[->|[->|(m1 & -> & [->| ->])]]]; done. }
  unfold systemTierMatcher. induction (GetMsgs tx) as [|m ms IH]; cbn; [done|].
  rw Forall_cons -Hm -IH. destruct (is_system_msg m); naive_solver.
Qed.

End ante_facts.
