(* ===== verification/DescUse.v ===== *)
(** What the rest of the program goes by that the descriptors also say: who has to sign a
    message, under which name it is signed, and on which path a query is answered. *)
From S2P Require Import Prelude.
From S2P Require Import Interfaces.
From S2P Require Import TfTypes.
From S2P Require Import TfKeeper.
From S2P Require Import Bank.
From S2P Require Import TfMsgServer.
From S2P Require Import TfInvariants.
From S2P Require Import TfSpec.
From S2P Require Import Modules.
From S2P Require Import Gateway.
From S2P Require Import WasmExt.
From S2P Require Import DescData.
From S2P Require Import Descriptors.
From S2P Require Import DescFiles.

(** * Signers *)

(** The message types, and their fields of type string by the names of the .proto file. *)
Definition tf_type (m : tf_msg) : string :=
  match m with
  | CreateDenom _ => "MsgCreateDenom" | Mint _ => "MsgMint" | Burn _ => "MsgBurn"
  | ChangeAdmin _ => "MsgChangeAdmin" | SetDenomMetadata _ => "MsgSetDenomMetadata"
  | SetBeforeSendHook _ => "MsgSetBeforeSendHook" | UpdateParams _ => "MsgUpdateParams"
  end.

Definition tf_fields (m : tf_msg) : list (string * string) :=
  match m with
  | CreateDenom m => [("sender", MsgCreateDenom_Sender m); ("subdenom", MsgCreateDenom_Subdenom m)]
  | Mint m => [("sender", MsgMint_Sender m); ("mint_to_address", MsgMint_MintToAddress m)]
  | Burn m => [("sender", MsgBurn_Sender m)]
  | ChangeAdmin m =>
      [("sender", MsgChangeAdmin_Sender m); ("denom", MsgChangeAdmin_Denom m);
       ("new_admin", MsgChangeAdmin_NewAdmin m)]
  | SetDenomMetadata m => [("sender", MsgSetDenomMetadata_Sender m)]
  | SetBeforeSendHook m =>
      [("sender", MsgSetBeforeSendHook_Sender m); ("denom", MsgSetBeforeSendHook_Denom m);
       ("cosmwasm_address", MsgSetBeforeSendHook_CosmwasmAddress m)]
  | UpdateParams m => [("authority", MsgUpdateParams_Authority m)]
  end.

Definition field_value (fs : list (string * string)) (name : string) : option string :=
  snd <$> List.find (λ f, bool_decide (f.1 = name)) fs.

(** The accounts that the descriptor of a file makes sign a message. *)
Definition declared_signers (F : file_id) (type : string) (fs : list (string * string)) : option (list string) :=
  d ← read_FileDescriptorProto (rawDesc_of F);
  D ← List.find (λ D, bool_decide (d_name D = type)) (file_messages d);
  mapM (field_value fs) (d_signers D).

Section signers.
Context {W G : Type} {AC : AddressCodec} {ST : SdkTypes} {GM : GasMeter G}.
Context {AK : AccountKeeper W G} {BV : BankView W} {BK : BankKeeper W G}.
Context {CP : CommunityPoolKeeper W G} {CK : ContractKeeper W G} {KW : KeyWalk}.
Context {ACL : AddressCodecLaws AC}.
Implicit Types (s : state W G).

(** The account whose rights a message uses. *)
Definition actor (m : tf_msg) : string :=
  match m with
  | CreateDenom m => MsgCreateDenom_Sender m
  | UpdateParams m => MsgUpdateParams_Authority m
  | m => default "" (snd <$> admin_target m)
  end.

Lemma tf_signers m : declared_signers tf_tx (tf_type m) (tf_fields m) = Some [actor m].
Proof. destruct m; vm_compute; reflexivity. Qed.

(** What an account had to be for a message in its name to succeed. *)
Definition acts_by_right (signer authority : string) (m : tf_msg) (s s' : state W G) : Prop :=
  match m with
  | CreateDenom c => ∃ denom, GetTokenDenom signer (MsgCreateDenom_Subdenom c) = Ok denom ∧
      DenomAuthority (tf s') !! denom = Some {| Admin := signer |}
  | UpdateParams _ => signer = authority
  | m => ∃ d, fst <$> admin_target m = Some d ∧ DenomAuthority (tf s) !! d = Some {| Admin := signer |}
  end.

Lemma admin_acts authority m d a s s' :
  admin_target m = Some (d, a) → handle authority m s = (Ok (), s') → DenomAuthority (tf s) !! d = Some {| Admin := a |}.
Proof.
  intros Ht Hh. destruct (decide (DenomAuthority (tf s) !! d = Some {| Admin := a |})) as [?|Hne]; [done|].
  destruct (admin_refused authority m d a s Ht Hne) as [[e He] _]. by rw He in Hh.
Qed.

Lemma creator_acts m denom s s' :
  MsgServer_CreateDenom m s = (Ok denom, s') →
  GetTokenDenom (MsgCreateDenom_Sender m) (MsgCreateDenom_Subdenom m) = Ok denom ∧
  DenomAuthority (tf s') !! denom = Some {| Admin := MsgCreateDenom_Sender m |}.
Proof.
  unfold MsgServer_CreateDenom, Keeper_CreateDenom. intros H. go_inv.
  match goal with H : createDenomAfterValidation _ _ _ = _ |- _ => rw createDenomAfterValidation_eq set_then_add in H end.
  destruct (DenomAuthorityMetadata_Validate _); [|done..]. unfold EmitEvents, modify in *. simplify_eq/=.
  split; [|by rw lookup_insert_eq]. match goal with H : validateCreateDenom _ _ _ = _ |- _ => clear -H end.
  unfold validateCreateDenom, read_world, bind, gets, lift, ret in *. repeat case_match; by simplify_eq.
Qed.

(** C23. The account that the descriptor of a message makes sign it is the account whose rights
    the handler goes by: a transaction that was not signed by the admin of a denom does
    nothing to it, one that was not signed by the authority does not change the parameters,
    and a new denom belongs to the account that signed for it. *)
Theorem signer_acts_by_right authority m s s' :
  handle authority m s = (Ok (), s') →
  ∃ signer, declared_signers tf_tx (tf_type m) (tf_fields m) = Some [signer] ∧
    acts_by_right signer authority m s s'.
Proof.
  intros Hh. exists (actor m). split; [apply tf_signers|].
  pose proof (λ d a Ht, admin_acts authority m d a s s' Ht Hh) as Hadmin.
  destruct m as [m|m|m|m|m|m|m]; cbn [acts_by_right]; try (eexists; split; [done|]; by apply Hadmin).
  - cbn [handle] in Hh. go_inv. eexists. by eapply creator_acts.
  - cbn [handle] in Hh. unfold MsgServer_UpdateParams in Hh. by case_decide.
Qed.

End signers.

(** Likewise code is stored for the authority only, and it is the authority that signs. *)
Definition we_fields (m : MsgStoreCodeAdmin) : list (string * string) :=
  [("creator", MsgStoreCodeAdmin_Creator m); ("authority", MsgStoreCodeAdmin_Authority m)].

Theorem store_signer {W G : Type} {AC : AddressCodec} {WCD : WasmCode W G} authority m e r e' :
  StoreCodeAdmin authority m e = (Ok r, e') →
  declared_signers we_tx "MsgStoreCodeAdmin" (we_fields m) = Some [authority].
Proof.
  unfold StoreCodeAdmin. case_decide as Ha; [|done]. intros _. rw Ha. vm_compute. reflexivity.
Qed.

(** * Names *)

(** The messages that the services of a file named Msg take. *)
Definition msg_inputs (d : FileDescriptorProto) : list string :=
  input_type <$> concat (s_methods <$> filter (λ x, s_name x = "Msg") (service d)).

(** Every message of a Msg service is registered, as an implementation of sdk.Msg and with
    amino, nothing else is, and the name for amino is the one that its descriptor gives. *)
Definition registered_as_declared (F : file_id) (names : list (string * string)) (interfaces : list string) : Prop :=
  ∃ d, read_FileDescriptorProto (rawDesc_of F) = Some d ∧
    msg_inputs d ≡ₚ (λ x, "." +:+ package_of F +:+ "." +:+ x) <$> interfaces ∧
    names ≡ₚ (λ D, (d_name D, d_amino D)) <$> filter (λ D, d_signers D ≠ []) (file_messages d) ∧
    names.*1 ≡ₚ interfaces.

Theorem codecs_as_declared :
  registered_as_declared tf_tx TokenFactory.RegisterLegacyAminoCodec TokenFactory.RegisterInterfaces ∧
  registered_as_declared we_tx WasmExtension.wasmextension_RegisterLegacyAminoCodec
    WasmExtension.wasmextension_RegisterInterfaces.
Proof.
  split; (eexists; split; [vm_compute; reflexivity|]);
    split_and!; eapply bool_decide_unpack; by vm_compute.
Qed.

(** * Paths *)

(** A path template of google.api.http: a component in braces is a variable. *)
Definition variable (component : string) : option string :=
  match component with
  | String "{" s => Some (String.substring 0 (String.length s - 1) s)
  | _ => None
  end.

Fixpoint match_components (template components : list string) : option (list (string * string)) :=
  match template, components with
  | [], [] => Some []
  | t :: template, c :: components =>
      match variable t with
      | Some x => l ← match_components template components; Some ((x, c) :: l)
      | None => if decide (t = c) then match_components template components else None
      end
  | _, _ => None
  end.

Definition match_template (template : string) (components : list string) : option (gmap string string) :=
  list_to_map <$> match_components (tail (split_on "/" template)) components.

Definition routes (d : FileDescriptorProto) : list (string * string) :=
  (λ m, (me_name m, me_http_get m)) <$> concat (s_methods <$> service d).

Lemma template_literal (t : string) template components :
  variable t = None →
  match_components (t :: template) components =
    match components with c :: cs => if decide (t = c) then match_components template cs else None | [] => None end.
Proof. intros Ht. destruct components; cbn [match_components]; by rw ?Ht. Qed.

Ltac template_cases cs :=
  unfold item_path, creator_path; rw ?template_literal //;
  destruct cs as [|c1 [|c2 [|c3 [|c4 [|c5 [|c6 [|c7 cs]]]]]]]; cbn;
  repeat (case_decide; simplify_eq/=; try done); try done.

Lemma template_params cs :
  match_template "/miniwasm/tokenfactory/v1/params" cs = run_pattern pattern_Query_Params_0 cs.
Proof.
  rw match_params. unfold match_template. change (tail _) with ["miniwasm"; "tokenfactory"; "v1"; "params"].
  template_cases cs.
Qed.

Lemma template_item op cs :
  op ∈ ["authority_metadata"; "before_send_hook"] →
  match_template ("/miniwasm/tokenfactory/v1/denoms/{denom}/" +:+ op) cs =
    run_pattern {| ops := [2; 0; 2; 1; 2; 2; 2; 3; 1; 0; 4; 1; 5; 4; 2; 5];
                   pool := ["miniwasm"; "tokenfactory"; "v1"; "denoms"; "denom"; op] |} cs.
Proof.
  intros Hop. rw match_item. unfold match_template.
  assert (tail (split_on "/" ("/miniwasm/tokenfactory/v1/denoms/{denom}/" +:+ op)) =
    ["miniwasm"; "tokenfactory"; "v1"; "denoms"; "{denom}"; op]) as ->.
  { repeat (apply elem_of_cons in Hop as [->|Hop]; [done|]). by apply not_elem_of_nil in Hop. }
  repeat (apply elem_of_cons in Hop as [->|Hop]; [template_cases cs|]). by apply not_elem_of_nil in Hop.
Qed.

Lemma template_creator cs :
  match_template "/miniwasm/tokenfactory/v1/denoms_from_creator/{creator}" cs = run_pattern pattern_Query_DenomsFromCreator_0 cs.
Proof.
  rw match_creator. unfold match_template.
  change (tail _) with ["miniwasm"; "tokenfactory"; "v1"; "denoms_from_creator"; "{creator}"].
  template_cases cs.
Qed.

(** C24. The programs that the gateway matches paths with are equivalent to the templates that the
    descriptor has for the queries, in their order, and take the same variables. *)
Theorem gateway_routes_declared {S} {GL : GatewayLib} annotate (server : QueryServer (S:=S)) :
  ∃ d, read_FileDescriptorProto (rawDesc_of tf_query) = Some d ∧
    Forall2 (λ route h, h_method h = "GET" ∧
      ∀ components, run_pattern (h_pattern h) components = match_template route.2 components)
      (routes d) (RegisterQueryHandlerServer annotate server).
Proof.
  eexists. split; [vm_compute; reflexivity|]. unfold routes. cbn [service s_methods fmap list_fmap concat app].
  repeat (constructor; [split; [done|]; intros cs; symmetry|]); [..|constructor].
  - apply template_params.
  - apply (template_item "authority_metadata"). set_solver.
  - apply template_creator.
  - apply (template_item "before_send_hook"). set_solver.
Qed.
