(* ===== verification/DescWitnesses.v ===== *)
(** The theorems on descriptors at concrete inputs. *)
From S2P Require Import Prelude.
From S2P Require Import Interfaces.
From S2P Require Import TfTypes.
From S2P Require Import TfKeeper.
From S2P Require Import Bank.
From S2P Require Import TfMsgServer.
From S2P Require Import Wiring.
From S2P Require Import BankSpec.
From S2P Require Import TfSpec.
From S2P Require Import Chain.
From S2P Require Import Descriptors.
From S2P Require Import DescFiles.
From S2P Require Import DescSpec.
From S2P Require Import DescUse.
From S2P Require Import Instances.
From S2P Require Import Witnesses.

#[local] Existing Instances demo_contract demo_pool.

(** A runtime whose file descriptor is the raw one; query is called twice, and genesis. *)
Definition demo_Build (b : TypeBuilder) : res (option (list Z)) := Ok (RawDescriptor b).

Lemma registration_witness :
  (inits demo_Build false [tf_query; tf_genesis; tf_query] (start (FD:=option (list Z)))).2.(built).*1 =
    [tf_authority_metadata; tf_params; tf_query; tf_genesis] ∧
  ∃ s, inits demo_Build false [tf_query; tf_genesis; tf_query] start = (Ok (), s) ∧
    v_File (vars s tf_query) = Some (Some (rawDesc_of tf_query)).
Proof.
  split; [vm_compute; reflexivity|].
  destruct (registration demo_Build false (λ F, Some (rawDesc_of F)) (λ F, match F with tf_params | _ => eq_refl end)
    [tf_query; tf_genesis; tf_query]) as (s & E & _ & H & _).
  exists s. split; [exact E|]. apply H. left.
Defined.

(** Alice, who signs, creates silver. *)
Lemma signer_acts_by_right_witness :
  ∃ s', demo_handle (CreateDenom create_silver) demo_state1 = (Ok (), s') ∧
    declared_signers tf_tx "MsgCreateDenom" (tf_fields (CreateDenom create_silver)) = Some [alice] ∧
    DenomAuthority (tf s') !! silver = Some {| Admin := alice |}.
Proof.
  destruct (signer_acts_by_right "init1gov" (CreateDenom create_silver) demo_state1
    (demo_handle (CreateDenom create_silver) demo_state1).2) as (signer & Hs & denom & Hd & Ha).
  - apply run_ok. by vm_compute.
  - assert (signer = alice) as -> by (vm_compute in Hs; by injection Hs).
    assert (denom = silver) as -> by (vm_compute in Hd; by injection Hd).
    eexists. split; [apply run_ok; by vm_compute|]. split; [exact Hs|exact Ha].
Defined.
