(* ===== verification/App.v ===== *)
(** app: the default genesis (genesis.go, const.go), the module accounts and the orders
    of the modules (modules.go, app.go), the upgrade handlers (upgrades/), and the
    rollback command (cmd/minitiad/rollback.go). Names of other modules are known by
    the Go constants that hold them; their genesis states and codecs are parameters. *)
From S2P Require Import Prelude.
From S2P Require Import Interfaces.
From S2P Require Import TfTypes.

(** * Genesis *)

(** The modules whose genesis is changed. *)
Definition oracle_ModuleName : string := "oracletypes.ModuleName".
Definition marketmap_ModuleName : string := "marketmaptypes.ModuleName".
Definition opchild_ModuleName : string := "opchildtypes.ModuleName".
Definition ica_ModuleName : string := "icatypes.ModuleName".
Definition ibc_ModuleName : string := "ibcexported.ModuleName".

(** const.go: the messages the interchain accounts host allows, in the order of
    ConfigureICA. *)
Definition AllowMessages : list string :=
  ["/cosmos.authz.v1beta1.MsgExec";
   "/cosmos.authz.v1beta1.MsgGrant";
   "/cosmos.authz.v1beta1.MsgRevoke";
   "/cosmos.bank.v1beta1.MsgSend";
   "/cosmos.bank.v1beta1.MsgMultiSend";
   "/cosmos.feegrant.v1beta1.MsgGrantAllowance";
   "/cosmos.feegrant.v1beta1.MsgRevokeAllowance";
   "/cosmos.group.v1.MsgCreateGroup";
   "/cosmos.group.v1.MsgCreateGroupPolicy";
   "/cosmos.group.v1.MsgExec";
   "/cosmos.group.v1.MsgLeaveGroup";
   "/cosmos.group.v1.MsgSubmitProposal";
   "/cosmos.group.v1.MsgUpdateGroupAdmin";
   "/cosmos.group.v1.MsgUpdateGroupMember";
   "/cosmos.group.v1.MsgUpdateGroupPolicyAdmin";
   "/cosmos.group.v1.MsgUpdateGroupPolicyDecisionPolicy";
   "/cosmos.group.v1.MsgVote";
   "/cosmos.group.v1.MsgWithdrawProposal";
   "/ibc.applications.transfer.v1.MsgTransfer";
   "/ibc.applications.nft_transfer.v1.MsgNftTransfer";
   "/ibc.applications.sft_transfer.v1.MsgSftTransfer";
   "/initia.move.v1.MsgPublish";
   "/initia.move.v1.MsgExecute";
   "/initia.move.v1.MsgScript"].

(** ibcexported.Localhost *)
Definition Localhost : string := "ibcexported.Localhost".

Section genesis.
(** The parts of the genesis states of other modules this code does not touch, currency
    pairs, and the market map. *)
Context {OR MR PR IR CR CP MM : Type}.

(** A market: of its ticker only the currency pair is used. *)
Record Market := { Ticker_CurrencyPair : CP }.

(** oracletypes.CurrencyPairGenesis: no price yet. *)
Record CurrencyPairGenesis := {
  cpg_CurrencyPair : CP;
  cpg_CurrencyPairPrice : option Z;
  cpg_Nonce : Z;
  cpg_Id : Z
}.

Record OracleGenesis := {
  og_CurrencyPairGenesis : list CurrencyPairGenesis;
  og_NextId : Z;
  og_rest : OR
}.
Record MarketMapGenesis := {
  mg_MarketMap : MM;
  mg_MarketAuthorities : list string;
  mg_Admin : string;
  mg_rest : MR
}.
Record OpChildGenesis := { pg_MinGasPrices : list (string * Z); pg_HookMaxGas : Z; pg_rest : PR }.
Record ICAGenesis := {
  ig_ControllerEnabled : bool;
  ig_HostEnabled : bool;
  ig_AllowMessages : list string;
  ig_rest : IR
}.
Record IBCGenesis := { bg_AllowedClients : list string; bg_rest : CR }.

(** The JSON codec on these states, the markets built into initia, and the reserved
    currency pair. Decoding fails on text that is not a state of the type. *)
Class GenesisLib := {
  default_genesis : gmap string string;
  unmarshal_oracle : string → option OracleGenesis;
  marshal_oracle : OracleGenesis → string;
  unmarshal_marketmap : string → option MarketMapGenesis;
  marshal_marketmap : MarketMapGenesis → string;
  unmarshal_opchild : string → option OpChildGenesis;
  marshal_opchild : OpChildGenesis → string;
  unmarshal_ica : string → option ICAGenesis;
  marshal_ica : ICAGenesis → string;
  unmarshal_ibc : string → option IBCGenesis;
  marshal_ibc : IBCGenesis → string;
  genesis_markets : res (list Market);
  ToMarketMap : list Market → MM;
  ReservedCPTimestamp : res CP
}.

Context {AC : AddressCodec} {GL : GenesisLib}.

(** cdc.MustUnmarshalJSON(genState[module], &v): a missing entry is the empty text. *)
Definition must_unmarshal {A} (decode : string → option A) (genState : gmap string string)
    (module : string) : res A :=
  match decode (default "" (genState !! module)) with
  | Some a => Ok a
  | None => Panic (PanicString "MustUnmarshalJSON")
  end.

(** [if err != nil { panic(err) }] *)
Definition or_panic {A} (r : res A) : res A :=
  match r with Err e => Panic (PanicError e) | r => r end.

(** The bytes of the hexadecimal text 51B89E89D58FFB3F9DB66263FF10A216CF388A0E. *)
Definition adminAddrBz : bytes :=
  foldr String "" (ascii_of_N <$>
    [81; 184; 158; 137; 213; 143; 251; 63; 157; 182; 98; 99; 255; 16; 162; 22; 207; 56; 138; 14]%N).

(** The loop over the markets, from the identifier [id]. *)
Fixpoint market_pairs (id : Z) (markets : list Market) : list CurrencyPairGenesis :=
  match markets with
  | [] => []
  | market :: markets =>
      {| cpg_CurrencyPair := Ticker_CurrencyPair market; cpg_CurrencyPairPrice := None;
         cpg_Nonce := 0; cpg_Id := id |} :: market_pairs (id + 1) markets
  end.

Definition AddMarketData (genState : gmap string string) : res (gmap string string) :=
  let? oracleGenState := must_unmarshal unmarshal_oracle genState oracle_ModuleName in
  let? marketGenState := must_unmarshal unmarshal_marketmap genState marketmap_ModuleName in
  let? markets := or_panic genesis_markets in
  let? adminAddr := or_panic (BytesToString adminAddrBz) in
  let marketGenState := {| mg_MarketMap := ToMarketMap markets; mg_MarketAuthorities := [adminAddr];
                           mg_Admin := adminAddr; mg_rest := mg_rest marketGenState |} in
  let? cp := or_panic ReservedCPTimestamp in
  let currencyPairGenesis :=
    {| cpg_CurrencyPair := cp; cpg_CurrencyPairPrice := None; cpg_Nonce := 0; cpg_Id := 0 |} ::
    market_pairs 1 markets in
  let oracleGenState := {| og_CurrencyPairGenesis := currencyPairGenesis;
                           og_NextId := 1 + Z.of_nat (length markets);
                           og_rest := og_rest oracleGenState |} in
  let genState := <[marketmap_ModuleName := marshal_marketmap marketGenState]> genState in
  Ok (<[oracle_ModuleName := marshal_oracle oracleGenState]> genState).

Definition ConfigureMinGasPrices (genState : gmap string string) : res (gmap string string) :=
  let? opChildGenState := must_unmarshal unmarshal_opchild genState opchild_ModuleName in
  Ok (<[opchild_ModuleName := marshal_opchild
    {| pg_MinGasPrices := []; pg_HookMaxGas := 3000000; pg_rest := pg_rest opChildGenState |}]> genState).

Definition ConfigureICA (genState : gmap string string) : res (gmap string string) :=
  let? icaGenState := must_unmarshal unmarshal_ica genState ica_ModuleName in
  Ok (<[ica_ModuleName := marshal_ica
    {| ig_ControllerEnabled := true; ig_HostEnabled := true; ig_AllowMessages := AllowMessages;
       ig_rest := ig_rest icaGenState |}]> genState).

(** The loop that removes the first client that is the localhost. *)
Fixpoint remove_localhost (allowedClients : list string) : list string :=
  match allowedClients with
  | [] => []
  | client :: rest => if decide (client = Localhost) then rest else client :: remove_localhost rest
  end.

Definition ConfigureIBCAllowedClients (genState : gmap string string) : res (gmap string string) :=
  let? ibcGenesis := must_unmarshal unmarshal_ibc genState ibc_ModuleName in
  Ok (<[ibc_ModuleName := marshal_ibc
    {| bg_AllowedClients := remove_localhost (bg_AllowedClients ibcGenesis);
       bg_rest := bg_rest ibcGenesis |}]> genState).

Definition NewDefaultGenesisState : res (gmap string string) :=
  let? g := ConfigureMinGasPrices default_genesis in
  let? g := ConfigureICA g in
  let? g := ConfigureIBCAllowedClients g in
  AddMarketData g.

(** ** Theorems *)

Lemma market_pairs_ids id markets :
  cpg_Id <$> market_pairs id markets = (λ i, id + Z.of_nat i) <$> seq 0 (length markets) ∧
  cpg_CurrencyPair <$> market_pairs id markets = Ticker_CurrencyPair <$> markets.
Proof.
  revert id. induction markets as [|m ms IH]; intros id; [done|]. cbn. destruct (IH (id + 1)) as [H1 H2].
  rw H1 H2. split; [|done]. f_equal; [lia|]. rw -fmap_S_seq -list_fmap_compose.
  apply list_fmap_ext. intros i x _. cbn. lia.
Qed.

Lemma remove_localhost_spec l :
  NoDup l → remove_localhost l = filter (λ c, c ≠ Localhost) l.
Proof.
  induction 1 as [|c l Hc _ IH]; [done|]. cbn [remove_localhost]. case_decide as Hl.
  - subst. rw filter_cons_False; [|by intros H; apply H].
    clear IH. induction l as [|d l IH]; [done|].
    rw filter_cons_True; [|set_solver]. f_equal. apply IH. set_solver.
  - rw filter_cons_True //. by rw IH.
Qed.

(** Round trips of the codec, and defaults that decode. *)
Class GenesisLibLaws : Prop := {
  oracle_roundtrip : ∀ g, unmarshal_oracle (marshal_oracle g) = Some g;
  marketmap_roundtrip : ∀ g, unmarshal_marketmap (marshal_marketmap g) = Some g;
  opchild_roundtrip : ∀ g, unmarshal_opchild (marshal_opchild g) = Some g;
  ica_roundtrip : ∀ g, unmarshal_ica (marshal_ica g) = Some g;
  ibc_roundtrip : ∀ g, unmarshal_ibc (marshal_ibc g) = Some g
}.

Definition configured_modules : list string :=
  [oracle_ModuleName; marketmap_ModuleName; opchild_ModuleName; ica_ModuleName; ibc_ModuleName].

(** The default genesis of the application: no minimum gas price, hooks with three
    million gas, interchain accounts restricted to the listed messages, the localhost
    client removed, and one currency pair per market, numbered from one after the
    reserved timestamp pair, with the next free number after them. Every other module
    keeps its own default. *)
Theorem NewDefaultGenesisState_spec `{GenesisLibLaws} g :
  NewDefaultGenesisState = Ok g →
  (∃ op, unmarshal_opchild (default "" (g !! opchild_ModuleName)) = Some op ∧
     pg_MinGasPrices op = [] ∧ pg_HookMaxGas op = 3000000) ∧
  (∃ ica, unmarshal_ica (default "" (g !! ica_ModuleName)) = Some ica ∧
     ig_HostEnabled ica = true ∧ ig_AllowMessages ica = AllowMessages) ∧
  (∃ ibc0 ibc, unmarshal_ibc (default "" (default_genesis !! ibc_ModuleName)) = Some ibc0 ∧
     unmarshal_ibc (default "" (g !! ibc_ModuleName)) = Some ibc ∧
     (NoDup (bg_AllowedClients ibc0) →
        bg_AllowedClients ibc = filter (λ c, c ≠ Localhost) (bg_AllowedClients ibc0))) ∧
  (∃ markets cp og, genesis_markets = Ok markets ∧ ReservedCPTimestamp = Ok cp ∧
     unmarshal_oracle (default "" (g !! oracle_ModuleName)) = Some og ∧
     cpg_CurrencyPair <$> og_CurrencyPairGenesis og = cp :: (Ticker_CurrencyPair <$> markets) ∧
     cpg_Id <$> og_CurrencyPairGenesis og = Z.of_nat <$> seq 0 (S (length markets)) ∧
     og_NextId og = Z.of_nat (S (length markets))) ∧
  (∀ m, m ∉ configured_modules → g !! m = default_genesis !! m).
Proof.
  unfold NewDefaultGenesisState, ConfigureMinGasPrices, ConfigureICA, ConfigureIBCAllowedClients,
    AddMarketData, must_unmarshal. intros Hg. go_inv.
  repeat match goal with H : match ?x with Some _ => _ | None => _ end = Ok _ |- _ =>
    destruct x eqn:?; [injection H as H; subst|discriminate H] end.
  repeat match goal with H : or_panic ?r = Ok _ |- _ =>
    destruct r eqn:?; cbn in H; try discriminate H; injection H as H; subst end.
  simplify_map_eq.
  split_and!.
  - eexists. rw opchild_roundtrip. by split_and!.
  - eexists. rw ica_roundtrip. by split_and!.
  - eexists _, _. split; [eassumption|]. split; [by rw ibc_roundtrip|]. cbn. apply remove_localhost_spec.
  - eexists _, _, _. split; [done|]. split; [done|]. split; [by rw oracle_roundtrip|]. cbn.
    match goal with |- context [market_pairs 1 ?ms] => destruct (market_pairs_ids 1 ms) as [H1 H2] end.
    rw H1 H2. split_and!; [done| |lia]. f_equal. rw -fmap_S_seq -list_fmap_compose.
    apply list_fmap_ext. intros i x _. cbn. lia.
  - intros m Hm. unfold configured_modules in Hm. rw !lookup_insert_ne //; set_solver.
Qed.

End genesis.

(** * Module accounts and orders *)

Definition Minter : string := "authtypes.Minter".
Definition Burner : string := "authtypes.Burner".

(** maccPerms of modules.go: the module accounts and their permissions. *)
Definition maccPerms : list (string * list string) :=
  [("authtypes.FeeCollectorName", []);
   ("icatypes.ModuleName", []);
   ("ibcfeetypes.ModuleName", []);
   ("ibctransfertypes.ModuleName", [Minter; Burner]);
   ("opchildtypes.ModuleName", [Minter; Burner]);
   ("tokenfactorytypes.ModuleName", [Minter; Burner]);
   ("oracletypes.ModuleName", []);
   (Minter, [Minter])].

Definition GetMaccPerms : gmap string (list string) := list_to_map maccPerms.

Definition orderBeginBlockers : list string :=
  ["capabilitytypes.ModuleName"; "opchildtypes.ModuleName"; "authz.ModuleName";
   "ibcexported.ModuleName"; "oracletypes.ModuleName"; "marketmaptypes.ModuleName"].

Definition orderEndBlockers : list string :=
  ["crisistypes.ModuleName"; "opchildtypes.ModuleName"; "authz.ModuleName"; "feegrant.ModuleName";
   "group.ModuleName"; "oracletypes.ModuleName"; "marketmaptypes.ModuleName";
   "forwardingtypes.ModuleName"].

Definition orderInitBlockers : list string :=
  ["capabilitytypes.ModuleName"; "authtypes.ModuleName"; "banktypes.ModuleName";
   "opchildtypes.ModuleName"; "genutiltypes.ModuleName"; "authz.ModuleName"; "group.ModuleName";
   "crisistypes.ModuleName"; "upgradetypes.ModuleName"; "feegrant.ModuleName";
   "consensusparamtypes.ModuleName"; "ibcexported.ModuleName"; "ibctransfertypes.ModuleName";
   "icatypes.ModuleName"; "icaauthtypes.ModuleName"; "ibcfeetypes.ModuleName";
   "wasmtypes.ModuleName"; "oracletypes.ModuleName"; "marketmaptypes.ModuleName";
   "packetforwardtypes.ModuleName"; "tokenfactorytypes.ModuleName"; "ibchookstypes.ModuleName";
   "forwardingtypes.ModuleName"].

(** KVStoreKeys of keepers/keys.go. *)
Definition KVStoreKeys : list string :=
  ["authtypes.StoreKey"; "banktypes.StoreKey"; "group.StoreKey"; "consensusparamtypes.StoreKey";
   "crisistypes.StoreKey"; "ibcexported.StoreKey"; "upgradetypes.StoreKey";
   "ibctransfertypes.StoreKey"; "capabilitytypes.StoreKey"; "authzkeeper.StoreKey";
   "feegrant.StoreKey"; "icahosttypes.StoreKey"; "icacontrollertypes.StoreKey";
   "icaauthtypes.StoreKey"; "ibcfeetypes.StoreKey"; "wasmtypes.StoreKey"; "opchildtypes.StoreKey";
   "packetforwardtypes.StoreKey"; "oracletypes.StoreKey"; "tokenfactorytypes.StoreKey";
   "ibchookstypes.StoreKey"; "forwardingtypes.StoreKey"; "marketmaptypes.StoreKey";
   "ratelimittypes.StoreKey"].

Section accounts.
Context {AC : AddressCodec}.

(** authtypes.NewModuleAddress. *)
Context (NewModuleAddress : string → bytes).

(** [addrStr, _ := app.ac.BytesToString(...)]: an error leaves the empty string. *)
Definition module_addr_string (name : string) : string :=
  match BytesToString (NewModuleAddress name) with Ok s => s | _ => "" end.

(** The keys of the map ModuleAccountAddrs returns, whose values are all true. *)
Definition ModuleAccountAddrs : gset string :=
  list_to_set (module_addr_string <$> (fst <$> maccPerms)).

(** The module accounts that are allowed to receive funds: none. *)
Definition allowed_modules : list string := [].

Definition BlockedModuleAccountAddrs (modAccAddrs : gset string) : gset string :=
  foldl (λ s m, s ∖ {[module_addr_string m]}) modAccAddrs allowed_modules.

(** Every module account is blocked from receiving coins in a bank send, the token
    factory's and the fee collector's included; and coins can be minted only by the
    accounts of the transfer, opchild and token factory modules and the one kept for
    tests, each of them blocked. *)
Theorem module_accounts_blocked name perms :
  (name, perms) ∈ maccPerms →
  module_addr_string name ∈ BlockedModuleAccountAddrs ModuleAccountAddrs ∧
  (Minter ∈ perms ↔ name ∈ ["ibctransfertypes.ModuleName"; "opchildtypes.ModuleName";
                            "tokenfactorytypes.ModuleName"; Minter]).
Proof.
  intros Hin. split.
  - unfold BlockedModuleAccountAddrs, ModuleAccountAddrs. cbn [foldl allowed_modules].
    apply elem_of_list_to_set, list_elem_of_fmap. exists name. split; [done|].
    apply list_elem_of_fmap. by exists (name, perms).
  - assert (Hall : Forall (λ p, bool_decide (Minter ∈ p.2) = bool_decide (p.1 ∈
      ["ibctransfertypes.ModuleName"; "opchildtypes.ModuleName"; "tokenfactorytypes.ModuleName"; Minter]))
      maccPerms) by (repeat constructor).
    rw Forall_forall in Hall. specialize (Hall _ Hin). cbn in Hall.
    by rw -(bool_decide_eq_true (Minter ∈ perms)) Hall bool_decide_eq_true.
Qed.

End accounts.

(** The position of a name in an order. *)
Definition position (x : string) (l : list string) : option nat := fst <$> list_find (x =.) l.

Definition comes_before (x y : string) (l : list string) : Prop :=
  ∃ i j, position x l = Some i ∧ position y l = Some j ∧ (i < j)%nat.

(** The orders of the modules: capability is first in genesis and in begin block; auth and
    bank are set up before the modules that hold coins (opchild, genutil, transfer, the
    token factory), and IBC before the applications on it; every module with a begin or
    end block is initialised, and no module is listed twice. *)
Theorem module_orders :
  head orderInitBlockers = Some "capabilitytypes.ModuleName" ∧
  head orderBeginBlockers = Some "capabilitytypes.ModuleName" ∧
  Forall (λ m, comes_before "authtypes.ModuleName" m orderInitBlockers ∧
               comes_before "banktypes.ModuleName" m orderInitBlockers)
    ["opchildtypes.ModuleName"; "genutiltypes.ModuleName"; "ibctransfertypes.ModuleName";
     "tokenfactorytypes.ModuleName"] ∧
  Forall (λ m, comes_before "ibcexported.ModuleName" m orderInitBlockers)
    ["ibctransfertypes.ModuleName"; "icatypes.ModuleName"; "ibcfeetypes.ModuleName";
     "packetforwardtypes.ModuleName"; "ibchookstypes.ModuleName"] ∧
  Forall (λ m, m ∈ orderInitBlockers) (orderBeginBlockers ++ orderEndBlockers) ∧
  NoDup orderInitBlockers ∧ NoDup orderBeginBlockers ∧ NoDup orderEndBlockers ∧ NoDup KVStoreKeys.
Proof.
  split_and!; try done.
  - repeat constructor; eexists _, _; (split_and!; [by vm_compute|by vm_compute|lia]).
  - repeat constructor; eexists _, _; (split_and!; [by vm_compute|by vm_compute|lia]).
  - refine (bool_decide_unpack _ _). by vm_compute.
  - refine (bool_decide_unpack _ _). by vm_compute.
  - refine (bool_decide_unpack _ _). by vm_compute.
  - refine (bool_decide_unpack _ _). by vm_compute.
  - refine (bool_decide_unpack _ _). by vm_compute.
Qed.

(** * Upgrades *)

Section upgrades.
(** The state of the chain, and version maps of modules. *)
Context {S : Type}.
Abbreviation VersionMap := (gmap string Z).

(** An upgrade handler, and what registering handlers sets up in the application: the
    handlers by name, and the store loader with the height and the deleted stores. *)
Definition UpgradeHandler : Type := VersionMap → M S VersionMap.

Record AppSetup := {
  upgrade_handlers : gmap string UpgradeHandler;
  store_loader : option (Z * list string)
}.

(** The upgrade keeper, the opchild keeper and the module manager. *)
Class UpgradeLib := {
  ReadUpgradeInfoFromDisk : res (string * Z);
  IsSkipHeight : Z → bool;
  IsBound : string → M S bool;
  BindPort : string → M S unit;
  RunMigrations : VersionMap → M S VersionMap;
  opchild_PortID : string
}.

Context {UL : UpgradeLib}.

Definition SetUpgradeHandler (name : string) (h : UpgradeHandler) (a : AppSetup) : AppSetup :=
  {| upgrade_handlers := <[name := h]> (upgrade_handlers a); store_loader := store_loader a |}.

(** v1_1_0, v1_1_1 and v1_2_5 only run the migrations. *)
Definition v1_1_0_RegisterUpgradeHandlers (a : AppSetup) : AppSetup :=
  SetUpgradeHandler "v1.1.0" (λ vm, RunMigrations vm) a.
Definition v1_1_1_RegisterUpgradeHandlers (a : AppSetup) : AppSetup :=
  SetUpgradeHandler "v1.1.1" (λ vm, RunMigrations vm) a.
Definition v1_2_5_RegisterUpgradeHandlers (a : AppSetup) : AppSetup :=
  SetUpgradeHandler "v1.2.5" (λ vm, RunMigrations vm) a.

Definition v1_3_0_handler : UpgradeHandler := λ vm,
  let! bound := IsBound opchild_PortID in
  (if negb bound then BindPort opchild_PortID else ret ()) ;;;
  RunMigrations vm.

(** tmos.Exit ends the process. *)
Definition v1_3_0_RegisterUpgradeHandlers (a : AppSetup) : res AppSetup :=
  match ReadUpgradeInfoFromDisk with
  | Ok (name, height) =>
      let a1 :=
        if bool_decide (name = "v1.3.0") && negb (IsSkipHeight height) then
          {| upgrade_handlers := upgrade_handlers a; store_loader := Some (height, ["auction"]) |}
        else a in
      Ok (SetUpgradeHandler "v1.3.0" v1_3_0_handler a1)
  | Err e => Panic (PanicString (Error e))
  | Panic p => Panic p
  end.

(** The upgrade of version 1.3.0 deletes the auction store exactly at the height at which
    this upgrade is scheduled and not skipped; its handler binds the opchild port only
    when it is not bound, and runs the migrations only after that worked. *)
Theorem v1_3_0_spec a name height :
  ReadUpgradeInfoFromDisk = Ok (name, height) →
  ∃ a1, v1_3_0_RegisterUpgradeHandlers a = Ok a1 ∧
    store_loader a1 = (if decide (name = "v1.3.0" ∧ IsSkipHeight height = false)
                       then Some (height, ["auction"]) else store_loader a) ∧
    upgrade_handlers a1 = <["v1.3.0" := v1_3_0_handler]> (upgrade_handlers a) ∧
    (∀ vm s s1, IsBound opchild_PortID s = (Ok true, s1) → v1_3_0_handler vm s = RunMigrations vm s1) ∧
    (∀ vm s s1 s2, IsBound opchild_PortID s = (Ok false, s1) → BindPort opchild_PortID s1 = (Ok (), s2) →
       v1_3_0_handler vm s = RunMigrations vm s2) ∧
    (∀ vm s s1 e s2, IsBound opchild_PortID s = (Ok false, s1) → BindPort opchild_PortID s1 = (Err e, s2) →
       v1_3_0_handler vm s = (Err e, s2)).
Proof.
  intros Hi. unfold v1_3_0_RegisterUpgradeHandlers. rw Hi. eexists. split; [done|].
  split; [|split; [|split_and!]].
  - case_decide as Hd; case_bool_decide as Hn; destruct (IsSkipHeight height); cbn; try done;
      try (by destruct Hd); by destruct Hd.
  - by destruct (_ && _).
  - intros vm s s1 Hb. unfold v1_3_0_handler. by rw (bind_ok _ _ _ _ _ Hb).
  - intros vm s s1 s2 Hb Hp. unfold v1_3_0_handler. rw (bind_ok _ _ _ _ _ Hb). cbn.
    by rw (bind_ok _ _ _ _ _ Hp).
  - intros vm s s1 e s2 Hb Hp. unfold v1_3_0_handler. rw (bind_ok _ _ _ _ _ Hb). cbn.
    by rw (bind_err _ _ _ _ _ Hp).
Qed.

End upgrades.

(** * Rollback *)

Section rollback.
(** The state of the node's two databases. *)
Context {S : Type}.

(** CometBFT's rollback answers with the height and the hash it went back to. *)
Class RollbackLib := {
  LatestVersion : S → Z;
  RollbackStateTo : Z → bool → M S (Z * string);
  RollbackToVersion : Z → M S unit
}.

Context {RL : RollbackLib}.

(** strconv.ParseInt(s, 10, 64): an optional sign and digits, within 64 bits. *)
Definition digit_value (a : ascii) : option Z :=
  let n := Z.of_N (N_of_ascii a) in if (48 <=? n) && (n <=? 57) then Some (n - 48) else None.

Fixpoint parse_digits (acc : Z) (s : string) : option Z :=
  match s with
  | EmptyString => Some acc
  | String a s => match digit_value a with Some d => parse_digits (10 * acc + d) s | None => None end
  end.

Definition ParseInt (s : string) : res Z :=
  let '(neg, digits) :=
    match s with
    | String "-" s => (true, s)
    | String "+" s => (false, s)
    | s => (false, s)
    end in
  match (if is_empty digits then None else parse_digits 0 digits) with
  | None => Err (Errorf "strconv.ParseInt: parsing %q: invalid syntax" [s])
  | Some n =>
      let n := if neg : bool then - n else n in
      if (- 2 ^ 63 <=? n) && (n <? 2 ^ 63) then Ok n
      else Err (Errorf "strconv.ParseInt: parsing %q: value out of range" [s])
  end.

(** An error of a call, wrapped with a message. *)
Definition wrap_err {A} (msg : string) (m : M S A) : M S A := λ s,
  match m s with
  | (Err e, s1) => (Err (Wrapf e msg []), s1)
  | out => out
  end.

(** The RunE of the mrollback command, from the text of its argument; the application
    database has been opened. *)
Definition mrollback (removeBlock : bool) (arg : string) : M S (Z * string) :=
  let! height := lift (ParseInt arg) in
  if height <=? 0 then fail (Errorf "height must be greater than 0" [])
  else
    let! curHeight := gets LatestVersion in
    if curHeight <=? height then
      fail (Errorf "height must be less than the current height %d" [pretty curHeight])
    else
      let! r := wrap_err "failed to rollback CometBFT state" (RollbackStateTo height removeBlock) in
      wrap_err "failed to rollback to version" (RollbackToVersion r.1) ;;;
      ret r.

(** A rollback that succeeds was asked for a height between one and the last version, and
    rolled the application back to the height CometBFT answered; a height out of this
    range, or no number, touches neither database. *)
Theorem mrollback_spec removeBlock arg s :
  (∀ height r s1 s2,
     ParseInt arg = Ok height → 0 < height < LatestVersion s →
     RollbackStateTo height removeBlock s = (Ok r, s1) → RollbackToVersion r.1 s1 = (Ok (), s2) →
     mrollback removeBlock arg s = (Ok r, s2)) ∧
  ((∀ height, ParseInt arg = Ok height → ¬ (0 < height < LatestVersion s)) →
     ∃ e, mrollback removeBlock arg s = (Err e, s)).
Proof.
  unfold mrollback. split.
  - intros height r s1 s2 Hp Hh H1 H2. unfold bind at 1, lift. rw Hp.
    destruct (Z.leb_spec height 0); [lia|]. unfold bind at 1, gets.
    destruct (Z.leb_spec (LatestVersion s) height); [lia|].
    unfold bind, wrap_err. by rw H1 H2.
  - intros Hno. unfold bind at 1, lift.
    destruct (ParseInt arg) as [height|e|p] eqn:Hp.
    + destruct (Z.leb_spec height 0); [by eexists|]. unfold bind at 1, gets.
      destruct (Z.leb_spec (LatestVersion s) height); [by eexists|].
      destruct (Hno height); [done|lia].
    + by eexists.
    + unfold ParseInt in Hp. repeat case_match; done.
Qed.

(** ParseInt reads back what is printed, and answers only numbers of 64 bits. *)
Lemma ParseInt_bounds s n : ParseInt s = Ok n → - 2 ^ 63 <= n < 2 ^ 63.
Proof.
  unfold ParseInt. destruct (match s with EmptyString => _ | _ => _ end) as [neg digits].
  destruct (if is_empty digits then None else _) as [k|]; [|done].
  destruct ((_ <=? _) && _) eqn:Hb; [|done]. intros [= <-].
  apply andb_true_iff in Hb as [H1%Z.leb_le H2%Z.ltb_lt]. lia.
Qed.

End rollback.
