(* ===== verification/Keepers.v ===== *)
(** app/keepers/keepers.go: the construction of the keepers and of the IBC stacks, on a heap.

    NewAppKeeper makes some sixty library objects and joins them by pointers, copies and
    setters, in an order that matters: three middlewares and the wasm keeper are allocated
    empty, handed out, and filled later through the pointer; several constructors take a copy
    of a keeper; hooks are set on the bank keeper after everyone has been given it. What a
    library function returns is known by the function and its arguments ([Made]), and the
    setters called on it since; the structs of this repository have their fields ([Struct]).
    Which argument of a library function is the next ICS4 wrapper or the wrapped module is a
    parameter ([IbcConstructors]), with the signatures of the functions as its law. *)
From S2P Require Import Prelude.
From S2P Require Import Interfaces.
From S2P Require Import TfTypes.
From S2P Require Import TfKeeper.
From S2P Require Import Bank.
From S2P Require Import TfMsgServer.
From S2P Require Import Wiring.
From S2P Require Import App.

(** * Values and the heap *)

#[local] Set Warnings "-register-all".

Inductive val : Type :=
| Nil
| Arg (name : string)              (* an argument of NewAppKeeper, or a library constant *)
| Str (s : string)
| Strs (l : list string)
| StoreKey (kind name : string)
| Ptr (l : positive)
| Copy (l : positive) (v : val)    (* [*p]: the struct that the cell held when it was read *)
| Sel (v : val) (field : string)   (* a field of a library object, a method as a value *)
| Call (v : val) (method : string) (args : list val)
| Struct (T : string) (fields : list (string * val))
| Made (f : string) (args : list val) (setters : list (string * list val)).

#[export] Instance val_eq_dec : EqDecision val.
Proof.
  unfold EqDecision, RelDecision, Decision. fix IH 1.
  decide equality; try exact (decide (_ = _)); try apply IH;
    first [exact (@list_eq_dec val IH _ _)
      |exact (@list_eq_dec _ (@prod_eq_dec _ _ _ IH) _ _)
      |exact (@list_eq_dec _ (@prod_eq_dec _ _ _ (@list_eq_dec val IH)) _ _)].
Defined.

(** The local variable appKeepers: its three key maps and its other fields, which are zero
    until they are assigned; and the heap. *)
Record kstate := {
  heap : gmap positive val;
  next : positive;
  keys : gmap string val;
  tkeys : gmap string val;
  memKeys : gmap string val;
  fields : gmap string val
}.

Abbreviation K := (M kstate).
Implicit Types (s : kstate) (v : val).

(** ** Reading and writing cells *)

Definition set_heap (f : gmap positive val → gmap positive val) s : kstate :=
  {| heap := f (heap s); next := next s; keys := keys s; tkeys := tkeys s; memKeys := memKeys s;
     fields := fields s |}.

Definition set_fields (f : gmap string val → gmap string val) s : kstate :=
  {| heap := heap s; next := next s; keys := keys s; tkeys := tkeys s; memKeys := memKeys s;
     fields := f (fields s) |}.

Definition alloc_cell v s : kstate :=
  {| heap := <[next s := v]> (heap s); next := Pos.succ (next s); keys := keys s;
     tkeys := tkeys s; memKeys := memKeys s; fields := fields s |}.

Definition nil_dereference : gopanic :=
  PanicString "invalid memory address or nil pointer dereference".

(** [&v]: a new cell. *)
Definition new (m : K val) : K val :=
  let! v := m in let! l := gets next in modify (alloc_cell v) ;;; ret (Ptr l).

(** [*p] as a cell: its location and what it holds. *)
Definition cell (m : K val) : K (positive * val) :=
  let! p := m in
  match p with
  | Ptr l => let! h := gets heap in
      match h !! l with Some v => ret (l, v) | None => panic nil_dereference end
  | _ => panic nil_dereference
  end.

(** [*p] as a value: a copy. *)
Definition copy (m : K val) : K val := let! (l, v) := cell m in ret (Copy l v).

(** [*p = v] *)
Definition store (p : K val) (m : K val) : K unit :=
  let! v := m in let! (l, _) := cell p in modify (set_heap (insert l v)).

(** Arguments are evaluated from left to right. *)
Fixpoint arguments (args : list (K val)) : K (list val) :=
  match args with
  | [] => ret []
  | m :: args => let! v := m in let! vs := arguments args in ret (v :: vs)
  end.

(** A call of a library function. *)
Definition call (f : string) (args : list (K val)) : K val :=
  let! vs := arguments args in ret (Made f vs []).

(** [p.field], of a library object behind a pointer. *)
Definition sel (p : K val) (field : string) : K val :=
  let! (l, _) := cell p in ret (Sel (Ptr l) field).

(** [p.method(args)] for its result. *)
Definition call_method (p : K val) (method : string) (args : list (K val)) : K val :=
  let! (l, _) := cell p in let! vs := arguments args in ret (Call (Ptr l) method vs).

Definition add_setter (method : string) (args : list val) v : val :=
  match v with Made f vs setters => Made f vs (setters ++ [(method, args)]) | v => v end.

(** [p.Set(args)]: a method that changes the library object behind a pointer. *)
Definition setter (p : K val) (method : string) (args : list (K val)) : K unit :=
  let! (l, v) := cell p in let! vs := arguments args in
  modify (set_heap (insert l (add_setter method vs v))).

(** [v.Set(args)]: the same for a method that returns the changed value. *)
Definition with_setter (m : K val) (method : string) (args : list (K val)) : K val :=
  let! v := m in let! vs := arguments args in ret (add_setter method vs v).

(** [appKeepers.field] and [appKeepers.field = v]. *)
Definition fld (field : string) : K val := let! f := gets fields in ret (default Nil (f !! field)).

Definition set (field : string) (m : K val) : K unit :=
  let! v := m in modify (set_fields (insert field v)).

(** [appKeepers.keys[k]]: nil where there is no such key. *)
Definition key (k : string) : K val := let! m := gets keys in ret (default Nil (m !! k)).
Definition tkey (k : string) : K val := let! m := gets tkeys in ret (default Nil (m !! k)).
Definition memKey (k : string) : K val := let! m := gets memKeys in ret (default Nil (m !! k)).

(** runtime.NewKVStoreService(appKeepers.keys[k]) and NewTransientStoreService. *)
Definition NewKVStoreService (k : string) : K val := call "runtime.NewKVStoreService" [key k].
Definition NewTransientStoreService (k : string) : K val :=
  call "runtime.NewTransientStoreService" [tkey k].

Definition arg (name : string) : K val := ret (Arg name).
Definition nil_ : K val := ret Nil.

(** * AppKeepers *)

(** The pointers of type AppKeepers. *)
Definition keeper_fields : list string :=
  ["AccountKeeper"; "BankKeeper"; "CapabilityKeeper"; "CrisisKeeper"; "UpgradeKeeper";
   "GroupKeeper"; "ConsensusParamsKeeper"; "IBCKeeper"; "TransferKeeper"; "AuthzKeeper";
   "FeeGrantKeeper"; "ICAHostKeeper"; "ICAControllerKeeper"; "ICAAuthKeeper"; "IBCFeeKeeper";
   "WasmKeeper"; "OPChildKeeper"; "PacketForwardKeeper"; "OracleKeeper"; "MarketMapKeeper";
   "TokenFactoryKeeper"; "IBCHooksKeeper"; "ForwardingKeeper"; "RatelimitKeeper"].

(** Its structs of type capabilitykeeper.ScopedKeeper. *)
Definition scoped_fields : list string :=
  ["ScopedIBCKeeper"; "ScopedTransferKeeper"; "ScopedICAHostKeeper"; "ScopedICAControllerKeeper";
   "ScopedICAAuthKeeper"; "ScopedWasmKeeper"; "ScopedICQKeeper"; "ScopedFetchPriceKeeper";
   "ScopedOPChildKeeper"].

(** AppKeepers{}, and the heap with the base application, which the caller made. *)
Definition AppKeepers_zero : kstate :=
  {| heap := {[1%positive := Made "baseapp.NewBaseApp" [] []]};
     next := 2;
     keys := ∅; tkeys := ∅; memKeys := ∅;
     fields := list_to_map (((λ f, (f, Nil)) <$> keeper_fields) ++
       ((λ f, (f, Struct "capabilitykeeper.ScopedKeeper" [])) <$> scoped_fields)) |}.

Definition bApp : K val := ret (Ptr 1).

Definition new_keys (kind : string) (names : list string) : gmap string val :=
  list_to_map ((λ n, (n, StoreKey kind n)) <$> names).

(** keys.go *)
Definition GenerateKeys : K unit :=
  modify (λ s, {| heap := heap s; next := next s;
    keys := new_keys "KVStoreKey" KVStoreKeys;
    tkeys := new_keys "TransientStoreKey" ["forwardingtypes.TransientStoreKey"; "ibchookstypes.TStoreKey"];
    memKeys := new_keys "MemoryStoreKey" ["capabilitytypes.MemStoreKey"];
    fields := fields s |}).

(** keys.go: GetKey, GetTKey, GetMemKey. *)
Definition GetKey s (storeKey : string) : val := default Nil (keys s !! storeKey).
Definition GetTKey s (storeKey : string) : val := default Nil (tkeys s !! storeKey).
Definition GetMemKey s (storeKey : string) : val := default Nil (memKeys s !! storeKey).

(** What the construction needs of the libraries beyond their constructors: the outcome of
    RegisterStreamingServices and SetIBCKeepers, module addresses, the check of a collections
    schema, and the capabilities wasmd is built with. *)
Class KeeperLib := {
  RegisterStreamingServices_err : option goerror;
  SetIBCKeepers_err : option goerror;
  NewModuleAddress : string → bytes;
  schema_Build : list (bytes * string) → option goerror;
  BuiltInCapabilities : list string
}.

Section construction.
Context {AC : AddressCodec} {KL : KeeperLib}.

(** os.Exit and tmos.Exit end the process. *)
Definition exit {A} (msg : string) : K A := panic (PanicString msg).

(** ** Constructors of this repository *)

(** x/bank/keeper/keeper.go: NewKeeper. *)
Definition bankkeeper_NewKeeper (cdc storeService ak blockedAddrs : K val) (authority : string)
    (logger : K val) : K val :=
  let! ak_ := ak in
  match StringToBytes authority with
  | Ok _ =>
      let! base := call "bankkeeper.NewBaseKeeper"
        [cdc; storeService; ret ak_; blockedAddrs; ret (Str authority); logger] in
      ret (Struct "bankkeeper.Keeper" [("BaseKeeper", base); ("ak", ak_); ("hooks", Nil)])
  | Err err => panic (PanicError (Wrapf err "invalid bank authority address" []))
  | Panic p => panic p
  end.

Definition get_field (field : string) v : val :=
  match v with
  | Struct _ fs => default Nil ((list_to_map fs : gmap string val) !! field)
  | _ => Nil
  end.

Definition put_field (field : string) (w : val) v : val :=
  match v with
  | Struct T fs => Struct T ((λ '(f, u), if decide (f = field) then (f, w) else (f, u)) <$> fs)
  | v => v
  end.

(** [p.field = v] for a struct of this repository. *)
Definition assign (p : K val) (field : string) (m : K val) : K unit :=
  let! w := m in let! (l, v) := cell p in
  modify (set_heap (insert l (put_field field w v))).

(** x/bank/keeper/keeper.go: SetHooks. *)
Definition bankkeeper_SetHooks (p bh : K val) : K unit :=
  let! (_, v) := cell p in
  match get_field "hooks" v with
  | Nil => assign p "hooks" bh
  | _ => panic (PanicString "cannot set bank hooks twice")
  end.

(** AppendSendRestriction is a method of the embedded base keeper. *)
Definition bankkeeper_AppendSendRestriction (p restriction : K val) : K unit :=
  let! (l, v) := cell p in let! r := restriction in
  modify (set_heap (insert l
    (put_field "BaseKeeper" (add_setter "AppendSendRestriction" [r] (get_field "BaseKeeper" v)) v))).

(** community_pool.go: NewCommunityPoolKeeper. *)
Definition keepers_NewCommunityPoolKeeper (bk feeCollectorName : K val) : K val :=
  let! bk := bk in let! name := feeCollectorName in
  ret (Struct "CommunityPoolKeeper" [("bk", bk); ("feeCollectorName", name)]).

(** app/ibc-hooks/hooks.go: NewWasmHooks. *)
Definition ibcwasmhooks_NewWasmHooks (codec ac wasmKeeper opchildKeeper : K val) : K val :=
  let! codec := codec in let! ac := ac in let! wk := wasmKeeper in let! opk := opchildKeeper in
  new (ret (Struct "WasmHooks"
    [("codec", codec); ("ac", ac); ("wasmKeeper", wk); ("opchildKeeper", opk)])).

(** The collections of the token factory: prefix, name, and how they are made. *)
Definition tokenfactory_collections : list (bytes * string * string) :=
  [(CreatorDenomsPrefix, "creatordenom", "collections.NewKeySet");
   (DenomAuthorityPrefix, "denomauthority", "collections.NewMap");
   (DenomHookAddrPrefix, "denomhookaddr", "collections.NewMap");
   (ParamsKeyPrefix, "params", "collections.NewItem")].

(** x/tokenfactory/keeper/keeper.go: NewKeeper. contractKeeper is left nil. *)
Definition tokenfactorykeeper_NewKeeper (ac cdc storeService accountKeeper bankKeeper
    communityPoolKeeper : K val) (authority : string) : K val :=
  let! ac := ac in let! cdc := cdc in let! ss := storeService in let! ak := accountKeeper in
  let! bk := bankKeeper in let! cpk := communityPoolKeeper in
  let coll i := match tokenfactory_collections !! i with
    | Some (prefix, name, make) => Made make [ss; Str prefix; Str name] []
    | None => Nil end in
  let k := Struct "tokenfactorykeeper.Keeper"
    [("ac", ac); ("cdc", cdc); ("storeService", ss); ("accountKeeper", ak); ("bankKeeper", bk);
     ("contractKeeper", Nil); ("communityPoolKeeper", cpk);
     ("CreatorDenoms", coll 0%nat); ("DenomAuthority", coll 1%nat); ("DenomHookAddr", coll 2%nat);
     ("Params", coll 3%nat); ("authority", Str authority)] in
  match schema_Build (fst <$> tokenfactory_collections) with
  | Some err => panic (PanicError err)
  | None => ret k
  end.

(** SetContractKeeper, on the keeper itself. *)
Definition tokenfactorykeeper_SetContractKeeper (p contractKeeper : K val) : K unit :=
  assign p "contractKeeper" contractKeeper.

(** x/tokenfactory/keeper/before_send.go: Hooks has a value receiver, the hooks hold a copy
    of the keeper. *)
Definition tokenfactorykeeper_Hooks (p : K val) : K val :=
  let! k := copy p in ret (Struct "Hooks" [("k", k)]).

(** ** NewAppKeeper, block by block *)

Definition appCodec := arg "appCodec".
Definition ac := arg "ac".
Definition logger := arg "logger".
Definition ChannelKeeper := sel (fld "IBCKeeper") "ChannelKeeper".
Definition PortKeeper := sel (fld "IBCKeeper") "PortKeeper".

(** Streaming services, the authority, consensus parameters, capabilities. *)
Definition authorityAccAddr : bytes := NewModuleAddress "opchildtypes.ModuleName".

Definition keepers_begin : K string :=
  GenerateKeys ;;;
  setter bApp "RegisterStreamingServices" [arg "appOpts"; arg "appKeepers.keys"] ;;;
  match RegisterStreamingServices_err with Some _ => exit "os.Exit(1)" | None => ret () end ;;;
  match BytesToString authorityAccAddr with
  | Ok s => ret s
  | Err err => panic (PanicError err)
  | Panic p => panic p
  end.

Definition scope (field module : string) : K unit :=
  setter (fld "CapabilityKeeper") "ScopeToModule" [arg module] ;;;
  set field (call_method (fld "CapabilityKeeper") "ScopeToModule" [arg module]).

Definition keepers_capabilities (authorityAddr : string) : K unit :=
  set "ConsensusParamsKeeper" (new (call "consensusparamkeeper.NewKeeper"
    [appCodec; NewKVStoreService "consensusparamtypes.StoreKey"; ret (Str authorityAddr);
     arg "runtime.EventService{}"])) ;;;
  setter bApp "SetParamStore" [sel (fld "ConsensusParamsKeeper") "ParamsStore"] ;;;
  set "CapabilityKeeper" (new (call "capabilitykeeper.NewKeeper"
    [appCodec; key "capabilitytypes.StoreKey"; memKey "capabilitytypes.MemStoreKey"])) ;;;
  scope "ScopedIBCKeeper" "ibcexported.ModuleName" ;;;
  scope "ScopedTransferKeeper" "ibctransfertypes.ModuleName" ;;;
  scope "ScopedICAHostKeeper" "icahosttypes.SubModuleName" ;;;
  scope "ScopedICAControllerKeeper" "icacontrollertypes.SubModuleName" ;;;
  scope "ScopedICAAuthKeeper" "icaauthtypes.ModuleName" ;;;
  scope "ScopedWasmKeeper" "wasmtypes.ModuleName" ;;;
  scope "ScopedOPChildKeeper" "opchildtypes.ModuleName" ;;;
  setter (fld "CapabilityKeeper") "Seal" [].

(** The empty wasm keeper, accounts, bank. Returns the community pool keeper. *)
Definition keepers_bank (authorityAddr : string) : K val :=
  set "WasmKeeper" (new (ret (Struct "wasmkeeper.Keeper" []))) ;;;
  set "AccountKeeper" (new (call "authkeeper.NewAccountKeeper"
    [appCodec; NewKVStoreService "authtypes.StoreKey"; arg "authtypes.ProtoBaseAccount";
     arg "maccPerms"; ac; arg "sdk.GetConfig().GetBech32AccountAddrPrefix()";
     ret (Str authorityAddr)])) ;;;
  set "BankKeeper" (new (bankkeeper_NewKeeper appCodec (NewKVStoreService "banktypes.StoreKey")
    (fld "AccountKeeper") (arg "blockedAddress") authorityAddr logger)) ;;;
  keepers_NewCommunityPoolKeeper (fld "BankKeeper") (arg "authtypes.FeeCollectorName").

(** The oracle, opchild, crisis and upgrade keepers. *)
Definition keepers_opchild (authorityAddr : string) : K unit :=
  let! marketMapKeeper := new (call "marketmapkeeper.NewKeeper"
    [NewKVStoreService "marketmaptypes.StoreKey"; appCodec; ret (Str authorityAccAddr)]) in
  set "MarketMapKeeper" (ret marketMapKeeper) ;;;
  set "OracleKeeper" (new (call "oraclekeeper.NewKeeper"
    [NewKVStoreService "oracletypes.StoreKey"; appCodec; ret marketMapKeeper;
     ret (Str authorityAccAddr)])) ;;;
  setter (fld "MarketMapKeeper") "SetHooks" [call_method (fld "OracleKeeper") "Hooks" []] ;;;
  set "OPChildKeeper" (new (call "opchildkeeper.NewKeeper"
    [appCodec; NewKVStoreService "opchildtypes.StoreKey"; fld "AccountKeeper"; fld "BankKeeper";
     fld "OracleKeeper";
     call "ante.CreateAnteHandlerForOPinit" [fld "AccountKeeper"; arg "txConfig.SignModeHandler()"];
     arg "txConfig.TxDecoder()"; call_method bApp "MsgServiceRouter" []; ret (Str authorityAddr);
     ac; arg "vc"; arg "cc"; arg "authcodec.NewBech32Codec(init)"; logger])) ;;;
  set "CrisisKeeper" (new (call "crisiskeeper.NewKeeper"
    [appCodec; NewKVStoreService "crisistypes.StoreKey"; arg "invCheckPeriod"; fld "BankKeeper";
     arg "authtypes.FeeCollectorName"; ret (Str authorityAddr); ac])) ;;;
  set "UpgradeKeeper" (new (call "upgradekeeper.NewKeeper"
    [arg "skipUpgradeHeights"; NewKVStoreService "upgradetypes.StoreKey"; appCodec; arg "homePath";
     bApp; ret (Str authorityAddr)])).

(** The slice moduleAddrs, in the order of an iteration over the map maccPerms. It is not
    used afterwards. *)
Definition moduleAddrs (maccPerms : list (string * list string)) : list bytes :=
  NewModuleAddress ∘ fst <$> maccPerms.

(** The fee grant, authz and group keepers. *)
Definition keepers_accounts : K unit :=
  set "FeeGrantKeeper" (new (call "feegrantkeeper.NewKeeper"
    [appCodec; NewKVStoreService "feegrant.StoreKey"; fld "AccountKeeper"])) ;;;
  let! authzKeeper := call "authzkeeper.NewKeeper"
    [NewKVStoreService "authzkeeper.StoreKey"; appCodec; call_method bApp "MsgServiceRouter" [];
     fld "AccountKeeper"] in
  let! authzKeeper := with_setter (ret authzKeeper) "SetBankKeeper" [fld "BankKeeper"] in
  set "AuthzKeeper" (new (ret authzKeeper)) ;;;
  set "GroupKeeper" (new (call "groupkeeper.NewKeeper"
    [key "group.StoreKey"; appCodec; call_method bApp "MsgServiceRouter" []; fld "AccountKeeper";
     arg "group.DefaultConfig()"])).

(** The IBC keeper, fees, hooks, and the forwarding keeper. *)
Definition keepers_ibc (authorityAddr : string) : K unit :=
  set "IBCKeeper" (new (call "ibckeeper.NewKeeper"
    [appCodec; key "ibcexported.StoreKey"; nil_; fld "OPChildKeeper"; fld "UpgradeKeeper";
     fld "ScopedIBCKeeper"; ret (Str authorityAddr)])) ;;;
  setter (fld "OPChildKeeper") "SetIBCKeepers"
    [sel (fld "IBCKeeper") "ClientKeeper"; PortKeeper; fld "ScopedOPChildKeeper"] ;;;
  match SetIBCKeepers_err with Some err => exit (Error err) | None => ret () end ;;;
  setter (fld "IBCKeeper") "ClientKeeper.SetPostUpdateHandler"
    [sel (fld "OPChildKeeper") "UpdateHostValidatorSet"] ;;;
  set "IBCFeeKeeper" (new (call "ibcfeekeeper.NewKeeper"
    [appCodec; key "ibcfeetypes.StoreKey"; ChannelKeeper; ChannelKeeper; PortKeeper;
     fld "AccountKeeper"; fld "BankKeeper"])) ;;;
  set "IBCHooksKeeper" (new (call "ibchookskeeper.NewKeeper"
    [appCodec; NewKVStoreService "ibchookstypes.StoreKey";
     NewTransientStoreService "ibchookstypes.TStoreKey"; ret (Str authorityAddr); ac])) ;;;
  set "ForwardingKeeper" (new (call "forwardingkeeper.NewKeeper"
    [appCodec; logger; NewKVStoreService "forwardingtypes.StoreKey";
     NewTransientStoreService "forwardingtypes.TransientStoreKey";
     arg "appheaderinfo.NewHeaderInfoService()"; arg "runtime.ProvideEventService()";
     ret (Str authorityAddr); fld "AccountKeeper"; fld "BankKeeper"; ChannelKeeper;
     fld "TransferKeeper"])) ;;;
  bankkeeper_AppendSendRestriction (fld "BankKeeper")
    (sel (fld "ForwardingKeeper") "SendRestrictionFn").

(** The transfer stack. The packet forward keeper, the rate limit keeper and the ICS4
    middleware of the hooks are allocated empty and filled in turn. *)
Definition keepers_transfer (authorityAddr : string) : K val :=
  let! packetForwardKeeper := new (ret (Struct "packetforwardkeeper.Keeper" [])) in
  let! rateLimitKeeper := new (ret (Struct "ratelimitkeeper.Keeper" [])) in
  let! ibcHooksICS4Wrapper := new (ret (Struct "ibchooks.ICS4Middleware" [])) in
  set "TransferKeeper" (new (call "ibctransferkeeper.NewKeeper"
    [appCodec; key "ibctransfertypes.StoreKey"; nil_; ret packetForwardKeeper; ChannelKeeper;
     PortKeeper; fld "AccountKeeper"; fld "BankKeeper"; fld "ScopedTransferKeeper";
     ret (Str authorityAddr)])) ;;;
  let! transferStack := call "ibctransfer.NewIBCModule" [copy (fld "TransferKeeper")] in
  let! transferStack := call "forwarding.NewMiddleware"
    [ret transferStack; fld "AccountKeeper"; fld "ForwardingKeeper"] in
  store (ret packetForwardKeeper) (call "packetforwardkeeper.NewKeeper"
    [appCodec; key "packetforwardtypes.StoreKey"; fld "TransferKeeper"; ChannelKeeper;
     fld "BankKeeper"; ret rateLimitKeeper; ret (Str authorityAddr)]) ;;;
  set "PacketForwardKeeper" (ret packetForwardKeeper) ;;;
  let! transferStack := call "packetforward.NewIBCMiddleware"
    [ret transferStack; fld "PacketForwardKeeper"; ret (Str "0");
     arg "packetforwardkeeper.DefaultForwardTransferPacketTimeoutTimestamp"] in
  store (ret rateLimitKeeper) (call "ratelimitkeeper.NewKeeper"
    [appCodec; NewKVStoreService "ratelimittypes.StoreKey"; ret (Struct "paramtypes.Subspace" []);
     ret (Str authorityAddr); fld "BankKeeper"; ChannelKeeper; ret ibcHooksICS4Wrapper]) ;;;
  set "RatelimitKeeper" (ret rateLimitKeeper) ;;;
  let! transferStack := call "ratelimit.NewIBCMiddleware"
    [copy (fld "RatelimitKeeper"); ret transferStack] in
  let! transferStack := call "opchildmigration.NewIBCMiddleware"
    [ac; appCodec; ret transferStack; nil_; fld "BankKeeper"; fld "OPChildKeeper"] in
  store (ret ibcHooksICS4Wrapper) (call "ibchooks.NewICS4Middleware"
    [fld "IBCFeeKeeper"; fld "IBCHooksKeeper";
     ibcwasmhooks_NewWasmHooks appCodec ac (fld "WasmKeeper") (fld "OPChildKeeper")]) ;;;
  let! transferStack := call "ibchooks.NewIBCMiddleware"
    [ret transferStack; ret ibcHooksICS4Wrapper; fld "IBCHooksKeeper"] in
  call "ibcfee.NewIBCMiddleware" [ret transferStack; copy (fld "IBCFeeKeeper")].

(** opchildStack *)
Definition keepers_opchild_stack : K val :=
  call "ibcfee.NewIBCMiddleware"
    [call "opchild.NewIBCModule" [copy (fld "OPChildKeeper")]; copy (fld "IBCFeeKeeper")].

(** icaHostStack and icaControllerStack. *)
Definition keepers_ica (authorityAddr : string) : K (val * val) :=
  let! icaHostKeeper := new (call "icahostkeeper.NewKeeper"
    [appCodec; key "icahosttypes.StoreKey"; nil_; fld "IBCFeeKeeper"; ChannelKeeper; PortKeeper;
     fld "AccountKeeper"; fld "ScopedICAHostKeeper"; call_method bApp "MsgServiceRouter" [];
     ret (Str authorityAddr)]) in
  setter (ret icaHostKeeper) "WithQueryRouter" [call_method bApp "GRPCQueryRouter" []] ;;;
  set "ICAHostKeeper" (ret icaHostKeeper) ;;;
  set "ICAControllerKeeper" (new (call "icacontrollerkeeper.NewKeeper"
    [appCodec; key "icacontrollertypes.StoreKey"; nil_; fld "IBCFeeKeeper"; ChannelKeeper;
     PortKeeper; fld "ScopedICAControllerKeeper"; call_method bApp "MsgServiceRouter" [];
     ret (Str authorityAddr)])) ;;;
  set "ICAAuthKeeper" (new (call "icaauthkeeper.NewKeeper"
    [appCodec; copy (fld "ICAControllerKeeper"); fld "ScopedICAAuthKeeper"; ac])) ;;;
  let! icaAuthIBCModule := call "icaauth.NewIBCModule" [copy (fld "ICAAuthKeeper")] in
  let! icaHostIBCModule := call "icahost.NewIBCModule" [copy (fld "ICAHostKeeper")] in
  let! icaHostStack := call "ibcfee.NewIBCMiddleware"
    [ret icaHostIBCModule; copy (fld "IBCFeeKeeper")] in
  let! icaControllerIBCModule := call "icacontroller.NewIBCMiddleware"
    [ret icaAuthIBCModule; copy (fld "ICAControllerKeeper")] in
  let! icaControllerStack := call "ibcfee.NewIBCMiddleware"
    [ret icaControllerIBCModule; copy (fld "IBCFeeKeeper")] in
  ret (icaHostStack, icaControllerStack).

(** wasmIBCStack *)
Definition keepers_wasm_stack : K val :=
  let! ibcHooksICS4Wrapper := new (ret (Struct "ibchooks.ICS4Middleware" [])) in
  let! wasmIBCModule := call "wasm.NewIBCHandler"
    [fld "WasmKeeper"; ChannelKeeper; ret ibcHooksICS4Wrapper] in
  store (ret ibcHooksICS4Wrapper) (call "ibchooks.NewICS4Middleware"
    [fld "IBCFeeKeeper"; fld "IBCHooksKeeper";
     ibcwasmhooks_NewWasmHooks appCodec ac (fld "WasmKeeper") (fld "OPChildKeeper")]) ;;;
  let! hookMiddleware := call "ibchooks.NewIBCMiddleware"
    [ret wasmIBCModule; ret ibcHooksICS4Wrapper; fld "IBCHooksKeeper"] in
  call "ibcfee.NewIBCMiddleware" [ret hookMiddleware; copy (fld "IBCFeeKeeper")].

(** The router: a library object with one AddRoute per route. *)
Definition AddRoute (router : K val) (module : string) (stack : val) : K unit :=
  setter router "AddRoute" [arg module; ret stack].

Definition keepers_router
    (transferStack icaHostStack icaControllerStack wasmIBCStack opchildStack : val) : K unit :=
  let! ibcRouter := new (call "porttypes.NewRouter" []) in
  AddRoute (ret ibcRouter) "ibctransfertypes.ModuleName" transferStack ;;;
  AddRoute (ret ibcRouter) "icahosttypes.SubModuleName" icaHostStack ;;;
  AddRoute (ret ibcRouter) "icacontrollertypes.SubModuleName" icaControllerStack ;;;
  AddRoute (ret ibcRouter) "icaauthtypes.ModuleName" icaControllerStack ;;;
  AddRoute (ret ibcRouter) "wasmtypes.ModuleName" wasmIBCStack ;;;
  AddRoute (ret ibcRouter) "opchildtypes.ModuleName" opchildStack ;;;
  setter (fld "IBCKeeper") "SetRouter" [ret ibcRouter] ;;;
  setter (fld "OPChildKeeper") "WithTransferKeeper" [fld "TransferKeeper"] ;;;
  setter (fld "OPChildKeeper") "WithChannelKeeper" [ChannelKeeper].

(** The queries of other modules a contract may make, with the type of the answer. *)
Definition queryAllowlist : list (string * string) :=
  [("/connect.oracle.v2.Query/GetAllCurrencyPairs", "oracletypes.GetAllCurrencyPairsResponse");
   ("/connect.oracle.v2.Query/GetPrice", "oracletypes.GetPriceResponse");
   ("/connect.oracle.v2.Query/GetPrices", "oracletypes.GetPricesResponse")].

(** wasmOpts after the append: the caller's options, then the query plugins. *)
Definition wasmOpts : K val :=
  call "append" [arg "wasmOpts"; call "wasmkeeper.WithQueryPlugins"
    [call "wasmkeeper.AcceptListStargateQuerier"
      [ret (Struct "wasmkeeper.AcceptedQueries" ((λ '(q, r), (q, Arg r)) <$> queryAllowlist));
       call_method bApp "GRPCQueryRouter" []; appCodec]]].

(** slices.DeleteFunc: every capability but staking. *)
Definition availableCapabilities : list string :=
  filter (λ c, c ≠ "staking") BuiltInCapabilities.

Definition keepers_wasm (authorityAddr : string) : K unit :=
  let! opts := wasmOpts in
  store (fld "WasmKeeper") (call "wasmkeeper.NewKeeper"
    [appCodec; NewKVStoreService "wasmtypes.StoreKey"; fld "AccountKeeper"; fld "BankKeeper";
     nil_; nil_; fld "IBCFeeKeeper"; ChannelKeeper; PortKeeper; fld "ScopedWasmKeeper";
     fld "TransferKeeper"; call_method bApp "MsgServiceRouter" [];
     call_method bApp "GRPCQueryRouter" []; call "filepath.Join" [arg "homePath"; ret (Str "wasm")];
     arg "wasmConfig"; ret (Struct "wasmtypes.VMConfig" []);
     ret (Strs availableCapabilities); ret (Str authorityAddr); ret opts]).

(** The token factory, its contract keeper, and the hooks of the bank. *)
Definition keepers_tokenfactory (communityPoolKeeper : val) (authorityAddr : string) : K unit :=
  let! contractKeeper := call "wasmkeeper.NewDefaultPermissionKeeper" [fld "WasmKeeper"] in
  set "TokenFactoryKeeper" (new (tokenfactorykeeper_NewKeeper ac appCodec
    (NewKVStoreService "tokenfactorytypes.StoreKey") (fld "AccountKeeper") (fld "BankKeeper")
    (ret communityPoolKeeper) authorityAddr)) ;;;
  tokenfactorykeeper_SetContractKeeper (fld "TokenFactoryKeeper") (ret contractKeeper) ;;;
  bankkeeper_SetHooks (fld "BankKeeper") (tokenfactorykeeper_Hooks (fld "TokenFactoryKeeper")).

Definition NewAppKeeper : K unit :=
  let! authorityAddr := keepers_begin in
  keepers_capabilities authorityAddr ;;;
  let! communityPoolKeeper := keepers_bank authorityAddr in
  keepers_opchild authorityAddr ;;;
  keepers_accounts ;;;
  keepers_ibc authorityAddr ;;;
  let! transferStack := keepers_transfer authorityAddr in
  let! opchildStack := keepers_opchild_stack in
  let! (icaHostStack, icaControllerStack) := keepers_ica authorityAddr in
  let! wasmIBCStack := keepers_wasm_stack in
  keepers_router transferStack icaHostStack icaControllerStack wasmIBCStack opchildStack ;;;
  keepers_wasm authorityAddr ;;;
  keepers_tokenfactory communityPoolKeeper authorityAddr.

End construction.

(** * Reading the result *)

(** What a value stands for: the content of the cell, or the copy. *)
Definition resolve s v : val :=
  match v with Ptr l => default Nil (heap s !! l) | Copy _ v => v | v => v end.

Definition field s (name : string) : val := default Nil (fields s !! name).

(** The function that made an object. *)
Definition maker v : string :=
  match v with Made f _ _ => f | Struct T _ => T | Sel _ f => f | _ => "" end.

Definition nth_arg v (i : nat) : val :=
  match v with Made _ args _ => default Nil (args !! i) | _ => Nil end.

Definition setters v : list (string * list val) :=
  match v with Made _ _ sets => sets | _ => [] end.

(** What is known of the constructors of the IBC libraries: which argument is the module that
    a middleware passes received packets to, and which is what an object sends packets
    through: the keeper of a module, the ICS4 wrapper of a keeper. *)
Class IbcConstructors := {
  app_arg : string → option nat;
  ics4_arg : string → option nat
}.

(** The positions, as the signatures of the constructors have them; None ends a path. *)
Definition app_args : list (string * option nat) :=
  [("forwarding.NewMiddleware", Some 0); ("packetforward.NewIBCMiddleware", Some 0);
   ("ratelimit.NewIBCMiddleware", Some 1); ("opchildmigration.NewIBCMiddleware", Some 2);
   ("ibchooks.NewIBCMiddleware", Some 0); ("ibcfee.NewIBCMiddleware", Some 0);
   ("icacontroller.NewIBCMiddleware", Some 0); ("ibctransfer.NewIBCModule", None);
   ("icahost.NewIBCModule", None); ("icaauth.NewIBCModule", None);
   ("wasm.NewIBCHandler", None); ("opchild.NewIBCModule", None)]%nat.

Definition ics4_args : list (string * option nat) :=
  [("ibctransfer.NewIBCModule", Some 0); ("icahost.NewIBCModule", Some 0);
   ("icaauth.NewIBCModule", Some 0); ("wasm.NewIBCHandler", Some 2);
   ("opchild.NewIBCModule", Some 0); ("ibctransferkeeper.NewKeeper", Some 3);
   ("packetforwardkeeper.NewKeeper", Some 5); ("ratelimitkeeper.NewKeeper", Some 6);
   ("ibchooks.NewICS4Middleware", Some 0); ("ibcfeekeeper.NewKeeper", Some 2);
   ("wasmkeeper.NewKeeper", Some 6); ("icahostkeeper.NewKeeper", Some 3);
   ("icaauthkeeper.NewKeeper", Some 1); ("icacontrollerkeeper.NewKeeper", Some 3);
   ("opchildkeeper.NewKeeper", None); ("ChannelKeeper", None)]%nat.

Class IbcConstructorsLaws (IC : IbcConstructors) : Prop := {
  app_arg_known : ∀ f i, (f, i) ∈ app_args → app_arg f = i;
  ics4_arg_known : ∀ f i, (f, i) ∈ ics4_args → ics4_arg f = i
}.

(** The objects met when the given arguments are followed through the heap. *)
Fixpoint follow (arg_of : string → option nat) (fuel : nat) s v : list val :=
  let w := resolve s v in
  match fuel, arg_of (maker w) with
  | S fuel, Some i => w :: follow arg_of fuel s (nth_arg w i)
  | _, _ => [w]
  end.

Definition known (table : list (string * option nat)) (f : string) : option nat :=
  default None ((list_to_map table : gmap string (option nat)) !! f).

Definition known_constructors : IbcConstructors :=
  {| app_arg := known app_args; ics4_arg := known ics4_args |}.

(** Only the positions of what is met matter. *)
Lemma follow_known arg_of table fuel s v :
  (∀ f i, (f, i) ∈ table → arg_of f = i) →
  Forall (λ w, is_Some ((list_to_map table : gmap string (option nat)) !! maker w))
    (follow (known table) fuel s v) →
  follow arg_of fuel s v = follow (known table) fuel s v.
Proof.
  intros Hk. assert (Ha : ∀ w, is_Some ((list_to_map table : gmap string (option nat)) !! maker w) →
    arg_of (maker w) = known table (maker w)).
  { intros w [i Hi]. unfold known. rw Hi. by apply Hk, (elem_of_list_to_map_2 (M:=gmap string)). }
  revert v. induction fuel as [|fuel IH]; intros v; cbn; [done|].
  destruct (known table (maker (resolve s v))) as [i|] eqn:He.
  - intros [Hw Hf]%Forall_cons. rw (Ha _ Hw) He. f_equal. by apply IH.
  - intros [Hw _]%Forall_cons. by rw (Ha _ Hw) He.
Qed.

(** All of what is met is known. *)
Definition met (table : list (string * option nat)) s v : bool :=
  forallb (λ w, bool_decide (is_Some ((list_to_map table : gmap string (option nat)) !! maker w)))
    (follow (known table) 10 s v).

Definition stack {IC : IbcConstructors} : kstate → val → list val := follow app_arg 10.

(** The middlewares that a packet received by a stack goes through, down to the module, and
    the objects that a packet goes through that the module sends. *)
Definition receive_path {IC : IbcConstructors} s v : list string := maker <$> stack s v.
Definition send_path {IC : IbcConstructors} s v : list string := maker <$> follow ics4_arg 10 s v.

(** The module at the bottom of a stack. *)
Definition bottom {IC : IbcConstructors} s v : val := default Nil (last (stack s v)).

Section paths.
Context {IC : IbcConstructors} {ICL : IbcConstructorsLaws IC}.
Abbreviation IC0 := known_constructors.

Lemma met_follow arg_of table s v :
  (∀ f i, (f, i) ∈ table → arg_of f = i) → met table s v = true →
  follow arg_of 10 s v = follow (known table) 10 s v.
Proof.
  intros Hk Hm. apply follow_known; [done|]. apply Is_true_true, forallb_True in Hm.
  eapply Forall_impl; [exact Hm|]. intros w Hw. by eapply bool_decide_unpack.
Qed.

Lemma stack_known s v : met app_args s v = true → stack s v = stack (IC:=IC0) s v.
Proof. apply met_follow, app_arg_known. Qed.

Lemma send_path_known s v : met ics4_args s v = true → send_path s v = send_path (IC:=IC0) s v.
Proof. intros H. unfold send_path. f_equal. by apply met_follow; [apply ics4_arg_known|]. Qed.

Lemma bottom_known s v : met app_args s v = true → bottom s v = bottom (IC:=IC0) s v.
Proof. intros H. unfold bottom. by rw stack_known. Qed.

(** What is read off a list of stacks, if all of what is met is known. *)
Lemma paths_known s (rs : list (string * val)) :
  forallb (λ r, met app_args s r.2 && met ics4_args s (bottom (IC:=IC0) s r.2)) rs = true →
  (λ '(route, v), (route, receive_path s v, send_path s (bottom s v))) <$> rs =
    (λ '(route, v), (route, receive_path (IC:=IC0) s v, send_path (IC:=IC0) s (bottom (IC:=IC0) s v))) <$> rs ∧
  (λ '(_, v), bottom s v) <$> rs = (λ '(_, v), bottom (IC:=IC0) s v) <$> rs.
Proof.
  induction rs as [|[r v] rs IH]; [done|]. intros [[H1 H2]%andb_prop H3]%andb_prop.
  rw !fmap_cons. destruct (IH H3) as [-> ->]. unfold receive_path. by rw (stack_known _ _ H1) (bottom_known _ _ H1)
    (send_path_known _ _ H2).
Qed.
End paths.

(** The routes of the router that was set on the IBC keeper. *)
Definition ibc_router s : val :=
  match filter (λ '(m, _), m = "SetRouter") (setters (resolve s (field s "IBCKeeper"))) with
  | [(_, [router])] => resolve s router
  | _ => Nil
  end.

Definition routes s : list (string * val) :=
  omap (λ '(_, args), match args with [Arg module; stack] => Some (module, stack) | _ => None end)
    (setters (ibc_router s)).

(** The parts of a value: itself and, recursively, what it is made of. Pointers are not
    followed, and copies only if asked for. *)
Fixpoint parts (copies : bool) v : list val :=
  v :: match v with
       | Copy _ w => if copies then parts copies w else []
       | Sel w _ => parts copies w
       | Call w _ args => parts copies w ++ (args ≫= parts copies)
       | Struct _ fs => fs ≫= λ '(_, w), parts copies w
       | Made _ args sets => (args ≫= parts copies) ++ (sets ≫= λ '(_, ws), ws ≫= parts copies)
       | _ => []
       end.

(** Everything the construction made: the parts of all cells. *)
Definition everything s : list val := map_to_list (heap s) ≫= (λ '(_, v), parts true v).

(** The locations a value refers to. *)
Definition pointers (vs : list val) : list positive :=
  omap (λ v, match v with Ptr l => Some l | _ => None end) vs.

(** The arguments that are nil, by function and position, and the fields that are. *)
Definition nil_args (vs : list val) : list (string * nat) :=
  vs ≫= (λ v, match v with
    | Made f args _ => omap (λ '(i, a), match a with Nil => Some (f, i) | _ => None end)
        (zip (seq 0 (length args)) args)
    | _ => [] end).

(** The values directly held by an object. *)
Definition held v : list val :=
  match v with
  | Made _ args sets => args ++ (snd <$> sets) ≫= id
  | Struct _ fs => snd <$> fs
  | _ => []
  end.

(** Who holds the cell [l], as an argument, a field, or the argument of a setter. *)
Definition holders s (l : positive) : list string :=
  remove_dups (maker <$> filter (λ v, Ptr l ∈ held v) (everything s)).

(** The store keys of each cell. *)
Definition stores_of v : list string :=
  remove_dups (omap (λ w, match w with StoreKey _ k => Some k | _ => None end) (parts false v)).

Definition stores s : list string := map_to_list (heap s) ≫= (λ '(_, v), stores_of v).

(** The empty structs behind pointers. *)
Definition empty_cells s : list string :=
  omap (λ '(_, v), match v with Struct T [] => Some T | _ => None end) (map_to_list (heap s)).

(** The fields of AppKeepers that are zero: nil pointers and empty structs. *)
Definition is_zero v : bool := match v with Nil | Struct _ [] => true | _ => false end.

Definition zero_fields s : list string :=
  filter (λ f, is_zero (field s f) = true) (keeper_fields ++ scoped_fields).

(** The keeper of AppKeepers whose cell a value points to, or is a copy of. *)
Definition keeper_behind s v : string :=
  match v with
  | Ptr l | Copy l _ => default "" (head (filter (λ f, field s f = Ptr l) keeper_fields))
  | _ => ""
  end.

(** The copies that were taken, with the cells they are of. *)
Definition copies s : list (positive * val) :=
  omap (λ v, match v with Copy l w => Some (l, w) | _ => None end) (everything s).

(** * What NewAppKeeper builds *)

Lemma Forall_pairs {A B} (P : A → B → Prop) l :
  Forall (λ '(a, b), P a b) l → ∀ a b, (a, b) ∈ l → P a b.
Proof. intros Hl a b. rw Forall_forall in Hl. apply (Hl (a, b)). Qed.

Lemma bind_cong {S A B} (m m1 : M S A) (f f1 : A → M S B) (s : S) :
  m s = m1 s → (∀ a (s1 : S), m1 s = (Ok a, s1) → f a s1 = f1 a s1) → bind m f s = bind m1 f1 s.
Proof. unfold bind. intros -> Hf. destruct (m1 s) as [[a|e|p] s1]; [by apply Hf|done..]. Qed.

(** A field that holds a pointer to an existing cell. *)
Definition is_set s (f : string) : bool :=
  match field s f with Ptr l => bool_decide (is_Some (heap s !! l)) | _ => false end.

Lemma is_set_spec s f : is_set s f = true → ∃ l v, field s f = Ptr l ∧ heap s !! l = Some v.
Proof.
  unfold is_set. destruct (field s f); try done. intros [v Hv]%bool_decide_eq_true. eauto.
Qed.

(** Whether the hooks of a bank keeper are set; they are usable once the keeper that they
    copy has a contract keeper. *)
Definition hook_state s v : option bool :=
  let k := resolve s v in
  if decide (maker k = "bankkeeper.Keeper") then
    match get_field "hooks" k with
    | Nil => Some false
    | h => match get_field "contractKeeper" (resolve s (get_field "k" h)) with
           | Nil => None
           | _ => Some true
           end
    end
  else None.

Section built.
Context {AC : AddressCodec} {KL : KeeperLib}.

(** The calls whose failure the code handles succeed: [a] is the authority's address. *)
Record starts (a : string) (b : bytes) : Prop := {
  starts_streaming : RegisterStreamingServices_err = None;
  starts_authority : BytesToString authorityAccAddr = Ok a;
  starts_bank : StringToBytes a = Ok b;
  starts_ibc : SetIBCKeepers_err = None;
  starts_schema : schema_Build (fst <$> tokenfactory_collections) = None
}.

(** Libraries that answer as in [starts], and are constant otherwise. *)
Definition codec_of (a : string) (b : bytes) : AddressCodec :=
  {| StringToBytes := λ _, Ok b; BytesToString := λ _, Ok a;
     AccAddressFromBech32 := λ _, Ok b; AccAddress_String := λ _, a |}.

Definition lib_of (addr : bytes) (capabilities : list string) : KeeperLib :=
  {| RegisterStreamingServices_err := None; SetIBCKeepers_err := None;
     NewModuleAddress := λ _, addr; schema_Build := λ _, None;
     BuiltInCapabilities := capabilities |}.

(** The state the construction ends in. *)
Definition built (a : string) (b addr : bytes) (capabilities : list string) : kstate :=
  (NewAppKeeper (AC:=codec_of a b) (KL:=lib_of addr capabilities) AppKeepers_zero).2.

Lemma begin_starts a b addr caps s : starts a b →
  keepers_begin s = keepers_begin (AC:=codec_of a b) (KL:=lib_of addr caps) s.
Proof. intros [H1 H2 _ _ _]. unfold keepers_begin. by rw H1 H2. Qed.

Lemma begin_authority a b addr caps s a1 s1 :
  keepers_begin (AC:=codec_of a b) (KL:=lib_of addr caps) s = (Ok a1, s1) → a1 = a.
Proof.
  unfold keepers_begin. intros H. do 3 apply bind_ok_inv in H as (? & ? & _ & H). by injection H as <- _.
Qed.

Lemma built_ok a b addr caps :
  (NewAppKeeper (AC:=codec_of a b) (KL:=lib_of addr caps) AppKeepers_zero).1 = Ok ().
Proof. by vm_compute. Qed.

Lemma NewAppKeeper_lib a b s : starts a b →
  NewAppKeeper s = NewAppKeeper
    (AC:=codec_of a b) (KL:=lib_of authorityAccAddr BuiltInCapabilities) s.
Proof.
  intros Hs. unfold NewAppKeeper. apply bind_cong; [by apply begin_starts|].
  intros a1 s1 ->%begin_authority. destruct Hs as [_ _ H3 H4 H5].
  unfold keepers_bank, keepers_ibc, keepers_tokenfactory, bankkeeper_NewKeeper,
    tokenfactorykeeper_NewKeeper. rw H3 H4 H5. reflexivity.
Qed.

Lemma NewAppKeeper_starts a b : starts a b →
  NewAppKeeper AppKeepers_zero = (Ok (), built a b authorityAccAddr BuiltInCapabilities).
Proof.
  intros Hs. rw (NewAppKeeper_lib _ _ _ Hs) -(built_ok a b authorityAccAddr BuiltInCapabilities).
  apply surjective_pairing.
Qed.

(** The state of a construction that succeeds, ready to be computed. *)
Ltac compute_built :=
  eexists; split; [by eapply NewAppKeeper_starts|]; unfold built;
  generalize authorityAccAddr, BuiltInCapabilities; intros; clear.


(** C11. No object is left empty that is used: the four cells that are allocated empty have been
    filled, and every field of AppKeepers is set but two scoped keepers, of modules that the
    application does not have (ScopedICQKeeper and ScopedFetchPriceKeeper), which stay zero.
    The arguments that are nil are those that are meant to be (legacy parameter spaces,
    the staking keepers, the unused ICS4 wrapper of the migration middleware) and the
    transfer keeper of the forwarding keeper, which is built before it. Of the keepers that
    are copied only the one given to the opchild IBC module changes after the copy. *)
Theorem keepers_complete a b :
  starts a b →
  ∃ s, NewAppKeeper AppKeepers_zero = (Ok (), s) ∧
  empty_cells s = [] ∧
  (∀ f, f ∈ keeper_fields → ∃ l v, field s f = Ptr l ∧ heap s !! l = Some v) ∧
  zero_fields s = ["ScopedICQKeeper"; "ScopedFetchPriceKeeper"] ∧
  list_to_set (nil_args (everything s)) =@{gset (string * nat)} list_to_set
    [("ibckeeper.NewKeeper", 2); ("ibctransferkeeper.NewKeeper", 2); ("icahostkeeper.NewKeeper", 2);
     ("icacontrollerkeeper.NewKeeper", 2); ("opchildmigration.NewIBCMiddleware", 3);
     ("wasmkeeper.NewKeeper", 4); ("wasmkeeper.NewKeeper", 5);
     ("forwardingkeeper.NewKeeper", 10)]%nat ∧
  (∀ l v, (l, v) ∈ copies s → heap s !! l = Some v ∨ Ptr l = field s "OPChildKeeper") ∧
  (∃ l v w, (l, v) ∈ copies s ∧ Ptr l = field s "OPChildKeeper" ∧ heap s !! l = Some w ∧
     fst <$> setters w = (fst <$> setters v) ++ ["WithTransferKeeper"; "WithChannelKeeper"]).
Proof.
  intros H. compute_built.
  split_and!.
  - by vm_compute.
  - intros f Hf. eapply is_set_spec, (Forall_forall (λ f, is_set _ f = true)); [|exact Hf].
    eapply bool_decide_unpack; by vm_compute.
  - by vm_compute.
  - eapply bool_decide_unpack; by vm_compute.
  - apply Forall_pairs. vm_compute. repeat constructor; first [by left|by right].
  - vm_compute. eexists 9%positive, _, _. split; [|split; [reflexivity|split; [reflexivity|]]].
    + repeat (apply list_elem_of_here || apply list_elem_of_further).
    + reflexivity.
Qed.

Lemma built_stores a b addr caps :
  list_to_set (stores (built a b addr caps)) =@{gset string} list_to_set
    (filter (.≠ "icaauthtypes.StoreKey") KVStoreKeys ++
     ["capabilitytypes.MemStoreKey"; "forwardingtypes.TransientStoreKey"; "ibchookstypes.TStoreKey"]).
Proof. eapply bool_decide_unpack. by vm_compute. Qed.

(** Stores and capabilities are not shared: every store key a keeper is given was generated,
    no two objects have the same one, and all keys but that of the interchain accounts'
    auth module are given to a keeper; seven modules have a capability scope of their own,
    taken before the capability keeper is sealed. The wasm keeper is not given the staking
    capability. *)
Theorem stores_separate a b :
  starts a b →
  ∃ s, NewAppKeeper AppKeepers_zero = (Ok (), s) ∧
  NoDup (stores s) ∧
  (∀ k, k ∈ stores s ↔ (k ∈ KVStoreKeys ∧ k ≠ "icaauthtypes.StoreKey") ∨
     k ∈ ["capabilitytypes.MemStoreKey"; "forwardingtypes.TransientStoreKey"; "ibchookstypes.TStoreKey"]) ∧
  (∃ modules, NoDup modules ∧ length modules = 7%nat ∧
     setters (resolve s (field s "CapabilityKeeper")) =
       ((λ m, ("ScopeToModule", [Arg m])) <$> modules) ++ [("Seal", [])]) ∧
  (∃ caps, nth_arg (resolve s (field s "WasmKeeper")) 16 = Strs caps ∧
     ∀ c, c ∈ caps ↔ c ∈ BuiltInCapabilities ∧ c ≠ "staking").
Proof.
  intros H. eexists. split; [by eapply NewAppKeeper_starts|]. split_and!.
  - generalize authorityAccAddr, BuiltInCapabilities. intros; clear.
    eapply bool_decide_unpack; by vm_compute.
  - intros k. rw -(elem_of_list_to_set (C:=gset string)) built_stores.
    rw elem_of_list_to_set elem_of_app list_elem_of_filter. naive_solver.
  - exists ["ibcexported.ModuleName"; "ibctransfertypes.ModuleName"; "icahosttypes.SubModuleName";
      "icacontrollertypes.SubModuleName"; "icaauthtypes.ModuleName"; "wasmtypes.ModuleName";
      "opchildtypes.ModuleName"].
    split; [by eapply bool_decide_unpack; vm_compute|]. by split; vm_compute.
  - exists (filter (λ c, c ≠ "staking") BuiltInCapabilities). split.
    + unfold built. generalize authorityAccAddr, BuiltInCapabilities. intros; clear. by vm_compute.
    + intros c. rw list_elem_of_filter. naive_solver.
Qed.

(** Whenever the construction returns, the calls that may fail have succeeded. *)
Lemma NewAppKeeper_only s :
  NewAppKeeper AppKeepers_zero = (Ok (), s) → ∃ a b, starts a b.
Proof.
  unfold NewAppKeeper. intros (a & s1 & Hb & H)%bind_ok_inv.
  unfold keepers_begin in Hb. apply bind_ok_inv in Hb as (_ & s0 & _ & Hb).
  apply bind_ok_inv in Hb as (_ & s0'' & _ & Hb). apply bind_ok_inv in Hb as (u & s0' & Hr & Hb).
  destruct RegisterStreamingServices_err eqn:H1; [done|].
  destruct (BytesToString _) as [a'| |] eqn:H2; [|done..]. injection Hb as <- _.
  apply bind_ok_inv in H as (_ & s2 & _ & H). apply bind_ok_inv in H as (cpk & s3 & Hk & H).
  assert (∃ b, StringToBytes a' = Ok b) as [b H3].
  { unfold keepers_bank, bankkeeper_NewKeeper in Hk.
    do 2 apply bind_ok_inv in Hk as (_ & ? & _ & Hk).
    apply bind_ok_inv in Hk as (? & ? & Hk & _). do 2 apply bind_ok_inv in Hk as (? & ? & Hk & _).
    apply bind_ok_inv in Hk as (? & ? & _ & Hk).
    destruct (StringToBytes a') as [b|e|p]; [by exists b|done..]. }
  do 2 apply bind_ok_inv in H as (_ & ? & _ & H). apply bind_ok_inv in H as (? & ? & Hi & H).
  assert (H4 : SetIBCKeepers_err = None).
  { unfold keepers_ibc in Hi. do 2 apply bind_ok_inv in Hi as (_ & ? & _ & Hi).
    apply bind_ok_inv in Hi as (? & ? & Hi & _). by destruct SetIBCKeepers_err. }
  do 3 apply bind_ok_inv in H as (? & ? & _ & H). case_match.
  do 3 apply bind_ok_inv in H as (? & ? & _ & H).
  unfold keepers_tokenfactory, tokenfactorykeeper_NewKeeper in H.
  apply bind_ok_inv in H as (? & ? & _ & H). apply bind_ok_inv in H as (? & ? & H & _).
  do 2 apply bind_ok_inv in H as (? & ? & H & _). do 6 apply bind_ok_inv in H as (? & ? & _ & H).
  exists a', b. split; [done..|]. by destruct (schema_Build _).
Qed.

Section shared_bank.
Context {W G : Type} {ST : SdkTypes} {GM : GasMeter G}.
Context {AK : AccountKeeper W G} {BB : BankBase W G} {CK : ContractKeeper W G}.

(** The bank keeper of [Wiring] that an object of the heap stands for. *)
Definition bank_of s v : option (BankKeeperFields W G) :=
  (λ hooked : bool, {| hooks := if hooked then Some Hooks else None |}) <$> hook_state s v.

(** C9. There is one bank keeper. Its hooks are those of the token factory, whose keeper they
    copy as it stays, with the contract keeper that calls through the wasm keeper; everyone
    who moves coins holds a pointer to this one, the token factory and its community pool
    included, so the hooks, which are set last, are seen by all. It is the bank keeper
    [Wiring] gives to the theorems on the token factory. *)
Theorem bank_is_shared a b :
  starts a b →
  ∃ s p tf k, NewAppKeeper AppKeepers_zero = (Ok (), s) ∧
  field s "BankKeeper" = Ptr p ∧
  wire_bank a = Ok app_bank ∧ bank_of s (Ptr p) = Some app_bank ∧
  (∀ v, (p, v) ∉ copies s) ∧
  list_to_set (holders s p) =@{gset string} list_to_set
    ["tokenfactorykeeper.Keeper"; "CommunityPoolKeeper"; "wasmkeeper.NewKeeper";
     "opchildkeeper.NewKeeper"; "opchildmigration.NewIBCMiddleware"; "ibctransferkeeper.NewKeeper";
     "packetforwardkeeper.NewKeeper"; "forwardingkeeper.NewKeeper"; "ratelimitkeeper.NewKeeper";
     "ibcfeekeeper.NewKeeper"; "authzkeeper.NewKeeper"; "crisiskeeper.NewKeeper"] ∧
  field s "TokenFactoryKeeper" = Ptr tf ∧ heap s !! tf = Some k ∧
  get_field "hooks" (resolve s (Ptr p)) = Struct "Hooks" [("k", Copy tf k)] ∧
  get_field "bankKeeper" k = Ptr p ∧
  get_field "bk" (get_field "communityPoolKeeper" k) = Ptr p ∧
  get_field "contractKeeper" k =
    Made "wasmkeeper.NewDefaultPermissionKeeper" [field s "WasmKeeper"] [] ∧
  maker (resolve s (field s "WasmKeeper")) = "wasmkeeper.NewKeeper".
Proof.
  intros H. eexists _, 6%positive, 30%positive, _. split; [by eapply NewAppKeeper_starts|].
  assert (Hw : wire_bank a = Ok app_bank) by (eapply wire_bank_ok, starts_bank; done).
  unfold built. generalize authorityAccAddr, BuiltInCapabilities. intros addr caps.
  split; [by vm_compute|]. split; [done|].
  split; [unfold bank_of; by rw (_ : hook_state _ _ = Some true)|].
  split; [|split; [eapply bool_decide_unpack; by vm_compute|]].
  { intros v Hv. eapply (Forall_pairs (λ l _, l ≠ 6%positive)); [|exact Hv|done].
    vm_compute. by repeat constructor. }
  split; [by vm_compute|]. split; [vm_compute; reflexivity|]. by vm_compute.
Qed.

End shared_bank.

End built.
