(* ===== verification/Assembly.v ===== *)
(** app: the application put together. app.go builds the base application, the keepers
    ([Keepers]), the module manager and the handlers in one sequence, with an exit at every
    step that may fail; modules.go lists the modules; abcipp.go makes the mempool and the
    handlers of transactions; encoding.go and getter.go give parts of it away. Objects live
    on the heap of [Keepers]; the fields of MinitiaApp are beside those of the AppKeepers it
    embeds. *)
From S2P Require Import Prelude.
From S2P Require Import Interfaces.
From S2P Require Import Ante.
From S2P Require Import App.
From S2P Require Import Keepers.

(** const.go *)
Definition FeeDeductionGasAmount : Z := 50000.
Definition AppName : string := "minitia".
Definition EnvPrefix : string := "MINITIA".

(** The outcomes of the library calls whose failure NewMinitiaApp handles, whether the base
    application has a snapshot manager and whether the mempool is a *PriorityMempool. *)
Class AppLib := {
  ReadNodeConfig_err : option goerror;
  RegisterServices_err : option goerror;
  ReadUpgradeInfo : res (string * Z);
  SkipHeight : Z → bool;
  NewReflectionService_err : option goerror;
  NewPostHandler_err : option goerror;
  NewProposalHandler_err : option goerror;
  NewCheckTxHandler_err : option goerror;
  mempool_is_priority : bool;
  MergedRegistry_err : option goerror;
  has_SnapshotManager : bool;
  RegisterExtensions_err : option goerror;
  LoadLatestVersion_err : option goerror;
  InitializePinnedCodes_err : option goerror;
  SetupVersionDB_err : option goerror
}.

(** [if err != nil { tmos.Exit(err.Error()) }] *)
Definition exit_on (err : option goerror) : K unit :=
  match err with Some e => exit (Error e) | None => ret () end.

(** modules.go: appModules. *)
Definition appModules : K (list val) :=
  let app := fld in
  let registry := arg "interfaceRegistry" in
  arguments
  [call "auth.NewAppModule" [appCodec; copy (app "AccountKeeper"); nil_; nil_];
   call "bank.NewAppModule" [appCodec; app "BankKeeper"; app "AccountKeeper"; nil_];
   call "opchild.NewAppModule" [appCodec; app "OPChildKeeper"];
   call "capability.NewAppModule" [appCodec; copy (app "CapabilityKeeper"); arg "false"];
   call "crisis.NewAppModule" [app "CrisisKeeper"; arg "skipGenesisInvariants"; nil_];
   call "feegrantmodule.NewAppModule"
     [appCodec; app "AccountKeeper"; app "BankKeeper"; copy (app "FeeGrantKeeper"); registry];
   call "upgrade.NewAppModule" [app "UpgradeKeeper"; ac];
   call "authzmodule.NewAppModule"
     [appCodec; copy (app "AuthzKeeper"); app "AccountKeeper"; app "BankKeeper"; registry];
   call "groupmodule.NewAppModule"
     [appCodec; copy (app "GroupKeeper"); app "AccountKeeper"; app "BankKeeper"; registry];
   call "consensus.NewAppModule" [appCodec; copy (app "ConsensusParamsKeeper")];
   call "wasm.NewAppModule"
     [appCodec; app "WasmKeeper"; nil_; app "AccountKeeper"; app "BankKeeper";
      call_method bApp "MsgServiceRouter" []; nil_];
   call "tokenfactory.NewAppModule"
     [appCodec; app "TokenFactoryKeeper"; copy (app "AccountKeeper"); copy (app "BankKeeper")];
   call "ibc.NewAppModule" [app "IBCKeeper"];
   call "ibctransfer.NewAppModule" [copy (app "TransferKeeper")];
   call "ica.NewAppModule" [app "ICAControllerKeeper"; app "ICAHostKeeper"];
   call "icaauth.NewAppModule" [appCodec; copy (app "ICAAuthKeeper")];
   call "ibcfee.NewAppModule" [copy (app "IBCFeeKeeper")];
   call "ibctm.NewAppModule" [];
   call "solomachine.NewAppModule" [];
   call "packetforward.NewAppModule" [app "PacketForwardKeeper"; nil_];
   call "ibchooks.NewAppModule" [appCodec; copy (app "IBCHooksKeeper")];
   call "forwarding.NewAppModule" [app "ForwardingKeeper"];
   call "oracle.NewAppModule" [appCodec; copy (app "OracleKeeper")];
   call "marketmap.NewAppModule" [appCodec; app "MarketMapKeeper"];
   call "wasmextension.NewAppModule"
     [appCodec; app "WasmKeeper"; call_method (app "OPChildKeeper") "GetAuthority" []]].

(** modules.go: newBasicManagerFromManager. *)
Definition newBasicManagerFromManager : K val :=
  let! basicManager := new (call "module.NewBasicManagerFromManager"
    [fld "ModuleManager";
     ret (Struct "map[string]module.AppModuleBasic"
       [("genutiltypes.ModuleName", Arg "genutil.NewAppModuleBasic(genutiltypes.DefaultMessageValidator)")])]) in
  setter (ret basicManager) "RegisterLegacyAminoCodec" [arg "legacyAmino"] ;;;
  setter (ret basicManager) "RegisterInterfaces" [arg "interfaceRegistry"] ;;;
  ret basicManager.

Section assembly.
Context {AC : AddressCodec} {KL : KeeperLib} {AP : AppLib}.
Context {C : Type} {CM : CheckModes (C:=C)} {OF : OpChildFees (C:=C)}.
Context {AL : AnteLib (C:=C) (AKT:=val) (BKT:=val) (FGT:=val) (SMH:=val) (EOC:=val) (SGC:=val)
  (IBK:=val) (OPK:=val) (WK:=val) (WC:=val) (TXS:=val)}.

(** The value of a pointer or an interface as an option: nil is [None]. *)
Definition not_nil (v : val) : option val := match v with Nil => None | v => Some v end.

(** handlerOpts of setupABCIPP, over the fields of the application. *)
Definition handlerOpts (s : kstate) (txCounterStoreKey : val) : HandlerOptions (C:=C) (AKT:=val) (BKT:=val) (FGT:=val)
    (SMH:=val) (EOC:=val) (SGC:=val) (IBK:=val) (OPK:=val) (WK:=val) (WC:=val) (TXS:=val) :=
  {| opt_AccountKeeper := not_nil (field s "AccountKeeper");
     opt_BankKeeper := not_nil (field s "BankKeeper");
     opt_FeegrantKeeper := not_nil (field s "FeeGrantKeeper");
     opt_SignModeHandler := Some (Arg "txConfig.SignModeHandler()");
     opt_ExtensionOptionChecker := Some (Arg "initiatx.ExtensionOptionChecker");
     opt_SigGasConsumer := None;
     opt_TxFeeChecker := Some feeCheckerWrapper;
     opt_IBCkeeper := not_nil (field s "IBCKeeper");
     opt_OPChildKeeper := not_nil (field s "OPChildKeeper");
     opt_WasmKeeper := not_nil (field s "WasmKeeper");
     opt_WasmConfig := Some (Arg "&wasmConfig");
     opt_TXCounterStoreService := Some (Made "runtime.NewKVStoreService" [txCounterStoreKey] []) |}.

(** What setupABCIPP returns. *)
Record abcipp_parts := {
  ap_mempool : val;
  ap_anteHandler : val;
  ap_prepareProposal : val;
  ap_processProposal : val;
  ap_checkTx : val
}.

(** setupABCIPP: the handlers by name, and the objects they are given to. *)
Definition setupABCIPP (txCounterStoreKey : val) : K abcipp_parts :=
  let! s := get in
  let! _ := lift (setup_handlers (handlerOpts s txCounterStoreKey)) in
  let fullHandler := Arg "fullHandler" in
  let anteHandler := Made "appante.NewDualAnteHandler" [Arg "minimalHandler"; fullHandler] [] in
  let! mempool := new (call "abcipp.NewPriorityMempool"
    [ret (Struct "abcipp.PriorityMempoolConfig"
       [("MaxTx", Arg "mempoolMaxTxs"); ("MaxQueuedPerSender", Arg "abcippCfg.MaxQueuedPerSender");
        ("MaxQueuedTotal", Arg "abcippCfg.MaxQueuedTotal");
        ("QueuedGapTTL", Arg "abcippCfg.QueuedGapTTL"); ("AnteHandler", fullHandler);
        ("Tiers", Struct "[]abcipp.Tier"
           [("system", Arg "systemTierMatcher"); ("admin", Arg "freeFeeChecker")])]);
     logger; arg "txConfig.TxEncoder()"; fld "AccountKeeper"]) in
  setter (ret mempool) "StartCleaningWorker"
    [bApp; arg "abcipp.DefaultMempoolCleaningInterval"] ;;;
  let! proposalHandler := new (call "abcipp.NewProposalHandler"
    [logger; arg "txConfig.TxDecoder()"; arg "txConfig.TxEncoder()"; ret mempool; ret fullHandler]) in
  let! _ := lift (check NewProposalHandler_err) in
  let! checkTxHandler := new (call "abcipp.NewCheckTxHandler"
    [logger; bApp; ret mempool; arg "txConfig.TxDecoder()"; sel bApp "CheckTx";
     arg "feeCheckerWrapper"]) in
  let! _ := lift (check NewCheckTxHandler_err) in
  let! prepare := call_method (ret proposalHandler) "PrepareProposalHandler" [] in
  let! process := call_method (ret proposalHandler) "ProcessProposalHandler" [] in
  let! checkTx := sel (ret checkTxHandler) "CheckTx" in
  ret {| ap_mempool := mempool; ap_anteHandler := anteHandler; ap_prepareProposal := prepare;
         ap_processProposal := process; ap_checkTx := checkTx |}.

(** ** NewMinitiaApp, block by block *)

(** The base application. *)
Definition app_base : K unit :=
  store bApp (call "baseapp.NewBaseApp"
    [ret (Str AppName); logger; arg "db"; arg "txConfig.TxDecoder()";
     call "initiastore.SetupMemIAVL" [logger; arg "appOpts"; arg "false"; arg "baseAppOptions"]]) ;;;
  setter bApp "SetCommitMultiStoreTracer" [arg "traceStore"] ;;;
  setter bApp "SetVersion" [arg "version.Version"] ;;;
  setter bApp "SetInterfaceRegistry" [arg "interfaceRegistry"] ;;;
  setter bApp "SetTxEncoder" [arg "txConfig.TxEncoder()"].

(** [for _, h := range heights { skipUpgradeHeights[int64(h)] = true }] *)
Definition skipUpgradeHeights (heights : list Z) : gmap Z bool :=
  foldl (λ m h, <[h := true]> m) ∅ heights.

(** The keepers; the wasm configuration is read before. *)
Definition app_keepers : K unit :=
  match ReadNodeConfig_err with
  | Some err => panic (PanicString (sprintf "error while reading wasm config: %s" [Error err]))
  | None => ret ()
  end ;;;
  NewAppKeeper.

Definition app_modules : K unit :=
  let! modules := appModules in
  set "ModuleManager" (new (call "module.NewManager" (ret <$> modules))) ;;;
  set "BasicModuleManager" newBasicManagerFromManager ;;;
  let order method names := setter (fld "ModuleManager") method [ret (Strs names)] in
  order "SetOrderPreBlockers" ["upgradetypes.ModuleName"] ;;;
  order "SetOrderBeginBlockers" orderBeginBlockers ;;;
  order "SetOrderEndBlockers" orderEndBlockers ;;;
  order "SetOrderInitGenesis" orderInitBlockers ;;;
  order "SetOrderExportGenesis" orderInitBlockers ;;;
  setter (fld "ModuleManager") "RegisterInvariants" [fld "CrisisKeeper"] ;;;
  set "configurator" (new (call "module.NewConfigurator"
    [appCodec; call_method bApp "MsgServiceRouter" []; call_method bApp "GRPCQueryRouter" []])) ;;;
  setter (fld "ModuleManager") "RegisterServices" [fld "configurator"] ;;;
  exit_on RegisterServices_err.

(** upgrades/v1_3_0: RegisterUpgradeHandlers, as far as it changes the application. *)
Definition app_upgrades : K unit :=
  match ReadUpgradeInfo with
  | Ok (name, height) =>
      (if bool_decide (name = "v1.3.0") && negb (SkipHeight height)
       then setter bApp "SetStoreLoader" [arg "upgradetypes.UpgradeStoreLoader"] else ret ()) ;;;
      setter (fld "UpgradeKeeper") "SetUpgradeHandler" [ret (Str "v1.3.0")]
  | Err e => exit (Error e)
  | Panic p => panic p
  end.

(** executor_change.go: RegisterExecutorChangePlans, whose body is commented out. *)
Definition RegisterExecutorChangePlans : option goerror := None.

Definition app_services (loadLatest : bool) : K unit :=
  (if loadLatest then app_upgrades else ret ()) ;;;
  exit_on RegisterExecutorChangePlans ;;;
  setter bApp "GRPCQueryRouter.RegisterService" [arg "autocliv1.Query"] ;;;
  exit_on NewReflectionService_err ;;;
  setter bApp "GRPCQueryRouter.RegisterService" [arg "reflectionv1.ReflectionService"].

Definition setPostHandler : K unit :=
  exit_on NewPostHandler_err ;;;
  setter bApp "SetPostHandler" [arg "postHandler"].

(** Stores, block handlers, and the handlers of transactions. *)
Definition app_handlers : K unit :=
  let all (m : gmap string val) := ret (Strs (fst <$> map_to_list m)) in
  let! s := get in
  setter bApp "MountKVStores" [all (keys s)] ;;;
  setter bApp "MountTransientStores" [all (tkeys s)] ;;;
  setter bApp "MountMemoryStores" [all (memKeys s)] ;;;
  setter bApp "SetInitChainer" [arg "app.InitChainer"] ;;;
  setter bApp "SetPreBlocker" [arg "app.PreBlocker"] ;;;
  setter bApp "SetBeginBlocker" [arg "app.BeginBlocker"] ;;;
  setPostHandler ;;;
  setter bApp "SetEndBlocker" [arg "app.EndBlocker"] ;;;
  setter bApp "MsgServiceRouter.SetContextDecorator" [arg "app.contextDecorator"] ;;;
  let! r := key "wasmtypes.StoreKey" in
  let! parts := attempt (setupABCIPP r) in
  match parts with
  | inr err => exit (Error err)
  | inl p =>
      setter bApp "SetMempool" [ret (ap_mempool p)] ;;;
      setter bApp "SetAnteHandler" [ret (ap_anteHandler p)] ;;;
      setter bApp "SetPrepareProposal" [ret (ap_prepareProposal p)] ;;;
      setter bApp "SetProcessProposal" [ret (ap_processProposal p)] ;;;
      set "checkTxHandler" (ret (ap_checkTx p)) ;;;
      if mempool_is_priority
      then setter bApp "SetPrepareCheckStater" [sel (ret (ap_mempool p)) "PromoteQueued"]
      else ret ()
  end.

(** Annotations, the snapshot extension, and loading. An error of ValidateProtoAnnotations is
    printed and nothing else, so its outcome is not part of [AppLib]. *)
Definition app_load (loadLatest : bool) : K unit :=
  exit_on MergedRegistry_err ;;;
  (if has_SnapshotManager then
     setter bApp "SnapshotManager.RegisterExtensions"
       [call "wasmkeeper.NewWasmSnapshotter" [call_method bApp "CommitMultiStore" []; fld "WasmKeeper"]] ;;;
     match RegisterExtensions_err with
     | Some err => panic (PanicError (Errorf "failed to register snapshot extension: %s" [Error err]))
     | None => ret ()
     end
   else ret ()) ;;;
  (if loadLatest then
     setter bApp "LoadLatestVersion" [] ;;;
     exit_on LoadLatestVersion_err ;;;
     setter (fld "WasmKeeper") "InitializePinnedCodes" [arg "ctx"] ;;;
     match InitializePinnedCodes_err with
     | Some err => exit (sprintf "failed initialize pinned codes %s" [Error err])
     | None => ret ()
     end
   else ret ()) ;;;
  let! streamingManager := new (call "storetypes.StreamingManager"
    [arg "ABCIListeners: []storetypes.ABCIListener{}"; arg "StopNodeOnErr: true"]) in
  setter (ret streamingManager) "initiastore.SetupVersionDB" [bApp; arg "appOpts"] ;;;
  exit_on SetupVersionDB_err ;;;
  setter bApp "SetStreamingManager" [copy (ret streamingManager)].

Definition NewMinitiaApp (loadLatest : bool) : K unit :=
  app_base ;;; app_keepers ;;; app_modules ;;; app_services loadLatest ;;; app_handlers ;;;
  app_load loadLatest.

(** encoding.go: the application that is built to read its codecs and modules off it. *)
Definition tempApp : K unit := NewMinitiaApp false.
Definition BasicManager : K val := tempApp ;;; fld "BasicModuleManager".

End assembly.

(** * What NewMinitiaApp builds *)

(** The names of the calls made on the base application, in order. *)
Definition base_calls (s : kstate) : list string := fst <$> setters (resolve s (Ptr 1)).

(** The arguments of the calls of that name. *)
Definition base_args (s : kstate) (method : string) : list (list val) :=
  snd <$> filter (λ c, c.1 = method) (setters (resolve s (Ptr 1))).

(** The stores that are mounted. *)
Definition mounted (s : kstate) : list string :=
  ["MountKVStores"; "MountTransientStores"; "MountMemoryStores"] ≫= (λ m, base_args s m ≫= (λ args,
    args ≫= (λ v, match v with Strs names => names | _ => [] end))).

(** The handlers of transactions work together: one mempool [mp], made with the full ante
    handler, is that of the base application, of the handler [ph] of proposals, which runs the
    full ante handler on what it takes from it, and of the handler [ct] of CheckTx, which the
    application calls; the base application runs the full ante handler too, or the minimal one. *)
Record handlers_wired (priority : bool) (s : kstate) (mp ph ct : positive) : Prop := {
  hw_mempool : base_args s "SetMempool" = [[Ptr mp]];
  hw_mempool_made : maker (resolve s (Ptr mp)) = "abcipp.NewPriorityMempool";
  hw_mempool_ante : get_field "AnteHandler" (nth_arg (resolve s (Ptr mp)) 0) = Arg "fullHandler";
  hw_proposals : maker (resolve s (Ptr ph)) = "abcipp.NewProposalHandler" ∧
    nth_arg (resolve s (Ptr ph)) 3 = Ptr mp ∧ nth_arg (resolve s (Ptr ph)) 4 = Arg "fullHandler";
  hw_prepare : base_args s "SetPrepareProposal" = [[Call (Ptr ph) "PrepareProposalHandler" []]];
  hw_process : base_args s "SetProcessProposal" = [[Call (Ptr ph) "ProcessProposalHandler" []]];
  hw_check : field s "checkTxHandler" = Sel (Ptr ct) "CheckTx" ∧
    maker (resolve s (Ptr ct)) = "abcipp.NewCheckTxHandler" ∧
    nth_arg (resolve s (Ptr ct)) 2 = Ptr mp;
  hw_promote : base_args s "SetPrepareCheckStater" =
    if priority then [[Sel (Ptr mp) "PromoteQueued"]] else [];
  hw_ante : base_args s "SetAnteHandler" =
    [[Made "appante.NewDualAnteHandler" [Arg "minimalHandler"; Arg "fullHandler"] []]]
}.

(** The copies that the modules of the module manager hold. *)
Definition module_copies (s : kstate) : list (positive * val) :=
  omap (λ v, match v with Copy l w => Some (l, w) | _ => None end)
    (match resolve s (field s "ModuleManager") with Made _ args _ => args ≫= parts false | _ => [] end).

Section assembled.
Context {AC : AddressCodec} {KL : KeeperLib} {AP : AppLib}.
Context {C : Type} {CM : CheckModes (C:=C)} {OF : OpChildFees (C:=C)}.
Context {AL : AnteLib (C:=C) (AKT:=val) (BKT:=val) (FGT:=val) (SMH:=val) (EOC:=val) (SGC:=val)
  (IBK:=val) (OPK:=val) (WK:=val) (WC:=val) (TXS:=val)}.

(** The library calls of NewMinitiaApp succeed; [due] says whether the upgrade found on disk
    is the one of version 1.3.0, not to be skipped. *)
Record app_starts (due : bool) : Prop := {
  as_config : ReadNodeConfig_err = None;
  as_services : RegisterServices_err = None;
  as_upgrade : ∃ name height, ReadUpgradeInfo = Ok (name, height) ∧
    bool_decide (name = "v1.3.0") && negb (SkipHeight height) = due;
  as_reflection : NewReflectionService_err = None;
  as_post : NewPostHandler_err = None;
  as_proposal : NewProposalHandler_err = None;
  as_check : NewCheckTxHandler_err = None;
  as_registry : MergedRegistry_err = None;
  as_snapshots : RegisterExtensions_err = None;
  as_load : LoadLatestVersion_err = None;
  as_pinned : InitializePinnedCodes_err = None;
  as_versiondb : SetupVersionDB_err = None
}.

(** The state after the keepers. *)
Definition with_keepers a b addr caps : kstate :=
  (NewAppKeeper (AC:=codec_of a b) (KL:=lib_of addr caps) (app_base AppKeepers_zero).2).2.

Lemma with_keepers_ok a b addr caps :
  (NewAppKeeper (AC:=codec_of a b) (KL:=lib_of addr caps) (app_base AppKeepers_zero).2).1 = Ok ().
Proof. by vm_compute. Qed.

Lemma keepers_assembled a b :
  starts a b → ReadNodeConfig_err = None →
  app_keepers (app_base AppKeepers_zero).2 =
  (Ok (), with_keepers a b authorityAccAddr BuiltInCapabilities).
Proof.
  intros Hs H1. unfold app_keepers. rw H1. transitivity (NewAppKeeper (app_base AppKeepers_zero).2); [done|].
  rw (NewAppKeeper_lib _ _ _ Hs) -(with_keepers_ok a b authorityAccAddr BuiltInCapabilities).
  apply surjective_pairing.
Qed.

(** Libraries whose calls succeed. *)
Definition app_lib_of (due priority snapshots : bool) : AppLib := {|
  ReadNodeConfig_err := None; RegisterServices_err := None;
  ReadUpgradeInfo := Ok ("v1.3.0", 0); SkipHeight := λ _, negb due;
  NewReflectionService_err := None; NewPostHandler_err := None; NewProposalHandler_err := None;
  NewCheckTxHandler_err := None; mempool_is_priority := priority; MergedRegistry_err := None;
  has_SnapshotManager := snapshots; RegisterExtensions_err := None; LoadLatestVersion_err := None;
  InitializePinnedCodes_err := None; SetupVersionDB_err := None
|}.

(** What follows the keepers. *)
Definition app_rest (AP : AppLib) (l : bool) : K unit :=
  app_modules (AP:=AP) ;;; app_services (AP:=AP) l ;;; app_handlers (AP:=AP) ;;; app_load (AP:=AP) l.

Definition assembled a b addr caps due priority snapshots l : kstate :=
  (app_rest (app_lib_of due priority snapshots) l (with_keepers a b addr caps)).2.

Lemma assembled_ok a b addr caps due priority snapshots l :
  (app_rest (app_lib_of due priority snapshots) l (with_keepers a b addr caps)).1 = Ok ().
Proof. by destruct l, due, priority, snapshots; vm_compute. Qed.

Lemma app_rest_lib due l s : app_starts due →
  app_rest AP l s = app_rest (app_lib_of due mempool_is_priority has_SnapshotManager) l s.
Proof.
  intros [_ H1 (name & height & H2 & Hd) H3 H4 H5 H6 H7 H8 H9 H10 H11].
  unfold app_rest, app_modules, app_services, app_upgrades, app_handlers, app_load, setPostHandler,
    setupABCIPP, exit_on.
  rw H1 H2 H3 H4 H5 H6 H7 H8 H9 H10 H11 Hd.
  cbn [RegisterServices_err ReadUpgradeInfo app_lib_of SkipHeight]. by destruct due.
Qed.

Lemma NewMinitiaApp_starts a b due l :
  starts a b → app_starts due →
  NewMinitiaApp l AppKeepers_zero =
  (Ok (), assembled a b authorityAccAddr BuiltInCapabilities due
     mempool_is_priority has_SnapshotManager l).
Proof.
  intros Hs Ha. unfold NewMinitiaApp. rw (bind_ok app_base _ _ () (app_base AppKeepers_zero).2) //.
  rw (bind_ok app_keepers _ _ () _ (keepers_assembled _ _ Hs (as_config _ Ha))).
  transitivity (app_rest AP l (with_keepers a b authorityAccAddr BuiltInCapabilities)); [done|].
  rw (app_rest_lib due) //.
  rw -(assembled_ok a b authorityAccAddr BuiltInCapabilities due mempool_is_priority has_SnapshotManager l).
  apply surjective_pairing.
Qed.

(** The copies modules hold and the cells they are of do not depend on how the application is
    started. *)
Lemma module_copies_same a b addr caps due priority snapshots l :
  module_copies (assembled a b addr caps due priority snapshots l) =
  module_copies (assembled a b addr caps false false false false).
Proof. destruct l, due, priority, snapshots; vm_compute; reflexivity. Qed.

Definition copied_cells : list positive := [5; 3; 12; 13; 14; 2; 6; 22; 26; 16; 17; 8]%positive.

Lemma copied_cells_same a b addr caps due priority snapshots l :
  (λ p, heap (assembled a b addr caps due priority snapshots l) !! p) <$> copied_cells =
  (λ p, heap (assembled a b addr caps false false false false) !! p) <$> copied_cells.
Proof. destruct l, due, priority, snapshots; vm_compute; reflexivity. Qed.

Lemma module_copies_plain a b addr caps :
  let s := assembled a b addr caps false false false false in
  ∀ p v, (p, v) ∈ module_copies s → p ∈ copied_cells ∧ heap s !! p = Some v.
Proof.
  apply Forall_pairs. vm_compute. repeat constructor; (split; [|done]);
    repeat (apply list_elem_of_here || apply list_elem_of_further).
Qed.

(** Modules hold current copies of keepers, the bank keeper with its hooks set. *)
Lemma copies_current a b addr caps due priority snapshots l :
  let s := assembled a b addr caps due priority snapshots l in
  (∀ p v, (p, v) ∈ module_copies s → heap s !! p = Some v) ∧
  (∃ p, field s "BankKeeper" = Ptr p ∧ p ∈ (module_copies s).*1 ∧ hook_state s (Ptr p) = Some true).
Proof.
  pose proof (copied_cells_same a b addr caps due priority snapshots l) as Hc.
  cbn zeta. rw module_copies_same. split.
  - intros p v [Hp <-]%module_copies_plain.
    apply list_elem_of_lookup in Hp as [i Hi]. apply (f_equal (lookup i)) in Hc.
    rw !list_lookup_fmap Hi in Hc. exact (inj Some _ _ Hc).
  - clear. exists 6%positive. split; [by destruct l, due, priority, snapshots; vm_compute|].
    split; [eapply bool_decide_unpack; by vm_compute|].
    by destruct l, due, priority, snapshots; vm_compute.
Qed.

Lemma handlers_assembled a b addr caps due priority snapshots l :
  ∃ mp ph ct, handlers_wired priority (assembled a b addr caps due priority snapshots l) mp ph ct.
Proof.
  exists 34%positive, 35%positive, 36%positive.
  destruct l, due, priority, snapshots; split; try split_and!; by vm_compute.
Qed.

Lemma stores_mounted a b addr caps due priority snapshots l :
  let s := assembled a b addr caps due priority snapshots l in
  Forall (λ k, k ∈ mounted s) (stores s).
Proof. cbn zeta. destruct l, due, priority, snapshots; eapply bool_decide_unpack; by vm_compute. Qed.

Lemma load_last a b addr caps due priority snapshots l :
  ∃ before, ¬ ("LoadLatestVersion" ∈ before) ∧
    base_calls (assembled a b addr caps due priority snapshots l) =
      before ++ (if l then ["LoadLatestVersion"] else []) ++ ["SetStreamingManager"].
Proof.
  pose (calls := base_calls (assembled a b addr caps due priority snapshots l)).
  exists (take (length calls - (if l then 2%nat else 1%nat)) calls). subst calls.
  split; [|by destruct l, due, priority, snapshots; vm_compute].
  destruct l, due, priority, snapshots; eapply bool_decide_unpack; by vm_compute.
Qed.

(** C12. What NewMinitiaApp puts together fits. When the library calls succeed it returns, and:
    the base application, the proposal handler and the CheckTx handler work on one mempool
    and with one full ante handler ([handlers_wired]); every store that a keeper was given is
    mounted; the copies of keepers that modules hold are equal to the keepers the application
    ends with, as the note in app.go on modules passed by value asks, the bank keeper with its
    hooks among them; and all of it is done before the state is loaded, after which only the
    streaming manager is set (which the comment at the load rules out). *)
Theorem app_assembled a b due l :
  starts a b → app_starts due →
  ∃ s, NewMinitiaApp l AppKeepers_zero = (Ok (), s) ∧
  (∃ mp ph ct, handlers_wired mempool_is_priority s mp ph ct) ∧
  (∀ k, k ∈ stores s → k ∈ mounted s) ∧
  (∀ p v, (p, v) ∈ module_copies s → heap s !! p = Some v) ∧
  (∃ p, field s "BankKeeper" = Ptr p ∧ p ∈ (module_copies s).*1 ∧ hook_state s (Ptr p) = Some true) ∧
  (∃ before, ¬ ("LoadLatestVersion" ∈ before) ∧
     base_calls s = before ++ (if l then ["LoadLatestVersion"] else []) ++ ["SetStreamingManager"]).
Proof.
  intros Hs Ha. eexists. split; [by apply NewMinitiaApp_starts|].
  generalize authorityAccAddr, BuiltInCapabilities, mempool_is_priority, has_SnapshotManager.
  intros addr caps priority snapshots. clear.
  destruct (copies_current a b addr caps due priority snapshots l) as [H1 H2].
  split; [apply handlers_assembled|]. split; [apply Forall_forall, stores_mounted|].
  split; [done|]. split; [done|]. apply load_last.
Qed.

End assembled.
