(* ===== verification/AppMethods.v ===== *)
(** app: what the application does once it is built: the rest of app.go (CheckTx, the block
    handlers, InitChainer, Simulate, the routes and services, Close), getter.go and
    encoding.go. The base application, the module manager and the stores are parameters. *)
From S2P Require Import Prelude.
From S2P Require Import Keepers.
From S2P Require Import Assembly.

(** * Gas of a simulation *)

Record GasInfo := { GasWanted : Z; GasUsed : Z }.

(** Simulate: [base] is BaseApp.Simulate. GasUsed is a uint64. *)
Definition Simulate {R} (base : bytes → GasInfo * R * option goerror) (txBytes : bytes)
    : GasInfo * R * option goerror :=
  let '(gasInfo, result, err) := base txBytes in
  ({| GasWanted := GasWanted gasInfo; GasUsed := wrap64 (GasUsed gasInfo + FeeDeductionGasAmount) |},
   result, err).

(** * Blocks *)

Section blocks.
(** The state of the chain, a genesis by module, and what the module manager does. *)
Context {S G Resp : Type}.

Class Manager := {
  PreBlock : M S Resp;
  BeginBlock : M S Resp;
  EndBlock : M S Resp;
  Manager_InitGenesis : G → M S Resp;
  SetModuleVersionMap : M S unit;
  unmarshal_genesis : bytes → res G
}.
Context {MG : Manager}.

Definition PreBlocker : M S Resp := PreBlock.
Definition BeginBlocker : M S Resp := BeginBlock.
Definition EndBlocker : M S Resp := EndBlock.

(** [if err := f(); err != nil { tmos.Exit(err.Error()) }] *)
Definition or_exit {A} (m : M S A) : M S A :=
  let! r := attempt m in
  match r with inl a => ret a | inr err => panic (PanicString (Error err)) end.

Definition InitChainer (AppStateBytes : bytes) : M S Resp :=
  let! genesisState := or_exit (lift (unmarshal_genesis AppStateBytes)) in
  or_exit SetModuleVersionMap ;;;
  Manager_InitGenesis genesisState.
End blocks.

(** * Requests *)

Section requests.
Context {Req Resp : Type}.

(** The handler SetCheckTx left in the application, nil before. *)
Record checker := { checkTxHandler : option (Req → res Resp) }.

Definition SetCheckTx (handler : Req → res Resp) (app : checker) : checker :=
  {| checkTxHandler := Some handler |}.

Definition CheckTx (req : Req) (app : checker) : res Resp :=
  match checkTxHandler app with
  | Some h => h req
  | None => Panic nil_dereference
  end.
End requests.

(** The context decorator of RegisterMessageRouterContextDecorator; [localTime] is
    cmtstate.LocalTime. *)
Record msg_ctx := { ExecModeSimulate : bool; BlockTime : Z }.

Definition contextDecorator (localTime : Z → Z) (ctx : msg_ctx) : msg_ctx :=
  if ExecModeSimulate ctx
  then {| ExecModeSimulate := true; BlockTime := localTime (BlockTime ctx) |}
  else ctx.

(** * Routes and services *)

(** RegisterSwaggerAPI: the files are served under a prefix that is stripped, or the process
    ends when they cannot be opened. *)
Definition RegisterSwaggerAPI (fs_err : option goerror) (routes : list (string * string))
    : res (list (string * string)) :=
  match fs_err with
  | Some err => Panic (PanicString (Error err))
  | None => Ok (routes ++ [("/swagger/", "http.StripPrefix(/swagger/)")])
  end.

(** RegisterAPIRoutes: the gateways in order, and the swagger files if configured. *)
Definition api_gateways : list string := ["authtx"; "cmtservice"; "nodeservice"; "abcipp"; "BasicModuleManager"].

Definition RegisterAPIRoutes (swagger : bool) (fs_err : option goerror)
    : res (list string * list (string * string)) :=
  let? routes := if swagger then RegisterSwaggerAPI fs_err [] else Ok [] in
  Ok (api_gateways, routes).

(** RegisterTxService: the transaction service, with the application's own Simulate, and the
    service of the mempool, which must be of the kind abcipp makes. *)
Definition RegisterTxService (mempool_is_abcipp : bool) (services : list string)
    : res (list string) :=
  let services := services ++ ["authtx with MinitiaApp.Simulate"] in
  if mempool_is_abcipp then Ok (services ++ ["abcipp"])
  else Panic (PanicString "mempool is not an abcipp.Mempool").

Definition RegisterTendermintService (services : list string) : list string :=
  services ++ ["cmtservice"].
Definition RegisterNodeService (services : list string) : list string :=
  services ++ ["nodeservice"].

(** ConnectMempoolEvents: the channel is given to a priority mempool only. *)
Definition ConnectMempoolEvents {Ch} (is_priority : bool) (ch : Ch) (current : option Ch) : option Ch :=
  if is_priority then Some ch else current.

(** LoadHeight: BaseApp.LoadVersion. *)
Definition LoadHeight {S} (LoadVersion : Z → M S unit) (height : Z) : M S unit := LoadVersion height.

(** * Close *)

(** A store Close looks at: nil, one that cannot be closed, or a closer with its outcome. *)
Inductive multi_store :=
| NilStore
| NoCloser (name : string)
| Closer (name : string) (err : option goerror).

(** What Close does: the mempool stopped, the stores closed, the errors collected. *)
Record closing := { stopped : bool; closed : list string; errs : list goerror }.

Definition add_err (err : option goerror) (l : list goerror) : list goerror :=
  match err with Some e => l ++ [e] | None => l end.

Definition close_store (c : closing) (store : multi_store) : closing :=
  match store with
  | NilStore | NoCloser _ => c
  | Closer name err =>
      {| stopped := stopped c; closed := closed c ++ [name]; errs := add_err err (errs c) |}
  end.

(** Close: [can_stop] says whether the mempool has a Stop method. The errors are joined. *)
Definition Close (can_stop : bool) (base_err : option goerror) (commit qms : multi_store) : closing :=
  foldl close_store
    {| stopped := can_stop; closed := ["BaseApp"]; errs := add_err base_err [] |} [commit; qms].

(** errors.Join: nil when there is no error. *)
Definition errors_Join (l : list goerror) : option goerror :=
  match l with
  | [] => None
  | l => Some (Errorf (join (String "010" "") (Error <$> l)) [])
  end.

(** * Options and getters *)

(** EmptyAppOptions.Get; [None] is nil. *)
Definition EmptyAppOptions_Get (DefaultNodeHome homeDir o : string) : option string :=
  if decide (o = "flags.FlagHome")
  then Some (if is_empty homeDir then DefaultNodeHome else homeDir)
  else None.

(** The modules of AutoCliOpts: those of the module manager that have a name and are an
    appmodule.AppModule, by name. [None] is a module without the method Name. *)
Definition autocli_modules {A} (modules : list (option string * option A)) : gmap string A :=
  foldl (λ m '(n, a), match n, a with Some n, Some a => <[n := a]> m | _, _ => m end) ∅ modules.

(** The keys of init in app.go: the home directory. *)
Definition DefaultNodeHome_init (userHomeDir : res string) : res string :=
  match userHomeDir with
  | Ok d => Ok (d +:+ "/." +:+ AppName)
  | Err err => Panic (PanicString (Error err))
  | Panic p => Panic p
  end.

Definition GetBaseApp (s : kstate) : val := Ptr 1.
Definition GetAccountKeeper (s : kstate) : val := field s "AccountKeeper".
Definition GetStakingKeeper (s : kstate) : val := field s "OPChildKeeper".
Definition GetWasmKeeper (s : kstate) : val := field s "WasmKeeper".
Definition GetUpgradeKeeper (s : kstate) : val := field s "UpgradeKeeper".
Definition GetOPChildKeeper (s : kstate) : val := field s "OPChildKeeper".
Definition GetIBCKeeper (s : kstate) : val := field s "IBCKeeper".
Definition GetICAControllerKeeper (s : kstate) : val := field s "ICAControllerKeeper".
Definition GetICAAuthKeeper (s : kstate) : val := field s "ICAAuthKeeper".
Definition GetScopedIBCKeeper (s : kstate) : val := field s "ScopedIBCKeeper".
Definition GetConfigurator (s : kstate) : val := field s "configurator".
Definition GetModuleManager (s : kstate) : val := field s "ModuleManager".

(** * Theorems *)

(** A simulation reports the gas of the base application and fifty thousand more, on success
    and on failure, without wrapping as long as the base application used less than
    2^64 - 50000. *)
Theorem Simulate_gas {R} (base : bytes → GasInfo * R * option goerror) tx g r err :
  base tx = (g, r, err) → 0 <= GasUsed g < 2 ^ 64 - FeeDeductionGasAmount →
  Simulate base tx = ({| GasWanted := GasWanted g; GasUsed := GasUsed g + 50000 |}, r, err).
Proof.
  intros Hb Hg. unfold Simulate. rw Hb. unfold wrap64, FeeDeductionGasAmount in *.
  rw Z.mod_small; [done|lia].
Qed.

Section init_chain.
Context {S G Resp : Type} {MG : Manager (S:=S) (G:=G) (Resp:=Resp)}.

(** A chain is initialised from a genesis that can be read, after the versions of the modules
    are stored; where either fails the process ends and no module is initialised. *)
Theorem InitChainer_spec bz s :
  match unmarshal_genesis bz with
  | Ok g => ∀ r s1, SetModuleVersionMap s = (r, s1) →
      InitChainer bz s = match r with
                         | Ok _ => Manager_InitGenesis g s1
                         | Err e => (Panic (PanicString (Error e)), s1)
                         | Panic p => (Panic p, s1)
                         end
  | Err e => InitChainer bz s = (Panic (PanicString (Error e)), s)
  | Panic p => InitChainer bz s = (Panic p, s)
  end.
Proof.
  unfold InitChainer, or_exit, lift. destruct (unmarshal_genesis bz) as [g|e|p] eqn:Hu; cbn.
  - intros r s1 Hv. unfold bind, attempt, ret, panic. rw Hv. by destruct r.
  - by unfold bind, attempt, panic.
  - by unfold bind, attempt, panic.
Qed.
End init_chain.

(** Close closes everything it can, whatever fails before: the base application and both
    stores that can be closed, and returns an error exactly when one of them failed. *)
Theorem Close_all can_stop base_err commit qms :
  let c := Close can_stop base_err commit qms in
  let outcomes := base_err :: omap (λ st, match st with Closer _ e => Some e | _ => None end) [commit; qms] in
  stopped c = can_stop ∧
  closed c = "BaseApp" :: omap (λ st, match st with Closer n _ => Some n | _ => None end) [commit; qms] ∧
  errs c = omap id outcomes ∧
  (errors_Join (errs c) = None ↔ Forall (λ e, e = None) outcomes).
Proof.
  assert (He : ∀ e l, errs (Close can_stop base_err commit qms) = e :: l →
    errors_Join (e :: l) ≠ None) by done.
  destruct base_err, commit as [|?|? []], qms as [|?|? []]; cbn;
    (split_and!; [done..|]); (split; intros Hj; [try discriminate Hj; by repeat constructor|]);
    try done; by repeat (apply Forall_cons in Hj as [? Hj]).
Qed.
