(* ===== verification/Cli.v ===== *)
(** x/tokenfactory/client/cli/tx.go: the transaction commands of the module. Cobra, the
    client context and the broadcast are parameters; what is here is which message each
    command makes of its arguments, and when it is broadcast. *)
From S2P Require Import Prelude.
From S2P Require Import Interfaces.
From S2P Require Import TfTypes.
From S2P Require Import TfKeeper.
From S2P Require Import TfMsgServer.

Section cli.
(** The state of the client and its node, and client contexts. *)
Context {S CC : Type} {AC : AddressCodec} {ST : SdkTypes}.

(** cobra's counts of arguments, the client context of an invocation, the SDK's reading of
    coins, and the signing and broadcasting of a message. *)
Class CliLib := {
  ExactArgs : nat → list string → option goerror;
  RangeArgs : nat → nat → list string → option goerror;
  GetClientTxContext : res CC;
  GetFromAddress : CC → bytes;
  ParseCoinNormalized : string → res coin;
  GenerateOrBroadcastTxCLI : CC → tf_msg → M S unit
}.

(** What cobra documents of the two counts. *)
Class CliLibLaws {CL : CliLib} : Prop := {
  ExactArgs_spec : ∀ n args, ExactArgs n args = None ↔ length args = n;
  RangeArgs_spec : ∀ min max args, RangeArgs min max args = None ↔ (min <= length args <= max)%nat
}.

Context {CL : CliLib}.

(** A cobra.Command: cobra calls [RunE] on arguments that [Args] accepts. *)
Record Command := {
  Use : string;
  Args : list string → option goerror;
  RunE : list string → M S unit
}.

(** [args[i]], which panics out of range. *)
Definition arg (args : list string) (i : nat) : M S string :=
  match args !! i with
  | Some a => ret a
  | None => panic (PanicString "runtime error: index out of range")
  end.

(** The client context and the sender, with which every command starts. *)
Definition from_context : M S (CC * string) :=
  let! clientCtx := lift GetClientTxContext in
  let! fromAddr := lift (BytesToString (GetFromAddress clientCtx)) in
  ret (clientCtx, fromAddr).

Definition NewCreateDenomCmd : Command :=
  {| Use := "create-denom [sub-denom] [flags]";
     Args := ExactArgs 1;
     RunE := λ args,
       let! (clientCtx, fromAddr) := from_context in
       let! subdenom := arg args 0 in
       let msg := NewMsgCreateDenom fromAddr subdenom in
       lift (MsgCreateDenom_Validate msg) ;;;
       GenerateOrBroadcastTxCLI clientCtx (CreateDenom msg) |}.

Definition NewMintCmd : Command :=
  {| Use := "mint [amount] [mint-to-address] [flags]";
     Args := RangeArgs 1 2;
     RunE := λ args,
       let! (clientCtx, fromAddr) := from_context in
       let! text := arg args 0 in
       let! amount := lift (ParseCoinNormalized text) in
       let! mintToAddress := (if (length args =? 2)%nat then arg args 1 else ret "") in
       let msg := NewMsgMintTo fromAddr amount mintToAddress in
       lift (MsgMint_Validate msg) ;;;
       GenerateOrBroadcastTxCLI clientCtx (Mint msg) |}.

Definition NewBurnCmd : Command :=
  {| Use := "burn [amount] [flags]";
     Args := ExactArgs 1;
     RunE := λ args,
       let! (clientCtx, fromAddr) := from_context in
       let! text := arg args 0 in
       let! amount := lift (ParseCoinNormalized text) in
       let msg := NewMsgBurn fromAddr amount in
       lift (MsgBurn_Validate msg) ;;;
       GenerateOrBroadcastTxCLI clientCtx (Burn msg) |}.

Definition NewChangeAdminCmd : Command :=
  {| Use := "change-admin [denom] [new-admin] [flags]";
     Args := ExactArgs 2;
     RunE := λ args,
       let! (clientCtx, fromAddr) := from_context in
       let! denom := arg args 0 in
       let! newAdmin := arg args 1 in
       let msg := NewMsgChangeAdmin fromAddr denom newAdmin in
       lift (MsgChangeAdmin_Validate msg) ;;;
       GenerateOrBroadcastTxCLI clientCtx (ChangeAdmin msg) |}.

Definition NewSetBeforeSendHookCmd : Command :=
  {| Use := "set-beforesend-hook [denom] [cosmwasm-address] [flags]";
     Args := ExactArgs 2;
     RunE := λ args,
       let! (clientCtx, fromAddr) := from_context in
       let! denom := arg args 0 in
       let! cosmwasmAddress := arg args 1 in
       let msg := NewMsgSetBeforeSendHook fromAddr denom cosmwasmAddress in
       lift (MsgSetBeforeSendHook_Validate msg) ;;;
       GenerateOrBroadcastTxCLI clientCtx (SetBeforeSendHook msg) |}.

(** The commands GetTxCmd adds. *)
Definition GetTxCmd : list Command :=
  [NewCreateDenomCmd; NewMintCmd; NewBurnCmd; NewChangeAdminCmd; NewSetBeforeSendHookCmd].

(** * Theorems *)

(** The signer of a message and the validation the message server opens with. *)
Definition msg_from (m : tf_msg) : string :=
  match m with
  | CreateDenom m => MsgCreateDenom_Sender m
  | Mint m => MsgMint_Sender m
  | Burn m => MsgBurn_Sender m
  | ChangeAdmin m => MsgChangeAdmin_Sender m
  | SetDenomMetadata m => MsgSetDenomMetadata_Sender m
  | SetBeforeSendHook m => MsgSetBeforeSendHook_Sender m
  | UpdateParams m => MsgUpdateParams_Authority m
  end.

Definition msg_validate (m : tf_msg) : res unit :=
  match m with
  | CreateDenom m => MsgCreateDenom_Validate m
  | Mint m => MsgMint_Validate m
  | Burn m => MsgBurn_Validate m
  | ChangeAdmin m => MsgChangeAdmin_Validate m
  | SetDenomMetadata m => MsgSetDenomMetadata_Validate m
  | SetBeforeSendHook m => MsgSetBeforeSendHook_Validate m
  | UpdateParams m => Params_Validate (MsgUpdateParams_Params m)
  end.

(** The message a command stands for, as a relation between the words typed and the
    message; an amount is what the SDK reads. *)
Inductive means (from : string) : string → list string → tf_msg → Prop :=
| means_create_denom subdenom :
    means from (Use NewCreateDenomCmd) [subdenom]
      (CreateDenom {| MsgCreateDenom_Sender := from; MsgCreateDenom_Subdenom := subdenom |})
| means_mint text amount :
    ParseCoinNormalized text = Ok amount →
    means from (Use NewMintCmd) [text]
      (Mint {| MsgMint_Sender := from; MsgMint_Amount := amount; MsgMint_MintToAddress := "" |})
| means_mint_to text amount to :
    ParseCoinNormalized text = Ok amount →
    means from (Use NewMintCmd) [text; to]
      (Mint {| MsgMint_Sender := from; MsgMint_Amount := amount; MsgMint_MintToAddress := to |})
| means_burn text amount :
    ParseCoinNormalized text = Ok amount →
    means from (Use NewBurnCmd) [text] (Burn {| MsgBurn_Sender := from; MsgBurn_Amount := amount |})
| means_change_admin denom admin :
    means from (Use NewChangeAdminCmd) [denom; admin]
      (ChangeAdmin {| MsgChangeAdmin_Sender := from; MsgChangeAdmin_Denom := denom;
                      MsgChangeAdmin_NewAdmin := admin |})
| means_set_hook denom contract :
    means from (Use NewSetBeforeSendHookCmd) [denom; contract]
      (SetBeforeSendHook {| MsgSetBeforeSendHook_Sender := from; MsgSetBeforeSendHook_Denom := denom;
                            MsgSetBeforeSendHook_CosmwasmAddress := contract |}).

(** How a command may end: it broadcast the message it stands for, valid and signed by
    the sender of the context; or it failed and nothing was sent. *)
Definition outcome (c : Command) (args : list string) (s : S) (out : res unit * S) : Prop :=
  (∃ clientCtx from m,
     GetClientTxContext = Ok clientCtx ∧ BytesToString (GetFromAddress clientCtx) = Ok from ∧
     means from (Use c) args m ∧ msg_from m = from ∧ msg_validate m = Ok () ∧
     out = GenerateOrBroadcastTxCLI clientCtx m s) ∨
  out.2 = s ∧ is_ok out.1 = false.

(** The start of a command and its validation either go on or end it. *)
Lemma from_context_cases s :
  (∃ cc from, GetClientTxContext = Ok cc ∧ BytesToString (GetFromAddress cc) = Ok from ∧
     from_context s = (Ok (cc, from), s)) ∨
  ((from_context s).2 = s ∧ is_ok (from_context s).1 = false).
Proof.
  unfold from_context, bind, lift, ret. destruct GetClientTxContext as [cc|e|p]; [|by right..].
  destruct (BytesToString (GetFromAddress cc)) as [from|e|p] eqn:Hf; [|by right..]. left. by exists cc, from.
Qed.

Lemma bind_stuck {A B} (m : M S A) (f : A → M S B) s :
  (m s).2 = s → is_ok (m s).1 = false → (bind m f s).2 = s ∧ is_ok (bind m f s).1 = false.
Proof. unfold bind. destruct (m s) as [[]]; by cbn. Qed.

Lemma lift_cases {A B} (r : res A) (f : A → M S B) s :
  (∃ a, r = Ok a ∧ bind (lift r) f s = f a s) ∨
  ((bind (lift r) f s).2 = s ∧ is_ok (bind (lift r) f s).1 = false).
Proof. unfold bind, lift. destruct r as [a|e|p]; [left; by exists a|by right..]. Qed.

Lemma outcome_broadcast c args s cc from m :
  GetClientTxContext = Ok cc → BytesToString (GetFromAddress cc) = Ok from →
  means from (Use c) args m → msg_from m = from → msg_validate m = Ok () →
  outcome c args s (GenerateOrBroadcastTxCLI cc m s).
Proof. intros. left. by exists cc, from, m. Qed.

(** Take the next call of a command: a call that fails ends the proof, one that succeeds
    leaves its result. *)
Ltac cli_step :=
  match goal with
  | |- context [bind (lift ?r) ?f ?s] =>
      let a := fresh "a" in let Hr := fresh "Hr" in let Heq := fresh "Heq" in
      destruct (lift_cases r f s) as [(a & Hr & Heq)|Hstuck]; [rw Heq|by right]
  end.

Ltac cli_start s :=
  cbn [RunE NewCreateDenomCmd NewMintCmd NewBurnCmd NewChangeAdminCmd NewSetBeforeSendHookCmd];
  destruct (from_context_cases s) as [(cc & from & Hcc & Hfrom & Hs)|[Hs1 Hs2]];
    [rw !(bind_ok _ _ _ _ _ Hs)|right; by apply bind_stuck].

(** Every command of the module broadcasts exactly the message its words stand for, with
    the sender of the client context as its sender, and only when that message passes the
    validation of the message server; in every other case nothing is sent and the command
    fails. A mint without address leaves the address empty, which the server takes for the
    sender. On arguments cobra lets through, no command reads past the end of them. *)
Theorem cli_broadcasts_valid `{!CliLibLaws} c args s :
  c ∈ GetTxCmd → Args c args = None → outcome c args s (RunE c args s).
Proof.
  unfold GetTxCmd. rw !elem_of_cons. intros [->|[->|[->|[->|[->|[]%not_elem_of_nil]]]]] Hargs;
    cbn [Args NewCreateDenomCmd NewMintCmd NewBurnCmd NewChangeAdminCmd NewSetBeforeSendHookCmd] in Hargs;
    first [apply ExactArgs_spec in Hargs|apply RangeArgs_spec in Hargs];
    destruct args as [|a0 [|a1 [|a2 args]]]; cbn in Hargs; try lia; cli_start s;
    unfold bind at 1, arg at 1; cbn [lookup list_lookup ret]; repeat cli_step;
    try (unfold bind at 1; cbn [length Nat.eqb arg lookup list_lookup ret]; repeat cli_step);
    repeat match goal with u : () |- _ => destruct u end;
    apply (outcome_broadcast _ _ _ _ from); try done;
    first [apply means_create_denom|by apply means_mint|by apply means_mint_to|by apply means_burn
          |apply means_change_admin|apply means_set_hook].
Qed.

End cli.
