(* ===== verification/Cmd.v ===== *)
(** cmd/minitiad: the init command (init.go), the launch step that stores and instantiates
    the NFT contracts (launch.go), and the export of the application's state (root.go and
    app/export.go). Files, the command line and the chain being launched are states behind
    parameters. *)
From S2P Require Import Prelude.
From S2P Require Import Interfaces.
From S2P Require Import App.

(** * The init command *)

Definition FlagOverwrite : string := "overwrite".
Definition FlagRecover : string := "recover".
Definition FlagDenom : string := "denom".
Definition FlagChainID : string := "chain-id".
Definition FlagInitHeight : string := "initial-height".

(** The flags InitCmd defines, the first being cli.HomeFlag. *)
Definition init_flags : list string := ["home"; FlagOverwrite; FlagRecover; FlagChainID; FlagDenom].

Section init.
(** The node's files and its terminal, parsed flags, and the parts of the configuration
    and of a genesis file that the command does not touch. *)
Context {S FL CR AR : Type}.

Record CometConfig := {
  cfg_RootDir : string;
  cfg_Moniker : string;
  RPC_ListenAddress : string;
  RPC_CORSAllowedOrigins : list string;
  cfg_rest : CR
}.

(** types.AppGenesis; the consensus part is only ever a list of validators here. *)
Record AppGenesis := {
  ag_AppName : string;
  ag_AppVersion : string;
  ag_ChainID : string;
  ag_AppState : string;
  ag_InitialHeight : Z;
  ag_Consensus : option (list string);
  ag_rest : AR
}.

Record printInfo := {
  pi_Moniker : string;
  pi_ChainID : string;
  pi_NodeID : string;
  pi_GenTxsDir : string;
  pi_AppMessage : string
}.

(** What os.Stat answers. *)
Inductive stat_result := Stat_ok | Stat_not_exist | Stat_failed (e : goerror).

(** pflag, the SDK's genutil, CometBFT's config files, and the operating system. A flag
    is read as its value and an error. *)
Class InitLib := {
  Flag_defined : FL → string → bool;
  GetString : FL → string → string * option goerror;
  GetBool : FL → string → bool * option goerror;
  GetInt64 : FL → string → Z * option goerror;
  rand_Str : Z → M S string;
  read_mnemonic : M S string;
  IsMnemonicValid : string → bool;
  InitializeNodeValidatorFilesFromMnemonic : CometConfig → string → M S string;
  GenesisFile : CometConfig → string;
  FileExists : string → S → bool;
  Stat : string → S → stat_result;
  AppGenesisFromFile : string → M S AppGenesis;
  ExportGenesisFile : AppGenesis → string → M S unit;
  WriteConfigFile : string → CometConfig → M S unit;
  MarshalIndent_state : gmap string string → res string;
  MarshalIndent_info : printInfo → res string;
  Fprintf_stderr : string → M S unit;
  filepath_Join : list string → string;
  version_AppName : string;
  version_Version : string;
  empty_AppGenesis : AppGenesis
}.

Context {IL : InitLib}.

(** minitiaapp.NewDefaultGenesisState(cdc, mbm, denom). *)
Variable DefaultGenesisState : string → res (gmap string string).

Definition newPrintInfo (moniker chainID nodeID genTxsDir appMessage : string) : printInfo :=
  {| pi_Moniker := moniker; pi_ChainID := chainID; pi_NodeID := nodeID; pi_GenTxsDir := genTxsDir;
     pi_AppMessage := appMessage |}.

Definition displayInfo (info : printInfo) : M S unit :=
  let! out := lift (MarshalIndent_info info) in
  Fprintf_stderr (out +:+ String "010" "").

(** config.SetRoot(home), then the fields the command sets at once. *)
Definition open_rpc (home : string) (config : CometConfig) : CometConfig :=
  {| cfg_RootDir := home; cfg_Moniker := cfg_Moniker config;
     RPC_ListenAddress := "tcp://0.0.0.0:26657"; RPC_CORSAllowedOrigins := ["*"];
     cfg_rest := cfg_rest config |}.

Definition set_Moniker (moniker : string) (config : CometConfig) : CometConfig :=
  {| cfg_RootDir := cfg_RootDir config; cfg_Moniker := moniker;
     RPC_ListenAddress := RPC_ListenAddress config;
     RPC_CORSAllowedOrigins := RPC_CORSAllowedOrigins config; cfg_rest := cfg_rest config |}.

(** The mnemonic: empty, or read from the terminal with --recover. *)
Definition init_mnemonic (flags : FL) : M S string :=
  if (GetBool flags FlagRecover).1 then
    let! value := read_mnemonic in
    if IsMnemonicValid value then ret value else fail (Errorf "invalid mnemonic" [])
  else ret "".

Definition init_chain_id (flags : FL) : M S string :=
  let chainID := (GetString flags FlagChainID).1 in
  if is_empty chainID then
    let! r := rand_Str 6 in ret (sprintf "test-chain-%v" [r])
  else ret chainID.

Definition init_height (flags : FL) : Z :=
  let initHeight := (GetInt64 flags FlagInitHeight).1 in
  if initHeight <? 1 then 1 else initHeight.

(** The genesis the command starts from: the one of the file, when there is one. *)
Definition read_genesis (genFile : string) : M S AppGenesis :=
  let! st := gets (Stat genFile) in
  match st with
  | Stat_failed e => fail e
  | Stat_not_exist => ret empty_AppGenesis
  | Stat_ok => wrap_err "Failed to read genesis doc from file" (AppGenesisFromFile genFile)
  end.

(** The RunE of InitCmd; [config] is the server context's, [home] the client's. *)
Definition InitCmd_RunE (home : string) (config : CometConfig) (flags : FL) (moniker : string) :
    M S unit :=
  let config := open_rpc home config in
  let! chainID := init_chain_id flags in
  let! denom := lift (match GetString flags FlagDenom with (d, None) => Ok d | (_, Some e) => Err e end) in
  let! mnemonic := init_mnemonic flags in
  let initHeight := init_height flags in
  let! nodeID := InitializeNodeValidatorFilesFromMnemonic config mnemonic in
  let config := set_Moniker moniker config in
  let genFile := GenesisFile config in
  let overwrite := (GetBool flags FlagOverwrite).1 in
  let! exists_ := gets (FileExists genFile) in
  if negb overwrite && exists_ then
    fail (Errorf "genesis.json file already exists: %v" [genFile])
  else
    let! genState := lift (DefaultGenesisState denom) in
    let! appState := wrap_err "Failed to marshall default genesis state"
      (lift (MarshalIndent_state genState)) in
    let! g := read_genesis genFile in
    let g := {| ag_AppName := version_AppName; ag_AppVersion := version_Version;
                ag_ChainID := chainID; ag_AppState := appState; ag_InitialHeight := initHeight;
                ag_Consensus := Some []; ag_rest := ag_rest g |} in
    wrap_err "Failed to export genesis file" (ExportGenesisFile g genFile) ;;;
    WriteConfigFile (filepath_Join [cfg_RootDir config; "config"; "config.toml"]) config ;;;
    displayInfo (newPrintInfo (cfg_Moniker config) chainID nodeID "" appState).

(** What pflag documents of a flag that is not defined. *)
Class InitLibLaws : Prop :=
  GetInt64_undefined : ∀ flags name, Flag_defined flags name = false → (GetInt64 flags name).1 = 0.

Lemma init_height_spec flags :
  1 <= init_height flags ∧ (1 <= (GetInt64 flags FlagInitHeight).1 →
    init_height flags = (GetInt64 flags FlagInitHeight).1).
Proof. unfold init_height. destruct (Z.ltb_spec (GetInt64 flags FlagInitHeight).1 1); lia. Qed.

Lemma wrap_err_ok {A} msg (m : M S A) s a s1 : wrap_err msg m s = (Ok a, s1) → m s = (Ok a, s1).
Proof. unfold wrap_err. destruct (m s) as [[]]; congruence. Qed.

(** What a successful init did: the genesis file it wrote is that of a chain without
    validators, with the chain id asked for, an initial height of at least one and the
    default state of the application; it was not there before unless --overwrite was
    given; the configuration was written with the RPC port open to everyone; and with
    --recover the mnemonic that was typed was a valid one. *)
Definition init_done (home : string) (config : CometConfig) (flags : FL) (moniker : string)
    (s s1 : S) : Prop :=
  ∃ mnemonic g genState sx sy sz cfg,
    cfg = set_Moniker moniker (open_rpc home config) ∧
    ((GetBool flags FlagRecover).1 = true → IsMnemonicValid mnemonic = true) ∧
    ((GetBool flags FlagOverwrite).1 = true ∨ FileExists (GenesisFile cfg) sx = false) ∧
    ((GetString flags FlagChainID).1 ≠ "" → ag_ChainID g = (GetString flags FlagChainID).1) ∧
    ag_InitialHeight g = init_height flags ∧ ag_Consensus g = Some [] ∧
    DefaultGenesisState (GetString flags FlagDenom).1 = Ok genState ∧
    MarshalIndent_state genState = Ok (ag_AppState g) ∧
    (∃ nodeID sw, InitializeNodeValidatorFilesFromMnemonic (open_rpc home config) mnemonic sw = (Ok nodeID, sx)) ∧
    ExportGenesisFile g (GenesisFile cfg) sy = (Ok (), sz) ∧
    (∃ sw, WriteConfigFile (filepath_Join [home; "config"; "config.toml"]) cfg sz = (Ok (), sw)).

Lemma init_chain_id_inv flags s c s1 :
  init_chain_id flags s = (Ok c, s1) →
  (GetString flags FlagChainID).1 ≠ "" → c = (GetString flags FlagChainID).1.
Proof.
  unfold init_chain_id. destruct (is_empty _) eqn:He; intros H Hne.
  - by apply is_empty_true in He.
  - go_inv. done.
Qed.

Lemma init_mnemonic_inv flags s m s1 :
  init_mnemonic flags s = (Ok m, s1) → (GetBool flags FlagRecover).1 = true → IsMnemonicValid m = true.
Proof.
  unfold init_mnemonic. intros H Hr. rw Hr in H. go_inv.
  destruct (IsMnemonicValid _) eqn:Hv; go_inv. done.
Qed.

Lemma init_ok home config flags moniker s s1 :
  InitCmd_RunE home config flags moniker s = (Ok (), s1) → init_done home config flags moniker s s1.
Proof.
  unfold InitCmd_RunE. intros H.
  apply bind_ok_inv in H as (chainID & sa & Hc & H). apply bind_ok_inv in H as (denom & sb & Hd & H).
  apply bind_ok_inv in H as (mnemonic & sc & Hm & H). apply bind_ok_inv in H as (nodeID & sx & Hn & H).
  apply bind_ok_inv in H as (ex & sx1 & Hx & H). unfold gets in Hx. injection Hx as <- <-.
  destruct (negb _ && _) eqn:Hf; [discriminate H|].
  apply bind_ok_inv in H as (genState & ? & Hg & H). apply bind_ok_inv in H as (appState & ? & Hs & H).
  apply bind_ok_inv in H as (g0 & sy & Hr & H). apply bind_ok_inv in H as ([] & sz & He & H).
  apply bind_ok_inv in H as ([] & sw & Hw & H).
  apply wrap_err_ok in Hs, He. unfold lift in *. simplify_eq.
  assert (denom = (GetString flags FlagDenom).1) as ->.
  { by destruct (GetString flags FlagDenom) as [? []]; simplify_eq. }
  match type of He with ExportGenesisFile ?g _ _ = _ => exists mnemonic, g, genState end.
  match type of Hn with _ = (_, ?sx) => exists sx, sy, sz end.
  eexists. split; [done|]. split; [by eapply init_mnemonic_inv|].
  split_and!; try done; [|by eapply init_chain_id_inv|by eexists _, _|by eexists].
  destruct (GetBool flags FlagOverwrite).1; [by left|by right].
Qed.

(** The init command. When it succeeds it did what [init_done] says; without --overwrite,
    a genesis file that is there once the node's keys are is left as it is; and since the
    command defines no flag for the initial height, that height is always one. *)
Theorem InitCmd_spec `{!InitLibLaws} home config flags moniker s :
  (∀ s1, InitCmd_RunE home config flags moniker s = (Ok (), s1) →
     init_done home config flags moniker s s1) ∧
  (∀ chainID sa denom mnemonic sb nodeID sx,
     init_chain_id flags s = (Ok chainID, sa) → GetString flags FlagDenom = (denom, None) →
     init_mnemonic flags sa = (Ok mnemonic, sb) →
     InitializeNodeValidatorFilesFromMnemonic (open_rpc home config) mnemonic sb = (Ok nodeID, sx) →
     (GetBool flags FlagOverwrite).1 = false →
     FileExists (GenesisFile (set_Moniker moniker (open_rpc home config))) sx = true →
     ∃ e, InitCmd_RunE home config flags moniker s = (Err e, sx)) ∧
  (Flag_defined flags FlagInitHeight = bool_decide (FlagInitHeight ∈ init_flags) → init_height flags = 1).
Proof.
  split; [|split].
  - intros s1. apply init_ok.
  - intros chainID sa denom mnemonic sb nodeID sx Hc Hd Hm Hn Ho Hx. unfold InitCmd_RunE.
    rw (bind_ok _ _ _ _ _ Hc) Hd. unfold bind at 1, lift.
    rw (bind_ok _ _ _ _ _ Hm) (bind_ok _ _ _ _ _ Hn). unfold bind at 1, gets. rw Ho Hx. by eexists.
  - intros Hf. unfold init_height. by rw GetInt64_undefined.
Qed.

End init.

(** * The launch step for NFT transfer *)

(** The default steps of a launch, in order. *)
Definition DefaultLaunchStepFactories : list string :=
  ["steps.InitializeConfig"; "steps.InitializeRPCHelpers"; "steps.InitializeGenesis";
   "steps.InitializeKeyring"; "steps.RunApp"; "StoreAndInstantiateNFTContracts";
   "steps.EstablishIBCChannelsWithNFTTransfer"; "steps.InitializeOpBridge"; "steps.SetBridgeInfo";
   "steps.GetL1Height"; "steps.GetL2Height"; "steps.StopApp"].

Section launch.
(** The state of the chain being launched. *)
Context {S : Type}.

(** The two wasmd messages the step sends; it never sets an instantiate permission. *)
Inductive launch_msg :=
| LaunchStoreCode (Sender : string) (WASMByteCode : bytes) (InstantiatePermission : option string)
| LaunchInstantiate (Sender Admin : string) (CodeID : Z) (Label : string) (Msg : bytes) (Funds : coins).

(** The system key of the validator, from the launch configuration. *)
Record SystemKey := { L2Address : string; Mnemonic : string }.

(** The embedded files, the broadcast of one message with its answer's hash, and wasmd's
    address of the contract with a code id and an instance id. *)
Class LaunchLib := {
  contrib_ReadFile : string → res bytes;
  BroadcastTxAndWait : string → string → Z → coins → launch_msg → M S string;
  BuildContractAddressClassic : Z → Z → string
}.

Context {LL : LaunchLib}.

(** The port on which the channel for NFTs is opened, its counterparty and its version. *)
Definition nft_channel : string * string * string :=
  ("wasm." +:+ BuildContractAddressClassic 2 1, "nft-transfer", "ics721-1").

(** The JSON text of the instantiate message, which names the first code. *)
Definition ics721_msg : bytes :=
  "{" +:+ String "034" "cw721_base_code_id" +:+ String "034" ":1}".

Definition launch_msgs (v : SystemKey) (cw721 ics721 : bytes) : list launch_msg :=
  [LaunchStoreCode (L2Address v) cw721 None;
   LaunchStoreCode (L2Address v) ics721 None;
   LaunchInstantiate (L2Address v) (L2Address v) 2 "ics721" ics721_msg []].

Definition StoreAndInstantiateNFTContracts (v : SystemKey) : M S unit :=
  let! cw721 := wrap_err "failed to read cw721_metadata_onchain.wasm"
    (lift (contrib_ReadFile "wasm/cw721_metadata_onchain.wasm")) in
  let! ics721 := wrap_err "failed to read ics721_base.wasm"
    (lift (contrib_ReadFile "wasm/ics721_base.wasm")) in
  for_each (launch_msgs v cw721 ics721) (λ msg,
    wrap_err "failed to store and instantiate nft contracts"
      (BroadcastTxAndWait (L2Address v) (Mnemonic v) 10000000 [] msg) ;;;
    ret ()).

(** What wasmd documents of its state: codes and instances are numbered in the order they
    are made, and a contract's classic address is made of the two numbers. *)
Class WasmChain := {
  codes : S → gmap Z bytes;
  contracts : S → gmap string (Z * string * bytes);
  next_code : S → Z;
  next_instance : S → Z
}.

Class WasmChainLaws {WC : WasmChain} : Prop := {
  store_code : ∀ a mn gas fee sender code perm s h s1,
    BroadcastTxAndWait a mn gas fee (LaunchStoreCode sender code perm) s = (Ok h, s1) →
    codes s1 = <[next_code s := code]> (codes s) ∧ next_code s1 = next_code s + 1 ∧
    contracts s1 = contracts s ∧ next_instance s1 = next_instance s;
  instantiate : ∀ a mn gas fee sender admin id label msg funds s h s1,
    BroadcastTxAndWait a mn gas fee (LaunchInstantiate sender admin id label msg funds) s = (Ok h, s1) →
    is_Some (codes s !! id) ∧ codes s1 = codes s ∧
    contracts s1 = <[BuildContractAddressClassic id (next_instance s) := (id, admin, msg)]> (contracts s)
}.

(** On a new chain the step leaves the contract of the NFT channel's port: the instance
    with the address (2, 1) runs the ics721 code, its message names code 1, which is the
    cw721 code, and the validator is its admin; the step runs after the application is
    started and before the channel is opened. When the first message fails, no other is
    sent and the error is reported. *)
Theorem launch_contracts_spec `{!WasmChain, !WasmChainLaws} v cw721 ics721 s :
  contrib_ReadFile "wasm/cw721_metadata_onchain.wasm" = Ok cw721 →
  contrib_ReadFile "wasm/ics721_base.wasm" = Ok ics721 →
  (∀ s1, next_code s = 1 → next_instance s = 1 →
     StoreAndInstantiateNFTContracts v s = (Ok (), s1) →
     codes s1 !! 1 = Some cw721 ∧ codes s1 !! 2 = Some ics721 ∧
     ∃ addr, nft_channel.1.1 = "wasm." +:+ addr ∧
       contracts s1 !! addr = Some (2, L2Address v, ics721_msg)) ∧
  (∀ e s1, BroadcastTxAndWait (L2Address v) (Mnemonic v) 10000000 []
             (LaunchStoreCode (L2Address v) cw721 None) s = (Err e, s1) →
     StoreAndInstantiateNFTContracts v s =
       (Err (Wrapf e "failed to store and instantiate nft contracts" []), s1)) ∧
  comes_before "steps.RunApp" "StoreAndInstantiateNFTContracts" DefaultLaunchStepFactories ∧
  comes_before "StoreAndInstantiateNFTContracts" "steps.EstablishIBCChannelsWithNFTTransfer"
    DefaultLaunchStepFactories.
Proof.
  intros H1 H2. unfold StoreAndInstantiateNFTContracts. split; [|split; [|split]].
  - intros s1 Hc Hi. unfold bind at 1, wrap_err at 1, lift. rw H1. unfold bind at 1, wrap_err at 1. rw H2.
    cbn [launch_msgs for_each]. intros Hrun. go_inv.
    repeat match goal with Hw : wrap_err _ _ _ = (Ok _, _) |- _ => apply wrap_err_ok in Hw end.
    repeat match goal with
    | Hb : BroadcastTxAndWait _ _ _ _ (LaunchStoreCode _ _ _) _ = (Ok _, _) |- _ =>
        apply store_code in Hb as (? & ? & ? & ?)
    | Hb : BroadcastTxAndWait _ _ _ _ (LaunchInstantiate _ _ _ _ _ _) _ = (Ok _, _) |- _ =>
        apply instantiate in Hb as (? & ? & ?) end.
    match goal with Hm : contracts s1 = <[BuildContractAddressClassic 2 (next_instance ?x) := _]> _ |- _ =>
      assert (next_instance x = 1) as Hx2 by congruence end.
    match goal with Hm : codes ?x = <[next_code s := _]> _ |- _ => assert (next_code x = 2) as Hx0 by lia end.
    repeat match goal with Hm : codes _ = _ |- _ => rw Hm; clear Hm end. rw Hx0 Hc.
    split_and!; [by simplify_map_eq|by simplify_map_eq|]. eexists. split; [done|].
    match goal with Hm : contracts s1 = _ |- _ => rw Hm Hx2 end. by simplify_map_eq.
  - intros e s1 He. unfold bind at 1, wrap_err at 1, lift. rw H1. unfold bind at 1, wrap_err at 1. rw H2.
    cbn [launch_msgs for_each]. unfold bind, wrap_err. by rw He.
  - eexists _, _. split_and!; [by vm_compute|by vm_compute|lia].
  - eexists _, _. split_and!; [by vm_compute|by vm_compute|lia].
Qed.

End launch.

(** * Export *)

Section export.
(** The databases of the node, an application over them, validators and consensus
    parameters. *)
Context {S APP V CPS : Type}.

Record ExportedApp := {
  ea_AppState : string;
  ea_Validators : list V;
  ea_Height : Z;
  ea_ConsensusParams : CPS
}.

(** The construction of the application (loading the latest version or not), and what the
    export asks of it. The home path is [None] when the option is not a string. *)
Class ExportLib := {
  opt_home : option string;
  NewMinitiaApp : bool → M S APP;
  LoadHeight : Z → APP → M S APP;
  LastBlockHeight : APP → Z;
  ExportGenesisForModules : APP → list string → res (gmap string string);
  MarshalIndent_genesis : gmap string string → res string;
  WriteValidators : APP → res (list V);
  GetConsensusParams : APP → CPS
}.

Context {EL : ExportLib}.

Definition ExportAppStateAndValidators (app : APP) (forZeroHeight : bool) (modulesToExport : list string) :
    res ExportedApp :=
  let height := if forZeroHeight then 0 else LastBlockHeight app + 1 in
  let? genState := ExportGenesisForModules app modulesToExport in
  let? appState := MarshalIndent_genesis genState in
  let? validators := WriteValidators app in
  Ok {| ea_AppState := appState; ea_Validators := validators; ea_Height := height;
        ea_ConsensusParams := GetConsensusParams app |}.

Definition appExport (height : Z) (forZeroHeight : bool) (modulesToExport : list string) : M S ExportedApp :=
  if is_empty (default "" opt_home) then fail (Errorf "application home not set" [])
  else
    let! app :=
      (if negb (height =? -1) then let! app := NewMinitiaApp false in LoadHeight height app
       else NewMinitiaApp true) in
    lift (ExportAppStateAndValidators app forZeroHeight modulesToExport).

(** Loading a height gives an application at that height, as BaseApp documents. *)
Class ExportLibLaws : Prop :=
  LoadHeight_last : ∀ h app s app1 s1, LoadHeight h app s = (Ok app1, s1) → LastBlockHeight app1 = h.

(** An export without a home directory is refused before the application is opened. One
    that succeeds restarts at height 0 when asked to, else at the height after the one
    that was loaded: the height asked for, or the last one for -1. *)
Theorem appExport_spec `{!ExportLibLaws} height forZeroHeight modules s :
  (default "" opt_home = "" →
     appExport height forZeroHeight modules s = (Err (Errorf "application home not set" []), s)) ∧
  (∀ out s1, appExport height forZeroHeight modules s = (Ok out, s1) →
     default "" opt_home ≠ "" ∧
     (forZeroHeight = true → ea_Height out = 0) ∧
     (forZeroHeight = false → height ≠ -1 → ea_Height out = height + 1) ∧
     (forZeroHeight = false → height = -1 →
        ∃ app, NewMinitiaApp true s = (Ok app, s1) ∧ ea_Height out = LastBlockHeight app + 1)).
Proof.
  unfold appExport. split; [by intros ->|]. intros out s1.
  destruct (is_empty _) eqn:He; [done|]. apply is_empty_false in He. intros Hrun. split; [done|].
  apply bind_ok_inv in Hrun as (app & s2 & Happ & Hrun). unfold lift in Hrun. injection Hrun as Hrun <-.
  unfold ExportAppStateAndValidators in Hrun. go_inv. cbn.
  destruct (Z.eqb_spec height (-1)) as [->|Hne]; cbn in Happ.
  - split_and!; [by intros ->|done|]. intros -> _. by exists app.
  - apply bind_ok_inv in Happ as (app0 & s3 & _ & Hl%LoadHeight_last).
    split_and!; [by intros ->|by intros -> _; rw Hl|done].
Qed.

End export.
