(* ===== verification/Root.v ===== *)
(** cmd/minitiad: root.go and config.go. What runs before every command of the node: the
    environment, the home directory, the client configuration and the flags are read into a
    client context, the keyring is replaced, and the context is given to the command; how
    the application is created; the tree of commands; and the default configuration. The
    SDK's client, keyring and server packages are parameters. *)
From S2P Require Import Prelude.

(** * The client context *)

Section client.
(** Keyrings, RPC clients, transaction configurations, and what else a context holds. *)
Context {KR CL TX R : Type}.

(** client.Context, as far as the code sets it. *)
Record Context := {
  OutputFormat : string;
  HomeDir : string;
  Simulation : bool;
  KeyringDir : string;
  ChainID : string;
  Keyring : option KR;
  NodeURI : string;
  Client : option CL;
  TxConfig : TX;
  ctx_rest : R
}.

Definition WithOutputFormat (v : string) (c : Context) : Context :=
  {| OutputFormat := v; HomeDir := HomeDir c; Simulation := Simulation c; KeyringDir := KeyringDir c;
     ChainID := ChainID c; Keyring := Keyring c; NodeURI := NodeURI c; Client := Client c;
     TxConfig := TxConfig c; ctx_rest := ctx_rest c |}.
Definition WithHomeDir (v : string) (c : Context) : Context :=
  {| OutputFormat := OutputFormat c; HomeDir := v; Simulation := Simulation c; KeyringDir := KeyringDir c;
     ChainID := ChainID c; Keyring := Keyring c; NodeURI := NodeURI c; Client := Client c;
     TxConfig := TxConfig c; ctx_rest := ctx_rest c |}.
Definition WithSimulation (v : bool) (c : Context) : Context :=
  {| OutputFormat := OutputFormat c; HomeDir := HomeDir c; Simulation := v; KeyringDir := KeyringDir c;
     ChainID := ChainID c; Keyring := Keyring c; NodeURI := NodeURI c; Client := Client c;
     TxConfig := TxConfig c; ctx_rest := ctx_rest c |}.
Definition WithKeyringDir (v : string) (c : Context) : Context :=
  {| OutputFormat := OutputFormat c; HomeDir := HomeDir c; Simulation := Simulation c; KeyringDir := v;
     ChainID := ChainID c; Keyring := Keyring c; NodeURI := NodeURI c; Client := Client c;
     TxConfig := TxConfig c; ctx_rest := ctx_rest c |}.
Definition WithChainID (v : string) (c : Context) : Context :=
  {| OutputFormat := OutputFormat c; HomeDir := HomeDir c; Simulation := Simulation c; KeyringDir := KeyringDir c;
     ChainID := v; Keyring := Keyring c; NodeURI := NodeURI c; Client := Client c;
     TxConfig := TxConfig c; ctx_rest := ctx_rest c |}.
Definition WithKeyring (v : KR) (c : Context) : Context :=
  {| OutputFormat := OutputFormat c; HomeDir := HomeDir c; Simulation := Simulation c; KeyringDir := KeyringDir c;
     ChainID := ChainID c; Keyring := Some v; NodeURI := NodeURI c; Client := Client c;
     TxConfig := TxConfig c; ctx_rest := ctx_rest c |}.
Definition WithNodeURI (v : string) (c : Context) : Context :=
  {| OutputFormat := OutputFormat c; HomeDir := HomeDir c; Simulation := Simulation c; KeyringDir := KeyringDir c;
     ChainID := ChainID c; Keyring := Keyring c; NodeURI := v; Client := Client c;
     TxConfig := TxConfig c; ctx_rest := ctx_rest c |}.
Definition WithClient (v : CL) (c : Context) : Context :=
  {| OutputFormat := OutputFormat c; HomeDir := HomeDir c; Simulation := Simulation c; KeyringDir := KeyringDir c;
     ChainID := ChainID c; Keyring := Keyring c; NodeURI := NodeURI c; Client := Some v;
     TxConfig := TxConfig c; ctx_rest := ctx_rest c |}.
Definition WithTxConfig (v : TX) (c : Context) : Context :=
  {| OutputFormat := OutputFormat c; HomeDir := HomeDir c; Simulation := Simulation c; KeyringDir := KeyringDir c;
     ChainID := ChainID c; Keyring := Keyring c; NodeURI := NodeURI c; Client := Client c;
     TxConfig := v; ctx_rest := ctx_rest c |}.

(** The environment as viper shows it, by flag name: empty where nothing is set. *)
Record Viper := { GetString : string → string; GetBool : string → bool }.

(** The flags of the command: the home flag with whether it was given, the flag
    allow-queued where the command has it, and the keyring flag's Changed where it exists. *)
Record Flags := {
  home_flag : string;
  home_Changed : bool;
  allow_queued : option (res bool);
  keyring_Changed : option bool
}.

(** What the libraries do. ReadFromClientConfig reads the files under the home directory. *)
Class ClientLib := {
  NewKeyringFromBackend : Context → string → res KR;
  NewClientFromNode : string → res CL;
  ReadFromClientConfig : Context → res Context;
  ReadPersistentCommandFlags : Context → Flags → res Context;
  WithAllowQueuedTxConfig : TX → bool → TX;
  NewKeyring : Context → string → res KR;
  Backend : KR → string;
  SetCmdClientContext_err : option goerror;
  InterceptConfigs_err : option goerror;
  server_db_dir : option string
}.
Context {CLI : ClientLib}.

(** * readEnv *)

(** [if v := clientCtx.Viper.GetString(flag); v != "" { ... }] *)
Definition when_set (v : Viper) (flag : string) (f : string → Context → res Context)
    (c : Context) : res Context :=
  let s := GetString v flag in if is_empty s then Ok c else f s c.

Definition readEnv (v : Viper) (c : Context) : res Context :=
  let? c := when_set v "tmcli.OutputFlag" (λ s c, Ok (WithOutputFormat s c)) c in
  let? c := when_set v "flags.FlagHome" (λ s c, Ok (WithHomeDir s c)) c in
  let c := if GetBool v "flags.FlagDryRun" then WithSimulation true c else c in
  let? c := when_set v "flags.FlagKeyringDir"
    (λ _ c, Ok (WithKeyringDir (GetString v "flags.FlagKeyringDir") c)) c in
  let? c := when_set v "flags.FlagChainID" (λ s c, Ok (WithChainID s c)) c in
  let? c := when_set v "flags.FlagKeyringBackend"
    (λ s c, let? kr := NewKeyringFromBackend c s in Ok (WithKeyring kr c)) c in
  when_set v "flags.FlagNode"
    (λ s c, let? cl := NewClientFromNode s in Ok (WithClient cl (WithNodeURI s c))) c.

(** * PersistentPreRunE *)

(** What the function changes outside of the context. *)
Record process := {
  sealed : bool;
  viper_home : option string;
  cmd_context : option Context;
  flags : Flags;
  DBDir : string
}.

Definition seal (p : process) : process :=
  {| sealed := true; viper_home := viper_home p; cmd_context := cmd_context p; flags := flags p;
     DBDir := DBDir p |}.
Definition set_viper_home (h : string) (p : process) : process :=
  {| sealed := sealed p; viper_home := Some h; cmd_context := cmd_context p; flags := flags p;
     DBDir := DBDir p |}.
Definition set_cmd_context (c : Context) (p : process) : process :=
  {| sealed := sealed p; viper_home := viper_home p; cmd_context := Some c; flags := flags p;
     DBDir := DBDir p |}.
Definition set_DBDir (d : string) (p : process) : process :=
  {| sealed := sealed p; viper_home := viper_home p; cmd_context := cmd_context p; flags := flags p;
     DBDir := d |}.

(** [if keyringFlag := ...; keyringFlag != nil { keyringFlag.Changed = false }] *)
Definition reset_keyring_flag (p : process) : process :=
  {| sealed := sealed p; viper_home := viper_home p; cmd_context := cmd_context p;
     flags := {| home_flag := home_flag (flags p); home_Changed := home_Changed (flags p);
                 allow_queued := allow_queued (flags p);
                 keyring_Changed := (λ _, false) <$> keyring_Changed (flags p) |};
     DBDir := DBDir p |}.

(** The home directory before the client configuration is read. *)
Definition with_home_flag (fs : Flags) (c : Context) : Context :=
  if is_empty (HomeDir c) || home_Changed fs then WithHomeDir (home_flag fs) c else c.

Definition with_allow_queued (fs : Flags) (c : Context) : res Context :=
  match allow_queued fs with
  | None => Ok c
  | Some r => let? b := r in Ok (WithTxConfig (WithAllowQueuedTxConfig (TxConfig c) b) c)
  end.

(** The keyring is made anew, with the context as it now is. *)
Definition override_keyring (c : Context) : M process Context :=
  match Keyring c with
  | None => ret c
  | Some old =>
      let! kr := lift (NewKeyring c (Backend old)) in
      modify reset_keyring_flag ;;;
      ret (WithKeyring kr c)
  end.

Definition PersistentPreRunE (v : Viper) (initClientCtx : Context) (cmd_Name : string)
    : M process unit :=
  (if decide (cmd_Name = "launch") then ret () else modify seal) ;;;
  let! fs := gets flags in
  let! c := lift (readEnv v initClientCtx) in
  let c := with_home_flag fs c in
  let! c := lift (ReadFromClientConfig c) in
  let! c := lift (ReadPersistentCommandFlags c fs) in
  let! c := lift (with_allow_queued fs c) in
  modify (set_viper_home (HomeDir c)) ;;;
  let! c := override_keyring c in
  let! _ := lift (check SetCmdClientContext_err) in
  modify (set_cmd_context c) ;;;
  let! _ := lift (check InterceptConfigs_err) in
  match server_db_dir with Some d => modify (set_DBDir d) | None => ret () end.

(** ** Theorems *)

(** An environment variable sets the part of the context it is named for and nothing else:
    the home directory, the chain and the output format are those of the environment where it
    has them and those of the context otherwise. *)
Theorem readEnv_spec v c c1 :
  readEnv v c = Ok c1 →
  let env flag old := if is_empty (GetString v flag) then old else GetString v flag in
  OutputFormat c1 = env "tmcli.OutputFlag" (OutputFormat c) ∧
  HomeDir c1 = env "flags.FlagHome" (HomeDir c) ∧
  KeyringDir c1 = env "flags.FlagKeyringDir" (KeyringDir c) ∧
  ChainID c1 = env "flags.FlagChainID" (ChainID c) ∧
  NodeURI c1 = env "flags.FlagNode" (NodeURI c) ∧
  Simulation c1 = GetBool v "flags.FlagDryRun" || Simulation c ∧
  TxConfig c1 = TxConfig c ∧
  (GetString v "flags.FlagKeyringBackend" = "" → Keyring c1 = Keyring c) ∧
  (GetString v "flags.FlagNode" = "" → Client c1 = Client c).
Proof.
  unfold readEnv, when_set. intros H.
  repeat match type of H with context [is_empty ?x] => destruct (is_empty x) eqn:? end;
    destruct (GetBool v _); cbn in H; go_inv; cbn; split_and!; try done;
    intros He; repeat match goal with E : is_empty _ = false |- _ => rw He in E; discriminate E end.
Qed.

Lemma with_home_flag_eq fs (c : Context) :
  with_home_flag fs c =
  WithHomeDir (if home_Changed fs then home_flag fs
               else if is_empty (HomeDir c) then home_flag fs else HomeDir c) c.
Proof. unfold with_home_flag. destruct (is_empty (HomeDir c)), (home_Changed fs); done || by destruct c. Qed.

Lemma seal_step name (p : process) :
  (if decide (name = "launch") then ret () else modify seal) p =
  (Ok (), if decide (name = "launch") then p else seal p).
Proof. by case_decide. Qed.

Lemma sealed_process name (p : process) :
  let p0 := if decide (name = "launch") then p else seal p in
  flags p0 = flags p ∧ sealed p0 = negb (bool_decide (name = "launch")) || sealed p ∧
  cmd_context p0 = cmd_context p ∧ DBDir p0 = DBDir p.
Proof. case_decide as Hn; [rw bool_decide_true //|rw bool_decide_false //]. Qed.

Lemma override_keyring_keeps c p r p1 :
  override_keyring c p = (r, p1) →
  cmd_context p1 = cmd_context p ∧ DBDir p1 = DBDir p ∧ sealed p1 = sealed p.
Proof.
  unfold override_keyring. destruct (Keyring c); [|by intros [= _ <-]].
  unfold bind, lift. destruct (NewKeyring _ _); by intros [= _ <-].
Qed.

(** What a command starts with, when the libraries succeed. The configuration of the SDK
    is sealed, except for launch. The home directory is the flag if it was given, then that of
    the environment, then the default, and the client configuration is read from there; flags
    are read after it, so they win. The command gets a keyring made anew from the final
    context, and inner commands see the keyring flag as not given. *)
Theorem PreRun_ok v c0 name p c1 c3 c4 c5 kr :
  readEnv v c0 = Ok c1 →
  ReadFromClientConfig
    (WithHomeDir (if home_Changed (flags p) then home_flag (flags p)
                  else if is_empty (HomeDir c1) then home_flag (flags p) else HomeDir c1) c1) = Ok c3 →
  ReadPersistentCommandFlags c3 (flags p) = Ok c4 →
  with_allow_queued (flags p) c4 = Ok c5 →
  (∀ old, Keyring c5 = Some old → NewKeyring c5 (Backend old) = Ok kr) →
  SetCmdClientContext_err = None → InterceptConfigs_err = None →
  ∃ p1, PersistentPreRunE v c0 name p = (Ok (), p1) ∧
    sealed p1 = negb (bool_decide (name = "launch")) || sealed p ∧
    viper_home p1 = Some (HomeDir c5) ∧
    DBDir p1 = default (DBDir p) server_db_dir ∧
    match Keyring c5 with
    | None => cmd_context p1 = Some c5 ∧ flags p1 = flags p
    | Some _ => cmd_context p1 = Some (WithKeyring kr c5) ∧ keyring_Changed (flags p1) ≠ Some true
    end.
Proof.
  intros H1 H2 H3 H4 H5 H6 H7. unfold PersistentPreRunE. rw (bind_ok _ _ _ _ _ (seal_step name p)).
  destruct (sealed_process name p) as (Hf & <- & _ & <-).
  generalize dependent (if decide (name = "launch") then p else seal p). intros p0 Hf.
  rw -Hf in H2 H3 H4. rw -Hf -with_home_flag_eq in H2 |- *.
  unfold bind, lift, gets, modify, ret, check, override_keyring. rw H1 H2 H3 H4 H6 H7.
  destruct (Keyring c5) as [old|] eqn:Hk; [rw (H5 _ eq_refl)|];
    destruct server_db_dir; eexists; (split; [done|]); cbn; split_and!; try done;
    by destruct (keyring_Changed _).
Qed.

(** A command whose preparation fails has no context. *)
Theorem PreRun_error v c0 name p e p1 :
  PersistentPreRunE v c0 name p = (Err e, p1) → InterceptConfigs_err = None →
  cmd_context p1 = cmd_context p ∧ DBDir p1 = DBDir p ∧
  sealed p1 = negb (bool_decide (name = "launch")) || sealed p.
Proof.
  unfold PersistentPreRunE. rw (bind_ok _ _ _ _ _ (seal_step name p)).
  destruct (sealed_process name p) as (_ & <- & <- & <-).
  generalize (if decide (name = "launch") then p else seal p). intros p0 H Hi. revert H.
  unfold bind, lift, gets, modify, ret, check. rw Hi.
  repeat (match goal with |- context [match ?x with _ => _ end] => destruct x eqn:? end; try done).
  all: intros [= <- <-]; try done.
  all: match goal with H : override_keyring _ _ = _ |- _ => by apply override_keyring_keeps in H end.
Qed.
End client.

(** * The application and its prefixes *)

Section creator.
Context {App Opt : Type}.

(** appCreator; the application is nil until one is created. *)
Record appCreator := { created : option App }.

(** AppCreator: [telemetry] is the option telemetry.enabled, [metrics] the option that
    registers the cache metrics of the virtual machine, [new] NewMinitiaApp, which is told to
    load the latest state. *)
Definition AppCreator (telemetry : bool) (metrics : Opt) (new : bool → list Opt → res App)
    : M appCreator App :=
  let wasmOpts := if telemetry then [metrics] else [] in
  let! app := lift (new true wasmOpts) in
  modify (λ _, {| created := Some app |}) ;;;
  ret app.

(** PostSetup: the events of CometBFT's mempool are connected when the client is local, its
    mempool provides them, and the application is a MinitiaApp. *)
Definition PostSetup {Ch} (local_events : option (option Ch)) (app : option App)
    (connect : App → Ch → App) : option App :=
  match local_events, app with
  | Some (Some ch), Some a => Some (connect a ch)
  | _, app => app
  end.
End creator.

Definition AccountAddressPrefix : string := "init".

(** The bech32 prefixes NewRootCmd sets: addresses and public keys of accounts, validators
    and consensus nodes. *)
Definition bech32_prefixes : list (string * string) :=
  [(AccountAddressPrefix, AccountAddressPrefix +:+ "pub");
   (AccountAddressPrefix +:+ "valoper", AccountAddressPrefix +:+ "valoperpub");
   (AccountAddressPrefix +:+ "valcons", AccountAddressPrefix +:+ "valconspub")].

(** * Commands *)

#[local] Set Warnings "-register-all".

(** A command: one of a library, known by the Go function that makes it, or one with its own
    name, aliases, persistent flags and subcommands. *)
Inductive command :=
| LibCmd (maker : string)
| OwnCmd (use : string) (aliases : list string) (DisableFlagParsing : bool)
    (persistent : list string) (sub : list command).

Definition genesisCommand : command :=
  OwnCmd "genesis" [] false []
    [LibCmd "genutilcli.AddGenesisAccountCmd"; LibCmd "opchildcli.AddGenesisValidatorCmd";
     LibCmd "opchildcli.AddFeeWhitelistCmd"; LibCmd "genutilcli.ValidateGenesisCmd";
     LibCmd "genutilcli.GenTxCmd"].

Definition queryCommand : command :=
  OwnCmd "query" ["q"] true []
    [LibCmd "rpc.QueryEventForTxCmd"; LibCmd "server.QueryBlockCmd";
     LibCmd "authcmd.QueryTxsByEventsCmd"; LibCmd "server.QueryBlocksCmd";
     LibCmd "authcmd.QueryTxCmd"; LibCmd "server.QueryBlockResultsCmd"].

Definition txCommand : command :=
  OwnCmd "tx" [] true ["initiatx.FlagAllowQueued"]
    [LibCmd "authcmd.GetSignCommand"; LibCmd "authcmd.GetSignBatchCommand";
     LibCmd "authcmd.GetMultiSignCommand"; LibCmd "authcmd.GetMultiSignBatchCmd";
     LibCmd "authcmd.GetValidateSignaturesCommand"; LibCmd "authcmd.GetBroadcastCommand";
     LibCmd "authcmd.GetEncodeCommand"; LibCmd "authcmd.GetDecodeCommand";
     LibCmd "authcmd.GetSimulateCmd"].

(** initRootCmd: the commands of the root, in order. [server] are those that
    server.AddCommandsWithStartCmdOptions adds, [store_cmd] says whether the store package has
    a command. *)
Definition initRootCmd (server : list command) (store_cmd : bool) : list command :=
  [LibCmd "InitCmd"; LibCmd "debug.Cmd"; LibCmd "confixcmd.ConfigCommand"; LibCmd "pruning.Cmd";
   LibCmd "snapshot.Cmd"] ++
  server ++
  [LibCmd "server.StatusCommand"; genesisCommand; queryCommand; txCommand;
   LibCmd "cryptokeyring.OverrideDefaultKeyType(keys.Commands)"; LibCmd "LaunchCommand";
   LibCmd "NewMultipleRollbackCmd"; LibCmd "cmtcmd.FetchGenesisCmd"] ++
  (if store_cmd then [LibCmd "initiastoreclient.ChangeSetGroupCmd"] else []).

(** addModuleInitFlags: the flags added to the start command. *)
Definition addModuleInitFlags : list string :=
  ["crisis.AddModuleInitFlags"; "initiastoreconfig.AddMemIAVLConfigFlags";
   "initiastoreconfig.AddVersionDBConfigFlags"].

(** * Configuration *)

(** A setting. Durations are in nanoseconds. *)
Inductive setting := SBool (b : bool) | SInt (z : Z) | SStr (s : string) | SStrs (l : list string).

(** types.BaseDenom *)
Definition BaseDenom : string := "umin".

(** The settings config.go gives a value; every other one is the library's. *)
Definition server_settings : list (string * setting) :=
  [("MinGasPrices", SStr (sprintf "0%s" [BaseDenom]));
   ("Mempool.MaxTxs", SInt 2000);
   ("QueryGasLimit", SInt 10000000);
   ("InterBlockCache", SBool false);
   ("API.Enable", SBool true);
   ("API.Swagger", SBool true);
   ("API.EnableUnsafeCORS", SBool true);
   ("API.Address", SStr "tcp://0.0.0.0:1317");
   ("GRPC.Enable", SBool true);
   ("GRPC.Address", SStr "0.0.0.0:9090")].

Definition wasm_settings : list (string * setting) :=
  [("SmartQueryGasLimit", SInt 10000000); ("SimulationGasLimit", SInt 10000000)].

Definition second : Z := 10 ^ 9.
Definition millisecond : Z := 10 ^ 6.

Definition tendermint_settings : list (string * setting) :=
  [("RPC.ListenAddress", SStr "tcp://0.0.0.0:26657");
   ("RPC.CORSAllowedOrigins", SStrs ["*"]);
   ("P2P.SendRate", SInt 20480000);
   ("P2P.RecvRate", SInt 20480000);
   ("P2P.MaxPacketMsgPayloadSize", SInt 1000000);
   ("P2P.FlushThrottleTimeout", SInt (10 * millisecond));
   ("Consensus.PeerGossipSleepDuration", SInt (30 * millisecond));
   ("Mempool.Size", SInt 1000);
   ("Mempool.MaxTxsBytes", SInt 10737418240);
   ("Mempool.MaxTxBytes", SInt 2048576);
   ("Sequencing.BlockInterval", SInt (100 * millisecond));
   ("Sequencing.CreateEmptyBlocks", SBool false);
   ("Sequencing.CreateEmptyBlocksInterval", SInt (60 * second))].

(** [cfg.a = v] for each of the settings, in order. *)
Definition apply_settings (l : list (string * setting)) (cfg : gmap string setting)
    : gmap string setting :=
  foldl (λ m '(k, v), <[k := v]> m) cfg l.

(** minitiaAppConfig, with the parts that are the libraries' defaults. *)
Record minitiaAppConfig := {
  Config : gmap string setting;
  ABCIPP : gmap string setting;
  MemIAVL : gmap string setting;
  VersionDB : gmap string setting;
  WasmConfig : gmap string setting
}.

(** The defaults and the templates of the libraries. *)
Class ConfigLib := {
  DefaultConfig : gmap string setting;
  DefaultAppConfig : gmap string setting;
  DefaultMemIAVLConfig : gmap string setting;
  DefaultVersionDBConfig : gmap string setting;
  DefaultNodeConfig : gmap string setting;
  tmcfg_DefaultConfig : gmap string setting;
  server_template : string;
  abcipp_template : string;
  wasm_template : string;
  memiavl_template : string;
  versiondb_template : string
}.

Section config.
Context {CFG : ConfigLib}.

Definition initAppConfig : string * minitiaAppConfig :=
  (server_template +:+ abcipp_template +:+ wasm_template +:+ memiavl_template +:+ versiondb_template,
   {| Config := apply_settings server_settings DefaultConfig;
      ABCIPP := DefaultAppConfig;
      MemIAVL := DefaultMemIAVLConfig;
      VersionDB := DefaultVersionDBConfig;
      WasmConfig := apply_settings wasm_settings DefaultNodeConfig |}).

Definition initTendermintConfig : gmap string setting :=
  apply_settings tendermint_settings tmcfg_DefaultConfig.

(** ** Theorems *)

(** [cfg] is [cfg0] with the settings of [l], each of them given once. *)
Definition overrides (l : list (string * setting)) (cfg cfg0 : gmap string setting) : Prop :=
  NoDup l.*1 ∧ (∀ k v, (k, v) ∈ l → cfg !! k = Some v) ∧ (∀ k, k ∉ l.*1 → cfg !! k = cfg0 !! k).

Lemma apply_settings_overrides l cfg0 :
  NoDup l.*1 → overrides l (apply_settings l cfg0) cfg0.
Proof.
  unfold apply_settings. induction l as [|[k1 v1] l IH] using rev_ind; intros Hd.
  { by split_and!; [|intros ? ? ?%not_elem_of_nil|]. }
  rw fmap_app in Hd. apply NoDup_app in Hd as (Hd & Hn & _).
  destruct (IH Hd) as (_ & Hin & Hout). split_and!.
  - rw fmap_app. apply NoDup_app. split_and!; [done|done|apply NoDup_singleton].
  - intros k v [Hk|Hk]%elem_of_app; rw foldl_app; cbn.
    + rw lookup_insert_ne; [by apply Hin|]. intros ->. apply (Hn k); [|set_solver].
      apply list_elem_of_fmap. by exists (k, v).
    + apply list_elem_of_singleton in Hk as [= -> ->]. by rw lookup_insert_eq.
  - intros k Hk. rw fmap_app in Hk. rw foldl_app. cbn. rw lookup_insert_ne; [apply Hout|]; set_solver.
Qed.

(** The defaults of a node: no setting is given two values, those that are given are as
    listed, and all others are the defaults of the SDK, of wasmd and of CometBFT. *)
Theorem config_overrides :
  overrides server_settings (Config initAppConfig.2) DefaultConfig ∧
  overrides wasm_settings (WasmConfig initAppConfig.2) DefaultNodeConfig ∧
  overrides tendermint_settings initTendermintConfig tmcfg_DefaultConfig.
Proof.
  split_and!; apply apply_settings_overrides; eapply bool_decide_unpack; by vm_compute.
Qed.
End config.
