(* ===== verification/AppWitnesses.v ===== *)
(** The theorems on the application (ante handlers, fee rules, genesis, wasm extension,
    commands) applied to concrete instances of the libraries they are stated over. *)
From S2P Require Import Prelude.
From S2P Require Import Interfaces.
From S2P Require Import TfTypes.
From S2P Require Import TfKeeper.
From S2P Require Import TfMsgServer.
From S2P Require Import Instances.
From S2P Require Import Ante.
From S2P Require Import WasmExt.
From S2P Require Import App.
From S2P Require Import Cli.
From S2P Require Import Cmd.

(** * Ante handlers *)

(** A context holds whether it checks, a priority, and the names of the decorators that
    ran. Keepers are names. *)
Record demo_ctx := { dc_check : bool; dc_priority : Z; dc_ran : list string }.

Abbreviation demo_dec := (decorator (C:=demo_ctx) (AKT:=string) (BKT:=string) (FGT:=string)
  (SMH:=string) (EOC:=string) (SGC:=string) (IBK:=string) (OPK:=string) (WK:=string)
  (WC:=string) (TXS:=string)).

Definition demo_ran (d : demo_dec) : string :=
  match d with
  | DeductFeeDecorator _ _ _ _ => "deduct"
  | IncrementSequenceDecorator _ => "sequence"
  | SigVerificationDecorator _ _ => "verify"
  | _ => "other"
  end.

#[export] Instance demo_ante : AnteLib := {|
  DefaultSigVerificationGasConsumer := "default consumer";
  lib_AnteHandle := λ d tx simulate next ctx,
    next tx simulate {| dc_check := dc_check ctx; dc_priority := dc_priority ctx;
                        dc_ran := dc_ran ctx ++ [demo_ran d] |};
  WithPriority := λ p ctx, {| dc_check := dc_check ctx; dc_priority := p; dc_ran := dc_ran ctx |}
|}.

#[export] Instance demo_modes : CheckModes (C:=demo_ctx) :=
  {| IsCheckTx := dc_check; IsReCheckTx := λ _, false |}.

#[export] Instance demo_fees : OpChildFees (C:=demo_ctx) := {|
  FeeWhitelist := λ _, Ok ["init1alice"];
  CheckTxFeeWithMinGasPrices := λ _ ctx, (Err (Errorf "insufficient fees" []), ctx)
|}.

Abbreviation demo_opts := (HandlerOptions (C:=demo_ctx) (AKT:=string) (BKT:=string) (FGT:=string)
  (SMH:=string) (EOC:=string) (SGC:=string) (IBK:=string) (OPK:=string) (WK:=string)
  (WC:=string) (TXS:=string)).

Definition demo_options : demo_opts := {|
  opt_AccountKeeper := Some "account"; opt_BankKeeper := Some "bank"; opt_FeegrantKeeper := None;
  opt_SignModeHandler := Some "sign"; opt_ExtensionOptionChecker := None; opt_SigGasConsumer := None;
  opt_TxFeeChecker := Some feeCheckerWrapper; opt_IBCkeeper := Some "ibc";
  opt_OPChildKeeper := Some "opchild"; opt_WasmKeeper := Some "wasm"; opt_WasmConfig := Some "config";
  opt_TXCounterStoreService := Some "counter"
|}.

Definition alice_tx : Tx :=
  {| tx_FeeTx := Some {| FeePayer := "alice"; FeeGranter := None; GetFee := [Coin "umin" 7] |};
     GetMsgs := [MsgOther "send"] |}.

Definition check_ctx : demo_ctx := {| dc_check := true; dc_priority := 0; dc_ran := [] |}.

Lemma full_chain_order_witness :
  ∃ full : list demo_dec, NewAnteHandler demo_options = Ok full ∧
    ∃ l0 rest, full = SetUpContextDecorator :: l0 ++ rest.
Proof.
  eexists. split; [reflexivity|].
  destruct (full_chain_order demo_options _ eq_refl) as (ak & bk & fg & c & smh & sgc & l0 & l1 & l2 & Hf & _).
  exists l0. eexists. exact Hf.
Defined.

Lemma dual_handler_witness :
  ∃ full dual, setup_handlers demo_options = Ok (full, dual) ∧
    dual alice_tx false check_ctx =
      (Ok (), {| dc_check := true; dc_priority := 1; dc_ran := replicate 12 "other" ++ ["verify"; "other"; "other"] |}).
Proof.
  eexists _, _. split; [reflexivity|].
  destruct (dual_handler demo_options _ _ eq_refl) as (ds & Hds & _ & _ & Hdual).
  etransitivity; [exact (Hdual alice_tx false check_ctx)|]. injection Hds as <-. vm_compute. reflexivity.
Defined.

Lemma feeCheckerWrapper_spec_witness :
  ∃ feeTx, tx_FeeTx alice_tx = Some feeTx ∧
    feeCheckerWrapper alice_tx check_ctx = (Ok (GetFee feeTx, 1), check_ctx).
Proof.
  apply (proj1 (feeCheckerWrapper_spec alice_tx check_ctx)).
  eexists _, _, _. split; [reflexivity|]. split; [reflexivity|]. split; [reflexivity|].
  left. split; [reflexivity|]. left. refine (bool_decide_unpack _ _). by vm_compute.
Defined.

(** * Wasm extension *)

#[export] Instance demo_code : WasmCode demo_world demo_gas := {|
  MaxProposalWasmSize := 100;
  WasmAccessConfig_ValidateBasic := λ _, None;
  GovPermission_Create := λ creator code _ e, (Ok (1, creator), e)
|}.

Definition demo_store_msg : MsgStoreCodeAdmin := {|
  MsgStoreCodeAdmin_Creator := "init1alice"; MsgStoreCodeAdmin_WASMByteCode := "wasm";
  MsgStoreCodeAdmin_InstantiatePermission := None; MsgStoreCodeAdmin_Authority := "init1gov" |}.

Definition demo_env0 : demo_env :=
  Env {| dw_balance := λ _ _, 0; dw_supply := λ _, 0; dw_metadata := λ _, None; dw_disabled := ∅ |}
    {| dg_limit := 1000; dg_consumed := 0 |} [].

Lemma StoreCodeAdmin_spec_witness :
  StoreCodeAdmin "init1gov" demo_store_msg demo_env0 = (Ok (1, "alice"), demo_env0).
Proof.
  refine (proj1 (StoreCodeAdmin_spec "init1gov" demo_store_msg demo_env0) "alice" _ eq_refl).
  split; [reflexivity|]. split; [split; vm_compute; congruence|]. intros p Hp. discriminate Hp.
Defined.

(** * Default genesis *)

(** Values that can be counted, written in binary: a codec with a round trip. *)
Fixpoint pos_text (p : positive) : string :=
  match p with
  | xH => ""
  | xO p => String "0" (pos_text p)
  | xI p => String "1" (pos_text p)
  end.

Fixpoint text_pos (s : string) : option positive :=
  match s with
  | EmptyString => Some xH
  | String "0" s => xO <$> text_pos s
  | String "1" s => xI <$> text_pos s
  | _ => None
  end.

Lemma text_pos_text p : text_pos (pos_text p) = Some p.
Proof. induction p as [p IH|p IH|]; cbn; [by rw IH|by rw IH|done]. Qed.

Definition to_text `{Countable A} (a : A) : string := pos_text (encode a).
Definition of_text `{Countable A} (s : string) : option A := text_pos s ≫= decode.

Lemma of_to_text `{Countable A} (a : A) : of_text (to_text a) = Some a.
Proof. unfold of_text, to_text. rw text_pos_text. cbn. apply decode_encode. Qed.

Abbreviation demo_market := (Market (CP:=string)).
Abbreviation demo_cpg := (CurrencyPairGenesis (CP:=string)).
Abbreviation demo_oracle := (OracleGenesis (OR:=unit) (CP:=string)).
Abbreviation demo_marketmap := (MarketMapGenesis (MR:=unit) (MM:=list string)).
Abbreviation demo_opchild := (OpChildGenesis (PR:=unit)).
Abbreviation demo_ica := (ICAGenesis (IR:=unit)).
Abbreviation demo_ibc := (IBCGenesis (CR:=unit)).

#[export] Instance cpg_eq_dec : EqDecision demo_cpg.
Proof. solve_decision. Defined.
#[export] Instance cpg_countable : Countable demo_cpg.
Proof.
  refine (inj_countable' (λ c, (cpg_CurrencyPair c, cpg_CurrencyPairPrice c, cpg_Nonce c, cpg_Id c))
    (λ '(a, b, c, d), {| cpg_CurrencyPair := a; cpg_CurrencyPairPrice := b; cpg_Nonce := c; cpg_Id := d |}) _).
  by intros [].
Defined.
#[export] Instance oracle_eq_dec : EqDecision demo_oracle.
Proof. solve_decision. Defined.
#[export] Instance oracle_countable : Countable demo_oracle.
Proof.
  refine (inj_countable' (λ g, (og_CurrencyPairGenesis g, og_NextId g))
    (λ '(a, b), {| og_CurrencyPairGenesis := a; og_NextId := b; og_rest := () |}) _).
  by intros [? ? []].
Defined.
#[export] Instance marketmap_eq_dec : EqDecision demo_marketmap.
Proof. solve_decision. Defined.
#[export] Instance marketmap_countable : Countable demo_marketmap.
Proof.
  refine (inj_countable' (λ g, (mg_MarketMap g, mg_MarketAuthorities g, mg_Admin g))
    (λ '(a, b, c), {| mg_MarketMap := a; mg_MarketAuthorities := b; mg_Admin := c; mg_rest := () |}) _).
  by intros [? ? ? []].
Defined.
#[export] Instance opchild_eq_dec : EqDecision demo_opchild.
Proof. solve_decision. Defined.
#[export] Instance opchild_countable : Countable demo_opchild.
Proof.
  refine (inj_countable' (λ g, (pg_MinGasPrices g, pg_HookMaxGas g))
    (λ '(a, b), {| pg_MinGasPrices := a; pg_HookMaxGas := b; pg_rest := () |}) _).
  by intros [? ? []].
Defined.
#[export] Instance ica_eq_dec : EqDecision demo_ica.
Proof. solve_decision. Defined.
#[export] Instance ica_countable : Countable demo_ica.
Proof.
  refine (inj_countable' (λ g, (ig_ControllerEnabled g, ig_HostEnabled g, ig_AllowMessages g))
    (λ '(a, b, c), {| ig_ControllerEnabled := a; ig_HostEnabled := b; ig_AllowMessages := c; ig_rest := () |}) _).
  by intros [? ? ? []].
Defined.
#[export] Instance ibc_eq_dec : EqDecision demo_ibc.
Proof. solve_decision. Defined.
#[export] Instance ibc_countable : Countable demo_ibc.
Proof.
  refine (inj_countable' bg_AllowedClients (λ a, {| bg_AllowedClients := a; bg_rest := () |}) _).
  by intros [? []].
Defined.

Definition demo_ibc0 : demo_ibc :=
  {| bg_AllowedClients := ["07-tendermint"; Localhost]; bg_rest := () |}.

#[export] Instance demo_genesis_lib : GenesisLib (OR:=unit) (MR:=unit) (PR:=unit) (IR:=unit) (CR:=unit)
    (CP:=string) (MM:=list string) := {|
  default_genesis := list_to_map
    [(oracle_ModuleName, to_text ({| og_CurrencyPairGenesis := []; og_NextId := 0; og_rest := () |} : demo_oracle));
     (marketmap_ModuleName, to_text ({| mg_MarketMap := []; mg_MarketAuthorities := []; mg_Admin := "";
                                        mg_rest := () |} : demo_marketmap));
     (opchild_ModuleName, to_text ({| pg_MinGasPrices := []; pg_HookMaxGas := 1; pg_rest := () |} : demo_opchild));
     (ica_ModuleName, to_text ({| ig_ControllerEnabled := true; ig_HostEnabled := true; ig_AllowMessages := ["*"];
                                  ig_rest := () |} : demo_ica));
     (ibc_ModuleName, to_text demo_ibc0)];
  unmarshal_oracle := of_text; marshal_oracle := to_text;
  unmarshal_marketmap := of_text; marshal_marketmap := to_text;
  unmarshal_opchild := of_text; marshal_opchild := to_text;
  unmarshal_ica := of_text; marshal_ica := to_text;
  unmarshal_ibc := of_text; marshal_ibc := to_text;
  genesis_markets := Ok [{| Ticker_CurrencyPair := "BTC/USD" |}; {| Ticker_CurrencyPair := "ETH/USD" |}];
  ToMarketMap := λ ms, Ticker_CurrencyPair <$> ms;
  ReservedCPTimestamp := Ok "TIMESTAMP/NANOSECOND"
|}.

#[export] Instance demo_genesis_laws : GenesisLibLaws.
Proof. split; intros g; apply of_to_text. Qed.

Lemma NewDefaultGenesisState_spec_witness :
  ∃ g og, NewDefaultGenesisState = Ok g ∧
    unmarshal_oracle (default "" (g !! oracle_ModuleName)) = Some og ∧
    cpg_CurrencyPair <$> og_CurrencyPairGenesis og = ["TIMESTAMP/NANOSECOND"; "BTC/USD"; "ETH/USD"] ∧
    cpg_Id <$> og_CurrencyPairGenesis og = [0; 1; 2] ∧ og_NextId og = 3.
Proof.
  assert (Hok : is_ok NewDefaultGenesisState = true) by (vm_compute; reflexivity).
  destruct NewDefaultGenesisState as [g| |] eqn:Hg; [clear Hok|discriminate Hok|discriminate Hok].
  destruct (NewDefaultGenesisState_spec g Hg) as (_ & _ & _ & (ms & cp & og & Hm & Hcp & Ho & H1 & H2 & H3) & _).
  injection Hm as <-. injection Hcp as <-.
  exists g, og. split; [reflexivity|]. split; [exact Ho|]. split; [exact H1|]. split; [exact H2|exact H3].
Defined.

(** * Commands of the token factory *)

(** The client's state is the list of messages it has broadcast. *)
#[export] Instance demo_cli : CliLib (S:=list tf_msg) (CC:=string) := {|
  ExactArgs := λ n args, if decide (length args = n) then None else Some (Errorf "accepts arg(s)" []);
  RangeArgs := λ min max args,
    if decide (min <= length args <= max)%nat then None else Some (Errorf "accepts between" []);
  GetClientTxContext := Ok "alice";
  GetFromAddress := λ cc, cc;
  ParseCoinNormalized := λ t, Ok (Coin t 5);
  GenerateOrBroadcastTxCLI := λ _ m sent, (Ok (), sent ++ [m])
|}.

#[export] Instance demo_cli_laws : CliLibLaws (S:=list tf_msg) (CC:=string).
Proof. split; intros; cbn; by case_decide. Qed.

(** A mint without address is broadcast with an empty one; a name that is no denom is not. *)
Lemma cli_broadcasts_valid_witness :
  outcome NewMintCmd ["factory/init1alice/gold"] [] (RunE NewMintCmd ["factory/init1alice/gold"] []) ∧
  RunE NewMintCmd ["factory/init1alice/gold"] [] =
    (Ok (), [Mint {| MsgMint_Sender := "init1alice"; MsgMint_Amount := Coin "factory/init1alice/gold" 5;
                     MsgMint_MintToAddress := "" |}]) ∧
  outcome NewMintCmd ["a b"] [] (RunE NewMintCmd ["a b"] []) ∧ (RunE NewMintCmd ["a b"] []).2 = [].
Proof.
  assert (NewMintCmd ∈ GetTxCmd) as Hin by (apply list_elem_of_In; cbn; right; left; reflexivity).
  split; [apply (cli_broadcasts_valid NewMintCmd _ _ Hin); reflexivity|].
  split; [vm_compute; reflexivity|].
  split; [apply (cli_broadcasts_valid NewMintCmd _ _ Hin); reflexivity|vm_compute; reflexivity].
Defined.

(** * Launching and initialising a node *)

(** A chain that numbers codes and contracts. *)
Record demo_wasm := {
  dwm_codes : gmap Z bytes;
  dwm_contracts : gmap string (Z * string * bytes);
  dwm_next : Z;
  dwm_instances : Z
}.

Definition demo_addr (code instance : Z) : string := pretty code +:+ "." +:+ pretty instance.

Definition demo_broadcast (a mn : string) (gas : Z) (fee : coins) (m : launch_msg) : M demo_wasm string := λ s,
  match m with
  | LaunchStoreCode _ code _ =>
      (Ok "hash", {| dwm_codes := <[dwm_next s := code]> (dwm_codes s); dwm_contracts := dwm_contracts s;
                     dwm_next := dwm_next s + 1; dwm_instances := dwm_instances s |})
  | LaunchInstantiate _ admin id _ msg _ =>
      match dwm_codes s !! id with
      | None => (Err (Errorf "code not found" []), s)
      | Some _ =>
          (Ok "hash", {| dwm_codes := dwm_codes s;
                         dwm_contracts := <[demo_addr id (dwm_instances s) := (id, admin, msg)]> (dwm_contracts s);
                         dwm_next := dwm_next s; dwm_instances := dwm_instances s + 1 |})
      end
  end.

#[export] Instance demo_launch : LaunchLib (S:=demo_wasm) := {|
  contrib_ReadFile := λ f, Ok ("code of " +:+ f);
  BroadcastTxAndWait := demo_broadcast;
  BuildContractAddressClassic := demo_addr
|}.

#[export] Instance demo_wasm_chain : WasmChain (S:=demo_wasm) := {|
  codes := dwm_codes; contracts := dwm_contracts; next_code := dwm_next; next_instance := dwm_instances |}.

#[export] Instance demo_wasm_laws : WasmChainLaws.
Proof.
  split.
  - intros a mn gas fee sender code perm s h s1 [= <- <-]. done.
  - intros a mn gas fee sender admin id label msg funds s h s1. cbn. unfold demo_broadcast.
    destruct (dwm_codes s !! id); [|done]. intros [= <- <-]. by split_and!.
Qed.

Definition demo_validator : SystemKey := {| L2Address := "init1val"; Mnemonic := "words" |}.

Definition demo_chain0 : demo_wasm :=
  {| dwm_codes := ∅; dwm_contracts := ∅; dwm_next := 1; dwm_instances := 1 |}.

Lemma launch_contracts_spec_witness :
  ∃ s1 addr, StoreAndInstantiateNFTContracts demo_validator demo_chain0 = (Ok (), s1) ∧
    nft_channel.1.1 = "wasm." +:+ addr ∧
    contracts s1 !! addr = Some (2, "init1val", ics721_msg).
Proof.
  assert (Hrun : is_ok (StoreAndInstantiateNFTContracts demo_validator demo_chain0).1 = true)
    by (vm_compute; reflexivity).
  destruct (StoreAndInstantiateNFTContracts demo_validator demo_chain0) as [[[]| |] s1] eqn:Hs;
    [clear Hrun|discriminate Hrun|discriminate Hrun].
  destruct (launch_contracts_spec (LL:=demo_launch) demo_validator "code of wasm/cw721_metadata_onchain.wasm"
    "code of wasm/ics721_base.wasm" demo_chain0 eq_refl eq_refl) as [Hok _].
  destruct (Hok s1 eq_refl eq_refl Hs) as (_ & _ & addr & Ha & Hc).
  exists s1, addr. split; [reflexivity|]. split; [exact Ha|exact Hc].
Defined.

(** The files of a node: the genesis, if there is one, and whether the keys are there.
    Flags are the overwrite flag. *)
Abbreviation demo_genfile := (AppGenesis (AR:=unit)).
Record demo_node := { dn_genesis : option demo_genfile; dn_keys : bool }.

#[export] Instance demo_init : InitLib (S:=demo_node) (FL:=bool) (CR:=unit) (AR:=unit) := {|
  Flag_defined := λ _ f, bool_decide (f ∈ init_flags);
  GetString := λ _ f, (if decide (f = FlagChainID) then "minitia-1" else "umin", None);
  GetBool := λ overwrite f, (if decide (f = FlagOverwrite) then overwrite else false, None);
  GetInt64 := λ _ f, (0, Some (Errorf "flag accessed but not defined: %s" [f]));
  rand_Str := λ _, ret "abcdef";
  read_mnemonic := ret "";
  IsMnemonicValid := λ _, false;
  InitializeNodeValidatorFilesFromMnemonic := λ _ _ s,
    (Ok "node", {| dn_genesis := dn_genesis s; dn_keys := true |});
  GenesisFile := λ c, cfg_RootDir c +:+ "/config/genesis.json";
  FileExists := λ _ s, bool_decide (is_Some (dn_genesis s));
  Stat := λ _ s, match dn_genesis s with Some _ => Stat_ok | None => Stat_not_exist end;
  AppGenesisFromFile := λ _ s,
    (match dn_genesis s with Some g => Ok g | None => Err (Errorf "no file" []) end, s);
  ExportGenesisFile := λ g _ s, (Ok (), {| dn_genesis := Some g; dn_keys := dn_keys s |});
  WriteConfigFile := λ _ _, ret ();
  MarshalIndent_state := λ _, Ok "state";
  MarshalIndent_info := λ _, Ok "info";
  Fprintf_stderr := λ _, ret ();
  filepath_Join := join "/";
  version_AppName := "minitia";
  version_Version := "v1";
  empty_AppGenesis := {| ag_AppName := ""; ag_AppVersion := ""; ag_ChainID := ""; ag_AppState := "";
                         ag_InitialHeight := 0; ag_Consensus := None; ag_rest := () |}
|}.

#[export] Instance demo_init_laws : InitLibLaws.
Proof. done. Qed.

Definition demo_config : CometConfig (CR:=unit) :=
  {| cfg_RootDir := ""; cfg_Moniker := ""; RPC_ListenAddress := ""; RPC_CORSAllowedOrigins := [];
     cfg_rest := () |}.

Definition node0 : demo_node := {| dn_genesis := None; dn_keys := false |}.

Definition node1 : demo_node :=
  {| dn_genesis := Some {| ag_AppName := "minitia"; ag_AppVersion := "v1"; ag_ChainID := "minitia-1";
                           ag_AppState := "state"; ag_InitialHeight := 1; ag_Consensus := Some [];
                           ag_rest := () |};
     dn_keys := true |}.

Definition demo_default (denom : string) : res (gmap string string) := Ok ∅.

(** A first init writes the genesis, a second one without --overwrite leaves it. *)
Lemma InitCmd_spec_witness :
  InitCmd_RunE demo_default "/home" demo_config false "moniker" node0 = (Ok (), node1) ∧
  init_done demo_default "/home" demo_config false "moniker" node0 node1 ∧
  ∃ e, InitCmd_RunE demo_default "/home" demo_config false "again" node1 = (Err e, node1).
Proof.
  assert (H1 : InitCmd_RunE demo_default "/home" demo_config false "moniker" node0 = (Ok (), node1))
    by (vm_compute; reflexivity).
  split; [exact H1|].
  split; [exact (proj1 (InitCmd_spec demo_default "/home" demo_config false "moniker" node0) node1 H1)|].
  apply (proj1 (proj2 (InitCmd_spec demo_default "/home" demo_config false "again" node1))
    "minitia-1" node1 "umin" "" node1 "node" node1); vm_compute; reflexivity.
Defined.
