(* ===== verification/ModuleWitnesses.v ===== *)
(** The theorems on the module (genesis as text, restart, queries over HTTP, liveness) applied on the chain of
    [Witnesses]. *)
From S2P Require Import Prelude.
From S2P Require Import Interfaces.
From S2P Require Import TfTypes.
From S2P Require Import TfKeeper.
From S2P Require Import Bank.
From S2P Require Import TfMsgServer.
From S2P Require Import TfInvariants.
From S2P Require Import TfGenesis.
From S2P Require Import Wiring.
From S2P Require Import Chain.
From S2P Require Import Modules.
From S2P Require Import Registry.
From S2P Require Import Restart.
From S2P Require Import Gateway.
From S2P Require Import Liveness.
From S2P Require Import Instances.
From S2P Require Import Witnesses.
From S2P Require Import GoJson.
From S2P Require Import Wire.
From S2P Require Import GogoRuntime.
From S2P Require Import GogoWire.
From S2P Require Import GogoState.
From S2P Require Import GogoQuery.
From S2P Require Import GogoService.
From S2P Require Import Rest.
From S2P Require Import GogoWitnesses.

#[local] Instance demo_contract_m : ContractKeeper demo_world demo_gas := demo_contracts 2.
#[local] Instance demo_pool_m : CommunityPoolKeeper demo_world demo_gas :=
  app_CommunityPoolKeeper "fee_collector".

(** * A codec *)

(** A genesis as nested pairs, which can be numbered, and numbers as strings of bits. *)
Definition flat_genesis (g : GenesisState) : list (string * Z) * Z * list (string * string) :=
  ((λ c, (coin_Denom c, coin_Amount c)) <$> DenomCreationFee (gs_Params g),
   DenomCreationGasConsume (gs_Params g),
   (λ x, (gd_Denom x, Admin (gd_AuthorityMetadata x))) <$> gs_FactoryDenoms g).

Definition unflat_genesis (t : list (string * Z) * Z * list (string * string)) : GenesisState :=
  {| gs_Params := {| DenomCreationFee := (λ p, Coin p.1 p.2) <$> t.1.1; DenomCreationGasConsume := t.1.2 |};
     gs_FactoryDenoms := (λ p, {| gd_Denom := p.1; gd_AuthorityMetadata := {| Admin := p.2 |} |}) <$> t.2 |}.

Lemma unflat_flat g : unflat_genesis (flat_genesis g) = g.
Proof.
  destruct g as [[fee gas] ds]. unfold unflat_genesis, flat_genesis. cbn. rw -!list_fmap_compose.
  f_equal; [f_equal|]; rw -[RHS]list_fmap_id; apply list_fmap_ext; intros i x _; cbn; [by destruct x|].
  by destruct x as [? []].
Qed.

Fixpoint bits (p : positive) : string :=
  match p with xH => "" | xO p => String "0" (bits p) | xI p => String "1" (bits p) end.

Fixpoint number (s : string) : option positive :=
  match s with
  | EmptyString => Some xH
  | String "0" s => xO <$> number s
  | String "1" s => xI <$> number s
  | _ => None
  end.

Lemma number_bits p : number (bits p) = Some p.
Proof. induction p as [p IH|p IH|]; cbn; [by rw IH..|done]. Qed.

(** What is not a genesis that Go can hold is refused. *)
#[local] Instance demo_json : JSONCodec := {|
  MarshalJSON := λ g, Ok (bits (encode (flat_genesis g)));
  UnmarshalJSON := λ s, match number s ≫= decode with
                        | Some t => if decide (go_genesis (unflat_genesis t)) then Ok (unflat_genesis t)
                                    else Err (Errorf "out of range" [])
                        | None => Err (Errorf "not a genesis" [])
                        end
|}.

Lemma demo_json_written g : go_genesis g → UnmarshalJSON (bits (encode (flat_genesis g))) = Ok g.
Proof. intros Hg. cbn. rw number_bits. cbn. rw decode_encode unflat_flat. by rw decide_True. Qed.

#[local] Instance demo_json_laws : JSONCodecLaws demo_json.
Proof.
  split.
  - intros g Hg. eexists. split; [done|]. by apply demo_json_written.
  - intros bz g. cbn. destruct (number bz ≫= decode); [|done]. case_decide; [|done]. by intros [= <-].
Qed.

Definition demo_text : string := bits (encode (flat_genesis demo_genesis)).

Lemma demo_text_read : UnmarshalJSON demo_text = Ok demo_genesis.
Proof. apply demo_json_written. eapply bool_decide_unpack. by vm_compute. Qed.

Lemma import_genesis_witness :
  ∃ s1 bz1 g1, TokenFactory.AppModule_InitGenesis demo_text demo_state0 = (Ok [], s1) ∧
    TokenFactory.AppModule_ExportGenesis s1 = (Ok bz1, s1) ∧ UnmarshalJSON bz1 = Ok g1 ∧
    gs_FactoryDenoms g1 ≡ₚ gs_FactoryDenoms demo_genesis.
Proof.
  destruct (TokenFactory.import_genesis demo_text demo_genesis demo_state0 (ext demo_state0)
    (Some "tokenfactory")) as (s1 & bz1 & g1 & H1 & _ & _ & _ & _ & H2 & H3 & _ & H4).
  - apply demo_text_read.
  - unfold TokenFactory.AppModuleBasic_ValidateGenesis. rw demo_text_read. vm_compute. reflexivity.
  - reflexivity.
  - reflexivity.
  - exists s1, bz1, g1. split; [exact H1|]. split; [exact H2|]. split; [exact H3|exact H4].
Defined.

Lemma demo_hook3 : DenomHookAddr (tf demo_state3) !! gold = Some "init1hook".
Proof. vm_compute. reflexivity. Qed.

Lemma demo_params3 p : ParamsItem (tf demo_state3) = Some p → p = gs_Params demo_genesis.
Proof.
  assert (ParamsItem (tf demo_state3) = Some (gs_Params demo_genesis)) as -> by (vm_compute; reflexivity).
  by intros [= <-].
Qed.

Lemma demo_go_store3 : go_store (tf demo_state3).
Proof.
  split.
  - intros p ->%demo_params3. eapply bool_decide_unpack. by vm_compute.
  - eapply bool_decide_unpack. by vm_compute.
Qed.

(** The hook on gold is lost in a restart. *)
Lemma restart_witness :
  DenomHookAddr (tf demo_state3) !! gold = Some "init1hook" ∧
  ∃ bz s4, TokenFactory.AppModule_ExportGenesis demo_state3 = (Ok bz, demo_state3) ∧
    TokenFactory.AppModule_InitGenesis bz demo_state0 = (Ok [], s4) ∧
    DenomAuthority (tf s4) = DenomAuthority (tf demo_state3) ∧ DenomHookAddr (tf s4) = ∅.
Proof.
  split; [apply demo_hook3|].
  destruct (restart "init1gov" "fee_collector" "tokenfactory" demo_contracts 2 demo_genesis demo_state0
    demo_state1 demo_state3 demo_state0 (ext demo_state0) (Some "tokenfactory"))
    as (bz & s4 & H1 & _ & H2 & _ & H3 & _ & H4 & _).
  - reflexivity.
  - apply demo_levels.
  - reflexivity.
  - vm_compute. reflexivity.
  - apply demo_genesis_run.
  - by apply demo_history.
  - apply demo_go_store3.
  - reflexivity.
  - reflexivity.
  - exists bz, s4. split; [exact H1|]. split; [exact H2|]. split; [exact H3|exact H4].
Defined.

(** * Gateway *)

#[local] Instance demo_gateway : GatewayLib :=
  {| runtime_String := λ v, Ok v; Match := run_pattern |}.

#[local] Instance demo_gateway_laws : GatewayLibLaws demo_gateway.
Proof. done. Qed.

#[local] Instance demo_mux : ServeMux demo_state := λ hs method path,
  match path with String "/" path => serve hs method (split_on "/" path) | _ => None end.

#[local] Instance demo_mux_laws : ServeMuxLaws demo_state demo_gateway demo_mux.
Proof. done. Qed.

(** * Liveness *)

(** Alice can free gold of its hook and hand it to bob, who can then renounce it. *)
Lemma admin_never_stuck_witness :
  let can := can_hand_over "init1gov" "fee_collector" demo_contracts 2 gold in
  ∃ s3 s4, can alice "init1bob" demo_state3 s3 ∧ can "init1bob" "" s3 s4 ∧
    DenomHookAddr (tf s3) !! gold = None ∧ supply_is gold "init1bob" 50 s3.
Proof.
  intros can.
  destruct (admin_never_stuck "init1gov" "fee_collector" demo_contracts 2 demo_genesis demo_state0
    demo_state1 demo_state3 gold alice "init1bob") as (s3 & H1 & H2 & H3 & _ & H4).
  - apply demo_levels.
  - reflexivity.
  - vm_compute. reflexivity.
  - apply demo_genesis_run.
  - by apply demo_history.
  - vm_compute. reflexivity.
  - discriminate.
  - right. by eexists.
  - destruct (H4 ltac:(done) s3 "" (rtc_refl _ s3) (proj2 (proj1 H3)) (or_introl eq_refl)) as (s4 & H5).
    exists s3, s4. split; [exact H1|]. split; [exact H5|]. split; [exact H2|].
    replace 50 with (Supply gold (world (ext demo_state3))) by (vm_compute; reflexivity). exact H3.
Defined.

(** * A query over HTTP *)

(** On the chain of [Witnesses], through all the layers of [Rest]. *)
#[local] Existing Instances demo_gateway demo_gateway_laws demo_mux demo_mux_laws demo_gogo
  demo_gogo_laws demo_grpc demo_grpc_laws.

Lemma gold_authority : DenomAuthority (tf demo_state3) !! gold = Some {| Admin := alice |}.
Proof. by vm_compute. Qed.

(** The hook of gold, asked for over HTTP with its name escaped twice. *)
Lemma denoms_over_rest_witness :
  QueryEscape (QueryEscape gold) = "factory%252Finit1alice%252Fgold" ∧
  ∃ m, get_url (AppModuleBasic_RegisterGRPCGatewayRoutes node)
      (base +:+ "denoms" +:+ "/" +:+ QueryEscape (QueryEscape gold) +:+ "/" +:+ "before_send_hook") = Some m ∧
    m demo_state3 = (Ok (Forward (Gateway.QueryBeforeSendHookAddressResponse "init1hook")), demo_state3).
Proof.
  split; [vm_compute; reflexivity|].
  destruct (denoms_over_rest gold demo_state3) as (_ & (m & H1 & H2) & _).
  - unfold fits_message. vm_compute. reflexivity.
  - unfold fits_message. vm_compute. reflexivity.
  - rw gold_authority. intros m [= <-]. unfold fits_message. vm_compute. reflexivity.
  - rw demo_hook3. unfold fits_message. vm_compute. reflexivity.
  - exists m. split; [exact H1|]. rw H2 demo_hook3. reflexivity.
Defined.
