(* ===== verification/AssemblyWitnesses.v ===== *)
(** The theorems on the construction of the application, on its methods and on the root
    command, applied to libraries whose calls succeed. *)
From S2P Require Import Prelude.
From S2P Require Import Interfaces.
From S2P Require Import TfKeeper.
From S2P Require Import TfMsgServer.
From S2P Require Import Instances.
From S2P Require Import Wiring.
From S2P Require Import Ante.
From S2P Require Import App.
From S2P Require Import Keepers.
From S2P Require Import Assembly.
From S2P Require Import AppMethods.
From S2P Require Import Root.
From S2P Require Import AppWitnesses.

#[local] Instance demo_keeper_lib : KeeperLib := {|
  RegisterStreamingServices_err := None; SetIBCKeepers_err := None;
  NewModuleAddress := λ m, m; schema_Build := λ _, None;
  BuiltInCapabilities := ["iterator"; "staking"; "stargate"]
|}.

Definition demo_authority : string := "init1opchildtypes.ModuleName".

Lemma demo_starts : starts demo_authority "opchildtypes.ModuleName".
Proof. split; reflexivity. Qed.

#[local] Instance demo_constructors : IbcConstructors := known_constructors.
#[local] Instance demo_constructors_laws : IbcConstructorsLaws demo_constructors.
Proof. split; apply Forall_pairs; repeat constructor. Qed.


Lemma keepers_complete_witness :
  ∃ s, NewAppKeeper AppKeepers_zero = (Ok (), s) ∧ empty_cells s = [] ∧
    "ScopedICQKeeper" ∈ zero_fields s ∧
    ("forwardingkeeper.NewKeeper", 10%nat) ∈ nil_args (everything s).
Proof.
  destruct (keepers_complete demo_authority "opchildtypes.ModuleName")
    as (s & H1 & H2 & _ & H3 & H4 & _); [apply demo_starts|].
  exists s. split; [exact H1|]. split; [exact H2|]. split; [rw H3; apply list_elem_of_here|].
  apply (elem_of_list_to_set (C:=gset (string * nat))). rw H4. set_solver.
Defined.

#[local] Instance demo_contract_a : ContractKeeper demo_world demo_gas := demo_contracts 1.

Lemma bank_is_shared_witness :
  ∃ s p, NewAppKeeper AppKeepers_zero = (Ok (), s) ∧ field s "BankKeeper" = Ptr p ∧
    bank_of (W:=demo_world) (G:=demo_gas) s (Ptr p) = Some app_bank.
Proof.
  destruct (bank_is_shared (W:=demo_world) (G:=demo_gas) demo_authority "opchildtypes.ModuleName")
    as (s & p & tf & k & H1 & H2 & _ & H3 & _); [apply demo_starts|].
  exists s, p. split; [exact H1|]. split; [exact H2|exact H3].
Defined.

(** * The application *)

#[local] Instance demo_app_lib : AppLib := app_lib_of true true false.

#[local] Instance demo_ante_heap : AnteLib (C:=demo_ctx) (AKT:=val) (BKT:=val) (FGT:=val) (SMH:=val)
  (EOC:=val) (SGC:=val) (IBK:=val) (OPK:=val) (WK:=val) (WC:=val) (TXS:=val) := {|
  DefaultSigVerificationGasConsumer := Arg "default";
  lib_AnteHandle := λ d tx simulate next ctx, next tx simulate ctx;
  WithPriority := λ p ctx, ctx
|}.

Lemma demo_app_starts : app_starts true.
Proof. split; try reflexivity. exists "v1.3.0", 0. split; reflexivity. Qed.

Lemma app_assembled_witness :
  ∃ s, NewMinitiaApp (C:=demo_ctx) true AppKeepers_zero = (Ok (), s) ∧
    (∃ mp ph ct, handlers_wired true s mp ph ct) ∧
    ∀ p v, (p, v) ∈ module_copies s → heap s !! p = Some v.
Proof.
  destruct (app_assembled (C:=demo_ctx) demo_authority "opchildtypes.ModuleName" true true)
    as (s & H1 & H2 & _ & H3 & _); [apply demo_starts|apply demo_app_starts|].
  exists s. split; [exact H1|]. split; [exact H2|exact H3].
Defined.

(** * The root command *)

Abbreviation demo_client := (Context (KR:=string) (CL:=string) (TX:=bool) (R:=unit)).

Definition demo_client_ctx : demo_client := {|
  OutputFormat := ""; HomeDir := "/root/.minitia"; Simulation := false; KeyringDir := ""; ChainID := "";
  Keyring := None; NodeURI := ""; Client := None; TxConfig := false; ctx_rest := () |}.

#[local] Instance demo_client_lib : ClientLib (KR:=string) (CL:=string) (TX:=bool) (R:=unit) := {|
  NewKeyringFromBackend := λ c b, Ok ("keyring " +:+ b);
  NewClientFromNode := λ n, Ok n;
  ReadFromClientConfig := λ c, Ok c;
  ReadPersistentCommandFlags := λ c _, Ok c;
  WithAllowQueuedTxConfig := λ _ b, b;
  NewKeyring := λ c b, Ok (HomeDir c +:+ "/" +:+ b);
  Backend := λ kr, kr;
  SetCmdClientContext_err := None;
  InterceptConfigs_err := None;
  server_db_dir := Some "/data"
|}.

(** MINITIA_HOME and MINITIA_KEYRING_BACKEND are set, and --home was given. *)
Definition demo_viper : Viper := {|
  GetString := λ f, if decide (f = "flags.FlagHome") then "/env"
                    else if decide (f = "flags.FlagKeyringBackend") then "test" else "";
  GetBool := λ _, false |}.

Definition demo_process : process (KR:=string) (CL:=string) (TX:=bool) (R:=unit) := {|
  sealed := false; viper_home := None; cmd_context := None;
  flags := {| home_flag := "/flag"; home_Changed := true; allow_queued := Some (Ok true);
              keyring_Changed := Some true |};
  DBDir := "" |}.

Definition demo_env_ctx : demo_client :=
  WithKeyring "keyring test" (WithHomeDir "/env" demo_client_ctx).

Definition demo_run_ctx : demo_client := WithTxConfig true (WithHomeDir "/flag" demo_env_ctx).

(** The flag wins over the environment, and the keyring is made anew under it. *)
Lemma PreRun_ok_witness :
  ∃ p1, PersistentPreRunE demo_viper demo_client_ctx "start" demo_process = (Ok (), p1) ∧
    sealed p1 = true ∧ viper_home p1 = Some "/flag" ∧ DBDir p1 = "/data" ∧
    cmd_context p1 = Some (WithKeyring "/flag/keyring test" demo_run_ctx) ∧
    keyring_Changed (flags p1) ≠ Some true.
Proof.
  destruct (PreRun_ok demo_viper demo_client_ctx "start" demo_process demo_env_ctx
    (WithHomeDir "/flag" demo_env_ctx) (WithHomeDir "/flag" demo_env_ctx) demo_run_ctx
    "/flag/keyring test") as (p1 & H1 & H2 & H3 & H4 & H5 & H6); [vm_compute; reflexivity..| | | |].
  - intros old [= <-]. vm_compute. reflexivity.
  - reflexivity.
  - reflexivity.
  - exists p1. split; [exact H1|]. split; [exact H2|]. split; [exact H3|]. split; [exact H4|].
    split; [exact H5|exact H6].
Defined.
